(* ===== verification/_CoqProject ===== *)
-Q . S2P
Pactra.v
Prelude.v
Python.v
PyFloat.v
PyText.v
PyNumbers.v
Rounding.v
Json.v
Text.v
Enums.v
Errors.v
Provenance.v
Canonical.v
Firewall.v
Transaction.v
StateMachines.v
Merchant.v
Kernel.v
Policy.v
Payment.v
Database.v
Hashing.v
Evolution.v
Ledger.v
Binding.v
Authorization.v
AuthorizationTheorems.v
AuthorizationProperties.v
Outbox.v
Intents.v
IntentsProperties.v
Provider.v
Razorpay.v
RazorpayProperties.v
Executor.v
Reconciliation.v
Webhooks.v
WebhooksProperties.v
CreateOnce.v
ExecutorProperties.v
Worker.v
WorkerProperties.v
QueueProgress.v
RunWorker.v
Orchestrator.v
OrchestratorProperties.v
Replay.v
DecisionTrace.v
ReplayProperties.v
RiskModels.v
RiskHeuristic.v
RiskBounds.v
RiskFeatures.v
RiskEngine.v
Routes.v
RoutesProperties.v
RiskProperties.v
AdapterModels.v
Adapters.v
AdapterProperties.v
AttackLab.v
AttackLabProperties.v
AttackRunProperties.v
RiskEvaluation.v
RiskEvaluationProperties.v
AttackContext.v
RiskScenarios.v
RiskCorpusProperties.v
AttackTransaction.v
AttackTransactionProperties.v
AttackAuthority.v
AttackAuthorityProperties.v
AttackWebhook.v
AttackWebhookProperties.v
PaymentSystem.v
RazorpaySystem.v
