(* ===== verification/Pactra.v ===== *)
(** * PACTRA: a verification of its control plane

    PACTRA lets an agent shop for a user and pay.  This development models the part of
    it that decides whether money moves - policy, authority, binding, authorization,
    payment execution, audit and replay, and the HTTP surface over them - as it is
    written in Python under src/, and proves what makes it correct.

    ** How the program is put together, and which file models which part

    A request creates a mission.  The orchestrator queries merchants, whose answers
    are untrusted; the kernel ingests and normalizes them; the policy engine decides;
    BIND builds one transaction from the stored offer, and an authorization for it is
    issued.  The user signs it where policy requires.  A payment request consumes the
    authorization into one payment intent and one outbox event.  A worker claims the
    event and dispatches the create call behind a durable fence; timeouts, lost
    answers and crashes leave the payment uncertain, which reconciliation and signed
    webhooks resolve.  Every step appends to a hash-chained ledger, from which the
    mission can be verified and replayed.

    - Foundations.  [Prelude]: the state-and-exception monad [M], [evolves] (what a
      computation does to the state however it ends), Python's stable sort, the
      "grows" relations on lists and maps.  [Python]: datetimes as microseconds with
      an optional offset, isoformat, UUIDs, hexadecimal, repr, UTF-8, SHA-256
      (executable).  [PyText]: HMAC, substring search, [fromtimestamp].  [PyFloat],
      [PyNumbers]: IEEE doubles as SpecFloat, their shortest decimal form, fixed-point
      formatting, rounding, true division and the compensated [sum].  [Rounding]: what
      a rounded operation gives, as integers in units of the least subnormal.  [Json],
      [Text]: values, [json.dumps] in the two forms the program uses,
      and that each determines the value.  [Enums]: the packages/schemas enumerations
      with their string values.  [Errors]: the exceptions and the reason code of each.
    - Authority.  [Provenance]: packages/schemas/provenance.py, authority.py and
      policy_register.py.  [Firewall]: capability.py, capability_registry.py.
      [Canonical], [Transaction]: packages/schemas/canonical.py, transaction.py,
      approval.py.  [Merchant]: domain.py's requests, merchant_registry.py,
      transport.py.  [Kernel]: kernel.py, ingress.py.  [Policy]: normalization.py,
      ranking.py, engine.py.  [StateMachines]: the mission's and the payment's.
    - State.  [Database]: db/models.py rows as records, tables as maps and lists, the
      constraints the database checks on write, and the session: flush, savepoint,
      commit, rollback; [World] is the session's view, the durable state, the clock
      and identifiers handed out, and the log of calls to providers.  [Evolution]: the
      relations every operation is proved against ([sess_le] inside a transaction,
      [durable_le] across commits): rows only move along their machines, nothing
      approved or recorded is overwritten, the tables' invariants are kept.
    - Ledger.  [Hashing], [Ledger]: hashing.py, ledger.py, verify.py.  [Replay],
      [DecisionTrace], [ReplayProperties]: replay.py.
    - Authorization.  [Binding]: binding.py and approval.py.  [Authorization],
      [AuthorizationTheorems], [AuthorizationProperties]: the lifecycle in
      services/security_kernel/authorization.py.
    - Orchestration.  [Orchestrator], [OrchestratorProperties]: orchestrator.py, its
      one long method as the composition of its stages.
    - Payments.  [Payment]: schemas.  [Outbox]: outbox.py.  [Intents],
      [IntentsProperties]: intents.py.  [Provider]: providers/base.py, registry.py and
      the fake.  [Razorpay], [RazorpayProperties]: providers/razorpay.py.  [Executor],
      [Reconciliation], [Webhooks] and their Properties files: executor.py,
      reconciliation.py, webhooks.py.  [Worker], [WorkerProperties]: worker.py.
      [QueueProgress], [RunWorker]: the events that wait, as a measure every operation
      is proved against, and the process in run_worker.py.
    - Risk.  [RiskModels], [RiskHeuristic], [RiskFeatures], [RiskEngine]: the advisory
      engine in services/risk_engine - vocabulary and configuration, the table of rules
      and the score, the features read from the rows, the assessment.  [RiskBounds],
      [RiskProperties]: its arithmetic, and what an assessment may touch.
    - Adapters.  [AdapterModels], [Adapters], [AdapterProperties]: services/adapters -
      the refusals and reserved names, the registry, the MCP, commerce and
      authorization-intent adapters, and translate.py, which checks any of them.
    - Attack lab.  [AttackLab]: services/attack_lab - scenarios and results, the registry,
      the runner, the metrics, the findings and the report.  [AttackLabProperties],
      [AttackRunProperties]: what is counted, and what a run and a batch become.
      [AttackContext]: context.py and scenarios/_helpers.py, what a scripted attack acts
      through.  [AttackTransaction], [AttackAuthority], [AttackWebhook] and their
      Properties files: the attacks of scenarios/transaction.py, authority.py and
      webhook.py, and that the services refuse them.
    - Risk evaluation.  [RiskEvaluation], [RiskEvaluationProperties]: the harness in
      services/risk_engine/evaluation.py that scores labelled cases.  [RiskScenarios],
      [RiskCorpusProperties]: the seventeen cases of scenarios.py and what they score.
    - Surface.  [Routes], [RoutesProperties]: routes_missions.py, routes_payments.py,
      routes_risk.py, db/session.py.
    - [CreateOnce]: the abstract system - attempts that commit a create fence, their
      continuations, and steps that create nothing - and its invariant.
      [PaymentSystem]: sessions of every service, HTTP requests, worker turns and
      crashes interleaved, refined to it.  [RazorpaySystem]: the same system with the
      Razorpay adapter, down to the HTTP requests it sends.

    ** What the theorems show

    - Composition: of everything the processes can do, at most one create call is sent
      per idempotency key, and each is for a durable fenced intent
      (PaymentSystem), so no receipt is posted to Razorpay twice (RazorpaySystem); no HTTP request calls a provider, and what a caller is told of
      is durable (RoutesProperties); a mission run authorizes nothing but an
      acceptable offer within the user's limits (OrchestratorProperties).
    - Authority: provider calls only under the executor's grant and for a consumed,
      re-derived, proved authorization (ExecutorProperties); an authorization is
      consumed at most once, activated only with the proof its scheme requires, and
      its lifecycle runs one way (AuthorizationProperties); claims of a merchant
      change no policy and are recorded.
    - Payments: creation is all or nothing, reuse is for the same request, settled
      payments are final, uncertainty is never reported as failure, a webhook is
      applied once and never regresses a payment; a failed worker turn keeps its event,
      and the worker's loop outlives it: no event due is left unclaimed (RunWorker).
    - The Razorpay adapter: what it reports is backed by the provider's own order and
      captured payment, a search by receipt is exhaustive, a failed creation is terminal
      only on a definite refusal, and a webhook it vouches for was signed.
    - Risk: an assessment is a function of the declared features, adds one audit row and
      nothing else; each factor stays within its weight and grows with the evidence, the
      index stays in [0, 1], every operation rounded to binary64 (RiskBounds).
    - Adapters: whatever implementation is registered, a translation carries the server's
      identity and only tainted values within the sender's authority; the shipped ones let
      no security name or ambiguous key through, carry what was sent, expose nothing
      privileged, and refuse with a reason code but for the escapes that are listed.
    - The attack lab: a run is never lost and never a verdict without an observation, what
      proved nothing moves no rate, a finding is a bypass that was observed, and a batch
      runs all it selected; a transaction with any bound field changed, an approval
      presented again or after its expiry, an edited version, a forged capability set and
      a forged webhook are refused in any environment, up to an exhibited collision of the
      digests (AttackTransactionProperties, AttackAuthorityProperties, AttackWebhookProperties).
    - The risk evaluation: every scenario run is an outcome, one that failed moves no
      rate, raising the threshold flags no more, determinism is decided from the scores; an
      edited history is noticed, and cases of the corpus score as the README says.
    - Evidence: the verifier accepts exactly the intact chains, appending keeps them
      intact, equal heads mean equal histories up to a SHA-256 collision; a replay
      trusts only an intact chain, follows the state machine and ignores advice.
    - Encodings: what is digested or signed determines every field; injectivity is
      stated up to an exhibited SHA-256 collision, never assumed.

    ** Parameters, bounds and fuel

    [Env] holds what the program does not determine: clock, token source, settings and
    the Ed25519 library; [Provider.PaymentProvider] a payment provider, its answers
    any function of the calls made so far; [Merchant.MerchantAgent] a merchant;
    [Routes.Server] and [RiskFeatures.RiskServer] the orders the database server is free
    to choose.  The Razorpay adapter is over any HTTP client, a function of the requests
    sent so far; the attack lab's scenarios, database contexts and clocks are arguments of
    its runner, the harness's signing key a function of the message; [json.loads], [datetime.fromisoformat], [UUID(str)] and the texts that
    libraries compose are functions too.  None of them is assumed to satisfy anything,
    but for the liveness of the worker ([RunWorker]): its clock is past the time in
    question, and other sessions enqueue nothing due by then; and of a run of the attack
    lab ([AttackRunProperties]): its clock does not run backwards.
    A [str] whose characters matter is a [string], its characters the code points below
    256; free text beyond them is a list of code points, and a dash in a scenario's name
    or description is a hyphen.  Integers are Python's,
    unbounded, so they are [Z]; the column widths appear as the checks written.
    Recursion is structural, on the data, on [max_events] as in the code
    ([Worker.drain]) or on the number of checks before the worker is told to stop
    ([RunWorker.worker_loop]), but for three printers of bytes and numbers:
    [Sha256.absorb] takes one more than the number of 64-byte blocks, and consumes one
    at each step; [PyFloat.shortest_digits] tries 1 to 17 digits, and 17 determine a
    double; [PyFloat.strip_zeros] may strip 20 zeros of those digits.

    ** Not modelled

    The HTTP client and the parsers behind the adapters, as above; the support matrix and
    the command lines; the attack lab's other families of scripted scenarios, which drive the same
    services, and the printed reports; of the lab's context, the overrides of the
    transaction but for those the scenarios use, and the PostgreSQL engine; migrations, engine configuration, the web application and scripts.  [created_at] columns the server fills are left out.
    Concurrency is modelled between sessions, at the fence and at the unique keys, not
    inside one statement. *)
