(* ===== verification/Prelude.v ===== *)
(** * Prelude: the state-and-exception monad, its laws and tactics, lists and sorting,
    and the relations on options, lists and maps that every component shares. *)
From stdpp Require Export base gmap strings list fin_maps pretty sorting.
From Stdlib Require Export ZArith Lia Ascii.
From Stdlib Require String.

Declare Scope pactra_scope.
Delimit Scope pactra_scope with pactra.
#[global] Open Scope pactra_scope.
#[global] Open Scope Z_scope.

(** ** The state and exception monad of the Python code

    A Python function that reads and writes a shared state [S] and may raise an
    exception of type [E] is a function from the state to an outcome and the
    state it leaves behind.  The state survives a raise: what was written before
    the exception stays written until a caller rolls it back. *)
Inductive outcome (E A : Type) : Type :=
  | Ok (a : A)
  | Raise (e : E).
Arguments Ok {E A} a.
Arguments Raise {E A} e.

Definition M (S E A : Type) : Type := S → outcome E A * S.

Section Monad.
Context {S E : Type}.

#[global] Instance M_ret : MRet (M S E) := λ A a s, (Ok a, s).
#[global] Instance M_bind : MBind (M S E) := λ A B k m s,
  match m s with
  | (Ok a, s') => k a s'
  | (Raise e, s') => (Raise e, s')
  end.
#[global] Instance M_fmap : FMap (M S E) := λ A B f m s,
  match m s with
  | (Ok a, s') => (Ok (f a), s')
  | (Raise e, s') => (Raise e, s')
  end.

Definition raise {A} (e : E) : M S E A := λ s, (Raise e, s).
Definition get : M S E S := λ s, (Ok s, s).
Definition gets {A} (f : S → A) : M S E A := λ s, (Ok (f s), s).
Definition modify (f : S → S) : M S E unit := λ s, (Ok tt, f s).
(** [try: m / except e: h(e)]. *)
Definition try_except {A} (m : M S E A) (h : E → M S E A) : M S E A := λ s,
  match m s with
  | (Ok a, s') => (Ok a, s')
  | (Raise e, s') => h e s'
  end.
(** A fallible pure computation run in the monad. *)
Definition lift {A} (o : outcome E A) : M S E A := λ s, (o, s).
(** [if not b: raise e]. *)
Definition ensure (b : bool) (e : E) : M S E unit :=
  if b then mret tt else raise e.

Fixpoint for_each {A} (l : list A) (f : A → M S E unit) : M S E unit :=
  match l with
  | [] => mret tt
  | a :: l' => f a ;; for_each l' f
  end.
End Monad.

#[global] Instance outcome_ret {E} : MRet (outcome E) := λ A a, Ok a.
#[global] Instance outcome_bind {E} : MBind (outcome E) := λ A B k o,
  match o with Ok a => k a | Raise e => Raise e end.

Lemma Ok_inj {E A} (a b : A) : @Ok E A a = Ok b → a = b.
Proof. congruence. Qed.
Lemma Raise_inj {E A} (a b : E) : @Raise E A a = Raise b → a = b.
Proof. congruence. Qed.

(** Splits an equation between outcomes without computing what they carry. *)
Ltac outcome_eq H :=
  first [ discriminate H
        | apply Ok_inj in H; first [subst; idtac | idtac]
        | apply Raise_inj in H; first [subst; idtac | idtac] ].

(** A bind that returned ran both its parts. *)
Lemma outcome_bind_Ok {E A B} (o : outcome E A) (k : A → outcome E B) b :
  (o ≫= k) = Ok b ↔ ∃ a, o = Ok a ∧ k a = Ok b.
Proof.
  unfold mbind, outcome_bind. split.
  - destruct o as [a|e]; [eauto|done].
  - by intros (a & -> & H).
Qed.

(** Takes a returned bind apart, step by step. *)
Ltac outcome_inv H :=
  repeat (let a := fresh "a" in let H1 := fresh "Hr" in apply outcome_bind_Ok in H as (a & H1 & H)).

Definition is_ok {E A} (o : outcome E A) : bool :=
  match o with Ok _ => true | Raise _ => false end.

(** ** Inverting a run that returned *)
Section Runs.
Context {S E : Type}.

Lemma bind_run_Ok {A B} (m : M S E A) (k : A → M S E B) s b s' :
  (m ≫= k) s = (Ok b, s') ↔ ∃ a s1, m s = (Ok a, s1) ∧ k a s1 = (Ok b, s').
Proof.
  unfold mbind, M_bind. split.
  - destruct (m s) as [[a|e] s1]; [eauto|done].
  - by intros (a & s1 & -> & H).
Qed.
Lemma ret_run_Ok {A} (a : A) s b s' : (mret a : M S E A) s = (Ok b, s') ↔ b = a ∧ s' = s.
Proof. unfold mret, M_ret. split; [by intros [= <- <-]|by intros [-> ->]]. Qed.
Lemma raise_run_Ok {A} (e : E) s (b : A) s' : (raise e : M S E A) s = (Ok b, s') ↔ False.
Proof. by split. Qed.
Lemma lift_run_Ok {A} (o : outcome E A) s b s' : (lift o : M S E A) s = (Ok b, s') ↔ o = Ok b ∧ s' = s.
Proof. unfold lift. split; [by intros [= -> ->]|by intros [-> ->]]. Qed.
Lemma gets_run_Ok {A} (f : S → A) s b s' : (gets f : M S E A) s = (Ok b, s') ↔ b = f s ∧ s' = s.
Proof. unfold gets. split; [by intros [= <- <-]|by intros [-> ->]]. Qed.
Lemma modify_run_Ok (f : S → S) s b s' : (modify f : M S E unit) s = (Ok b, s') ↔ b = tt ∧ s' = f s.
Proof. unfold modify. split; [by intros [= <- <-]|by intros [-> ->]]. Qed.
Lemma try_run_Ok {A} (m : M S E A) h s b s' :
  try_except m h s = (Ok b, s') ↔
  m s = (Ok b, s') ∨ ∃ e s1, m s = (Raise e, s1) ∧ h e s1 = (Ok b, s').
Proof.
  unfold try_except. destruct (m s) as [[a|e] s1]; split.
  - by left.
  - by intros [?|(? & ? & ? & ?)].
  - intros H. right. eauto.
  - intros [H|(e' & s1' & [= <- <-] & H)]; [done|exact H].
Qed.

Lemma fst_run {A} (m : M S E A) s o : fst (m s) = o → m s = (o, snd (m s)).
Proof. destruct (m s) as [o' s']. by intros <-. Qed.
End Runs.
(** A run known to return, by evaluation, without its value. *)
Lemma run_ok {S E A} (m : M S E A) s : is_ok (fst (m s)) = true → ∃ a s', m s = (Ok a, s').
Proof. destruct (m s) as [[a|e] s']; [eauto|done]. Qed.

(** Takes a returned run apart, step by step. *)
Ltac run_step H :=
  match type of H with
  | (_ ≫= _) _ = (Ok _, _) =>
      let a := fresh "a" in let s := fresh "s" in let H1 := fresh "Hrun" in
      apply bind_run_Ok in H as (a & s & H1 & H)
  | (mret _) _ = (Ok _, _) => apply ret_run_Ok in H as [? ?]
  | raise _ _ = (Ok _, _) => apply raise_run_Ok in H; destruct H
  | lift _ _ = (Ok _, _) => apply lift_run_Ok in H as [H ?]
  | gets _ _ = (Ok _, _) => apply gets_run_Ok in H as [? ?]
  | (if ?b then _ else _) _ = (Ok _, _) => destruct b eqn:?
  | (match ?x with _ => _ end) _ = (Ok _, _) => destruct x eqn:?
  end.
Ltac run_inv H := repeat run_step H.
Ltac run_all := repeat match goal with H : _ _ = (Ok _, _) |- _ => run_step H end; subst.

(** ** State evolution

    [evolves R m]: whatever [m] does, and whether it returns or raises, the
    state it leaves is [R]-related to the state it started from. *)
Definition evolves {S E A} (R : S → S → Prop) (m : M S E A) : Prop :=
  ∀ s, R s (snd (m s)).

Section Evolves.
Context {S E : Type} (R : S → S → Prop) `{!PreOrder R}.

Lemma evolves_ret {A} (a : A) : evolves R (mret a : M S E A).
Proof. intros s. cbn. reflexivity. Qed.

Lemma evolves_raise {A} (e : E) : evolves R (raise e : M S E A).
Proof. intros s. cbn. reflexivity. Qed.

Lemma evolves_get : evolves R (get : M S E S).
Proof. intros s. cbn. reflexivity. Qed.

Lemma evolves_gets {A} (f : S → A) : evolves R (gets f : M S E A).
Proof. intros s. cbn. reflexivity. Qed.

Lemma evolves_lift {A} (o : outcome E A) : evolves R (lift o : M S E A).
Proof. intros s. cbn. reflexivity. Qed.

Lemma evolves_ensure b e : evolves R (ensure b e : M S E unit).
Proof. intros s. unfold ensure. destruct b; cbn; reflexivity. Qed.

Lemma evolves_modify f : (∀ s, R s (f s)) → evolves R (modify f : M S E unit).
Proof. intros H s. apply H. Qed.

Lemma evolves_bind {A B} (m : M S E A) (k : A → M S E B) :
  evolves R m → (∀ a, evolves R (k a)) → evolves R (m ≫= k).
Proof.
  intros Hm Hk s. unfold mbind, M_bind. specialize (Hm s).
  destruct (m s) as [[a|e] s']; cbn in *; [|done].
  etrans; [exact Hm|apply Hk].
Qed.

Lemma evolves_fmap {A B} (f : A → B) (m : M S E A) :
  evolves R m → evolves R (f <$> m).
Proof.
  intros Hm s. unfold fmap, M_fmap. specialize (Hm s).
  destruct (m s) as [[a|e] s']; exact Hm.
Qed.

Lemma evolves_try {A} (m : M S E A) (h : E → M S E A) :
  evolves R m → (∀ e, evolves R (h e)) → evolves R (try_except m h).
Proof.
  intros Hm Hh s. unfold try_except. specialize (Hm s).
  destruct (m s) as [[a|e] s']; cbn in *; [done|].
  etrans; [exact Hm|apply Hh].
Qed.

Lemma evolves_for_each {A} (l : list A) (f : A → M S E unit) :
  (∀ a, evolves R (f a)) → evolves R (for_each l f).
Proof.
  intros Hf. induction l as [|a l IH]; [apply evolves_ret|].
  apply evolves_bind; [apply Hf|intros; exact IH].
Qed.
End Evolves.

Lemma evolves_weaken {S E A} (R R' : S → S → Prop) (m : M S E A) :
  (∀ s s', R s s' → R' s s') → evolves R m → evolves R' m.
Proof. intros H Hm s. apply H, Hm. Qed.

Create HintDb evolves discriminated.
#[export] Hint Resolve evolves_ret evolves_raise evolves_get evolves_gets
  evolves_lift evolves_ensure : evolves.
#[export] Hint Extern 0 (PreOrder _) => typeclasses eauto : evolves.

(** Walks a program and leaves the primitive updates the hints do not know. *)
Ltac evolve_step :=
  match goal with
  | |- evolves ?R (mbind _ _) => apply (evolves_bind R); [|intros ?]
  | |- evolves ?R (fmap _ _) => apply (evolves_fmap R)
  | |- evolves ?R (try_except _ _) => apply (evolves_try R); [|intros ?]
  | |- evolves ?R (for_each _ _) => apply (evolves_for_each R); intros ?
  | |- evolves _ (let '_ := ?x in _) => destruct x
  | |- evolves _ (match ?x with _ => _ end) => destruct x eqn:?
  | |- evolves _ (if ?x then _ else _) => destruct x eqn:?
  end.
Ltac evolve := repeat first [ solve [eauto with evolves] | evolve_step ].

(** ** What a program returns

    [yields Q m]: a value that [m] returns satisfies [Q]. *)
Definition yields {S E A} (Q : A → Prop) (m : M S E A) : Prop := ∀ s a s', m s = (Ok a, s') → Q a.

Section Yields.
Context {S E : Type}.

Lemma yields_any {A} (m : M S E A) : yields (λ _, True) m.
Proof. done. Qed.
Lemma yields_ret {A} (Q : A → Prop) a : Q a → yields Q (mret a : M S E A).
Proof. intros HQ s x s'. by intros [= <- _]. Qed.
Lemma yields_raise {A} (Q : A → Prop) e : yields Q (raise e : M S E A).
Proof. by intros s x s'. Qed.
Lemma yields_lift {A} (Q : A → Prop) (o : outcome E A) : (∀ a, o = Ok a → Q a) → yields Q (lift o : M S E A).
Proof. intros HQ s x s' [= -> _]. by apply HQ. Qed.
Lemma yields_weaken {A} (Q Q' : A → Prop) (m : M S E A) : (∀ a, Q a → Q' a) → yields Q m → yields Q' m.
Proof. intros HQ Hm s a s' E'. by eapply HQ, Hm. Qed.
Lemma yields_bind {A B} (Q : A → Prop) (Q' : B → Prop) (m : M S E A) k :
  yields Q m → (∀ a, Q a → yields Q' (k a)) → yields Q' (m ≫= k).
Proof.
  intros Hm Hk s x s' E'. unfold mbind, M_bind in E'. destruct (m s) as [[a|e] s1] eqn:Em; [|done].
  by eapply Hk; [eapply Hm|].
Qed.
Lemma yields_fmap {A B} (f : A → B) (Q : B → Prop) (m : M S E A) : yields (λ a, Q (f a)) m → yields Q (f <$> m).
Proof.
  intros Hm s x s' E'. unfold fmap, M_fmap in E'. destruct (m s) as [[a|e] s1] eqn:Em; [|done].
  injection E' as <- _. by eapply Hm.
Qed.
Lemma yields_try {A} (Q : A → Prop) (m : M S E A) h : yields Q m → (∀ e, yields Q (h e)) → yields Q (try_except m h).
Proof.
  intros Hm Hh s x s' E'. unfold try_except in E'. destruct (m s) as [[a|e] s1] eqn:Em; [|by eapply Hh].
  injection E' as <- _. by eapply Hm.
Qed.
Lemma evolves_bind_yields {A B} R `{!PreOrder R} (Q : A → Prop) (m : M S E A) (k : A → M S E B) :
  yields Q m → evolves R m → (∀ a, Q a → evolves R (k a)) → evolves R (m ≫= k).
Proof.
  intros HQ Hm Hk s. unfold mbind, M_bind. specialize (Hm s).
  destruct (m s) as [[a|e] s1] eqn:E'; cbn in *; [|done]. etrans; [exact Hm|]. by eapply Hk, HQ.
Qed.
End Yields.

(** ** Lists *)

(** Python's [sorted(l, key=...)]: stable, by a boolean [<=] on the keys. *)
Section PySorted.
Context {A : Type} (leb : A → A → bool).

Fixpoint py_insert (x : A) (l : list A) : list A :=
  match l with
  | [] => [x]
  | y :: l' => if leb x y then x :: l else y :: py_insert x l'
  end.
Definition py_sorted (l : list A) : list A := foldr py_insert [] l.

Lemma py_insert_Permutation x l : py_insert x l ≡ₚ x :: l.
Proof.
  induction l as [|y l IH]; cbn; [done|].
  destruct (leb x y); [done|]. rewrite IH. constructor.
Qed.

Lemma py_sorted_Permutation l : py_sorted l ≡ₚ l.
Proof. induction l as [|x l IH]; cbn; [done|]. by rewrite py_insert_Permutation, IH. Qed.

Context (Htot : ∀ x y, leb x y = true ∨ leb y x = true).

Lemma py_insert_Sorted x l :
  Sorted (λ a b, leb a b = true) l → Sorted (λ a b, leb a b = true) (py_insert x l).
Proof.
  induction 1 as [|y l Hs IH Hd]; cbn; [by repeat constructor|].
  destruct (leb x y) eqn:E; [by repeat constructor|].
  assert (Hyx : leb y x = true) by (destruct (Htot x y); congruence).
  constructor; [done|].
  destruct l as [|z l']; cbn; [by constructor|].
  inversion Hd; subst. destruct (leb x z); by constructor.
Qed.

Lemma py_sorted_Sorted l : Sorted (λ a b, leb a b = true) (py_sorted l).
Proof. induction l; cbn; [constructor|by apply py_insert_Sorted]. Qed.

(** A sort of a filtered list is the filtered sort, and on distinct keys the result
    depends on the elements alone. *)
Context (Htrans : ∀ x y z, leb x y = true → leb y z = true → leb x z = true).

Lemma py_sorted_strongly l : StronglySorted (λ a b, leb a b = true) (py_sorted l).
Proof. apply Sorted_StronglySorted; [intros x y z; apply Htrans|apply py_sorted_Sorted]. Qed.

Lemma py_insert_head x l : Forall (λ y, leb x y = true) l → py_insert x l = x :: l.
Proof. destruct 1 as [|y l Hy]; cbn; [done|by rewrite Hy]. Qed.

Lemma py_insert_filter f x l :
  StronglySorted (λ a b, leb a b = true) l →
  List.filter f (py_insert x l) = if f x then py_insert x (List.filter f l) else List.filter f l.
Proof.
  induction 1 as [|y l Hs IH Hy]; cbn; [done|]. destruct (leb x y) eqn:E; cbn.
  - destruct (f x); [|done]. rewrite py_insert_head; [done|].
    assert (Hl : Forall (λ z, leb x z = true) (y :: l)).
    { constructor; [done|]. eapply Forall_impl; [exact Hy|]. intros z. by apply Htrans. }
    apply List.Forall_forall. intros z Hz. apply (proj1 (List.Forall_forall _ _) Hl).
    change (In z (List.filter f (y :: l))) in Hz. by apply filter_In in Hz as [Hz _].
  - rewrite IH. destruct (f y) eqn:Ey, (f x); cbn; [by rewrite E|done..].
Qed.

Lemma py_sorted_filter f l : py_sorted (List.filter f l) = List.filter f (py_sorted l).
Proof.
  induction l as [|x l IH]; cbn [List.filter]; [done|].
  change (py_sorted (x :: l)) with (py_insert x (py_sorted l)).
  rewrite (py_insert_filter f x _ (py_sorted_strongly l)), <-IH. by destruct (f x).
Qed.

Lemma py_sorted_unique l l' :
  (∀ x y, x ∈ l → y ∈ l → leb x y = true → leb y x = true → x = y) →
  l ≡ₚ l' → py_sorted l = py_sorted l'.
Proof.
  intros Ha Hp. apply (StronglySorted_unique_strong (λ a b, leb a b = true)).
  - intros x y Hx Hy. apply Ha; [by rewrite py_sorted_Permutation in Hx|].
    by rewrite py_sorted_Permutation, <-Hp in Hy.
  - apply py_sorted_strongly.
  - apply py_sorted_strongly.
  - by rewrite !py_sorted_Permutation.
Qed.
End PySorted.

Lemma filter_head {A} (f : A → bool) l x t : List.filter f l = x :: t → x ∈ l ∧ f x = true.
Proof. intros E. rewrite list_elem_of_In. apply filter_In. rewrite E. by left. Qed.

Lemma elem_mid {A} (x a : A) l1 l2 : x ∈ l1 ++ l2 → x ∈ l1 ++ a :: l2.
Proof. rewrite !elem_of_app. intros [Hx|Hx]; [by left|right; by right]. Qed.

Lemma py_sorted_id {A} (leb : A → A → bool) l :
  Sorted (λ a b, leb a b = true) l → py_sorted leb l = l.
Proof.
  unfold py_sorted.
  induction 1 as [|x l Hs IH Hd]; cbn; [done|]. rewrite IH.
  destruct Hd as [|y l Hxy]; cbn; [done|]. by rewrite Hxy.
Qed.

(** [dict(pairs)]: a repeated key keeps its first position and its last value. *)
Fixpoint py_dict_set {V} (k : string) (v : V) (d : list (string * V)) : list (string * V) :=
  match d with
  | [] => [(k, v)]
  | (k', v') :: d' => if String.eqb k k' then (k, v) :: d' else (k', v') :: py_dict_set k v d'
  end.
Definition py_dict {V} (l : list (string * V)) : list (string * V) :=
  fold_left (λ d '(k, v), py_dict_set k v d) l [].
Fixpoint py_dict_get {V} (k : string) (d : list (string * V)) : option V :=
  match d with
  | [] => None
  | (k', v) :: d' => if String.eqb k k' then Some v else py_dict_get k d'
  end.

(** ** Integers and strings *)

(** [x[:n]]. *)
Definition str_take (n : nat) (s : string) : string := String.substring 0 n s.
(** [d is not None]. *)
Definition is_some {A} (o : option A) : bool := match o with Some _ => true | None => false end.
Definition is_none {A} (o : option A) : bool := negb (is_some o).
Lemma is_none_true {A} (o : option A) : is_none o = true → o = None.
Proof. by destruct o. Qed.
(** Python's [x or y] on an optional string: [None] and [""] are falsy. *)
Definition opt_or_str (x y : option string) : option string :=
  match x with Some s => if String.eqb s "" then y else x | None => y end.
(** Python's [x or y] on an optional integer: [None] and [0] are falsy. *)
Definition opt_or_int (x y : option Z) : option Z :=
  match x with Some z => if z =? 0 then y else x | None => y end.

(** [s.upper()] and [s.lower()] on the ASCII letters; other characters are
    left alone, which is exact for the ASCII strings the code handles here. *)
Definition ascii_upper (a : ascii) : ascii :=
  let n := Ascii.N_of_ascii a in
  if (97 <=? n)%N && (n <=? 122)%N then Ascii.ascii_of_N (n - 32) else a.
Definition ascii_lower (a : ascii) : ascii :=
  let n := Ascii.N_of_ascii a in
  if (65 <=? n)%N && (n <=? 90)%N then Ascii.ascii_of_N (n + 32) else a.
Fixpoint str_map (f : ascii → ascii) (s : string) : string :=
  match s with EmptyString => EmptyString | String a s' => String (f a) (str_map f s') end.
Definition py_upper : string → string := str_map ascii_upper.
Definition py_lower : string → string := str_map ascii_lower.
Fixpoint str_forallb (p : ascii → bool) (s : string) : bool :=
  match s with EmptyString => true | String a s' => p a && str_forallb p s' end.
(** [s.isascii()]. *)
Definition is_ascii (s : string) : bool := str_forallb (λ a, (Ascii.N_of_ascii a <? 128)%N) s.
(** [c in "0123456789abcdef"]. *)
Definition is_lower_hex (a : ascii) : bool :=
  let n := Ascii.N_of_ascii a in
  ((48 <=? n)%N && (n <=? 57)%N) || ((97 <=? n)%N && (n <=? 102)%N).

Lemma ascii_upper_idemp a : ascii_upper (ascii_upper a) = ascii_upper a.
Proof. destruct a as [[] [] [] [] [] [] [] []]; reflexivity. Qed.

Lemma py_upper_idemp s : py_upper (py_upper s) = py_upper s.
Proof.
  induction s as [|a s IH]; cbn; [done|]. by rewrite ascii_upper_idemp, IH.
Qed.

Lemma length_str_map f s : String.length (str_map f s) = String.length s.
Proof. induction s as [|a s IH]; cbn; [done|]. by rewrite IH. Qed.

(** Closes a goal from a membership that evaluation refutes. *)
Ltac refute_elem H := 
  exfalso; let Hb := fresh in pose proof (bool_decide_eq_true_2 _ H) as Hb; vm_compute in Hb; discriminate Hb.
(** Splits a membership in a literal list into its cases. *)
Ltac elem_cases H :=
  repeat (apply elem_of_cons in H as [H|H]; [try discriminate H|]); [..|by apply not_elem_of_nil in H].
