(* ===== verification/Python.v ===== *)
(** * Python's standard library, as far as the code uses it

    [datetime] (aware and naive instants, [isoformat], [strftime]), [uuid.UUID]
    and its [str], [repr] of a string, [str] of an integer, UTF-8 and
    [hashlib.sha256].  Nothing here models a file of the repository. *)
From S2P Require Import Prelude.

(** ** Bytes and text *)

(** Byte strings and Unicode texts are lists of code units. *)
Definition bytes := list N.
Definition ustr := list N.

Definition u (s : string) : ustr := map Ascii.N_of_ascii (String.list_ascii_of_string s).

Lemma u_inj s t : u s = u t → s = t.
Proof.
  revert t. induction s as [|a s IH]; intros [|b t] H; cbn in H; try done.
  injection H as Hab Hst. apply (f_equal Ascii.ascii_of_N) in Hab.
  rewrite !Ascii.ascii_N_embedding in Hab. by rewrite Hab, (IH t).
Qed.

Lemma u_app s t : u (s +:+ t) = u s ++ u t.
Proof. induction s as [|a s IH]; [done|]. exact (f_equal (cons (Ascii.N_of_ascii a)) IH). Qed.

(** The double quote, which a Rocq string literal spells twice. *)
Definition dquote : ascii := Ascii.ascii_of_nat 34.

(** [str(n)]. *)
Definition str_int (z : Z) : string := pretty z.

Definition hex_digit (n : N) : ascii :=
  Ascii.ascii_of_N (if (n <? 10)%N then 48 + n else 87 + n)%N.
(** [n] in lowercase hexadecimal on exactly [k] digits. *)
Fixpoint hex_fixed (k : nat) (n : N) : string :=
  match k with
  | O => EmptyString
  | S k' => String (hex_digit (N.land (N.shiftr n (4 * N.of_nat k')) 15)) (hex_fixed k' n)
  end.

(** [n] in decimal on exactly [k] digits, zero-padded. *)
Fixpoint dec_fixed (k : nat) (n : Z) : string :=
  match k with
  | O => EmptyString
  | S k' => (dec_fixed k' (n / 10) +:+ String (Ascii.ascii_of_N (48 + Z.to_N (n mod 10))) EmptyString)
  end.

(** ** uuid.UUID: a 128-bit integer *)
Definition uuid := N.
#[global] Instance uuid_eq_dec : EqDecision uuid := _.
#[global] Instance uuid_countable : Countable uuid := _.

Definition str_uuid (i : uuid) : string :=
  (hex_fixed 8 (N.shiftr i 96) +:+ "-" +:+ hex_fixed 4 (N.shiftr i 80) +:+ "-"
   +:+ hex_fixed 4 (N.shiftr i 64) +:+ "-" +:+ hex_fixed 4 (N.shiftr i 48) +:+ "-"
   +:+ hex_fixed 12 i).

(** ** datetime

    The local wall clock in microseconds since 1970-01-01T00:00:00 and the
    offset from UTC in microseconds, [None] for a naive value. *)
Record datetime := DateTime { dt_local : Z; dt_offset : option Z }.
#[global] Instance datetime_eq_dec : EqDecision datetime.
Proof. solve_decision. Defined.

Definition dt_is_aware (d : datetime) : bool := is_some (dt_offset d).
(** The UTC instant; a naive value is read as UTC, as [as_utc] does. *)
Definition dt_instant (d : datetime) : Z := dt_local d - default 0 (dt_offset d).
(** [d.replace(tzinfo=utc)] and [d.astimezone(utc)]. *)
Definition dt_replace_utc (d : datetime) : datetime := DateTime (dt_local d) (Some 0).
Definition dt_astimezone_utc (d : datetime) : datetime := DateTime (dt_instant d) (Some 0).
(** [d + timedelta]. *)
Definition dt_add (d : datetime) (us : Z) : datetime := DateTime (dt_local d + us) (dt_offset d).
Definition utc (us : Z) : datetime := DateTime us (Some 0).
Definition seconds (n : Z) : Z := n * 1000000.
(** [a >= b], [a > b] on aware values. *)
Definition dt_geb (a b : datetime) : bool := dt_instant b <=? dt_instant a.
Definition dt_gtb (a b : datetime) : bool := dt_instant b <? dt_instant a.

(** The proleptic Gregorian calendar date of a day number (day 0 is 1970-01-01). *)
Definition civil_of_days (z0 : Z) : Z * Z * Z :=
  let z := z0 + 719468 in
  let era := z / 146097 in
  let doe := z mod 146097 in
  let yoe := (doe - doe / 1460 + doe / 36524 - doe / 146096) / 365 in
  let doy := doe - (365 * yoe + yoe / 4 - yoe / 100) in
  let mp := (5 * doy + 2) / 153 in
  let d := doy - (153 * mp + 2) / 5 + 1 in
  let m := if mp <? 10 then mp + 3 else mp - 9 in
  (yoe + era * 400 + (if m <=? 2 then 1 else 0), m, d).

Definition us_per_day : Z := 86400000000.

Definition date_str (local : Z) : string :=
  let '(y, m, d) := civil_of_days (local / us_per_day) in
  (dec_fixed 4 y +:+ "-" +:+ dec_fixed 2 m +:+ "-" +:+ dec_fixed 2 d).
Definition clock_str (local : Z) : string :=
  let s := (local mod us_per_day) / 1000000 in
  (dec_fixed 2 (s / 3600) +:+ ":" +:+ dec_fixed 2 ((s / 60) mod 60) +:+ ":" +:+ dec_fixed 2 (s mod 60)).
Definition micros_str (local : Z) : string := dec_fixed 6 (local mod 1000000).

(** [d.isoformat()]. *)
Definition offset_str (o : Z) : string :=
  let a := Z.abs o / 1000000 in
  ((if o <? 0 then "-" else "+") +:+ dec_fixed 2 (a / 3600) +:+ ":" +:+ dec_fixed 2 ((a / 60) mod 60)
   +:+ (if a mod 60 =? 0 then "" else ":" +:+ dec_fixed 2 (a mod 60))).
Definition isoformat (d : datetime) : string :=
  (date_str (dt_local d) +:+ "T" +:+ clock_str (dt_local d)
   +:+ (if dt_local d mod 1000000 =? 0 then "" else "." +:+ micros_str (dt_local d))
   +:+ match dt_offset d with None => "" | Some o => offset_str o end).
(** [d.strftime("%Y-%m-%dT%H:%M:%S.%fZ")], for the years 1000 to 9999 where the
    C library's [%Y] has four digits. *)
Definition strftime_utc (d : datetime) : string :=
  (date_str (dt_local d) +:+ "T" +:+ clock_str (dt_local d) +:+ "." +:+ micros_str (dt_local d) +:+ "Z").

(** [repr(d)], for a naive value and for the fixed offsets of the standard library. *)
Definition repr_timedelta (us : Z) : string :=
  let days := us / us_per_day in
  let secs := (us mod us_per_day) / 1000000 in
  let micros := us mod 1000000 in
  let parts := (if days =? 0 then [] else ["days=" +:+ str_int days])
    ++ (if secs =? 0 then [] else ["seconds=" +:+ str_int secs])
    ++ (if micros =? 0 then [] else ["microseconds=" +:+ str_int micros]) in
  "datetime.timedelta(" +:+ match parts with [] => "0" | _ => String.concat ", " parts end +:+ ")".
Definition repr_tzinfo (offset : Z) : string :=
  if offset =? 0 then "datetime.timezone.utc" else "datetime.timezone(" +:+ repr_timedelta offset +:+ ")".
Definition repr_datetime (d : datetime) : string :=
  let '(y, m, day) := civil_of_days (dt_local d / us_per_day) in
  let s := (dt_local d mod us_per_day) / 1000000 in
  let micros := dt_local d mod 1000000 in
  let numbers := [y; m; day; s / 3600; (s / 60) mod 60]
    ++ (if (s mod 60 =? 0) && (micros =? 0) then [] else [s mod 60])
    ++ (if micros =? 0 then [] else [micros]) in
  "datetime.datetime(" +:+ String.concat ", " (map str_int numbers)
    +:+ match dt_offset d with None => "" | Some o => ", tzinfo=" +:+ repr_tzinfo o end +:+ ")".

(** ** repr of a string *)
Fixpoint str_contains (c : ascii) (s : string) : bool :=
  match s with EmptyString => false | String a s' => Ascii.eqb a c || str_contains c s' end.
Definition squote : ascii := "'"%char.
Definition backslash : ascii := Ascii.ascii_of_nat 92.
Definition repr_char (q a : ascii) : string :=
  let n := Ascii.N_of_ascii a in
  if Ascii.eqb a q || Ascii.eqb a backslash then String backslash (String a EmptyString)
  else if (n =? 10)%N then String backslash "n" else if (n =? 13)%N then String backslash "r"
  else if (n =? 9)%N then String backslash "t"
  else if (n <? 32)%N || ((127 <=? n)%N && (n <=? 160)%N) || (n =? 173)%N
  then String backslash ("x" +:+ hex_fixed 2 n)
  else String a EmptyString.
Fixpoint repr_body (q : ascii) (s : string) : string :=
  match s with EmptyString => EmptyString | String a s' => (repr_char q a +:+ repr_body q s') end.
Definition py_repr (s : string) : string :=
  let q := if str_contains squote s && negb (str_contains dquote s) then dquote else squote in
  String q (repr_body q s +:+ String q EmptyString).

(** ** UTF-8; [None] is the UnicodeEncodeError of a lone surrogate *)
Definition utf8_char (c : N) : option bytes :=
  if (c <? 128)%N then Some [c]
  else if (c <? 2048)%N then Some [192 + N.shiftr c 6; 128 + N.land c 63]%N
  else if (55296 <=? c)%N && (c <=? 57343)%N then None
  else if (c <? 65536)%N then
    Some [224 + N.shiftr c 12; 128 + N.land (N.shiftr c 6) 63; 128 + N.land c 63]%N
  else Some [240 + N.shiftr c 18; 128 + N.land (N.shiftr c 12) 63;
             128 + N.land (N.shiftr c 6) 63; 128 + N.land c 63]%N.

(** [text.encode("utf-8")]. *)
Fixpoint utf8_encode (s : ustr) : option bytes :=
  match s with
  | [] => Some []
  | c :: s' =>
      match utf8_char c, utf8_encode s' with
      | Some b, Some r => Some (b ++ r)
      | _, _ => None
      end
  end.

(** ** hashlib.sha256 (FIPS 180-4) *)
Module Sha256.
Open Scope N_scope.
Definition w32 (x : N) : N := N.land x 4294967295.
Definition rotr (n x : N) : N := N.lor (N.shiftr x n) (w32 (N.shiftl x (32 - n))).
Definition add32 (x y : N) : N := w32 (x + y).
Definition big_sigma0 x := N.lxor (N.lxor (rotr 2 x) (rotr 13 x)) (rotr 22 x).
Definition big_sigma1 x := N.lxor (N.lxor (rotr 6 x) (rotr 11 x)) (rotr 25 x).
Definition small_sigma0 x := N.lxor (N.lxor (rotr 7 x) (rotr 18 x)) (N.shiftr x 3).
Definition small_sigma1 x := N.lxor (N.lxor (rotr 17 x) (rotr 19 x)) (N.shiftr x 10).
Definition choose x y z := N.lxor (N.land x y) (N.land (N.lxor x 4294967295) z).
Definition majority x y z := N.lxor (N.lxor (N.land x y) (N.land x z)) (N.land y z).
Definition round_constants : list N :=
  [1116352408;1899447441;3049323471;3921009573;961987163;1508970993;2453635748;2870763221;
   3624381080;310598401;607225278;1426881987;1925078388;2162078206;2614888103;3248222580;
   3835390401;4022224774;264347078;604807628;770255983;1249150122;1555081692;1996064986;
   2554220882;2821834349;2952996808;3210313671;3336571891;3584528711;113926993;338241895;
   666307205;773529912;1294757372;1396182291;1695183700;1986661051;2177026350;2456956037;
   2730485921;2820302411;3259730800;3345764771;3516065817;3600352804;4094571909;275423344;
   430227734;506948616;659060556;883997877;958139571;1322822218;1537002063;1747873779;
   1955562222;2024104815;2227730452;2361852424;2428436474;2756734187;3204031479;3329325298].
Definition initial_state : list N :=
  [1779033703;3144134277;1013904242;2773480762;1359893119;2600822924;528734635;1541459225].
(** The message schedule is kept as a sliding window of sixteen words. *)
Definition next_word (w : list N) : N :=
  add32 (add32 (small_sigma1 (nth 14 w 0)) (nth 9 w 0))
        (add32 (small_sigma0 (nth 1 w 0)) (nth 0 w 0)).
Fixpoint rounds (ks w st : list N) : list N :=
  match ks, st with
  | k :: ks', [a; b; c; d; e; f; g; h] =>
    let t1 := add32 (add32 (add32 h (big_sigma1 e)) (add32 (choose e f g) k)) (hd 0 w) in
    let t2 := add32 (big_sigma0 a) (majority a b c) in
    rounds ks' (tl w ++ [next_word w]) [add32 t1 t2; a; b; c; add32 d t1; e; f; g]
  | _, _ => st
  end.
Fixpoint words (l : bytes) : list N :=
  match l with
  | a :: b :: c :: d :: r => N.shiftl a 24 + N.shiftl b 16 + N.shiftl c 8 + d :: words r
  | _ => []
  end.
Definition compress (st : list N) (block : bytes) : list N :=
  map (λ '(x, y), add32 x y) (combine st (rounds round_constants (words block) st)).
Fixpoint absorb (fuel : nat) (st : list N) (l : bytes) : list N :=
  match fuel, l with
  | S fuel', _ :: _ => absorb fuel' (compress st (firstn 64 l)) (skipn 64 l)
  | _, _ => st
  end.
Definition pad (l : bytes) : bytes :=
  let n := length l in
  l ++ [128] ++ repeat 0 (Nat.modulo (119 - Nat.modulo n 64) 64)
    ++ map (λ i, N.land (N.shiftr (8 * N.of_nat n) (8 * i)) 255) [7; 6; 5; 4; 3; 2; 1; 0].
Definition hexdigest (l : bytes) : string :=
  let p := pad l in
  foldr (λ x s, (hex_fixed 8 x +:+ s)) EmptyString
        (absorb (S (Nat.div (length p) 64)) initial_state p).
End Sha256.

(** [hashlib.sha256(b).hexdigest()]. *)
Definition sha256_hexdigest (b : bytes) : string := Sha256.hexdigest b.
#[global] Arguments sha256_hexdigest : simpl never.

(** Two given messages are a collision. *)
Definition sha256_collides (m m' : bytes) : Prop :=
  m ≠ m' ∧ sha256_hexdigest m = sha256_hexdigest m'.

Lemma sha256_eq_cases m m' :
  sha256_hexdigest m = sha256_hexdigest m' → m = m' ∨ sha256_collides m m'.
Proof.
  intros H. destruct (decide (m = m')) as [|Hne]; [by left|by right].
Qed.

(** The published test vectors. *)
Example sha256_abc : sha256_hexdigest (u "abc") =
  "ba7816bf8f01cfea414140de5dae2223b00361a396177a9cb410ff61f20015ad"%string.
Proof. vm_compute. reflexivity. Qed.

Example sha256_empty : sha256_hexdigest [] =
  "e3b0c44298fc1c149afbf4c8996fb92427ae41e4649b934ca495991b7852b855"%string.
Proof. vm_compute. reflexivity. Qed.

Example isoformat_now : isoformat (utc 1767225599000001) = "2025-12-31T23:59:59.000001+00:00"%string.
Proof. vm_compute. reflexivity. Qed.
