(* ===== verification/PyFloat.v ===== *)
(** * Python's float: IEEE 754 binary64

    Values are the standard library's [spec_float]; comparison, multiplication
    and division are its executable binary64 operations.  [py_round_int] is
    [int(round(x))] (half to even, an exception on infinities and NaN) and
    [float_repr] is the shortest decimal that reads back as the same float. *)
From Stdlib Require Export SpecFloat.
From S2P Require Import Prelude Python.

Definition float : Type := spec_float.
#[global] Instance float_eq_dec : EqDecision float.
Proof. solve_decision. Defined.

Definition fl_prec : Z := 53.
Definition fl_emax : Z := 1024.
Definition fl_mul (x y : float) : float := SFmul fl_prec fl_emax x y.
Definition fl_div (x y : float) : float := SFdiv fl_prec fl_emax x y.
Definition fl_of_Z (z : Z) : float := binary_normalize fl_prec fl_emax z 0 false.
Definition fl_opp : float → float := SFopp.
Definition fl_ltb (x y : float) : bool := SFltb x y.
Definition fl_leb (x y : float) : bool := SFleb x y.
Definition fl_eqb (x y : float) : bool := SFeqb x y.
(** The literal [a / b]. *)
Definition fl_lit (a b : Z) : float := fl_div (fl_of_Z a) (fl_of_Z b).

(** Integer nearest to [m * 2^e] for [m >= 0], half to even. *)
Definition round_half_even (m : Z) (e : Z) : Z :=
  if 0 <=? e then m * 2 ^ e
  else
    let d := 2 ^ (- e) in
    let q := m / d in
    let r := m mod d in
    if 2 * r <? d then q else if d <? 2 * r then q + 1
    else if Z.even q then q else q + 1.

(** [int(round(x))]; [None] is the ValueError/OverflowError on NaN and infinities. *)
Definition py_round_int (x : float) : option Z :=
  match x with
  | S754_zero _ => Some 0
  | S754_finite s m e =>
      let r := round_half_even (Zpos m) e in Some (if s then - r else r)
  | S754_infinity _ | S754_nan => None
  end.

(** ** repr

    [m * 2^e] rounded to [n] significant decimal digits: the digits and the
    decimal exponent of the last one. *)
Definition div_half_even (a b : Z) : Z :=
  let q := a / b in let r := a mod b in
  if 2 * r <? b then q else if b <? 2 * r then q + 1
  else if Z.even q then q else q + 1.

Definition num_digits (z : Z) : nat := String.length (str_int z).

Definition to_digits (n : nat) (m e : Z) : Z * Z :=
  let num := if 0 <=? e then m * 2 ^ e else m in
  let den := if 0 <=? e then 1 else 2 ^ (- e) in
  (* a decimal exponent k with num/den < 10^(n + k), found from digit counts *)
  let k0 := Z.of_nat (num_digits num) - Z.of_nat (num_digits den) - Z.of_nat n in
  let at_k k := if 0 <=? k then div_half_even num (den * 10 ^ k)
                else div_half_even (num * 10 ^ (- k)) den in
  if (num_digits (at_k k0) <=? n)%nat then (at_k k0, k0) else (at_k (k0 + 1), k0 + 1).

Definition of_digits (d k : Z) : float :=
  if 0 <=? k then fl_of_Z (d * 10 ^ k)
  else match d with
       | Zpos p => fl_div (S754_finite false p 0) (S754_finite false (Z.to_pos (10 ^ (- k))) 0)
       | _ => S754_zero false
       end.

(** Layout of [repr]: positional between 1e-4 and 1e16, scientific elsewhere. *)
Fixpoint zeros (n : nat) : string := match n with O => "" | S n' => "0" +:+ zeros n' end.
Fixpoint strip_zeros (fuel : nat) (d k : Z) : Z * Z :=
  match fuel with
  | O => (d, k)
  | S f => if (d mod 10 =? 0) && negb (d =? 0) then strip_zeros f (d / 10) (k + 1) else (d, k)
  end.
Definition layout_digits (d0 k0 : Z) : string :=
  let '(d, k) := strip_zeros 20 d0 k0 in
  let s := str_int d in
  let nd := Z.of_nat (String.length s) in
  let point := nd + k in
  if (-4 <? point) && (point <=? 16) then
    if 0 <=? k then s +:+ zeros (Z.to_nat k) +:+ ".0"
    else if 0 <? point
         then String.substring 0 (Z.to_nat point) s +:+ "."
              +:+ String.substring (Z.to_nat point) (String.length s - Z.to_nat point) s
         else "0." +:+ zeros (Z.to_nat (- point)) +:+ s
  else
    let ex := point - 1 in
    String.substring 0 1 s
    +:+ (if (1 <? String.length s)%nat then "." +:+ String.substring 1 (String.length s - 1) s else "")
    +:+ "e" +:+ (if ex <? 0 then "-" else "+")
    +:+ (if Z.abs ex <? 10 then "0" else "") +:+ str_int (Z.abs ex).

(** The least number of digits, at most 17, that reads back as the float. *)
Fixpoint shortest_digits (fuel n : nat) (x : float) (m e : Z) : Z * Z :=
  let '(d, k) := to_digits n m e in
  match fuel with
  | O => (d, k)
  | S f => if bool_decide (of_digits d k = x) then (d, k) else shortest_digits f (S n) x m e
  end.

Definition float_repr (x : float) : string :=
  match x with
  | S754_zero s => if s then "-0.0" else "0.0"
  | S754_infinity s => if s then "-inf" else "inf"
  | S754_nan => "nan"
  | S754_finite s m e =>
      let '(d, k) := shortest_digits 16 1 (S754_finite false m e) (Zpos m) e in
      (if s then "-" else "") +:+ layout_digits d k
  end.

Example float_repr_examples :
  map float_repr [fl_lit 9 10; fl_lit 46 10; fl_of_Z 4299; fl_lit 1 3; fl_lit 1 100000; fl_of_Z (10 ^ 22)]
  = ["0.9"; "4.6"; "4299.0"; "0.3333333333333333"; "1e-05"; "1e+22"].
Proof. vm_compute. reflexivity. Qed.

Example py_round_examples :
  map py_round_int [fl_lit 5 2; fl_lit 7 2; fl_opp (fl_lit 5 2); fl_mul (fl_lit 46 10) (fl_of_Z 100)]
  = [Some 2; Some 4; Some (-2); Some 460].
Proof. vm_compute. reflexivity. Qed.
