(* ===== verification/PyText.v ===== *)
(** * More of Python's standard library

    [hmac] over SHA-256, substring search, encoding, dict lookups and
    [datetime.fromtimestamp].  Nothing here models a file of the repository. *)
From S2P Require Import Prelude Python PyFloat.

(** ** hmac.new(key, msg, hashlib.sha256) (RFC 2104) *)
Definition sha256_digest (l : bytes) : bytes :=
  let p := Sha256.pad l in
  flat_map (λ x, map (λ i, N.land (N.shiftr x (8 * i)) 255) [3; 2; 1; 0]%N)
    (Sha256.absorb (S (Nat.div (length p) 64)) Sha256.initial_state p).

Definition HMAC_BLOCK_SIZE : nat := 64.
Definition hmac_block (key : bytes) : bytes :=
  let k := if (HMAC_BLOCK_SIZE <? length key)%nat then sha256_digest key else key in
  k ++ repeat 0%N (HMAC_BLOCK_SIZE - length k).
Definition xor_pad (pad : N) (block : bytes) : bytes := map (λ b, N.lxor b pad) block.
Definition hmac_sha256_hexdigest (key msg : bytes) : string :=
  let block := hmac_block key in
  sha256_hexdigest (xor_pad 92 block ++ sha256_digest (xor_pad 54 block ++ msg)).
#[global] Arguments hmac_sha256_hexdigest : simpl never.

(** RFC 4231, test cases 2 and 6. *)
Example hmac_jefe : hmac_sha256_hexdigest (u "Jefe") (u "what do ya want for nothing?") =
  "5bdcc146bf60754e6a042426089575c75a003f089d2739839dec58b964ec3843"%string.
Proof. vm_compute. reflexivity. Qed.
Example hmac_long_key :
  hmac_sha256_hexdigest (repeat 170%N 131) (u "Test Using Larger Than Block-Size Key - Hash Key First") =
  "60e431591ee0b67f0d8a26aacbf5b77f8e0bc6213728c5140546040f0ee37f54"%string.
Proof. vm_compute. reflexivity. Qed.

(** ** Text *)

(** A text with an em dash in it is a list of code points. *)
Definition em_dash : ustr := [8212%N].

(** [sub in s]. *)
Fixpoint str_in (sub s : string) : bool :=
  String.prefix sub s || match s with EmptyString => false | String _ s' => str_in sub s' end.

(** Every string of the model encodes: its characters are below the surrogates. *)
Definition encode (s : string) : bytes := default [] (utf8_encode (u s)).

Lemma utf8_encode_byte_text (t : ustr) : Forall (λ c, c < 256)%N t → is_Some (utf8_encode t).
Proof.
  induction 1 as [|c t Hc _ [b IH]]; cbn [utf8_encode]; [by eexists|]. rewrite IH.
  unfold utf8_char. destruct (N.ltb_spec c 128); [by eexists|].
  destruct (N.ltb_spec c 2048); [by eexists|lia].
Qed.
Lemma u_byte_text s : Forall (λ c, c < 256)%N (u s).
Proof.
  apply Forall_forall. intros c Hc. unfold u in Hc. apply list_elem_of_fmap in Hc as (a & -> & _).
  apply Ascii.N_ascii_bounded.
Qed.
Lemma encode_Some s : utf8_encode (u s) = Some (encode s).
Proof. destruct (utf8_encode_byte_text (u s) (u_byte_text s)) as [b Hb]. unfold encode. by rewrite Hb. Qed.

(** ** dict *)
Lemma py_dict_get_not_elem {V} k (d : list (string * V)) : py_dict_get k d = None → k ∉ map fst d.
Proof.
  induction d as [|[k' v] d IH]; cbn; [intros _; apply not_elem_of_nil|].
  destruct (String.eqb_spec k k') as [->|Hn]; [done|]. intros Hd. apply not_elem_of_cons. split; [done|by apply IH].
Qed.
Lemma py_dict_get_elem {V} k v (d : list (string * V)) : py_dict_get k d = Some v → k ∈ map fst d.
Proof.
  induction d as [|[k' v'] d IH]; cbn; [done|].
  destruct (String.eqb_spec k k') as [->|Hn]; [left|right; by apply IH].
Qed.
Lemma py_dict_set_new {V} k v (d : list (string * V)) : py_dict_get k d = None → py_dict_set k v d = d ++ [(k, v)].
Proof.
  induction d as [|[k' v'] d IH]; cbn; [done|]. destruct (String.eqb k k'); [done|]. intros Hd. by rewrite IH.
Qed.

(** ** datetime.fromtimestamp(t, tz=timezone.utc) for an integer [t] *)
Inductive fromtimestamp_result : Type :=
  | Timestamp (d : datetime)
  | YearOutOfRange                  (* ValueError *)
  | PlatformRange.                  (* OSError or OverflowError, from the C library's range *)
Definition MIN_DATETIME_SECONDS : Z := -62135596800.
Definition MAX_DATETIME_SECONDS : Z := 253402300799.
(** The seconds for which [gmtime_r] has an [int] year. *)
Definition MIN_GMTIME_SECONDS : Z := -67768040609740800.
Definition MAX_GMTIME_SECONDS : Z := 67768036191676799.
Definition fromtimestamp_utc (t : Z) : fromtimestamp_result :=
  if (MIN_DATETIME_SECONDS <=? t) && (t <=? MAX_DATETIME_SECONDS) then Timestamp (utc (seconds t))
  else if (MIN_GMTIME_SECONDS <=? t) && (t <=? MAX_GMTIME_SECONDS) then YearOutOfRange
  else PlatformRange.

Example fromtimestamp_max : fromtimestamp_utc 253402300799 = Timestamp (utc 253402300799000000)
  ∧ isoformat (utc 253402300799000000) = "9999-12-31T23:59:59+00:00"%string.
Proof. split; vm_compute; reflexivity. Qed.
