(* ===== verification/PyNumbers.v ===== *)
(** * Python's arithmetic and formatting of floats

    Addition and subtraction, [abs], [min], true division of integers, the built-in
    [sum], [round(x, n)] and the fixed-point format, on the binary64 values of PyFloat.
    Nothing here models a file of the repository. *)
From S2P Require Import Prelude Python PyFloat.

Definition fl_add (x y : float) : float := SFadd fl_prec fl_emax x y.
Definition fl_sub (x y : float) : float := SFsub fl_prec fl_emax x y.
Definition fl_abs : float → float := SFabs.
Definition fl_zero : float := S754_zero false.
Definition fl_one : float := fl_of_Z 1.
Definition fl_is_finite (x : float) : bool :=
  match x with S754_zero _ | S754_finite _ _ _ => true | _ => false end.
(** [float(n)]; [None] is the OverflowError. *)
Definition py_float_of_int (z : Z) : option float :=
  let x := fl_of_Z z in if fl_is_finite x then Some x else None.

(** [a / b] on integers, the quotient rounded once; [None] is the ZeroDivisionError or
    the OverflowError. *)
Definition py_truediv (a b : Z) : option float :=
  if b =? 0 then None
  else
    let signed z := match z with
      | Z0 => S754_zero false | Zpos p => S754_finite false p 0 | Zneg p => S754_finite true p 0 end in
    let q := fl_div (signed a) (signed b) in
    if fl_is_finite q then Some q else None.

(** [sum(l)] of floats: CPython compensates the rounding errors (Neumaier), and adds the
    compensation at the end unless it is zero or not finite. *)
Definition sum_step (acc : float * float) (x : float) : float * float :=
  let '(s, c) := acc in
  let t := fl_add s x in
  (t, if fl_leb (fl_abs x) (fl_abs s) then fl_add c (fl_add (fl_sub s t) x)
      else fl_add c (fl_add (fl_sub x t) s)).
Definition py_sum (l : list float) : float :=
  let '(s, c) := fold_left sum_step l (fl_zero, fl_zero) in
  if fl_is_finite c && negb (fl_eqb c fl_zero) then fl_add s c else s.
(** The column added up, one rounding per row. *)
Definition column_sum (l : list float) : float := fold_left fl_add l fl_zero.

(** The integer nearest to [x * 10^n] in magnitude, half to even. *)
Definition scaled_digits (n : nat) (m e : Z) : Z :=
  let k := 10 ^ Z.of_nat n in
  if 0 <=? e then m * 2 ^ e * k else div_half_even (m * k) (2 ^ (- e)).
Definition sign_str (s : bool) : string := if s then "-" else "".
Definition fixed_digits (n : nat) (d : Z) : string :=
  let k := 10 ^ Z.of_nat n in
  str_int (d / k) +:+ match n with O => "" | _ => "." +:+ dec_fixed n (d mod k) end.
(** [f"{x:.nf}"]. *)
Definition fmt_fixed (n : nat) (x : float) : string :=
  match x with
  | S754_nan => "nan"
  | S754_infinity s => sign_str s +:+ "inf"
  | S754_zero s => sign_str s +:+ fixed_digits n 0
  | S754_finite s m e => sign_str s +:+ fixed_digits n (scaled_digits n (Zpos m) e)
  end.

(** [round(x, n)]. *)
Definition py_round (n : nat) (x : float) : float :=
  match x with
  | S754_finite s m e =>
      let d := scaled_digits n (Zpos m) e in
      let y := of_digits d (- Z.of_nat n) in
      if s then fl_opp y else y
  | _ => x
  end.

(** ** Against the interpreter *)
Example sum_compensates :
  py_sum [fl_lit 60 100; fl_lit 15 100; fl_lit 15 100] = fl_lit 8999999999999999 10000000000000000 ∧
  column_sum [fl_lit 60 100; fl_lit 15 100; fl_lit 15 100] = fl_lit 9 10.
Proof. split; vm_compute; reflexivity. Qed.
Example sum_tenths : py_sum (replicate 10 (fl_lit 1 10)) = fl_one ∧ column_sum (replicate 10 (fl_lit 1 10)) ≠ fl_one.
Proof. split; [vm_compute; reflexivity|]. vm_compute. discriminate. Qed.
Example format_examples :
  fmt_fixed 2 (fl_lit 2675 1000) = "2.67"%string ∧ fmt_fixed 0 (fl_lit 5 2) = "2"%string ∧
  fmt_fixed 3 (fl_lit 1 8) = "0.125"%string ∧ fmt_fixed 2 (fl_lit (-1) 1000) = "-0.00"%string ∧
  fmt_fixed 0 (fl_of_Z (10 ^ 20)) = "100000000000000000000"%string.
Proof. repeat split; vm_compute; reflexivity. Qed.
Example round_examples :
  py_round 6 (fl_lit 1 3) = fl_lit 333333 1000000 ∧ py_round 2 (fl_lit 2675 1000) = fl_lit 267 100 ∧
  py_round 6 fl_one = fl_one.
Proof. repeat split; vm_compute; reflexivity. Qed.
Example truediv_examples :
  py_truediv 1 3 = Some (fl_lit 1 3) ∧ py_truediv 0 7 = Some fl_zero ∧ py_truediv 1 0 = None ∧
  py_truediv (10 ^ 400) (10 ^ 399) = Some (fl_of_Z 10) ∧ py_truediv (10 ^ 400) 1 = None.
Proof. repeat split; vm_compute; reflexivity. Qed.
