(* ===== verification/Rounding.v ===== *)
(** * Rounding

    What a binary64 operation returns: the exact result rounded once to 53 bits, half to
    even, with gradual underflow, and infinity from 2^1024 on.  A float that is not
    negative has the value [fx x] in units of 2^-1074; on canonical floats comparison is
    comparison of values, and an operation that rounds is monotone. *)
From S2P Require Import Prelude Python PyFloat PyNumbers.
From Stdlib Require Import ZArith Lia.

(** ** Digits *)
Definition digits (n : Z) : Z := Zdigits2 n.
Lemma digits_log n : 0 < n → digits n = Z.log2 n + 1.
Proof.
  destruct n as [|p|p]; try done. intros _. unfold digits, Zdigits2. induction p as [p IH|p IH|]; [| |done].
  - change (Z.pos (digits2_pos p~1)) with (Z.pos (Pos.succ (digits2_pos p))). rewrite Pos2Z.inj_succ, IH.
    change (Z.pos p~1) with (2 * Z.pos p + 1). rewrite Z.log2_succ_double by lia. lia.
  - change (Z.pos (digits2_pos p~0)) with (Z.pos (Pos.succ (digits2_pos p))). rewrite Pos2Z.inj_succ, IH.
    change (Z.pos p~0) with (2 * Z.pos p). rewrite Z.log2_double by lia. lia.
Qed.
Lemma digits_spec n : 0 < n → 2 ^ (digits n - 1) <= n < 2 ^ digits n.
Proof. intros Hn. rewrite digits_log by done. pose proof (Z.log2_spec n Hn). by replace (Z.log2 n + 1 - 1) with (Z.log2 n) by lia. Qed.
Lemma digits_nonneg n : 0 <= n → 0 <= digits n.
Proof.
  intros Hn. destruct (Z.eq_dec n 0) as [->|Hz]; [done|]. rewrite digits_log by lia. pose proof (Z.log2_nonneg n). lia.
Qed.
Lemma digits_pos n : 0 < n → 1 <= digits n.
Proof. intros Hn. rewrite digits_log by lia. pose proof (Z.log2_nonneg n). lia. Qed.
Lemma digits_mono n m : 0 <= n <= m → digits n <= digits m.
Proof.
  intros H. destruct (Z.eq_dec n 0) as [->|Hz]; [apply digits_nonneg; lia|].
  rewrite !digits_log by lia. pose proof (Z.log2_le_mono n m). lia.
Qed.
Lemma digits_le n k : 0 <= n → 0 <= k → n < 2 ^ k → digits n <= k.
Proof.
  intros Hn Hk H. destruct (Z.eq_dec n 0) as [->|Hz]; [done|]. rewrite digits_log by lia.
  apply Z.log2_lt_pow2 in H; lia.
Qed.
Lemma digits_ge n k : 0 <= k → 2 ^ k <= n → k + 1 <= digits n.
Proof.
  intros Hk H. pose proof (Z.pow_pos_nonneg 2 k). rewrite digits_log by lia. apply Z.log2_le_pow2 in H; lia.
Qed.
Lemma digits_lt n : 0 <= n → n < 2 ^ digits n.
Proof. intros Hn. destruct (Z.eq_dec n 0) as [->|Hz]; [done|]. apply digits_spec. lia. Qed.
Lemma digits_shift n k : 0 < n → 0 <= k → digits (n * 2 ^ k) = digits n + k.
Proof.
  intros Hn Hk. pose proof (Z.pow_pos_nonneg 2 k). rewrite !digits_log by nia. rewrite Z.log2_mul_pow2 by lia. lia.
Qed.

(** ** To the nearest integer, half to even *)
Definition rne (n d : Z) : Z := div_half_even n d.

Lemma rne_bounds n d : 0 < d → n / d <= rne n d <= n / d + 1.
Proof. intros Hd. unfold rne, div_half_even. repeat case_match; lia. Qed.
Lemma rne_nonneg n d : 0 < d → 0 <= n → 0 <= rne n d.
Proof. intros Hd Hn. pose proof (rne_bounds n d Hd). pose proof (Z.div_pos n d Hn Hd). lia. Qed.
Lemma rne_exact c d : 0 < d → rne (c * d) d = c.
Proof.
  intros Hd. unfold rne, div_half_even. rewrite Z.div_mul, Z.mod_mul by lia. by rewrite (proj2 (Z.ltb_lt (2 * 0) d)) by lia.
Qed.
Lemma rne_scale c n d : 0 < c → 0 < d → rne (c * n) (c * d) = rne n d.
Proof.
  intros Hc Hd. unfold rne, div_half_even. rewrite Z.div_mul_cancel_l, Z.mul_mod_distr_l by lia.
  assert (∀ x y, (2 * (c * x) <? c * y) = (2 * x <? y)) as -> by (intros x y; apply eq_bool_prop_intro; rewrite !Is_true_true, !Z.ltb_lt; nia).
  assert (∀ x y, (c * y <? 2 * (c * x)) = (y <? 2 * x)) as -> by (intros x y; apply eq_bool_prop_intro; rewrite !Is_true_true, !Z.ltb_lt; nia).
  done.
Qed.
Lemma rne_mono_same n n' d : 0 < d → n <= n' → rne n d <= rne n' d.
Proof.
  intros Hd Hn. pose proof (Z.div_le_mono n n' d Hd Hn) as Hq.
  destruct (Z.eq_dec (n / d) (n' / d)) as [E|Hne]; [|pose proof (rne_bounds n d Hd); pose proof (rne_bounds n' d Hd); lia].
  assert (Hr : n mod d <= n' mod d) by (rewrite !Z.mod_eq by lia; rewrite E; lia).
  unfold rne, div_half_even. rewrite E. repeat case_match; repeat match goal with
    | H : (_ <? _) = true |- _ => apply Z.ltb_lt in H | H : (_ <? _) = false |- _ => apply Z.ltb_ge in H end; try lia; congruence.
Qed.
Lemma rne_mono n d n' d' : 0 < d → 0 < d' → n * d' <= n' * d → rne n d <= rne n' d'.
Proof.
  intros Hd Hd' H. rewrite <- (rne_scale d' n d), <- (rne_scale d n' d') by done.
  rewrite (Z.mul_comm d' d). apply rne_mono_same; lia.
Qed.
Lemma rne_le n d c : 0 < d → n <= c * d → rne n d <= c.
Proof. intros Hd H. rewrite <- (rne_exact c d Hd). by apply rne_mono_same. Qed.
Lemma rne_ge n d c : 0 < d → c * d <= n → c <= rne n d.
Proof. intros Hd H. rewrite <- (rne_exact c d Hd). by apply rne_mono_same. Qed.

(** ** To 53 bits, in units *)
Definition excess (q : Z) : Z := Z.max 0 (digits q - 53).
Definition rnd (n d : Z) : Z := let k := excess (n / d) in rne n (d * 2 ^ k) * 2 ^ k.

Lemma pow2_pos k : 0 <= k → 0 < 2 ^ k.
Proof. intros Hk. by apply Z.pow_pos_nonneg. Qed.
Lemma excess_nonneg q : 0 <= excess q.
Proof. unfold excess. lia. Qed.
Lemma excess_mono q q' : 0 <= q <= q' → excess q <= excess q'.
Proof. intros H. unfold excess. pose proof (digits_mono q q' H). lia. Qed.
Lemma rnd_scale c n d : 0 < c → 0 < d → rnd (c * n) (c * d) = rnd n d.
Proof.
  intros Hc Hd. unfold rnd. rewrite Z.div_mul_cancel_l by lia.
  rewrite <- Z.mul_assoc. rewrite rne_scale; [done..|]. pose proof (pow2_pos _ (excess_nonneg (n / d))). nia.
Qed.
(** Rounding stays within the binade. *)
Lemma rnd_upper n d : 0 < d → 0 <= n → rnd n d <= 2 ^ (53 + excess (n / d)).
Proof.
  intros Hd Hn. unfold rnd. set (k := excess (n / d)). pose proof (pow2_pos k (excess_nonneg _)) as Hk.
  assert (rne n (d * 2 ^ k) <= 2 ^ 53); [|rewrite Z.pow_add_r by (try apply excess_nonneg; lia); nia].
  apply rne_le; [nia|]. pose proof (Z.div_pos n d Hn Hd) as Hq. pose proof (digits_lt _ Hq) as Hl.
  assert (2 ^ digits (n / d) <= 2 ^ (53 + k)) by (apply Z.pow_le_mono_r; unfold k, excess; lia).
  rewrite Z.pow_add_r in * by (try apply excess_nonneg; lia).
  pose proof (Z.div_mod n d ltac:(lia)). pose proof (Z.mod_pos_bound n d Hd). nia.
Qed.
Lemma rnd_lower n d : 0 < d → 0 <= n → 0 < excess (n / d) → 2 ^ (52 + excess (n / d)) <= rnd n d.
Proof.
  intros Hd Hn He. unfold rnd. set (k := excess (n / d)) in *. pose proof (pow2_pos k (excess_nonneg _)) as Hk.
  assert (2 ^ 52 <= rne n (d * 2 ^ k)); [|rewrite Z.pow_add_r by lia; nia].
  apply rne_ge; [nia|]. assert (Hq : 0 < n / d).
  { pose proof (Z.div_pos n d Hn Hd). destruct (Z.eq_dec (n / d) 0) as [E|]; [|lia]. unfold k in He. by rewrite E in He. }
  pose proof (proj1 (digits_spec _ Hq)) as Hl. assert (E : digits (n / d) - 1 = 52 + k) by (unfold k, excess in *; lia).
  rewrite E, Z.pow_add_r in Hl by lia. pose proof (Z.div_mod n d ltac:(lia)). pose proof (Z.mod_pos_bound n d Hd). nia.
Qed.
Lemma rnd_mono_same n n' d : 0 < d → 0 <= n <= n' → rnd n d <= rnd n' d.
Proof.
  intros Hd Hn. assert (Hq : 0 <= n / d <= n' / d) by (split; [apply Z.div_pos; lia|apply Z.div_le_mono; lia]).
  pose proof (excess_mono _ _ Hq) as Hk. destruct (Z.eq_dec (excess (n / d)) (excess (n' / d))) as [E|Hne].
  - unfold rnd. rewrite E. pose proof (pow2_pos _ (excess_nonneg (n' / d))).
    apply Z.mul_le_mono_nonneg_r; [lia|]. apply rne_mono_same; [nia|lia].
  - pose proof (excess_nonneg (n / d)). etransitivity; [apply rnd_upper; lia|].
    etransitivity; [|apply rnd_lower; lia]. apply Z.pow_le_mono_r; lia.
Qed.
Lemma rnd_mono n d n' d' : 0 < d → 0 < d' → 0 <= n → n * d' <= n' * d → rnd n d <= rnd n' d'.
Proof.
  intros Hd Hd' Hn H. rewrite <- (rnd_scale d' n d), <- (rnd_scale d n' d') by done.
  rewrite (Z.mul_comm d' d). apply rnd_mono_same; nia.
Qed.
Lemma rnd_nonneg n d : 0 < d → 0 <= n → 0 <= rnd n d.
Proof.
  intros Hd Hn. unfold rnd. pose proof (pow2_pos _ (excess_nonneg (n / d))).
  pose proof (rne_nonneg n (d * 2 ^ excess (n / d)) ltac:(nia) Hn). nia.
Qed.

(** ** The rounding of SpecFloat *)
Definition emin : Z := -1074.
Definition fx_top : Z := 2 ^ 2098.
(** The exponent of the last bit of a number of that magnitude. *)
Definition F (z : Z) : Z := fexp 53 1024 z.
Lemma F_eq z : F z = Z.max (z - 53) emin.
Proof. done. Qed.

(** The quotient [a / b] with the position of the remainder in its last bit. *)
Definition rec_of (a b : Z) : shr_record :=
  Build_shr_record (a / b) (b <=? 2 * (a mod b)) (negb ((2 * (a mod b)) mod b =? 0)).
Definition loc_of (a b : Z) : location := loc_of_shr_record (rec_of a b).

Lemma shr_1_half m r s : 0 <= m →
  shr_1 (Build_shr_record m r s) = Build_shr_record (m / 2) (Z.odd m) (r || s).
Proof.
  intros Hm. rewrite <- Z.div2_div. by destruct m as [|[p|p|]|p].
Qed.
Lemma shr_1_rec a b : 0 <= a → 0 < b → shr_1 (rec_of a b) = rec_of a (b * 2).
Proof.
  intros Ha Hb. unfold rec_of. rewrite shr_1_half by (by apply Z.div_pos).
  rewrite <- Z.div_div by lia. pose proof (Z.mod_pos_bound a b Hb) as Hr.
  assert (E : a mod (b * 2) = a mod b + b * ((a / b) mod 2)) by (rewrite Z.rem_mul_r by lia; lia).
  rewrite E, Zmod_odd. pose proof (Z.mod_pos_bound (2 * (a mod b)) b Hb).
  f_equal.
  - destruct (Z.odd (a / b)); symmetry; [apply Z.leb_le|apply Z.leb_gt]; lia.
  - assert (E2 : (2 * (a mod b + b * (if Z.odd (a / b) then 1 else 0))) mod (b * 2) = 2 * (a mod b)).
    { destruct (Z.odd (a / b)).
      - replace (2 * (a mod b + b * 1)) with (2 * (a mod b) + 1 * (b * 2)) by lia. rewrite Z.mod_add by lia. apply Z.mod_small. lia.
      - replace (2 * (a mod b + b * 0)) with (2 * (a mod b)) by lia. apply Z.mod_small. lia. }
    rewrite E2. destruct (Z.leb_spec b (2 * (a mod b))) as [Hle|Hgt]; cbn [orb].
    + symmetry. apply negb_true_iff, Z.eqb_neq. lia.
    + rewrite (Z.mod_small (2 * (a mod b)) b) by lia. done.
Qed.
Lemma iter_shr_rec p a b : 0 <= a → 0 < b → SpecFloat.iter_pos shr_1 p (rec_of a b) = rec_of a (b * 2 ^ Z.pos p).
Proof.
  intros Ha. revert b. induction p as [p IH|p IH|]; intros b Hb; cbn [SpecFloat.iter_pos].
  - rewrite shr_1_rec, IH, IH by (try apply Z.mul_pos_pos; try apply pow2_pos; lia). f_equal.
    replace (Z.pos p~1) with (1 + Z.pos p + Z.pos p) by lia. rewrite !Z.pow_add_r by lia. lia.
  - rewrite !IH by (try apply Z.mul_pos_pos; try apply pow2_pos; lia). f_equal.
    replace (Z.pos p~0) with (Z.pos p + Z.pos p) by lia. rewrite Z.pow_add_r by lia. lia.
  - rewrite shr_1_rec by lia. done.
Qed.
Lemma shr_rec a b e n : 0 <= a → 0 < b → 0 <= n → shr (rec_of a b) e n = (rec_of a (b * 2 ^ n), e + n).
Proof.
  intros Ha Hb Hn. destruct n as [|p|p]; [|by cbn [shr]; rewrite iter_shr_rec|lia].
  cbn [shr]. by rewrite Z.mul_1_r, Z.add_0_r.
Qed.
Lemma record_of_loc a b : shr_record_of_loc (a / b) (loc_of a b) = rec_of a b.
Proof. unfold loc_of, rec_of. by destruct (_ <=? _), (negb _). Qed.
Lemma shr_fexp_rec a b e : 0 <= a → 0 < b → e <= F (digits (a / b) + e) →
  shr_fexp 53 1024 (a / b) e (loc_of a b) =
  (rec_of a (b * 2 ^ (F (digits (a / b) + e) - e)), F (digits (a / b) + e)).
Proof.
  intros Ha Hb He. unfold shr_fexp. rewrite record_of_loc. fold (F (digits (a / b) + e)).
  change (Zdigits2 (a / b)) with (digits (a / b)). fold (F (digits (a / b) + e)). rewrite shr_rec by lia. f_equal. lia.
Qed.
Lemma nearest_rec a b : 0 < b → round_nearest_even (a / b) (loc_of a b) = rne a b.
Proof.
  intros Hb. pose proof (Z.mod_pos_bound a b Hb) as Hr. unfold loc_of, rec_of, rne, div_half_even.
  destruct (Z.leb_spec b (2 * (a mod b))) as [Hle|Hlt].
  - destruct (Z.ltb_spec (2 * (a mod b)) b); [lia|]. destruct (Z.ltb_spec b (2 * (a mod b))) as [Hlt|Hge].
    + assert (E : (2 * (a mod b)) mod b = 2 * (a mod b) - b).
      { replace (2 * (a mod b)) with (2 * (a mod b) - b + 1 * b) by lia. rewrite Z.mod_add by lia. rewrite Z.mod_small; lia. }
      rewrite E. by rewrite (proj2 (Z.eqb_neq _ 0)) by lia.
    + assert (E : 2 * (a mod b) = b) by lia. rewrite E, Z.mod_same by lia. done.
  - rewrite (Z.mod_small (2 * (a mod b))) by lia. destruct (Z.ltb_spec (2 * (a mod b)) b); [|lia].
    by destruct (2 * (a mod b) =? 0).
Qed.
Lemma exact_loc m : loc_of m 1 = loc_Exact.
Proof. unfold loc_of, rec_of. by rewrite Z.mod_1_r. Qed.

(** ** Values *)
Definition fx (x : float) : Z :=
  match x with
  | S754_zero _ | S754_nan => 0
  | S754_infinity _ => fx_top
  | S754_finite _ m e => Z.pos m * 2 ^ (e - emin)
  end.
Definition canonical (x : float) : Prop := valid_binary 53 1024 x = true.
Definition sign_is (s : bool) (x : float) : Prop :=
  match x with S754_zero s' | S754_infinity s' | S754_finite s' _ _ => s' = s | S754_nan => False end.

Lemma canonical_finite s m e : canonical (S754_finite s m e) ↔ F (digits (Z.pos m) + e) = e ∧ e <= 971.
Proof.
  unfold canonical, valid_binary, bounded, canonical_mantissa. rewrite andb_true_iff, Z.eqb_eq, Z.leb_le. done.
Qed.
Lemma canonical_bounds s m e : canonical (S754_finite s m e) →
  emin <= e <= 971 ∧ Z.pos m < 2 ^ 53 ∧ (e = emin ∨ 2 ^ 52 <= Z.pos m).
Proof.
  intros [H He]%canonical_finite. rewrite F_eq in H. pose proof (digits_spec (Z.pos m) ltac:(lia)) as [Hl Hu].
  unfold emin in *. assert (Hd : digits (Z.pos m) <= 53) by lia. split; [lia|]. split.
  - eapply Z.lt_le_trans; [exact Hu|]. apply Z.pow_le_mono_r; lia.
  - destruct (Z.eq_dec e (-1074)) as [->|Hne]; [by left|right]. assert (E : digits (Z.pos m) = 53) by lia. by rewrite E in Hl.
Qed.

(** The result of rounding [a / b * 2^e], its last bit above [e]. *)
Definition rounded (a b e : Z) : Z :=
  let E := F (digits (a / b) + e) in rne a (b * 2 ^ (E - e)) * 2 ^ (E - emin).

Lemma rounding_mantissa a b e : 0 <= a → 0 < b → e <= F (digits (a / b) + e) →
  let E := F (digits (a / b) + e) in let m := rne a (b * 2 ^ (E - e)) in
  emin <= E ∧ 0 <= m <= 2 ^ 53 ∧ (E = emin ∨ 2 ^ 52 <= m).
Proof.
  intros Ha Hb He E m. pose proof (Z.div_pos a b Ha Hb) as Hq. pose proof (digits_lt _ Hq) as Hl.
  pose proof (pow2_pos (E - e) ltac:(unfold E; lia)) as Hs.
  pose proof (Z.div_mod a b ltac:(lia)) as Hdm. pose proof (Z.mod_pos_bound a b Hb) as Hr.
  assert (HE : E = Z.max (digits (a / b) + e - 53) emin) by (unfold E; apply F_eq).
  split; [lia|]. split.
  - split; [apply rne_nonneg; nia|]. apply rne_le; [nia|].
    assert (2 ^ digits (a / b) <= 2 ^ (53 + (E - e))) by (apply Z.pow_le_mono_r; lia).
    rewrite Z.pow_add_r in * by lia. nia.
  - destruct (Z.eq_dec E emin) as [?|Hne]; [by left|right]. apply rne_ge; [nia|].
    assert (H0 : 0 < a / b).
    { destruct (Z.eq_dec (a / b) 0) as [E0|]; [|lia]. rewrite E0 in HE. change (digits 0) with 0 in HE. lia. }
    pose proof (proj1 (digits_spec _ H0)) as Hlow. assert (E1 : digits (a / b) - 1 = 52 + (E - e)) by lia.
    rewrite E1, Z.pow_add_r in Hlow by lia. nia.
Qed.

Lemma shr_fexp_exact m E k : 0 <= m → F (digits m + E) = E + k → 0 <= k →
  shr_fexp 53 1024 m E loc_Exact = (rec_of m (2 ^ k), E + k).
Proof.
  intros Hm HF Hk. pose proof (shr_fexp_rec m 1 E Hm eq_refl) as H. rewrite exact_loc, Z.div_1_r, HF in H.
  rewrite H by lia. rewrite Z.mul_1_l. by replace (E + k - E) with k by lia.
Qed.
Lemma rec_m a b : shr_m (rec_of a b) = a / b.
Proof. done. Qed.

(** The last step of a rounding: a mantissa of at most 2^53 at the exponent [E]. *)
Definition finished (s : bool) (m E : Z) : float :=
  let '(r, e) := shr_fexp 53 1024 m E loc_Exact in
  match shr_m r with
  | Z0 => S754_zero s
  | Zpos m => if Z.leb e (1024 - 53) then S754_finite s m e else S754_infinity s
  | _ => S754_nan
  end.
Lemma finished_spec s m E : emin <= E → 0 <= m <= 2 ^ 53 → (E = emin ∨ 2 ^ 52 <= m) →
  canonical (finished s m E) ∧ sign_is s (finished s m E) ∧ fx (finished s m E) = Z.min (m * 2 ^ (E - emin)) fx_top.
Proof.
  intros HE Hm Hn. unfold finished.
  destruct (Z.eq_dec m 0) as [->|H0]; [|destruct (Z.eq_dec m (2 ^ 53)) as [Htop|Htop]].
  - assert (E = emin) as -> by lia. rewrite (shr_fexp_exact 0 emin 0) by done.
    done.
  - subst m. assert (HF : F (digits (2 ^ 53) + E) = E + 1) by (rewrite F_eq; change (digits (2 ^ 53)) with 54; lia).
    rewrite (shr_fexp_exact (2 ^ 53) E 1 ltac:(lia) HF) by lia. rewrite rec_m. change (2 ^ 53 / 2 ^ 1) with (Z.pos (2 ^ 52)).
    cbv iota. destruct (Z.leb_spec (E + 1) (1024 - 53)) as [Hle|Hgt].
    + split; [|split; [done|]].
      * apply canonical_finite. rewrite F_eq. change (digits (Z.pos (2 ^ 52))) with 53. lia.
      * cbn [fx]. change (Z.pos (2 ^ 52)) with (2 ^ 52). rewrite <- !Z.pow_add_r by lia. rewrite Z.min_l; [f_equal; lia|].
        apply Z.pow_le_mono_r; unfold emin in *; lia.
    + split; [done|]. split; [done|]. cbn [fx]. rewrite <- Z.pow_add_r by lia. symmetry. apply Z.min_r.
      apply Z.pow_le_mono_r; unfold emin in *; lia.
  - assert (Hd : digits m <= 53) by (apply digits_le; lia).
    assert (Hd' : E = emin ∨ digits m = 53).
    { destruct Hn as [?|Hn]; [by left|right]. pose proof (digits_ge m 52 ltac:(lia) Hn). lia. }
    assert (HF : F (digits m + E) = E + 0) by (rewrite F_eq; lia).
    rewrite (shr_fexp_exact m E 0 ltac:(lia) HF) by lia. rewrite rec_m. change (2 ^ 0) with 1. rewrite Z.div_1_r, Z.add_0_r in *.
    destruct m as [|m|m]; [lia| |lia]. destruct (Z.leb_spec E (1024 - 53)) as [Hle|Hgt].
    + split; [by apply canonical_finite|]. split; [done|]. cbn [fx]. rewrite Z.min_l; [done|].
      change fx_top with (2 ^ 53 * 2 ^ 2045). apply Z.mul_le_mono_nonneg; [lia|lia|apply Z.pow_nonneg; lia|].
      apply Z.pow_le_mono_r; unfold emin in *; lia.
    + split; [done|]. split; [done|]. cbn [fx]. symmetry. apply Z.min_r. change fx_top with (2 ^ 52 * 2 ^ 2046).
      apply Z.mul_le_mono_nonneg; [lia| |lia|apply Z.pow_le_mono_r; unfold emin in *; lia].
      destruct Hn as [?|?]; unfold emin in *; lia.
Qed.

Lemma round_aux_spec s a b e : 0 <= a → 0 < b → e <= F (digits (a / b) + e) →
  let r := binary_round_aux 53 1024 s (a / b) e (loc_of a b) in
  canonical r ∧ sign_is s r ∧ fx r = Z.min (rounded a b e) fx_top.
Proof.
  intros Ha Hb He r. pose proof (rounding_mantissa a b e Ha Hb He) as (H1 & H2 & H3).
  assert (E : r = finished s (rne a (b * 2 ^ (F (digits (a / b) + e) - e))) (F (digits (a / b) + e))); [|rewrite E; by apply finished_spec].
  unfold r, binary_round_aux. rewrite shr_fexp_rec by done. rewrite rec_m. fold (loc_of a (b * 2 ^ (F (digits (a / b) + e) - e))).
  rewrite nearest_rec; [done|]. pose proof (pow2_pos (F (digits (a / b) + e) - e) ltac:(lia)). nia.
Qed.

(** The same value in units of 2^-1074. *)
Lemma rounded_units a b e : 0 <= a → 0 < b → e <= F (digits (a / b) + e) →
  rounded a b e = if emin <=? e then rnd (a * 2 ^ (e - emin)) b else rnd a (b * 2 ^ (emin - e)).
Proof.
  intros Ha Hb He. unfold rounded, rnd. set (E := F (digits (a / b) + e)) in *.
  assert (HE : E = Z.max (digits (a / b) + e - 53) emin) by apply F_eq.
  pose proof (Z.div_pos a b Ha Hb) as Hq. destruct (Z.leb_spec emin e) as [Hle|Hlt].
  - pose proof (pow2_pos (e - emin) ltac:(lia)) as Hp.
    assert (Hk : excess (a * 2 ^ (e - emin) / b) = E - emin).
    { unfold excess. destruct (Z.eq_dec (a / b) 0) as [E0|H0].
      - rewrite E0 in HE. change (digits 0) with 0 in HE. assert (e = emin) as -> by lia.
        rewrite Z.sub_diag, Z.mul_1_r, E0. change (digits 0) with 0. lia.
      - assert (Hd : digits (a * 2 ^ (e - emin) / b) = digits (a / b) + (e - emin)).
        { apply Z.le_antisymm.
          - apply digits_le; [apply Z.div_pos; nia|pose proof (digits_nonneg _ Hq); lia|].
            rewrite Z.pow_add_r by (pose proof (digits_nonneg _ Hq); lia). apply Z.div_lt_upper_bound; [done|].
            pose proof (digits_lt _ Hq). pose proof (Z.div_mod a b ltac:(lia)). pose proof (Z.mod_pos_bound a b Hb).
            assert (a < b * 2 ^ digits (a / b)) by nia. nia.
          - pose proof (digits_spec (a / b) ltac:(lia)) as [Hs _]. pose proof (digits_pos (a / b) ltac:(lia)).
            assert (digits (a / b) - 1 + (e - emin) + 1 <= digits (a * 2 ^ (e - emin) / b)); [|lia].
            apply digits_ge; [lia|]. rewrite Z.pow_add_r by lia. apply Z.div_le_lower_bound; [done|].
            pose proof (Z.div_mod a b ltac:(lia)). pose proof (Z.mod_pos_bound a b Hb).
            assert (b * 2 ^ (digits (a / b) - 1) <= a) by nia. nia. }
        rewrite Hd. lia. }
    rewrite Hk. f_equal. rewrite <- (rne_scale (2 ^ (e - emin)) a); [|lia|pose proof (pow2_pos (E - e)); nia].
    f_equal; [lia|]. replace (E - emin) with (E - e + (e - emin)) by lia. rewrite Z.pow_add_r by lia. lia.
  - pose proof (pow2_pos (emin - e) ltac:(lia)) as Hp.
    assert (Hk : excess (a / (b * 2 ^ (emin - e))) = E - emin).
    { unfold excess. rewrite <- Z.div_div by lia. set (q := a / b) in *. set (t := emin - e) in *.
      destruct (Z.le_gt_cases (2 ^ t) q) as [Hbig|Hsmall].
      - assert (Hd : digits (q / 2 ^ t) = digits q - t).
        { rewrite !digits_log; [|lia|apply Z.div_str_pos; lia]. rewrite <- Z.shiftr_div_pow2 by lia.
          rewrite Z.log2_shiftr by lia. apply Z.log2_le_pow2 in Hbig; [|lia]. lia. }
        rewrite Hd. lia.
      - rewrite (Z.div_small q) by lia. change (digits 0) with 0.
        pose proof (digits_le q t Hq ltac:(lia) Hsmall). lia. }
    rewrite Hk. f_equal. f_equal. replace (E - e) with (emin - e + (E - emin)) by lia. rewrite Z.pow_add_r by lia. lia.
Qed.

(** ** Floats that are not negative *)
Ltac impossible :=
  try match goal with
      | H : False |- _ => destruct H
      | H : fl_is_finite (S754_infinity _) = true |- _ => discriminate H
      | H : fl_is_finite S754_nan = true |- _ => discriminate H
      end.
Definition nonneg (x : float) : Prop :=
  canonical x ∧ match x with S754_zero _ | S754_finite false _ _ | S754_infinity false => True | _ => False end.
Definition nonneg_finite (x : float) : Prop := nonneg x ∧ fl_is_finite x = true.

Lemma nonneg_sign x : canonical x → sign_is false x → nonneg x.
Proof. intros Hc Hs. split; [done|]. destruct x as [[]|[]| |[] m e]; done. Qed.
Lemma fx_finite m e : canonical (S754_finite false m e) → 0 < Z.pos m * 2 ^ (e - emin) < fx_top.
Proof.
  intros Hc. apply canonical_bounds in Hc as (He & Hm & _). pose proof (pow2_pos (e - emin) ltac:(lia)) as Hp.
  split; [nia|]. change fx_top with (2 ^ 53 * 2 ^ 2045).
  assert (2 ^ (e - emin) <= 2 ^ 2045) by (apply Z.pow_le_mono_r; unfold emin in *; lia). nia.
Qed.
Lemma fx_range x : nonneg x → 0 <= fx x <= fx_top.
Proof.
  intros [Hc Hx]. destruct x as [s|[]| |[] m e]; impossible; cbn [fx]; try (split; [done|by rewrite ?Z.le_refl]). apply fx_finite in Hc. lia.
Qed.
Lemma fx_lt_top x : nonneg_finite x → 0 <= fx x < fx_top.
Proof.
  intros [[Hc Hx] Hf]. destruct x as [s|[]| |[] m e]; impossible; cbn [fx]; try (split; [done|by rewrite ?Z.le_refl]). apply fx_finite in Hc. lia.
Qed.

Lemma finite_order m e m' e' : canonical (S754_finite false m e) → canonical (S754_finite false m' e') → e < e' →
  Z.pos m * 2 ^ (e - emin) < Z.pos m' * 2 ^ (e' - emin).
Proof.
  intros (He & Hm & _)%canonical_bounds (He' & _ & Hn)%canonical_bounds Hlt.
  assert (Hm' : 2 ^ 52 <= Z.pos m') by (destruct Hn; [unfold emin in *; lia|done]).
  pose proof (pow2_pos (e - emin) ltac:(lia)).
  assert (2 * 2 ^ (e - emin) <= 2 ^ (e' - emin)).
  { change 2 with (2 ^ 1) at 1. rewrite <- Z.pow_add_r by lia. apply Z.pow_le_mono_r; lia. }
  change (2 ^ 53) with (2 * 2 ^ 52) in Hm. nia.
Qed.
Lemma compare_fx x y : nonneg x → nonneg y → SFcompare x y = Some (fx x ?= fx y).
Proof.
  intros [Hx Hx'] [Hy Hy'].
  destruct x as [s|[]| |[] m e]; impossible; destruct y as [s'|[]| |[] m' e']; impossible; cbn [SFcompare fx]; f_equal.
  all: try (pose proof (fx_finite _ _ Hx)); try (pose proof (fx_finite _ _ Hy)).
  all: try (symmetry; first [apply Z.compare_lt_iff|apply Z.compare_gt_iff]; lia).
  destruct (Z.compare_spec e e') as [->|Hlt|Hgt].
  - change (Pos.compare_cont Eq m m') with (Z.pos m ?= Z.pos m'). pose proof (canonical_bounds _ _ _ Hx) as (He & _).
    pose proof (pow2_pos (e' - emin) ltac:(lia)). symmetry.
    destruct (Z.compare_spec (Z.pos m) (Z.pos m')) as [->|?|?];
      [apply Z.compare_refl|apply Z.compare_lt_iff; nia|apply Z.compare_gt_iff; nia].
  - symmetry. apply Z.compare_lt_iff. by apply finite_order.
  - symmetry. apply Z.compare_gt_iff. by apply finite_order.
Qed.
Lemma leb_fx x y : nonneg x → nonneg y → fl_leb x y = (fx x <=? fx y).
Proof. intros Hx Hy. unfold fl_leb, SFleb. rewrite compare_fx by done. unfold Z.leb. by destruct (fx x ?= fx y). Qed.
Lemma ltb_fx x y : nonneg x → nonneg y → fl_ltb x y = (fx x <? fx y).
Proof. intros Hx Hy. unfold fl_ltb, SFltb. rewrite compare_fx by done. unfold Z.ltb. by destruct (fx x ?= fx y). Qed.
Lemma eqb_zero_fx x : nonneg x → fl_eqb x fl_zero = (fx x =? 0).
Proof.
  intros Hx. unfold fl_eqb, SFeqb. rewrite compare_fx by done. change (fx fl_zero) with 0. rewrite Z.eqb_compare. by destruct (fx x ?= 0).
Qed.

(** ** The operations *)
Lemma rnd_eq n d n' d' : 0 < d → 0 < d' → 0 <= n → 0 <= n' → n * d' = n' * d → rnd n d = rnd n' d'.
Proof. intros Hd Hd' Hn Hn' H. apply Z.le_antisymm; apply rnd_mono; lia. Qed.
Lemma rnd_zero d : 0 < d → rnd 0 d = 0.
Proof. intros Hd. unfold rnd. rewrite Z.div_0_l by lia. change (excess 0) with 0. change (2 ^ 0) with 1. rewrite Z.mul_1_r. apply (rne_exact 0). lia. Qed.
Lemma rnd_exact x : nonneg_finite x → rnd (fx x) 1 = fx x.
Proof.
  intros [[Hc Hx] Hf]. destruct x as [s|[]| |[] m e]; impossible; cbn [fx]; [by apply rnd_zero|].
  pose proof (canonical_bounds _ _ _ Hc) as (He & _). apply canonical_finite in Hc as [HF _]. rewrite F_eq in HF.
  unfold rnd. rewrite Z.div_1_r. pose proof (digits_shift (Z.pos m) (e - emin) ltac:(lia) ltac:(lia)) as Hd.
  assert (Hk : excess (Z.pos m * 2 ^ (e - emin)) = e - emin) by (unfold excess; rewrite Hd; lia).
  rewrite Hk, Z.mul_1_l, rne_exact; [done|]. apply pow2_pos. lia.
Qed.

Lemma pos_iter_shift d m : Z.pos (Pos.iter xO m d) = Z.pos m * 2 ^ Z.pos d.
Proof.
  revert m. induction d as [|d IH] using Pos.peano_ind; intros m; [cbn; lia|].
  rewrite Pos.iter_succ. change (Z.pos (Pos.iter xO m d)~0) with (2 * Z.pos (Pos.iter xO m d)). rewrite IH.
  rewrite Pos2Z.inj_succ, Z.pow_succ_r by lia. lia.
Qed.
Lemma shl_align_spec m e e' : Z.pos (fst (shl_align m e e')) = Z.pos m * 2 ^ (e - Z.min e e') ∧ snd (shl_align m e e') = Z.min e e'.
Proof.
  unfold shl_align. destruct (e' - e) as [|d|d] eqn:E; cbn [fst snd].
  - rewrite Z.min_l by lia. rewrite Z.sub_diag, Z.mul_1_r. done.
  - rewrite Z.min_l by lia. rewrite Z.sub_diag, Z.mul_1_r. done.
  - rewrite Z.min_r by lia. rewrite pos_iter_shift. split; [|done]. f_equal. f_equal. lia.
Qed.
(** An integer number of units, rounded. *)
Lemma binary_round_spec s m e : emin <= e →
  let r := binary_round 53 1024 s m e in
  canonical r ∧ sign_is s r ∧ fx r = Z.min (rnd (Z.pos m * 2 ^ (e - emin)) 1) fx_top.
Proof.
  intros He r. unfold r, binary_round. fold (F (Z.pos (digits2_pos m) + e)). change (Z.pos (digits2_pos m)) with (digits (Z.pos m)).
  destruct (shl_align_spec m e (F (digits (Z.pos m) + e))) as [Hm Hs].
  destruct (shl_align m e (F (digits (Z.pos m) + e))) as [m' e'] eqn:Ea. cbn [fst snd] in Hm, Hs.
  assert (Hle : emin <= e') by (subst e'; rewrite F_eq; lia).
  assert (Hd : digits (Z.pos m') = digits (Z.pos m) + (e - e')) by (rewrite Hm, Hs; apply digits_shift; lia).
  assert (Hpre : e' <= F (digits (Z.pos m' / 1) + e')).
  { rewrite Z.div_1_r, Hd. replace (digits (Z.pos m) + (e - e') + e') with (digits (Z.pos m) + e) by lia. lia. }
  pose proof (round_aux_spec s (Z.pos m') 1 e' ltac:(lia) ltac:(lia) Hpre) as Hr.
  cbv zeta in Hr. rewrite rounded_units, exact_loc, Z.div_1_r in Hr by (done || lia). rewrite (proj2 (Z.leb_le emin e')) in Hr by done.
  replace (Z.pos m * 2 ^ (e - emin)) with (Z.pos m' * 2 ^ (e' - emin)); [done|].
  rewrite Hm, <- Hs. replace (e - emin) with (e - e' + (e' - emin)) by lia. rewrite Z.pow_add_r by lia. lia.
Qed.
Lemma sub_finite mx ex my ey : emin <= ex → emin <= ey →
  let d := Z.pos mx * 2 ^ (ex - emin) - Z.pos my * 2 ^ (ey - emin) in
  let r := fl_sub (S754_finite false mx ex) (S754_finite false my ey) in
  match d with
  | Zpos _ => canonical r ∧ sign_is false r ∧ fx r = Z.min (rnd d 1) fx_top
  | Z0 => r = fl_zero
  | Zneg _ => sign_is true r
  end.
Proof.
  intros Hex Hey d r. unfold r, fl_sub, SFsub. set (ez := Z.min ex ey).
  destruct (shl_align_spec mx ex ez) as [H1 _]. destruct (shl_align_spec my ey ez) as [H2 _].
  cbn [cond_Zopp]. rewrite H1, H2. replace (Z.min ex ez) with ez by lia. replace (Z.min ey ez) with ez by lia.
  set (z := Z.pos mx * 2 ^ (ex - ez) - Z.pos my * 2 ^ (ey - ez)).
  assert (Hd : d = z * 2 ^ (ez - emin)).
  { unfold d, z. rewrite Z.mul_sub_distr_r, <- !Z.mul_assoc, <- !Z.pow_add_r by lia. f_equal; f_equal; f_equal; lia. }
  pose proof (pow2_pos (ez - emin) ltac:(lia)) as Hp. rewrite Hd. destruct z as [|p|p].
  - done.
  - destruct (Z.pos p * 2 ^ (ez - emin)) as [|q|q] eqn:Eq; [lia| |lia].
    rewrite <- Eq. cbn [binary_normalize]. apply binary_round_spec. lia.
  - destruct (Z.neg p * 2 ^ (ez - emin)) as [|q|q] eqn:Eq; [lia|lia|].
    cbn [binary_normalize]. apply binary_round_spec. lia.
Qed.

(** A difference that is positive, rounded once. *)
Lemma sub_spec x y : nonneg_finite x → nonneg_finite y → fx y < fx x →
  nonneg (fl_sub x y) ∧ fx (fl_sub x y) = Z.min (rnd (fx x - fx y) 1) fx_top.
Proof.
  intros Hx Hy Hlt. pose proof (fx_lt_top x Hx) as Hrx. pose proof (fx_lt_top y Hy) as Hry. pose proof (rnd_exact x Hx) as Hex.
  destruct Hx as [[Hcx Hsx] Hfx], Hy as [[Hcy Hsy] Hfy].
  destruct x as [s|[]| |[] m e]; impossible; [exfalso; cbn [fx] in *; lia|].
  destruct y as [s|[]| |[] m' e']; impossible.
  - cbn [fl_sub SFsub fx] in *. rewrite Z.sub_0_r, Hex, Z.min_l by lia. done.
  - pose proof (canonical_bounds _ _ _ Hcx) as (He & _). pose proof (canonical_bounds _ _ _ Hcy) as (He' & _).
    pose proof (sub_finite m e m' e' ltac:(lia) ltac:(lia)) as Hd. cbn [fx] in *. cbv zeta in Hd.
    destruct (Z.pos m * 2 ^ (e - emin) - Z.pos m' * 2 ^ (e' - emin)) as [|d|d] eqn:Ed; [lia| |lia].
    destruct Hd as (Hc & Hs & Hv). split; [by apply nonneg_sign|exact Hv].
Qed.
(** A difference that is not positive is at most zero. *)
Lemma sub_nonpos x y : nonneg_finite x → nonneg_finite y → fx x <= fx y → fl_leb (fl_sub x y) fl_zero = true.
Proof.
  intros Hx Hy Hle. pose proof (fx_lt_top x Hx) as Hrx. pose proof (fx_lt_top y Hy) as Hry.
  destruct Hx as [[Hcx Hsx] Hfx], Hy as [[Hcy Hsy] Hfy].
  destruct x as [s|[]| |[] m e]; impossible; destruct y as [s'|[]| |[] m' e']; impossible.
  - by destruct s, s'.
  - done.
  - exfalso. cbn [fx] in Hle. pose proof (fx_finite _ _ Hcx). lia.
  - pose proof (canonical_bounds _ _ _ Hcx) as (He & _). pose proof (canonical_bounds _ _ _ Hcy) as (He' & _).
    pose proof (sub_finite m e m' e' ltac:(lia) ltac:(lia)) as Hd. cbn [fx] in *. cbv zeta in Hd.
    destruct (Z.pos m * 2 ^ (e - emin) - Z.pos m' * 2 ^ (e' - emin)) as [|d|d] eqn:Ed; [by rewrite Hd|lia|].
    destruct (fl_sub _ _) as [[]|[]| |[] ? ?]; done.
Qed.

(** The units of one. *)
Definition unit : Z := 2 ^ 1074.

Lemma mul_spec x y : nonneg_finite x → nonneg_finite y →
  nonneg (fl_mul x y) ∧ fx (fl_mul x y) = Z.min (rnd (fx x * fx y) unit) fx_top.
Proof.
  intros Hx Hy. pose proof (rnd_zero unit eq_refl) as H0. destruct Hx as [[Hcx Hsx] Hfx], Hy as [[Hcy Hsy] Hfy].
  destruct x as [s|[]| |[] m e]; impossible; destruct y as [s'|[]| |[] m' e']; impossible;
    try (cbn [fl_mul SFmul fx]; rewrite ?Z.mul_0_l, ?Z.mul_0_r, H0; split; [split; [reflexivity|exact I]|reflexivity]).
  pose proof (canonical_bounds _ _ _ Hcx) as (He & Hm & Hn). pose proof (canonical_bounds _ _ _ Hcy) as (He' & Hm' & Hn').
  assert (Hpre : e + e' <= F (digits (Z.pos (m * m') / 1) + (e + e'))).
  { rewrite Z.div_1_r, F_eq. destruct (Z.le_gt_cases (e + e') emin) as [?|Hgt]; [lia|].
    assert (2 ^ 52 <= Z.pos (m * m')) by (unfold emin in *; lia).
    pose proof (digits_ge (Z.pos (m * m')) 52 ltac:(lia) ltac:(done)). lia. }
  pose proof (round_aux_spec false (Z.pos (m * m')) 1 (e + e') ltac:(lia) ltac:(lia) Hpre) as (Hc & Hs & Hv).
  rewrite exact_loc, Z.div_1_r in *. split; [by apply nonneg_sign|].
  change (fl_mul _ _) with (binary_round_aux 53 1024 false (Z.pos (m * m')) (e + e') loc_Exact). rewrite Hv. f_equal.
  rewrite rounded_units by (rewrite ?Z.div_1_r in *; done || lia). cbn [fx].
  pose proof (pow2_pos (e - emin) ltac:(lia)). pose proof (pow2_pos (e' - emin) ltac:(lia)).
  destruct (Z.leb_spec emin (e + e')) as [Hle|Hgt].
  - pose proof (pow2_pos (e + e' - emin) ltac:(lia)). apply rnd_eq; try done; try lia.
    rewrite Z.mul_1_r. rewrite Pos2Z.inj_mul.
    transitivity (Z.pos m * Z.pos m' * (2 ^ (e + e' - emin) * unit)); [lia|].
    transitivity (Z.pos m * Z.pos m' * (2 ^ (e - emin) * 2 ^ (e' - emin))); [f_equal|lia].
    unfold unit. rewrite <- !Z.pow_add_r by (unfold emin in *; lia). f_equal. unfold emin. lia.
  - pose proof (pow2_pos (emin - (e + e')) ltac:(lia)). apply rnd_eq; try done; try lia.
    rewrite Z.mul_1_l. rewrite Pos2Z.inj_mul.
    transitivity (Z.pos m * Z.pos m' * unit); [lia|].
    transitivity (Z.pos m * Z.pos m' * (2 ^ (e - emin) * 2 ^ (e' - emin) * 2 ^ (emin - (e + e')))); [f_equal|lia].
    unfold unit. rewrite <- !Z.pow_add_r by (unfold emin in *; lia). f_equal. unfold emin. lia.
Qed.

Lemma new_location_eq b r : new_location b r =
  if r =? 0 then loc_Exact
  else loc_Inexact (if Z.even b then 2 * r ?= b else match 2 * r + 1 ?= b with Gt => Gt | _ => Lt end).
Proof.
  unfold new_location. change (IntDef.Z.even b) with (Z.even b). destruct (Z.even b); [done|].
  unfold new_location_odd. change (IntDef.Z.eqb r 0) with (r =? 0). by destruct (r =? 0).
Qed.
Lemma new_location_rec b r q : 0 < b → 0 <= r < b → new_location b r = loc_of (q * b + r) b.
Proof.
  intros Hb Hr. unfold loc_of, rec_of. rewrite Z.add_comm, Z.mod_add, Z.mod_small by lia.
  rewrite new_location_eq. destruct (Z.eqb_spec r 0) as [->|Hz].
  - rewrite Z.mul_0_r, Z.mod_0_l by lia. by rewrite (proj2 (Z.leb_gt b 0)) by lia.
  - destruct (Z.leb_spec b (2 * r)) as [Hle|Hlt].
    + assert (E : (2 * r) mod b = 2 * r - b).
      { rewrite <- (Z.mod_add _ (-1)) by lia. rewrite Z.mod_small; lia. }
      rewrite E. destruct (Z.even b) eqn:Ev.
      * destruct (Z.eqb_spec (2 * r - b) 0) as [E0|Hne]; cbn [negb].
        -- by rewrite (proj2 (Z.compare_eq_iff (2 * r) b)) by lia.
        -- by rewrite (proj2 (Z.compare_gt_iff (2 * r) b)) by lia.
      * assert (Hodd : Z.odd b = true) by (rewrite <- Z.negb_even, Ev; done).
        apply Z.odd_spec in Hodd as [k Hk]. rewrite (proj2 (Z.compare_gt_iff (2 * r + 1) b)) by lia.
        by rewrite (proj2 (Z.eqb_neq (2 * r - b) 0)) by lia.
    + rewrite (Z.mod_small (2 * r)) by lia. rewrite (proj2 (Z.eqb_neq (2 * r) 0)) by lia. cbn [negb].
      destruct (Z.even b) eqn:Ev; [by rewrite (proj2 (Z.compare_lt_iff (2 * r) b)) by lia|].
      assert (Hodd : Z.odd b = true) by (rewrite <- Z.negb_even, Ev; done).
      destruct (Z.compare_spec (2 * r + 1) b); [done|done|lia].
Qed.

Lemma div_finite mx ex my ey :
  ∃ a e, 0 <= a ∧ e <= F (digits (a / Z.pos my) + e) ∧ e <= ex - ey ∧ a = Z.pos mx * 2 ^ (ex - ey - e) ∧
  fl_div (S754_finite false mx ex) (S754_finite false my ey) =
  binary_round_aux 53 1024 false (a / Z.pos my) e (loc_of a (Z.pos my)).
Proof.
  set (e := Z.min (F (digits (Z.pos mx) + ex - (digits (Z.pos my) + ey))) (ex - ey)).
  set (m' := match ex - ey - e with Z0 => Z.pos mx | Zpos _ => Z.shiftl (Z.pos mx) (ex - ey - e) | Zneg _ => 0 end).
  change (fl_div _ _) with (let '(mz, ez, lz) := let '(q, r) := Z.div_eucl m' (Z.pos my) in (q, e, new_location (Z.pos my) r) in
    binary_round_aux 53 1024 false mz ez lz).
  assert (Hm : m' = Z.pos mx * 2 ^ (ex - ey - e)).
  { unfold m'. destruct (ex - ey - e) as [|d|d] eqn:Ed; [by rewrite Z.mul_1_r|by apply Z.shiftl_mul_pow2|lia]. }
  pose proof (pow2_pos (ex - ey - e) ltac:(lia)) as Hp. pose proof (Z.div_eucl_eq m' (Z.pos my) ltac:(lia)) as Hq.
  pose proof (Z.mod_pos_bound m' (Z.pos my) ltac:(lia)) as Hr. unfold Z.modulo in Hr.
  assert (Hdiv : m' / Z.pos my = fst (Z.div_eucl m' (Z.pos my))) by (unfold Z.div; by destruct (Z.div_eucl _ _)).
  destruct (Z.div_eucl m' (Z.pos my)) as [q r]. cbn [fst] in Hdiv. exists m', e.
  split; [nia|]. split; [|split; [lia|split; [exact Hm|]]].
  - pose proof (digits_spec (Z.pos mx) ltac:(lia)) as [Hl _]. pose proof (digits_spec (Z.pos my) ltac:(lia)) as [_ Hu].
    assert (Hdig : digits (Z.pos mx) + (ex - ey - e) - digits (Z.pos my) <= digits (m' / Z.pos my)).
    { pose proof (digits_pos (Z.pos mx) ltac:(lia)) as Hd1. pose proof (digits_pos (Z.pos my) ltac:(lia)) as Hd2.
      pose proof (digits_nonneg (m' / Z.pos my) ltac:(apply Z.div_pos; nia)) as Hd3.
      destruct (Z.le_gt_cases (digits (Z.pos mx) + (ex - ey - e) - digits (Z.pos my)) 0) as [?|Hgt]; [lia|].
      assert (digits (Z.pos mx) + (ex - ey - e) - digits (Z.pos my) - 1 + 1 <= digits (m' / Z.pos my)); [|lia].
      apply digits_ge; [lia|]. apply Z.div_le_lower_bound; [lia|].
      transitivity (2 ^ (digits (Z.pos mx) - 1) * 2 ^ (ex - ey - e)); [|rewrite Hm; nia]. rewrite <- Z.pow_add_r by lia.
      transitivity (2 ^ digits (Z.pos my) * 2 ^ (digits (Z.pos mx) + (ex - ey - e) - digits (Z.pos my) - 1)).
      - apply Z.mul_le_mono_nonneg_r; [apply Z.pow_nonneg; lia|lia].
      - rewrite <- Z.pow_add_r by lia. apply Z.pow_le_mono_r; lia. }
    rewrite F_eq. unfold e at 1. rewrite F_eq. lia.
  - rewrite Hdiv. cbn [xorb]. rewrite (new_location_rec (Z.pos my) r q) by lia.
    f_equal. f_equal. rewrite Hq. lia.
Qed.
Lemma div_spec x y : nonneg_finite x → nonneg_finite y → 0 < fx y →
  nonneg (fl_div x y) ∧ fx (fl_div x y) = Z.min (rnd (fx x * unit) (fx y)) fx_top.
Proof.
  intros Hx Hy H0. destruct Hx as [[Hcx Hsx] Hfx], Hy as [[Hcy Hsy] Hfy].
  destruct y as [s'|[]| |[] m' e']; impossible; [cbn [fx] in H0; lia|]. destruct x as [s|[]| |[] m e]; impossible.
  { cbn [fl_div SFdiv fx] in *. rewrite Z.mul_0_l, rnd_zero by done. done. }
  destruct (div_finite m e m' e') as (a & k & Ha & Hpre & Hk & Ea & ->).
  pose proof (round_aux_spec false a (Z.pos m') k Ha ltac:(lia) Hpre) as (Hc & Hs & Hv).
  split; [by apply nonneg_sign|]. rewrite Hv. f_equal. rewrite rounded_units by (done || lia). cbn [fx] in *.
  pose proof (canonical_bounds _ _ _ Hcx) as (He & _). pose proof (canonical_bounds _ _ _ Hcy) as (He' & _).
  pose proof (pow2_pos (e - emin) ltac:(lia)). pose proof (pow2_pos (e' - emin) ltac:(lia)).
  pose proof (pow2_pos (e - e' - k) ltac:(lia)). assert (Hu : 0 < unit) by done.
  destruct (Z.leb_spec emin k) as [Hle|Hgt].
  - pose proof (pow2_pos (k - emin) ltac:(lia)). apply rnd_eq; try nia.
    rewrite Ea. transitivity (Z.pos m * Z.pos m' * (2 ^ (e - e' - k) * 2 ^ (k - emin) * 2 ^ (e' - emin))); [lia|].
    transitivity (Z.pos m * Z.pos m' * (2 ^ (e - emin) * unit)); [f_equal|lia].
    unfold unit. rewrite <- !Z.pow_add_r by (unfold emin in *; lia). f_equal. unfold emin. lia.
  - pose proof (pow2_pos (emin - k) ltac:(lia)). apply rnd_eq; try nia.
    rewrite Ea. transitivity (Z.pos m * Z.pos m' * (2 ^ (e - e' - k) * 2 ^ (e' - emin))); [lia|].
    transitivity (Z.pos m * Z.pos m' * (2 ^ (e - emin) * unit * 2 ^ (emin - k))); [f_equal|lia].
    unfold unit. rewrite <- !Z.pow_add_r by (unfold emin in *; lia). f_equal. unfold emin. lia.
Qed.

(** True division of non-negative integers. *)
Lemma truediv_spec n d : 0 <= n → 0 < d →
  ∃ q, nonneg q ∧ fx q = Z.min (rnd (n * unit) d) fx_top ∧
    py_truediv n d = if fl_is_finite q then Some q else None.
Proof.
  intros Hn Hd. unfold py_truediv. rewrite (proj2 (Z.eqb_neq d 0)) by lia.
  destruct d as [|q|]; [lia| |lia]. destruct n as [|p|]; [| |lia].
  - exists fl_zero. rewrite Z.mul_0_l, rnd_zero by done. by split.
  - eexists. split; [|split; [|reflexivity]];
      destruct (div_finite p 0 q 0) as (a & k & Ha & Hpre & Hk & Ea & ->);
      pose proof (round_aux_spec false a (Z.pos q) k Ha ltac:(lia) Hpre) as (Hc & Hs & Hv); [by apply nonneg_sign|].
    rewrite Hv. f_equal. rewrite rounded_units by (done || lia). rewrite Z.sub_0_l in Ea.
    assert (Hu : 0 < unit) by done. pose proof (pow2_pos (- k) ltac:(lia)). destruct (Z.leb_spec emin k) as [Hle|Hgt].
    + apply rnd_eq; [lia|lia|apply Z.mul_nonneg_nonneg; [done|by apply Z.pow_nonneg]|lia|].
      rewrite Ea, <- (Z.mul_assoc (Z.pos p)), <- Z.pow_add_r by (unfold emin in *; lia).
      unfold unit. repeat f_equal. unfold emin. lia.
    + pose proof (pow2_pos (emin - k) ltac:(lia)). apply rnd_eq; [nia|lia|done|lia|].
      rewrite Ea. transitivity (Z.pos p * Z.pos q * (unit * 2 ^ (emin - k))); [|lia].
      unfold unit. rewrite <- Z.pow_add_r by (unfold emin in *; lia).
      replace (1074 + (emin - k)) with (- k) by (unfold emin; lia). lia.
Qed.

(** ** Consequences *)
Lemma nonneg_below_top x : nonneg x → fx x < fx_top → nonneg_finite x.
Proof. intros Hx Hlt. split; [done|]. destruct x as [s|s| |s m e]; cbn [fx] in Hlt; try reflexivity; [lia|by destruct Hx]. Qed.
Lemma nonneg_zero : nonneg_finite fl_zero ∧ fx fl_zero = 0.
Proof. split; [split; [split; [reflexivity|exact I]|reflexivity]|reflexivity]. Qed.
Lemma nonneg_one : nonneg_finite fl_one ∧ fx fl_one = unit.
Proof. split; [split; [split; [reflexivity|exact I]|reflexivity]|reflexivity]. Qed.
Lemma unit_pos : 0 < unit < fx_top.
Proof. split; reflexivity. Qed.
Lemma rnd_unit : rnd unit 1 = unit.
Proof. destruct nonneg_one as [H1 <-]. by apply rnd_exact. Qed.
#[global] Opaque unit fx_top.

(** A quotient of a smaller by a larger is at most one, and grows with its numerator. *)
Lemma div_below_one x y : nonneg_finite x → nonneg_finite y → 0 < fx y → fx x <= fx y →
  nonneg_finite (fl_div x y) ∧ fx (fl_div x y) = rnd (fx x * unit) (fx y) ∧ fx (fl_div x y) <= unit.
Proof.
  intros Hx Hy H0 Hle. destruct (div_spec x y Hx Hy H0) as [Hn Hv]. pose proof unit_pos as Hu. pose proof (fx_lt_top x Hx).
  assert (Hb : rnd (fx x * unit) (fx y) <= unit) by (rewrite <- rnd_unit at 2; apply rnd_mono; nia).
  rewrite Z.min_l in Hv by lia. rewrite Hv. split; [|done]. apply nonneg_below_top; [done|lia].
Qed.
Lemma div_mono x x' y : nonneg_finite x → nonneg_finite x' → nonneg_finite y → 0 < fx y → fx x <= fx x' →
  fx (fl_div x y) <= fx (fl_div x' y).
Proof.
  intros Hx Hx' Hy H0 Hle. rewrite (proj2 (div_spec x y Hx Hy H0)), (proj2 (div_spec x' y Hx' Hy H0)).
  pose proof (fx_lt_top x Hx). pose proof unit_pos. assert (0 <= fx x * unit <= fx x' * unit) by nia.
  apply Z.min_le_compat_r, rnd_mono; nia.
Qed.
(** A fraction of a weight is at most the weight, and grows with the fraction. *)
Lemma mul_fraction w f : nonneg_finite w → nonneg_finite f → fx f <= unit →
  nonneg_finite (fl_mul w f) ∧ fx (fl_mul w f) = rnd (fx w * fx f) unit ∧ fx (fl_mul w f) <= fx w.
Proof.
  intros Hw Hf Hle. destruct (mul_spec w f Hw Hf) as [Hn Hv]. pose proof unit_pos. pose proof (fx_lt_top w Hw). pose proof (fx_lt_top f Hf).
  assert (Hb : rnd (fx w * fx f) unit <= fx w) by (rewrite <- (rnd_exact w Hw) at 2; apply rnd_mono; nia).
  rewrite Z.min_l in Hv by lia. rewrite Hv. split; [|done]. apply nonneg_below_top; [done|lia].
Qed.
Lemma sub_within x y z : nonneg_finite x → nonneg_finite y → nonneg_finite z → fx y < fx x → fx x <= fx z →
  nonneg_finite (fl_sub x y) ∧ fx (fl_sub x y) = rnd (fx x - fx y) 1 ∧ 0 < fx (fl_sub x y) <= fx z.
Proof.
  intros Hx Hy Hz Hlt Hle. destruct (sub_spec x y Hx Hy Hlt) as [Hn Hv]. pose proof (fx_lt_top z Hz). pose proof (fx_lt_top y Hy).
  assert (Hb : rnd (fx x - fx y) 1 <= fx z) by (rewrite <- (rnd_exact z Hz); apply rnd_mono; lia).
  assert (H1 : 1 <= rnd (fx x - fx y) 1).
  { transitivity (rnd 1 1); [by vm_compute|]. apply rnd_mono; lia. }
  rewrite Z.min_l in Hv by lia. rewrite Hv. split; [|lia]. apply nonneg_below_top; [done|lia].
Qed.

(** The executable form of the predicate. *)
Definition nonneg_finiteb (x : float) : bool :=
  valid_binary 53 1024 x && match x with S754_zero _ | S754_finite false _ _ => true | _ => false end.
Lemma nonneg_finiteb_spec x : nonneg_finiteb x = true → nonneg_finite x.
Proof.
  unfold nonneg_finiteb. intros [Hc Hx]%andb_true_iff. split; [split; [exact Hc|]|]; by destruct x as [s|s| |[] m e].
Qed.

Lemma truediv_within n d (q : float) : 0 <= n → 0 < d → nonneg_finite q → n * unit <= fx q * d →
  ∃ r, py_truediv n d = Some r ∧ nonneg_finite r ∧ fx r <= fx q.
Proof.
  intros Hn Hd Hq Hle. destruct (truediv_spec n d Hn Hd) as (r & Hr & Hv & ->).
  assert (Hb : fx r <= fx q).
  { rewrite Hv, <- (rnd_exact q Hq). transitivity (rnd (n * unit) d); [lia|].
    apply rnd_mono; [done|lia|pose proof unit_pos; nia|lia]. }
  pose proof (fx_lt_top q Hq). assert (Hf : nonneg_finite r) by (apply nonneg_below_top; [done|lia]).
  exists r. by rewrite (proj2 Hf).
Qed.
