(* ===== verification/Text.v ===== *)
(** * Encodings that can be read back

    Injectivity and self-delimitation of the text the digests are computed over:
    fixed-width digits, decimal integers, timestamps and escaped JSON strings. *)
From S2P Require Import Prelude Python PyFloat Json.

(** ** Splitting at a separator *)
Lemma app_sep_inj {A} (sep : A) (x y r s : list A) :
  sep ∉ x → sep ∉ y → x ++ sep :: r = y ++ sep :: s → x = y ∧ r = s.
Proof.
  revert y. induction x as [|a x IH]; intros [|b y] Hx Hy H; cbn in H; simplify_eq/=.
  - done.
  - exfalso. apply Hy. left.
  - exfalso. apply Hx. left.
  - apply not_elem_of_cons in Hx as [_ Hx]. apply not_elem_of_cons in Hy as [_ Hy].
    destruct (IH y Hx Hy) as [-> ->]; done.
Qed.

Lemma app_length_inj {A} (x y r s : list A) :
  length x = length y → x ++ r = y ++ s → x = y ∧ r = s.
Proof. intros Hl H. by apply app_inj_1. Qed.

Lemma sappend_assoc (a b c : string) : (a +:+ b) +:+ c = a +:+ (b +:+ c).
Proof. induction a as [|x a IH]; [done|]. exact (f_equal (String x) IH). Qed.

Lemma length_sappend (a b : string) :
  String.length (a +:+ b) = (String.length a + String.length b)%nat.
Proof. induction a as [|x a IH]; [done|]. exact (f_equal S IH). Qed.

Lemma sappend_length_inj (a b r s : string) :
  String.length a = String.length b → a +:+ r = b +:+ s → a = b ∧ r = s.
Proof.
  revert b. induction a as [|x a IH]; intros [|y b] Hl H; try done.
  injection Hl as Hl. injection H as -> H. destruct (IH b Hl H) as [-> ->]. done.
Qed.

Lemma sappend_inj_r (a r s : string) : a +:+ r = a +:+ s → r = s.
Proof. intros H. by eapply (sappend_length_inj a a). Qed.

(** ** Fixed-width digits *)
Lemma hex_digit_inj a b : (a < 16)%N → (b < 16)%N → hex_digit a = hex_digit b → a = b.
Proof.
  intros Ha Hb. unfold hex_digit.
  intros H. apply (f_equal Ascii.N_of_ascii) in H.
  rewrite !Ascii.N_ascii_embedding in H; repeat case_match; lia.
Qed.

Lemma length_hex_fixed k n : String.length (hex_fixed k n) = k.
Proof. induction k as [|k IH]; cbn; [done|]. by rewrite IH. Qed.

Lemma length_dec_fixed k n : String.length (dec_fixed k n) = k.
Proof.
  revert n. induction k as [|k IH]; intros n; cbn [dec_fixed]; [done|].
  rewrite length_sappend, IH. cbn. lia.
Qed.

Lemma nibble_bound n i : (N.land (N.shiftr n i) 15 < 16)%N.
Proof. change 15%N with (N.ones 4). rewrite N.land_ones. apply N.mod_lt. done. Qed.

Lemma hex_fixed_mod k n m :
  hex_fixed k n = hex_fixed k m → (n mod 16 ^ N.of_nat k = m mod 16 ^ N.of_nat k)%N.
Proof.
  induction k as [|k IH]; intros H.
  - cbn. by rewrite !N.mod_1_r.
  - cbn in H. injection H as Hd Ht. specialize (IH Ht). clear Ht.
    apply hex_digit_inj in Hd; [|apply nibble_bound..].
    change 15%N with (N.ones 4) in Hd. rewrite !N.land_ones, !N.shiftr_div_pow2 in Hd.
    replace (2 ^ (4 * N.of_nat k))%N with (16 ^ N.of_nat k)%N in Hd
      by (rewrite N.pow_mul_r; done).
    replace (2 ^ 4)%N with 16%N in Hd by done.
    replace (N.of_nat (S k)) with (N.of_nat k + 1)%N by lia.
    rewrite N.pow_add_r, N.pow_1_r.
    assert (16 ^ N.of_nat k ≠ 0)%N by (apply N.pow_nonzero; lia).
    rewrite !N.Div0.mod_mul_r by lia. by rewrite IH, Hd.
Qed.

Lemma hex_fixed_inj k n m :
  (n < 16 ^ N.of_nat k)%N → (m < 16 ^ N.of_nat k)%N → hex_fixed k n = hex_fixed k m → n = m.
Proof. intros Hn Hm H%hex_fixed_mod. by rewrite !N.mod_small in H. Qed.

(** A hexadecimal group shows the bits it covers. *)
Lemma hex_fixed_bits k s n m i :
  hex_fixed k (N.shiftr n s) = hex_fixed k (N.shiftr m s) →
  (s <= i < s + 4 * N.of_nat k)%N → N.testbit n i = N.testbit m i.
Proof.
  intros H%hex_fixed_mod Hi.
  replace (16 ^ N.of_nat k)%N with (2 ^ (4 * N.of_nat k))%N in H by (rewrite N.pow_mul_r; done).
  apply (f_equal (λ x, N.testbit x (i - s))) in H.
  rewrite !N.mod_pow2_bits_low, !N.shiftr_spec in H by lia.
  by replace (i - s + s)%N with i in H by lia.
Qed.

Lemma str_uuid_inj a b : (a < 2 ^ 128)%N → (b < 2 ^ 128)%N → str_uuid a = str_uuid b → a = b.
Proof.
  unfold str_uuid. intros Ha Hb H.
  rewrite <-(N.shiftr_0_r a) in H at 5. rewrite <-(N.shiftr_0_r b) in H at 5.
  do 4 (apply sappend_length_inj in H as [? H]; [|by rewrite !length_hex_fixed];
        apply sappend_inj_r in H).
  apply N.bits_inj. intros i.
  destruct (N.le_gt_cases 128 i) as [Hi|Hi].
  { rewrite <-(N.mod_small a (2 ^ 128)), <-(N.mod_small b (2 ^ 128)) by done.
    by rewrite !N.mod_pow2_bits_high. }
  destruct (N.le_gt_cases 96 i), (N.le_gt_cases 80 i), (N.le_gt_cases 64 i), (N.le_gt_cases 48 i);
    try lia;
    match goal with
    | E : hex_fixed _ _ = hex_fixed _ _ |- _ => apply (hex_fixed_bits _ _ _ _ _ E); lia
    end.
Qed.

Lemma dec_digit_inj a b : 0 <= a < 10 → 0 <= b < 10 →
  Ascii.ascii_of_N (48 + Z.to_N a) = Ascii.ascii_of_N (48 + Z.to_N b) → a = b.
Proof.
  intros Ha Hb H. apply (f_equal Ascii.N_of_ascii) in H.
  rewrite !Ascii.N_ascii_embedding in H; lia.
Qed.

Lemma dec_fixed_inj k n m :
  0 <= n < 10 ^ Z.of_nat k → 0 <= m < 10 ^ Z.of_nat k → dec_fixed k n = dec_fixed k m → n = m.
Proof.
  revert n m. induction k as [|k IH]; intros n m Hn Hm H.
  - cbn in *. lia.
  - cbn [dec_fixed] in H. apply sappend_length_inj in H as [H1 H2];
      [|by rewrite !length_dec_fixed].
    injection H2 as H2. apply dec_digit_inj in H2; [|apply Z.mod_pos_bound; lia..].
    rewrite Nat2Z.inj_succ, Z.pow_succ_r in Hn, Hm by lia.
    apply IH in H1.
    + rewrite (Z.div_mod n 10), (Z.div_mod m 10) by lia. lia.
    + split; [apply Z.div_pos; lia|apply Z.div_lt_upper_bound; lia].
    + split; [apply Z.div_pos; lia|apply Z.div_lt_upper_bound; lia].
Qed.

(** ** Decimal integers *)
Definition digit_or_dash (c : N) : Prop := (48 <= c <= 57)%N ∨ c = 45%N.

Lemma u_pretty_N_go x s :
  Forall digit_or_dash (u s) → Forall digit_or_dash (u (pretty_N_go x s)).
Proof.
  revert s. induction (N.lt_wf_0 x) as [x _ IH]; intros s Hs.
  destruct (decide (x = 0)%N) as [->|Hx]; [by rewrite pretty_N_go_0|].
  rewrite pretty_N_go_step by lia. apply IH; [apply N.div_lt; lia|].
  cbn. constructor; [|done]. left. unfold pretty_N_char.
  repeat case_match; cbn; lia.
Qed.

Lemma u_str_int z : Forall digit_or_dash (u (str_int z)).
Proof.
  assert (HN : ∀ n : N, Forall digit_or_dash (u (pretty n))).
  { intros n. unfold pretty, pretty_N. case_decide.
    - constructor; [left; cbn; lia|constructor].
    - apply u_pretty_N_go. constructor. }
  unfold str_int, pretty, pretty_Z. destruct z as [|p|p].
  - constructor; [left; cbn; lia|constructor].
  - apply HN.
  - rewrite u_app. apply Forall_app. split; [constructor; [by right|constructor]|apply HN].
Qed.

Lemma u_str_int_inj a b : u (str_int a) = u (str_int b) → a = b.
Proof. intros H. apply u_inj in H. by apply (inj pretty) in H. Qed.

Lemma not_in_str_int c z : ¬ digit_or_dash c → c ∉ u (str_int z).
Proof. intros Hc Hin. apply Hc. pose proof (u_str_int z) as H. rewrite Forall_forall in H. auto. Qed.

(** ** Calendar dates and timestamps *)
Ltac zdiv := Z.to_euclidean_division_equations; lia.

Lemma year_of_era_bound doe : 0 <= doe < 146097 →
  let yoe := (doe - doe / 1460 + doe / 36524 - doe / 146096) / 365 in
  0 <= yoe <= 399 ∧ 0 <= doe - (365 * yoe + yoe / 4 - yoe / 100) <= 365.
Proof. intros H yoe. subst yoe. zdiv. Qed.

Lemma month_day_bound doy : 0 <= doy <= 365 →
  let mp := (5 * doy + 2) / 153 in
  0 <= mp <= 11 ∧ 1 <= doy - (153 * mp + 2) / 5 + 1 <= 31.
Proof. intros H mp. subst mp. zdiv. Qed.

Lemma month_day_inj doy doy' : 0 <= doy <= 365 → 0 <= doy' <= 365 →
  let mp := (5 * doy + 2) / 153 in let mp' := (5 * doy' + 2) / 153 in
  (if mp <? 10 then mp + 3 else mp - 9) = (if mp' <? 10 then mp' + 3 else mp' - 9) →
  doy - (153 * mp + 2) / 5 + 1 = doy' - (153 * mp' + 2) / 5 + 1 → doy = doy'.
Proof.
  cbv zeta. intros H H' Hm Hd.
  destruct (month_day_bound doy H) as [Hb _], (month_day_bound doy' H') as [Hb' _].
  cbv zeta in Hb, Hb'.
  assert (Heq : (5 * doy + 2) / 153 = (5 * doy' + 2) / 153).
  { destruct (Z.ltb_spec ((5 * doy + 2) / 153) 10), (Z.ltb_spec ((5 * doy' + 2) / 153) 10); lia. }
  rewrite Heq in Hd. lia.
Qed.

Lemma civil_of_days_inj a b : civil_of_days a = civil_of_days b → a = b.
Proof.
  unfold civil_of_days. cbv zeta. intros H. injection H as Hy Hm Hd.
  set (da := (a + 719468) mod 146097) in *. set (db := (b + 719468) mod 146097) in *.
  assert (Hda : 0 <= da < 146097) by (apply Z.mod_pos_bound; lia).
  assert (Hdb : 0 <= db < 146097) by (apply Z.mod_pos_bound; lia).
  destruct (year_of_era_bound da Hda) as [Hya Hda'], (year_of_era_bound db Hdb) as [Hyb Hdb'].
  cbv zeta in *.
  pose proof (month_day_inj _ _ Hda' Hdb' Hm Hd) as Hdoy. cbv zeta in Hdoy.
  rewrite Hm in Hy. apply Z.add_cancel_r in Hy.
  set (ya := (da - da / 1460 + da / 36524 - da / 146096) / 365) in *.
  set (yb := (db - db / 1460 + db / 36524 - db / 146096) / 365) in *.
  assert (Hera : (a + 719468) / 146097 = (b + 719468) / 146097) by lia.
  assert (Hyy : ya = yb) by lia.
  rewrite Hyy in Hdoy.
  assert (da = db) by lia.
  pose proof (Z.div_mod (a + 719468) 146097 ltac:(lia)).
  pose proof (Z.div_mod (b + 719468) 146097 ltac:(lia)).
  subst da db. lia.
Qed.

Lemma civil_of_days_month_day z :
  let '(_, m, d) := civil_of_days z in 1 <= m <= 12 ∧ 1 <= d <= 31.
Proof.
  unfold civil_of_days. cbv zeta.
  set (dz := (z + 719468) mod 146097).
  assert (Hdz : 0 <= dz < 146097) by (apply Z.mod_pos_bound; lia).
  destruct (year_of_era_bound dz Hdz) as [_ Hdoy]. cbv zeta in Hdoy.
  destruct (month_day_bound _ Hdoy) as [Hmp Hd]. cbv zeta in Hmp, Hd.
  split; [|exact Hd].
  destruct (Z.ltb_spec ((5 * (dz - (365 * ((dz - dz / 1460 + dz / 36524 - dz / 146096) / 365)
    + (dz - dz / 1460 + dz / 36524 - dz / 146096) / 365 / 4
    - (dz - dz / 1460 + dz / 36524 - dz / 146096) / 365 / 100)) + 2) / 153) 10); lia.
Qed.

(** Python's datetime only holds the years 1 to 9999. *)
Definition year_of (local : Z) : Z := (civil_of_days (local / us_per_day)).1.1.
Definition in_year_range (d : datetime) : Prop := 0 <= year_of (dt_instant d) <= 9999.

Lemma length_date_str l : String.length (date_str l) = 10%nat.
Proof.
  unfold date_str. destruct (civil_of_days _) as [[y m] d].
  rewrite !length_sappend, !length_dec_fixed. done.
Qed.

Lemma length_clock_str l : String.length (clock_str l) = 8%nat.
Proof. unfold clock_str. rewrite !length_sappend, !length_dec_fixed. done. Qed.

Lemma date_str_inj a b :
  0 <= year_of a <= 9999 → 0 <= year_of b <= 9999 →
  date_str a = date_str b → a / us_per_day = b / us_per_day.
Proof.
  unfold year_of, date_str. intros Ha Hb H. apply civil_of_days_inj.
  pose proof (civil_of_days_month_day (a / us_per_day)) as Hma.
  pose proof (civil_of_days_month_day (b / us_per_day)) as Hmb.
  destruct (civil_of_days (a / us_per_day)) as [[ya ma] da].
  destruct (civil_of_days (b / us_per_day)) as [[yb mb] db]. cbn in Ha, Hb.
  apply sappend_length_inj in H as [Hy H]; [|by rewrite !length_dec_fixed].
  apply sappend_inj_r in H.
  apply sappend_length_inj in H as [Hm H]; [|by rewrite !length_dec_fixed].
  apply sappend_inj_r in H.
  apply dec_fixed_inj in Hy, Hm, H; cbn; lia || congruence.
Qed.

Lemma clock_micros_inj a b :
  clock_str a = clock_str b → micros_str a = micros_str b → a mod us_per_day = b mod us_per_day.
Proof.
  unfold clock_str, micros_str. intros H Hu.
  apply sappend_length_inj in H as [Hh H]; [|by rewrite !length_dec_fixed].
  apply sappend_inj_r in H.
  apply sappend_length_inj in H as [Hm Hs]; [|by rewrite !length_dec_fixed].
  apply sappend_inj_r in Hs. unfold us_per_day in *.
  apply dec_fixed_inj in Hu, Hh, Hm, Hs; cbn; zdiv.
Qed.

(** One timestamp text, one instant. *)
Lemma strftime_utc_inj a b :
  0 <= year_of (dt_local a) <= 9999 → 0 <= year_of (dt_local b) <= 9999 →
  strftime_utc a = strftime_utc b → dt_local a = dt_local b.
Proof.
  unfold strftime_utc. intros Ha Hb H.
  apply sappend_length_inj in H as [Hd H]; [|by rewrite !length_date_str].
  apply sappend_inj_r in H.
  apply sappend_length_inj in H as [Hc H]; [|by rewrite !length_clock_str].
  apply sappend_inj_r in H.
  apply sappend_length_inj in H as [Hm _]; [|unfold micros_str; by rewrite !length_dec_fixed].
  apply date_str_inj in Hd; [|done..].
  pose proof (clock_micros_inj _ _ Hc Hm).
  rewrite (Z.div_mod (dt_local a) us_per_day), (Z.div_mod (dt_local b) us_per_day) by done. lia.
Qed.

(** ** Escaped JSON strings *)

(** A Unicode scalar value: in range and not a surrogate. *)
Definition scalar (c : N) : Prop := (c < 1114112)%N ∧ ¬ (55296 <= c <= 57343)%N.

Definition short_escape (c : N) : option N :=
  if (c =? 34)%N then Some 34%N else if (c =? 92)%N then Some 92%N
  else if (c =? 10)%N then Some 110%N else if (c =? 13)%N then Some 114%N
  else if (c =? 9)%N then Some 116%N else if (c =? 12)%N then Some 102%N
  else if (c =? 8)%N then Some 98%N else None.

Lemma short_escape_inj c c' k : short_escape c = Some k → short_escape c' = Some k → c = c'.
Proof.
  unfold short_escape. intros H H'. repeat case_match; try congruence;
    repeat match goal with E : (_ =? _)%N = true |- _ => apply N.eqb_eq in E end; congruence.
Qed.

Definition u_seq (c : N) : ustr := 92%N :: 117%N :: u (hex_fixed 4 c).
Definition high_surrogate (c : N) : N := (55296 + N.shiftr (c - 65536) 10)%N.
Definition low_surrogate (c : N) : N := (56320 + N.land (c - 65536) 1023)%N.

(** The four shapes an escaped character can take. *)
Inductive escape_view (c : N) : ustr → Prop :=
  | EscShort k : short_escape c = Some k → k ≠ 117%N → escape_view c [92%N; k]
  | EscUnicode : (c < 65536)%N → escape_view c (u_seq c)
  | EscPlain : c ≠ 92%N → c ≠ 34%N → escape_view c [c]
  | EscPair : (65536 <= c)%N → escape_view c (u_seq (high_surrogate c) ++ u_seq (low_surrogate c)).

Lemma escape_char_view b c : escape_view c (json_escape_char b c).
Proof.
  unfold json_escape_char.
  destruct (N.eqb_spec c 34) as [->|H34]; [by apply EscShort|].
  destruct (N.eqb_spec c 92) as [->|H92]; [by apply EscShort|].
  destruct (N.eqb_spec c 10) as [->|]; [by apply EscShort|].
  destruct (N.eqb_spec c 13) as [->|]; [by apply EscShort|].
  destruct (N.eqb_spec c 9) as [->|]; [by apply EscShort|].
  destruct (N.eqb_spec c 12) as [->|]; [by apply EscShort|].
  destruct (N.eqb_spec c 8) as [->|]; [by apply EscShort|].
  destruct (N.ltb_spec c 32); [apply EscUnicode; lia|].
  destruct (negb b || (c <? 127)%N); [by apply EscPlain|].
  destruct (N.ltb_spec c 65536); [by apply EscUnicode|by apply EscPair].
Qed.

Lemma u_seq_app_inj c c' r r' :
  (c < 65536)%N → (c' < 65536)%N → u_seq c ++ r = u_seq c' ++ r' → c = c' ∧ r = r'.
Proof.
  intros Hc Hc' H.
  assert (H0 : u (hex_fixed 4 c) ++ r = u (hex_fixed 4 c') ++ r')
    by exact (f_equal (λ l, tail (tail l)) H).
  clear H. rename H0 into H.
  assert (Hl : ∀ n, length (u (hex_fixed 4 n)) = 4%nat) by done.
  apply app_length_inj in H as [H ->]; [|by rewrite !Hl].
  apply u_inj, hex_fixed_inj in H; cbn; done || lia.
Qed.

Lemma surrogate_bounds c : (65536 <= c < 1114112)%N →
  (55296 <= high_surrogate c <= 56319)%N ∧ (56320 <= low_surrogate c <= 57343)%N.
Proof.
  intros H. unfold high_surrogate, low_surrogate. rewrite N.shiftr_div_pow2.
  change 1023%N with (N.ones 10). rewrite N.land_ones.
  pose proof (N.mod_lt (c - 65536) (2 ^ 10) ltac:(done)) as H0.
  assert (H1 : ((c - 65536) / 2 ^ 10 < 1024)%N) by (apply N.Div0.div_lt_upper_bound; change (2 ^ 10 * 1024)%N with 1048576%N; lia).
  revert H0 H1. generalize ((c - 65536) / 2 ^ 10)%N as q, ((c - 65536) mod 2 ^ 10)%N as m.
  intros q m. change (2 ^ 10)%N with 1024%N. lia.
Qed.

Lemma surrogates_inj c c' : (65536 <= c)%N → (65536 <= c')%N →
  high_surrogate c = high_surrogate c' → low_surrogate c = low_surrogate c' → c = c'.
Proof.
  unfold high_surrogate, low_surrogate. rewrite !N.shiftr_div_pow2.
  change 1023%N with (N.ones 10). rewrite !N.land_ones. intros Hc Hc' Hh Hl.
  pose proof (N.div_mod (c - 65536) (2 ^ 10) ltac:(done)).
  pose proof (N.div_mod (c' - 65536) (2 ^ 10) ltac:(done)). lia.
Qed.

Lemma escape_view_inj c c' e e' r r' :
  scalar c → scalar c' → escape_view c e → escape_view c' e' →
  e ++ r = e' ++ r' → c = c' ∧ r = r'.
Proof.
  intros [Hr Hs] [Hr' Hs'] V V' H.
  destruct V as [k Hk Hu|Hc|H92 _|Hc], V' as [k' Hk' Hu'|Hc'|H92' _|Hc'];
    rewrite <-?app_assoc in H;
    try (exfalso; apply (f_equal (take 2)) in H; unfold u_seq in H; cbn [app take] in H; congruence).
  - cbn in H. injection H as -> ->. by split; [eapply short_escape_inj|].
  - by apply u_seq_app_inj in H.
  - exfalso. pose proof (surrogate_bounds c' ltac:(lia)).
    apply u_seq_app_inj in H as [-> _]; lia.
  - cbn in H. by injection H as -> ->.
  - exfalso. pose proof (surrogate_bounds c ltac:(lia)).
    apply u_seq_app_inj in H as [<- _]; lia.
  - pose proof (surrogate_bounds c ltac:(lia)). pose proof (surrogate_bounds c' ltac:(lia)).
    apply u_seq_app_inj in H as [Hh H]; [|lia..].
    apply u_seq_app_inj in H as [Hl H]; [|lia..].
    split; [by apply surrogates_inj|done].
Qed.

Lemma escape_view_head c e : escape_view c e → ∃ h t, e = h :: t ∧ h ≠ 34%N.
Proof. destruct 1; unfold u_seq; cbn; eauto 6. Qed.

(** A JSON string literal delimits itself and determines its contents. *)
Lemma json_string_inj b s s' r r' :
  Forall scalar s → Forall scalar s' →
  json_string b s ++ r = json_string b s' ++ r' → s = s' ∧ r = r'.
Proof.
  unfold json_string. intros Hs Hs' H. rewrite <-!app_assoc in H. cbn [app] in H.
  injection H as H. revert s' Hs' H.
  induction Hs as [|c s Hc Hs IH]; intros [|c' s'] Hs' H; cbn [flat_map] in H.
  - cbn in H. by injection H as ->.
  - exfalso. destruct (escape_view_head _ _ (escape_char_view b c')) as (h & t & Ht & Hh).
    rewrite Ht in H. cbn in H. congruence.
  - exfalso. destruct (escape_view_head _ _ (escape_char_view b c)) as (h & t & Ht & Hh).
    rewrite Ht in H. cbn in H. congruence.
  - inversion Hs' as [|? ? Hc' Hs'']; subst. rewrite <-!app_assoc in H.
    apply (escape_view_inj c c') in H as [-> H]; [|done|done|apply escape_char_view..].
    apply IH in H as [-> ->]; done.
Qed.

Lemma scalar_byte (a : Ascii.ascii) : scalar (Ascii.N_of_ascii a).
Proof. pose proof (Ascii.N_ascii_bounded a). split; lia. Qed.

Lemma scalar_u (s : string) : Forall scalar (u s).
Proof. unfold u. apply Forall_forall. intros x. rewrite list_elem_of_fmap. intros (a & -> & _). apply scalar_byte. Qed.

(** ** The shape of a digest: sixty-four lowercase hexadecimal characters *)
Lemma str_forallb_app p a b : str_forallb p (a +:+ b) = str_forallb p a && str_forallb p b.
Proof.
  induction a as [|c a IH]; [done|].
  change (p c && str_forallb p (a +:+ b) = (p c && str_forallb p a) && str_forallb p b).
  rewrite IH. apply andb_assoc.
Qed.

Lemma hex_fixed_lower k n : str_forallb is_lower_hex (hex_fixed k n) = true.
Proof.
  induction k as [|k IH]; cbn [hex_fixed str_forallb]; [done|]. rewrite IH, andb_true_r.
  pose proof (nibble_bound n (4 * N.of_nat k)) as H.
  generalize dependent (N.land (N.shiftr n (4 * N.of_nat k)) 15). intros x Hx.
  unfold is_lower_hex, hex_digit.
  rewrite Ascii.N_ascii_embedding by (destruct (N.ltb_spec x 10); lia).
  destruct (N.ltb_spec x 10); rewrite orb_true_iff, !andb_true_iff, !N.leb_le; lia.
Qed.

Lemma rounds_length ks w st : length st = 8%nat → length (Sha256.rounds ks w st) = 8%nat.
Proof.
  revert w st. induction ks as [|k ks IH]; intros w st H; [done|].
  do 8 (destruct st as [|? st]; [done|]). destruct st; [|done]. by apply IH.
Qed.

Lemma compress_length st b : length st = 8%nat → length (Sha256.compress st b) = 8%nat.
Proof.
  intros H. unfold Sha256.compress. rewrite length_map, length_combine, rounds_length, H; done.
Qed.

Lemma absorb_length fuel st l : length st = 8%nat → length (Sha256.absorb fuel st l) = 8%nat.
Proof.
  revert st l. induction fuel as [|f IH]; intros st l H; cbn [Sha256.absorb]; [done|].
  destruct l; [done|]. by apply IH, compress_length.
Qed.

Definition is_digest_shaped (s : string) : bool :=
  (String.length s =? 64)%nat && str_forallb is_lower_hex s.

Lemma sha256_shape m : is_digest_shaped (sha256_hexdigest m) = true.
Proof.
  unfold sha256_hexdigest, Sha256.hexdigest, is_digest_shaped.
  set (st := Sha256.absorb _ _ _).
  assert (Hl : length st = 8%nat) by (by apply absorb_length).
  assert (H : ∀ l, String.length (foldr (λ x s, hex_fixed 8 x +:+ s) EmptyString l) = (8 * length l)%nat ∧
                   str_forallb is_lower_hex (foldr (λ x s, hex_fixed 8 x +:+ s) EmptyString l) = true).
  { clear. induction l as [|x l [IH1 IH2]]; cbn [foldr length]; [done|].
    rewrite length_sappend, str_forallb_app, length_hex_fixed, hex_fixed_lower, IH1, IH2.
    split; [lia|done]. }
  destruct (H st) as [-> ->]. by rewrite Hl.
Qed.

Lemma sha256_length m : String.length (sha256_hexdigest m) = 64%nat.
Proof.
  pose proof (sha256_shape m) as H. unfold is_digest_shaped in H.
  apply andb_true_iff in H as [H _]. by apply Nat.eqb_eq.
Qed.

(** ** UTF-8 determines the text *)
Lemma shiftr_land_split c k : c = (2 ^ k * N.shiftr c k + N.land c (N.ones k))%N.
Proof. rewrite N.land_ones, N.shiftr_div_pow2. apply N.div_mod. by apply N.pow_nonzero. Qed.

Lemma utf8_char_inj c c' b b' r r' :
  utf8_char c = Some b → utf8_char c' = Some b' → b ++ r = b' ++ r' → c = c' ∧ r = r'.
Proof.
  unfold utf8_char. intros Hc Hc' H.
  pose proof (shiftr_land_split c 6). pose proof (shiftr_land_split c' 6).
  pose proof (shiftr_land_split (N.shiftr c 6) 6) as E. pose proof (shiftr_land_split (N.shiftr c' 6) 6) as E'.
  pose proof (shiftr_land_split (N.shiftr c 12) 6) as F. pose proof (shiftr_land_split (N.shiftr c' 12) 6) as F'.
  rewrite !N.shiftr_shiftr in *. change (N.ones 6) with 63%N in *. change (2 ^ 6)%N with 64%N in *.
  change (6 + 6)%N with 12%N in *. change (12 + 6)%N with 18%N in *.
  assert (∀ x, N.land x 63 < 64)%N as B
    by (intros x; change 63%N with (N.ones 6); rewrite N.land_ones; by apply N.mod_lt).
  pose proof (B c). pose proof (B c'). pose proof (B (N.shiftr c 6)). pose proof (B (N.shiftr c' 6)).
  pose proof (B (N.shiftr c 12)). pose proof (B (N.shiftr c' 12)). clear B.
  repeat match type of Hc with context [if ?b then _ else _] => destruct b eqn:? end;
  repeat match type of Hc' with context [if ?b then _ else _] => destruct b eqn:? end;
  try discriminate;
  injection Hc as <-; injection Hc' as <-; cbn [app] in H; injection H; intros; subst;
  rewrite ?N.ltb_lt, ?N.ltb_ge in *; first [split; [lia|congruence] | exfalso; lia].
Qed.

Lemma utf8_encode_inj s s' b : utf8_encode s = Some b → utf8_encode s' = Some b → s = s'.
Proof.
  revert s' b. induction s as [|c s IH]; intros [|c' s'] b H H'; cbn in H, H'; [done|..].
  - injection H as <-. destruct (utf8_char c') as [x|] eqn:E; [|done].
    destruct (utf8_encode s'); [|done]. injection H' as H'.
    apply app_eq_nil in H' as [-> _]. unfold utf8_char in E. by repeat case_match.
  - injection H' as <-. destruct (utf8_char c) as [x|] eqn:E; [|done].
    destruct (utf8_encode s); [|done]. injection H as H.
    apply app_eq_nil in H as [-> _]. unfold utf8_char in E. by repeat case_match.
  - destruct (utf8_char c) as [x|] eqn:E; [|done]. destruct (utf8_encode s) as [y|] eqn:F; [|done].
    destruct (utf8_char c') as [x'|] eqn:E'; [|done]. destruct (utf8_encode s') as [y'|] eqn:F'; [|done].
    injection H as <-. injection H' as H'. symmetry in H'.
    destruct (utf8_char_inj _ _ _ _ _ _ E E' H') as [-> ->]. f_equal. by apply (IH s' y').
Qed.

(** ** Serialized JSON is encodable: every code point is that of a byte *)
Section JsonInd.
Context (P : json → Prop) (Hnull : P JNull) (Hbool : ∀ b, P (JBool b)) (Hint : ∀ z, P (JInt z))
  (Hfloat : ∀ f, P (JFloat f)) (Hstr : ∀ s, P (JStr s))
  (Hlist : ∀ l, Forall P l → P (JList l)) (Hobj : ∀ l, Forall (λ f, P (snd f)) l → P (JObj l)).
Fixpoint json_ind' (j : json) : P j :=
  match j with
  | JNull => Hnull
  | JBool b => Hbool b
  | JInt z => Hint z
  | JFloat f => Hfloat f
  | JStr s => Hstr s
  | JList l => Hlist l ((fix go l : Forall P l := match l with
                          | [] => @List.Forall_nil _ P
                          | j :: l' => @List.Forall_cons _ P j l' (json_ind' j) (go l')
                          end) l)
  | JObj l => Hobj l ((fix go l : Forall (λ f, P (snd f)) l := match l with
                        | [] => @List.Forall_nil _ _
                        | f :: l' => @List.Forall_cons _ (λ f, P (snd f)) f l' (json_ind' (snd f)) (go l')
                        end) l)
  end.
End JsonInd.

Definition byte_text (t : ustr) : Prop := Forall (λ c, c < 256)%N t.

Lemma byte_text_app a b : byte_text (a ++ b) ↔ byte_text a ∧ byte_text b.
Proof. apply Forall_app. Qed.
Lemma byte_text_u s : byte_text (u s).
Proof.
  apply Forall_forall. intros c. unfold u. rewrite list_elem_of_fmap.
  intros (a & -> & _). apply Ascii.N_ascii_bounded.
Qed.
Lemma byte_text_join sep l : byte_text sep → Forall byte_text l → byte_text (join sep l).
Proof.
  intros Hs. induction 1 as [|x l Hx Hl IH]; [constructor|]. destruct l as [|y l]; [exact Hx|].
  change (byte_text (x ++ sep ++ join sep (y :: l))). by rewrite !byte_text_app.
Qed.
Lemma byte_text_string s : byte_text (json_string false (u s)).
Proof.
  unfold json_string. rewrite !byte_text_app. split_and!; [by repeat constructor| |by repeat constructor].
  pose proof (byte_text_u s) as H. induction H as [|c l Hc Hl IH]; [constructor|].
  cbn [flat_map]. rewrite byte_text_app. split; [|exact IH].
  unfold json_escape_char. repeat (case_match; [first [by repeat constructor | apply byte_text_u]|]).
  discriminate.
Qed.

Lemma byte_text_dumps j : byte_text (json_dumps false j).
Proof.
  induction j as [|b|z|f|s|l IH|l IH] using json_ind'; cbn [json_dumps];
    try apply byte_text_u; try apply byte_text_string.
  - rewrite !byte_text_app. split_and!; [by repeat constructor| |by repeat constructor].
    apply byte_text_join; [by repeat constructor|]. by apply Forall_fmap.
  - rewrite !byte_text_app. split_and!; [by repeat constructor| |by repeat constructor].
    apply byte_text_join; [by repeat constructor|]. apply Forall_fmap.
    rewrite py_sorted_Permutation. apply Forall_fmap. eapply Forall_impl; [exact IH|].
    intros [k v] Hv. change (byte_text (json_string false (u k) ++ [58%N] ++ json_dumps false v)).
    rewrite !byte_text_app. split_and!; [apply byte_text_string| |exact Hv].
    by repeat constructor.
Qed.

Lemma utf8_encode_bytes t : byte_text t → ∃ b, utf8_encode t = Some b.
Proof.
  induction 1 as [|c t Hc Ht [b IH]]; cbn [utf8_encode]; [eauto|]. rewrite IH.
  unfold utf8_char. destruct (N.ltb_spec c 128); [eauto|].
  destruct (N.ltb_spec c 2048); [eauto|lia].
Qed.
