(* ===== verification/Enums.v ===== *)
(** * The enumerations of packages/schemas

    Every [class X(str, Enum)] of the schemas is an inductive type in a module
    of its name, with the wire value of each member.  [StrEnum] is what the code
    relies on: the values are pairwise distinct and [X(value)] finds the member. *)
From S2P Require Import Prelude Python.

(** ** class X(str, Enum) *)
Class StrEnum (A : Type) `{EqDecision A} := {
  enum_value : A → string;
  enum_members : list A;
  enum_complete : ∀ x, x ∈ enum_members;
  enum_value_inj : ∀ x y, enum_value x = enum_value y → x = y
}.

Ltac solve_enum :=
  match goal with
  | |- ∀ x, x ∈ _ => intros []; vm_compute; repeat first [left | right]
  | |- ∀ x y, _ = _ → x = y => intros [] []; vm_compute; first [reflexivity | discriminate]
  end.

(** [X(s)]; [None] is Python's ValueError. *)
Definition enum_of {A} `{StrEnum A} (s : string) : option A :=
  List.find (λ x, String.eqb (enum_value x) s) enum_members.

Lemma enum_of_value {A} `{StrEnum A} (x : A) : enum_of (enum_value x) = Some x.
Proof.
  unfold enum_of. destruct (List.find _ _) as [y|] eqn:E.
  - apply find_some in E as [_ E]. apply String.eqb_eq, enum_value_inj in E. by subst.
  - eapply find_none in E; [|apply list_elem_of_In, (enum_complete x)].
    by rewrite String.eqb_refl in E.
Qed.

Lemma enum_of_Some {A} `{StrEnum A} s (x : A) : enum_of s = Some x ↔ enum_value x = s.
Proof.
  split; [|intros <-; apply enum_of_value].
  intros E. apply find_some in E as [_ E]. by apply String.eqb_eq in E.
Qed.

(** The mission state machine's states. *)
Module MissionState.
Inductive MissionState : Set :=
  | CREATED | INTENT_PARSED | DISCOVERING | OFFERS_RECEIVED | OFFERS_NORMALIZED | RANKED
  | POLICY_CHECKED | AWAITING_APPROVAL | AUTHORIZED | PAYMENT_PENDING | PAYMENT_SUCCEEDED
  | PAYMENT_FAILED | COMPLETED | CANCELLED.
#[global] Instance eq_dec : EqDecision MissionState.
Proof. solve_decision. Defined.
Definition value (x : MissionState) : string :=
  match x with
  | CREATED => "CREATED"
  | INTENT_PARSED => "INTENT_PARSED"
  | DISCOVERING => "DISCOVERING"
  | OFFERS_RECEIVED => "OFFERS_RECEIVED"
  | OFFERS_NORMALIZED => "OFFERS_NORMALIZED"
  | RANKED => "RANKED"
  | POLICY_CHECKED => "POLICY_CHECKED"
  | AWAITING_APPROVAL => "AWAITING_APPROVAL"
  | AUTHORIZED => "AUTHORIZED"
  | PAYMENT_PENDING => "PAYMENT_PENDING"
  | PAYMENT_SUCCEEDED => "PAYMENT_SUCCEEDED"
  | PAYMENT_FAILED => "PAYMENT_FAILED"
  | COMPLETED => "COMPLETED"
  | CANCELLED => "CANCELLED"
  end.
Definition members : list MissionState :=
  [CREATED; INTENT_PARSED; DISCOVERING; OFFERS_RECEIVED; OFFERS_NORMALIZED; RANKED;
   POLICY_CHECKED; AWAITING_APPROVAL; AUTHORIZED; PAYMENT_PENDING; PAYMENT_SUCCEEDED;
   PAYMENT_FAILED; COMPLETED; CANCELLED].
End MissionState.
Abbreviation MissionState := MissionState.MissionState.
#[global] Instance MissionState_enum : StrEnum MissionState.
Proof. refine {| enum_value := MissionState.value; enum_members := MissionState.members |}; solve_enum. Defined.

(** Audit event types. *)
Module EventType.
Inductive EventType : Set :=
  | MISSION_CREATED | INTENT_PARSED | DISCOVERY_STARTED | OFFERS_RECEIVED | OFFERS_NORMALIZED
  | OFFERS_RANKED | POLICY_DECISION | APPROVAL_REQUESTED | MISSION_DENIED | SECURITY_VIOLATION
  | AUTHORIZATION_CREATED | AUTHORIZATION_ACTIVATED | AUTHORIZATION_CONSUMED
  | AUTHORIZATION_EXPIRED | AUTHORIZATION_REVOKED | AUTHORIZATION_REPLAY_DETECTED
  | TRANSACTION_BINDING_FAILURE | PAYMENT_INTENT_CREATED | PAYMENT_QUEUED | PAYMENT_ATTEMPTED
  | PAYMENT_PROVIDER_TIMEOUT | PAYMENT_PROVIDER_UNCERTAIN | PAYMENT_RETRY_SCHEDULED
  | PAYMENT_RECONCILED | PAYMENT_SUCCEEDED | PAYMENT_FAILED | PAYMENT_INTENT_REUSED
  | IDEMPOTENCY_CONFLICT | OUTBOX_EVENT_DEAD_LETTERED | WEBHOOK_VERIFIED | WEBHOOK_REJECTED
  | DUPLICATE_WEBHOOK_IGNORED | WEBHOOK_OUT_OF_ORDER_IGNORED | RISK_ASSESSED.
#[global] Instance eq_dec : EqDecision EventType.
Proof. solve_decision. Defined.
Definition value (x : EventType) : string :=
  match x with
  | MISSION_CREATED => "MISSION_CREATED"
  | INTENT_PARSED => "INTENT_PARSED"
  | DISCOVERY_STARTED => "DISCOVERY_STARTED"
  | OFFERS_RECEIVED => "OFFERS_RECEIVED"
  | OFFERS_NORMALIZED => "OFFERS_NORMALIZED"
  | OFFERS_RANKED => "OFFERS_RANKED"
  | POLICY_DECISION => "POLICY_DECISION"
  | APPROVAL_REQUESTED => "APPROVAL_REQUESTED"
  | MISSION_DENIED => "MISSION_DENIED"
  | SECURITY_VIOLATION => "SECURITY_VIOLATION"
  | AUTHORIZATION_CREATED => "AUTHORIZATION_CREATED"
  | AUTHORIZATION_ACTIVATED => "AUTHORIZATION_ACTIVATED"
  | AUTHORIZATION_CONSUMED => "AUTHORIZATION_CONSUMED"
  | AUTHORIZATION_EXPIRED => "AUTHORIZATION_EXPIRED"
  | AUTHORIZATION_REVOKED => "AUTHORIZATION_REVOKED"
  | AUTHORIZATION_REPLAY_DETECTED => "AUTHORIZATION_REPLAY_DETECTED"
  | TRANSACTION_BINDING_FAILURE => "TRANSACTION_BINDING_FAILURE"
  | PAYMENT_INTENT_CREATED => "PAYMENT_INTENT_CREATED"
  | PAYMENT_QUEUED => "PAYMENT_QUEUED"
  | PAYMENT_ATTEMPTED => "PAYMENT_ATTEMPTED"
  | PAYMENT_PROVIDER_TIMEOUT => "PAYMENT_PROVIDER_TIMEOUT"
  | PAYMENT_PROVIDER_UNCERTAIN => "PAYMENT_PROVIDER_UNCERTAIN"
  | PAYMENT_RETRY_SCHEDULED => "PAYMENT_RETRY_SCHEDULED"
  | PAYMENT_RECONCILED => "PAYMENT_RECONCILED"
  | PAYMENT_SUCCEEDED => "PAYMENT_SUCCEEDED"
  | PAYMENT_FAILED => "PAYMENT_FAILED"
  | PAYMENT_INTENT_REUSED => "PAYMENT_INTENT_REUSED"
  | IDEMPOTENCY_CONFLICT => "IDEMPOTENCY_CONFLICT"
  | OUTBOX_EVENT_DEAD_LETTERED => "OUTBOX_EVENT_DEAD_LETTERED"
  | WEBHOOK_VERIFIED => "WEBHOOK_VERIFIED"
  | WEBHOOK_REJECTED => "WEBHOOK_REJECTED"
  | DUPLICATE_WEBHOOK_IGNORED => "DUPLICATE_WEBHOOK_IGNORED"
  | WEBHOOK_OUT_OF_ORDER_IGNORED => "WEBHOOK_OUT_OF_ORDER_IGNORED"
  | RISK_ASSESSED => "RISK_ASSESSED"
  end.
Definition members : list EventType :=
  [MISSION_CREATED; INTENT_PARSED; DISCOVERY_STARTED; OFFERS_RECEIVED; OFFERS_NORMALIZED;
   OFFERS_RANKED; POLICY_DECISION; APPROVAL_REQUESTED; MISSION_DENIED; SECURITY_VIOLATION;
   AUTHORIZATION_CREATED; AUTHORIZATION_ACTIVATED; AUTHORIZATION_CONSUMED;
   AUTHORIZATION_EXPIRED; AUTHORIZATION_REVOKED; AUTHORIZATION_REPLAY_DETECTED;
   TRANSACTION_BINDING_FAILURE; PAYMENT_INTENT_CREATED; PAYMENT_QUEUED; PAYMENT_ATTEMPTED;
   PAYMENT_PROVIDER_TIMEOUT; PAYMENT_PROVIDER_UNCERTAIN; PAYMENT_RETRY_SCHEDULED;
   PAYMENT_RECONCILED; PAYMENT_SUCCEEDED; PAYMENT_FAILED; PAYMENT_INTENT_REUSED;
   IDEMPOTENCY_CONFLICT; OUTBOX_EVENT_DEAD_LETTERED; WEBHOOK_VERIFIED; WEBHOOK_REJECTED;
   DUPLICATE_WEBHOOK_IGNORED; WEBHOOK_OUT_OF_ORDER_IGNORED; RISK_ASSESSED].
End EventType.
Abbreviation EventType := EventType.EventType.
#[global] Instance EventType_enum : StrEnum EventType.
Proof. refine {| enum_value := EventType.value; enum_members := EventType.members |}; solve_enum. Defined.

(** Policy outcomes. *)
Module PolicyOutcome.
Inductive PolicyOutcome : Set :=
  | ALLOW | REQUIRE_APPROVAL | DENY.
#[global] Instance eq_dec : EqDecision PolicyOutcome.
Proof. solve_decision. Defined.
Definition value (x : PolicyOutcome) : string :=
  match x with
  | ALLOW => "ALLOW"
  | REQUIRE_APPROVAL => "REQUIRE_APPROVAL"
  | DENY => "DENY"
  end.
Definition members : list PolicyOutcome :=
  [ALLOW; REQUIRE_APPROVAL; DENY].
End PolicyOutcome.
Abbreviation PolicyOutcome := PolicyOutcome.PolicyOutcome.
#[global] Instance PolicyOutcome_enum : StrEnum PolicyOutcome.
Proof. refine {| enum_value := PolicyOutcome.value; enum_members := PolicyOutcome.members |}; solve_enum. Defined.

(** Stable reason codes. *)
Module ReasonCode.
Inductive ReasonCode : Set :=
  | NO_VALID_OFFERS | HARD_LIMIT_EXCEEDED | BLOCKED_MERCHANT | MERCHANT_NOT_ALLOWED
  | RATING_BELOW_MIN | CURRENCY_NOT_ALLOWED | OUT_OF_STOCK | MERCHANT_TRUST_TOO_LOW
  | MERCHANT_IDENTITY_MISMATCH | SOFT_BUDGET_EXCEEDED | WITHIN_LIMITS | AUTHORITY_ESCALATION
  | CAPABILITY_DENIED | TRANSACTION_BINDING_FAILURE | AUTHORIZATION_REPLAY_DETECTED
  | AUTHORIZATION_EXPIRED | AUTHORIZATION_NOT_ACTIVE | AUTHORIZATION_NOT_FOUND
  | AUTHORIZATION_SIGNATURE_INVALID | AUTHORIZATION_SIGNATURE_MALFORMED
  | AUTHORIZATION_SIGNING_KEY_UNKNOWN | AUTHORIZATION_PROOF_MISSING
  | AUTHORIZATION_APPROVAL_SCHEME_INVALID | BIND_REFUSED_OFFER_CHANGED | IDEMPOTENCY_CONFLICT
  | PAYMENT_PROVIDER_TIMEOUT | PROVIDER_TRANSIENT_FAILURE | PROVIDER_AMBIGUITY
  | PROVIDER_TERMINAL_FAILURE | PROVIDER_RESPONSE_MISMATCH | PROVIDER_PAYMENT_NOT_FOUND
  | PROVIDER_CREATE_FENCED | PROVIDER_PAYMENT_ATTEMPT_FAILED | ILLEGAL_PAYMENT_TRANSITION
  | MISSION_NOT_AUTHORIZED | PAYMENT_INTENT_NOT_FOUND | WEBHOOK_SIGNATURE_INVALID
  | WEBHOOK_EVENT_ID_MISSING | WEBHOOK_PAYLOAD_INVALID | WEBHOOK_DUPLICATE
  | WEBHOOK_UNKNOWN_PAYMENT.
#[global] Instance eq_dec : EqDecision ReasonCode.
Proof. solve_decision. Defined.
Definition value (x : ReasonCode) : string :=
  match x with
  | NO_VALID_OFFERS => "NO_VALID_OFFERS"
  | HARD_LIMIT_EXCEEDED => "HARD_LIMIT_EXCEEDED"
  | BLOCKED_MERCHANT => "BLOCKED_MERCHANT"
  | MERCHANT_NOT_ALLOWED => "MERCHANT_NOT_ALLOWED"
  | RATING_BELOW_MIN => "RATING_BELOW_MIN"
  | CURRENCY_NOT_ALLOWED => "CURRENCY_NOT_ALLOWED"
  | OUT_OF_STOCK => "OUT_OF_STOCK"
  | MERCHANT_TRUST_TOO_LOW => "MERCHANT_TRUST_TOO_LOW"
  | MERCHANT_IDENTITY_MISMATCH => "MERCHANT_IDENTITY_MISMATCH"
  | SOFT_BUDGET_EXCEEDED => "SOFT_BUDGET_EXCEEDED"
  | WITHIN_LIMITS => "WITHIN_LIMITS"
  | AUTHORITY_ESCALATION => "AUTHORITY_ESCALATION"
  | CAPABILITY_DENIED => "CAPABILITY_DENIED"
  | TRANSACTION_BINDING_FAILURE => "TRANSACTION_BINDING_FAILURE"
  | AUTHORIZATION_REPLAY_DETECTED => "AUTHORIZATION_REPLAY_DETECTED"
  | AUTHORIZATION_EXPIRED => "AUTHORIZATION_EXPIRED"
  | AUTHORIZATION_NOT_ACTIVE => "AUTHORIZATION_NOT_ACTIVE"
  | AUTHORIZATION_NOT_FOUND => "AUTHORIZATION_NOT_FOUND"
  | AUTHORIZATION_SIGNATURE_INVALID => "AUTHORIZATION_SIGNATURE_INVALID"
  | AUTHORIZATION_SIGNATURE_MALFORMED => "AUTHORIZATION_SIGNATURE_MALFORMED"
  | AUTHORIZATION_SIGNING_KEY_UNKNOWN => "AUTHORIZATION_SIGNING_KEY_UNKNOWN"
  | AUTHORIZATION_PROOF_MISSING => "AUTHORIZATION_PROOF_MISSING"
  | AUTHORIZATION_APPROVAL_SCHEME_INVALID => "AUTHORIZATION_APPROVAL_SCHEME_INVALID"
  | BIND_REFUSED_OFFER_CHANGED => "BIND_REFUSED_OFFER_CHANGED"
  | IDEMPOTENCY_CONFLICT => "IDEMPOTENCY_CONFLICT"
  | PAYMENT_PROVIDER_TIMEOUT => "PAYMENT_PROVIDER_TIMEOUT"
  | PROVIDER_TRANSIENT_FAILURE => "PROVIDER_TRANSIENT_FAILURE"
  | PROVIDER_AMBIGUITY => "PROVIDER_AMBIGUITY"
  | PROVIDER_TERMINAL_FAILURE => "PROVIDER_TERMINAL_FAILURE"
  | PROVIDER_RESPONSE_MISMATCH => "PROVIDER_RESPONSE_MISMATCH"
  | PROVIDER_PAYMENT_NOT_FOUND => "PROVIDER_PAYMENT_NOT_FOUND"
  | PROVIDER_CREATE_FENCED => "PROVIDER_CREATE_FENCED"
  | PROVIDER_PAYMENT_ATTEMPT_FAILED => "PROVIDER_PAYMENT_ATTEMPT_FAILED"
  | ILLEGAL_PAYMENT_TRANSITION => "ILLEGAL_PAYMENT_TRANSITION"
  | MISSION_NOT_AUTHORIZED => "MISSION_NOT_AUTHORIZED"
  | PAYMENT_INTENT_NOT_FOUND => "PAYMENT_INTENT_NOT_FOUND"
  | WEBHOOK_SIGNATURE_INVALID => "WEBHOOK_SIGNATURE_INVALID"
  | WEBHOOK_EVENT_ID_MISSING => "WEBHOOK_EVENT_ID_MISSING"
  | WEBHOOK_PAYLOAD_INVALID => "WEBHOOK_PAYLOAD_INVALID"
  | WEBHOOK_DUPLICATE => "WEBHOOK_DUPLICATE"
  | WEBHOOK_UNKNOWN_PAYMENT => "WEBHOOK_UNKNOWN_PAYMENT"
  end.
Definition members : list ReasonCode :=
  [NO_VALID_OFFERS; HARD_LIMIT_EXCEEDED; BLOCKED_MERCHANT; MERCHANT_NOT_ALLOWED;
   RATING_BELOW_MIN; CURRENCY_NOT_ALLOWED; OUT_OF_STOCK; MERCHANT_TRUST_TOO_LOW;
   MERCHANT_IDENTITY_MISMATCH; SOFT_BUDGET_EXCEEDED; WITHIN_LIMITS; AUTHORITY_ESCALATION;
   CAPABILITY_DENIED; TRANSACTION_BINDING_FAILURE; AUTHORIZATION_REPLAY_DETECTED;
   AUTHORIZATION_EXPIRED; AUTHORIZATION_NOT_ACTIVE; AUTHORIZATION_NOT_FOUND;
   AUTHORIZATION_SIGNATURE_INVALID; AUTHORIZATION_SIGNATURE_MALFORMED;
   AUTHORIZATION_SIGNING_KEY_UNKNOWN; AUTHORIZATION_PROOF_MISSING;
   AUTHORIZATION_APPROVAL_SCHEME_INVALID; BIND_REFUSED_OFFER_CHANGED; IDEMPOTENCY_CONFLICT;
   PAYMENT_PROVIDER_TIMEOUT; PROVIDER_TRANSIENT_FAILURE; PROVIDER_AMBIGUITY;
   PROVIDER_TERMINAL_FAILURE; PROVIDER_RESPONSE_MISMATCH; PROVIDER_PAYMENT_NOT_FOUND;
   PROVIDER_CREATE_FENCED; PROVIDER_PAYMENT_ATTEMPT_FAILED; ILLEGAL_PAYMENT_TRANSITION;
   MISSION_NOT_AUTHORIZED; PAYMENT_INTENT_NOT_FOUND; WEBHOOK_SIGNATURE_INVALID;
   WEBHOOK_EVENT_ID_MISSING; WEBHOOK_PAYLOAD_INVALID; WEBHOOK_DUPLICATE; WEBHOOK_UNKNOWN_PAYMENT].
End ReasonCode.
Abbreviation ReasonCode := ReasonCode.ReasonCode.
#[global] Instance ReasonCode_enum : StrEnum ReasonCode.
Proof. refine {| enum_value := ReasonCode.value; enum_members := ReasonCode.members |}; solve_enum. Defined.

(** Trust levels of a provenance record. *)
Module TrustLevel.
Inductive TrustLevel : Set :=
  | AUTHORITATIVE | TRUSTED | UNTRUSTED.
#[global] Instance eq_dec : EqDecision TrustLevel.
Proof. solve_decision. Defined.
Definition value (x : TrustLevel) : string :=
  match x with
  | AUTHORITATIVE => "authoritative"
  | TRUSTED => "trusted"
  | UNTRUSTED => "untrusted"
  end.
Definition members : list TrustLevel :=
  [AUTHORITATIVE; TRUSTED; UNTRUSTED].
End TrustLevel.
Abbreviation TrustLevel := TrustLevel.TrustLevel.
#[global] Instance TrustLevel_enum : StrEnum TrustLevel.
Proof. refine {| enum_value := TrustLevel.value; enum_members := TrustLevel.members |}; solve_enum. Defined.

(** Capabilities. *)
Module Capability.
Inductive Capability : Set :=
  | CATALOG_READ | MERCHANT_DISCOVER | OFFER_REQUEST | OFFER_RANK | PAYMENT_PROPOSE
  | PAYMENT_EXECUTE | REFUND_EXECUTE | POLICY_MODIFY | AUTHORIZATION_ISSUE | MERCHANT_MODIFY.
#[global] Instance eq_dec : EqDecision Capability.
Proof. solve_decision. Defined.
Definition value (x : Capability) : string :=
  match x with
  | CATALOG_READ => "catalog.read"
  | MERCHANT_DISCOVER => "merchant.discover"
  | OFFER_REQUEST => "offer.request"
  | OFFER_RANK => "offer.rank"
  | PAYMENT_PROPOSE => "payment.propose"
  | PAYMENT_EXECUTE => "payment.execute"
  | REFUND_EXECUTE => "refund.execute"
  | POLICY_MODIFY => "policy.modify"
  | AUTHORIZATION_ISSUE => "authorization.issue"
  | MERCHANT_MODIFY => "merchant.modify"
  end.
Definition members : list Capability :=
  [CATALOG_READ; MERCHANT_DISCOVER; OFFER_REQUEST; OFFER_RANK; PAYMENT_PROPOSE;
   PAYMENT_EXECUTE; REFUND_EXECUTE; POLICY_MODIFY; AUTHORIZATION_ISSUE; MERCHANT_MODIFY].
End Capability.
Abbreviation Capability := Capability.Capability.
#[global] Instance Capability_enum : StrEnum Capability.
Proof. refine {| enum_value := Capability.value; enum_members := Capability.members |}; solve_enum. Defined.

(** How an authorization became active. *)
Module ApprovalScheme.
Inductive ApprovalScheme : Set :=
  | POLICY_AUTO | USER_ED25519 | LEGACY_SERVER.
#[global] Instance eq_dec : EqDecision ApprovalScheme.
Proof. solve_decision. Defined.
Definition value (x : ApprovalScheme) : string :=
  match x with
  | POLICY_AUTO => "POLICY_AUTO"
  | USER_ED25519 => "USER_ED25519"
  | LEGACY_SERVER => "LEGACY_SERVER"
  end.
Definition members : list ApprovalScheme :=
  [POLICY_AUTO; USER_ED25519; LEGACY_SERVER].
End ApprovalScheme.
Abbreviation ApprovalScheme := ApprovalScheme.ApprovalScheme.
#[global] Instance ApprovalScheme_enum : StrEnum ApprovalScheme.
Proof. refine {| enum_value := ApprovalScheme.value; enum_members := ApprovalScheme.members |}; solve_enum. Defined.

(** The authorization lifecycle. *)
Module AuthorizationStatus.
Inductive AuthorizationStatus : Set :=
  | PENDING | ACTIVE | CONSUMED | EXPIRED | REVOKED.
#[global] Instance eq_dec : EqDecision AuthorizationStatus.
Proof. solve_decision. Defined.
Definition value (x : AuthorizationStatus) : string :=
  match x with
  | PENDING => "PENDING"
  | ACTIVE => "ACTIVE"
  | CONSUMED => "CONSUMED"
  | EXPIRED => "EXPIRED"
  | REVOKED => "REVOKED"
  end.
Definition members : list AuthorizationStatus :=
  [PENDING; ACTIVE; CONSUMED; EXPIRED; REVOKED].
End AuthorizationStatus.
Abbreviation AuthorizationStatus := AuthorizationStatus.AuthorizationStatus.
#[global] Instance AuthorizationStatus_enum : StrEnum AuthorizationStatus.
Proof. refine {| enum_value := AuthorizationStatus.value; enum_members := AuthorizationStatus.members |}; solve_enum. Defined.

(** How a merchant identity was established. *)
Module MerchantAuthMethod.
Inductive MerchantAuthMethod : Set :=
  | IN_PROCESS_ADAPTER.
#[global] Instance eq_dec : EqDecision MerchantAuthMethod.
Proof. solve_decision. Defined.
Definition value (x : MerchantAuthMethod) : string :=
  match x with
  | IN_PROCESS_ADAPTER => "in_process_adapter"
  end.
Definition members : list MerchantAuthMethod :=
  [IN_PROCESS_ADAPTER].
End MerchantAuthMethod.
Abbreviation MerchantAuthMethod := MerchantAuthMethod.MerchantAuthMethod.
#[global] Instance MerchantAuthMethod_enum : StrEnum MerchantAuthMethod.
Proof. refine {| enum_value := MerchantAuthMethod.value; enum_members := MerchantAuthMethod.members |}; solve_enum. Defined.

(** The lifecycle of one logical payment. *)
Module PaymentIntentState.
Inductive PaymentIntentState : Set :=
  | CREATED | QUEUED | PROCESSING | PROVIDER_PENDING | SUCCEEDED | FAILED_RETRYABLE
  | FAILED_TERMINAL | CANCELLED.
#[global] Instance eq_dec : EqDecision PaymentIntentState.
Proof. solve_decision. Defined.
Definition value (x : PaymentIntentState) : string :=
  match x with
  | CREATED => "CREATED"
  | QUEUED => "QUEUED"
  | PROCESSING => "PROCESSING"
  | PROVIDER_PENDING => "PROVIDER_PENDING"
  | SUCCEEDED => "SUCCEEDED"
  | FAILED_RETRYABLE => "FAILED_RETRYABLE"
  | FAILED_TERMINAL => "FAILED_TERMINAL"
  | CANCELLED => "CANCELLED"
  end.
Definition members : list PaymentIntentState :=
  [CREATED; QUEUED; PROCESSING; PROVIDER_PENDING; SUCCEEDED; FAILED_RETRYABLE; FAILED_TERMINAL;
   CANCELLED].
End PaymentIntentState.
Abbreviation PaymentIntentState := PaymentIntentState.PaymentIntentState.
#[global] Instance PaymentIntentState_enum : StrEnum PaymentIntentState.
Proof. refine {| enum_value := PaymentIntentState.value; enum_members := PaymentIntentState.members |}; solve_enum. Defined.

(** Outbox row status. *)
Module OutboxStatus.
Inductive OutboxStatus : Set :=
  | PENDING | IN_PROGRESS | PROCESSED | FAILED.
#[global] Instance eq_dec : EqDecision OutboxStatus.
Proof. solve_decision. Defined.
Definition value (x : OutboxStatus) : string :=
  match x with
  | PENDING => "PENDING"
  | IN_PROGRESS => "IN_PROGRESS"
  | PROCESSED => "PROCESSED"
  | FAILED => "FAILED"
  end.
Definition members : list OutboxStatus :=
  [PENDING; IN_PROGRESS; PROCESSED; FAILED].
End OutboxStatus.
Abbreviation OutboxStatus := OutboxStatus.OutboxStatus.
#[global] Instance OutboxStatus_enum : StrEnum OutboxStatus.
Proof. refine {| enum_value := OutboxStatus.value; enum_members := OutboxStatus.members |}; solve_enum. Defined.

(** Outbox instructions. *)
Module OutboxEventType.
Inductive OutboxEventType : Set :=
  | PAYMENT_CREATE_REQUESTED | PAYMENT_RECONCILE_REQUESTED.
#[global] Instance eq_dec : EqDecision OutboxEventType.
Proof. solve_decision. Defined.
Definition value (x : OutboxEventType) : string :=
  match x with
  | PAYMENT_CREATE_REQUESTED => "PAYMENT_CREATE_REQUESTED"
  | PAYMENT_RECONCILE_REQUESTED => "PAYMENT_RECONCILE_REQUESTED"
  end.
Definition members : list OutboxEventType :=
  [PAYMENT_CREATE_REQUESTED; PAYMENT_RECONCILE_REQUESTED].
End OutboxEventType.
Abbreviation OutboxEventType := OutboxEventType.OutboxEventType.
#[global] Instance OutboxEventType_enum : StrEnum OutboxEventType.
Proof. refine {| enum_value := OutboxEventType.value; enum_members := OutboxEventType.members |}; solve_enum. Defined.

(** What a provider says about its own payment. *)
Module ProviderPaymentStatus.
Inductive ProviderPaymentStatus : Set :=
  | CREATED | PENDING | SUCCEEDED | FAILED.
#[global] Instance eq_dec : EqDecision ProviderPaymentStatus.
Proof. solve_decision. Defined.
Definition value (x : ProviderPaymentStatus) : string :=
  match x with
  | CREATED => "CREATED"
  | PENDING => "PENDING"
  | SUCCEEDED => "SUCCEEDED"
  | FAILED => "FAILED"
  end.
Definition members : list ProviderPaymentStatus :=
  [CREATED; PENDING; SUCCEEDED; FAILED].
End ProviderPaymentStatus.
Abbreviation ProviderPaymentStatus := ProviderPaymentStatus.ProviderPaymentStatus.
#[global] Instance ProviderPaymentStatus_enum : StrEnum ProviderPaymentStatus.
Proof. refine {| enum_value := ProviderPaymentStatus.value; enum_members := ProviderPaymentStatus.members |}; solve_enum. Defined.

(** What a webhook claims. *)
Module WebhookEventType.
Inductive WebhookEventType : Set :=
  | PAYMENT_SUCCEEDED | PAYMENT_FAILED | PAYMENT_PENDING | PAYMENT_ATTEMPT_FAILED.
#[global] Instance eq_dec : EqDecision WebhookEventType.
Proof. solve_decision. Defined.
Definition value (x : WebhookEventType) : string :=
  match x with
  | PAYMENT_SUCCEEDED => "payment.succeeded"
  | PAYMENT_FAILED => "payment.failed"
  | PAYMENT_PENDING => "payment.pending"
  | PAYMENT_ATTEMPT_FAILED => "payment.attempt_failed"
  end.
Definition members : list WebhookEventType :=
  [PAYMENT_SUCCEEDED; PAYMENT_FAILED; PAYMENT_PENDING; PAYMENT_ATTEMPT_FAILED].
End WebhookEventType.
Abbreviation WebhookEventType := WebhookEventType.WebhookEventType.
#[global] Instance WebhookEventType_enum : StrEnum WebhookEventType.
Proof. refine {| enum_value := WebhookEventType.value; enum_members := WebhookEventType.members |}; solve_enum. Defined.

(** Chain verification verdicts. *)
Module AuditReasonCode.
Inductive AuditReasonCode : Set :=
  | AUDIT_VALID | AUDIT_SEQUENCE_GAP | AUDIT_PREVIOUS_HASH_MISMATCH | AUDIT_EVENT_HASH_MISMATCH
  | AUDIT_GENESIS_INVALID | AUDIT_EVENT_MALFORMED.
#[global] Instance eq_dec : EqDecision AuditReasonCode.
Proof. solve_decision. Defined.
Definition value (x : AuditReasonCode) : string :=
  match x with
  | AUDIT_VALID => "AUDIT_VALID"
  | AUDIT_SEQUENCE_GAP => "AUDIT_SEQUENCE_GAP"
  | AUDIT_PREVIOUS_HASH_MISMATCH => "AUDIT_PREVIOUS_HASH_MISMATCH"
  | AUDIT_EVENT_HASH_MISMATCH => "AUDIT_EVENT_HASH_MISMATCH"
  | AUDIT_GENESIS_INVALID => "AUDIT_GENESIS_INVALID"
  | AUDIT_EVENT_MALFORMED => "AUDIT_EVENT_MALFORMED"
  end.
Definition members : list AuditReasonCode :=
  [AUDIT_VALID; AUDIT_SEQUENCE_GAP; AUDIT_PREVIOUS_HASH_MISMATCH; AUDIT_EVENT_HASH_MISMATCH;
   AUDIT_GENESIS_INVALID; AUDIT_EVENT_MALFORMED].
End AuditReasonCode.
Abbreviation AuditReasonCode := AuditReasonCode.AuditReasonCode.
#[global] Instance AuditReasonCode_enum : StrEnum AuditReasonCode.
Proof. refine {| enum_value := AuditReasonCode.value; enum_members := AuditReasonCode.members |}; solve_enum. Defined.

(** Replay verdicts. *)
Module ReplayReasonCode.
Inductive ReplayReasonCode : Set :=
  | REPLAY_OK | REPLAY_AUDIT_INVALID | REPLAY_UNSUPPORTED_EVENT_TYPE | REPLAY_MALFORMED_EVENT.
#[global] Instance eq_dec : EqDecision ReplayReasonCode.
Proof. solve_decision. Defined.
Definition value (x : ReplayReasonCode) : string :=
  match x with
  | REPLAY_OK => "REPLAY_OK"
  | REPLAY_AUDIT_INVALID => "REPLAY_AUDIT_INVALID"
  | REPLAY_UNSUPPORTED_EVENT_TYPE => "REPLAY_UNSUPPORTED_EVENT_TYPE"
  | REPLAY_MALFORMED_EVENT => "REPLAY_MALFORMED_EVENT"
  end.
Definition members : list ReplayReasonCode :=
  [REPLAY_OK; REPLAY_AUDIT_INVALID; REPLAY_UNSUPPORTED_EVENT_TYPE; REPLAY_MALFORMED_EVENT].
End ReplayReasonCode.
Abbreviation ReplayReasonCode := ReplayReasonCode.ReplayReasonCode.
#[global] Instance ReplayReasonCode_enum : StrEnum ReplayReasonCode.
Proof. refine {| enum_value := ReplayReasonCode.value; enum_members := ReplayReasonCode.members |}; solve_enum. Defined.

(** Decision trace stages. *)
Module DecisionStage.
Inductive DecisionStage : Set :=
  | ADMIT | BIND | EXECUTE.
#[global] Instance eq_dec : EqDecision DecisionStage.
Proof. solve_decision. Defined.
Definition value (x : DecisionStage) : string :=
  match x with
  | ADMIT => "ADMIT"
  | BIND => "BIND"
  | EXECUTE => "EXECUTE"
  end.
Definition members : list DecisionStage :=
  [ADMIT; BIND; EXECUTE].
End DecisionStage.
Abbreviation DecisionStage := DecisionStage.DecisionStage.
#[global] Instance DecisionStage_enum : StrEnum DecisionStage.
Proof. refine {| enum_value := DecisionStage.value; enum_members := DecisionStage.members |}; solve_enum. Defined.

(** Decision trace verdicts. *)
Module DecisionTraceVerdict.
Inductive DecisionTraceVerdict : Set :=
  | ACCEPTED | REFUSED | PENDING | SUCCEEDED | FAILED | IGNORED | ADVISORY.
#[global] Instance eq_dec : EqDecision DecisionTraceVerdict.
Proof. solve_decision. Defined.
Definition value (x : DecisionTraceVerdict) : string :=
  match x with
  | ACCEPTED => "ACCEPTED"
  | REFUSED => "REFUSED"
  | PENDING => "PENDING"
  | SUCCEEDED => "SUCCEEDED"
  | FAILED => "FAILED"
  | IGNORED => "IGNORED"
  | ADVISORY => "ADVISORY"
  end.
Definition members : list DecisionTraceVerdict :=
  [ACCEPTED; REFUSED; PENDING; SUCCEEDED; FAILED; IGNORED; ADVISORY].
End DecisionTraceVerdict.
Abbreviation DecisionTraceVerdict := DecisionTraceVerdict.DecisionTraceVerdict.
#[global] Instance DecisionTraceVerdict_enum : StrEnum DecisionTraceVerdict.
Proof. refine {| enum_value := DecisionTraceVerdict.value; enum_members := DecisionTraceVerdict.members |}; solve_enum. Defined.

(** Decision trace next actions. *)
Module DecisionTraceNextAction.
Inductive DecisionTraceNextAction : Set :=
  | CONTINUE_ADMIT | CONTINUE_BIND | AWAIT_USER_SIGNATURE | CREATE_PAYMENT_INTENT
  | DISPATCH_PAYMENT | AWAIT_PROVIDER | RECONCILE_PAYMENT | RETRY_PAYMENT | NONE.
#[global] Instance eq_dec : EqDecision DecisionTraceNextAction.
Proof. solve_decision. Defined.
Definition value (x : DecisionTraceNextAction) : string :=
  match x with
  | CONTINUE_ADMIT => "CONTINUE_ADMIT"
  | CONTINUE_BIND => "CONTINUE_BIND"
  | AWAIT_USER_SIGNATURE => "AWAIT_USER_SIGNATURE"
  | CREATE_PAYMENT_INTENT => "CREATE_PAYMENT_INTENT"
  | DISPATCH_PAYMENT => "DISPATCH_PAYMENT"
  | AWAIT_PROVIDER => "AWAIT_PROVIDER"
  | RECONCILE_PAYMENT => "RECONCILE_PAYMENT"
  | RETRY_PAYMENT => "RETRY_PAYMENT"
  | NONE => "NONE"
  end.
Definition members : list DecisionTraceNextAction :=
  [CONTINUE_ADMIT; CONTINUE_BIND; AWAIT_USER_SIGNATURE; CREATE_PAYMENT_INTENT;
   DISPATCH_PAYMENT; AWAIT_PROVIDER; RECONCILE_PAYMENT; RETRY_PAYMENT; NONE].
End DecisionTraceNextAction.
Abbreviation DecisionTraceNextAction := DecisionTraceNextAction.DecisionTraceNextAction.
#[global] Instance DecisionTraceNextAction_enum : StrEnum DecisionTraceNextAction.
Proof. refine {| enum_value := DecisionTraceNextAction.value; enum_members := DecisionTraceNextAction.members |}; solve_enum. Defined.


(** ** class AuthorityLevel(IntEnum): an ordered lattice *)
Module AuthorityLevel.
Inductive AuthorityLevel : Set :=
  | MERCHANT_DATA | AGENT_PROPOSAL | TRUSTED_INTERNAL_SERVICE | AUTHORIZATION
  | SYSTEM_SECURITY_POLICY | USER_POLICY.
#[global] Instance eq_dec : EqDecision AuthorityLevel.
Proof. solve_decision. Defined.
Definition level (x : AuthorityLevel) : Z :=
  match x with
  | MERCHANT_DATA => 10
  | AGENT_PROPOSAL => 20
  | TRUSTED_INTERNAL_SERVICE => 30
  | AUTHORIZATION => 40
  | SYSTEM_SECURITY_POLICY => 50
  | USER_POLICY => 60
  end.
Definition name (x : AuthorityLevel) : string :=
  match x with
  | MERCHANT_DATA => "MERCHANT_DATA"
  | AGENT_PROPOSAL => "AGENT_PROPOSAL"
  | TRUSTED_INTERNAL_SERVICE => "TRUSTED_INTERNAL_SERVICE"
  | AUTHORIZATION => "AUTHORIZATION"
  | SYSTEM_SECURITY_POLICY => "SYSTEM_SECURITY_POLICY"
  | USER_POLICY => "USER_POLICY"
  end.
End AuthorityLevel.
Abbreviation AuthorityLevel := AuthorityLevel.AuthorityLevel.

Lemma authority_level_inj (a b : AuthorityLevel) :
  AuthorityLevel.level a = AuthorityLevel.level b → a = b.
Proof. destruct a, b; done. Qed.
