(* ===== verification/Errors.v ===== *)
(** * The exceptions of the code, and the invariant guard

    One constructor per exception class (a class family carries its subclass
    as a kind), with the fields the code reads from it. *)
From S2P Require Import Prelude Python Enums.

(** services/payment_executor/providers/base.py: the ProviderError family. *)
Inductive ProviderErrorKind : Set :=
  | ProviderTimeout | ProviderTransientError | ProviderAmbiguity | ProviderTerminalError
  | ProviderPaymentMismatch.
#[global] Instance ProviderErrorKind_eq_dec : EqDecision ProviderErrorKind.
Proof. solve_decision. Defined.

Definition provider_error_code (k : ProviderErrorKind) : string :=
  match k with
  | ProviderTimeout => "PAYMENT_PROVIDER_TIMEOUT"
  | ProviderTransientError => "PROVIDER_TRANSIENT_FAILURE"
  | ProviderAmbiguity => "PROVIDER_AMBIGUITY"
  | ProviderTerminalError => "PROVIDER_TERMINAL_FAILURE"
  | ProviderPaymentMismatch => "PROVIDER_RESPONSE_MISMATCH"
  end.

Record ProviderError := mkProviderError {
  pe_kind : ProviderErrorKind;
  pe_provider : string;
  pe_detail : string
}.

(** [isinstance(e, ProviderTransientError)]: an ambiguity is transient too. *)
Definition is_transient (k : ProviderErrorKind) : bool :=
  match k with ProviderTransientError | ProviderAmbiguity => true | _ => false end.

(** services/security_kernel/authorization.py: the AuthorizationFailure family. *)
Inductive AuthorizationFailureKind : Set :=
  | TransactionBindingFailure | AuthorizationReplayDetected | AuthorizationExpired
  | AuthorizationNotActive | AuthorizationNotFound
  | AuthorizationProofFailure (code : ReasonCode).

Definition authorization_failure_code (k : AuthorizationFailureKind) : string :=
  match k with
  | TransactionBindingFailure => enum_value ReasonCode.TRANSACTION_BINDING_FAILURE
  | AuthorizationReplayDetected => enum_value ReasonCode.AUTHORIZATION_REPLAY_DETECTED
  | AuthorizationExpired => enum_value ReasonCode.AUTHORIZATION_EXPIRED
  | AuthorizationNotActive => enum_value ReasonCode.AUTHORIZATION_NOT_ACTIVE
  | AuthorizationNotFound => enum_value ReasonCode.AUTHORIZATION_NOT_FOUND
  | AuthorizationProofFailure code => enum_value code
  end.

(** services/payment_executor/intents.py: the PaymentRequestRejected family. *)
Inductive PaymentRejectionKind : Set :=
  | PaymentRequestRejected | IdempotencyConflict | MissionNotAuthorized.

Definition payment_rejection_code (k : PaymentRejectionKind) : string :=
  match k with
  | PaymentRequestRejected => "PAYMENT_REQUEST_REJECTED"
  | IdempotencyConflict => enum_value ReasonCode.IDEMPOTENCY_CONFLICT
  | MissionNotAuthorized => enum_value ReasonCode.MISSION_NOT_AUTHORIZED
  end.

Inductive exn : Type :=
  | InvariantViolation (invariant detail : string)
  | AuthorityEscalation (source target : AuthorityLevel) (field : string)
  | CapabilityDenied (principal : string) (capability : Capability)
  | IllegalTransition (current target : MissionState)
  | IllegalPaymentTransition (current target : PaymentIntentState)
  | BindRefusedOfferChanged (mission_id offer_id : uuid) (detail invariant_id : string)
  | ApprovalVerificationError (code : ReasonCode) (detail : string)
  | AuthorizationFailure (kind : AuthorizationFailureKind) (authorization_id : uuid) (detail : string)
  | PaymentRejected (kind : PaymentRejectionKind) (detail : string)
  | ProviderFailed (err : ProviderError)
  | WebhookVerificationError (provider detail reason_code : string)
  | WebhookRejected (reason_code detail : string)
  | ReplayRefused (reason_code : ReplayReasonCode) (sequence : Z) (event_type detail : string)
  | MissionNotFound (mission_id : uuid)
  (** Python's and the libraries' own: a failed constraint names the constraint. *)
  | IntegrityError (constraint : string)
  | ValidationError (field : string)
  | ValueError (msg : string)
  | TypeError (msg : string)
  | KeyError (msg : string)
  | AttributeError (msg : string)
  | OverflowError (msg : string)
  | RuntimeError (msg : string).

(** [e.reason_code]; [None] for an exception that carries none. *)
Definition reason_code (e : exn) : option string :=
  match e with
  | InvariantViolation _ _ => Some "INVARIANT_VIOLATION"
  | AuthorityEscalation _ _ _ => Some "AUTHORITY_ESCALATION"
  | CapabilityDenied _ _ => Some "CAPABILITY_DENIED"
  | IllegalTransition _ _ => None
  | IllegalPaymentTransition _ _ => Some (enum_value ReasonCode.ILLEGAL_PAYMENT_TRANSITION)
  | BindRefusedOfferChanged _ _ _ _ => Some (enum_value ReasonCode.BIND_REFUSED_OFFER_CHANGED)
  | ApprovalVerificationError code _ => Some (enum_value code)
  | AuthorizationFailure k _ _ => Some (authorization_failure_code k)
  | PaymentRejected k _ => Some (payment_rejection_code k)
  | ProviderFailed e => Some (provider_error_code (pe_kind e))
  | WebhookVerificationError _ _ code => Some code
  | WebhookRejected code _ => Some code
  | ReplayRefused code _ _ _ => Some (enum_value code)
  | MissionNotFound _ | IntegrityError _ | ValidationError _ | ValueError _ | TypeError _ | KeyError _ | AttributeError _
  | OverflowError _ | RuntimeError _ => None
  end.

(** packages/schemas/invariants.py: raise unless the condition holds. *)
Definition require {S} (condition : bool) (invariant detail : string) : M S exn unit :=
  if condition then mret tt else raise (InvariantViolation invariant detail).

Lemma evolves_require {S} (R : S → S → Prop) `{!PreOrder R} c i d : evolves R (require c i d).
Proof. unfold require. evolve. Qed.
#[export] Hint Resolve evolves_require : evolves.
