(* ===== verification/Provenance.v ===== *)
(** * Provenance, taint and the authority lattice

    packages/schemas/provenance.py, services/security_kernel/authority.py and
    services/security_kernel/policy_register.py. *)
From S2P Require Import Prelude Python Json Enums Errors.

(** ** packages/schemas/provenance.py *)
Record ProvenanceMeta := mkProvenanceMeta {
  meta_source : string;
  meta_authority : AuthorityLevel;
  meta_trust : TrustLevel;
  meta_tainted : bool;
  meta_transformed : bool
}.

Record Provenanced (T : Type) := mkProvenanced {
  pv_value : T;
  pv_source : string;
  pv_authority : AuthorityLevel;
  pv_trust : TrustLevel;
  pv_tainted : bool;
  pv_transformed : bool
}.
Arguments mkProvenanced {T}.
Arguments pv_value {T}.
Arguments pv_source {T}.
Arguments pv_authority {T}.
Arguments pv_trust {T}.
Arguments pv_tainted {T}.
Arguments pv_transformed {T}.

Definition pv_meta {T} (p : Provenanced T) : ProvenanceMeta :=
  mkProvenanceMeta (pv_source p) (pv_authority p) (pv_trust p) (pv_tainted p) (pv_transformed p).

Definition pv_map {T U} (fn : T → U) (p : Provenanced T) : Provenanced U :=
  mkProvenanced (fn (pv_value p)) (pv_source p) (pv_authority p) (pv_trust p) (pv_tainted p) true.

Definition is_tainted {T} (p : Provenanced T) : bool := pv_tainted p.

Definition authoritative {T} (value : T) (source : string) : Provenanced T :=
  mkProvenanced value source AuthorityLevel.USER_POLICY TrustLevel.AUTHORITATIVE false false.
Definition system_value {T} (value : T) (source : string) : Provenanced T :=
  mkProvenanced value source AuthorityLevel.SYSTEM_SECURITY_POLICY TrustLevel.TRUSTED false false.
Definition trusted_value {T} (value : T) (source : string) : Provenanced T :=
  mkProvenanced value source AuthorityLevel.TRUSTED_INTERNAL_SERVICE TrustLevel.TRUSTED false false.
Definition agent_value {T} (value : T) (source : string) : Provenanced T :=
  mkProvenanced value source AuthorityLevel.AGENT_PROPOSAL TrustLevel.UNTRUSTED true false.
Definition untrusted {T} (value : T) (source : string) : Provenanced T :=
  mkProvenanced value source AuthorityLevel.MERCHANT_DATA TrustLevel.UNTRUSTED true false.

(** ** services/security_kernel/authority.py *)
Definition can_write (source target : AuthorityLevel) : bool :=
  AuthorityLevel.level target <=? AuthorityLevel.level source.

Definition guard_write (source target : AuthorityLevel) (field : string) : outcome exn unit :=
  if negb (can_write source target) then Raise (AuthorityEscalation source target field) else Ok tt.

Definition assert_can_write {T} (field : string) (incoming : Provenanced T)
    (required_authority : AuthorityLevel) : outcome exn unit :=
  guard_write (pv_authority incoming) required_authority field.

Definition merge_keep_higher {T} (field : string) (current incoming : Provenanced T)
    : outcome exn (Provenanced T) :=
  if AuthorityLevel.level (pv_authority incoming) <? AuthorityLevel.level (pv_authority current)
  then Raise (AuthorityEscalation (pv_authority incoming) (pv_authority current) field)
  else Ok incoming.

(** ** services/security_kernel/policy_register.py

    The register is the dict [_values]; the methods take it as their state. *)
Definition PolicyRegister := gmap string (Provenanced json).

Definition register_is_protected (field : string) (reg : PolicyRegister) : bool :=
  is_some (reg !! field).

Definition register_get (field : string) : M PolicyRegister exn (Provenanced json) := λ reg,
  match (reg : gmap string (Provenanced json)) !! field with
  | Some v => (Ok v, reg)
  | None => (Raise (InvariantViolation "policy_register.field_is_protected"
                      ("'" +:+ field +:+ "' is not a protected policy field")), reg)
  end.

Definition register_apply (field : string) (incoming : Provenanced json)
    : M PolicyRegister exn (Provenanced json) :=
  current ← register_get field;
  updated ← lift (merge_keep_higher field current incoming);
  modify (λ reg : gmap string (Provenanced json), <[field := updated]> reg);;
  mret updated.

(** ** Laws *)
Lemma can_write_spec s t : can_write s t = true ↔ AuthorityLevel.level t <= AuthorityLevel.level s.
Proof. apply Z.leb_le. Qed.

Lemma can_write_refl a : can_write a a = true.
Proof. apply can_write_spec. lia. Qed.

Lemma can_write_trans a b c : can_write a b = true → can_write b c = true → can_write a c = true.
Proof. rewrite !can_write_spec. lia. Qed.

Lemma can_write_antisym a b : can_write a b = true → can_write b a = true → a = b.
Proof. rewrite !can_write_spec. intros. apply authority_level_inj. lia. Qed.

(** Mapping a value never changes who produced it, its authority, trust or taint. *)
Lemma pv_map_meta {T U} (fn : T → U) (p : Provenanced T) :
  pv_meta (pv_map fn p) =
  mkProvenanceMeta (pv_source p) (pv_authority p) (pv_trust p) (pv_tainted p) true.
Proof. done. Qed.

(** A write that goes through never lowers the authority of what is stored. *)
Lemma merge_keep_higher_ok {T} field (cur inc w : Provenanced T) :
  merge_keep_higher field cur inc = Ok w ↔ w = inc ∧ can_write (pv_authority inc) (pv_authority cur) = true.
Proof.
  unfold merge_keep_higher, can_write. destruct (Z.ltb_spec (AuthorityLevel.level (pv_authority inc))
    (AuthorityLevel.level (pv_authority cur))) as [Hlt|Hge].
  - split; [done|]. intros [_ H]. apply Z.leb_le in H. lia.
  - split; [intros [= ->]; split; [done|]; by apply Z.leb_le|by intros [-> _]].
Qed.

(** The register's protected values only ever move up the lattice. *)
Definition register_le (r r' : PolicyRegister) : Prop :=
  ∀ k v, (r : gmap _ _) !! k = Some v →
    ∃ v', (r' : gmap _ _) !! k = Some v' ∧ can_write (pv_authority v') (pv_authority v) = true.

#[global] Instance register_le_preorder : PreOrder register_le.
Proof.
  split.
  - intros r k v Hv. exists v. split; [done|apply can_write_refl].
  - intros r1 r2 r3 H12 H23 k v Hv. destruct (H12 k v Hv) as (v2 & Hv2 & Hw2).
    destruct (H23 k v2 Hv2) as (v3 & Hv3 & Hw3). eauto using can_write_trans.
Qed.

Lemma register_apply_lower field inc reg cur :
  (reg : gmap _ _) !! field = Some cur →
  can_write (pv_authority inc) (pv_authority cur) = false →
  register_apply field inc reg =
    (Raise (AuthorityEscalation (pv_authority inc) (pv_authority cur) field), reg).
Proof.
  intros Hcur Hw. unfold register_apply, register_get, mbind, M_bind. rewrite Hcur.
  cbn. unfold lift, merge_keep_higher, can_write in *. apply Z.leb_gt in Hw.
  destruct (Z.ltb_spec (AuthorityLevel.level (pv_authority inc))
    (AuthorityLevel.level (pv_authority cur))); [done|lia].
Qed.

Lemma register_apply_higher field inc reg cur :
  (reg : gmap _ _) !! field = Some cur →
  can_write (pv_authority inc) (pv_authority cur) = true →
  register_apply field inc reg = (Ok inc, <[field := inc]> (reg : gmap _ _)).
Proof.
  intros Hcur Hw. unfold register_apply, register_get, mbind, M_bind. rewrite Hcur. cbn.
  unfold lift. by rewrite (proj2 (merge_keep_higher_ok field cur inc inc) (conj eq_refl Hw)).
Qed.

Lemma register_apply_evolves field inc : evolves register_le (register_apply field inc).
Proof.
  intros reg. destruct ((reg : gmap _ _) !! field) as [cur|] eqn:Hcur.
  - destruct (can_write (pv_authority inc) (pv_authority cur)) eqn:Hw.
    + rewrite (register_apply_higher _ _ _ _ Hcur Hw). cbn. intros k v Hv.
      destruct (decide (field = k)) as [<-|Hne].
      * exists inc. rewrite lookup_insert_eq. by simplify_eq.
      * exists v. rewrite lookup_insert_ne by done. split; [done|apply can_write_refl].
    + rewrite (register_apply_lower _ _ _ _ Hcur Hw). cbn. reflexivity.
  - unfold register_apply, register_get, mbind, M_bind. rewrite Hcur. cbn. reflexivity.
Qed.
#[export] Hint Resolve register_apply_evolves : evolves.
