(* ===== verification/Canonical.v ===== *)
(** * Canonical serialization and domain-separated digests

    packages/schemas/canonical.py: the type-tagged, sorted-key encoding every
    security digest and every signed message is computed over, and the proof
    that two field mappings with one encoding are the same mapping. *)
From S2P Require Import Prelude Python PyFloat Json Text Enums Errors.

(** ** packages/schemas/canonical.py

    [CanonicalValue]; [VOther] stands for a value of any other Python type
    (a float, a list), which the encoder refuses. *)
Inductive CanonicalValue : Type :=
  | VBool (b : bool)
  | VInt (z : Z)
  | VStr (s : ustr)
  | VDatetime (d : datetime)
  | VNone
  | VOther (type_name : string).

Definition domain_separator : N := 31.

Definition encode_timestamp (value : datetime) : outcome exn string :=
  if negb (dt_is_aware value)
  then Raise (InvariantViolation "canonical.timestamp_is_timezone_aware"
    "naive datetimes have no single instant and cannot be canonically hashed")
  else Ok (strftime_utc (dt_astimezone_utc value)).

(** The encoded pair [[tag, payload]]. *)
Inductive encoded : Type :=
  | EncBool (b : bool)
  | EncInt (z : Z)
  | EncStr (s : ustr)
  | EncTime (text : string)
  | EncNone.

Definition encode_value (field : string) (value : CanonicalValue) : outcome exn encoded :=
  match value with
  | VBool b => Ok (EncBool b)
  | VInt z => Ok (EncInt z)
  | VStr s => Ok (EncStr s)
  | VDatetime d => text ← encode_timestamp d; Ok (EncTime text)
  | VNone => Ok EncNone
  | VOther ty => Raise (InvariantViolation "canonical.value_type_is_supported"
      ("field '" +:+ field +:+ "' has unsupported type " +:+ ty
       +:+ " (floats are rejected: they have no canonical form — scale to an integer)"))
  end.

Definition tag_of (e : encoded) : string :=
  match e with EncBool _ => "b" | EncInt _ => "i" | EncStr _ => "s" | EncTime _ => "t" | EncNone => "n" end.

Definition payload_text (e : encoded) : ustr :=
  match e with
  | EncBool b => u (if b then "true" else "false")
  | EncInt z => u (str_int z)
  | EncStr s => json_string true s
  | EncTime text => json_string true (u text)
  | EncNone => u "null"
  end.

Definition encoded_text (e : encoded) : ustr :=
  [91%N] ++ json_string true (u (tag_of e)) ++ [44%N] ++ payload_text e ++ [93%N].

Definition field_text (f : string * encoded) : ustr :=
  json_string true (u (fst f)) ++ [58%N] ++ encoded_text (snd f).

Fixpoint encode_fields (fields : list (string * CanonicalValue)) : outcome exn (list (string * encoded)) :=
  match fields with
  | [] => Ok []
  | (name, value) :: rest =>
      e ← encode_value name value;
      es ← encode_fields rest;
      Ok ((name, e) :: es)
  end.

Definition canonical_bytes (fields : list (string * CanonicalValue)) : outcome exn bytes :=
  es ← encode_fields fields;
  Ok ([123%N] ++ join [44%N] (map field_text (py_sorted key_leb es)) ++ [125%N]).

(** [domain.encode("ascii")]. *)
Definition encode_ascii (s : string) : outcome exn bytes :=
  if forallb (λ c, (c <? 128)%N) (u s) then Ok (u s)
  else Raise (ValueError "UnicodeEncodeError").

Definition canonical_message (domain : string) (fields : list (string * CanonicalValue))
    : outcome exn bytes :=
  if String.eqb domain "" then
    Raise (InvariantViolation "canonical.message_has_domain" "a message must be domain-separated")
  else
    d ← encode_ascii domain;
    body ← canonical_bytes fields;
    Ok (d ++ [domain_separator] ++ body).

Definition canonical_digest (domain : string) (fields : list (string * CanonicalValue))
    : outcome exn string :=
  m ← canonical_message domain fields;
  Ok (sha256_hexdigest m).

(** ** Equality of canonical values

    Two datetimes are the same canonical value when they name the same instant. *)
Definition cv_equiv (v v' : CanonicalValue) : Prop :=
  match v, v' with
  | VDatetime d, VDatetime d' => dt_instant d = dt_instant d'
  | _, _ => v = v'
  end.
#[global] Instance cv_equiv_equivalence : Equivalence cv_equiv.
Proof.
  split.
  - intros []; cbn; done.
  - intros [] []; cbn; congruence.
  - intros [] [] []; cbn; congruence.
Qed.

Definition cv_ok (v : CanonicalValue) : Prop :=
  match v with
  | VStr s => Forall scalar s
  | VDatetime d => in_year_range d
  | _ => True
  end.

Definition field_equiv (f f' : string * CanonicalValue) : Prop :=
  fst f = fst f' ∧ cv_equiv (snd f) (snd f').
(** Two mappings with the same sorted fields: equal as Python dicts. *)
Definition fields_equiv (fs fs' : list (string * CanonicalValue)) : Prop :=
  Forall2 field_equiv (py_sorted key_leb fs) (py_sorted key_leb fs').

(** ** Sorting by key commutes with encoding the values *)
Lemma py_sorted_Forall2 {V W} (R : V → W → Prop) (l : list (string * V)) (l' : list (string * W)) :
  Forall2 (λ f f', fst f = fst f' ∧ R (snd f) (snd f')) l l' →
  Forall2 (λ f f', fst f = fst f' ∧ R (snd f) (snd f')) (py_sorted key_leb l) (py_sorted key_leb l').
Proof.
  unfold py_sorted. induction 1 as [|[k v] [k' w] l l' [Hk Hv] _ IH]; cbn; [constructor|].
  cbn in Hk. subst k'.
  induction IH as [|[k1 v1] [k2 w2] m m' [Hk1 Hv1] Hm IHm]; cbn [py_insert].
  - by repeat constructor.
  - cbn in Hk1. subst k2. unfold key_leb. cbn [fst].
    destruct (String.leb k k1); repeat constructor; done.
Qed.

(** The field name is only used in the refusal's message. *)
Definition encodes (v : CanonicalValue) (e : encoded) : Prop := ∀ k, encode_value k v = Ok e.

Lemma encode_value_encodes k v e : encode_value k v = Ok e → encodes v e.
Proof. destruct v; cbn; intros H k'; done. Qed.

Lemma encode_fields_Forall2 fs es :
  encode_fields fs = Ok es →
  Forall2 (λ f e, fst f = fst e ∧ encodes (snd f) (snd e)) fs es.
Proof.
  revert es. induction fs as [|[k v] fs IH]; intros es H; cbn in H.
  - injection H as <-. constructor.
  - unfold mbind, outcome_bind in H.
    destruct (encode_value k v) as [e|] eqn:E; [|done].
    destruct (encode_fields fs) as [es'|]; [|done]. injection H as <-.
    constructor; [split; [done|by eapply encode_value_encodes]|by apply IH].
Qed.

(** ** The encoding of one value determines the value *)
(** Drops one known character from both sides. *)
Ltac peel H := apply (f_equal (@tail N)) in H; cbn [tail] in H.

Definition enc_ok (e : encoded) : Prop :=
  match e with EncStr s => Forall scalar s | _ => True end.

Lemma tag_of_text_inj e e' r r' :
  json_string true (u (tag_of e)) ++ r = json_string true (u (tag_of e')) ++ r' →
  tag_of e = tag_of e' ∧ r = r'.
Proof.
  intros H. apply json_string_inj in H as [H ->]; [|apply scalar_u..]. by apply u_inj in H.
Qed.

Lemma payload_text_inj e e' r r' :
  enc_ok e → enc_ok e' → tag_of e = tag_of e' →
  payload_text e ++ 93%N :: r = payload_text e' ++ 93%N :: r' → e = e' ∧ r = r'.
Proof.
  destruct e as [b|z|s|t|], e' as [b'|z'|s'|t'|]; cbn [tag_of]; intros Hok Hok' Ht H; try done;
    cbn [payload_text] in H.
  - destruct b, b'; cbn in H; injection H as H; simplify_eq; done.
  - apply app_sep_inj in H as [H ->].
    + by apply u_str_int_inj in H as ->.
    + apply not_in_str_int. unfold digit_or_dash. lia.
    + apply not_in_str_int. unfold digit_or_dash. lia.
  - apply json_string_inj in H as [-> H]; [|done..]. by injection H as ->.
  - apply json_string_inj in H as [H H']; [|apply scalar_u..].
    apply u_inj in H as ->. by injection H' as ->.
  - cbn in H. by injection H as ->.
Qed.

Lemma encoded_text_inj e e' r r' :
  enc_ok e → enc_ok e' → encoded_text e ++ r = encoded_text e' ++ r' → e = e' ∧ r = r'.
Proof.
  unfold encoded_text. intros Hok Hok' H. rewrite <-!app_assoc in H. cbn [app] in H.
  peel H. apply tag_of_text_inj in H as [Ht H]. peel H.
  by apply payload_text_inj in H.
Qed.

Lemma field_text_inj f f' r r' :
  enc_ok (snd f) → enc_ok (snd f') → field_text f ++ r = field_text f' ++ r' → f = f' ∧ r = r'.
Proof.
  destruct f as [k e], f' as [k' e']. unfold field_text. cbn [fst snd]. intros Hok Hok' H.
  rewrite <-!app_assoc in H. apply json_string_inj in H as [Hk H]; [|apply scalar_u..].
  apply u_inj in Hk as ->. cbn [app] in H. peel H.
  apply encoded_text_inj in H as [-> ->]; done.
Qed.

Lemma field_text_head f : ∃ t, field_text f = 34%N :: t.
Proof. unfold field_text, json_string. cbn. eauto. Qed.

Lemma join_fields_cons f l :
  join [44%N] (map field_text (f :: l)) =
  field_text f ++ match l with [] => [] | _ => 44%N :: join [44%N] (map field_text l) end.
Proof. destruct l; cbn; [by rewrite app_nil_r|done]. Qed.

(** A comma-separated list of self-delimiting, quote-initial texts closed by a brace. *)
Lemma join_fields_inj l l' r r' :
  Forall (λ f, enc_ok (snd f)) l → Forall (λ f, enc_ok (snd f)) l' →
  join [44%N] (map field_text l) ++ 125%N :: r = join [44%N] (map field_text l') ++ 125%N :: r' →
  l = l' ∧ r = r'.
Proof.
  revert l'. induction l as [|f l IH]; intros [|f' l'] Hl Hl' H.
  - cbn in H. by injection H as ->.
  - exfalso. destruct (field_text_head f') as [t Ht].
    rewrite join_fields_cons, Ht in H. discriminate H.
  - exfalso. destruct (field_text_head f) as [t Ht].
    rewrite join_fields_cons, Ht in H. discriminate H.
  - inversion_clear Hl as [|? ? Hf Hl0]. inversion_clear Hl' as [|? ? Hf' Hl0'].
    rewrite !join_fields_cons, <-!app_assoc in H. apply field_text_inj in H as [-> H]; [|done..].
    destruct l as [|g l], l' as [|g' l']; [|discriminate H|discriminate H|].
    + cbn in H. by injection H as ->.
    + assert (H0 : join [44%N] (map field_text (g :: l)) ++ 125%N :: r
                 = join [44%N] (map field_text (g' :: l')) ++ 125%N :: r')
        by exact (f_equal (@tail N) H).
      destruct (IH (g' :: l') Hl0 Hl0' H0) as [<- <-]. done.
Qed.

(** ** The message determines its domain and its fields *)
Lemma encode_timestamp_Ok d t :
  encode_timestamp d = Ok t → dt_is_aware d = true ∧ t = strftime_utc (dt_astimezone_utc d).
Proof.
  unfold encode_timestamp. destruct (dt_is_aware d); cbn [negb]; intros H; [|discriminate H].
  apply Ok_inj in H. by split.
Qed.

Lemma encodes_time d e :
  encodes (VDatetime d) e → e = EncTime (strftime_utc (dt_astimezone_utc d)).
Proof.
  intros H. specialize (H ""). cbn [encode_value] in H.
  apply outcome_bind_Ok in H as (t & Ht & H). apply encode_timestamp_Ok in Ht as [_ ->].
  by apply Ok_inj in H.
Qed.

Lemma EncTime_inj a b : EncTime a = EncTime b → a = b.
Proof. congruence. Qed.

Definition is_datetime (v : CanonicalValue) : bool :=
  match v with VDatetime _ => true | _ => false end.

Lemma encodes_inj v v' e : encodes v e → encodes v' e → cv_ok v → cv_ok v' → cv_equiv v v'.
Proof.
  intros H H' Hok Hok'. destruct (is_datetime v) eqn:Ev, (is_datetime v') eqn:Ev'.
  - destruct v, v'; try discriminate. apply encodes_time in H as ->.
    apply encodes_time, EncTime_inj, strftime_utc_inj in H'; done.
  - destruct v; try discriminate. apply encodes_time in H as ->.
    specialize (H' ""). by destruct v'.
  - destruct v'; try discriminate. apply encodes_time in H' as ->.
    specialize (H ""). by destruct v.
  - specialize (H ""). specialize (H' ""). clear Hok Hok'.
    destruct v, v'; cbn in *; congruence.
Qed.

Lemma encodes_enc_ok v e : encodes v e → cv_ok v → enc_ok e.
Proof.
  intros H. destruct v; first [by apply encodes_time in H as -> | specialize (H "")];
    cbn in H; first [discriminate H | by apply Ok_inj in H as <-].
Qed.

Lemma py_sorted_Forall {A} (P : A → Prop) leb (l : list A) : Forall P l → Forall P (py_sorted leb l).
Proof. intros H. by rewrite py_sorted_Permutation. Qed.

Lemma encode_fields_ok fs es :
  encode_fields fs = Ok es → Forall (λ f, cv_ok (snd f)) fs → Forall (λ f, enc_ok (snd f)) es.
Proof.
  intros H0. apply encode_fields_Forall2 in H0.
  induction H0 as [|f e fs es [Hk He] H IH]; intros Hok; [constructor|].
  inversion_clear Hok. constructor; [by eapply encodes_enc_ok|auto].
Qed.

Lemma canonical_bytes_inj fs fs' m :
  Forall (λ f, cv_ok (snd f)) fs → Forall (λ f, cv_ok (snd f)) fs' →
  canonical_bytes fs = Ok m → canonical_bytes fs' = Ok m → fields_equiv fs fs'.
Proof.
  unfold canonical_bytes, mbind, outcome_bind. intros Hok Hok'.
  destruct (encode_fields fs) as [es|] eqn:E; [|done].
  destruct (encode_fields fs') as [es'|] eqn:E'; [|done]. intros H1 H2.
  assert (H : join [44%N] (map field_text (py_sorted key_leb es)) ++ [125%N] =
              join [44%N] (map field_text (py_sorted key_leb es')) ++ [125%N]).
  { rewrite <-H2 in H1. apply (f_equal (λ o, match o with Ok b => tail b | Raise _ => [] end)) in H1.
    exact H1. }
  apply join_fields_inj in H as [H _];
    [|apply py_sorted_Forall; by eapply encode_fields_ok..].
  apply encode_fields_Forall2, (py_sorted_Forall2 encodes) in E, E'.
  apply (py_sorted_Forall _ key_leb) in Hok, Hok'. rewrite H in E. clear H.
  unfold fields_equiv. revert E E' Hok Hok'.
  generalize (py_sorted key_leb es') as e, (py_sorted key_leb fs) as l, (py_sorted key_leb fs') as l'.
  intros e l l' E. revert l'. induction E as [|f x l e [Hk Hx] E IH]; intros l' E' Hok Hok';
    inversion E' as [|f' ? m' ? [Hk' Hx'] E'']; subst; constructor.
  - split; [congruence|]. inversion_clear Hok. inversion_clear Hok'. by eapply encodes_inj.
  - inversion_clear Hok. inversion_clear Hok'. by apply IH.
Qed.

Lemma encode_ascii_inj d d' b : encode_ascii d = Ok b → encode_ascii d' = Ok b → d = d'.
Proof.
  unfold encode_ascii. repeat case_match; intros H1 H2; try discriminate.
  apply Ok_inj in H1, H2. apply u_inj. congruence.
Qed.

(** The separator never occurs in a domain string of the code. *)
Definition domain_ok (d : string) : Prop := domain_separator ∉ u d.

Lemma canonical_message_inj d d' fs fs' m :
  domain_ok d → domain_ok d' →
  Forall (λ f, cv_ok (snd f)) fs → Forall (λ f, cv_ok (snd f)) fs' →
  canonical_message d fs = Ok m → canonical_message d' fs' = Ok m →
  d = d' ∧ fields_equiv fs fs'.
Proof.
  unfold canonical_message, mbind, outcome_bind. intros Hd Hd' Hok Hok'.
  destruct (String.eqb d ""), (String.eqb d' ""); try done.
  destruct (encode_ascii d) as [b|] eqn:Eb; [|done].
  destruct (encode_ascii d') as [b'|] eqn:Eb'; [|done].
  destruct (canonical_bytes fs) as [x|] eqn:Ex; [|done].
  destruct (canonical_bytes fs') as [x'|] eqn:Ex'; [|done].
  intros H0 H. apply Ok_inj in H0 as <-. apply Ok_inj in H. unfold domain_ok in *.
  assert (b = u d ∧ b' = u d') as [-> ->].
  { unfold encode_ascii in Eb, Eb'. repeat case_match; try discriminate.
    apply Ok_inj in Eb, Eb'. done. }
  apply app_sep_inj in H as [H ->]; [|done..].
  split; [by apply u_inj|by eapply canonical_bytes_inj].
Qed.

(** Equal digests: the same fields, or the two messages hashed are a collision. *)
Lemma canonical_digest_inj d d' fs fs' h :
  domain_ok d → domain_ok d' →
  Forall (λ f, cv_ok (snd f)) fs → Forall (λ f, cv_ok (snd f)) fs' →
  canonical_digest d fs = Ok h → canonical_digest d' fs' = Ok h →
  (d = d' ∧ fields_equiv fs fs') ∨
  ∃ m m', canonical_message d fs = Ok m ∧ canonical_message d' fs' = Ok m' ∧ sha256_collides m m'.
Proof.
  unfold canonical_digest, mbind, outcome_bind. intros Hd Hd' Hok Hok'.
  destruct (canonical_message d fs) as [m|] eqn:Em; [|done].
  destruct (canonical_message d' fs') as [m'|] eqn:Em'; [|done]. intros H0 H.
  apply Ok_inj in H0 as <-. apply Ok_inj in H. symmetry in H.
  destruct (sha256_eq_cases m m') as [->|Hc]; [done| |].
  - left. by eapply canonical_message_inj.
  - right. by exists m, m'.
Qed.
