(* ===== verification/Firewall.v ===== *)
(** * The capability firewall

    packages/schemas/capability.py, services/security_kernel/capability.py and
    services/security_kernel/capability_registry.py: capability sets, the default
    deny check, and the server-owned registry every privileged boundary checks a
    presented set against. *)
From S2P Require Import Prelude Python Json Enums Errors.

#[global] Instance Capability_countable : Countable Capability :=
  inj_countable enum_value enum_of enum_of_value.

(** ** packages/schemas/capability.py *)
Record CapabilitySet := mkCapabilitySet {
  cs_principal : string;
  cs_allow : gset Capability;
  cs_deny : gset Capability;
  cs_limits : json_obj
}.

Definition buyer_agent_capabilities (principal : string) : CapabilitySet :=
  mkCapabilitySet principal
    {[ Capability.CATALOG_READ; Capability.MERCHANT_DISCOVER; Capability.OFFER_REQUEST;
       Capability.OFFER_RANK; Capability.PAYMENT_PROPOSE ]}
    {[ Capability.PAYMENT_EXECUTE; Capability.REFUND_EXECUTE; Capability.POLICY_MODIFY;
       Capability.AUTHORIZATION_ISSUE; Capability.MERCHANT_MODIFY ]}
    [("single_transaction_inr", JInt 4500); ("daily_inr", JInt 10000)].

Definition security_kernel_capabilities (principal : string) : CapabilitySet :=
  mkCapabilitySet principal
    {[ Capability.AUTHORIZATION_ISSUE; Capability.PAYMENT_PROPOSE ]}
    {[ Capability.PAYMENT_EXECUTE; Capability.REFUND_EXECUTE; Capability.POLICY_MODIFY;
       Capability.MERCHANT_MODIFY ]}
    [].

Definition payment_executor_capabilities (principal : string) : CapabilitySet :=
  mkCapabilitySet principal
    {[ Capability.PAYMENT_EXECUTE; Capability.PAYMENT_PROPOSE ]}
    {[ Capability.AUTHORIZATION_ISSUE; Capability.REFUND_EXECUTE; Capability.POLICY_MODIFY;
       Capability.MERCHANT_MODIFY ]}
    [].

(** ** services/security_kernel/capability.py *)
Definition permits (capset : CapabilitySet) (capability : Capability) : bool :=
  if decide (capability ∈ cs_deny capset) then false
  else bool_decide (capability ∈ cs_allow capset).

Definition enforce {S} (capset : CapabilitySet) (capability : Capability) : M S exn unit :=
  if negb (permits capset capability)
  then raise (CapabilityDenied (cs_principal capset) capability)
  else mret tt.

Definition run_privileged {S R} (capset : CapabilitySet) (capability : Capability)
    (operation : M S exn R) : M S exn R :=
  enforce capset capability;; operation.

(** ** services/security_kernel/capability_registry.py *)
Definition capability_registry : list (string * (string → CapabilitySet)) :=
  [("buyer-agent", buyer_agent_capabilities);
   ("security-kernel", security_kernel_capabilities);
   ("payment-executor", payment_executor_capabilities)].

Definition capabilities_for (principal : string) : CapabilitySet :=
  match py_dict_get principal capability_registry with
  | None => mkCapabilitySet principal ∅ ∅ []
  | Some factory => factory principal
  end.

(** [capset != authoritative]: pydantic compares every field. *)
Definition capset_eqb (a b : CapabilitySet) : bool :=
  String.eqb (cs_principal a) (cs_principal b)
  && bool_decide (cs_allow a = cs_allow b) && bool_decide (cs_deny a = cs_deny b)
  && json_eqb (JObj (cs_limits a)) (JObj (cs_limits b)).

Definition enforce_registered {S} (capset : CapabilitySet) (capability : Capability)
    : M S exn unit :=
  let authoritative := capabilities_for (cs_principal capset) in
  if negb (capset_eqb capset authoritative)
  then raise (CapabilityDenied (cs_principal capset) capability)
  else enforce authoritative capability.

(** ** Lemmas *)
Lemma enforce_cases {S} c k (s : S) :
  enforce c k s =
    if permits c k then (Ok tt, s) else (Raise (CapabilityDenied (cs_principal c) k), s).
Proof. unfold enforce. by destruct (permits c k). Qed.

Lemma enforce_registered_cases {S} c k (s : S) :
  enforce_registered c k s =
    if capset_eqb c (capabilities_for (cs_principal c)) && permits (capabilities_for (cs_principal c)) k
    then (Ok tt, s) else (Raise (CapabilityDenied (cs_principal c) k), s).
Proof.
  unfold enforce_registered. destruct (capset_eqb _ _); cbn; [|done].
  rewrite enforce_cases. destruct (permits _ k); [done|].
  do 3 f_equal. unfold capabilities_for.
  cbn. by repeat (destruct (String.eqb _ _); [done|]).
Qed.

Lemma evolves_enforce {S} (R : S → S → Prop) `{!PreOrder R} c k : evolves R (enforce c k).
Proof. unfold enforce. evolve. Qed.
Lemma evolves_enforce_registered {S} (R : S → S → Prop) `{!PreOrder R} c k :
  evolves R (enforce_registered c k).
Proof. unfold enforce_registered, enforce. cbv zeta. evolve. Qed.
#[export] Hint Resolve evolves_enforce evolves_enforce_registered : evolves.

(** Who the registry lets hold a capability. *)
Lemma registered_holder p k :
  permits (capabilities_for p) k = true →
  (p = "buyer-agent" ∧ permits (buyer_agent_capabilities p) k = true) ∨
  (p = "security-kernel" ∧ permits (security_kernel_capabilities p) k = true) ∨
  (p = "payment-executor" ∧ permits (payment_executor_capabilities p) k = true).
Proof.
  unfold capabilities_for. cbn.
  destruct (String.eqb_spec p "buyer-agent"); [by left|].
  destruct (String.eqb_spec p "security-kernel"); [by right; left|].
  destruct (String.eqb_spec p "payment-executor"); [by right; right|].
  unfold permits. cbn. rewrite decide_False by set_solver.
  intros H%bool_decide_eq_true. set_solver.
Qed.

Lemma permits_principal c c' k :
  cs_allow c = cs_allow c' → cs_deny c = cs_deny c' → permits c k = permits c' k.
Proof. unfold permits. by intros -> ->. Qed.

(** The sets of the three principals, evaluated. *)
Lemma buyer_agent_permits p k :
  permits (buyer_agent_capabilities p) k =
  match k with
  | Capability.CATALOG_READ | Capability.MERCHANT_DISCOVER | Capability.OFFER_REQUEST
  | Capability.OFFER_RANK | Capability.PAYMENT_PROPOSE => true
  | _ => false
  end.
Proof. rewrite (permits_principal _ (buyer_agent_capabilities "")) by done. by destruct k; vm_compute. Qed.
Lemma security_kernel_permits p k :
  permits (security_kernel_capabilities p) k =
  match k with Capability.AUTHORIZATION_ISSUE | Capability.PAYMENT_PROPOSE => true | _ => false end.
Proof. rewrite (permits_principal _ (security_kernel_capabilities "")) by done. by destruct k; vm_compute. Qed.
Lemma payment_executor_permits p k :
  permits (payment_executor_capabilities p) k =
  match k with Capability.PAYMENT_EXECUTE | Capability.PAYMENT_PROPOSE => true | _ => false end.
Proof. rewrite (permits_principal _ (payment_executor_capabilities "")) by done. by destruct k; vm_compute. Qed.

(** What the two money-moving grants say about the principal presenting them. *)
Lemma enforce_registered_ok {S} c k (s : S) :
  fst (enforce_registered c k s) = Ok tt →
  permits (capabilities_for (cs_principal c)) k = true ∧ capset_eqb c (capabilities_for (cs_principal c)) = true.
Proof.
  rewrite enforce_registered_cases. destruct (capset_eqb _ _), (permits _ k); done.
Qed.

Lemma execute_holder {S} c (s : S) :
  fst (enforce_registered c Capability.PAYMENT_EXECUTE s) = Ok tt → cs_principal c = "payment-executor".
Proof.
  intros [H _]%enforce_registered_ok.
  apply registered_holder in H as [[_ H]|[[_ H]|[H _]]]; [..|done].
  - by rewrite buyer_agent_permits in H.
  - by rewrite security_kernel_permits in H.
Qed.

Lemma issue_holder {S} c (s : S) :
  fst (enforce_registered c Capability.AUTHORIZATION_ISSUE s) = Ok tt → cs_principal c = "security-kernel".
Proof.
  intros [H _]%enforce_registered_ok.
  apply registered_holder in H as [[_ H]|[[H _]|[_ H]]]; [|done|].
  - by rewrite buyer_agent_permits in H.
  - by rewrite payment_executor_permits in H.
Qed.

(** ** Properties *)

(** Separation of duties.  Whatever capability sets are presented, a principal
    that the registry lets issue authorizations is refused [payment.execute] (and
    the state is untouched), because only security-kernel may issue and only
    payment-executor may execute. *)
Theorem issuer_cannot_execute {S} (c c' : CapabilitySet) (s s' : S) :
  fst (enforce_registered c Capability.AUTHORIZATION_ISSUE s) = Ok tt →
  cs_principal c' = cs_principal c →
  enforce_registered c' Capability.PAYMENT_EXECUTE s' =
    (Raise (CapabilityDenied (cs_principal c') Capability.PAYMENT_EXECUTE), s').
Proof.
  intros Hi Hp. apply issue_holder in Hi.
  pose proof (enforce_registered_cases c' Capability.PAYMENT_EXECUTE s') as E.
  destruct (_ && _) eqn:Eb; [|exact E].
  assert (cs_principal c' = "payment-executor") by (eapply execute_holder; by rewrite E).
  congruence.
Qed.

Lemma issuer_cannot_execute_witness :
  enforce_registered (payment_executor_capabilities "security-kernel") Capability.PAYMENT_EXECUTE tt =
    (Raise (CapabilityDenied "security-kernel" Capability.PAYMENT_EXECUTE), tt).
Proof.
  apply (issuer_cannot_execute (security_kernel_capabilities "security-kernel")
           (payment_executor_capabilities "security-kernel") tt tt); vm_compute; reflexivity.
Defined.

(** Grants are not self-certified.  [run_privileged] under [enforce_registered]
    reaches its operation only if the presented set equals the server-owned set of
    its principal, that set allows the capability and does not deny it; otherwise
    it raises CapabilityDenied and leaves the state as it was. *)
Theorem registered_gate {S R} (c : CapabilitySet) (k : Capability) (op : M S exn R) (s : S) :
  (enforce_registered c k;; run_privileged (capabilities_for (cs_principal c)) k op) s =
    if capset_eqb c (capabilities_for (cs_principal c))
       && bool_decide (k ∈ cs_allow (capabilities_for (cs_principal c)))
       && negb (bool_decide (k ∈ cs_deny (capabilities_for (cs_principal c))))
    then op s
    else (Raise (CapabilityDenied (cs_principal c) k), s).
Proof.
  unfold mbind, M_bind. rewrite enforce_registered_cases.
  destruct (capset_eqb _ _); cbn [andb]; [|done].
  assert (E : permits (capabilities_for (cs_principal c)) k =
    bool_decide (k ∈ cs_allow (capabilities_for (cs_principal c)))
    && negb (bool_decide (k ∈ cs_deny (capabilities_for (cs_principal c))))).
  { unfold permits. destruct (decide (k ∈ cs_deny _)) as [Hd|Hd].
    - by rewrite (bool_decide_eq_true_2 _ Hd), andb_false_r.
    - by rewrite (bool_decide_eq_false_2 _ Hd), andb_true_r. }
  rewrite <-E. destruct (permits _ k) eqn:Ep; [|done].
  unfold run_privileged, mbind, M_bind. by rewrite enforce_cases, Ep.
Qed.
