(* ===== verification/Transaction.v ===== *)
(** * The bound transaction and its digest

    packages/schemas/transaction.py and packages/schemas/approval.py: the nine
    bound fields, the digest an authorization commits to, the offer fingerprint,
    and the message an approver signs. *)
From S2P Require Import Prelude Python PyFloat Json Text Enums Errors Canonical.

(** ** packages/schemas/transaction.py *)
Definition BINDING_VERSION : string := "pactra-txn-bind-v1".
Definition OFFER_VERSION_DOMAIN : string := "pactra-offer-version-v1".
Definition BOUND_FIELDS : list string :=
  ["merchant_id"; "product_id"; "quantity"; "amount_inr"; "currency"; "policy_version";
   "offer_version"; "expires_at"; "nonce"].
Definition NONCE_HEX_LENGTH : nat := 64.

Record OfferCandidate := mkOfferCandidate { oc_offer_id : uuid }.

Record BoundTransaction := mkBoundTransaction {
  bt_merchant_id : string;
  bt_product_id : string;
  bt_quantity : Z;
  bt_amount_inr : Z;
  bt_currency : string;
  bt_policy_version : string;
  bt_offer_version : string;
  bt_expires_at : datetime;
  bt_nonce : string
}.

(** [Field(min_length=lo, max_length=hi)]. *)
Definition length_within (lo hi : nat) (s : string) : bool :=
  (lo <=? String.length s)%nat && (String.length s <=? hi)%nat.

(** The field constraints, in declaration order; the first that fails. *)
Definition bound_transaction_error (t : BoundTransaction) : option string :=
  if negb (length_within 1 120 (bt_merchant_id t)) then Some "merchant_id"
  else if negb (length_within 1 120 (bt_product_id t)) then Some "product_id"
  else if negb ((1 <=? bt_quantity t) && (bt_quantity t <=? 100)) then Some "quantity"
  else if negb (1 <=? bt_amount_inr t) then Some "amount_inr"
  else if negb (length_within 3 3 (bt_currency t)) then Some "currency"
  else if negb (length_within 1 40 (bt_policy_version t)) then Some "policy_version"
  else if negb (length_within 1 64 (bt_offer_version t)) then Some "offer_version"
  else if negb (length_within NONCE_HEX_LENGTH 128 (bt_nonce t)
                && str_forallb is_lower_hex (bt_nonce t)) then Some "nonce"
  else None.

(** [BoundTransaction(...)]: the field constraints, then [_upper_currency], then
    [_expiry_is_timezone_aware]. *)
Definition BoundTransaction_new (t : BoundTransaction) : outcome exn BoundTransaction :=
  match bound_transaction_error t with
  | Some field => Raise (ValidationError field)
  | None =>
      if negb (dt_is_aware (bt_expires_at t))
      then Raise (InvariantViolation "transaction.expiry_is_timezone_aware"
             "expires_at must be timezone-aware; a naive expiry has no single instant")
      else Ok (mkBoundTransaction (bt_merchant_id t) (bt_product_id t) (bt_quantity t)
                 (bt_amount_inr t) (py_upper (bt_currency t)) (bt_policy_version t)
                 (bt_offer_version t) (bt_expires_at t) (bt_nonce t))
  end.

Definition canonical_fields (t : BoundTransaction) : list (string * CanonicalValue) :=
  [("merchant_id", VStr (u (bt_merchant_id t)));
   ("product_id", VStr (u (bt_product_id t)));
   ("quantity", VInt (bt_quantity t));
   ("amount_inr", VInt (bt_amount_inr t));
   ("currency", VStr (u (bt_currency t)));
   ("policy_version", VStr (u (bt_policy_version t)));
   ("offer_version", VStr (u (bt_offer_version t)));
   ("expires_at", VDatetime (bt_expires_at t));
   ("nonce", VStr (u (bt_nonce t)))].

Definition digest (t : BoundTransaction) : outcome exn string :=
  canonical_digest BINDING_VERSION (canonical_fields t).

(** [int(round(rating * 100))], or the exception of [round] on a NaN or an infinity. *)
Definition int_error (x : float) : exn :=
  match x with
  | S754_nan => ValueError "cannot convert float NaN to integer"
  | _ => OverflowError "cannot convert float infinity to integer"
  end.
Definition int_round (x : float) : outcome exn Z :=
  match py_round_int x with
  | Some z => Ok z
  | None => Raise (int_error x)
  end.

Definition offer_version_fields (merchant_id product_id : string) (amount_inr : Z)
    (currency : string) (rating_centis : Z) (in_stock : bool) (offered_at : datetime)
    : list (string * CanonicalValue) :=
  [("merchant_id", VStr (u merchant_id));
   ("product_id", VStr (u product_id));
   ("amount_inr", VInt amount_inr);
   ("currency", VStr (u currency));
   ("rating_centis", VInt rating_centis);
   ("in_stock", VBool in_stock);
   ("offered_at", VDatetime offered_at)].

Definition compute_offer_version (merchant_id product_id : string) (amount_inr : Z)
    (currency : string) (rating : float) (in_stock : bool) (offered_at : datetime)
    : outcome exn string :=
  rating_centis ← int_round (fl_mul rating (fl_of_Z 100));
  h ← canonical_digest OFFER_VERSION_DOMAIN
        (offer_version_fields merchant_id product_id amount_inr currency rating_centis in_stock offered_at);
  Ok (str_take 32 h).

(** ** packages/schemas/approval.py *)
Definition APPROVAL_DOMAIN : string := "pactra-user-approval-v1".
Definition APPROVAL_ALGORITHM : string := "Ed25519".
Definition SIGNATURE_HEX_LENGTH : nat := 128.
Definition PUBLIC_KEY_HEX_LENGTH : nat := 64.
Definition APPROVAL_MESSAGE_FIELDS : list string :=
  ["authorization_id"; "mission_id"; "binding_version"; "transaction_digest"; "signing_key_id"].

Definition is_sha256_hex (s : string) : bool :=
  (String.length s =? 64)%nat && String.eqb s (py_lower s) && str_forallb is_lower_hex s.

Definition approval_fields (authorization_id mission_id : uuid)
    (binding_version transaction_digest signing_key_id : string) : list (string * CanonicalValue) :=
  [("authorization_id", VStr (u (str_uuid authorization_id)));
   ("mission_id", VStr (u (str_uuid mission_id)));
   ("binding_version", VStr (u binding_version));
   ("transaction_digest", VStr (u transaction_digest));
   ("signing_key_id", VStr (u signing_key_id))].

Definition approval_message (authorization_id mission_id : uuid)
    (binding_version transaction_digest signing_key_id : string) : outcome exn bytes :=
  if negb (is_sha256_hex transaction_digest)
  then Raise (InvariantViolation "approval.transaction_digest_is_lowercase_sha256_hex"
         "transaction_digest must be exactly 64 lowercase hexadecimal characters")
  else if String.eqb binding_version ""
  then Raise (InvariantViolation "approval.binding_version_present" "binding_version is empty")
  else if String.eqb signing_key_id ""
  then Raise (InvariantViolation "approval.signing_key_id_present" "signing_key_id is empty")
  else
    let fields := approval_fields authorization_id mission_id binding_version
                    transaction_digest signing_key_id in
    if negb (bool_decide (map fst fields = APPROVAL_MESSAGE_FIELDS))
    then Raise (InvariantViolation "approval.message_fields_complete"
           "approval message field set drifted")
    else canonical_message APPROVAL_DOMAIN fields.

(** ** The construction *)
Lemma BoundTransaction_new_ok t t' :
  BoundTransaction_new t = Ok t' →
  bound_transaction_error t = None ∧ dt_is_aware (bt_expires_at t) = true ∧
  t' = mkBoundTransaction (bt_merchant_id t) (bt_product_id t) (bt_quantity t)
         (bt_amount_inr t) (py_upper (bt_currency t)) (bt_policy_version t)
         (bt_offer_version t) (bt_expires_at t) (bt_nonce t).
Proof.
  unfold BoundTransaction_new. destruct (bound_transaction_error t); [done|].
  destruct (dt_is_aware _); cbn; [|done]. intros H%Ok_inj. done.
Qed.

Lemma BoundTransaction_new_idemp t t' :
  BoundTransaction_new t = Ok t' → BoundTransaction_new t' = Ok t'.
Proof.
  intros (He & Ha & ->)%BoundTransaction_new_ok.
  unfold BoundTransaction_new. destruct (bound_transaction_error (mkBoundTransaction _ _ _ _ _ _ _ _ _)) eqn:E.
  - revert He E. unfold bound_transaction_error, length_within, py_upper.
    cbn [bt_merchant_id bt_product_id bt_quantity bt_amount_inr bt_currency bt_policy_version
         bt_offer_version bt_nonce].
    rewrite length_str_map. congruence.
  - cbn. rewrite Ha. cbn. by rewrite py_upper_idemp.
Qed.

(** What the constructor guarantees of the fields. *)
Record bound_transaction_wf (t : BoundTransaction) : Prop := {
  wf_quantity : 1 <= bt_quantity t <= 100;
  wf_amount : 1 <= bt_amount_inr t;
  wf_currency : String.length (bt_currency t) = 3%nat ∧ py_upper (bt_currency t) = bt_currency t;
  wf_nonce : (NONCE_HEX_LENGTH <= String.length (bt_nonce t) <= 128)%nat
             ∧ str_forallb is_lower_hex (bt_nonce t) = true;
  wf_expiry : dt_is_aware (bt_expires_at t) = true
}.

Lemma BoundTransaction_new_wf t t' : BoundTransaction_new t = Ok t' → bound_transaction_wf t'.
Proof.
  intros (He & Ha & ->)%BoundTransaction_new_ok. unfold bound_transaction_error, length_within in He.
  repeat match type of He with
  | context [if negb ?b then _ else _] => destruct b eqn:?; cbn [negb] in He; [|discriminate He]
  end.
  rewrite !andb_true_iff, ?Z.leb_le, ?Nat.leb_le in *.
  constructor; cbn [bt_quantity bt_amount_inr bt_currency bt_nonce bt_expires_at];
    [lia|lia|split; [unfold py_upper; rewrite length_str_map; lia|apply py_upper_idemp]|
     split; [lia|tauto]|done].
Qed.

(** ** The digest commits to the nine fields *)
Definition bound_equiv (t t' : BoundTransaction) : Prop :=
  bt_merchant_id t = bt_merchant_id t' ∧ bt_product_id t = bt_product_id t' ∧
  bt_quantity t = bt_quantity t' ∧ bt_amount_inr t = bt_amount_inr t' ∧
  bt_currency t = bt_currency t' ∧ bt_policy_version t = bt_policy_version t' ∧
  bt_offer_version t = bt_offer_version t' ∧
  dt_instant (bt_expires_at t) = dt_instant (bt_expires_at t') ∧ bt_nonce t = bt_nonce t'.

#[global] Instance bound_equiv_equivalence : Equivalence bound_equiv.
Proof. split; red; unfold bound_equiv; intros; destruct_and?; split_and!; congruence. Qed.

Lemma map_fst_canonical_fields t : map fst (canonical_fields t) = BOUND_FIELDS.
Proof. done. Qed.

Lemma VStr_u_inj s s' : VStr (u s) = VStr (u s') → s = s'.
Proof. intros H. apply u_inj. congruence. Qed.

(** The order the encoder writes the fields in. *)
Lemma canonical_fields_sorted t :
  py_sorted key_leb (canonical_fields t) =
  [("amount_inr", VInt (bt_amount_inr t)); ("currency", VStr (u (bt_currency t)));
   ("expires_at", VDatetime (bt_expires_at t)); ("merchant_id", VStr (u (bt_merchant_id t)));
   ("nonce", VStr (u (bt_nonce t))); ("offer_version", VStr (u (bt_offer_version t)));
   ("policy_version", VStr (u (bt_policy_version t))); ("product_id", VStr (u (bt_product_id t)));
   ("quantity", VInt (bt_quantity t))].
Proof. reflexivity. Qed.

Lemma approval_fields_sorted a m bv td k :
  py_sorted key_leb (approval_fields a m bv td k) =
  [("authorization_id", VStr (u (str_uuid a))); ("binding_version", VStr (u bv));
   ("mission_id", VStr (u (str_uuid m))); ("signing_key_id", VStr (u k));
   ("transaction_digest", VStr (u td))].
Proof. reflexivity. Qed.

Lemma canonical_fields_equiv t t' :
  fields_equiv (canonical_fields t) (canonical_fields t') → bound_equiv t t'.
Proof.
  unfold fields_equiv. rewrite !canonical_fields_sorted.
  intros Hl. repeat (apply Forall2_cons_1 in Hl as [[_ ?Hv] Hl]). cbn [snd cv_equiv] in *.
  repeat match goal with H : VStr _ = VStr _ |- _ => apply VStr_u_inj in H end.
  unfold bound_equiv. intuition congruence.
Qed.

Lemma canonical_fields_ok t :
  in_year_range (bt_expires_at t) → Forall (λ f, cv_ok (snd f)) (canonical_fields t).
Proof.
  intros H. unfold canonical_fields.
  repeat (apply List.Forall_cons; [first [exact H | exact I | apply scalar_u]|]). apply List.Forall_nil.
Qed.

Lemma domain_ok_dec d : forallb (λ c, negb (c =? domain_separator)%N) (u d) = true → domain_ok d.
Proof.
  intros H Hin. apply list_elem_of_In in Hin. eapply forallb_forall in H; [|exact Hin]. by cbn in H.
Qed.
Lemma binding_domain_ok : domain_ok BINDING_VERSION.
Proof. by apply domain_ok_dec. Qed.
Lemma offer_domain_ok : domain_ok OFFER_VERSION_DOMAIN.
Proof. by apply domain_ok_dec. Qed.
Lemma approval_domain_ok : domain_ok APPROVAL_DOMAIN.
Proof. by apply domain_ok_dec. Qed.

(** The message a transaction's digest hashes. *)
Definition binding_message (t : BoundTransaction) : outcome exn bytes :=
  canonical_message BINDING_VERSION (canonical_fields t).

Lemma digest_inj t t' h :
  in_year_range (bt_expires_at t) → in_year_range (bt_expires_at t') →
  digest t = Ok h → digest t' = Ok h →
  bound_equiv t t' ∨
  ∃ m m', binding_message t = Ok m ∧ binding_message t' = Ok m' ∧ sha256_collides m m'.
Proof.
  intros Ht Ht' H H'.
  destruct (canonical_digest_inj _ _ _ _ _ binding_domain_ok binding_domain_ok
    (canonical_fields_ok t Ht) (canonical_fields_ok t' Ht') H H') as [[_ He]|Hc]; [|by right].
  left. by apply canonical_fields_equiv.
Qed.

(** Equal transactions, up to the spelling of the expiry, have one digest. *)
Lemma encode_timestamp_equiv d d' :
  dt_is_aware d = dt_is_aware d' → dt_instant d = dt_instant d' →
  encode_timestamp d = encode_timestamp d'.
Proof. unfold encode_timestamp, dt_astimezone_utc. by intros -> ->. Qed.

Lemma digest_equiv t t' :
  bound_equiv t t' → dt_is_aware (bt_expires_at t) = dt_is_aware (bt_expires_at t') →
  digest t = digest t'.
Proof.
  intros (H1 & H2 & H3 & H4 & H5 & H6 & H7 & H8 & H9) Ha.
  unfold digest, canonical_digest, canonical_message, canonical_bytes, canonical_fields.
  rewrite H1, H2, H3, H4, H5, H6, H7, H9. cbn [encode_fields encode_value].
  by rewrite (encode_timestamp_equiv _ _ Ha H8).
Qed.

Lemma encode_ascii_binding : encode_ascii BINDING_VERSION = Ok (u BINDING_VERSION).
Proof. reflexivity. Qed.

Lemma digest_total t : dt_is_aware (bt_expires_at t) = true → ∃ h, digest t = Ok h.
Proof.
  intros Ha. unfold digest, canonical_digest, canonical_message.
  replace (String.eqb BINDING_VERSION "") with false by reflexivity.
  rewrite encode_ascii_binding. unfold canonical_bytes, canonical_fields.
  cbn [encode_fields encode_value]. unfold encode_timestamp. rewrite Ha. cbn [negb].
  unfold mbind, outcome_bind. eauto.
Qed.

(** ** The approval message *)
Lemma approval_message_ok a m bv td k msg :
  approval_message a m bv td k = Ok msg →
  is_sha256_hex td = true ∧ bv ≠ "" ∧ k ≠ "" ∧
  canonical_message APPROVAL_DOMAIN (approval_fields a m bv td k) = Ok msg.
Proof.
  unfold approval_message. destruct (is_sha256_hex td); cbn [negb]; [|discriminate].
  destruct (String.eqb_spec bv ""); [discriminate|].
  destruct (String.eqb_spec k ""); [discriminate|].
  rewrite bool_decide_eq_true_2 by reflexivity. cbn [negb]. intros H. repeat split; done.
Qed.

Lemma approval_fields_equiv a m bv td k a' m' bv' td' k' :
  (a < 2 ^ 128)%N → (a' < 2 ^ 128)%N → (m < 2 ^ 128)%N → (m' < 2 ^ 128)%N →
  fields_equiv (approval_fields a m bv td k) (approval_fields a' m' bv' td' k') →
  a = a' ∧ m = m' ∧ bv = bv' ∧ td = td' ∧ k = k'.
Proof.
  intros Ha Ha' Hm Hm'. unfold fields_equiv. rewrite !approval_fields_sorted.
  intros Hl. repeat (apply Forall2_cons_1 in Hl as [[_ ?Hv] Hl]). cbn [snd cv_equiv] in *.
  repeat match goal with H : VStr _ = VStr _ |- _ => apply VStr_u_inj in H end.
  split; [by apply str_uuid_inj|]. split; [by apply str_uuid_inj|]. done.
Qed.

Lemma approval_fields_ok a m bv td k :
  Forall (λ f, cv_ok (snd f)) (approval_fields a m bv td k).
Proof.
  unfold approval_fields.
  repeat (apply List.Forall_cons; [apply scalar_u|]). apply List.Forall_nil.
Qed.

(** The signed bytes name the authorization, its mission, the digest and the key. *)
Lemma approval_message_inj a m bv td k a' m' bv' td' k' msg :
  (a < 2 ^ 128)%N → (a' < 2 ^ 128)%N → (m < 2 ^ 128)%N → (m' < 2 ^ 128)%N →
  approval_message a m bv td k = Ok msg → approval_message a' m' bv' td' k' = Ok msg →
  a = a' ∧ m = m' ∧ bv = bv' ∧ td = td' ∧ k = k'.
Proof.
  intros Ha Ha' Hm Hm' (_ & _ & _ & H)%approval_message_ok (_ & _ & _ & H')%approval_message_ok.
  apply approval_fields_equiv; [exact Ha|exact Ha'|exact Hm|exact Hm'|].
  exact (proj2 (canonical_message_inj _ _ _ _ _ approval_domain_ok approval_domain_ok
    (approval_fields_ok _ _ _ _ _) (approval_fields_ok _ _ _ _ _) H H')).
Qed.

(** ** Properties *)

(** C31: The transaction digest binds all nine fields.  Two bound transactions with
    the same digest agree on merchant, product, quantity, amount, currency, policy
    version, offer version, expiry instant and nonce, or else the two messages
    hashed are themselves a collision of SHA-256. *)
Theorem digest_binds_every_field (t t' : BoundTransaction) (h : string) :
  in_year_range (bt_expires_at t) → in_year_range (bt_expires_at t') →
  digest t = Ok h → digest t' = Ok h →
  (bt_merchant_id t = bt_merchant_id t' ∧ bt_product_id t = bt_product_id t' ∧
   bt_quantity t = bt_quantity t' ∧ bt_amount_inr t = bt_amount_inr t' ∧
   bt_currency t = bt_currency t' ∧ bt_policy_version t = bt_policy_version t' ∧
   bt_offer_version t = bt_offer_version t' ∧
   dt_instant (bt_expires_at t) = dt_instant (bt_expires_at t') ∧ bt_nonce t = bt_nonce t') ∨
  ∃ m m', canonical_message BINDING_VERSION (canonical_fields t) = Ok m ∧
          canonical_message BINDING_VERSION (canonical_fields t') = Ok m' ∧ sha256_collides m m'.
Proof. apply digest_inj. Qed.

(** A transaction and the same one with its expiry spelled in another offset. *)
Definition example_transaction (expires_at : datetime) : BoundTransaction :=
  mkBoundTransaction "merchant_a" "aur-eb-01" 1 4299 "INR" "policy-v1"
    "0123456789abcdef0123456789abcdef" expires_at
    "00112233445566778899aabbccddeeff00112233445566778899aabbccddeeff".
Definition noon_utc : datetime := utc 1767268800000000.
Definition noon_in_kolkata : datetime := DateTime 1767288600000000 (Some 19800000000).

Lemma digest_binds_every_field_witness :
  ∃ h, digest (example_transaction noon_utc) = Ok h ∧ digest (example_transaction noon_in_kolkata) = Ok h ∧
  ((bt_merchant_id (example_transaction noon_utc) = "merchant_a" ∧
    dt_instant noon_utc = dt_instant noon_in_kolkata) ∨
   ∃ m m', canonical_message BINDING_VERSION (canonical_fields (example_transaction noon_utc)) = Ok m ∧
     canonical_message BINDING_VERSION (canonical_fields (example_transaction noon_in_kolkata)) = Ok m' ∧
     sha256_collides m m').
Proof.
  destruct (digest_total (example_transaction noon_utc) eq_refl) as [h Hh]. exists h.
  assert (E : digest (example_transaction noon_in_kolkata) = Ok h).
  { rewrite <-Hh. apply (digest_equiv (example_transaction noon_in_kolkata) (example_transaction noon_utc)).
    - unfold bound_equiv. split_and!; vm_compute; reflexivity.
    - vm_compute. reflexivity. }
  split; [exact Hh|]. split; [exact E|].
  destruct (digest_binds_every_field (example_transaction noon_utc) (example_transaction noon_in_kolkata) h)
    as [(_ & _ & _ & _ & _ & _ & _ & He & _)|Hc].
  - split; vm_compute; discriminate.
  - split; vm_compute; discriminate.
  - exact Hh.
  - exact E.
  - left. split; [reflexivity|exact He].
  - right. exact Hc.
Defined.



(** C39: The bytes an approver signs name exactly one approval: if two requests
    produce the same message they are for the same authorization, mission, binding
    version, transaction digest and signing key, so a signature for one approval
    can never be presented for another. *)
Theorem approval_message_unambiguous (a m a' m' : uuid) (bv td k bv' td' k' : string) (msg : bytes) :
  (a < 2 ^ 128)%N → (a' < 2 ^ 128)%N → (m < 2 ^ 128)%N → (m' < 2 ^ 128)%N →
  approval_message a m bv td k = Ok msg → approval_message a' m' bv' td' k' = Ok msg →
  a = a' ∧ m = m' ∧ bv = bv' ∧ td = td' ∧ k = k'.
Proof. apply approval_message_inj. Qed.

Definition example_digest : string := "00112233445566778899aabbccddeeff00112233445566778899aabbccddeeff".
Definition example_message : bytes :=
  match approval_message 7%N 9%N BINDING_VERSION example_digest "demo-key" with Ok m => m | _ => [] end.
Lemma approval_message_unambiguous_witness :
  approval_message 7%N 9%N BINDING_VERSION example_digest "demo-key" = Ok example_message ∧ 7%N = 7%N.
Proof.
  assert (H : approval_message 7%N 9%N BINDING_VERSION example_digest "demo-key" = Ok example_message)
    by (vm_compute; reflexivity).
  split; [exact H|].
  apply (approval_message_unambiguous 7%N 9%N 7%N 9%N BINDING_VERSION example_digest "demo-key"
           BINDING_VERSION example_digest "demo-key" example_message);
    first [exact H | vm_compute; reflexivity].
Defined.
