(* ===== verification/StateMachines.v ===== *)
(** * The mission and the payment state machines

    services/agent_orchestrator/state_machine.py and
    services/payment_executor/state_machine.py: the transition tables, the
    guards that consult them, and what can be reached through them. *)
From S2P Require Import Prelude Python Enums Errors.

(** ** services/agent_orchestrator/state_machine.py *)
Module MissionFSM.
Import MissionState.

Definition ALLOWED_TRANSITIONS (s : MissionState) : list MissionState :=
  match s with
  | CREATED => [INTENT_PARSED; CANCELLED]
  | INTENT_PARSED => [DISCOVERING; CANCELLED]
  | DISCOVERING => [OFFERS_RECEIVED; CANCELLED]
  | OFFERS_RECEIVED => [OFFERS_NORMALIZED; CANCELLED]
  | OFFERS_NORMALIZED => [RANKED; CANCELLED]
  | RANKED => [POLICY_CHECKED; CANCELLED]
  | POLICY_CHECKED => [AWAITING_APPROVAL; AUTHORIZED; CANCELLED]
  | AWAITING_APPROVAL => [AUTHORIZED; CANCELLED]
  | AUTHORIZED => [PAYMENT_PENDING; CANCELLED]
  | PAYMENT_PENDING => [PAYMENT_SUCCEEDED; PAYMENT_FAILED]
  | PAYMENT_SUCCEEDED => [COMPLETED]
  | PAYMENT_FAILED => [CANCELLED; PAYMENT_PENDING]
  | COMPLETED => []
  | CANCELLED => []
  end.

Definition can_transition (current target : MissionState) : bool :=
  bool_decide (target ∈ ALLOWED_TRANSITIONS current).

Definition assert_transition {S} (current target : MissionState) : M S exn unit :=
  if negb (can_transition current target) then raise (IllegalTransition current target) else mret tt.

(** A run of the machine, and a run that avoids a set of states. *)
Definition step (s t : MissionState) : Prop := can_transition s t = true.
Definition run : MissionState → MissionState → Prop := rtc step.
Definition run_avoiding (bad : MissionState) : MissionState → MissionState → Prop :=
  rtc (λ s t, step s t ∧ t ≠ bad).

(** An invariant closed under the table holds along every run. *)
Lemma run_invariant (P : MissionState → Prop) s t :
  (∀ s t, P s → step s t → P t) → P s → run s t → P t.
Proof. intros Hstep Hs Hrun. induction Hrun; eauto. Qed.

Lemma run_avoiding_invariant bad (P : MissionState → Prop) s t :
  (∀ s t, P s → step s t → t ≠ bad → P t) → P s → run_avoiding bad s t → P t.
Proof. intros Hstep Hs Hrun. induction Hrun as [|x y z [Hxy Hy] _ IH]; eauto. Qed.

(** The states in which money is moving or has moved. *)
Definition is_payment_state (s : MissionState) : bool :=
  match s with
  | PAYMENT_PENDING | PAYMENT_SUCCEEDED | PAYMENT_FAILED | COMPLETED => true
  | _ => false
  end.

Definition terminal (s : MissionState) : bool :=
  match s with COMPLETED | CANCELLED => true | _ => false end.

(** A run that avoids AUTHORIZED does not enter the payment states. *)
Lemma unauthorized_run s t :
  run_avoiding AUTHORIZED s t → is_payment_state s = false → s ≠ AUTHORIZED →
  is_payment_state t = false ∧ t ≠ AUTHORIZED.
Proof.
  intros H Hs Hn. apply (run_avoiding_invariant AUTHORIZED
    (λ s, is_payment_state s = false ∧ s ≠ AUTHORIZED) _ _) in H; [done| |done].
  intros s1 s2 [Hp Ha] Hstep Hb. split; [|done]. by destruct s1, s2.
Qed.
End MissionFSM.

Lemma evolves_assert_transition {S} (R : S → S → Prop) `{!PreOrder R} c t :
  evolves R (MissionFSM.assert_transition c t).
Proof. unfold MissionFSM.assert_transition. evolve. Qed.
#[export] Hint Resolve evolves_assert_transition : evolves.

(** ** services/payment_executor/state_machine.py *)
Module PaymentFSM.
Import PaymentIntentState.

Definition TERMINAL_PAYMENT_STATES : list PaymentIntentState := [SUCCEEDED; FAILED_TERMINAL; CANCELLED].
Definition UNCERTAIN_PAYMENT_STATES : list PaymentIntentState := [PROVIDER_PENDING].

Definition ALLOWED_PAYMENT_TRANSITIONS (s : PaymentIntentState) : list PaymentIntentState :=
  match s with
  | CREATED => [QUEUED; CANCELLED]
  | QUEUED => [PROCESSING; PROVIDER_PENDING; CANCELLED]
  | PROCESSING => [SUCCEEDED; PROVIDER_PENDING; FAILED_RETRYABLE; FAILED_TERMINAL]
  | PROVIDER_PENDING => [SUCCEEDED; FAILED_TERMINAL; FAILED_RETRYABLE]
  | FAILED_RETRYABLE => [QUEUED; PROVIDER_PENDING; FAILED_TERMINAL; CANCELLED]
  | SUCCEEDED => []
  | FAILED_TERMINAL => []
  | CANCELLED => []
  end.

Definition can_transition (current target : PaymentIntentState) : bool :=
  bool_decide (target ∈ ALLOWED_PAYMENT_TRANSITIONS current).

Definition assert_payment_transition {S} (current target : PaymentIntentState) : M S exn unit :=
  if negb (can_transition current target)
  then raise (IllegalPaymentTransition current target) else mret tt.

Definition is_terminal (state : PaymentIntentState) : bool :=
  bool_decide (state ∈ TERMINAL_PAYMENT_STATES).

Definition step (s t : PaymentIntentState) : Prop := can_transition s t = true.
Definition run : PaymentIntentState → PaymentIntentState → Prop := rtc step.

Lemma payment_run_invariant (P : PaymentIntentState → Prop) s t :
  (∀ s t, P s → step s t → P t) → P s → run s t → P t.
Proof. intros Hstep Hs Hrun. induction Hrun; eauto. Qed.

Lemma step_run s t : step s t → run s t.
Proof. apply rtc_once. Qed.

Lemma terminal_step s t : is_terminal s = true → ¬ step s t.
Proof. by destruct s, t. Qed.

Lemma terminal_run s t : is_terminal s = true → run s t → t = s.
Proof. intros Hs Hrun. inversion Hrun as [|x y z Hxy]; [done|]. by apply terminal_step in Hxy. Qed.

(** Nothing re-enters [CREATED]. *)
Lemma run_created s : run s CREATED → s = CREATED.
Proof.
  intros H. destruct (decide (s = CREATED)) as [|Hs]; [done|].
  exfalso. revert Hs H. intros Hs H. apply (payment_run_invariant (λ s, s ≠ CREATED) s CREATED) in H; [done| |done].
  by intros [] [] ? ?.
Qed.

#[global] Instance run_preorder : PreOrder run.
Proof. unfold run. apply _. Qed.
End PaymentFSM.

Lemma assert_payment_transition_cases {S} c t (s : S) :
  PaymentFSM.assert_payment_transition c t s =
    if PaymentFSM.can_transition c t then (Ok tt, s) else (Raise (IllegalPaymentTransition c t), s).
Proof. unfold PaymentFSM.assert_payment_transition. by destruct (PaymentFSM.can_transition c t). Qed.

Lemma evolves_assert_payment_transition {S} (R : S → S → Prop) `{!PreOrder R} c t :
  evolves R (PaymentFSM.assert_payment_transition c t).
Proof. unfold PaymentFSM.assert_payment_transition. evolve. Qed.
#[export] Hint Resolve evolves_assert_payment_transition : evolves.

(** ** The authorization lifecycle of packages/schemas/authorization.py:

    PENDING -> ACTIVE -> CONSUMED, and to EXPIRED or REVOKED from the two live
    states; the moves the kernel's conditional updates perform. *)
Module AuthorizationFSM.
Import AuthorizationStatus.
Definition moves (s : AuthorizationStatus) : list AuthorizationStatus :=
  match s with
  | PENDING => [ACTIVE; EXPIRED; REVOKED]
  | ACTIVE => [CONSUMED; EXPIRED; REVOKED]
  | CONSUMED | EXPIRED | REVOKED => []
  end.
Definition step (s t : AuthorizationStatus) : Prop := t ∈ moves s.
Definition run : AuthorizationStatus → AuthorizationStatus → Prop := rtc step.

#[global] Instance run_preorder : PreOrder run.
Proof. unfold run. apply _. Qed.

Definition final (s : AuthorizationStatus) : bool :=
  match s with CONSUMED | EXPIRED | REVOKED => true | _ => false end.

Lemma final_run s t : final s = true → run s t → t = s.
Proof.
  intros Hs Hrun. inversion Hrun as [|x y z Hxy]; [done|].
  destruct s; try done; unfold step in Hxy; cbn in Hxy; set_solver.
Qed.
End AuthorizationFSM.

(** ** Properties *)
Import MissionFSM.

(** No mission reaches a state in which money moves without having been
    AUTHORIZED: along every run of the transition table from CREATED that does not
    enter AUTHORIZED, the mission is never PAYMENT_PENDING, PAYMENT_SUCCEEDED,
    PAYMENT_FAILED or COMPLETED. *)
Theorem no_payment_without_authorization (s : MissionState) :
  MissionFSM.run_avoiding MissionState.AUTHORIZED MissionState.CREATED s →
  MissionFSM.is_payment_state s = false.
Proof.
  intros H. by apply unauthorized_run in H as [Hp _].
Qed.

Lemma no_payment_without_authorization_witness :
  MissionFSM.run_avoiding MissionState.AUTHORIZED MissionState.CREATED MissionState.INTENT_PARSED ∧
  MissionFSM.is_payment_state MissionState.INTENT_PARSED = false.
Proof.
  assert (H : MissionFSM.run_avoiding MissionState.AUTHORIZED MissionState.CREATED MissionState.INTENT_PARSED)
    by (apply rtc_once; split; [vm_compute; reflexivity|discriminate]).
  split; [exact H|apply (no_payment_without_authorization _ H)].
Defined.

(** Settled payments stay settled.  The states without an outgoing transition
    are exactly the terminal ones; every run from a terminal state stays there; and
    SUCCEEDED is entered only from PROCESSING or PROVIDER_PENDING. *)
Theorem payment_terminal_absorbing (s t : PaymentIntentState) :
  ((∀ t, PaymentFSM.can_transition s t = false) ↔ PaymentFSM.is_terminal s = true) ∧
  (PaymentFSM.is_terminal s && bool_decide (t ≠ s) = true → ¬ PaymentFSM.run s t) ∧
  (PaymentFSM.can_transition s PaymentIntentState.SUCCEEDED
   = bool_decide (s ∈ [PaymentIntentState.PROCESSING; PaymentIntentState.PROVIDER_PENDING])).
Proof.
  split_and!.
  - split; [|intros Hs t'; by destruct s, t'].
    intros H. destruct s; try done; exfalso.
    + by specialize (H PaymentIntentState.QUEUED).
    + by specialize (H PaymentIntentState.PROCESSING).
    + by specialize (H PaymentIntentState.SUCCEEDED).
    + by specialize (H PaymentIntentState.SUCCEEDED).
    + by specialize (H PaymentIntentState.QUEUED).
  - intros [Hs Ht]%andb_true_iff Hrun. apply bool_decide_eq_true in Ht.
    by apply PaymentFSM.terminal_run in Hrun.
  - by destruct s.
Qed.

Lemma payment_terminal_absorbing_witness :
  ¬ PaymentFSM.run PaymentIntentState.SUCCEEDED PaymentIntentState.PROVIDER_PENDING.
Proof.
  apply (payment_terminal_absorbing PaymentIntentState.SUCCEEDED PaymentIntentState.PROVIDER_PENDING).
  vm_compute. reflexivity.
Defined.
