(* ===== verification/Merchant.v ===== *)
(** * Constraints, merchants and the transport that identifies them

    The request and offer models of packages/schemas/domain.py,
    packages/schemas/merchant.py, services/security_kernel/merchant_registry.py and
    services/agent_orchestrator/merchants/transport.py. *)
From S2P Require Import Prelude Python PyFloat Json Enums Errors Transaction.

Definition fl0 : float := fl_of_Z 0.
Definition fl1 : float := fl_of_Z 1.
Definition fl5 : float := fl_of_Z 5.
(** [Field(ge=lo, le=hi)] on a float; a NaN fails it. *)
Definition fl_within (lo hi x : float) : bool := fl_leb lo x && fl_leb x hi.

(** ** packages/schemas/domain.py: constraints, request, raw offer *)
Record MissionConstraints := mkMissionConstraints {
  mc_category : string;
  mc_soft_budget_inr : Z;
  mc_hard_limit_inr : Z;
  mc_min_rating : float;
  mc_currency : string;
  mc_allowed_merchants : option (list string);
  mc_blocked_merchants : list string;
  mc_min_merchant_trust : float
}.

Definition mission_constraints_error (c : MissionConstraints) : option string :=
  if negb (length_within 1 120 (mc_category c)) then Some "category"
  else if negb (0 <? mc_soft_budget_inr c) then Some "soft_budget_inr"
  else if negb (0 <? mc_hard_limit_inr c) then Some "hard_limit_inr"
  else if negb (fl_within fl0 fl5 (mc_min_rating c)) then Some "min_rating"
  else if negb (length_within 3 3 (mc_currency c)) then Some "currency"
  else if negb (fl_within fl0 fl1 (mc_min_merchant_trust c)) then Some "min_merchant_trust"
  else if mc_hard_limit_inr c <? mc_soft_budget_inr c then Some "soft_budget_inr cannot exceed hard_limit_inr"
  else None.

Definition MissionConstraints_new (c : MissionConstraints) : outcome exn MissionConstraints :=
  match mission_constraints_error c with
  | Some field => Raise (ValidationError field)
  | None => Ok (mkMissionConstraints (mc_category c) (mc_soft_budget_inr c) (mc_hard_limit_inr c)
                  (mc_min_rating c) (py_upper (mc_currency c)) (mc_allowed_merchants c)
                  (mc_blocked_merchants c) (mc_min_merchant_trust c))
  end.

Record CreateMissionRequest := mkCreateMissionRequest {
  rq_raw_query : option string;
  rq_quantity : Z;
  rq_constraints : MissionConstraints
}.

Definition CreateMissionRequest_new (r : CreateMissionRequest) : outcome exn CreateMissionRequest :=
  if match rq_raw_query r with Some q => (2000 <? String.length q)%nat | None => false end
  then Raise (ValidationError "raw_query")
  else if negb ((1 <=? rq_quantity r) && (rq_quantity r <=? 100)) then Raise (ValidationError "quantity")
  else
    c ← MissionConstraints_new (rq_constraints r);
    Ok (mkCreateMissionRequest (rq_raw_query r) (rq_quantity r) c).

Record RawMerchantOffer := mkRawMerchantOffer {
  ro_merchant_id : string;
  ro_product_id : string;
  ro_title : string;
  ro_description : string;
  ro_price : float;
  ro_currency : string;
  ro_rating : float;
  ro_in_stock : bool;
  ro_offered_at : datetime;
  ro_claims : json_obj
}.

Definition raw_offer_error (r : RawMerchantOffer) : option string :=
  if negb (length_within 1 120 (ro_merchant_id r)) then Some "merchant_id"
  else if negb (length_within 1 120 (ro_product_id r)) then Some "product_id"
  else if negb (length_within 1 300 (ro_title r)) then Some "title"
  else if negb (length_within 0 5000 (ro_description r)) then Some "description"
  else if negb (fl_leb fl0 (ro_price r)) then Some "price"
  else if negb (length_within 3 3 (ro_currency r)) then Some "currency"
  else if negb (fl_within fl0 fl5 (ro_rating r)) then Some "rating"
  else None.

Definition RawMerchantOffer_new (r : RawMerchantOffer) : outcome exn RawMerchantOffer :=
  match raw_offer_error r with Some field => Raise (ValidationError field) | None => Ok r end.

(** ** packages/schemas/merchant.py *)
Record MerchantIdentity := mkMerchantIdentity {
  mi_merchant_id : string;
  mi_auth_method : MerchantAuthMethod;
  mi_channel : string
}.
Record MerchantRecord := mkMerchantRecord {
  mr_merchant_id : string;
  mr_display_name : string;
  mr_trust_score : float;
  mr_known : bool;
  mr_active : bool
}.
Record MerchantContext := mkMerchantContext {
  ctx_identity : MerchantIdentity;
  ctx_record : MerchantRecord
}.
Record AuthenticatedQuote := mkAuthenticatedQuote {
  aq_context : MerchantContext;
  aq_offers : list RawMerchantOffer
}.

Definition MerchantIdentity_new (i : MerchantIdentity) : outcome exn MerchantIdentity :=
  if negb (length_within 1 120 (mi_merchant_id i)) then Raise (ValidationError "merchant_id")
  else if negb (length_within 1 120 (mi_channel i)) then Raise (ValidationError "channel")
  else Ok i.

Definition MerchantRecord_new (r : MerchantRecord) : outcome exn MerchantRecord :=
  if negb (length_within 1 120 (mr_merchant_id r)) then Raise (ValidationError "merchant_id")
  else if negb (length_within 1 200 (mr_display_name r)) then Raise (ValidationError "display_name")
  else if negb (fl_within fl0 fl1 (mr_trust_score r)) then Raise (ValidationError "trust_score")
  else Ok r.

(** ** services/security_kernel/merchant_registry.py *)
Definition UNKNOWN_TRUST : float := fl0.
Definition MerchantRegistry := gmap string MerchantRecord.

Definition merchant_records : MerchantRegistry :=
  {[ "merchant_a" := mkMerchantRecord "merchant_a" "Aurora Audio" (fl_lit 9 10) true true;
     "merchant_b" := mkMerchantRecord "merchant_b" "Nimbus Devices" (fl_lit 75 100) true true ]}.

Definition is_known (reg : MerchantRegistry) (merchant_id : string) : bool :=
  is_some ((reg : gmap _ _) !! merchant_id).

Definition record_for (reg : MerchantRegistry) (merchant_id : string) : outcome exn MerchantRecord :=
  match (reg : gmap _ _) !! merchant_id with
  | Some record => Ok record
  | None => MerchantRecord_new (mkMerchantRecord merchant_id merchant_id UNKNOWN_TRUST false true)
  end.

Definition trust_for (reg : MerchantRegistry) (merchant_id : string) : outcome exn float :=
  r ← record_for reg merchant_id; Ok (mr_trust_score r).

Definition context_for (reg : MerchantRegistry) (identity : MerchantIdentity) : outcome exn MerchantContext :=
  record ← record_for reg (mi_merchant_id identity);
  Ok (mkMerchantContext identity record).

Definition default_merchant_registry : MerchantRegistry := merchant_records.

(** ** services/agent_orchestrator/merchants/transport.py

    A merchant agent is its server-side registration id and its quotes; the
    quotes are the merchant's, so nothing is assumed of them. *)
Record MerchantAgent := mkMerchantAgent {
  ma_merchant_id : string;
  ma_quote : MissionConstraints → Z → list RawMerchantOffer
}.

Definition CHANNEL : string := "in-process".

(** [str.strip()] leaves nothing. *)
Definition is_whitespace (a : ascii) : bool :=
  let n := Ascii.N_of_ascii a in
  ((9 <=? n)%N && (n <=? 13)%N) || ((28 <=? n)%N && (n <=? 32)%N) || (n =? 133)%N || (n =? 160)%N.
Definition is_blank (s : string) : bool := str_forallb is_whitespace s.

Definition transport_connect (reg : MerchantRegistry) (agent : MerchantAgent) : outcome exn MerchantContext :=
  let registered_id := ma_merchant_id agent in
  if negb (negb (String.eqb registered_id "") && negb (is_blank registered_id))
  then Raise (InvariantViolation "merchant.connection_has_identity"
         "merchant adapter has no transport-level registration id")
  else
    identity ← MerchantIdentity_new
      (mkMerchantIdentity registered_id MerchantAuthMethod.IN_PROCESS_ADAPTER CHANNEL);
    context_for reg identity.

Fixpoint transport_collect (reg : MerchantRegistry) (agents : list MerchantAgent)
    (constraints : MissionConstraints) (quantity : Z) : outcome exn (list AuthenticatedQuote) :=
  match agents with
  | [] => Ok []
  | agent :: rest =>
      context ← transport_connect reg agent;
      quotes ← transport_collect reg rest constraints quantity;
      Ok (mkAuthenticatedQuote context (ma_quote agent constraints quantity) :: quotes)
  end.

(** ** Laws *)
Lemma context_for_ok reg i c : context_for reg i = Ok c →
  ctx_identity c = i ∧ record_for reg (mi_merchant_id i) = Ok (ctx_record c).
Proof.
  unfold context_for. intros (r & Hr & Hc)%outcome_bind_Ok. apply Ok_inj in Hc as <-. by split.
Qed.

Lemma transport_connect_ok reg agent c : transport_connect reg agent = Ok c →
  mi_merchant_id (ctx_identity c) = ma_merchant_id agent ∧
  record_for reg (ma_merchant_id agent) = Ok (ctx_record c) ∧
  is_blank (ma_merchant_id agent) = false ∧ length_within 1 120 (ma_merchant_id agent) = true.
Proof.
  unfold transport_connect. destruct (String.eqb _ ""), (is_blank _); cbn [negb andb]; try discriminate.
  intros (i & Hi & Hc)%outcome_bind_Ok. unfold MerchantIdentity_new in Hi. cbn in Hi.
  destruct (length_within 1 120 (ma_merchant_id agent)); cbn [negb] in Hi; [|discriminate].
  apply Ok_inj in Hi as <-. apply context_for_ok in Hc as [-> Hr]. done.
Qed.

(** Every quote is attributed to the agent the transport reached, and carries the
    registry's record of that agent, whatever the offers claim. *)
Lemma transport_collect_ok reg agents cs q quotes : transport_collect reg agents cs q = Ok quotes →
  Forall2 (λ a quote, transport_connect reg a = Ok (aq_context quote) ∧
                      aq_offers quote = ma_quote a cs q) agents quotes.
Proof.
  revert quotes. induction agents as [|a l IH]; cbn [transport_collect]; intros quotes H.
  - apply Ok_inj in H as <-. constructor.
  - apply outcome_bind_Ok in H as (c & Hc & H). apply outcome_bind_Ok in H as (qs & Hqs & H).
    apply Ok_inj in H as <-. constructor; [by split|by apply IH].
Qed.

(** A registered merchant's record names it; the synthesized one does too. *)
Definition registry_wf (reg : MerchantRegistry) : Prop :=
  ∀ k r, (reg : gmap _ _) !! k = Some r → mr_merchant_id r = k.

Lemma default_registry_wf : registry_wf default_merchant_registry.
Proof.
  intros k r. unfold default_merchant_registry, merchant_records.
  intros [[<- <-]|[_ H]]%lookup_insert_Some; [done|].
  apply lookup_singleton_Some in H as [<- <-]. done.
Qed.

Lemma record_for_id reg k r : registry_wf reg → record_for reg k = Ok r → mr_merchant_id r = k.
Proof.
  intros Hwf. unfold record_for. destruct (_ !! k) eqn:E.
  - intros H%Ok_inj. subst. by apply Hwf.
  - unfold MerchantRecord_new. repeat case_match; try discriminate. by intros <-%Ok_inj.
Qed.
