(* ===== verification/Kernel.v ===== *)
(** * The kernel's offer and the trusted ingress

    packages/schemas/kernel.py and services/security_kernel/ingress.py: every
    value of an offer coupled to its provenance, and the one place a merchant's
    payload becomes kernel values. *)
From S2P Require Import Prelude Python PyFloat Json Enums Errors Provenance Transaction Merchant.

(** ** packages/schemas/kernel.py *)
Record ProvenancedOffer := mkProvenancedOffer {
  po_offer_id : uuid;
  po_merchant_id : Provenanced string;
  po_merchant_name : Provenanced string;
  po_merchant_trust : Provenanced float;
  po_claimed_merchant_id : Provenanced string;
  po_product_id : Provenanced string;
  po_title : Provenanced string;
  po_amount_inr : Provenanced Z;
  po_currency : Provenanced string;
  po_rating : Provenanced float;
  po_in_stock : Provenanced bool;
  po_offered_at : Provenanced datetime;
  po_valid : bool;
  po_rejection_reasons : list ReasonCode;
  po_rank : option Z
}.

Definition po_offer_version (o : ProvenancedOffer) : outcome exn string :=
  compute_offer_version (pv_value (po_merchant_id o)) (pv_value (po_product_id o))
    (pv_value (po_amount_inr o)) (pv_value (po_currency o)) (pv_value (po_rating o))
    (pv_value (po_in_stock o)) (pv_value (po_offered_at o)).

Definition identity_mismatch (o : ProvenancedOffer) : bool :=
  negb (String.eqb (pv_value (po_claimed_merchant_id o)) (pv_value (po_merchant_id o))).

Definition meta_map (o : ProvenancedOffer) : list (string * ProvenanceMeta) :=
  [("merchant_id", pv_meta (po_merchant_id o));
   ("merchant_name", pv_meta (po_merchant_name o));
   ("merchant_trust", pv_meta (po_merchant_trust o));
   ("claimed_merchant_id", pv_meta (po_claimed_merchant_id o));
   ("product_id", pv_meta (po_product_id o));
   ("title", pv_meta (po_title o));
   ("amount_inr", pv_meta (po_amount_inr o));
   ("currency", pv_meta (po_currency o));
   ("rating", pv_meta (po_rating o));
   ("in_stock", pv_meta (po_in_stock o));
   ("offered_at", pv_meta (po_offered_at o))].

(** packages/schemas/domain.py: the projection for storage and the API. *)
Record NormalizedOffer := mkNormalizedOffer {
  no_offer_id : uuid;
  no_offer_version : string;
  no_merchant_id : string;
  no_claimed_merchant_id : string;
  no_merchant_name : string;
  no_merchant_trust : float;
  no_product_id : string;
  no_title : string;
  no_amount_inr : Z;
  no_currency : string;
  no_rating : float;
  no_in_stock : bool;
  no_offered_at : datetime;
  no_valid : bool;
  no_rejection_reasons : list ReasonCode;
  no_rank : option Z;
  no_provenance : list (string * ProvenanceMeta)
}.

Definition normalized_offer_error (n : NormalizedOffer) : option string :=
  if negb (fl_within fl0 fl1 (no_merchant_trust n)) then Some "merchant_trust"
  else if negb (0 <=? no_amount_inr n) then Some "amount_inr"
  else if negb (fl_within fl0 fl5 (no_rating n)) then Some "rating"
  else None.

Definition to_normalized (o : ProvenancedOffer) : outcome exn NormalizedOffer :=
  version ← po_offer_version o;
  let n := mkNormalizedOffer (po_offer_id o) version (pv_value (po_merchant_id o))
    (pv_value (po_claimed_merchant_id o)) (pv_value (po_merchant_name o))
    (pv_value (po_merchant_trust o)) (pv_value (po_product_id o)) (pv_value (po_title o))
    (pv_value (po_amount_inr o)) (pv_value (po_currency o)) (pv_value (po_rating o))
    (pv_value (po_in_stock o)) (pv_value (po_offered_at o)) (po_valid o)
    (po_rejection_reasons o) (po_rank o) (meta_map o) in
  match normalized_offer_error n with
  | Some field => Raise (ValidationError field)
  | None => Ok n
  end.

(** ** services/security_kernel/ingress.py *)
Definition PROTECTED_POLICY_FIELDS : list string :=
  ["soft_budget_inr"; "hard_limit_inr"; "currency"; "min_rating"; "allowed_merchants";
   "blocked_merchants"; "min_merchant_trust"].

Definition normalized_instant (value : datetime) : datetime :=
  if negb (dt_is_aware value) then value else dt_astimezone_utc value.

(** [uuid.uuid4()]: an identifier not handed out before. *)
Definition new_uuid : M uuid exn uuid := λ n, (Ok (n + 1)%N, (n + 1)%N).

Definition ingest_merchant_offer (raw : RawMerchantOffer) (context : MerchantContext)
    : M uuid exn ProvenancedOffer :=
  let identity := ctx_identity context in
  let record := ctx_record context in
  require (String.eqb (mi_merchant_id identity) (mr_merchant_id record))
    "merchant.context_identity_matches_record"
    ("identity '" +:+ mi_merchant_id identity +:+ "' != record '" +:+ mr_merchant_id record +:+ "'");;
  let source := "merchant:" +:+ mi_merchant_id identity in
  let identity_source := "merchant-identity:" +:+ mi_merchant_id identity in
  let registry_source := "merchant-registry:" +:+ mi_merchant_id identity in
  amount ← lift (int_round (ro_price raw));
  offer_id ← new_uuid;
  mret (mkProvenancedOffer offer_id
    (trusted_value (mi_merchant_id identity) identity_source)
    (trusted_value (mr_display_name record) registry_source)
    (system_value (mr_trust_score record) registry_source)
    (untrusted (ro_merchant_id raw) source)
    (untrusted (ro_product_id raw) source)
    (untrusted (ro_title raw) source)
    (pv_map (λ _, amount) (untrusted (ro_price raw) source))
    (untrusted (py_upper (ro_currency raw)) source)
    (untrusted (ro_rating raw) source)
    (untrusted (ro_in_stock raw) source)
    (untrusted (normalized_instant (ro_offered_at raw)) source)
    true [] None).

Definition ingest_user_policy_value (field : string) (value : json) : Provenanced json :=
  authoritative value ("user-policy:" +:+ field).

(** [getattr(constraints, field)], as the value the register holds. *)
Definition constraint_value (c : MissionConstraints) (field : string) : json :=
  if String.eqb field "soft_budget_inr" then JInt (mc_soft_budget_inr c)
  else if String.eqb field "hard_limit_inr" then JInt (mc_hard_limit_inr c)
  else if String.eqb field "currency" then JStr (mc_currency c)
  else if String.eqb field "min_rating" then JFloat (mc_min_rating c)
  else if String.eqb field "allowed_merchants" then jopt (λ l, JList (map JStr l)) (mc_allowed_merchants c)
  else if String.eqb field "blocked_merchants" then JList (map JStr (mc_blocked_merchants c))
  else JFloat (mc_min_merchant_trust c).

Definition protected_policy_values (c : MissionConstraints) : PolicyRegister :=
  list_to_map (map (λ f, (f, ingest_user_policy_value f (constraint_value c f))) PROTECTED_POLICY_FIELDS).

(** ** Laws *)

(** What a payload-derived value carries: the merchant level, untrusted, tainted. *)
Definition is_merchant_meta (merchant : string) (m : ProvenanceMeta) : Prop :=
  meta_source m = "merchant:" +:+ merchant ∧ meta_authority m = AuthorityLevel.MERCHANT_DATA ∧
  meta_trust m = TrustLevel.UNTRUSTED ∧ meta_tainted m = true.

Definition IDENTITY_FIELDS : list string := ["merchant_id"; "merchant_name"; "merchant_trust"].
Definition MERCHANT_FIELDS : list string :=
  ["claimed_merchant_id"; "product_id"; "title"; "amount_inr"; "currency"; "rating"; "in_stock";
   "offered_at"].
Definition SENSITIVE_FIELDS : list string := IDENTITY_FIELDS ++ MERCHANT_FIELDS.

Lemma map_fst_meta_map o : map fst (meta_map o) = SENSITIVE_FIELDS.
Proof. done. Qed.

(** An offer as the ingress leaves it, for one merchant context. *)
Record ingested (context : MerchantContext) (raw : RawMerchantOffer) (o : ProvenancedOffer) : Prop := {
  ing_merchant_id : pv_value (po_merchant_id o) = mi_merchant_id (ctx_identity context);
  ing_name : pv_value (po_merchant_name o) = mr_display_name (ctx_record context);
  ing_trust : pv_value (po_merchant_trust o) = mr_trust_score (ctx_record context);
  ing_claimed : pv_value (po_claimed_merchant_id o) = ro_merchant_id raw;
  ing_amount : py_round_int (ro_price raw) = Some (pv_value (po_amount_inr o));
  ing_currency : pv_value (po_currency o) = py_upper (ro_currency raw);
  ing_rating : pv_value (po_rating o) = ro_rating raw;
  ing_in_stock : pv_value (po_in_stock o) = ro_in_stock raw;
  ing_identity_meta : ∀ f m, (f, m) ∈ meta_map o → f ∈ IDENTITY_FIELDS →
    meta_tainted m = false ∧ AuthorityLevel.level AuthorityLevel.TRUSTED_INTERNAL_SERVICE
                             <= AuthorityLevel.level (meta_authority m);
  ing_merchant_meta : ∀ f m, (f, m) ∈ meta_map o → f ∈ MERCHANT_FIELDS →
    is_merchant_meta (mi_merchant_id (ctx_identity context)) m
}.

Lemma ingest_merchant_offer_ok raw context n o n' :
  ingest_merchant_offer raw context n = (Ok o, n') →
  ingested context raw o ∧ po_offer_id o = (n + 1)%N ∧ n' = (n + 1)%N ∧
  po_valid o = true ∧ po_rejection_reasons o = [] ∧ po_rank o = None.
Proof.
  unfold ingest_merchant_offer, require, int_round, lift, mbind, M_bind.
  destruct (String.eqb _ _); cbn; [|discriminate].
  destruct (py_round_int (ro_price raw)) as [amount|] eqn:Ha; cbn; [|discriminate].
  intros H. injection H as <- <-. split; [|done].
  constructor; try done.
  - unfold meta_map. intros f m Hin Hf. unfold IDENTITY_FIELDS in Hf.
    repeat (apply elem_of_cons in Hin as [[= -> ->]|Hin]; [first [by split | refute_elem Hf]|]).
    by apply not_elem_of_nil in Hin.
  - unfold meta_map. intros f m Hin Hf. unfold MERCHANT_FIELDS in Hf.
    repeat (apply elem_of_cons in Hin as [[= -> ->]|Hin]; [first [by repeat split | refute_elem Hf]|]).
    by apply not_elem_of_nil in Hin.
Qed.

(** The register the kernel protects a mission with: every protected field at
    [USER_POLICY], no other field. *)
Lemma protected_policy_values_lookup c f :
  (protected_policy_values c : gmap _ _) !! f =
    if bool_decide (f ∈ PROTECTED_POLICY_FIELDS)
    then Some (ingest_user_policy_value f (constraint_value c f)) else None.
Proof.
  unfold protected_policy_values. case_bool_decide as Hf.
  - apply elem_of_list_to_map_1.
    + rewrite <-list_fmap_compose. rewrite (list_fmap_ext _ id) by done. rewrite list_fmap_id.
      by apply (bool_decide_unpack (NoDup PROTECTED_POLICY_FIELDS)).
    + apply list_elem_of_fmap. by exists f.
  - apply not_elem_of_list_to_map_1. intros Hin. apply Hf.
    rewrite <-list_fmap_compose in Hin. by rewrite (list_fmap_ext _ id), list_fmap_id in Hin.
Qed.

(** ** Properties *)

(** A merchant's payload decides nothing about identity, trust or taint.  An
    offer the ingress accepts carries the identity the transport authenticated and
    the registry's display name and trust score, whatever the payload claims; every
    payload-derived field is marked MERCHANT_DATA, untrusted and tainted, with the
    authenticated merchant as its source; and no identity field is tainted. *)
Theorem ingress_assigns_provenance (raw : RawMerchantOffer) (context : MerchantContext) (n n' : uuid)
    (o : ProvenancedOffer) :
  ingest_merchant_offer raw context n = (Ok o, n') →
  pv_value (po_merchant_id o) = mi_merchant_id (ctx_identity context) ∧
  pv_value (po_merchant_trust o) = mr_trust_score (ctx_record context) ∧
  mi_merchant_id (ctx_identity context) = mr_merchant_id (ctx_record context) ∧
  (∀ f m, (f, m) ∈ meta_map o → f ∈ MERCHANT_FIELDS →
     is_merchant_meta (mi_merchant_id (ctx_identity context)) m) ∧
  (∀ f m, (f, m) ∈ meta_map o → f ∈ IDENTITY_FIELDS → meta_tainted m = false).
Proof.
  intros H. assert (Hid : mi_merchant_id (ctx_identity context) = mr_merchant_id (ctx_record context)).
  { revert H. unfold ingest_merchant_offer, require, mbind, M_bind.
    destruct (String.eqb_spec (mi_merchant_id (ctx_identity context)) (mr_merchant_id (ctx_record context)));
      [done|discriminate]. }
  apply ingest_merchant_offer_ok in H as (Hi & _). split_and!; [apply Hi|apply Hi|exact Hid|apply Hi|].
  intros f m Hin Hf. by apply (ing_identity_meta _ _ _ Hi f m).
Qed.

(** A payload that claims to be somebody else. *)
Definition spoofed_offer : RawMerchantOffer :=
  mkRawMerchantOffer "merchant_a" "evil-eb-99" "Totally Legitimate Earbuds" "Trust me." (fl_of_Z 999)
    "inr" fl5 true (utc 1767268800000000) [("hard_limit_inr", JInt 100000)].
Definition evil_context : MerchantContext :=
  mkMerchantContext (mkMerchantIdentity "evil" MerchantAuthMethod.IN_PROCESS_ADAPTER CHANNEL)
    (mkMerchantRecord "evil" "evil" UNKNOWN_TRUST false true).

Lemma ingress_assigns_provenance_witness :
  ∃ o, ingest_merchant_offer spoofed_offer evil_context 0%N = (Ok o, 1%N) ∧
       pv_value (po_merchant_id o) = "evil" ∧ identity_mismatch o = true.
Proof.
  eexists. split; [vm_compute; reflexivity|]. split; [|vm_compute; reflexivity].
  apply (ingress_assigns_provenance spoofed_offer evil_context 0%N 1%N). vm_compute. reflexivity.
Defined.

(** The protected policy cannot be written by a merchant or an agent.  Applying
    any sequence of claims of lower authority to a mission's protected policy, field
    by field with the refusals caught, leaves every protected value exactly as the
    user set it. *)
Theorem claims_never_change_policy (c : MissionConstraints) (claims : list (string * Provenanced json)) :
  Forall (λ cl, can_write (pv_authority (snd cl)) AuthorityLevel.USER_POLICY = false) claims →
  snd (for_each claims (λ '(f, v), try_except (register_apply f v;; mret tt) (λ _, mret tt))
         (protected_policy_values c)) = protected_policy_values c.
Proof.
  intros H. induction H as [|[f v] l Hv Hl IH]; [done|].
  cbn [for_each]. unfold mbind at 1, M_bind at 1. unfold try_except at 1.
  assert (E : ∃ e, (register_apply f v;; mret tt) (protected_policy_values c)
                   = (Raise e, protected_policy_values c)).
  { unfold mbind at 1, M_bind at 1.
    destruct ((protected_policy_values c : gmap _ _) !! f) as [cur|] eqn:Ef.
    - rewrite (register_apply_lower _ _ _ _ Ef); [by eexists|].
      rewrite protected_policy_values_lookup in Ef. case_bool_decide; [|done]. by injection Ef as <-.
    - unfold register_apply, register_get, mbind, M_bind. rewrite Ef. by eexists. }
  destruct E as [e E]. rewrite E. exact IH.
Qed.

Definition example_constraints : MissionConstraints :=
  mkMissionConstraints "earbuds" 3000 4500 fl0 "INR" None ["merchant_x"] fl0.
Lemma claims_never_change_policy_witness :
  snd (for_each [("hard_limit_inr", untrusted (JInt 100000) "merchant:evil");
                 ("blocked_merchants", agent_value (JList []) "agent")]
         (λ '(f, v), try_except (register_apply f v;; mret tt) (λ _, mret tt))
         (protected_policy_values example_constraints))
  = protected_policy_values example_constraints.
Proof.
  apply (claims_never_change_policy example_constraints). repeat constructor; vm_compute; reflexivity.
Defined.
