(* ===== verification/Policy.v ===== *)
(** * Normalization, ranking and the policy decision

    services/policy_engine: which offers are valid and why not, the total order
    they are ranked in, and the ALLOW / REQUIRE_APPROVAL / DENY decision. *)
From S2P Require Import Prelude Python PyFloat Json Enums Errors Provenance Transaction Merchant Kernel.

(** ** services/policy_engine/normalization.py *)
Definition str_in (s : string) (l : list string) : bool := existsb (String.eqb s) l.

Definition rejection_reasons (offer : ProvenancedOffer) (constraints : MissionConstraints) : list ReasonCode :=
  (if identity_mismatch offer then [ReasonCode.MERCHANT_IDENTITY_MISMATCH] else [])
  ++ (if negb (String.eqb (pv_value (po_currency offer)) (mc_currency constraints))
      then [ReasonCode.CURRENCY_NOT_ALLOWED] else [])
  ++ (if negb (pv_value (po_in_stock offer)) then [ReasonCode.OUT_OF_STOCK] else [])
  ++ (if fl_ltb (pv_value (po_rating offer)) (mc_min_rating constraints)
      then [ReasonCode.RATING_BELOW_MIN] else [])
  ++ (if fl_ltb (pv_value (po_merchant_trust offer)) (mc_min_merchant_trust constraints)
      then [ReasonCode.MERCHANT_TRUST_TOO_LOW] else [])
  ++ (match mc_allowed_merchants constraints with
      | Some allowed => if negb (str_in (pv_value (po_merchant_id offer)) allowed)
                        then [ReasonCode.MERCHANT_NOT_ALLOWED] else []
      | None => []
      end)
  ++ (if str_in (pv_value (po_merchant_id offer)) (mc_blocked_merchants constraints)
      then [ReasonCode.BLOCKED_MERCHANT] else []).

(** [offer.valid = ...; offer.rejection_reasons = ...] and [offer.rank = i]. *)
Definition with_verdict (o : ProvenancedOffer) (reasons : list ReasonCode) : ProvenancedOffer :=
  mkProvenancedOffer (po_offer_id o) (po_merchant_id o) (po_merchant_name o) (po_merchant_trust o)
    (po_claimed_merchant_id o) (po_product_id o) (po_title o) (po_amount_inr o) (po_currency o)
    (po_rating o) (po_in_stock o) (po_offered_at o) (length reasons =? 0)%nat reasons (po_rank o).
Definition with_rank (rank : Z) (o : ProvenancedOffer) : ProvenancedOffer :=
  mkProvenancedOffer (po_offer_id o) (po_merchant_id o) (po_merchant_name o) (po_merchant_trust o)
    (po_claimed_merchant_id o) (po_product_id o) (po_title o) (po_amount_inr o) (po_currency o)
    (po_rating o) (po_in_stock o) (po_offered_at o) (po_valid o) (po_rejection_reasons o) (Some rank).

Definition normalize_offer (raw : RawMerchantOffer) (context : MerchantContext)
    (constraints : MissionConstraints) : M uuid exn ProvenancedOffer :=
  offer ← ingest_merchant_offer raw context;
  mret (with_verdict offer (rejection_reasons offer constraints)).

Fixpoint normalize_quote (context : MerchantContext) (offers : list RawMerchantOffer)
    (constraints : MissionConstraints) : M uuid exn (list ProvenancedOffer) :=
  match offers with
  | [] => mret []
  | raw :: rest =>
      o ← normalize_offer raw context constraints;
      os ← normalize_quote context rest constraints;
      mret (o :: os)
  end.

Fixpoint normalize_offers (quotes : list AuthenticatedQuote) (constraints : MissionConstraints)
    : M uuid exn (list ProvenancedOffer) :=
  match quotes with
  | [] => mret []
  | quote :: rest =>
      os ← normalize_quote (aq_context quote) (aq_offers quote) constraints;
      os' ← normalize_offers rest constraints;
      mret (os ++ os')
  end.

(** ** services/policy_engine/ranking.py *)
Record sort_key := mkSortKey {
  sk_neg_rating : float;
  sk_amount : Z;
  sk_neg_trust : float;
  sk_merchant : string;
  sk_product : string
}.
Definition offer_sort_key (o : ProvenancedOffer) : sort_key :=
  mkSortKey (fl_opp (pv_value (po_rating o))) (pv_value (po_amount_inr o))
    (fl_opp (pv_value (po_merchant_trust o))) (pv_value (po_merchant_id o)) (pv_value (po_product_id o)).

(** Python's [<] on the tuples. *)
Definition sort_key_ltb (a b : sort_key) : bool :=
  if negb (fl_eqb (sk_neg_rating a) (sk_neg_rating b)) then fl_ltb (sk_neg_rating a) (sk_neg_rating b)
  else if negb (sk_amount a =? sk_amount b) then sk_amount a <? sk_amount b
  else if negb (fl_eqb (sk_neg_trust a) (sk_neg_trust b)) then fl_ltb (sk_neg_trust a) (sk_neg_trust b)
  else if negb (String.eqb (sk_merchant a) (sk_merchant b)) then String.ltb (sk_merchant a) (sk_merchant b)
  else String.ltb (sk_product a) (sk_product b).
Definition better (a b : ProvenancedOffer) : bool := sort_key_ltb (offer_sort_key a) (offer_sort_key b).
Definition not_worse (a b : ProvenancedOffer) : bool := negb (better b a).

Definition rank_offers (offers : list ProvenancedOffer) : list ProvenancedOffer :=
  let valid := List.filter po_valid offers in
  let ranked := py_sorted not_worse valid in
  imap (λ i o, with_rank (Z.of_nat i + 1) o) ranked.

Definition best_offer (offers : list ProvenancedOffer) : option ProvenancedOffer :=
  match rank_offers offers with [] => None | o :: _ => Some o end.

(** ** services/policy_engine/engine.py *)
Definition POLICY_VERSION : string := "policy-v1".

Record PolicyDecision := mkPolicyDecision {
  pd_decision : PolicyOutcome;
  pd_policy_version : string;
  pd_reason_codes : list ReasonCode;
  pd_requested_amount : option Z;
  pd_soft_budget : Z;
  pd_hard_limit : Z;
  pd_selected_offer_id : option uuid
}.

Definition evaluate (constraints : MissionConstraints) (best : option ProvenancedOffer) (quantity : Z)
    : PolicyDecision :=
  let soft := mc_soft_budget_inr constraints in
  let hard := mc_hard_limit_inr constraints in
  match best with
  | None => mkPolicyDecision PolicyOutcome.DENY POLICY_VERSION [ReasonCode.NO_VALID_OFFERS] None soft hard None
  | Some best =>
      let amount := pv_value (po_amount_inr best) * quantity in
      if hard <? amount then
        mkPolicyDecision PolicyOutcome.DENY POLICY_VERSION [ReasonCode.HARD_LIMIT_EXCEEDED]
          (Some amount) soft hard (Some (po_offer_id best))
      else if soft <? amount then
        mkPolicyDecision PolicyOutcome.REQUIRE_APPROVAL POLICY_VERSION [ReasonCode.SOFT_BUDGET_EXCEEDED]
          (Some amount) soft hard (Some (po_offer_id best))
      else
        mkPolicyDecision PolicyOutcome.ALLOW POLICY_VERSION [ReasonCode.WITHIN_LIMITS]
          (Some amount) soft hard (Some (po_offer_id best))
  end.

(** ** Normalization: one reason per failed check, and valid means none failed *)

(** The checks an offer must pass, read off the constraints. *)
Record acceptable (c : MissionConstraints) (o : ProvenancedOffer) : Prop := {
  acc_identity : pv_value (po_claimed_merchant_id o) = pv_value (po_merchant_id o);
  acc_currency : pv_value (po_currency o) = mc_currency c;
  acc_stock : pv_value (po_in_stock o) = true;
  acc_rating : fl_ltb (pv_value (po_rating o)) (mc_min_rating c) = false;
  acc_trust : fl_ltb (pv_value (po_merchant_trust o)) (mc_min_merchant_trust c) = false;
  acc_allowed : ∀ l, mc_allowed_merchants c = Some l → pv_value (po_merchant_id o) ∈ l;
  acc_blocked : pv_value (po_merchant_id o) ∉ mc_blocked_merchants c
}.

Lemma str_in_spec s l : str_in s l = true ↔ s ∈ l.
Proof.
  unfold str_in. rewrite existsb_exists. split.
  - intros (x & Hx & E%String.eqb_eq). subst. by apply list_elem_of_In.
  - intros H. exists s. split; [by apply list_elem_of_In|apply String.eqb_refl].
Qed.

Lemma if_nil {A} (b : bool) (x : A) : (if b then [x] else []) = [] ↔ b = false.
Proof. by destruct b. Qed.

Lemma rejection_reasons_nil o c : rejection_reasons o c = [] ↔ acceptable c o.
Proof.
  unfold rejection_reasons. rewrite !app_nil, !if_nil.
  unfold identity_mismatch. rewrite !negb_false_iff, !String.eqb_eq.
  assert (Hb : str_in (pv_value (po_merchant_id o)) (mc_blocked_merchants c) = false ↔
               pv_value (po_merchant_id o) ∉ mc_blocked_merchants c).
  { rewrite <-str_in_spec. by destruct (str_in _ _). }
  rewrite Hb. split.
  - intros (H1 & H2 & H3 & H4 & H5 & H6 & H7). constructor; try done.
    intros l Hl. rewrite Hl in H6. by apply if_nil, negb_false_iff, str_in_spec in H6.
  - intros [H1 H2 H3 H4 H5 H6 H7]. repeat split; try done.
    destruct (mc_allowed_merchants c) as [l|]; [|done].
    by apply if_nil, negb_false_iff, str_in_spec, H6.
Qed.

Lemma with_verdict_valid o rs : po_valid (with_verdict o rs) = true ↔ rs = [].
Proof. destruct rs; done. Qed.

(** ** Ranking: the order on float keys *)

(** Three-way comparisons that order a type, and their lexicographic products. *)
Record total_cmp {A} (cmp : A → A → comparison) : Prop := {
  cmp_antisym : ∀ x y, cmp y x = CompOpp (cmp x y);
  cmp_trans : ∀ x y z, cmp x y = Lt → cmp y z = Lt → cmp x z = Lt;
  cmp_eq : ∀ x y z, cmp x y = Eq → cmp x z = cmp y z
}.

Definition lex {A} (c1 c2 : A → A → comparison) (x y : A) : comparison :=
  match c1 x y with Eq => c2 x y | c => c end.
Definition via {A B} (f : A → B) (c : B → B → comparison) (x y : A) : comparison := c (f x) (f y).

Lemma via_total {A B} (f : A → B) c : total_cmp c → total_cmp (via f c).
Proof. intros [H1 H2 H3]. split; unfold via; eauto. Qed.

Lemma lex_total {A} (c1 c2 : A → A → comparison) : total_cmp c1 → total_cmp c2 → total_cmp (lex c1 c2).
Proof.
  intros [A1 T1 E1] [A2 T2 E2]. split; unfold lex.
  - intros x y. rewrite (A1 x y), (A2 x y). by destruct (c1 x y).
  - intros x y z. destruct (c1 x y) eqn:Exy; try discriminate.
    + rewrite (E1 x y z Exy). destruct (c1 y z) eqn:Eyz; try done. eauto.
    + intros _. destruct (c1 y z) eqn:Eyz; try discriminate.
      * rewrite (A1 z x), <-(E1 y z x Eyz), <-(A1 y x), Exy. done.
      * by rewrite (T1 x y z Exy Eyz).
  - intros x y z. destruct (c1 x y) eqn:Exy; try discriminate.
    intros E. by rewrite (E1 x y z Exy), (E2 x y z E).
Qed.

Lemma Z_total : total_cmp Z.compare.
Proof.
  split.
  - intros x y. apply Z.compare_antisym.
  - intros x y z. rewrite !Z.compare_lt_iff. lia.
  - by intros x y z ->%Z.compare_eq.
Qed.

Lemma string_compare_refl s : String.compare s s = Eq.
Proof.
  pose proof (String.compare_antisym s s) as H. by destruct (String.compare s s).
Qed.

Lemma string_total : total_cmp String.compare.
Proof.
  assert (HN : total_cmp Ascii.compare).
  { split; unfold Ascii.compare.
    - intros x y. apply N.compare_antisym.
    - intros x y z. rewrite !N.compare_lt_iff. lia.
    - intros x y z H. by rewrite (Ascii.compare_eq_iff _ _ H). }
  split.
  - intros x y. by rewrite String.compare_antisym.
  - intros x. induction x as [|a x IH]; intros [|b y] [|c z]; cbn; try done.
    destruct (Ascii.compare a b) eqn:Eab; try discriminate.
    + apply Ascii.compare_eq_iff in Eab as ->. destruct (Ascii.compare b c); try done. apply IH.
    + intros _. destruct (Ascii.compare b c) eqn:Ebc; try discriminate.
      * apply Ascii.compare_eq_iff in Ebc as <-. by rewrite Eab.
      * by rewrite (cmp_trans _ HN _ _ _ Eab Ebc).
  - intros x y z H. by rewrite (String.compare_eq_iff _ _ H).
Qed.

(** A key whose lexicographic order is the float order away from NaN. *)
Definition fl_key (x : float) : Z * Z * Z :=
  match x with
  | S754_zero _ => (0, 0, 0)
  | S754_infinity s => (if s then -2 else 2, 0, 0)
  | S754_finite s m e => if s then (-1, - e, Z.neg m) else (1, e, Z.pos m)
  | S754_nan => (3, 0, 0)
  end.
Definition is_number (x : float) : bool := match x with S754_nan => false | _ => true end.

Definition fl_compare : float → float → comparison :=
  lex (via (λ x, (fl_key x).1.1) Z.compare)
    (lex (via (λ x, (fl_key x).1.2) Z.compare) (via (λ x, (fl_key x).2) Z.compare)).

Lemma fl_compare_total : total_cmp fl_compare.
Proof. repeat apply lex_total; apply via_total, Z_total. Qed.

Lemma SFcompare_fl x y : is_number x = true → is_number y = true →
  SFcompare x y = Some (fl_compare x y).
Proof.
  unfold fl_compare, lex, via.
  destruct x as [|[]| |[] m e], y as [|[]| |[] m' e']; cbn; try discriminate; intros _ _; try done.
  rewrite Z.compare_opp, (Z.compare_antisym e e'). by destruct (e ?= e').
Qed.

(** Python's [<] on the tuples is this order, when rating and trust are numbers. *)
Definition sort_key_compare : sort_key → sort_key → comparison :=
  lex (via sk_neg_rating fl_compare)
    (lex (via sk_amount Z.compare)
      (lex (via sk_neg_trust fl_compare)
        (lex (via sk_merchant String.compare) (via sk_product String.compare)))).

Lemma sort_key_total : total_cmp sort_key_compare.
Proof.
  unfold sort_key_compare.
  do 4 (apply lex_total; [apply via_total; auto using fl_compare_total, Z_total, string_total|]).
  apply via_total, string_total.
Qed.

Definition rankable (o : ProvenancedOffer) : Prop :=
  is_number (pv_value (po_rating o)) = true ∧ is_number (pv_value (po_merchant_trust o)) = true.

Lemma is_number_opp x : is_number (fl_opp x) = is_number x.
Proof. by destruct x. Qed.

Lemma better_compare a b : rankable a → rankable b →
  better a b = match sort_key_compare (offer_sort_key a) (offer_sort_key b) with Lt => true | _ => false end.
Proof.
  intros [Ha1 Ha2] [Hb1 Hb2]. unfold better, sort_key_ltb, sort_key_compare, lex, via.
  unfold fl_eqb, fl_ltb, SFeqb, SFltb. cbn [offer_sort_key sk_neg_rating sk_amount sk_neg_trust sk_merchant sk_product].
  rewrite !SFcompare_fl by (by rewrite is_number_opp).
  destruct (fl_compare (fl_opp (pv_value (po_rating a))) _); [|done..]. cbn.
  unfold Z.ltb. destruct (Z.eqb_spec (pv_value (po_amount_inr a)) (pv_value (po_amount_inr b))) as [->|Hne].
  2:{ destruct (Z.compare_spec (pv_value (po_amount_inr a)) (pv_value (po_amount_inr b))); [lia|done..]. }
  rewrite Z.compare_refl. cbn.
  destruct (fl_compare (fl_opp (pv_value (po_merchant_trust a))) _); [|done..]. cbn.
  unfold String.ltb. destruct (String.eqb_spec (pv_value (po_merchant_id a)) (pv_value (po_merchant_id b))) as [->|Hne].
  - by rewrite string_compare_refl.
  - cbn. destruct (String.compare _ _) eqn:E; [|done..]. by apply String.compare_eq_iff in E.
Qed.

(** ** Ranking: sorted, complete, and stable in its verdicts *)
Lemma better_asym a b : rankable a → rankable b → better a b = true → better b a = false.
Proof.
  intros Ha Hb. rewrite !better_compare by done. rewrite (cmp_antisym _ sort_key_total (offer_sort_key a)).
  by destruct (sort_key_compare _ _).
Qed.

Lemma not_worse_trans a b c : rankable a → rankable b → rankable c →
  not_worse a b = true → not_worse b c = true → not_worse a c = true.
Proof.
  intros Ha Hb Hc. unfold not_worse. rewrite !better_compare by done.
  rewrite (cmp_antisym _ sort_key_total (offer_sort_key a) (offer_sort_key b)),
    (cmp_antisym _ sort_key_total (offer_sort_key b) (offer_sort_key c)),
    (cmp_antisym _ sort_key_total (offer_sort_key a) (offer_sort_key c)).
  pose proof (cmp_trans _ sort_key_total (offer_sort_key a) (offer_sort_key b) (offer_sort_key c)) as T.
  pose proof (cmp_eq _ sort_key_total (offer_sort_key a) (offer_sort_key b) (offer_sort_key c)) as Q.
  pose proof (cmp_eq _ sort_key_total (offer_sort_key b) (offer_sort_key c) (offer_sort_key a)) as Q'.
  rewrite (cmp_antisym _ sort_key_total (offer_sort_key a) (offer_sort_key b)),
    (cmp_antisym _ sort_key_total (offer_sort_key a) (offer_sort_key c)) in Q'.
  destruct (sort_key_compare (offer_sort_key a) (offer_sort_key b)),
    (sort_key_compare (offer_sort_key b) (offer_sort_key c)); cbn; try (intros; discriminate); intros _ _.
  - by rewrite Q.
  - by rewrite Q.
  - specialize (Q' eq_refl). by destruct (sort_key_compare (offer_sort_key a) _).
  - by rewrite T.
Qed.

(** The comparison sort on elements that are all comparable. *)
Lemma py_insert_StronglySorted {A} (leb : A → A → bool) (P : A → Prop) x l :
  (∀ x y, P x → P y → leb x y = true ∨ leb y x = true) →
  (∀ x y z, P x → P y → P z → leb x y = true → leb y z = true → leb x z = true) →
  P x → Forall P l → StronglySorted (λ a b, leb a b = true) l →
  StronglySorted (λ a b, leb a b = true) (py_insert leb x l).
Proof.
  intros Htot Htr Hx Hl Hs. induction Hs as [|y l Hs IH Hy]; cbn; [by repeat constructor|].
  inversion_clear Hl as [|? ? Py Pl]. destruct (leb x y) eqn:E.
  - constructor; [by constructor|]. constructor; [done|].
    rewrite Forall_forall in Hy, Pl |- *. intros z Hz. eapply (Htr x y z); auto.
  - constructor; [by apply IH|]. rewrite py_insert_Permutation. constructor; [|done].
    destruct (Htot x y Hx Py); congruence.
Qed.

Lemma py_sorted_StronglySorted {A} (leb : A → A → bool) (P : A → Prop) l :
  (∀ x y, P x → P y → leb x y = true ∨ leb y x = true) →
  (∀ x y z, P x → P y → P z → leb x y = true → leb y z = true → leb x z = true) →
  Forall P l → StronglySorted (λ a b, leb a b = true) (py_sorted leb l).
Proof.
  intros Htot Htr Hl. induction Hl as [|x l Hx Hl IH]; cbn; [constructor|].
  assert (Forall P (py_sorted leb l)) by (by rewrite py_sorted_Permutation).
  by apply (py_insert_StronglySorted leb P).
Qed.

Lemma imap_with_rank_map (k : nat) l :
  map po_offer_id (imap (λ i o, with_rank (Z.of_nat (k + i) + 1) o) l) = map po_offer_id l.
Proof.
  revert k. induction l as [|o l IH]; intros k; [done|].
  rewrite imap_cons. cbn [map]. f_equal.
  rewrite <-(IH (S k)). f_equal. apply imap_ext. intros i x _. cbn. do 2 f_equal. lia.
Qed.

Lemma valid_offers_rankable offers : Forall rankable offers → Forall rankable (List.filter po_valid offers).
Proof.
  rewrite !Forall_forall. intros H x Hx. apply H.
  apply list_elem_of_In, filter_In in Hx as [Hx _]. by apply list_elem_of_In.
Qed.

Lemma ranked_sorted offers : Forall rankable offers →
  StronglySorted (λ a b, not_worse a b = true) (py_sorted not_worse (List.filter po_valid offers)).
Proof.
  intros H%valid_offers_rankable. eapply (py_sorted_StronglySorted _ rankable); [| |done].
  - intros x y Hx Hy. unfold not_worse. destruct (better y x) eqn:E; [|by left].
    right. by rewrite (better_asym _ _ Hy Hx E).
  - intros x y z. apply not_worse_trans.
Qed.

Lemma best_offer_Some offers b : best_offer offers = Some b →
  ∃ o l, py_sorted not_worse (List.filter po_valid offers) = o :: l ∧ b = with_rank 1 o.
Proof.
  unfold best_offer, rank_offers. destruct (py_sorted _ _) as [|o l]; cbn; [done|].
  intros [= <-]. eauto.
Qed.

Lemma best_offer_None offers : best_offer offers = None ↔ Forall (λ o, po_valid o = false) offers.
Proof.
  unfold best_offer, rank_offers. destruct (py_sorted _ _) as [|o l] eqn:E; cbn.
  - split; [|done]. intros _. pose proof (py_sorted_Permutation not_worse (List.filter po_valid offers)) as P.
    rewrite E in P. apply Permutation_nil in P. apply Forall_forall. intros x Hx.
    destruct (po_valid x) eqn:Ex; [|done]. exfalso. apply list_elem_of_In in Hx.
    assert (In x (List.filter po_valid offers)) as Hin by by apply filter_In.
    by rewrite P in Hin.
  - split; [done|]. intros H. exfalso.
    assert (In o (List.filter po_valid offers)) as Hin.
    { apply list_elem_of_In. rewrite <-(py_sorted_Permutation not_worse), E. by left. }
    apply filter_In in Hin as [Hin Hv]. rewrite Forall_forall in H.
    apply list_elem_of_In in Hin. by rewrite (H _ Hin) in Hv.
Qed.

(** ** Properties *)

(** An offer is valid exactly when it passes every check.  Normalization marks
    an offer valid if and only if its claimed identity is the authenticated one, its
    currency is the mission's, it is in stock, its rating and the registry's trust
    reach the minimum, and its merchant is allowed and not blocked; and an offer
    that spoofs an identity carries MERCHANT_IDENTITY_MISMATCH first. *)
Theorem normalize_valid_iff_acceptable (raw : RawMerchantOffer) (context : MerchantContext)
    (c : MissionConstraints) (n n' : uuid) (o : ProvenancedOffer) :
  normalize_offer raw context c n = (Ok o, n') →
  (po_valid o = true ↔ acceptable c o) ∧
  (identity_mismatch o = true → hd_error (po_rejection_reasons o) = Some ReasonCode.MERCHANT_IDENTITY_MISMATCH).
Proof.
  intros H. unfold normalize_offer in H. run_inv H. subst. split.
  - rewrite with_verdict_valid, rejection_reasons_nil.
    split; intros [H1 H2 H3 H4 H5 H6 H7]; by constructor.
  - unfold with_verdict, identity_mismatch. cbn. intros E. unfold rejection_reasons, identity_mismatch.
    by rewrite E.
Qed.

Lemma normalize_valid_iff_acceptable_witness :
  ∃ o, normalize_offer spoofed_offer evil_context example_constraints 0%N = (Ok o, 1%N) ∧
       hd_error (po_rejection_reasons o) = Some ReasonCode.MERCHANT_IDENTITY_MISMATCH.
Proof.
  eexists. split; [vm_compute; reflexivity|].
  apply (normalize_valid_iff_acceptable spoofed_offer evil_context example_constraints 0%N 1%N);
    vm_compute; reflexivity.
Defined.

(** Ranking returns exactly the valid offers, best first.  The ranked list is a
    permutation of the valid offers, numbered 1, 2, 3..., and no offer is strictly
    better than one ranked before it under (rating, price, trust, merchant, product),
    for all offers whose rating and trust are numbers. *)
Theorem rank_offers_sorts (offers : list ProvenancedOffer) :
  Forall rankable offers →
  map po_offer_id (rank_offers offers) ≡ₚ map po_offer_id (List.filter po_valid offers) ∧
  map po_rank (rank_offers offers) = map (λ i, Some (Z.of_nat i)) (seq 1 (length (rank_offers offers))) ∧
  StronglySorted (λ a b, better b a = false) (rank_offers offers).
Proof.
  intros H. pose proof (ranked_sorted offers H) as Hs. pose proof (py_sorted_Permutation not_worse
    (List.filter po_valid offers)) as Hp. unfold rank_offers.
  generalize dependent (py_sorted not_worse (List.filter po_valid offers)). intros l Hs Hp. split_and!.
  - transitivity (map po_offer_id l); [by rewrite <-(imap_with_rank_map 0 l)|by rewrite Hp].
  - rewrite length_imap. clear. change (λ i o, with_rank (Z.of_nat i + 1) o)
      with (λ i o, with_rank (Z.of_nat (0 + i) + 1) o).
    generalize 0%nat as k. induction l as [|o l IH]; intros k; [done|].
    rewrite imap_cons. cbn [map length seq po_rank with_rank]. f_equal; [f_equal; lia|].
    rewrite <-(IH (S k)). f_equal. apply imap_ext. intros i x _. cbn. f_equal. lia.
  - clear Hp.
    assert (Hg : ∀ f : nat → Z,
      StronglySorted (λ a b, better b a = false) (imap (λ i o, with_rank (f i) o) l));
      [|exact (Hg (λ i, Z.of_nat i + 1))].
    induction Hs as [|o l Hs IH Ho]; intros f; [constructor|]. rewrite imap_cons.
    constructor; [apply (IH (λ i, f (S i)))|].
    apply Forall_forall. intros x Hx. apply elem_of_lookup_imap in Hx as (i & y & -> & Hy).
    change (better y o = false). rewrite Forall_forall in Ho. apply list_elem_of_lookup_2 in Hy. apply Ho in Hy.
    unfold not_worse in Hy. by apply negb_true_iff in Hy.
Qed.

Definition offer_of (raw : RawMerchantOffer) (merchant : string) (trust : float) : list ProvenancedOffer :=
  match normalize_offer raw
          (mkMerchantContext (mkMerchantIdentity merchant MerchantAuthMethod.IN_PROCESS_ADAPTER CHANNEL)
             (mkMerchantRecord merchant merchant trust true true)) example_constraints 0%N with
  | (Ok o, _) => [o] | _ => [] end.
Definition example_offers : list ProvenancedOffer :=
  offer_of (mkRawMerchantOffer "merchant_a" "aur-eb-02" "Aurora Lite" "" (fl_of_Z 1999) "INR" (fl_lit 40 10) true
              (utc 0) []) "merchant_a" (fl_lit 9 10)
  ++ offer_of (mkRawMerchantOffer "merchant_a" "aur-eb-01" "Aurora SoundCore" "" (fl_of_Z 4299) "INR"
              (fl_lit 46 10) true (utc 0) []) "merchant_a" (fl_lit 9 10)
  ++ offer_of spoofed_offer "evil" fl0.

Lemma rank_offers_sorts_witness :
  map (λ o, pv_value (po_product_id o)) (rank_offers example_offers) = ["aur-eb-01"; "aur-eb-02"] ∧
  StronglySorted (λ a b, better b a = false) (rank_offers example_offers).
Proof.
  split; [vm_compute; reflexivity|].
  apply (rank_offers_sorts example_offers).
  repeat (apply List.Forall_cons; [split; vm_compute; reflexivity|]). apply List.Forall_nil.
Defined.

(** The hard limit is absolute and the decision is exactly the budget's.  With
    no offer the decision is DENY for NO_VALID_OFFERS; otherwise the amount is price
    times quantity and the decision is DENY iff it exceeds the hard limit,
    REQUIRE_APPROVAL iff it exceeds only the soft budget, ALLOW iff it is within it,
    with the one reason code that says so. *)
Theorem evaluate_decides (c : MissionConstraints) (best : option ProvenancedOffer) (quantity : Z) :
  let d := evaluate c best quantity in
  pd_policy_version d = POLICY_VERSION ∧ pd_soft_budget d = mc_soft_budget_inr c ∧
  pd_hard_limit d = mc_hard_limit_inr c ∧
  match best with
  | None => pd_decision d = PolicyOutcome.DENY ∧ pd_reason_codes d = [ReasonCode.NO_VALID_OFFERS] ∧
            pd_requested_amount d = None ∧ pd_selected_offer_id d = None
  | Some o =>
      let amount := pv_value (po_amount_inr o) * quantity in
      pd_requested_amount d = Some amount ∧ pd_selected_offer_id d = Some (po_offer_id o) ∧
      (pd_decision d = PolicyOutcome.DENY ∧ pd_reason_codes d = [ReasonCode.HARD_LIMIT_EXCEEDED]
       ↔ mc_hard_limit_inr c < amount) ∧
      (pd_decision d = PolicyOutcome.REQUIRE_APPROVAL ∧ pd_reason_codes d = [ReasonCode.SOFT_BUDGET_EXCEEDED]
       ↔ mc_soft_budget_inr c < amount <= mc_hard_limit_inr c) ∧
      (pd_decision d = PolicyOutcome.ALLOW ∧ pd_reason_codes d = [ReasonCode.WITHIN_LIMITS]
       ↔ amount <= mc_soft_budget_inr c ∧ amount <= mc_hard_limit_inr c)
  end.
Proof.
  destruct best as [o|]; cbn; [|done]. set (amount := pv_value (po_amount_inr o) * quantity).
  destruct (Z.ltb_spec (mc_hard_limit_inr c) amount); [cbn; intuition (try congruence; lia)|].
  destruct (Z.ltb_spec (mc_soft_budget_inr c) amount); cbn; intuition (try congruence; lia).
Qed.
