(* ===== verification/Payment.v ===== *)
(** * The payment vocabulary

    packages/schemas/payment.py: what PACTRA asks of a provider, what a provider
    reports, verified webhooks, the translation of provider statuses into PACTRA's
    states, and the fingerprint that says when two payment requests are the same. *)
From S2P Require Import Prelude Python PyFloat Json Text Enums Errors Canonical Transaction.

Definition provider_status_to_state (s : ProviderPaymentStatus) : PaymentIntentState :=
  match s with
  | ProviderPaymentStatus.CREATED => PaymentIntentState.PROVIDER_PENDING
  | ProviderPaymentStatus.PENDING => PaymentIntentState.PROVIDER_PENDING
  | ProviderPaymentStatus.SUCCEEDED => PaymentIntentState.SUCCEEDED
  | ProviderPaymentStatus.FAILED => PaymentIntentState.FAILED_TERMINAL
  end.

Record PaymentRequest := mkPaymentRequest {
  rq_idempotency_key : string;
  rq_amount_inr : Z;
  rq_currency : string;
  rq_merchant_id : string;
  rq_transaction_digest_prefix : string
}.
#[global] Instance PaymentRequest_eq_dec : EqDecision PaymentRequest.
Proof. solve_decision. Defined.

Definition payment_request_error (r : PaymentRequest) : option string :=
  if negb (length_within 1 200 (rq_idempotency_key r)) then Some "idempotency_key"
  else if negb (1 <=? rq_amount_inr r) then Some "amount_inr"
  else if negb (length_within 3 3 (rq_currency r)) then Some "currency"
  else if negb (length_within 1 120 (rq_merchant_id r)) then Some "merchant_id"
  else if negb (length_within 1 32 (rq_transaction_digest_prefix r)) then Some "transaction_digest_prefix"
  else None.

Definition PaymentRequest_new (r : PaymentRequest) : outcome exn PaymentRequest :=
  match payment_request_error r with Some f => Raise (ValidationError f) | None => Ok r end.

Record ProviderPayment := mkProviderPayment {
  pp_provider : string;
  pp_provider_payment_id : string;
  pp_status : ProviderPaymentStatus;
  pp_amount_inr : Z;
  pp_currency : string;
  pp_idempotency_key : option string;
  pp_provider_order_id : option string;
  pp_provider_transaction_id : option string;
  pp_provider_receipt : option string;
  pp_provider_status : option string;
  pp_provider_attempts : option Z;
  pp_idempotent_replay : bool
}.
#[global] Instance ProviderPayment_eq_dec : EqDecision ProviderPayment.
Proof. solve_decision. Defined.

Definition opt_length_within (lo hi : nat) (s : option string) : bool :=
  match s with Some s => length_within lo hi s | None => true end.
Definition opt_ge0 (z : option Z) : bool := match z with Some z => 0 <=? z | None => true end.

Definition provider_payment_error (p : ProviderPayment) : option string :=
  if negb (length_within 1 40 (pp_provider p)) then Some "provider"
  else if negb (length_within 1 200 (pp_provider_payment_id p)) then Some "provider_payment_id"
  else if negb (0 <=? pp_amount_inr p) then Some "amount_inr"
  else if negb (length_within 3 3 (pp_currency p)) then Some "currency"
  else if negb (opt_length_within 1 200 (pp_provider_order_id p)) then Some "provider_order_id"
  else if negb (opt_length_within 1 200 (pp_provider_transaction_id p)) then Some "provider_transaction_id"
  else if negb (opt_length_within 1 200 (pp_provider_receipt p)) then Some "provider_receipt"
  else if negb (opt_length_within 1 40 (pp_provider_status p)) then Some "provider_status"
  else if negb (opt_ge0 (pp_provider_attempts p)) then Some "provider_attempts"
  else None.

Definition ProviderPayment_new (p : ProviderPayment) : outcome exn ProviderPayment :=
  match provider_payment_error p with Some f => Raise (ValidationError f) | None => Ok p end.

Definition webhook_type_to_state (t : WebhookEventType) : PaymentIntentState :=
  match t with
  | WebhookEventType.PAYMENT_SUCCEEDED => PaymentIntentState.SUCCEEDED
  | WebhookEventType.PAYMENT_FAILED => PaymentIntentState.FAILED_TERMINAL
  | WebhookEventType.PAYMENT_PENDING => PaymentIntentState.PROVIDER_PENDING
  | WebhookEventType.PAYMENT_ATTEMPT_FAILED => PaymentIntentState.PROVIDER_PENDING
  end.

Record VerifiedWebhookEvent := mkVerifiedWebhookEvent {
  we_provider : string;
  we_provider_event_id : string;
  we_event_type : WebhookEventType;
  we_provider_payment_id : string;
  we_provider_order_id : option string;
  we_provider_transaction_id : option string;
  we_amount_inr : option Z;
  we_currency : option string;
  we_provider_status : option string;
  we_provider_attempts : option Z;
  we_sequence : option Z;
  we_occurred_at : option datetime
}.

Definition verified_webhook_error (e : VerifiedWebhookEvent) : option string :=
  if negb (length_within 1 40 (we_provider e)) then Some "provider"
  else if negb (length_within 1 200 (we_provider_event_id e)) then Some "provider_event_id"
  else if negb (length_within 1 200 (we_provider_payment_id e)) then Some "provider_payment_id"
  else if negb (opt_length_within 1 200 (we_provider_order_id e)) then Some "provider_order_id"
  else if negb (opt_length_within 1 200 (we_provider_transaction_id e)) then Some "provider_transaction_id"
  else if negb (opt_ge0 (we_amount_inr e)) then Some "amount_inr"
  else if negb (opt_length_within 3 3 (we_currency e)) then Some "currency"
  else if negb (opt_length_within 1 40 (we_provider_status e)) then Some "provider_status"
  else if negb (opt_ge0 (we_provider_attempts e)) then Some "provider_attempts"
  else None.

(** ** The fingerprint of a payment request *)
Definition PAYMENT_REQUEST_FINGERPRINT_DOMAIN : string := "pactra-payment-request-v1".

Definition fingerprint_fields (mission_id authorization_id : uuid) (transaction_digest : string)
    (amount_inr : Z) (currency merchant_id provider : string) : list (string * CanonicalValue) :=
  [("mission_id", VStr (u (str_uuid mission_id)));
   ("authorization_id", VStr (u (str_uuid authorization_id)));
   ("transaction_digest", VStr (u transaction_digest));
   ("amount_inr", VInt amount_inr);
   ("currency", VStr (u currency));
   ("merchant_id", VStr (u merchant_id));
   ("provider", VStr (u provider))].

Definition request_fingerprint (mission_id authorization_id : uuid) (transaction_digest : string)
    (amount_inr : Z) (currency merchant_id provider : string) : outcome exn string :=
  canonical_digest PAYMENT_REQUEST_FINGERPRINT_DOMAIN
    (fingerprint_fields mission_id authorization_id transaction_digest amount_inr currency
       merchant_id provider).

(** ** Laws *)
Lemma fingerprint_fields_sorted m a td amt cur mer prov :
  py_sorted key_leb (fingerprint_fields m a td amt cur mer prov) =
  [("amount_inr", VInt amt); ("authorization_id", VStr (u (str_uuid a)));
   ("currency", VStr (u cur)); ("merchant_id", VStr (u mer)); ("mission_id", VStr (u (str_uuid m)));
   ("provider", VStr (u prov)); ("transaction_digest", VStr (u td))].
Proof. reflexivity. Qed.

Lemma fingerprint_fields_equiv m a td amt cur mer prov m' a' td' amt' cur' mer' prov' :
  (m < 2 ^ 128)%N → (m' < 2 ^ 128)%N → (a < 2 ^ 128)%N → (a' < 2 ^ 128)%N →
  fields_equiv (fingerprint_fields m a td amt cur mer prov)
               (fingerprint_fields m' a' td' amt' cur' mer' prov') →
  m = m' ∧ a = a' ∧ td = td' ∧ amt = amt' ∧ cur = cur' ∧ mer = mer' ∧ prov = prov'.
Proof.
  intros Hm Hm' Ha Ha'. unfold fields_equiv. rewrite !fingerprint_fields_sorted.
  intros Hl. repeat (apply Forall2_cons_1 in Hl as [[_ ?Hv] Hl]). cbn [snd cv_equiv] in *.
  repeat match goal with H : VStr _ = VStr _ |- _ => apply VStr_u_inj in H end.
  split; [by apply str_uuid_inj|]. split; [by apply str_uuid_inj|].
  repeat split; congruence.
Qed.

Lemma fingerprint_fields_ok m a td amt cur mer prov :
  Forall (λ f, cv_ok (snd f)) (fingerprint_fields m a td amt cur mer prov).
Proof.
  unfold fingerprint_fields.
  repeat (apply List.Forall_cons; [first [exact I | apply scalar_u]|]). apply List.Forall_nil.
Qed.

Lemma fingerprint_domain_ok : domain_ok PAYMENT_REQUEST_FINGERPRINT_DOMAIN.
Proof. by apply domain_ok_dec. Qed.

(** The fingerprint always exists: every field has a canonical form. *)
Lemma request_fingerprint_total m a td amt cur mer prov :
  ∃ h, request_fingerprint m a td amt cur mer prov = Ok h.
Proof.
  unfold request_fingerprint, canonical_digest, canonical_message.
  replace (String.eqb PAYMENT_REQUEST_FINGERPRINT_DOMAIN "") with false by reflexivity.
  replace (encode_ascii PAYMENT_REQUEST_FINGERPRINT_DOMAIN)
    with (Ok (E := exn) (u PAYMENT_REQUEST_FINGERPRINT_DOMAIN)) by reflexivity.
  unfold canonical_bytes, fingerprint_fields. cbn [encode_fields encode_value].
  unfold mbind, outcome_bind. eauto.
Qed.
