(* ===== verification/Database.v ===== *)
(** * The database, the session and the process around them

    apps/api/db/models.py: the tables as record types, the constraints checked
    when a row is written, and the session operations the services call
    (savepoint, commit, rollback, the conditional UPDATE decided by its row
    count).  A column that only ever holds the values of an enumeration is typed
    by it.  A table read by primary key is a finite map; a table read in insertion
    order is a list.  [server_default=func.now()] columns and foreign keys are not
    columns here: no operation modelled reads the former other than as insertion
    order, and SQLite does not enforce the latter. *)
From S2P Require Import Prelude Python PyFloat Json Enums Errors Transaction Merchant Kernel Policy.
From S2P Require Import Payment.

(** ** The tables *)
Record MissionRow := mkMissionRow {
  ms_id : uuid;
  ms_raw_query : option string;
  ms_quantity : Z;
  ms_state : MissionState;
  ms_constraints : option MissionConstraints
}.
Definition set_ms_state (v : MissionState) (r : MissionRow) : MissionRow :=
  mkMissionRow (ms_id r) (ms_raw_query r) (ms_quantity r) v (ms_constraints r).
Definition set_ms_constraints (v : option MissionConstraints) (r : MissionRow) : MissionRow :=
  mkMissionRow (ms_id r) (ms_raw_query r) (ms_quantity r) (ms_state r) v.

Record OfferRow := mkOfferRow {
  of_id : uuid;
  of_mission_id : uuid;
  of_offer_version : string;
  of_merchant_id : string;
  of_merchant_name : string;
  of_merchant_trust : float;
  of_product_id : string;
  of_title : string;
  of_amount_inr : Z;
  of_currency : string;
  of_rating : float;
  of_in_stock : bool;
  of_offered_at : datetime;
  of_valid : bool;
  of_rejection_reasons : list ReasonCode;
  of_rank : option Z;
  of_raw : json_obj
}.
Definition set_of_rank (v : option Z) (r : OfferRow) : OfferRow :=
  mkOfferRow (of_id r) (of_mission_id r) (of_offer_version r) (of_merchant_id r)
    (of_merchant_name r) (of_merchant_trust r) (of_product_id r) (of_title r) (of_amount_inr r)
    (of_currency r) (of_rating r) (of_in_stock r) (of_offered_at r) (of_valid r)
    (of_rejection_reasons r) v (of_raw r).

Record PolicyDecisionRow := mkPolicyDecisionRow {
  dr_id : uuid;
  dr_mission_id : uuid;
  dr_decision : PolicyOutcome;
  dr_policy_version : string;
  dr_reason_codes : list ReasonCode;
  dr_requested_amount : option Z;
  dr_soft_budget : Z;
  dr_hard_limit : Z;
  dr_selected_offer_id : option uuid
}.

Record AuditEventRow := mkAuditEventRow {
  ev_event_id : uuid;
  ev_mission_id : uuid;
  ev_sequence : Z;
  ev_event_type : string;
  ev_actor : string;
  ev_payload : json;
  ev_previous_hash : string;
  ev_event_hash : string;
  ev_created_at : option datetime
}.

Record AuthorizationRow := mkAuthorizationRow {
  au_authorization_id : uuid;
  au_mission_id : uuid;
  au_transaction_digest : string;
  au_nonce : string;
  au_binding_version : string;
  au_policy_version : string;
  au_offer_version : string;
  au_approval_scheme : ApprovalScheme;
  au_signing_key_id : option string;
  au_approval_signature : option string;
  au_status : AuthorizationStatus;
  au_issued_at : datetime;
  au_expires_at : datetime;
  au_consumed_at : option datetime;
  au_bound_merchant_id : string;
  au_bound_product_id : string;
  au_bound_quantity : Z;
  au_bound_amount_inr : Z;
  au_bound_currency : string
}.
Definition set_au_status (v : AuthorizationStatus) (r : AuthorizationRow) : AuthorizationRow :=
  mkAuthorizationRow (au_authorization_id r) (au_mission_id r) (au_transaction_digest r)
    (au_nonce r) (au_binding_version r) (au_policy_version r) (au_offer_version r)
    (au_approval_scheme r) (au_signing_key_id r) (au_approval_signature r) v (au_issued_at r)
    (au_expires_at r) (au_consumed_at r) (au_bound_merchant_id r) (au_bound_product_id r)
    (au_bound_quantity r) (au_bound_amount_inr r) (au_bound_currency r).
Definition set_au_consumed_at (v : option datetime) (r : AuthorizationRow) : AuthorizationRow :=
  mkAuthorizationRow (au_authorization_id r) (au_mission_id r) (au_transaction_digest r)
    (au_nonce r) (au_binding_version r) (au_policy_version r) (au_offer_version r)
    (au_approval_scheme r) (au_signing_key_id r) (au_approval_signature r) (au_status r)
    (au_issued_at r) (au_expires_at r) v (au_bound_merchant_id r) (au_bound_product_id r)
    (au_bound_quantity r) (au_bound_amount_inr r) (au_bound_currency r).
Definition set_au_signing_key_id (v : option string) (r : AuthorizationRow) : AuthorizationRow :=
  mkAuthorizationRow (au_authorization_id r) (au_mission_id r) (au_transaction_digest r)
    (au_nonce r) (au_binding_version r) (au_policy_version r) (au_offer_version r)
    (au_approval_scheme r) v (au_approval_signature r) (au_status r) (au_issued_at r)
    (au_expires_at r) (au_consumed_at r) (au_bound_merchant_id r) (au_bound_product_id r)
    (au_bound_quantity r) (au_bound_amount_inr r) (au_bound_currency r).
Definition set_au_approval_signature (v : option string) (r : AuthorizationRow) : AuthorizationRow :=
  mkAuthorizationRow (au_authorization_id r) (au_mission_id r) (au_transaction_digest r)
    (au_nonce r) (au_binding_version r) (au_policy_version r) (au_offer_version r)
    (au_approval_scheme r) (au_signing_key_id r) v (au_status r) (au_issued_at r) (au_expires_at
    r) (au_consumed_at r) (au_bound_merchant_id r) (au_bound_product_id r) (au_bound_quantity r)
    (au_bound_amount_inr r) (au_bound_currency r).

Record PaymentIntentRow := mkPaymentIntentRow {
  pi_id : uuid;
  pi_mission_id : uuid;
  pi_authorization_id : uuid;
  pi_transaction_digest : string;
  pi_idempotency_key : string;
  pi_request_fingerprint : string;
  pi_amount_inr : Z;
  pi_currency : string;
  pi_merchant_id : string;
  pi_provider : string;
  pi_provider_payment_id : option string;
  pi_provider_order_id : option string;
  pi_provider_transaction_id : option string;
  pi_provider_receipt : option string;
  pi_provider_status : option string;
  pi_provider_attempts : option Z;
  pi_provider_create_fenced_at : option datetime;
  pi_provider_ambiguity_observed_at : option datetime;
  pi_state : PaymentIntentState;
  pi_attempts : Z;
  pi_last_reason_code : option string
}.
Definition set_pi_provider_payment_id (v : option string) (r : PaymentIntentRow) : PaymentIntentRow :=
  mkPaymentIntentRow (pi_id r) (pi_mission_id r) (pi_authorization_id r) (pi_transaction_digest
    r) (pi_idempotency_key r) (pi_request_fingerprint r) (pi_amount_inr r) (pi_currency r)
    (pi_merchant_id r) (pi_provider r) v (pi_provider_order_id r) (pi_provider_transaction_id r)
    (pi_provider_receipt r) (pi_provider_status r) (pi_provider_attempts r)
    (pi_provider_create_fenced_at r) (pi_provider_ambiguity_observed_at r) (pi_state r)
    (pi_attempts r) (pi_last_reason_code r).
Definition set_pi_provider_order_id (v : option string) (r : PaymentIntentRow) : PaymentIntentRow :=
  mkPaymentIntentRow (pi_id r) (pi_mission_id r) (pi_authorization_id r) (pi_transaction_digest
    r) (pi_idempotency_key r) (pi_request_fingerprint r) (pi_amount_inr r) (pi_currency r)
    (pi_merchant_id r) (pi_provider r) (pi_provider_payment_id r) v (pi_provider_transaction_id
    r) (pi_provider_receipt r) (pi_provider_status r) (pi_provider_attempts r)
    (pi_provider_create_fenced_at r) (pi_provider_ambiguity_observed_at r) (pi_state r)
    (pi_attempts r) (pi_last_reason_code r).
Definition set_pi_provider_transaction_id (v : option string) (r : PaymentIntentRow) : PaymentIntentRow :=
  mkPaymentIntentRow (pi_id r) (pi_mission_id r) (pi_authorization_id r) (pi_transaction_digest
    r) (pi_idempotency_key r) (pi_request_fingerprint r) (pi_amount_inr r) (pi_currency r)
    (pi_merchant_id r) (pi_provider r) (pi_provider_payment_id r) (pi_provider_order_id r) v
    (pi_provider_receipt r) (pi_provider_status r) (pi_provider_attempts r)
    (pi_provider_create_fenced_at r) (pi_provider_ambiguity_observed_at r) (pi_state r)
    (pi_attempts r) (pi_last_reason_code r).
Definition set_pi_provider_receipt (v : option string) (r : PaymentIntentRow) : PaymentIntentRow :=
  mkPaymentIntentRow (pi_id r) (pi_mission_id r) (pi_authorization_id r) (pi_transaction_digest
    r) (pi_idempotency_key r) (pi_request_fingerprint r) (pi_amount_inr r) (pi_currency r)
    (pi_merchant_id r) (pi_provider r) (pi_provider_payment_id r) (pi_provider_order_id r)
    (pi_provider_transaction_id r) v (pi_provider_status r) (pi_provider_attempts r)
    (pi_provider_create_fenced_at r) (pi_provider_ambiguity_observed_at r) (pi_state r)
    (pi_attempts r) (pi_last_reason_code r).
Definition set_pi_provider_status (v : option string) (r : PaymentIntentRow) : PaymentIntentRow :=
  mkPaymentIntentRow (pi_id r) (pi_mission_id r) (pi_authorization_id r) (pi_transaction_digest
    r) (pi_idempotency_key r) (pi_request_fingerprint r) (pi_amount_inr r) (pi_currency r)
    (pi_merchant_id r) (pi_provider r) (pi_provider_payment_id r) (pi_provider_order_id r)
    (pi_provider_transaction_id r) (pi_provider_receipt r) v (pi_provider_attempts r)
    (pi_provider_create_fenced_at r) (pi_provider_ambiguity_observed_at r) (pi_state r)
    (pi_attempts r) (pi_last_reason_code r).
Definition set_pi_provider_attempts (v : option Z) (r : PaymentIntentRow) : PaymentIntentRow :=
  mkPaymentIntentRow (pi_id r) (pi_mission_id r) (pi_authorization_id r) (pi_transaction_digest
    r) (pi_idempotency_key r) (pi_request_fingerprint r) (pi_amount_inr r) (pi_currency r)
    (pi_merchant_id r) (pi_provider r) (pi_provider_payment_id r) (pi_provider_order_id r)
    (pi_provider_transaction_id r) (pi_provider_receipt r) (pi_provider_status r) v
    (pi_provider_create_fenced_at r) (pi_provider_ambiguity_observed_at r) (pi_state r)
    (pi_attempts r) (pi_last_reason_code r).
Definition set_pi_provider_create_fenced_at (v : option datetime) (r : PaymentIntentRow) : PaymentIntentRow :=
  mkPaymentIntentRow (pi_id r) (pi_mission_id r) (pi_authorization_id r) (pi_transaction_digest
    r) (pi_idempotency_key r) (pi_request_fingerprint r) (pi_amount_inr r) (pi_currency r)
    (pi_merchant_id r) (pi_provider r) (pi_provider_payment_id r) (pi_provider_order_id r)
    (pi_provider_transaction_id r) (pi_provider_receipt r) (pi_provider_status r)
    (pi_provider_attempts r) v (pi_provider_ambiguity_observed_at r) (pi_state r) (pi_attempts
    r) (pi_last_reason_code r).
Definition set_pi_provider_ambiguity_observed_at (v : option datetime) (r : PaymentIntentRow) : PaymentIntentRow :=
  mkPaymentIntentRow (pi_id r) (pi_mission_id r) (pi_authorization_id r) (pi_transaction_digest
    r) (pi_idempotency_key r) (pi_request_fingerprint r) (pi_amount_inr r) (pi_currency r)
    (pi_merchant_id r) (pi_provider r) (pi_provider_payment_id r) (pi_provider_order_id r)
    (pi_provider_transaction_id r) (pi_provider_receipt r) (pi_provider_status r)
    (pi_provider_attempts r) (pi_provider_create_fenced_at r) v (pi_state r) (pi_attempts r)
    (pi_last_reason_code r).
Definition set_pi_state (v : PaymentIntentState) (r : PaymentIntentRow) : PaymentIntentRow :=
  mkPaymentIntentRow (pi_id r) (pi_mission_id r) (pi_authorization_id r) (pi_transaction_digest
    r) (pi_idempotency_key r) (pi_request_fingerprint r) (pi_amount_inr r) (pi_currency r)
    (pi_merchant_id r) (pi_provider r) (pi_provider_payment_id r) (pi_provider_order_id r)
    (pi_provider_transaction_id r) (pi_provider_receipt r) (pi_provider_status r)
    (pi_provider_attempts r) (pi_provider_create_fenced_at r) (pi_provider_ambiguity_observed_at
    r) v (pi_attempts r) (pi_last_reason_code r).
Definition set_pi_attempts (v : Z) (r : PaymentIntentRow) : PaymentIntentRow :=
  mkPaymentIntentRow (pi_id r) (pi_mission_id r) (pi_authorization_id r) (pi_transaction_digest
    r) (pi_idempotency_key r) (pi_request_fingerprint r) (pi_amount_inr r) (pi_currency r)
    (pi_merchant_id r) (pi_provider r) (pi_provider_payment_id r) (pi_provider_order_id r)
    (pi_provider_transaction_id r) (pi_provider_receipt r) (pi_provider_status r)
    (pi_provider_attempts r) (pi_provider_create_fenced_at r) (pi_provider_ambiguity_observed_at
    r) (pi_state r) v (pi_last_reason_code r).
Definition set_pi_last_reason_code (v : option string) (r : PaymentIntentRow) : PaymentIntentRow :=
  mkPaymentIntentRow (pi_id r) (pi_mission_id r) (pi_authorization_id r) (pi_transaction_digest
    r) (pi_idempotency_key r) (pi_request_fingerprint r) (pi_amount_inr r) (pi_currency r)
    (pi_merchant_id r) (pi_provider r) (pi_provider_payment_id r) (pi_provider_order_id r)
    (pi_provider_transaction_id r) (pi_provider_receipt r) (pi_provider_status r)
    (pi_provider_attempts r) (pi_provider_create_fenced_at r) (pi_provider_ambiguity_observed_at
    r) (pi_state r) (pi_attempts r) v.

Record OutboxEventRow := mkOutboxEventRow {
  ob_id : uuid;
  ob_payment_intent_id : uuid;
  ob_event_type : OutboxEventType;
  ob_payload : json_obj;
  ob_status : OutboxStatus;
  ob_attempts : Z;
  ob_max_attempts : Z;
  ob_available_at : datetime;
  ob_claimed_by : option string;
  ob_last_error : option ustr;
  ob_processed_at : option datetime
}.
Definition set_ob_status (v : OutboxStatus) (r : OutboxEventRow) : OutboxEventRow :=
  mkOutboxEventRow (ob_id r) (ob_payment_intent_id r) (ob_event_type r) (ob_payload r) v
    (ob_attempts r) (ob_max_attempts r) (ob_available_at r) (ob_claimed_by r) (ob_last_error r)
    (ob_processed_at r).
Definition set_ob_attempts (v : Z) (r : OutboxEventRow) : OutboxEventRow :=
  mkOutboxEventRow (ob_id r) (ob_payment_intent_id r) (ob_event_type r) (ob_payload r)
    (ob_status r) v (ob_max_attempts r) (ob_available_at r) (ob_claimed_by r) (ob_last_error r)
    (ob_processed_at r).
Definition set_ob_available_at (v : datetime) (r : OutboxEventRow) : OutboxEventRow :=
  mkOutboxEventRow (ob_id r) (ob_payment_intent_id r) (ob_event_type r) (ob_payload r)
    (ob_status r) (ob_attempts r) (ob_max_attempts r) v (ob_claimed_by r) (ob_last_error r)
    (ob_processed_at r).
Definition set_ob_claimed_by (v : option string) (r : OutboxEventRow) : OutboxEventRow :=
  mkOutboxEventRow (ob_id r) (ob_payment_intent_id r) (ob_event_type r) (ob_payload r)
    (ob_status r) (ob_attempts r) (ob_max_attempts r) (ob_available_at r) v (ob_last_error r)
    (ob_processed_at r).
Definition set_ob_last_error (v : option ustr) (r : OutboxEventRow) : OutboxEventRow :=
  mkOutboxEventRow (ob_id r) (ob_payment_intent_id r) (ob_event_type r) (ob_payload r)
    (ob_status r) (ob_attempts r) (ob_max_attempts r) (ob_available_at r) (ob_claimed_by r) v
    (ob_processed_at r).
Definition set_ob_processed_at (v : option datetime) (r : OutboxEventRow) : OutboxEventRow :=
  mkOutboxEventRow (ob_id r) (ob_payment_intent_id r) (ob_event_type r) (ob_payload r)
    (ob_status r) (ob_attempts r) (ob_max_attempts r) (ob_available_at r) (ob_claimed_by r)
    (ob_last_error r) v.

Record WebhookEventRow := mkWebhookEventRow {
  wh_id : uuid;
  wh_provider : string;
  wh_provider_event_id : string;
  wh_event_type : WebhookEventType;
  wh_provider_payment_id : string;
  wh_provider_transaction_id : option string;
  wh_payment_intent_id : option uuid;
  wh_sequence : option Z;
  wh_received_at : datetime;
  wh_processed_at : option datetime;
  wh_applied_state : option PaymentIntentState
}.
Definition set_wh_payment_intent_id (v : option uuid) (r : WebhookEventRow) : WebhookEventRow :=
  mkWebhookEventRow (wh_id r) (wh_provider r) (wh_provider_event_id r) (wh_event_type r)
    (wh_provider_payment_id r) (wh_provider_transaction_id r) v (wh_sequence r) (wh_received_at r)
    (wh_processed_at r) (wh_applied_state r).
Definition set_wh_processed_at (v : option datetime) (r : WebhookEventRow) : WebhookEventRow :=
  mkWebhookEventRow (wh_id r) (wh_provider r) (wh_provider_event_id r) (wh_event_type r)
    (wh_provider_payment_id r) (wh_provider_transaction_id r) (wh_payment_intent_id r)
    (wh_sequence r) (wh_received_at r) v (wh_applied_state r).
Definition set_wh_applied_state (v : option PaymentIntentState) (r : WebhookEventRow) : WebhookEventRow :=
  mkWebhookEventRow (wh_id r) (wh_provider r) (wh_provider_event_id r) (wh_event_type r)
    (wh_provider_payment_id r) (wh_provider_transaction_id r) (wh_payment_intent_id r)
    (wh_sequence r) (wh_received_at r) (wh_processed_at r) v.

Record DB := mkDB {
  db_missions : gmap uuid MissionRow;
  db_offers : list OfferRow;
  db_decisions : list PolicyDecisionRow;
  db_audit : list AuditEventRow;
  db_auths : gmap uuid AuthorizationRow;
  db_intents : gmap uuid PaymentIntentRow;
  db_outbox : list OutboxEventRow;
  db_webhooks : list WebhookEventRow
}.
Definition set_db_missions (v : gmap uuid MissionRow) (r : DB) : DB :=
  mkDB v (db_offers r) (db_decisions r) (db_audit r) (db_auths r) (db_intents r) (db_outbox r)
    (db_webhooks r).
Definition set_db_offers (v : list OfferRow) (r : DB) : DB :=
  mkDB (db_missions r) v (db_decisions r) (db_audit r) (db_auths r) (db_intents r) (db_outbox r)
    (db_webhooks r).
Definition set_db_decisions (v : list PolicyDecisionRow) (r : DB) : DB :=
  mkDB (db_missions r) (db_offers r) v (db_audit r) (db_auths r) (db_intents r) (db_outbox r)
    (db_webhooks r).
Definition set_db_audit (v : list AuditEventRow) (r : DB) : DB :=
  mkDB (db_missions r) (db_offers r) (db_decisions r) v (db_auths r) (db_intents r) (db_outbox
    r) (db_webhooks r).
Definition set_db_auths (v : gmap uuid AuthorizationRow) (r : DB) : DB :=
  mkDB (db_missions r) (db_offers r) (db_decisions r) (db_audit r) v (db_intents r) (db_outbox
    r) (db_webhooks r).
Definition set_db_intents (v : gmap uuid PaymentIntentRow) (r : DB) : DB :=
  mkDB (db_missions r) (db_offers r) (db_decisions r) (db_audit r) (db_auths r) v (db_outbox r)
    (db_webhooks r).
Definition set_db_outbox (v : list OutboxEventRow) (r : DB) : DB :=
  mkDB (db_missions r) (db_offers r) (db_decisions r) (db_audit r) (db_auths r) (db_intents r) v
    (db_webhooks r).
Definition set_db_webhooks (v : list WebhookEventRow) (r : DB) : DB :=
  mkDB (db_missions r) (db_offers r) (db_decisions r) (db_audit r) (db_auths r) (db_intents r)
    (db_outbox r) v.

Definition db_empty : DB := mkDB ∅ [] [] [] ∅ ∅ [] [].

(** ** What the process reads from outside

    Settings, the clock, the random generator and the Ed25519 primitive of the
    [cryptography] package. *)
Class Env := {
  env_signing_key_id : string;
  env_public_key_hex : option string;
  env_utcnow : nat → datetime;
  env_utcnow_utc : ∀ n, dt_offset (env_utcnow n) = Some 0;
  env_token_hex : nat → string;
  env_authorization_ttl_seconds : Z;
  env_app_env : string;
  (** [Ed25519PublicKey.from_public_bytes] accepts these bytes. *)
  env_ed25519_key_ok : bytes → bool;
  (** [public_key.verify(signature, message)] does not raise. *)
  env_ed25519_verify : bytes → bytes → bytes → bool
}.

(** ** A call made to a payment provider *)
Inductive provider_op : Type :=
  | OpCreate (request : PaymentRequest)
  | OpGet (provider_payment_id idempotency_key : option string).
#[global] Instance provider_op_eq_dec : EqDecision provider_op.
Proof. solve_decision. Defined.
Record provider_call := mkProviderCall { call_provider : string; call_op : provider_op }.
#[global] Instance provider_call_eq_dec : EqDecision provider_call.
Proof. solve_decision. Defined.

(** ** The state a service runs in

    [w_db] is what the session sees, [w_committed] what is durable; identifiers
    and clock readings already handed out; and the calls made to providers, which
    no rollback undoes. *)
Record World := mkWorld {
  w_db : DB;
  w_committed : DB;
  w_fresh : uuid;
  w_ticks : nat;
  w_tokens : nat;
  w_calls : list provider_call
}.
Definition set_w_db (d : DB) (w : World) : World :=
  mkWorld d (w_committed w) (w_fresh w) (w_ticks w) (w_tokens w) (w_calls w).

Definition P (A : Type) : Type := M World exn A.

Definition reads {A} (f : DB → A) : P A := gets (λ w, f (w_db w)).
Definition read_db : P DB := reads (λ d, d).
Definition writes (f : DB → DB) : P unit := modify (λ w, set_w_db (f (w_db w)) w).

(** [session.commit()], [session.rollback()] and [async with session.begin_nested()]. *)
Definition commit : P unit :=
  modify (λ w, mkWorld (w_db w) (w_db w) (w_fresh w) (w_ticks w) (w_tokens w) (w_calls w)).
Definition rollback : P unit := modify (λ w, set_w_db (w_committed w) w).
Definition begin_nested {A} (m : P A) : P A := λ w,
  match m w with
  | (Ok a, w') => (Ok a, w')
  | (Raise e, w') => (Raise e, set_w_db (w_db w) w')
  end.

Definition uuid4 : P uuid := λ w,
  let i := (w_fresh w + 1)%N in
  (Ok i, mkWorld (w_db w) (w_committed w) i (w_ticks w) (w_tokens w) (w_calls w)).

(** A computation that only draws identifiers. *)
Definition with_ids {A} (m : M uuid exn A) : P A := λ w,
  let '(o, i) := m (w_fresh w) in
  (o, mkWorld (w_db w) (w_committed w) i (w_ticks w) (w_tokens w) (w_calls w)).

Section Clock.
Context `{Env}.
Definition utcnow : P datetime := λ w,
  (Ok (env_utcnow (w_ticks w)),
   mkWorld (w_db w) (w_committed w) (w_fresh w) (S (w_ticks w)) (w_tokens w) (w_calls w)).

(** packages/schemas/domain.py [as_utc]. *)
Definition as_utc (value : datetime) : datetime :=
  if negb (dt_is_aware value) then dt_replace_utc value else dt_astimezone_utc value.
Lemma as_utc_idemp d : as_utc (as_utc d) = as_utc d.
Proof. unfold as_utc, dt_is_aware, dt_replace_utc, dt_astimezone_utc, dt_instant. destruct (dt_offset d); cbn; f_equal; lia. Qed.

(** [as_utc(now or utcnow())]. *)
Definition moment_of (now : option datetime) : P datetime :=
  match now with
  | Some t => mret (as_utc t)
  | None => t ← utcnow; mret (as_utc t)
  end.

Definition token_hex : P string := λ w,
  (Ok (env_token_hex (w_tokens w)),
   mkWorld (w_db w) (w_committed w) (w_fresh w) (w_ticks w) (S (w_tokens w)) (w_calls w)).
End Clock.

Lemma as_utc_aware d : dt_is_aware (as_utc d) = true.
Proof. unfold as_utc. by destruct (dt_is_aware d). Qed.
Lemma as_utc_instant d : dt_instant (as_utc d) = dt_instant d.
Proof.
  unfold as_utc, dt_is_aware, dt_instant, dt_replace_utc, dt_astimezone_utc.
  destruct (dt_offset d) eqn:E; cbn; [unfold dt_instant; rewrite E; cbn; lia|lia].
Qed.
Lemma dt_instant_add d us : dt_instant (dt_add d us) = dt_instant d + us.
Proof. unfold dt_instant, dt_add. cbn. lia. Qed.

(** ** Writing rows: the constraints of each table *)
Definition violates (checks : list (bool * string)) : option string :=
  snd <$> List.find (λ c, negb (fst c)) checks.
Definition flush_checked (checks : list (bool * string)) : P unit :=
  match violates checks with
  | Some name => raise (IntegrityError name)
  | None => mret tt
  end.

(** authorizations *)
Definition authorization_checks (r : AuthorizationRow) : list (bool * string) :=
  let unsigned := is_none (au_signing_key_id r) in
  [(Bool.eqb (bool_decide (au_status r = AuthorizationStatus.CONSUMED)) (is_some (au_consumed_at r)),
    "ck_authorizations_consumed_at_matches_status");
   (Bool.eqb unsigned (is_none (au_approval_signature r)), "ck_authorizations_proof_pair_complete");
   (match au_approval_signature r with
    | None => true
    | Some s => (String.length s =? 128)%nat && String.eqb s (py_lower s)
    end, "ck_authorizations_signature_shape");
   (match au_approval_scheme r with
    | ApprovalScheme.POLICY_AUTO | ApprovalScheme.LEGACY_SERVER => unsigned
    | ApprovalScheme.USER_ED25519 =>
        match au_status r with
        | AuthorizationStatus.PENDING => unsigned
        | AuthorizationStatus.ACTIVE | AuthorizationStatus.CONSUMED => negb unsigned
        | AuthorizationStatus.EXPIRED | AuthorizationStatus.REVOKED => true
        end
    end, "ck_authorizations_scheme_proof_state")].

Definition nonce_unused (nonce : string) (d : DB) : bool :=
  forallb (λ r, negb (String.eqb (au_nonce r) nonce)) (map snd (map_to_list (db_auths d))).

Definition insert_authorization (r : AuthorizationRow) : P unit :=
  d ← read_db;
  flush_checked ((is_none (db_auths d !! au_authorization_id r), "authorizations_pkey")
                 :: (nonce_unused (au_nonce r) d, "uq_authorizations_nonce") :: authorization_checks r);;
  writes (λ d, set_db_auths (<[au_authorization_id r := r]> (db_auths d)) d).

(** [UPDATE authorizations SET ... WHERE id = ... AND pred], and its row count. *)
Definition update_authorization (id : uuid) (pred : AuthorizationRow → bool)
    (set : AuthorizationRow → AuthorizationRow) : P Z :=
  d ← read_db;
  match db_auths d !! id with
  | Some r =>
      if pred r then
        flush_checked (authorization_checks (set r));;
        writes (λ d, set_db_auths (<[id := set r]> (db_auths d)) d);;
        mret 1
      else mret 0
  | None => mret 0
  end.

(** payment_intents *)
Definition intent_rows (d : DB) : list PaymentIntentRow := map snd (map_to_list (db_intents d)).
(** The rows a [UNIQUE] constraint compares the row [id] with, and the comparison
    on a nullable column. *)
Definition other_intents (id : uuid) (d : DB) : list PaymentIntentRow :=
  map snd (map_to_list (delete id (db_intents d))).
Definition unique_opt (col : PaymentIntentRow → option string) (v : option string)
    (others : list PaymentIntentRow) : bool :=
  match v with
  | None => true
  | Some v => forallb (λ r, negb (bool_decide (col r = Some v))) others
  end.
Definition intent_checks (id : uuid) (r : PaymentIntentRow) (d : DB) : list (bool * string) :=
  let others := other_intents id d in
  [(forallb (λ r', negb (String.eqb (pi_idempotency_key r') (pi_idempotency_key r))) others,
    "uq_payment_intents_idempotency_key");
   (forallb (λ r', negb (bool_decide (pi_authorization_id r' = pi_authorization_id r))) others,
    "uq_payment_intents_authorization_id");
   (unique_opt pi_provider_payment_id (pi_provider_payment_id r) others,
    "uq_payment_intents_provider_payment_id");
   (unique_opt pi_provider_order_id (pi_provider_order_id r) others,
    "uq_payment_intents_provider_order_id");
   (unique_opt pi_provider_transaction_id (pi_provider_transaction_id r) others,
    "uq_payment_intents_provider_transaction_id");
   (negb (bool_decide (pi_state r = PaymentIntentState.SUCCEEDED)) || is_some (pi_provider_payment_id r),
    "ck_payment_intents_succeeded_has_provider_id");
   (1 <=? pi_amount_inr r, "ck_payment_intents_amount_positive");
   (0 <=? pi_attempts r, "ck_payment_intents_attempts_non_negative");
   (opt_ge0 (pi_provider_attempts r), "ck_payment_intents_provider_attempts_non_negative")].

Definition write_intent (id : uuid) (r : PaymentIntentRow) : P unit :=
  d ← read_db;
  flush_checked (intent_checks id r d);;
  writes (λ d, set_db_intents (<[id := r]> (db_intents d)) d).

Definition insert_intent (r : PaymentIntentRow) : P unit :=
  d ← read_db;
  flush_checked [(is_none (db_intents d !! pi_id r), "payment_intents_pkey")];;
  write_intent (pi_id r) r.

(** The session's view of an intent. *)
Definition get_intent (id : uuid) : P PaymentIntentRow :=
  d ← read_db;
  match db_intents d !! id with
  | Some r => mret r
  | None => raise (ValueError ("payment intent " +:+ str_uuid id +:+ " does not exist"))
  end.
(** [intent.attribute = ...; await session.flush()]. *)
Definition update_intent (id : uuid) (set : PaymentIntentRow → PaymentIntentRow) : P unit :=
  r ← get_intent id;
  write_intent id (set r).

(** outbox_events *)
Definition find_outbox (id : uuid) (d : DB) : option OutboxEventRow :=
  List.find (λ r, bool_decide (ob_id r = id)) (db_outbox d).
Definition outbox_checks (r : OutboxEventRow) : list (bool * string) :=
  [(0 <=? ob_attempts r, "ck_outbox_attempts_non_negative");
   (1 <=? ob_max_attempts r, "ck_outbox_max_attempts_positive")].
Definition insert_outbox (r : OutboxEventRow) : P unit :=
  d ← read_db;
  flush_checked ((is_none (find_outbox (ob_id r) d), "outbox_events_pkey") :: outbox_checks r);;
  writes (λ d, set_db_outbox (db_outbox d ++ [r]) d).
(** [event.attribute = ...; await session.flush()]: the rows with this id. *)
Definition update_outbox (id : uuid) (set : OutboxEventRow → OutboxEventRow) : P unit :=
  d ← read_db;
  flush_checked (concat (map (λ r, if bool_decide (ob_id r = id) then outbox_checks (set r) else [])
                           (db_outbox d)));;
  writes (λ d, set_db_outbox
    (map (λ r, if bool_decide (ob_id r = id) then set r else r) (db_outbox d)) d).
Definition get_outbox (id : uuid) : P OutboxEventRow :=
  d ← read_db;
  match find_outbox id d with
  | Some r => mret r
  | None => raise (ValueError ("outbox event " +:+ str_uuid id +:+ " does not exist"))
  end.

(** missions *)
Definition get_mission (id : uuid) : P (option MissionRow) := reads (λ d, db_missions d !! id).
Definition insert_mission (r : MissionRow) : P unit :=
  d ← read_db;
  flush_checked [(is_none (db_missions d !! ms_id r), "missions_pkey")];;
  writes (λ d, set_db_missions (<[ms_id r := r]> (db_missions d)) d).
Definition set_mission_state (id : uuid) (state : MissionState) : P unit :=
  writes (λ d, set_db_missions (alter (set_ms_state state) id (db_missions d)) d).
(** mission_constraints: a mission has one row, [UNIQUE (mission_id)]. *)
Definition insert_constraints (id : uuid) (c : MissionConstraints) : P unit :=
  d ← read_db;
  flush_checked [(is_none (db_missions d !! id ≫= ms_constraints), "mission_constraints_mission_id_key")];;
  writes (λ d, set_db_missions (alter (set_ms_constraints (Some c)) id (db_missions d)) d).

(** webhook_events *)
Definition insert_webhook (r : WebhookEventRow) : P unit :=
  d ← read_db;
  flush_checked
    [(forallb (λ r', negb (String.eqb (wh_provider r') (wh_provider r)
                           && String.eqb (wh_provider_event_id r') (wh_provider_event_id r)))
        (db_webhooks d), "uq_webhook_events_provider_event")];;
  writes (λ d, set_db_webhooks (db_webhooks d ++ [r]) d).
Definition update_webhook (id : uuid) (set : WebhookEventRow → WebhookEventRow) : P unit :=
  writes (λ d, set_db_webhooks
    (map (λ r, if bool_decide (wh_id r = id) then set r else r) (db_webhooks d)) d).

(** ** A concrete process, for the examples *)
Definition demo_env : Env := {|
  env_signing_key_id := "demo-approver-1";
  env_public_key_hex := Some "d75a980182b10ab7d54bfed3c964073a0ee172f3daa62325af021a68f707511a";
  env_utcnow := λ n, utc (1767268800000000 + Z.of_nat n * 1000000);
  env_utcnow_utc := λ n, eq_refl;
  env_token_hex := λ n, hex_fixed 64 (N.of_nat n);
  env_authorization_ttl_seconds := 900;
  env_app_env := "development";
  env_ed25519_key_ok := λ k, (length k =? 32)%nat;
  env_ed25519_verify := λ k s m, (length s =? 64)%nat
|}.
Definition demo_world (d : DB) : World := mkWorld d d 0%N 0 0 [].
