(* ===== verification/Hashing.v ===== *)
(** * Event hashes and the chain they form

    services/audit_ledger/hashing.py, and what it means for a mission's events to
    be an intact chain: the property the ledger keeps and the verifier decides. *)
From S2P Require Import Prelude Python PyFloat Json Text Enums Errors Database.

(** ** services/audit_ledger/hashing.py *)
Definition GENESIS_HASH : string := "0000000000000000000000000000000000000000000000000000000000000000".
Definition HASH_HEX_LENGTH : nat := 64.

Definition canonical_json (payload : json) : ustr := json_dumps false payload.

Definition canonical_event_body (mission_id : string) (sequence : Z) (event_type actor : string)
    (payload : json) (previous_hash : string) (created_at : datetime) : ustr :=
  canonical_json (JObj
    [("mission_id", JStr mission_id);
     ("sequence", JInt sequence);
     ("event_type", JStr event_type);
     ("actor", JStr actor);
     ("payload", payload);
     ("previous_hash", JStr previous_hash);
     ("created_at", JStr (isoformat (as_utc created_at)))]).

Definition compute_event_hash (mission_id : string) (sequence : Z) (event_type actor : string)
    (payload : json) (previous_hash : string) (created_at : datetime) : outcome exn string :=
  match utf8_encode (canonical_event_body mission_id sequence event_type actor payload
                       previous_hash created_at) with
  | Some b => Ok (sha256_hexdigest b)
  | None => Raise (ValueError "UnicodeEncodeError")
  end.

(** ** A mission's events *)
Definition mission_events (mission_id : uuid) (d : DB) : list AuditEventRow :=
  List.filter (λ e, bool_decide (ev_mission_id e = mission_id)) (db_audit d).

Definition is_hash_shaped (value : string) : bool :=
  (String.length value =? HASH_HEX_LENGTH)%nat && str_forallb is_lower_hex value.

Definition is_json_object (j : json) : bool := match j with JObj _ => true | _ => false end.

Definition recompute (event : AuditEventRow) : outcome exn string :=
  compute_event_hash (str_uuid (ev_mission_id event)) (ev_sequence event) (ev_event_type event)
    (ev_actor event) (ev_payload event) (ev_previous_hash event)
    (default (utc 0) (ev_created_at event)).

(** ** What a verified chain is *)

(** The text an event's hash is computed over. *)
Definition event_body (e : AuditEventRow) : ustr :=
  canonical_event_body (str_uuid (ev_mission_id e)) (ev_sequence e) (ev_event_type e) (ev_actor e)
    (ev_payload e) (ev_previous_hash e) (default (utc 0) (ev_created_at e)).

Record well_shaped (e : AuditEventRow) : Prop := {
  ws_previous : is_hash_shaped (ev_previous_hash e) = true;
  ws_hash : is_hash_shaped (ev_event_hash e) = true;
  ws_payload : is_json_object (ev_payload e) = true;
  ws_type : ev_event_type e ≠ "";
  ws_actor : ev_actor e ≠ "";
  ws_created : is_some (ev_created_at e) = true
}.

(** The chain from a position and a previous hash on: contiguous, linked, hashed. *)
Inductive chain : Z → string → list AuditEventRow → Prop :=
  | chain_nil i h : chain i h []
  | chain_cons i h e l :
      well_shaped e → 0 <= i → ev_sequence e = i → ev_previous_hash e = h →
      recompute e = Ok (ev_event_hash e) → chain (i + 1) (ev_event_hash e) l →
      chain i h (e :: l).


(** Every mission's events are a chain from the genesis hash. *)
Definition ledger_ok (d : DB) : Prop := ∀ m, chain 0 GENESIS_HASH (mission_events m d).

(** ** Building and taking apart a chain *)
Definition end_hash (h : string) (l : list AuditEventRow) : string :=
  match last l with None => h | Some e => ev_event_hash e end.

Lemma end_hash_cons h e l : end_hash h (e :: l) = end_hash (ev_event_hash e) l.
Proof. unfold end_hash. rewrite last_cons. by destruct (last l). Qed.

Lemma chain_app i h l l' :
  chain i h (l ++ l') ↔ chain i h l ∧ chain (i + Z.of_nat (length l)) (end_hash h l) l'.
Proof.
  revert i h. induction l as [|e l IH]; intros i h; cbn [app length].
  - rewrite Z.add_0_r. split; [intros H; split; [constructor|done]|tauto].
  - rewrite end_hash_cons. split.
    + intros H. inversion H as [|? ? ? ? Hw Hi Hs Hp Hr Hl]; subst. apply IH in Hl as [H1 H2].
      split; [by constructor|].
      by replace (ev_sequence e + Z.of_nat (S (length l)))
        with (ev_sequence e + 1 + Z.of_nat (length l)) by lia.
    + intros [H H']. inversion H as [|? ? ? ? Hw Hi Hs Hp Hr Hl]; subst. constructor; try done.
      apply IH. split; [done|].
      by replace (ev_sequence e + Z.of_nat (S (length l)))
        with (ev_sequence e + 1 + Z.of_nat (length l)) in H' by lia.
Qed.

Lemma chain_bounds i h l e : chain i h l → e ∈ l → i <= ev_sequence e < i + Z.of_nat (length l).
Proof.
  induction 1 as [|i h x l Hw Hi Hs Hp Hr Hl IH]; intros He; [set_solver|].
  cbn [length]. apply elem_of_cons in He as [->|He]; [lia|]. specialize (IH He). lia.
Qed.

Lemma mission_events_app m l l' :
  List.filter (λ e, bool_decide (ev_mission_id e = m)) (l ++ l') =
  List.filter (λ e, bool_decide (ev_mission_id e = m)) l
  ++ List.filter (λ e, bool_decide (ev_mission_id e = m)) l'.
Proof. apply List.filter_app. Qed.

Lemma elem_of_mission_events m d e : e ∈ mission_events m d ↔ e ∈ db_audit d ∧ ev_mission_id e = m.
Proof.
  unfold mission_events. rewrite !list_elem_of_In, filter_In. by rewrite bool_decide_eq_true.
Qed.

(** Same audit table, same chains. *)
Lemma ledger_ok_same d d' : db_audit d' = db_audit d → ledger_ok d → ledger_ok d'.
Proof. intros E H m. unfold mission_events. rewrite E. apply H. Qed.

(** A row appended for one mission. *)
Lemma ledger_ok_snoc d e :
  ledger_ok d →
  chain (Z.of_nat (length (mission_events (ev_mission_id e) d)))
    (end_hash GENESIS_HASH (mission_events (ev_mission_id e) d)) [e] →
  ledger_ok (set_db_audit (db_audit d ++ [e]) d).
Proof.
  intros H He m. unfold mission_events in *. cbn [db_audit set_db_audit]. rewrite mission_events_app.
  cbn [List.filter]. case_bool_decide as Hm; [subst|rewrite app_nil_r; apply H].
  apply chain_app. split; [apply H|done].
Qed.

(** ** What a common head hash says of two chains *)
Lemma recompute_Ok e h :
  recompute e = Ok h → ∃ b, utf8_encode (event_body e) = Some b ∧ sha256_hexdigest b = h.
Proof.
  unfold recompute, compute_event_hash. fold (event_body e).
  destruct (utf8_encode (event_body e)) as [b|]; [|done]. intros H. apply Ok_inj in H. eauto.
Qed.

(** The preimages of two events' hashes are a collision of SHA-256. *)
Definition events_collide (e e' : AuditEventRow) : Prop :=
  ∃ b b', utf8_encode (event_body e) = Some b ∧ utf8_encode (event_body e') = Some b' ∧
          sha256_collides b b'.

Lemma same_hash_same_body e e' h :
  recompute e = Ok h → recompute e' = Ok h → event_body e = event_body e' ∨ events_collide e e'.
Proof.
  intros (b & Hb & Eb)%recompute_Ok (b' & Hb' & Eb')%recompute_Ok.
  destruct (sha256_eq_cases b b') as [->|Hc]; [congruence|left; by eapply utf8_encode_inj|].
  right. by exists b, b'.
Qed.

(** An event always has a hash. *)
Lemma compute_event_hash_total m s t a p h d : ∃ x, compute_event_hash m s t a p h d = Ok x.
Proof.
  unfold compute_event_hash, canonical_event_body, canonical_json.
  destruct (utf8_encode_bytes _ (byte_text_dumps (JObj
    [("mission_id", JStr m); ("sequence", JInt s); ("event_type", JStr t); ("actor", JStr a);
     ("payload", p); ("previous_hash", JStr h); ("created_at", JStr (isoformat (as_utc d)))]))) as [b ->].
  eauto.
Qed.

(** ** The body determines what the event says *)

(** Two events with the same content: the payloads are the same JSON text. *)
Record same_content (e e' : AuditEventRow) : Prop := {
  sc_mission : str_uuid (ev_mission_id e) = str_uuid (ev_mission_id e');
  sc_sequence : ev_sequence e = ev_sequence e';
  sc_type : ev_event_type e = ev_event_type e';
  sc_actor : ev_actor e = ev_actor e';
  sc_payload : canonical_json (ev_payload e) = canonical_json (ev_payload e');
  sc_previous : ev_previous_hash e = ev_previous_hash e';
  sc_created : isoformat (as_utc (default (utc 0) (ev_created_at e))) =
               isoformat (as_utc (default (utc 0) (ev_created_at e')))
}.

Definition key_text (k : string) : ustr := json_string false (u k) ++ [58%N].
(** What follows the payload. *)
Definition body_tail (e : AuditEventRow) : ustr :=
  [44%N] ++ key_text "previous_hash" ++ json_string false (u (ev_previous_hash e))
  ++ [44%N] ++ key_text "sequence" ++ u (str_int (ev_sequence e)) ++ [125%N].

Lemma body_fields_sorted (m s t a p h c : ustr) :
  py_sorted key_leb
    [("mission_id", m); ("sequence", s); ("event_type", t); ("actor", a); ("payload", p);
     ("previous_hash", h); ("created_at", c)] =
  [("actor", a); ("created_at", c); ("event_type", t); ("mission_id", m); ("payload", p);
   ("previous_hash", h); ("sequence", s)].
Proof. reflexivity. Qed.

Lemma event_body_eq e :
  event_body e =
  [123%N] ++ key_text "actor" ++ json_string false (u (ev_actor e))
  ++ [44%N] ++ key_text "created_at"
  ++ json_string false (u (isoformat (as_utc (default (utc 0) (ev_created_at e)))))
  ++ [44%N] ++ key_text "event_type" ++ json_string false (u (ev_event_type e))
  ++ [44%N] ++ key_text "mission_id" ++ json_string false (u (str_uuid (ev_mission_id e)))
  ++ [44%N] ++ key_text "payload" ++ canonical_json (ev_payload e) ++ body_tail e.
Proof.
  unfold event_body, canonical_event_body, canonical_json, body_tail, key_text.
  cbn [json_dumps map]. rewrite body_fields_sorted. cbn [map join].
  rewrite <-!app_assoc. reflexivity.
Qed.

Lemma hex_no_escape a : is_lower_hex a = true →
  json_escape_char false (Ascii.N_of_ascii a) = [Ascii.N_of_ascii a].
Proof. destruct a as [[] [] [] [] [] [] [] []]; vm_compute; first [reflexivity | discriminate]. Qed.

Lemma length_hash_string h : is_hash_shaped h = true → length (json_string false (u h)) = 66%nat.
Proof.
  unfold is_hash_shaped. intros [Hl Hh]%andb_true_iff. apply Nat.eqb_eq in Hl.
  assert (Hf : flat_map (json_escape_char false) (u h) = u h).
  { clear Hl. induction h as [|a h IH]; [done|]. cbn [str_forallb] in Hh.
    apply andb_true_iff in Hh as [Ha Hh].
    change (flat_map (json_escape_char false) (u (String a h)))
      with (json_escape_char false (Ascii.N_of_ascii a) ++ flat_map (json_escape_char false) (u h)).
    by rewrite (hex_no_escape _ Ha), (IH Hh). }
  assert (Hu : length (u h) = String.length h).
  { clear. induction h as [|a h IH]; [done|]. exact (f_equal S IH). }
  unfold json_string. rewrite Hf, !length_app, Hu, Hl. done.
Qed.

Lemma body_inj e e' :
  is_hash_shaped (ev_previous_hash e) = true → is_hash_shaped (ev_previous_hash e') = true →
  ev_sequence e = ev_sequence e' → event_body e = event_body e' → same_content e e'.
Proof.
  intros Hp Hp' Hs H. rewrite !event_body_eq in H.
  assert (Hstep : ∀ x s s' r r', x ++ json_string false (u s) ++ r = x ++ json_string false (u s') ++ r' →
                  s = s' ∧ r = r').
  { intros x s s' r r' E%app_inv_head. apply json_string_inj in E as [E ->]; [|apply scalar_u..].
    split; [by apply u_inj|done]. }
  apply app_inv_head in H. apply Hstep in H as [Ha H].
  apply app_inv_head, Hstep in H as [Hc H]. apply app_inv_head, Hstep in H as [Ht H].
  apply app_inv_head, Hstep in H as [Hm H]. do 2 apply app_inv_head in H.
  assert (Ht' : body_tail e = body_tail e' ∧ canonical_json (ev_payload e) = canonical_json (ev_payload e')).
  { apply app_inj_2 in H; [tauto|]. unfold body_tail. rewrite !length_app, !length_hash_string, Hs by done. done. }
  destruct Ht' as [Htl Hpay]. unfold body_tail in Htl. apply app_inv_head, Hstep in Htl as [Hprev _].
  by constructor.
Qed.

(** Two verified chains of one length and one head hash say the same, event by
    event, unless two of their events are a collision of SHA-256. *)
Lemma chain_snoc_inv i h l e : chain i h (l ++ [e]) →
  chain i h l ∧ well_shaped e ∧ ev_sequence e = i + Z.of_nat (length l) ∧
  ev_previous_hash e = end_hash h l ∧ recompute e = Ok (ev_event_hash e).
Proof.
  intros [Hl He]%chain_app. inversion He; subst. done.
Qed.

Lemma end_hash_snoc h l e : end_hash h (l ++ [e]) = ev_event_hash e.
Proof. unfold end_hash. by rewrite last_snoc. Qed.

Lemma chains_agree i h l l' :
  chain i h l → chain i h l' → length l = length l' → end_hash h l = end_hash h l' →
  Forall2 same_content l l' ∨ ∃ e e', e ∈ l ∧ e' ∈ l' ∧ events_collide e e'.
Proof.
  revert l'. induction l as [|e l IH] using rev_ind; intros l' Hc Hc' Hlen Hend.
  { left. destruct l'; [constructor|done]. }
  destruct l' as [|e' l' _] using rev_ind; [rewrite length_app in Hlen; cbn in Hlen; lia|].
  rewrite !length_app in Hlen. cbn in Hlen. rewrite !end_hash_snoc in Hend.
  apply chain_snoc_inv in Hc as (Hl & Hw & Hs & Hp & Hr).
  apply chain_snoc_inv in Hc' as (Hl' & Hw' & Hs' & Hp' & Hr').
  rewrite Hend in Hr. destruct (same_hash_same_body e e' _ Hr Hr') as [Hb|Hcol].
  2:{ right. exists e, e'. rewrite !elem_of_app, !list_elem_of_singleton. tauto. }
  assert (Hsame : same_content e e').
  { apply body_inj; [apply Hw|apply Hw'|rewrite Hs, Hs'; lia|done]. }
  destruct (IH l') as [Hall|(x & x' & Hx & Hx' & Hcol)]; [done|done|lia| | |].
  - rewrite <-Hp, <-Hp'. apply Hsame.
  - left. apply Forall2_app; [done|]. constructor; [exact Hsame|constructor].
  - right. exists x, x'. rewrite !elem_of_app. tauto.
Qed.
