(* ===== verification/Evolution.v ===== *)
(** * What no operation may undo

    The order in which the database grows: which columns never change, which
    only ever move forward, and that the audit ledger is append-only.  [sess_le]
    is the guarantee of an operation that runs inside a transaction, [durable_le]
    that of one that commits, rolls back or calls a provider. *)
From S2P Require Import Prelude Python PyFloat Json Enums Errors StateMachines Merchant Payment Database.
From S2P Require Import Hashing.

(** ** Growing maps and lists *)
Section Grows.
Context {A : Type} (R : A → A → Prop) `{!PreOrder R}.

Definition map_grows `{Countable K} (m m' : gmap K A) : Prop :=
  ∀ k a, m !! k = Some a → ∃ a', m' !! k = Some a' ∧ R a a'.
Definition list_grows (l l' : list A) : Prop :=
  ∃ l1 l2, l' = l1 ++ l2 ∧ Forall2 R l l1.

#[global] Instance map_grows_preorder `{Countable K} : PreOrder (map_grows (K:=K)).
Proof.
  split.
  - intros m k a Ha. exists a. by split.
  - intros m1 m2 m3 H12 H23 k a Ha. destruct (H12 _ _ Ha) as (b & Hb & Rab).
    destruct (H23 _ _ Hb) as (c & Hc & Rbc). exists c. split; [done|by etrans].
Qed.

Lemma Forall2_reflexive l : Forall2 R l l.
Proof. induction l as [|a l IH]; constructor; [reflexivity|exact IH]. Qed.

#[global] Instance list_grows_preorder : PreOrder list_grows.
Proof.
  split.
  - intros l. exists l, []. rewrite app_nil_r. split; [done|apply Forall2_reflexive].
  - intros l l' l'' (a & b & -> & Hab) (c & e & -> & Hce).
    apply Forall2_app_inv_l in Hce as (c1 & c2 & Hc1 & Hc2 & ->).
    exists c1, (c2 ++ e). rewrite app_assoc. split; [done|].
    clear -Hab Hc1 PreOrder0. revert c1 Hc1.
    induction Hab as [|x y l a Hxy Hab IH]; intros c1 Hc1; inversion Hc1; subst; constructor; eauto.
    by etrans.
Qed.

Lemma map_grows_insert `{Countable K} (m : gmap K A) k a :
  (∀ b, m !! k = Some b → R b a) → map_grows m (<[k := a]> m).
Proof.
  intros H0 k' b Hb. destruct (decide (k = k')) as [<-|Hne].
  - exists a. rewrite lookup_insert_eq. auto.
  - exists b. by rewrite lookup_insert_ne.
Qed.

Lemma map_grows_alter `{Countable K} (m : gmap K A) k f :
  (∀ b, m !! k = Some b → R b (f b)) → map_grows m (alter f k m).
Proof.
  intros H0 k' b Hb. destruct (decide (k = k')) as [<-|Hne].
  - exists (f b). rewrite lookup_alter_eq, Hb. auto.
  - exists b. by rewrite lookup_alter_ne.
Qed.

Lemma list_grows_app l x : list_grows l (l ++ x).
Proof. exists l, x. split; [done|apply Forall2_reflexive]. Qed.

Lemma list_grows_map (f : A → A) l : (∀ a, a ∈ l → R a (f a)) → list_grows l (map f l).
Proof.
  intros Hf. exists (map f l), []. rewrite app_nil_r. split; [done|].
  induction l as [|a l IH]; constructor; [apply Hf; by left|]. apply IH. intros b Hb. apply Hf. by right.
Qed.
End Grows.

(** Assigned at most once. *)
Definition once {A} (o o' : option A) : Prop := o = None ∨ o' = o.
#[global] Instance once_preorder {A} : PreOrder (@once A).
Proof.
  split; [by right|]. intros a b c [->| ->] [H| ->]; unfold once; auto.
Qed.

(** ** Rows *)
Definition auth_immutable (r : AuthorizationRow) :=
  (au_authorization_id r, au_mission_id r, au_transaction_digest r, au_nonce r, au_binding_version r,
   au_policy_version r, au_offer_version r, au_approval_scheme r, au_issued_at r, au_expires_at r,
   (au_bound_merchant_id r, au_bound_product_id r, au_bound_quantity r, au_bound_amount_inr r,
    au_bound_currency r)).

Record auth_le (r r' : AuthorizationRow) : Prop := {
  al_immutable : auth_immutable r' = auth_immutable r;
  al_status : AuthorizationFSM.run (au_status r) (au_status r');
  al_key : once (au_signing_key_id r) (au_signing_key_id r');
  al_signature : once (au_approval_signature r) (au_approval_signature r');
  al_consumed : au_status r = AuthorizationStatus.CONSUMED → au_consumed_at r' = au_consumed_at r
}.
#[global] Instance auth_le_preorder : PreOrder auth_le.
Proof.
  split.
  - intros r. by constructor.
  - intros a b c [I S K G C] [I' S' K' G' C']. constructor; [congruence|by etrans..|].
    intros Ha. rewrite <-(C Ha). apply C'. rewrite Ha in S. by apply AuthorizationFSM.final_run in S.
Qed.

Definition intent_immutable (r : PaymentIntentRow) :=
  (pi_id r, pi_mission_id r, pi_authorization_id r, pi_transaction_digest r, pi_idempotency_key r,
   pi_request_fingerprint r, pi_amount_inr r, pi_currency r, pi_merchant_id r, pi_provider r).

Record intent_le (r r' : PaymentIntentRow) : Prop := {
  il_immutable : intent_immutable r' = intent_immutable r;
  il_state : PaymentFSM.run (pi_state r) (pi_state r');
  il_payment_id : once (pi_provider_payment_id r) (pi_provider_payment_id r');
  il_order_id : once (pi_provider_order_id r) (pi_provider_order_id r');
  il_receipt : once (pi_provider_receipt r) (pi_provider_receipt r');
  il_transaction_id : once (pi_provider_transaction_id r) (pi_provider_transaction_id r');
  il_fence : once (pi_provider_create_fenced_at r) (pi_provider_create_fenced_at r');
  il_ambiguity : once (pi_provider_ambiguity_observed_at r) (pi_provider_ambiguity_observed_at r');
  il_attempts : pi_attempts r <= pi_attempts r'
}.
#[global] Instance intent_le_preorder : PreOrder intent_le.
Proof.
  split.
  - intros r. by constructor.
  - intros a b c [] []. constructor; [congruence|by etrans..].
Qed.

Record mission_le (r r' : MissionRow) : Prop := {
  ml_immutable : (ms_id r', ms_raw_query r', ms_quantity r') = (ms_id r, ms_raw_query r, ms_quantity r);
  ml_constraints : once (ms_constraints r) (ms_constraints r');
  ml_state : MissionFSM.run (ms_state r) (ms_state r')
}.
#[global] Instance mission_run_preorder : PreOrder MissionFSM.run.
Proof. unfold MissionFSM.run. apply _. Qed.
#[global] Instance mission_le_preorder : PreOrder mission_le.
Proof.
  split.
  - intros r. by constructor.
  - intros a b c [] []. constructor; [congruence|by etrans..].
Qed.

Record outbox_le (r r' : OutboxEventRow) : Prop := {
  ol_immutable : (ob_id r', ob_payment_intent_id r', ob_event_type r', ob_payload r', ob_max_attempts r')
                 = (ob_id r, ob_payment_intent_id r, ob_event_type r, ob_payload r, ob_max_attempts r);
  ol_attempts : ob_attempts r <= ob_attempts r'
}.
#[global] Instance outbox_le_preorder : PreOrder outbox_le.
Proof.
  split.
  - intros r. by constructor.
  - intros a b c [] []. constructor; [congruence|by etrans].
Qed.

Definition webhook_le (r r' : WebhookEventRow) : Prop :=
  (wh_id r', wh_provider r', wh_provider_event_id r', wh_event_type r', wh_provider_payment_id r')
  = (wh_id r, wh_provider r, wh_provider_event_id r, wh_event_type r, wh_provider_payment_id r).
#[global] Instance webhook_le_preorder : PreOrder webhook_le.
Proof. split; unfold webhook_le; [done|]. intros a b c. congruence. Qed.

(** ** The database *)

(** What the unique constraints keep of the intents: a row is stored under its own
    identifier, and no two rows share an idempotency key or an authorization. *)
Record intents_ok (d : DB) : Prop := {
  io_id : ∀ i r, db_intents d !! i = Some r → pi_id r = i;
  io_key : ∀ i j r r', db_intents d !! i = Some r → db_intents d !! j = Some r' →
           pi_idempotency_key r = pi_idempotency_key r' → i = j;
  io_auth : ∀ i j r r', db_intents d !! i = Some r → db_intents d !! j = Some r' →
            pi_authorization_id r = pi_authorization_id r' → i = j
}.
Lemma intents_ok_same d d' : db_intents d' = db_intents d → intents_ok d → intents_ok d'.
Proof. intros E [A B C]. constructor; rewrite E; auto. Qed.

(** What its constraints keep of the outbox: distinct identifiers, and counters in
    range. *)
Definition outbox_table_ok (d : DB) : Prop :=
  NoDup (map ob_id (db_outbox d)) ∧ Forall (λ r, violates (outbox_checks r) = None) (db_outbox d).

Lemma outbox_checks_ok r : violates (outbox_checks r) = None ↔ 0 <= ob_attempts r ∧ 1 <= ob_max_attempts r.
Proof.
  unfold violates, outbox_checks. cbn [List.find fst snd].
  destruct (Z.leb_spec 0 (ob_attempts r)), (Z.leb_spec 1 (ob_max_attempts r)); cbn; split; try done; lia.
Qed.

Lemma violates_app a b : violates (a ++ b) = None ↔ violates a = None ∧ violates b = None.
Proof.
  unfold violates. induction a as [|[[] n] a IH]; cbn; [tauto|exact IH|]. split; [done|by intros [? _]].
Qed.
Lemma violates_concat {A} (f : A → list (bool * string)) l :
  violates (concat (map f l)) = None ↔ ∀ x, x ∈ l → violates (f x) = None.
Proof.
  induction l as [|x l IH]; cbn [map concat].
  - split; [intros _ x Hx; by apply not_elem_of_nil in Hx|done].
  - rewrite violates_app, IH. split.
    + intros [Hx Hl] y [->|Hy]%elem_of_cons; [done|by apply Hl].
    + intros Hall. split; [apply Hall; by left|]. intros y Hy. apply Hall. by right.
Qed.

Lemma find_outbox_elem id d r : NoDup (map ob_id (db_outbox d)) → r ∈ db_outbox d → ob_id r = id →
  find_outbox id d = Some r.
Proof.
  unfold find_outbox. induction (db_outbox d) as [|x l IH]; intros Hnd Hin Hid; [by apply not_elem_of_nil in Hin|].
  cbn [List.find]. cbn [map] in Hnd. apply NoDup_cons in Hnd as [Hx Hnd].
  apply elem_of_cons in Hin as [<-|Hin]; [by rewrite bool_decide_eq_true_2|].
  rewrite bool_decide_eq_false_2; [by apply IH|]. intros Hxi. apply Hx. rewrite Hxi, <-Hid.
  by apply list_elem_of_fmap_2.
Qed.

Lemma find_outbox_Some id d r : find_outbox id d = Some r → r ∈ db_outbox d ∧ ob_id r = id.
Proof.
  unfold find_outbox. intros [Hin Hid]%find_some. apply bool_decide_eq_true in Hid.
  split; [by apply list_elem_of_In|done].
Qed.

Lemma outbox_table_ok_same d d' : db_outbox d' = db_outbox d → outbox_table_ok d → outbox_table_ok d'.
Proof. intros E. unfold outbox_table_ok. by rewrite E. Qed.

Lemma outbox_table_ok_snoc r d : find_outbox (ob_id r) d = None → violates (outbox_checks r) = None →
  outbox_table_ok d → outbox_table_ok (set_db_outbox (db_outbox d ++ [r]) d).
Proof.
  intros Hf Hc [Hnd Hall]. split; cbn [db_outbox set_db_outbox].
  - rewrite map_app. apply NoDup_app. split_and!; [done| |by apply NoDup_singleton].
    intros i (x & -> & Hx)%list_elem_of_fmap_1 Hi%list_elem_of_singleton.
    unfold find_outbox in Hf. apply list_elem_of_In in Hx.
    apply (List.find_none _ _ Hf) in Hx. by rewrite bool_decide_eq_true_2 in Hx.
  - apply Forall_app. split; [done|]. by apply Forall_singleton.
Qed.
Lemma outbox_table_ok_map (p : OutboxEventRow → bool) f d :
  (∀ r, ob_id (f r) = ob_id r) →
  violates (concat (map (λ r, if p r then outbox_checks (f r) else []) (db_outbox d))) = None →
  outbox_table_ok d → outbox_table_ok (set_db_outbox (map (λ r, if p r then f r else r) (db_outbox d)) d).
Proof.
  intros Hid Hc [Hnd Hall]. split; cbn [db_outbox set_db_outbox].
  - rewrite map_map. erewrite map_ext; [exact Hnd|]. intros r. cbn. destruct (p r); [apply Hid|done].
  - rewrite violates_concat in Hc. rewrite Forall_forall in Hall |- *.
    intros x (r & -> & Hr)%list_elem_of_fmap_1. specialize (Hc r Hr). specialize (Hall r Hr).
    by destruct (p r).
Qed.

Record db_le (d d' : DB) : Prop := {
  dl_missions : map_grows mission_le (db_missions d) (db_missions d');
  dl_decisions : list_grows eq (db_decisions d) (db_decisions d');
  dl_audit : list_grows eq (db_audit d) (db_audit d');
  dl_auths : map_grows auth_le (db_auths d) (db_auths d');
  dl_intents : map_grows intent_le (db_intents d) (db_intents d');
  dl_outbox : list_grows outbox_le (db_outbox d) (db_outbox d');
  dl_webhooks : list_grows webhook_le (db_webhooks d) (db_webhooks d');
  dl_ledger : ledger_ok d → ledger_ok d';
  dl_intents_ok : intents_ok d → intents_ok d';
  dl_outbox_ok : outbox_table_ok d → outbox_table_ok d'
}.
#[global] Instance db_le_preorder : PreOrder db_le.
Proof.
  split.
  - intros d. by constructor.
  - intros a b c [] []. constructor; [by etrans..|tauto|tauto|tauto].
Qed.

Record sess_le (w w' : World) : Prop := {
  sl_db : db_le (w_db w) (w_db w');
  sl_committed : w_committed w' = w_committed w;
  sl_calls : w_calls w' = w_calls w;
  sl_fresh : (w_fresh w <= w_fresh w')%N
}.
#[global] Instance sess_le_preorder : PreOrder sess_le.
Proof.
  split.
  - intros w. by constructor.
  - intros a b c [] []. constructor; [by etrans|congruence|congruence|lia].
Qed.

(** The session extends what is durable, and neither the durable state nor the
    provider's call log loses anything. *)
Definition durable_le (w w' : World) : Prop :=
  db_le (w_committed w) (w_db w) →
  db_le (w_committed w') (w_db w') ∧ db_le (w_committed w) (w_committed w') ∧
  ∃ l, w_calls w' = w_calls w ++ l.
#[global] Instance durable_le_preorder : PreOrder durable_le.
Proof.
  split.
  - intros w H. split; [done|]. split; [done|]. exists []. by rewrite app_nil_r.
  - intros a b c Hab Hbc H. destruct (Hab H) as (Hb & Hab' & l & El).
    destruct (Hbc Hb) as (Hc & Hbc' & l' & El'). split; [done|]. split; [by etrans|].
    exists (l ++ l'). by rewrite El', El, app_assoc.
Qed.

Lemma sess_durable w w' : sess_le w w' → durable_le w w'.
Proof.
  intros [Hdb Hc Hl _] H. rewrite Hc, Hl. split; [by etrans|]. split; [done|].
  exists []. by rewrite app_nil_r.
Qed.
Lemma evolves_sess_durable {A} (m : P A) : evolves sess_le m → evolves durable_le m.
Proof. apply evolves_weaken, sess_durable. Qed.

(** ** The primitives *)
Lemma evolves_reads {A} R `{!PreOrder R} (f : DB → A) : evolves R (reads f).
Proof. apply evolves_gets; apply _. Qed.
Lemma evolves_read_db R `{!PreOrder R} : evolves R read_db.
Proof. by apply evolves_reads. Qed.
Lemma evolves_get_mission R `{!PreOrder R} i : evolves R (get_mission i).
Proof. by apply evolves_reads. Qed.
Lemma evolves_get_intent R `{!PreOrder R} i : evolves R (get_intent i).
Proof. unfold get_intent. apply evolves_bind; [done|by apply evolves_read_db|]. intros d. evolve. Qed.
Lemma evolves_get_outbox R `{!PreOrder R} i : evolves R (get_outbox i).
Proof. unfold get_outbox. apply evolves_bind; [done|by apply evolves_read_db|]. intros d. evolve. Qed.
Lemma evolves_flush_checked R `{!PreOrder R} c : evolves R (flush_checked c).
Proof. unfold flush_checked. evolve. Qed.
Lemma evolves_uuid4 : evolves sess_le uuid4.
Proof. intros w. constructor; cbn; [done..|lia]. Qed.
Lemma evolves_utcnow `{Env} : evolves sess_le utcnow.
Proof. intros w. by constructor. Qed.
Lemma evolves_token_hex `{Env} : evolves sess_le token_hex.
Proof. intros w. by constructor. Qed.
#[export] Hint Resolve evolves_reads evolves_read_db evolves_get_mission evolves_get_intent
  evolves_get_outbox evolves_flush_checked evolves_uuid4 evolves_utcnow evolves_token_hex : evolves.

Lemma evolves_moment_of `{Env} now : evolves sess_le (moment_of now).
Proof. unfold moment_of. evolve. Qed.
#[export] Hint Resolve evolves_moment_of : evolves.

Lemma evolves_writes f : (∀ d, db_le d (f d)) → evolves sess_le (writes f).
Proof. intros Hf w. constructor; cbn; [apply Hf|done..]. Qed.

Lemma evolves_begin_nested {A} (m : P A) : evolves sess_le m → evolves sess_le (begin_nested m).
Proof.
  intros Hm w. unfold begin_nested. specialize (Hm w).
  destruct (m w) as [[a|e] w']; [done|]. destruct Hm. by constructor.
Qed.

Lemma durable_commit : evolves durable_le commit.
Proof.
  intros w H. cbn. split; [done|]. split; [done|]. exists []. by rewrite app_nil_r.
Qed.
Lemma durable_rollback : evolves durable_le rollback.
Proof.
  intros w H. cbn. split; [done|]. split; [done|]. exists []. by rewrite app_nil_r.
Qed.
#[export] Hint Resolve evolves_begin_nested durable_commit durable_rollback : evolves.
#[export] Hint Extern 5 (evolves durable_le _) => apply evolves_sess_durable : evolves.

(** Writes to one table leave the others as they are. *)
Ltac db_write := constructor; cbn; try reflexivity; try (by apply ledger_ok_same); try (by apply intents_ok_same);
  try (by apply outbox_table_ok_same).

Lemma db_le_missions d m : map_grows mission_le (db_missions d) m → db_le d (set_db_missions m d).
Proof. intros H. by db_write. Qed.
Lemma db_le_decisions d l : list_grows eq (db_decisions d) l → db_le d (set_db_decisions l d).
Proof. intros H. by db_write. Qed.
Lemma db_le_audit d l :
  list_grows eq (db_audit d) l → (ledger_ok d → ledger_ok (set_db_audit l d)) → db_le d (set_db_audit l d).
Proof. intros H H'. by db_write. Qed.
Lemma db_le_auths d m : map_grows auth_le (db_auths d) m → db_le d (set_db_auths m d).
Proof. intros H. by db_write. Qed.
Lemma db_le_intents d m : map_grows intent_le (db_intents d) m →
  (intents_ok d → intents_ok (set_db_intents m d)) → db_le d (set_db_intents m d).
Proof. intros H H'. by db_write. Qed.
Lemma db_le_outbox d l : list_grows outbox_le (db_outbox d) l →
  (outbox_table_ok d → outbox_table_ok (set_db_outbox l d)) → db_le d (set_db_outbox l d).
Proof. intros H H'. by db_write. Qed.
Lemma db_le_webhooks d l : list_grows webhook_le (db_webhooks d) l → db_le d (set_db_webhooks l d).
Proof. intros H. by db_write. Qed.
Lemma db_le_offers d l : db_le d (set_db_offers l d).
Proof. by db_write. Qed.

(** ** The row writers *)
Lemma flush_checked_cases checks w :
  flush_checked checks w =
    match violates checks with
    | Some name => (Raise (IntegrityError name), w)
    | None => (Ok tt, w)
    end.
Proof. unfold flush_checked. by destruct (violates checks). Qed.

Lemma elem_of_other_intents id d r : r ∈ other_intents id d ↔ ∃ j, j ≠ id ∧ db_intents d !! j = Some r.
Proof.
  unfold other_intents. split.
  - intros ([j r'] & -> & Hin)%list_elem_of_fmap_1. apply elem_of_map_to_list in Hin.
    apply lookup_delete_Some in Hin as [Hne Hin]. by exists j.
  - intros (j & Hne & Hj). apply (list_elem_of_fmap_2' _ _ (j, r)); [|done].
    apply elem_of_map_to_list, lookup_delete_Some. done.
Qed.

Lemma intent_checks_ok id r d : violates (intent_checks id r d) = None →
  (∀ r', r' ∈ other_intents id d → pi_idempotency_key r' ≠ pi_idempotency_key r) ∧
  (∀ r', r' ∈ other_intents id d → pi_authorization_id r' ≠ pi_authorization_id r).
Proof.
  unfold violates, intent_checks. cbn [List.find fst snd].
  destruct (forallb _ (other_intents id d)) eqn:E1 at 1; cbn [negb]; [|discriminate].
  destruct (forallb (λ r', negb (bool_decide _)) (other_intents id d)) eqn:E2 at 1; cbn [negb]; [|discriminate].
  rewrite forallb_forall in E1, E2. intros _. split; intros r' Hr' Heq; apply list_elem_of_In in Hr'.
  - specialize (E1 r' Hr'). rewrite Heq, String.eqb_refl in E1. discriminate.
  - specialize (E2 r' Hr'). rewrite Heq, bool_decide_eq_true_2 in E2 by done. discriminate.
Qed.

(** A row the constraints accept keeps the table as they want it. *)
Lemma intents_ok_insert id r d : violates (intent_checks id r d) = None → pi_id r = id →
  intents_ok d → intents_ok (set_db_intents (<[id := r]> (db_intents d)) d).
Proof.
  intros [Hk Ha]%intent_checks_ok Hid [Oi Ok Oa].
  assert (Hcase : ∀ j r', <[id:=r]> (db_intents d) !! j = Some r' →
    (j = id ∧ r' = r) ∨ (j ≠ id ∧ db_intents d !! j = Some r' ∧ r' ∈ other_intents id d)).
  { intros j r'. destruct (decide (j = id)) as [->|Hne].
    - rewrite lookup_insert_eq. intros [= ->]. by left.
    - rewrite lookup_insert_ne by done. intros Hj. right. split_and!; try done.
      apply elem_of_other_intents. by exists j. }
  constructor; cbn [db_intents set_db_intents].
  - intros j r' [[-> ->]|(_ & Hj & _)]%Hcase; [done|by apply Oi].
  - intros i j r1 r2 [[-> ->]|(Hi & Hi1 & Hi2)]%Hcase [[-> ->]|(Hj & Hj1 & Hj2)]%Hcase Heq; try done.
    + by destruct (Hk r2 Hj2).
    + by destruct (Hk r1 Hi2).
    + by apply (Ok i j r1 r2).
  - intros i j r1 r2 [[-> ->]|(Hi & Hi1 & Hi2)]%Hcase [[-> ->]|(Hj & Hj1 & Hj2)]%Hcase Heq; try done.
    + by destruct (Ha r2 Hj2).
    + by destruct (Ha r1 Hi2).
    + by apply (Oa i j r1 r2).
Qed.

(** A row keeps its identifier when what it replaces did. *)
Definition replaces (id : uuid) (r : PaymentIntentRow) (d : DB) : Prop :=
  match db_intents d !! id with Some b => intent_le b r | None => pi_id r = id end.

Lemma write_intent_le id r w :
  replaces id r (w_db w) → sess_le w (snd (write_intent id r w)).
Proof.
  intros H. unfold write_intent, read_db, reads, gets, mbind, M_bind. rewrite flush_checked_cases.
  destruct (violates _) eqn:Ev; cbn; [reflexivity|].
  unfold replaces in H. constructor; cbn; [|done..]. apply db_le_intents.
  - apply map_grows_insert; [apply _|]. intros b Hb. by rewrite Hb in H.
  - intros Hok. apply intents_ok_insert; [done| |done].
    destruct (db_intents (w_db w) !! id) as [b|] eqn:E; [|done].
    pose proof (il_immutable _ _ H) as Hi. unfold intent_immutable in Hi. injection Hi as Hi.
    rewrite Hi. by apply (io_id _ Hok).
Qed.

Lemma evolves_update_intent id f : (∀ r, intent_le r (f r)) → evolves sess_le (update_intent id f).
Proof.
  intros Hf w. unfold update_intent, get_intent, mbind, M_bind, read_db, reads, gets.
  destruct (db_intents (w_db w) !! id) as [r|] eqn:E; cbn; [|reflexivity].
  apply (write_intent_le id (f r) w). unfold replaces. rewrite E. apply Hf.
Qed.

(** A guarded change of state, whatever else is written with it. *)
Lemma evolves_intent_transition {A} id target (f : PaymentIntentRow → PaymentIntentRow)
    (k : PaymentIntentRow → P A) :
  (∀ r, intent_le (set_pi_state target r) (f (set_pi_state target r))) →
  (∀ r, evolves sess_le (k r)) →
  evolves sess_le (r ← get_intent id;
                   PaymentFSM.assert_payment_transition (pi_state r) target;;
                   write_intent id (f (set_pi_state target r));;
                   k r).
Proof.
  intros Hf Hk w. unfold get_intent, mbind at 1, M_bind at 1.
  unfold mbind at 1, M_bind at 1, read_db, reads, gets.
  destruct (db_intents (w_db w) !! id) as [r|] eqn:E; cbn -[write_intent]; [|reflexivity].
  unfold mbind, M_bind. rewrite assert_payment_transition_cases.
  destruct (PaymentFSM.can_transition (pi_state r) target) eqn:Ht; cbn -[write_intent]; [|reflexivity].
  assert (Hw : sess_le w (snd (write_intent id (f (set_pi_state target r)) w))).
  { apply write_intent_le. unfold replaces. rewrite E. etrans; [|apply Hf].
    constructor; cbn; try done. by apply PaymentFSM.step_run. }
  destruct (write_intent _ _ w) as [[[]|e] w']; cbn in *; [|done].
  etrans; [exact Hw|apply Hk].
Qed.

Lemma evolves_insert_intent r : evolves sess_le (insert_intent r).
Proof.
  intros w. unfold insert_intent, mbind at 1, M_bind at 1, read_db, reads, gets.
  unfold mbind, M_bind. rewrite flush_checked_cases. cbn -[write_intent].
  destruct (db_intents (w_db w) !! pi_id r) eqn:E; cbn -[write_intent]; [reflexivity|].
  apply write_intent_le. unfold replaces. by rewrite E.
Qed.

Lemma evolves_insert_authorization r : evolves sess_le (insert_authorization r).
Proof.
  intros w. unfold insert_authorization, read_db, reads, gets, mbind, M_bind.
  rewrite flush_checked_cases. destruct (violates _) eqn:E; cbn; [reflexivity|].
  constructor; cbn; [|done..]. apply db_le_auths, map_grows_insert; [apply _|].
  intros b Hb. unfold violates in E. cbn in E. by rewrite Hb in E.
Qed.

Lemma update_authorization_cases id pred f w :
  update_authorization id pred f w =
    match db_auths (w_db w) !! id with
    | Some r =>
        if pred r then
          match violates (authorization_checks (f r)) with
          | Some name => (Raise (IntegrityError name), w)
          | None => (Ok 1, set_w_db (set_db_auths (<[id := f r]> (db_auths (w_db w))) (w_db w)) w)
          end
        else (Ok 0, w)
    | None => (Ok 0, w)
    end.
Proof.
  unfold update_authorization, read_db, reads, gets, mbind, M_bind.
  destruct (db_auths (w_db w) !! id) as [r|]; [|done]. destruct (pred r); [|done].
  rewrite flush_checked_cases. by destruct (violates _).
Qed.

Lemma evolves_update_authorization id pred f :
  (∀ r, pred r = true → auth_le r (f r)) → evolves sess_le (update_authorization id pred f).
Proof.
  intros Hf w. rewrite update_authorization_cases.
  destruct (db_auths (w_db w) !! id) as [r|] eqn:E; [|reflexivity].
  destruct (pred r) eqn:Hp; [|reflexivity]. destruct (violates _); cbn; [reflexivity|].
  constructor; cbn; [|done..]. apply db_le_auths, map_grows_insert; [apply _|].
  intros b Hb. simplify_eq. auto.
Qed.

Lemma evolves_insert_outbox r : evolves sess_le (insert_outbox r).
Proof.
  intros w. unfold insert_outbox, read_db, reads, gets, mbind, M_bind. rewrite flush_checked_cases.
  destruct (violates _) eqn:E; cbn [snd]; [reflexivity|].
  unfold violates in E. cbn [List.find fst snd] in E.
  destruct (is_none (find_outbox (ob_id r) (w_db w))) eqn:Ef; [|discriminate]. apply is_none_true in Ef.
  constructor; cbn; [|done..]. apply db_le_outbox; [apply list_grows_app; apply _|].
  by apply outbox_table_ok_snoc.
Qed.

(** The rows a predicate selects, changed and checked. *)
Lemma update_rows_le (p : OutboxEventRow → bool) (f : OutboxEventRow → OutboxEventRow) w :
  (∀ r, outbox_le r (f r)) →
  violates (concat (map (λ r, if p r then outbox_checks (f r) else []) (db_outbox (w_db w)))) = None →
  sess_le w (set_w_db (set_db_outbox (map (λ r, if p r then f r else r) (db_outbox (w_db w))) (w_db w)) w).
Proof.
  intros Hf Hv. constructor; cbn; [|done..]. apply db_le_outbox.
  - apply list_grows_map. intros r _. destruct (p r); [done|reflexivity].
  - apply outbox_table_ok_map; [|done]. intros r. pose proof (ol_immutable _ _ (Hf r)) as Hi. by injection Hi.
Qed.
Lemma evolves_update_outbox id f : (∀ r, outbox_le r (f r)) → evolves sess_le (update_outbox id f).
Proof.
  intros Hf w. unfold update_outbox, read_db, reads, gets, mbind, M_bind. rewrite flush_checked_cases.
  destruct (violates _) eqn:E; cbn [snd]; [reflexivity|].
  apply (update_rows_le (λ r, bool_decide (ob_id r = id)) f w Hf). done.
Qed.
Lemma evolves_insert_webhook r : evolves sess_le (insert_webhook r).
Proof.
  unfold insert_webhook. evolve. apply evolves_writes. intros d'.
  apply db_le_webhooks, list_grows_app. apply _.
Qed.
Lemma evolves_update_webhook id f : (∀ r, webhook_le r (f r)) → evolves sess_le (update_webhook id f).
Proof.
  intros Hf. unfold update_webhook. apply evolves_writes. intros d'.
  apply db_le_webhooks, list_grows_map. intros r _. case_bool_decide; [done|reflexivity].
Qed.
Lemma evolves_insert_mission r : evolves sess_le (insert_mission r).
Proof.
  intros w. unfold insert_mission, read_db, reads, gets, mbind, M_bind.
  rewrite flush_checked_cases. destruct (violates _) eqn:E; cbn; [reflexivity|].
  constructor; cbn; [|done..]. apply db_le_missions, map_grows_insert; [apply _|].
  intros b Hb. unfold violates in E. cbn in E. by rewrite Hb in E.
Qed.
Lemma evolves_insert_constraints id c : evolves sess_le (insert_constraints id c).
Proof.
  intros w. unfold insert_constraints, read_db, reads, gets, mbind, M_bind.
  rewrite flush_checked_cases. destruct (violates _) eqn:E; cbn; [reflexivity|].
  constructor; cbn; [|done..]. apply db_le_missions, map_grows_alter; [apply _|].
  intros b Hb. unfold violates in E. cbn in E. rewrite Hb in E. cbn in E.
  constructor; [done| |reflexivity]. left. by destruct (ms_constraints b).
Qed.
#[export] Hint Resolve evolves_insert_intent evolves_insert_authorization evolves_insert_outbox
  evolves_insert_webhook evolves_insert_mission evolves_insert_constraints : evolves.
