(* ===== verification/Ledger.v ===== *)
(** * The audit ledger: appending and verifying

    services/audit_ledger/ledger.py and verify.py. *)
From S2P Require Import Prelude Python PyFloat Json Text Enums Errors Database Hashing Evolution.

(** ** services/audit_ledger/ledger.py *)
Definition later_event (best : option AuditEventRow) (e : AuditEventRow) : option AuditEventRow :=
  match best with
  | Some b => if ev_sequence b <? ev_sequence e then Some e else best
  | None => Some e
  end.
(** [ORDER BY sequence DESC LIMIT 1]. *)
Definition last_event (mission_id : uuid) (d : DB) : option AuditEventRow :=
  fold_left later_event (mission_events mission_id d) None.

Definition insert_audit (r : AuditEventRow) : P unit :=
  d ← read_db;
  flush_checked
    [(forallb (λ e, negb (bool_decide (ev_mission_id e = ev_mission_id r)
                          && (ev_sequence e =? ev_sequence r))) (db_audit d),
      "uq_audit_mission_sequence")];;
  writes (λ d, set_db_audit (db_audit d ++ [r]) d).

Section Append.
Context `{Env}.
Definition append_event (mission_id : uuid) (event_type : EventType) (actor : string)
    (payload : json_obj) : P AuditEventRow :=
  prev ← reads (last_event mission_id);
  let sequence := match prev with None => 0 | Some p => ev_sequence p + 1 end in
  let previous_hash := match prev with None => GENESIS_HASH | Some p => ev_event_hash p end in
  created_at ← utcnow;
  event_hash ← lift (compute_event_hash (str_uuid mission_id) sequence (enum_value event_type) actor
                       (JObj payload) previous_hash created_at);
  event_id ← uuid4;
  let row := mkAuditEventRow event_id mission_id sequence (enum_value event_type) actor
               (JObj payload) previous_hash event_hash (Some created_at) in
  insert_audit row;;
  mret row.
End Append.

Definition event_seq_leb (a b : AuditEventRow) : bool := ev_sequence a <=? ev_sequence b.
Definition list_events (mission_id : uuid) : P (list AuditEventRow) :=
  reads (λ d, py_sorted event_seq_leb (mission_events mission_id d)).

(** ** services/audit_ledger/verify.py *)
Record AuditVerificationResult := mkAuditVerificationResult {
  vr_valid : bool;
  vr_mission_id : uuid;
  vr_events_checked : Z;
  vr_first_invalid_sequence : option Z;
  vr_reason_code : AuditReasonCode;
  vr_expected_hash : option string;
  vr_actual_hash : option string;
  vr_detail : option string
}.

Definition malformed (mission_id : uuid) (checked : Z) (sequence : option Z) (detail : string)
    : AuditVerificationResult :=
  mkAuditVerificationResult false mission_id checked sequence AuditReasonCode.AUDIT_EVENT_MALFORMED
    None None (Some detail).

Definition structural_failure (mission_id : uuid) (checked index : Z) (event : AuditEventRow)
    : option AuditVerificationResult :=
  let bad detail := Some (malformed mission_id checked (Some (ev_sequence event)) detail) in
  if ev_sequence event <? 0 then
    bad ("event at position " +:+ str_int index +:+ " has a negative sequence")
  else if negb (is_hash_shaped (ev_previous_hash event)) then
    bad "previous_hash is not 64 lowercase hex characters"
  else if negb (is_hash_shaped (ev_event_hash event)) then
    bad "event_hash is not 64 lowercase hex characters"
  else if negb (is_json_object (ev_payload event)) then bad "payload is not a JSON object"
  else if String.eqb (ev_event_type event) "" then bad "event_type is empty"
  else if String.eqb (ev_actor event) "" then bad "actor is empty"
  else match ev_created_at event with
       | None => bad "created_at is absent, so the hashed instant cannot be reproduced"
       | Some _ => None
       end.

(** One pass of the loop: [preceding] is [ordered[index - 1]]. *)
Definition verify_event (mission_id : uuid) (index : Z) (preceding : option AuditEventRow)
    (event : AuditEventRow) : outcome exn (option AuditVerificationResult) :=
  match structural_failure mission_id index index event with
  | Some failure => Ok (Some failure)
  | None =>
    if negb (ev_sequence event =? index) then
      Ok (Some (mkAuditVerificationResult false mission_id index (Some (ev_sequence event))
        AuditReasonCode.AUDIT_SEQUENCE_GAP None None
        (Some ("expected sequence " +:+ str_int index +:+ ", found " +:+ str_int (ev_sequence event)))))
    else
      let link_failure :=
        match preceding with
        | None =>
            if negb (String.eqb (ev_previous_hash event) GENESIS_HASH)
            then Some (mkAuditVerificationResult false mission_id 0 (Some (ev_sequence event))
                   AuditReasonCode.AUDIT_GENESIS_INVALID (Some GENESIS_HASH)
                   (Some (ev_previous_hash event))
                   (Some "the first event must carry the genesis previous_hash"))
            else None
        | Some p =>
            if negb (String.eqb (ev_previous_hash event) (ev_event_hash p))
            then Some (mkAuditVerificationResult false mission_id index (Some (ev_sequence event))
                   AuditReasonCode.AUDIT_PREVIOUS_HASH_MISMATCH (Some (ev_event_hash p))
                   (Some (ev_previous_hash event))
                   (Some "this event does not link to the event before it"))
            else None
        end in
      match link_failure with
      | Some failure => Ok (Some failure)
      | None =>
          recomputed ← recompute event;
          if negb (String.eqb recomputed (ev_event_hash event))
          then Ok (Some (mkAuditVerificationResult false mission_id index (Some (ev_sequence event))
                 AuditReasonCode.AUDIT_EVENT_HASH_MISMATCH (Some recomputed)
                 (Some (ev_event_hash event))
                 (Some "the event's contents do not hash to its stored event_hash")))
          else Ok None
      end
  end.

Fixpoint verify_from (mission_id : uuid) (index : Z) (preceding : option AuditEventRow)
    (events : list AuditEventRow) : outcome exn (option AuditVerificationResult) :=
  match events with
  | [] => Ok None
  | event :: rest =>
      failure ← verify_event mission_id index preceding event;
      match failure with
      | Some f => Ok (Some f)
      | None => verify_from mission_id (index + 1) (Some event) rest
      end
  end.

(** [key=lambda event: (event.sequence, str(event.event_id))]. *)
Definition verify_key_leb (a b : AuditEventRow) : bool :=
  if ev_sequence a =? ev_sequence b
  then String.leb (str_uuid (ev_event_id a)) (str_uuid (ev_event_id b))
  else ev_sequence a <? ev_sequence b.

Definition verify_events (mission_id : uuid) (events : list AuditEventRow)
    : outcome exn AuditVerificationResult :=
  let ordered := py_sorted verify_key_leb events in
  failure ← verify_from mission_id 0 None ordered;
  match failure with
  | Some f => Ok f
  | None => Ok (mkAuditVerificationResult true mission_id (Z.of_nat (length ordered)) None
                  AuditReasonCode.AUDIT_VALID None None None)
  end.

Definition verify_mission_chain (mission_id : uuid) : P AuditVerificationResult :=
  events ← list_events mission_id;
  lift (verify_events mission_id events).

Lemma structural_failure_None m c i e :
  structural_failure m c i e = None ↔ 0 <= ev_sequence e ∧ well_shaped e.
Proof.
  unfold structural_failure. split.
  - repeat case_match; try discriminate. intros _. rewrite !negb_false_iff in *.
    split; [by apply Z.ltb_ge|]. constructor; try done; [by apply String.eqb_neq..|].
    by destruct (ev_created_at e).
  - intros [Hs [Hp Hh Hj Ht Ha Hc]]. rewrite (proj2 (Z.ltb_ge _ _) Hs), Hp, Hh, Hj.
    rewrite (proj2 (String.eqb_neq _ _) Ht), (proj2 (String.eqb_neq _ _) Ha).
    cbn. by destruct (ev_created_at e).
Qed.

Definition link_hash (preceding : option AuditEventRow) : string :=
  match preceding with None => GENESIS_HASH | Some p => ev_event_hash p end.

Lemma verify_event_None m i p e :
  verify_event m i p e = Ok None ↔
  well_shaped e ∧ 0 <= i ∧ ev_sequence e = i ∧ ev_previous_hash e = link_hash p ∧
  recompute e = Ok (ev_event_hash e).
Proof.
  unfold verify_event. destruct (structural_failure m i i e) as [f|] eqn:Es.
  { split; [intros H; apply Ok_inj in H; discriminate|].
    intros (Hw & Hi & Hs & _). exfalso.
    assert (structural_failure m i i e = None) by (apply structural_failure_None; subst; done). congruence. }
  apply structural_failure_None in Es as [H0 Hw].
  destruct (Z.eqb_spec (ev_sequence e) i) as [Hs|Hs]; cbn [negb].
  2:{ split; [intros H; apply Ok_inj in H; discriminate|]. tauto. }
  destruct p as [p|]; cbn [link_hash].
  - destruct (String.eqb_spec (ev_previous_hash e) (ev_event_hash p)) as [Hp|Hp]; cbn [negb].
    2:{ split; [intros H; apply Ok_inj in H; discriminate|]. tauto. }
    rewrite outcome_bind_Ok. split.
    + intros (r & Hr & H). destruct (String.eqb_spec r (ev_event_hash e)) as [->|]; cbn in H;
        [|apply Ok_inj in H; discriminate]. split_and!; try done; lia.
    + intros (_ & _ & _ & _ & Hr). exists (ev_event_hash e). by rewrite String.eqb_refl.
  - destruct (String.eqb_spec (ev_previous_hash e) GENESIS_HASH) as [Hp|Hp]; cbn [negb].
    2:{ split; [intros H; apply Ok_inj in H; discriminate|]. tauto. }
    rewrite outcome_bind_Ok. split.
    + intros (r & Hr & H). destruct (String.eqb_spec r (ev_event_hash e)) as [->|]; cbn in H;
        [|apply Ok_inj in H; discriminate]. split_and!; try done; lia.
    + intros (_ & _ & _ & _ & Hr). exists (ev_event_hash e). by rewrite String.eqb_refl.
Qed.

Lemma verify_from_None m i p l : verify_from m i p l = Ok None ↔ chain i (link_hash p) l.
Proof.
  revert i p. induction l as [|e l IH]; intros i p; cbn [verify_from].
  { split; [constructor|done]. }
  rewrite outcome_bind_Ok. split.
  - intros ([f|] & Hf & H); [apply Ok_inj in H; discriminate|].
    apply verify_event_None in Hf as (Hw & Hi & Hs & Hp & Hr). apply IH in H. by constructor.
  - intros H. inversion H as [|? ? ? ? Hw Hi Hs Hp Hr Hl]; subst. exists None. split; [|by apply IH].
    apply verify_event_None. by split_and!.
Qed.

(** ** The verifier decides the chain *)
Lemma chain_verify_sorted i h l : chain i h l → Sorted (λ a b, verify_key_leb a b = true) l.
Proof.
  induction 1 as [|i h e l Hw Hi Hs Hp Hr Hl IH]; constructor; [done|].
  inversion Hl as [|? ? e' ? _ _ Hs' _ _ _]; subst; constructor. unfold verify_key_leb.
  rewrite (proj2 (Z.eqb_neq _ _)) by lia. apply Z.ltb_lt. lia.
Qed.

Lemma chain_seq_sorted i h l : chain i h l → Sorted (λ a b, event_seq_leb a b = true) l.
Proof.
  induction 1 as [|i h e l Hw Hi Hs Hp Hr Hl IH]; constructor; [done|].
  inversion Hl as [|? ? e' ? _ _ Hs' _ _ _]; subst; constructor. unfold event_seq_leb.
  apply Z.leb_le. lia.
Qed.

Lemma verify_event_mission m i p e f : verify_event m i p e = Ok (Some f) → vr_valid f = false.
Proof.
  unfold verify_event, structural_failure.
  repeat (case_match; try (intros H'; apply Ok_inj in H'; by simplify_eq)); try congruence;
    intros (r & _ & H')%outcome_bind_Ok; case_match; apply Ok_inj in H'; by simplify_eq.
Qed.

Lemma verify_from_invalid m i p l f : verify_from m i p l = Ok (Some f) → vr_valid f = false.
Proof.
  revert i p. induction l as [|e l IH]; intros i p; cbn [verify_from]; [by intros H; apply Ok_inj in H|].
  intros ([g|] & Hg & H)%outcome_bind_Ok; [|by eapply IH].
  apply Ok_inj in H. injection H as ->. by eapply verify_event_mission.
Qed.

Lemma verify_events_valid m l r : verify_events m l = Ok r →
  vr_valid r = true ↔ chain 0 GENESIS_HASH (py_sorted verify_key_leb l).
Proof.
  unfold verify_events. intros ([f|] & Hf & H)%outcome_bind_Ok; apply Ok_inj in H; subst r.
  - split; [by rewrite (verify_from_invalid _ _ _ _ _ Hf)|].
    intros Hc. apply (verify_from_None m 0 None) in Hc. congruence.
  - split; [|done]. intros _. by apply (verify_from_None m 0 None).
Qed.

Lemma chain_verifies m l : chain 0 GENESIS_HASH l →
  verify_events m l = Ok (mkAuditVerificationResult true m (Z.of_nat (length l)) None
                            AuditReasonCode.AUDIT_VALID None None None).
Proof.
  intros Hc. unfold verify_events.
  rewrite py_sorted_id by by eapply chain_verify_sorted.
  by rewrite (proj2 (verify_from_None m 0 None l) Hc).
Qed.

(** ** Appending *)
Lemma fold_later_chain i h l b : chain i h l →
  (∀ x, b = Some x → ev_sequence x < i) →
  fold_left later_event l b = match last l with None => b | Some e => Some e end.
Proof.
  intros Hc. revert b. induction Hc as [|i h e l Hw Hi Hs Hp Hr Hl IH]; intros b Hb; [done|].
  cbn [fold_left]. rewrite last_cons.
  assert (later_event b e = Some e) as ->.
  { unfold later_event. destruct b as [x|]; [|done].
    rewrite (proj2 (Z.ltb_lt _ _)); [done|]. specialize (Hb x eq_refl). lia. }
  rewrite IH; [by destruct (last l)|]. intros x [= <-]. lia.
Qed.

Lemma last_event_chain m d : ledger_ok d → last_event m d = last (mission_events m d).
Proof.
  intros H. unfold last_event. rewrite (fold_later_chain 0 GENESIS_HASH) by done.
  by destruct (last _).
Qed.

Lemma chain_last_sequence i h l e : chain i h l → last l = Some e →
  ev_sequence e + 1 = i + Z.of_nat (length l).
Proof.
  induction 1 as [|i h x l Hw Hi Hs Hp Hr Hl IH]; [done|]. rewrite last_cons.
  destruct (last l) as [y|] eqn:E.
  - intros [= <-]. rewrite (IH eq_refl). cbn [length]. lia.
  - intros [= <-]. destruct l as [|z l]; [cbn; lia|].
    rewrite last_cons in E. by destruct (last l).
Qed.

Section AppendLaws.
Context `{Env}.

(** The row an append writes. *)
Definition appended (m : uuid) (t : EventType) (actor : string) (payload : json_obj) (w : World)
    (h : string) : AuditEventRow :=
  let prev := last_event m (w_db w) in
  mkAuditEventRow (w_fresh w + 1)%N m
    (match prev with None => 0 | Some p => ev_sequence p + 1 end) (enum_value t) actor (JObj payload)
    (match prev with None => GENESIS_HASH | Some p => ev_event_hash p end) h
    (Some (env_utcnow (w_ticks w))).

Lemma insert_audit_cases r w :
  insert_audit r w = (Ok tt, set_w_db (set_db_audit (db_audit (w_db w) ++ [r]) (w_db w)) w) ∨
  ∃ name, insert_audit r w = (Raise (IntegrityError name), w).
Proof.
  unfold insert_audit, read_db, reads, gets, mbind, M_bind. rewrite flush_checked_cases.
  destruct (violates _) as [name|]; [right; by exists name|by left].
Qed.

Lemma append_event_cases m t actor payload w :
  (∃ h, recompute (appended m t actor payload w h) = Ok h ∧
    append_event m t actor payload w =
    (Ok (appended m t actor payload w h),
     mkWorld (set_db_audit (db_audit (w_db w) ++ [appended m t actor payload w h]) (w_db w))
       (w_committed w) (w_fresh w + 1)%N (S (w_ticks w)) (w_tokens w) (w_calls w))) ∨
  (∃ e w', append_event m t actor payload w = (Raise e, w') ∧
     w_db w' = w_db w ∧ w_committed w' = w_committed w ∧ w_calls w' = w_calls w ∧
     (w_fresh w <= w_fresh w')%N).
Proof.
  unfold append_event, reads, gets, lift, utcnow, uuid4, mbind, M_bind.
  destruct (compute_event_hash _ _ _ _ _ _ _) as [h|e] eqn:E.
  - match goal with |- context [insert_audit ?r ?v] =>
      destruct (insert_audit_cases r v) as [Hi|(name & Hi)]; rewrite Hi end.
    + left. exists h. split; [exact E|reflexivity].
    + right. eexists _, _. split; [reflexivity|]. cbn. split_and!; [done..|lia].
  - right. eexists _, _. split; [reflexivity|]. cbn. split_and!; done.
Qed.

(** The appended row continues its mission's chain. *)
Lemma appended_chain m t actor payload w h :
  actor ≠ "" → ledger_ok (w_db w) → recompute (appended m t actor payload w h) = Ok h →
  chain (Z.of_nat (length (mission_events m (w_db w)))) (end_hash GENESIS_HASH (mission_events m (w_db w)))
    [appended m t actor payload w h].
Proof.
  intros Ha Hok Hr. pose proof (Hok m) as Hc. pose proof (last_event_chain m _ Hok) as El.
  assert (Hshape : ∀ x, last (mission_events m (w_db w)) = Some x → is_hash_shaped (ev_event_hash x) = true).
  { intros x Hx. apply last_Some_elem_of in Hx. clear -Hc Hx.
    induction Hc as [|i h e l [] Hi Hs Hp Hr Hl IH]; [set_solver|].
    apply elem_of_cons in Hx as [->|Hx]; [done|by apply IH]. }
  constructor; [|lia| | |exact Hr|constructor].
  - constructor; try done; unfold appended; cbn.
    + rewrite El. destruct (last _) as [x|]; [by apply Hshape|done].
    + apply recompute_Ok in Hr as (b & _ & <-). apply sha256_shape.
    + by destruct t.
  - unfold appended. cbn. rewrite El. destruct (last (mission_events m (w_db w))) as [x|] eqn:E.
    + by rewrite (chain_last_sequence _ _ _ _ Hc E).
    + by destruct (mission_events m (w_db w)) as [|y l]; [|rewrite last_cons in E; destruct (last l)].
  - unfold appended, end_hash. cbn. rewrite El. by destruct (last _).
Qed.

Lemma evolves_append_event m t actor payload :
  actor ≠ "" → evolves sess_le (append_event m t actor payload).
Proof.
  intros Ha w. destruct (append_event_cases m t actor payload w)
    as [(h & Hr & ->)|(e & w' & -> & Hd & Hc & Hl & Hf)]; cbn [snd].
  - constructor; cbn; [|done|done|lia].
    apply db_le_audit; [apply list_grows_app; apply _|].
    intros Hok. apply ledger_ok_snoc; [done|]. by apply appended_chain.
  - constructor; [by rewrite Hd|done..].
Qed.
End AppendLaws.
#[export] Hint Extern 2 (evolves sess_le (append_event _ _ _ _)) =>
  apply evolves_append_event; discriminate : evolves.

(** ** Appending never fails on an intact ledger *)
Lemma chain_no_later i h l e : chain i h l → i + Z.of_nat (length l) <= ev_sequence e → e ∉ l.
Proof. intros Hc He Hin. apply (chain_bounds _ _ _ _ Hc) in Hin. lia. Qed.

Lemma next_sequence m d : ledger_ok d →
  match last_event m d with None => 0 | Some p => ev_sequence p + 1 end
  = Z.of_nat (length (mission_events m d)).
Proof.
  intros Hok. rewrite last_event_chain by done. destruct (last _) as [x|] eqn:E.
  - by rewrite (chain_last_sequence _ _ _ _ (Hok m) E).
  - destruct (mission_events m d) as [|y l]; [done|]. rewrite last_cons in E. by destruct (last l).
Qed.

Lemma insert_audit_fresh r w :
  ledger_ok (w_db w) → ev_sequence r = Z.of_nat (length (mission_events (ev_mission_id r) (w_db w))) →
  insert_audit r w = (Ok tt, set_w_db (set_db_audit (db_audit (w_db w) ++ [r]) (w_db w)) w).
Proof.
  intros Hok Hs. unfold insert_audit, read_db, reads, gets, mbind, M_bind. rewrite flush_checked_cases.
  unfold violates. cbn [List.find fst snd].
  destruct (forallb _ _) eqn:E; cbn; [done|]. exfalso.
  apply not_true_iff_false in E. apply E, forallb_forall. intros e He. apply negb_true_iff.
  apply andb_false_iff. destruct (decide (ev_mission_id e = ev_mission_id r)) as [Hm|Hm].
  - right. apply Z.eqb_neq. intros Heq.
    apply (chain_no_later _ _ _ e (Hok (ev_mission_id r))); [lia|].
    apply elem_of_mission_events. split; [by apply list_elem_of_In|done].
  - left. by apply bool_decide_eq_false.
Qed.

Section AppendTotal.
Context `{Env}.
Lemma append_event_total m t actor payload w : ledger_ok (w_db w) →
  ∃ h, recompute (appended m t actor payload w h) = Ok h ∧
    append_event m t actor payload w =
    (Ok (appended m t actor payload w h),
     mkWorld (set_db_audit (db_audit (w_db w) ++ [appended m t actor payload w h]) (w_db w))
       (w_committed w) (w_fresh w + 1)%N (S (w_ticks w)) (w_tokens w) (w_calls w)).
Proof.
  intros Hok. unfold append_event, reads, gets, lift, utcnow, uuid4, mbind, M_bind.
  destruct (compute_event_hash_total (str_uuid m)
    match last_event m (w_db w) with None => 0 | Some p => ev_sequence p + 1 end
    (enum_value t) actor (JObj payload)
    match last_event m (w_db w) with None => GENESIS_HASH | Some p => ev_event_hash p end
    (env_utcnow (w_ticks w))) as [h E]. rewrite E. cbv zeta.
  exists h. split; [exact E|]. rewrite insert_audit_fresh; [done|exact Hok|].
  cbn [ev_sequence ev_mission_id]. by apply next_sequence.
Qed.
End AppendTotal.

(** ** Properties *)
Lemma verify_event_total m i p e : ∃ r, verify_event m i p e = Ok r.
Proof.
  unfold verify_event. destruct (structural_failure m i i e); [eauto|].
  destruct (negb _); [eauto|].
  destruct (match p with Some _ => _ | None => _ end); [eauto|].
  unfold recompute. destruct (compute_event_hash_total (str_uuid (ev_mission_id e)) (ev_sequence e)
    (ev_event_type e) (ev_actor e) (ev_payload e) (ev_previous_hash e) (default (utc 0) (ev_created_at e)))
    as [h ->]. unfold mbind, outcome_bind. destruct (negb _); eauto.
Qed.

Lemma verify_events_total m l : ∃ r, verify_events m l = Ok r.
Proof.
  unfold verify_events.
  assert (H : ∀ i p l, ∃ r, verify_from m i p l = Ok r).
  { intros i p l'. revert i p. induction l' as [|e l' IH]; intros i p; cbn [verify_from]; [eauto|].
    destruct (verify_event_total m i p e) as [[f|] ->]; unfold mbind, outcome_bind; eauto. }
  destruct (H 0 None (py_sorted verify_key_leb l)) as [[f|] ->]; unfold mbind, outcome_bind; eauto.
Qed.


Lemma list_events_chain m w : ledger_ok (w_db w) →
  list_events m w = (Ok (mission_events m (w_db w)), w).
Proof.
  intros Hok. unfold list_events, reads, gets.
  by rewrite (py_sorted_id event_seq_leb) by by eapply chain_seq_sorted.
Qed.

(** Appending keeps history verifiable.  On a ledger whose chains are intact,
    [append_event] always succeeds, adds exactly the row it returns at the end, keeps
    every mission's chain intact, and the verifier then accepts every mission. *)
Theorem append_event_keeps_chain `{Env} (m : uuid) (t : EventType) (actor : string) (payload : json_obj)
    (w : World) :
  ledger_ok (w_db w) → actor ≠ "" →
  ∃ row w', append_event m t actor payload w = (Ok row, w') ∧
    db_audit (w_db w') = db_audit (w_db w) ++ [row] ∧ ledger_ok (w_db w') ∧
    ev_event_type row = enum_value t ∧ ev_payload row = JObj payload ∧
    ∀ m', ∃ r, fst (verify_mission_chain m' w') = Ok r ∧ vr_valid r = true.
Proof.
  intros Hok Ha. destruct (append_event_total m t actor payload w Hok) as (h & Hr & E).
  eexists _, _. split; [exact E|]. cbn [w_db].
  assert (Hok' : ledger_ok (set_db_audit (db_audit (w_db w) ++ [appended m t actor payload w h]) (w_db w))).
  { apply ledger_ok_snoc; [done|]. by apply appended_chain. }
  split_and!; try done. intros m'. unfold verify_mission_chain, mbind, M_bind.
  rewrite list_events_chain by done. unfold lift. cbn [fst].
  rewrite chain_verifies by apply Hok'. by eexists.
Qed.

Lemma append_event_keeps_chain_witness :
  ∃ row w', append_event (H:=demo_env) 1%N EventType.MISSION_CREATED "orchestrator" [("quantity", JInt 1)]
              (demo_world db_empty) = (Ok row, w') ∧ ledger_ok (w_db w').
Proof.
  destruct (append_event_keeps_chain (H:=demo_env) 1%N EventType.MISSION_CREATED "orchestrator"
              [("quantity", JInt 1)] (demo_world db_empty)) as (row & w' & E & _ & Hok & _).
  - intros m. constructor.
  - discriminate.
  - exists row, w'. split; [exact E|exact Hok].
Defined.

(** An audit history cannot be rewritten under its head.  Two chains the verifier
    accepts, of the same length and with the same last event hash, record the same
    events in the same order - same mission, type, actor, payload text, time and
    links - or else two of their events' canonical texts are a collision of SHA-256. *)
Theorem audit_history_committed (m : uuid) (l l' : list AuditEventRow) (r r' : AuditVerificationResult) :
  verify_events m l = Ok r → verify_events m l' = Ok r' → vr_valid r = true → vr_valid r' = true →
  length l = length l' →
  end_hash GENESIS_HASH (py_sorted verify_key_leb l) = end_hash GENESIS_HASH (py_sorted verify_key_leb l') →
  Forall2 same_content (py_sorted verify_key_leb l) (py_sorted verify_key_leb l') ∨
  ∃ e e', e ∈ l ∧ e' ∈ l' ∧ events_collide e e'.
Proof.
  intros Hr Hr' Hv Hv' Hlen Hend. apply (verify_events_valid _ _ _ Hr) in Hv.
  apply (verify_events_valid _ _ _ Hr') in Hv'.
  destruct (chains_agree _ _ _ _ Hv Hv') as [Ha|(e & e' & He & He' & Hc)]; [|exact Hend|by left|].
  - by rewrite !(Permutation_length (py_sorted_Permutation verify_key_leb _)).
  - right. exists e, e'. rewrite (py_sorted_Permutation verify_key_leb) in He, He'. done.
Qed.

Lemma audit_history_committed_witness :
  ∃ e r, verify_events 1%N [e] = Ok r ∧ vr_valid r = true ∧
  (Forall2 same_content [e] [e] ∨ ∃ a a', a ∈ [e] ∧ a' ∈ [e] ∧ events_collide a a').
Proof.
  destruct (append_event_total (H:=demo_env) 1%N EventType.MISSION_CREATED "orchestrator"
              [("quantity", JInt 1)] (demo_world db_empty)) as (h & Hr & _); [intros m; constructor|].
  set (e := appended (H:=demo_env) _ _ _ _ _ h) in Hr.
  assert (Hc : chain 0 GENESIS_HASH [e]).
  { apply (appended_chain (H:=demo_env) 1%N EventType.MISSION_CREATED "orchestrator"
      [("quantity", JInt 1)] (demo_world db_empty) h); [discriminate|intros m; constructor|exact Hr]. }
  exists e. eexists. split; [exact (chain_verifies 1%N [e] Hc)|]. split; [reflexivity|].
  apply (audit_history_committed 1%N [e] [e] _ _ (chain_verifies 1%N [e] Hc) (chain_verifies 1%N [e] Hc));
    reflexivity.
Defined.
