(* ===== verification/Binding.v ===== *)
(** * BIND: from a decision and a stored offer to a bound transaction

    services/security_kernel/binding.py and services/security_kernel/approval.py. *)
From S2P Require Import Prelude Python PyFloat Json Text Enums Errors Provenance Canonical Transaction.
From S2P Require Import Merchant Kernel Policy Database Evolution.

(** ** services/security_kernel/binding.py *)
Definition OFFER_VERSION_INVARIANT : string :=
  "binding.selected_offer_version_matches_authoritative_record".
Definition OFFER_VALID_INVARIANT : string := "binding.offer_is_valid".
Definition AUTHORIZABLE_OUTCOMES : list PolicyOutcome := [PolicyOutcome.ALLOW; PolicyOutcome.REQUIRE_APPROVAL].

Definition str_uuid_opt (o : option uuid) : string :=
  match o with Some i => str_uuid i | None => "None" end.

Definition build_bound_transaction_from_values (offer_id : uuid) (offer_valid : bool)
    (merchant_id product_id : string) (unit_amount_inr : Z) (currency offer_version : string)
    (decision : PolicyDecision) (quantity : Z) (nonce : string) (expires_at : datetime)
    : outcome exn BoundTransaction :=
  if negb (bool_decide (pd_decision decision ∈ AUTHORIZABLE_OUTCOMES)) then
    Raise (InvariantViolation "binding.decision_is_authorizable"
      ("cannot bind a transaction for a " +:+ enum_value (pd_decision decision) +:+ " decision"))
  else if negb offer_valid then
    Raise (InvariantViolation OFFER_VALID_INVARIANT
      ("offer " +:+ str_uuid offer_id +:+ " was rejected and cannot be bound"))
  else if negb (bool_decide (pd_selected_offer_id decision = Some offer_id)) then
    Raise (InvariantViolation "binding.offer_matches_decision"
      ("decision selected " +:+ str_uuid_opt (pd_selected_offer_id decision)
       +:+ ", not offer " +:+ str_uuid offer_id))
  else match pd_requested_amount decision with
  | None => Raise (InvariantViolation "binding.decision_has_amount"
              "an authorizable decision must carry the adjudicated amount")
  | Some amount =>
      if negb (amount =? unit_amount_inr * quantity) then
        Raise (InvariantViolation "binding.amount_matches_offer_and_quantity"
          ("decision amount " +:+ str_int amount +:+ " != unit " +:+ str_int unit_amount_inr
           +:+ " x qty " +:+ str_int quantity))
      else BoundTransaction_new
             (mkBoundTransaction merchant_id product_id quantity amount currency
                (pd_policy_version decision) offer_version expires_at nonce)
  end.

Definition build_bound_transaction (offer : ProvenancedOffer) (decision : PolicyDecision) (quantity : Z)
    (nonce : string) (expires_at : datetime) : outcome exn BoundTransaction :=
  version ← po_offer_version offer;
  build_bound_transaction_from_values (po_offer_id offer) (po_valid offer)
    (pv_value (po_merchant_id offer)) (pv_value (po_product_id offer))
    (pv_value (po_amount_inr offer)) (pv_value (po_currency offer)) version
    decision quantity nonce expires_at.

Definition find_offer (mission_id offer_id : uuid) (d : DB) : option OfferRow :=
  List.find (λ r, bool_decide (of_id r = offer_id) && bool_decide (of_mission_id r = mission_id))
    (db_offers d).

Definition row_offer_version (row : OfferRow) : outcome exn string :=
  compute_offer_version (of_merchant_id row) (of_product_id row) (of_amount_inr row) (of_currency row)
    (of_rating row) (of_in_stock row) (as_utc (of_offered_at row)).

Definition build_bound_transaction_from_selected_offer (mission_id : uuid) (candidate : OfferCandidate)
    (selected_offer_version : string) (decision : PolicyDecision) (quantity : Z) (nonce : string)
    (expires_at : datetime) : P BoundTransaction :=
  row ← reads (find_offer mission_id (oc_offer_id candidate));
  match row with
  | None => raise (BindRefusedOfferChanged mission_id (oc_offer_id candidate)
              "the selected offer is absent at bind time" OFFER_VERSION_INVARIANT)
  | Some row =>
      current_version ← lift (row_offer_version row);
      if negb (String.eqb (of_offer_version row) current_version)
         || negb (String.eqb current_version selected_offer_version)
      then raise (BindRefusedOfferChanged mission_id (oc_offer_id candidate)
             "selected offer version does not match the bind-time offer record" OFFER_VERSION_INVARIANT)
      else if negb (of_valid row)
      then raise (BindRefusedOfferChanged mission_id (oc_offer_id candidate)
             "the selected offer was rejected before bind time" OFFER_VALID_INVARIANT)
      else lift (build_bound_transaction_from_values (of_id row) (of_valid row) (of_merchant_id row)
             (of_product_id row) (of_amount_inr row) (of_currency row) current_version
             decision quantity nonce expires_at)
  end.

Definition digests_match (expected_digest : string) (t : BoundTransaction) : outcome exn bool :=
  d ← digest t;
  Ok (String.eqb expected_digest d).

(** ** services/security_kernel/approval.py *)

(** [bytes.fromhex]: pairs of hexadecimal digits, whitespace allowed between them. *)
Definition hex_value (a : ascii) : option N :=
  let n := Ascii.N_of_ascii a in
  if (48 <=? n)%N && (n <=? 57)%N then Some (n - 48)%N
  else if (97 <=? n)%N && (n <=? 102)%N then Some (n - 87)%N
  else if (65 <=? n)%N && (n <=? 70)%N then Some (n - 55)%N
  else None.
Definition is_ascii_space (a : ascii) : bool :=
  let n := Ascii.N_of_ascii a in ((9 <=? n)%N && (n <=? 13)%N) || (n =? 32)%N.
Fixpoint bytes_fromhex (s : string) : option bytes :=
  match s with
  | EmptyString => Some []
  | String a s' =>
      if is_ascii_space a then bytes_fromhex s'
      else match s' with
           | EmptyString => None
           | String b s'' =>
               match hex_value a, hex_value b, bytes_fromhex s'' with
               | Some x, Some y, Some r => Some ((16 * x + y)%N :: r)
               | _, _, _ => None
               end
           end
  end.

Definition decode_lowercase_hex (value : string) (length_ : nat) (label : string) : outcome exn bytes :=
  let malformed detail := Raise (ApprovalVerificationError ReasonCode.AUTHORIZATION_SIGNATURE_MALFORMED detail) in
  if negb (String.length value =? length_)%nat || negb (String.eqb value (py_lower value)) then
    malformed (label +:+ " must be exactly " +:+ str_int (Z.of_nat length_)
               +:+ " lowercase hexadecimal characters")
  else match bytes_fromhex value with
  | None => malformed (label +:+ " is not lowercase hexadecimal")
  | Some decoded =>
      if negb (length decoded * 2 =? length_)%nat then malformed (label +:+ " has the wrong decoded length")
      else Ok decoded
  end.

Section Approval.
Context `{Env}.

(** The bytes of the one key the settings enroll. *)
Definition trusted_demo_public_key (signing_key_id : string) : outcome exn bytes :=
  let unknown detail := Raise (ApprovalVerificationError ReasonCode.AUTHORIZATION_SIGNING_KEY_UNKNOWN detail) in
  (* [secrets.compare_digest] takes ASCII text only *)
  if negb (is_ascii signing_key_id && is_ascii env_signing_key_id) then
    Raise (TypeError "comparing strings with non-ASCII characters is not supported")
  else if negb (String.eqb signing_key_id env_signing_key_id) then
    unknown "signing_key_id is not the pre-enrolled demo approver key"
  else match env_public_key_hex with
  | None => unknown "the demo approver public key is not configured"
  | Some encoded =>
      if String.eqb encoded "" then unknown "the demo approver public key is not configured"
      else if negb (String.length encoded =? PUBLIC_KEY_HEX_LENGTH)%nat
              || negb (String.eqb encoded (py_lower encoded))
              || negb (str_forallb is_lower_hex encoded)
      then unknown "the configured demo approver public key is malformed"
      else match bytes_fromhex encoded with
           | Some key => if env_ed25519_key_ok key then Ok key
                         else unknown "the configured demo approver public key is invalid"
           | None => unknown "the configured demo approver public key is invalid"
           end
  end.

Definition verify_user_ed25519_signature (authorization_id mission_id : uuid)
    (binding_version transaction_digest signing_key_id signature_hex : string) : outcome exn unit :=
  signature ← decode_lowercase_hex signature_hex SIGNATURE_HEX_LENGTH "signature";
  public_key ← trusted_demo_public_key signing_key_id;
  message ← approval_message authorization_id mission_id binding_version transaction_digest signing_key_id;
  if env_ed25519_verify public_key signature message then Ok tt
  else Raise (ApprovalVerificationError ReasonCode.AUTHORIZATION_SIGNATURE_INVALID
         "signature does not verify for this authorization challenge").
End Approval.

(** ** Laws *)
Lemma build_values_ok offer_id valid mer prod amt cur ver dec q nonce exp t :
  build_bound_transaction_from_values offer_id valid mer prod amt cur ver dec q nonce exp = Ok t →
  (pd_decision dec = PolicyOutcome.ALLOW ∨ pd_decision dec = PolicyOutcome.REQUIRE_APPROVAL) ∧
  valid = true ∧ pd_selected_offer_id dec = Some offer_id ∧ pd_requested_amount dec = Some (amt * q) ∧
  BoundTransaction_new (mkBoundTransaction mer prod q (amt * q) cur (pd_policy_version dec) ver exp nonce)
    = Ok t.
Proof.
  unfold build_bound_transaction_from_values.
  destruct (bool_decide_reflect (pd_decision dec ∈ AUTHORIZABLE_OUTCOMES)) as [Ho|]; cbn [negb]; [|discriminate].
  destruct valid; cbn [negb]; [|discriminate].
  destruct (bool_decide_reflect (pd_selected_offer_id dec = Some offer_id)); cbn [negb]; [|discriminate].
  destruct (pd_requested_amount dec) as [a|]; [|discriminate].
  destruct (Z.eqb_spec a (amt * q)) as [->|]; cbn [negb]; [|discriminate].
  intros H. split_and!; try done. unfold AUTHORIZABLE_OUTCOMES in Ho.
  destruct (pd_decision dec); [by left|by right|refute_elem Ho].
Qed.

Lemma digests_match_true h t : digests_match h t = Ok true ↔ digest t = Ok h.
Proof.
  unfold digests_match. rewrite outcome_bind_Ok. split.
  - intros (d & Hd & H). apply Ok_inj, String.eqb_eq in H. by subst.
  - intros H. exists h. split; [done|]. by rewrite String.eqb_refl.
Qed.

Lemma find_offer_Some m o d r : find_offer m o d = Some r → r ∈ db_offers d ∧ of_id r = o ∧ of_mission_id r = m.
Proof.
  unfold find_offer. intros [Hin H]%find_some. apply andb_true_iff in H as [H1 H2].
  apply bool_decide_eq_true in H1, H2. apply list_elem_of_In in Hin. done.
Qed.

Lemma evolves_build_selected (R : World → World → Prop) `{!PreOrder R} m c v dec q n e :
  evolves R (build_bound_transaction_from_selected_offer m c v dec q n e).
Proof. unfold build_bound_transaction_from_selected_offer. evolve. Qed.
#[export] Hint Resolve evolves_build_selected : evolves.

(** A proof that verifies was made by the enrolled key over this authorization's message. *)
Lemma verify_signature_ok `{Env} a m bv td k s :
  verify_user_ed25519_signature a m bv td k s = Ok tt →
  k = env_signing_key_id ∧ ∃ key sig msg,
    env_public_key_hex = Some key ∧ bytes_fromhex s = Some sig ∧
    approval_message a m bv td k = Ok msg ∧
    ∃ kb, bytes_fromhex key = Some kb ∧ env_ed25519_key_ok kb = true ∧
          env_ed25519_verify kb sig msg = true.
Proof.
  unfold verify_user_ed25519_signature. intros (sig & Hs & H1)%outcome_bind_Ok.
  apply outcome_bind_Ok in H1 as (kb & Hk & H2). apply outcome_bind_Ok in H2 as (msg & Hm & H3).
  destruct (env_ed25519_verify kb sig msg) eqn:Hv; [|discriminate].
  unfold trusted_demo_public_key in Hk.
  destruct (negb (is_ascii k && is_ascii env_signing_key_id)); [discriminate|].
  destruct (String.eqb_spec k env_signing_key_id) as [->|]; cbn [negb] in Hk; [|discriminate].
  split; [done|]. destruct env_public_key_hex as [key|]; [|discriminate].
  destruct (String.eqb key ""); [discriminate|]. destruct (_ || _); [discriminate|].
  destruct (bytes_fromhex key) as [kb'|] eqn:Ek; [|discriminate].
  destruct (env_ed25519_key_ok kb') eqn:Eok; [|discriminate]. apply Ok_inj in Hk as ->.
  unfold decode_lowercase_hex in Hs. destruct (_ || _); [discriminate|].
  destruct (bytes_fromhex s) as [sig'|] eqn:Es; [|discriminate].
  destruct (negb _); [discriminate|]. apply Ok_inj in Hs as ->. eauto 10.
Qed.
