(* ===== verification/Authorization.v ===== *)
(** * The authorization lifecycle

    services/security_kernel/authorization.py and packages/schemas/authorization.py:
    issue, activate, approve, verify, consume, revoke, expire.  Every move is a
    conditional UPDATE whose row count decides. *)
From S2P Require Import Prelude Python PyFloat Json Text Enums Errors Firewall Canonical Transaction.
From S2P Require Import StateMachines Merchant Kernel Policy Database Hashing Evolution Ledger Binding.

Definition KERNEL_ACTOR : string := "security-kernel".
Definition DIGEST_LOG_PREFIX : nat := 16.
Definition digest_prefix (digest : string) : string := str_take DIGEST_LOG_PREFIX digest.

(** ** packages/schemas/authorization.py *)
Definition DIGEST_HEX_LENGTH : nat := 64.
Definition TERMINAL_STATUSES : list AuthorizationStatus :=
  [AuthorizationStatus.CONSUMED; AuthorizationStatus.EXPIRED; AuthorizationStatus.REVOKED].

Record Authorization := mkAuthorization {
  az_authorization_id : uuid;
  az_mission_id : uuid;
  az_transaction_digest : string;
  az_nonce : string;
  az_issued_at : datetime;
  az_expires_at : datetime;
  az_status : AuthorizationStatus;
  az_policy_version : string;
  az_offer_version : string;
  az_binding_version : string;
  az_approval_scheme : ApprovalScheme;
  az_signing_key_id : option string;
  az_approval_signature : option string;
  az_consumed_at : option datetime
}.

Definition hex_field (lo hi : nat) (s : string) : bool := length_within lo hi s && str_forallb is_lower_hex s.

Definition authorization_field_error (a : Authorization) : option string :=
  if negb (hex_field DIGEST_HEX_LENGTH DIGEST_HEX_LENGTH (az_transaction_digest a)) then Some "transaction_digest"
  else if negb (hex_field 64 128 (az_nonce a)) then Some "nonce"
  else if negb (length_within 1 40 (az_policy_version a)) then Some "policy_version"
  else if negb (length_within 1 64 (az_offer_version a)) then Some "offer_version"
  else if negb (length_within 1 40 (az_binding_version a)) then Some "binding_version"
  else if match az_signing_key_id a with Some k => negb (length_within 1 120 k) | None => false end
       then Some "signing_key_id"
  else if match az_approval_signature a with
          | Some s => negb (hex_field SIGNATURE_HEX_LENGTH SIGNATURE_HEX_LENGTH s) | None => false end
       then Some "approval_signature"
  else None.

(** [_consumed_at_matches_status], the model validator: the invariant that fails and
    the detail it is reported with. *)
Definition authorization_invariant_error (a : Authorization) : option (string * string) :=
  let has_key := is_some (az_signing_key_id a) in
  let status := enum_value (az_status a) in
  if negb (Bool.eqb (bool_decide (az_status a = AuthorizationStatus.CONSUMED)) (is_some (az_consumed_at a)))
  then Some ("authorization.consumed_at_matches_status",
             "status=" +:+ status +:+ " but consumed_at="
               +:+ match az_consumed_at a with Some t => repr_datetime t | None => "None" end)
  else if negb (Bool.eqb has_key (is_some (az_approval_signature a)))
  then Some ("authorization.proof_metadata_is_complete",
             "signing_key_id and approval_signature must be present or absent together")
  else match az_approval_scheme a, az_status a with
  | ApprovalScheme.POLICY_AUTO, _ | ApprovalScheme.LEGACY_SERVER, _ =>
      if has_key then Some ("authorization.unsigned_scheme_has_no_proof",
                            enum_value (az_approval_scheme a) +:+ " cannot carry an Ed25519 proof")
      else None
  | ApprovalScheme.USER_ED25519, AuthorizationStatus.PENDING =>
      if has_key then Some ("authorization.pending_user_approval_has_no_proof",
                            "a pending USER_ED25519 authorization cannot already carry a proof")
      else None
  | ApprovalScheme.USER_ED25519, AuthorizationStatus.ACTIVE
  | ApprovalScheme.USER_ED25519, AuthorizationStatus.CONSUMED =>
      if negb has_key then Some ("authorization.active_user_approval_has_proof",
                                 status +:+ " USER_ED25519 authorization is missing its proof")
      else None
  | ApprovalScheme.USER_ED25519, _ => None
  end.

Definition Authorization_new (a : Authorization) : outcome exn Authorization :=
  match authorization_field_error a with
  | Some field => Raise (ValidationError field)
  | None => match authorization_invariant_error a with
            | Some (invariant, detail) => Raise (InvariantViolation invariant detail)
            | None => Ok a
            end
  end.

Definition authorization_is_terminal (a : Authorization) : bool :=
  bool_decide (az_status a ∈ TERMINAL_STATUSES).
Definition is_expired_at (a : Authorization) (now : datetime) : bool := dt_geb now (az_expires_at a).

(** ** services/security_kernel/authorization.py: helpers *)
Definition to_authorization (row : AuthorizationRow) : outcome exn Authorization :=
  Authorization_new (mkAuthorization (au_authorization_id row) (au_mission_id row)
    (au_transaction_digest row) (au_nonce row) (as_utc (au_issued_at row)) (as_utc (au_expires_at row))
    (au_status row) (au_policy_version row) (au_offer_version row) (au_binding_version row)
    (au_approval_scheme row) (au_signing_key_id row) (au_approval_signature row)
    (as_utc <$> au_consumed_at row)).

Definition reload (authorization_id : uuid) : P (option AuthorizationRow) :=
  reads (λ d, db_auths d !! authorization_id).

Definition row_transaction (row : AuthorizationRow) : BoundTransaction :=
  mkBoundTransaction (au_bound_merchant_id row) (au_bound_product_id row) (au_bound_quantity row)
    (au_bound_amount_inr row) (au_bound_currency row) (au_policy_version row) (au_offer_version row)
    (as_utc (au_expires_at row)) (au_nonce row).

Definition rebuild_bound_transaction (row : AuthorizationRow) : outcome exn BoundTransaction :=
  transaction ← BoundTransaction_new (row_transaction row);
  matches ← digests_match (au_transaction_digest row) transaction;
  if negb matches then
    Raise (InvariantViolation "authorization.rebuilt_transaction_matches_digest"
      ("authorization " +:+ str_uuid (au_authorization_id row)
       +:+ " does not re-derive to its recorded digest"))
  else Ok transaction.

Definition auth_failure {A} (k : AuthorizationFailureKind) (id : uuid) (detail : string) : P A :=
  raise (AuthorizationFailure k id detail).

Definition is_live (s : AuthorizationStatus) : bool :=
  match s with AuthorizationStatus.PENDING | AuthorizationStatus.ACTIVE => true | _ => false end.

Section Lifecycle.
Context `{Env}.

Definition audit (mission_id : uuid) (event_type : EventType) (payload : json_obj) : P unit :=
  append_event mission_id event_type KERNEL_ACTOR payload;; mret tt.

Definition issue_authorization (capabilities : CapabilitySet) (mission_id : uuid)
    (transaction : BoundTransaction) (approval_scheme : ApprovalScheme) (issued_at : option datetime)
    : P AuthorizationRow :=
  enforce_registered capabilities Capability.AUTHORIZATION_ISSUE;;
  require (negb (bool_decide (approval_scheme = ApprovalScheme.LEGACY_SERVER)))
    "authorization.new_scheme_is_not_legacy"
    "new authorizations cannot use the migration-only LEGACY_SERVER scheme";;
  now ← moment_of issued_at;
  require (dt_gtb (bt_expires_at transaction) now)
    "authorization.issued_before_expiry"
    ("transaction expires at " +:+ isoformat (bt_expires_at transaction)
     +:+ ", which is not after issuance at " +:+ isoformat now);;
  digest ← lift (Transaction.digest transaction);
  authorization_id ← uuid4;
  let row := mkAuthorizationRow authorization_id mission_id digest (bt_nonce transaction)
    BINDING_VERSION (bt_policy_version transaction) (bt_offer_version transaction) approval_scheme
    None None AuthorizationStatus.PENDING now (bt_expires_at transaction) None
    (bt_merchant_id transaction) (bt_product_id transaction) (bt_quantity transaction)
    (bt_amount_inr transaction) (bt_currency transaction) in
  insert_authorization row;;
  audit mission_id EventType.AUTHORIZATION_CREATED
    [("authorization_id", JStr (str_uuid authorization_id));
     ("status", JStr (enum_value AuthorizationStatus.PENDING));
     ("transaction_digest_prefix", JStr (digest_prefix digest));
     ("policy_version", JStr (bt_policy_version transaction));
     ("offer_version", JStr (bt_offer_version transaction));
     ("binding_version", JStr BINDING_VERSION);
     ("approval_scheme", JStr (enum_value approval_scheme));
     ("expires_at", JStr (isoformat (bt_expires_at transaction)));
     ("bound_merchant_id", JStr (bt_merchant_id transaction));
     ("bound_product_id", JStr (bt_product_id transaction));
     ("bound_quantity", JInt (bt_quantity transaction));
     ("bound_amount_inr", JInt (bt_amount_inr transaction));
     ("bound_currency", JStr (bt_currency transaction))];;
  mret row.

(** ** Expiry and the classification of a refusal *)
Definition expire_if_stale (authorization_id : uuid) (now : option datetime) : P bool :=
  moment ← moment_of now;
  changed ← update_authorization authorization_id
    (λ r, is_live (au_status r) && dt_geb moment (au_expires_at r))
    (set_au_status AuthorizationStatus.EXPIRED);
  if negb (changed =? 1) then mret false
  else
    row ← reload authorization_id;
    match row with
    | None => mret false
    | Some row =>
        audit (au_mission_id row) EventType.AUTHORIZATION_EXPIRED
          [("authorization_id", JStr (str_uuid (au_authorization_id row)));
           ("status", JStr (enum_value (au_status row)));
           ("expires_at", JStr (isoformat (as_utc (au_expires_at row))))];;
        mret true
    end.

Definition not_active_detail (status expected : AuthorizationStatus) : string :=
  "authorization is " +:+ enum_value status +:+ ", expected " +:+ enum_value expected.
Definition expired_detail (row : AuthorizationRow) : string :=
  "authorization expired at " +:+ isoformat (as_utc (au_expires_at row)).

Definition presented_differs (row : AuthorizationRow) (transaction : option BoundTransaction)
    : outcome exn (option BoundTransaction) :=
  match transaction with
  | None => Ok None
  | Some t => m ← digests_match (au_transaction_digest row) t; Ok (if negb m then Some t else None)
  end.

Definition classify_and_raise {A} (authorization_id : uuid) (transaction : option BoundTransaction)
    (now : datetime) (expected_status : AuthorizationStatus) : P A :=
  row ← reload authorization_id;
  match row with
  | None => auth_failure AuthorizationNotFound authorization_id "no such authorization"
  | Some row =>
    match au_status row with
    | AuthorizationStatus.CONSUMED =>
        audit (au_mission_id row) EventType.AUTHORIZATION_REPLAY_DETECTED
          [("authorization_id", JStr (str_uuid (au_authorization_id row)));
           ("status", JStr (enum_value (au_status row)));
           ("reason_code", JStr (enum_value ReasonCode.AUTHORIZATION_REPLAY_DETECTED));
           ("consumed_at", jopt (λ t, JStr (isoformat (as_utc t))) (au_consumed_at row))];;
        auth_failure AuthorizationReplayDetected authorization_id
          "authorization was already consumed and cannot be reused"
    | status =>
        differs ← lift (presented_differs row transaction);
        match differs with
        | Some t =>
            presented ← lift (Transaction.digest t);
            audit (au_mission_id row) EventType.TRANSACTION_BINDING_FAILURE
              [("authorization_id", JStr (str_uuid (au_authorization_id row)));
               ("status", JStr (enum_value status));
               ("reason_code", JStr (enum_value ReasonCode.TRANSACTION_BINDING_FAILURE));
               ("bound_digest_prefix", JStr (digest_prefix (au_transaction_digest row)));
               ("presented_digest_prefix", JStr (digest_prefix presented))];;
            auth_failure TransactionBindingFailure authorization_id
              "the presented transaction does not match the approved transaction"
        | None =>
            if dt_geb now (as_utc (au_expires_at row)) then
              expire_if_stale authorization_id (Some now);;
              auth_failure AuthorizationExpired authorization_id (expired_detail row)
            else auth_failure AuthorizationNotActive authorization_id
                   (not_active_detail status expected_status)
        end
    end
  end.

(** [if changed != 1: classify; row = reload]. *)
Definition moved_row (changed : Z) (authorization_id : uuid) (transaction : option BoundTransaction)
    (moment : datetime) (expected : AuthorizationStatus) (vanished : string) : P AuthorizationRow :=
  (if negb (changed =? 1) then classify_and_raise authorization_id transaction moment expected else mret tt);;
  row ← reload authorization_id;
  match row with
  | None => auth_failure AuthorizationNotFound authorization_id vanished
  | Some row => mret row
  end.

(** ** The moves *)
Definition activate_authorization (authorization_id : uuid) (now : option datetime) : P AuthorizationRow :=
  moment ← moment_of now;
  changed ← update_authorization authorization_id
    (λ r, bool_decide (au_approval_scheme r = ApprovalScheme.POLICY_AUTO)
          && bool_decide (au_status r = AuthorizationStatus.PENDING)
          && dt_gtb (au_expires_at r) moment
          && is_none (au_signing_key_id r) && is_none (au_approval_signature r))
    (set_au_status AuthorizationStatus.ACTIVE);
  row ← moved_row changed authorization_id None moment AuthorizationStatus.PENDING
          "authorization vanished after activation";
  audit (au_mission_id row) EventType.AUTHORIZATION_ACTIVATED
    [("authorization_id", JStr (str_uuid (au_authorization_id row)));
     ("status", JStr (enum_value (au_status row)));
     ("transaction_digest_prefix", JStr (digest_prefix (au_transaction_digest row)));
     ("approval_scheme", JStr (enum_value ApprovalScheme.POLICY_AUTO))];;
  mret row.

(** The latest decision of the mission under the row's policy version. *)
Definition decision_for (row : AuthorizationRow) (d : DB) : option PolicyOutcome :=
  dr_decision <$> last (List.filter (λ r, bool_decide (dr_mission_id r = au_mission_id row)
                          && String.eqb (dr_policy_version r) (au_policy_version row)) (db_decisions d)).
Definition scheme_for (decision : PolicyOutcome) : option ApprovalScheme :=
  match decision with
  | PolicyOutcome.ALLOW => Some ApprovalScheme.POLICY_AUTO
  | PolicyOutcome.REQUIRE_APPROVAL => Some ApprovalScheme.USER_ED25519
  | _ => None
  end.

Definition require_policy_scheme (row : AuthorizationRow) : P unit :=
  decision ← reads (decision_for row);
  if bool_decide ((decision ≫= scheme_for) = Some (au_approval_scheme row)) then mret tt
  else auth_failure (AuthorizationProofFailure ReasonCode.AUTHORIZATION_APPROVAL_SCHEME_INVALID)
         (au_authorization_id row)
         "authorization approval scheme does not match its persisted policy decision".

Definition audit_proof_failure (row : AuthorizationRow) (reason_code : string) (signing_key_id : option string)
    : P unit :=
  audit (au_mission_id row) EventType.SECURITY_VIOLATION
    [("reason_code", JStr reason_code);
     ("authorization_id", JStr (str_uuid (au_authorization_id row)));
     ("approval_scheme", JStr (enum_value (au_approval_scheme row)));
     ("signing_key_id", jstr_opt signing_key_id);
     ("transaction_digest", JStr (au_transaction_digest row));
     ("proof_accepted", JBool false)].

Definition verify_supplied_user_proof (row : AuthorizationRow) (signing_key_id signature_hex : string)
    : outcome exn unit :=
  match verify_user_ed25519_signature (au_authorization_id row) (au_mission_id row)
          (au_binding_version row) (au_transaction_digest row) signing_key_id signature_hex with
  | Raise (ApprovalVerificationError code detail) =>
      Raise (AuthorizationFailure (AuthorizationProofFailure code) (au_authorization_id row) detail)
  | r => r
  end.

(** The [except AuthorizationProofFailure] arm: audit, then re-raise. *)
Definition on_proof_failure {A} (row : AuthorizationRow) (signing_key_id : string) (e : exn) : P A :=
  match e with
  | AuthorizationFailure (AuthorizationProofFailure code) _ _ =>
      audit_proof_failure row (enum_value code) (Some signing_key_id);; raise e
  | _ => raise e
  end.

Definition approve_authorization_with_signature (mission_id authorization_id : uuid)
    (signing_key_id signature_hex : string) (now : option datetime) : P AuthorizationRow :=
  moment ← moment_of now;
  found ← reload authorization_id;
  match found with
  | None => auth_failure AuthorizationNotFound authorization_id "no such authorization"
  | Some row =>
    if negb (bool_decide (au_mission_id row = mission_id)) then
      auth_failure AuthorizationNotFound authorization_id "authorization does not belong to mission"
    else
    (if negb (bool_decide (au_status row = AuthorizationStatus.PENDING))
        || dt_geb moment (as_utc (au_expires_at row))
     then classify_and_raise authorization_id None moment AuthorizationStatus.PENDING
     else mret tt);;
    if negb (bool_decide (au_approval_scheme row = ApprovalScheme.USER_ED25519)) then
      audit_proof_failure row (enum_value ReasonCode.AUTHORIZATION_APPROVAL_SCHEME_INVALID)
        (Some signing_key_id);;
      auth_failure (AuthorizationProofFailure ReasonCode.AUTHORIZATION_APPROVAL_SCHEME_INVALID)
        authorization_id "only USER_ED25519 authorizations accept a user signature"
    else
    lift (rebuild_bound_transaction row);;
    if negb (String.eqb (au_binding_version row) BINDING_VERSION) then
      auth_failure TransactionBindingFailure authorization_id
        ("unsupported binding version " +:+ py_repr (au_binding_version row))
    else
    try_except
      (require_policy_scheme row;;
       lift (verify_supplied_user_proof row signing_key_id signature_hex))
      (on_proof_failure row signing_key_id);;
    changed ← update_authorization authorization_id
      (λ r, bool_decide (au_mission_id r = mission_id)
            && bool_decide (au_approval_scheme r = ApprovalScheme.USER_ED25519)
            && bool_decide (au_status r = AuthorizationStatus.PENDING)
            && dt_gtb (au_expires_at r) moment
            && String.eqb (au_binding_version r) BINDING_VERSION
            && String.eqb (au_transaction_digest r) (au_transaction_digest row)
            && is_none (au_signing_key_id r) && is_none (au_approval_signature r))
      (λ r, set_au_approval_signature (Some signature_hex)
              (set_au_signing_key_id (Some signing_key_id) (set_au_status AuthorizationStatus.ACTIVE r)));
    activated ← moved_row changed authorization_id None moment AuthorizationStatus.PENDING
                  "authorization vanished after activation";
    audit (au_mission_id activated) EventType.AUTHORIZATION_ACTIVATED
      [("authorization_id", JStr (str_uuid (au_authorization_id activated)));
       ("status", JStr (enum_value (au_status activated)));
       ("approval_scheme", JStr (enum_value ApprovalScheme.USER_ED25519));
       ("signing_key_id", JStr signing_key_id);
       ("transaction_digest", JStr (au_transaction_digest activated))];;
    mret activated
  end.

Definition proof_scheme_invalid {A} (row : AuthorizationRow) (detail : string) : P A :=
  auth_failure (AuthorizationProofFailure ReasonCode.AUTHORIZATION_APPROVAL_SCHEME_INVALID)
    (au_authorization_id row) detail.

Definition verify_authorization_for_payment (row : AuthorizationRow)
    (expected_status : AuthorizationStatus) (now : datetime) : P BoundTransaction :=
  transaction ← lift (rebuild_bound_transaction row);
  if negb (String.eqb (au_binding_version row) BINDING_VERSION) then
    auth_failure TransactionBindingFailure (au_authorization_id row)
      ("unsupported binding version " +:+ py_repr (au_binding_version row))
  else if negb (bool_decide (au_status row = expected_status)) then
    (if bool_decide (expected_status = AuthorizationStatus.ACTIVE)
     then classify_and_raise (au_authorization_id row) (Some transaction) now expected_status
     else mret tt);;
    auth_failure AuthorizationNotActive (au_authorization_id row)
      (not_active_detail (au_status row) expected_status)
  else if bool_decide (expected_status = AuthorizationStatus.ACTIVE)
          && dt_geb now (as_utc (au_expires_at row)) then
    expire_if_stale (au_authorization_id row) (Some now);;
    auth_failure AuthorizationExpired (au_authorization_id row) (expired_detail row)
  else
    require_policy_scheme row;;
    match au_approval_scheme row with
    | ApprovalScheme.POLICY_AUTO =>
        if is_some (au_signing_key_id row) || is_some (au_approval_signature row)
        then proof_scheme_invalid row "POLICY_AUTO authorization unexpectedly carries proof metadata"
        else mret transaction
    | ApprovalScheme.LEGACY_SERVER =>
        proof_scheme_invalid row "migration-only or unknown authorization origin cannot authorize payment"
    | ApprovalScheme.USER_ED25519 =>
        match au_signing_key_id row, au_approval_signature row with
        | Some key, Some signature =>
            lift (verify_supplied_user_proof row key signature);;
            mret transaction
        | _, _ =>
            auth_failure (AuthorizationProofFailure ReasonCode.AUTHORIZATION_PROOF_MISSING)
              (au_authorization_id row) "USER_ED25519 authorization is missing its durable proof"
        end
    end.

(** The WHERE clause and the SET clause of the consuming UPDATE. *)
Definition consumable (digest : string) (moment : datetime) (r : AuthorizationRow) : bool :=
  bool_decide (au_status r = AuthorizationStatus.ACTIVE)
  && String.eqb (au_transaction_digest r) digest && dt_gtb (au_expires_at r) moment.
Definition consumed (moment : datetime) (r : AuthorizationRow) : AuthorizationRow :=
  set_au_consumed_at (Some moment) (set_au_status AuthorizationStatus.CONSUMED r).

Definition consume_authorization (authorization_id : uuid) (transaction : BoundTransaction)
    (now : option datetime) : P AuthorizationRow :=
  moment ← moment_of now;
  digest ← lift (Transaction.digest transaction);
  changed ← update_authorization authorization_id (consumable digest moment) (consumed moment);
  row ← moved_row changed authorization_id (Some transaction) moment AuthorizationStatus.ACTIVE
          "authorization vanished after consumption";
  audit (au_mission_id row) EventType.AUTHORIZATION_CONSUMED
    [("authorization_id", JStr (str_uuid (au_authorization_id row)));
     ("status", JStr (enum_value (au_status row)));
     ("transaction_digest_prefix", JStr (digest_prefix digest));
     ("consumed_at", JStr (isoformat moment))];;
  mret row.

Definition revoke_authorization (authorization_id : uuid) (reason : string) (now : option datetime)
    : P AuthorizationRow :=
  moment ← moment_of now;
  changed ← update_authorization authorization_id (λ r, is_live (au_status r))
    (set_au_status AuthorizationStatus.REVOKED);
  row ← moved_row changed authorization_id None moment AuthorizationStatus.ACTIVE
          "authorization vanished after revocation";
  audit (au_mission_id row) EventType.AUTHORIZATION_REVOKED
    [("authorization_id", JStr (str_uuid (au_authorization_id row)));
     ("status", JStr (enum_value (au_status row)));
     ("reason", JStr reason)];;
  mret row.

Definition load_authorization (authorization_id : uuid) : P (option AuthorizationRow) :=
  reload authorization_id.
End Lifecycle.

(** ** Every operation moves forward *)
Section Evolves.
Context `{Env}.

Lemma evolves_audit m t p : evolves sess_le (audit m t p).
Proof. unfold audit. evolve. Qed.
Hint Resolve evolves_audit : evolves.

Lemma auth_step_le (r : AuthorizationRow) s :
  AuthorizationFSM.step (au_status r) s → auth_le r (set_au_status s r).
Proof.
  intros Hs. constructor; try done; try (by right). by apply rtc_once.
Qed.

Lemma live_moves s t : is_live s = true → t = AuthorizationStatus.EXPIRED ∨ t = AuthorizationStatus.REVOKED →
  AuthorizationFSM.step s t.
Proof. unfold AuthorizationFSM.step. destruct s; cbn; try done; intros _ [->| ->]; by repeat constructor. Qed.

Lemma evolves_expire_if_stale i now : evolves sess_le (expire_if_stale i now).
Proof.
  unfold expire_if_stale, reload. evolve. apply evolves_update_authorization.
  intros r [Hl _]%andb_true_iff. apply auth_step_le, live_moves; auto.
Qed.
Hint Resolve evolves_expire_if_stale : evolves.

Lemma evolves_auth_failure {A} R `{!PreOrder R} k i d : evolves R (auth_failure k i d : P A).
Proof. unfold auth_failure. evolve. Qed.
Hint Resolve evolves_auth_failure : evolves.

Lemma evolves_classify {A} i t now s : evolves sess_le (classify_and_raise i t now s : P A).
Proof. unfold classify_and_raise, reload. evolve. Qed.
Hint Resolve evolves_classify : evolves.

Lemma evolves_moved_row c i t m s v : evolves sess_le (moved_row c i t m s v).
Proof. unfold moved_row, reload. evolve. Qed.
Hint Resolve evolves_moved_row : evolves.

Lemma evolves_activate i now : evolves sess_le (activate_authorization i now).
Proof.
  unfold activate_authorization. evolve. apply evolves_update_authorization.
  intros r. rewrite !andb_true_iff, bool_decide_eq_true. intros [[[[_ Hs] _] _] _].
  apply bool_decide_eq_true in Hs. apply auth_step_le. rewrite Hs. by repeat constructor.
Qed.

Lemma evolves_audit_proof_failure r c k : evolves sess_le (audit_proof_failure r c k).
Proof. unfold audit_proof_failure. evolve. Qed.
Hint Resolve evolves_audit_proof_failure : evolves.

Lemma evolves_require_policy_scheme R `{!PreOrder R} r : evolves R (require_policy_scheme r).
Proof. unfold require_policy_scheme. evolve. Qed.
Hint Resolve evolves_require_policy_scheme : evolves.

Lemma evolves_on_proof_failure {A} r k e : evolves sess_le (on_proof_failure r k e : P A).
Proof. unfold on_proof_failure. evolve. Qed.
Hint Resolve evolves_on_proof_failure : evolves.


Lemma evolves_approve m i k s now : evolves sess_le (approve_authorization_with_signature m i k s now).
Proof.
  unfold approve_authorization_with_signature, reload. evolve. apply evolves_update_authorization.
  intros r. rewrite !andb_true_iff, !bool_decide_eq_true.
  intros [[[[[[[_ _] Hs] _] _] _] Hk%is_none_true] Hg%is_none_true].
  constructor; cbn; try done; try (by left); try (by rewrite Hs).
  apply rtc_once. rewrite Hs. by repeat constructor.
Qed.

Lemma evolves_verify r s now : evolves sess_le (verify_authorization_for_payment r s now).
Proof. unfold verify_authorization_for_payment, proof_scheme_invalid. evolve. Qed.

Lemma consumable_spec d m r : consumable d m r = true ↔
  au_status r = AuthorizationStatus.ACTIVE ∧ au_transaction_digest r = d ∧
  dt_instant m < dt_instant (au_expires_at r).
Proof.
  unfold consumable, dt_gtb. rewrite !andb_true_iff, bool_decide_eq_true, String.eqb_eq, Z.ltb_lt. tauto.
Qed.

Lemma evolves_consume i t now : evolves sess_le (consume_authorization i t now).
Proof.
  unfold consume_authorization. evolve. apply evolves_update_authorization.
  intros r (Hs & _ & _)%consumable_spec.
  constructor; cbn; try done; try (by right); try (by rewrite Hs).
  apply rtc_once. rewrite Hs. by repeat constructor.
Qed.

Lemma evolves_revoke i reason now : evolves sess_le (revoke_authorization i reason now).
Proof.
  unfold revoke_authorization. evolve. apply evolves_update_authorization.
  intros r Hl. apply auth_step_le, live_moves; auto.
Qed.

Lemma evolves_issue c m t s now : evolves sess_le (issue_authorization c m t s now).
Proof. unfold issue_authorization. cbv zeta. evolve. Qed.
End Evolves.
#[export] Hint Resolve evolves_audit evolves_expire_if_stale evolves_auth_failure evolves_classify
  evolves_moved_row evolves_activate evolves_audit_proof_failure evolves_require_policy_scheme
  evolves_approve evolves_verify evolves_consume evolves_revoke evolves_issue : evolves.
