(* ===== verification/AuthorizationTheorems.v ===== *)
(** * What an authorization guarantees

    Functional lemmas and properties of the lifecycle in Authorization.v: what a
    returned call did, and what it proves of the row it returned. *)
From S2P Require Import Prelude Python PyFloat Json Text Enums Errors Firewall Canonical Transaction.
From S2P Require Import StateMachines Merchant Kernel Policy Database Hashing Evolution Ledger Binding.
From S2P Require Import Authorization.

Section Runs.
Context `{Env}.

(** What differs between two worlds is only clocks and identifiers. *)
Definition same_store (w w' : World) : Prop :=
  w_db w' = w_db w ∧ w_committed w' = w_committed w ∧ w_calls w' = w_calls w.

Lemma moment_of_run now w :
  ∃ m w1, moment_of now w = (Ok m, w1) ∧ same_store w w1 ∧ dt_is_aware m = true ∧
          (∀ t, now = Some t → m = as_utc t ∧ w1 = w).
Proof.
  unfold moment_of. destruct now as [t|].
  - eexists _, _. split; [reflexivity|]. split; [done|]. split; [apply as_utc_aware|].
    intros t' [= ->]. done.
  - eexists _, _. split; [reflexivity|]. split; [done|]. split; [apply as_utc_aware|done].
Qed.

Lemma moment_of_Ok now w m w1 : moment_of now w = (Ok m, w1) → same_store w w1 ∧ dt_is_aware m = true.
Proof.
  intros E. destruct (moment_of_run now w) as (m' & w1' & E' & Hs & Ha & _). rewrite E in E'.
  by simplify_eq.
Qed.

Lemma update_authorization_Ok i pred f w c w' :
  update_authorization i pred f w = (Ok c, w') →
  (∃ r, db_auths (w_db w) !! i = Some r ∧ pred r = true ∧ c = 1 ∧
        violates (authorization_checks (f r)) = None ∧
        w' = set_w_db (set_db_auths (<[i := f r]> (db_auths (w_db w))) (w_db w)) w) ∨
  (c = 0 ∧ w' = w ∧ ∀ r, db_auths (w_db w) !! i = Some r → pred r = false).
Proof.
  rewrite update_authorization_cases. destruct (db_auths (w_db w) !! i) as [r|] eqn:E.
  - destruct (pred r) eqn:Ep.
    + destruct (violates _) eqn:Ev; [done|]. intros [= <- <-]. left. exists r. done.
    + intros [= <- <-]. right. split_and!; try done. intros r' [= ->]. done.
  - intros [= <- <-]. right. split_and!; done.
Qed.

Lemma classify_never_Ok {A} i t now s w (a : A) w' : classify_and_raise i t now s w ≠ (Ok a, w').
Proof.
  intros E. unfold classify_and_raise, auth_failure in E. run_inv E.
Qed.

Lemma moved_row_Ok c i t m s v w row w' :
  moved_row c i t m s v w = (Ok row, w') →
  c = 1 ∧ db_auths (w_db w) !! i = Some row ∧ w' = w.
Proof.
  unfold moved_row, reload, reads, auth_failure. intros E. run_step E.
  destruct (Z.eqb_spec c 1) as [->|]; cbn [negb] in Hrun;
    [|by apply classify_never_Ok in Hrun].
  apply ret_run_Ok in Hrun as [_ ->]. run_all. split_and!; done.
Qed.

Lemma audit_db m t p w w' x : audit m t p w = (Ok x, w') → ∃ l, w_db w' = set_db_audit l (w_db w).
Proof.
  unfold audit. intros E. run_inv E; subst.
  destruct (append_event_cases m t KERNEL_ACTOR p w) as [(h & _ & E)|(e & w1 & E & _)];
    rewrite E in Hrun; simplify_eq. by eexists.
Qed.
Lemma audit_Ok m t p w w' x : audit m t p w = (Ok x, w') →
  db_auths (w_db w') = db_auths (w_db w) ∧ db_intents (w_db w') = db_intents (w_db w).
Proof. by intros (l & ->)%audit_db. Qed.

(** Auditing touches the audit table only, whether or not it succeeds. *)
Definition audit_only (w w' : World) : Prop :=
  ∃ l, w_db w' = set_db_audit l (w_db w).
Lemma set_db_audit_id d : set_db_audit (db_audit d) d = d.
Proof. by destruct d. Qed.
#[local] Instance audit_only_preorder : PreOrder audit_only.
Proof.
  split.
  - intros w. exists (db_audit (w_db w)). by rewrite set_db_audit_id.
  - intros a b c [l Hl] [l' Hl']. exists l'. by rewrite Hl', Hl.
Qed.
Lemma audit_only_append m t a p : evolves audit_only (append_event m t a p).
Proof.
  intros w. destruct (append_event_cases m t a p w) as [(h & _ & E)|(e & w1 & E & Hd & _)];
    rewrite E; cbn; [by eexists|]. exists (db_audit (w_db w)). by rewrite set_db_audit_id.
Qed.
Lemma audit_only_audit m t p : evolves audit_only (audit m t p).
Proof. unfold audit. evolve. apply audit_only_append. Qed.

(** ** Classification of a refusal *)
Lemma classify_consumed {A} i t now s w r :
  db_auths (w_db w) !! i = Some r → au_status r = AuthorizationStatus.CONSUMED → ledger_ok (w_db w) →
  ∃ w', (classify_and_raise i t now s : P A) w =
          (Raise (AuthorizationFailure AuthorizationReplayDetected i
             "authorization was already consumed and cannot be reused"), w') ∧ audit_only w w'.
Proof.
  intros Hr Hs Hok. unfold classify_and_raise, reload, reads, gets, mbind at 1, M_bind at 1. rewrite Hr, Hs.
  match goal with |- context [audit ?m ?t ?p] => set (au := audit m t p);
    assert (Hau : ∃ w', au w = (Ok tt, w') ∧ audit_only w w') end.
  { unfold au, audit. match goal with |- context [append_event ?m ?t ?a ?p] =>
      destruct (append_event_total m t a p w Hok) as (h & _ & E) end.
    unfold mbind, M_bind. rewrite E. eexists. split; [reflexivity|]. by eexists. }
  destruct Hau as (w' & Hau & Hon). exists w'. split; [|done].
  unfold mbind, M_bind. by rewrite Hau.
Qed.

(** ** Consumption *)
Lemma consume_Ok i t now w row w' :
  consume_authorization i t now w = (Ok row, w') →
  ∃ r moment h, db_auths (w_db w) !! i = Some r ∧ digest t = Ok h ∧ consumable h moment r = true ∧
    dt_is_aware moment = true ∧ (∀ n, now = Some n → moment = as_utc n) ∧
    row = consumed moment r ∧ db_auths (w_db w') = <[i := row]> (db_auths (w_db w)) ∧
    ∃ l, w_db w' = set_db_audit l (set_db_auths (<[i := row]> (db_auths (w_db w))) (w_db w)).
Proof.
  unfold consume_authorization. intros E. run_step E.
  destruct (moment_of_run now w) as (m & w1 & Em & (Hd & _ & _) & Ha & Hn).
  rewrite Em in Hrun. simplify_eq. run_step E. apply lift_run_Ok in Hrun as [Hh ->].
  run_step E. run_step E. apply moved_row_Ok in Hrun0 as (-> & Hrow & ->).
  apply update_authorization_Ok in Hrun as [(r & Hr & Hp & _ & Hv & ->)|(? & _)]; [|done].
  run_step E. apply audit_db in Hrun as [l Hau]. apply ret_run_Ok in E as [<- ->].
  cbn in Hrow, Hau. rewrite Hd in *. rewrite lookup_insert_eq in Hrow. injection Hrow as <-.
  exists r, a, a0. split_and!; try done; [|by rewrite Hau|by exists l]. intros n ->. by apply Hn.
Qed.

Lemma consume_refused i t now w r :
  db_auths (w_db w) !! i = Some r → au_status r ≠ AuthorizationStatus.ACTIVE →
  ∀ row w', consume_authorization i t now w ≠ (Ok row, w').
Proof.
  intros Hr Hs row w' E. apply consume_Ok in E as (r' & m & h & Hr' & _ & Hc & _).
  rewrite Hr in Hr'. injection Hr' as <-. by apply consumable_spec in Hc as [? _].
Qed.

(** A consumed authorization is refused for good, and the refusal costs nothing but
    an audit event. *)
Lemma consume_replayed i t now w r h :
  db_auths (w_db w) !! i = Some r → au_status r = AuthorizationStatus.CONSUMED → ledger_ok (w_db w) →
  digest t = Ok h →
  ∃ w', consume_authorization i t now w =
          (Raise (AuthorizationFailure AuthorizationReplayDetected i
             "authorization was already consumed and cannot be reused"), w') ∧
        db_auths (w_db w') = db_auths (w_db w).
Proof.
  intros Hr Hs Hok Hh. unfold consume_authorization.
  destruct (moment_of_run now w) as (m & w1 & Em & (Hd & _ & _) & _).
  unfold mbind at 1, M_bind at 1. rewrite Em. unfold lift, mbind at 1, M_bind at 1. rewrite Hh.
  unfold mbind at 1, M_bind at 1. rewrite update_authorization_cases, Hd, Hr.
  replace (consumable h m r) with false by (unfold consumable; by rewrite Hs).
  unfold moved_row. cbn [negb Z.eqb]. unfold mbind at 1, M_bind at 1. unfold mbind at 1, M_bind at 1.
  rewrite <-Hd in Hr, Hok.
  destruct (classify_consumed (A:=unit) i (Some t) m AuthorizationStatus.ACTIVE w1 r Hr Hs Hok) as (w' & E & [l Hl]).
  rewrite E. exists w'. split; [done|]. rewrite Hl. cbn. by rewrite Hd.
Qed.

(** ** The proof a payment is let through on *)
Lemma reads_Ok {A} (f : DB → A) w a w' : reads f w = (Ok a, w') → a = f (w_db w) ∧ w' = w.
Proof. unfold reads. by intros E%gets_run_Ok. Qed.

(** What BIND found when it returned. *)
Lemma bind_Ok (m : uuid) (cand : OfferCandidate) (ver : string)
    (dec : PolicyDecision) (q : Z) (nonce : string) (exp : datetime) (w w' : World) (t : BoundTransaction) :
  build_bound_transaction_from_selected_offer m cand ver dec q nonce exp w = (Ok t, w') →
  w' = w ∧ bound_transaction_wf t ∧
  ∃ row, row ∈ db_offers (w_db w) ∧ of_id row = oc_offer_id cand ∧ of_mission_id row = m ∧
    of_valid row = true ∧ of_offer_version row = ver ∧ row_offer_version row = Ok ver ∧
    (pd_decision dec = PolicyOutcome.ALLOW ∨ pd_decision dec = PolicyOutcome.REQUIRE_APPROVAL) ∧
    pd_selected_offer_id dec = Some (of_id row) ∧
    pd_requested_amount dec = Some (of_amount_inr row * q) ∧
    bt_amount_inr t = of_amount_inr row * q ∧ bt_quantity t = q ∧
    bt_merchant_id t = of_merchant_id row ∧ bt_product_id t = of_product_id row ∧
    bt_offer_version t = ver ∧ bt_policy_version t = pd_policy_version dec ∧
    bt_nonce t = nonce ∧ bt_expires_at t = exp ∧ bt_currency t = py_upper (of_currency row).
Proof.
  unfold build_bound_transaction_from_selected_offer. intros E. run_step E. apply reads_Ok in Hrun as [-> ->].
  destruct (find_offer m (oc_offer_id cand) (w_db w)) as [row|] eqn:Ef; [|run_inv E].
  apply find_offer_Some in Ef as (Hin & Hid & Hm). run_step E. apply lift_run_Ok in Hrun as [Hver ->].
  destruct (String.eqb_spec (of_offer_version row) a) as [Hs|]; cbn [negb orb] in E; [|run_inv E].
  destruct (String.eqb_spec a ver) as [->|]; cbn [negb orb] in E; [|run_inv E].
  destruct (of_valid row) eqn:Hv; cbn [negb] in E; [|run_inv E].
  apply lift_run_Ok in E as [Hb ->]. apply build_values_ok in Hb as (Hd & _ & Hsel & Hreq & Hnew).
  split; [done|]. split; [by eapply BoundTransaction_new_wf|].
  apply BoundTransaction_new_ok in Hnew as (_ & _ & ->). exists row. split_and!; done.
Qed.

Lemma require_policy_scheme_Ok row w x w' :
  require_policy_scheme row w = (Ok x, w') →
  w' = w ∧ ∃ d, decision_for row (w_db w) = Some d ∧ scheme_for d = Some (au_approval_scheme row).
Proof.
  unfold require_policy_scheme. intros E. run_step E. apply reads_Ok in Hrun as [-> ->].
  run_step E; [|unfold auth_failure in E; run_inv E].
  apply bool_decide_eq_true in Heqb. apply ret_run_Ok in E as [_ ->]. split; [done|].
  destruct (decision_for row (w_db w)) as [d|]; [|discriminate]. by exists d.
Qed.

Lemma rebuild_Ok row t :
  rebuild_bound_transaction row = Ok t →
  BoundTransaction_new (row_transaction row) = Ok t ∧ digest t = Ok (au_transaction_digest row).
Proof.
  unfold rebuild_bound_transaction. intros (t' & Ht & H1)%outcome_bind_Ok.
  apply outcome_bind_Ok in H1 as ([] & Hm & H2); cbn in H2; [|discriminate].
  apply Ok_inj in H2 as <-. split; [done|]. by apply digests_match_true.
Qed.

Lemma supplied_proof_Ok row k s :
  verify_supplied_user_proof row k s = Ok tt →
  verify_user_ed25519_signature (au_authorization_id row) (au_mission_id row)
    (au_binding_version row) (au_transaction_digest row) k s = Ok tt.
Proof.
  unfold verify_supplied_user_proof. destruct (verify_user_ed25519_signature _ _ _ _ _ _) as [[]|[]]; done.
Qed.

(** The signature was made by the enrolled key over this authorization's message. *)
Definition proof_verifies (row : AuthorizationRow) (key_id signature : string) : Prop :=
  key_id = env_signing_key_id ∧ ∃ key kb sig msg,
    env_public_key_hex = Some key ∧ bytes_fromhex key = Some kb ∧ bytes_fromhex signature = Some sig ∧
    approval_message (au_authorization_id row) (au_mission_id row) (au_binding_version row)
      (au_transaction_digest row) key_id = Ok msg ∧
    env_ed25519_verify kb sig msg = true.

Lemma supplied_proof_verifies row k s : verify_supplied_user_proof row k s = Ok tt → proof_verifies row k s.
Proof.
  intros Hv. apply supplied_proof_Ok, verify_signature_ok in Hv as (Hk & key & sig & msg & H1 & H2 & H3 & kb & H4 & _ & H5).
  split; [done|]. exists key, kb, sig, msg. done.
Qed.
Lemma verify_payment_Ok row s now w t w' :
  verify_authorization_for_payment row s now w = (Ok t, w') →
  w' = w ∧ BoundTransaction_new (row_transaction row) = Ok t ∧
  digest t = Ok (au_transaction_digest row) ∧ au_binding_version row = BINDING_VERSION ∧
  au_status row = s ∧
  (s = AuthorizationStatus.ACTIVE → dt_instant now < dt_instant (as_utc (au_expires_at row))) ∧
  ∃ d, decision_for row (w_db w) = Some d ∧
    ((d = PolicyOutcome.ALLOW ∧ au_approval_scheme row = ApprovalScheme.POLICY_AUTO ∧
      au_signing_key_id row = None ∧ au_approval_signature row = None) ∨
     (d = PolicyOutcome.REQUIRE_APPROVAL ∧ au_approval_scheme row = ApprovalScheme.USER_ED25519 ∧
      ∃ key sig, au_signing_key_id row = Some key ∧ au_approval_signature row = Some sig ∧
        proof_verifies row key sig)).
Proof.
  unfold verify_authorization_for_payment. intros E. run_step E. apply lift_run_Ok in Hrun as [Hb ->].
  apply rebuild_Ok in Hb as [Hb Hd].
  destruct (String.eqb_spec (au_binding_version row) BINDING_VERSION) as [Hv|]; cbn [negb] in E;
    [|unfold auth_failure in E; run_inv E].
  destruct (bool_decide_reflect (au_status row = s)) as [Hs|]; cbn [negb] in E.
  2:{ run_step E. unfold auth_failure in E. run_inv E. }
  assert (Hexp : s = AuthorizationStatus.ACTIVE → dt_geb now (as_utc (au_expires_at row)) = false).
  { intros ->. destruct (dt_geb _ _) eqn:Eg; [|done]. rewrite bool_decide_eq_true_2 in E by done.
    cbn [andb] in E. run_step E. unfold auth_failure in E. run_inv E. }
  destruct (bool_decide (s = AuthorizationStatus.ACTIVE) && _) eqn:Eb.
  { run_step E. unfold auth_failure in E. run_inv E. }
  run_step E. apply require_policy_scheme_Ok in Hrun as [-> (d & Hdec & Hsch)].
  assert (Hd' : d = match au_approval_scheme row with ApprovalScheme.USER_ED25519 => PolicyOutcome.REQUIRE_APPROVAL
                    | _ => PolicyOutcome.ALLOW end ∧ au_approval_scheme row ≠ ApprovalScheme.LEGACY_SERVER).
  { destruct d; cbn in Hsch; simplify_eq; by rewrite <-Hsch. }
  destruct Hd' as [Hd' Hleg]. assert (Hlt : s = AuthorizationStatus.ACTIVE → dt_instant now < dt_instant (as_utc (au_expires_at row))).
  { intros Hact. specialize (Hexp Hact). unfold dt_geb in Hexp. lia. }
  destruct (au_approval_scheme row) eqn:Es; [| |by destruct Hleg].
  - destruct (au_signing_key_id row) eqn:Ek, (au_approval_signature row) eqn:Eg; cbn [is_some orb] in E;
      try (unfold proof_scheme_invalid, auth_failure in E; run_inv E; fail).
    apply ret_run_Ok in E as [-> ->]. split_and!; try done. exists d. split; [done|]. by left.
  - destruct (au_signing_key_id row) as [key|] eqn:Ek, (au_approval_signature row) as [sig|] eqn:Eg;
      try (unfold auth_failure in E; run_inv E; fail).
    run_step E. apply lift_run_Ok in Hrun as [Hp ->]. destruct a1. apply ret_run_Ok in E as [-> ->].
    split_and!; try done. exists d. split; [done|]. right. split_and!; try done.
    exists key, sig. split; [done|]. split; [done|]. exact (supplied_proof_verifies row key sig Hp).
Qed.

(** ** Approval *)
Lemma on_proof_failure_Ok {A} row k e w (a : A) w' : on_proof_failure row k e w ≠ (Ok a, w').
Proof. intros E. unfold on_proof_failure in E. run_inv E. Qed.

Lemma approve_Ok m i k s now w row w' :
  approve_authorization_with_signature m i k s now w = (Ok row, w') →
  ∃ r moment, db_auths (w_db w) !! i = Some r ∧ au_mission_id r = m ∧
    au_status r = AuthorizationStatus.PENDING ∧ au_approval_scheme r = ApprovalScheme.USER_ED25519 ∧
    (∀ n, now = Some n → moment = as_utc n) ∧ dt_instant moment < dt_instant (as_utc (au_expires_at r)) ∧
    (∃ t, BoundTransaction_new (row_transaction r) = Ok t ∧ digest t = Ok (au_transaction_digest r)) ∧
    au_binding_version r = BINDING_VERSION ∧
    decision_for r (w_db w) = Some PolicyOutcome.REQUIRE_APPROVAL ∧ proof_verifies r k s ∧
    row = set_au_approval_signature (Some s) (set_au_signing_key_id (Some k)
            (set_au_status AuthorizationStatus.ACTIVE r)) ∧
    db_auths (w_db w') = <[i := row]> (db_auths (w_db w)).
Proof.
  unfold approve_authorization_with_signature. intros E. run_step E.
  destruct (moment_of_run now w) as (mo & w1 & Em & (Hd & _ & _) & _ & Hn).
  rewrite Em in Hrun. simplify_eq. rename a into mo, s0 into w1. run_step E.
  unfold reload in Hrun. apply reads_Ok in Hrun as [-> ->]. rewrite Hd in E.
  destruct (db_auths (w_db w) !! i) as [r|] eqn:Hr; [|unfold auth_failure in E; run_inv E].
  destruct (bool_decide_reflect (au_mission_id r = m)) as [Hm|]; cbn [negb] in E;
    [|unfold auth_failure in E; run_inv E].
  run_step E. destruct (negb (bool_decide (au_status r = AuthorizationStatus.PENDING)) || _) eqn:Hlive;
    [by apply classify_never_Ok in Hrun|]. apply ret_run_Ok in Hrun as [_ ->].
  apply orb_false_iff in Hlive as [Hp Hexp]. apply negb_false_iff, bool_decide_eq_true in Hp.
  destruct (bool_decide_reflect (au_approval_scheme r = ApprovalScheme.USER_ED25519)) as [Hs|]; cbn [negb] in E.
  2:{ run_step E. unfold auth_failure in E. run_inv E. }
  run_step E. apply lift_run_Ok in Hrun as [Hb ->]. apply rebuild_Ok in Hb.
  destruct (String.eqb_spec (au_binding_version r) BINDING_VERSION) as [Hv|]; cbn [negb] in E;
    [|unfold auth_failure in E; run_inv E].
  run_step E. apply try_run_Ok in Hrun as [Hrun|(e & s1 & _ & Hrun)]; [|by apply on_proof_failure_Ok in Hrun].
  run_step Hrun. apply require_policy_scheme_Ok in Hrun0 as [-> (d & Hdec & Hsch)].
  apply lift_run_Ok in Hrun as [Hproof ->]. match type of Hproof with _ = Ok ?x => destruct x end.
  apply supplied_proof_verifies in Hproof. rewrite Hd in Hdec.
  assert (d = PolicyOutcome.REQUIRE_APPROVAL) as -> by (rewrite Hs in Hsch; by destruct d).
  run_step E. run_step E. apply moved_row_Ok in Hrun0 as (-> & Hrow & ->).
  apply update_authorization_Ok in Hrun as [(r' & Hr' & _ & _ & _ & ->)|(? & _)]; [|done].
  rewrite Hd, Hr in Hr'. injection Hr' as <-. cbn in Hrow. rewrite Hd, lookup_insert_eq in Hrow.
  injection Hrow as <-. run_step E. apply audit_Ok in Hrun as [Hau _]. apply ret_run_Ok in E as [-> ->].
  cbn in Hau. rewrite Hd in Hau. exists r, mo. split_and!; try done.
  - intros n ->. by apply Hn.
  - unfold dt_geb in Hexp. lia.
  - by eexists.
Qed.

(** ** Issuance *)
Lemma flush_checked_Ok checks w x w' : flush_checked checks w = (Ok x, w') → violates checks = None ∧ w' = w.
Proof. rewrite flush_checked_cases. destruct (violates checks); [done|]. by intros [= _ <-]. Qed.

Lemma insert_authorization_Ok r w x w' :
  insert_authorization r w = (Ok x, w') →
  db_auths (w_db w) !! au_authorization_id r = None ∧ nonce_unused (au_nonce r) (w_db w) = true ∧
  violates (authorization_checks r) = None ∧
  w' = set_w_db (set_db_auths (<[au_authorization_id r := r]> (db_auths (w_db w))) (w_db w)) w.
Proof.
  unfold insert_authorization. intros E. run_step E. apply reads_Ok in Hrun as [-> ->]. run_step E.
  apply flush_checked_Ok in Hrun as [Hv ->]. unfold writes in E. apply modify_run_Ok in E as [_ ->].
  unfold violates in *. cbn [List.find fst snd fmap option_fmap option_map] in Hv.
  destruct (db_auths (w_db w) !! au_authorization_id r); cbn [is_none is_some negb] in Hv; [discriminate|].
  destruct (nonce_unused (au_nonce r) (w_db w)); cbn [negb] in Hv; [|discriminate]. done.
Qed.

Lemma issue_Ok c m t s at_ w row w' :
  issue_authorization c m t s at_ w = (Ok row, w') →
  cs_principal c = "security-kernel" ∧ s ≠ ApprovalScheme.LEGACY_SERVER ∧
  ∃ now id h, digest t = Ok h ∧ dt_instant now < dt_instant (bt_expires_at t) ∧
    row = mkAuthorizationRow id m h (bt_nonce t) BINDING_VERSION (bt_policy_version t)
            (bt_offer_version t) s None None AuthorizationStatus.PENDING now (bt_expires_at t) None
            (bt_merchant_id t) (bt_product_id t) (bt_quantity t) (bt_amount_inr t) (bt_currency t) ∧
    nonce_unused (bt_nonce t) (w_db w) = true ∧ db_auths (w_db w) !! id = None ∧
    db_auths (w_db w') = <[id := row]> (db_auths (w_db w)).
Proof.
  unfold issue_authorization. intros E. run_step E.
  assert (Hc : fst (enforce_registered c Capability.AUTHORIZATION_ISSUE w) = Ok tt)
    by (rewrite Hrun; by destruct a). apply issue_holder in Hc. split; [done|].
  rewrite enforce_registered_cases in Hrun. destruct (_ && _) in Hrun; [|done]. injection Hrun as <- <-.
  run_step E. unfold require in Hrun. destruct (bool_decide_reflect (s = ApprovalScheme.LEGACY_SERVER)); cbn [negb] in Hrun;
    [done|]. apply ret_run_Ok in Hrun as [_ ->]. split; [done|].
  run_step E. destruct (moment_of_run at_ w) as (mo & w1 & Em & (Hd & _ & _) & _).
  rewrite Em in Hrun. simplify_eq. rename a0 into mo, s0 into w1. run_step E.
  destruct (dt_gtb (bt_expires_at t) mo) eqn:Hg; cbn [require] in Hrun; [|done].
  apply ret_run_Ok in Hrun as [_ ->]. run_step E. apply lift_run_Ok in Hrun as [Hh ->].
  run_step E. unfold uuid4 in Hrun. injection Hrun as <- <-. run_step E.
  apply insert_authorization_Ok in Hrun as (Hid & Hn & _ & ->). run_step E.
  apply audit_Ok in Hrun as [Hau _]. apply ret_run_Ok in E as [-> ->].
  cbn in Hid, Hn, Hau. rewrite Hd in *.
  exists mo, (w_fresh w1 + 1)%N, a1. split_and!; try done.
  unfold dt_gtb in Hg. lia.
Qed.

(** The row an issue stores re-derives to its own digest. *)
Lemma rebuild_issued t row :
  BoundTransaction_new t = Ok t → digest t = Ok (au_transaction_digest row) →
  row_transaction row = mkBoundTransaction (bt_merchant_id t) (bt_product_id t) (bt_quantity t)
    (bt_amount_inr t) (bt_currency t) (bt_policy_version t) (bt_offer_version t)
    (as_utc (bt_expires_at t)) (bt_nonce t) →
  ∃ t', rebuild_bound_transaction row = Ok t' ∧ bound_equiv t' t.
Proof.
  intros Hnew Hdig Hrow. apply BoundTransaction_new_ok in Hnew as (He & Ha & Ht).
  assert (Hcur : py_upper (bt_currency t) = bt_currency t) by (rewrite Ht at 2; done).
  assert (Heq : bound_equiv (row_transaction row) t).
  { rewrite Hrow. unfold bound_equiv. cbn. rewrite as_utc_instant. split_and!; done. }
  exists (row_transaction row). split; [|done]. unfold rebuild_bound_transaction.
  assert (Hnew : BoundTransaction_new (row_transaction row) = Ok (row_transaction row)).
  { rewrite Hrow. unfold BoundTransaction_new.
    replace (bound_transaction_error (mkBoundTransaction _ _ _ _ _ _ _ _ _)) with (bound_transaction_error t) by done.
    rewrite He. cbn [bt_expires_at]. rewrite as_utc_aware. cbn. by rewrite Hcur. }
  rewrite Hnew. unfold mbind at 1, outcome_bind at 1. unfold digests_match.
  rewrite (digest_equiv _ _ Heq), Hdig.
  - unfold mbind, outcome_bind. by rewrite String.eqb_refl.
  - rewrite Hrow, Ha. apply as_utc_aware.
Qed.
End Runs.
