(* ===== verification/AuthorizationProperties.v ===== *)
(** * Properties of the authorization lifecycle

    Consumption happens once, a payment is let through on a proof only, approval
    needs a signature over the very authorization, issuance is the kernel's, and
    nothing a lifecycle call does rewrites what was approved. *)
From S2P Require Import Prelude Python PyFloat Json Text Enums Errors Firewall Canonical Transaction.
From S2P Require Import StateMachines Merchant Kernel Policy Database Hashing Evolution Ledger Binding.
From S2P Require Import Authorization AuthorizationTheorems.

(** ** A world with one active authorization, for the witnesses *)
Definition approved_transaction : BoundTransaction := example_transaction (utc 1767269700000000).
Definition approved_digest : string :=
  match digest approved_transaction with Ok h => h | Raise _ => "" end.
Definition authorization_row (scheme : ApprovalScheme) (status : AuthorizationStatus) : AuthorizationRow :=
  mkAuthorizationRow 11%N 7%N approved_digest (bt_nonce approved_transaction) BINDING_VERSION
    (bt_policy_version approved_transaction) (bt_offer_version approved_transaction) scheme None None
    status noon_utc (bt_expires_at approved_transaction) None (bt_merchant_id approved_transaction)
    (bt_product_id approved_transaction) (bt_quantity approved_transaction)
    (bt_amount_inr approved_transaction) (bt_currency approved_transaction).
Definition db_with (row : AuthorizationRow) (outcome : PolicyOutcome) : DB :=
  set_db_decisions [mkPolicyDecisionRow 5%N 7%N outcome "policy-v1" [] (Some 4299) 5000 6000 (Some 3%N)]
    (set_db_auths {[ 11%N := row ]} db_empty).
Definition world_with (scheme : ApprovalScheme) (status : AuthorizationStatus) (outcome : PolicyOutcome) : World :=
  demo_world (db_with (authorization_row scheme status) outcome).

Lemma ledger_ok_no_audit d : db_audit d = [] → ledger_ok d.
Proof. intros E m. unfold mission_events. rewrite E. constructor. Qed.

(** ** The lifecycle as a sequence of calls *)
Section Lifecycle.
Context `{Env}.

Inductive lifecycle_call : Type :=
  | CallIssue (c : CapabilitySet) (m : uuid) (t : BoundTransaction) (s : ApprovalScheme) (now : option datetime)
  | CallActivate (i : uuid) (now : option datetime)
  | CallApprove (m i : uuid) (key signature : string) (now : option datetime)
  | CallVerify (row : AuthorizationRow) (expected : AuthorizationStatus) (now : datetime)
  | CallConsume (i : uuid) (t : BoundTransaction) (now : option datetime)
  | CallRevoke (i : uuid) (reason : string) (now : option datetime)
  | CallExpire (i : uuid) (now : option datetime).

(** The world a call leaves, whether it returned or raised. *)
Definition after_call (w : World) (k : lifecycle_call) : World :=
  match k with
  | CallIssue c m t s now => snd (issue_authorization c m t s now w)
  | CallActivate i now => snd (activate_authorization i now w)
  | CallApprove m i key signature now => snd (approve_authorization_with_signature m i key signature now w)
  | CallVerify row expected now => snd (verify_authorization_for_payment row expected now w)
  | CallConsume i t now => snd (consume_authorization i t now w)
  | CallRevoke i reason now => snd (revoke_authorization i reason now w)
  | CallExpire i now => snd (expire_if_stale i now w)
  end.
Definition after_calls (w : World) (calls : list lifecycle_call) : World := fold_left after_call calls w.

Lemma after_call_le w k : sess_le w (after_call w k).
Proof.
  destruct k; cbn [after_call].
  - apply evolves_issue.
  - apply evolves_activate.
  - apply evolves_approve.
  - apply evolves_verify.
  - apply evolves_consume.
  - apply evolves_revoke.
  - apply evolves_expire_if_stale.
Qed.
Lemma after_calls_le l w : sess_le w (after_calls w l).
Proof.
  revert w. induction l as [|k l IH]; intros w; [reflexivity|]. cbn.
  etrans; [apply after_call_le|apply IH].
Qed.
End Lifecycle.

(** ** Properties *)
Section Properties.
Context `{Env}.

(** C7: An authorization is spent once.  A consumption that returns found the row
    ACTIVE, unexpired, with the digest of the very transaction presented, and left
    exactly that row CONSUMED; and in every later state of the database, whatever
    else ran in between, every further attempt, with any transaction and at any
    time, raises AuthorizationReplayDetected and changes no authorization. *)
Theorem consume_exactly_once (i : uuid) (t : BoundTransaction) (now : option datetime) (w w' : World)
    (row : AuthorizationRow) :
  consume_authorization i t now w = (Ok row, w') → ledger_ok (w_db w) →
  (∃ r moment, db_auths (w_db w) !! i = Some r ∧ au_status r = AuthorizationStatus.ACTIVE ∧
     digest t = Ok (au_transaction_digest r) ∧ dt_instant moment < dt_instant (au_expires_at r) ∧
     (∀ n, now = Some n → dt_instant moment = dt_instant n) ∧
     row = set_au_consumed_at (Some moment) (set_au_status AuthorizationStatus.CONSUMED r) ∧
     db_auths (w_db w') = <[i := row]> (db_auths (w_db w))) ∧
  ∀ (w2 : World) (t2 : BoundTransaction) (now2 : option datetime),
    db_le (w_db w') (w_db w2) → is_ok (digest t2) = true →
    ∃ w3, consume_authorization i t2 now2 w2 =
            (Raise (AuthorizationFailure AuthorizationReplayDetected i
               "authorization was already consumed and cannot be reused"), w3) ∧
          db_auths (w_db w3) = db_auths (w_db w2).
Proof.
  intros Hc Hok.
  assert (Hok' : ledger_ok (w_db w')).
  { pose proof (evolves_consume i t now w) as Hle. rewrite Hc in Hle. by apply (dl_ledger _ _ (sl_db _ _ Hle)). }
  apply consume_Ok in Hc as (r & moment & h & Hr & Hh & Hcons & Ha & Hnow & -> & Hau & _).
  apply consumable_spec in Hcons as (Hs & Hd & Hlt). split.
  - exists r, moment. split_and!; try done; [by rewrite Hd|]. intros n Hn. rewrite (Hnow n Hn). apply as_utc_instant.
  - intros w2 t2 now2 Hle Hd2.
    assert (Hr' : db_auths (w_db w') !! i = Some (consumed moment r)) by (by rewrite Hau, lookup_insert_eq).
    destruct (dl_auths _ _ Hle i _ Hr') as (r2 & Hr2 & Hle2).
    destruct (digest t2) as [h2|] eqn:Eh; [|discriminate].
    apply (consume_replayed i t2 now2 w2 r2 h2); [done| |by apply (dl_ledger _ _ Hle)|done].
    pose proof (al_status _ _ Hle2) as Hrun. by apply AuthorizationFSM.final_run in Hrun.
Qed.

(** C8: A payment is let through on evidence only.  When
    [verify_authorization_for_payment] returns it wrote nothing, and: the stored
    columns rebuild to the transaction returned, whose digest is the approved one;
    the status is the one expected, unexpired if ACTIVE; and either the recorded
    policy decision ALLOWed it without any user proof, or it was REQUIRE_APPROVAL
    and the stored signature verifies, under the enrolled key, over the message
    that names this authorization, mission and digest. *)
Theorem verify_for_payment_sound (row : AuthorizationRow) (expected : AuthorizationStatus) (now : datetime)
    (w w' : World) (t : BoundTransaction) :
  verify_authorization_for_payment row expected now w = (Ok t, w') →
  w' = w ∧ BoundTransaction_new (row_transaction row) = Ok t ∧
  digest t = Ok (au_transaction_digest row) ∧ au_binding_version row = BINDING_VERSION ∧
  au_status row = expected ∧
  (expected = AuthorizationStatus.ACTIVE → dt_instant now < dt_instant (as_utc (au_expires_at row))) ∧
  ∃ d, decision_for row (w_db w) = Some d ∧
    ((d = PolicyOutcome.ALLOW ∧ au_approval_scheme row = ApprovalScheme.POLICY_AUTO ∧
      au_signing_key_id row = None ∧ au_approval_signature row = None) ∨
     (d = PolicyOutcome.REQUIRE_APPROVAL ∧ au_approval_scheme row = ApprovalScheme.USER_ED25519 ∧
      ∃ key sig, au_signing_key_id row = Some key ∧ au_approval_signature row = Some sig ∧
        proof_verifies row key sig)).
Proof. apply verify_payment_Ok. Qed.

(** Only a verified signature approves.  When
    [approve_authorization_with_signature] returns, the stored row was this
    mission's, PENDING, unexpired, a USER_ED25519 authorization under a
    REQUIRE_APPROVAL decision, its digest re-derives from its columns, and the
    signature presented verifies over its own approval message under the enrolled
    key; the row becomes ACTIVE carrying exactly that proof and no other
    authorization changes. *)
Theorem approval_needs_signature (m i : uuid) (key sig : string) (now : option datetime) (w w' : World)
    (row : AuthorizationRow) :
  approve_authorization_with_signature m i key sig now w = (Ok row, w') →
  ∃ r moment, db_auths (w_db w) !! i = Some r ∧ au_mission_id r = m ∧
    au_status r = AuthorizationStatus.PENDING ∧ au_approval_scheme r = ApprovalScheme.USER_ED25519 ∧
    (∀ n, now = Some n → moment = as_utc n) ∧ dt_instant moment < dt_instant (as_utc (au_expires_at r)) ∧
    (∃ t, BoundTransaction_new (row_transaction r) = Ok t ∧ digest t = Ok (au_transaction_digest r)) ∧
    au_binding_version r = BINDING_VERSION ∧
    decision_for r (w_db w) = Some PolicyOutcome.REQUIRE_APPROVAL ∧ proof_verifies r key sig ∧
    row = set_au_approval_signature (Some sig) (set_au_signing_key_id (Some key)
            (set_au_status AuthorizationStatus.ACTIVE r)) ∧
    db_auths (w_db w') = <[i := row]> (db_auths (w_db w)).
Proof. apply approve_Ok. Qed.

(** Issuance.  An authorization that [issue_authorization] returns was issued
    by security-kernel, for a transaction not yet expired and a nonce no other
    authorization carries; it is stored under a new identifier, PENDING and without
    proof; and its columns rebuild to a transaction equal, field by field, to the
    one approved, with the same digest. *)
Theorem issue_stores_what_was_approved (c : CapabilitySet) (m : uuid) (t : BoundTransaction)
    (s : ApprovalScheme) (at_ : option datetime) (w w' : World) (row : AuthorizationRow) :
  BoundTransaction_new t = Ok t →
  issue_authorization c m t s at_ w = (Ok row, w') →
  cs_principal c = "security-kernel" ∧ s ≠ ApprovalScheme.LEGACY_SERVER ∧
  dt_instant (au_issued_at row) < dt_instant (au_expires_at row) ∧
  au_status row = AuthorizationStatus.PENDING ∧ au_signing_key_id row = None ∧
  au_approval_signature row = None ∧ au_mission_id row = m ∧
  nonce_unused (au_nonce row) (w_db w) = true ∧
  db_auths (w_db w) !! au_authorization_id row = None ∧
  db_auths (w_db w') = <[au_authorization_id row := row]> (db_auths (w_db w)) ∧
  digest t = Ok (au_transaction_digest row) ∧
  ∃ t', rebuild_bound_transaction row = Ok t' ∧ bound_equiv t' t.
Proof.
  intros Hnew E. apply issue_Ok in E as (Hc & Hs & now & id & h & Hh & Hlt & -> & Hn & Hid & Hau).
  split_and!; try done. by apply rebuild_issued.
Qed.

(** C32: The lifecycle is one-way.  Through any sequence of lifecycle calls, whether
    each returned or raised, an authorization keeps every column that was approved;
    its status follows PENDING, ACTIVE, CONSUMED with EXPIRED and REVOKED as exits,
    so a CONSUMED, EXPIRED or REVOKED row never changes status again; a proof once
    recorded is never replaced; and the audit ledger stays a valid chain that only
    grows. *)
Theorem authorization_lifecycle_one_way (calls : list lifecycle_call) (w : World) (i : uuid)
    (r : AuthorizationRow) :
  db_auths (w_db w) !! i = Some r → ledger_ok (w_db w) →
  (∃ r', db_auths (w_db (after_calls w calls)) !! i = Some r' ∧
     auth_immutable r' = auth_immutable r ∧ AuthorizationFSM.run (au_status r) (au_status r') ∧
     (AuthorizationFSM.final (au_status r) = true → au_status r' = au_status r) ∧
     (∀ key, au_signing_key_id r = Some key → au_signing_key_id r' = Some key) ∧
     (∀ sig, au_approval_signature r = Some sig → au_approval_signature r' = Some sig)) ∧
  ledger_ok (w_db (after_calls w calls)) ∧
  ∃ l, db_audit (w_db (after_calls w calls)) = db_audit (w_db w) ++ l.
Proof.
  intros Hr Hok. pose proof (sl_db _ _ (after_calls_le calls w)) as Hle. split; [|split].
  - destruct (dl_auths _ _ Hle i r Hr) as (r' & Hr' & Hr1). exists r'. split; [done|].
    split; [by apply al_immutable|]. split; [by apply al_status|]. split; [|split].
    + intros Hf. by apply (AuthorizationFSM.final_run _ _ Hf), al_status.
    + intros key Hk. destruct (al_key _ _ Hr1) as [?|Hk']; congruence.
    + intros sig Hk. destruct (al_signature _ _ Hr1) as [?|Hk']; congruence.
  - by apply (dl_ledger _ _ Hle).
  - destruct (dl_audit _ _ Hle) as (l1 & l2 & E & H2). exists l2. rewrite E. f_equal.
    clear -H2. by induction H2 as [|x y ? ? -> _ ->].
Qed.
End Properties.

#[local] Existing Instance demo_env.

Lemma consume_exactly_once_witness :
  ∃ row w' w3, consume_authorization 11%N approved_transaction (Some noon_utc)
      (world_with ApprovalScheme.POLICY_AUTO AuthorizationStatus.ACTIVE PolicyOutcome.ALLOW) = (Ok row, w') ∧
    consume_authorization 11%N approved_transaction (Some noon_utc) w' =
      (Raise (AuthorizationFailure AuthorizationReplayDetected 11%N
         "authorization was already consumed and cannot be reused"), w3).
Proof.
  destruct (run_ok (consume_authorization 11%N approved_transaction (Some noon_utc))
    (world_with ApprovalScheme.POLICY_AUTO AuthorizationStatus.ACTIVE PolicyOutcome.ALLOW))
    as (row & w' & E); [vm_compute; reflexivity|].
  destruct (consume_exactly_once 11%N approved_transaction (Some noon_utc) _ w' row E) as [_ Hreplay].
  - apply ledger_ok_no_audit. reflexivity.
  - destruct (Hreplay w' approved_transaction (Some noon_utc)) as (w3 & E3 & _);
      [reflexivity|vm_compute; reflexivity|].
    exists row, w', w3. split; [exact E|exact E3].
Defined.

Lemma verify_for_payment_sound_witness :
  ∃ t w', verify_authorization_for_payment (authorization_row ApprovalScheme.POLICY_AUTO AuthorizationStatus.ACTIVE)
      AuthorizationStatus.ACTIVE noon_utc
      (world_with ApprovalScheme.POLICY_AUTO AuthorizationStatus.ACTIVE PolicyOutcome.ALLOW) = (Ok t, w') ∧
    digest t = Ok approved_digest.
Proof.
  destruct (run_ok (verify_authorization_for_payment
    (authorization_row ApprovalScheme.POLICY_AUTO AuthorizationStatus.ACTIVE) AuthorizationStatus.ACTIVE noon_utc)
    (world_with ApprovalScheme.POLICY_AUTO AuthorizationStatus.ACTIVE PolicyOutcome.ALLOW))
    as (t & w' & E); [vm_compute; reflexivity|].
  exists t, w'. split; [exact E|].
  destruct (verify_for_payment_sound _ _ _ _ _ _ E) as (_ & _ & Hd & _). exact Hd.
Defined.

(** 128 lowercase hexadecimal characters. *)
Definition some_signature : string := example_digest +:+ example_digest.
Lemma approval_needs_signature_witness :
  ∃ row w', approve_authorization_with_signature 7%N 11%N "demo-approver-1" some_signature (Some noon_utc)
      (world_with ApprovalScheme.USER_ED25519 AuthorizationStatus.PENDING PolicyOutcome.REQUIRE_APPROVAL)
      = (Ok row, w') ∧
    db_auths (w_db w') !! 11%N = Some row.
Proof.
  destruct (run_ok (approve_authorization_with_signature 7%N 11%N "demo-approver-1" some_signature (Some noon_utc))
    (world_with ApprovalScheme.USER_ED25519 AuthorizationStatus.PENDING PolicyOutcome.REQUIRE_APPROVAL))
    as (row & w' & E); [vm_compute; reflexivity|].
  exists row, w'. split; [exact E|].
  destruct (approval_needs_signature _ _ _ _ _ _ _ _ E)
    as (r & mo & _ & _ & _ & _ & _ & _ & _ & _ & _ & _ & _ & Hau).
  rewrite Hau. apply lookup_insert_eq.
Defined.

Lemma issue_stores_what_was_approved_witness :
  ∃ row w' t', issue_authorization (security_kernel_capabilities "security-kernel") 7%N approved_transaction
      ApprovalScheme.POLICY_AUTO (Some noon_utc) (demo_world db_empty) = (Ok row, w') ∧
    rebuild_bound_transaction row = Ok t' ∧ bound_equiv t' approved_transaction.
Proof.
  destruct (run_ok (issue_authorization (security_kernel_capabilities "security-kernel") 7%N
    approved_transaction ApprovalScheme.POLICY_AUTO (Some noon_utc)) (demo_world db_empty))
    as (row & w' & E); [vm_compute; reflexivity|].
  destruct (issue_stores_what_was_approved _ _ approved_transaction _ _ _ _ _ ltac:(vm_compute; reflexivity) E)
    as (_ & _ & _ & _ & _ & _ & _ & _ & _ & _ & _ & t' & Ht' & He).
  exists row, w', t'. split; [exact E|]. split; [exact Ht'|exact He].
Defined.

Lemma authorization_lifecycle_one_way_witness :
  ledger_ok (w_db (after_calls
    (world_with ApprovalScheme.POLICY_AUTO AuthorizationStatus.PENDING PolicyOutcome.ALLOW)
    [CallActivate 11%N (Some noon_utc); CallConsume 11%N approved_transaction (Some noon_utc);
     CallRevoke 11%N "late" (Some noon_utc)])).
Proof.
  destruct (authorization_lifecycle_one_way
    [CallActivate 11%N (Some noon_utc); CallConsume 11%N approved_transaction (Some noon_utc);
     CallRevoke 11%N "late" (Some noon_utc)]
    (world_with ApprovalScheme.POLICY_AUTO AuthorizationStatus.PENDING PolicyOutcome.ALLOW) 11%N
    (authorization_row ApprovalScheme.POLICY_AUTO AuthorizationStatus.PENDING)) as (_ & Hok & _).
  - reflexivity.
  - apply ledger_ok_no_audit. reflexivity.
  - exact Hok.
Defined.

(** ** Binding the selected offer *)
Section Bind.
Context `{Env}.

(** BIND takes the price from the record and from the decision, and only when
    they agree.  When [build_bound_transaction_from_selected_offer] returns, the
    offer row of this mission is the one selected, is valid, and both its stored
    and its recomputed version are the version ranked at selection; the decision is
    ALLOW or REQUIRE_APPROVAL, for that offer; the amount bound is the row's unit
    price times the quantity and equals the adjudicated amount; and nothing was
    written. *)
Theorem bind_takes_the_adjudicated_offer (m : uuid) (cand : OfferCandidate) (ver : string)
    (dec : PolicyDecision) (q : Z) (nonce : string) (exp : datetime) (w w' : World) (t : BoundTransaction) :
  build_bound_transaction_from_selected_offer m cand ver dec q nonce exp w = (Ok t, w') →
  w' = w ∧ bound_transaction_wf t ∧
  ∃ row, row ∈ db_offers (w_db w) ∧ of_id row = oc_offer_id cand ∧ of_mission_id row = m ∧
    of_valid row = true ∧ of_offer_version row = ver ∧ row_offer_version row = Ok ver ∧
    (pd_decision dec = PolicyOutcome.ALLOW ∨ pd_decision dec = PolicyOutcome.REQUIRE_APPROVAL) ∧
    pd_selected_offer_id dec = Some (of_id row) ∧
    pd_requested_amount dec = Some (of_amount_inr row * q) ∧
    bt_amount_inr t = of_amount_inr row * q ∧ bt_quantity t = q ∧
    bt_merchant_id t = of_merchant_id row ∧ bt_product_id t = of_product_id row ∧
    bt_offer_version t = ver ∧ bt_policy_version t = pd_policy_version dec ∧
    bt_nonce t = nonce ∧ bt_expires_at t = exp ∧ bt_currency t = py_upper (of_currency row).
Proof.
  apply bind_Ok.
Qed.
End Bind.

Definition demo_offer (version : string) : OfferRow :=
  mkOfferRow 3%N 7%N version "merchant_a" "Merchant A" (fl_of_Z 1) "aur-eb-01" "Earbuds" 4299 "INR"
    (fl_of_Z 4) true noon_utc true [] (Some 1) [].
Definition demo_offer_version : string :=
  match row_offer_version (demo_offer "x") with Ok v => v | Raise _ => "x" end.
Definition demo_decision : PolicyDecision :=
  mkPolicyDecision PolicyOutcome.ALLOW "policy-v1" [] (Some 8598) 9000 9500 (Some 3%N).

Lemma bind_takes_the_adjudicated_offer_witness :
  ∃ t w', build_bound_transaction_from_selected_offer 7%N (mkOfferCandidate 3%N) demo_offer_version
      demo_decision 2 (bt_nonce approved_transaction) (bt_expires_at approved_transaction)
      (demo_world (set_db_offers [demo_offer demo_offer_version] db_empty)) = (Ok t, w') ∧
    bt_quantity t = 2 ∧ ∃ row, row ∈ [demo_offer demo_offer_version] ∧ bt_amount_inr t = of_amount_inr row * 2.
Proof.
  destruct (run_ok (build_bound_transaction_from_selected_offer 7%N (mkOfferCandidate 3%N) demo_offer_version
      demo_decision 2 (bt_nonce approved_transaction) (bt_expires_at approved_transaction))
      (demo_world (set_db_offers [demo_offer demo_offer_version] db_empty))) as (t & w' & E);
    [vm_compute; reflexivity|].
  exists t, w'. split; [exact E|].
  destruct (bind_takes_the_adjudicated_offer _ _ _ _ _ _ _ _ _ _ E)
    as (_ & _ & row & Hin & _ & _ & _ & _ & _ & _ & _ & _ & Ha & Hq & _).
  split; [exact Hq|]. exists row. split; [exact Hin|exact Ha].
Defined.
