(* ===== verification/Outbox.v ===== *)
(** * The transactional outbox

    services/payment_executor/outbox.py: enqueue, claim, complete, retry with
    backoff, dead-letter. *)
From S2P Require Import Prelude Python PyFloat Json Text Enums Errors StateMachines Payment Database.
From S2P Require Import Hashing Evolution.

(** A [timedelta], in microseconds. *)
Definition DEFAULT_LEASE : Z := seconds 30.
Definition BACKOFF_SECONDS : list Z := [1; 2; 5; 15; 30; 60; 120; 300].
Definition DEFAULT_MAX_ATTEMPTS : Z := 8.

Definition backoff_for (attempts : Z) : Z :=
  let index := Z.min (Z.max (attempts - 1) 0) (Z.of_nat (length BACKOFF_SECONDS) - 1) in
  seconds (nth (Z.to_nat index) BACKOFF_SECONDS 0).

(** [PENDING] or [IN_PROGRESS]: still to be worked on. *)
Definition is_open (s : OutboxStatus) : bool :=
  match s with OutboxStatus.PENDING | OutboxStatus.IN_PROGRESS => true | _ => false end.

Definition due_predicate (moment : datetime) (r : OutboxEventRow) : bool :=
  is_open (ob_status r) && dt_geb moment (ob_available_at r).

(** [ORDER BY available_at ASC], ties in insertion order. *)
Definition outbox_leb (a b : OutboxEventRow) : bool := dt_geb (ob_available_at b) (ob_available_at a).
Definition next_due (moment : datetime) (d : DB) : option OutboxEventRow :=
  head (py_sorted outbox_leb (List.filter (due_predicate moment) (db_outbox d))).

(** [UPDATE outbox_events SET ... WHERE pred], and its row count. *)
Definition update_outbox_where (pred : OutboxEventRow → bool) (set : OutboxEventRow → OutboxEventRow) : P Z :=
  d ← read_db;
  flush_checked (concat (map (λ r, if pred r then outbox_checks (set r) else []) (db_outbox d)));;
  writes (λ d, set_db_outbox (map (λ r, if pred r then set r else r) (db_outbox d)) d);;
  mret (Z.of_nat (length (List.filter pred (db_outbox d)))).

Definition claimed (worker_id : string) (lease_until : datetime) (r : OutboxEventRow) : OutboxEventRow :=
  set_ob_available_at lease_until (set_ob_claimed_by (Some worker_id)
    (set_ob_attempts (ob_attempts r + 1) (set_ob_status OutboxStatus.IN_PROGRESS r))).

(** The two statements of [_claim_conditional]: what the SELECT observed, and the
    UPDATE that restates it. *)
Record Candidate := mkCandidate { cd_id : uuid; cd_status : OutboxStatus; cd_available_at : datetime }.
Definition select_candidate (now : datetime) : P (option Candidate) :=
  reads (λ d, (λ r, mkCandidate (ob_id r) (ob_status r) (ob_available_at r)) <$> next_due now d).
Definition unmoved (c : Candidate) (r : OutboxEventRow) : bool :=
  bool_decide (ob_id r = cd_id c) && bool_decide (ob_status r = cd_status c)
  && (dt_instant (ob_available_at r) =? dt_instant (cd_available_at c)).
Definition claim_candidate (worker_id : string) (lease_until : datetime) (c : Candidate) : P (option uuid) :=
  rowcount ← update_outbox_where (unmoved c) (claimed worker_id lease_until);
  mret (if rowcount =? 1 then Some (cd_id c) else None).

Definition claim_conditional (worker_id : string) (now lease_until : datetime) : P (option uuid) :=
  candidate ← select_candidate now;
  match candidate with
  | None => mret None
  | Some c => claim_candidate worker_id lease_until c
  end.

(** [FOR UPDATE SKIP LOCKED]: one statement; rows another transaction holds are
    passed over. *)
Definition claim_postgres (locked : OutboxEventRow → bool) (worker_id : string) (now lease_until : datetime)
    : P (option uuid) :=
  candidate ← reads (λ d, head (py_sorted outbox_leb
    (List.filter (λ r, due_predicate now r && negb (locked r)) (db_outbox d))));
  match candidate with
  | None => mret None
  | Some r =>
      update_outbox_where (λ r', bool_decide (ob_id r' = ob_id r)) (claimed worker_id lease_until);;
      mret (Some (ob_id r))
  end.

(** The dialect of the session's bind. *)
Inductive Dialect : Type := Postgresql (locked : OutboxEventRow → bool) | OtherDialect.

Section Outbox.
Context `{Env}.

Definition enqueue_outbox_event (payment_intent_id : uuid) (event_type : OutboxEventType)
    (payload : json_obj) (available_at : option datetime) (max_attempts : Z) : P OutboxEventRow :=
  id ← uuid4;
  available_at ← moment_of available_at;
  let row := mkOutboxEventRow id payment_intent_id event_type payload OutboxStatus.PENDING 0
               max_attempts available_at None None None in
  insert_outbox row;;
  mret row.

Definition claim_next_event (dialect : Dialect) (worker_id : string) (now : option datetime) (lease : Z)
    : P (option OutboxEventRow) :=
  moment ← moment_of now;
  let lease_until := dt_add moment lease in
  claimed_id ← match dialect with
               | Postgresql locked => claim_postgres locked worker_id moment lease_until
               | OtherDialect => claim_conditional worker_id moment lease_until
               end;
  match claimed_id with
  | None => mret None
  | Some id => reads (find_outbox id)
  end.

Definition complete_event (event : uuid) (now : option datetime) : P unit :=
  moment ← moment_of now;
  update_outbox event (λ r, set_ob_last_error None (set_ob_processed_at (Some moment)
                              (set_ob_status OutboxStatus.PROCESSED r))).

Definition reschedule_event (event : uuid) (reason : ustr) (now : option datetime) (delay : option Z) : P bool :=
  moment ← moment_of now;
  row ← get_outbox event;
  let last_error := Some (take 200 reason) in
  if ob_max_attempts row <=? ob_attempts row then
    update_outbox event (λ r, set_ob_processed_at (Some moment)
      (set_ob_status OutboxStatus.FAILED (set_ob_last_error last_error r)));;
    mret false
  else
    update_outbox event (λ r, set_ob_available_at (dt_add moment (default (backoff_for (ob_attempts row)) delay))
      (set_ob_status OutboxStatus.PENDING (set_ob_last_error last_error r)));;
    mret true.

Definition pending_events_for (payment_intent_id : uuid) : P (list OutboxEventRow) :=
  reads (λ d, py_sorted outbox_leb (List.filter
    (λ r, bool_decide (ob_payment_intent_id r = payment_intent_id) && is_open (ob_status r)) (db_outbox d))).
End Outbox.

(** ** Every operation moves forward *)
Section Evolves.
Context `{Env}.

Lemma claimed_le worker l r : outbox_le r (claimed worker l r).
Proof. constructor; cbn; [done|lia]. Qed.

Lemma evolves_update_where pred f : (∀ r, outbox_le r (f r)) → evolves sess_le (update_outbox_where pred f).
Proof.
  intros Hf w. unfold update_outbox_where, read_db, reads, gets, mbind, M_bind. rewrite flush_checked_cases.
  destruct (violates _) eqn:E; cbn [snd]; [reflexivity|]. by apply (update_rows_le pred f w).
Qed.
Lemma evolves_enqueue i t p a m : evolves sess_le (enqueue_outbox_event i t p a m).
Proof. unfold enqueue_outbox_event. cbv zeta. evolve. Qed.
Lemma evolves_claim dia worker now lease : evolves sess_le (claim_next_event dia worker now lease).
Proof.
  unfold claim_next_event, claim_postgres, claim_conditional, claim_candidate, select_candidate. cbv zeta.
  evolve; apply evolves_update_where, claimed_le.
Qed.
Lemma evolves_complete e now : evolves sess_le (complete_event e now).
Proof. unfold complete_event. evolve. apply evolves_update_outbox. intros r. by constructor. Qed.
Lemma evolves_reschedule e reason now delay : evolves sess_le (reschedule_event e reason now delay).
Proof. unfold reschedule_event. cbv zeta. evolve; apply evolves_update_outbox; intros r; by constructor. Qed.
Lemma evolves_pending R `{!PreOrder R} i : evolves R (pending_events_for i).
Proof. unfold pending_events_for. by apply evolves_reads. Qed.
End Evolves.
#[export] Hint Resolve evolves_enqueue evolves_claim evolves_complete evolves_reschedule evolves_pending : evolves.

(** ** The table and its rows *)
(** An update of the row with one identifier. *)
Lemma map_by_id (f : OutboxEventRow → OutboxEventRow) (p : OutboxEventRow → bool) l r :
  NoDup (map ob_id l) → r ∈ l → p r = true → (∀ x, p x = true → ob_id x = ob_id r) →
  map (λ x, if p x then f x else x) l = map (λ x, if bool_decide (ob_id x = ob_id r) then f x else x) l ∧
  length (List.filter p l) = 1%nat.
Proof.
  intros Hnd Hin Hp Hid. assert (Hiff : ∀ x, x ∈ l → p x = bool_decide (ob_id x = ob_id r)).
  { intros x Hx. destruct (p x) eqn:E; symmetry; [apply bool_decide_eq_true_2; by apply Hid|].
    apply bool_decide_eq_false_2. intros Heq. enough (x = r) by congruence.
    assert (Hf : find_outbox (ob_id r) (set_db_outbox l db_empty) = Some r) by (by apply find_outbox_elem).
    assert (Hf' : find_outbox (ob_id r) (set_db_outbox l db_empty) = Some x) by (by apply find_outbox_elem).
    congruence. }
  split; [apply List.map_ext_in; intros x Hx%list_elem_of_In; by rewrite (Hiff x Hx)|].
  clear Hiff. induction l as [|x l IH]; [by apply not_elem_of_nil in Hin|]. cbn [List.filter].
  cbn [map] in Hnd. apply NoDup_cons in Hnd as [Hx Hnd]. apply elem_of_cons in Hin as [<-|Hin].
  - rewrite Hp. cbn [length]. f_equal. enough (List.filter p l = []) as -> by done.
    destruct (List.filter p l) as [|y l'] eqn:E; [done|]. exfalso.
    assert (Hy : y ∈ List.filter p l) by (rewrite E; by left).
    apply list_elem_of_In, filter_In in Hy as [Hy Hpy]. apply Hx. rewrite <-(Hid y Hpy).
    apply list_elem_of_fmap_2. by apply list_elem_of_In.
  - destruct (p x) eqn:E; [|by apply IH]. exfalso. apply Hx. rewrite (Hid x E). by apply list_elem_of_fmap_2.
Qed.

(** ** What a worker is offered *)
Lemma head_sorted_le {A} (leb : A → A → bool) l x y :
  Transitive (λ a b, leb a b = true) → Sorted (λ a b, leb a b = true) l → head l = Some x → y ∈ l →
  y = x ∨ leb x y = true.
Proof.
  intros Ht Hs Hh Hy. destruct l as [|z l]; [done|]. injection Hh as ->.
  apply elem_of_cons in Hy as [->|Hy]; [by left|]. right.
  apply Sorted_StronglySorted in Hs; [|done]. inversion Hs as [|? ? _ Hall]; subst.
  rewrite Forall_forall in Hall. by apply Hall.
Qed.

Lemma outbox_leb_total a b : outbox_leb a b = true ∨ outbox_leb b a = true.
Proof. unfold outbox_leb, dt_geb. rewrite !Z.leb_le. lia. Qed.
#[global] Instance outbox_leb_trans : Transitive (λ a b, outbox_leb a b = true).
Proof. intros a b c. unfold outbox_leb, dt_geb. rewrite !Z.leb_le. lia. Qed.

Lemma next_due_Some now d r : next_due now d = Some r →
  r ∈ db_outbox d ∧ due_predicate now r = true ∧
  ∀ r', r' ∈ db_outbox d → due_predicate now r' = true →
        dt_instant (ob_available_at r) <= dt_instant (ob_available_at r').
Proof.
  unfold next_due. intros E. set (l := List.filter _ _) in E.
  assert (Hin : ∀ x, x ∈ py_sorted outbox_leb l ↔ x ∈ db_outbox d ∧ due_predicate now x = true).
  { intros x. rewrite py_sorted_Permutation. unfold l. rewrite !list_elem_of_In. apply filter_In. }
  assert (Hr : r ∈ py_sorted outbox_leb l) by (destruct (py_sorted outbox_leb l); [done|]; injection E as ->; by left).
  apply Hin in Hr as [Hr Hd]. split; [done|]. split; [done|]. intros r' Hr' Hd'.
  assert (Hin' : r' ∈ py_sorted outbox_leb l) by (by apply Hin).
  destruct (head_sorted_le outbox_leb _ r r' _ (py_sorted_Sorted _ outbox_leb_total l) E Hin') as [->|Hle]; [lia|].
  unfold outbox_leb, dt_geb in Hle. by apply Z.leb_le.
Qed.

Lemma next_due_None now d r : next_due now d = None → r ∈ db_outbox d → due_predicate now r = false.
Proof.
  unfold next_due. intros E Hr. destruct (due_predicate now r) eqn:Hd; [|done]. exfalso.
  assert (Hin : r ∈ py_sorted outbox_leb (List.filter (due_predicate now) (db_outbox d))).
  { rewrite py_sorted_Permutation. apply list_elem_of_In, filter_In. split; [by apply list_elem_of_In|done]. }
  destruct (py_sorted outbox_leb _); [by apply not_elem_of_nil in Hin|done].
Qed.

Lemma update_where_one pred f r w :
  outbox_table_ok (w_db w) → r ∈ db_outbox (w_db w) → pred r = true →
  (∀ x, pred x = true → ob_id x = ob_id r) → violates (outbox_checks (f r)) = None →
  update_outbox_where pred f w =
    (Ok 1, set_w_db (set_db_outbox (map (λ x, if bool_decide (ob_id x = ob_id r) then f x else x)
                                     (db_outbox (w_db w))) (w_db w)) w).
Proof.
  intros [Hnd Hchk] Hr Hp Hid Hv.
  destruct (map_by_id f pred _ r Hnd Hr Hp Hid) as [Hm Hlen].
  unfold update_outbox_where, read_db, reads, gets, mbind at 1, M_bind at 1.
  unfold mbind at 1, M_bind at 1. rewrite flush_checked_cases.
  replace (violates (concat _)) with (@None string).
  - unfold writes, modify, mbind, M_bind, mret, M_ret. rewrite Hlen, Hm. done.
  - symmetry. apply violates_concat. intros x Hx. destruct (pred x) eqn:E; [|done].
    enough (x = r) as -> by done.
    assert (H1 := find_outbox_elem _ _ _ Hnd Hr eq_refl). assert (H2 := find_outbox_elem _ _ _ Hnd Hx (Hid x E)). congruence.
Qed.

Lemma unmoved_self r : unmoved (mkCandidate (ob_id r) (ob_status r) (ob_available_at r)) r = true.
Proof. unfold unmoved. cbn. by rewrite !bool_decide_eq_true_2, Z.eqb_refl. Qed.
Lemma unmoved_id c x : unmoved c x = true → ob_id x = cd_id c.
Proof. unfold unmoved. rewrite !andb_true_iff, bool_decide_eq_true. tauto. Qed.

Lemma claimed_checks worker l r : violates (outbox_checks r) = None → violates (outbox_checks (claimed worker l r)) = None.
Proof. rewrite !outbox_checks_ok. cbn. lia. Qed.

Definition claim_row (id : uuid) (worker : string) (lease_until : datetime) (d : DB) : DB :=
  set_db_outbox (map (λ x, if bool_decide (ob_id x = id) then claimed worker lease_until x else x) (db_outbox d)) d.

Lemma find_outbox_map id (f : OutboxEventRow → OutboxEventRow) d : (∀ r, ob_id (f r) = ob_id r) →
  find_outbox id (set_db_outbox (map (λ x, if bool_decide (ob_id x = id) then f x else x) (db_outbox d)) d)
  = f <$> find_outbox id d.
Proof.
  intros Hf. unfold find_outbox. cbn [db_outbox set_db_outbox].
  induction (db_outbox d) as [|x l IH]; [done|]. cbn [map List.find].
  destruct (bool_decide_reflect (ob_id x = id)) as [Hx|Hx]; cbn [List.find].
  - rewrite bool_decide_eq_true_2 by (by rewrite Hf). done.
  - rewrite bool_decide_eq_false_2 by done. exact IH.
Qed.

Section Claim.
Context `{Env}.

Lemma claim_conditional_cases worker now lease_until w :
  outbox_table_ok (w_db w) →
  claim_conditional worker now lease_until w =
    match next_due now (w_db w) with
    | None => (Ok None, w)
    | Some r => (Ok (Some (ob_id r)), set_w_db (claim_row (ob_id r) worker lease_until (w_db w)) w)
    end.
Proof.
  intros Hok. unfold claim_conditional, select_candidate, reads, gets, mbind at 1, M_bind at 1.
  destruct (next_due now (w_db w)) as [r|] eqn:E; cbn [fmap option_fmap option_map]; [|done].
  apply next_due_Some in E as (Hr & _ & _). unfold claim_candidate, mbind, M_bind.
  erewrite update_where_one; [|done|exact Hr|apply unmoved_self|apply unmoved_id|].
  - done.
  - apply claimed_checks. destruct Hok as [_ Hchk]. rewrite Forall_forall in Hchk. by apply Hchk.
Qed.

Lemma claim_postgres_cases worker now lease_until w :
  outbox_table_ok (w_db w) →
  claim_postgres (λ _, false) worker now lease_until w =
    match next_due now (w_db w) with
    | None => (Ok None, w)
    | Some r => (Ok (Some (ob_id r)), set_w_db (claim_row (ob_id r) worker lease_until (w_db w)) w)
    end.
Proof.
  intros Hok. unfold claim_postgres, reads, gets, mbind at 1, M_bind at 1.
  replace (List.filter (λ r, due_predicate now r && negb false) (db_outbox (w_db w)))
    with (List.filter (due_predicate now) (db_outbox (w_db w)))
    by (apply List.filter_ext; intros x; by rewrite andb_true_r).
  fold (next_due now (w_db w)). destruct (next_due now (w_db w)) as [r|] eqn:E; [|done].
  apply next_due_Some in E as (Hr & _ & _). unfold mbind, M_bind.
  erewrite update_where_one; [|done|exact Hr| | |].
  - done.
  - by apply bool_decide_eq_true_2.
  - intros x Hx. by apply bool_decide_eq_true in Hx.
  - apply claimed_checks. destruct Hok as [_ Hchk]. rewrite Forall_forall in Hchk. by apply Hchk.
Qed.

Lemma claim_next_cases dia worker now lease w :
  (dia = OtherDialect ∨ dia = Postgresql (λ _, false)) → outbox_table_ok (w_db w) →
  claim_next_event dia worker (Some now) lease w =
    match next_due (as_utc now) (w_db w) with
    | None => (Ok None, w)
    | Some r =>
        let lease_until := dt_add (as_utc now) lease in
        (Ok (Some (claimed worker lease_until r)), set_w_db (claim_row (ob_id r) worker lease_until (w_db w)) w)
    end.
Proof.
  intros Hdia Hok. unfold claim_next_event, moment_of. cbv zeta. unfold mbind at 1, M_bind at 1.
  cbn [mret M_ret]. unfold mbind at 1, M_bind at 1.
  assert (E : ∀ l, (match dia with Postgresql locked => claim_postgres locked worker (as_utc now) l
                   | OtherDialect => claim_conditional worker (as_utc now) l end) w =
    match next_due (as_utc now) (w_db w) with
    | None => (Ok None, w)
    | Some r => (Ok (Some (ob_id r)), set_w_db (claim_row (ob_id r) worker l (w_db w)) w)
    end).
  { intros l. destruct Hdia as [-> | ->]; [by apply claim_conditional_cases|by apply claim_postgres_cases]. }
  rewrite E. destruct (next_due (as_utc now) (w_db w)) as [r|] eqn:En; [|done].
  unfold reads, gets. cbn [w_db set_w_db]. unfold claim_row. rewrite find_outbox_map by done.
  apply next_due_Some in En as (Hr & _ & _).
  by rewrite (find_outbox_elem (ob_id r) (w_db w) r (proj1 Hok) Hr eq_refl).
Qed.

(** No row still answers to what a claim has observed and moved. *)
Lemma claim_candidate_lost c w : (∀ x, x ∈ db_outbox (w_db w) → unmoved c x = false) →
  ∀ worker l, claim_candidate worker l c w = (Ok None, w).
Proof.
  intros Hno worker l. unfold claim_candidate, update_outbox_where, read_db, reads, gets, mbind, M_bind.
  rewrite flush_checked_cases. replace (violates (concat _)) with (@None string).
  2:{ symmetry. apply violates_concat. intros x Hx. by rewrite Hno. }
  unfold writes, modify, mret, M_ret.
  replace (List.filter (unmoved c) (db_outbox (w_db w))) with (@nil OutboxEventRow).
  2:{ symmetry. destruct (List.filter _ _) as [|y l'] eqn:E; [done|].
      assert (Hy : y ∈ List.filter (unmoved c) (db_outbox (w_db w))) by (rewrite E; by left).
      apply list_elem_of_In, filter_In in Hy as [Hy Hu]. apply list_elem_of_In in Hy.
      by rewrite Hno in Hu. }
  cbn [length Z.of_nat Z.eqb]. f_equal.
  replace (map _ (db_outbox (w_db w))) with (db_outbox (w_db w)).
  - by destruct w as [[] ? ? ? ? ?].
  - etrans; [symmetry; apply List.map_id|]. apply List.map_ext_in. intros x Hx.
    by rewrite Hno by (by apply list_elem_of_In).
Qed.

Lemma claim_candidate_Ok worker l c w id w1 :
  claim_candidate worker l c w = (Ok (Some id), w1) →
  id = cd_id c ∧
  w_db w1 = set_db_outbox (map (λ r, if unmoved c r then claimed worker l r else r) (db_outbox (w_db w))) (w_db w) ∧
  ∃ z, z ∈ db_outbox (w_db w) ∧ unmoved c z = true.
Proof.
  unfold claim_candidate. intros E. run_step E. apply ret_run_Ok in E as [E ->].
  unfold update_outbox_where, read_db, reads, gets in Hrun. unfold mbind at 1 2, M_bind at 1 2 in Hrun.
  rewrite flush_checked_cases in Hrun. destruct (violates _); [done|].
  unfold writes, modify, mbind, M_bind, mret, M_ret in Hrun. injection Hrun as <- <-.
  destruct (Z.eqb_spec (Z.of_nat (length (List.filter (unmoved c) (db_outbox (w_db w))))) 1) as [H1|]; [|done].
  injection E as ->. split; [done|]. split; [done|].
  destruct (List.filter (unmoved c) _) as [|z l'] eqn:Ef; [done|]. exists z.
  rewrite !list_elem_of_In. apply filter_In. rewrite Ef. by left.
Qed.

(** An attribute change of one event. *)
Lemma update_outbox_run id f w r :
  outbox_table_ok (w_db w) → find_outbox id (w_db w) = Some r → violates (outbox_checks (f r)) = None →
  (∀ x, ob_id (f x) = ob_id x) →
  ∃ w', update_outbox id f w = (Ok tt, w') ∧ find_outbox id (w_db w') = Some (f r) ∧
        db_intents (w_db w') = db_intents (w_db w).
Proof.
  intros [Hnd _] Hf Hv Hid. unfold update_outbox, read_db, reads, gets. unfold mbind, M_bind.
  rewrite flush_checked_cases. replace (violates (concat _)) with (@None string).
  - eexists. split; [reflexivity|]. cbn [w_db set_w_db]. rewrite find_outbox_map by done. by rewrite Hf.
  - symmetry. apply violates_concat. intros x Hx. case_bool_decide as Hxi; [|done].
    rewrite (find_outbox_elem _ _ _ Hnd Hx Hxi) in Hf. by injection Hf as ->.
Qed.

Lemma get_outbox_run id w r : find_outbox id (w_db w) = Some r → get_outbox id w = (Ok r, w).
Proof. intros E. unfold get_outbox, read_db, reads, gets, mbind, M_bind. by rewrite E. Qed.

Lemma backoff_for_bounds a : seconds 1 <= backoff_for a <= seconds 300.
Proof.
  unfold backoff_for. cbv zeta. set (i := Z.to_nat _).
  assert (Hi : (i < 8)%nat) by (unfold i; cbn [length BACKOFF_SECONDS]; lia).
  unfold seconds. do 8 (destruct i as [|i]; [cbn; lia|]). lia.
Qed.
Lemma backoff_for_mono a b : a <= b → backoff_for a <= backoff_for b.
Proof.
  intros Hab. unfold backoff_for. cbv zeta. set (i := Z.to_nat _). set (j := Z.to_nat _).
  assert (Hi : (i <= j < 8)%nat) by (unfold i, j; cbn [length BACKOFF_SECONDS]; lia).
  unfold seconds. clearbody i j. do 8 (destruct i as [|i]; [do 8 (destruct j as [|j]; [cbn; lia|]); lia|destruct j as [|j]; [lia|]]). lia.
Qed.

(** ** Properties *)

(** A worker is given the earliest due event, and only it moves.  On a table
    that satisfies its constraints, claiming never raises: it returns nothing
    exactly when no event is due, and then nothing is written; otherwise it returns
    a due event (PENDING or IN_PROGRESS with a lapsed lease) no later than any
    other due one, now IN_PROGRESS, with one more attempt, the worker's name and
    the lease; every other event is untouched.  The PostgreSQL claim, when no row
    is locked, and the portable one are the same function. *)
Theorem claim_takes_the_earliest_due (worker : string) (now : datetime) (lease : Z) (w : World) :
  outbox_table_ok (w_db w) →
  claim_next_event (Postgresql (λ _, false)) worker (Some now) lease w
    = claim_next_event OtherDialect worker (Some now) lease w ∧
  let lease_until := dt_add (as_utc now) lease in
  match claim_next_event OtherDialect worker (Some now) lease w with
  | (Ok None, w') => w' = w ∧ ∀ r, r ∈ db_outbox (w_db w) → due_predicate (as_utc now) r = false
  | (Ok (Some row), w') =>
      ∃ r, r ∈ db_outbox (w_db w) ∧ due_predicate (as_utc now) r = true ∧
        (∀ r', r' ∈ db_outbox (w_db w) → due_predicate (as_utc now) r' = true →
               dt_instant (ob_available_at r) <= dt_instant (ob_available_at r')) ∧
        row = claimed worker lease_until r ∧ ob_status row = OutboxStatus.IN_PROGRESS ∧
        ob_attempts row = ob_attempts r + 1 ∧
        w_db w' = set_db_outbox (map (λ x, if bool_decide (ob_id x = ob_id r) then claimed worker lease_until x else x)
                                   (db_outbox (w_db w))) (w_db w)
  | (Raise _, _) => False
  end.
Proof.
  intros Hok. cbv zeta. split.
  - rewrite !claim_next_cases by auto. done.
  - rewrite claim_next_cases by auto. destruct (next_due (as_utc now) (w_db w)) as [r|] eqn:E; cbv zeta.
    + apply next_due_Some in E as (Hr & Hd & Hmin). exists r. by split_and!.
    + split; [done|]. intros r Hr. by eapply next_due_None.
Qed.

(** One event, one worker.  If two workers observed the same candidate and the
    first one's UPDATE took it with a lease that ends later than the time the
    candidate was available at, the second one's UPDATE claims nothing and writes
    nothing; and until that lease lapses no claim, by any worker, returns the
    event. *)
Theorem claim_is_exclusive (c : Candidate) (a b : string) (lease_a lease_b : datetime) (w w1 : World) (id : uuid) :
  NoDup (map ob_id (db_outbox (w_db w))) →
  claim_candidate a lease_a c w = (Ok (Some id), w1) →
  dt_instant (cd_available_at c) < dt_instant lease_a →
  id = cd_id c ∧ claim_candidate b lease_b c w1 = (Ok None, w1) ∧
  ∀ now r, dt_instant now < dt_instant lease_a → next_due now (w_db w1) = Some r → ob_id r ≠ id.
Proof.
  intros Hnd E Hlt. apply claim_candidate_Ok in E as (-> & Hdb & z & Hz & Hzu). split; [done|].
  assert (Hrow : ∀ x, x ∈ db_outbox (w_db w1) → dt_instant (ob_available_at x) = dt_instant lease_a ∨
                   (x ∈ db_outbox (w_db w) ∧ unmoved c x = false)).
  { intros x. rewrite Hdb. cbn [db_outbox set_db_outbox]. intros (y & -> & Hy)%list_elem_of_fmap_1.
    destruct (unmoved c y) eqn:Hu; [by left|by right]. }
  split.
  - apply claim_candidate_lost. intros x Hx. destruct (Hrow x Hx) as [Ha|[_ Hu]]; [|done].
    unfold unmoved. rewrite Ha. apply andb_false_iff. right. apply Z.eqb_neq. lia.
  - intros now r Hnow Hr Hid. apply next_due_Some in Hr as (Hin & Hdue & _).
    destruct (Hrow r Hin) as [Ha|[Hr Hu]].
    + unfold due_predicate, dt_geb in Hdue. apply andb_true_iff in Hdue as [_ Hdue%Z.leb_le]. lia.
    + pose proof (unmoved_id _ _ Hzu) as Hzi.
      pose proof (find_outbox_elem _ _ _ Hnd Hr Hid). pose proof (find_outbox_elem _ _ _ Hnd Hz Hzi). congruence.
Qed.

(** A reschedule, whole. *)
Lemma reschedule_run (event : uuid) (reason : ustr) (now : datetime) (w : World) (row : OutboxEventRow) :
  outbox_table_ok (w_db w) → find_outbox event (w_db w) = Some row →
  ∃ w' row', reschedule_event event reason (Some now) None w =
      (Ok (ob_attempts row <? ob_max_attempts row), w') ∧
    find_outbox event (w_db w') = Some row' ∧ ob_attempts row' = ob_attempts row ∧
    ob_max_attempts row' = ob_max_attempts row ∧
    ob_last_error row' = Some (take 200 reason) ∧ (length (take 200 reason) <= 200)%nat ∧
    db_intents (w_db w') = db_intents (w_db w) ∧
    if ob_attempts row <? ob_max_attempts row
    then ob_status row' = OutboxStatus.PENDING ∧
         dt_instant now + seconds 1 <= dt_instant (ob_available_at row') <= dt_instant now + seconds 300
    else ob_status row' = OutboxStatus.FAILED ∧ ob_processed_at row' = Some (as_utc now).
Proof.
  intros Hok Hf. unfold reschedule_event, moment_of. cbv zeta. unfold mbind at 1, M_bind at 1. cbn [mret M_ret].
  unfold mbind at 1, M_bind at 1. rewrite (get_outbox_run event w row Hf).
  assert (Hlen : (length (take 200 reason) <= 200)%nat) by (rewrite length_take; lia).
  assert (Hv : violates (outbox_checks row) = None).
  { destruct Hok as [_ Hall]. rewrite Forall_forall in Hall. apply Hall. by apply find_outbox_Some in Hf as [? _]. }
  destruct (Z.leb_spec (ob_max_attempts row) (ob_attempts row)) as [Hm|Hm].
  - replace (ob_attempts row <? ob_max_attempts row) with false by (symmetry; by apply Z.ltb_ge).
    match goal with |- context [update_outbox event ?f] => 
      destruct (update_outbox_run event f w row Hok Hf) as (w' & E & Hf' & Hi); [exact Hv|done|] end.
    unfold mbind, M_bind. rewrite E. exists w'. eexists. split; [reflexivity|]. split; [exact Hf'|]. by split_and!.
  - replace (ob_attempts row <? ob_max_attempts row) with true by (symmetry; by apply Z.ltb_lt).
    match goal with |- context [update_outbox event ?f] => 
      destruct (update_outbox_run event f w row Hok Hf) as (w' & E & Hf' & Hi); [exact Hv|done|] end.
    unfold mbind, M_bind. rewrite E. exists w'. eexists. split; [reflexivity|]. split; [exact Hf'|].
    split_and!; try done; cbn [ob_available_at set_ob_available_at default];
      rewrite dt_instant_add, as_utc_instant; pose proof (backoff_for_bounds (ob_attempts row)); lia.
Qed.

(** Retries are bounded, and giving up is not failing.  Rescheduling an event
    returns whether its attempts are still below the maximum.  If they are, the
    event is PENDING again, due between one second and five minutes later; if not,
    it is dead-lettered as FAILED.  In both cases the error kept has at most 200
    characters, the attempt count is unchanged and no payment intent is touched. *)
Theorem reschedule_is_bounded (event : uuid) (reason : ustr) (now : datetime) (w : World) (row : OutboxEventRow) :
  outbox_table_ok (w_db w) → find_outbox event (w_db w) = Some row →
  ∃ w' row', reschedule_event event reason (Some now) None w =
      (Ok (ob_attempts row <? ob_max_attempts row), w') ∧
    find_outbox event (w_db w') = Some row' ∧ ob_attempts row' = ob_attempts row ∧
    ob_max_attempts row' = ob_max_attempts row ∧
    ob_last_error row' = Some (take 200 reason) ∧ (length (take 200 reason) <= 200)%nat ∧
    db_intents (w_db w') = db_intents (w_db w) ∧
    if ob_attempts row <? ob_max_attempts row
    then ob_status row' = OutboxStatus.PENDING ∧
         dt_instant now + seconds 1 <= dt_instant (ob_available_at row') <= dt_instant now + seconds 300
    else ob_status row' = OutboxStatus.FAILED ∧ ob_processed_at row' = Some (as_utc now).
Proof. apply reschedule_run. Qed.

(** The backoff grows with the attempts and stays within its table: between one
    second and five minutes, never shorter for a later attempt. *)
Theorem backoff_is_monotone (a b : Z) :
  a <= b → backoff_for a <= backoff_for b ∧ seconds 1 <= backoff_for a ∧ backoff_for b <= seconds 300.
Proof.
  intros Hab. split; [by apply backoff_for_mono|]. split; apply backoff_for_bounds.
Qed.
End Claim.

#[local] Existing Instance demo_env.

Definition demo_event (attempts : Z) : OutboxEventRow :=
  mkOutboxEventRow 21%N 31%N OutboxEventType.PAYMENT_CREATE_REQUESTED [] OutboxStatus.PENDING attempts 8
    (utc 1767268800000000) None None None.
Definition demo_outbox_world (attempts : Z) : World :=
  demo_world (set_db_outbox [demo_event attempts] db_empty).

Lemma demo_outbox_ok attempts : 0 <= attempts → outbox_table_ok (w_db (demo_outbox_world attempts)).
Proof.
  intros Ha. split; cbn; [repeat constructor; apply not_elem_of_nil|].
  constructor; [|constructor]. apply outbox_checks_ok. cbn. lia.
Qed.

Lemma claim_takes_the_earliest_due_witness :
  outbox_table_ok (w_db (demo_outbox_world 0)) ∧
  claim_next_event (Postgresql (λ _, false)) "w" (Some (utc 1767268800000000)) DEFAULT_LEASE (demo_outbox_world 0)
  = claim_next_event OtherDialect "w" (Some (utc 1767268800000000)) DEFAULT_LEASE (demo_outbox_world 0).
Proof.
  assert (Hok : outbox_table_ok (w_db (demo_outbox_world 0))) by (apply demo_outbox_ok; lia).
  split; [exact Hok|].
  apply (claim_takes_the_earliest_due "w" (utc 1767268800000000) DEFAULT_LEASE (demo_outbox_world 0) Hok).
Defined.

Definition demo_candidate : Candidate := mkCandidate 21%N OutboxStatus.PENDING (utc 1767268800000000).
Lemma claim_is_exclusive_witness :
  ∃ w1, claim_candidate "a" (utc 1767268830000000) demo_candidate (demo_outbox_world 0) = (Ok (Some 21%N), w1) ∧
    claim_candidate "b" (utc 1767268831000000) demo_candidate w1 = (Ok None, w1).
Proof.
  eexists. split; [vm_compute; reflexivity|].
  eapply (claim_is_exclusive demo_candidate "a" "b" (utc 1767268830000000) (utc 1767268831000000)
    (demo_outbox_world 0) _ 21%N); [apply demo_outbox_ok; lia|vm_compute; reflexivity|vm_compute; reflexivity].
Defined.

Lemma reschedule_is_bounded_witness :
  ∃ w' row', reschedule_event 21%N (u "timeout") (Some (utc 1767268800000000)) None (demo_outbox_world 8)
    = (Ok false, w') ∧ find_outbox 21%N (w_db w') = Some row' ∧ ob_attempts row' = 8.
Proof.
  destruct (reschedule_is_bounded 21%N (u "timeout") (utc 1767268800000000) (demo_outbox_world 8) (demo_event 8))
    as (w' & row' & E & Hf & Ha & _).
  - apply demo_outbox_ok. lia.
  - vm_compute. reflexivity.
  - exists w', row'. split; [exact E|]. split; [exact Hf|exact Ha].
Defined.
