(* ===== verification/Intents.v ===== *)
(** * Payment intents: one logical payment per request

    services/payment_executor/intents.py.  [create_payment_intent] is written as
    the two halves of its body: what it reads and verifies, and the savepoint that
    writes. *)
From S2P Require Import Prelude Python PyFloat Json Text Enums Errors Firewall Canonical Transaction.
From S2P Require Import StateMachines Merchant Kernel Policy Payment Database Hashing Evolution Ledger.
From S2P Require Import Binding Authorization AuthorizationTheorems Outbox.

Definition ACTOR : string := "payment-executor".

(** [intent] is the identity of the row object returned. *)
Record PaymentIntentResult := mkPaymentIntentResult { pr_intent : uuid; pr_created : bool }.

Definition find_by_idempotency_key (idempotency_key : string) (d : DB) : option PaymentIntentRow :=
  List.find (λ r, String.eqb (pi_idempotency_key r) idempotency_key) (intent_rows d).

Definition new_intent (intent_id mission_id authorization_id : uuid) (transaction_digest key fingerprint : string)
    (transaction : BoundTransaction) (provider : string) : PaymentIntentRow :=
  mkPaymentIntentRow intent_id mission_id authorization_id transaction_digest key fingerprint
    (bt_amount_inr transaction) (bt_currency transaction) (bt_merchant_id transaction) provider
    None None None None None None None None PaymentIntentState.CREATED 0 None.

(** What the first half of [create_payment_intent] hands to the second. *)
Record PreparedPayment := mkPreparedPayment {
  pp_moment : datetime;
  pp_authorization : AuthorizationRow;
  pp_existing : option PaymentIntentRow;
  pp_transaction : BoundTransaction;
  pp_fingerprint : string
}.

Section Intents.
Context `{Env}.

Definition resolve_existing (existing : PaymentIntentRow) (fingerprint idempotency_key : string)
    : P PaymentIntentResult :=
  if String.eqb (pi_request_fingerprint existing) fingerprint then
    append_event (pi_mission_id existing) EventType.PAYMENT_INTENT_REUSED ACTOR
      [("payment_intent_id", JStr (str_uuid (pi_id existing)));
       ("idempotency_key", JStr idempotency_key);
       ("state", JStr (enum_value (pi_state existing)));
       ("authorization_consumed", JBool false)];;
    mret (mkPaymentIntentResult (pi_id existing) false)
  else
    append_event (pi_mission_id existing) EventType.IDEMPOTENCY_CONFLICT ACTOR
      [("reason_code", JStr (enum_value ReasonCode.IDEMPOTENCY_CONFLICT));
       ("idempotency_key", JStr idempotency_key);
       ("existing_payment_intent_id", JStr (str_uuid (pi_id existing)));
       ("existing_fingerprint_prefix", JStr (digest_prefix (pi_request_fingerprint existing)));
       ("presented_fingerprint_prefix", JStr (digest_prefix fingerprint))];;
    raise (PaymentRejected IdempotencyConflict
      ("idempotency key '" +:+ idempotency_key +:+ "' was already used for a different payment request")).

Definition rejected {A} (detail : string) : P A := raise (PaymentRejected PaymentRequestRejected detail).

Definition prepare_payment (capabilities : CapabilitySet) (mission_id authorization_id : uuid)
    (idempotency_key provider : string) (now : option datetime) : P PreparedPayment :=
  enforce_registered capabilities Capability.PAYMENT_EXECUTE;;
  moment ← moment_of now;
  authorization ← reload authorization_id;
  match authorization with
  | None => auth_failure AuthorizationNotFound authorization_id "no such authorization"
  | Some authorization =>
    if negb (bool_decide (au_mission_id authorization = mission_id)) then
      rejected ("authorization " +:+ str_uuid authorization_id +:+ " does not belong to mission "
                +:+ str_uuid mission_id)
    else
    existing ← reads (find_by_idempotency_key idempotency_key);
    mission ← get_mission mission_id;
    match mission with
    | None => rejected ("mission " +:+ str_uuid mission_id +:+ " does not exist")
    | Some mission =>
      if is_none existing && negb (bool_decide (ms_state mission = MissionState.AUTHORIZED)) then
        raise (PaymentRejected MissionNotAuthorized
          ("mission " +:+ str_uuid mission_id +:+ " is " +:+ enum_value (ms_state mission)
           +:+ ", expected " +:+ enum_value MissionState.AUTHORIZED))
      else
      transaction ← verify_authorization_for_payment authorization
        (match existing with
         | Some e => if bool_decide (pi_authorization_id e = authorization_id)
                     then AuthorizationStatus.CONSUMED else AuthorizationStatus.ACTIVE
         | None => AuthorizationStatus.ACTIVE
         end) moment;
      fingerprint ← lift (request_fingerprint mission_id authorization_id
        (au_transaction_digest authorization) (bt_amount_inr transaction) (bt_currency transaction)
        (bt_merchant_id transaction) provider);
      mret (mkPreparedPayment moment authorization existing transaction fingerprint)
    end
  end.

(** [if can_transition(MissionState(mission.state), target): mission.state = target]. *)
Definition move_mission (mission_id : uuid) (target : MissionState) : P bool :=
  mission ← get_mission mission_id;
  match mission with
  | None => mret false
  | Some mission =>
      if MissionFSM.can_transition (ms_state mission) target
      then set_mission_state mission_id target;; mret true
      else mret false
  end.

(** The body of the savepoint. *)
Definition write_payment (mission_id authorization_id intent_id : uuid) (idempotency_key provider : string)
    (p : PreparedPayment) : P unit :=
  insert_intent (new_intent intent_id mission_id authorization_id
    (au_transaction_digest (pp_authorization p)) idempotency_key (pp_fingerprint p) (pp_transaction p) provider);;
  consume_authorization authorization_id (pp_transaction p) (Some (pp_moment p));;
  PaymentFSM.assert_payment_transition PaymentIntentState.CREATED PaymentIntentState.QUEUED;;
  update_intent intent_id (set_pi_state PaymentIntentState.QUEUED);;
  append_event mission_id EventType.PAYMENT_INTENT_CREATED ACTOR
    [("payment_intent_id", JStr (str_uuid intent_id));
     ("authorization_id", JStr (str_uuid authorization_id));
     ("idempotency_key", JStr idempotency_key);
     ("transaction_digest_prefix", JStr (digest_prefix (au_transaction_digest (pp_authorization p))));
     ("amount_inr", JInt (bt_amount_inr (pp_transaction p)));
     ("currency", JStr (bt_currency (pp_transaction p)));
     ("merchant_id", JStr (bt_merchant_id (pp_transaction p)));
     ("provider", JStr provider)];;
  append_event mission_id EventType.PAYMENT_QUEUED ACTOR
    [("payment_intent_id", JStr (str_uuid intent_id));
     ("state", JStr (enum_value PaymentIntentState.QUEUED))];;
  enqueue_outbox_event intent_id OutboxEventType.PAYMENT_CREATE_REQUESTED
    [("idempotency_key", JStr idempotency_key)] (Some (pp_moment p)) DEFAULT_MAX_ATTEMPTS;;
  move_mission mission_id MissionState.PAYMENT_PENDING;;
  mret tt.

(** The [except IntegrityError] arm: the winner of the race answers. *)
Definition on_integrity_error (fingerprint idempotency_key : string) (e : exn) : P PaymentIntentResult :=
  match e with
  | IntegrityError _ =>
      winner ← reads (find_by_idempotency_key idempotency_key);
      match winner with
      | None => raise e
      | Some winner => resolve_existing winner fingerprint idempotency_key
      end
  | _ => raise e
  end.

Definition establish_payment (mission_id authorization_id : uuid) (idempotency_key provider : string)
    (p : PreparedPayment) : P PaymentIntentResult :=
  intent_id ← uuid4;
  try_except
    (begin_nested (write_payment mission_id authorization_id intent_id idempotency_key provider p);;
     mret (mkPaymentIntentResult intent_id true))
    (on_integrity_error (pp_fingerprint p) idempotency_key).

Definition create_payment_intent (capabilities : CapabilitySet) (mission_id authorization_id : uuid)
    (idempotency_key provider : string) (now : option datetime) : P PaymentIntentResult :=
  p ← prepare_payment capabilities mission_id authorization_id idempotency_key provider now;
  match pp_existing p with
  | Some existing => resolve_existing existing (pp_fingerprint p) idempotency_key
  | None => establish_payment mission_id authorization_id idempotency_key provider p
  end.
End Intents.

(** ** Runs of the writers *)
Lemma write_intent_Ok id r w x w' :
  write_intent id r w = (Ok x, w') →
  violates (intent_checks id r (w_db w)) = None ∧
  w' = set_w_db (set_db_intents (<[id := r]> (db_intents (w_db w))) (w_db w)) w.
Proof.
  unfold write_intent. intros E. run_step E. apply reads_Ok in Hrun as [-> ->]. run_step E.
  apply flush_checked_Ok in Hrun as [Hv ->]. apply modify_run_Ok in E as [_ ->]. done.
Qed.

Lemma get_intent_Ok id w r w' : get_intent id w = (Ok r, w') → db_intents (w_db w) !! id = Some r ∧ w' = w.
Proof. unfold get_intent. intros E. run_step E. apply reads_Ok in Hrun as [-> ->]. run_inv E; by subst. Qed.
Lemma get_intent_run id w r : db_intents (w_db w) !! id = Some r → get_intent id w = (Ok r, w).
Proof. intros E. unfold get_intent, read_db, reads, gets, mbind, M_bind. by rewrite E. Qed.

Lemma update_intent_Ok id f w x w' :
  update_intent id f w = (Ok x, w') →
  ∃ r, db_intents (w_db w) !! id = Some r ∧
    w' = set_w_db (set_db_intents (<[id := f r]> (db_intents (w_db w))) (w_db w)) w.
Proof.
  unfold update_intent. intros E. run_step E. apply get_intent_Ok in Hrun as [Hr ->].
  apply write_intent_Ok in E as [_ ->]. by exists a.
Qed.

Lemma insert_intent_Ok r w x w' :
  insert_intent r w = (Ok x, w') →
  db_intents (w_db w) !! pi_id r = None ∧ violates (intent_checks (pi_id r) r (w_db w)) = None ∧
  w' = set_w_db (set_db_intents (<[pi_id r := r]> (db_intents (w_db w))) (w_db w)) w.
Proof.
  unfold insert_intent. intros E. run_step E. apply reads_Ok in Hrun as [-> ->]. run_step E.
  apply flush_checked_Ok in Hrun as [Hv ->]. apply write_intent_Ok in E as [Hc ->].
  unfold violates in Hv. cbn [List.find fst snd] in Hv.
  destruct (db_intents (w_db w) !! pi_id r); [discriminate|]. done.
Qed.

Section Runs.
Context `{Env}.

Lemma append_event_db m t a p w x w' :
  append_event m t a p w = (x, w') → ∃ l, w_db w' = set_db_audit l (w_db w).
Proof.
  destruct (append_event_cases m t a p w) as [(h & _ & ->)|(e & w1 & -> & Hd & _)]; intros [= <- <-].
  - by eexists.
  - exists (db_audit (w_db w)). by rewrite set_db_audit_id.
Qed.

Lemma enqueue_Ok i t p at_ m w row w' :
  enqueue_outbox_event i t p at_ m w = (Ok row, w') →
  w_db w' = set_db_outbox (db_outbox (w_db w) ++ [row]) (w_db w) ∧
  ob_payment_intent_id row = i ∧ ob_event_type row = t ∧ ob_payload row = p ∧
  ob_status row = OutboxStatus.PENDING ∧ ob_attempts row = 0 ∧ ob_max_attempts row = m ∧
  (∀ d, at_ = Some d → ob_available_at row = as_utc d).
Proof.
  unfold enqueue_outbox_event. cbv zeta. intros E. run_step E. injection Hrun as <- <-.
  run_step E. destruct (moment_of_run at_ (mkWorld (w_db w) (w_committed w) (w_fresh w + 1)%N (w_ticks w) (w_tokens w) (w_calls w)))
    as (mo & w1 & Em & (Hd & _ & _) & _ & Hn). rewrite Em in Hrun. injection Hrun as <- <-.
  run_step E. unfold insert_outbox in Hrun. run_step Hrun. apply reads_Ok in Hrun0 as [-> ->].
  run_step Hrun. apply flush_checked_Ok in Hrun0 as [_ ->]. apply modify_run_Ok in Hrun as [_ ->].
  apply ret_run_Ok in E as [-> ->]. cbn [w_db set_w_db]. rewrite Hd. cbn [w_db].
  split_and!; try done. intros d ->. by apply Hn.
Qed.

Lemma move_mission_run m target w :
  ∃ b, move_mission m target w =
    (Ok b, set_w_db (set_db_missions
       (alter (λ r, if MissionFSM.can_transition (ms_state r) target then set_ms_state target r else r) m
          (db_missions (w_db w))) (w_db w)) w).
Proof.
  unfold move_mission, get_mission, reads, gets. unfold mbind at 1, M_bind at 1.
  destruct (db_missions (w_db w) !! m) as [r|] eqn:E.
  - destruct (MissionFSM.can_transition (ms_state r) target) eqn:Ht.
    + exists true. unfold set_mission_state, writes, modify, mbind, M_bind, mret, M_ret. do 3 f_equal.
      apply map_eq. intros j. destruct (decide (j = m)) as [->|].
      * rewrite !lookup_alter_eq, E. cbn. by rewrite Ht.
      * by rewrite !lookup_alter_ne.
    + exists false. unfold mret, M_ret. f_equal. destruct w as [d ? ? ? ? ?]. unfold set_w_db. cbn. f_equal.
      destruct d. unfold set_db_missions. cbn in *. f_equal. apply map_eq. intros j.
      destruct (decide (j = m)) as [->|]; [|by rewrite lookup_alter_ne].
      rewrite lookup_alter_eq, E. cbn. by rewrite Ht.
  - exists false. unfold mret, M_ret. f_equal. destruct w as [d ? ? ? ? ?]. unfold set_w_db. cbn. f_equal.
    destruct d. unfold set_db_missions. cbn in *. f_equal. apply map_eq. intros j.
    destruct (decide (j = m)) as [->|]; [|by rewrite lookup_alter_ne]. by rewrite lookup_alter_eq, E.
Qed.

Lemma evolves_move_mission m target : evolves sess_le (move_mission m target).
Proof.
  intros w. destruct (move_mission_run m target w) as (b & ->). constructor; cbn; [|done..].
  apply db_le_missions, map_grows_alter; [apply _|]. intros r Hr.
  destruct (MissionFSM.can_transition (ms_state r) target) eqn:Ht; [|reflexivity].
  constructor; [done|by right|]. by apply rtc_once.
Qed.
Hint Resolve evolves_move_mission : evolves.

Lemma consume_keeps_intents i t now w x w' :
  consume_authorization i t now w = (Ok x, w') → db_intents (w_db w') = db_intents (w_db w).
Proof. intros E. apply consume_Ok in E as (? & ? & ? & ? & ? & ? & ? & ? & ? & ? & l & ->). done. Qed.

Lemma evolves_at {A} (m : P A) : evolves sess_le m → ∀ w, sess_le w (snd (m w)).
Proof. intros Hm. exact Hm. Qed.

Lemma evolves_write_payment m a i k prov p : evolves sess_le (write_payment m a i k prov p).
Proof.
  intros w. unfold write_payment. set (r := new_intent _ _ _ _ _ _ _ _).
  pose proof (evolves_insert_intent r w) as H1. unfold mbind at 1, M_bind at 1.
  destruct (insert_intent r w) as [[x|e] w1] eqn:E1; [|exact H1]. cbn [snd] in H1.
  etrans; [exact H1|]. pose proof (evolves_consume a (pp_transaction p) (Some (pp_moment p)) w1) as H2.
  unfold mbind at 1, M_bind at 1.
  destruct (consume_authorization _ _ _ w1) as [[row|e] w2] eqn:E2; [|exact H2]. cbn [snd] in H2.
  etrans; [exact H2|]. unfold mbind at 1, M_bind at 1. rewrite assert_payment_transition_cases.
  change (PaymentFSM.can_transition PaymentIntentState.CREATED PaymentIntentState.QUEUED) with true.
  cbv iota. apply insert_intent_Ok in E1 as (_ & _ & ->). apply consume_keeps_intents in E2. cbn in E2.
  assert (Hr : db_intents (w_db w2) !! i = Some r) by (by rewrite E2, lookup_insert_eq).
  assert (H3 : sess_le w2 (snd (update_intent i (set_pi_state PaymentIntentState.QUEUED) w2))).
  { unfold update_intent, mbind, M_bind. rewrite (get_intent_run _ _ _ Hr). apply write_intent_le.
    unfold replaces. rewrite Hr. constructor; cbn; try done; try (by right). by apply PaymentFSM.step_run. }
  unfold mbind at 1, M_bind at 1. destruct (update_intent _ _ w2) as [[x3|e] w3]; [|exact H3]. cbn [snd] in H3.
  etrans; [exact H3|]. clear. revert w3.
  apply evolves_at. evolve.
Qed.
Hint Resolve evolves_write_payment : evolves.

(** What the savepoint wrote, when it was released. *)
Lemma write_payment_Ok m a i k prov p w x w' :
  write_payment m a i k prov p w = (Ok x, w') →
  let r := new_intent i m a (au_transaction_digest (pp_authorization p)) k (pp_fingerprint p)
             (pp_transaction p) prov in
  violates (intent_checks i r (w_db w)) = None ∧ db_intents (w_db w) !! i = None ∧
  db_intents (w_db w') = <[i := set_pi_state PaymentIntentState.QUEUED r]> (db_intents (w_db w)) ∧
  (∃ z, db_auths (w_db w) !! a = Some z ∧ au_status z = AuthorizationStatus.ACTIVE ∧
        digest (pp_transaction p) = Ok (au_transaction_digest z) ∧
        dt_instant (pp_moment p) < dt_instant (au_expires_at z) ∧
        db_auths (w_db w') = <[a := consumed (as_utc (pp_moment p)) z]> (db_auths (w_db w))) ∧
  (∃ ob, db_outbox (w_db w') = db_outbox (w_db w) ++ [ob] ∧ ob_payment_intent_id ob = i ∧
         ob_event_type ob = OutboxEventType.PAYMENT_CREATE_REQUESTED ∧ ob_status ob = OutboxStatus.PENDING ∧
         ob_attempts ob = 0 ∧ ob_available_at ob = as_utc (pp_moment p)) ∧
  db_missions (w_db w') =
    alter (λ r, if MissionFSM.can_transition (ms_state r) MissionState.PAYMENT_PENDING
                then set_ms_state MissionState.PAYMENT_PENDING r else r) m (db_missions (w_db w)).
Proof.
  cbv zeta. unfold write_payment. set (r := new_intent _ _ _ _ _ _ _ _). intros E.
  run_step E. apply insert_intent_Ok in Hrun as (Hno & Hchk & ->). change (pi_id r) with i in *.
  run_step E. apply consume_Ok in Hrun as (z & mo & h & Hz & Hh & Hc & _ & Hn & -> & Hau & l & Hdb).
  pose proof (Hn _ eq_refl) as ->. apply consumable_spec in Hc as (Hs & Hd & Hlt). clear Hn Hau. cbn in Hz, Hdb.
  run_step E. rewrite assert_payment_transition_cases in Hrun.
  change (PaymentFSM.can_transition PaymentIntentState.CREATED PaymentIntentState.QUEUED) with true in Hrun.
  injection Hrun as _ <-.
  run_step E. apply update_intent_Ok in Hrun as (r' & Hr' & ->).
  run_step E. apply append_event_db in Hrun as [l2 Hdb2].
  run_step E. apply append_event_db in Hrun as [l3 Hdb3].
  run_step E. apply enqueue_Ok in Hrun as (Hdb4 & Ho1 & Ho2 & Ho3 & Ho4 & Ho5 & _ & Ho6).
  run_step E. apply ret_run_Ok in E as [_ ->].
  match type of Hrun with move_mission ?m ?t ?v = _ => destruct (move_mission_run m t v) as (b & Em) end.
  rewrite Em in Hrun. injection Hrun as _ <-. cbn [w_db set_w_db] in *.
  rewrite Hdb4, Hdb3, Hdb2, Hdb. rewrite Hdb in Hr'. clear Hdb4 Hdb3 Hdb2 Hdb.
  cbn [db_auths db_intents db_outbox db_missions set_db_auths set_db_intents set_db_outbox set_db_missions
       set_db_audit w_db set_w_db] in Hr' |- *.
  rewrite lookup_insert_eq in Hr'. injection Hr' as <-.
  rewrite insert_insert_eq. split_and!; try done.
  - exists z. rewrite Hd. split_and!; try done. by rewrite as_utc_instant in Hlt.
  - match goal with ob : OutboxEventRow |- _ => exists ob end. split_and!; try done. by apply Ho6.
Qed.
End Runs.
