(* ===== verification/IntentsProperties.v ===== *)
(** * Properties of payment intent creation

    A payment comes into existence whole or not at all, once per idempotency key
    and once per authorization, and a request that creates none spends none. *)
From S2P Require Import Prelude Python PyFloat Json Text Enums Errors Firewall Canonical Transaction.
From S2P Require Import StateMachines Merchant Kernel Policy Payment Database Hashing Evolution Ledger.
From S2P Require Import Binding Authorization AuthorizationTheorems AuthorizationProperties Outbox.
From S2P Require Import Intents.

(** No payment, no instruction to pay, no mission move and no authorization spent. *)
Definition spends_nothing (w w' : World) : Prop :=
  db_intents (w_db w') = db_intents (w_db w) ∧ db_outbox (w_db w') = db_outbox (w_db w) ∧
  db_missions (w_db w') = db_missions (w_db w) ∧
  ∀ i r, db_auths (w_db w') !! i = Some r → au_status r = AuthorizationStatus.CONSUMED →
         db_auths (w_db w) !! i = Some r.
#[global] Instance spends_nothing_preorder : PreOrder spends_nothing.
Proof.
  split; [by intros w; split_and!|].
  intros a b c (A1 & A2 & A3 & A4) (B1 & B2 & B3 & B4). split_and!; [congruence..|].
  intros i r Hr Hs. apply A4; [|done]. by apply B4.
Qed.
Lemma spends_nothing_same w w' : w_db w' = w_db w → spends_nothing w w'.
Proof. intros E. unfold spends_nothing. by rewrite E. Qed.

Section Spends.
Context `{Env}.

Lemma spends_append m t a p : evolves spends_nothing (append_event m t a p).
Proof.
  intros w. destruct (append_event m t a p w) as [x w'] eqn:E.
  apply append_event_db in E as [l E]. cbn [snd]. unfold spends_nothing. by rewrite E.
Qed.
Lemma spends_moment now : evolves spends_nothing (moment_of now).
Proof. intros w. destruct (moment_of_run now w) as (m & w1 & -> & (Hd & _) & _). by apply spends_nothing_same. Qed.
Lemma spends_reads {A} (f : DB → A) : evolves spends_nothing (reads f).
Proof. apply evolves_reads. apply _. Qed.
Lemma spends_reload i : evolves spends_nothing (reload i).
Proof. apply spends_reads. Qed.
Lemma spends_get_mission i : evolves spends_nothing (get_mission i).
Proof. apply spends_reads. Qed.
Hint Resolve spends_append spends_moment spends_reads spends_reload spends_get_mission : evolves.
Lemma spends_audit m t p : evolves spends_nothing (audit m t p).
Proof. unfold audit. evolve. Qed.
Hint Resolve spends_audit : evolves.

Lemma spends_expiring i pred : evolves spends_nothing (update_authorization i pred (set_au_status AuthorizationStatus.EXPIRED)).
Proof.
  intros w. rewrite update_authorization_cases. destruct (db_auths (w_db w) !! i) as [r|]; [|reflexivity].
  destruct (pred r); [|reflexivity]. destruct (violates _); [reflexivity|]. cbn.
  split_and!; try done. cbn. intros j r'. destruct (decide (j = i)) as [->|].
  - rewrite lookup_insert_eq. by intros [= <-].
  - by rewrite lookup_insert_ne.
Qed.
Hint Resolve spends_expiring : evolves.
Lemma spends_expire i now : evolves spends_nothing (expire_if_stale i now).
Proof. unfold expire_if_stale. evolve. Qed.
Hint Resolve spends_expire : evolves.
Lemma spends_classify {A} i t now s : evolves spends_nothing (classify_and_raise i t now s : P A).
Proof. unfold classify_and_raise, auth_failure. evolve. Qed.
Hint Resolve spends_classify : evolves.
Lemma spends_verify r s now : evolves spends_nothing (verify_authorization_for_payment r s now).
Proof. unfold verify_authorization_for_payment, require_policy_scheme, auth_failure, proof_scheme_invalid, auth_failure. evolve. Qed.
Hint Resolve spends_verify : evolves.
Lemma spends_prepare c m a k prov now : evolves spends_nothing (prepare_payment c m a k prov now).
Proof. unfold prepare_payment, rejected, auth_failure. evolve. Qed.
Lemma spends_resolve e f k : evolves spends_nothing (resolve_existing e f k).
Proof. unfold resolve_existing. evolve. Qed.
Hint Resolve spends_prepare spends_resolve : evolves.

Lemma resolve_existing_Ok e f k w r w' :
  resolve_existing e f k w = (Ok r, w') → r = mkPaymentIntentResult (pi_id e) false ∧ pi_request_fingerprint e = f.
Proof.
  unfold resolve_existing. intros E. destruct (String.eqb_spec (pi_request_fingerprint e) f) as [He|].
  - run_step E. apply ret_run_Ok in E as [-> _]. done.
  - run_inv E.
Qed.

Lemma spends_on_error f k e : evolves spends_nothing (on_integrity_error f k e).
Proof. unfold on_integrity_error. evolve. Qed.
Lemma on_error_Ok f k e w r w' :
  on_integrity_error f k e w = (Ok r, w') →
  pr_created r = false ∧ ∃ x, find_by_idempotency_key k (w_db w) = Some x ∧ pr_intent r = pi_id x ∧
  pi_request_fingerprint x = f.
Proof.
  unfold on_integrity_error. intros E. destruct e; try done. run_step E. apply reads_Ok in Hrun as [-> ->].
  destruct (find_by_idempotency_key k (w_db w)) as [x|]; [|done].
  apply resolve_existing_Ok in E as [-> Hf]. split; [done|]. by exists x.
Qed.

(** The second half either wrote everything or spent nothing. *)
Lemma establish_cases m a k prov p w :
  match establish_payment m a k prov p w with
  | (Ok (mkPaymentIntentResult i true), w') =>
      i = (w_fresh w + 1)%N ∧
      write_payment m a i k prov p (mkWorld (w_db w) (w_committed w) i (w_ticks w) (w_tokens w) (w_calls w)) = (Ok tt, w')
  | (_, w') => spends_nothing w w'
  end.
Proof.
  unfold establish_payment, uuid4. unfold mbind at 1, M_bind at 1. cbv zeta.
  set (i := (w_fresh w + 1)%N). set (w0 := mkWorld _ _ i _ _ _). unfold try_except, begin_nested.
  unfold mbind at 1, M_bind at 1. destruct (write_payment m a i k prov p w0) as [[[]|e] w1] eqn:E; cbn [mret M_ret].
  - done.
  - assert (H0 : spends_nothing w (set_w_db (w_db w0) w1)) by (by apply spends_nothing_same).
    pose proof (spends_on_error (pp_fingerprint p) k e (set_w_db (w_db w0) w1)) as Hev.
    destruct (on_integrity_error _ _ _ _) as [[[j []]|e'] w2] eqn:Er; [|by etrans|by etrans].
    by apply on_error_Ok in Er as (? & ? & _).
Qed.

Definition expected_status (a : uuid) (existing : option PaymentIntentRow) : AuthorizationStatus :=
  match existing with
  | Some e => if bool_decide (pi_authorization_id e = a) then AuthorizationStatus.CONSUMED
              else AuthorizationStatus.ACTIVE
  | None => AuthorizationStatus.ACTIVE
  end.

Lemma prepare_Ok c m a k prov now w p w' :
  prepare_payment c m a k prov now w = (Ok p, w') →
  w_db w' = w_db w ∧ cs_principal c = "payment-executor" ∧
  db_auths (w_db w) !! a = Some (pp_authorization p) ∧ au_mission_id (pp_authorization p) = m ∧
  pp_existing p = find_by_idempotency_key k (w_db w) ∧
  (∃ ms, db_missions (w_db w) !! m = Some ms ∧
         (pp_existing p = None → ms_state ms = MissionState.AUTHORIZED)) ∧
  (∃ w1 w2, w_db w1 = w_db w ∧
     verify_authorization_for_payment (pp_authorization p) (expected_status a (pp_existing p)) (pp_moment p) w1
     = (Ok (pp_transaction p), w2)) ∧
  request_fingerprint m a (au_transaction_digest (pp_authorization p)) (bt_amount_inr (pp_transaction p))
    (bt_currency (pp_transaction p)) (bt_merchant_id (pp_transaction p)) prov = Ok (pp_fingerprint p) ∧
  (∀ n, now = Some n → pp_moment p = as_utc n).
Proof.
  unfold prepare_payment. intros E. run_step E.
  assert (Hc : fst (enforce_registered c Capability.PAYMENT_EXECUTE w) = Ok tt)
    by (rewrite Hrun; by destruct a0). apply execute_holder in Hc.
  rewrite enforce_registered_cases in Hrun. destruct (_ && _) in Hrun; [|done]. injection Hrun as <- <-.
  run_step E. destruct (moment_of_run now w) as (mo & w1 & Em & (Hd & _ & _) & _ & Hn).
  rewrite Em in Hrun. injection Hrun as <- <-. run_step E. apply reads_Ok in Hrun as [-> ->].
  rewrite Hd in E. destruct (db_auths (w_db w) !! a) as [row|] eqn:Hrow; [|done].
  destruct (bool_decide_reflect (au_mission_id row = m)) as [Hm|]; cbn [negb] in E; [|done].
  run_step E. apply reads_Ok in Hrun as [-> ->]. run_step E. apply reads_Ok in Hrun as [-> ->].
  rewrite Hd in E. destruct (db_missions (w_db w) !! m) as [ms|] eqn:Hms; [|done].
  destruct (is_none (find_by_idempotency_key k (w_db w)) && _) eqn:Hst; [done|].
  run_step E. pose proof Hrun as Hver. apply verify_payment_Ok in Hrun as (-> & _).
  run_step E. apply lift_run_Ok in Hrun as [Hf ->]. apply ret_run_Ok in E as [-> ->].
  cbn [pp_authorization pp_existing pp_moment pp_transaction pp_fingerprint]. split_and!; try done.
  - exists ms. split; [done|]. intros Hnone. rewrite Hnone in Hst. cbn [is_none is_some negb andb] in Hst.
    apply negb_false_iff in Hst. by apply bool_decide_eq_true in Hst.
  - exists w1, w1. split; [done|]. exact Hver.
  - intros n ->. by apply Hn.
Qed.

(** ** The table answers to a key *)
Lemma find_key_Some k d r : find_by_idempotency_key k d = Some r →
  pi_idempotency_key r = k ∧ ∃ i, db_intents d !! i = Some r.
Proof.
  unfold find_by_idempotency_key. intros [Hin Hk%String.eqb_eq]%find_some. split; [done|].
  unfold intent_rows in Hin. apply list_elem_of_In, list_elem_of_fmap_1 in Hin as ([i r'] & -> & Hin).
  apply elem_of_map_to_list in Hin. by exists i.
Qed.
Lemma elem_of_intent_rows d r : r ∈ intent_rows d ↔ ∃ i, db_intents d !! i = Some r.
Proof.
  unfold intent_rows. split.
  - intros ([i r'] & -> & Hin)%list_elem_of_fmap_1. apply elem_of_map_to_list in Hin. by exists i.
  - intros (i & Hi). apply (list_elem_of_fmap_2' _ _ (i, r)); [|done]. by apply elem_of_map_to_list.
Qed.
Lemma find_key_found d i r : intents_ok d → db_intents d !! i = Some r →
  find_by_idempotency_key (pi_idempotency_key r) d = Some r ∧ pi_id r = i.
Proof.
  intros Hok Hr. split; [|by apply (io_id _ Hok)].
  destruct (find_by_idempotency_key (pi_idempotency_key r) d) as [r'|] eqn:E.
  - apply find_key_Some in E as (Hk & j & Hj). pose proof (io_key _ Hok i j r r' Hr Hj (eq_sym Hk)). congruence.
  - exfalso. unfold find_by_idempotency_key in E.
    assert (Hin : In r (intent_rows d)) by (apply list_elem_of_In, elem_of_intent_rows; by exists i).
    pose proof (find_none _ _ E r Hin) as Hf. cbn in Hf. by rewrite String.eqb_refl in Hf.
Qed.

(** ** Creation, by cases *)
Lemma create_cases c m a k prov now w :
  match create_payment_intent c m a k prov now w with
  | (Ok (mkPaymentIntentResult i true), w') =>
      ∃ p w0 w1, prepare_payment c m a k prov now w = (Ok p, w0) ∧ pp_existing p = None ∧
        w_db w1 = w_db w ∧ write_payment m a i k prov p w1 = (Ok tt, w')
  | (_, w') => spends_nothing w w'
  end.
Proof.
  unfold create_payment_intent. unfold mbind at 1, M_bind at 1.
  pose proof (spends_prepare c m a k prov now w) as Hp.
  destruct (prepare_payment c m a k prov now w) as [[p|e] w0] eqn:E; cbn [snd] in Hp; [|exact Hp].
  pose proof (prepare_Ok _ _ _ _ _ _ _ _ _ E) as (Hd & _).
  destruct (pp_existing p) as [x|] eqn:Ex.
  - pose proof (spends_resolve x (pp_fingerprint p) k w0) as Hr.
    destruct (resolve_existing _ _ _ w0) as [[[j []]|e] w1] eqn:Er; [|by etrans|by etrans].
    by apply resolve_existing_Ok in Er as [? _].
  - pose proof (establish_cases m a k prov p w0) as Hc.
    destruct (establish_payment m a k prov p w0) as [[[j []]|e] w1]; [|by etrans|by etrans].
    destruct Hc as [_ Hc]. exists p, w0. eexists. split_and!; [done|done| |exact Hc]. exact Hd.
Qed.

(** The row a creation stores. *)
Definition queued_intent (i m a : uuid) (z : AuthorizationRow) (k fp : string) (t : BoundTransaction) (prov : string)
    : PaymentIntentRow :=
  mkPaymentIntentRow i m a (au_transaction_digest z) k fp (bt_amount_inr t) (bt_currency t) (bt_merchant_id t)
    prov None None None None None None None None PaymentIntentState.QUEUED 0 None.

Lemma create_Ok c m a k prov now w i w' :
  create_payment_intent c m a k prov now w = (Ok (mkPaymentIntentResult i true), w') →
  cs_principal c = "payment-executor" ∧ find_by_idempotency_key k (w_db w) = None ∧
  db_intents (w_db w) !! i = None ∧
  ∃ ms z t fp moment, db_missions (w_db w) !! m = Some ms ∧ ms_state ms = MissionState.AUTHORIZED ∧
    db_auths (w_db w) !! a = Some z ∧ au_mission_id z = m ∧ au_status z = AuthorizationStatus.ACTIVE ∧
    dt_instant moment < dt_instant (au_expires_at z) ∧ (∀ n, now = Some n → moment = as_utc n) ∧
    BoundTransaction_new (row_transaction z) = Ok t ∧ digest t = Ok (au_transaction_digest z) ∧
    request_fingerprint m a (au_transaction_digest z) (bt_amount_inr t) (bt_currency t) (bt_merchant_id t) prov = Ok fp ∧
    db_intents (w_db w') = <[i := queued_intent i m a z k fp t prov]> (db_intents (w_db w)) ∧
    db_auths (w_db w') = <[a := consumed (as_utc moment) z]> (db_auths (w_db w)) ∧
    (∃ ob, db_outbox (w_db w') = db_outbox (w_db w) ++ [ob] ∧ ob_payment_intent_id ob = i ∧
       ob_event_type ob = OutboxEventType.PAYMENT_CREATE_REQUESTED ∧ ob_status ob = OutboxStatus.PENDING ∧
       ob_attempts ob = 0) ∧
    db_missions (w_db w') = <[m := set_ms_state MissionState.PAYMENT_PENDING ms]> (db_missions (w_db w)).
Proof.
  intros E. pose proof (create_cases c m a k prov now w) as Hc. rewrite E in Hc.
  destruct Hc as (p & w0 & w1 & Hp & Hex & Hd1 & Hw).
  apply prepare_Ok in Hp as (_ & Hcs & Hz & Hm & Hfk & (ms & Hms & Hst) & (w2 & w3 & Hd2 & Hver) & Hfp & Hnow).
  apply write_payment_Ok in Hw as (_ & Hno & Hin & (z & Hz' & Hact & _ & Hlt & Hau) & (ob & Ho & Ho1 & Ho2 & Ho3 & Ho4 & _) & Hmis).
  rewrite Hd1 in *. rewrite Hz in Hz'. injection Hz' as <-.
  apply verify_payment_Ok in Hver as (_ & Hnew & Hdig & _).
  split; [done|]. split; [congruence|]. split; [done|].
  exists ms, (pp_authorization p), (pp_transaction p), (pp_fingerprint p), (pp_moment p).
  split_and!; try done; [by apply Hst|by exists ob|].
  rewrite Hmis. apply map_eq. intros j. destruct (decide (j = m)) as [->|].
  - rewrite lookup_alter_eq, Hms, lookup_insert_eq. cbn. by rewrite (Hst Hex).
  - by rewrite lookup_alter_ne, lookup_insert_ne.
Qed.

(** An intent returned without being created is the one the key already names, and
    the request has its fingerprint. *)
Lemma create_reused c m a k prov now w i w' :
  create_payment_intent c m a k prov now w = (Ok (mkPaymentIntentResult i false), w') →
  ∃ x z t, find_by_idempotency_key k (w_db w) = Some x ∧ i = pi_id x ∧
    db_auths (w_db w) !! a = Some z ∧ au_mission_id z = m ∧ BoundTransaction_new (row_transaction z) = Ok t ∧
    request_fingerprint m a (au_transaction_digest z) (bt_amount_inr t) (bt_currency t) (bt_merchant_id t) prov
      = Ok (pi_request_fingerprint x).
Proof.
  unfold create_payment_intent. intros E. run_step E.
  apply prepare_Ok in Hrun as (Hd & _ & Hz & Hm & Hfk & _ & (w2 & w3 & _ & Hver) & Hfp & _).
  apply verify_payment_Ok in Hver as (_ & Hnew & _).
  destruct (pp_existing a0) as [x|] eqn:Ex.
  - apply resolve_existing_Ok in E as [[= ->] Hx]. exists x, (pp_authorization a0), (pp_transaction a0).
    split_and!; try done. by rewrite Hx.
  - exfalso. unfold establish_payment, uuid4 in E. unfold mbind at 1, M_bind at 1 in E. cbv zeta in E.
    apply try_run_Ok in E as [E|(e & w4 & E & Eh)].
    + run_step E. by apply ret_run_Ok in E as [[=] _].
    + apply on_error_Ok in Eh as (_ & x & Hx & _). unfold begin_nested in E. unfold mbind at 1, M_bind at 1 in E.
      destruct (write_payment _ _ _ _ _ _ _) as [[?|?] ?]; [done|]. injection E as <- <-.
      cbn [w_db set_w_db] in Hx. rewrite Hd, <-Hfk in Hx. done.
Qed.

Lemma evolves_resolve e f k : evolves sess_le (resolve_existing e f k).
Proof. unfold resolve_existing. evolve. Qed.
Lemma evolves_prepare c m a k prov now : evolves sess_le (prepare_payment c m a k prov now).
Proof. unfold prepare_payment, rejected, reload. evolve. Qed.
Hint Resolve evolves_resolve evolves_prepare evolves_write_payment : evolves.
Lemma evolves_create c m a k prov now : evolves sess_le (create_payment_intent c m a k prov now).
Proof. unfold create_payment_intent, establish_payment, on_integrity_error. evolve. Qed.

(** A second insertion under a key in use. *)
Lemma insert_intent_duplicate r w x :
  db_intents (w_db w) !! pi_id r = None → find_by_idempotency_key (pi_idempotency_key r) (w_db w) = Some x →
  insert_intent r w = (Raise (IntegrityError "uq_payment_intents_idempotency_key"), w).
Proof.
  intros Hno Hf. unfold insert_intent, read_db, reads, gets. unfold mbind at 1, M_bind at 1.
  unfold mbind at 1, M_bind at 1. cbv beta iota. rewrite flush_checked_cases. unfold violates at 1.
  cbn [List.find fst snd]. rewrite Hno. cbn [is_none is_some negb fmap option_fmap option_map]. cbv beta iota. unfold write_intent, read_db, reads, gets.
  unfold mbind at 1, M_bind at 1. unfold mbind at 1, M_bind at 1. cbv beta iota. rewrite flush_checked_cases.
  unfold violates, intent_checks. cbn [List.find fst snd].
  apply find_key_Some in Hf as (Hk & j & Hj).
  assert (Hin : x ∈ other_intents (pi_id r) (w_db w)).
  { apply elem_of_other_intents. exists j. split; [|done]. intros ->. congruence. }
  destruct (forallb _ (other_intents (pi_id r) (w_db w))) eqn:E at 1; [|done]. exfalso.
  rewrite forallb_forall in E. apply list_elem_of_In in Hin. specialize (E x Hin).
  rewrite Hk, String.eqb_refl in E. done.
Qed.

Lemma resolve_existing_total e f k w : ledger_ok (w_db w) →
  ∃ w', resolve_existing e f k w =
    ((if String.eqb (pi_request_fingerprint e) f
      then Ok (mkPaymentIntentResult (pi_id e) false)
      else Raise (PaymentRejected IdempotencyConflict
             ("idempotency key '" +:+ k +:+ "' was already used for a different payment request"))), w') ∧
    ∃ l, w_db w' = set_db_audit l (w_db w).
Proof.
  intros Hok. unfold resolve_existing. destruct (String.eqb _ f); unfold mbind, M_bind;
    match goal with |- context [append_event ?m ?t ?a ?p w] =>
      destruct (append_event_total m t a p w Hok) as (h & _ & E); rewrite E end;
    eexists; (split; [reflexivity|by eexists]).
Qed.

(** ** Properties *)

(** C13: A payment comes into existence whole.  When [create_payment_intent] reports
    a new intent, the caller held the payment-executor grant, no intent had the
    key, the mission was AUTHORIZED and the authorization was its own, ACTIVE,
    unexpired and re-derived to its digest; and in one step the database gained
    exactly: the QUEUED intent whose amount, currency and merchant are those the
    authorization was rebuilt to, the consumption of that authorization and of no
    other, one PENDING outbox instruction for the intent, and the mission's move to
    PAYMENT_PENDING. *)
Theorem payment_created_whole (c : CapabilitySet) (m a : uuid) (k prov : string) (now : option datetime)
    (w w' : World) (i : uuid) :
  create_payment_intent c m a k prov now w = (Ok (mkPaymentIntentResult i true), w') →
  cs_principal c = "payment-executor" ∧ find_by_idempotency_key k (w_db w) = None ∧
  db_intents (w_db w) !! i = None ∧
  ∃ ms z t fp moment, db_missions (w_db w) !! m = Some ms ∧ ms_state ms = MissionState.AUTHORIZED ∧
    db_auths (w_db w) !! a = Some z ∧ au_mission_id z = m ∧ au_status z = AuthorizationStatus.ACTIVE ∧
    dt_instant moment < dt_instant (au_expires_at z) ∧ (∀ n, now = Some n → moment = as_utc n) ∧
    BoundTransaction_new (row_transaction z) = Ok t ∧ digest t = Ok (au_transaction_digest z) ∧
    request_fingerprint m a (au_transaction_digest z) (bt_amount_inr t) (bt_currency t) (bt_merchant_id t) prov = Ok fp ∧
    db_intents (w_db w') = <[i := queued_intent i m a z k fp t prov]> (db_intents (w_db w)) ∧
    db_auths (w_db w') = <[a := consumed (as_utc moment) z]> (db_auths (w_db w)) ∧
    (∃ ob, db_outbox (w_db w') = db_outbox (w_db w) ++ [ob] ∧ ob_payment_intent_id ob = i ∧
       ob_event_type ob = OutboxEventType.PAYMENT_CREATE_REQUESTED ∧ ob_status ob = OutboxStatus.PENDING ∧
       ob_attempts ob = 0) ∧
    db_missions (w_db w') = <[m := set_ms_state MissionState.PAYMENT_PENDING ms]> (db_missions (w_db w)).
Proof. apply create_Ok. Qed.

(** C14: A request that creates no payment spends nothing.  Whether
    [create_payment_intent] raises or returns an intent that already existed, the
    payment intents, the outbox and the missions are exactly what they were, and no
    authorization has become CONSUMED: what the savepoint wrote is undone with it. *)
Theorem refused_payment_spends_nothing (c : CapabilitySet) (m a : uuid) (k prov : string)
    (now : option datetime) (w : World) :
  match create_payment_intent c m a k prov now w with
  | (Ok (mkPaymentIntentResult _ true), _) => True
  | (_, w') =>
      db_intents (w_db w') = db_intents (w_db w) ∧ db_outbox (w_db w') = db_outbox (w_db w) ∧
      db_missions (w_db w') = db_missions (w_db w) ∧
      ∀ i r, db_auths (w_db w') !! i = Some r → au_status r = AuthorizationStatus.CONSUMED →
             db_auths (w_db w) !! i = Some r
  end.
Proof.
  pose proof (create_cases c m a k prov now w) as Hc.
  destruct (create_payment_intent _ _ _ _ _ _ _) as [[[i []]|e] w']; [done|exact Hc|exact Hc].
Qed.

(** One payment per idempotency key and per authorization.  Once an intent was
    created for a key and an authorization, then in every later state of the
    database no request with that key or with that authorization creates another:
    a request with the key that returns, returns that very intent, and nothing is
    spent. *)
Theorem one_payment_per_key_and_authorization (c c2 : CapabilitySet) (m a m2 a2 : uuid) (k k2 prov prov2 : string)
    (now now2 : option datetime) (w w' w2 : World) (i : uuid) :
  intents_ok (w_db w) →
  create_payment_intent c m a k prov now w = (Ok (mkPaymentIntentResult i true), w') →
  db_le (w_db w') (w_db w2) → k2 = k ∨ a2 = a →
  match create_payment_intent c2 m2 a2 k2 prov2 now2 w2 with
  | (Ok r, w3) => pr_created r = false ∧ (k2 = k → pr_intent r = i) ∧ spends_nothing w2 w3
  | (Raise _, w3) => spends_nothing w2 w3
  end.
Proof.
  intros Hok E Hle Hsame.
  assert (Hok' : intents_ok (w_db w')).
  { pose proof (evolves_create c m a k prov now w) as Hev. rewrite E in Hev.
    by apply (dl_intents_ok _ _ (sl_db _ _ Hev)). }
  pose proof (dl_intents_ok _ _ Hle Hok') as Hok2.
  apply create_Ok in E as (_ & _ & _ & ms & z & t & fp & mo & _ & _ & _ & _ & _ & _ & _ & _ & _ & _ & Hin & Hau & _).
  destruct (dl_intents _ _ Hle i (queued_intent i m a z k fp t prov)) as (r2 & Hr2 & Hle2);
    [by rewrite Hin, lookup_insert_eq|].
  pose proof (il_immutable _ _ Hle2) as Himm. unfold intent_immutable in Himm. cbn in Himm.
  injection Himm as Hi2 _ _ _ Hk2 _ _ _ _ _.
  destruct (find_key_found _ _ _ Hok2 Hr2) as [Hfind _]. rewrite Hk2 in Hfind.
  destruct (dl_auths _ _ Hle a (consumed (as_utc mo) z)) as (z2 & Hz2 & Hlz);
    [by rewrite Hau, lookup_insert_eq|].
  pose proof (al_status _ _ Hlz) as Hst. apply AuthorizationFSM.final_run in Hst; [|done].
  pose proof (create_cases c2 m2 a2 k2 prov2 now2 w2) as Hc.
  destruct (create_payment_intent c2 m2 a2 k2 prov2 now2 w2) as [[[j []]|e] w3] eqn:E2; [| |exact Hc].
  - exfalso. apply create_Ok in E2 as (_ & Hnone & _ & ms' & z' & t' & fp' & mo' & _ & _ & Hz' & _ & Hact & _).
    destruct Hsame as [-> | ->]; [congruence|]. rewrite Hz2 in Hz'. injection Hz' as <-.
    rewrite Hst in Hact. done.
  - split; [done|]. split; [|exact Hc]. intros ->.
    apply create_reused in E2 as (x & _ & _ & Hx & -> & _). rewrite Hfind in Hx. injection Hx as <-. done.
Qed.


(** The loser of a race gives its authorization back.  If, between what a
    request verified and its savepoint, another request stored an intent under the
    same key, the savepoint is undone: the request returns the winner's intent (same
    fingerprint) or raises IDEMPOTENCY_CONFLICT, and no authorization, intent,
    outbox event or mission differs from before. *)
Theorem race_loser_spends_nothing (m a : uuid) (k prov : string) (p : PreparedPayment) (w : World)
    (winner : PaymentIntentRow) :
  intents_ok (w_db w) → ledger_ok (w_db w) → find_by_idempotency_key k (w_db w) = Some winner →
  db_intents (w_db w) !! (w_fresh w + 1)%N = None →
  ∃ w', establish_payment m a k prov p w =
      ((if String.eqb (pi_request_fingerprint winner) (pp_fingerprint p)
        then Ok (mkPaymentIntentResult (pi_id winner) false)
        else Raise (PaymentRejected IdempotencyConflict
               ("idempotency key '" +:+ k +:+ "' was already used for a different payment request"))), w') ∧
    db_auths (w_db w') = db_auths (w_db w) ∧ db_intents (w_db w') = db_intents (w_db w) ∧
    db_outbox (w_db w') = db_outbox (w_db w) ∧ db_missions (w_db w') = db_missions (w_db w).
Proof.
  intros Hok Hled Hf Hfresh. unfold establish_payment, uuid4. unfold mbind at 1, M_bind at 1. cbv zeta.
  set (w0 := mkWorld _ _ _ _ _ _). unfold try_except, begin_nested. unfold mbind at 1, M_bind at 1.
  unfold write_payment. unfold mbind at 1, M_bind at 1.
  rewrite (insert_intent_duplicate _ w0 winner) by done.
  assert (E0 : set_w_db (w_db w0) w0 = w0) by done. rewrite E0. cbn [on_integrity_error].
  unfold reads, gets. unfold mbind at 1, M_bind at 1. cbn [w_db w0]. rewrite Hf.
  destruct (resolve_existing_total winner (pp_fingerprint p) k w0 Hled) as (w' & E & l & Hl).
  exists w'. split; [exact E|]. by rewrite Hl.
Qed.
End Spends.

(** ** A mission ready to pay, for the witnesses *)
#[local] Existing Instance demo_env.

Definition ready_world : World :=
  demo_world (set_db_missions {[ 7%N := mkMissionRow 7%N None 1 MissionState.AUTHORIZED None ]}
    (w_db (world_with ApprovalScheme.POLICY_AUTO AuthorizationStatus.ACTIVE PolicyOutcome.ALLOW))).
Definition executor : CapabilitySet := payment_executor_capabilities "payment-executor".
Abbreviation first_request :=
  (create_payment_intent (H:=demo_env) executor 7%N 11%N "key-1" "fake" (Some noon_utc)).

Lemma intents_ok_empty d : db_intents d = ∅ → intents_ok d.
Proof. intros E. constructor; rewrite E; intros *; by rewrite lookup_empty. Qed.

Lemma first_request_run :
  fst (first_request ready_world) = Ok (mkPaymentIntentResult 1%N true).
Proof. vm_compute. reflexivity. Qed.
Lemma payment_created_whole_witness :
  first_request ready_world = (Ok (mkPaymentIntentResult 1%N true), snd (first_request ready_world)) ∧
  find_by_idempotency_key "key-1" (w_db ready_world) = None.
Proof.
  pose proof (fst_run _ _ _ first_request_run) as E. split; [exact E|].
  destruct (payment_created_whole executor 7%N 11%N "key-1" "fake" (Some noon_utc) ready_world
    (snd (first_request ready_world)) 1%N E) as (_ & Hf & _). exact Hf.
Defined.

Lemma one_payment_per_key_and_authorization_witness :
  match create_payment_intent executor 7%N 11%N "key-2" "fake" (Some noon_utc) (snd (first_request ready_world)) with
  | (Ok r, w3) => pr_created r = false ∧ ("key-2" = "key-1" → pr_intent r = 1%N) ∧
                  spends_nothing (snd (first_request ready_world)) w3
  | (Raise _, w3) => spends_nothing (snd (first_request ready_world)) w3
  end.
Proof.
  apply (one_payment_per_key_and_authorization executor executor 7%N 11%N 7%N 11%N "key-1" "key-2" "fake" "fake"
    (Some noon_utc) (Some noon_utc) ready_world (snd (first_request ready_world))
    (snd (first_request ready_world)) 1%N).
  - apply intents_ok_empty. reflexivity.
  - exact (fst_run _ _ _ first_request_run).
  - reflexivity.
  - right. reflexivity.
Defined.

Definition first_intent : PaymentIntentRow :=
  match db_intents (w_db (snd (first_request ready_world))) !! 1%N with
  | Some r => r | None => mkPaymentIntentRow 0%N 0%N 0%N "" "" "" 0 "" "" "" None None None None None None None None
                           PaymentIntentState.CREATED 0 None end.

Definition late_request : PreparedPayment :=
  mkPreparedPayment noon_utc (authorization_row ApprovalScheme.POLICY_AUTO AuthorizationStatus.ACTIVE) None
    approved_transaction "another fingerprint".
Lemma race_loser_spends_nothing_witness :
  ∃ w', establish_payment 7%N 12%N "key-1" "fake" late_request (snd (first_request ready_world)) =
      (Raise (PaymentRejected IdempotencyConflict
         "idempotency key 'key-1' was already used for a different payment request"), w') ∧
    db_auths (w_db w') = db_auths (w_db (snd (first_request ready_world))).
Proof.
  destruct (race_loser_spends_nothing 7%N 12%N "key-1" "fake" late_request (snd (first_request ready_world))
    first_intent) as (w' & E & Ha & _).
  - apply (dl_intents_ok _ _ (sl_db _ _ (evolves_create executor 7%N 11%N "key-1" "fake" (Some noon_utc) ready_world))).
    apply intents_ok_empty. reflexivity.
  - apply (dl_ledger _ _ (sl_db _ _ (evolves_create executor 7%N 11%N "key-1" "fake" (Some noon_utc) ready_world))).
    apply ledger_ok_no_audit. reflexivity.
  - vm_compute. reflexivity.
  - vm_compute. reflexivity.
  - exists w'. split; [|exact Ha]. etrans; [exact E|]. vm_compute (String.eqb _ _). reflexivity.
Defined.
