(* ===== verification/Provider.v ===== *)
(** * Payment providers

    services/payment_executor/providers/base.py: the protocol the executor depends
    on, registry.py: the server-owned resolution of a name, and providers/fake.py:
    the deterministic provider.  A provider is outside the program: its answers are
    an arbitrary function of every call made so far, and every call is recorded. *)
From S2P Require Import Prelude Python PyText PyFloat Json Enums Errors Payment Database Evolution Hashing.

(** ** providers/base.py *)
Record PaymentProvider := mkPaymentProvider {
  pv_name : string;
  pv_create_retries_are_idempotent : bool;
  pv_create_payment : list provider_call → PaymentRequest → outcome exn ProviderPayment;
  pv_get_payment : list provider_call → option string → option string → outcome exn (option ProviderPayment);
  pv_verify_webhook : bytes → string → option string → outcome exn VerifiedWebhookEvent
}.

Definition record_call (name : string) (op : provider_op) (w : World) : World :=
  mkWorld (w_db w) (w_committed w) (w_fresh w) (w_ticks w) (w_tokens w)
    (w_calls w ++ [mkProviderCall name op]).

Definition call_create_payment (p : PaymentProvider) (request : PaymentRequest) : P ProviderPayment := λ w,
  (pv_create_payment p (w_calls w) request, record_call (pv_name p) (OpCreate request) w).
Definition call_get_payment (p : PaymentProvider) (provider_payment_id idempotency_key : option string)
    : P (option ProviderPayment) := λ w,
  (pv_get_payment p (w_calls w) provider_payment_id idempotency_key,
   record_call (pv_name p) (OpGet provider_payment_id idempotency_key) w).

(** ** What the adapters use of the standard library *)
(** [json.loads(body.decode("utf-8"))]: a value, a UnicodeDecodeError or JSONDecodeError,
    or another exception of the decoder (an integer of too many digits, too deep a
    nesting). *)
Inductive loads_result : Type := Loaded (j : json) | NotJson | LoadFailed (e : exn).

(** [hmac.compare_digest] of two [str], which takes ASCII text only. *)
Definition compare_digest_str (a b : string) : outcome exn bool :=
  if is_ascii a && is_ascii b then Ok (String.eqb a b)
  else Raise (TypeError "comparing strings with non-ASCII characters is not supported").

(** [isinstance(e, ValueError)]: pydantic's ValidationError and a provider mismatch are. *)
Definition is_ValueError (e : exn) : bool :=
  match e with
  | ValueError _ | ValidationError _ => true
  | ProviderFailed err => bool_decide (pe_kind err = ProviderPaymentMismatch)
  | _ => false
  end.

(** [d.get(k)]. *)
Definition jget (k : string) (d : json_obj) : json := default JNull (py_dict_get k d).

(** ** registry.py *)
Definition RAZORPAY_NAME : string := "razorpay_test".
Definition WEBHOOK_SIGNATURE_HEADERS : list (string * string) :=
  [("fake", "x-fake-signature"); (RAZORPAY_NAME, "x-razorpay-signature")].
Definition WEBHOOK_EVENT_ID_HEADERS : list (string * string) := [(RAZORPAY_NAME, "x-razorpay-event-id")].

Inductive RegistryError : Type := UnknownProvider (name : string) | ProviderUnavailable (name detail : string).

Definition registered_provider_names (app_env : string) : list string :=
  if String.eqb app_env "production" then [RAZORPAY_NAME] else ["fake"; RAZORPAY_NAME].

(** [fake] is the process's one fake; [from_environment] builds the Razorpay
    adapter from the deployment's secrets, or fails. *)
Definition provider_for (fake : PaymentProvider) (from_environment : string + PaymentProvider)
    (name app_env : string) : outcome RegistryError PaymentProvider :=
  if negb (bool_decide (name ∈ registered_provider_names app_env)) then Raise (UnknownProvider name)
  else if String.eqb name "fake" then Ok fake
  else match from_environment with
       | inr p => Ok p
       | inl detail => Raise (ProviderUnavailable name detail)
       end.

Definition signature_header_for (name : string) : outcome RegistryError string :=
  match py_dict_get name WEBHOOK_SIGNATURE_HEADERS with
  | None => Raise (UnknownProvider name)
  | Some header => Ok header
  end.
Definition event_id_header_for (name : string) : outcome RegistryError (option string) :=
  if is_none (py_dict_get name WEBHOOK_SIGNATURE_HEADERS) then Raise (UnknownProvider name)
  else Ok (py_dict_get name WEBHOOK_EVENT_ID_HEADERS).

(** ** providers/fake.py *)
Module Fake.
Definition PROVIDER_NAME : string := "fake".

Inductive FaultMode : Set :=
  | SUCCESS | TIMEOUT_BEFORE_CREATE | TIMEOUT_AFTER_CREATE | TRANSIENT_FAILURE | TERMINAL_FAILURE
  | DUPLICATE_RESPONSE | PENDING.

Record FakePaymentProvider := mkFake {
  default_fault : FaultMode;
  fault_script : list FaultMode;
  created_payments : list (string * ProviderPayment);
  by_provider_id : list (string * string);
  create_calls : list string;
  get_calls : list (option string * option string)
}.
Definition new_fake (default : FaultMode) (script : list FaultMode) : FakePaymentProvider :=
  mkFake default script [] [] [] [].

Definition F (A : Type) : Type := M FakePaymentProvider exn A.

Definition next_fault : F FaultMode := λ s,
  match fault_script s with
  | [] => (Ok (default_fault s), s)
  | f :: rest => (Ok f, mkFake (default_fault s) rest (created_payments s) (by_provider_id s)
                          (create_calls s) (get_calls s))
  end.

Definition payment_count_for (idempotency_key : string) (s : FakePaymentProvider) : Z :=
  if is_some (py_dict_get idempotency_key (created_payments s)) then 1 else 0.

Definition with_status (status : ProviderPaymentStatus) (p : ProviderPayment) : ProviderPayment :=
  mkProviderPayment (pp_provider p) (pp_provider_payment_id p) status (pp_amount_inr p) (pp_currency p)
    (pp_idempotency_key p) (pp_provider_order_id p) (pp_provider_transaction_id p) (pp_provider_receipt p)
    (pp_provider_status p) (pp_provider_attempts p) (pp_idempotent_replay p).
Definition as_replay (p : ProviderPayment) : ProviderPayment :=
  mkProviderPayment (pp_provider p) (pp_provider_payment_id p) (pp_status p) (pp_amount_inr p) (pp_currency p)
    (pp_idempotency_key p) (pp_provider_order_id p) (pp_provider_transaction_id p) (pp_provider_receipt p)
    (pp_provider_status p) (pp_provider_attempts p) true.

Definition store (key : string) (p : ProviderPayment) (s : FakePaymentProvider) : FakePaymentProvider :=
  mkFake (default_fault s) (fault_script s) (py_dict_set key p (created_payments s)) (by_provider_id s)
    (create_calls s) (get_calls s).

Definition settle (idempotency_key : string) (status : ProviderPaymentStatus) : F ProviderPayment := λ s,
  match py_dict_get idempotency_key (created_payments s) with
  | None => (Raise (ValueError idempotency_key), s)
  | Some existing => let updated := with_status status existing in (Ok updated, store idempotency_key updated s)
  end.

Definition provider_payment_id (request : PaymentRequest) : string :=
  "fake_pay_" +:+ str_take 16 (sha256_hexdigest
    (default [] (utf8_encode (u (rq_idempotency_key request))))).

(** [_record]: the provider's idempotency guarantee. *)
Definition record_payment (request : PaymentRequest) (status : ProviderPaymentStatus) : F ProviderPayment := λ s,
  match py_dict_get (rq_idempotency_key request) (created_payments s) with
  | Some held => (Ok (as_replay held), s)
  | None =>
      let payment := mkProviderPayment PROVIDER_NAME (provider_payment_id request) status
        (rq_amount_inr request) (rq_currency request) (Some (rq_idempotency_key request))
        None None None None None false in
      match provider_payment_error payment with
      | Some field => (Raise (ValidationError field), s)
      | None =>
          (Ok payment,
           mkFake (default_fault s) (fault_script s)
             (py_dict_set (rq_idempotency_key request) payment (created_payments s))
             (py_dict_set (pp_provider_payment_id payment) (rq_idempotency_key request) (by_provider_id s))
             (create_calls s) (get_calls s))
      end
  end.

Definition failed (k : ProviderErrorKind) (detail : string) : exn :=
  ProviderFailed (mkProviderError k PROVIDER_NAME detail).

Definition create_payment (request : PaymentRequest) : F ProviderPayment :=
  modify (λ s, mkFake (default_fault s) (fault_script s) (created_payments s) (by_provider_id s)
                 (create_calls s ++ [rq_idempotency_key request]) (get_calls s));;
  fault ← next_fault;
  match fault with
  | TIMEOUT_BEFORE_CREATE => raise (failed ProviderTimeout "connection timed out before the payment was created")
  | TRANSIENT_FAILURE => raise (failed ProviderTransientError "provider temporarily unavailable")
  | TERMINAL_FAILURE => raise (failed ProviderTerminalError "payment declined")
  | TIMEOUT_AFTER_CREATE =>
      record_payment request ProviderPaymentStatus.SUCCEEDED;;
      raise (failed ProviderTimeout "connection timed out after the payment was created")
  | PENDING => record_payment request ProviderPaymentStatus.PENDING
  | DUPLICATE_RESPONSE =>
      payment ← record_payment request ProviderPaymentStatus.SUCCEEDED;
      mret (as_replay payment)
  | SUCCESS => record_payment request ProviderPaymentStatus.SUCCEEDED
  end.

Definition get_payment (provider_payment_id idempotency_key : option string) : F (option ProviderPayment) :=
  modify (λ s, mkFake (default_fault s) (fault_script s) (created_payments s) (by_provider_id s)
                 (create_calls s) (get_calls s ++ [(provider_payment_id, idempotency_key)]));;
  gets (λ s,
    match provider_payment_id with
    | Some id => match py_dict_get id (by_provider_id s) with
                 | None => None
                 | Some key => py_dict_get key (created_payments s)
                 end
    | None => match idempotency_key with
              | Some key => py_dict_get key (created_payments s)
              | None => None
              end
    end).

(** [verify_webhook] and [sign], with the secret of the process's fake.  [pydantic_int]
    is the library's coercion of a decoded value to [int | None]. *)
Section Webhook.
Context (json_loads : bytes → loads_result) (library_text : exn → string) (pydantic_int : json → option (option Z)).
Context (webhook_secret : string).

Definition sign (body : bytes) : string := hmac_sha256_hexdigest (encode webhook_secret) body.
Definition refused {A} (detail : string) : outcome exn A :=
  Raise (WebhookVerificationError PROVIDER_NAME detail "WEBHOOK_SIGNATURE_INVALID").

(** [parsed[k]]; [None] is the KeyError. *)
Definition item (k : string) (parsed : json_obj) : option json := py_dict_get k parsed.

(** The event a parsed body describes; [None] is the KeyError or ValueError of one of
    its parts, in the order they are read. *)
Definition event_of (parsed : json_obj) (provider_event_id : option string) : option VerifiedWebhookEvent :=
  event_id ← (match opt_or_str provider_event_id None with
              | Some id => Some id
              | None => json_str <$> item "event_id" parsed
              end);
  raw_type ← item "event_type" parsed;
  event_type ← (match raw_type with JStr s => enum_of s | _ => None end);
  payment_id ← json_str <$> item "provider_payment_id" parsed;
  sequence ← pydantic_int (jget "sequence" parsed);
  let event := mkVerifiedWebhookEvent PROVIDER_NAME event_id event_type payment_id None None None None None None
                 sequence None in
  match verified_webhook_error event with Some _ => None | None => Some event end.

Definition verify_webhook (body : bytes) (signature : string) (provider_event_id : option string)
    : outcome exn VerifiedWebhookEvent :=
  same ← compare_digest_str (sign body) signature;
  if negb same then refused "signature does not match the request body"
  else match json_loads body with
  | NotJson => refused "body is not valid JSON"
  | LoadFailed e => Raise e
  | Loaded (JObj parsed) =>
      match event_of parsed provider_event_id with
      | Some event => Ok event
      | None => refused ("malformed webhook body: " +:+ library_text (ValueError "webhook body"))
      end
  | Loaded _ => refused "body is not a JSON object"
  end.
End Webhook.

(** The fake after the calls a process has made to it. *)
Definition after_call (s : FakePaymentProvider) (c : provider_call) : FakePaymentProvider :=
  if String.eqb (call_provider c) PROVIDER_NAME then
    match call_op c with
    | OpCreate request => snd (create_payment request s)
    | OpGet id key => snd (get_payment id key s)
    end
  else s.
Definition after_calls (s : FakePaymentProvider) (l : list provider_call) : FakePaymentProvider :=
  fold_left after_call l s.

(** The fake as the executor sees it. *)
Definition fake_provider (s : FakePaymentProvider)
    (verify_webhook : bytes → string → option string → outcome exn VerifiedWebhookEvent) : PaymentProvider := {|
  pv_name := PROVIDER_NAME;
  pv_create_retries_are_idempotent := true;
  pv_create_payment := λ l request, fst (create_payment request (after_calls s l));
  pv_get_payment := λ l id key, fst (get_payment id key (after_calls s l));
  pv_verify_webhook := verify_webhook
|}.
End Fake.

(** ** A call extends the log and touches nothing else *)
Lemma durable_record name op w : durable_le w (record_call name op w).
Proof. intros Hle. cbn. split; [done|]. split; [reflexivity|]. by exists [mkProviderCall name op]. Qed.
Lemma durable_create_payment p r : evolves durable_le (call_create_payment p r).
Proof. intros w. apply durable_record. Qed.
Lemma durable_get_payment p i k : evolves durable_le (call_get_payment p i k).
Proof. intros w. apply durable_record. Qed.
#[export] Hint Resolve durable_create_payment durable_get_payment : evolves.
