(* ===== verification/Razorpay.v ===== *)
(** * The Razorpay adapter

    services/payment_executor/providers/razorpay.py.  The HTTP client is outside the
    program: what it answers is an arbitrary function of the requests sent so far, and
    every request is recorded.  A response is what the adapter reads of it: the status
    code and the decoded body. *)
From S2P Require Import Prelude Python PyText PyFloat Json Enums Errors Payment Database Provider.

Module Razorpay.
Definition PROVIDER_NAME : string := "razorpay_test".
Definition TEST_KEY_PREFIX : string := "rzp_test_".
Definition API_BASE : string := "https://api.razorpay.com/v1".
Definition RAZORPAY_RECEIPT_MAX_LENGTH : nat := 40.
Definition RECEIPT_PREFIX : string := "pactra_".
Definition RECEIPT_DIGEST_LENGTH : nat := RAZORPAY_RECEIPT_MAX_LENGTH - String.length RECEIPT_PREFIX.

Definition ORDER_STATUS_MAP : list (string * ProviderPaymentStatus) :=
  [("created", ProviderPaymentStatus.CREATED);
   ("attempted", ProviderPaymentStatus.PENDING);
   ("paid", ProviderPaymentStatus.SUCCEEDED)].

Definition receipt_for_idempotency_key (idempotency_key : string) : string :=
  RECEIPT_PREFIX +:+ str_take RECEIPT_DIGEST_LENGTH (sha256_hexdigest (encode idempotency_key)).

Definition is_configured_secret (value : string) : bool :=
  negb (String.eqb value "") && negb (String.eqb value "REPLACE_ME").

(** ** The adapter object *)
Record HttpTimeout := mkHttpTimeout {
  ht_connect : float; ht_read : float; ht_write : float; ht_pool : float
}.
Record RazorpayTestPaymentProvider := mkRazorpay {
  key_id : string;
  key_secret : string;
  webhook_secret : string;
  http_timeout : HttpTimeout;
  overall_timeout : float
}.

Definition name : string := PROVIDER_NAME.
Definition create_retries_are_idempotent : bool := false.

Definition require_positive (field : string) (value : float) : outcome exn unit :=
  if fl_ltb (fl_of_Z 0) value then Ok tt
  else Raise (InvariantViolation ("razorpay." +:+ field +:+ "_timeout_positive") (field +:+ " timeout must be > 0")).

(** [__init__]. *)
Definition RazorpayTestPaymentProvider_new (key_id key_secret webhook_secret : string)
    (connect read write pool overall : float) : outcome exn RazorpayTestPaymentProvider :=
  if negb (String.prefix TEST_KEY_PREFIX key_id && negb (String.eqb key_id "rzp_test_REPLACE_ME")) then
    Raise (InvariantViolation "razorpay.test_mode_only"
      "RAZORPAY_KEY_ID must be a configured Razorpay TEST key; live keys are refused")
  else if negb (is_configured_secret key_secret) then
    Raise (InvariantViolation "razorpay.key_secret_present" "RAZORPAY_KEY_SECRET is not configured")
  else if negb (is_configured_secret webhook_secret) then
    Raise (InvariantViolation "razorpay.webhook_secret_present" "RAZORPAY_WEBHOOK_SECRET is not configured")
  else
    require_positive "connect" connect;;
    require_positive "read" read;;
    require_positive "write" write;;
    require_positive "pool" pool;;
    require_positive "overall" overall;;
    Ok (mkRazorpay key_id key_secret webhook_secret (mkHttpTimeout connect read write pool) overall).

Definition repr (self : RazorpayTestPaymentProvider) : string :=
  "<RazorpayTestPaymentProvider key_id=" +:+ py_repr (key_id self) +:+ " secrets=REDACTED>".

(** ** HTTP *)
Record http_call := mkHttpCall {
  hc_method : string;
  hc_url : string;
  hc_auth : string * string;
  hc_timeout : HttpTimeout;
  hc_json : option json;
  hc_params : option json_obj
}.
(** [rs_status_code] is [None] when [int(response.status_code)] raises, [rs_json] when
    [response.json()] does. *)
Record http_response := mkHttpResponse { rs_status_code : option Z; rs_json : option json }.
(** How a bounded request ends: with a response; with a [TimeoutError], an [OSError] or
    an [httpx.HTTPError] of the class named; or with an exception of another class. *)
Inductive http_result : Type :=
  | Response (r : http_response)
  | TransportFailure (class_name : string)
  | ClientRaised (e : exn).

Definition HTTP (A : Type) : Type := M (list http_call) exn A.

Definition failed (k : ProviderErrorKind) (detail : string) : exn :=
  ProviderFailed (mkProviderError k name detail).

(** ** Reading a response *)
Definition status_code (response : http_response) : outcome exn Z :=
  match rs_status_code response with
  | Some code => Ok code
  | None => Raise (ValueError "response has no valid HTTP status")
  end.

Definition json_object (response : http_response) : outcome exn json_obj :=
  match rs_json response with
  | None => Raise (ValueError "response body is not valid JSON")
  | Some (JObj parsed) => Ok parsed
  | Some _ => Raise (ValueError "response body is not a JSON object")
  end.

Definition non_negative_int (value : json) (field : string) : outcome exn Z :=
  match value with
  | JInt z => if z <? 0 then Raise (ValueError (field +:+ " is not a non-negative integer")) else Ok z
  | _ => Raise (ValueError (field +:+ " is not a non-negative integer"))
  end.

Definition whole_rupees (value : json) (field : string) : outcome exn Z :=
  match value with
  | JInt z =>
      if z <? 0 then Raise (ValueError (field +:+ " is not a non-negative integer"))
      else if negb (z mod 100 =? 0) then Raise (ValueError (field +:+ " cannot be represented as whole INR"))
      else Ok (z / 100)
  | _ => Raise (ValueError (field +:+ " is not a non-negative integer"))
  end.

(** A string with the given prefix, and a string that is not empty. *)
Definition prefixed_str (prefix : string) (value : json) (detail : string) : outcome exn string :=
  match value with
  | JStr s => if String.prefix prefix s then Ok s else Raise (ValueError detail)
  | _ => Raise (ValueError detail)
  end.
Definition nonempty_str (value : json) (detail : string) : outcome exn string :=
  match value with
  | JStr s => if String.eqb s "" then Raise (ValueError detail) else Ok s
  | _ => Raise (ValueError detail)
  end.
Definition currency_str (value : json) (detail : string) : outcome exn string :=
  match value with
  | JStr s => if (String.length s =? 3)%nat then Ok s else Raise (ValueError detail)
  | _ => Raise (ValueError detail)
  end.
Definition check (b : bool) (detail : string) : outcome exn unit :=
  if b then Ok tt else Raise (ValueError detail).

(** [_order_to_payment], in the order of its checks. *)
Definition receipt_matches (expected_idempotency_key : option string) (receipt : string) : outcome exn unit :=
  match expected_idempotency_key with
  | None => Ok tt
  | Some key =>
      same ← compare_digest_str receipt (receipt_for_idempotency_key key);
      check same "order receipt does not match the requested logical payment"
  end.

Definition order_to_payment (order : json_obj) (expected_idempotency_key : option string) : outcome exn ProviderPayment :=
  order_id ← prefixed_str "order_" (jget "id" order) "order id is missing or malformed";
  check (json_eqb (jget "entity" order) (JStr "order")) "response entity is not an order";;
  raw_status ← nonempty_str (jget "status" order) "order status is missing or malformed";
  amount_inr ← whole_rupees (jget "amount" order) "order.amount";
  currency ← currency_str (jget "currency" order) "order currency is missing or malformed";
  receipt ← nonempty_str (jget "receipt" order) "order receipt is missing or malformed";
  receipt_matches expected_idempotency_key receipt;;
  attempts ← non_negative_int (jget "attempts" order) "order.attempts";
  ProviderPayment_new
    (mkProviderPayment name order_id
       (default ProviderPaymentStatus.PENDING (py_dict_get raw_status ORDER_STATUS_MAP))
       amount_inr currency expected_idempotency_key (Some order_id) None (Some receipt) (Some raw_status)
       (Some attempts) false).

(** One item of a payments collection: nothing unless it is a captured payment. *)
Definition captured_id (payment : ProviderPayment) (item : json) : outcome exn (option string) :=
  match item with
  | JObj item =>
      if negb (json_eqb (jget "status" item) (JStr "captured")) then Ok None
      else
        payment_id ← prefixed_str "pay_" (jget "id" item) "captured payment id is malformed";
        check (json_eqb (jget "order_id" item) (jstr_opt (pp_provider_order_id payment)))
          "captured payment names a different order";;
        amount ← whole_rupees (jget "amount" item) "payment.amount";
        check ((amount =? pp_amount_inr payment) && json_eqb (jget "currency" item) (JStr (pp_currency payment)))
          "captured payment amount or currency mismatches its order";;
        Ok (Some payment_id)
  | _ => Ok None
  end.
Fixpoint captured_ids (payment : ProviderPayment) (items : list json) : outcome exn (list string) :=
  match items with
  | [] => Ok []
  | item :: rest =>
      found ← captured_id payment item;
      others ← captured_ids payment rest;
      Ok (option_list found ++ others)
  end.

Definition items_list (parsed : json_obj) (detail : string) : outcome exn (list json) :=
  match jget "items" parsed with
  | JList items => Ok items
  | _ => Raise (ValueError detail)
  end.

(** [payment.model_copy(update={"provider_transaction_id": ...})]. *)
Definition with_transaction_id (transaction_id : string) (p : ProviderPayment) : ProviderPayment :=
  mkProviderPayment (pp_provider p) (pp_provider_payment_id p) (pp_status p) (pp_amount_inr p) (pp_currency p)
    (pp_idempotency_key p) (pp_provider_order_id p) (Some transaction_id) (pp_provider_receipt p)
    (pp_provider_status p) (pp_provider_attempts p) (pp_idempotent_replay p).

Definition duplicate_receipt_response (response : http_response) : bool :=
  match rs_json response with
  | Some (JObj parsed) =>
      match jget "error" parsed with
      | JObj error =>
          match jget "description" error with
          | JStr description =>
              let lowered := py_lower description in
              str_in "receipt" lowered && (str_in "already" lowered || str_in "unique" lowered)
          | _ => false
          end
      | _ => false
      end
  | _ => false
  end.

(** One item of a page of orders: the orders found so far by id, in the order found. *)
Definition scan_item (receipt : string) (exact_by_id : list (string * json_obj)) (item : json)
    : outcome exn (list (string * json_obj)) :=
  match item with
  | JObj order =>
      if negb (json_eqb (jget "receipt" order) (JStr receipt)) then Ok exact_by_id
      else
        order_id ← nonempty_str (jget "id" order) "matching order id is missing or malformed";
        match py_dict_get order_id exact_by_id with
        | None => Ok (py_dict_set order_id order exact_by_id)
        | Some previous =>
            check (json_eqb (JObj previous) (JObj order)) "matching order changed across search pages";;
            Ok exact_by_id
        end
  | _ => Ok exact_by_id
  end.
Fixpoint scan_items (receipt : string) (exact_by_id : list (string * json_obj)) (items : list json)
    : outcome exn (list (string * json_obj)) :=
  match items with
  | [] => Ok exact_by_id
  | item :: rest => found ← scan_item receipt exact_by_id item; scan_items receipt found rest
  end.

Definition page_size : Z := 100.
Definition max_pages : nat := 100.

Section Requests.
(** The client, and [str(e)] for the exceptions whose text a library composes. *)
Context (client : list http_call → http_call → http_result) (library_text : exn → string).
Context (self : RazorpayTestPaymentProvider).

Definition str_exc (e : exn) : string := match e with ValueError msg => msg | _ => library_text e end.

(** [try: ... except ValueError as exc: raise Kind(self.name, prefix + str(exc))]. *)
Definition value_error_as {A} (kind : ProviderErrorKind) (prefix : string) (o : outcome exn A) : outcome exn A :=
  match o with
  | Raise e => if is_ValueError e then Raise (failed kind (prefix +:+ str_exc e)) else Raise e
  | Ok a => Ok a
  end.

Definition request (method path : string) (json_body : option json) (params : option json_obj) : HTTP http_response := λ sent,
  let call := mkHttpCall method (API_BASE +:+ path) (key_id self, key_secret self) (http_timeout self) json_body params in
  (match client sent call with
   | Response response => Ok response
   | TransportFailure class_name =>
       Raise (failed ProviderTimeout ("bounded " +:+ py_upper method +:+ " transport failure (" +:+ class_name +:+ ")"))
   | ClientRaised e => Raise e
   end, sent ++ [call]).

Definition success (code : Z) : bool := (200 <=? code) && (code <? 300).

Definition attach_captured_payment (payment : ProviderPayment) : HTTP ProviderPayment :=
  response ← request "GET" ("/orders/" +:+ pp_provider_payment_id payment +:+ "/payments") None None;
  code ← lift (value_error_as ProviderTransientError "malformed HTTP response while fetching captured payment: "
                 (status_code response));
  if negb (success code) then
    raise (failed ProviderTransientError ("HTTP " +:+ str_int code +:+ " while fetching payments for paid order"))
  else
    captured ← lift (value_error_as ProviderTransientError "malformed payments response: "
      (parsed ← json_object response;
       items ← items_list parsed "payments collection has no items list";
       captured_ids payment items));
    match captured with
    | [payment_id] => mret (with_transaction_id payment_id payment)
    | _ => raise (failed ProviderTransientError
             ("paid order exposes " +:+ str_int (Z.of_nat (length captured))
              +:+ " matching captured payments; expected exactly one"))
    end.

(** [if payment.status is SUCCEEDED: return await self._attach_captured_payment(payment)]. *)
Definition settled_order (payment : ProviderPayment) : HTTP ProviderPayment :=
  if bool_decide (pp_status payment = ProviderPaymentStatus.SUCCEEDED) then attach_captured_payment payment
  else mret payment.

Definition create_payload (rq : PaymentRequest) : json :=
  JObj [("amount", JInt (rq_amount_inr rq * 100));
        ("currency", JStr (rq_currency rq));
        ("receipt", JStr (receipt_for_idempotency_key (rq_idempotency_key rq)));
        ("notes", JObj
          [("pactra_txn", JStr (rq_transaction_digest_prefix rq));
           ("pactra_idem", JStr (str_take 16 (sha256_hexdigest (encode (rq_idempotency_key rq)))))])].

Definition create_payment (rq : PaymentRequest) : HTTP ProviderPayment :=
  response ← request "POST" "/orders" (Some (create_payload rq)) None;
  code ← lift (value_error_as ProviderTimeout "ambiguous malformed create response: " (status_code response));
  if success code then
    payment ← lift (value_error_as ProviderTimeout "ambiguous malformed create response: "
      (order ← json_object response; order_to_payment order (Some (rq_idempotency_key rq))));
    settled_order payment
  else if 500 <=? code then
    raise (failed ProviderTimeout ("ambiguous HTTP " +:+ str_int code +:+ " response to order creation"))
  else if code =? 429 then raise (failed ProviderTransientError "HTTP 429 from Razorpay")
  else if (code =? 400) && duplicate_receipt_response response then
    raise (failed ProviderTimeout "duplicate receipt response requires Order reconciliation")
  else raise (failed ProviderTerminalError ("HTTP " +:+ str_int code +:+ " from Razorpay")).

(** One page of the receipt search: its items, and the orders found up to it. *)
Definition search_page (receipt : string) (page_number : Z) (exact_by_id : list (string * json_obj))
    : HTTP (list json * list (string * json_obj)) :=
  response ← request "GET" "/orders" None
    (Some [("receipt", JStr receipt); ("count", JInt page_size); ("skip", JInt (page_number * page_size))]);
  code ← lift (value_error_as ProviderTransientError "malformed HTTP response while searching Razorpay Orders: "
                 (status_code response));
  if negb (success code) then
    raise (failed ProviderTransientError ("HTTP " +:+ str_int code +:+ " while searching Razorpay Orders"))
  else
    lift (value_error_as ProviderTransientError "malformed Order search response: "
      (parsed ← json_object response;
       items ← items_list parsed "orders collection has no items list";
       check (Z.of_nat (length items) <=? page_size) "orders collection exceeds requested page size";;
       found ← scan_items receipt exact_by_id items;
       Ok (items, found))).

Fixpoint search_pages (receipt : string) (pages_left : nat) (page_number : Z)
    (exact_by_id : list (string * json_obj)) : HTTP (list json_obj) :=
  match pages_left with
  | O => raise (failed ProviderAmbiguity
           "Razorpay Order receipt search exceeded the safe pagination bound; refusing to assume a unique match")
  | S pages =>
      page ← search_page receipt page_number exact_by_id;
      let '(items, found) := page in
      if Z.of_nat (length items) <? page_size then mret (map snd found)
      else search_pages receipt pages (page_number + 1) found
  end.
Definition orders_with_exact_receipt (receipt : string) : HTTP (list json_obj) := search_pages receipt max_pages 0 [].

Definition fetch_order (provider_payment_id : string) (idempotency_key : option string) : HTTP (option ProviderPayment) :=
  response ← request "GET" ("/orders/" +:+ provider_payment_id) None None;
  code ← lift (value_error_as ProviderTransientError "malformed HTTP response while fetching Razorpay Order: "
                 (status_code response));
  if code =? 404 then mret None
  else if negb (success code) then
    raise (failed ProviderTransientError ("HTTP " +:+ str_int code +:+ " while fetching Razorpay Order"))
  else
    payment ← lift (value_error_as ProviderTransientError "malformed Order lookup response: "
      (order ← json_object response; order_to_payment order idempotency_key));
    Some <$> settled_order payment.

Definition search_order (idempotency_key : string) : HTTP (option ProviderPayment) :=
  exact ← orders_with_exact_receipt (receipt_for_idempotency_key idempotency_key);
  match exact with
  | [] => mret None
  | [order] =>
      payment ← lift (value_error_as ProviderTransientError "malformed Order search response: "
        (order_to_payment order (Some idempotency_key)));
      Some <$> settled_order payment
  | _ => raise (failed ProviderAmbiguity
           (str_int (Z.of_nat (length exact)) +:+ " Razorpay Orders share one PACTRA receipt; refusing ambiguity"))
  end.

Definition get_payment (provider_payment_id idempotency_key : option string) : HTTP (option ProviderPayment) :=
  match provider_payment_id, idempotency_key with
  | None, None => mret None
  | Some id, _ => fetch_order id idempotency_key
  | None, Some key => search_order key
  end.
End Requests.

(** ** Webhooks *)
Record evidence := mkEvidence {
  ev_event_type : WebhookEventType;
  ev_provider_payment_id : string;
  ev_provider_order_id : string;
  ev_provider_transaction_id : string;
  ev_amount_inr : Z;
  ev_currency : string;
  ev_provider_status : string;
  ev_provider_attempts : option Z
}.

(** [event_types] and [required_status], by event name. *)
Definition event_types : list (string * WebhookEventType) :=
  [("payment.authorized", WebhookEventType.PAYMENT_PENDING);
   ("payment.captured", WebhookEventType.PAYMENT_SUCCEEDED);
   ("payment.failed", WebhookEventType.PAYMENT_ATTEMPT_FAILED);
   ("order.paid", WebhookEventType.PAYMENT_SUCCEEDED)].
Definition required_statuses : list (string * string) :=
  [("payment.authorized", "authorized"); ("payment.captured", "captured");
   ("payment.failed", "failed"); ("order.paid", "captured")].

(** [x.get("entity") if isinstance(x, dict) else None], if it is a dict. *)
Definition entity (wrapper : json) (detail : string) : outcome exn json_obj :=
  match wrapper with
  | JObj w => match jget "entity" w with JObj e => Ok e | _ => Raise (ValueError detail) end
  | _ => Raise (ValueError detail)
  end.

(** The order entity of an [order.paid] event: its number of attempts. *)
Definition paid_order_attempts (payload : json_obj) (order_id currency : string) (amount_inr : Z) : outcome exn Z :=
  order ← entity (jget "order" payload) "order.paid has no order entity";
  check (json_eqb (jget "id" order) (JStr order_id) && json_eqb (jget "status" order) (JStr "paid"))
    "order.paid entities disagree on Order identity or status";;
  order_amount ← whole_rupees (jget "amount" order) "order.amount";
  check ((order_amount =? amount_inr) && json_eqb (jget "currency" order) (JStr currency))
    "order.paid entities disagree on amount or currency";;
  non_negative_int (jget "attempts" order) "order.attempts".

Definition webhook_evidence (parsed : json_obj) (event_name : string) : outcome exn evidence :=
  payload ← match jget "payload" parsed with JObj p => Ok p | _ => Raise (ValueError "payload is missing") end;
  payment ← entity (jget "payment" payload) "payment entity is missing";
  payment_id ← prefixed_str "pay_" (jget "id" payment) "payment id is malformed";
  order_id ← prefixed_str "order_" (jget "order_id" payment) "payment order_id is malformed";
  status ← nonempty_str (jget "status" payment) "payment status is missing";
  currency ← currency_str (jget "currency" payment) "payment currency is malformed";
  amount_inr ← whole_rupees (jget "amount" payment) "payment.amount";
  match py_dict_get event_name event_types, py_dict_get event_name required_statuses with
  | Some event_type, Some required_status =>
      check (String.eqb status required_status)
        (event_name +:+ " carries payment status " +:+ py_repr status +:+ ", expected " +:+ py_repr required_status);;
      check (negb (bool_decide (event_name ∈ ["payment.captured"; "order.paid"])
                   && negb (match jget "captured" payment with JBool true => true | _ => false end)))
        "success event does not carry captured=true";;
      attempts ← (if String.eqb event_name "order.paid"
                  then n ← paid_order_attempts payload order_id currency amount_inr; Ok (Some n)
                  else Ok None);
      Ok (mkEvidence event_type order_id order_id payment_id amount_inr currency status attempts)
  | _, _ => Raise (KeyError (py_repr event_name))    (* the caller admits the four names only *)
  end.

Section Webhook.
Context (json_loads : bytes → loads_result) (library_text : exn → string).
Context (self : RazorpayTestPaymentProvider).

Definition sign (body : bytes) : string := hmac_sha256_hexdigest (encode (webhook_secret self)) body.

Definition refused {A} (detail code : string) : outcome exn A := Raise (WebhookVerificationError name detail code).
Definition SIGNATURE_INVALID : string := "WEBHOOK_SIGNATURE_INVALID".
Definition PAYLOAD_INVALID : string := "WEBHOOK_PAYLOAD_INVALID".

Definition occurred_at (parsed : json_obj) : outcome exn (option datetime) :=
  match jget "created_at" parsed with
  | JInt t =>
      match fromtimestamp_utc t with
      | Timestamp d => Ok (Some d)
      | YearOutOfRange => Raise (ValueError "year is out of range")
      | PlatformRange => Raise (OverflowError "timestamp out of range for platform time_t")
      end
  | _ => Ok None
  end.

Definition event_of (parsed : json_obj) (event_name provider_event_id : string) : outcome exn VerifiedWebhookEvent :=
  e ← webhook_evidence parsed event_name;
  occurred ← occurred_at parsed;
  let event := mkVerifiedWebhookEvent name provider_event_id (ev_event_type e) (ev_provider_payment_id e)
    (Some (ev_provider_order_id e)) (Some (ev_provider_transaction_id e)) (Some (ev_amount_inr e))
    (Some (ev_currency e)) (Some (ev_provider_status e)) (ev_provider_attempts e) None occurred in
  match verified_webhook_error event with Some field => Raise (ValidationError field) | None => Ok event end.

(** [event_name not in {...}]: a list or a dict has no hash. *)
Definition supported_event (event : json) : outcome exn string :=
  let unsupported := refused ("unsupported Razorpay event " +:+ json_repr event) PAYLOAD_INVALID in
  match event with
  | JList _ => Raise (TypeError "unhashable type: 'list'")
  | JObj _ => Raise (TypeError "unhashable type: 'dict'")
  | JStr s => if is_some (py_dict_get s event_types) then Ok s else unsupported
  | _ => unsupported
  end.

Definition is_TypeError (e : exn) : bool := match e with TypeError _ => true | _ => false end.

Definition verify_webhook (body : bytes) (signature : string) (provider_event_id : option string)
    : outcome exn VerifiedWebhookEvent :=
  if negb (is_ascii signature) then refused "X-Razorpay-Signature is not ASCII" SIGNATURE_INVALID
  else if negb (String.eqb (sign body) signature) then refused "X-Razorpay-Signature does not match" SIGNATURE_INVALID
  else match opt_or_str provider_event_id None with
  | None => refused "X-Razorpay-Event-Id is required for idempotent delivery" "WEBHOOK_EVENT_ID_MISSING"
  | Some event_id =>
      match json_loads body with
      | NotJson => refused "body is not valid JSON" PAYLOAD_INVALID
      | LoadFailed e => Raise e
      | Loaded (JObj parsed) =>
          event_name ← supported_event (jget "event" parsed);
          match event_of parsed event_name event_id with
          | Raise e =>
              if is_ValueError e || is_TypeError e
              then refused ("malformed signed Razorpay event: " +:+ str_exc library_text e) PAYLOAD_INVALID
              else Raise e
          | Ok event => Ok event
          end
      | Loaded _ => refused "body is not a JSON object" PAYLOAD_INVALID
      end
  end.
End Webhook.

(** ** The adapter as the executor sees it

    The requests sent so far are those of the calls made so far. *)
Section Adapter.
Context (client : list http_call → http_call → http_result) (library_text : exn → string).
Context (json_loads : bytes → loads_result) (self : RazorpayTestPaymentProvider).

Definition after_call (sent : list http_call) (c : provider_call) : list http_call :=
  if String.eqb (call_provider c) name then
    match call_op c with
    | OpCreate rq => snd (create_payment client library_text self rq sent)
    | OpGet id key => snd (get_payment client library_text self id key sent)
    end
  else sent.
Definition after_calls (l : list provider_call) : list http_call := fold_left after_call l [].

Definition razorpay_provider : PaymentProvider := {|
  pv_name := name;
  pv_create_retries_are_idempotent := create_retries_are_idempotent;
  pv_create_payment := λ l rq, fst (create_payment client library_text self rq (after_calls l));
  pv_get_payment := λ l id key, fst (get_payment client library_text self id key (after_calls l));
  pv_verify_webhook := verify_webhook json_loads library_text self
|}.
End Adapter.

(** The settings the deployment reads. *)
Record Settings := mkSettings {
  razorpay_key_id : string; razorpay_key_secret : string; razorpay_webhook_secret : string;
  razorpay_connect_timeout_seconds : float; razorpay_read_timeout_seconds : float;
  razorpay_write_timeout_seconds : float; razorpay_pool_timeout_seconds : float;
  razorpay_overall_timeout_seconds : float
}.
Definition from_environment (s : Settings) : outcome exn RazorpayTestPaymentProvider :=
  RazorpayTestPaymentProvider_new (razorpay_key_id s) (razorpay_key_secret s) (razorpay_webhook_secret s)
    (razorpay_connect_timeout_seconds s) (razorpay_read_timeout_seconds s) (razorpay_write_timeout_seconds s)
    (razorpay_pool_timeout_seconds s) (razorpay_overall_timeout_seconds s).
End Razorpay.
