(* ===== verification/RazorpayProperties.v ===== *)
(** * What the Razorpay adapter promises

    The requests each operation sends, what a returned payment says of the order and
    of its captured payment, what a receipt search establishes, how a failed creation
    is classified, and what a verified webhook was signed over. *)
From S2P Require Import Prelude Python PyText PyFloat Json Text Enums Errors Payment Database Provider Razorpay.
Import Razorpay.

(** ** Receipts *)
Lemma substring_length n s : String.length (str_take n s) = Nat.min n (String.length s).
Proof.
  unfold str_take. revert n. induction s as [|a s IH]; intros [|n]; cbn; [done..|]. by rewrite IH.
Qed.

(** A receipt fits in Razorpay's forty characters, exactly. *)
Lemma receipt_length key : String.length (receipt_for_idempotency_key key) = RAZORPAY_RECEIPT_MAX_LENGTH.
Proof.
  unfold receipt_for_idempotency_key. rewrite length_sappend, substring_length.
  by rewrite sha256_length.
Qed.

(** ** What is sent *)
Section Sends.
Context (client : list http_call → http_call → http_result) (library_text : exn → string).
Context (self : RazorpayTestPaymentProvider).

Definition is_get (c : http_call) : Prop := hc_method c = "GET" ∧ hc_json c = None ∧ hc_auth c = (key_id self, key_secret self).

(** [m] sends GET requests only, and at most [n] of them. *)
Definition reads_at_most {A} (n : nat) (m : HTTP A) : Prop :=
  ∀ sent, ∃ gets, snd (m sent) = sent ++ gets ∧ Forall is_get gets ∧ (length gets <= n)%nat.

Lemma reads_nothing {A} n (m : HTTP A) : (∀ sent, snd (m sent) = sent) → reads_at_most n m.
Proof. intros Hm sent. exists []. rewrite app_nil_r. split; [apply Hm|]. split; [constructor|cbn; lia]. Qed.
Lemma reads_ret {A} n (a : A) : reads_at_most n (mret a : HTTP A).
Proof. by apply reads_nothing. Qed.
Lemma reads_raise {A} n e : reads_at_most n (raise e : HTTP A).
Proof. by apply reads_nothing. Qed.
Lemma reads_lift {A} n (o : outcome exn A) : reads_at_most n (lift o : HTTP A).
Proof. by apply reads_nothing. Qed.
Lemma reads_weaken {A} n n' (m : HTTP A) : (n <= n')%nat → reads_at_most n m → reads_at_most n' m.
Proof. intros Hn Hm sent. destruct (Hm sent) as (g & E & F & L). exists g. split; [done|]. split; [done|lia]. Qed.
Lemma reads_request path params : reads_at_most 1 (request client self "GET" path None params).
Proof.
  intros sent. eexists [_]. cbn [request snd]. split; [reflexivity|]. split; [|cbn; lia].
  constructor; [done|constructor].
Qed.
Lemma reads_bind {A B} n1 n2 n (m : HTTP A) (k : A → HTTP B) :
  (n1 + n2 <= n)%nat → reads_at_most n1 m → (∀ a, reads_at_most n2 (k a)) → reads_at_most n (m ≫= k).
Proof.
  intros Hn Hm Hk sent. unfold mbind, M_bind. destruct (Hm sent) as (g1 & E1 & F1 & L1).
  destruct (m sent) as [[a|e] s1]; cbn [snd] in E1; subst s1.
  - destruct (Hk a (sent ++ g1)) as (g2 & E2 & F2 & L2). exists (g1 ++ g2).
    rewrite E2, <-app_assoc, length_app. split; [done|]. split; [by apply Forall_app|lia].
  - exists g1. split; [done|]. split; [done|lia].
Qed.
Lemma reads_fmap {A B} n (f : A → B) (m : HTTP A) : reads_at_most n m → reads_at_most n (f <$> m).
Proof.
  intros Hm sent. unfold fmap, M_fmap. destruct (Hm sent) as (g1 & E1 & F1).
  exists g1. by destruct (m sent) as [[a|e] s1].
Qed.
Hint Resolve reads_ret reads_raise reads_lift : core.
Ltac reads :=
  repeat match goal with
  | |- reads_at_most _ (if ?b then _ else _) => destruct b
  | |- reads_at_most _ (match ?x with _ => _ end) => destruct x
  | |- reads_at_most ?n (mbind _ (request _ _ _ _ _ _)) => apply (reads_bind 1 (n - 1)); [lia|apply reads_request|intros ?]
  | |- reads_at_most ?n (mbind _ (lift _)) => apply (reads_bind 0 n); [lia|done|intros ?]
  | |- reads_at_most _ (fmap _ _) => apply reads_fmap
  end; try done.

Lemma reads_attach p : reads_at_most 1 (attach_captured_payment client library_text self p).
Proof. unfold attach_captured_payment. reads. Qed.
Lemma reads_settled p : reads_at_most 1 (settled_order client library_text self p).
Proof. unfold settled_order. reads. apply reads_attach. Qed.
Hint Resolve reads_settled : core.
Lemma reads_page r n l : reads_at_most 1 (search_page client library_text self r n l).
Proof. unfold search_page. reads. Qed.
Lemma reads_pages r k n l : reads_at_most k (search_pages client library_text self r k n l).
Proof.
  revert n l. induction k as [|k IH]; intros n l; cbn [search_pages]; [done|].
  apply (reads_bind 1 k); [lia|apply reads_page|]. intros [items found]. by reads.
Qed.
Lemma reads_fetch id key : reads_at_most 2 (fetch_order client library_text self id key).
Proof. unfold fetch_order. reads. Qed.
Lemma reads_search key : reads_at_most 101 (search_order client library_text self key).
Proof.
  unfold search_order. apply (reads_bind 100 1); [lia|apply reads_pages|]. intros [|o [|o' l]]; [done| |done]. reads.
Qed.
Lemma reads_get id key : reads_at_most 101 (get_payment client library_text self id key).
Proof.
  unfold get_payment. destruct id as [id|], key as [key|]; [..|done].
  - apply (reads_weaken 2); [lia|apply reads_fetch].
  - apply (reads_weaken 2); [lia|apply reads_fetch].
  - apply reads_search.
Qed.

(** The one order a creation posts. *)
Definition order_call (rq : PaymentRequest) : http_call :=
  mkHttpCall "POST" (API_BASE +:+ "/orders") (key_id self, key_secret self) (http_timeout self)
    (Some (create_payload rq)) None.

Lemma create_sends rq sent : ∃ gets,
  snd (create_payment client library_text self rq sent) = sent ++ order_call rq :: gets ∧ Forall is_get gets ∧
  (length gets <= 1)%nat.
Proof.
  unfold create_payment. unfold mbind at 1, M_bind at 1. unfold request at 1. fold (order_call rq).
  change (mkHttpCall _ _ _ _ _ _) with (order_call rq).
  assert (Hk : ∀ (k : http_response → HTTP ProviderPayment) r, reads_at_most 1 (k r) →
    ∃ gets, snd (k r (sent ++ [order_call rq])) = sent ++ order_call rq :: gets ∧ Forall is_get gets ∧ (length gets <= 1)%nat).
  { intros k r Hr. destruct (Hr (sent ++ [order_call rq])) as (g & E & F). exists g. by rewrite E, <-app_assoc. }
  destruct (client sent (order_call rq)) as [r|t|e]; [|exists []; split_and!; cbn; (done || lia || constructor)..].
  match goal with |- ∃ gets, snd (?k (sent ++ [order_call rq])) = _ ∧ _ => apply (Hk (λ _, k) r) end. reads.
Qed.
End Sends.

(** ** Reading JSON *)
Lemma json_eqb_JStr x s : json_eqb x (JStr s) = true ↔ x = JStr s.
Proof.
  split; [|intros ->; apply String.eqb_refl].
  destruct x; try (intros Hx; discriminate Hx). intros Hx. cbn in Hx. by apply String.eqb_eq in Hx as ->.
Qed.
Lemma check_Ok b d u : check b d = Ok u ↔ b = true.
Proof. unfold check. by destruct u, b. Qed.
Lemma prefixed_str_Ok p v d s : prefixed_str p v d = Ok s ↔ v = JStr s ∧ String.prefix p s = true.
Proof.
  unfold prefixed_str. destruct v as [| | | |s'| |]; try (split; [done|by intros [[=] _]]).
  destruct (String.prefix p s') eqn:E; split; try done; [by intros [= <-]|by intros [[= ->] ?]|intros [[= ->] ?]; congruence].
Qed.
Lemma nonempty_str_Ok v d s : nonempty_str v d = Ok s ↔ v = JStr s ∧ s ≠ "".
Proof.
  unfold nonempty_str. destruct v as [| | | |s'| |]; try (split; [done|by intros [[=] _]]).
  destruct (String.eqb_spec s' ""); split; try done; [by intros [[= ->] ?]|by intros [= <-]|by intros [[= ->] ?]].
Qed.
Lemma currency_str_Ok v d s : currency_str v d = Ok s ↔ v = JStr s ∧ String.length s = 3%nat.
Proof.
  unfold currency_str. destruct v as [| | | |s'| |]; try (split; [done|by intros [[=] _]]).
  destruct (Nat.eqb_spec (String.length s') 3); split; try done; [by intros [= <-]|by intros [[= ->] ?]..].
Qed.
Lemma non_negative_int_Ok v f z : non_negative_int v f = Ok z ↔ v = JInt z ∧ 0 <= z.
Proof.
  unfold non_negative_int. destruct v as [| |z'| | | |]; try (split; [done|by intros [[=] _]]).
  destruct (Z.ltb_spec z' 0); split; try done; [intros [[= ->] ?]; lia|by intros [= <-]|by intros [[= ->] ?]].
Qed.
(** Whole rupees are exact: a hundred paise each. *)
Lemma whole_rupees_Ok v f z : whole_rupees v f = Ok z ↔ v = JInt (z * 100) ∧ 0 <= z.
Proof.
  unfold whole_rupees. destruct v as [| |z'| | | |]; try (split; [done|by intros [[=] _]]).
  destruct (Z.ltb_spec z' 0) as [Hz|Hz]; [split; [done|]; intros [[= ->] ?]; lia|].
  destruct (Z.eqb_spec (z' mod 100) 0) as [Hm|Hm]; cbn [negb].
  - assert (Hz' : z' = 100 * (z' / 100)) by (apply Z.div_exact; lia).
    split; [intros [= <-]|intros [[= ->] ?]; by rewrite Z.div_mul].
    split; [f_equal; lia|apply Z.div_pos; lia].
  - split; [done|]. intros [[= ->] ?]. by rewrite Z.mod_mul in Hm.
Qed.
Lemma json_object_Ok r o : json_object r = Ok o ↔ rs_json r = Some (JObj o).
Proof. unfold json_object. destruct (rs_json r) as [[]|]; (split; [try done; by intros [= ->]|try done; by intros [= ->]]). Qed.
Lemma items_list_Ok o d l : items_list o d = Ok l ↔ jget "items" o = JList l.
Proof. unfold items_list. destruct (jget "items" o); (split; [try done; by intros [= ->]|try done; by intros [= ->]]). Qed.
Lemma status_code_Ok r z : status_code r = Ok z ↔ rs_status_code r = Some z.
Proof. unfold status_code. destruct (rs_status_code r); (split; [try done; by intros [= ->]|try done; by intros [= ->]]). Qed.

(** A payment that describes an order, as asked for under a key. *)
Record describes (order : json_obj) (key : option string) (p : ProviderPayment) : Prop := {
  ds_provider : pp_provider p = name;
  ds_id : jget "id" order = JStr (pp_provider_payment_id p);
  ds_id_prefix : String.prefix "order_" (pp_provider_payment_id p) = true;
  ds_order_id : pp_provider_order_id p = Some (pp_provider_payment_id p);
  ds_amount : jget "amount" order = JInt (pp_amount_inr p * 100);
  ds_amount_ge0 : 0 <= pp_amount_inr p;
  ds_currency : jget "currency" order = JStr (pp_currency p);
  ds_key : pp_idempotency_key p = key;
  ds_receipt : ∃ r, jget "receipt" order = JStr r ∧ pp_provider_receipt p = Some r ∧
    ∀ k, key = Some k → r = receipt_for_idempotency_key k;
  ds_status : ∃ s, jget "status" order = JStr s ∧ pp_provider_status p = Some s ∧
    (pp_status p = ProviderPaymentStatus.SUCCEEDED ↔ s = "paid")
}.

Lemma order_status_paid s :
  default ProviderPaymentStatus.PENDING (py_dict_get s ORDER_STATUS_MAP) = ProviderPaymentStatus.SUCCEEDED ↔ s = "paid".
Proof.
  unfold ORDER_STATUS_MAP, py_dict_get.
  destruct (String.eqb_spec s "created") as [->|]; [by split|].
  destruct (String.eqb_spec s "attempted") as [->|]; [by split|].
  by destruct (String.eqb_spec s "paid") as [->|].
Qed.
Lemma receipt_matches_Ok key r u : receipt_matches key r = Ok u → ∀ k, key = Some k → r = receipt_for_idempotency_key k.
Proof.
  unfold receipt_matches. intros Hr k ->. outcome_inv Hr. unfold compare_digest_str in Hr0.
  destruct (is_ascii r && _); [|done]. injection Hr0 as <-. apply check_Ok in Hr. by apply String.eqb_eq.
Qed.

Lemma order_to_payment_Ok order key p :
  order_to_payment order key = Ok p → describes order key p ∧ pp_provider_transaction_id p = None.
Proof.
  unfold order_to_payment. intros E. outcome_inv E.
  apply prefixed_str_Ok in Hr as [Hid Hpre]. apply check_Ok in Hr0.
  apply nonempty_str_Ok in Hr1 as [Hst _]. apply whole_rupees_Ok in Hr2 as [Ham Hpos].
  apply currency_str_Ok in Hr3 as [Hcur _]. apply nonempty_str_Ok in Hr4 as [Hrc _].
  pose proof (receipt_matches_Ok _ _ _ Hr5) as Hkey.
  unfold ProviderPayment_new in E. destruct (provider_payment_error _); [done|]. injection E as <-.
  split; [|done]. split; cbn; try done.
  - eexists. split; [exact Hrc|]. done.
  - eexists. split; [exact Hst|]. split; [done|]. apply order_status_paid.
Qed.

(** ** A captured payment *)
Definition is_captured (item : json) : bool :=
  match item with JObj o => json_eqb (jget "status" o) (JStr "captured") | _ => false end.
Record captures (p : ProviderPayment) (transaction_id : string) (item : json_obj) : Prop := {
  cp_id : jget "id" item = JStr transaction_id;
  cp_prefix : String.prefix "pay_" transaction_id = true;
  cp_order : json_eqb (jget "order_id" item) (jstr_opt (pp_provider_order_id p)) = true;
  cp_amount : jget "amount" item = JInt (pp_amount_inr p * 100);
  cp_currency : jget "currency" item = JStr (pp_currency p)
}.

Lemma captured_id_Ok p item found :
  captured_id p item = Ok found →
  (is_captured item = false ∧ found = None) ∨
  ∃ o t, item = JObj o ∧ is_captured item = true ∧ found = Some t ∧ captures p t o.
Proof.
  unfold captured_id, is_captured. destruct item as [| | | | | |o]; intros E; try (injection E as <-; by left).
  destruct (json_eqb (jget "status" o) (JStr "captured")) eqn:Es; cbn [negb] in E; [|injection E as <-; by left].
  right. outcome_inv E. injection E as <-. apply prefixed_str_Ok in Hr as [Hid Hpre].
  apply check_Ok in Hr0. apply whole_rupees_Ok in Hr1 as [Ham _].
  apply check_Ok, andb_true_iff in Hr2 as [Heq%Z.eqb_eq Hcur%json_eqb_JStr]. subst.
  eexists _, _. by split_and!.
Qed.

Lemma captured_ids_Ok p items ids :
  captured_ids p items = Ok ids →
  Forall2 (λ item t, ∃ o, item = JObj o ∧ captures p t o) (List.filter is_captured items) ids.
Proof.
  revert ids. induction items as [|item items IH]; intros ids E; cbn [captured_ids] in E.
  { injection E as <-. constructor. }
  outcome_inv E. injection E as <-. specialize (IH _ Hr0). cbn [List.filter].
  apply captured_id_Ok in Hr as [[Hc ->]|(o & t & -> & Hc & -> & Hcap)]; rewrite Hc; [exact IH|].
  constructor; [by exists o|exact IH].
Qed.

Section Answers.
Context (client : list http_call → http_call → http_result) (library_text : exn → string).
Context (self : RazorpayTestPaymentProvider).

(** A successful response of the client, after some requests, to a call. *)
Definition answered (sent : list http_call) (c : http_call) (r : http_response) : Prop :=
  client sent c = Response r ∧ ∃ code, rs_status_code r = Some code ∧ success code = true.
(** The body is the order, or a collection that lists it. *)
Definition carries (r : http_response) (order : json_obj) : Prop :=
  rs_json r = Some (JObj order) ∨
  ∃ parsed items, rs_json r = Some (JObj parsed) ∧ jget "items" parsed = JList items ∧ JObj order ∈ items.
Definition reported (order : json_obj) : Prop := ∃ sent c r, answered sent c r ∧ carries r order.

Definition get_call (path : string) (params : option json_obj) : http_call :=
  mkHttpCall "GET" (API_BASE +:+ path) (key_id self, key_secret self) (http_timeout self) None params.

Lemma value_error_as_Ok {A} k p (o : outcome exn A) a : value_error_as library_text k p o = Ok a ↔ o = Ok a.
Proof. unfold value_error_as. destruct o as [b|e]; [done|]. by destruct (is_ValueError e). Qed.
Lemma request_Ok m path j ps sent r sent' :
  request client self m path j ps sent = (Ok r, sent') →
  let c := mkHttpCall m (API_BASE +:+ path) (key_id self, key_secret self) (http_timeout self) j ps in
  client sent c = Response r ∧ sent' = sent ++ [c].
Proof. unfold request. cbv zeta. destruct (client sent _); intros E; [|done..]. by injection E as <- <-. Qed.

(** One captured payment, and no other, stands behind a payment. *)
Definition captured_once (p : ProviderPayment) : Prop :=
  ∃ t sent r parsed items item,
    pp_provider_transaction_id p = Some t ∧
    answered sent (get_call ("/orders/" +:+ pp_provider_payment_id p +:+ "/payments") None) r ∧
    rs_json r = Some (JObj parsed) ∧ jget "items" parsed = JList items ∧
    List.filter is_captured items = [JObj item] ∧ captures p t item.

Lemma attach_captured_Ok p sent p' sent' :
  attach_captured_payment client library_text self p sent = (Ok p', sent') →
  ∃ t, p' = with_transaction_id t p ∧ captured_once p'.
Proof.
  unfold attach_captured_payment. intros E. run_step E. apply request_Ok in Hrun as [Hc ->].
  run_step E. apply lift_run_Ok in Hrun as [Hs%value_error_as_Ok%status_code_Ok ->].
  destruct (success _) eqn:Hok; [|discriminate E]. cbn [negb] in E.
  run_step E. apply lift_run_Ok in Hrun as [Hcap%value_error_as_Ok ->].
  outcome_inv Hcap. apply json_object_Ok in Hr. apply items_list_Ok in Hr0. apply captured_ids_Ok in Hcap.
  destruct a1 as [|t [|t' l]]; [discriminate E| |discriminate E]. injection E as <- <-.
  apply Forall2_cons_inv_r in Hcap as (x & xs & (o & -> & Ho) & Hnil & Hf). apply Forall2_nil_inv_r in Hnil as ->.
  exists t. split; [done|]. exists t. do 5 eexists. split; [done|]. split; [split; [exact Hc|by eexists]|].
  split; [exact Hr|]. split; [exact Hr0|]. split; [exact Hf|].
  destruct Ho as [H1 H2 H3 H4 H5]. by split.
Qed.

(** What a returned payment rests on. *)
Record backed (key : option string) (p : ProviderPayment) : Prop := {
  bk_order : ∃ order, reported order ∧ describes order key p;
  bk_captured : pp_status p = ProviderPaymentStatus.SUCCEEDED → captured_once p;
  bk_pending : pp_status p ≠ ProviderPaymentStatus.SUCCEEDED → pp_provider_transaction_id p = None
}.

Lemma settled_order_Ok order key p sent p' sent' :
  reported order → order_to_payment order key = Ok p →
  settled_order client library_text self p sent = (Ok p', sent') → backed key p'.
Proof.
  intros Hrep [Hd Hnone]%order_to_payment_Ok. unfold settled_order.
  destruct (bool_decide _) eqn:Es; [apply bool_decide_eq_true in Es|apply bool_decide_eq_false in Es]; intros E.
  - apply attach_captured_Ok in E as (t & -> & Hcap). split; [|done|by intros []].
    exists order. split; [done|]. destruct Hd. by split.
  - injection E as <- <-. split; [by exists order|by intros|done].
Qed.

Lemma scan_item_reported receipt found item found' :
  scan_item receipt found item = Ok found' →
  found' = found ∨ ∃ id o, item = JObj o ∧ jget "receipt" o = JStr receipt ∧ jget "id" o = JStr id ∧
    py_dict_get id found = None ∧ found' = py_dict_set id o found.
Proof.
  unfold scan_item. destruct item as [| | | | | |o]; intros E; try (injection E as <-; by left).
  destruct (json_eqb _ _) eqn:Er; cbn [negb] in E; [|injection E as <-; by left].
  apply json_eqb_JStr in Er. outcome_inv E. apply nonempty_str_Ok in Hr as [Hid _].
  destruct (py_dict_get _ found) eqn:Eg; [outcome_inv E|]; injection E as <-; [by left|].
  right. by eexists _, o.
Qed.

(** ** The receipt search *)

(** The orders found are those of the items seen that carry the receipt, one per id. *)
Record exact_of (receipt : string) (seen : list json) (found : list (string * json_obj)) : Prop := {
  ex_sound : ∀ id o, (id, o) ∈ found → JObj o ∈ seen ∧ jget "receipt" o = JStr receipt ∧ jget "id" o = JStr id;
  ex_nodup : NoDup (map fst found);
  ex_complete : ∀ o, JObj o ∈ seen → jget "receipt" o = JStr receipt →
    ∃ id, jget "id" o = JStr id ∧ id ∈ map fst found
}.

Lemma exact_nil receipt : exact_of receipt [] [].
Proof. split; [by intros ? ? ?%not_elem_of_nil|constructor|by intros ? ?%not_elem_of_nil]. Qed.

Lemma exact_skip receipt seen found item :
  (∀ o, item = JObj o → jget "receipt" o = JStr receipt → ∃ id, jget "id" o = JStr id ∧ id ∈ map fst found) →
  exact_of receipt seen found → exact_of receipt (seen ++ [item]) found.
Proof.
  intros Hi [Hs Hn Hc]. split; [|done|].
  - intros id o Hin. destruct (Hs id o Hin) as (H1 & H2). split; [apply elem_of_app; by left|done].
  - intros o [Ho|Ho%list_elem_of_singleton]%elem_of_app Hr; [by apply Hc|by apply Hi].
Qed.

Lemma scan_item_exact receipt seen found item found' :
  scan_item receipt found item = Ok found' → exact_of receipt seen found → exact_of receipt (seen ++ [item]) found'.
Proof.
  unfold scan_item. intros E Hex.
  destruct item as [| | | | | |o]; try (injection E as <-; by apply exact_skip).
  destruct (json_eqb _ _) eqn:Er; cbn [negb] in E.
  2:{ injection E as <-. apply exact_skip; [|done]. intros o' [= <-] Hr. by apply json_eqb_JStr in Hr; rewrite Hr in Er. }
  apply json_eqb_JStr in Er. outcome_inv E. apply nonempty_str_Ok in Hr as [Hid _].
  destruct (py_dict_get _ found) eqn:Eg; [outcome_inv E|]; injection E as <-.
  - apply exact_skip; [|done]. intros o' [= <-] _. eexists. split; [exact Hid|].
    by apply (py_dict_get_elem _ _ _ Eg).
  - rewrite (py_dict_set_new _ _ _ Eg). destruct Hex as [Hs Hn Hc]. split.
    + intros id o' [Hin|[= -> ->]%list_elem_of_singleton]%elem_of_app.
      * destruct (Hs id o' Hin) as (H1 & H2). split; [apply elem_of_app; by left|done].
      * split; [apply elem_of_app; right; by apply list_elem_of_singleton|done].
    + rewrite map_app. apply NoDup_app. split; [done|]. split; [|apply NoDup_singleton].
      intros x Hx ->%list_elem_of_singleton. by apply (py_dict_get_not_elem _ _ Eg).
    + intros o' [Ho|[= ->]%list_elem_of_singleton]%elem_of_app Hr.
      * destruct (Hc o' Ho Hr) as (id & H1 & H2). exists id. split; [done|]. rewrite map_app. apply elem_of_app. by left.
      * eexists. split; [exact Hid|]. rewrite map_app. apply elem_of_app. right. by apply list_elem_of_singleton.
Qed.

Lemma scan_items_exact receipt items seen found found' :
  scan_items receipt found items = Ok found' → exact_of receipt seen found → exact_of receipt (seen ++ items) found'.
Proof.
  revert seen found. induction items as [|item items IH]; intros seen found E Hex; cbn [scan_items] in E.
  { injection E as <-. by rewrite app_nil_r. }
  outcome_inv E. apply scan_item_exact with (seen := seen) in Hr; [|done].
  rewrite cons_middle, app_assoc. by apply (IH _ _ E).
Qed.

(** The pages the client answered for a receipt, from page [n] on: all of them full but
    the last. *)
Definition search_call (receipt : string) (n : Z) : http_call :=
  get_call "/orders" (Some [("receipt", JStr receipt); ("count", JInt page_size); ("skip", JInt (n * page_size))]).
Definition page_answer (receipt : string) (sent : list http_call) (n : Z) (items : list json) : Prop :=
  ∃ r parsed, answered sent (search_call receipt n) r ∧ rs_json r = Some (JObj parsed) ∧ jget "items" parsed = JList items.
Fixpoint pages_answered (receipt : string) (sent : list http_call) (n : Z) (pages : list (list json)) : Prop :=
  match pages with
  | [] => False
  | items :: rest =>
      page_answer receipt sent n items ∧
      match rest with
      | [] => Z.of_nat (length items) < page_size
      | _ => Z.of_nat (length items) = page_size ∧ pages_answered receipt (sent ++ [search_call receipt n]) (n + 1) rest
      end
  end.

Lemma search_page_Ok receipt n found sent items found' sent' :
  search_page client library_text self receipt n found sent = (Ok (items, found'), sent') →
  sent' = sent ++ [search_call receipt n] ∧ page_answer receipt sent n items ∧
  Z.of_nat (length items) <= page_size ∧ scan_items receipt found items = Ok found'.
Proof.
  unfold search_page. intros E. run_step E. apply request_Ok in Hrun as [Hc ->].
  run_step E. apply lift_run_Ok in Hrun as [Hs%value_error_as_Ok%status_code_Ok ->].
  destruct (success _) eqn:Hok; [|discriminate E]. cbn [negb] in E.
  apply lift_run_Ok in E as [E%value_error_as_Ok ->]. outcome_inv E. injection E as <- <-.
  apply json_object_Ok in Hr. apply items_list_Ok in Hr0. apply check_Ok, Z.leb_le in Hr1.
  split; [done|]. split; [|done]. exists a, a1. split; [|done]. split; [exact Hc|by eexists].
Qed.

Lemma search_pages_Ok receipt k n seen found sent orders sent' :
  exact_of receipt seen found →
  search_pages client library_text self receipt k n found sent = (Ok orders, sent') →
  ∃ pages found', pages_answered receipt sent n pages ∧ (length pages <= k)%nat ∧
    exact_of receipt (seen ++ concat pages) found' ∧ orders = map snd found'.
Proof.
  revert n seen found sent. induction k as [|k IH]; intros n seen found sent Hex E; cbn [search_pages] in E; [discriminate E|].
  run_step E. destruct a as [items found']. apply search_page_Ok in Hrun as (-> & Hp & Hl & Hsc).
  apply (scan_items_exact _ _ seen) in Hsc; [|done].
  destruct (Z.ltb_spec (Z.of_nat (length items)) page_size) as [Hlt|Hge].
  - injection E as <- <-. exists [items], found'. cbn. rewrite app_nil_r. split_and!; [done..|lia|done|done].
  - apply (IH _ _ _ _ Hsc) in E as (pages & f & Hps & Hk & Hf & ->). exists (items :: pages), f.
    split; [|split; [cbn; lia|split; [|done]]].
    + destruct pages as [|p ps]; [done|]. cbn. split; [done|]. split; [lia|exact Hps].
    + cbn [concat]. by rewrite app_assoc.
Qed.

Lemma pages_reported receipt sent n pages o :
  pages_answered receipt sent n pages → JObj o ∈ concat pages → reported o.
Proof.
  revert sent n. induction pages as [|items pages IH]; intros sent n; [done|]. cbn [pages_answered concat].
  intros [(r & parsed & Ha & Hr & Hi) Hrest] [Hin|Hin]%elem_of_app.
  - exists sent, (search_call receipt n), r. split; [done|]. right. by exists parsed, items.
  - destruct pages as [|p ps]; [by apply not_elem_of_nil in Hin|]. by apply (IH _ _ (proj2 Hrest)).
Qed.

Lemma search_orders_Ok receipt sent orders sent' :
  orders_with_exact_receipt client library_text self receipt sent = (Ok orders, sent') →
  ∃ pages found, pages_answered receipt sent 0 pages ∧ (length pages <= max_pages)%nat ∧
    exact_of receipt (concat pages) found ∧ orders = map snd found.
Proof. intros E. by apply (search_pages_Ok receipt max_pages 0 []) in E; [|apply exact_nil]. Qed.

Lemma Some_run_Ok {A} (m : HTTP A) sent a sent' : (Some <$> m) sent = (Ok (Some a), sent') → m sent = (Ok a, sent').
Proof. unfold fmap, M_fmap. destruct (m sent) as [[b|e] s]; [by intros [= -> ->]|done]. Qed.

Lemma create_backed rq sent p sent' :
  create_payment client library_text self rq sent = (Ok p, sent') → backed (Some (rq_idempotency_key rq)) p.
Proof.
  unfold create_payment. intros E. run_step E. apply request_Ok in Hrun as [Hc ->].
  run_step E. apply lift_run_Ok in Hrun as [Hs%value_error_as_Ok%status_code_Ok ->].
  destruct (success _) eqn:Hok.
  - run_step E. apply lift_run_Ok in Hrun as [Ho%value_error_as_Ok ->]. apply outcome_bind_Ok in Ho as (order & Hr & Ho). apply json_object_Ok in Hr.
    eapply settled_order_Ok; [|exact Ho|exact E]. do 3 eexists. split; [split; [exact Hc|by eexists]|by left].
  - destruct (500 <=? a0); [discriminate E|]. destruct (a0 =? 429); [discriminate E|].
    by destruct (_ && _).
Qed.

Lemma fetch_backed id key sent p sent' :
  fetch_order client library_text self id key sent = (Ok (Some p), sent') → backed key p.
Proof.
  unfold fetch_order. intros E. run_step E. apply request_Ok in Hrun as [Hc ->].
  run_step E. apply lift_run_Ok in Hrun as [Hs%value_error_as_Ok%status_code_Ok ->].
  destruct (a0 =? 404); [discriminate E|]. destruct (success _) eqn:Hok; [|discriminate E]. cbn [negb] in E.
  run_step E. apply lift_run_Ok in Hrun as [Ho%value_error_as_Ok ->]. apply outcome_bind_Ok in Ho as (order & Hr & Ho). apply json_object_Ok in Hr.
  apply Some_run_Ok in E. eapply settled_order_Ok; [|exact Ho|exact E].
  do 3 eexists. split; [split; [exact Hc|by eexists]|by left].
Qed.

Lemma search_cases key sent o sent' :
  search_order client library_text self key sent = (Ok o, sent') →
  ∃ pages found, pages_answered (receipt_for_idempotency_key key) sent 0 pages ∧ (length pages <= max_pages)%nat ∧
    exact_of (receipt_for_idempotency_key key) (concat pages) found ∧
    match o with
    | None => found = []
    | Some p => ∃ order, found = [(pp_provider_payment_id p, order)] ∧ reported order ∧ backed (Some key) p
    end.
Proof.
  unfold search_order. intros E. run_step E. apply search_orders_Ok in Hrun as (pages & found & Hp & Hl & Hex & ->).
  exists pages, found. split_and!; [done..|]. destruct found as [|[id order] [|f l]]; cbn [map snd] in E; [|
    |discriminate E].
  { by injection E as <- <-. }
  run_step E. apply lift_run_Ok in Hrun as [Ho%value_error_as_Ok ->].
  assert (Hin : (id, order) ∈ [(id, order)]) by by apply list_elem_of_singleton.
  destruct (ex_sound _ _ _ Hex _ _ Hin) as (Hc & _ & Hid). pose proof (pages_reported _ _ _ _ _ Hp Hc) as Hrep.
  destruct o as [p|]; [|unfold fmap, M_fmap in E; by destruct (settled_order _ _ _ _ _) as [[]]].
  apply Some_run_Ok in E. pose proof (settled_order_Ok _ _ _ _ _ _ Hrep Ho E) as Hb.
  exists order. split; [|done]. apply order_to_payment_Ok in Ho as [Hd _].
  assert (Hpid : pp_provider_payment_id p = pp_provider_payment_id a).
  { revert E. unfold settled_order. destruct (bool_decide _); [|by intros [= <- _]].
    by intros (t & -> & _)%attach_captured_Ok. }
  pose proof (ds_id _ _ _ Hd) as Hid'. rewrite Hpid. congruence.
Qed.

(** C3: A payment the adapter reports is backed by the provider's own records.  When a
    creation or a lookup returns a payment, the client answered successfully with an
    order whose id, amount in paise, currency and receipt are the payment's, the receipt
    being the one derived from the idempotency key when there is one; the payment is
    SUCCEEDED exactly when the order is [paid], and then the order's payments were
    fetched and exactly one of them is captured: it is named by the transaction id and
    carries the same order, amount and currency.  Otherwise there is no transaction id. *)
Theorem payment_is_backed (sent sent' : list http_call) (key : option string) (p : ProviderPayment) :
  (∃ rq, key = Some (rq_idempotency_key rq) ∧ create_payment client library_text self rq sent = (Ok p, sent')) ∨
  (∃ id, get_payment client library_text self id key sent = (Ok (Some p), sent')) →
  backed key p.
Proof.
  intros [(rq & -> & E)|(id & E)]; [by eapply create_backed|].
  unfold get_payment in E. destruct id as [id|]; [by eapply fetch_backed; destruct key|].
  destruct key as [key|]; [|discriminate E].
  apply search_cases in E as (_ & _ & _ & _ & _ & _ & _ & _ & Hb). exact Hb.
Qed.

(** C12: A receipt search is exhaustive.  A lookup by idempotency key that returns read
    consecutive pages from the first to one that is not full, at most a hundred: it
    answers "no payment" only if no order on them carries the key's receipt, and a
    payment only if every order on them with that receipt has the payment's id. *)
Theorem receipt_search_is_exhaustive (key : string) (sent sent' : list http_call) (o : option ProviderPayment) :
  get_payment client library_text self None (Some key) sent = (Ok o, sent') →
  ∃ pages, pages_answered (receipt_for_idempotency_key key) sent 0 pages ∧ (length pages <= 100)%nat ∧
    ∀ order, JObj order ∈ concat pages → jget "receipt" order = JStr (receipt_for_idempotency_key key) →
      ∃ p, o = Some p ∧ jget "id" order = JStr (pp_provider_payment_id p).
Proof.
  intros E. apply search_cases in E as (pages & found & Hp & Hl & Hex & Ho). exists pages. split; [done|]. split; [done|].
  intros order Hin Hr. destruct (ex_complete _ _ _ Hex order Hin Hr) as (id & Hid & Hm).
  destruct o as [p|]; [|subst; by apply not_elem_of_nil in Hm]. destruct Ho as (order' & -> & _).
  apply list_elem_of_singleton in Hm as ->. by exists p.
Qed.
End Answers.

(** ** What the parsing code raises *)
Definition raises_only {A} (Q : exn → Prop) (o : outcome exn A) : Prop := ∀ e, o = Raise e → Q e.
Definition value_error (e : exn) : Prop := is_ValueError e = true.

Lemma raises_only_bind {A B} Q (o : outcome exn A) (k : A → outcome exn B) :
  raises_only Q o → (∀ a, o = Ok a → raises_only Q (k a)) → raises_only Q (o ≫= k).
Proof. intros Ho Hk e. unfold mbind, outcome_bind. destruct o as [a|e']; [by apply Hk|by intros [= ->]; apply Ho]. Qed.
Lemma raises_only_Ok {A} Q (a : A) : raises_only Q (Ok a).
Proof. by intros e. Qed.
Lemma raises_Raise {A} (Q : exn → Prop) e : Q e → raises_only Q (Raise e : outcome exn A).
Proof. by intros H1 e' [= <-]. Qed.
Lemma raises_check Q b d : Q (ValueError d) → raises_only Q (check b d).
Proof. unfold check. destruct b; [by intros _ e|]. apply raises_Raise. Qed.
Hint Resolve raises_only_Ok : core.
Ltac raises :=
  repeat match goal with
  | |- raises_only _ (mbind _ _) => apply raises_only_bind; [|intros ? ?]
  | |- raises_only _ (check _ _) => apply raises_check
  | |- raises_only _ (Raise _) => apply raises_Raise
  | |- raises_only _ (if ?b then _ else _) => destruct b eqn:?
  | |- raises_only _ (match ?x with _ => _ end) => destruct x eqn:?
  | |- raises_only _ (let '_ := ?x in _) => destruct x eqn:?
  end; try done.
(** Reading one field raises a ValueError or nothing. *)
Ltac raises_field := unfold prefixed_str, nonempty_str, currency_str, non_negative_int, whole_rupees, entity; raises.

Lemma raises_entity w d : raises_only value_error (entity w d).
Proof. raises_field. Qed.
Lemma raises_rupees v f : raises_only value_error (whole_rupees v f).
Proof. raises_field. Qed.
Lemma raises_currency v f : raises_only value_error (currency_str v f).
Proof. raises_field. Qed.
Lemma raises_int v f : raises_only value_error (non_negative_int v f).
Proof. raises_field. Qed.
Lemma raises_prefixed p v f : raises_only value_error (prefixed_str p v f).
Proof. raises_field. Qed.
Lemma raises_nonempty v f : raises_only value_error (nonempty_str v f).
Proof. raises_field. Qed.
Lemma raises_weaken {A} (Q Q' : exn → Prop) (o : outcome exn A) :
  (∀ e, Q e → Q' e) → raises_only Q o → raises_only Q' o.
Proof. intros HQ Ho e E. by apply HQ, Ho. Qed.
Create HintDb raises discriminated.
Hint Resolve raises_entity raises_rupees raises_currency raises_int raises_prefixed raises_nonempty : raises.

Lemma is_ascii_take n s : is_ascii s = true → is_ascii (str_take n s) = true.
Proof.
  unfold is_ascii, str_take. revert n. induction s as [|a s IH]; intros [|n]; cbn; try done.
  intros [-> Hs]%andb_true_iff. by apply IH.
Qed.
Lemma lower_hex_ascii s : str_forallb is_lower_hex s = true → is_ascii s = true.
Proof.
  unfold is_ascii. induction s as [|a s IH]; cbn; [done|]. intros [Ha Hs]%andb_true_iff. rewrite (IH Hs), andb_true_r.
  clear -Ha. by destruct a as [[] [] [] [] [] [] [] []].
Qed.
Lemma receipt_ascii key : is_ascii (receipt_for_idempotency_key key) = true.
Proof.
  unfold receipt_for_idempotency_key. unfold is_ascii. rewrite str_forallb_app. apply andb_true_iff. split; [done|].
  apply is_ascii_take, lower_hex_ascii. pose proof (sha256_shape (encode key)) as Hd.
  unfold is_digest_shaped in Hd. by apply andb_true_iff in Hd as [_ Hd].
Qed.

(** A receipt that is not ASCII text makes the comparison itself raise. *)
Definition unreadable_receipt (order : json_obj) (e : exn) : Prop :=
  ∃ r, jget "receipt" order = JStr r ∧ is_ascii r = false ∧
    e = TypeError "comparing strings with non-ASCII characters is not supported".

Lemma order_to_payment_raises order key :
  raises_only (λ e, value_error e ∨ unreadable_receipt order e) (order_to_payment order key).
Proof.
  assert (Hl : ∀ A (o : outcome exn A), raises_only value_error o → raises_only (λ e, value_error e ∨ unreadable_receipt order e) o).
  { intros A o. apply raises_weaken. by left. }
  unfold order_to_payment. raises; try (apply Hl; eauto with raises; fail); try (left; done).
  - unfold receipt_matches. raises; [|by left].
    unfold compare_digest_str. raises. right. exists a4. split; [by apply nonempty_str_Ok in H4 as [-> _]|].
    split; [|done]. by rewrite receipt_ascii, andb_true_r in Heqb.
  - unfold ProviderPayment_new. raises. by left.
Qed.

Section Failures.
Context (client : list http_call → http_call → http_result) (library_text : exn → string).
Context (self : RazorpayTestPaymentProvider).

Definition run_raises {A} (Q : exn → Prop) (m : HTTP A) : Prop := ∀ sent e sent', m sent = (Raise e, sent') → Q e.
Lemma run_raises_bind {A B} Q (m : HTTP A) (k : A → HTTP B) :
  run_raises Q m → (∀ a, run_raises Q (k a)) → run_raises Q (m ≫= k).
Proof.
  intros Hm Hk sent e sent'. unfold mbind, M_bind. destruct (m sent) as [[a|e'] s1] eqn:E; [by apply Hk|].
  intros [= -> ->]. by eapply Hm.
Qed.
Lemma run_raises_lift {A} Q (o : outcome exn A) : raises_only Q o → run_raises Q (lift o : HTTP A).
Proof. intros Ho sent e sent' [= Hr _]. by apply Ho. Qed.

(** A request that got no usable answer: a timeout, or what the client itself raised. *)
Definition unanswered (e : exn) : Prop :=
  (∃ d, e = failed ProviderTimeout d) ∨ ∃ sent c, client sent c = ClientRaised e.
Lemma request_raises m path j ps : run_raises unanswered (request client self m path j ps).
Proof.
  intros sent e sent'. unfold request. destruct (client sent _) as [r|t|e'] eqn:Ec; [done| |].
  - intros [= <- _]. left. by eexists.
  - intros [= <- _]. right. by eexists _, _.
Qed.

Lemma value_error_as_raises {A} k p (o : outcome exn A) (Q : exn → Prop) :
  raises_only (λ e, value_error e ∨ Q e) o →
  raises_only (λ e, (∃ d, e = failed k d) ∨ Q e) (value_error_as library_text k p o).
Proof.
  intros Ho. unfold value_error_as. destruct o as [a|e]; [done|].
  destruct (is_ValueError e) eqn:Ee; intros e' [= <-]; [left; by eexists|].
  destruct (Ho e eq_refl) as [He|He]; [|by right]. unfold value_error in He. congruence.
Qed.
Lemma value_error_as_raises' {A} k p (o : outcome exn A) :
  raises_only value_error o → raises_only (λ e, ∃ d, e = failed k d) (value_error_as library_text k p o).
Proof.
  intros Ho. apply (raises_weaken (λ e, (∃ d, e = failed k d) ∨ False)); [by intros e [|]|].
  apply value_error_as_raises. apply (raises_weaken value_error); [by left|done].
Qed.

Lemma captured_ids_raises p items : raises_only value_error (captured_ids p items).
Proof.
  induction items as [|item items IH]; cbn [captured_ids]; [done|]. raises. unfold captured_id.
  raises; eauto with raises.
Qed.
Lemma json_object_raises r : raises_only value_error (json_object r).
Proof. unfold json_object. raises. Qed.
Lemma status_code_raises r : raises_only value_error (status_code r).
Proof. unfold status_code. raises. Qed.
Lemma items_list_raises o d : raises_only value_error (items_list o d).
Proof. unfold items_list. raises. Qed.

(** Looking for the captured payment leaves the question open, whatever goes wrong. *)
Definition unresolved (e : exn) : Prop := unanswered e ∨ ∃ d, e = failed ProviderTransientError d.
Lemma settled_order_raises p : run_raises unresolved (settled_order client library_text self p).
Proof.
  assert (Hr : ∀ d A, run_raises unresolved (raise (failed ProviderTransientError d) : HTTP A)).
  { intros d A sent e sent' [= <- _]. right. by eexists. }
  assert (Hv : ∀ A (o : outcome exn A) q, raises_only value_error o →
    run_raises unresolved (lift (value_error_as library_text ProviderTransientError q o) : HTTP A)).
  { intros A o q Ho. apply run_raises_lift. apply (raises_weaken (λ e, ∃ d, e = failed ProviderTransientError d));
      [by right|by apply value_error_as_raises']. }
  unfold settled_order, attach_captured_payment. destruct (bool_decide _); [|by intros sent e sent' [=]].
  apply run_raises_bind; [intros sent e sent' E; left; by eapply request_raises|]. intros r.
  apply run_raises_bind; [apply Hv, status_code_raises|]. intros code. destruct (negb _); [apply Hr|].
  apply run_raises_bind; [|intros [|t [|t' l]]; [apply Hr|by intros sent e sent' [=]|apply Hr]].
  apply Hv. apply raises_only_bind; [apply json_object_raises|]. intros parsed _.
  apply raises_only_bind; [apply items_list_raises|]. intros items _. apply captured_ids_raises.
Qed.

End Failures.

(** ** Webhooks *)
Section Webhooks.
Context (json_loads : bytes → loads_result) (library_text : exn → string).
Context (self : RazorpayTestPaymentProvider).

Lemma entity_Ok w d e : entity w d = Ok e ↔ ∃ o, w = JObj o ∧ jget "entity" o = JObj e.
Proof.
  unfold entity. destruct w as [| | | | | |o]; try (split; [done|by intros (? & [=] & _)]).
  split.
  - intros E. exists o. split; [done|]. destruct (jget "entity" o); [discriminate E..|]. by injection E as ->.
  - intros (o' & [= <-] & ->). done.
Qed.

(** The payment entity a signed body carries, and what an event says of it. *)
Record evidences (parsed payment : json_obj) (event : string) (e : evidence) : Prop := {
  ed_entity : ∃ payload wrapper, jget "payload" parsed = JObj payload ∧ jget "payment" payload = JObj wrapper ∧
    jget "entity" wrapper = JObj payment;
  ed_type : py_dict_get event event_types = Some (ev_event_type e);
  ed_order : jget "order_id" payment = JStr (ev_provider_payment_id e) ∧ ev_provider_order_id e = ev_provider_payment_id e;
  ed_payment : jget "id" payment = JStr (ev_provider_transaction_id e) ∧
    String.prefix "pay_" (ev_provider_transaction_id e) = true;
  ed_amount : jget "amount" payment = JInt (ev_amount_inr e * 100);
  ed_currency : jget "currency" payment = JStr (ev_currency e);
  ed_status : jget "status" payment = JStr (ev_provider_status e) ∧
    py_dict_get event required_statuses = Some (ev_provider_status e);
  ed_captured : ev_event_type e = WebhookEventType.PAYMENT_SUCCEEDED → jget "captured" payment = JBool true;
  ed_order_paid : event = "order.paid" → ∃ payload wrapper order, jget "payload" parsed = JObj payload ∧
    jget "order" payload = JObj wrapper ∧ jget "entity" wrapper = JObj order ∧
    jget "id" order = JStr (ev_provider_order_id e) ∧ jget "status" order = JStr "paid" ∧
    jget "amount" order = JInt (ev_amount_inr e * 100) ∧ jget "currency" order = JStr (ev_currency e)
}.

Lemma succeeded_events event t :
  py_dict_get event event_types = Some t → t = WebhookEventType.PAYMENT_SUCCEEDED →
  event ∈ ["payment.captured"; "order.paid"].
Proof.
  unfold event_types, py_dict_get.
  destruct (String.eqb_spec event "payment.authorized") as [->|]; [by intros [= <-]|].
  destruct (String.eqb_spec event "payment.captured") as [->|]; [intros _ _; by left|].
  destruct (String.eqb_spec event "payment.failed") as [->|]; [by intros [= <-]|].
  destruct (String.eqb_spec event "order.paid") as [->|]; [intros _ _; right; by left|done].
Qed.

Lemma paid_order_Ok payload oid cur amt n :
  paid_order_attempts payload oid cur amt = Ok n →
  ∃ wrapper order, jget "order" payload = JObj wrapper ∧ jget "entity" wrapper = JObj order ∧
    jget "id" order = JStr oid ∧ jget "status" order = JStr "paid" ∧
    jget "amount" order = JInt (amt * 100) ∧ jget "currency" order = JStr cur.
Proof.
  unfold paid_order_attempts. intros E. outcome_inv E. apply entity_Ok in Hr as (w & Hw & Hord).
  apply check_Ok, andb_true_iff in Hr0 as [Hid%json_eqb_JStr Hst%json_eqb_JStr].
  apply whole_rupees_Ok in Hr1 as [Ham _]. apply check_Ok, andb_true_iff in Hr2 as [->%Z.eqb_eq Hcur%json_eqb_JStr].
  by exists w, a.
Qed.

Lemma webhook_evidence_Ok parsed event e :
  webhook_evidence parsed event = Ok e → ∃ payment, evidences parsed payment event e.
Proof.
  unfold webhook_evidence. intros E. outcome_inv E.
  assert (Hpl : jget "payload" parsed = JObj a) by (destruct (jget "payload" parsed); congruence).
  apply entity_Ok in Hr0 as (wrapper & Hw & Hent). exists a0.
  apply prefixed_str_Ok in Hr1 as [Hpay Hpre], Hr2 as [Hord _]. apply nonempty_str_Ok in Hr3 as [Hst _].
  apply currency_str_Ok in Hr4 as [Hcur _]. apply whole_rupees_Ok in Hr5 as [Ham _].
  destruct (py_dict_get event event_types) as [t|] eqn:Et; [|discriminate E].
  destruct (py_dict_get event required_statuses) as [rs|] eqn:Ers; [|discriminate E].
  outcome_inv E. injection E as <-. apply check_Ok in Hr0, Hr1. apply String.eqb_eq in Hr0 as ->.
  split; cbn; try done.
  - by exists a, wrapper.
  - intros Hs. pose proof (succeeded_events _ _ Et Hs) as Hin. apply negb_true_iff in Hr1.
    rewrite (bool_decide_true _ Hin) in Hr1. cbn [andb] in Hr1. apply negb_false_iff in Hr1.
    by destruct (jget "captured" a0) as [|[]| | | | |].
  - intros ->. rewrite String.eqb_refl in Hr2. outcome_inv Hr2.
    apply paid_order_Ok in Hr0 as (w & order & H1). by exists a, w, order.
Qed.

(** C18: A webhook event the adapter vouches for was signed and says what it claims.
    The signature is the HMAC-SHA256 of the very bytes received under the webhook
    secret, the delivery carries an event id, and the event's order, payment, amount,
    currency and status are those of the payment entity in the body; a success is
    claimed only of a payment the body calls captured, and for [order.paid] the order
    entity agrees on id, amount and currency and is paid. *)
Theorem webhook_is_signed_evidence (body : bytes) (signature : string) (event_id : option string) (ev : VerifiedWebhookEvent) :
  verify_webhook json_loads library_text self body signature event_id = Ok ev →
  signature = hmac_sha256_hexdigest (encode (webhook_secret self)) body ∧
  event_id = Some (we_provider_event_id ev) ∧ we_provider_event_id ev ≠ "" ∧
  ∃ parsed payment event e, json_loads body = Loaded (JObj parsed) ∧ jget "event" parsed = JStr event ∧
    evidences parsed payment event e ∧ we_provider ev = name ∧ we_event_type ev = ev_event_type e ∧
    we_provider_payment_id ev = ev_provider_payment_id e ∧
    we_provider_transaction_id ev = Some (ev_provider_transaction_id e) ∧
    we_amount_inr ev = Some (ev_amount_inr e) ∧ we_currency ev = Some (ev_currency e) ∧
    we_provider_status ev = Some (ev_provider_status e).
Proof.
  unfold verify_webhook. destruct (is_ascii signature); [|done]. cbn [negb].
  destruct (String.eqb_spec (sign self body) signature) as [Hs|]; [|done]. cbn [negb].
  destruct (opt_or_str event_id None) as [id|] eqn:Eid; [|done].
  destruct (json_loads body) as [[| | | | | |parsed]| |] eqn:Ej; try done. intros E.
  apply outcome_bind_Ok in E as (event & Hev & E). destruct (event_of parsed event id) as [ev'|e'] eqn:Ee.
  2:{ by destruct (_ || _). }
  injection E as ->. unfold event_of in Ee. outcome_inv Ee. cbv zeta in Ee.
  destruct (verified_webhook_error _); [done|]. injection Ee as <-. apply webhook_evidence_Ok in Hr as (payment & He).
  assert (Hid : event_id = Some id ∧ id ≠ "").
  { unfold opt_or_str in Eid. destruct event_id as [x|]; [|done]. destruct (String.eqb_spec x ""); [done|].
    by injection Eid as ->. }
  split; [done|]. cbn. split; [apply Hid|]. split; [apply Hid|]. exists parsed, payment, event, a.
  split; [done|]. split; [|done]. unfold supported_event in Hev. destruct (jget "event" parsed) as [| | | |s| |]; try done.
  destruct (is_some _); [by injection Hev as ->|done].
Qed.

Lemma webhook_evidence_raises parsed event :
  is_some (py_dict_get event event_types) = true → raises_only value_error (webhook_evidence parsed event).
Proof.
  intros Hev. unfold webhook_evidence, paid_order_attempts. raises; eauto with raises.
  exfalso. revert Heqo Heqo0. clear. unfold required_statuses, event_types, py_dict_get.
  repeat (destruct (String.eqb event _); [done|]). done.
Qed.

(** An unauthenticated body is never read, and an authenticated one that is
    malformed is refused.  Whatever the parser would make of it, a body whose signature
    does not verify gives the same refusal; and verification raises nothing but a
    webhook refusal, unless a signed body makes the JSON decoder itself fail, has a list
    or an object as its event name, or a [created_at] outside the platform's range. *)
Theorem webhook_refusals (body : bytes) (signature : string) (event_id : option string) (e : exn) :
  verify_webhook json_loads library_text self body signature event_id = Raise e →
  (signature ≠ sign self body →
   ∀ loads, verify_webhook loads library_text self body signature event_id = Raise e) ∧
  ((∃ detail code, e = WebhookVerificationError name detail code) ∨
   signature = sign self body ∧
   (json_loads body = LoadFailed e ∨
    ∃ parsed, json_loads body = Loaded (JObj parsed) ∧
      ((∃ l, jget "event" parsed = JList l) ∨ (∃ o, jget "event" parsed = JObj o) ∨
       ∃ t, jget "created_at" parsed = JInt t ∧ fromtimestamp_utc t = PlatformRange))).
Proof.
  unfold verify_webhook, refused. intros E. split.
  { intros Hs loads. destruct (is_ascii signature); [|exact E]. cbn [negb] in *.
    destruct (String.eqb_spec (sign self body) signature); [congruence|exact E]. }
  destruct (is_ascii signature); [|injection E as <-; left; by eexists _, _]. cbn [negb] in E.
  destruct (String.eqb_spec (sign self body) signature) as [Hs|]; [|injection E as <-; left; by eexists _, _]. cbn [negb] in E.
  destruct (opt_or_str event_id None) as [id|]; [|injection E as <-; left; by eexists _, _].
  destruct (json_loads body) as [[| | | | | |parsed]| |e0] eqn:Ej; try (injection E as <-; left; by eexists _, _).
  2:{ injection E as ->. right. split; [done|by left]. }
  unfold supported_event in E.
  destruct (jget "event" parsed) as [| | | |s|l|o] eqn:Eev; try (injection E as <-; left; by eexists _, _).
  2:{ right. split; [done|]. right. exists parsed. split; [done|]. left. by exists l. }
  2:{ right. split; [done|]. right. exists parsed. split; [done|]. right. left. by exists o. }
  destruct (is_some (py_dict_get s event_types)) eqn:Hsome; [|injection E as <-; left; by eexists _, _].
  unfold mbind, outcome_bind in E. destruct (event_of parsed s id) as [ev|e0] eqn:Ee; [done|].
  destruct (is_ValueError e0 || is_TypeError e0) eqn:Ek; [injection E as <-; left; by eexists _, _|]. injection E as ->.
  right. split; [done|]. right. exists parsed. split; [done|]. right. right.
  assert (Hr : raises_only (λ e, value_error e ∨ ∃ t, jget "created_at" parsed = JInt t ∧ fromtimestamp_utc t = PlatformRange)
    (event_of parsed s id)).
  { unfold event_of. raises; [eapply raises_weaken, webhook_evidence_raises; [by left|done]| |by left].
    unfold occurred_at. raises; [by left|right; by eexists]. }
  destruct (Hr e Ee) as [Hv|Ht]; [|exact Ht]. unfold value_error in Hv. by rewrite Hv in Ek.
Qed.
End Webhooks.

(** ** A deployment and its provider *)
Definition demo_adapter : RazorpayTestPaymentProvider :=
  mkRazorpay "rzp_test_demo" "key-secret" "hook-secret"
    (mkHttpTimeout (fl_of_Z 3) (fl_of_Z 7) (fl_of_Z 5) (fl_of_Z 2)) (fl_of_Z 10).
Example demo_adapter_constructed :
  RazorpayTestPaymentProvider_new "rzp_test_demo" "key-secret" "hook-secret"
    (fl_of_Z 3) (fl_of_Z 7) (fl_of_Z 5) (fl_of_Z 2) (fl_of_Z 10) = Ok demo_adapter.
Proof. vm_compute. reflexivity. Qed.
Example live_key_refused : ∃ d,
  RazorpayTestPaymentProvider_new "rzp_live_demo" "key-secret" "hook-secret"
    (fl_of_Z 3) (fl_of_Z 7) (fl_of_Z 5) (fl_of_Z 2) (fl_of_Z 10)
  = Raise (InvariantViolation "razorpay.test_mode_only" d).
Proof. eexists. vm_compute. reflexivity. Qed.

Definition demo_order (status : string) : json_obj :=
  [("id", JStr "order_1"); ("entity", JStr "order"); ("status", JStr status); ("amount", JInt 429900);
   ("currency", JStr "INR"); ("receipt", JStr (receipt_for_idempotency_key "key-1")); ("attempts", JInt 1)].
Definition demo_capture : json_obj :=
  [("id", JStr "pay_1"); ("status", JStr "captured"); ("order_id", JStr "order_1"); ("amount", JInt 429900);
   ("currency", JStr "INR"); ("captured", JBool true)].
(** Answers every creation with 503 and knows one paid order. *)
Definition demo_client (sent : list http_call) (c : http_call) : http_result :=
  Response
    (if String.eqb (hc_method c) "POST" then mkHttpResponse (Some 503) None
     else if String.eqb (hc_url c) (API_BASE +:+ "/orders/order_1/payments")
     then mkHttpResponse (Some 200) (Some (JObj [("items", JList [JObj demo_capture])]))
     else mkHttpResponse (Some 200) (Some (JObj [("items", JList [JObj (demo_order "paid"); JObj [("id", JStr "order_2")]])]))).
Definition demo_payment : ProviderPayment :=
  mkProviderPayment name "order_1" ProviderPaymentStatus.SUCCEEDED 4299 "INR" (Some "key-1") (Some "order_1") (Some "pay_1")
    (Some (receipt_for_idempotency_key "key-1")) (Some "paid") (Some 1) false.
Definition demo_rq : PaymentRequest := mkPaymentRequest "key-1" 4299 "INR" "merchant-a" "0123456789abcdef".
Abbreviation demo_text := (λ _ : exn, "").

Lemma demo_search : get_payment demo_client demo_text demo_adapter None (Some "key-1") [] =
  (Ok (Some demo_payment), snd (get_payment demo_client demo_text demo_adapter None (Some "key-1") [])).
Proof. apply fst_run. vm_compute. reflexivity. Qed.

Lemma payment_is_backed_witness :
  pp_status demo_payment = ProviderPaymentStatus.SUCCEEDED ∧ captured_once demo_client demo_adapter demo_payment.
Proof.
  split; [done|].
  exact (bk_captured _ _ _ _ (payment_is_backed demo_client demo_text demo_adapter [] _ (Some "key-1") demo_payment
    (or_intror (ex_intro _ None demo_search))) eq_refl).
Defined.

Lemma receipt_search_is_exhaustive_witness :
  ∃ pages, pages_answered demo_client demo_adapter (receipt_for_idempotency_key "key-1") [] 0 pages.
Proof.
  destruct (receipt_search_is_exhaustive demo_client demo_text demo_adapter "key-1" [] _ (Some demo_payment) demo_search)
    as (pages & Hp & _).
  by exists pages.
Defined.

Lemma demo_create : create_payment demo_client demo_text demo_adapter demo_rq [] =
  (Raise (failed ProviderTimeout "ambiguous HTTP 503 response to order creation"),
   snd (create_payment demo_client demo_text demo_adapter demo_rq [])).
Proof. apply fst_run. vm_compute. reflexivity. Qed.

Definition demo_event (status : string) (captured_at : Z) : json_obj :=
  [("event", JStr "payment.captured"); ("created_at", JInt captured_at);
   ("payload", JObj [("payment", JObj [("entity", JObj
     [("id", JStr "pay_1"); ("status", JStr status); ("order_id", JStr "order_1"); ("amount", JInt 429900);
      ("currency", JStr "INR"); ("captured", JBool true)])])])].
Definition demo_loads (captured_at : Z) : bytes → loads_result := λ _, Loaded (JObj (demo_event "captured" captured_at)).
Definition demo_body : bytes := u "the bytes received".
Definition demo_verified : VerifiedWebhookEvent :=
  mkVerifiedWebhookEvent name "evt_1" WebhookEventType.PAYMENT_SUCCEEDED "order_1" (Some "order_1") (Some "pay_1")
    (Some 4299) (Some "INR") (Some "captured") None None (Some (utc 1767225600000000)).
Lemma demo_verify : verify_webhook (demo_loads 1767225600) demo_text demo_adapter demo_body (sign demo_adapter demo_body)
  (Some "evt_1") = Ok demo_verified.
Proof. vm_compute. reflexivity. Qed.
Lemma webhook_is_signed_evidence_witness :
  verify_webhook (demo_loads 1767225600) demo_text demo_adapter demo_body (sign demo_adapter demo_body) (Some "evt_1")
    = Ok demo_verified ∧
  ∃ payment event e, evidences (demo_event "captured" 1767225600) payment event e.
Proof.
  split; [exact demo_verify|].
  destruct (webhook_is_signed_evidence (demo_loads 1767225600) demo_text demo_adapter demo_body _ _ _ demo_verify)
    as (_ & _ & _ & parsed & payment & event & e & [= <-] & _ & He & _).
  by exists payment, event, e.
Defined.

(** A signed event whose timestamp no C library converts escapes the refusals. *)
Lemma demo_overflow : verify_webhook (demo_loads (10 ^ 18)) demo_text demo_adapter demo_body (sign demo_adapter demo_body)
  (Some "evt_1") = Raise (OverflowError "timestamp out of range for platform time_t").
Proof. vm_compute. reflexivity. Qed.
Lemma webhook_refusals_witness :
  ∃ t, jget "created_at" (demo_event "captured" (10 ^ 18)) = JInt t ∧ fromtimestamp_utc t = PlatformRange.
Proof.
  destruct (webhook_refusals (demo_loads (10 ^ 18)) demo_text demo_adapter demo_body _ _ _ demo_overflow)
    as [_ [(d & c & He)|(_ & [He|(parsed & [= <-] & [(l & Hl)|[(o & Ho)|Ht]])])]]; try discriminate; [].
  exact Ht.
Defined.
