(* ===== verification/Executor.v ===== *)
(** * The privileged executor

    services/payment_executor/executor.py.  An ORM object is the identifier of its
    row; an attribute read is a read of the row as the session sees it, and an
    attribute assignment is written at once.  [dispatch_create] is cut where it
    commits the create fence: [admit_create], [acquire_provider_create_fence],
    [after_fence] and [send_create] are its consecutive pieces. *)
From S2P Require Import Prelude Python PyFloat Json Text Enums Errors Firewall Canonical Transaction.
From S2P Require Import StateMachines Merchant Kernel Policy Payment Database Hashing Evolution Ledger.
From S2P Require Import Binding Authorization AuthorizationTheorems Outbox Intents Provider.

Record DispatchResult := mkDispatchResult {
  ds_state : PaymentIntentState;
  ds_provider_called : bool;
  ds_retry_scheduled : bool
}.
(** The result of every path that leaves the outcome to reconciliation. *)
Definition still_uncertain : DispatchResult := mkDispatchResult PaymentIntentState.PROVIDER_PENDING true true.

(** ** Catching a provider's failure *)
Definition attempt_lookup {A} (m : P A) : P (ProviderError + A) :=
  try_except (a ← m; mret (inr a))
    (λ e, match e with ProviderFailed err => mret (inl err) | _ => raise e end).
(** [except (ProviderTimeout, ProviderTransientError, ProviderTerminalError)]. *)
Definition attempt_create {A} (m : P A) : P (ProviderError + A) :=
  try_except (a ← m; mret (inr a))
    (λ e, match e with
          | ProviderFailed err =>
              match pe_kind err with
              | ProviderPaymentMismatch => raise e
              | _ => mret (inl err)
              end
          | _ => raise e
          end).
(** [except ProviderPaymentMismatch as mismatch]. *)
Definition on_mismatch {A} (m : P A) (h : ProviderError → P A) : P A :=
  try_except m
    (λ e, match e with
          | ProviderFailed err =>
              match pe_kind err with ProviderPaymentMismatch => h err | _ => raise e end
          | _ => raise e
          end).

(** ** Small moves *)
Definition lock_payment_intent (payment_intent_id : uuid) : P PaymentIntentRow := get_intent payment_intent_id.

(** [assert_payment_transition(current, target); intent.state = target]. *)
Definition move_intent (intent : uuid) (target : PaymentIntentState) : P unit :=
  row ← get_intent intent;
  PaymentFSM.assert_payment_transition (pi_state row) target;;
  write_intent intent (set_pi_state target row).

(** ** Linking a provider payment: attributes of one row object *)
Definition mismatch {A} (provider detail : string) : outcome exn A :=
  Raise (ProviderFailed (mkProviderError ProviderPaymentMismatch provider detail)).

Definition assign_once (getattr : PaymentIntentRow → option string)
    (setattr : option string → PaymentIntentRow → PaymentIntentRow) (value : option string) (label : string)
    : M PaymentIntentRow exn unit :=
  match value with
  | None => mret tt
  | Some value =>
      existing ← gets getattr;
      match existing with
      | None => modify (setattr (Some value))
      | Some existing =>
          if String.eqb existing value then mret tt
          else
            provider ← gets pi_provider;
            lift (mismatch provider ("intent already records " +:+ label +:+ "=" +:+ py_repr existing
                    +:+ "; refusing to relink to " +:+ py_repr value))
      end
  end.

Definition link_attributes (payment : ProviderPayment) : M PaymentIntentRow exn unit :=
  assign_once pi_provider_payment_id set_pi_provider_payment_id (Some (pp_provider_payment_id payment))
    "provider reference";;
  assign_once pi_provider_order_id set_pi_provider_order_id (pp_provider_order_id payment) "provider order id";;
  assign_once pi_provider_receipt set_pi_provider_receipt (pp_provider_receipt payment) "provider receipt";;
  (if bool_decide (pp_status payment = ProviderPaymentStatus.SUCCEEDED)
   then assign_once pi_provider_transaction_id set_pi_provider_transaction_id (pp_provider_transaction_id payment)
          "provider transaction id"
   else mret tt);;
  modify (λ r, match pp_provider_status payment with
               | Some s => set_pi_provider_status (Some s) r | None => r end);;
  modify (λ r, match pp_provider_attempts payment with
               | Some n => set_pi_provider_attempts
                             (Some (Z.max (default 0 (opt_or_int (pi_provider_attempts r) (Some 0))) n)) r
               | None => r end).

#[global] Instance PaymentIntentRow_eq_dec : EqDecision PaymentIntentRow.
Proof. solve_decision. Defined.

(** Assignments to a row object, flushed: when they end, or, if they raised, by the
    session's next statement.  No UPDATE is emitted for a row left as it was. *)
Definition on_object {A} (intent : uuid) (m : M PaymentIntentRow exn A) : P A :=
  row ← get_intent intent;
  let '(result, row') := m row in
  (if bool_decide (row' = row) then mret tt else write_intent intent row');;
  lift result.

Definition link_provider_payment (intent : uuid) (payment : ProviderPayment) : P unit :=
  on_object intent (link_attributes payment).

(** ** What a provider's answer is checked against *)
Definition provider_evidence_payload (payment : ProviderPayment) : json_obj :=
  let text key (v : option string) := match v with Some s => [(key, JStr s)] | None => [] end in
  [("provider_payment_id", JStr (pp_provider_payment_id payment))]
  ++ text "provider_order_id" (pp_provider_order_id payment)
  ++ text "provider_transaction_id" (pp_provider_transaction_id payment)
  ++ text "provider_receipt" (pp_provider_receipt payment)
  ++ text "provider_status" (pp_provider_status payment)
  ++ match pp_provider_attempts payment with Some n => [("provider_attempts", JInt n)] | None => [] end.

Definition payment_mismatches (intent : PaymentIntentRow) (payment : ProviderPayment)
    (require_idempotency_key : bool) : list string :=
  (if negb (String.eqb (pp_provider payment) (pi_provider intent))
   then ["provider=" +:+ py_repr (pp_provider payment) +:+ ", expected " +:+ py_repr (pi_provider intent)] else [])
  ++ (if negb (pp_amount_inr payment =? pi_amount_inr intent)
      then ["amount_inr=" +:+ str_int (pp_amount_inr payment) +:+ ", expected " +:+ str_int (pi_amount_inr intent)]
      else [])
  ++ (if negb (String.eqb (pp_currency payment) (pi_currency intent))
      then ["currency=" +:+ py_repr (pp_currency payment) +:+ ", expected " +:+ py_repr (pi_currency intent)]
      else [])
  ++ match pp_idempotency_key payment with
     | None => if require_idempotency_key then ["idempotency_key is absent"] else []
     | Some key =>
         if negb (String.eqb key (pi_idempotency_key intent))
         then ["idempotency_key=" +:+ py_repr key +:+ ", expected " +:+ py_repr (pi_idempotency_key intent)]
         else []
     end.

Definition validate_provider_payment (intent : PaymentIntentRow) (payment : ProviderPayment)
    (require_idempotency_key : bool) : outcome exn unit :=
  match payment_mismatches intent payment require_idempotency_key with
  | [] => Ok tt
  | mismatches => mismatch (pi_provider intent) (String.concat "; " mismatches)
  end.

Definition validate_provider_route (intent : PaymentIntentRow) (provider : PaymentProvider) : outcome exn unit :=
  if negb (String.eqb (pv_name provider) (pi_provider intent)) then
    mismatch (pv_name provider) ("adapter " +:+ py_repr (pv_name provider) +:+ " cannot process intent for "
                                 +:+ py_repr (pi_provider intent))
  else Ok tt.

Definition binding_mismatches (authorization : AuthorizationRow) (transaction : BoundTransaction)
    (intent : PaymentIntentRow) (event : OutboxEventRow) : list string :=
  let check (ok : bool) name := if ok then [] else [name] in
  check (bool_decide (au_mission_id authorization = pi_mission_id intent)) "mission_id"
  ++ check (bool_decide (au_authorization_id authorization = pi_authorization_id intent)) "authorization_id"
  ++ check (String.eqb (au_transaction_digest authorization) (pi_transaction_digest intent)) "transaction_digest"
  ++ check (String.eqb (bt_merchant_id transaction) (pi_merchant_id intent)) "merchant_id"
  ++ check (bt_amount_inr transaction =? pi_amount_inr intent) "amount_inr"
  ++ check (String.eqb (bt_currency transaction) (pi_currency intent)) "currency"
  ++ check (bool_decide (ob_payment_intent_id event = pi_id intent)) "outbox.payment_intent_id".

Section Executor.
Context `{Env}.

Definition apply_mission_state (mission_id : uuid) (target : MissionState) : P unit :=
  move_mission mission_id target;; mret tt.

Definition apply_payment_transition (intent : uuid) (target : PaymentIntentState) (event_type : EventType)
    (payload : json_obj) (reason_code : option string) : P unit :=
  row ← get_intent intent;
  PaymentFSM.assert_payment_transition (pi_state row) target;;
  write_intent intent (set_pi_last_reason_code reason_code (set_pi_state target row));;
  append_event (pi_mission_id row) event_type ACTOR
    (py_dict ([("payment_intent_id", JStr (str_uuid (pi_id row))); ("state", JStr (enum_value target))]
              ++ payload ++ [("reason_code", jstr_opt reason_code)]));;
  mret tt.

Definition verify_intent_authorization_before_provider_io (intent event : uuid) (now : datetime) : P unit :=
  row ← get_intent intent;
  authorization ← reload (pi_authorization_id row);
  match authorization with
  | None => auth_failure AuthorizationNotFound (pi_authorization_id row) "authorization no longer exists"
  | Some authorization =>
      transaction ← verify_authorization_for_payment authorization AuthorizationStatus.CONSUMED now;
      event ← get_outbox event;
      match binding_mismatches authorization transaction row event with
      | [] => mret tt
      | mismatches =>
          auth_failure TransactionBindingFailure (au_authorization_id authorization)
            ("durable payment intent disagrees with authorization: " +:+ String.concat ", " mismatches)
      end
  end.

Definition apply_provider_payment (intent : uuid) (payment : ProviderPayment) (now : option datetime)
    : P PaymentIntentState :=
  moment ← moment_of now;
  row ← get_intent intent;
  let current := pi_state row in
  let target := provider_status_to_state (pp_status payment) in
  lift (validate_provider_payment row payment (is_none (pi_provider_payment_id row)));;
  link_provider_payment intent payment;;
  if bool_decide (current = target) || PaymentFSM.is_terminal current then mret current
  else
    (match target with
     | PaymentIntentState.SUCCEEDED =>
         apply_payment_transition intent target EventType.PAYMENT_SUCCEEDED
           (py_dict ([("provider", JStr (pi_provider row))] ++ provider_evidence_payload payment
            ++ [("amount_inr", JInt (pi_amount_inr row)); ("currency", JStr (pi_currency row));
                ("settled_at", JStr (isoformat moment))])) None;;
         apply_mission_state (pi_mission_id row) MissionState.PAYMENT_SUCCEEDED
     | PaymentIntentState.FAILED_TERMINAL =>
         apply_payment_transition intent target EventType.PAYMENT_FAILED
           ([("provider", JStr (pi_provider row))] ++ provider_evidence_payload payment)
           (Some (enum_value ReasonCode.PROVIDER_TERMINAL_FAILURE));;
         apply_mission_state (pi_mission_id row) MissionState.PAYMENT_FAILED
     | _ =>
         apply_payment_transition intent PaymentIntentState.PROVIDER_PENDING
           EventType.PAYMENT_PROVIDER_UNCERTAIN
           ([("provider", JStr (pi_provider row))] ++ provider_evidence_payload payment
            ++ [("provider_state", JStr (enum_value (pp_status payment)))]) None
     end);;
    row' ← get_intent intent;
    mret (pi_state row').

Definition remember_provider_ambiguity (intent : uuid) (now : datetime) : P unit :=
  update_intent intent (λ r,
    set_pi_last_reason_code (Some (enum_value ReasonCode.PROVIDER_AMBIGUITY))
      (if is_none (pi_provider_ambiguity_observed_at r)
       then set_pi_provider_ambiguity_observed_at (Some now) r else r)).

Definition mark_uncertain (intent : uuid) (detail : string) (now : datetime) (reason_code : string)
    (timed_out : bool) : P unit :=
  row0 ← get_intent intent;
  let observed_reason_code := reason_code in
  let ambiguous := String.eqb reason_code (enum_value ReasonCode.PROVIDER_AMBIGUITY)
                   || is_some (pi_provider_ambiguity_observed_at row0) in
  (if ambiguous then remember_provider_ambiguity intent now else mret tt);;
  let reason_code := if ambiguous then enum_value ReasonCode.PROVIDER_AMBIGUITY else reason_code in
  row ← get_intent intent;
  (if timed_out then
     append_event (pi_mission_id row) EventType.PAYMENT_PROVIDER_TIMEOUT ACTOR
       [("payment_intent_id", JStr (str_uuid (pi_id row)));
        ("reason_code", JStr observed_reason_code);
        ("provider", JStr (pi_provider row));
        ("detail", JStr detail);
        ("provider_ambiguity_remains", JBool (is_some (pi_provider_ambiguity_observed_at row)))];;
     mret tt
   else mret tt);;
  let payload :=
    [("provider", JStr (pi_provider row));
     ("provider_payment_may_exist", JBool true);
     ("resolution", JStr "reconciliation");
     ("provider_create_fenced", JBool (is_some (pi_provider_create_fenced_at row)));
     ("provider_ambiguity_observed", JBool (is_some (pi_provider_ambiguity_observed_at row)));
     ("replacement_create_permitted",
       if is_some (pi_provider_create_fenced_at row) then JBool false else JNull);
     ("detail", JStr detail)] in
  (if bool_decide (pi_state row = PaymentIntentState.PROVIDER_PENDING) then
     update_intent intent (set_pi_last_reason_code (Some reason_code));;
     append_event (pi_mission_id row) EventType.PAYMENT_PROVIDER_UNCERTAIN ACTOR
       (py_dict ([("payment_intent_id", JStr (str_uuid (pi_id row)));
                  ("state", JStr (enum_value PaymentIntentState.PROVIDER_PENDING))]
                 ++ payload ++ [("reason_code", JStr reason_code)]));;
     mret tt
   else
     apply_payment_transition intent PaymentIntentState.PROVIDER_PENDING
       EventType.PAYMENT_PROVIDER_UNCERTAIN payload (Some reason_code));;
  enqueue_outbox_event (pi_id row) OutboxEventType.PAYMENT_RECONCILE_REQUESTED
    [("idempotency_key", JStr (pi_idempotency_key row))] (Some now) DEFAULT_MAX_ATTEMPTS;;
  mret tt.

Definition record_payment_attempt (intent : uuid) (provider_create_invoked recovered_existing : bool) : P unit :=
  row0 ← get_intent intent;
  (if bool_decide (pi_state row0 = PaymentIntentState.FAILED_RETRYABLE)
   then move_intent intent PaymentIntentState.QUEUED else mret tt);;
  row ← get_intent intent;
  if negb (bool_decide (pi_state row = PaymentIntentState.QUEUED)) then mret tt
  else
    apply_payment_transition intent PaymentIntentState.PROCESSING EventType.PAYMENT_ATTEMPTED
      [("provider", JStr (pi_provider row));
       ("attempt", JInt (pi_attempts row + 1));
       ("provider_create_invoked", JBool provider_create_invoked);
       ("recovered_existing_provider_payment", JBool recovered_existing)] None;;
    update_intent intent (λ r, set_pi_attempts (pi_attempts r + 1) r).

(** [enqueue_outbox_event(..., PAYMENT_RECONCILE_REQUESTED, ...)]. *)
Definition enqueue_reconcile (intent : uuid) (now : datetime) : P unit :=
  row ← get_intent intent;
  enqueue_outbox_event (pi_id row) OutboxEventType.PAYMENT_RECONCILE_REQUESTED
    [("idempotency_key", JStr (pi_idempotency_key row))] (Some now) DEFAULT_MAX_ATTEMPTS;;
  mret tt.

(** [_mark_uncertain(...); complete_event(...); return PROVIDER_PENDING]. *)
Definition leave_uncertain (intent event : uuid) (detail : string) (now : datetime) (reason_code : string)
    (timed_out : bool) : P DispatchResult :=
  mark_uncertain intent detail now reason_code timed_out;;
  complete_event event (Some now);;
  mret still_uncertain.

Definition finish_existing_before_create (intent event : uuid) (existing : ProviderPayment) (now : datetime)
    : P DispatchResult :=
  row ← get_intent intent;
  if is_some (pi_provider_ambiguity_observed_at row) then
    leave_uncertain intent event
      "one Order is currently visible, but multiple exact Orders were observed previously; automatic adoption remains prohibited"
      now (enum_value ReasonCode.PROVIDER_AMBIGUITY) false
  else
    settled ← on_mismatch
      (lift (validate_provider_payment row existing true);;
       record_payment_attempt intent false true;;
       state ← apply_provider_payment intent existing (Some now);
       mret (inr state))
      (λ err, result ← leave_uncertain intent event (pe_detail err) now (provider_error_code (pe_kind err)) false;
              mret (inl result));
    match settled with
    | inl result => mret result
    | inr state =>
        append_event (pi_mission_id row) EventType.PAYMENT_RECONCILED ACTOR
          (py_dict ([("payment_intent_id", JStr (str_uuid (pi_id row))); ("provider", JStr (pi_provider row))]
            ++ provider_evidence_payload existing
            ++ [("state", JStr (enum_value state)); ("recovered_before_create", JBool true);
                ("provider_create_fenced", JBool (is_some (pi_provider_create_fenced_at row)))]));;
        (if bool_decide (state = PaymentIntentState.PROVIDER_PENDING) then enqueue_reconcile intent now else mret tt);;
        complete_event event (Some now);;
        mret (mkDispatchResult state true (bool_decide (state = PaymentIntentState.PROVIDER_PENDING)))
    end.

Definition recover_fenced_create (provider : PaymentProvider) (intent event : uuid) (now : datetime)
    : P DispatchResult :=
  verify_intent_authorization_before_provider_io intent event now;;
  row ← get_intent intent;
  found ← attempt_lookup (call_get_payment provider None (Some (pi_idempotency_key row)));
  match found with
  | inl lookup_error =>
      leave_uncertain intent event ("fenced create recovery lookup failed: " +:+ pe_detail lookup_error) now
        (provider_error_code (pe_kind lookup_error)) (bool_decide (pe_kind lookup_error = ProviderTimeout))
  | inr (Some existing) => finish_existing_before_create intent event existing now
  | inr None =>
      leave_uncertain intent event "create permission is fenced and receipt search found no Order" now
        (enum_value ReasonCode.PROVIDER_CREATE_FENCED) false
  end.

(** The one-way compare-and-set, committed whether or not it won. *)
Definition fence_update (intent : uuid) (now : datetime) : P bool :=
  d ← read_db;
  match db_intents d !! intent with
  | Some r =>
      if bool_decide (pi_state r = PaymentIntentState.QUEUED) && is_none (pi_provider_create_fenced_at r)
      then write_intent intent (set_pi_provider_create_fenced_at (Some now) r);; mret true
      else mret false
  | None => mret false
  end.
Definition acquire_provider_create_fence (intent : uuid) (now : datetime) : P bool :=
  fence_acquired ← fence_update intent now;
  commit;;
  mret fence_acquired.

Definition audit_retry (intent : uuid) (retried : bool) (event : uuid) : P unit :=
  row ← get_intent intent;
  ev ← get_outbox event;
  append_event (pi_mission_id row)
    (if retried then EventType.PAYMENT_RETRY_SCHEDULED else EventType.OUTBOX_EVENT_DEAD_LETTERED) ACTOR
    [("payment_intent_id", JStr (str_uuid (pi_id row)));
     ("outbox_event_id", JStr (str_uuid (ob_id ev)));
     ("attempts", JInt (ob_attempts ev));
     ("max_attempts", JInt (ob_max_attempts ev));
     ("available_at", JStr (isoformat (as_utc (ob_available_at ev))))];;
  mret tt.

(** ** [dispatch_create] *)
Inductive Admission : Type := Finished (result : DispatchResult) | MayCreate (moment : datetime).

Definition admit_create (capabilities : CapabilitySet) (provider : PaymentProvider) (intent event : uuid)
    (now : option datetime) : P Admission :=
  enforce_registered capabilities Capability.PAYMENT_EXECUTE;;
  row ← lock_payment_intent intent;
  moment ← moment_of now;
  let current := pi_state row in
  lift (validate_provider_route row provider);;
  if PaymentFSM.is_terminal current then
    complete_event event (Some moment);;
    mret (Finished (mkDispatchResult current false false))
  else if negb (pv_create_retries_are_idempotent provider) && is_some (pi_provider_create_fenced_at row) then
    result ← recover_fenced_create provider intent event moment;
    mret (Finished result)
  else if bool_decide (current = PaymentIntentState.PROVIDER_PENDING) then
    enqueue_reconcile intent moment;;
    complete_event event (Some moment);;
    mret (Finished (mkDispatchResult current false true))
  else
    (if bool_decide (current = PaymentIntentState.FAILED_RETRYABLE)
     then move_intent intent PaymentIntentState.QUEUED else mret tt);;
    let current := if bool_decide (current = PaymentIntentState.FAILED_RETRYABLE)
                   then PaymentIntentState.QUEUED else current in
    if negb (bool_decide (current = PaymentIntentState.QUEUED))
    then raise (IllegalPaymentTransition current PaymentIntentState.PROCESSING)
    else
      verify_intent_authorization_before_provider_io intent event moment;;
      mret (MayCreate moment).

(** After the fence's commit: only its winner goes on. *)
Definition after_fence (provider : PaymentProvider) (intent event : uuid) (moment : datetime)
    (fence_acquired : bool) : P (option DispatchResult) :=
  row ← lock_payment_intent intent;
  lift (validate_provider_route row provider);;
  if is_none (pi_provider_create_fenced_at row) then raise (RuntimeError "provider create fence was not durable")
  else if negb fence_acquired || negb (bool_decide (pi_state row = PaymentIntentState.QUEUED)) then
    result ← recover_fenced_create provider intent event moment;
    mret (Some result)
  else
    verify_intent_authorization_before_provider_io intent event moment;;
    mret None.

(** What follows the call that created. *)
Definition settle_create (provider : PaymentProvider) (intent event : uuid) (moment : datetime)
    (outcome : ProviderError + ProviderPayment) : P DispatchResult :=
  row ← lock_payment_intent intent;
  record_payment_attempt intent true false;;
  match outcome with
  | inl error =>
      match pe_kind error with
      | ProviderTimeout =>
          leave_uncertain intent event (pe_detail error) moment
            (enum_value ReasonCode.PAYMENT_PROVIDER_TIMEOUT) true
      | ProviderTransientError | ProviderAmbiguity =>
          if negb (pv_create_retries_are_idempotent provider) then
            leave_uncertain intent event
              "provider refused the fenced create transiently; automatic create retry remains prohibited"
              moment (provider_error_code (pe_kind error)) false
          else
            apply_payment_transition intent PaymentIntentState.FAILED_RETRYABLE EventType.PAYMENT_FAILED
              [("provider", JStr (pi_provider row)); ("retryable", JBool true)]
              (Some (enum_value ReasonCode.PROVIDER_TRANSIENT_FAILURE));;
            retried ← reschedule_event event (u (pe_detail error)) (Some moment) None;
            audit_retry intent retried event;;
            mret (mkDispatchResult PaymentIntentState.FAILED_RETRYABLE true retried)
      | _ =>
          apply_payment_transition intent PaymentIntentState.FAILED_TERMINAL EventType.PAYMENT_FAILED
            [("provider", JStr (pi_provider row)); ("retryable", JBool false);
             ("detail", JStr (pe_detail error))]
            (Some (enum_value ReasonCode.PROVIDER_TERMINAL_FAILURE));;
          apply_mission_state (pi_mission_id row) MissionState.PAYMENT_FAILED;;
          complete_event event (Some moment);;
          mret (mkDispatchResult PaymentIntentState.FAILED_TERMINAL true false)
      end
  | inr payment =>
      settled ← on_mismatch
        (row ← get_intent intent;
         lift (validate_provider_payment row payment true);;
         state ← apply_provider_payment intent payment (Some moment);
         mret (inr state))
        (λ err, result ← leave_uncertain intent event (pe_detail err) moment
                           (provider_error_code (pe_kind err)) false;
                mret (inl result));
      match settled with
      | inl result => mret result
      | inr state =>
          (if bool_decide (state = PaymentIntentState.PROVIDER_PENDING)
           then enqueue_reconcile intent moment else mret tt);;
          complete_event event (Some moment);;
          mret (mkDispatchResult state true (bool_decide (state = PaymentIntentState.PROVIDER_PENDING)))
      end
  end.

Definition create_request (row : PaymentIntentRow) : PaymentRequest :=
  mkPaymentRequest (pi_idempotency_key row) (pi_amount_inr row) (pi_currency row) (pi_merchant_id row)
    (digest_prefix (pi_transaction_digest row)).

(** The receipt search and, if it finds nothing, the create call. *)
Definition send_create (provider : PaymentProvider) (intent event : uuid) (moment : datetime)
    : P DispatchResult :=
  row ← get_intent intent;
  request ← lift (PaymentRequest_new (create_request row));
  found ← attempt_lookup (call_get_payment provider None (Some (pi_idempotency_key row)));
  match found with
  | inl lookup_error =>
      leave_uncertain intent event ("pre-create lookup failed: " +:+ pe_detail lookup_error) moment
        (provider_error_code (pe_kind lookup_error)) (bool_decide (pe_kind lookup_error = ProviderTimeout))
  | inr (Some existing) => finish_existing_before_create intent event existing moment
  | inr None =>
      verify_intent_authorization_before_provider_io intent event moment;;
      outcome ← attempt_create (call_create_payment provider request);
      settle_create provider intent event moment outcome
  end.

Definition dispatch_create (capabilities : CapabilitySet) (provider : PaymentProvider) (intent event : uuid)
    (now : option datetime) : P DispatchResult :=
  admission ← admit_create capabilities provider intent event now;
  match admission with
  | Finished result => mret result
  | MayCreate moment =>
      if pv_create_retries_are_idempotent provider then send_create provider intent event moment
      else
        fence_acquired ← acquire_provider_create_fence intent moment;
        recovered ← after_fence provider intent event moment fence_acquired;
        match recovered with
        | Some result => mret result
        | None => send_create provider intent event moment
        end
  end.
End Executor.

(** ** Every operation moves forward *)
Lemma evolves_attempt_lookup {A} R `{!PreOrder R} (m : P A) : evolves R m → evolves R (attempt_lookup m).
Proof. intros Hm. unfold attempt_lookup. evolve. Qed.
Lemma evolves_attempt_create {A} R `{!PreOrder R} (m : P A) : evolves R m → evolves R (attempt_create m).
Proof. intros Hm. unfold attempt_create. evolve. Qed.
Lemma evolves_on_mismatch {A} R `{!PreOrder R} (m : P A) h :
  evolves R m → (∀ e, evolves R (h e)) → evolves R (on_mismatch m h).
Proof. intros Hm Hh. unfold on_mismatch. evolve. Qed.

Lemma evolves_lock R `{!PreOrder R} i : evolves R (lock_payment_intent i).
Proof. unfold lock_payment_intent. evolve. Qed.
#[export] Hint Resolve evolves_lock : evolves.

Lemma evolves_move_intent i t : evolves sess_le (move_intent i t).
Proof.
  unfold move_intent.
  assert (E : ∀ w, (row ← get_intent i; PaymentFSM.assert_payment_transition (pi_state row) t;;
      write_intent i (set_pi_state t row)) w
    = (row ← get_intent i; PaymentFSM.assert_payment_transition (pi_state row) t;;
       write_intent i (set_pi_state t row);; mret tt) w).
  { intros w. unfold mbind, M_bind. destruct (get_intent i w) as [[r|e] w1]; [|done].
    destruct (PaymentFSM.assert_payment_transition _ _ w1) as [[[]|e] w2]; [|done].
    by destruct (write_intent i _ w2) as [[[]|e] w3]. }
  intros w. rewrite E. revert w. apply (evolves_intent_transition i t (λ r, r) (λ _, mret tt)).
  - reflexivity.
  - intros r. evolve.
Qed.

(** ** Linking, on the row object *)
Lemma evolves_assign_once getattr setattr v label :
  (∀ r x, getattr r = None → intent_le r (setattr (Some x) r)) →
  evolves intent_le (assign_once getattr setattr v label).
Proof.
  intros Hs r. unfold assign_once. destruct v as [v|]; cbn; [|reflexivity].
  unfold mbind, M_bind, gets. destruct (getattr r) as [x|] eqn:E; [|by apply Hs].
  destruct (String.eqb x v); cbn; reflexivity.
Qed.
Lemma evolves_link_attributes p : evolves intent_le (link_attributes p).
Proof.
  unfold link_attributes.
  repeat (apply (evolves_bind intent_le); [|intros _]);
    try (apply evolves_assign_once; intros r x Hx; constructor; cbn; try done; try (by left); by right).
  - destruct (bool_decide _); [|apply evolves_ret; apply _].
    apply evolves_assign_once; intros r x Hx; constructor; cbn; try done; try (by left); by right.
  - apply evolves_modify. intros r. destruct (pp_provider_status p); [|reflexivity].
    constructor; cbn; try done; by right.
  - apply evolves_modify. intros r. destruct (pp_provider_attempts p); [|reflexivity].
    constructor; cbn; try done; by right.
Qed.
Lemma evolves_on_object {A} i (m : M PaymentIntentRow exn A) : evolves intent_le m → evolves sess_le (on_object i m).
Proof.
  intros Hm w. unfold on_object. unfold mbind at 1, M_bind at 1, get_intent.
  unfold mbind at 1, M_bind at 1, read_db, reads, gets.
  destruct (db_intents (w_db w) !! i) as [r|] eqn:E; cbn [mret M_ret raise snd]; [|reflexivity].
  specialize (Hm r). destruct (m r) as [o r']. cbn [snd] in Hm. unfold mbind, M_bind.
  case_bool_decide; cbn [mret M_ret lift snd]; [reflexivity|].
  assert (Hw : sess_le w (snd (write_intent i r' w))) by (apply write_intent_le; unfold replaces; by rewrite E).
  destruct (write_intent i r' w) as [[[]|e] w']; exact Hw.
Qed.
Lemma evolves_link i p : evolves sess_le (link_provider_payment i p).
Proof. apply evolves_on_object, evolves_link_attributes. Qed.
#[export] Hint Resolve evolves_move_intent evolves_link : evolves.

Section Evolves.
Context `{Env}.

#[local] Hint Resolve evolves_move_mission : evolves.
Lemma evolves_apply_mission_state m t : evolves sess_le (apply_mission_state m t).
Proof. unfold apply_mission_state. evolve. Qed.
Lemma evolves_apply_transition i t ev p r : evolves sess_le (apply_payment_transition i t ev p r).
Proof.
  unfold apply_payment_transition.
  apply (evolves_intent_transition i t (set_pi_last_reason_code r) (λ row,
    append_event (pi_mission_id row) ev ACTOR _;; mret tt)).
  - intros row. constructor; cbn; try done; by right.
  - intros row. evolve.
Qed.
Lemma evolves_verify_io i e now : evolves sess_le (verify_intent_authorization_before_provider_io i e now).
Proof. unfold verify_intent_authorization_before_provider_io, reload. evolve. Qed.
Hint Resolve evolves_apply_mission_state evolves_apply_transition evolves_verify_io : evolves.
Lemma evolves_apply_provider_payment i p now : evolves sess_le (apply_provider_payment i p now).
Proof. unfold apply_provider_payment. cbv zeta. evolve. Qed.
Lemma evolves_remember i now : evolves sess_le (remember_provider_ambiguity i now).
Proof.
  unfold remember_provider_ambiguity. apply evolves_update_intent. intros r.
  destruct (pi_provider_ambiguity_observed_at r) eqn:E; cbn [is_none is_some negb];
    constructor; cbn; try done; try (by right). by left.
Qed.
Lemma intent_le_reason v r : intent_le r (set_pi_last_reason_code v r).
Proof. constructor; cbn; try done; by right. Qed.
Lemma evolves_set_reason i v : evolves sess_le (update_intent i (set_pi_last_reason_code v)).
Proof. apply evolves_update_intent, intent_le_reason. Qed.
Hint Resolve evolves_apply_provider_payment evolves_remember evolves_set_reason : evolves.
Lemma evolves_mark_uncertain i d now r t : evolves sess_le (mark_uncertain i d now r t).
Proof. unfold mark_uncertain. cbv zeta. evolve. Qed.
Lemma evolves_count_attempt i : evolves sess_le (update_intent i (λ r, set_pi_attempts (pi_attempts r + 1) r)).
Proof. apply evolves_update_intent. intros r. constructor; cbn; try done; try (by right). lia. Qed.
Hint Resolve evolves_mark_uncertain evolves_count_attempt : evolves.
Lemma evolves_record_attempt i a b : evolves sess_le (record_payment_attempt i a b).
Proof. unfold record_payment_attempt. evolve. Qed.
Lemma evolves_enqueue_reconcile i now : evolves sess_le (enqueue_reconcile i now).
Proof. unfold enqueue_reconcile. evolve. Qed.
Lemma evolves_leave_uncertain i e d now r t : evolves sess_le (leave_uncertain i e d now r t).
Proof. unfold leave_uncertain. evolve. Qed.
Hint Resolve evolves_record_attempt evolves_enqueue_reconcile evolves_leave_uncertain : evolves.
Lemma evolves_finish_existing i e p now : evolves sess_le (finish_existing_before_create i e p now).
Proof. unfold finish_existing_before_create. evolve. apply evolves_on_mismatch; [apply _|evolve|intros err; evolve]. Qed.
Lemma evolves_audit_retry i r e : evolves sess_le (audit_retry i r e).
Proof. unfold audit_retry. evolve. Qed.
Hint Resolve evolves_finish_existing evolves_audit_retry : evolves.
Lemma evolves_settle p i e now o : evolves sess_le (settle_create p i e now o).
Proof. unfold settle_create. evolve. apply evolves_on_mismatch; [apply _|evolve|intros err; evolve]. Qed.
Hint Resolve evolves_settle : evolves.

(** The pieces that call the provider or commit. *)
Lemma durable_recover p i e now : evolves durable_le (recover_fenced_create p i e now).
Proof. unfold recover_fenced_create. evolve. apply evolves_attempt_lookup; [apply _|]. evolve. Qed.
Hint Resolve durable_recover : evolves.
Lemma durable_admit c p i e now : evolves durable_le (admit_create c p i e now).
Proof. unfold admit_create. cbv zeta. evolve. Qed.
Hint Resolve durable_admit : evolves.
Lemma evolves_fence_update i now : evolves sess_le (fence_update i now).
Proof.
  intros w. unfold fence_update, mbind at 1, M_bind at 1, read_db, reads, gets.
  destruct (db_intents (w_db w) !! i) as [r|] eqn:E; [|reflexivity].
  destruct (_ && _) eqn:Eb; [|reflexivity]. apply andb_true_iff in Eb as [_ Ef%is_none_true].
  assert (Hw : sess_le w (snd (write_intent i (set_pi_provider_create_fenced_at (Some now) r) w))).
  { apply write_intent_le. unfold replaces. rewrite E. constructor; cbn; try done; try (by right). by left. }
  unfold mbind, M_bind. destruct (write_intent _ _ w) as [[[]|e] w']; exact Hw.
Qed.
Hint Resolve evolves_fence_update : evolves.
Lemma durable_acquire i now : evolves durable_le (acquire_provider_create_fence i now).
Proof. unfold acquire_provider_create_fence. evolve. Qed.
Lemma durable_after_fence p i e m b : evolves durable_le (after_fence p i e m b).
Proof. unfold after_fence. evolve. Qed.
Lemma durable_send p i e m : evolves durable_le (send_create p i e m).
Proof.
  unfold send_create. evolve;
    first [apply evolves_attempt_lookup; [apply _|]; evolve | apply evolves_attempt_create; [apply _|]; evolve].
Qed.
Hint Resolve durable_acquire durable_after_fence durable_send : evolves.
Lemma durable_dispatch c p i e now : evolves durable_le (dispatch_create c p i e now).
Proof. unfold dispatch_create. evolve. Qed.
End Evolves.
#[export] Hint Resolve evolves_apply_mission_state evolves_apply_transition evolves_verify_io
  evolves_apply_provider_payment evolves_remember evolves_set_reason evolves_mark_uncertain
  evolves_count_attempt evolves_record_attempt evolves_enqueue_reconcile evolves_leave_uncertain
  evolves_finish_existing evolves_audit_retry evolves_settle durable_recover durable_admit durable_acquire
  durable_after_fence durable_send durable_dispatch : evolves.

(** ** What a guarded transition did *)
Section TransitionRuns.
Context `{Env}.

Lemma assert_payment_Ok c t (w : World) (x : unit) w' :
  PaymentFSM.assert_payment_transition c t w = (Ok x, w') → PaymentFSM.can_transition c t = true ∧ w' = w.
Proof. rewrite assert_payment_transition_cases. destruct (PaymentFSM.can_transition c t); [|done]. by intros [= _ <-]. Qed.

Lemma apply_payment_transition_Ok i t ev p rc w x w' :
  apply_payment_transition i t ev p rc w = (Ok x, w') →
  ∃ r l, db_intents (w_db w) !! i = Some r ∧ PaymentFSM.can_transition (pi_state r) t = true ∧
    w_db w' = set_db_audit l (set_db_intents
      (<[i := set_pi_last_reason_code rc (set_pi_state t r)]> (db_intents (w_db w))) (w_db w)).
Proof.
  unfold apply_payment_transition. intros E. run_step E. apply get_intent_Ok in Hrun as [Hr ->].
  run_step E. apply assert_payment_Ok in Hrun as [Hc ->]. run_step E. apply write_intent_Ok in Hrun as [_ ->].
  run_step E. apply append_event_db in Hrun as [l Hl]. apply ret_run_Ok in E as [_ ->].
  exists a, l. by split_and!.
Qed.

Lemma apply_mission_state_db m t w : ∃ mm, snd (apply_mission_state m t w)
  = set_w_db (set_db_missions mm (w_db w)) w ∧ fst (apply_mission_state m t w) = Ok tt.
Proof.
  unfold apply_mission_state, mbind, M_bind. destruct (move_mission_run m t w) as (b & ->).
  eexists. split; reflexivity.
Qed.
End TransitionRuns.
