(* ===== verification/Reconciliation.v ===== *)
(** * Reconciliation

    services/payment_executor/reconciliation.py: what an uncertain payment becomes
    once the provider has been asked what it holds for the idempotency key.  Each
    early return of [reconcile_intent] is a definition of its own. *)
From S2P Require Import Prelude Python PyFloat Json Text Enums Errors Firewall Canonical Transaction.
From S2P Require Import StateMachines Merchant Kernel Policy Payment Database Hashing Evolution Ledger.
From S2P Require Import Binding Authorization AuthorizationTheorems Outbox Intents Provider Executor.

Section Reconciliation.
Context `{Env}.

Definition retry_event_type (retried : bool) : EventType :=
  if retried then EventType.PAYMENT_RETRY_SCHEDULED else EventType.OUTBOX_EVENT_DEAD_LETTERED.

(** The audit event that follows a reschedule. *)
Definition audit_reschedule (intent event : uuid) (retried : bool) (reason_code phase : string) : P unit :=
  row ← get_intent intent;
  ev ← get_outbox event;
  append_event (pi_mission_id row) (retry_event_type retried) ACTOR
    [("payment_intent_id", JStr (str_uuid (pi_id row)));
     ("outbox_event_id", JStr (str_uuid (ob_id ev)));
     ("reason_code", JStr reason_code);
     ("phase", JStr phase)];;
  mret tt.

(** [if current != PROVIDER_PENDING: apply_payment_transition(...) else: ...]. *)
Definition become_uncertain (intent : uuid) (current : PaymentIntentState) (payload : json_obj)
    (reason_code : string) (otherwise : P unit) : P unit :=
  if negb (bool_decide (current = PaymentIntentState.PROVIDER_PENDING)) then
    apply_payment_transition intent PaymentIntentState.PROVIDER_PENDING EventType.PAYMENT_PROVIDER_UNCERTAIN
      payload (Some reason_code)
  else otherwise.

(** [except ProviderError as error]. *)
Definition lookup_failed (intent event : uuid) (current : PaymentIntentState) (error : ProviderError)
    (moment : datetime) : P DispatchResult :=
  row ← get_intent intent;
  let ambiguity := bool_decide (pe_kind error = ProviderAmbiguity) in
  (if ambiguity then
     remember_provider_ambiguity intent moment;;
     become_uncertain intent current
       [("provider", JStr (pi_provider row)); ("provider_ambiguity_observed", JBool true);
        ("replacement_create_permitted", JBool false); ("detail", JStr (pe_detail error))]
       (enum_value ReasonCode.PROVIDER_AMBIGUITY)
       (append_event (pi_mission_id row) EventType.PAYMENT_PROVIDER_UNCERTAIN ACTOR
          [("payment_intent_id", JStr (str_uuid (pi_id row))); ("state", JStr (enum_value current));
           ("provider", JStr (pi_provider row)); ("provider_ambiguity_observed", JBool true);
           ("replacement_create_permitted", JBool false); ("detail", JStr (pe_detail error));
           ("reason_code", JStr (enum_value ReasonCode.PROVIDER_AMBIGUITY))];;
        mret tt)
   else mret tt);;
  let current := if ambiguity then PaymentIntentState.PROVIDER_PENDING else current in
  retried ← reschedule_event event (u (pe_detail error)) (Some moment) None;
  audit_reschedule intent event retried (provider_error_code (pe_kind error)) "reconciliation";;
  mret (mkDispatchResult current true retried).

(** [if intent.provider_ambiguity_observed_at is not None]. *)
Definition ambiguity_remains (intent event : uuid) (current : PaymentIntentState)
    (payment : option ProviderPayment) (moment : datetime) : P DispatchResult :=
  row ← get_intent intent;
  become_uncertain intent current
    [("provider", JStr (pi_provider row)); ("provider_ambiguity_observed", JBool true);
     ("replacement_create_permitted", JBool false); ("resolution", JStr "operator_review")]
    (enum_value ReasonCode.PROVIDER_AMBIGUITY) (remember_provider_ambiguity intent moment);;
  retried ← reschedule_event event (u "known provider ambiguity remains unresolved") (Some moment) None;
  append_event (pi_mission_id row) EventType.PAYMENT_RECONCILED ACTOR
    (py_dict ([("payment_intent_id", JStr (str_uuid (pi_id row))); ("provider", JStr (pi_provider row));
      ("reason_code", JStr (enum_value ReasonCode.PROVIDER_AMBIGUITY));
      ("provider_ambiguity_observed", JBool true);
      ("current_search_result",
        JStr (if is_none payment then "no_exact_match" else "one_exact_candidate"))]
     ++ match payment with None => [] | Some p => provider_evidence_payload p end
     ++ [("candidate_adopted", JBool false); ("replacement_create_permitted", JBool false);
         ("manual_recovery_required", JBool true)]));;
  mret (mkDispatchResult PaymentIntentState.PROVIDER_PENDING true retried).

(** A linked reference the provider no longer finds. *)
Definition linked_not_found (intent event : uuid) (current : PaymentIntentState) (moment : datetime)
    : P DispatchResult :=
  row ← get_intent intent;
  retried ← reschedule_event event (u "linked provider reference was not found") (Some moment) None;
  append_event (pi_mission_id row) EventType.PAYMENT_RECONCILED ACTOR
    [("payment_intent_id", JStr (str_uuid (pi_id row))); ("provider", JStr (pi_provider row));
     ("provider_payment_id", jstr_opt (pi_provider_payment_id row));
     ("reason_code", JStr (enum_value ReasonCode.PROVIDER_PAYMENT_NOT_FOUND));
     ("linked_provider_reference_unresolved", JBool true);
     ("replacement_create_permitted", JBool false)];;
  audit_reschedule intent event retried (enum_value ReasonCode.PROVIDER_PAYMENT_NOT_FOUND)
    "linked-reference-reconciliation";;
  mret (mkDispatchResult current true retried).

(** A fenced create the provider shows nothing for. *)
Definition fenced_not_found (intent event : uuid) (current : PaymentIntentState) (moment : datetime)
    : P DispatchResult :=
  row ← get_intent intent;
  become_uncertain intent current
    [("provider", JStr (pi_provider row)); ("provider_create_fenced", JBool true);
     ("provider_payment_may_exist", JBool true); ("replacement_create_permitted", JBool false);
     ("resolution", JStr "reconciliation_or_operator_review")]
    (enum_value ReasonCode.PROVIDER_CREATE_FENCED)
    (update_intent intent (set_pi_last_reason_code (Some (enum_value ReasonCode.PROVIDER_CREATE_FENCED))));;
  retried ← reschedule_event event (u "fenced create has no visible provider Order") (Some moment) None;
  append_event (pi_mission_id row) EventType.PAYMENT_RECONCILED ACTOR
    [("payment_intent_id", JStr (str_uuid (pi_id row))); ("provider", JStr (pi_provider row));
     ("reason_code", JStr (enum_value ReasonCode.PROVIDER_CREATE_FENCED));
     ("provider_search_found_no_match", JBool true); ("provider_create_fenced", JBool true);
     ("replacement_create_permitted", JBool false); ("manual_recovery_may_be_required", JBool true)];;
  audit_reschedule intent event retried (enum_value ReasonCode.PROVIDER_CREATE_FENCED)
    "fenced-create-reconciliation";;
  mret (mkDispatchResult PaymentIntentState.PROVIDER_PENDING true retried).

Definition resolve_no_provider_payment (intent event : uuid) (now : datetime) (current : PaymentIntentState)
    : P DispatchResult :=
  row ← get_intent intent;
  append_event (pi_mission_id row) EventType.PAYMENT_RECONCILED ACTOR
    [("payment_intent_id", JStr (str_uuid (pi_id row))); ("provider", JStr (pi_provider row));
     ("reason_code", JStr (enum_value ReasonCode.PROVIDER_PAYMENT_NOT_FOUND));
     ("provider_holds_no_payment", JBool true);
     ("conclusion", JStr "provider create contract makes a same-key retry idempotent")];;
  move_intent intent PaymentIntentState.FAILED_RETRYABLE;;
  update_intent intent (set_pi_last_reason_code (Some (enum_value ReasonCode.PROVIDER_PAYMENT_NOT_FOUND)));;
  enqueue_outbox_event (pi_id row) OutboxEventType.PAYMENT_CREATE_REQUESTED
    [("idempotency_key", JStr (pi_idempotency_key row))] (Some now) DEFAULT_MAX_ATTEMPTS;;
  complete_event event (Some now);;
  append_event (pi_mission_id row) EventType.PAYMENT_RETRY_SCHEDULED ACTOR
    [("payment_intent_id", JStr (str_uuid (pi_id row)));
     ("state", JStr (enum_value PaymentIntentState.FAILED_RETRYABLE));
     ("reason_code", JStr (enum_value ReasonCode.PROVIDER_PAYMENT_NOT_FOUND))];;
  mret (mkDispatchResult PaymentIntentState.FAILED_RETRYABLE true true).

(** The provider holds a payment for the intent. *)
Definition payment_found (intent event : uuid) (current : PaymentIntentState) (payment : ProviderPayment)
    (moment : datetime) : P DispatchResult :=
  row ← get_intent intent;
  let attempts := bool_decide (current ∈ [PaymentIntentState.QUEUED; PaymentIntentState.FAILED_RETRYABLE]) in
  settled ← on_mismatch
    (lift (validate_provider_payment row payment (is_none (pi_provider_payment_id row)));;
     (if attempts then record_payment_attempt intent false true else mret tt);;
     state ← apply_provider_payment intent payment (Some moment);
     mret (inr state))
    (λ err,
     retried ← reschedule_event event (u (pe_detail err)) (Some moment) None;
     audit_reschedule intent event retried (provider_error_code (pe_kind err)) "reconciliation";;
     mret (inl retried));
  match settled with
  | inl retried =>
      row' ← get_intent intent;
      mret (mkDispatchResult
        (if attempts && bool_decide (pi_state row' = PaymentIntentState.PROCESSING)
         then PaymentIntentState.PROCESSING else current) true retried)
  | inr state =>
      append_event (pi_mission_id row) EventType.PAYMENT_RECONCILED ACTOR
        (py_dict ([("payment_intent_id", JStr (str_uuid (pi_id row))); ("provider", JStr (pi_provider row))]
         ++ provider_evidence_payload payment
         ++ [("provider_state", JStr (enum_value (pp_status payment))); ("state", JStr (enum_value state));
             ("resolved_existing_provider_payment", JBool true)]));;
      if bool_decide (state = PaymentIntentState.PROVIDER_PENDING) then
        retried ← reschedule_event event (u "provider payment still pending") (Some moment) None;
        mret (mkDispatchResult state true retried)
      else
        complete_event event (Some moment);;
        mret (mkDispatchResult state true false)
  end.

(** ** [reconcile_intent] *)

(** [UPDATE ... WHERE provider_create_fenced_at IS NULL], and the commit. *)
Definition fence_unfenced (intent : uuid) (moment : datetime) : P unit :=
  d ← read_db;
  match db_intents d !! intent with
  | Some r =>
      if is_none (pi_provider_create_fenced_at r)
      then write_intent intent (set_pi_provider_create_fenced_at (Some moment) r) else mret tt
  | None => mret tt
  end.
Definition consume_create_permission (intent : uuid) (moment : datetime) : P unit :=
  fence_unfenced intent moment;;
  commit.

(** Everything up to the lookup: [None] to go on, or the result to return. *)
Definition admit_reconcile (capabilities : CapabilitySet) (provider : PaymentProvider) (intent event : uuid)
    (now : option datetime) : P (datetime * option DispatchResult) :=
  enforce_registered capabilities Capability.PAYMENT_EXECUTE;;
  row ← lock_payment_intent intent;
  moment ← moment_of now;
  lift (validate_provider_route row provider);;
  if PaymentFSM.is_terminal (pi_state row) then
    complete_event event (Some moment);;
    mret (moment, Some (mkDispatchResult (pi_state row) false false))
  else
    verify_intent_authorization_before_provider_io intent event moment;;
    if negb (pv_create_retries_are_idempotent provider) && is_none (pi_provider_create_fenced_at row) then
      consume_create_permission intent moment;;
      row ← lock_payment_intent intent;
      lift (validate_provider_route row provider);;
      if PaymentFSM.is_terminal (pi_state row) then
        complete_event event (Some moment);;
        mret (moment, Some (mkDispatchResult (pi_state row) false false))
      else
        verify_intent_authorization_before_provider_io intent event moment;;
        mret (moment, None)
    else mret (moment, None).

(** The answer, by cases. *)
Definition conclude (provider : PaymentProvider) (intent event : uuid) (moment : datetime)
    (found : ProviderError + option ProviderPayment) : P DispatchResult :=
  row ← get_intent intent;
  let current := pi_state row in
  match found with
  | inl error => lookup_failed intent event current error moment
  | inr payment =>
      if is_some (pi_provider_ambiguity_observed_at row) then
        ambiguity_remains intent event current payment moment
      else match payment with
      | None =>
          if is_some (pi_provider_payment_id row) then linked_not_found intent event current moment
          else if is_some (pi_provider_create_fenced_at row) && negb (pv_create_retries_are_idempotent provider)
          then fenced_not_found intent event current moment
          else resolve_no_provider_payment intent event moment current
      | Some payment => payment_found intent event current payment moment
      end
  end.

Definition reconcile_intent (capabilities : CapabilitySet) (provider : PaymentProvider) (intent event : uuid)
    (now : option datetime) : P DispatchResult :=
  admission ← admit_reconcile capabilities provider intent event now;
  match admission with
  | (_, Some result) => mret result
  | (moment, None) =>
      row ← get_intent intent;
      found ← attempt_lookup (call_get_payment provider (pi_provider_payment_id row)
                                (Some (pi_idempotency_key row)));
      conclude provider intent event moment found
  end.
End Reconciliation.

(** ** Every operation moves forward *)
Section Evolves.
Context `{Env}.

Lemma evolves_audit_reschedule i e r c ph : evolves sess_le (audit_reschedule i e r c ph).
Proof. unfold audit_reschedule, retry_event_type. evolve. Qed.
Lemma evolves_become i cur p r k : evolves sess_le k → evolves sess_le (become_uncertain i cur p r k).
Proof. intros Hk. unfold become_uncertain. evolve. Qed.
Hint Resolve evolves_audit_reschedule : evolves.
Lemma evolves_lookup_failed i e c err m : evolves sess_le (lookup_failed i e c err m).
Proof. unfold lookup_failed. cbv zeta. evolve; apply evolves_become; evolve. Qed.
Lemma evolves_ambiguity_remains i e c p m : evolves sess_le (ambiguity_remains i e c p m).
Proof. unfold ambiguity_remains. evolve; apply evolves_become; evolve. Qed.
Lemma evolves_linked_not_found i e c m : evolves sess_le (linked_not_found i e c m).
Proof. unfold linked_not_found. evolve. Qed.
Lemma evolves_fenced_not_found i e c m : evolves sess_le (fenced_not_found i e c m).
Proof. unfold fenced_not_found. evolve; apply evolves_become; evolve. Qed.
Lemma evolves_resolve_none i e m c : evolves sess_le (resolve_no_provider_payment i e m c).
Proof. unfold resolve_no_provider_payment. evolve. Qed.
Lemma evolves_payment_found i e c p m : evolves sess_le (payment_found i e c p m).
Proof.
  unfold payment_found. cbv zeta. evolve.
  all: apply evolves_on_mismatch; [apply _|evolve|intros err; evolve].
Qed.
Hint Resolve evolves_lookup_failed evolves_ambiguity_remains evolves_linked_not_found
  evolves_fenced_not_found evolves_resolve_none evolves_payment_found : evolves.
Lemma evolves_conclude p i e m f : evolves sess_le (conclude p i e m f).
Proof. unfold conclude. cbv zeta. evolve. Qed.
Lemma evolves_fence_unfenced i m : evolves sess_le (fence_unfenced i m).
Proof.
  intros w. unfold fence_unfenced, mbind at 1, M_bind at 1, read_db, reads, gets.
  destruct (db_intents (w_db w) !! i) as [r|] eqn:E; [|reflexivity].
  destruct (is_none _) eqn:Ef; [|reflexivity]. apply is_none_true in Ef.
  apply write_intent_le. unfold replaces. rewrite E. constructor; cbn; try done; try (by right). by left.
Qed.
Hint Resolve evolves_conclude evolves_fence_unfenced : evolves.
Lemma durable_consume_permission i m : evolves durable_le (consume_create_permission i m).
Proof. unfold consume_create_permission. evolve. Qed.
Hint Resolve durable_consume_permission : evolves.
Lemma durable_admit_reconcile c p i e now : evolves durable_le (admit_reconcile c p i e now).
Proof. unfold admit_reconcile. evolve. Qed.
Hint Resolve durable_admit_reconcile : evolves.
Lemma durable_reconcile c p i e now : evolves durable_le (reconcile_intent c p i e now).
Proof. unfold reconcile_intent. evolve. apply evolves_attempt_lookup; [apply _|]. evolve. Qed.
End Evolves.
#[export] Hint Resolve evolves_conclude durable_admit_reconcile durable_reconcile : evolves.
