(* ===== verification/Webhooks.v ===== *)
(** * Webhook ingestion

    services/payment_executor/webhooks.py: verify, resolve, deduplicate, and apply
    only what the state machine permits. *)
From S2P Require Import Prelude Python PyFloat Json Text Enums Errors Firewall Canonical Transaction.
From S2P Require Import StateMachines Merchant Kernel Policy Payment Database Hashing Evolution Ledger.
From S2P Require Import Binding Authorization AuthorizationTheorems Outbox Intents Provider Executor.

Record WebhookOutcome := mkWebhookOutcome {
  wo_accepted : bool;
  wo_applied : bool;
  wo_reason_code : option string;
  wo_state : option PaymentIntentState;
  wo_payment_intent_id : option uuid
}.

Definition find_intent (provider provider_payment_id : string) (d : DB) : option PaymentIntentRow :=
  List.find (λ r, String.eqb (pi_provider r) provider
                  && bool_decide (pi_provider_payment_id r = Some provider_payment_id)) (intent_rows d).

(** The fields of a verified event that contradict the intent. *)
Definition evidence_mismatches (event : VerifiedWebhookEvent) (intent : PaymentIntentRow) : list string :=
  (match we_amount_inr event with
   | Some a => if negb (a =? pi_amount_inr intent) then ["amount"] else [] | None => [] end)
  ++ (match we_currency event with
      | Some c => if negb (String.eqb c (pi_currency intent)) then ["currency"] else [] | None => [] end)
  ++ (match we_provider_order_id event, pi_provider_order_id intent with
      | Some o, Some o' => if negb (String.eqb o o') then ["provider_order_id"] else [] | _, _ => [] end)
  ++ (match webhook_type_to_state (we_event_type event), pi_provider_transaction_id intent with
      | PaymentIntentState.SUCCEEDED, Some t =>
          if negb (bool_decide (we_provider_transaction_id event = Some t)) then ["provider_transaction_id"] else []
      | _, _ => [] end).

Definition store_provider_evidence (event : VerifiedWebhookEvent) (target : PaymentIntentState)
    (intent : PaymentIntentRow) : PaymentIntentRow :=
  let r := match we_provider_order_id event with
           | Some o => if is_none (pi_provider_order_id intent) then set_pi_provider_order_id (Some o) intent else intent
           | None => intent end in
  let r := match we_provider_transaction_id event with
           | Some t => if bool_decide (target = PaymentIntentState.SUCCEEDED)
                       then set_pi_provider_transaction_id (Some t) r else r
           | None => r end in
  let r := match we_provider_status event with Some s => set_pi_provider_status (Some s) r | None => r end in
  match we_provider_attempts event with
  | Some n => set_pi_provider_attempts
                (Some (Z.max (default 0 (opt_or_int (pi_provider_attempts r) (Some 0))) n)) r
  | None => r end.

Definition attempt_failed_reason (event : VerifiedWebhookEvent) : option string :=
  if bool_decide (we_event_type event = WebhookEventType.PAYMENT_ATTEMPT_FAILED)
  then Some (enum_value ReasonCode.PROVIDER_PAYMENT_ATTEMPT_FAILED) else None.

Definition transition_event_type (target : PaymentIntentState) : EventType :=
  match target with
  | PaymentIntentState.SUCCEEDED => EventType.PAYMENT_SUCCEEDED
  | PaymentIntentState.FAILED_TERMINAL => EventType.PAYMENT_FAILED
  | _ => EventType.PAYMENT_PROVIDER_UNCERTAIN
  end.

Section Webhooks.
Context `{Env}.

(** [provider.verify_webhook(...)], its refusal turned into a rejection. *)
Definition verified_event (provider : PaymentProvider) (body : bytes) (signature : string)
    (provider_event_id : option string) : outcome exn VerifiedWebhookEvent :=
  match pv_verify_webhook provider body signature provider_event_id with
  | Raise (WebhookVerificationError _ detail code) => Raise (WebhookRejected code detail)
  | Raise e => Raise e
  | Ok event =>
      if negb (String.eqb (we_provider event) (pv_name provider)) then
        Raise (WebhookRejected (enum_value ReasonCode.PROVIDER_RESPONSE_MISMATCH)
                 "verified event names a different provider adapter")
      else Ok event
  end.

(** The resolved intent, if the event's evidence agrees with it. *)
Definition resolve_intent (event : VerifiedWebhookEvent) : P PaymentIntentRow :=
  intent ← reads (find_intent (we_provider event) (we_provider_payment_id event));
  match intent with
  | None => raise (WebhookRejected (enum_value ReasonCode.WEBHOOK_UNKNOWN_PAYMENT)
              ("no payment intent is linked to provider payment " +:+ we_provider_payment_id event))
  | Some intent =>
      match evidence_mismatches event intent with
      | [] => mret intent
      | mismatches =>
          raise (WebhookRejected (enum_value ReasonCode.PROVIDER_RESPONSE_MISMATCH)
            ("verified provider evidence mismatches intent: " +:+ String.concat ", " mismatches))
      end
  end.

(** The deduplicating insert: [None] if the event had been delivered before. *)
Definition store_delivery (event : VerifiedWebhookEvent) (intent : uuid) (moment : datetime) : P (option uuid) :=
  try_except
    (id ← uuid4;
     begin_nested (insert_webhook (mkWebhookEventRow id (we_provider event) (we_provider_event_id event)
       (we_event_type event) (we_provider_payment_id event) (we_provider_transaction_id event) (Some intent)
       (we_sequence event) moment None None));;
     mret (Some id))
    (λ e, match e with IntegrityError _ => mret None | _ => raise e end).

Definition finish_delivery (stored_event : uuid) (moment : datetime) (applied : option PaymentIntentState) : P unit :=
  update_webhook stored_event (λ r, set_wh_applied_state applied (set_wh_processed_at (Some moment) r)).

Definition duplicate_ignored (intent : PaymentIntentRow) (event : VerifiedWebhookEvent) : P WebhookOutcome :=
  append_event (pi_mission_id intent) EventType.DUPLICATE_WEBHOOK_IGNORED ACTOR
    [("payment_intent_id", JStr (str_uuid (pi_id intent)));
     ("reason_code", JStr (enum_value ReasonCode.WEBHOOK_DUPLICATE));
     ("provider_event_id", JStr (we_provider_event_id event));
     ("state", JStr (enum_value (pi_state intent)))];;
  mret (mkWebhookOutcome true false (Some (enum_value ReasonCode.WEBHOOK_DUPLICATE))
          (Some (pi_state intent)) (Some (pi_id intent))).

Definition audit_verified (intent : PaymentIntentRow) (event : VerifiedWebhookEvent) : P unit :=
  append_event (pi_mission_id intent) EventType.WEBHOOK_VERIFIED ACTOR
    [("payment_intent_id", JStr (str_uuid (pi_id intent)));
     ("provider", JStr (we_provider event));
     ("provider_event_id", JStr (we_provider_event_id event));
     ("event_type", JStr (enum_value (we_event_type event)));
     ("sequence", jopt JInt (we_sequence event));
     ("provider_order_id", jstr_opt (we_provider_order_id event));
     ("provider_transaction_id", jstr_opt (we_provider_transaction_id event));
     ("provider_status", jstr_opt (we_provider_status event));
     ("provider_attempts", jopt JInt (we_provider_attempts event))];;
  mret tt.

Definition ambiguity_preserved (stored_event : uuid) (intent : PaymentIntentRow) (event : VerifiedWebhookEvent)
    (moment : datetime) : P WebhookOutcome :=
  update_intent (pi_id intent) (set_pi_last_reason_code (Some (enum_value ReasonCode.PROVIDER_AMBIGUITY)));;
  append_event (pi_mission_id intent) EventType.PAYMENT_PROVIDER_UNCERTAIN ACTOR
    [("payment_intent_id", JStr (str_uuid (pi_id intent)));
     ("state", JStr (enum_value (pi_state intent)));
     ("provider", JStr (we_provider event));
     ("provider_event_id", JStr (we_provider_event_id event));
     ("provider_ambiguity_observed", JBool true);
     ("webhook_applied", JBool false);
     ("manual_recovery_required", JBool true);
     ("reason_code", JStr (enum_value ReasonCode.PROVIDER_AMBIGUITY))];;
  finish_delivery stored_event moment None;;
  mret (mkWebhookOutcome true false (Some (enum_value ReasonCode.PROVIDER_AMBIGUITY))
          (Some (pi_state intent)) (Some (pi_id intent))).

Definition webhook_evidence (event : VerifiedWebhookEvent) : json_obj :=
  [("provider", JStr (we_provider event));
   ("provider_payment_id", JStr (we_provider_payment_id event));
   ("provider_order_id", jstr_opt (we_provider_order_id event));
   ("provider_transaction_id", jstr_opt (we_provider_transaction_id event));
   ("provider_status", jstr_opt (we_provider_status event));
   ("provider_attempts", jopt JInt (we_provider_attempts event));
   ("provider_event_id", JStr (we_provider_event_id event));
   ("source", JStr "webhook")].

(** Another observation about a payment still pending at the provider. *)
Definition still_pending (stored_event : uuid) (intent : PaymentIntentRow) (event : VerifiedWebhookEvent)
    (target : PaymentIntentState) (moment : datetime) : P WebhookOutcome :=
  let reason_code := attempt_failed_reason event in
  update_intent (pi_id intent) (λ r, set_pi_last_reason_code reason_code (store_provider_evidence event target r));;
  append_event (pi_mission_id intent) EventType.PAYMENT_PROVIDER_UNCERTAIN ACTOR
    ([("payment_intent_id", JStr (str_uuid (pi_id intent))); ("state", JStr (enum_value (pi_state intent)))]
     ++ webhook_evidence event ++ [("reason_code", jstr_opt reason_code)]);;
  finish_delivery stored_event moment (Some (pi_state intent));;
  mret (mkWebhookOutcome true false reason_code (Some (pi_state intent)) (Some (pi_id intent))).

Definition out_of_order_ignored (stored_event : uuid) (intent : PaymentIntentRow) (event : VerifiedWebhookEvent)
    (target : PaymentIntentState) (moment : datetime) : P WebhookOutcome :=
  append_event (pi_mission_id intent) EventType.WEBHOOK_OUT_OF_ORDER_IGNORED ACTOR
    [("payment_intent_id", JStr (str_uuid (pi_id intent)));
     ("reason_code", JStr (enum_value ReasonCode.ILLEGAL_PAYMENT_TRANSITION));
     ("provider_event_id", JStr (we_provider_event_id event));
     ("current_state", JStr (enum_value (pi_state intent)));
     ("requested_state", JStr (enum_value target));
     ("terminal", JBool (PaymentFSM.is_terminal (pi_state intent)))];;
  finish_delivery stored_event moment None;;
  mret (mkWebhookOutcome true false (Some (enum_value ReasonCode.ILLEGAL_PAYMENT_TRANSITION))
          (Some (pi_state intent)) (Some (pi_id intent))).

(** The transition the state machine permits. *)
Definition apply_delivery (stored_event : uuid) (intent : PaymentIntentRow) (event : VerifiedWebhookEvent)
    (target : PaymentIntentState) (moment : datetime) : P WebhookOutcome :=
  update_intent (pi_id intent) (store_provider_evidence event target);;
  apply_payment_transition (pi_id intent) target (transition_event_type target) (webhook_evidence event)
    (attempt_failed_reason event);;
  (match target with
   | PaymentIntentState.SUCCEEDED => apply_mission_state (pi_mission_id intent) MissionState.PAYMENT_SUCCEEDED
   | PaymentIntentState.FAILED_TERMINAL => apply_mission_state (pi_mission_id intent) MissionState.PAYMENT_FAILED
   | _ => mret tt
   end);;
  finish_delivery stored_event moment (Some target);;
  mret (mkWebhookOutcome true true None (Some target) (Some (pi_id intent))).

(** From the deduplication on. *)
Definition deliver (event : VerifiedWebhookEvent) (intent : PaymentIntentRow) (moment : datetime)
    : P WebhookOutcome :=
  let target := webhook_type_to_state (we_event_type event) in
  stored ← store_delivery event (pi_id intent) moment;
  match stored with
  | None => duplicate_ignored intent event
  | Some stored_event =>
      audit_verified intent event;;
      let current := pi_state intent in
      if is_some (pi_provider_ambiguity_observed_at intent) then
        ambiguity_preserved stored_event intent event moment
      else if bool_decide (current = target) || PaymentFSM.is_terminal current
              || negb (PaymentFSM.can_transition current target) then
        if bool_decide (current = target) && bool_decide (current = PaymentIntentState.PROVIDER_PENDING)
        then still_pending stored_event intent event target moment
        else out_of_order_ignored stored_event intent event target moment
      else apply_delivery stored_event intent event target moment
  end.

Definition handle_webhook (provider : PaymentProvider) (body : bytes) (signature : string)
    (provider_event_id : option string) (now : option datetime) : P WebhookOutcome :=
  moment ← moment_of now;
  event ← lift (verified_event provider body signature provider_event_id);
  intent ← resolve_intent event;
  deliver event intent moment.
End Webhooks.

(** ** What a delivery leaves alone *)
Definition same_payments (w w' : World) : Prop :=
  db_intents (w_db w') = db_intents (w_db w) ∧ db_auths (w_db w') = db_auths (w_db w) ∧
  db_missions (w_db w') = db_missions (w_db w) ∧ db_outbox (w_db w') = db_outbox (w_db w).
#[global] Instance same_payments_preorder : PreOrder same_payments.
Proof. split; red; unfold same_payments; intros; destruct_and?; split_and!; congruence. Qed.

Lemma find_intent_Some prov pid d r : find_intent prov pid d = Some r →
  pi_provider r = prov ∧ pi_provider_payment_id r = Some pid ∧ ∃ i, db_intents d !! i = Some r.
Proof.
  unfold find_intent. intros [Hin [Hp Hpid]%andb_true_iff]%find_some.
  apply String.eqb_eq in Hp. apply bool_decide_eq_true in Hpid. split; [done|]. split; [done|].
  unfold intent_rows in Hin. apply list_elem_of_In, list_elem_of_fmap_1 in Hin as ([i r'] & -> & Hin).
  apply elem_of_map_to_list in Hin. by exists i.
Qed.

(** Evidence that agrees with a row only adds to it. *)
Lemma evidence_le event r :
  evidence_mismatches event r = [] →
  intent_le r (store_provider_evidence event (webhook_type_to_state (we_event_type event)) r).
Proof.
  unfold evidence_mismatches. intros E.
  apply app_nil in E as [_ E]. apply app_nil in E as [_ E]. apply app_nil in E as [_ E].
  unfold store_provider_evidence. cbv zeta.
  assert (H1 : intent_le r (match we_provider_order_id event with
    | Some o => if is_none (pi_provider_order_id r) then set_pi_provider_order_id (Some o) r else r
    | None => r end) ∧
    pi_provider_transaction_id (match we_provider_order_id event with
    | Some o => if is_none (pi_provider_order_id r) then set_pi_provider_order_id (Some o) r else r
    | None => r end) = pi_provider_transaction_id r).
  { destruct (we_provider_order_id event); [|done]. destruct (pi_provider_order_id r) eqn:Eo; cbn; [done|].
    split; [|done]. constructor; cbn; try done; try (by right). by left. }
  destruct H1 as [H1 Ht]. set (r1 := match we_provider_order_id event with Some o => _ | None => r end) in *.
  assert (H2 : intent_le r1 (match we_provider_transaction_id event with
    | Some t => if bool_decide (webhook_type_to_state (we_event_type event) = PaymentIntentState.SUCCEEDED)
                then set_pi_provider_transaction_id (Some t) r1 else r1
    | None => r1 end)).
  { destruct (we_provider_transaction_id event) as [t|]; [|done].
    case_bool_decide as Hs; [|done]. rewrite Hs in E. constructor; cbn; try done; try (by right). rewrite Ht.
    destruct (pi_provider_transaction_id r) as [t'|]; [|by left]. right.
    case_bool_decide as Hte; [by rewrite Hte|done]. }
  set (r2 := match we_provider_transaction_id event with Some t => _ | None => r1 end) in *.
  etrans; [exact H1|]. etrans; [exact H2|].
  destruct (we_provider_status event), (we_provider_attempts event); constructor; cbn; try done; by right.
Qed.

Section Delivery.
Context `{Env}.

Lemma same_append m t a p : evolves same_payments (append_event m t a p).
Proof. intros w. destruct (append_event m t a p w) as [x w'] eqn:E. apply append_event_db in E as [l E]. cbn. unfold same_payments. by rewrite E. Qed.
Lemma same_insert_webhook r : evolves same_payments (begin_nested (insert_webhook r)).
Proof.
  intros w. unfold begin_nested, insert_webhook, mbind, M_bind, read_db, reads, gets. rewrite flush_checked_cases.
  by destruct (violates _).
Qed.
Lemma same_update_webhook i f : evolves same_payments (update_webhook i f).
Proof. intros w. done. Qed.
Lemma same_uuid4 : evolves same_payments uuid4.
Proof. intros w. done. Qed.
Hint Resolve same_append same_insert_webhook same_update_webhook same_uuid4 : evolves.
Lemma same_store_delivery e i m : evolves same_payments (store_delivery e i m).
Proof. unfold store_delivery. evolve. Qed.
Lemma same_audit_verified r e : evolves same_payments (audit_verified r e).
Proof. unfold audit_verified. evolve. Qed.
Lemma same_duplicate r e : evolves same_payments (duplicate_ignored r e).
Proof. unfold duplicate_ignored. evolve. Qed.
Lemma same_out_of_order s r e t m : evolves same_payments (out_of_order_ignored s r e t m).
Proof. unfold out_of_order_ignored, finish_delivery. evolve. Qed.

Lemma evolves_finish s m a : evolves sess_le (finish_delivery s m a).
Proof. unfold finish_delivery. apply evolves_update_webhook. done. Qed.
Hint Resolve evolves_finish : evolves.
Lemma evolves_store e i m : evolves sess_le (store_delivery e i m).
Proof. unfold store_delivery. evolve. Qed.
Lemma evolves_audit_verified r e : evolves sess_le (audit_verified r e).
Proof. unfold audit_verified. evolve. Qed.
Lemma evolves_duplicate r e : evolves sess_le (duplicate_ignored r e).
Proof. unfold duplicate_ignored. evolve. Qed.
Lemma evolves_ambiguity s r e m : evolves sess_le (ambiguity_preserved s r e m).
Proof. unfold ambiguity_preserved. evolve. Qed.
Lemma evolves_out_of_order s r e t m : evolves sess_le (out_of_order_ignored s r e t m).
Proof. unfold out_of_order_ignored. evolve. Qed.

(** An update of the very row the event was resolved to, and what follows it. *)
Lemma update_then_le {A} i r f (k : P A) w :
  db_intents (w_db w) !! i = Some r → intent_le r (f r) → evolves sess_le k →
  sess_le w (snd ((update_intent i f;; k) w)).
Proof.
  intros Hr Hf Hk. unfold update_intent. unfold mbind at 1, M_bind at 1. unfold mbind at 1, M_bind at 1.
  rewrite (get_intent_run _ _ _ Hr).
  assert (Hw : sess_le w (snd (write_intent i (f r) w))) by (apply write_intent_le; unfold replaces; by rewrite Hr).
  destruct (write_intent i (f r) w) as [[[]|e] w']; cbn [snd] in *; [|done].
  etrans; [exact Hw|apply Hk].
Qed.

Lemma evolves_still_pending s r e w m :
  db_intents (w_db w) !! pi_id r = Some r → evidence_mismatches e r = [] →
  sess_le w (snd (still_pending s r e (webhook_type_to_state (we_event_type e)) m w)).
Proof.
  intros Hr He. unfold still_pending. cbv zeta. apply (update_then_le _ r); [done| |evolve].
  etrans; [by apply evidence_le|apply intent_le_reason].
Qed.
Lemma evolves_apply_delivery s r e w m :
  db_intents (w_db w) !! pi_id r = Some r → evidence_mismatches e r = [] →
  sess_le w (snd (apply_delivery s r e (webhook_type_to_state (we_event_type e)) m w)).
Proof. intros Hr He. unfold apply_delivery. apply (update_then_le _ r); [done|by apply evidence_le|evolve]. Qed.

(** A webhook is refused before it touched the database, or delivered. *)
Lemma handle_webhook_cases p b s i now w :
  ∃ w1, sess_le w w1 ∧ w_db w1 = w_db w ∧
    ((∃ e, handle_webhook p b s i now w = (Raise e, w1)) ∨
     ∃ event intent moment, verified_event p b s i = Ok event ∧
       find_intent (we_provider event) (we_provider_payment_id event) (w_db w) = Some intent ∧
       evidence_mismatches event intent = [] ∧ (∀ n, now = Some n → moment = as_utc n) ∧
       handle_webhook p b s i now w = deliver event intent moment w1).
Proof.
  pose proof (evolves_moment_of now w) as Hle.
  destruct (moment_of_run now w) as (mo & w1 & Em & Hs & _ & Hn). rewrite Em in Hle. exists w1.
  split; [exact Hle|]. split; [apply Hs|].
  destruct (handle_webhook p b s i now w) as [o w2] eqn:Eo.
  unfold handle_webhook in Eo. unfold mbind at 1, M_bind at 1 in Eo. rewrite Em in Eo.
  unfold lift, mbind at 1, M_bind at 1 in Eo.
  destruct (verified_event p b s i) as [event|e] eqn:Ev; [|injection Eo as <- <-; left; by eexists].
  unfold resolve_intent in Eo. unfold mbind at 1, M_bind at 1 in Eo. unfold mbind at 1, M_bind at 1 in Eo.
  unfold reads at 1, gets at 1 in Eo. rewrite (proj1 Hs) in Eo.
  destruct (find_intent _ _ (w_db w)) as [intent|] eqn:Ef; [|injection Eo as <- <-; left; by eexists].
  destruct (evidence_mismatches event intent) eqn:Emm; [|injection Eo as <- <-; left; by eexists].
  right. exists event, intent, mo. split; [done|]. split; [done|]. split; [done|]. split; [|by rewrite <-Eo].
  intros n ->. by apply Hn.
Qed.

Lemma deliver_le event r moment w :
  db_intents (w_db w) !! pi_id r = Some r → evidence_mismatches event r = [] →
  sess_le w (snd (deliver event r moment w)).
Proof.
  intros Hr He. unfold deliver. cbv zeta.
  pose proof (evolves_store event (pi_id r) moment w) as H1. pose proof (same_store_delivery event (pi_id r) moment w) as (S1 & _).
  unfold mbind at 1, M_bind at 1.
  destruct (store_delivery event (pi_id r) moment w) as [[[sid|]|e] w1]; cbn [snd] in *; [|etrans; [exact H1|apply evolves_duplicate]|exact H1].
  etrans; [exact H1|].
  pose proof (evolves_audit_verified r event w1) as H2. pose proof (same_audit_verified r event w1) as (S2 & _).
  unfold mbind at 1, M_bind at 1.
  destruct (audit_verified r event w1) as [[[]|e] w2]; cbn [snd] in *; [|exact H2].
  etrans; [exact H2|]. assert (Hr2 : db_intents (w_db w2) !! pi_id r = Some r) by (by rewrite S2, S1).
  destruct (is_some _); [apply evolves_ambiguity|]. destruct (_ || _).
  - destruct (_ && _); [by apply evolves_still_pending|apply evolves_out_of_order].
  - by apply evolves_apply_delivery.
Qed.

Lemma handle_webhook_le p b s i now w : intents_ok (w_db w) → sess_le w (snd (handle_webhook p b s i now w)).
Proof.
  intros Hok. destruct (handle_webhook_cases p b s i now w)
    as (w1 & Hle & Hd & [[e ->]|(event & r & moment & _ & Hf & He & _ & ->)]); [exact Hle|].
  etrans; [exact Hle|]. apply find_intent_Some in Hf as (_ & _ & j & Hj). apply deliver_le; [|done].
  rewrite Hd. by rewrite (io_id _ Hok j r Hj).
Qed.
End Delivery.
