(* ===== verification/WebhooksProperties.v ===== *)
(** * Properties of webhook ingestion *)
From S2P Require Import Prelude Python PyFloat Json Text Enums Errors Firewall Canonical Transaction.
From S2P Require Import StateMachines Merchant Kernel Policy Payment Database Hashing Evolution Ledger.
From S2P Require Import Binding Authorization AuthorizationTheorems AuthorizationProperties Outbox.
From S2P Require Import Intents IntentsProperties Provider Executor Webhooks.

(** The delivery has been recorded. *)
Definition delivered (provider event_id : string) (d : DB) : Prop :=
  ∃ r, r ∈ db_webhooks d ∧ wh_provider r = provider ∧ wh_provider_event_id r = event_id.

Lemma delivered_le p e d d' : db_le d d' → delivered p e d → delivered p e d'.
Proof.
  intros Hle (r & Hin & Hp & He). destruct (dl_webhooks _ _ Hle) as (l1 & l2 & E & H2).
  apply list_elem_of_lookup in Hin as [n Hn]. destruct (Forall2_lookup_l _ _ _ _ _ H2 Hn) as (r' & Hn' & Hr).
  exists r'. unfold webhook_le in Hr. injection Hr as _ Hp' He' _ _. split; [|split; congruence].
  rewrite E. apply elem_of_app. left. by apply list_elem_of_lookup_2 in Hn'.
Qed.

Section Delivery.
Context `{Env}.

Lemma store_delivery_cases event i m w :
  ∃ w1, same_payments w w1 ∧
  ((delivered (we_provider event) (we_provider_event_id event) (w_db w) ∧
    store_delivery event i m w = (Ok None, w1) ∧ w_db w1 = w_db w) ∨
   (¬ delivered (we_provider event) (we_provider_event_id event) (w_db w) ∧
    delivered (we_provider event) (we_provider_event_id event) (w_db w1) ∧
    ∃ id, store_delivery event i m w = (Ok (Some id), w1))).
Proof.
  unfold store_delivery, try_except, uuid4. unfold mbind at 1 2 3 4, M_bind at 1 2 3 4. cbv zeta.
  set (w0 := mkWorld _ _ _ _ _ _). unfold begin_nested, insert_webhook, read_db, reads, gets.
  set (r := mkWebhookEventRow _ _ _ _ _ _ _ _ _ _ _). unfold mbind, M_bind. rewrite flush_checked_cases.
  unfold violates. cbn [List.find fst snd]. destruct (forallb _ (db_webhooks (w_db w0))) eqn:E; cbn [negb].
  - eexists. split; [|right; split; [|split; [|eexists; reflexivity]]]; [by split_and!| |].
    + intros (x & Hin & Hp & He). rewrite forallb_forall in E. apply list_elem_of_In in Hin.
      specialize (E x Hin). cbn in E. by rewrite Hp, He, !String.eqb_refl in E.
    + exists r. split; [|done]. cbn. apply elem_of_app. right. by left.
  - eexists. split; [|left; split; [|split; [reflexivity|]]]; [by split_and!| |done].
    apply not_true_iff_false in E.
    destruct (existsb (λ x, String.eqb (wh_provider x) (we_provider event)
      && String.eqb (wh_provider_event_id x) (we_provider_event_id event)) (db_webhooks (w_db w))) eqn:Ex.
    + apply existsb_exists in Ex as (x & Hin & [Hp He]%andb_true_iff). apply String.eqb_eq in Hp, He.
      exists x. split; [by apply list_elem_of_In|done].
    + exfalso. apply E, forallb_forall. intros x Hin. apply negb_true_iff.
      destruct (_ && _) eqn:Exx; [|done]. apply not_true_iff_false in Ex. destruct Ex.
      apply existsb_exists. by exists x.
Qed.

(** A first delivery that was taken in stays recorded. *)
Lemma deliver_records event r moment w o w' :
  db_intents (w_db w) !! pi_id r = Some r → evidence_mismatches event r = [] →
  deliver event r moment w = (Ok o, w') →
  delivered (we_provider event) (we_provider_event_id event) (w_db w').
Proof.
  intros Hr He E. pose proof (deliver_le event r moment w Hr He) as Hle. rewrite E in Hle. cbn [snd] in Hle.
  destruct (store_delivery_cases event (pi_id r) moment w) as (w1 & Hsame & [(Hd & _)|(_ & Hd & id & Es)]).
  - by apply (delivered_le _ _ _ _ (sl_db _ _ Hle)).
  - apply (delivered_le _ _ (w_db w1)); [|done]. unfold deliver in E. cbv zeta in E.
    unfold mbind at 1, M_bind at 1 in E. rewrite Es in E.
    pose proof (evolves_audit_verified r event w1) as H2. pose proof (same_audit_verified r event w1) as (S2 & _).
    unfold mbind at 1, M_bind at 1 in E. destruct (audit_verified r event w1) as [[[]|e] w2]; [|done].
    cbn [snd] in *. assert (Hr2 : db_intents (w_db w2) !! pi_id r = Some r) by (by rewrite S2, (proj1 Hsame)).
    etrans; [apply (sl_db _ _ H2)|].
    assert (Hrest : sess_le w2 w'); [|apply (sl_db _ _ Hrest)].
    destruct (is_some _); [|destruct (_ || _); [destruct (_ && _)|]].
    + pose proof (evolves_ambiguity id r event moment w2) as H3. by rewrite E in H3.
    + pose proof (evolves_still_pending id r event w2 moment Hr2 He) as H3. by rewrite E in H3.
    + pose proof (evolves_out_of_order id r event (webhook_type_to_state (we_event_type event)) moment w2) as H3.
      by rewrite E in H3.
    + pose proof (evolves_apply_delivery id r event w2 moment Hr2 He) as H3. by rewrite E in H3.
Qed.

Lemma deliver_duplicate event r moment w :
  delivered (we_provider event) (we_provider_event_id event) (w_db w) →
  ∃ w', same_payments w w' ∧
    ((∃ e, deliver event r moment w = (Raise e, w')) ∨
     deliver event r moment w =
       (Ok (mkWebhookOutcome true false (Some (enum_value ReasonCode.WEBHOOK_DUPLICATE)) (Some (pi_state r))
              (Some (pi_id r))), w')).
Proof.
  intros Hd. destruct (store_delivery_cases event (pi_id r) moment w) as (w1 & Hs & [(_ & Es & _)|(Hn & _)]); [|done].
  pose proof (same_duplicate r event w1) as H1. destruct (deliver event r moment w) as [o w3] eqn:E.
  unfold deliver in E. cbv zeta in E. unfold mbind at 1, M_bind at 1 in E. rewrite Es in E.
  rewrite E in H1. exists w3. split; [by etrans|].
  unfold duplicate_ignored, mbind, M_bind in E.
  destruct (append_event _ _ _ _ w1) as [[x|e] w4]; injection E as <- <-; [by right|left; by eexists].
Qed.

Lemma find_intent_lookup prov pid d r : intents_ok d → find_intent prov pid d = Some r → db_intents d !! pi_id r = Some r.
Proof. intros Hok (_ & _ & j & Hj)%find_intent_Some. by rewrite (io_id _ Hok j r Hj). Qed.

(** What the permitted transition wrote. *)
Lemma apply_delivery_Ok s r event t moment w o w' :
  apply_delivery s r event t moment w = (Ok o, w') →
  ∃ r0, db_intents (w_db w) !! pi_id r = Some r0 ∧
    db_intents (w_db w') = <[pi_id r := set_pi_last_reason_code (attempt_failed_reason event)
       (set_pi_state t (store_provider_evidence event t r0))]> (db_intents (w_db w)).
Proof.
  unfold apply_delivery. intros E. run_step E. apply update_intent_Ok in Hrun as (r0 & Hr0 & ->).
  run_step E. apply apply_payment_transition_Ok in Hrun as (r1 & l & Hr1 & _ & Hdb).
  cbn [w_db set_w_db db_intents set_db_intents] in Hr1, Hdb. rewrite lookup_insert_eq in Hr1. injection Hr1 as <-.
  run_step E. assert (Hm : db_intents (w_db s1) = db_intents (w_db s0)).
  { destruct t; try (by apply ret_run_Ok in Hrun as [_ ->]);
      match type of Hrun with apply_mission_state ?m ?t ?v = _ =>
        destruct (apply_mission_state_db m t v) as (mm & Hd & _); rewrite Hrun in Hd; cbn [snd] in Hd end;
      by rewrite Hd. }
  run_step E. apply modify_run_Ok in Hrun0 as [_ ->]. apply ret_run_Ok in E as [_ ->].
  exists r0. split; [done|]. cbn [w_db set_w_db db_intents set_db_webhooks]. rewrite Hm, Hdb.
  cbn [db_intents set_db_audit set_db_intents]. by rewrite insert_insert_eq.
Qed.

(** A delivery that reports itself applied took the permitted branch. *)
Lemma deliver_applied event r moment w o w' :
  deliver event r moment w = (Ok o, w') → wo_applied o = true →
  pi_provider_ambiguity_observed_at r = None ∧
  PaymentFSM.can_transition (pi_state r) (webhook_type_to_state (we_event_type event)) = true ∧
  ∃ r', db_intents (w_db w') !! pi_id r = Some r' ∧ pi_state r' = webhook_type_to_state (we_event_type event).
Proof.
  intros E Ha. unfold deliver in E. cbv zeta in E. run_step E. destruct a as [sid|].
  2:{ exfalso. unfold duplicate_ignored in E. run_step E. apply ret_run_Ok in E as [-> _]. done. }
  run_step E. destruct (pi_provider_ambiguity_observed_at r); cbn [is_some] in E.
  { exfalso. unfold ambiguity_preserved in E. run_inv E. by subst o. }
  split; [done|].
  destruct (bool_decide _ || _ || negb _) eqn:Eb.
  { exfalso. destruct (_ && _); [unfold still_pending in E|unfold out_of_order_ignored in E]; cbv zeta in E;
      run_inv E; by subst o. }
  apply orb_false_iff in Eb as [_ Hc%negb_false_iff]. split; [done|].
  apply apply_delivery_Ok in E as (r0 & _ & Hin). eexists. split; [by rewrite Hin, lookup_insert_eq|]. done.
Qed.

(** ** Properties *)

(** C16: A webhook is applied once.  After a delivery was accepted, every later
    delivery of the same provider event, however it is signed and whatever happened
    in between, either raises or reports WEBHOOK_DUPLICATE, and in both cases
    changes no payment, authorization, mission or outbox event. *)
Theorem webhook_applied_once (p p2 : PaymentProvider) (b b2 : bytes) (s s2 : string) (i i2 : option string)
    (now now2 : option datetime) (w w' w2 : World) (o : WebhookOutcome) (ev ev2 : VerifiedWebhookEvent) :
  intents_ok (w_db w) → verified_event p b s i = Ok ev → handle_webhook p b s i now w = (Ok o, w') →
  db_le (w_db w') (w_db w2) → verified_event p2 b2 s2 i2 = Ok ev2 →
  we_provider ev2 = we_provider ev → we_provider_event_id ev2 = we_provider_event_id ev →
  match handle_webhook p2 b2 s2 i2 now2 w2 with
  | (Ok o2, w3) => wo_applied o2 = false ∧ wo_reason_code o2 = Some (enum_value ReasonCode.WEBHOOK_DUPLICATE) ∧
                   same_payments w2 w3
  | (Raise _, w3) => same_payments w2 w3
  end.
Proof.
  intros Hok Hv E Hle Hv2 Hp He.
  destruct (handle_webhook_cases p b s i now w) as (w1 & _ & Hd1 & [[e E1]|(ev' & r & mo & Hv' & Hf & Hmm & _ & E1)]);
    rewrite E in E1; [done|]. rewrite Hv in Hv'. injection Hv' as <-.
  assert (Hrec : delivered (we_provider ev) (we_provider_event_id ev) (w_db w')).
  { apply (deliver_records ev r mo w1 o w'); [|done|done]. rewrite Hd1. by apply (find_intent_lookup _ _ _ _ Hok Hf). }
  apply (delivered_le _ _ _ _ Hle) in Hrec. rewrite <-Hp, <-He in Hrec.
  destruct (handle_webhook_cases p2 b2 s2 i2 now2 w2)
    as (w4 & _ & Hd4 & [[e ->]|(ev' & r2 & mo2 & Hv' & _ & _ & _ & ->)]).
  - unfold same_payments. by rewrite Hd4.
  - rewrite Hv2 in Hv'. injection Hv' as <-. rewrite <-Hd4 in Hrec.
    destruct (deliver_duplicate ev2 r2 mo2 w4 Hrec) as (w5 & Hs & [[e ->]| ->]).
    + unfold same_payments in *. by rewrite Hd4 in Hs.
    + split; [done|]. split; [done|]. unfold same_payments in *. by rewrite Hd4 in Hs.
Qed.

(** C17: A webhook never regresses a payment.  A body that does not verify changes
    nothing at all.  Any other delivery, whether it returns or raises, keeps every
    column the payment was approved with, moves its state only along the payment
    state machine (so a settled payment keeps its state whatever arrives late), and
    never replaces a provider reference already recorded. *)
Theorem webhook_never_regresses (p : PaymentProvider) (b : bytes) (s : string) (i : option string)
    (now : option datetime) (w : World) :
  intents_ok (w_db w) →
  (∀ e, verified_event p b s i = Raise e → w_db (snd (handle_webhook p b s i now w)) = w_db w) ∧
  ∀ k r, db_intents (w_db w) !! k = Some r →
    ∃ r', db_intents (w_db (snd (handle_webhook p b s i now w))) !! k = Some r' ∧
      intent_immutable r' = intent_immutable r ∧ PaymentFSM.run (pi_state r) (pi_state r') ∧
      (PaymentFSM.is_terminal (pi_state r) = true → pi_state r' = pi_state r) ∧
      (∀ x, pi_provider_payment_id r = Some x → pi_provider_payment_id r' = Some x) ∧
      (∀ x, pi_provider_order_id r = Some x → pi_provider_order_id r' = Some x) ∧
      (∀ x, pi_provider_transaction_id r = Some x → pi_provider_transaction_id r' = Some x).
Proof.
  intros Hok. split.
  - intros e He. destruct (handle_webhook_cases p b s i now w)
      as (w1 & _ & Hd & [[e' ->]|(ev & r & mo & Hv & _)]); [done|congruence].
  - intros k r Hr. pose proof (sl_db _ _ (handle_webhook_le p b s i now w Hok)) as Hle.
    destruct (dl_intents _ _ Hle k r Hr) as (r' & Hr' & Hl). exists r'. split; [done|].
    split; [by apply il_immutable|]. split; [by apply il_state|].
    split; [intros Ht; by apply (PaymentFSM.terminal_run _ _ Ht), il_state|].
    split_and!; intros x Hx.
    + destruct (il_payment_id _ _ Hl); congruence.
    + destruct (il_order_id _ _ Hl); congruence.
    + destruct (il_transaction_id _ _ Hl); congruence.
Qed.

(** What an applied webhook did.  If a delivery reports that it was applied, the
    event had been verified by this provider, it named a payment this system linked
    to that provider, its amount and currency, when present, are the intent's own,
    no ambiguity was on record, the state machine allows the move, and the intent is
    now in the event's state. *)
Theorem webhook_applies_what_is_permitted (p : PaymentProvider) (b : bytes) (s : string) (i : option string)
    (now : option datetime) (w w' : World) (o : WebhookOutcome) :
  intents_ok (w_db w) → handle_webhook p b s i now w = (Ok o, w') → wo_applied o = true →
  ∃ ev r, pv_verify_webhook p b s i = Ok ev ∧ we_provider ev = pv_name p ∧
    db_intents (w_db w) !! pi_id r = Some r ∧ pi_provider r = pv_name p ∧
    pi_provider_payment_id r = Some (we_provider_payment_id ev) ∧
    (∀ a, we_amount_inr ev = Some a → a = pi_amount_inr r) ∧
    (∀ c, we_currency ev = Some c → c = pi_currency r) ∧
    pi_provider_ambiguity_observed_at r = None ∧
    PaymentFSM.can_transition (pi_state r) (webhook_type_to_state (we_event_type ev)) = true ∧
    ∃ r', db_intents (w_db w') !! pi_id r = Some r' ∧ pi_state r' = webhook_type_to_state (we_event_type ev).
Proof.
  intros Hok E Ha. destruct (handle_webhook_cases p b s i now w)
    as (w1 & _ & Hd1 & [[e E1]|(ev & r & mo & Hv & Hf & Hmm & _ & E1)]); rewrite E in E1; [done|].
  pose proof (find_intent_lookup _ _ _ _ Hok Hf) as Hr. apply find_intent_Some in Hf as (Hp & Hpid & _).
  unfold verified_event in Hv. destruct (pv_verify_webhook p b s i) as [ev'|[]] eqn:Epv; try discriminate Hv.
  destruct (String.eqb_spec (we_provider ev') (pv_name p)) as [Hn|]; cbn [negb] in Hv; [|discriminate].
  injection Hv as ->. exists ev, r. rewrite Hn in Hp.
  assert (Hamt : (∀ a, we_amount_inr ev = Some a → a = pi_amount_inr r) ∧
                 (∀ c, we_currency ev = Some c → c = pi_currency r)).
  { unfold evidence_mismatches in Hmm. apply app_nil in Hmm as [H1 Hmm]. apply app_nil in Hmm as [H2 _]. split.
    - intros a Hx. rewrite Hx in H1. destruct (Z.eqb_spec a (pi_amount_inr r)); [done|discriminate].
    - intros c Hx. rewrite Hx in H2. destruct (String.eqb_spec c (pi_currency r)); [done|discriminate]. }
  destruct Hamt as [Hamt Hcur].
  destruct (deliver_applied ev r mo w1 o w') as (H1 & H2 & H3); [done|done|]. by split_and!.
Qed.
End Delivery.

#[local] Existing Instance demo_env.

(** A payment waiting at a provider, and a provider that accepts one signature. *)
Definition pending_intent : PaymentIntentRow :=
  mkPaymentIntentRow 1%N 7%N 11%N example_digest "key-1" example_digest 4299 "INR" "m1" "razorpay_test"
    (Some "pay_1") (Some "order_1") None None None None None None PaymentIntentState.PROVIDER_PENDING 1 None.
Definition paid_event : VerifiedWebhookEvent :=
  mkVerifiedWebhookEvent "razorpay_test" "evt_1" WebhookEventType.PAYMENT_SUCCEEDED "pay_1" (Some "order_1")
    (Some "txn_1") (Some 4299) (Some "INR") (Some "captured") (Some 1) None None.
Definition signed_provider : PaymentProvider := {|
  pv_name := "razorpay_test";
  pv_create_retries_are_idempotent := false;
  pv_create_payment := λ _ _, Raise (ProviderFailed (mkProviderError ProviderTimeout "razorpay_test" "no answer"));
  pv_get_payment := λ _ _ _, Ok None;
  pv_verify_webhook := λ _ signature _,
    if String.eqb signature "good" then Ok paid_event
    else Raise (WebhookVerificationError "razorpay_test" "bad signature" "WEBHOOK_SIGNATURE_INVALID")
|}.
Definition pending_world : World := demo_world (set_db_intents {[ 1%N := pending_intent ]} db_empty).
Abbreviation paid_delivery :=
  (handle_webhook (H:=demo_env) signed_provider [] "good" None (Some noon_utc)).
Definition applied_outcome : WebhookOutcome :=
  mkWebhookOutcome true true None (Some PaymentIntentState.SUCCEEDED) (Some 1%N).

Lemma pending_world_ok : intents_ok (w_db pending_world).
Proof.
  constructor; cbn [w_db pending_world demo_world db_intents set_db_intents].
  - by intros i r [<- <-]%lookup_singleton_Some.
  - by intros i j r r' [<- <-]%lookup_singleton_Some [<- <-]%lookup_singleton_Some.
  - by intros i j r r' [<- <-]%lookup_singleton_Some [<- <-]%lookup_singleton_Some.
Qed.
Lemma paid_delivery_run : fst (paid_delivery pending_world) = Ok applied_outcome.
Proof. vm_compute. reflexivity. Qed.

Lemma webhook_applied_once_witness :
  ∃ w', paid_delivery pending_world = (Ok applied_outcome, w') ∧
    match paid_delivery w' with
    | (Ok o2, w3) => wo_applied o2 = false ∧ wo_reason_code o2 = Some (enum_value ReasonCode.WEBHOOK_DUPLICATE) ∧
                     same_payments w' w3
    | (Raise _, w3) => same_payments w' w3
    end.
Proof.
  pose proof (fst_run _ _ _ paid_delivery_run) as E. eexists. split; [exact E|].
  apply (webhook_applied_once signed_provider signed_provider [] [] "good" "good" None None (Some noon_utc)
    (Some noon_utc) pending_world (snd (paid_delivery pending_world)) (snd (paid_delivery pending_world))
    applied_outcome paid_event paid_event pending_world_ok); [done|exact E|done..].
Defined.

Lemma webhook_never_regresses_witness :
  ∃ r', db_intents (w_db (snd (paid_delivery pending_world))) !! 1%N = Some r' ∧
        pi_provider_order_id r' = Some "order_1".
Proof.
  destruct (webhook_never_regresses signed_provider [] "good" None (Some noon_utc) pending_world pending_world_ok)
    as [_ H]. destruct (H 1%N pending_intent) as (r' & Hr & _ & _ & _ & _ & Ho & _); [vm_compute; reflexivity|].
  exists r'. split; [exact Hr|]. by apply Ho.
Defined.

Lemma webhook_applies_what_is_permitted_witness :
  ∃ w', paid_delivery pending_world = (Ok applied_outcome, w') ∧
        ∃ ev : VerifiedWebhookEvent, we_provider ev = "razorpay_test".
Proof.
  pose proof (fst_run _ _ _ paid_delivery_run) as E. eexists. split; [exact E|].
  destruct (webhook_applies_what_is_permitted signed_provider [] "good" None (Some noon_utc) pending_world
    (snd (paid_delivery pending_world)) applied_outcome pending_world_ok E) as (ev & r & _ & He & _); [done|]. by exists ev.
Defined.
