(* ===== verification/CreateOnce.v ===== *)
(** * At most one create call per payment

    What the create fence is for: against a provider whose create call is not
    idempotent, any number of workers, dispatching any events, interleaved with each
    other and with every other operation, and crashing at any point, send at most
    one create call for an idempotency key.  A step relation over the durable state
    and the attempts in flight says how runs of [dispatch_create] interleave; the
    commit of the fence is where one run is cut. *)
From S2P Require Import Prelude Python PyFloat Json Text Enums Errors Firewall Canonical Transaction.
From S2P Require Import StateMachines Merchant Kernel Policy Payment Database Hashing Evolution Ledger.
From S2P Require Import Binding Authorization AuthorizationTheorems Outbox Intents Provider Executor.
From S2P Require Import Reconciliation.

(** ** The create calls in the log *)
Section Creates.
Context (p : PaymentProvider).

Definition create_of (c : provider_call) : option PaymentRequest :=
  if String.eqb (call_provider c) (pv_name p)
  then match call_op c with OpCreate request => Some request | OpGet _ _ => None end else None.
Definition creates (w : World) : list PaymentRequest := omap create_of (w_calls w).
Definition create_count (k : string) (w : World) : nat :=
  length (List.filter (λ q, String.eqb (rq_idempotency_key q) k) (creates w)).

(** No create call was added. *)
Definition quiet (w w' : World) : Prop := creates w' = creates w.
#[global] Instance quiet_preorder : PreOrder quiet.
Proof. split; unfold quiet; [done|]. intros a b c. congruence. Qed.

Lemma evolves_sess_quiet {A} (m : P A) : evolves sess_le m → evolves quiet m.
Proof. apply evolves_weaken. intros w w' H. unfold quiet, creates. by rewrite (sl_calls _ _ H). Qed.
Lemma quiet_get q id key : evolves quiet (call_get_payment q id key).
Proof.
  intros w. unfold quiet, creates, call_get_payment, record_call. cbn. rewrite omap_app. cbn.
  unfold create_of. cbn. destruct (String.eqb _ _); by rewrite app_nil_r.
Qed.
Lemma quiet_commit : evolves quiet commit.
Proof. intros w. done. Qed.
Lemma quiet_rollback : evolves quiet rollback.
Proof. intros w. done. Qed.
End Creates.
#[export] Hint Resolve quiet_get quiet_commit quiet_rollback : evolves.
#[export] Hint Extern 5 (evolves (quiet _) _) => apply evolves_sess_quiet : evolves.

Section Quiet.
Context `{Env} (p : PaymentProvider).

Lemma quiet_recover q i e m : evolves (quiet p) (recover_fenced_create q i e m).
Proof. unfold recover_fenced_create. evolve. apply evolves_attempt_lookup; [apply _|evolve]. Qed.
Hint Resolve quiet_recover : evolves.
Lemma quiet_admit c q i e now : evolves (quiet p) (admit_create c q i e now).
Proof. unfold admit_create. cbv zeta. evolve. Qed.
Lemma quiet_acquire i m : evolves (quiet p) (acquire_provider_create_fence i m).
Proof. unfold acquire_provider_create_fence. evolve. apply evolves_sess_quiet, evolves_fence_update. Qed.
Lemma quiet_after_fence q i e m b : evolves (quiet p) (after_fence q i e m b).
Proof. unfold after_fence. evolve. Qed.
Lemma quiet_consume_permission i m : evolves (quiet p) (consume_create_permission i m).
Proof. unfold consume_create_permission. evolve. apply evolves_sess_quiet, evolves_fence_unfenced. Qed.
Hint Resolve quiet_admit quiet_acquire quiet_after_fence quiet_consume_permission : evolves.
Lemma quiet_admit_reconcile c q i e now : evolves (quiet p) (admit_reconcile c q i e now).
Proof. unfold admit_reconcile. evolve. Qed.
Hint Resolve quiet_admit_reconcile : evolves.
Lemma quiet_reconcile c q i e now : evolves (quiet p) (reconcile_intent c q i e now).
Proof. unfold reconcile_intent. evolve. apply evolves_attempt_lookup; [apply _|evolve]. Qed.

Lemma create_request_immutable r r' :
  intent_immutable r' = intent_immutable r → create_request r' = create_request r.
Proof. unfold intent_immutable, create_request. intros [= _ _ _ Hd Hk _ Ha Hc Hm _]. by rewrite Hd, Hk, Ha, Hc, Hm. Qed.
Lemma PaymentRequest_new_Ok r q : PaymentRequest_new r = Ok q → q = r.
Proof. unfold PaymentRequest_new. destruct (payment_request_error r); [done|by intros [= <-]]. Qed.
Lemma create_call_adds request w :
  creates p (snd (call_create_payment p request w)) = creates p w ++ [request].
Proof.
  unfold creates, call_create_payment, record_call. cbn. rewrite omap_app. cbn.
  unfold create_of. cbn. by rewrite String.eqb_refl.
Qed.

Lemma quiet_run {A} (m : P A) w o w' : evolves (quiet p) m → m w = (o, w') → quiet p w w'.
Proof. intros Hm E. specialize (Hm w). by rewrite E in Hm. Qed.
Lemma attempt_create_state {A} (m : P A) w : snd (attempt_create m w) = snd (m w).
Proof.
  unfold attempt_create, try_except, mbind, M_bind. destruct (m w) as [[a|[]] w']; try done.
  by destruct (pe_kind err).
Qed.

(** The receipt search and the create call: at most one create, for the row's own
    request. *)
Lemma send_create_creates i e m w :
  quiet p w (snd (send_create p i e m w)) ∨
  ∃ row, db_intents (w_db w) !! i = Some row ∧
    PaymentRequest_new (create_request row) = Ok (create_request row) ∧
    creates p (snd (send_create p i e m w)) = creates p w ++ [create_request row].
Proof.
  destruct (send_create p i e m w) as [ro w'] eqn:E. cbn [snd]. unfold send_create in E.
  unfold mbind at 1, M_bind at 1 in E. destruct (get_intent i w) as [[row|ex] w0] eqn:E0.
  2:{ left. pose proof (evolves_get_intent (quiet p) i w) as Hq. rewrite E0 in Hq. by injection E as _ <-. }
  apply get_intent_Ok in E0 as [Hr ->]. unfold mbind at 1, M_bind at 1, lift at 1 in E.
  destruct (PaymentRequest_new _) as [request|ex] eqn:Eq; [|injection E as _ <-; by left].
  pose proof (PaymentRequest_new_Ok _ _ Eq) as ->. unfold mbind at 1, M_bind at 1 in E.
  pose proof (evolves_attempt_lookup (quiet p) (call_get_payment p None (Some (pi_idempotency_key row)))
    (quiet_get p p _ _) w) as Hl.
  destruct (attempt_lookup _ w) as [[found|ex] w1]; cbn [snd] in Hl; [|injection E as _ <-; by left].
  destruct found as [err|[existing|]].
  - left. etrans; [exact Hl|]. eapply quiet_run; [|exact E]. apply evolves_sess_quiet, evolves_leave_uncertain.
  - left. etrans; [exact Hl|]. eapply quiet_run; [|exact E]. apply evolves_sess_quiet, evolves_finish_existing.
  - unfold mbind at 1, M_bind at 1 in E.
    pose proof (evolves_sess_quiet p _ (evolves_verify_io i e m) w1) as Hv.
    destruct (verify_intent_authorization_before_provider_io i e m w1) as [[[]|ex] w2]; cbn [snd] in Hv;
      [|injection E as _ <-; left; by etrans].
    right. exists row. split; [done|]. split; [done|]. unfold mbind, M_bind in E.
    pose proof (create_call_adds (create_request row) w2) as Hc. rewrite <-attempt_create_state in Hc.
    destruct (attempt_create _ w2) as [[o|ex] w3]; cbn [snd] in Hc.
    + apply quiet_run in E; [|apply evolves_sess_quiet, evolves_settle]. unfold quiet in *. congruence.
    + injection E as _ <-. unfold quiet in *. congruence.
Qed.
End Quiet.

(** ** Interleaved dispatches *)

(** [session.commit()], or the rollback a session that ends without one performs. *)
Inductive ends (w : World) : World → Prop :=
  | ends_commit : ends w (snd (commit w))
  | ends_rollback : ends w (snd (rollback w)).

(** An attempt whose fence transaction has committed: what the process that runs it
    remembers, and whether its update of the fence took. *)
Record Attempt := mkAttempt {
  at_intent : uuid;
  at_event : uuid;
  at_moment : datetime;
  at_won : bool;
  at_key : string
}.
(** Between two steps nothing is uncommitted: [sy_world] is the durable state. *)
Record System := mkSystem { sy_world : World; sy_attempts : list Attempt }.

Definition intent_key (i : uuid) (w : World) : string :=
  from_option pi_idempotency_key "" (db_intents (w_db w) !! i).

Section System.
Context `{Env} (p : PaymentProvider).

(** The rest of [dispatch_create] after the fence's commit. *)
Definition resume (a : Attempt) : P DispatchResult :=
  recovered ← after_fence p (at_intent a) (at_event a) (at_moment a) (at_won a);
  match recovered with
  | Some result => mret result
  | None => send_create p (at_intent a) (at_event a) (at_moment a)
  end.

Inductive step : System → System → Prop :=
  (** A dispatch up to its fence.  The row lock it takes is held until the commit. *)
  | step_begin c i e now w l m w1 b w2 :
      admit_create c p i e now w = (Ok (MayCreate m), w1) →
      acquire_provider_create_fence i m w1 = (Ok b, w2) →
      step (mkSystem w l) (mkSystem w2 (mkAttempt i e m b (intent_key i w2) :: l))
  (** The rest of an attempt, in any order. *)
  | step_resume w l1 a l2 w' :
      ends (snd (resume a w)) w' → step (mkSystem w (l1 ++ a :: l2)) (mkSystem w' (l1 ++ l2))
  (** A process dies between the two. *)
  | step_crash w l1 a l2 : step (mkSystem w (l1 ++ a :: l2)) (mkSystem w (l1 ++ l2))
  (** Anything else that goes forward and does not create at this provider. *)
  | step_other w w' l :
      durable_le w w' → w_db w' = w_committed w' → quiet p w w' → step (mkSystem w l) (mkSystem w' l).

(** ** The invariant *)
Definition is_fenced (r : PaymentIntentRow) : Prop := pi_provider_create_fenced_at r ≠ None.

(** The request belongs to a fenced intent. *)
Definition fenced_request (q : PaymentRequest) (d : DB) : Prop :=
  ∃ i r, db_intents d !! i = Some r ∧ create_request r = q ∧ is_fenced r.
Definition attempt_fenced (a : Attempt) (d : DB) : Prop :=
  at_won a = true →
  ∃ r, db_intents d !! at_intent a = Some r ∧ pi_idempotency_key r = at_key a ∧ is_fenced r.
(** The attempts that still may create under a key. *)
Definition winners (k : string) (l : list Attempt) : nat :=
  length (List.filter (λ a, at_won a && String.eqb (at_key a) k) l).

Record once_inv (s : System) : Prop := {
  oi_settled : w_db (sy_world s) = w_committed (sy_world s);
  oi_intents : intents_ok (w_db (sy_world s));
  oi_attempts : ∀ a, a ∈ sy_attempts s → attempt_fenced a (w_db (sy_world s));
  oi_requests : ∀ q, q ∈ creates p (sy_world s) → fenced_request q (w_db (sy_world s));
  oi_count : ∀ k, (create_count p k (sy_world s) + winners k (sy_attempts s) <= 1)%nat
}.

Lemma is_fenced_le r r' : intent_le r r' → is_fenced r → is_fenced r'.
Proof. intros Hle Hf. unfold is_fenced in *. destruct (il_fence _ _ Hle) as [| ->]; [done|congruence]. Qed.
Lemma fenced_request_le q d d' : db_le d d' → fenced_request q d → fenced_request q d'.
Proof.
  intros Hle (i & r & Hr & Hq & Hf). destruct (dl_intents _ _ Hle i r Hr) as (r' & Hr' & Hl).
  exists i, r'. split; [done|]. split; [|by eapply is_fenced_le].
  rewrite (create_request_immutable r r'); [done|apply (il_immutable _ _ Hl)].
Qed.
Lemma attempt_fenced_le a d d' : db_le d d' → attempt_fenced a d → attempt_fenced a d'.
Proof.
  intros Hle Ha Hw. destruct (Ha Hw) as (r & Hr & Hk & Hf).
  destruct (dl_intents _ _ Hle _ r Hr) as (r' & Hr' & Hl). exists r'. split; [done|].
  split; [|by eapply is_fenced_le]. pose proof (il_immutable _ _ Hl) as Hi. by injection Hi; intros; congruence.
Qed.

(** A key with a create call or a winner is fenced. *)
Lemma once_inv_fenced s k : once_inv s → (0 < create_count p k (sy_world s) + winners k (sy_attempts s))%nat →
  ∃ i r, db_intents (w_db (sy_world s)) !! i = Some r ∧ pi_idempotency_key r = k ∧ is_fenced r.
Proof.
  intros [_ _ Ha Hq _] Hpos.
  destruct (List.filter (λ q, String.eqb (rq_idempotency_key q) k) (creates p (sy_world s))) as [|q lq] eqn:Eq.
  - unfold create_count in Hpos. rewrite Eq in Hpos. cbn in Hpos. unfold winners in Hpos.
    destruct (List.filter _ (sy_attempts s)) as [|a la] eqn:Ea; [cbn in Hpos; lia|].
    apply filter_head in Ea as [Hin [Hw Hk%String.eqb_eq]%andb_true_iff].
    destruct (Ha a Hin Hw) as (r & Hr & Hkr & Hf). exists (at_intent a), r. by rewrite Hkr.
  - apply filter_head in Eq as [Hin Hk%String.eqb_eq]. destruct (Hq q Hin) as (i & r & Hr & <- & Hf).
    by exists i, r.
Qed.

Lemma durable_view w w' : durable_le w w' → w_db w = w_committed w → db_le (w_db w) (w_db w').
Proof. intros Hle Hs. destruct Hle as (H1 & H2 & _); [by rewrite Hs|]. rewrite Hs. by etrans. Qed.

(** Going forward without a create keeps it, if what is in flight is in order. *)
Lemma once_inv_forward w w' l l' :
  once_inv (mkSystem w l) → durable_le w w' → w_db w' = w_committed w' → quiet p w w' →
  (∀ a, a ∈ l' → a ∈ l ∨ attempt_fenced a (w_db w')) →
  (∀ k, create_count p k w + winners k l' <= 1)%nat →
  once_inv (mkSystem w' l').
Proof.
  intros [Hs Hi Ha Hq Hc] Hle Hs' Hqu Hsub Hwin. cbn [sy_world sy_attempts] in *.
  pose proof (durable_view _ _ Hle Hs) as Hdb.
  constructor; cbn [sy_world sy_attempts]; [done|by apply (dl_intents_ok _ _ Hdb)| | |].
  - intros a Hin. destruct (Hsub a Hin) as [Hin'|]; [|done]. by apply (attempt_fenced_le a _ _ Hdb), Ha.
  - rewrite Hqu. intros q Hin. by apply (fenced_request_le q _ _ Hdb), Hq.
  - intros k. unfold create_count in *. rewrite Hqu. apply Hwin.
Qed.

Lemma winners_cons k a l :
  winners k (a :: l) = ((if at_won a && String.eqb (at_key a) k then 1 else 0) + winners k l)%nat.
Proof. unfold winners. cbn [List.filter]. by destruct (_ && _). Qed.
Lemma winners_mid k l1 a l2 : winners k (l1 ++ a :: l2) = winners k (a :: l1 ++ l2).
Proof.
  unfold winners. cbn [List.filter]. rewrite !List.filter_app. cbn [List.filter].
  destruct (_ && _); cbn [length]; rewrite !length_app; cbn [length]; lia.
Qed.

(** The compare-and-set: what its winner found, and wrote. *)
Lemma fence_update_Ok i m w b w' :
  fence_update i m w = (Ok b, w') →
  (b = false ∧ w' = w) ∨
  (b = true ∧ ∃ r, db_intents (w_db w) !! i = Some r ∧ pi_provider_create_fenced_at r = None ∧
     pi_state r = PaymentIntentState.QUEUED ∧
     db_intents (w_db w') !! i = Some (set_pi_provider_create_fenced_at (Some m) r)).
Proof.
  unfold fence_update. intros E. run_step E. apply reads_Ok in Hrun as [-> ->].
  destruct (db_intents (w_db w) !! i) as [r|] eqn:Er; [|apply ret_run_Ok in E as [-> ->]; by left].
  destruct (_ && _) eqn:Eb; [|apply ret_run_Ok in E as [-> ->]; by left].
  apply andb_true_iff in Eb as [Hst%bool_decide_eq_true Hn%is_none_true].
  run_step E. apply write_intent_Ok in Hrun as [_ ->]. apply ret_run_Ok in E as [-> ->].
  right. split; [done|]. exists r. split_and!; try done. cbn. by rewrite lookup_insert_eq.
Qed.

Lemma acquire_Ok i m w b w' : acquire_provider_create_fence i m w = (Ok b, w') →
  w_db w' = w_committed w' ∧
  ∃ w1, fence_update i m w = (Ok b, w1) ∧ w_db w' = w_db w1.
Proof.
  unfold acquire_provider_create_fence. intros E. run_step E. run_step E.
  apply modify_run_Ok in Hrun0 as [_ ->]. apply ret_run_Ok in E as [-> ->]. split; [done|]. by exists s.
Qed.

Lemma once_inv_begin c i e now w l m w1 b w2 :
  admit_create c p i e now w = (Ok (MayCreate m), w1) →
  acquire_provider_create_fence i m w1 = (Ok b, w2) →
  once_inv (mkSystem w l) → once_inv (mkSystem w2 (mkAttempt i e m b (intent_key i w2) :: l)).
Proof.
  intros E1 E2 Hinv. pose proof (oi_settled _ Hinv) as Hs. cbn [sy_world] in Hs.
  pose proof (durable_admit c p i e now w) as D1. pose proof (quiet_admit p c p i e now w) as Q1.
  pose proof (durable_acquire i m w1) as D2. pose proof (quiet_acquire p i m w1) as Q2.
  rewrite E1 in D1, Q1. rewrite E2 in D2, Q2. cbn [snd] in *.
  apply acquire_Ok in E2 as (Hs2 & w3 & Ef & Hd).
  apply (once_inv_forward w w2 l); [done|by etrans|done|by etrans| |].
  - intros a [->|Ha]%elem_of_cons; [right|by left]. intros Hw. cbn [at_won at_intent at_key] in *.
    destruct (fence_update_Ok _ _ _ _ _ Ef) as [[-> _]|(_ & r & _ & _ & _ & Hr)]; [done|].
    rewrite <-Hd in Hr. eexists. split; [exact Hr|]. unfold intent_key. by rewrite Hr.
  - intros k. rewrite winners_cons. cbn [at_won at_key]. pose proof (oi_count _ Hinv k) as Hc.
    cbn [sy_world sy_attempts] in Hc.
    destruct (fence_update_Ok _ _ _ _ _ Ef) as [[-> _]|(-> & r & Hr1 & Hn & _ & Hr)]; [done|].
    rewrite <-Hd in Hr. unfold intent_key. rewrite Hr. cbn [from_option andb pi_idempotency_key set_pi_provider_create_fenced_at].
    destruct (String.eqb_spec (pi_idempotency_key r) k) as [Hk|]; [|done].
    destruct (decide (0 < create_count p k w + winners k l)%nat) as [Hpos|]; [exfalso|lia].
    destruct (once_inv_fenced _ k Hinv Hpos) as (j & r' & Hj & Hk' & Hf). cbn [sy_world] in Hj.
    pose proof (durable_view _ _ D1 Hs) as Hle. destruct (dl_intents _ _ Hle j r' Hj) as (r2 & Hr2 & Hl).
    assert (Hkey : pi_idempotency_key r2 = k).
    { pose proof (il_immutable _ _ Hl) as Hi. injection Hi. intros. congruence. }
    assert (j = i) as ->.
    { apply (io_key _ (dl_intents_ok _ _ Hle (oi_intents _ Hinv)) j i r2 r Hr2 Hr1). congruence. }
    apply (is_fenced_le _ _ Hl) in Hf. rewrite Hr1 in Hr2. injection Hr2 as ->. done.
Qed.

Lemma after_fence_None i e m b w w' : after_fence p i e m b w = (Ok None, w') → b = true.
Proof.
  unfold after_fence. intros E. run_step E. run_step E. destruct (is_none _); [run_inv E|].
  destruct b; [done|]. cbn [negb orb] in E. run_step E. apply ret_run_Ok in E as [? _]. done.
Qed.

Lemma resume_creates a w : w_db w = w_committed w →
  durable_le w (snd (resume a w)) ∧
  (quiet p w (snd (resume a w)) ∨
   at_won a = true ∧ ∀ r, db_intents (w_db w) !! at_intent a = Some r →
     creates p (snd (resume a w)) = creates p w ++ [create_request r]).
Proof.
  intros Hs. split; [unfold resume; revert w Hs; intros w _; revert w; change (evolves durable_le
    (recovered ← after_fence p (at_intent a) (at_event a) (at_moment a) (at_won a);
     match recovered with Some result => mret result
     | None => send_create p (at_intent a) (at_event a) (at_moment a) end)); evolve|].
  unfold resume, mbind, M_bind.
  pose proof (durable_after_fence p (at_intent a) (at_event a) (at_moment a) (at_won a) w) as D.
  pose proof (quiet_after_fence p p (at_intent a) (at_event a) (at_moment a) (at_won a) w) as Q.
  destruct (after_fence _ _ _ _ _ w) as [[[result|]|ex] w1] eqn:E; cbn [snd] in *; [by left| |by left].
  destruct (send_create_creates p (at_intent a) (at_event a) (at_moment a) w1) as [Hq|(row & Hr & _ & Hc)].
  - left. by etrans.
  - right. split; [by eapply after_fence_None|]. intros r Hr0.
    destruct (dl_intents _ _ (durable_view _ _ D Hs) _ r Hr0) as (r' & Hr' & Hl).
    rewrite Hr in Hr'. injection Hr' as <-.
    by rewrite Hc, Q, (create_request_immutable r row (il_immutable _ _ Hl)).
Qed.

Lemma ends_forward w w' : ends w w' → durable_le w w' ∧ quiet p w w' ∧ w_db w' = w_committed w'.
Proof.
  intros []; (split; [|split]); try done; [apply durable_commit|apply durable_rollback].
Qed.

Lemma once_inv_resume w l1 a l2 w' : ends (snd (resume a w)) w' →
  once_inv (mkSystem w (l1 ++ a :: l2)) → once_inv (mkSystem w' (l1 ++ l2)).
Proof.
  intros He Hinv. pose proof (oi_settled _ Hinv) as Hs. cbn [sy_world] in Hs.
  destruct (resume_creates a w Hs) as [D Hcr]. apply ends_forward in He as (D' & Q' & Hs').
  assert (Hcount : ∀ k, (create_count p k w + ((if at_won a && String.eqb (at_key a) k then 1 else 0)
                          + winners k (l1 ++ l2)) <= 1)%nat).
  { intros k. rewrite <-winners_cons, <-winners_mid. apply (oi_count _ Hinv k). }
  destruct Hcr as [Q|[Hw Hc]].
  { apply (once_inv_forward w w' (l1 ++ a :: l2)); [done|by etrans|done|by etrans| |].
    - intros x Hx. left. by apply elem_mid.
    - intros k. specialize (Hcount k). lia. }
  assert (Hin : a ∈ l1 ++ a :: l2) by (apply elem_of_app; right; by left).
  destruct (oi_attempts _ Hinv a Hin Hw) as (r & Hr & Hk & Hf). cbn [sy_world] in Hr. specialize (Hc r Hr). rewrite <-Q' in Hc.
  assert (Hle : db_le (w_db w) (w_db w')) by (apply durable_view; [by etrans|done]).
  constructor; cbn [sy_world sy_attempts]; [done|apply (dl_intents_ok _ _ Hle), (oi_intents _ Hinv)| | |].
  - intros x Hx. apply (attempt_fenced_le x _ _ Hle), (oi_attempts _ Hinv). cbn [sy_attempts].
    by apply elem_mid.
  - rewrite Hc. intros q [Hq|Hq%list_elem_of_singleton]%elem_of_app.
    + apply (fenced_request_le q _ _ Hle). by apply (oi_requests _ Hinv).
    + subst q. apply (fenced_request_le _ _ _ Hle). by exists (at_intent a), r.
  - intros k. unfold create_count. rewrite Hc, List.filter_app, length_app. cbn [List.filter].
    specialize (Hcount k). rewrite Hw in Hcount. cbn [andb] in Hcount. unfold create_count in Hcount.
    change (rq_idempotency_key (create_request r)) with (pi_idempotency_key r). rewrite Hk.
    destruct (String.eqb (at_key a) k); cbn [length]; lia.
Qed.

Lemma once_inv_step s s' : step s s' → once_inv s → once_inv s'.
Proof.
  intros [c i e now w l m w1 b w2 E1 E2|w l1 a l2 w' He|w l1 a l2|w w' l D Hs Q] Hinv.
  - by eapply once_inv_begin.
  - by eapply once_inv_resume.
  - apply (once_inv_forward w w (l1 ++ a :: l2)); [done..|apply (oi_settled _ Hinv)|done| |].
    + intros x Hx. left. by apply elem_mid.
    + intros k. pose proof (oi_count _ Hinv k) as Hc. cbn [sy_world sy_attempts] in Hc.
      rewrite winners_mid, winners_cons in Hc. lia.
  - apply (once_inv_forward w w' l); [done..| |].
    + intros x Hx. by left.
    + intros k. apply (oi_count _ Hinv k).
Qed.
Lemma once_inv_reachable s s' : rtc step s s' → once_inv s → once_inv s'.
Proof. induction 1 as [|a b c Hab Hbc IH]; [done|]. intros Hi. by eapply IH, once_inv_step. Qed.

(** A durable state to start from: nothing uncommitted, nothing sent yet. *)
Record fresh_start (w : World) : Prop := {
  fs_settled : w_db w = w_committed w;
  fs_intents : intents_ok (w_db w);
  fs_creates : creates p w = []
}.
Lemma once_inv_start w : fresh_start w → once_inv (mkSystem w []).
Proof.
  intros [Hs Hi Hc]. constructor; cbn [sy_world sy_attempts]; [done|done| | |].
  - intros a Ha. by apply not_elem_of_nil in Ha.
  - rewrite Hc. intros q Hq. by apply not_elem_of_nil in Hq.
  - intros k. unfold create_count. rewrite Hc. cbn. lia.
Qed.

(** A whole dispatch, and how its session ends, is a run of steps. *)
Lemma dispatch_is_steps c i e now w w' l :
  pv_create_retries_are_idempotent p = false →
  w_db w = w_committed w → ends (snd (dispatch_create c p i e now w)) w' →
  rtc step (mkSystem w l) (mkSystem w' l).
Proof.
  intros Hp Hs He. assert (D := durable_dispatch c p i e now w).
  assert (Hother : quiet p w (snd (dispatch_create c p i e now w)) → rtc step (mkSystem w l) (mkSystem w' l)).
  { intros Q. apply ends_forward in He as (D' & Q' & Hs'). apply rtc_once, step_other; [by etrans|done|by etrans]. }
  destruct (dispatch_create c p i e now w) as [o w3] eqn:E. cbn [snd] in *. clear D.
  unfold dispatch_create in E. unfold mbind at 1, M_bind at 1 in E.
  pose proof (quiet_admit p c p i e now w) as Q1.
  destruct (admit_create c p i e now w) as [[[result|m]|ex] w1] eqn:E1; cbn [snd] in Q1.
  1, 3: injection E as _ <-; by apply Hother.
  rewrite Hp in E. unfold mbind at 1, M_bind at 1 in E.
  pose proof (quiet_acquire p i m w1) as Q2.
  destruct (acquire_provider_create_fence i m w1) as [[b|ex] w2] eqn:E2; cbn [snd] in Q2.
  2: injection E as _ <-; apply Hother; by etrans.
  eapply rtc_l; [by eapply (step_begin c i e now w l m w1 b w2)|].
  apply rtc_once, (step_resume w2 [] _ l w'). unfold resume. cbn [at_intent at_event at_moment at_won].
  by rewrite E.
Qed.
End System.
