(* ===== verification/ExecutorProperties.v ===== *)
(** * Properties of the executor and of reconciliation *)
From S2P Require Import Prelude Python PyFloat Json Text Enums Errors Firewall Canonical Transaction.
From S2P Require Import StateMachines Merchant Kernel Policy Payment Database Hashing Evolution Ledger.
From S2P Require Import Binding Authorization AuthorizationTheorems AuthorizationProperties Outbox.
From S2P Require Import Intents IntentsProperties Provider Executor Reconciliation Webhooks.
From S2P Require Import WebhooksProperties CreateOnce.

(** ** The session's view only grows *)
Definition view_le (w w' : World) : Prop := db_le (w_db w) (w_db w').
#[global] Instance view_le_preorder : PreOrder view_le.
Proof. split; unfold view_le; [intros w; reflexivity|]. intros a b c Hab Hbc. by etrans. Qed.
Lemma evolves_sess_view {A} (m : P A) : evolves sess_le m → evolves view_le m.
Proof. apply evolves_weaken. intros w w' Hle. apply (sl_db _ _ Hle). Qed.
Lemma view_commit : evolves view_le commit.
Proof. intros w. unfold view_le. reflexivity. Qed.
Lemma view_get q a b : evolves view_le (call_get_payment q a b).
Proof. intros w. unfold view_le. reflexivity. Qed.
Lemma view_create q r : evolves view_le (call_create_payment q r).
Proof. intros w. unfold view_le. reflexivity. Qed.
#[export] Hint Resolve view_commit view_get view_create : evolves.
#[export] Hint Extern 5 (evolves view_le _) => apply evolves_sess_view : evolves.

(** ** The authority behind a provider call *)
Section Authority.
Context `{Env}.

(** The intent's authorization has been spent, re-derives to its digest, agrees with
    the intent in every column that decides the payment, and carries its proof. *)
Definition paid_for (i : uuid) (d : DB) : Prop :=
  ∃ r a t, db_intents d !! i = Some r ∧ db_auths d !! pi_authorization_id r = Some a ∧
    au_status a = AuthorizationStatus.CONSUMED ∧ au_mission_id a = pi_mission_id r ∧
    BoundTransaction_new (row_transaction a) = Ok t ∧ digest t = Ok (au_transaction_digest a) ∧
    au_transaction_digest a = pi_transaction_digest r ∧ bt_amount_inr t = pi_amount_inr r ∧
    bt_currency t = pi_currency r ∧ bt_merchant_id t = pi_merchant_id r ∧
    (au_approval_scheme a = ApprovalScheme.POLICY_AUTO ∨
     ∃ key sig, au_signing_key_id a = Some key ∧ au_approval_signature a = Some sig ∧ proof_verifies a key sig).

Lemma proof_verifies_immutable a a' key sig :
  auth_immutable a' = auth_immutable a → proof_verifies a key sig → proof_verifies a' key sig.
Proof.
  unfold auth_immutable, proof_verifies. intros Hi (Hk & kk & kb & sg & msg & H1 & H2 & H3 & H4 & H5).
  injection Hi as Ha Hm Hd _ Hb _ _ _ _ _ _ _ _ _ _. split; [done|]. exists kk, kb, sg, msg.
  by rewrite Ha, Hm, Hb, Hd.
Qed.
Lemma paid_for_le i d d' : db_le d d' → paid_for i d → paid_for i d'.
Proof.
  intros Hle (r & a & t & Hr & Ha & Hs & Hm & Ht & Hd & Hdd & H1 & H2 & H3 & Hpf).
  destruct (dl_intents _ _ Hle i r Hr) as (r' & Hr' & Hrl). destruct (dl_auths _ _ Hle _ a Ha) as (a' & Ha' & Hal).
  pose proof (al_immutable _ _ Hal) as Hia. pose proof (il_immutable _ _ Hrl) as Hir.
  exists r', a', t. unfold intent_immutable in Hir. injection Hir as _ Rm Ra Rd _ _ Ramt Rc Rme _.
  pose proof Hia as Hia'. unfold auth_immutable in Hia'.
  injection Hia' as _ Am Ad An _ Ap Ao Asc _ Ae Bm Bp Bq Ba Bc.
  assert (Hrow : row_transaction a' = row_transaction a).
  { unfold row_transaction. by rewrite Bm, Bp, Bq, Ba, Bc, Ap, Ao, Ae, An. }
  split; [done|]. split; [by rewrite Ra|]. split.
  { pose proof (al_status _ _ Hal) as Hrun. rewrite Hs in Hrun. by apply AuthorizationFSM.final_run in Hrun. }
  rewrite Hrow, Am, Ad, Rm, Rd, Ramt, Rc, Rme, Asc. do 7 (split; [done|]).
  destruct Hpf as [|(key & sig & Hk & Hg & Hp)]; [by left|]. right. exists key, sig.
  split; [destruct (al_key _ _ Hal); congruence|]. split; [destruct (al_signature _ _ Hal); congruence|].
  by apply (proof_verifies_immutable a a').
Qed.

Lemma check_nil (b : bool) (s : string) : (if b then [] else [s]) = [] → b = true.
Proof. by destruct b. Qed.
Lemma verify_io_Ok i e now w x w1 :
  verify_intent_authorization_before_provider_io i e now w = (Ok x, w1) → paid_for i (w_db w1).
Proof.
  unfold verify_intent_authorization_before_provider_io. intros E. run_step E.
  apply get_intent_Ok in Hrun as [Hr ->]. run_step E. unfold reload in Hrun. apply reads_Ok in Hrun as [-> ->].
  destruct (db_auths (w_db w) !! pi_authorization_id a) as [z|] eqn:Ez; [|discriminate E].
  run_step E. apply verify_payment_Ok in Hrun as (-> & Ht & Hd & _ & Hs & _ & dd & _ & Hpf).
  run_step E. assert (s = w) as -> by (unfold get_outbox in Hrun; run_step Hrun; apply reads_Ok in Hrun0 as [-> ->];
    run_inv Hrun; by subst).
  destruct (binding_mismatches z a0 a a1) eqn:Eb; [|discriminate E]. apply ret_run_Ok in E as [_ ->].
  unfold binding_mismatches in Eb.
  apply app_nil in Eb as [B1%check_nil%bool_decide_eq_true Eb]. apply app_nil in Eb as [_ Eb].
  apply app_nil in Eb as [B3%check_nil%String.eqb_eq Eb]. apply app_nil in Eb as [B4%check_nil%String.eqb_eq Eb].
  apply app_nil in Eb as [B5%check_nil%Z.eqb_eq Eb]. apply app_nil in Eb as [B6%check_nil%String.eqb_eq _].
  exists a, z, a0. split_and!; try done.
  destruct Hpf as [(_ & Hp & _)|(_ & _ & key & sig & Hk & Hg & Hv)]; [by left|right; by exists key, sig].
Qed.

(** A run whose provider calls, if it made any, were paid for. *)
Definition io_paid (i : uuid) (w w' : World) : Prop :=
  view_le w w' ∧ (w_calls w' ≠ w_calls w → paid_for i (w_db w')).
#[global] Instance io_paid_preorder i : PreOrder (io_paid i).
Proof.
  split.
  - intros w. split; [reflexivity|done].
  - intros a b c [Hab Pab] [Hbc Pbc]. split; [by etrans|]. intros Hne.
    destruct (decide (w_calls b = w_calls a)) as [Heq|Hb]; [apply Pbc; congruence|].
    by apply (paid_for_le i _ _ Hbc), Pab.
Qed.
Lemma evolves_sess_paid {A} i (m : P A) : evolves sess_le m → evolves (io_paid i) m.
Proof. apply evolves_weaken. intros w w' [Hd _ Hc _]. by split. Qed.
Lemma paid_commit i : evolves (io_paid i) commit.
Proof. intros w. split; [unfold view_le; reflexivity|done]. Qed.

(** Once verified, any further call is paid for. *)
Lemma paid_from i w w' : paid_for i (w_db w) → view_le w w' → io_paid i w w'.
Proof. intros Hp Hv. split; [done|]. intros _. by apply (paid_for_le i _ _ Hv). Qed.
Lemma paid_after_verify {A} i e now (k : P A) :
  evolves view_le k → evolves (io_paid i) (verify_intent_authorization_before_provider_io i e now;; k).
Proof.
  intros Hk w. unfold mbind, M_bind. pose proof (evolves_sess_paid i _ (evolves_verify_io i e now) w) as Hv.
  destruct (verify_intent_authorization_before_provider_io i e now w) as [[[]|ex] w1] eqn:E; cbn [snd] in Hv; [|done].
  etrans; [exact Hv|]. apply paid_from; [by eapply verify_io_Ok|]. apply Hk.
Qed.
End Authority.
#[export] Hint Resolve paid_commit : evolves.
#[export] Hint Extern 5 (evolves (io_paid _) _) => apply evolves_sess_paid : evolves.

Section Calls.
Context `{Env}.

Lemma view_attempt_lookup {A} (m : P A) : evolves view_le m → evolves view_le (attempt_lookup m).
Proof. apply evolves_attempt_lookup, _. Qed.
Lemma view_attempt_create {A} (m : P A) : evolves view_le m → evolves view_le (attempt_create m).
Proof. apply evolves_attempt_create, _. Qed.
Hint Resolve view_attempt_lookup view_attempt_create : evolves.

Lemma view_recover q i e m : evolves view_le (recover_fenced_create q i e m).
Proof. unfold recover_fenced_create. evolve. Qed.
Hint Resolve view_recover : evolves.
Lemma view_acquire i m : evolves view_le (acquire_provider_create_fence i m).
Proof. unfold acquire_provider_create_fence. evolve. apply evolves_sess_view, evolves_fence_update. Qed.
Lemma view_after_fence q i e m b : evolves view_le (after_fence q i e m b).
Proof. unfold after_fence. evolve. Qed.
Lemma view_send q i e m : evolves view_le (send_create q i e m).
Proof. unfold send_create. evolve. Qed.
Hint Resolve view_acquire view_after_fence view_send : evolves.

Lemma paid_recover q i e m : evolves (io_paid i) (recover_fenced_create q i e m).
Proof. unfold recover_fenced_create. apply paid_after_verify. evolve. Qed.
Hint Resolve paid_recover : evolves.
Lemma paid_admit c q i e now : evolves (io_paid i) (admit_create c q i e now).
Proof. unfold admit_create. cbv zeta. evolve. Qed.
Lemma admit_MayCreate c q i e now w m w1 :
  admit_create c q i e now w = (Ok (MayCreate m), w1) → paid_for i (w_db w1).
Proof.
  unfold admit_create. cbv zeta. intros E. run_step E. run_step E. run_step E. run_step E.
  destruct (PaymentFSM.is_terminal _); [run_step E; by apply ret_run_Ok in E as [? _]|].
  destruct (_ && _); [run_step E; by apply ret_run_Ok in E as [? _]|].
  destruct (bool_decide _); [run_step E; run_step E; by apply ret_run_Ok in E as [? _]|].
  run_step E. destruct (negb _); [discriminate E|]. run_step E. apply ret_run_Ok in E as [_ ->].
  by eapply verify_io_Ok.
Qed.

(** After admission everything is paid for. *)
Lemma paid_dispatch c q i e now : evolves (io_paid i) (dispatch_create c q i e now).
Proof.
  intros w. unfold dispatch_create, mbind at 1, M_bind at 1. pose proof (paid_admit c q i e now w) as Ha.
  destruct (admit_create c q i e now w) as [[[result|m]|ex] w1] eqn:E; cbn [snd] in *; [exact Ha| |exact Ha].
  etrans; [exact Ha|]. apply paid_from; [by eapply admit_MayCreate|].
  destruct (pv_create_retries_are_idempotent q); [apply view_send|]. revert w1 E Ha. intros w1 _ _. revert w1.
  change (evolves view_le (fence_acquired ← acquire_provider_create_fence i m;
    recovered ← after_fence q i e m fence_acquired;
    match recovered with Some result => mret result | None => send_create q i e m end)). evolve.
Qed.

Lemma paid_admit_reconcile c q i e now : evolves (io_paid i) (admit_reconcile c q i e now).
Proof.
  unfold admit_reconcile, consume_create_permission. evolve; apply evolves_sess_paid, evolves_fence_unfenced.
Qed.
Lemma admit_reconcile_paid c q i e now w m w1 :
  admit_reconcile c q i e now w = (Ok (m, None), w1) → paid_for i (w_db w1).
Proof.
  unfold admit_reconcile. intros E. run_step E. run_step E. run_step E. run_step E.
  destruct (PaymentFSM.is_terminal _); [run_step E; by apply ret_run_Ok in E as [? _]|]. run_step E.
  destruct (_ && _); [|apply ret_run_Ok in E as [_ ->]; by eapply verify_io_Ok].
  run_step E. run_step E. run_step E.
  destruct (PaymentFSM.is_terminal _); [run_step E; by apply ret_run_Ok in E as [? _]|]. run_step E.
  apply ret_run_Ok in E as [_ ->]. by eapply verify_io_Ok.
Qed.
Lemma paid_reconcile c q i e now : evolves (io_paid i) (reconcile_intent c q i e now).
Proof.
  intros w. unfold reconcile_intent, mbind at 1, M_bind at 1. pose proof (paid_admit_reconcile c q i e now w) as Ha.
  destruct (admit_reconcile c q i e now w) as [[[m [result|]]|ex] w1] eqn:E; cbn [snd] in *; [exact Ha| |exact Ha].
  etrans; [exact Ha|]. apply paid_from; [by eapply admit_reconcile_paid|]. clear E Ha. revert w1.
  change (evolves view_le (row ← get_intent i;
    found ← attempt_lookup (call_get_payment q (pi_provider_payment_id row) (Some (pi_idempotency_key row)));
    conclude q i e m found)). evolve.
Qed.

(** ** What both handlers begin with *)
Definition opening {A} (c : CapabilitySet) (q : PaymentProvider) (i : uuid) (now : option datetime)
    (k : PaymentIntentRow → datetime → P A) : P A :=
  enforce_registered c Capability.PAYMENT_EXECUTE;;
  row ← lock_payment_intent i;
  moment ← moment_of now;
  lift (validate_provider_route row q);;
  k row moment.

(** It refuses and leaves everything alone, or the grant and the route are right. *)
Lemma opening_cases {A} c q i now (k : PaymentIntentRow → datetime → P A) w :
  (∃ ex w1, opening c q i now k w = (Raise ex, w1) ∧ w_db w1 = w_db w ∧ w_calls w1 = w_calls w) ∨
  cs_principal c = "payment-executor" ∧
  ∃ r m w1, db_intents (w_db w) !! i = Some r ∧ pv_name q = pi_provider r ∧
    w_db w1 = w_db w ∧ w_calls w1 = w_calls w ∧ (∀ n, now = Some n → m = as_utc n) ∧
    opening c q i now k w = k r m w1.
Proof.
  unfold opening, mbind, M_bind. pose proof (execute_holder c w) as Hx. rewrite enforce_registered_cases in *.
  destruct (_ && _); [|left; by eexists _, w]. cbn [fst] in Hx.
  unfold lock_payment_intent, get_intent, read_db, reads, gets, mbind, M_bind.
  destruct (db_intents (w_db w) !! i) as [r|] eqn:Er; [|left; by eexists _, w].
  cbn [mret M_ret]. destruct (moment_of_run now w) as (m & w1 & Em & (Hd & _ & Hc) & _ & Hn0). rewrite Em.
  unfold lift, validate_provider_route. destruct (String.eqb_spec (pv_name q) (pi_provider r)) as [Hn|]; cbn [negb].
  2:{ left. by eexists _, w1. }
  right. split; [by apply Hx|]. exists r, m, w1. split_and!; try done.
  intros n Hnow. apply (Hn0 n Hnow).
Qed.

Lemma dispatch_opening c q i e now : ∃ k,
  (∀ w, admit_create c q i e now w = opening c q i now k w) ∧
  ∀ r m, PaymentFSM.is_terminal (pi_state r) = true →
    k r m = (complete_event e (Some m);; mret (Finished (mkDispatchResult (pi_state r) false false))).
Proof.
  eexists. split; [intros w; unfold admit_create, opening; cbv zeta; reflexivity|].
  intros r m Ht. cbv beta. by rewrite Ht.
Qed.
Lemma reconcile_opening c q i e now : ∃ k,
  (∀ w, admit_reconcile c q i e now w = opening c q i now k w) ∧
  ∀ r m, PaymentFSM.is_terminal (pi_state r) = true →
    k r m = (complete_event e (Some m);; mret (m, Some (mkDispatchResult (pi_state r) false false))).
Proof.
  eexists. split; [intros w; unfold admit_reconcile, opening; reflexivity|].
  intros r m Ht. cbv beta. by rewrite Ht.
Qed.
Lemma dispatch_unfold c q i e now k w : (∀ w, admit_create c q i e now w = opening c q i now k w) →
  dispatch_create c q i e now w =
    (opening c q i now k ≫= λ admission,
      match admission with
      | Finished result => mret result
      | MayCreate moment =>
          if pv_create_retries_are_idempotent q then send_create q i e moment
          else
            fence_acquired ← acquire_provider_create_fence i moment;
            recovered ← after_fence q i e moment fence_acquired;
            match recovered with Some result => mret result | None => send_create q i e moment end
      end) w.
Proof. intros Hk. unfold dispatch_create, mbind at 1 4, M_bind at 1 4. by rewrite Hk. Qed.
Lemma reconcile_unfold c q i e now k w : (∀ w, admit_reconcile c q i e now w = opening c q i now k w) →
  reconcile_intent c q i e now w =
    (opening c q i now k ≫= λ admission,
      match admission with
      | (_, Some result) => mret result
      | (moment, None) =>
          row ← get_intent i;
          found ← attempt_lookup (call_get_payment q (pi_provider_payment_id row) (Some (pi_idempotency_key row)));
          conclude q i e moment found
      end) w.
Proof. intros Hk. unfold reconcile_intent, mbind at 1 4, M_bind at 1 4. by rewrite Hk. Qed.
End Calls.

(** ** What leaves the money alone *)
Definition same_money (w w' : World) : Prop :=
  db_intents (w_db w') = db_intents (w_db w) ∧ db_auths (w_db w') = db_auths (w_db w) ∧
  db_missions (w_db w') = db_missions (w_db w) ∧ w_calls w' = w_calls w.
#[global] Instance same_money_preorder : PreOrder same_money.
Proof. split; red; unfold same_money; intros; destruct_and?; split_and!; congruence. Qed.

Section SameMoney.
Context `{Env}.

Lemma money_append m t a p : a ≠ "" → evolves same_money (append_event m t a p).
Proof.
  intros Ha w. pose proof (sl_calls _ _ (evolves_append_event m t a p Ha w)) as Hc.
  destruct (append_event m t a p w) as [x w'] eqn:E. cbn [snd] in *.
  apply append_event_db in E as [l E]. unfold same_money. by rewrite E.
Qed.
Lemma money_moment_of now : evolves same_money (moment_of now).
Proof. intros w. unfold moment_of. by destruct now. Qed.
Lemma money_uuid4 : evolves same_money uuid4.
Proof. intros w. done. Qed.
Lemma money_update_outbox e f : evolves same_money (update_outbox e f).
Proof.
  intros w. unfold update_outbox, read_db, reads, gets, mbind, M_bind. rewrite flush_checked_cases.
  by destruct (violates _).
Qed.
Lemma money_insert_outbox r : evolves same_money (insert_outbox r).
Proof.
  intros w. unfold insert_outbox, read_db, reads, gets, mbind, M_bind. rewrite flush_checked_cases.
  by destruct (violates _).
Qed.
Hint Resolve money_moment_of money_uuid4 money_update_outbox money_insert_outbox : evolves.
Lemma money_append_actor m t p : evolves same_money (append_event m t ACTOR p).
Proof. by apply money_append. Qed.
Hint Resolve money_append_actor : evolves.
Lemma money_complete e now : evolves same_money (complete_event e now).
Proof. unfold complete_event. evolve. Qed.
Lemma money_reschedule e r now d : evolves same_money (reschedule_event e r now d).
Proof. unfold reschedule_event. cbv zeta. evolve. Qed.
Lemma money_enqueue i t p a m : evolves same_money (enqueue_outbox_event i t p a m).
Proof. unfold enqueue_outbox_event. cbv zeta. evolve. Qed.
Hint Resolve money_complete money_reschedule money_enqueue : evolves.
Lemma money_enqueue_reconcile i m : evolves same_money (enqueue_reconcile i m).
Proof. unfold enqueue_reconcile. evolve. Qed.
Lemma money_run {A} (m : P A) w o w' : evolves same_money m → m w = (o, w') → same_money w w'.
Proof. intros Hm E. specialize (Hm w). by rewrite E in Hm. Qed.

(** ** Settled *)
Lemma terminal_opening {A} c q i e now (k : PaymentIntentRow → datetime → P A) (result : datetime → A) w r :
  db_intents (w_db w) !! i = Some r →
  (∀ m, k r m = (complete_event e (Some m);; mret (result m))) →
  same_money w (snd (opening c q i now k w)).
Proof.
  intros Hr Hk. destruct (opening_cases c q i now k w) as [(ex & w1 & -> & Hd & Hc)|(_ & r' & m & w1 & Hr' & _ & Hd & Hc & _ & ->)].
  - cbn. unfold same_money. by rewrite Hd.
  - rewrite Hr in Hr'. injection Hr' as <-. rewrite Hk. trans w1; [unfold same_money; by rewrite Hd|].
    assert (Hm : evolves same_money (complete_event e (Some m);; mret (result m))) by evolve. apply Hm.
Qed.

(** ** Uncertain *)

(** A reconciliation is due for the intent, under another event than [e]. *)
Definition reconciliation_queued (i e : uuid) (d : DB) : Prop :=
  ∃ ev, ev ∈ db_outbox d ∧ ob_id ev ≠ e ∧ ob_payment_intent_id ev = i ∧
    ob_event_type ev = OutboxEventType.PAYMENT_RECONCILE_REQUESTED ∧ ob_status ev = OutboxStatus.PENDING.

Lemma enqueue_fresh i t p at_ m w row w' : enqueue_outbox_event i t p at_ m w = (Ok row, w') →
  ∀ y, y ∈ db_outbox (w_db w) → ob_id y ≠ ob_id row.
Proof.
  unfold enqueue_outbox_event. cbv zeta. intros E. run_step E. injection Hrun as <- <-.
  run_step E. match type of Hrun with moment_of _ ?v = _ =>
    destruct (moment_of_run at_ v) as (mo & w1 & Em & (Hd & _ & _) & _) end.
  rewrite Em in Hrun. injection Hrun as <- <-. run_step E.
  unfold insert_outbox in Hrun. run_step Hrun. apply reads_Ok in Hrun0 as [-> ->]. run_step Hrun.
  apply flush_checked_Ok in Hrun0 as [Hv _]. apply ret_run_Ok in E as [-> _].
  unfold violates in Hv. cbn [List.find fst snd] in Hv. destruct (is_none _) eqn:En; [|discriminate].
  apply is_none_true in En. unfold find_outbox in En. rewrite Hd in En. cbn [w_db ob_id] in *.
  intros y Hy%list_elem_of_In Heq. apply (List.find_none _ _ En) in Hy. by rewrite bool_decide_eq_true_2 in Hy.
Qed.

(** A transition to the same row's next state, and what it leaves. *)
Lemma transition_leaves i t ev p rc w x w' : apply_payment_transition i t ev p rc w = (Ok x, w') →
  db_outbox (w_db w') = db_outbox (w_db w) ∧
  ∃ r, db_intents (w_db w) !! i = Some r ∧
    db_intents (w_db w') !! i = Some (set_pi_last_reason_code rc (set_pi_state t r)).
Proof.
  intros (r & l & Hr & _ & Hd)%apply_payment_transition_Ok. rewrite Hd. split; [done|].
  exists r. split; [done|]. cbn. by rewrite lookup_insert_eq.
Qed.
Lemma append_leaves m t a p w x w' : append_event m t a p w = (x, w') →
  db_outbox (w_db w') = db_outbox (w_db w) ∧ db_intents (w_db w') = db_intents (w_db w).
Proof. intros [l E]%append_event_db. by rewrite E. Qed.

Lemma mark_uncertain_Ok i d now rc t w x w' :
  mark_uncertain i d now rc t w = (Ok x, w') →
  ∃ r' ev, db_intents (w_db w') !! i = Some r' ∧ pi_state r' = PaymentIntentState.PROVIDER_PENDING ∧
    ev ∈ db_outbox (w_db w') ∧ ob_payment_intent_id ev = pi_id r' ∧
    ob_event_type ev = OutboxEventType.PAYMENT_RECONCILE_REQUESTED ∧ ob_status ev = OutboxStatus.PENDING ∧
    (∀ y, y ∈ db_outbox (w_db w) → ob_id y ≠ ob_id ev).
Proof.
  unfold mark_uncertain. cbv zeta. intros E. run_step E. apply get_intent_Ok in Hrun as [Hr0 ->].
  run_step E. assert (Ho1 : db_outbox (w_db s) = db_outbox (w_db w)).
  { destruct (_ || _); [|by apply ret_run_Ok in Hrun as [_ ->]].
    unfold remember_provider_ambiguity in Hrun. by apply update_intent_Ok in Hrun as (r & _ & ->). }
  clear Hrun. run_step E. apply get_intent_Ok in Hrun as [Hr ->].
  run_step E. assert (H2 : db_outbox (w_db s0) = db_outbox (w_db s) ∧ db_intents (w_db s0) = db_intents (w_db s)).
  { destruct t; [|by apply ret_run_Ok in Hrun as [_ ->]]. run_step Hrun. apply ret_run_Ok in Hrun as [_ ->].
    by apply append_leaves in Hrun0. }
  clear Hrun. destruct H2 as [Ho2 Hi2].
  run_step E. assert (H3 : db_outbox (w_db s1) = db_outbox (w_db s0) ∧
    ∃ r', db_intents (w_db s1) !! i = Some r' ∧ pi_state r' = PaymentIntentState.PROVIDER_PENDING ∧ pi_id r' = pi_id a1).
  { destruct (bool_decide _) eqn:Hst.
    - apply bool_decide_eq_true in Hst. run_step Hrun. apply update_intent_Ok in Hrun0 as (r & Hr2 & ->).
      run_step Hrun. apply append_leaves in Hrun0 as [Ho Hi]. apply ret_run_Ok in Hrun as [_ ->].
      rewrite Hi2, Hr in Hr2. injection Hr2 as <-. split; [by rewrite Ho|]. eexists. rewrite Hi. cbn.
      rewrite lookup_insert_eq. split; [reflexivity|]. by split.
    - apply transition_leaves in Hrun as (Ho & r & Hr2 & Hi). rewrite Hi2, Hr in Hr2. injection Hr2 as <-.
      split; [done|]. eexists. split; [exact Hi|]. by split. }
  clear Hrun. destruct H3 as (Ho3 & r' & Hr' & Hst & Hid).
  run_step E. apply ret_run_Ok in E as [_ ->]. pose proof (enqueue_fresh _ _ _ _ _ _ _ _ Hrun) as Hfresh.
  apply enqueue_Ok in Hrun as (Hd & He1 & He2 & _ & He3 & _). rewrite Ho3, Ho2, Ho1 in Hfresh.
  exists r', a4. rewrite Hd. cbn. split; [done|]. split; [done|].
  split; [apply elem_of_app; right; by left|]. split; [congruence|]. by split_and!.
Qed.

(** The retryable arm of a refused create. *)
Lemma retryable_Ok i e ev p rc detail m w result w' :
  (apply_payment_transition i PaymentIntentState.FAILED_RETRYABLE ev p rc;;
   retried ← reschedule_event e detail m None;
   audit_retry i retried e;;
   mret (mkDispatchResult PaymentIntentState.FAILED_RETRYABLE true retried)) w = (Ok result, w') →
  ∃ r', db_intents (w_db w') !! i = Some r' ∧ pi_state r' = ds_state result ∧
    ds_state result = PaymentIntentState.FAILED_RETRYABLE.
Proof.
  intros E. run_step E. apply transition_leaves in Hrun as (_ & r & _ & Hr). run_step E.
  apply (money_run _ _ _ _ (money_reschedule _ _ _ _)) in Hrun as (Hi & _). run_step E.
  assert (Hm : evolves same_money (audit_retry i a0 e)) by (unfold audit_retry; evolve).
  apply (money_run _ _ _ _ Hm) in Hrun as (Hi2 & _). apply ret_run_Ok in E as [-> ->].
  eexists. rewrite Hi2, Hi. split; [exact Hr|]. by split.
Qed.

Lemma complete_Ok e now w x w' : complete_event e now w = (Ok x, w') →
  db_intents (w_db w') = db_intents (w_db w) ∧
  ∀ y, y ∈ db_outbox (w_db w) → ob_id y ≠ e → y ∈ db_outbox (w_db w').
Proof.
  intros E. split; [apply (money_run _ _ _ _ (money_complete e now) E)|].
  unfold complete_event in E. run_step E. destruct (moment_of_run now w) as (m & w1 & Em & (Hd & _ & _) & _).
  rewrite Em in Hrun. injection Hrun as <- <-. unfold update_outbox in E. run_step E.
  apply reads_Ok in Hrun as [-> ->]. run_step E. apply flush_checked_Ok in Hrun as [_ ->].
  apply modify_run_Ok in E as [_ ->]. cbn. rewrite Hd. intros y Hy Hne.
  apply list_elem_of_fmap. exists y. rewrite bool_decide_eq_false_2 by done. done.
Qed.

Lemma leave_uncertain_Ok i e d now rc t w result w' :
  (∃ y, y ∈ db_outbox (w_db w) ∧ ob_id y = e) →
  leave_uncertain i e d now rc t w = (Ok result, w') →
  result = still_uncertain ∧
  ∃ r', db_intents (w_db w') !! i = Some r' ∧ pi_state r' = PaymentIntentState.PROVIDER_PENDING ∧
    reconciliation_queued (pi_id r') e (w_db w').
Proof.
  intros (y & Hy & Hye) E. unfold leave_uncertain in E. run_step E.
  apply mark_uncertain_Ok in Hrun as (r' & ev & Hr' & Hst & Hev & H1 & H2 & H3 & Hfresh).
  run_step E. apply complete_Ok in Hrun as [Hi Hkeep]. apply ret_run_Ok in E as [-> ->]. split; [done|].
  assert (Hne : ob_id ev ≠ e) by (rewrite <-Hye; intros Heq; by apply (Hfresh y Hy)).
  exists r'. rewrite Hi. split; [done|]. split; [done|]. exists ev. split_and!; try done. by apply Hkeep.
Qed.

(** The outbox is left alone. *)
Definition same_outbox (w w' : World) : Prop := db_outbox (w_db w') = db_outbox (w_db w).
#[global] Instance same_outbox_preorder : PreOrder same_outbox.
Proof. split; unfold same_outbox; [done|]. intros a b c. congruence. Qed.
Lemma outbox_write_intent i r : evolves same_outbox (write_intent i r).
Proof.
  intros w. unfold write_intent, read_db, reads, gets, mbind, M_bind. rewrite flush_checked_cases.
  by destruct (violates _).
Qed.
Lemma outbox_append m t a p : evolves same_outbox (append_event m t a p).
Proof. intros w. destruct (append_event m t a p w) as [x w'] eqn:E. by apply append_leaves in E as [E _]. Qed.
Lemma outbox_assert s t : evolves same_outbox (PaymentFSM.assert_payment_transition s t : P unit).
Proof. intros w. rewrite assert_payment_transition_cases. by destruct (PaymentFSM.can_transition s t). Qed.
Hint Resolve outbox_write_intent outbox_append outbox_assert : evolves.
Lemma outbox_update_intent i f : evolves same_outbox (update_intent i f).
Proof. unfold update_intent. evolve. Qed.
Lemma outbox_transition i t ev p rc : evolves same_outbox (apply_payment_transition i t ev p rc).
Proof. unfold apply_payment_transition. evolve. Qed.
Hint Resolve outbox_update_intent outbox_transition : evolves.
Lemma outbox_record_attempt i a b : evolves same_outbox (record_payment_attempt i a b).
Proof. unfold record_payment_attempt, move_intent. evolve. Qed.

(** ** Validated *)
Lemma validate_Ok r payment b :
  validate_provider_payment r payment b = Ok tt →
  pp_provider payment = pi_provider r ∧ pp_amount_inr payment = pi_amount_inr r ∧
  pp_currency payment = pi_currency r ∧ (∀ k, pp_idempotency_key payment = Some k → k = pi_idempotency_key r) ∧
  (b = true → pp_idempotency_key payment = Some (pi_idempotency_key r)).
Proof.
  unfold validate_provider_payment. destruct (payment_mismatches r payment b) eqn:E; [intros _|done].
  unfold payment_mismatches in E. apply app_nil in E as [E1 E]. apply app_nil in E as [E2 E]. apply app_nil in E as [E3 E4].
  destruct (String.eqb_spec (pp_provider payment) (pi_provider r)) as [H1|]; [|discriminate].
  destruct (Z.eqb_spec (pp_amount_inr payment) (pi_amount_inr r)) as [H2|]; [|discriminate].
  destruct (String.eqb_spec (pp_currency payment) (pi_currency r)) as [H3|]; [|discriminate].
  do 3 (split; [done|]). destruct (pp_idempotency_key payment) as [k|].
  - destruct (String.eqb_spec k (pi_idempotency_key r)) as [Hk|]; [|discriminate].
    split; [intros k' Hk'; congruence|by rewrite Hk].
  - destruct b; [discriminate|]. done.
Qed.

Lemma assign_once_Ok getattr setattr v label r x r' :
  assign_once getattr setattr (Some v) label r = (Ok x, r') →
  (∀ r y, getattr (setattr (Some y) r) = Some y) → getattr r' = Some v.
Proof.
  unfold assign_once. intros E Hset. run_step E. apply gets_run_Ok in Hrun as [-> ->].
  destruct (getattr r) as [y|] eqn:Ey.
  - destruct (String.eqb_spec y v) as [->|]; [by apply ret_run_Ok in E as [_ ->]|].
    run_step E. apply lift_run_Ok in E as [E _]. discriminate E.
  - apply modify_run_Ok in E as [_ ->]. apply Hset.
Qed.
(** Linking keeps the state, and the reference once there is one. *)
Definition link_keeps (r r' : PaymentIntentRow) : Prop :=
  pi_state r' = pi_state r ∧ (pi_provider_payment_id r ≠ None → pi_provider_payment_id r' = pi_provider_payment_id r).
#[global] Instance link_keeps_preorder : PreOrder link_keeps.
Proof.
  split; unfold link_keeps; [done|]. intros a b c [S P] [S' P']. split; [congruence|].
  intros Hn. rewrite <-(P Hn). apply P'. by rewrite (P Hn).
Qed.
Lemma keeps_assign_once getattr setattr v label :
  (∀ r x, getattr r = None → link_keeps r (setattr (Some x) r)) →
  evolves link_keeps (assign_once getattr setattr v label).
Proof.
  intros Hs r. unfold assign_once. destruct v as [v|]; cbn; [|reflexivity].
  unfold mbind, M_bind, gets. destruct (getattr r) as [x|] eqn:E; [|by apply Hs].
  destruct (String.eqb x v); cbn; reflexivity.
Qed.
Lemma link_attributes_Ok payment r x r' : link_attributes payment r = (Ok x, r') →
  pi_state r' = pi_state r ∧ pi_provider_payment_id r' = Some (pp_provider_payment_id payment).
Proof.
  unfold link_attributes. intros E. unfold mbind at 1, M_bind at 1 in E.
  pose proof (keeps_assign_once pi_provider_payment_id set_pi_provider_payment_id
    (Some (pp_provider_payment_id payment)) "provider reference") as Hk1.
  specialize (Hk1 ltac:(intros q y Hq; split; [done|by intros Hn]) r).
  destruct (assign_once _ _ _ _ r) as [[[]|e] r1] eqn:E1; [|done]. cbn [snd] in Hk1.
  assert (Hpid : pi_provider_payment_id r1 = Some (pp_provider_payment_id payment))
    by (by eapply assign_once_Ok).
  assert (Hk2 : link_keeps r1 r').
  { match type of E with ?m r1 = _ => assert (Hm : evolves link_keeps m) end.
    { repeat (apply (evolves_bind link_keeps); [|intros _]).
      1, 2: apply keeps_assign_once; by intros.
      - destruct (bool_decide _); [|apply evolves_ret; apply _]. apply keeps_assign_once; by intros.
      - apply evolves_modify. intros q. by destruct (pp_provider_status payment).
      - apply evolves_modify. intros q. by destruct (pp_provider_attempts payment). }
    specialize (Hm r1). by rewrite E in Hm. }
  destruct Hk1 as [S1 _], Hk2 as [S2 P2]. split; [congruence|]. rewrite P2; [done|by rewrite Hpid].
Qed.
Lemma link_Ok i payment w x w' :
  link_provider_payment i payment w = (Ok x, w') →
  ∃ r r', db_intents (w_db w) !! i = Some r ∧ db_intents (w_db w') !! i = Some r' ∧
    pi_provider_payment_id r' = Some (pp_provider_payment_id payment) ∧ pi_state r' = pi_state r.
Proof.
  unfold link_provider_payment, on_object. intros E. run_step E. apply get_intent_Ok in Hrun as [Hr ->].
  destruct (link_attributes payment a) as [o r'] eqn:El. run_step E. apply lift_run_Ok in E as [-> ->].
  apply link_attributes_Ok in El as [Hst Hpid]. exists a, r'. split; [done|]. split; [|done].
  destruct (bool_decide (r' = a)) eqn:Eb.
  - apply bool_decide_eq_true in Eb as ->. by apply ret_run_Ok in Hrun as [_ ->].
  - apply write_intent_Ok in Hrun as [_ ->]. cbn. by rewrite lookup_insert_eq.
Qed.

Lemma apply_mission_state_intents m t w x w' : apply_mission_state m t w = (Ok x, w') →
  db_intents (w_db w') = db_intents (w_db w).
Proof. intros E. destruct (apply_mission_state_db m t w) as (mm & Hd & _). rewrite E in Hd. cbn [snd] in Hd. by rewrite Hd. Qed.

(** What a provider's answer did to the intent. *)
Lemma apply_provider_payment_Ok i payment now w st w' :
  apply_provider_payment i payment now w = (Ok st, w') →
  ∃ r r', db_intents (w_db w) !! i = Some r ∧ db_intents (w_db w') !! i = Some r' ∧
    validate_provider_payment r payment (is_none (pi_provider_payment_id r)) = Ok tt ∧
    pi_provider_payment_id r' = Some (pp_provider_payment_id payment) ∧ pi_state r' = st ∧
    st = (if PaymentFSM.is_terminal (pi_state r) then pi_state r
          else provider_status_to_state (pp_status payment)).
Proof.
  unfold apply_provider_payment. cbv zeta. intros E. run_step E.
  destruct (moment_of_run now w) as (m & w0 & Em & (Hd & _ & _) & _). rewrite Em in Hrun. injection Hrun as <- <-.
  run_step E. apply get_intent_Ok in Hrun as [Hr ->]. rewrite Hd in Hr. run_step E.
  apply lift_run_Ok in Hrun as [Hval ->]. destruct a0. run_step E. apply link_Ok in Hrun as (r1 & r' & Hr1 & Hr' & Hpid & Hst).
  rewrite Hd, Hr in Hr1. injection Hr1 as <-.
  destruct (_ || _) eqn:Eb.
  { apply ret_run_Ok in E as [-> ->]. exists a, r'. split_and!; try done.
    apply orb_true_iff in Eb as [Hb%bool_decide_eq_true|Hb]; [|by rewrite Hb]. rewrite <-Hb. by destruct (PaymentFSM.is_terminal _). }
  apply orb_false_iff in Eb as [_ Hterm]. run_step E. run_step E. apply get_intent_Ok in Hrun0 as [Hr2 ->].
  apply ret_run_Ok in E as [-> ->]. exists a, a2. rewrite Hterm. do 3 (split; [done|]).
  enough (∃ t rc, t = provider_status_to_state (pp_status payment) ∧
    db_intents (w_db s0) !! i = Some (set_pi_last_reason_code rc (set_pi_state t r'))) as (t & rc & Ht & Hx).
  { rewrite Hr2 in Hx. injection Hx as ->. by split_and!. }
  destruct (pp_status payment); cbn [provider_status_to_state] in Hrun |- *.
  all: first [ run_step Hrun; apply transition_leaves in Hrun0 as (_ & q & Hq & Hx);
               apply apply_mission_state_intents in Hrun; rewrite Hrun
             | apply transition_leaves in Hrun as (_ & q & Hq & Hx) ];
    rewrite Hr' in Hq; injection Hq as <-; by eexists _, _.
Qed.
(** An opening that went on to call a provider. *)
Lemma opening_called {A B} c q i e now (k : PaymentIntentRow → datetime → P A) (g : PaymentIntentRow → datetime → A)
    (f : A → P B) w :
  (∀ r m, PaymentFSM.is_terminal (pi_state r) = true → k r m = (complete_event e (Some m);; mret (g r m))) →
  (∀ r m w, PaymentFSM.is_terminal (pi_state r) = true → w_calls (snd (f (g r m) w)) = w_calls w) →
  w_calls (snd ((opening c q i now k ≫= f) w)) ≠ w_calls w →
  cs_principal c = "payment-executor" ∧
  ∃ r, db_intents (w_db w) !! i = Some r ∧ pv_name q = pi_provider r ∧ PaymentFSM.is_terminal (pi_state r) = false.
Proof.
  intros Hk Hf. unfold mbind, M_bind.
  destruct (opening_cases c q i now k w) as [(ex & w1 & -> & _ & Hc)|(Hp & r & m & w1 & Hr & Hn & _ & Hc & _ & ->)]; [done|].
  intros Hne. split; [done|]. exists r. split; [done|]. split; [done|].
  destruct (PaymentFSM.is_terminal (pi_state r)) eqn:Et; [exfalso|done]. apply Hne. rewrite Hk by done.
  assert (Hm : evolves same_money (complete_event e (Some m);; mret (g r m))) by (eauto with evolves; evolve).
  specialize (Hm w1). pose proof Hm as (_ & _ & _ & Hm').
  destruct ((complete_event e (Some m);; mret (g r m)) w1) as [[x|ex] w2] eqn:E; cbn [snd] in *; [|congruence].
  assert (x = g r m) as -> by (run_step E; by apply ret_run_Ok in E as [-> _]).
  rewrite Hf by done. congruence.
Qed.

(** The same, of a settled intent. *)
Lemma opening_settled {A B} c q i e now (k : PaymentIntentRow → datetime → P A) (g : PaymentIntentRow → datetime → A)
    (f : A → P B) w r :
  (∀ r m, PaymentFSM.is_terminal (pi_state r) = true → k r m = (complete_event e (Some m);; mret (g r m))) →
  (∀ r m w, PaymentFSM.is_terminal (pi_state r) = true → snd (f (g r m) w) = w) →
  db_intents (w_db w) !! i = Some r → PaymentFSM.is_terminal (pi_state r) = true →
  same_money w (snd ((opening c q i now k ≫= f) w)).
Proof.
  intros Hk Hf Hr Ht. pose proof (terminal_opening c q i e now k (g r) w r Hr (λ m, Hk r m Ht)) as Hm.
  unfold mbind, M_bind. destruct (opening_cases c q i now k w)
    as [(ex & w1 & E & _)|(_ & r' & m & w1 & Hr' & _ & _ & _ & _ & E)]; rewrite E in *; [exact Hm|].
  rewrite Hr in Hr'. injection Hr' as <-. rewrite (Hk r m Ht) in Hm |- *.
  destruct ((complete_event e (Some m);; mret (g r m)) w1) as [[x|ex] w2] eqn:E2; cbn [snd] in *; [|done].
  assert (x = g r m) as -> by (run_step E2; by apply ret_run_Ok in E2 as [-> _]). by rewrite Hf.
Qed.
End SameMoney.

(** ** Properties *)
Section Properties.
Context `{Env}.

(** C6: No provider call without a spent authorization.  If a dispatch or a
    reconciliation called the provider, the caller holds the registered executor
    grant, the adapter is the intent's own, the intent was not settled, and the
    intent's authorization is CONSUMED, re-derives to the digest it was issued with,
    agrees with the intent on mission, digest, amount, currency and merchant, and is
    either automatic or carries a signature that verifies. *)
Theorem provider_io_requires_authority (c : CapabilitySet) (q : PaymentProvider) (i e : uuid) (now : option datetime)
    (w w' : World) :
  (w' = snd (dispatch_create c q i e now w) ∨ w' = snd (reconcile_intent c q i e now w)) →
  w_calls w' ≠ w_calls w →
  cs_principal c = "payment-executor" ∧ paid_for i (w_db w') ∧
  ∃ r, db_intents (w_db w) !! i = Some r ∧ pv_name q = pi_provider r ∧ PaymentFSM.is_terminal (pi_state r) = false.
Proof.
  intros Hw Hc.
  assert (Hp : paid_for i (w_db w')).
  { destruct Hw as [-> | ->]; [by apply (paid_dispatch c q i e now w)|by apply (paid_reconcile c q i e now w)]. }
  assert (Ho : cs_principal c = "payment-executor" ∧
    ∃ r, db_intents (w_db w) !! i = Some r ∧ pv_name q = pi_provider r ∧ PaymentFSM.is_terminal (pi_state r) = false).
  { destruct Hw as [-> | ->].
    - destruct (dispatch_opening c q i e now) as (k & Hk & Ht).
      rewrite (dispatch_unfold c q i e now k w Hk) in Hc. by apply (opening_called _ _ _ _ _ _ _ _ _ Ht) in Hc.
    - destruct (reconcile_opening c q i e now) as (k & Hk & Ht).
      rewrite (reconcile_unfold c q i e now k w Hk) in Hc. by apply (opening_called _ _ _ _ _ _ _ _ _ Ht) in Hc. }
  destruct Ho as [H1 H2]. by split_and!.
Qed.

(** A settled payment is final for the executor.  A dispatch or a reconciliation
    of an intent in a terminal state calls no provider and changes no intent,
    authorization or mission. *)
Theorem settled_payment_is_final (c : CapabilitySet) (q : PaymentProvider) (i e : uuid) (now : option datetime)
    (w : World) (r : PaymentIntentRow) :
  db_intents (w_db w) !! i = Some r → PaymentFSM.is_terminal (pi_state r) = true →
  same_money w (snd (dispatch_create c q i e now w)) ∧ same_money w (snd (reconcile_intent c q i e now w)).
Proof.
  intros Hr Ht. split.
  - destruct (dispatch_opening c q i e now) as (k & Hk & Hterm). rewrite (dispatch_unfold c q i e now k w Hk).
    by apply (opening_settled _ _ _ _ _ _ _ _ _ r Hterm).
  - destruct (reconcile_opening c q i e now) as (k & Hk & Hterm). rewrite (reconcile_unfold c q i e now k w Hk).
    by apply (opening_settled _ _ _ _ _ _ _ _ _ r Hterm).
Qed.

(** C9: An answer settles a payment only if it is about that payment.  When
    [apply_provider_payment] returns, the answer named the intent's provider, amount
    and currency, and its idempotency key (which must be present unless the payment
    was already linked); the intent now records the answer's payment id, and its state
    is the one the answer's status maps to, unless it was settled before. *)
Theorem settlement_is_validated (i : uuid) (payment : ProviderPayment) (now : option datetime) (w w' : World)
    (st : PaymentIntentState) :
  apply_provider_payment i payment now w = (Ok st, w') →
  ∃ r r', db_intents (w_db w) !! i = Some r ∧ db_intents (w_db w') !! i = Some r' ∧
    pp_provider payment = pi_provider r ∧ pp_amount_inr payment = pi_amount_inr r ∧
    pp_currency payment = pi_currency r ∧
    (∀ k, pp_idempotency_key payment = Some k → k = pi_idempotency_key r) ∧
    (pi_provider_payment_id r = None → pp_idempotency_key payment = Some (pi_idempotency_key r)) ∧
    pi_provider_payment_id r' = Some (pp_provider_payment_id payment) ∧ pi_state r' = st ∧
    st = (if PaymentFSM.is_terminal (pi_state r) then pi_state r
          else provider_status_to_state (pp_status payment)).
Proof.
  intros (r & r' & Hr & Hr' & Hv & Hid & Hst & He)%apply_provider_payment_Ok.
  apply validate_Ok in Hv as (H1 & H2 & H3 & H4 & H5). exists r, r'. split_and!; try done.
  intros Hn. apply H5. by rewrite Hn.
Qed.

(** C10: A lost or refused create is recorded for what it is.  After the create call of
    a dispatch failed: a timeout, and a transient refusal by a provider whose create
    is not idempotent, leave the payment PROVIDER_PENDING with a reconciliation queued
    under a new event, never failed and never retried as a create; a transient refusal
    by an idempotent provider makes it FAILED_RETRYABLE; only a terminal refusal makes
    it FAILED_TERMINAL. *)
Theorem failed_create_is_honest (p : PaymentProvider) (i e : uuid) (m : datetime) (err : ProviderError)
    (w w' : World) (result : DispatchResult) :
  (∃ y, y ∈ db_outbox (w_db w) ∧ ob_id y = e) →
  pe_kind err ≠ ProviderPaymentMismatch →
  settle_create p i e m (inl err) w = (Ok result, w') →
  ∃ r', db_intents (w_db w') !! i = Some r' ∧ pi_state r' = ds_state result ∧
    match pe_kind err with
    | ProviderTerminalError => ds_state result = PaymentIntentState.FAILED_TERMINAL ∧ ds_retry_scheduled result = false
    | ProviderTimeout => result = still_uncertain ∧ reconciliation_queued (pi_id r') e (w_db w')
    | _ => if pv_create_retries_are_idempotent p then ds_state result = PaymentIntentState.FAILED_RETRYABLE
           else result = still_uncertain ∧ reconciliation_queued (pi_id r') e (w_db w')
    end.
Proof.
  intros (y & Hy & Hye) Hkind E. unfold settle_create in E. run_step E. apply get_intent_Ok in Hrun as [Hr ->].
  run_step E. pose proof (outbox_record_attempt i true false w) as Ho. rewrite Hrun in Ho. cbn [snd] in Ho.
  assert (Hy' : ∃ y, y ∈ db_outbox (w_db s) ∧ ob_id y = e) by (exists y; by rewrite Ho). clear Hrun Ho.
  destruct (pe_kind err); try done.
  - apply (leave_uncertain_Ok _ _ _ _ _ _ _ _ _ Hy') in E as (-> & r' & Hr' & Hst & Hq). by exists r'.
  - destruct (pv_create_retries_are_idempotent p); cbn [negb] in E.
    + apply retryable_Ok in E as (r' & Hr' & Hst & Hds). by exists r'.
    + apply (leave_uncertain_Ok _ _ _ _ _ _ _ _ _ Hy') in E as (-> & r' & Hr' & Hst & Hq). by exists r'.
  - destruct (pv_create_retries_are_idempotent p); cbn [negb] in E.
    + apply retryable_Ok in E as (r' & Hr' & Hst & Hds). by exists r'.
    + apply (leave_uncertain_Ok _ _ _ _ _ _ _ _ _ Hy') in E as (-> & r' & Hr' & Hst & Hq). by exists r'.
  - run_step E. apply transition_leaves in Hrun as (_ & r0 & _ & Hr'). run_step E.
    apply apply_mission_state_intents in Hrun. run_step E. apply complete_Ok in Hrun0 as [Hi _].
    apply ret_run_Ok in E as [-> ->]. eexists. rewrite Hi, Hrun. by split.
Qed.
End Properties.

#[local] Existing Instance demo_env.

(** A payment requested at a provider that times out, and its dispatch. *)
Definition queued_world : World :=
  snd (create_payment_intent executor 7%N 11%N "key-1" "razorpay_test" (Some noon_utc) ready_world).
Definition queued_event : uuid := match db_outbox (w_db queued_world) with r :: _ => ob_id r | [] => 0%N end.
Abbreviation timed_out_dispatch :=
  (dispatch_create (H:=demo_env) executor signed_provider 1%N queued_event (Some noon_utc)).

Lemma provider_io_requires_authority_witness :
  w_calls (snd (timed_out_dispatch queued_world)) ≠ w_calls queued_world ∧ cs_principal executor = "payment-executor".
Proof.
  assert (Hc : w_calls (snd (timed_out_dispatch queued_world)) ≠ w_calls queued_world).
  { intros Hx. apply (f_equal length) in Hx. vm_compute in Hx. discriminate Hx. }
  split; [exact Hc|].
  exact (proj1 (provider_io_requires_authority executor signed_provider 1%N queued_event (Some noon_utc) queued_world
    (snd (timed_out_dispatch queued_world)) (or_introl eq_refl) Hc)).
Defined.

Lemma settled_payment_is_final_witness :
  same_money (snd (paid_delivery pending_world))
    (snd (dispatch_create executor signed_provider 1%N 5%N None (snd (paid_delivery pending_world)))).
Proof.
  destruct (db_intents (w_db (snd (paid_delivery pending_world))) !! 1%N) as [r|] eqn:Er;
    [|vm_compute in Er; discriminate Er].
  assert (Ht : PaymentFSM.is_terminal (pi_state r) = true) by (revert Er; vm_compute; by intros [= <-]).
  exact (proj1 (settled_payment_is_final executor signed_provider 1%N 5%N None (snd (paid_delivery pending_world)) r Er Ht)).
Defined.

Definition captured_payment : ProviderPayment :=
  mkProviderPayment "razorpay_test" "pay_1" ProviderPaymentStatus.SUCCEEDED 4299 "INR" (Some "key-1") (Some "order_1")
    (Some "txn_1") None None None false.
Lemma settlement_is_validated_witness :
  fst (apply_provider_payment 1%N captured_payment (Some noon_utc) pending_world) = Ok PaymentIntentState.SUCCEEDED ∧
  pp_currency captured_payment = "INR".
Proof.
  assert (E : fst (apply_provider_payment 1%N captured_payment (Some noon_utc) pending_world)
    = Ok PaymentIntentState.SUCCEEDED) by (vm_compute; reflexivity).
  split; [exact E|]. apply fst_run in E.
  destruct (settlement_is_validated 1%N captured_payment (Some noon_utc) pending_world _ _ E) as (r & _ & _ & _ & _ & _ & Hc & _).
  reflexivity.
Defined.

Lemma failed_create_is_honest_witness :
  fst (settle_create signed_provider 1%N queued_event noon_utc (inl (mkProviderError ProviderTimeout "razorpay_test" "no answer"))
         queued_world) = Ok still_uncertain ∧
  ∃ r', pi_state r' = PaymentIntentState.PROVIDER_PENDING.
Proof.
  assert (E : fst (settle_create signed_provider 1%N queued_event noon_utc
    (inl (mkProviderError ProviderTimeout "razorpay_test" "no answer")) queued_world) = Ok still_uncertain)
    by (vm_compute; reflexivity).
  split; [exact E|]. apply fst_run in E.
  assert (Hq : ∃ y, y ∈ db_outbox (w_db queued_world) ∧ ob_id y = queued_event).
  { unfold queued_event. destruct (db_outbox (w_db queued_world)) as [|y l] eqn:Eq; [vm_compute in Eq; discriminate Eq|].
    exists y. split; [by left|done]. }
  assert (Hk : pe_kind (mkProviderError ProviderTimeout "razorpay_test" "no answer") ≠ ProviderPaymentMismatch) by discriminate.
  destruct (failed_create_is_honest signed_provider 1%N queued_event noon_utc
    (mkProviderError ProviderTimeout "razorpay_test" "no answer") queued_world _ still_uncertain Hq Hk E)
    as (r' & _ & Hst & _).
  by exists r'.
Defined.
