(* ===== verification/Worker.v ===== *)
(** * The outbox worker

    services/payment_executor/worker.py: one turn claims an event in a transaction of
    its own, handles it in a second one, and returns it to the queue in a third if
    the handler raised.  A session is the World seen from the durable state, and
    what it did not commit is gone when it closes. *)
From S2P Require Import Prelude Python PyText PyFloat Json Text Enums Errors Firewall Canonical Transaction.
From S2P Require Import StateMachines Merchant Kernel Policy Payment Database Hashing Evolution Ledger.
From S2P Require Import Binding Authorization AuthorizationTheorems Outbox Intents Provider Executor.
From S2P Require Import Reconciliation.

Definition EXECUTOR_PRINCIPAL : string := "payment-executor".

(** [event_id], [event_type] and [result] are all [None] when the queue was idle. *)
Record WorkerOutcome := mkWorkerOutcome {
  wk_event_id : option uuid;
  wk_event_type : option OutboxEventType;
  wk_result : option DispatchResult
}.

Definition executor_capabilities : CapabilitySet := capabilities_for EXECUTOR_PRINCIPAL.

(** ** [f"{type(exc).__name__}: {exc}"] *)
Definition exn_type_name (e : exn) : string :=
  match e with
  | InvariantViolation _ _ => "InvariantViolation"
  | AuthorityEscalation _ _ _ => "AuthorityEscalation"
  | CapabilityDenied _ _ => "CapabilityDenied"
  | IllegalTransition _ _ => "IllegalTransition"
  | IllegalPaymentTransition _ _ => "IllegalPaymentTransition"
  | BindRefusedOfferChanged _ _ _ _ => "BindRefusedOfferChanged"
  | ApprovalVerificationError _ _ => "ApprovalVerificationError"
  | AuthorizationFailure k _ _ =>
      match k with
      | TransactionBindingFailure => "TransactionBindingFailure"
      | AuthorizationReplayDetected => "AuthorizationReplayDetected"
      | AuthorizationExpired => "AuthorizationExpired"
      | AuthorizationNotActive => "AuthorizationNotActive"
      | AuthorizationNotFound => "AuthorizationNotFound"
      | AuthorizationProofFailure _ => "AuthorizationProofFailure"
      end
  | PaymentRejected k _ =>
      match k with
      | PaymentRequestRejected => "PaymentRequestRejected"
      | IdempotencyConflict => "IdempotencyConflict"
      | MissionNotAuthorized => "MissionNotAuthorized"
      end
  | ProviderFailed err =>
      match pe_kind err with
      | ProviderTimeout => "ProviderTimeout"
      | ProviderTransientError => "ProviderTransientError"
      | ProviderAmbiguity => "ProviderAmbiguity"
      | ProviderTerminalError => "ProviderTerminalError"
      | ProviderPaymentMismatch => "ProviderPaymentMismatch"
      end
  | WebhookVerificationError _ _ _ => "WebhookVerificationError"
  | WebhookRejected _ _ => "WebhookRejected"
  | ReplayRefused _ _ _ _ => "ReplayRefused"
  | MissionNotFound _ => "MissionNotFound"
  | IntegrityError _ => "IntegrityError"
  | ValidationError _ => "ValidationError"
  | ValueError _ => "ValueError"
  | TypeError _ => "TypeError"
  | KeyError _ => "KeyError"
  | AttributeError _ => "AttributeError"
  | OverflowError _ => "OverflowError"
  | RuntimeError _ => "RuntimeError"
  end.

(** Most classes of the system print as their reason code and their detail. *)
Definition coded (code detail : string) : ustr := u (code +:+ ": " +:+ detail).

Section Worker.
Context `{Env}.
(** The messages SQLAlchemy and pydantic build. *)
Context (library_message : exn → ustr).

Definition exn_str (e : exn) : ustr :=
  match e with
  | InvariantViolation invariant detail =>
      u ("INVARIANT_VIOLATION: " +:+ invariant +:+ " ") ++ em_dash ++ u (" " +:+ detail)
  | AuthorityEscalation source target field =>
      coded "AUTHORITY_ESCALATION" ("source=" +:+ AuthorityLevel.name source +:+ " attempted to write '" +:+ field
        +:+ "' owned by " +:+ AuthorityLevel.name target)
  | CapabilityDenied principal capability =>
      coded "CAPABILITY_DENIED" ("principal '" +:+ principal +:+ "' may not '" +:+ enum_value capability +:+ "'")
  | IllegalTransition current target =>
      coded "Illegal mission transition" (enum_value current +:+ " -> " +:+ enum_value target)
  | IllegalPaymentTransition current target =>
      coded (enum_value ReasonCode.ILLEGAL_PAYMENT_TRANSITION)
        ("illegal payment transition " +:+ enum_value current +:+ " -> " +:+ enum_value target)
  | BindRefusedOfferChanged _ _ detail _ => coded (enum_value ReasonCode.BIND_REFUSED_OFFER_CHANGED) detail
  | ApprovalVerificationError code detail => coded (enum_value code) detail
  | AuthorizationFailure k _ detail => coded (authorization_failure_code k) detail
  | PaymentRejected k detail => coded (payment_rejection_code k) detail
  | ProviderFailed err => coded (provider_error_code (pe_kind err)) (pe_detail err)
  | WebhookVerificationError _ detail code => coded code detail
  | WebhookRejected code detail => coded code detail
  | ReplayRefused code _ _ detail => coded (enum_value code) detail
  | MissionNotFound mission_id => u ("mission " +:+ str_uuid mission_id +:+ " does not exist")
  | IntegrityError _ | ValidationError _ => library_message e
  | ValueError msg | TypeError msg | KeyError msg | AttributeError msg | OverflowError msg | RuntimeError msg => u msg
  end.
Definition failure_reason (e : exn) : ustr := u (exn_type_name e +:+ ": ") ++ exn_str e.

(** ** The turn *)

(** [async with sessionmaker() as session]. *)
Definition with_session {A} (m : P A) : P A := λ w,
  let '(o, w') := m (set_w_db (w_committed w) w) in (o, set_w_db (w_committed w') w').

Definition process_claimed_event (provider : PaymentProvider) (event : uuid)
    (capabilities : option CapabilitySet) (now : option datetime) : P DispatchResult :=
  let caps := default executor_capabilities capabilities in
  moment ← moment_of now;
  ev ← get_outbox event;
  d ← read_db;
  match db_intents d !! ob_payment_intent_id ev with
  | None => raise (ValueError ("outbox event " +:+ str_uuid event +:+ " references a missing payment intent"))
  | Some _ =>
      match ob_event_type ev with
      | OutboxEventType.PAYMENT_CREATE_REQUESTED =>
          dispatch_create caps provider (ob_payment_intent_id ev) event (Some moment)
      | OutboxEventType.PAYMENT_RECONCILE_REQUESTED =>
          reconcile_intent caps provider (ob_payment_intent_id ev) event (Some moment)
      end
  end.

(** The first transaction. *)
Definition claim_turn (dialect : Dialect) (worker_id : string) (moment : datetime) (lease : Z)
    : P (option OutboxEventRow) :=
  with_session (event ← claim_next_event dialect worker_id (Some moment) lease; commit;; mret event).

(** The third: the handler raised. *)
Definition return_to_queue (event_id : uuid) (moment : datetime) (exc : exn) : P unit :=
  with_session
    (stale ← reads (find_outbox event_id);
     match stale with
     | Some stale => reschedule_event (ob_id stale) (failure_reason exc) (Some moment) None;; mret tt
     | None => mret tt
     end;;
     commit).

(** The second, once the row was found. *)
Definition handle_claimed (provider : PaymentProvider) (worker_id : string) (moment : datetime)
    (claimed row : OutboxEventRow) : P WorkerOutcome :=
  if negb (bool_decide (ob_claimed_by row = Some worker_id)) then
    raise (ValueError ("worker " +:+ py_repr worker_id +:+ " does not own outbox event "
      +:+ str_uuid (ob_id claimed) +:+ "; claimed_by="
      +:+ match ob_claimed_by row with Some x => py_repr x | None => "None" end))
  else
    try_except
      (result ← process_claimed_event provider (ob_id claimed) None (Some moment);
       commit;;
       mret (mkWorkerOutcome (Some (ob_id claimed)) (Some (ob_event_type claimed)) (Some result)))
      (λ exc, rollback;; return_to_queue (ob_id claimed) moment exc;; raise exc).
Definition work_turn (provider : PaymentProvider) (worker_id : string) (moment : datetime) (claimed : OutboxEventRow)
    : P WorkerOutcome :=
  with_session
    (row ← reads (find_outbox (ob_id claimed));
     match row with
     | None => raise (ValueError ("claimed outbox event " +:+ str_uuid (ob_id claimed) +:+ " no longer exists"))
     | Some row => handle_claimed provider worker_id moment claimed row
     end).

Definition run_once (dialect : Dialect) (provider : PaymentProvider) (worker_id : string)
    (now : option datetime) (lease : Z) : P WorkerOutcome :=
  moment ← moment_of now;
  event ← claim_turn dialect worker_id moment lease;
  match event with
  | None => mret (mkWorkerOutcome None None None)
  | Some claimed => work_turn provider worker_id moment claimed
  end.

(** [for _ in range(max_events)], until the queue is idle. *)
Fixpoint drain (dialect : Dialect) (provider : PaymentProvider) (worker_id : string) (max_events : nat)
    (now : option datetime) : P (list WorkerOutcome) :=
  match max_events with
  | O => mret []
  | S n =>
      outcome ← run_once dialect provider worker_id now DEFAULT_LEASE;
      if is_none (wk_event_id outcome) then mret []
      else outcomes ← drain dialect provider worker_id n now; mret (outcome :: outcomes)
  end.
End Worker.
