(* ===== verification/WorkerProperties.v ===== *)
(** * Properties of the outbox worker *)
From S2P Require Import Prelude Python PyFloat Json Text Enums Errors Firewall Canonical Transaction.
From S2P Require Import StateMachines Merchant Kernel Policy Payment Database Hashing Evolution Ledger.
From S2P Require Import Binding Authorization AuthorizationTheorems AuthorizationProperties Outbox.
From S2P Require Import Intents IntentsProperties Provider Executor Reconciliation Webhooks.
From S2P Require Import WebhooksProperties CreateOnce Worker.

(** ** Sessions *)
Lemma evolves_with_session {A} (R : World → World → Prop) `{!PreOrder R} (m : P A) :
  (∀ w, R w (set_w_db (w_committed w) w)) → evolves R m → evolves R (with_session m).
Proof.
  intros Hr Hm w. unfold with_session. specialize (Hm (set_w_db (w_committed w) w)).
  destruct (m _) as [o w']. cbn [snd] in *. etrans; [apply Hr|]. etrans; [exact Hm|apply Hr].
Qed.
Lemma durable_with_session {A} (m : P A) : evolves durable_le m → evolves durable_le (with_session m).
Proof. apply evolves_with_session; [apply _|]. apply durable_rollback. Qed.
Lemma quiet_with_session {A} p (m : P A) : evolves (quiet p) m → evolves (quiet p) (with_session m).
Proof. apply evolves_with_session; [apply _|done]. Qed.
#[export] Hint Resolve durable_with_session quiet_with_session : evolves.

Lemma with_session_settled {A} (m : P A) w :
  w_db (snd (with_session m w)) = w_committed (snd (with_session m w)).
Proof. unfold with_session. by destruct (m _). Qed.
Lemma settled_eq w : w_db w = w_committed w → set_w_db (w_committed w) w = w.
Proof. destruct w. cbn. by intros ->. Qed.

Section Worker.
Context `{Env} (text : exn → ustr).

(** ** Forward, and without a create except in a dispatch *)
Lemma durable_process q i c now : evolves durable_le (process_claimed_event q i c now).
Proof. unfold process_claimed_event. cbv zeta. evolve. Qed.
Lemma durable_claim_turn d x m l : evolves durable_le (claim_turn d x m l).
Proof. unfold claim_turn. apply durable_with_session. evolve. Qed.
Lemma durable_return i m e : evolves durable_le (return_to_queue text i m e).
Proof. unfold return_to_queue. apply durable_with_session. evolve. Qed.
Hint Resolve durable_process durable_claim_turn durable_return : evolves.
Lemma durable_handle q x m c r : evolves durable_le (handle_claimed text q x m c r).
Proof. unfold handle_claimed. evolve. Qed.
Hint Resolve durable_handle : evolves.
Lemma durable_work_turn q x m c : evolves durable_le (work_turn text q x m c).
Proof. unfold work_turn. apply durable_with_session. evolve. Qed.
Hint Resolve durable_work_turn : evolves.
Lemma durable_run_once d q x now l : evolves durable_le (run_once text d q x now l).
Proof. unfold run_once. evolve. Qed.

Lemma quiet_claim_turn p d x m l : evolves (quiet p) (claim_turn d x m l).
Proof. unfold claim_turn. apply quiet_with_session. evolve. Qed.
Lemma quiet_return p i m e : evolves (quiet p) (return_to_queue text i m e).
Proof. unfold return_to_queue. apply quiet_with_session. evolve. Qed.
Hint Resolve quiet_claim_turn quiet_return : evolves.

(** ** The turn's transactions, as steps *)
Section Steps.
Context (p : PaymentProvider) (Hp : pv_create_retries_are_idempotent p = false).

(** A run that creates nothing and leaves nothing uncommitted. *)
Lemma quiet_is_step {A} (m : P A) w l :
  evolves durable_le m → evolves (quiet p) m → w_db (snd (m w)) = w_committed (snd (m w)) →
  rtc (step p) (mkSystem w l) (mkSystem (snd (m w)) l).
Proof. intros Hd Hq Hs. apply rtc_once, step_other; [apply Hd|exact Hs|apply Hq]. Qed.

(** Handling an event, and how its session ends. *)
Lemma process_is_steps i c now w w' l :
  w_db w = w_committed w → ends (snd (process_claimed_event p i c (Some now) w)) w' →
  rtc (step p) (mkSystem w l) (mkSystem w' l).
Proof.
  intros Hs He.
  assert (Hother : quiet p w (snd (process_claimed_event p i c (Some now) w)) →
    rtc (step p) (mkSystem w l) (mkSystem w' l)).
  { intros Q. apply (ends_forward p) in He as (D' & Q' & Hs'). apply rtc_once, step_other; [|done|by etrans].
    etrans; [apply durable_process|exact D']. }
  destruct (process_claimed_event p i c (Some now) w) as [o w1] eqn:E. cbn [snd] in *.
  unfold process_claimed_event in E. cbv zeta in E. unfold moment_of at 1 in E.
  unfold mbind at 1, M_bind at 1, mret at 1, M_ret at 1 in E. unfold mbind at 1, M_bind at 1 in E.
  destruct (get_outbox i w) as [[ev|ex] w0] eqn:E0.
  2:{ injection E as _ <-. apply Hother. pose proof (evolves_get_outbox (quiet p) i w) as Hq. by rewrite E0 in Hq. }
  assert (Hw0 : w0 = w).
  { unfold get_outbox in E0. run_step E0. apply reads_Ok in Hrun as [-> ->]. run_inv E0. by subst. }
  subst w0. unfold mbind, M_bind, read_db, reads, gets in E.
  destruct (db_intents (w_db w) !! ob_payment_intent_id ev) as [r|]; [|injection E as _ <-; by apply Hother].
  destruct (ob_event_type ev).
  - apply (dispatch_is_steps p (default executor_capabilities c) (ob_payment_intent_id ev) i (Some (as_utc now)) w);
      [done..|]. by rewrite E.
  - apply Hother. eapply quiet_run; [apply quiet_reconcile|exact E].
Qed.

(** What a session leaves when it closes. *)
Definition closed (w : World) : World := set_w_db (w_committed w) w.
Lemma with_session_run {A} (m : P A) w : w_db w = w_committed w →
  with_session m w = (fst (m w), closed (snd (m w))).
Proof. intros Hs. unfold with_session. rewrite (settled_eq _ Hs). by destruct (m w). Qed.

Lemma handle_claimed_is_steps x m ev row w l : w_db w = w_committed w →
  rtc (step p) (mkSystem w l) (mkSystem (closed (snd (handle_claimed text p x m ev row w))) l).
Proof.
  intros Hs. destruct (handle_claimed text p x m ev row w) as [o w2] eqn:E. cbn [snd].
  unfold handle_claimed in E. destruct (negb _).
  { injection E as _ <-. unfold closed. by rewrite (settled_eq _ Hs). }
  unfold try_except in E. unfold mbind at 1, M_bind at 1 in E.
  pose proof (process_is_steps (ob_id ev) None m w) as Hproc.
  destruct (process_claimed_event p (ob_id ev) None (Some m) w) as [[result|ex] w3]; cbn [snd] in Hproc.
  - injection E as _ <-. apply Hproc; [done|]. apply (ends_commit w3).
  - etrans; [apply (Hproc (closed w3) l Hs), ends_rollback|].
    pose proof (quiet_is_step (return_to_queue text (ob_id ev) m ex) (closed w3) l
      (durable_return _ _ _) (quiet_return _ _ _ _) (with_session_settled _ _)) as Hstep.
    assert (Hw2 : w2 = snd (return_to_queue text (ob_id ev) m ex (closed w3))).
    { revert E. unfold mbind, M_bind, raise, rollback, modify. fold (closed w3).
      destruct (return_to_queue _ _ _ _ _) as [[]]; cbn; by intros [= _ <-]. }
    rewrite <-Hw2 in Hstep. unfold closed at 2. rewrite settled_eq; [exact Hstep|].
    rewrite Hw2. apply with_session_settled.
Qed.

Lemma work_turn_is_steps x m ev w l : w_db w = w_committed w →
  rtc (step p) (mkSystem w l) (mkSystem (snd (work_turn text p x m ev w)) l).
Proof.
  intros Hs. unfold work_turn. rewrite (with_session_run _ _ Hs). cbn [snd].
  unfold mbind, M_bind, reads, gets. destruct (find_outbox (ob_id ev) (w_db w)) as [row|].
  - by apply handle_claimed_is_steps.
  - cbn [raise snd]. unfold closed. by rewrite (settled_eq _ Hs).
Qed.

Lemma run_once_is_steps d x now lease w l :
  w_db w = w_committed w →
  rtc (step p) (mkSystem w l) (mkSystem (snd (run_once text d p x now lease w)) l).
Proof.
  intros Hs. destruct (run_once text d p x now lease w) as [o w'] eqn:E. cbn [snd]. unfold run_once in E.
  unfold mbind at 1, M_bind at 1 in E. destruct (moment_of_run now w) as (m & w0 & E0 & (Hd & Hc & Hl) & _).
  rewrite E0 in E. pose proof (evolves_sess_durable (moment_of now) (evolves_moment_of now) w) as D0.
  rewrite E0 in D0. eapply rtc_l; [apply (step_other p w w0); [exact D0|congruence|]|].
  { unfold quiet, creates. by rewrite Hl. }
  unfold mbind at 1, M_bind at 1 in E.
  pose proof (quiet_is_step (claim_turn d x m lease) w0 l (durable_claim_turn _ _ _ _) (quiet_claim_turn _ _ _ _ _)
    (with_session_settled _ _)) as Hstep.
  assert (Hs1 : w_db (snd (claim_turn d x m lease w0)) = w_committed (snd (claim_turn d x m lease w0)))
    by apply with_session_settled.
  destruct (claim_turn d x m lease w0) as [[[ev|]|ex] w1] eqn:E1; cbn [snd] in Hstep, Hs1.
  2, 3: injection E as _ <-; exact Hstep.
  etrans; [exact Hstep|]. pose proof (work_turn_is_steps x m ev w1 l Hs1) as Hw. by rewrite E in Hw.
Qed.
End Steps.

(** ** A turn that fails *)
Lemma find_outbox_le d d' id r :
  db_le d d' → outbox_table_ok d → find_outbox id d = Some r →
  ∃ r', find_outbox id d' = Some r' ∧ outbox_le r r'.
Proof.
  intros Hle Hok Hf. pose proof (dl_outbox_ok _ _ Hle Hok) as [Hnd _].
  apply find_outbox_Some in Hf as [Hin Hid]. destruct (dl_outbox _ _ Hle) as (l1 & l2 & E & H2).
  apply list_elem_of_lookup in Hin as [n Hn]. destruct (Forall2_lookup_l _ _ _ _ _ H2 Hn) as (r' & Hn' & Hr).
  exists r'. split; [|done]. apply find_outbox_elem; [done| |].
  - rewrite E. apply elem_of_app. left. by apply list_elem_of_lookup_2 in Hn'.
  - pose proof (ol_immutable _ _ Hr) as Hi. injection Hi as Hi _ _ _ _. congruence.
Qed.

Definition plain (d : Dialect) : Prop := d = OtherDialect ∨ d = Postgresql (λ _, false).

(** What the first transaction hands to the second. *)
Record handed (x : string) (m : datetime) (w w1 : World) (row : OutboxEventRow) : Prop := {
  hd_settled : w_db w1 = w_committed w1;
  hd_table : outbox_table_ok (w_db w1);
  hd_found : find_outbox (ob_id row) (w_db w1) = Some row;
  hd_owner : ob_claimed_by row = Some x;
  hd_due : ∃ r, r ∈ db_outbox (w_db w) ∧ due_predicate (as_utc m) r = true ∧
                ob_id r = ob_id row ∧ ob_attempts row = ob_attempts r + 1
}.
Lemma claim_turn_cases d x m lease w :
  plain d → w_db w = w_committed w → outbox_table_ok (w_db w) →
  (claim_turn d x m lease w = (Ok None, w) ∧
   ∀ r, r ∈ db_outbox (w_db w) → due_predicate (as_utc m) r = false) ∨
  ∃ row w1, claim_turn d x m lease w = (Ok (Some row), w1) ∧ handed x m w w1 row.
Proof.
  intros Hd Hs Hok. unfold claim_turn. rewrite (with_session_run _ _ Hs).
  destruct ((event ← claim_next_event d x (Some m) lease; commit;; mret event) w) as [o w1] eqn:E.
  unfold mbind, M_bind in E. rewrite (claim_next_cases _ _ _ _ _ Hd Hok) in E. cbn [fst snd].
  destruct (next_due (as_utc m) (w_db w)) as [r|] eqn:En; cbv zeta in E;
    unfold commit, modify, mret, M_ret in E; injection E as <- <-.
  2:{ left. split; [|intros r Hr; by eapply next_due_None]. unfold closed. destruct w. cbn in *. by subst. }
  right. pose proof (next_due_Some _ _ _ En) as (Hr & Hdue & _).
  eexists _, _. split; [reflexivity|]. set (l := dt_add (as_utc m) lease).
  assert (Hf : find_outbox (ob_id r) (claim_row (ob_id r) x l (w_db w)) = Some (claimed x l r)).
  { unfold claim_row. rewrite find_outbox_map by done. by rewrite (find_outbox_elem _ _ _ (proj1 Hok) Hr eq_refl). }
  constructor; [done| |exact Hf|done|by exists r].
  apply outbox_table_ok_map; [done| |done]. apply violates_concat. intros y Hy.
  case_bool_decide; [|done]. apply claimed_checks. destruct Hok as [_ Hall]. rewrite Forall_forall in Hall. by apply Hall.
Qed.

(** The third transaction. *)
Lemma return_to_queue_run id m e w row :
  w_db w = w_committed w → outbox_table_ok (w_db w) → find_outbox id (w_db w) = Some row →
  ∃ w' row', return_to_queue text id m e w = (Ok tt, w') ∧ find_outbox id (w_committed w') = Some row' ∧
    ob_attempts row' = ob_attempts row ∧ ob_last_error row' = Some (take 200 (failure_reason text e)) ∧
    if ob_attempts row' <? ob_max_attempts row'
    then ob_status row' = OutboxStatus.PENDING ∧ dt_instant m + seconds 1 <= dt_instant (ob_available_at row')
    else ob_status row' = OutboxStatus.FAILED.
Proof.
  intros Hs Hok Hf. unfold return_to_queue. rewrite (with_session_run _ _ Hs).
  pose proof (proj2 (find_outbox_Some _ _ _ Hf)) as Hid.
  destruct (reschedule_run id (failure_reason text e) m w row Hok Hf)
    as (w1 & row' & E & Hf' & Ha & Hmax & He & _ & _ & Hst).
  unfold mbind, M_bind, reads, gets. rewrite Hf, Hid, E. eexists _, row'. split; [reflexivity|].
  cbn [mret M_ret commit modify closed snd w_committed set_w_db]. split; [exact Hf'|]. split; [done|]. split; [done|].
  rewrite Ha, Hmax. destruct (_ <? _); tauto.
Qed.

Lemma handle_claimed_raises p x m ev row w e w2 :
  ob_claimed_by row = Some x → handle_claimed text p x m ev row w = (Raise e, w2) →
  w_db w = w_committed w → outbox_table_ok (w_db w) → find_outbox (ob_id ev) (w_db w) = Some row →
  ∃ w3 stale, w2 = snd (return_to_queue text (ob_id ev) m e (closed w3)) ∧
    outbox_table_ok (w_db (closed w3)) ∧ find_outbox (ob_id ev) (w_db (closed w3)) = Some stale ∧
    outbox_le row stale.
Proof.
  intros Hown E Hs Hok Hf. unfold handle_claimed in E. rewrite bool_decide_eq_true_2 in E by done. cbn [negb] in E.
  unfold try_except in E. unfold mbind at 1, M_bind at 1 in E.
  pose proof (durable_process p (ob_id ev) None (Some m) w) as D.
  destruct (process_claimed_event p (ob_id ev) None (Some m) w) as [[result|ex] w3]; cbn [snd] in D; [done|].
  assert (Hle : db_le (w_db w) (w_db (closed w3))).
  { cbn. destruct D as (_ & D & _); [by rewrite Hs|]. by rewrite Hs. }
  destruct (find_outbox_le _ _ _ _ Hle Hok Hf) as (stale & Hst & Hol). exists w3, stale.
  split; [|split; [apply (dl_outbox_ok _ _ Hle Hok)|done]].
  revert E. unfold mbind, M_bind, raise, rollback, modify. fold (closed w3).
  destruct (return_to_queue_run (ob_id ev) m ex (closed w3) stale)
    as (w' & row' & Er & _); [done|apply (dl_outbox_ok _ _ Hle Hok)|done|].
  rewrite Er. intros [= <- <-]. by rewrite Er.
Qed.

Lemma run_once_shape d p x now lease w :
  run_once text d p x (Some now) lease w =
    match claim_turn d x (as_utc now) lease w with
    | (Ok (Some claimed), w1) => work_turn text p x (as_utc now) claimed w1
    | (Ok None, w1) => (Ok (mkWorkerOutcome None None None), w1)
    | (Raise e, w1) => (Raise e, w1)
    end.
Proof.
  unfold run_once, moment_of. unfold mbind at 1, M_bind at 1, mret at 1, M_ret at 1.
  unfold mbind, M_bind. by destruct (claim_turn _ _ _ _ w) as [[[|]|] ?].
Qed.
Lemma run_once_settled d p x now lease w : w_db w = w_committed w →
  w_db (snd (run_once text d p x (Some now) lease w)) = w_committed (snd (run_once text d p x (Some now) lease w)).
Proof.
  intros Hs. rewrite run_once_shape. unfold claim_turn.
  pose proof (with_session_settled (event ← claim_next_event d x (Some (as_utc now)) lease; commit;; mret event) w) as H1.
  destruct (with_session _ w) as [[[row|]|e] w1]; [|exact H1..]. apply with_session_settled.
Qed.

(** The outcome of a turn that returned. *)
Lemma run_once_Ok d p x now lease w o w' :
  plain d → w_db w = w_committed w → outbox_table_ok (w_db w) →
  run_once text d p x (Some now) lease w = (Ok o, w') →
  (o = mkWorkerOutcome None None None ∧ w' = w ∧
   ∀ r, r ∈ db_outbox (w_db w) → due_predicate (as_utc now) r = false) ∨
  is_some (wk_event_id o) = true.
Proof.
  intros Hd Hs Hok E. rewrite run_once_shape in E.
  destruct (claim_turn_cases d x (as_utc now) lease w Hd Hs Hok) as [[Ec Hno]|(row & w1 & Ec & Hh)]; rewrite Ec in E.
  - injection E as <- <-. left. split; [done|]. split; [done|]. by rewrite as_utc_idemp in Hno.
  - right. unfold work_turn in E. rewrite (with_session_run _ _ (hd_settled _ _ _ _ _ Hh)) in E.
    injection E as Ho _. unfold mbind, M_bind, reads, gets in Ho. rewrite (hd_found _ _ _ _ _ Hh) in Ho.
    unfold handle_claimed, try_except in Ho. destruct (negb _); [done|].
    unfold mbind, M_bind in Ho. destruct (process_claimed_event _ _ _ _ _) as [[result|ex] w3].
    + cbn in Ho. by injection Ho as <-.
    + unfold rollback, modify, raise in Ho. by destruct (return_to_queue _ _ _ _ _) as [[]].
Qed.
End Worker.

(** ** Properties *)

(** A turn that fails does not lose its event.  If a worker's turn raises, it had
    claimed a due event; the durable row of that event still exists, has counted the
    attempt, carries the first 200 characters of the exception, and is due again
    later or, once its attempts are used up, dead-lettered. *)
Theorem failed_turn_keeps_its_event `{Env} (text : exn → ustr) (d : Dialect) (p : PaymentProvider) (x : string)
    (now : datetime) (lease : Z) (w w' : World) (e : exn) :
  plain d → w_db w = w_committed w → outbox_table_ok (w_db w) →
  run_once text d p x (Some now) lease w = (Raise e, w') →
  ∃ r row', r ∈ db_outbox (w_db w) ∧ due_predicate (as_utc now) r = true ∧
    find_outbox (ob_id r) (w_committed w') = Some row' ∧ ob_attempts r < ob_attempts row' ∧
    ob_last_error row' = Some (take 200 (failure_reason text e)) ∧
    if ob_attempts row' <? ob_max_attempts row'
    then ob_status row' = OutboxStatus.PENDING ∧ dt_instant now + seconds 1 <= dt_instant (ob_available_at row')
    else ob_status row' = OutboxStatus.FAILED.
Proof.
  intros Hd Hs Hok E. rewrite run_once_shape in E.
  destruct (claim_turn_cases d x (as_utc now) lease w Hd Hs Hok) as [[Ec _]|(row & w1 & Ec & Hh)];
    rewrite Ec in E; [done|]. destruct Hh as [Hs1 Hok1 Hf1 Hown (r & Hr & Hdue & Hid & Hatt)].
  unfold work_turn in E. rewrite (with_session_run _ _ Hs1) in E. injection E as Eo Ew.
  unfold mbind, M_bind, reads, gets in Eo, Ew. rewrite Hf1 in Eo, Ew.
  destruct (handle_claimed text p x (as_utc now) row row w1) as [o w2] eqn:Eh. cbn [fst snd] in Eo, Ew. subst o w'.
  destruct (handle_claimed_raises text p x _ row row w1 e w2 Hown Eh Hs1 Hok1 Hf1)
    as (w3 & stale & -> & Hok3 & Hst & Hol).
  destruct (return_to_queue_run text (ob_id row) (as_utc now) e (closed w3) stale eq_refl Hok3 Hst)
    as (w4 & row' & Er & Hf' & Ha' & He' & Hstat). rewrite Er. cbn [snd closed w_committed set_w_db].
  rewrite as_utc_idemp in Hdue. exists r, row'. rewrite Hid. pose proof (ol_attempts _ _ Hol).
  split; [done|]. split; [done|]. split; [done|]. split; [lia|]. split; [done|].
  by rewrite <-(as_utc_instant now).
Qed.


#[local] Existing Instance demo_env.

(** An event that names a payment which does not exist. *)
Abbreviation orphan_turn :=
  (run_once (H:=demo_env) (λ _, []) OtherDialect signed_provider "worker-1" (Some (utc 1767268800000000)) DEFAULT_LEASE).
Lemma demo_outbox_plain : plain OtherDialect.
Proof. by left. Qed.
Lemma failed_turn_keeps_its_event_witness :
  fst (orphan_turn (demo_outbox_world 0)) =
    Raise (ValueError ("outbox event " +:+ str_uuid 21%N +:+ " references a missing payment intent")) ∧
  ∃ r, r ∈ db_outbox (w_db (demo_outbox_world 0)).
Proof.
  assert (E : fst (orphan_turn (demo_outbox_world 0)) =
    Raise (ValueError ("outbox event " +:+ str_uuid 21%N +:+ " references a missing payment intent")))
    by (vm_compute; reflexivity).
  split; [exact E|]. apply fst_run in E.
  destruct (failed_turn_keeps_its_event (λ _, []) OtherDialect signed_provider "worker-1"
    (utc 1767268800000000) DEFAULT_LEASE (demo_outbox_world 0) _ _ demo_outbox_plain eq_refl
    (demo_outbox_ok 0 ltac:(lia)) E) as (r & _ & Hr & _). by exists r.
Defined.

