(* ===== verification/QueueProgress.v ===== *)
(** * Progress of the outbox

    The events waiting at a time [b], and that no operation of the executor or of
    reconciliation adds to them once [b] has passed: what they enqueue or reschedule
    becomes due after the turn's own time.  [waiting] is the measure by which
    RunWorker shows that the worker's loop starves no event. *)
From S2P Require Import Prelude Python PyText PyFloat Json Text Enums Errors Firewall Canonical Transaction.
From S2P Require Import StateMachines Merchant Kernel Policy Payment Database Hashing Evolution Ledger.
From S2P Require Import Binding Authorization AuthorizationTheorems Outbox Intents Provider Executor.
From S2P Require Import Reconciliation CreateOnce Worker WorkerProperties.

(** ** The measure *)
Definition is_waiting (b : Z) (r : OutboxEventRow) : bool :=
  is_open (ob_status r) && (dt_instant (ob_available_at r) <=? b).
Definition waiting (b : Z) (d : DB) : list OutboxEventRow := List.filter (is_waiting b) (db_outbox d).
Definition backlog (b : Z) (d : DB) : nat := length (waiting b d).

Section FilterMap.
Context {A : Type} (p : A → bool) (g : A → A).

Lemma filter_map_le l : (∀ x, p (g x) = true → p x = true) →
  (length (List.filter p (map g l)) <= length (List.filter p l))%nat.
Proof.
  intros Hg. induction l as [|x l IH]; cbn; [lia|]. specialize (Hg x).
  destruct (p (g x)), (p x); cbn; first [lia | by specialize (Hg eq_refl)].
Qed.
Lemma filter_map_lt l x : (∀ y, p (g y) = true → p y = true) → x ∈ l → p x = true → p (g x) = false →
  (length (List.filter p (map g l)) < length (List.filter p l))%nat.
Proof.
  intros Hg. induction l as [|y l IH]; intros Hin Hx Hgx; [by apply not_elem_of_nil in Hin|]. cbn.
  pose proof (filter_map_le l Hg). apply elem_of_cons in Hin as [<-|Hin].
  - rewrite Hx, Hgx. cbn. lia.
  - specialize (IH Hin Hx Hgx). specialize (Hg y). destruct (p (g y)), (p y); cbn; first [lia | by specialize (Hg eq_refl)].
Qed.
End FilterMap.

Lemma backlog_nil b d : backlog b d = 0%nat → ∀ r, r ∈ db_outbox d → is_waiting b r = false.
Proof.
  intros E%length_zero_iff_nil r Hr. destruct (is_waiting b r) eqn:Hw; [|done].
  assert (Hin : r ∈ waiting b d) by (apply list_elem_of_In, filter_In; by rewrite <-list_elem_of_In).
  rewrite E in Hin. by apply not_elem_of_nil in Hin.
Qed.
Lemma backlog_pos b d : (0 < backlog b d)%nat → ∃ r, r ∈ db_outbox d ∧ is_waiting b r = true.
Proof.
  unfold backlog. destruct (waiting b d) as [|r l] eqn:E; cbn; [lia|]. intros _. exists r.
  assert (Hin : In r (waiting b d)) by (rewrite E; by left). apply filter_In in Hin as [Hr Hw].
  by rewrite list_elem_of_In.
Qed.

(** [r'] waits only if [r] did. *)
Definition no_sooner (b : Z) (f : OutboxEventRow → OutboxEventRow) : Prop :=
  ∀ r, is_waiting b (f r) = true → is_waiting b r = true.
Lemma no_sooner_closed b f : (∀ r, is_open (ob_status (f r)) = false) → no_sooner b f.
Proof. intros Hf r. unfold is_waiting. by rewrite Hf. Qed.
Lemma no_sooner_later b f : (∀ r, b < dt_instant (ob_available_at (f r))) → no_sooner b f.
Proof. intros Hf r. unfold is_waiting. specialize (Hf r). rewrite andb_true_iff, Z.leb_le. lia. Qed.

(** ** The session adds nothing *)
Record holds (b : Z) (w w' : World) : Prop := {
  hl_backlog : (backlog b (w_db w') <= backlog b (w_db w))%nat;
  hl_committed : w_committed w' = w_committed w
}.
#[global] Instance holds_preorder b : PreOrder (holds b).
Proof. split; [by constructor|]. intros x y z [] []. constructor; [lia|congruence]. Qed.

(** Nor does what is durable. *)
Definition drains (b : Z) (w w' : World) : Prop :=
  (backlog b (w_db w) <= backlog b (w_committed w))%nat →
  (backlog b (w_db w') <= backlog b (w_committed w'))%nat ∧
  (backlog b (w_committed w') <= backlog b (w_committed w))%nat.
#[global] Instance drains_preorder b : PreOrder (drains b).
Proof. split; [done|]. intros x y z Hxy Hyz H. destruct (Hxy H) as [H1 ?], (Hyz H1). split; [done|lia]. Qed.
Lemma holds_drains b w w' : holds b w w' → drains b w w'.
Proof. intros [Hb Hc] H. rewrite Hc. split; lia. Qed.
Lemma evolves_holds_drains {A} b (m : P A) : evolves (holds b) m → evolves (drains b) m.
Proof. apply evolves_weaken, holds_drains. Qed.
Lemma drains_commit b : evolves (drains b) commit.
Proof. intros w H. cbn. lia. Qed.
Lemma drains_rollback b : evolves (drains b) rollback.
Proof. intros w H. cbn. lia. Qed.
Lemma drains_get b p i k : evolves (drains b) (call_get_payment p i k).
Proof. intros w H. cbn. lia. Qed.
Lemma drains_create b p q : evolves (drains b) (call_create_payment p q).
Proof. intros w H. cbn. lia. Qed.
#[export] Hint Resolve drains_commit drains_rollback drains_get drains_create : evolves.
#[export] Hint Extern 5 (evolves (drains _) _) => apply evolves_holds_drains : evolves.

(** ** Writes to other tables *)
Lemma holds_writes b f : (∀ d, db_outbox (f d) = db_outbox d) → evolves (holds b) (writes f).
Proof. intros Hf w. constructor; [|done]. unfold backlog, waiting. cbn. by rewrite Hf. Qed.
#[export] Hint Extern 2 (evolves (holds _) (writes _)) => apply holds_writes; intros ?; reflexivity : evolves.
Lemma holds_utcnow `{Env} b : evolves (holds b) utcnow.
Proof. by intros w. Qed.
Lemma holds_uuid4 b : evolves (holds b) uuid4.
Proof. by intros w. Qed.
#[export] Hint Resolve holds_utcnow holds_uuid4 : evolves.
Lemma holds_moment_of `{Env} b now : evolves (holds b) (moment_of now).
Proof. unfold moment_of. evolve. Qed.
Lemma holds_write_intent b i r : evolves (holds b) (write_intent i r).
Proof. unfold write_intent. evolve. Qed.
Lemma holds_update_authorization b i p f : evolves (holds b) (update_authorization i p f).
Proof. unfold update_authorization. evolve. Qed.
#[export] Hint Resolve holds_moment_of holds_write_intent holds_update_authorization : evolves.
Lemma holds_update_intent b i f : evolves (holds b) (update_intent i f).
Proof. unfold update_intent. evolve. Qed.
Lemma holds_append_event `{Env} b m t a p : evolves (holds b) (append_event m t a p).
Proof. unfold append_event, insert_audit. cbv zeta. evolve. Qed.
Lemma holds_move_mission b m t : evolves (holds b) (move_mission m t).
Proof. unfold move_mission, set_mission_state. evolve. Qed.
Lemma holds_move_intent b i t : evolves (holds b) (move_intent i t).
Proof. unfold move_intent, PaymentFSM.assert_payment_transition. evolve. Qed.
#[export] Hint Resolve holds_update_intent holds_append_event holds_move_mission holds_move_intent : evolves.

(** ** Writes to the queue *)
Section Queue.
Context `{Env} (b : Z).

Lemma holds_insert r : b < dt_instant (ob_available_at r) → evolves (holds b) (insert_outbox r).
Proof.
  intros Hr. unfold insert_outbox. evolve. intros w. constructor; [|done].
  unfold backlog, waiting. cbn. rewrite List.filter_app, length_app. cbn. unfold is_waiting at 2.
  rewrite (proj2 (Z.leb_gt _ _) Hr), andb_false_r. cbn. lia.
Qed.
Lemma holds_update id f : no_sooner b f → evolves (holds b) (update_outbox id f).
Proof.
  intros Hf. unfold update_outbox. evolve. intros w. constructor; [|done].
  unfold backlog, waiting. cbn. apply filter_map_le. intros r. case_bool_decide; [apply Hf|done].
Qed.
Lemma holds_complete e now : evolves (holds b) (complete_event e now).
Proof. unfold complete_event. evolve. by apply holds_update, no_sooner_closed. Qed.

(** The turn's time is past [b]. *)
Context (now : datetime) (Hnow : b < dt_instant now).

Lemma holds_enqueue i t p n : evolves (holds b) (enqueue_outbox_event i t p (Some now) n).
Proof.
  unfold enqueue_outbox_event, moment_of. cbv zeta. apply (evolves_bind (holds b)); [evolve|intros id].
  intros w. unfold mbind at 1, M_bind at 1, mret at 1, M_ret at 1. revert w.
  apply (evolves_bind (holds b)); [|intros ?; evolve]. apply holds_insert. cbn. by rewrite as_utc_instant.
Qed.
Lemma holds_reschedule e reason : evolves (holds b) (reschedule_event e reason (Some now) None).
Proof.
  unfold reschedule_event, moment_of. cbv zeta.
  intros w. unfold mbind at 1, M_bind at 1, mret at 1, M_ret at 1. revert w.
  apply (evolves_bind (holds b)); [evolve|intros row]. destruct (_ <=? _).
  - apply (evolves_bind (holds b)); [|intros ?; evolve]. by apply holds_update, no_sooner_closed.
  - apply (evolves_bind (holds b)); [|intros ?; evolve]. apply holds_update, no_sooner_later. intros r. cbn.
    rewrite dt_instant_add, as_utc_instant. pose proof (backoff_for_bounds (ob_attempts row)). unfold seconds in *. lia.
Qed.
End Queue.

(** ** The time a turn passes on *)
Lemma yields_moment `{Env} now : yields (λ m, m = as_utc now) (moment_of (Some now)).
Proof. by apply yields_ret. Qed.

(** Walks to the values a program returns. *)
Ltac yield :=
  repeat match goal with
  | |- yields _ (mbind _ (moment_of (Some ?t))) => eapply (yields_bind _ _ _ _ (yields_moment t)); intros ? ->
  | |- yields _ (mbind _ _) => apply (yields_bind _ _ _ _ (yields_any _)); intros ? _
  | |- yields _ (mret _) => by apply yields_ret
  | |- yields _ (raise _) => apply yields_raise
  | |- yields _ (let '_ := ?x in _) => destruct x
  | |- yields _ (match ?x with _ => _ end) => destruct x
  | |- yields _ (if ?x then _ else _) => destruct x
  end.

(** ** The executor *)
Section Executor.
Context `{Env} (b : Z).

Lemma holds_link i p : evolves (holds b) (link_provider_payment i p).
Proof. unfold link_provider_payment, on_object. evolve. Qed.
Lemma holds_transition i t ev p r : evolves (holds b) (apply_payment_transition i t ev p r).
Proof. unfold apply_payment_transition, PaymentFSM.assert_payment_transition. evolve. Qed.
Lemma holds_mission_state m t : evolves (holds b) (apply_mission_state m t).
Proof. unfold apply_mission_state. evolve. Qed.
Lemma holds_verify_io i e now : evolves (holds b) (verify_intent_authorization_before_provider_io i e now).
Proof.
  unfold verify_intent_authorization_before_provider_io, verify_authorization_for_payment, classify_and_raise,
    expire_if_stale, audit, reload, proof_scheme_invalid, auth_failure. evolve.
Qed.
Hint Resolve holds_link holds_transition holds_mission_state holds_verify_io holds_complete : evolves.
Lemma holds_apply_provider_payment i p now : evolves (holds b) (apply_provider_payment i p now).
Proof. unfold apply_provider_payment. cbv zeta. evolve. Qed.
Lemma holds_remember i now : evolves (holds b) (remember_provider_ambiguity i now).
Proof. unfold remember_provider_ambiguity. evolve. Qed.
Lemma holds_record_attempt i c r : evolves (holds b) (record_payment_attempt i c r).
Proof. unfold record_payment_attempt. evolve. Qed.
Lemma holds_audit_retry i r e : evolves (holds b) (audit_retry i r e).
Proof. unfold audit_retry. evolve. Qed.
Hint Resolve holds_apply_provider_payment holds_remember holds_record_attempt holds_audit_retry : evolves.

Section At.
Context (now : datetime) (Hnow : b < dt_instant now).
Hint Extern 1 (evolves (holds _) (enqueue_outbox_event _ _ _ _ _)) => by apply holds_enqueue : evolves.
Hint Extern 1 (evolves (holds _) (reschedule_event _ _ _ _)) => by apply holds_reschedule : evolves.

Lemma holds_enqueue_reconcile i : evolves (holds b) (enqueue_reconcile i now).
Proof. unfold enqueue_reconcile. evolve. Qed.
Lemma holds_mark_uncertain i d r t : evolves (holds b) (mark_uncertain i d now r t).
Proof. unfold mark_uncertain. cbv zeta. evolve. Qed.
Hint Resolve holds_enqueue_reconcile holds_mark_uncertain : evolves.
Lemma holds_leave_uncertain i e d r t : evolves (holds b) (leave_uncertain i e d now r t).
Proof. unfold leave_uncertain. evolve. Qed.
Hint Resolve holds_leave_uncertain : evolves.
Lemma holds_finish_existing i e p : evolves (holds b) (finish_existing_before_create i e p now).
Proof. unfold finish_existing_before_create. evolve. apply evolves_on_mismatch; [apply _|evolve|intros err; evolve]. Qed.
Lemma holds_settle p i e o : evolves (holds b) (settle_create p i e now o).
Proof. unfold settle_create. evolve. apply evolves_on_mismatch; [apply _|evolve|intros err; evolve]. Qed.
Hint Resolve holds_finish_existing holds_settle : evolves.

Lemma drains_recover p i e : evolves (drains b) (recover_fenced_create p i e now).
Proof. unfold recover_fenced_create. evolve. apply evolves_attempt_lookup; [apply _|]. evolve. Qed.
Lemma drains_acquire i : evolves (drains b) (acquire_provider_create_fence i now).
Proof. unfold acquire_provider_create_fence, fence_update. evolve. Qed.
Hint Resolve drains_recover drains_acquire : evolves.
Lemma drains_after_fence p i e w : evolves (drains b) (after_fence p i e now w).
Proof. unfold after_fence. evolve. Qed.
Lemma drains_send p i e : evolves (drains b) (send_create p i e now).
Proof.
  unfold send_create. evolve;
    first [apply evolves_attempt_lookup; [apply _|]; evolve | apply evolves_attempt_create; [apply _|]; evolve].
Qed.
End At.

Hint Resolve drains_recover drains_acquire drains_after_fence drains_send holds_enqueue_reconcile : evolves.
Context (now : datetime) (Hnow : b < dt_instant (as_utc now)).
Lemma drains_admit c p i e : evolves (drains b) (admit_create c p i e (Some now)).
Proof.
  unfold admit_create. do 2 (apply evolves_bind; [apply _|evolve|intros ?]).
  apply (evolves_bind_yields _ _ _ _ (yields_moment now)); [evolve|intros ? ->]. cbv zeta. evolve.
Qed.
Lemma yields_admit c p i e :
  yields (λ a, if a is MayCreate m then m = as_utc now else True) (admit_create c p i e (Some now)).
Proof.
  unfold admit_create. do 2 (apply (yields_bind _ _ _ _ (yields_any _)); intros ? _).
  apply (yields_bind _ _ _ _ (yields_moment now)). intros ? ->. cbv zeta. yield.
Qed.
Lemma drains_dispatch c p i e : evolves (drains b) (dispatch_create c p i e (Some now)).
Proof.
  unfold dispatch_create. apply (evolves_bind_yields _ _ _ _ (yields_admit c p i e)); [apply drains_admit|].
  intros [result|m]; [intros _; evolve|intros ->]. evolve.
Qed.
End Executor.

(** ** Reconciliation *)
Section Reconciliation.
Context `{Env} (b : Z).
Hint Resolve holds_link holds_transition holds_mission_state holds_verify_io holds_complete holds_remember
  holds_apply_provider_payment holds_record_attempt : evolves.
Lemma holds_audit_reschedule i e r c ph : evolves (holds b) (audit_reschedule i e r c ph).
Proof. unfold audit_reschedule. evolve. Qed.
Lemma holds_become i cur p r k : evolves (holds b) k → evolves (holds b) (become_uncertain i cur p r k).
Proof. intros Hk. unfold become_uncertain. evolve. Qed.
Hint Resolve holds_audit_reschedule : evolves.
Hint Extern 1 (evolves (holds _) (become_uncertain _ _ _ _ _)) => apply holds_become; evolve : evolves.

Section At.
Context (now : datetime) (Hnow : b < dt_instant now).
Hint Extern 1 (evolves (holds _) (enqueue_outbox_event _ _ _ _ _)) => by apply holds_enqueue : evolves.
Hint Extern 1 (evolves (holds _) (reschedule_event _ _ _ _)) => by apply holds_reschedule : evolves.

Lemma holds_payment_found i e c p : evolves (holds b) (payment_found i e c p now).
Proof.
  unfold payment_found. cbv zeta. evolve.
  all: apply evolves_on_mismatch; [apply _|evolve|intros err; evolve].
Qed.
Hint Resolve holds_payment_found : evolves.
Lemma holds_conclude p i e f : evolves (holds b) (conclude p i e now f).
Proof.
  unfold conclude, lookup_failed, ambiguity_remains, linked_not_found, fenced_not_found,
    resolve_no_provider_payment. cbv zeta. evolve.
Qed.
Lemma drains_consume_permission i : evolves (drains b) (consume_create_permission i now).
Proof. unfold consume_create_permission, fence_unfenced. evolve. Qed.
End At.

Hint Resolve holds_conclude drains_consume_permission : evolves.
Context (now : datetime) (Hnow : b < dt_instant (as_utc now)).
Lemma drains_admit_reconcile c p i e : evolves (drains b) (admit_reconcile c p i e (Some now)).
Proof.
  unfold admit_reconcile. do 2 (apply evolves_bind; [apply _|evolve|intros ?]).
  apply (evolves_bind_yields _ _ _ _ (yields_moment now)); [evolve|intros ? ->]. evolve.
Qed.
Lemma yields_admit_reconcile c p i e : yields (λ a, fst a = as_utc now) (admit_reconcile c p i e (Some now)).
Proof.
  unfold admit_reconcile. do 2 (apply (yields_bind _ _ _ _ (yields_any _)); intros ? _).
  apply (yields_bind _ _ _ _ (yields_moment now)). intros ? ->. yield.
Qed.
Lemma drains_reconcile c p i e : evolves (drains b) (reconcile_intent c p i e (Some now)).
Proof.
  unfold reconcile_intent. apply (evolves_bind_yields _ _ _ _ (yields_admit_reconcile c p i e)); [apply drains_admit_reconcile|].
  intros [m [result|]]; cbn; [intros _; evolve|intros ->]. evolve.
  apply evolves_attempt_lookup; [apply _|]. evolve.
Qed.
Hint Resolve drains_dispatch drains_reconcile : evolves.
End Reconciliation.

(** ** The turn *)
Section Turn.
Context `{Env} (text : exn → ustr) (b : Z) (m : datetime) (Hm : b < dt_instant (as_utc m)).

Lemma drains_process p e c : evolves (drains b) (process_claimed_event p e c (Some m)).
Proof.
  unfold process_claimed_event. cbv zeta.
  apply (evolves_bind_yields _ _ _ _ (yields_moment m)); [evolve|intros ? ->].
  rewrite <-(as_utc_idemp m) in Hm.
  evolve; [by apply drains_dispatch|by apply drains_reconcile].
Qed.

Lemma drains_with_session {A} (k : P A) : evolves (drains b) k → evolves (drains b) (with_session k).
Proof. apply evolves_with_session; [apply _|intros w Hw; cbn; lia]. Qed.
Lemma drains_return id e : evolves (drains b) (return_to_queue text id m e).
Proof.
  apply drains_with_session. evolve. apply evolves_holds_drains, holds_reschedule. by rewrite as_utc_instant in Hm.
Qed.
Hint Resolve drains_process drains_return : evolves.
Lemma drains_work_turn p x ev : evolves (drains b) (work_turn text p x m ev).
Proof. apply drains_with_session. unfold handle_claimed. evolve. Qed.

(** The claim takes one event off those that wait. *)
Lemma claim_row_backlog x l d r : b < dt_instant l → next_due (as_utc m) d = Some r →
  (backlog b (claim_row (ob_id r) x l d) <= pred (backlog b d))%nat.
Proof.
  intros Hl En. pose proof (next_due_Some _ _ _ En) as (Hr & Hdue & Hmin). unfold claim_row.
  set (g := λ y, if bool_decide (ob_id y = ob_id r) then claimed x l y else y).
  assert (Hg : ∀ y, is_waiting b (g y) = true → is_waiting b y = true).
  { intros y. unfold g. case_bool_decide; [|done]. by apply (no_sooner_later b (claimed x l)). }
  destruct (backlog b d) as [|n] eqn:E0.
  - pose proof (filter_map_le (is_waiting b) g (db_outbox d) Hg). unfold backlog, waiting in *. cbn. lia.
  - destruct (backlog_pos b d) as (e & He & Hw); [lia|]. unfold is_waiting in Hw.
    apply andb_true_iff in Hw as [Ho Hb%Z.leb_le].
    assert (Hde : due_predicate (as_utc m) e = true) by (unfold due_predicate, dt_geb; rewrite Ho; apply Z.leb_le; lia).
    specialize (Hmin e He Hde). apply andb_true_iff in Hdue as [Hor _].
    pose proof (filter_map_lt (is_waiting b) g (db_outbox d) r Hg Hr) as Hlt. unfold backlog, waiting in *. cbn.
    apply Nat.lt_le_pred in Hlt; [by rewrite E0 in Hlt| |].
    + unfold is_waiting. rewrite Hor. apply Z.leb_le. lia.
    + unfold g. rewrite bool_decide_eq_true_2 by done. unfold is_waiting. cbn. apply Z.leb_gt. lia.
Qed.
Lemma claim_turn_drains d x lease w : plain d → w_db w = w_committed w → outbox_table_ok (w_db w) → 0 <= lease →
  (backlog b (w_committed (snd (claim_turn d x m lease w))) <= pred (backlog b (w_committed w)))%nat.
Proof.
  intros Hd Hs Hok Hl. unfold claim_turn. rewrite (with_session_run _ _ Hs).
  unfold mbind, M_bind. rewrite (claim_next_cases _ _ _ _ _ Hd Hok). cbv zeta.
  destruct (next_due (as_utc m) (w_db w)) as [r|] eqn:En; cbn [snd closed commit modify mret M_ret w_committed w_db set_w_db].
  - rewrite <-Hs. apply claim_row_backlog; [|done]. rewrite dt_instant_add. lia.
  - rewrite <-Hs. destruct (backlog b (w_db w)) as [|n] eqn:E0; [lia|]. exfalso.
    destruct (backlog_pos b (w_db w)) as (r & Hr & Hw); [lia|].
    pose proof (next_due_None _ _ _ En Hr) as Hno. revert Hno Hw. unfold due_predicate, is_waiting, dt_geb.
    destruct (is_open _); [|done]. cbn. rewrite Z.leb_gt, Z.leb_le. lia.
Qed.
End Turn.

(** ** One turn of the worker, at the time the clock shows *)
Lemma run_once_drains `{Env} (text : exn → ustr) b d p x lease w :
  (∀ n, b < dt_instant (env_utcnow n)) → 0 <= lease → plain d →
  w_db w = w_committed w → outbox_table_ok (w_db w) →
  (backlog b (w_committed (snd (run_once text d p x None lease w))) <= pred (backlog b (w_committed w)))%nat.
Proof.
  intros Hclock Hl Hd Hs Hok. unfold run_once, moment_of, utcnow. unfold mbind at 1 3, M_bind at 1 3. cbn [mret M_ret].
  set (m := as_utc (env_utcnow (w_ticks w))). set (w0 := mkWorld _ _ _ _ _ _).
  assert (Hm : b < dt_instant (as_utc m)) by (unfold m; rewrite !as_utc_instant; apply Hclock).
  pose proof (claim_turn_drains b m Hm d x lease w0 Hd Hs Hok Hl) as Hc. unfold mbind, M_bind.
  pose proof (with_session_settled (event ← claim_next_event d x (Some m) lease; commit;; mret event) w0) as Hs1.
  unfold claim_turn in *. destruct (with_session _ w0) as [[[ev|]|e] w1]; [|exact Hc..]. cbn [snd] in Hc, Hs1.
  pose proof (drains_work_turn text b m Hm p x ev w1) as Hw. destruct Hw as [_ Hw]; [by rewrite Hs1|]. etrans; [exact Hw|exact Hc].
Qed.
