(* ===== verification/RunWorker.v ===== *)
(** * The worker process

    services/payment_executor/run_worker.py: the loop that drains the outbox until it
    is told to stop, and the exit status of the process.  [checks] is the number of
    times the loop finds [stop] unset; [others] is what other sessions - the API, the
    webhooks, another worker - commit while this one waits or sleeps.  Logging and
    the length of the sleep are left out: neither reads or writes a state here. *)
From S2P Require Import Prelude Python PyText PyFloat Json Text Enums Errors Firewall Canonical Transaction.
From S2P Require Import StateMachines Merchant Kernel Policy Payment Database Hashing Evolution Ledger.
From S2P Require Import Binding Authorization AuthorizationTheorems Outbox Intents Provider Executor.
From S2P Require Import Reconciliation Webhooks WebhooksProperties CreateOnce Worker WorkerProperties QueueProgress.

Section RunWorker.
Context `{Env} (library_message : exn → ustr) (dialect : Dialect) (others : nat → World → World).

(** [while not stop.is_set()]. *)
Fixpoint worker_loop (provider : PaymentProvider) (worker_id : string) (checks : nat) (processed : Z) : P Z :=
  match checks with
  | O => mret processed
  | S n =>
      modify (others n);;
      turn ← try_except (Some <$> run_once library_message dialect provider worker_id None DEFAULT_LEASE)
                        (λ _, mret None);
      match turn with
      | None => worker_loop provider worker_id n processed
      | Some outcome =>
          if is_none (wk_event_id outcome) then worker_loop provider worker_id n processed
          else worker_loop provider worker_id n (processed + 1)
      end
  end.

(** [provider_for] raises before the loop is entered. *)
Definition run_forever (fake : PaymentProvider) (from_environment : string + PaymentProvider)
    (provider_name worker_id app_env : string) (checks : nat) : outcome RegistryError (P Z) :=
  match provider_for fake from_environment provider_name app_env with
  | Raise e => Raise e
  | Ok provider => Ok (worker_loop provider worker_id checks 0)
  end.

(** The exit status of [_amain]. *)
Definition amain (fake : PaymentProvider) (from_environment : string + PaymentProvider)
    (provider_name worker_id app_env : string) (checks : nat) : P Z :=
  match run_forever fake from_environment provider_name worker_id app_env checks with
  | Raise _ => mret 2
  | Ok run => run;; mret 0
  end.

(** [_parse_args]: the provider of a worker started without [--provider]. *)
Definition default_provider_name (app_env : string) : string :=
  if negb (String.eqb app_env "production") then "fake" else RAZORPAY_NAME.

(** ** The loop, one check at a time *)

(** What the turn left, whether it returned or raised. *)
Definition after_turn (provider : PaymentProvider) (worker_id : string) (w : World) : World :=
  snd (run_once library_message dialect provider worker_id None DEFAULT_LEASE w).

Lemma worker_loop_step p x n k w :
  ∃ k', k <= k' <= k + 1 ∧
    worker_loop p x (S n) k w = worker_loop p x n k' (after_turn p x (others n w)).
Proof.
  cbn [worker_loop]. unfold mbind at 1, M_bind at 1, modify. unfold mbind, M_bind, try_except, fmap, M_fmap, after_turn.
  destruct (run_once _ _ _ _ _ _ (others n w)) as [[outcome|e] w1]; cbn [fst snd mret M_ret].
  - destruct (is_none (wk_event_id outcome)); [exists k|exists (k + 1)]; split; [lia|done|lia|done].
  - exists k. split; [lia|done].
Qed.
Lemma worker_loop_returns p x n k w : ∃ k' w', worker_loop p x n k w = (Ok k', w') ∧ k <= k' <= k + Z.of_nat n.
Proof.
  revert k w. induction n as [|n IH]; intros k w; [exists k, w; split; [done|lia]|].
  destruct (worker_loop_step p x n k w) as (k1 & Hk & E). destruct (IH k1 (after_turn p x (others n w))) as (k' & w' & E' & Hk').
  exists k', w'. rewrite E. split; [done|lia].
Qed.

(** Between two turns the other sessions move the durable state forward and put no new
    event among those waiting at [b]: what they enqueue is due at its own, later, time. *)
Definition considerate (b : Z) : Prop := ∀ n w, w_db w = w_committed w →
  w_db (others n w) = w_committed (others n w) ∧
  db_le (w_committed w) (w_committed (others n w)) ∧
  (backlog b (w_committed (others n w)) <= backlog b (w_committed w))%nat.

Lemma after_turn_settled p x w : w_db w = w_committed w → w_db (after_turn p x w) = w_committed (after_turn p x w).
Proof.
  intros Hs. unfold after_turn, run_once, moment_of, utcnow, claim_turn. unfold mbind, M_bind. cbn [mret M_ret].
  match goal with |- context [with_session ?k ?v] =>
    pose proof (with_session_settled k v) as H1; destruct (with_session k v) as [[[row|]|e] w1] end; [|exact H1..].
  apply with_session_settled.
Qed.

Lemma worker_loop_drains b p x n k w :
  plain dialect → (∀ t, b < dt_instant (env_utcnow t)) → considerate b →
  w_db w = w_committed w → outbox_table_ok (w_committed w) →
  let w' := snd (worker_loop p x n k w) in
  db_le (w_committed w) (w_committed w') ∧
  (backlog b (w_committed w') <= backlog b (w_committed w) - n)%nat.
Proof.
  intros Hd Hclock Ho. cbv zeta. revert k w. induction n as [|n IH]; intros k w Hs Hok.
  - cbn. split; [done|lia].
  - destruct (worker_loop_step p x n k w) as (k1 & _ & ->).
    destruct (Ho n w Hs) as (Hs1 & Hle1 & Hb1). pose proof (dl_outbox_ok _ _ Hle1 Hok) as Hok1.
    pose proof (run_once_drains library_message b dialect p x DEFAULT_LEASE _ Hclock ltac:(done) Hd Hs1) as Hb2.
    pose proof (durable_run_once library_message dialect p x None DEFAULT_LEASE (others n w)) as D.
    fold (after_turn p x (others n w)) in Hb2, D. rewrite Hs1 in Hb2. specialize (Hb2 Hok1).
    destruct D as (_ & Hle2 & _); [by rewrite Hs1|].
    destruct (IH k1 _ (after_turn_settled p x _ Hs1)) as [Hle3 Hb3]; [by apply (dl_outbox_ok _ _ Hle2)|].
    split; [by repeat (etrans; [eassumption|])|lia].
Qed.
End RunWorker.

(** ** Properties *)

(** C35: No payment event is stranded.  Take a worker started for a provider that its
    deployment has, and a time [b] that its clock is past.  Whatever the handlers do -
    an exception in any of them included - [run_forever] returns, and once it has
    checked [stop] as often as there were open events available at [b], every event of
    the outbox is still in its table, with what it asks for unchanged, and none of them
    is still waiting: it has been claimed, and is processed, dead-lettered, or due again
    later than [b].  The other sessions are arbitrary but for adding nothing due at [b]. *)
Theorem no_event_is_stranded `{Env} (text : exn → ustr) (d : Dialect) (others : nat → World → World)
    (fake : PaymentProvider) (from_environment : string + PaymentProvider) (name worker app_env : string)
    (checks : nat) (run : P Z) (b : Z) (w : World) :
  run_forever text d others fake from_environment name worker app_env checks = Ok run →
  plain d → (∀ t, b < dt_instant (env_utcnow t)) → considerate others b →
  w_db w = w_committed w → outbox_table_ok (w_committed w) →
  (backlog b (w_committed w) <= checks)%nat →
  ∃ processed w', run w = (Ok processed, w') ∧ 0 <= processed <= Z.of_nat checks ∧
    (∀ e, e ∈ db_outbox (w_committed w) → ∃ e', find_outbox (ob_id e) (w_committed w') = Some e' ∧
       outbox_le e e' ∧ is_waiting b e' = false) ∧
    ∀ e', e' ∈ db_outbox (w_committed w') → is_waiting b e' = false.
Proof.
  unfold run_forever. intros E Hd Hclock Ho Hs Hok Hn. destruct (provider_for _ _ _ _) as [p|]; [|done].
  injection E as <-. destruct (worker_loop_returns text d others p worker checks 0 w) as (k & w' & E & Hk).
  pose proof (worker_loop_drains text d others b p worker checks 0 w Hd Hclock Ho Hs Hok) as Hl.
  rewrite E in Hl. cbn [snd] in Hl. cbv zeta in Hl. destruct Hl as [Hle Hb].
  assert (Hidle : ∀ e', e' ∈ db_outbox (w_committed w') → is_waiting b e' = false) by (apply backlog_nil; lia).
  exists k, w'. split; [done|]. split; [lia|]. split; [|done]. intros e He.
  destruct (find_outbox_le _ _ (ob_id e) e Hle Hok) as (e' & Hf & Hle').
  { by apply find_outbox_elem; [apply Hok| |]. }
  exists e'. split; [done|]. split; [done|]. apply Hidle. by apply find_outbox_Some in Hf as [Hin _].
Qed.

(** The process ends with status 2, having touched nothing, when its deployment has not
    the provider it was started for; otherwise with 0. *)
Theorem amain_exit_status `{Env} (text : exn → ustr) (d : Dialect) (others : nat → World → World)
    (fake : PaymentProvider) (from_environment : string + PaymentProvider) (name worker app_env : string)
    (checks : nat) (w : World) :
  match provider_for fake from_environment name app_env with
  | Raise _ => amain text d others fake from_environment name worker app_env checks w = (Ok 2, w)
  | Ok _ => ∃ w', amain text d others fake from_environment name worker app_env checks w = (Ok 0, w')
  end.
Proof.
  unfold amain, run_forever. destruct (provider_for _ _ _ _) as [p|]; [|done].
  destruct (worker_loop_returns text d others p worker checks 0 w) as (k & w' & E & _).
  exists w'. unfold mbind, M_bind. by rewrite E.
Qed.

(** The provider of a worker started without one is always registered. *)
Theorem default_provider_is_registered (app_env : string) :
  default_provider_name app_env ∈ registered_provider_names app_env.
Proof. unfold default_provider_name, registered_provider_names. destruct (String.eqb _ _); cbn; set_solver. Qed.

#[local] Existing Instance demo_env.

(** One overdue event, whose handler raises as its payment does not exist, in a database
    nobody else writes. *)
Definition overdue_world : World := demo_world (set_db_outbox [set_ob_available_at (utc 0) (demo_event 0)] db_empty).
Lemma overdue_world_ok : outbox_table_ok (w_committed overdue_world).
Proof.
  split; cbn; [repeat constructor; apply not_elem_of_nil|].
  constructor; [|constructor]. apply outbox_checks_ok. cbn. lia.
Qed.
Lemma demo_clock t : 0 < dt_instant (env_utcnow (Env:=demo_env) t).
Proof. unfold env_utcnow, demo_env, dt_instant, utc. cbn. lia. Qed.
Lemma nobody_else b : considerate (λ _ w, w) b.
Proof. by intros n w Hs. Qed.

Lemma no_event_is_stranded_witness :
  backlog 0 (w_committed overdue_world) = 1%nat ∧
  ∃ run processed w', run_forever (H:=demo_env) (λ _, []) OtherDialect (λ _ w, w) signed_provider (inr signed_provider) "razorpay_test"
      "worker-1" "production" 1 = Ok run ∧ run overdue_world = (Ok processed, w') ∧
    ∀ e', e' ∈ db_outbox (w_committed w') → is_waiting 0 e' = false.
Proof.
  split; [reflexivity|].
  destruct (no_event_is_stranded (λ _, []) OtherDialect (λ _ w, w) signed_provider (inr signed_provider) "razorpay_test"
    "worker-1" "production" 1 _ 0 overdue_world eq_refl demo_outbox_plain demo_clock (nobody_else 0) eq_refl
    overdue_world_ok ltac:(vm_compute; lia)) as (k & w' & E & _ & _ & Hw).
  eexists _, k, w'. split; [reflexivity|]. split; [exact E|exact Hw].
Defined.

(** Both handlers raised; the loop went on, and the event is back in the queue. *)
Example overdue_turn :
  let '(o, w') := worker_loop (H:=demo_env) (λ _, []) OtherDialect (λ _ w, w) signed_provider "worker-1" 2 0 overdue_world in
  o = Ok 0 ∧ map (λ e, (ob_status e, ob_attempts e)) (db_outbox (w_committed w')) = [(OutboxStatus.PENDING, 2)].
Proof. vm_compute. by split. Qed.
