(* ===== verification/OrchestratorProperties.v ===== *)
(** * What a mission run establishes

    The whole path from a request to an authorization: what the merchants answer
    decides nothing but which acceptable offer is bought. *)
From S2P Require Import Prelude Python PyFloat Json Text Enums Errors Provenance Firewall Canonical.
From S2P Require Import Transaction StateMachines Merchant Kernel Policy Payment Database Hashing.
From S2P Require Import Evolution Ledger Binding Authorization AuthorizationTheorems Orchestrator.

(** ** What each stage leaves alone *)
Lemma evolved {S E A} (R : S → S → Prop) (m : M S E A) s o s' : evolves R m → m s = (o, s') → R s s'.
Proof. intros Hm E1. specialize (Hm s). by rewrite E1 in Hm. Qed.

Section Frames.
Context `{Env}.

(** Nothing but the audit ledger, clocks, identifiers and tokens changed. *)
Definition only_audit (w w' : World) : Prop :=
  (∃ l, w_db w' = set_db_audit l (w_db w)) ∧ w_committed w' = w_committed w ∧ w_calls w' = w_calls w ∧
  (w_fresh w <= w_fresh w')%N.
#[global] Instance audit_only_preorder : PreOrder only_audit.
Proof.
  split.
  - intros w. split; [|done]. exists (db_audit (w_db w)). by destruct (w_db w).
  - intros a b c ((l1 & E1) & A1 & A2 & A3) ((l2 & E2) & B1 & B2 & B3). split; [|split_and!; [congruence..|lia]].
    exists l2. by rewrite E2, E1.
Qed.
Lemma audit_only_event m t actor p : evolves only_audit (append_event m t actor p).
Proof.
  intros w. destruct (append_event_cases m t actor p w) as [(h & Hr & ->)|(e & w' & -> & Hd & Hc & Hl & Hf)]; cbn [snd].
  - split; [by eexists|]. cbn. split_and!; try done. lia.
  - split; [|done]. exists (db_audit (w_db w)). rewrite Hd. by destruct (w_db w).
Qed.

(** A stage past the constraints: it may move mission [m]'s state, and leaves the rows
    admission is decided on. *)
Definition mission_kept (m : uuid) (w w' : World) : Prop :=
  ∀ r, db_missions (w_db w) !! m = Some r → ∃ t, db_missions (w_db w') !! m = Some (set_ms_state t r).
Definition settled (m : uuid) (w w' : World) : Prop :=
  mission_kept m w w' ∧ db_decisions (w_db w') = db_decisions (w_db w) ∧ db_auths (w_db w') = db_auths (w_db w).
Definition rows_kept (m : uuid) (w w' : World) : Prop :=
  settled m w w' ∧ db_offers (w_db w') = db_offers (w_db w).
Lemma mission_kept_same m w w' : db_missions (w_db w') = db_missions (w_db w) → mission_kept m w w'.
Proof. intros E r Hr. rewrite E. exists (ms_state r). by destruct r. Qed.
#[global] Instance settled_preorder m : PreOrder (settled m).
Proof.
  split.
  - intros w. split; [by apply mission_kept_same|done].
  - intros a b c (A1 & A2 & A3) (B1 & B2 & B3). split; [|by rewrite B2, B3].
    intros r (t & Ht)%A1. apply B1 in Ht as [t' Ht]. by exists t'.
Qed.
#[global] Instance rows_kept_preorder m : PreOrder (rows_kept m).
Proof.
  split; [by intros w; split|]. intros a b c (A1 & A2) (B1 & B2). split; [by etransitivity|by rewrite B2].
Qed.
Lemma rows_kept_append m m' t actor p : evolves (rows_kept m) (append_event m' t actor p).
Proof.
  eapply evolves_weaken; [|apply audit_only_event]. intros s s' ((l & Hl) & _).
  unfold rows_kept, settled. rewrite Hl. split_and!; try done. apply mission_kept_same. by rewrite Hl.
Qed.
Lemma rows_kept_reads {A} m (f : DB → A) : evolves (rows_kept m) (reads f).
Proof. intros w. apply rows_kept_preorder. Qed.
Lemma rows_kept_set_state m t : evolves (rows_kept m) (set_mission_state m t).
Proof. intros w. split; [split; [|done]|done]. intros r Hr. exists t. cbn. by rewrite lookup_alter_eq, Hr. Qed.
Hint Resolve rows_kept_append rows_kept_reads rows_kept_set_state : evolves.
Lemma rows_kept_transition m t ty a p : evolves (rows_kept m) (transition m t ty a p).
Proof. unfold transition, get_mission. evolve. Qed.
Hint Resolve rows_kept_transition : evolves.
Lemma rows_kept_discover ms reg m c q : evolves (rows_kept m) (discover ms reg m c q).
Proof. unfold discover. evolve. Qed.
Lemma rows_kept_claims m mid cl claims reg : evolves (rows_kept m) (apply_claims m mid cl claims reg).
Proof.
  revert reg. induction claims as [|[f v] l IH]; intros reg; cbn [apply_claims]; [evolve|].
  destruct (negb _); [apply IH|]. destruct (register_apply _ _ _) as [[x|e] r]; [apply IH|].
  destruct e; unfold audit_escalation; evolve; apply IH.
Qed.
Lemma rows_kept_policy m c qs : evolves (rows_kept m) (enforce_policy_authority m c qs).
Proof.
  assert (Ho : ∀ mid os reg, evolves (rows_kept m) (apply_offers m mid os reg)).
  { intros mid os. induction os as [|o os IH]; intros reg; cbn [apply_offers]; [evolve|].
    apply evolves_bind; [apply _|apply rows_kept_claims|exact IH]. }
  assert (Hq : ∀ qs reg, evolves (rows_kept m) (apply_quotes m qs reg)).
  { intros qs'. induction qs' as [|q qs' IH]; intros reg; cbn [apply_quotes]; [evolve|].
    apply evolves_bind; [apply _|apply Ho|exact IH]. }
  unfold enforce_policy_authority. cbv zeta. apply evolves_bind; [apply _|apply Hq|intros ?; evolve].
Qed.
Lemma rows_kept_spoofs m os : evolves (rows_kept m) (audit_spoofs m os).
Proof. unfold audit_spoofs. evolve. Qed.
Lemma settled_writes m f :
  (∀ d, db_missions (f d) = db_missions d ∧ db_decisions (f d) = db_decisions d ∧ db_auths (f d) = db_auths d) →
  evolves (settled m) (writes f).
Proof. intros Hf w. split; [|apply Hf]. apply mission_kept_same, Hf. Qed.
Lemma settled_offers m os : evolves (settled m) (persist_offers m os).
Proof. unfold persist_offers. evolve. by apply settled_writes. Qed.
Lemma settled_ranks m os ranked : evolves (settled m) (persist_ranks os ranked).
Proof. unfold persist_ranks. evolve. by apply settled_writes. Qed.

(** ** What each stage returned *)
Lemma append_keeps_missions m t a p w x w' : append_event m t a p w = (Ok x, w') →
  db_missions (w_db w') = db_missions (w_db w).
Proof.
  intros E. pose proof (audit_only_event m t a p w) as Ho. rewrite E in Ho. destruct Ho as ((l & Hl) & _). cbn in Hl. by rewrite Hl.
Qed.
Lemma transition_Ok m target ty a p w w' : transition m target ty a p w = (Ok tt, w') →
  (∃ r, db_missions (w_db w) !! m = Some r ∧ MissionFSM.can_transition (ms_state r) target = true) ∧
  db_missions (w_db w') = alter (set_ms_state target) m (db_missions (w_db w)).
Proof.
  unfold transition, get_mission. intros E. run_step E. apply reads_Ok in Hrun as [-> ->].
  destruct (db_missions (w_db w) !! m) as [r|] eqn:Er; [|run_inv E]. run_step E.
  unfold MissionFSM.assert_transition in Hrun. destruct (MissionFSM.can_transition (ms_state r) target) eqn:Et;
    cbn [negb] in Hrun; [|run_inv Hrun]. apply ret_run_Ok in Hrun as [_ ->]. split; [by exists r|].
  run_step E. unfold set_mission_state, writes in Hrun. apply modify_run_Ok in Hrun as [_ ->].
  run_step E. apply append_keeps_missions in Hrun. apply ret_run_Ok in E as [_ ->]. by rewrite Hrun.
Qed.

(** An offer as normalization leaves it. *)
Record sourced (c : MissionConstraints) (context : MerchantContext) (offers : list RawMerchantOffer)
    (o : ProvenancedOffer) : Prop := {
  so_raw : ∃ raw, raw ∈ offers ∧ ingested context raw o;
  so_valid : po_valid o = true → acceptable c o
}.
Lemma normalize_quote_Ok context offers c n os n' :
  normalize_quote context offers c n = (Ok os, n') →
  (n <= n')%N ∧ NoDup (map po_offer_id os) ∧
  Forall (λ o, (n < po_offer_id o <= n')%N ∧ sourced c context offers o) os.
Proof.
  revert n os. induction offers as [|raw offers IH]; intros n os E; cbn [normalize_quote] in E.
  { apply ret_run_Ok in E as [-> ->]. split; [lia|]. split; [constructor|constructor]. }
  run_step E. unfold normalize_offer in Hrun. run_step Hrun. apply ret_run_Ok in Hrun as [-> ->].
  apply ingest_merchant_offer_ok in Hrun0 as (Hi & Hid & -> & _). run_step E. apply ret_run_Ok in E as [-> ->].
  apply IH in Hrun as (Hn & Hnd & Hf). split; [lia|]. split.
  - cbn [map]. constructor; [|done]. rewrite list_elem_of_fmap. intros (o & Ho & Hin).
    rewrite Forall_forall in Hf. apply Hf in Hin as [Hlt _]. cbn in Ho. rewrite Hid in Ho. lia.
  - constructor.
    + cbn. rewrite Hid. split; [lia|]. split.
      * exists raw. split; [by left|]. by destruct Hi.
      * intros Hv. apply with_verdict_valid, rejection_reasons_nil in Hv. by destruct Hv.
    + eapply Forall_impl; [exact Hf|]. intros o [Hlt [(raw' & Hin & Hr) Hv]]. split; [lia|]. split; [|done].
      exists raw'. split; [by right|done].
Qed.
Lemma normalize_offers_Ok quotes c n os n' :
  normalize_offers quotes c n = (Ok os, n') →
  (n <= n')%N ∧ NoDup (map po_offer_id os) ∧
  Forall (λ o, (n < po_offer_id o <= n')%N ∧ ∃ q, q ∈ quotes ∧ sourced c (aq_context q) (aq_offers q) o) os.
Proof.
  revert n os. induction quotes as [|q quotes IH]; intros n os E; cbn [normalize_offers] in E.
  { apply ret_run_Ok in E as [-> ->]. split; [lia|]. split; constructor. }
  run_step E. apply normalize_quote_Ok in Hrun as (Hn & Hnd & Hf). run_step E. apply ret_run_Ok in E as [-> ->].
  apply IH in Hrun as (Hn' & Hnd' & Hf'). split; [lia|]. split.
  - rewrite map_app. apply NoDup_app. split; [done|]. split; [|done]. intros i.
    rewrite !list_elem_of_fmap. intros (o & -> & Ho) (o' & Eo & Ho'). rewrite Forall_forall in Hf, Hf'.
    apply Hf in Ho as [? _]. apply Hf' in Ho' as [? _]. rewrite Eo in *. lia.
  - apply Forall_app. split; eapply Forall_impl; try eassumption; cbn.
    + intros o [? Hs]. split; [lia|]. exists q. split; [by left|done].
    + intros o [? (q' & Hq & Hs)]. split; [lia|]. exists q'. split; [by right|done].
Qed.
Lemma with_ids_Ok {A} (m : M uuid exn A) w a w' : with_ids m w = (Ok a, w') →
  ∃ i, m (w_fresh w) = (Ok a, i) ∧ w_db w' = w_db w.
Proof. unfold with_ids. destruct (m (w_fresh w)) as [o i]. intros [= -> <-]. by exists i. Qed.

(** ** The stored offers *)
Lemma to_normalized_Ok o dto : to_normalized o = Ok dto →
  no_offer_id dto = po_offer_id o ∧ no_merchant_id dto = pv_value (po_merchant_id o) ∧
  no_product_id dto = pv_value (po_product_id o) ∧ no_amount_inr dto = pv_value (po_amount_inr o) ∧
  no_currency dto = pv_value (po_currency o) ∧ no_valid dto = po_valid o.
Proof.
  unfold to_normalized. intros (v & Hv & E)%outcome_bind_Ok. cbv zeta in E.
  destruct (normalized_offer_error _); [discriminate|]. by apply Ok_inj in E as <-.
Qed.

(** The row of a normalized offer, whatever rank it was given. *)
Definition row_of (m : uuid) (o : ProvenancedOffer) (r : OfferRow) : Prop :=
  of_id r = po_offer_id o ∧ of_mission_id r = m ∧ of_merchant_id r = pv_value (po_merchant_id o) ∧
  of_product_id r = pv_value (po_product_id o) ∧ of_amount_inr r = pv_value (po_amount_inr o) ∧
  of_currency r = pv_value (po_currency o) ∧ of_valid r = po_valid o.
(** Every row of the mission is that of one of these offers. *)
Definition rows_from (m : uuid) (os : list ProvenancedOffer) (d : DB) : Prop :=
  ∀ r, r ∈ db_offers d → of_mission_id r = m → ∃ o, o ∈ os ∧ row_of m o r.

Lemma persist_offers_Ok m os os0 w w' : rows_from m os0 (w_db w) → persist_offers m os w = (Ok tt, w') →
  rows_from m (os0 ++ os) (w_db w').
Proof.
  revert os0 w. induction os as [|o os IH]; intros os0 w Hw E; cbn [persist_offers for_each] in E.
  { apply ret_run_Ok in E as [_ ->]. by rewrite app_nil_r. }
  unfold persist_offers in E, IH. cbn [for_each] in E. run_step E. run_step Hrun. apply lift_run_Ok in Hrun0 as [Hd ->].
  apply modify_run_Ok in Hrun as [_ ->]. apply to_normalized_Ok in Hd as (H1 & H2 & H3 & H4 & H5 & H6).
  change (o :: os) with ([o] ++ os). rewrite app_assoc. eapply IH; [|exact E].
  intros r Hr Hm. cbn in Hr. apply elem_of_app in Hr as [Hr|Hr%list_elem_of_singleton].
  - destruct (Hw r Hr Hm) as (o' & Ho & Hro). exists o'. split; [|done]. apply elem_of_app. by left.
  - subst r. exists o. split; [apply elem_of_app; right; by left|]. by split_and!.
Qed.
Lemma persist_ranks_Ok m os norm ranked w w' : rows_from m os (w_db w) → persist_ranks norm ranked w = (Ok tt, w') →
  rows_from m os (w_db w').
Proof.
  revert w. induction norm as [|o norm IH]; intros w Hw E.
  { by apply ret_run_Ok in E as [_ ->]. }
  unfold persist_ranks in E, IH. cbn [for_each] in E. run_step E. eapply IH; [|exact E].
  destruct (rank_of ranked (po_offer_id o)) as [rk|]; [|by apply ret_run_Ok in Hrun as [_ ->]].
  apply modify_run_Ok in Hrun as [_ ->]. intros r Hr Hm. cbn in Hr. apply list_elem_of_fmap in Hr as (r0 & -> & Hr0).
  destruct (Hw r0 Hr0) as (o' & Ho & H1); [by case_bool_decide|]. exists o'. split; [done|]. by case_bool_decide.
Qed.

(** ** Authorizing *)

(** What issuing and activating leave alone. *)
Definition context_kept (w w' : World) : Prop :=
  db_missions (w_db w') = db_missions (w_db w) ∧ db_offers (w_db w') = db_offers (w_db w) ∧
  db_decisions (w_db w') = db_decisions (w_db w).
#[global] Instance context_kept_preorder : PreOrder context_kept.
Proof.
  unfold context_kept. split; [by intros w|]. intros a b c (A1 & A2 & A3) (B1 & B2 & B3). by rewrite B1, B2, B3.
Qed.
Lemma context_kept_append m t actor p : evolves context_kept (append_event m t actor p).
Proof.
  eapply evolves_weaken; [|apply audit_only_event]. intros s s' ((l & Hl) & _). unfold context_kept. by rewrite Hl.
Qed.
Lemma context_kept_clock now : evolves context_kept (moment_of now).
Proof. destruct now; by intros w. Qed.
Lemma context_kept_ids : evolves context_kept uuid4.
Proof. by intros w. Qed.
Lemma context_kept_insert r : evolves context_kept (insert_authorization r).
Proof.
  intros w. unfold insert_authorization, read_db, reads, gets, mbind, M_bind, flush_checked.
  by destruct (violates _).
Qed.
Lemma context_kept_enforce c k : evolves context_kept (enforce_registered c k).
Proof. intros w. rewrite enforce_registered_cases. by destruct (_ && _). Qed.
Hint Resolve context_kept_append context_kept_clock context_kept_ids context_kept_insert context_kept_enforce : evolves.
Lemma context_kept_issue c m t s at_ : evolves context_kept (issue_authorization c m t s at_).
Proof. unfold issue_authorization, audit. evolve. Qed.

Lemma activate_Ok i now w row w' : activate_authorization i now w = (Ok row, w') →
  ∃ r, db_auths (w_db w) !! i = Some r ∧ au_status r = AuthorizationStatus.PENDING ∧
    au_approval_scheme r = ApprovalScheme.POLICY_AUTO ∧ context_kept w w' ∧
    db_auths (w_db w') = <[i := set_au_status AuthorizationStatus.ACTIVE r]> (db_auths (w_db w)).
Proof.
  unfold activate_authorization. intros E. run_step E. apply moment_of_Ok in Hrun as [(Hd & _ & _) _]. rename s into w1.
  run_step E. apply update_authorization_Ok in Hrun as [(r & Hr & Hp & -> & _ & ->)|(-> & -> & _)].
  2:{ run_step E. apply moved_row_Ok in Hrun as [? _]. discriminate. }
  run_step E. apply moved_row_Ok in Hrun as (_ & _ & ->). run_step E. apply audit_db in Hrun as [l Hl].
  apply ret_run_Ok in E as [-> ->]. rewrite Hd in *. exists r.
  rewrite !andb_true_iff, !bool_decide_eq_true in Hp. destruct Hp as ((((Hs & Hst) & _) & _) & _).
  split_and!; try done; unfold context_kept; rewrite Hl; cbn; by rewrite ?Hd.
Qed.

Lemma on_bind_refused_Ok {A} m e w (a : A) w' : on_bind_refused m e w ≠ (Ok a, w').
Proof. intros E. destruct e; cbn [on_bind_refused] in E; run_inv E. Qed.


(** ** The stages of a run that returned *)
Lemma create_row_Ok request w m w' : create_mission_row request w = (Ok m, w') →
  m = (w_fresh w + 1)%N ∧ (m <= w_fresh w')%N ∧
  db_missions (w_db w') !! m
    = Some (mkMissionRow m (rq_raw_query request) (rq_quantity request) MissionState.CREATED None) ∧
  db_offers (w_db w') = db_offers (w_db w) ∧ db_decisions (w_db w') = db_decisions (w_db w) ∧
  db_auths (w_db w') = db_auths (w_db w).
Proof.
  unfold create_mission_row. intros E. run_step E. injection Hrun as <- <-. run_step E.
  unfold insert_mission in Hrun. run_step Hrun. apply reads_Ok in Hrun0 as [-> ->]. run_step Hrun.
  apply flush_checked_Ok in Hrun0 as [_ ->]. apply modify_run_Ok in Hrun as [_ ->]. run_step E.
  pose proof (evolved _ _ _ _ _ (audit_only_event _ _ _ _) Hrun) as Ho. destruct Ho as ((l & Hl) & _ & _ & Hf). apply ret_run_Ok in E as [-> ->].
  rewrite Hl. cbn in Hf |- *. rewrite lookup_insert_eq. by split_and!.
Qed.

Lemma constraints_Ok m c w w' r : db_missions (w_db w) !! m = Some r → persist_constraints m c w = (Ok tt, w') →
  (∃ t, db_missions (w_db w') !! m = Some (set_ms_state t (set_ms_constraints (Some c) r))) ∧
  db_offers (w_db w') = db_offers (w_db w) ∧ db_decisions (w_db w') = db_decisions (w_db w) ∧
  db_auths (w_db w') = db_auths (w_db w).
Proof.
  intros Hm. unfold persist_constraints. intros E. run_step E. injection Hrun as <- <-. run_step E.
  unfold insert_constraints in Hrun. run_step Hrun. apply reads_Ok in Hrun0 as [-> ->]. run_step Hrun.
  apply flush_checked_Ok in Hrun0 as [_ ->]. apply modify_run_Ok in Hrun as [_ ->].
  destruct (evolved _ _ _ _ _ (rows_kept_transition _ _ _ _ _) E) as ((Hk & Hd & Ha) & Ho). split; [|by split_and!]. apply Hk. cbn. by rewrite lookup_alter_eq, Hm.
Qed.

(** Where a quote comes from: an agent of the transport's, reached. *)
Definition quoted_by (merchants : list MerchantAgent) (reg : MerchantRegistry) (c : MissionConstraints) (q : Z)
    (quote : AuthenticatedQuote) : Prop :=
  ∃ agent, agent ∈ merchants ∧ transport_connect reg agent = Ok (aq_context quote) ∧
    aq_offers quote = ma_quote agent c q.
Lemma discover_Ok merchants reg m c q w quotes w' : discover merchants reg m c q w = (Ok quotes, w') →
  Forall (quoted_by merchants reg c q) quotes.
Proof.
  unfold discover. intros E. run_step E. run_step E. run_step E. apply lift_run_Ok in Hrun1 as [Hq ->].
  run_step E. apply ret_run_Ok in E as [-> ->]. apply transport_collect_ok in Hq. apply Forall_forall. intros x Hx.
  apply list_elem_of_lookup in Hx as [i Hi]. destruct (Forall2_lookup_r _ _ _ _ _ Hq Hi) as (ag & Ha & H1 & H2).
  exists ag. split; [by eapply list_elem_of_lookup_2|done].
Qed.

(** An offer normalization kept for mission [m]. *)
Definition vetted (merchants : list MerchantAgent) (reg : MerchantRegistry) (c : MissionConstraints) (q : Z)
    (o : ProvenancedOffer) : Prop :=
  ∃ agent context raw, agent ∈ merchants ∧ transport_connect reg agent = Ok context ∧
    raw ∈ ma_quote agent c q ∧ ingested context raw o ∧ (po_valid o = true → acceptable c o).
Lemma normalize_stage_Ok merchants reg m c q quotes w os w' :
  Forall (quoted_by merchants reg c q) quotes → rows_from m [] (w_db w) →
  normalize_stage m c quotes w = (Ok os, w') →
  settled m w w' ∧ NoDup (map po_offer_id os) ∧ Forall (vetted merchants reg c q) os ∧ rows_from m os (w_db w').
Proof.
  intros Hq Hr E. unfold normalize_stage in E. run_step E. apply with_ids_Ok in Hrun as (i & Hn & Hd).
  apply normalize_offers_Ok in Hn as (_ & Hnd & Hf). run_step E. destruct a0.
  pose proof (evolved _ _ _ _ _ (settled_offers _ _) Hrun) as Hs. rewrite <- Hd in Hr.
  apply (persist_offers_Ok _ _ [] _ _ Hr) in Hrun. run_step E. pose proof (evolved _ _ _ _ _ (rows_kept_spoofs _ _) Hrun0) as H1.
  run_step E. pose proof (evolved _ _ _ _ _ (rows_kept_transition _ _ _ _ _) Hrun1) as H2.
  apply ret_run_Ok in E as [-> ->]. split_and!.
  - transitivity s; [|transitivity s0; [done|]; etransitivity; [apply H1|apply H2]].
    unfold settled. rewrite Hd. split_and!; try done. apply mission_kept_same. by rewrite Hd.
  - done.
  - eapply Forall_impl; [exact Hf|]. intros o (_ & qt & Hin & [(raw & Hraw & Hi) Hv]).
    rewrite Forall_forall in Hq. destruct (Hq _ Hin) as (ag & Ha & Hc & Ho). rewrite Ho in Hraw.
    by exists ag, (aq_context qt), raw.
  - intros r. destruct H1 as [_ H1], H2 as [_ H2]. rewrite H2, H1. apply Hrun.
Qed.

Lemma rank_stage_Ok m os w ranked w' : rows_from m os (w_db w) → rank_stage m os w = (Ok ranked, w') →
  settled m w w' ∧ ranked = rank_offers os ∧ rows_from m os (w_db w').
Proof.
  intros Hr E. unfold rank_stage in E. cbv zeta in E. run_step E. destruct a.
  pose proof (evolved _ _ _ _ _ (settled_ranks m _ _) Hrun) as Hs.
  apply (persist_ranks_Ok _ _ _ _ _ _ Hr) in Hrun. run_step E.
  destruct (evolved _ _ _ _ _ (rows_kept_transition _ _ _ _ _) Hrun0) as [H1 H2].
  apply ret_run_Ok in E as [-> ->]. split; [by etransitivity|]. split; [done|]. intros r. rewrite H2. apply Hrun.
Qed.
Lemma rank_head os b : head (rank_offers os) = Some b → ∃ o, o ∈ os ∧ po_valid o = true ∧ b = with_rank 1 o.
Proof.
  intros Hb. destruct (best_offer_Some os b) as (o & l & Hs & ->).
  { unfold best_offer. destruct (rank_offers os); [done|]. by injection Hb as ->. }
  exists o. split; [|split; [|done]]; assert (Ho : o ∈ List.filter po_valid os)
    by (rewrite <- (py_sorted_Permutation not_worse), Hs; by left);
    by apply list_elem_of_In, filter_In in Ho as [?%list_elem_of_In ?].
Qed.

Lemma enforce_caps_state {S} c k (w : S) o w' : enforce c k w = (o, w') → w' = w.
Proof. unfold enforce. destruct (_ : bool); by intros [= _ <-]. Qed.

(** ** Deciding and authorizing *)
Lemma decide_stage_Ok m c q ranked w dec w' : decide_stage m c q ranked w = (Ok dec, w') →
  dec = evaluate c (head ranked) q ∧ mission_kept m w w' ∧ db_offers (w_db w') = db_offers (w_db w) ∧
  db_auths (w_db w') = db_auths (w_db w) ∧
  ∃ i, db_decisions (w_db w') = db_decisions (w_db w) ++
    [mkPolicyDecisionRow i m (pd_decision dec) (pd_policy_version dec) (pd_reason_codes dec)
       (pd_requested_amount dec) (pd_soft_budget dec) (pd_hard_limit dec) (pd_selected_offer_id dec)].
Proof.
  unfold decide_stage. cbv zeta. intros E. run_step E.
  assert (s = w) as ->. { destruct (is_some _); [by eapply enforce_caps_state|by apply ret_run_Ok in Hrun as [_ ->]]. }
  clear Hrun. run_step E. injection Hrun as <- <-. run_step E. apply modify_run_Ok in Hrun as [_ ->].
  run_step E. destruct (evolved _ _ _ _ _ (rows_kept_transition _ _ _ _ _) Hrun) as ((Hk & Hd & Ha) & Ho).
  apply ret_run_Ok in E as [-> ->]. split; [done|]. split; [exact Hk|]. split; [exact Ho|]. split; [exact Ha|].
  eexists. exact Hd.
Qed.

(** How the decision is carried out: the mission's state, the authorization's status and scheme. *)
Definition outcome_state (d : PolicyOutcome) : MissionState :=
  match d with
  | PolicyOutcome.ALLOW => MissionState.AUTHORIZED
  | PolicyOutcome.REQUIRE_APPROVAL => MissionState.AWAITING_APPROVAL
  | PolicyOutcome.DENY => MissionState.CANCELLED
  end.
Definition outcome_status (d : PolicyOutcome) : AuthorizationStatus :=
  if bool_decide (d = PolicyOutcome.REQUIRE_APPROVAL) then AuthorizationStatus.PENDING else AuthorizationStatus.ACTIVE.
Definition outcome_scheme (d : PolicyOutcome) : ApprovalScheme :=
  if bool_decide (d = PolicyOutcome.REQUIRE_APPROVAL) then ApprovalScheme.USER_ED25519 else ApprovalScheme.POLICY_AUTO.

(** The authorization issued for a stored offer row. *)
Record issued_for (m : uuid) (q : Z) (dec : PolicyDecision) (r : OfferRow) (a : AuthorizationRow) : Prop := {
  if_mission : au_mission_id a = m;
  if_merchant : au_bound_merchant_id a = of_merchant_id r;
  if_product : au_bound_product_id a = of_product_id r;
  if_currency : au_bound_currency a = py_upper (of_currency r);
  if_quantity : au_bound_quantity a = q;
  if_amount : au_bound_amount_inr a = of_amount_inr r * q;
  if_status : au_status a = outcome_status (pd_decision dec);
  if_scheme : au_approval_scheme a = outcome_scheme (pd_decision dec)
}.
Definition authorized (m : uuid) (q : Z) (dec : PolicyDecision) (best : ProvenancedOffer) (w w' : World) : Prop :=
  db_decisions (w_db w') = db_decisions (w_db w) ∧
  (∀ r, db_missions (w_db w) !! m = Some r →
    db_missions (w_db w') !! m = Some (set_ms_state (outcome_state (pd_decision dec)) r)) ∧
  ∃ i a r, r ∈ db_offers (w_db w) ∧ of_id r = po_offer_id best ∧ of_mission_id r = m ∧ issued_for m q dec r a ∧
    db_auths (w_db w') = <[i := a]> (db_auths (w_db w)).

Lemma authorize_stage_Ok m q dec best w w' : authorize_stage m q dec best w = (Ok tt, w') →
  authorized m q dec best w w'.
Proof.
  unfold authorize_stage. intros E. run_step E. injection Hrun as <- <-. cbv zeta in E.
  run_step E. apply try_run_Ok in Hrun as [Hrun|(e & w1 & _ & Hrun)]; [|by apply on_bind_refused_Ok in Hrun].
  run_step Hrun. apply lift_run_Ok in Hrun0 as [_ ->]. run_step Hrun. injection Hrun0 as <- <-.
  apply bind_Ok in Hrun as (-> & _ & r & Hin & Hid & Hm & _ & _ & _ & Hdec & _ & _ & Ba & Bq & Bm & Bp & _ & _ & _ & _ & Bc).
  cbn in Hin. run_step E. set (w1 := mkWorld _ _ _ _ _ _) in *.
  destruct (evolved _ _ _ _ _ (context_kept_issue _ _ _ _ _) Hrun) as (Km & Ko & Kd).
  apply issue_Ok in Hrun as (_ & _ & now & id & h & _ & _ & -> & _ & Hnone & Hau). unfold authorized.
  change (db_auths (w_db w1)) with (db_auths (w_db w)) in *. change (db_missions (w_db w1)) with (db_missions (w_db w)) in *.
  change (db_decisions (w_db w1)) with (db_decisions (w_db w)) in *. clearbody w1.
  unfold outcome_state. destruct (bool_decide_reflect (pd_decision dec = PolicyOutcome.REQUIRE_APPROVAL)) as [Hq|Hq].
  - destruct (evolved _ _ _ _ _ (rows_kept_transition _ _ _ _ _) E) as ((_ & Hd & Ha) & _).
    apply transition_Ok in E as [_ Ht]. split; [by rewrite Hd|]. split.
    { intros r0 Hr0. by rewrite Ht, lookup_alter_eq, Km, Hr0, Hq. }
    eexists id, _, r. split; [done|]. split; [done|]. split; [done|]. split; [|by rewrite Ha].
    constructor; try done; unfold outcome_status, outcome_scheme; by rewrite bool_decide_eq_true_2.
  - assert (Hd : pd_decision dec = PolicyOutcome.ALLOW) by by destruct Hdec. rewrite Hd.
    run_step E. apply activate_Ok in Hrun as (act & H1 & _ & _ & (Km' & _ & Kd') & Ha'). cbn in H1, Ha'.
    rewrite Hau, lookup_insert_eq in H1. injection H1 as <-. run_step E. apply reads_Ok in Hrun as [-> ->].
    destruct (db_missions (w_db s0) !! m) as [r0|] eqn:Er; [|run_inv E]. run_step E.
    unfold MissionFSM.assert_transition in Hrun. destruct (MissionFSM.can_transition _ _); cbn [negb] in Hrun; [|run_inv Hrun].
    apply ret_run_Ok in Hrun as [_ ->]. apply modify_run_Ok in E as [_ ->]. cbn. split; [by rewrite Kd', Kd|]. split.
    { intros r1 Hr1. by rewrite lookup_alter_eq, Km', Km, Hr1. }
    eexists id, _, r. split; [done|]. split; [done|]. split; [done|]. split; [|by rewrite Ha', Hau, insert_insert_eq].
    constructor; try done; unfold outcome_status, outcome_scheme; cbn; by rewrite Hd.
Qed.

Lemma conclude_Ok m q dec best w w' : conclude_mission m q dec best w = (Ok tt, w') →
  (pd_decision dec = PolicyOutcome.DENY ∧ db_decisions (w_db w') = db_decisions (w_db w) ∧
   db_auths (w_db w') = db_auths (w_db w) ∧
   ∀ r, db_missions (w_db w) !! m = Some r → db_missions (w_db w') !! m = Some (set_ms_state MissionState.CANCELLED r)) ∨
  (pd_decision dec ≠ PolicyOutcome.DENY ∧ ∃ b, best = Some b ∧ authorized m q dec b w w').
Proof.
  unfold conclude_mission. case_bool_decide as Hd; intros E.
  - left. split; [done|]. destruct (evolved _ _ _ _ _ (rows_kept_transition _ _ _ _ _) E) as ((_ & H1 & H2) & _).
    apply transition_Ok in E as [_ Ht]. split; [done|]. split; [done|]. intros r Hr. by rewrite Ht, lookup_alter_eq, Hr.
  - right. split; [done|]. destruct best as [b|]; [|run_inv E]. apply authorize_stage_Ok in E. by exists b.
Qed.

(** What was bought: an acceptable offer that a merchant the transport reached made,
    at its price. *)
Definition admitted (merchants : list MerchantAgent) (reg : MerchantRegistry) (c : MissionConstraints) (q : Z)
    (a : AuthorizationRow) : Prop :=
  ∃ agent context raw o, agent ∈ merchants ∧ transport_connect reg agent = Ok context ∧
    raw ∈ ma_quote agent c q ∧ ingested context raw o ∧ acceptable c o ∧
    au_bound_merchant_id a = pv_value (po_merchant_id o) ∧ au_bound_product_id a = pv_value (po_product_id o) ∧
    au_bound_currency a = mc_currency c ∧ au_bound_quantity a = q ∧
    au_bound_amount_inr a = pv_value (po_amount_inr o) * q.

Lemma issued_admitted merchants reg m c q dec os best r a d :
  Forall (vetted merchants reg c q) os → NoDup (map po_offer_id os) → rows_from m os d →
  head (rank_offers os) = Some best → r ∈ db_offers d → of_id r = po_offer_id best → of_mission_id r = m →
  issued_for m q dec r a →
  admitted merchants reg c q a ∧ au_bound_amount_inr a = pv_value (po_amount_inr best) * q.
Proof.
  intros Hv Hnd Hrows Hb Hr Hid Hm [_ Am Ap Ac Aq Aa _ _]. apply rank_head in Hb as (o & Ho & Hval & ->).
  destruct (Hrows r Hr Hm) as (o' & Ho' & Ri & _ & Rm & Rp & Ra & Rc & _). cbn in Hid.
  assert (o' = o) as ->.
  { apply list_elem_of_lookup in Ho as [i Hi], Ho' as [j Hj]. cut (j = i); [intros ->; congruence|].
    eapply (NoDup_lookup _ _ _ (po_offer_id o)); [exact Hnd| |]; rewrite list_lookup_fmap.
    - rewrite Hj. cbn. by rewrite <- Ri, Hid.
    - by rewrite Hi. }
  split; [|cbn; by rewrite Aa, Ra]. rewrite Forall_forall in Hv.
  destruct (Hv _ Ho) as (ag & ctx & raw & Hag & Hctx & Hraw & Hing & Hacc). specialize (Hacc Hval).
  exists ag, ctx, raw, o. split_and!; try done; [by rewrite Am|by rewrite Ap| |by rewrite Aa, Ra].
  rewrite Ac, Rc, <- (acc_currency _ _ Hacc), (ing_currency _ _ _ Hing). apply py_upper_idemp.
Qed.

(** Every mission the rows name was created before: its identifier was handed out. *)
Definition ids_issued (w : World) : Prop :=
  (∀ r, r ∈ db_offers (w_db w) → (of_mission_id r <= w_fresh w)%N) ∧
  (∀ r, r ∈ db_decisions (w_db w) → (dr_mission_id r <= w_fresh w)%N) ∧
  (∀ i r, db_auths (w_db w) !! i = Some r → (au_mission_id r <= w_fresh w)%N).

(** What a finished run stored of its mission, and what it may spend. *)
Definition mission_row (m : uuid) (request : CreateMissionRequest) (state : MissionState) : MissionRow :=
  mkMissionRow m (rq_raw_query request) (rq_quantity request) state (Some (rq_constraints request)).
Definition within (d : PolicyOutcome) (c : MissionConstraints) (amount : Z) : Prop :=
  match d with
  | PolicyOutcome.ALLOW => amount <= mc_soft_budget_inr c ∧ amount <= mc_hard_limit_inr c
  | PolicyOutcome.REQUIRE_APPROVAL => mc_soft_budget_inr c < amount <= mc_hard_limit_inr c
  | PolicyOutcome.DENY => False
  end.
Lemma evaluate_within c b q : pd_decision (evaluate c (Some b) q) ≠ PolicyOutcome.DENY →
  within (pd_decision (evaluate c (Some b) q)) c (pv_value (po_amount_inr b) * q).
Proof.
  unfold evaluate. cbv zeta. destruct (Z.ltb_spec (mc_hard_limit_inr c) (pv_value (po_amount_inr b) * q)); cbn; [done|].
  destruct (Z.ltb_spec (mc_soft_budget_inr c) (pv_value (po_amount_inr b) * q)); cbn; lia.
Qed.

Lemma only_decision m l d : (∀ r, r ∈ l → dr_mission_id r ≠ m) → dr_mission_id d = m →
  List.filter (λ r, bool_decide (dr_mission_id r = m)) (l ++ [d]) = [d].
Proof.
  intros Hl Hd. induction l as [|x l IH]; cbn; [by rewrite bool_decide_eq_true_2|].
  rewrite bool_decide_eq_false_2 by (apply Hl; by left). apply IH. intros r Hr. apply Hl. by right.
Qed.

Lemma run_admits (merchants : list MerchantAgent) (reg : MerchantRegistry)
    (request : CreateMissionRequest) (w w' : World) (m : uuid) :
  ids_issued w → run merchants reg request w = (Ok m, w') →
  let c := rq_constraints request in
  let q := rq_quantity request in
  ∃ dec, List.filter (λ r, bool_decide (dr_mission_id r = m)) (db_decisions (w_db w')) = [dec] ∧
    db_missions (w_db w') !! m = Some (mission_row m request (outcome_state (dr_decision dec))) ∧
    match dr_decision dec with
    | PolicyOutcome.DENY => ∀ i a, db_auths (w_db w') !! i = Some a → au_mission_id a ≠ m
    | _ => ∃ i a, db_auths (w_db w') !! i = Some a ∧ au_mission_id a = m ∧
             (∀ j b, db_auths (w_db w') !! j = Some b → au_mission_id b = m → j = i) ∧
             admitted merchants reg c q a ∧ within (dr_decision dec) c (au_bound_amount_inr a) ∧
             au_status a = outcome_status (dr_decision dec) ∧ au_approval_scheme a = outcome_scheme (dr_decision dec)
    end.
Proof.
  intros (Io & Id & Ia) E c q. unfold run in E. cbv zeta in E. run_step E. rename a into m0.
  apply create_row_Ok in Hrun as (Hm0 & _ & Hmis & Eo & Ed & Ea).
  run_step E. destruct a. apply (constraints_Ok _ _ _ _ _ Hmis) in Hrun as ((t1 & Hmis1) & Eo1 & Ed1 & Ea1).
  run_step E. rename a into quotes. pose proof (discover_Ok _ _ _ _ _ _ _ _ Hrun) as Hq.
  destruct (evolved _ _ _ _ _ (rows_kept_discover _ _ _ _ _) Hrun) as ((Km2 & Ed2 & Ea2) & Eo2).
  run_step E. destruct (evolved _ _ _ _ _ (rows_kept_policy _ _ _) Hrun0) as ((Km3 & Ed3 & Ea3) & Eo3).
  run_step E. apply (normalize_stage_Ok _ _ _ _ _ _ _ _ _ Hq) in Hrun1 as ((Km4 & Ed4 & Ea4) & Hnd & Hv & Hrows).
  2:{ intros r Hr Hm. rewrite Eo3, Eo2, Eo1, Eo in Hr. apply Io in Hr. rewrite Hm in Hr. lia. }
  run_step E. apply (rank_stage_Ok _ _ _ _ _ Hrows) in Hrun1 as ((Km5 & Ed5 & Ea5) & -> & Hrows').
  run_step E. apply decide_stage_Ok in Hrun1 as (Hdec & Km6 & Eo6 & Ea6 & di & Ed6).
  run_step E. apply ret_run_Ok in E as [-> ->].
  destruct (Km2 _ Hmis1) as [t2 H2]. destruct (Km3 _ H2) as [t3 H3]. destruct (Km4 _ H3) as [t4 H4].
  destruct (Km5 _ H4) as [t5 H5]. destruct (Km6 _ H5) as [t6 H6]. clear Km2 Km3 Km4 Km5 Km6 H2 H3 H4 H5 Hmis1 Hmis.
  assert (Hold : db_auths (w_db s5) = db_auths (w_db w)) by congruence.
  assert (Hfresh : ∀ i b, db_auths (w_db w) !! i = Some b → au_mission_id b ≠ m0) by (intros i b Hb%Ia Hbm; lia).
  assert (Hone : db_decisions (w_db s6) = db_decisions (w_db s5) → List.filter (λ r, bool_decide (dr_mission_id r = m0))
    (db_decisions (w_db s6)) = [mkPolicyDecisionRow di m0 (pd_decision a1) (pd_policy_version a1) (pd_reason_codes a1)
       (pd_requested_amount a1) (pd_soft_budget a1) (pd_hard_limit a1) (pd_selected_offer_id a1)]).
  { intros ->. rewrite Ed6. apply only_decision; [|done]. intros r Hr Hm.
    assert (Hr' : r ∈ db_decisions (w_db w)) by congruence. apply Id in Hr'. lia. }
  destruct a2. apply conclude_Ok in Hrun1 as [(Hd & Dd & Da & Dm)|(Hd & b & Hb & Ad & Am & i & au & r & Hr & Hrid & Hrm & Hiss & Aa)].
  - eexists. split; [by apply Hone|]. cbn [dr_decision]. rewrite Hd. split; [by apply Dm in H6|].
    rewrite Da, Hold. exact Hfresh.
  - eexists. split; [by apply Hone|]. cbn [dr_decision]. split; [by apply Am in H6|].
    pose proof Hiss as [Hmis _ _ _ _ _ Hst Hsch]. rewrite Eo6 in Hr.
    destruct (issued_admitted _ _ _ _ _ _ _ _ _ _ _ Hv Hnd Hrows' Hb Hr Hrid Hrm Hiss) as [Hadm Hamt].
    assert (∃ i a, db_auths (w_db s6) !! i = Some a ∧ au_mission_id a = m0 ∧
             (∀ j b, db_auths (w_db s6) !! j = Some b → au_mission_id b = m0 → j = i) ∧
             admitted merchants reg c q a ∧ within (pd_decision a1) c (au_bound_amount_inr a) ∧
             au_status a = outcome_status (pd_decision a1) ∧ au_approval_scheme a = outcome_scheme (pd_decision a1)).
    { exists i, au. rewrite Aa, lookup_insert_eq. split; [done|]. split; [done|]. split.
      - intros j b0 [[-> _]|[_ Hb0]]%lookup_insert_Some; [done|]. rewrite Hold in Hb0. intros ?. by apply Hfresh in Hb0.
      - split; [exact Hadm|]. split; [|done]. rewrite Hamt, Hdec. rewrite Hb in Hdec |- *. rewrite Hdec in Hd.
        by apply evaluate_within. }
    by destruct (pd_decision a1).
Qed.

(** ** Claims against the policy *)

(** The violation one claim of a payload is recorded as. *)
Definition escalation (merchant claimed field : string) (attempted : json) : json_obj :=
  [("reason_code", JStr "AUTHORITY_ESCALATION"); ("field", JStr field); ("attempted_value", attempted);
   ("source_authority", JStr (AuthorityLevel.name AuthorityLevel.MERCHANT_DATA));
   ("target_authority", JStr (AuthorityLevel.name AuthorityLevel.USER_POLICY));
   ("merchant_id", JStr merchant); ("claimed_merchant_id", JStr claimed)].
Definition claim_escalations (merchant claimed : string) (claims : json_obj) : list json_obj :=
  flat_map (λ '(f, v), if bool_decide (f ∈ PROTECTED_POLICY_FIELDS) then [escalation merchant claimed f v] else [])
    claims.
Definition offer_escalations (merchant : string) (offers : list RawMerchantOffer) : list json_obj :=
  flat_map (λ raw, claim_escalations merchant (ro_merchant_id raw) (ro_claims raw)) offers.
Definition escalations (quotes : list AuthenticatedQuote) : list json_obj :=
  flat_map (λ q, offer_escalations (mi_merchant_id (ctx_identity (aq_context q))) (aq_offers q)) quotes.
(** Record each of them, and nothing else. *)
Definition audit_all (m : uuid) (violations : list json_obj) : P unit :=
  for_each violations (λ p, append_event m EventType.SECURITY_VIOLATION "security-kernel" p;; mret tt).

Lemma audit_all_app {A} m l1 l2 (k : P A) w :
  (audit_all m (l1 ++ l2);; k) w = (audit_all m l1;; (audit_all m l2;; k)) w.
Proof.
  revert w. induction l1 as [|p l IH]; intros w; [done|]. revert IH. unfold audit_all, mbind, M_bind, mret, M_ret.
  cbn [app for_each]. intros IH. unfold mbind, M_bind. destruct (append_event _ _ _ p w) as [[r|e] w1]; [apply IH|done].
Qed.

Lemma apply_claims_audits m mid cl claims c w :
  apply_claims m mid cl claims (protected_policy_values c) w =
  (audit_all m (claim_escalations mid cl claims);; mret (protected_policy_values c)) w.
Proof.
  revert w. induction claims as [|[f v] l IH]; intros w; [done|]. cbn [apply_claims claim_escalations flat_map].
  assert (Hp : register_is_protected f (protected_policy_values c) = bool_decide (f ∈ PROTECTED_POLICY_FIELDS)).
  { unfold register_is_protected. rewrite protected_policy_values_lookup. by case_bool_decide. }
  rewrite Hp. case_bool_decide as Hf; cbn [negb app]; [|apply IH].
  rewrite (register_apply_lower _ _ _ (ingest_user_policy_value f (constraint_value c f))); [| |done].
  2:{ by rewrite protected_policy_values_lookup, bool_decide_eq_true_2. }
  revert IH. unfold audit_escalation, audit_all, mbind, M_bind, mret, M_ret. cbn [for_each]. intros IH.
  unfold mbind, M_bind. unfold escalation. destruct (append_event _ _ _ _ w) as [[r|e] w1]; [apply IH|done].
Qed.
Lemma apply_offers_audits m mid offers c w :
  apply_offers m mid offers (protected_policy_values c) w =
  (audit_all m (offer_escalations mid offers);; mret (protected_policy_values c)) w.
Proof.
  revert w. induction offers as [|raw l IH]; intros w; [done|]. cbn [apply_offers offer_escalations flat_map].
  rewrite audit_all_app. unfold mbind at 1, M_bind at 1. rewrite apply_claims_audits. unfold mbind, M_bind.
  destruct (audit_all m _ w) as [[[]|e] w1]; [|done]. cbn. rewrite IH. done.
Qed.
Lemma apply_quotes_audits m quotes c w :
  apply_quotes m quotes (protected_policy_values c) w =
  (audit_all m (escalations quotes);; mret (protected_policy_values c)) w.
Proof.
  revert w. induction quotes as [|q l IH]; intros w; [done|]. cbn [apply_quotes escalations flat_map].
  rewrite audit_all_app. unfold mbind at 1, M_bind at 1. rewrite apply_offers_audits. unfold mbind, M_bind.
  destruct (audit_all m _ w) as [[[]|e] w1]; [|done]. cbn. rewrite IH. done.
Qed.

Lemma json_eqb_strings l : json_eqb (JList (map JStr l)) (JList (map JStr l)) = true.
Proof. induction l as [|s l IH]; [done|]. cbn in *. by rewrite String.eqb_refl. Qed.
Lemma fl_eqb_refl x : is_number x = true → SpecFloat.SFeqb x x = true.
Proof.
  intros Hx. unfold SpecFloat.SFeqb. rewrite SFcompare_fl by done. 
  pose proof (cmp_antisym _ fl_compare_total x x) as Hc. by destruct (fl_compare x x).
Qed.
Lemma constraint_value_eqb c f : is_number (mc_min_rating c) = true → is_number (mc_min_merchant_trust c) = true →
  json_eqb (constraint_value c f) (constraint_value c f) = true.
Proof.
  intros H1 H2. unfold constraint_value. repeat case_match; cbn [json_eqb num_eqb json_int];
    rewrite ?Z.eqb_refl, ?String.eqb_refl; try done; try (by apply fl_eqb_refl); try apply json_eqb_strings.
  destruct (mc_allowed_merchants c); [apply json_eqb_strings|done].
Qed.
Lemma check_protected_intact c fields : is_number (mc_min_rating c) = true →
  is_number (mc_min_merchant_trust c) = true →
  check_protected fields (protected_policy_values c) (protected_policy_values c) = Ok tt.
Proof.
  intros H1 H2. induction fields as [|f l IH]; [done|]. cbn [check_protected].
  destruct ((protected_policy_values c : gmap _ _) !! f) as [v|] eqn:Ev; [|done].
  assert (Hg : fst (register_get f (protected_policy_values c)) = Ok v) by (unfold register_get; by rewrite Ev).
  rewrite Hg. cbn. rewrite protected_policy_values_lookup in Ev. case_bool_decide; [|done]. injection Ev as <-.
  cbn. by rewrite constraint_value_eqb.
Qed.


(** ** A run that was refused *)

(** Nothing that moves money changed: no authorization, no payment, no instruction. *)
Definition unpaid (w w' : World) : Prop :=
  db_auths (w_db w') = db_auths (w_db w) ∧ db_intents (w_db w') = db_intents (w_db w) ∧
  db_outbox (w_db w') = db_outbox (w_db w).
#[global] Instance unpaid_preorder : PreOrder unpaid.
Proof.
  unfold unpaid. split; [by intros w|]. intros a b c (A1 & A2 & A3) (B1 & B2 & B3). by rewrite B1, B2, B3.
Qed.
Lemma unpaid_append m t actor p : evolves unpaid (append_event m t actor p).
Proof.
  eapply evolves_weaken; [|apply audit_only_event]. intros s s' ((l & Hl) & _). unfold unpaid. by rewrite Hl.
Qed.
Lemma unpaid_writes f :
  (∀ d, db_auths (f d) = db_auths d ∧ db_intents (f d) = db_intents d ∧ db_outbox (f d) = db_outbox d) →
  evolves unpaid (writes f).
Proof. intros Hf w. apply Hf. Qed.
Lemma unpaid_ids : evolves unpaid uuid4.
Proof. by intros w. Qed.
Lemma unpaid_with_ids {A} (m : M uuid exn A) : evolves unpaid (with_ids m).
Proof. intros w. unfold with_ids. by destruct (m _). Qed.
Lemma unpaid_clock : evolves unpaid utcnow.
Proof. by intros w. Qed.
Lemma unpaid_token : evolves unpaid token_hex.
Proof. by intros w. Qed.
Hint Resolve unpaid_append unpaid_ids unpaid_with_ids unpaid_clock unpaid_token : evolves.
Hint Extern 4 (evolves unpaid (writes _)) => by apply unpaid_writes : evolves.
Lemma unpaid_state m t : evolves unpaid (set_mission_state m t).
Proof. unfold set_mission_state. evolve. Qed.
Hint Resolve unpaid_state : evolves.
Lemma unpaid_transition m t ty a p : evolves unpaid (transition m t ty a p).
Proof. unfold transition. evolve. Qed.
Hint Resolve unpaid_transition : evolves.
Lemma unpaid_claims m mid cl claims reg : evolves unpaid (apply_claims m mid cl claims reg).
Proof.
  revert reg. induction claims as [|[f v] l IH]; intros reg; cbn [apply_claims]; [evolve|].
  destruct (negb _); [apply IH|]. destruct (register_apply _ _ _) as [[x|e] r]; [apply IH|].
  destruct e; unfold audit_escalation; evolve; apply IH.
Qed.
Hint Resolve unpaid_claims : evolves.
Lemma unpaid_quotes m qs reg : evolves unpaid (apply_quotes m qs reg).
Proof.
  assert (Ho : ∀ mid os reg, evolves unpaid (apply_offers m mid os reg)).
  { intros mid os. induction os as [|o os IH]; intros r; cbn [apply_offers]; [evolve|].
    apply evolves_bind; [apply _|apply unpaid_claims|exact IH]. }
  revert reg. induction qs as [|q l IH]; intros reg; cbn [apply_quotes]; [evolve|].
  apply evolves_bind; [apply _|apply Ho|exact IH].
Qed.
Hint Resolve unpaid_quotes : evolves.

(** *** What never raises a bind refusal *)
Definition refusal (e : exn) : bool := match e with BindRefusedOfferChanged _ _ _ _ => true | _ => false end.
Definition never_refuses {S A} (m : M S exn A) : Prop := ∀ w e w', m w = (Raise e, w') → refusal e = false.
Definition no_refusal {A} (o : outcome exn A) : Prop := ∀ e, o = Raise e → refusal e = false.
Create HintDb refusals discriminated.
Lemma never_ret {S A} (a : A) : never_refuses (mret a : M S exn A).
Proof. by intros w e w' [=]. Qed.
Lemma never_raise {S A} e : refusal e = false → never_refuses (raise e : M S exn A).
Proof. by intros He w e' w' [= -> _]. Qed.
Lemma never_bind {S A B} (m : M S exn A) (k : A → M S exn B) :
  never_refuses m → (∀ a, never_refuses (k a)) → never_refuses (m ≫= k).
Proof.
  intros Hm Hk w e w'. unfold mbind, M_bind. destruct (m w) as [[a|e0] w1] eqn:E1; [apply Hk|].
  intros [= <- <-]. by eapply Hm.
Qed.
Lemma never_lift {S A} (o : outcome exn A) : no_refusal o → never_refuses (lift o : M S exn A).
Proof. intros Ho w e w' [= E1 _]. by apply Ho. Qed.
Lemma no_refusal_Ok {A} (a : A) : no_refusal (Ok a).
Proof. by intros e. Qed.
Lemma no_refusal_Raise {A} e : refusal e = false → no_refusal (Raise e : outcome exn A).
Proof. by intros He e' [= ->]. Qed.
Lemma no_refusal_bind {A B} (o : outcome exn A) (k : A → outcome exn B) :
  no_refusal o → (∀ a, no_refusal (k a)) → no_refusal (o ≫= k).
Proof. intros Ho Hk e. destruct o as [a|e0]; [apply Hk|]. intros [= <-]. by apply Ho. Qed.
Lemma never_total {S A} (m : M S exn A) : (∀ w, is_ok (fst (m w)) = true) → never_refuses m.
Proof. intros Hm w e w' E1. specialize (Hm w). by rewrite E1 in Hm. Qed.
Hint Resolve never_ret never_raise no_refusal_Ok no_refusal_Raise : refusals.
Ltac refuse_step :=
  match goal with
  | |- never_refuses (_ ≫= _) => apply never_bind; [|intros ?]
  | |- never_refuses (lift _) => apply never_lift
  | |- never_refuses (reads _) => by apply never_total
  | |- never_refuses (writes _) => by apply never_total
  | |- never_refuses uuid4 => by apply never_total
  | |- never_refuses utcnow => by apply never_total
  | |- no_refusal (_ ≫= _) => apply no_refusal_bind; [|intros ?]
  | |- context [match ?x with _ => _ end] => destruct x
  | |- never_refuses (raise _) => by apply never_raise
  | |- no_refusal (Raise _) => by apply no_refusal_Raise
  end.
Ltac refuse := repeat first [ solve [eauto with refusals] | refuse_step ].

Lemma no_refusal_hash m s t a p h d : no_refusal (compute_event_hash m s t a p h d).
Proof. unfold compute_event_hash. destruct (utf8_encode _); refuse. Qed.
Hint Resolve no_refusal_hash : refusals.
Lemma never_append m t a p : never_refuses (append_event m t a p).
Proof. unfold append_event, insert_audit, read_db, flush_checked. refuse. Qed.
Hint Resolve never_append : refusals.
Lemma never_transition m t ty a p : never_refuses (transition m t ty a p).
Proof. unfold transition, get_mission, MissionFSM.assert_transition, set_mission_state. refuse. Qed.
Lemma no_refusal_fields l : no_refusal (encode_fields l).
Proof.
  induction l as [|[f v] l IH]; cbn [encode_fields]; [refuse|].
  apply no_refusal_bind; [unfold encode_value, encode_timestamp; refuse|intros e].
  apply no_refusal_bind; [exact IH|intros es; refuse].
Qed.
Lemma no_refusal_digest t : no_refusal (digest t).
Proof.
  pose proof no_refusal_fields. unfold digest, canonical_digest, canonical_message, canonical_bytes, encode_ascii. refuse.
Qed.
Hint Resolve never_transition no_refusal_digest : refusals.
Lemma never_clock now : never_refuses (moment_of now).
Proof. destruct now; by apply never_total. Qed.
Lemma never_enforce {S} c k : never_refuses (S:=S) (enforce_registered c k).
Proof. intros w e w'. rewrite enforce_registered_cases. destruct (_ && _); by intros [= <- _]. Qed.
Lemma never_update i pred f : never_refuses (update_authorization i pred f).
Proof. unfold update_authorization, read_db, flush_checked. refuse. Qed.
Hint Resolve never_clock never_enforce never_update : refusals.
Lemma never_audit m t p : never_refuses (audit m t p).
Proof. unfold audit. refuse. Qed.
Hint Resolve never_audit : refusals.
Lemma never_issue c m t s at_ : never_refuses (issue_authorization c m t s at_).
Proof. unfold issue_authorization, insert_authorization, require, read_db, flush_checked. refuse. Qed.
Lemma never_activate i now : never_refuses (activate_authorization i now).
Proof.
  unfold activate_authorization, moved_row, classify_and_raise, expire_if_stale, auth_failure, reload, presented_differs,
    digests_match. refuse.
Qed.
Hint Resolve never_issue never_activate : refusals.

(** *** A refusal is raised before anything is issued *)
Definition refuses_unpaid {A} (m : P A) : Prop :=
  ∀ w e w', m w = (Raise e, w') → refusal e = true → unpaid w w'.
Lemma unpaid_refuses {A} (m : P A) : evolves unpaid m → refuses_unpaid m.
Proof. intros Hm w e w' E1 _. by apply (evolved _ _ _ _ _ Hm E1). Qed.
Lemma refuses_bind {A B} (m : P A) (k : A → P B) :
  evolves unpaid m → (∀ a, refuses_unpaid (k a)) → refuses_unpaid (m ≫= k).
Proof.
  intros Hm Hk w e w'. unfold mbind, M_bind. specialize (Hm w). destruct (m w) as [[a|e0] w1]; intros E1 He.
  - etransitivity; [exact Hm|]. by eapply Hk.
  - by injection E1 as <- <-.
Qed.
Lemma never_unpaid {A} (m : P A) : never_refuses m → refuses_unpaid m.
Proof. intros Hm w e w' E1 He. apply Hm in E1. congruence. Qed.
Lemma unpaid_bind_transaction m cand ver dec q nonce exp :
  evolves unpaid (build_bound_transaction_from_selected_offer m cand ver dec q nonce exp).
Proof. unfold build_bound_transaction_from_selected_offer. evolve. Qed.
Lemma unpaid_on_refused {A} m e : evolves unpaid (on_bind_refused (A:=A) m e).
Proof. destruct e; cbn [on_bind_refused]; evolve. Qed.
Hint Resolve unpaid_bind_transaction unpaid_on_refused : evolves.
Lemma authorize_refused m q dec best : refuses_unpaid (authorize_stage m q dec best).
Proof.
  unfold authorize_stage. apply refuses_bind; [evolve|intros now]. cbv zeta. apply refuses_bind; [evolve|intros t].
  apply never_unpaid. unfold get_mission, MissionFSM.assert_transition, set_mission_state. refuse.
Qed.
Lemma refuses_last {A B} (m : P A) (b : B) : refuses_unpaid m → refuses_unpaid (m;; mret b).
Proof.
  intros Hm w e w'. specialize (Hm w). unfold mbind, M_bind. destruct (m w) as [[a|e0] w1]; intros E1 He; [done|].
  injection E1 as <- <-. by eapply Hm.
Qed.
Lemma conclude_refused m q dec best : refuses_unpaid (conclude_mission m q dec best).
Proof.
  unfold conclude_mission. case_bool_decide; [apply unpaid_refuses; evolve|].
  destruct best; [apply authorize_refused|]. apply never_unpaid. refuse.
Qed.
Lemma run_refused merchants registry request : refuses_unpaid (run merchants registry request).
Proof.
  unfold run. cbv zeta. unfold create_mission_row, persist_constraints, insert_mission, insert_constraints, discover,
    enforce_policy_authority, normalize_stage, persist_offers, audit_spoofs, rank_stage, persist_ranks, decide_stage, enforce.
  cbv zeta. do 7 (apply refuses_bind; [evolve|intros ?]). apply refuses_last, conclude_refused.
Qed.

(** ** Properties *)

(** C4: A mission run buys nothing but an acceptable offer, within the user's limits,
    and leaves the mission where its one policy decision says.  When
    [Orchestrator.run] returns, the mission stores the request; one decision was
    recorded for it; if it is DENY the mission is CANCELLED and holds no
    authorization; otherwise it holds exactly one, for an offer that a merchant the
    transport reached quoted and that passes every constraint of the request, at
    that offer's price times the quantity: ACTIVE under POLICY_AUTO and within both
    limits with the mission AUTHORIZED, or PENDING for the user's signature, above
    the soft budget and within the hard limit, with the mission AWAITING_APPROVAL. *)
Theorem mission_run_admits_within_policy (merchants : list MerchantAgent) (reg : MerchantRegistry)
    (request : CreateMissionRequest) (w w' : World) (m : uuid) :
  ids_issued w → run merchants reg request w = (Ok m, w') →
  let c := rq_constraints request in
  let q := rq_quantity request in
  ∃ dec, List.filter (λ r, bool_decide (dr_mission_id r = m)) (db_decisions (w_db w')) = [dec] ∧
    db_missions (w_db w') !! m = Some (mission_row m request (outcome_state (dr_decision dec))) ∧
    match dr_decision dec with
    | PolicyOutcome.DENY => ∀ i a, db_auths (w_db w') !! i = Some a → au_mission_id a ≠ m
    | _ => ∃ i a, db_auths (w_db w') !! i = Some a ∧ au_mission_id a = m ∧
             (∀ j b, db_auths (w_db w') !! j = Some b → au_mission_id b = m → j = i) ∧
             admitted merchants reg c q a ∧ within (dr_decision dec) c (au_bound_amount_inr a) ∧
             au_status a = outcome_status (dr_decision dec) ∧ au_approval_scheme a = outcome_scheme (dr_decision dec)
    end.
Proof. apply run_admits. Qed.

(** C24: What merchants claim about the policy is recorded and changes nothing.  For
    any constraints with comparable thresholds, whatever protected fields the payloads
    claim, enforcing the policy's authority is exactly the appending of one
    SECURITY_VIOLATION event per claim of a protected field, in the order of the
    quotes, naming the authenticated merchant and the claimed one: the policy the
    mission is decided under is the user's, and the check that it is never fails. *)
Theorem escalations_are_audited_and_refused (c : MissionConstraints) (m : uuid) (quotes : list AuthenticatedQuote)
    (w : World) :
  is_number (mc_min_rating c) = true → is_number (mc_min_merchant_trust c) = true →
  enforce_policy_authority m c quotes w = audit_all m (escalations quotes) w.
Proof.
  intros H1 H2. unfold enforce_policy_authority. cbv zeta. unfold mbind at 1, M_bind at 1. rewrite apply_quotes_audits.
  unfold mbind, M_bind. destruct (audit_all m _ w) as [[[]|e] w1]; [|done]. cbv beta iota. unfold lift, mret, M_ret. by rewrite check_protected_intact.
Qed.
End Frames.

#[local] Existing Instance demo_env.

(** A mission over the two demonstration merchants, one of which claims a higher limit. *)
Definition demo_request : CreateMissionRequest :=
  mkCreateMissionRequest (Some "wireless earbuds") 1
    (mkMissionConstraints "earbuds" 5000 6000 (fl_of_Z 4) "INR" None [] (fl_lit 5 10)).
Definition demo_run : World := snd (run default_merchants default_merchant_registry demo_request (demo_world db_empty)).

Lemma demo_run_Ok : fst (run default_merchants default_merchant_registry demo_request (demo_world db_empty)) = Ok 1%N.
Proof. vm_compute. reflexivity. Qed.
Lemma ids_issued_empty : ids_issued (demo_world db_empty).
Proof. split; [|split]; cbn; [by intros r ?%elem_of_nil|by intros r ?%elem_of_nil|intros i r]. by rewrite lookup_empty. Qed.

Lemma mission_run_admits_within_policy_witness : ∃ dec state,
  List.filter (λ r, bool_decide (dr_mission_id r = 1%N)) (db_decisions (w_db demo_run)) = [dec] ∧
  db_missions (w_db demo_run) !! 1%N = Some (mission_row 1%N demo_request state).
Proof.
  destruct (mission_run_admits_within_policy default_merchants default_merchant_registry demo_request
    (demo_world db_empty) demo_run 1%N ids_issued_empty (fst_run _ _ _ demo_run_Ok)) as (dec & H1 & H2 & _).
  exists dec, (outcome_state (dr_decision dec)). exact (conj H1 H2).
Defined.

Definition demo_quotes : list AuthenticatedQuote :=
  match transport_collect default_merchant_registry default_merchants (rq_constraints demo_request) 1 with
  | Ok q => q | Raise _ => [] end.
Lemma escalations_are_audited_and_refused_witness :
  enforce_policy_authority 1%N (rq_constraints demo_request) demo_quotes (demo_world db_empty)
    = audit_all 1%N (escalations demo_quotes) (demo_world db_empty) ∧
  length (escalations demo_quotes) = 1%nat.
Proof.
  split; [|vm_compute; reflexivity].
  exact (escalations_are_audited_and_refused (rq_constraints demo_request) 1%N demo_quotes (demo_world db_empty)
    eq_refl eq_refl).
Defined.
