(* ===== verification/Replay.v ===== *)
(** * Replay of the audit ledger: the reducer

    services/audit_ledger/replay.py with the projection types of
    packages/schemas/audit.py: one handler per event type, folded over a mission's
    events in order.  A refusal is an exception, so nothing of a refused history is
    returned. *)
From S2P Require Import Prelude Python PyFloat Json Text Enums Errors StateMachines Database Hashing.
From S2P Require Import Evolution Ledger.

Definition REPLAY_ENGINE_VERSION : string := "pactra-replay-v1".

(** ** The projection, and the accumulator of the fold *)
Record ReplayedAuthorization := mkReplayedAuthorization {
  ra_authorization_id : option string;
  ra_status : option string;
  ra_transaction_digest_prefix : option string;
  ra_policy_version : option string;
  ra_offer_version : option string;
  ra_binding_version : option string;
  ra_approval_scheme : option ApprovalScheme;
  ra_expires_at : option string;
  ra_consumed_at : option string;
  ra_bound_merchant_id : option string;
  ra_bound_product_id : option string;
  ra_bound_quantity : option Z;
  ra_bound_amount_inr : option Z;
  ra_bound_currency : option string;
  ra_replay_detected : bool;
  ra_binding_failures : Z
}.
Definition set_ra_authorization_id (v : option string) (r : ReplayedAuthorization) : ReplayedAuthorization :=
  mkReplayedAuthorization v (ra_status r) (ra_transaction_digest_prefix r) (ra_policy_version r)
    (ra_offer_version r) (ra_binding_version r) (ra_approval_scheme r) (ra_expires_at r) (ra_consumed_at r)
    (ra_bound_merchant_id r) (ra_bound_product_id r) (ra_bound_quantity r) (ra_bound_amount_inr r)
    (ra_bound_currency r) (ra_replay_detected r) (ra_binding_failures r).
Definition set_ra_status (v : option string) (r : ReplayedAuthorization) : ReplayedAuthorization :=
  mkReplayedAuthorization (ra_authorization_id r) v (ra_transaction_digest_prefix r) (ra_policy_version r)
    (ra_offer_version r) (ra_binding_version r) (ra_approval_scheme r) (ra_expires_at r) (ra_consumed_at r)
    (ra_bound_merchant_id r) (ra_bound_product_id r) (ra_bound_quantity r) (ra_bound_amount_inr r)
    (ra_bound_currency r) (ra_replay_detected r) (ra_binding_failures r).
Definition set_ra_transaction_digest_prefix (v : option string) (r : ReplayedAuthorization) : ReplayedAuthorization :=
  mkReplayedAuthorization (ra_authorization_id r) (ra_status r) v (ra_policy_version r)
    (ra_offer_version r) (ra_binding_version r) (ra_approval_scheme r) (ra_expires_at r) (ra_consumed_at r)
    (ra_bound_merchant_id r) (ra_bound_product_id r) (ra_bound_quantity r) (ra_bound_amount_inr r)
    (ra_bound_currency r) (ra_replay_detected r) (ra_binding_failures r).
Definition set_ra_approval_scheme (v : option ApprovalScheme) (r : ReplayedAuthorization) : ReplayedAuthorization :=
  mkReplayedAuthorization (ra_authorization_id r) (ra_status r) (ra_transaction_digest_prefix r)
    (ra_policy_version r) (ra_offer_version r) (ra_binding_version r) v (ra_expires_at r)
    (ra_consumed_at r) (ra_bound_merchant_id r) (ra_bound_product_id r) (ra_bound_quantity r)
    (ra_bound_amount_inr r) (ra_bound_currency r) (ra_replay_detected r) (ra_binding_failures r).
Definition set_ra_expires_at (v : option string) (r : ReplayedAuthorization) : ReplayedAuthorization :=
  mkReplayedAuthorization (ra_authorization_id r) (ra_status r) (ra_transaction_digest_prefix r)
    (ra_policy_version r) (ra_offer_version r) (ra_binding_version r) (ra_approval_scheme r) v
    (ra_consumed_at r) (ra_bound_merchant_id r) (ra_bound_product_id r) (ra_bound_quantity r)
    (ra_bound_amount_inr r) (ra_bound_currency r) (ra_replay_detected r) (ra_binding_failures r).
Definition set_ra_consumed_at (v : option string) (r : ReplayedAuthorization) : ReplayedAuthorization :=
  mkReplayedAuthorization (ra_authorization_id r) (ra_status r) (ra_transaction_digest_prefix r)
    (ra_policy_version r) (ra_offer_version r) (ra_binding_version r) (ra_approval_scheme r)
    (ra_expires_at r) v (ra_bound_merchant_id r) (ra_bound_product_id r) (ra_bound_quantity r)
    (ra_bound_amount_inr r) (ra_bound_currency r) (ra_replay_detected r) (ra_binding_failures r).
Definition set_ra_replay_detected (v : bool) (r : ReplayedAuthorization) : ReplayedAuthorization :=
  mkReplayedAuthorization (ra_authorization_id r) (ra_status r) (ra_transaction_digest_prefix r)
    (ra_policy_version r) (ra_offer_version r) (ra_binding_version r) (ra_approval_scheme r)
    (ra_expires_at r) (ra_consumed_at r) (ra_bound_merchant_id r) (ra_bound_product_id r)
    (ra_bound_quantity r) (ra_bound_amount_inr r) (ra_bound_currency r) v (ra_binding_failures r).
Definition set_ra_binding_failures (v : Z) (r : ReplayedAuthorization) : ReplayedAuthorization :=
  mkReplayedAuthorization (ra_authorization_id r) (ra_status r) (ra_transaction_digest_prefix r)
    (ra_policy_version r) (ra_offer_version r) (ra_binding_version r) (ra_approval_scheme r)
    (ra_expires_at r) (ra_consumed_at r) (ra_bound_merchant_id r) (ra_bound_product_id r)
    (ra_bound_quantity r) (ra_bound_amount_inr r) (ra_bound_currency r) (ra_replay_detected r) v.
Definition new_ReplayedAuthorization : ReplayedAuthorization :=
  mkReplayedAuthorization None None None None None None None None None None None None None None false 0.

Record ReplayedPayment := mkReplayedPayment {
  rp_payment_intent_id : option string;
  rp_state : option string;
  rp_provider : option string;
  rp_provider_payment_id : option string;
  rp_idempotency_key : option string;
  rp_amount_inr : option Z;
  rp_currency : option string;
  rp_merchant_id : option string;
  rp_last_reason_code : option string;
  rp_attempts : Z;
  rp_intent_reused : bool;
  rp_uncertain_episodes : Z;
  rp_provider_timeouts : Z;
  rp_retries_scheduled : Z;
  rp_reconciliations : Z;
  rp_dead_lettered : bool;
  rp_webhooks_verified : Z;
  rp_duplicate_webhooks_ignored : Z;
  rp_out_of_order_webhooks_ignored : Z
}.
Definition set_rp_state (v : option string) (r : ReplayedPayment) : ReplayedPayment :=
  mkReplayedPayment (rp_payment_intent_id r) v (rp_provider r) (rp_provider_payment_id r)
    (rp_idempotency_key r) (rp_amount_inr r) (rp_currency r) (rp_merchant_id r) (rp_last_reason_code r)
    (rp_attempts r) (rp_intent_reused r) (rp_uncertain_episodes r) (rp_provider_timeouts r)
    (rp_retries_scheduled r) (rp_reconciliations r) (rp_dead_lettered r) (rp_webhooks_verified r)
    (rp_duplicate_webhooks_ignored r) (rp_out_of_order_webhooks_ignored r).
Definition set_rp_last_reason_code (v : option string) (r : ReplayedPayment) : ReplayedPayment :=
  mkReplayedPayment (rp_payment_intent_id r) (rp_state r) (rp_provider r) (rp_provider_payment_id r)
    (rp_idempotency_key r) (rp_amount_inr r) (rp_currency r) (rp_merchant_id r) v (rp_attempts r)
    (rp_intent_reused r) (rp_uncertain_episodes r) (rp_provider_timeouts r) (rp_retries_scheduled r)
    (rp_reconciliations r) (rp_dead_lettered r) (rp_webhooks_verified r) (rp_duplicate_webhooks_ignored r)
    (rp_out_of_order_webhooks_ignored r).
Definition set_rp_attempts (v : Z) (r : ReplayedPayment) : ReplayedPayment :=
  mkReplayedPayment (rp_payment_intent_id r) (rp_state r) (rp_provider r) (rp_provider_payment_id r)
    (rp_idempotency_key r) (rp_amount_inr r) (rp_currency r) (rp_merchant_id r) (rp_last_reason_code r) v
    (rp_intent_reused r) (rp_uncertain_episodes r) (rp_provider_timeouts r) (rp_retries_scheduled r)
    (rp_reconciliations r) (rp_dead_lettered r) (rp_webhooks_verified r) (rp_duplicate_webhooks_ignored r)
    (rp_out_of_order_webhooks_ignored r).
Definition set_rp_intent_reused (v : bool) (r : ReplayedPayment) : ReplayedPayment :=
  mkReplayedPayment (rp_payment_intent_id r) (rp_state r) (rp_provider r) (rp_provider_payment_id r)
    (rp_idempotency_key r) (rp_amount_inr r) (rp_currency r) (rp_merchant_id r) (rp_last_reason_code r)
    (rp_attempts r) v (rp_uncertain_episodes r) (rp_provider_timeouts r) (rp_retries_scheduled r)
    (rp_reconciliations r) (rp_dead_lettered r) (rp_webhooks_verified r) (rp_duplicate_webhooks_ignored r)
    (rp_out_of_order_webhooks_ignored r).
Definition set_rp_uncertain_episodes (v : Z) (r : ReplayedPayment) : ReplayedPayment :=
  mkReplayedPayment (rp_payment_intent_id r) (rp_state r) (rp_provider r) (rp_provider_payment_id r)
    (rp_idempotency_key r) (rp_amount_inr r) (rp_currency r) (rp_merchant_id r) (rp_last_reason_code r)
    (rp_attempts r) (rp_intent_reused r) v (rp_provider_timeouts r) (rp_retries_scheduled r)
    (rp_reconciliations r) (rp_dead_lettered r) (rp_webhooks_verified r) (rp_duplicate_webhooks_ignored r)
    (rp_out_of_order_webhooks_ignored r).
Definition set_rp_provider_timeouts (v : Z) (r : ReplayedPayment) : ReplayedPayment :=
  mkReplayedPayment (rp_payment_intent_id r) (rp_state r) (rp_provider r) (rp_provider_payment_id r)
    (rp_idempotency_key r) (rp_amount_inr r) (rp_currency r) (rp_merchant_id r) (rp_last_reason_code r)
    (rp_attempts r) (rp_intent_reused r) (rp_uncertain_episodes r) v (rp_retries_scheduled r)
    (rp_reconciliations r) (rp_dead_lettered r) (rp_webhooks_verified r) (rp_duplicate_webhooks_ignored r)
    (rp_out_of_order_webhooks_ignored r).
Definition set_rp_retries_scheduled (v : Z) (r : ReplayedPayment) : ReplayedPayment :=
  mkReplayedPayment (rp_payment_intent_id r) (rp_state r) (rp_provider r) (rp_provider_payment_id r)
    (rp_idempotency_key r) (rp_amount_inr r) (rp_currency r) (rp_merchant_id r) (rp_last_reason_code r)
    (rp_attempts r) (rp_intent_reused r) (rp_uncertain_episodes r) (rp_provider_timeouts r) v
    (rp_reconciliations r) (rp_dead_lettered r) (rp_webhooks_verified r) (rp_duplicate_webhooks_ignored r)
    (rp_out_of_order_webhooks_ignored r).
Definition set_rp_reconciliations (v : Z) (r : ReplayedPayment) : ReplayedPayment :=
  mkReplayedPayment (rp_payment_intent_id r) (rp_state r) (rp_provider r) (rp_provider_payment_id r)
    (rp_idempotency_key r) (rp_amount_inr r) (rp_currency r) (rp_merchant_id r) (rp_last_reason_code r)
    (rp_attempts r) (rp_intent_reused r) (rp_uncertain_episodes r) (rp_provider_timeouts r)
    (rp_retries_scheduled r) v (rp_dead_lettered r) (rp_webhooks_verified r)
    (rp_duplicate_webhooks_ignored r) (rp_out_of_order_webhooks_ignored r).
Definition set_rp_dead_lettered (v : bool) (r : ReplayedPayment) : ReplayedPayment :=
  mkReplayedPayment (rp_payment_intent_id r) (rp_state r) (rp_provider r) (rp_provider_payment_id r)
    (rp_idempotency_key r) (rp_amount_inr r) (rp_currency r) (rp_merchant_id r) (rp_last_reason_code r)
    (rp_attempts r) (rp_intent_reused r) (rp_uncertain_episodes r) (rp_provider_timeouts r)
    (rp_retries_scheduled r) (rp_reconciliations r) v (rp_webhooks_verified r)
    (rp_duplicate_webhooks_ignored r) (rp_out_of_order_webhooks_ignored r).
Definition set_rp_webhooks_verified (v : Z) (r : ReplayedPayment) : ReplayedPayment :=
  mkReplayedPayment (rp_payment_intent_id r) (rp_state r) (rp_provider r) (rp_provider_payment_id r)
    (rp_idempotency_key r) (rp_amount_inr r) (rp_currency r) (rp_merchant_id r) (rp_last_reason_code r)
    (rp_attempts r) (rp_intent_reused r) (rp_uncertain_episodes r) (rp_provider_timeouts r)
    (rp_retries_scheduled r) (rp_reconciliations r) (rp_dead_lettered r) v
    (rp_duplicate_webhooks_ignored r) (rp_out_of_order_webhooks_ignored r).
Definition set_rp_duplicate_webhooks_ignored (v : Z) (r : ReplayedPayment) : ReplayedPayment :=
  mkReplayedPayment (rp_payment_intent_id r) (rp_state r) (rp_provider r) (rp_provider_payment_id r)
    (rp_idempotency_key r) (rp_amount_inr r) (rp_currency r) (rp_merchant_id r) (rp_last_reason_code r)
    (rp_attempts r) (rp_intent_reused r) (rp_uncertain_episodes r) (rp_provider_timeouts r)
    (rp_retries_scheduled r) (rp_reconciliations r) (rp_dead_lettered r) (rp_webhooks_verified r) v
    (rp_out_of_order_webhooks_ignored r).
Definition set_rp_out_of_order_webhooks_ignored (v : Z) (r : ReplayedPayment) : ReplayedPayment :=
  mkReplayedPayment (rp_payment_intent_id r) (rp_state r) (rp_provider r) (rp_provider_payment_id r)
    (rp_idempotency_key r) (rp_amount_inr r) (rp_currency r) (rp_merchant_id r) (rp_last_reason_code r)
    (rp_attempts r) (rp_intent_reused r) (rp_uncertain_episodes r) (rp_provider_timeouts r)
    (rp_retries_scheduled r) (rp_reconciliations r) (rp_dead_lettered r) (rp_webhooks_verified r)
    (rp_duplicate_webhooks_ignored r) v.
Definition new_ReplayedPayment : ReplayedPayment :=
  mkReplayedPayment None None None None None None None None None 0 false 0 0 0 0 false 0 0 0.

Record ReplayedSecurityEvent := mkReplayedSecurityEvent {
  rse_sequence : Z;
  rse_event_type : string;
  rse_actor : string;
  rse_reason_code : option string;
  rse_detail : json_obj
}.

Record ReplayedRiskAssessment := mkReplayedRiskAssessment {
  rra_sequence : Z;
  rra_assessment_id : option string;
  rra_score : option float;
  rra_band : option string;
  rra_recommendation : option string;
  rra_engine_version : option string;
  rra_model_version : option string;
  rra_factor_codes : list string
}.

Record SkippedTransition := mkSkippedTransition {
  sk_sequence : Z;
  sk_event_type : string;
  sk_from_state : string;
  sk_to_state : string
}.

(** [_ReplayState]. *)
Record ReplayState := mkReplayState {
  rs_mission_id : uuid;
  rs_mission_state : option MissionState;
  rs_events_replayed : Z;
  rs_raw_query : option string;
  rs_quantity : option Z;
  rs_policy_decision : option string;
  rs_policy_version : option string;
  rs_policy_reason_codes : list string;
  rs_requested_amount : option Z;
  rs_soft_budget : option Z;
  rs_hard_limit : option Z;
  rs_selected_offer_id : option string;
  rs_approval_required : bool;
  rs_approval_granted : bool;
  rs_raw_offer_count : option Z;
  rs_valid_offer_count : option Z;
  rs_invalid_offer_count : option Z;
  rs_tainted_merchant_fields : list string;
  rs_authorization : ReplayedAuthorization;
  rs_payment : ReplayedPayment;
  rs_security_events : list ReplayedSecurityEvent;
  rs_skipped_transitions : list SkippedTransition;
  rs_risk_assessments : list ReplayedRiskAssessment
}.
Definition set_rs_mission_state (v : option MissionState) (r : ReplayState) : ReplayState :=
  mkReplayState (rs_mission_id r) v (rs_events_replayed r) (rs_raw_query r) (rs_quantity r)
    (rs_policy_decision r) (rs_policy_version r) (rs_policy_reason_codes r) (rs_requested_amount r)
    (rs_soft_budget r) (rs_hard_limit r) (rs_selected_offer_id r) (rs_approval_required r)
    (rs_approval_granted r) (rs_raw_offer_count r) (rs_valid_offer_count r) (rs_invalid_offer_count r)
    (rs_tainted_merchant_fields r) (rs_authorization r) (rs_payment r) (rs_security_events r)
    (rs_skipped_transitions r) (rs_risk_assessments r).
Definition set_rs_events_replayed (v : Z) (r : ReplayState) : ReplayState :=
  mkReplayState (rs_mission_id r) (rs_mission_state r) v (rs_raw_query r) (rs_quantity r)
    (rs_policy_decision r) (rs_policy_version r) (rs_policy_reason_codes r) (rs_requested_amount r)
    (rs_soft_budget r) (rs_hard_limit r) (rs_selected_offer_id r) (rs_approval_required r)
    (rs_approval_granted r) (rs_raw_offer_count r) (rs_valid_offer_count r) (rs_invalid_offer_count r)
    (rs_tainted_merchant_fields r) (rs_authorization r) (rs_payment r) (rs_security_events r)
    (rs_skipped_transitions r) (rs_risk_assessments r).
Definition set_rs_raw_query (v : option string) (r : ReplayState) : ReplayState :=
  mkReplayState (rs_mission_id r) (rs_mission_state r) (rs_events_replayed r) v (rs_quantity r)
    (rs_policy_decision r) (rs_policy_version r) (rs_policy_reason_codes r) (rs_requested_amount r)
    (rs_soft_budget r) (rs_hard_limit r) (rs_selected_offer_id r) (rs_approval_required r)
    (rs_approval_granted r) (rs_raw_offer_count r) (rs_valid_offer_count r) (rs_invalid_offer_count r)
    (rs_tainted_merchant_fields r) (rs_authorization r) (rs_payment r) (rs_security_events r)
    (rs_skipped_transitions r) (rs_risk_assessments r).
Definition set_rs_quantity (v : option Z) (r : ReplayState) : ReplayState :=
  mkReplayState (rs_mission_id r) (rs_mission_state r) (rs_events_replayed r) (rs_raw_query r) v
    (rs_policy_decision r) (rs_policy_version r) (rs_policy_reason_codes r) (rs_requested_amount r)
    (rs_soft_budget r) (rs_hard_limit r) (rs_selected_offer_id r) (rs_approval_required r)
    (rs_approval_granted r) (rs_raw_offer_count r) (rs_valid_offer_count r) (rs_invalid_offer_count r)
    (rs_tainted_merchant_fields r) (rs_authorization r) (rs_payment r) (rs_security_events r)
    (rs_skipped_transitions r) (rs_risk_assessments r).
Definition set_rs_policy_decision (v : option string) (r : ReplayState) : ReplayState :=
  mkReplayState (rs_mission_id r) (rs_mission_state r) (rs_events_replayed r) (rs_raw_query r)
    (rs_quantity r) v (rs_policy_version r) (rs_policy_reason_codes r) (rs_requested_amount r)
    (rs_soft_budget r) (rs_hard_limit r) (rs_selected_offer_id r) (rs_approval_required r)
    (rs_approval_granted r) (rs_raw_offer_count r) (rs_valid_offer_count r) (rs_invalid_offer_count r)
    (rs_tainted_merchant_fields r) (rs_authorization r) (rs_payment r) (rs_security_events r)
    (rs_skipped_transitions r) (rs_risk_assessments r).
Definition set_rs_policy_version (v : option string) (r : ReplayState) : ReplayState :=
  mkReplayState (rs_mission_id r) (rs_mission_state r) (rs_events_replayed r) (rs_raw_query r)
    (rs_quantity r) (rs_policy_decision r) v (rs_policy_reason_codes r) (rs_requested_amount r)
    (rs_soft_budget r) (rs_hard_limit r) (rs_selected_offer_id r) (rs_approval_required r)
    (rs_approval_granted r) (rs_raw_offer_count r) (rs_valid_offer_count r) (rs_invalid_offer_count r)
    (rs_tainted_merchant_fields r) (rs_authorization r) (rs_payment r) (rs_security_events r)
    (rs_skipped_transitions r) (rs_risk_assessments r).
Definition set_rs_policy_reason_codes (v : list string) (r : ReplayState) : ReplayState :=
  mkReplayState (rs_mission_id r) (rs_mission_state r) (rs_events_replayed r) (rs_raw_query r)
    (rs_quantity r) (rs_policy_decision r) (rs_policy_version r) v (rs_requested_amount r)
    (rs_soft_budget r) (rs_hard_limit r) (rs_selected_offer_id r) (rs_approval_required r)
    (rs_approval_granted r) (rs_raw_offer_count r) (rs_valid_offer_count r) (rs_invalid_offer_count r)
    (rs_tainted_merchant_fields r) (rs_authorization r) (rs_payment r) (rs_security_events r)
    (rs_skipped_transitions r) (rs_risk_assessments r).
Definition set_rs_requested_amount (v : option Z) (r : ReplayState) : ReplayState :=
  mkReplayState (rs_mission_id r) (rs_mission_state r) (rs_events_replayed r) (rs_raw_query r)
    (rs_quantity r) (rs_policy_decision r) (rs_policy_version r) (rs_policy_reason_codes r) v
    (rs_soft_budget r) (rs_hard_limit r) (rs_selected_offer_id r) (rs_approval_required r)
    (rs_approval_granted r) (rs_raw_offer_count r) (rs_valid_offer_count r) (rs_invalid_offer_count r)
    (rs_tainted_merchant_fields r) (rs_authorization r) (rs_payment r) (rs_security_events r)
    (rs_skipped_transitions r) (rs_risk_assessments r).
Definition set_rs_soft_budget (v : option Z) (r : ReplayState) : ReplayState :=
  mkReplayState (rs_mission_id r) (rs_mission_state r) (rs_events_replayed r) (rs_raw_query r)
    (rs_quantity r) (rs_policy_decision r) (rs_policy_version r) (rs_policy_reason_codes r)
    (rs_requested_amount r) v (rs_hard_limit r) (rs_selected_offer_id r) (rs_approval_required r)
    (rs_approval_granted r) (rs_raw_offer_count r) (rs_valid_offer_count r) (rs_invalid_offer_count r)
    (rs_tainted_merchant_fields r) (rs_authorization r) (rs_payment r) (rs_security_events r)
    (rs_skipped_transitions r) (rs_risk_assessments r).
Definition set_rs_hard_limit (v : option Z) (r : ReplayState) : ReplayState :=
  mkReplayState (rs_mission_id r) (rs_mission_state r) (rs_events_replayed r) (rs_raw_query r)
    (rs_quantity r) (rs_policy_decision r) (rs_policy_version r) (rs_policy_reason_codes r)
    (rs_requested_amount r) (rs_soft_budget r) v (rs_selected_offer_id r) (rs_approval_required r)
    (rs_approval_granted r) (rs_raw_offer_count r) (rs_valid_offer_count r) (rs_invalid_offer_count r)
    (rs_tainted_merchant_fields r) (rs_authorization r) (rs_payment r) (rs_security_events r)
    (rs_skipped_transitions r) (rs_risk_assessments r).
Definition set_rs_selected_offer_id (v : option string) (r : ReplayState) : ReplayState :=
  mkReplayState (rs_mission_id r) (rs_mission_state r) (rs_events_replayed r) (rs_raw_query r)
    (rs_quantity r) (rs_policy_decision r) (rs_policy_version r) (rs_policy_reason_codes r)
    (rs_requested_amount r) (rs_soft_budget r) (rs_hard_limit r) v (rs_approval_required r)
    (rs_approval_granted r) (rs_raw_offer_count r) (rs_valid_offer_count r) (rs_invalid_offer_count r)
    (rs_tainted_merchant_fields r) (rs_authorization r) (rs_payment r) (rs_security_events r)
    (rs_skipped_transitions r) (rs_risk_assessments r).
Definition set_rs_approval_required (v : bool) (r : ReplayState) : ReplayState :=
  mkReplayState (rs_mission_id r) (rs_mission_state r) (rs_events_replayed r) (rs_raw_query r)
    (rs_quantity r) (rs_policy_decision r) (rs_policy_version r) (rs_policy_reason_codes r)
    (rs_requested_amount r) (rs_soft_budget r) (rs_hard_limit r) (rs_selected_offer_id r) v
    (rs_approval_granted r) (rs_raw_offer_count r) (rs_valid_offer_count r) (rs_invalid_offer_count r)
    (rs_tainted_merchant_fields r) (rs_authorization r) (rs_payment r) (rs_security_events r)
    (rs_skipped_transitions r) (rs_risk_assessments r).
Definition set_rs_approval_granted (v : bool) (r : ReplayState) : ReplayState :=
  mkReplayState (rs_mission_id r) (rs_mission_state r) (rs_events_replayed r) (rs_raw_query r)
    (rs_quantity r) (rs_policy_decision r) (rs_policy_version r) (rs_policy_reason_codes r)
    (rs_requested_amount r) (rs_soft_budget r) (rs_hard_limit r) (rs_selected_offer_id r)
    (rs_approval_required r) v (rs_raw_offer_count r) (rs_valid_offer_count r) (rs_invalid_offer_count r)
    (rs_tainted_merchant_fields r) (rs_authorization r) (rs_payment r) (rs_security_events r)
    (rs_skipped_transitions r) (rs_risk_assessments r).
Definition set_rs_raw_offer_count (v : option Z) (r : ReplayState) : ReplayState :=
  mkReplayState (rs_mission_id r) (rs_mission_state r) (rs_events_replayed r) (rs_raw_query r)
    (rs_quantity r) (rs_policy_decision r) (rs_policy_version r) (rs_policy_reason_codes r)
    (rs_requested_amount r) (rs_soft_budget r) (rs_hard_limit r) (rs_selected_offer_id r)
    (rs_approval_required r) (rs_approval_granted r) v (rs_valid_offer_count r) (rs_invalid_offer_count r)
    (rs_tainted_merchant_fields r) (rs_authorization r) (rs_payment r) (rs_security_events r)
    (rs_skipped_transitions r) (rs_risk_assessments r).
Definition set_rs_valid_offer_count (v : option Z) (r : ReplayState) : ReplayState :=
  mkReplayState (rs_mission_id r) (rs_mission_state r) (rs_events_replayed r) (rs_raw_query r)
    (rs_quantity r) (rs_policy_decision r) (rs_policy_version r) (rs_policy_reason_codes r)
    (rs_requested_amount r) (rs_soft_budget r) (rs_hard_limit r) (rs_selected_offer_id r)
    (rs_approval_required r) (rs_approval_granted r) (rs_raw_offer_count r) v (rs_invalid_offer_count r)
    (rs_tainted_merchant_fields r) (rs_authorization r) (rs_payment r) (rs_security_events r)
    (rs_skipped_transitions r) (rs_risk_assessments r).
Definition set_rs_invalid_offer_count (v : option Z) (r : ReplayState) : ReplayState :=
  mkReplayState (rs_mission_id r) (rs_mission_state r) (rs_events_replayed r) (rs_raw_query r)
    (rs_quantity r) (rs_policy_decision r) (rs_policy_version r) (rs_policy_reason_codes r)
    (rs_requested_amount r) (rs_soft_budget r) (rs_hard_limit r) (rs_selected_offer_id r)
    (rs_approval_required r) (rs_approval_granted r) (rs_raw_offer_count r) (rs_valid_offer_count r) v
    (rs_tainted_merchant_fields r) (rs_authorization r) (rs_payment r) (rs_security_events r)
    (rs_skipped_transitions r) (rs_risk_assessments r).
Definition set_rs_tainted_merchant_fields (v : list string) (r : ReplayState) : ReplayState :=
  mkReplayState (rs_mission_id r) (rs_mission_state r) (rs_events_replayed r) (rs_raw_query r)
    (rs_quantity r) (rs_policy_decision r) (rs_policy_version r) (rs_policy_reason_codes r)
    (rs_requested_amount r) (rs_soft_budget r) (rs_hard_limit r) (rs_selected_offer_id r)
    (rs_approval_required r) (rs_approval_granted r) (rs_raw_offer_count r) (rs_valid_offer_count r)
    (rs_invalid_offer_count r) v (rs_authorization r) (rs_payment r) (rs_security_events r)
    (rs_skipped_transitions r) (rs_risk_assessments r).
Definition set_rs_authorization (v : ReplayedAuthorization) (r : ReplayState) : ReplayState :=
  mkReplayState (rs_mission_id r) (rs_mission_state r) (rs_events_replayed r) (rs_raw_query r)
    (rs_quantity r) (rs_policy_decision r) (rs_policy_version r) (rs_policy_reason_codes r)
    (rs_requested_amount r) (rs_soft_budget r) (rs_hard_limit r) (rs_selected_offer_id r)
    (rs_approval_required r) (rs_approval_granted r) (rs_raw_offer_count r) (rs_valid_offer_count r)
    (rs_invalid_offer_count r) (rs_tainted_merchant_fields r) v (rs_payment r) (rs_security_events r)
    (rs_skipped_transitions r) (rs_risk_assessments r).
Definition set_rs_payment (v : ReplayedPayment) (r : ReplayState) : ReplayState :=
  mkReplayState (rs_mission_id r) (rs_mission_state r) (rs_events_replayed r) (rs_raw_query r)
    (rs_quantity r) (rs_policy_decision r) (rs_policy_version r) (rs_policy_reason_codes r)
    (rs_requested_amount r) (rs_soft_budget r) (rs_hard_limit r) (rs_selected_offer_id r)
    (rs_approval_required r) (rs_approval_granted r) (rs_raw_offer_count r) (rs_valid_offer_count r)
    (rs_invalid_offer_count r) (rs_tainted_merchant_fields r) (rs_authorization r) v (rs_security_events r)
    (rs_skipped_transitions r) (rs_risk_assessments r).
Definition set_rs_security_events (v : list ReplayedSecurityEvent) (r : ReplayState) : ReplayState :=
  mkReplayState (rs_mission_id r) (rs_mission_state r) (rs_events_replayed r) (rs_raw_query r)
    (rs_quantity r) (rs_policy_decision r) (rs_policy_version r) (rs_policy_reason_codes r)
    (rs_requested_amount r) (rs_soft_budget r) (rs_hard_limit r) (rs_selected_offer_id r)
    (rs_approval_required r) (rs_approval_granted r) (rs_raw_offer_count r) (rs_valid_offer_count r)
    (rs_invalid_offer_count r) (rs_tainted_merchant_fields r) (rs_authorization r) (rs_payment r) v
    (rs_skipped_transitions r) (rs_risk_assessments r).
Definition set_rs_skipped_transitions (v : list SkippedTransition) (r : ReplayState) : ReplayState :=
  mkReplayState (rs_mission_id r) (rs_mission_state r) (rs_events_replayed r) (rs_raw_query r)
    (rs_quantity r) (rs_policy_decision r) (rs_policy_version r) (rs_policy_reason_codes r)
    (rs_requested_amount r) (rs_soft_budget r) (rs_hard_limit r) (rs_selected_offer_id r)
    (rs_approval_required r) (rs_approval_granted r) (rs_raw_offer_count r) (rs_valid_offer_count r)
    (rs_invalid_offer_count r) (rs_tainted_merchant_fields r) (rs_authorization r) (rs_payment r)
    (rs_security_events r) v (rs_risk_assessments r).
Definition set_rs_risk_assessments (v : list ReplayedRiskAssessment) (r : ReplayState) : ReplayState :=
  mkReplayState (rs_mission_id r) (rs_mission_state r) (rs_events_replayed r) (rs_raw_query r)
    (rs_quantity r) (rs_policy_decision r) (rs_policy_version r) (rs_policy_reason_codes r)
    (rs_requested_amount r) (rs_soft_budget r) (rs_hard_limit r) (rs_selected_offer_id r)
    (rs_approval_required r) (rs_approval_granted r) (rs_raw_offer_count r) (rs_valid_offer_count r)
    (rs_invalid_offer_count r) (rs_tainted_merchant_fields r) (rs_authorization r) (rs_payment r)
    (rs_security_events r) (rs_skipped_transitions r) v.
Definition new_ReplayState (mission_id : uuid) : ReplayState :=
  mkReplayState mission_id None 0 None None None None [] None None None None false false None None None []
    new_ReplayedAuthorization new_ReplayedPayment [] [] [].

Record MissionProjection := mkMissionProjection {
  mp_mission_id : uuid;
  mp_mission_state : option string;
  mp_events_replayed : Z;
  mp_raw_query : option string;
  mp_quantity : option Z;
  mp_policy_decision : option string;
  mp_policy_version : option string;
  mp_policy_reason_codes : list string;
  mp_requested_amount : option Z;
  mp_soft_budget : option Z;
  mp_hard_limit : option Z;
  mp_selected_offer_id : option string;
  mp_approval_required : bool;
  mp_approval_granted : bool;
  mp_raw_offer_count : option Z;
  mp_valid_offer_count : option Z;
  mp_invalid_offer_count : option Z;
  mp_tainted_merchant_fields : list string;
  mp_authorization : ReplayedAuthorization;
  mp_payment : ReplayedPayment;
  mp_security_events : list ReplayedSecurityEvent;
  mp_skipped_transitions : list SkippedTransition;
  mp_risk_assessments : list ReplayedRiskAssessment
}.
(** The end of [reduce_events]. *)
Definition project (s : ReplayState) : MissionProjection :=
  mkMissionProjection (rs_mission_id s) (enum_value <$> rs_mission_state s) (rs_events_replayed s)
    (rs_raw_query s) (rs_quantity s) (rs_policy_decision s) (rs_policy_version s) (rs_policy_reason_codes s)
    (rs_requested_amount s) (rs_soft_budget s) (rs_hard_limit s) (rs_selected_offer_id s)
    (rs_approval_required s) (rs_approval_granted s) (rs_raw_offer_count s) (rs_valid_offer_count s)
    (rs_invalid_offer_count s) (rs_tainted_merchant_fields s) (rs_authorization s) (rs_payment s)
    (rs_security_events s) (rs_skipped_transitions s) (rs_risk_assessments s).

(** ** Payload readers *)

Definition refuse (event : AuditEventRow) (detail : string) : exn :=
  ReplayRefused ReplayReasonCode.REPLAY_MALFORMED_EVENT (ev_sequence event) (ev_event_type event) detail.

(** [key in event.payload] and [event.payload[key]]; [apply_event] has checked that
    the payload is a dict. *)
Definition payload_find (event : AuditEventRow) (key : string) : option json :=
  match ev_payload event with JObj o => py_dict_get key o | _ => None end.
(** [event.payload.get(key)]: [None] is JNull. *)
Definition payload_get (event : AuditEventRow) (key : string) : json := default JNull (payload_find event key).

Definition field_is (key what : string) : string := "payload field '" +:+ key +:+ "' is not " +:+ what.

Definition opt_str (event : AuditEventRow) (key : string) : outcome exn (option string) :=
  match payload_get event key with
  | JNull => Ok None
  | JStr s => Ok (Some s)
  | _ => Raise (refuse event (field_is key "a string"))
  end.
Definition opt_int (event : AuditEventRow) (key : string) : outcome exn (option Z) :=
  match payload_get event key with
  | JNull => Ok None
  | JInt z => Ok (Some z)
  | _ => Raise (refuse event (field_is key "an integer"))
  end.
Fixpoint all_strings (l : list json) : option (list string) :=
  match l with
  | [] => Some []
  | JStr s :: l' => cons s <$> all_strings l'
  | _ :: _ => None
  end.
Definition opt_str_list (event : AuditEventRow) (key : string) : outcome exn (option (list string)) :=
  let bad := Raise (refuse event (field_is key "a list of strings")) in
  match payload_get event key with
  | JNull => Ok None
  | JList l => match all_strings l with Some ss => Ok (Some ss) | None => bad end
  | _ => bad
  end.
Definition opt_approval_scheme (event : AuditEventRow) : outcome exn (option ApprovalScheme) :=
  value ← opt_str event "approval_scheme";
  match value with
  | None => Ok None
  | Some v =>
      match enum_of v with
      | Some scheme => Ok (Some scheme)
      | None => Raise (refuse event ("approval scheme " +:+ py_repr v +:+ " is not known to this build"))
      end
  end.

Definition SECURITY_DETAIL_KEYS : list string :=
  ["field"; "attempted_value"; "source_authority"; "target_authority"; "merchant_id"; "claimed_merchant_id";
   "authenticated_merchant_id"; "offer_id"; "rejected"; "status"; "current_state"; "requested_state";
   "provider_event_id"; "idempotency_key"; "bound_digest_prefix"; "presented_digest_prefix"; "reason_codes";
   "terminal"; "invariant_id"; "bind_refused"].
Definition security_detail (event : AuditEventRow) : json_obj :=
  omap (λ key, pair key <$> payload_find event key) SECURITY_DETAIL_KEYS.

(** [xs or ys] on optional lists: [None] and [[]] are falsy. *)
Definition or_list (x : option (list string)) (y : list string) : list string :=
  match x with Some (a :: l) => a :: l | _ => y end.

(** ** The mission state, the payment fields and the security record *)

Definition advance (event : AuditEventRow) (target : MissionState) (s : ReplayState) : ReplayState :=
  match rs_mission_state s with
  | None => set_rs_mission_state (Some target) s
  | Some current =>
      if bool_decide (current = target) then s
      else if MissionFSM.can_transition current target then set_rs_mission_state (Some target) s
      else set_rs_skipped_transitions
             (rs_skipped_transitions s ++
                [mkSkippedTransition (ev_sequence event) (ev_event_type event) (enum_value current)
                   (enum_value target)]) s
  end.

Definition payment_state_from_payload (event : AuditEventRow) (s : ReplayState) : outcome exn ReplayState :=
  match payload_get event "state" with
  | JNull => Ok s
  | JStr raw =>
      match (enum_of raw : option PaymentIntentState) with
      | Some payment_state =>
          Ok (set_rs_payment (set_rp_state (Some (enum_value payment_state)) (rs_payment s)) s)
      | None => Raise (refuse event ("payment state " +:+ py_repr raw +:+ " is not a state this build knows"))
      end
  | _ => Raise (refuse event "payload field 'state' is not a string")
  end.

Definition common_payment_fields (event : AuditEventRow) (s : ReplayState) : outcome exn ReplayState :=
  let p := rs_payment s in
  payment_intent_id ← opt_str event "payment_intent_id";
  provider ← opt_str event "provider";
  provider_payment_id ← opt_str event "provider_payment_id";
  idempotency_key ← opt_str event "idempotency_key";
  amount_inr ← opt_int event "amount_inr";
  currency ← opt_str event "currency";
  merchant_id ← opt_str event "merchant_id";
  last_reason_code ← match payload_find event "reason_code" with
                     | Some _ => opt_str event "reason_code"
                     | None => Ok (rp_last_reason_code p)
                     end;
  Ok (set_rs_payment
        (mkReplayedPayment (opt_or_str payment_intent_id (rp_payment_intent_id p)) (rp_state p)
           (opt_or_str provider (rp_provider p)) (opt_or_str provider_payment_id (rp_provider_payment_id p))
           (opt_or_str idempotency_key (rp_idempotency_key p)) (opt_or_int amount_inr (rp_amount_inr p))
           (opt_or_str currency (rp_currency p)) (opt_or_str merchant_id (rp_merchant_id p)) last_reason_code
           (rp_attempts p) (rp_intent_reused p) (rp_uncertain_episodes p) (rp_provider_timeouts p)
           (rp_retries_scheduled p) (rp_reconciliations p) (rp_dead_lettered p) (rp_webhooks_verified p)
           (rp_duplicate_webhooks_ignored p) (rp_out_of_order_webhooks_ignored p)) s).

Definition record_security (event : AuditEventRow) (s : ReplayState) : outcome exn ReplayState :=
  reason_code ← opt_str event "reason_code";
  Ok (set_rs_security_events
        (rs_security_events s ++
           [mkReplayedSecurityEvent (ev_sequence event) (ev_event_type event) (ev_actor event) reason_code
              (security_detail event)]) s).

(** [state.payment.x = ...] and [state.authorization.x = ...]. *)
Definition on_payment (f : ReplayedPayment → ReplayedPayment) (s : ReplayState) : ReplayState :=
  set_rs_payment (f (rs_payment s)) s.
Definition on_authorization (f : ReplayedAuthorization → ReplayedAuthorization) (s : ReplayState) : ReplayState :=
  set_rs_authorization (f (rs_authorization s)) s.

(** ** The handlers *)
Definition on_mission_created (event : AuditEventRow) (s : ReplayState) : outcome exn ReplayState :=
  raw_query ← opt_str event "raw_query";
  quantity ← opt_int event "quantity";
  Ok (advance event MissionState.CREATED (set_rs_quantity quantity (set_rs_raw_query raw_query s))).

(** [isinstance(v, int) and not isinstance(v, bool)], else the old value. *)
Definition int_or (o : option json) (old : option Z) : option Z :=
  match o with Some (JInt z) => Some z | _ => old end.
Definition on_intent_parsed (event : AuditEventRow) (s : ReplayState) : outcome exn ReplayState :=
  match payload_get event "constraints" with
  | JNull => Ok (advance event MissionState.INTENT_PARSED s)
  | JObj constraints =>
      Ok (advance event MissionState.INTENT_PARSED
            (set_rs_hard_limit (int_or (py_dict_get "hard_limit_inr" constraints) (rs_hard_limit s))
               (set_rs_soft_budget (int_or (py_dict_get "soft_budget_inr" constraints) (rs_soft_budget s)) s)))
  | _ => Raise (refuse event "payload field 'constraints' is not an object")
  end.

Definition on_discovery_started (event : AuditEventRow) (s : ReplayState) : outcome exn ReplayState :=
  Ok (advance event MissionState.DISCOVERING s).
Definition on_offers_received (event : AuditEventRow) (s : ReplayState) : outcome exn ReplayState :=
  raw_offer_count ← opt_int event "raw_offer_count";
  Ok (advance event MissionState.OFFERS_RECEIVED (set_rs_raw_offer_count raw_offer_count s)).
Definition on_offers_normalized (event : AuditEventRow) (s : ReplayState) : outcome exn ReplayState :=
  valid ← opt_int event "valid";
  invalid ← opt_int event "invalid";
  tainted ← opt_str_list event "tainted_merchant_fields";
  Ok (advance event MissionState.OFFERS_NORMALIZED
        (set_rs_tainted_merchant_fields (or_list tainted [])
           (set_rs_invalid_offer_count invalid (set_rs_valid_offer_count valid s)))).
Definition on_offers_ranked (event : AuditEventRow) (s : ReplayState) : outcome exn ReplayState :=
  Ok (advance event MissionState.RANKED s).

Definition on_policy_decision (event : AuditEventRow) (s : ReplayState) : outcome exn ReplayState :=
  decision ← opt_str event "decision";
  policy_decision ← match decision with
                    | None => Ok (rs_policy_decision s)
                    | Some d =>
                        match (enum_of d : option PolicyOutcome) with
                        | Some outcome => Ok (Some (enum_value outcome))
                        | None => Raise (refuse event ("policy decision " +:+ py_repr d
                                           +:+ " is not an outcome this build knows"))
                        end
                    end;
  policy_version ← opt_str event "policy_version";
  reason_codes ← opt_str_list event "reason_codes";
  requested_amount ← opt_int event "requested_amount";
  soft_budget ← opt_int event "soft_budget";
  hard_limit ← opt_int event "hard_limit";
  selected_offer_id ← opt_str event "selected_offer_id";
  Ok (advance event MissionState.POLICY_CHECKED
        (set_rs_selected_offer_id selected_offer_id
        (set_rs_hard_limit (opt_or_int hard_limit (rs_hard_limit s))
        (set_rs_soft_budget (opt_or_int soft_budget (rs_soft_budget s))
        (set_rs_requested_amount requested_amount
        (set_rs_policy_reason_codes (or_list reason_codes [])
        (set_rs_policy_version policy_version
        (set_rs_policy_decision policy_decision s)))))))).

Definition on_approval_requested (event : AuditEventRow) (s : ReplayState) : outcome exn ReplayState :=
  requested_amount ← opt_int event "requested_amount";
  authorization_id ← opt_str event "authorization_id";
  Ok (advance event MissionState.AWAITING_APPROVAL
        (on_authorization (λ a, set_ra_authorization_id (opt_or_str authorization_id (ra_authorization_id a)) a)
        (set_rs_requested_amount (opt_or_int requested_amount (rs_requested_amount s))
        (set_rs_approval_required true s)))).

Definition on_mission_denied (event : AuditEventRow) (s : ReplayState) : outcome exn ReplayState :=
  reason_codes ← opt_str_list event "reason_codes";
  s ← record_security event (set_rs_policy_reason_codes (or_list reason_codes (rs_policy_reason_codes s)) s);
  Ok (advance event MissionState.CANCELLED s).
Definition on_security_violation (event : AuditEventRow) (s : ReplayState) : outcome exn ReplayState :=
  record_security event s.

(** [auth.status = _opt_str(event, "status") or status]. *)
Definition status_or (status : AuthorizationStatus) (v : option string) : option string :=
  opt_or_str v (Some (enum_value status)).
Definition on_authorization_created (event : AuditEventRow) (s : ReplayState) : outcome exn ReplayState :=
  let a := rs_authorization s in
  authorization_id ← opt_str event "authorization_id";
  status ← opt_str event "status";
  transaction_digest_prefix ← opt_str event "transaction_digest_prefix";
  policy_version ← opt_str event "policy_version";
  offer_version ← opt_str event "offer_version";
  binding_version ← opt_str event "binding_version";
  approval_scheme ← opt_approval_scheme event;
  expires_at ← opt_str event "expires_at";
  bound_merchant_id ← opt_str event "bound_merchant_id";
  bound_product_id ← opt_str event "bound_product_id";
  bound_quantity ← opt_int event "bound_quantity";
  bound_amount_inr ← opt_int event "bound_amount_inr";
  bound_currency ← opt_str event "bound_currency";
  Ok (set_rs_authorization
        (mkReplayedAuthorization (opt_or_str authorization_id (ra_authorization_id a))
           (status_or AuthorizationStatus.PENDING status) transaction_digest_prefix policy_version offer_version
           binding_version approval_scheme expires_at (ra_consumed_at a) bound_merchant_id bound_product_id
           bound_quantity bound_amount_inr bound_currency (ra_replay_detected a) (ra_binding_failures a)) s).

Definition on_authorization_activated (event : AuditEventRow) (s : ReplayState) : outcome exn ReplayState :=
  authorization_id ← opt_str event "authorization_id";
  status ← opt_str event "status";
  prefix ← opt_str event "transaction_digest_prefix";
  scheme ← opt_approval_scheme event;
  let s := on_authorization (λ a,
    set_ra_approval_scheme (match scheme with Some x => Some x | None => ra_approval_scheme a end)
      (set_ra_transaction_digest_prefix (opt_or_str prefix (ra_transaction_digest_prefix a))
        (set_ra_status (status_or AuthorizationStatus.ACTIVE status)
          (set_ra_authorization_id (opt_or_str authorization_id (ra_authorization_id a)) a)))) s in
  Ok (advance event MissionState.AUTHORIZED
        (if rs_approval_required s then set_rs_approval_granted true s else s)).

Definition on_authorization_consumed (event : AuditEventRow) (s : ReplayState) : outcome exn ReplayState :=
  status ← opt_str event "status";
  consumed_at ← opt_str event "consumed_at";
  Ok (on_authorization (λ a, set_ra_consumed_at consumed_at
        (set_ra_status (status_or AuthorizationStatus.CONSUMED status) a)) s).
Definition on_authorization_expired (event : AuditEventRow) (s : ReplayState) : outcome exn ReplayState :=
  status ← opt_str event "status";
  expires_at ← opt_str event "expires_at";
  Ok (on_authorization (λ a, set_ra_expires_at (opt_or_str expires_at (ra_expires_at a))
        (set_ra_status (status_or AuthorizationStatus.EXPIRED status) a)) s).
Definition on_authorization_revoked (event : AuditEventRow) (s : ReplayState) : outcome exn ReplayState :=
  status ← opt_str event "status";
  Ok (on_authorization (set_ra_status (status_or AuthorizationStatus.REVOKED status)) s).
Definition on_authorization_replay_detected (event : AuditEventRow) (s : ReplayState) : outcome exn ReplayState :=
  status ← opt_str event "status";
  consumed_at ← opt_str event "consumed_at";
  record_security event (on_authorization (λ a,
    set_ra_consumed_at (opt_or_str consumed_at (ra_consumed_at a))
      (set_ra_status (opt_or_str status (ra_status a)) (set_ra_replay_detected true a))) s).
Definition on_transaction_binding_failure (event : AuditEventRow) (s : ReplayState) : outcome exn ReplayState :=
  record_security event (on_authorization (λ a, set_ra_binding_failures (ra_binding_failures a + 1) a) s).

Definition on_payment_intent_created (event : AuditEventRow) (s : ReplayState) : outcome exn ReplayState :=
  s ← common_payment_fields event s;
  authorization_id ← opt_str event "authorization_id";
  Ok (on_authorization (λ a, set_ra_authorization_id (opt_or_str authorization_id (ra_authorization_id a)) a) s).

(** The two readings most payment handlers begin with. *)
Definition payment_fields_and_state (event : AuditEventRow) (s : ReplayState) : outcome exn ReplayState :=
  s ← common_payment_fields event s;
  payment_state_from_payload event s.

Definition on_payment_queued (event : AuditEventRow) (s : ReplayState) : outcome exn ReplayState :=
  s ← payment_fields_and_state event s;
  Ok (advance event MissionState.PAYMENT_PENDING s).
Definition on_payment_attempted (event : AuditEventRow) (s : ReplayState) : outcome exn ReplayState :=
  s ← payment_fields_and_state event s;
  Ok (on_payment (λ p, set_rp_attempts (rp_attempts p + 1) p) s).
Definition on_payment_provider_timeout (event : AuditEventRow) (s : ReplayState) : outcome exn ReplayState :=
  s ← common_payment_fields event s;
  Ok (on_payment (λ p, set_rp_provider_timeouts (rp_provider_timeouts p + 1) p) s).
Definition on_payment_provider_uncertain (event : AuditEventRow) (s : ReplayState) : outcome exn ReplayState :=
  s ← payment_fields_and_state event s;
  Ok (on_payment (λ p, set_rp_uncertain_episodes (rp_uncertain_episodes p + 1) p) s).
Definition on_payment_retry_scheduled (event : AuditEventRow) (s : ReplayState) : outcome exn ReplayState :=
  s ← payment_fields_and_state event s;
  Ok (on_payment (λ p, set_rp_retries_scheduled (rp_retries_scheduled p + 1) p) s).
(** Narration: its [state] is not adopted. *)
Definition on_payment_reconciled (event : AuditEventRow) (s : ReplayState) : outcome exn ReplayState :=
  s ← common_payment_fields event s;
  Ok (on_payment (λ p, set_rp_reconciliations (rp_reconciliations p + 1) p) s).
Definition on_payment_succeeded (event : AuditEventRow) (s : ReplayState) : outcome exn ReplayState :=
  s ← payment_fields_and_state event s;
  Ok (advance event MissionState.PAYMENT_SUCCEEDED s).
Definition on_payment_failed (event : AuditEventRow) (s : ReplayState) : outcome exn ReplayState :=
  s ← payment_fields_and_state event s;
  Ok (if bool_decide (rp_state (rs_payment s) = Some (enum_value PaymentIntentState.FAILED_TERMINAL))
      then advance event MissionState.PAYMENT_FAILED s else s).
Definition on_payment_intent_reused (event : AuditEventRow) (s : ReplayState) : outcome exn ReplayState :=
  s ← payment_fields_and_state event s;
  Ok (on_payment (set_rp_intent_reused true) s).
Definition on_idempotency_conflict (event : AuditEventRow) (s : ReplayState) : outcome exn ReplayState :=
  record_security event s.
Definition on_outbox_dead_lettered (event : AuditEventRow) (s : ReplayState) : outcome exn ReplayState :=
  s ← common_payment_fields event s;
  Ok (on_payment (set_rp_dead_lettered true) s).
Definition on_webhook_verified (event : AuditEventRow) (s : ReplayState) : outcome exn ReplayState :=
  s ← common_payment_fields event s;
  Ok (on_payment (λ p, set_rp_webhooks_verified (rp_webhooks_verified p + 1) p) s).
Definition on_webhook_rejected (event : AuditEventRow) (s : ReplayState) : outcome exn ReplayState :=
  record_security event s.
Definition on_duplicate_webhook_ignored (event : AuditEventRow) (s : ReplayState) : outcome exn ReplayState :=
  s ← common_payment_fields event s;
  record_security event
    (on_payment (λ p, set_rp_duplicate_webhooks_ignored (rp_duplicate_webhooks_ignored p + 1) p) s).
Definition on_webhook_out_of_order_ignored (event : AuditEventRow) (s : ReplayState) : outcome exn ReplayState :=
  s ← common_payment_fields event s;
  record_security event
    (on_payment (λ p, set_rp_out_of_order_webhooks_ignored (rp_out_of_order_webhooks_ignored p + 1) p) s).

(** [float(n)]. *)
Definition float_of_int (z : Z) : outcome exn float :=
  match fl_of_Z z with
  | S754_infinity _ => Raise (OverflowError "int too large to convert to float")
  | f => Ok f
  end.

(** [_advisory_str]; [float(score)] of an integer beyond the doubles is an
    OverflowError; [str] of any JSON value. *)
Definition advisory_str (value : json) : option string := match value with JStr s => Some s | _ => None end.
Definition advisory_score (score : json) : outcome exn (option float) :=
  match score with
  | JBool b => Ok (Some (fl_of_Z (Z.b2z b)))
  | JInt z => f ← float_of_int z; Ok (Some f)
  | JFloat f => Ok (Some f)
  | _ => Ok None
  end.
Definition advisory_codes (codes : json) : list string :=
  match codes with JList l => map json_str l | _ => [] end.
Definition on_risk_assessed (event : AuditEventRow) (s : ReplayState) : outcome exn ReplayState :=
  score ← advisory_score (payload_get event "score");
  Ok (set_rs_risk_assessments
        (rs_risk_assessments s ++
           [mkReplayedRiskAssessment (ev_sequence event) (advisory_str (payload_get event "assessment_id")) score
              (advisory_str (payload_get event "band")) (advisory_str (payload_get event "recommendation"))
              (advisory_str (payload_get event "engine_version")) (advisory_str (payload_get event "model_version"))
              (advisory_codes (payload_get event "factor_codes"))]) s).

(** ** The reducer *)
Definition HANDLERS (event_type : EventType) : AuditEventRow → ReplayState → outcome exn ReplayState :=
  match event_type with
  | EventType.MISSION_CREATED => on_mission_created
  | EventType.INTENT_PARSED => on_intent_parsed
  | EventType.DISCOVERY_STARTED => on_discovery_started
  | EventType.OFFERS_RECEIVED => on_offers_received
  | EventType.OFFERS_NORMALIZED => on_offers_normalized
  | EventType.OFFERS_RANKED => on_offers_ranked
  | EventType.POLICY_DECISION => on_policy_decision
  | EventType.APPROVAL_REQUESTED => on_approval_requested
  | EventType.MISSION_DENIED => on_mission_denied
  | EventType.SECURITY_VIOLATION => on_security_violation
  | EventType.AUTHORIZATION_CREATED => on_authorization_created
  | EventType.AUTHORIZATION_ACTIVATED => on_authorization_activated
  | EventType.AUTHORIZATION_CONSUMED => on_authorization_consumed
  | EventType.AUTHORIZATION_EXPIRED => on_authorization_expired
  | EventType.AUTHORIZATION_REVOKED => on_authorization_revoked
  | EventType.AUTHORIZATION_REPLAY_DETECTED => on_authorization_replay_detected
  | EventType.TRANSACTION_BINDING_FAILURE => on_transaction_binding_failure
  | EventType.PAYMENT_INTENT_CREATED => on_payment_intent_created
  | EventType.PAYMENT_QUEUED => on_payment_queued
  | EventType.PAYMENT_ATTEMPTED => on_payment_attempted
  | EventType.PAYMENT_PROVIDER_TIMEOUT => on_payment_provider_timeout
  | EventType.PAYMENT_PROVIDER_UNCERTAIN => on_payment_provider_uncertain
  | EventType.PAYMENT_RETRY_SCHEDULED => on_payment_retry_scheduled
  | EventType.PAYMENT_RECONCILED => on_payment_reconciled
  | EventType.PAYMENT_SUCCEEDED => on_payment_succeeded
  | EventType.PAYMENT_FAILED => on_payment_failed
  | EventType.PAYMENT_INTENT_REUSED => on_payment_intent_reused
  | EventType.IDEMPOTENCY_CONFLICT => on_idempotency_conflict
  | EventType.OUTBOX_EVENT_DEAD_LETTERED => on_outbox_dead_lettered
  | EventType.WEBHOOK_VERIFIED => on_webhook_verified
  | EventType.WEBHOOK_REJECTED => on_webhook_rejected
  | EventType.DUPLICATE_WEBHOOK_IGNORED => on_duplicate_webhook_ignored
  | EventType.WEBHOOK_OUT_OF_ORDER_IGNORED => on_webhook_out_of_order_ignored
  | EventType.RISK_ASSESSED => on_risk_assessed
  end.

Definition apply_event (event : AuditEventRow) (s : ReplayState) : outcome exn ReplayState :=
  match (enum_of (ev_event_type event) : option EventType) with
  | None =>
      Raise (ReplayRefused ReplayReasonCode.REPLAY_UNSUPPORTED_EVENT_TYPE (ev_sequence event) (ev_event_type event)
        ("event type " +:+ py_repr (ev_event_type event)
         +:+ " is not known to this build; refusing to reconstruct a state that would silently omit it"))
  | Some event_type =>
      if negb (is_json_object (ev_payload event)) then Raise (refuse event "payload is not a JSON object")
      else
        s ← HANDLERS event_type event s;
        Ok (set_rs_events_replayed (rs_events_replayed s + 1) s)
  end.

Fixpoint apply_events (events : list AuditEventRow) (s : ReplayState) : outcome exn ReplayState :=
  match events with
  | [] => Ok s
  | event :: rest => s ← apply_event event s; apply_events rest s
  end.

(** Sorted by [(row.sequence, str(row.event_id))], the verifier's key. *)
Definition reduce_events (mission_id : uuid) (events : list AuditEventRow) : outcome exn MissionProjection :=
  s ← apply_events (py_sorted verify_key_leb events) (new_ReplayState mission_id);
  Ok (project s).
