(* ===== verification/DecisionTrace.v ===== *)
(** * The decision trace and the gated replay

    services/audit_ledger/replay.py, second half: the allow-listed trace projected
    from verified events, the comparison with the stored rows, and [replay_mission],
    which verifies the chain before it reduces anything. *)
From S2P Require Import Prelude Python PyFloat Json Text Enums Errors StateMachines Database Hashing.
From S2P Require Import Evolution Ledger Replay.

(** ** packages/schemas/audit.py *)
Record DecisionTraceEvidenceRef := mkDecisionTraceEvidenceRef {
  dr_event_id : uuid;
  dr_sequence : Z;
  dr_actor : string
}.
(** [sequence: int = Field(ge=0)]. *)
Definition DecisionTraceEvidenceRef_new (event_id : uuid) (sequence : Z) (actor : string)
    : outcome exn DecisionTraceEvidenceRef :=
  if sequence <? 0 then Raise (ValidationError "sequence")
  else Ok (mkDecisionTraceEvidenceRef event_id sequence actor).

Record DecisionTraceEntry := mkDecisionTraceEntry {
  te_stage : DecisionStage;
  te_event_type : EventType;
  te_verdict : DecisionTraceVerdict;
  te_reason_codes : list string;
  te_invariant_id : option string;
  te_approval_scheme : option ApprovalScheme;
  te_policy_outcome : option PolicyOutcome;
  te_payment_state : option PaymentIntentState;
  te_advisory : bool;
  te_next_action : DecisionTraceNextAction;
  te_evidence : DecisionTraceEvidenceRef;
  te_recorded_at : datetime
}.

Record StateComparison := mkStateComparison {
  cmp_replay_state : option string;
  cmp_persisted_state : option MissionState;
  cmp_matches : bool;
  cmp_replay_authorization_status : option string;
  cmp_persisted_authorization_status : option AuthorizationStatus;
  cmp_authorization_matches : option bool;
  cmp_replay_payment_state : option string;
  cmp_persisted_payment_state : option PaymentIntentState;
  cmp_payment_matches : option bool
}.

Record MissionReplayResult := mkMissionReplayResult {
  mr_mission_id : uuid;
  mr_audit_valid : bool;
  mr_trusted : bool;
  mr_reason_code : ReplayReasonCode;
  mr_events_replayed : Z;
  mr_verification : AuditVerificationResult;
  mr_state : option MissionProjection;
  mr_comparison : option StateComparison;
  mr_decision_trace : list DecisionTraceEntry;
  mr_unsupported_events : list (Z * string);
  mr_detail : option string
}.

(** ** The trace of one event *)
Definition TRACE_STAGE_BY_EVENT (event_type : EventType) : DecisionStage :=
  match event_type with
  | EventType.MISSION_CREATED | EventType.INTENT_PARSED | EventType.DISCOVERY_STARTED
  | EventType.OFFERS_RECEIVED | EventType.OFFERS_NORMALIZED | EventType.OFFERS_RANKED
  | EventType.POLICY_DECISION => DecisionStage.ADMIT
  | EventType.APPROVAL_REQUESTED => DecisionStage.BIND
  | EventType.MISSION_DENIED | EventType.SECURITY_VIOLATION => DecisionStage.ADMIT
  | EventType.AUTHORIZATION_CREATED | EventType.AUTHORIZATION_ACTIVATED | EventType.AUTHORIZATION_CONSUMED
  | EventType.AUTHORIZATION_EXPIRED | EventType.AUTHORIZATION_REVOKED | EventType.AUTHORIZATION_REPLAY_DETECTED
  | EventType.TRANSACTION_BINDING_FAILURE => DecisionStage.BIND
  | EventType.PAYMENT_INTENT_CREATED | EventType.PAYMENT_QUEUED | EventType.PAYMENT_ATTEMPTED
  | EventType.PAYMENT_PROVIDER_TIMEOUT | EventType.PAYMENT_PROVIDER_UNCERTAIN | EventType.PAYMENT_RETRY_SCHEDULED
  | EventType.PAYMENT_RECONCILED | EventType.PAYMENT_SUCCEEDED | EventType.PAYMENT_FAILED
  | EventType.PAYMENT_INTENT_REUSED | EventType.IDEMPOTENCY_CONFLICT | EventType.OUTBOX_EVENT_DEAD_LETTERED
  | EventType.WEBHOOK_VERIFIED | EventType.WEBHOOK_REJECTED | EventType.DUPLICATE_WEBHOOK_IGNORED
  | EventType.WEBHOOK_OUT_OF_ORDER_IGNORED => DecisionStage.EXECUTE
  | EventType.RISK_ASSESSED => DecisionStage.ADMIT
  end.

Definition TRACE_REFUSALS : list EventType :=
  [EventType.MISSION_DENIED; EventType.SECURITY_VIOLATION; EventType.AUTHORIZATION_EXPIRED;
   EventType.AUTHORIZATION_REVOKED; EventType.AUTHORIZATION_REPLAY_DETECTED; EventType.TRANSACTION_BINDING_FAILURE;
   EventType.IDEMPOTENCY_CONFLICT; EventType.WEBHOOK_REJECTED].
Definition TRACE_PENDING : list EventType :=
  [EventType.APPROVAL_REQUESTED; EventType.AUTHORIZATION_CREATED; EventType.PAYMENT_QUEUED;
   EventType.PAYMENT_ATTEMPTED; EventType.PAYMENT_PROVIDER_TIMEOUT; EventType.PAYMENT_PROVIDER_UNCERTAIN;
   EventType.PAYMENT_RETRY_SCHEDULED; EventType.PAYMENT_RECONCILED].
Definition TRACE_IGNORED : list EventType :=
  [EventType.DUPLICATE_WEBHOOK_IGNORED; EventType.WEBHOOK_OUT_OF_ORDER_IGNORED].

(** [list(dict.fromkeys(codes))]. *)
Definition fromkeys (l : list string) : list string :=
  fold_left (λ seen x, if bool_decide (x ∈ seen) then seen else seen ++ [x]) l [].
Definition trace_reason_codes (event : AuditEventRow) : list string :=
  let single := match payload_get event "reason_code" with JStr s => [s] | _ => [] end in
  let multiple := match payload_get event "reason_codes" with JList l => omap advisory_str l | _ => [] end in
  fromkeys (single ++ multiple).

(** The member a payload field names, if it names one. *)
Definition trace_member {A} `{StrEnum A} (event : AuditEventRow) (key : string) : option A :=
  match payload_get event key with JStr raw => enum_of raw | _ => None end.
Definition trace_approval_scheme (event : AuditEventRow) : option ApprovalScheme :=
  trace_member event "approval_scheme".
Definition trace_policy_outcome (event : AuditEventRow) : option PolicyOutcome :=
  if negb (String.eqb (ev_event_type event) (enum_value EventType.POLICY_DECISION)) then None
  else trace_member event "decision".
Definition trace_payment_state (event : AuditEventRow) : option PaymentIntentState := trace_member event "state".

Definition trace_stage (event_type : EventType) (event : AuditEventRow) : DecisionStage :=
  if bool_decide (event_type = EventType.SECURITY_VIOLATION)
     && match payload_get event "bind_refused" with JBool true => true | _ => false end
  then DecisionStage.BIND else TRACE_STAGE_BY_EVENT event_type.

Definition trace_verdict (event_type : EventType) (event : AuditEventRow) : DecisionTraceVerdict :=
  let rest :=
    if bool_decide (event_type ∈ TRACE_REFUSALS) then DecisionTraceVerdict.REFUSED
    else if bool_decide (event_type ∈ TRACE_IGNORED) then DecisionTraceVerdict.IGNORED
    else if bool_decide (event_type = EventType.PAYMENT_SUCCEEDED) then DecisionTraceVerdict.SUCCEEDED
    else if bool_decide (event_type ∈ [EventType.PAYMENT_FAILED; EventType.OUTBOX_EVENT_DEAD_LETTERED])
    then DecisionTraceVerdict.FAILED
    else if bool_decide (event_type ∈ TRACE_PENDING) then DecisionTraceVerdict.PENDING
    else DecisionTraceVerdict.ACCEPTED in
  if bool_decide (event_type = EventType.RISK_ASSESSED) then DecisionTraceVerdict.ADVISORY
  else if bool_decide (event_type = EventType.POLICY_DECISION) then
    match trace_policy_outcome event with
    | Some PolicyOutcome.DENY => DecisionTraceVerdict.REFUSED
    | Some PolicyOutcome.REQUIRE_APPROVAL => DecisionTraceVerdict.PENDING
    | _ => rest
    end
  else rest.

Definition trace_next_action (event_type : EventType) (event : AuditEventRow) (stage : DecisionStage)
    : DecisionTraceNextAction :=
  match event_type with
  | EventType.RISK_ASSESSED => DecisionTraceNextAction.NONE
  | EventType.SECURITY_VIOLATION =>
      if bool_decide (stage = DecisionStage.BIND) then DecisionTraceNextAction.NONE
      else DecisionTraceNextAction.CONTINUE_ADMIT
  | EventType.POLICY_DECISION =>
      if bool_decide (trace_policy_outcome event = Some PolicyOutcome.DENY) then DecisionTraceNextAction.NONE
      else DecisionTraceNextAction.CONTINUE_BIND
  | EventType.MISSION_DENIED | EventType.AUTHORIZATION_EXPIRED | EventType.AUTHORIZATION_REVOKED
  | EventType.AUTHORIZATION_REPLAY_DETECTED | EventType.TRANSACTION_BINDING_FAILURE
  | EventType.IDEMPOTENCY_CONFLICT | EventType.WEBHOOK_REJECTED | EventType.PAYMENT_SUCCEEDED
  | EventType.OUTBOX_EVENT_DEAD_LETTERED => DecisionTraceNextAction.NONE
  | EventType.APPROVAL_REQUESTED => DecisionTraceNextAction.AWAIT_USER_SIGNATURE
  | EventType.AUTHORIZATION_CREATED =>
      if bool_decide (trace_approval_scheme event = Some ApprovalScheme.USER_ED25519)
      then DecisionTraceNextAction.AWAIT_USER_SIGNATURE else DecisionTraceNextAction.CONTINUE_BIND
  | EventType.AUTHORIZATION_ACTIVATED => DecisionTraceNextAction.CREATE_PAYMENT_INTENT
  | EventType.AUTHORIZATION_CONSUMED => DecisionTraceNextAction.DISPATCH_PAYMENT
  | EventType.PAYMENT_INTENT_CREATED | EventType.PAYMENT_QUEUED => DecisionTraceNextAction.DISPATCH_PAYMENT
  | EventType.PAYMENT_PROVIDER_TIMEOUT | EventType.PAYMENT_PROVIDER_UNCERTAIN =>
      DecisionTraceNextAction.RECONCILE_PAYMENT
  | EventType.PAYMENT_RETRY_SCHEDULED => DecisionTraceNextAction.RETRY_PAYMENT
  | EventType.PAYMENT_FAILED =>
      if bool_decide (trace_payment_state event = Some PaymentIntentState.FAILED_RETRYABLE)
      then DecisionTraceNextAction.RETRY_PAYMENT else DecisionTraceNextAction.NONE
  | EventType.PAYMENT_INTENT_REUSED =>
      match trace_payment_state event with
      | Some PaymentIntentState.QUEUED => DecisionTraceNextAction.DISPATCH_PAYMENT
      | Some (PaymentIntentState.PROCESSING | PaymentIntentState.PROVIDER_PENDING) =>
          DecisionTraceNextAction.AWAIT_PROVIDER
      | _ => DecisionTraceNextAction.NONE
      end
  | _ =>
      match stage with
      | DecisionStage.ADMIT => DecisionTraceNextAction.CONTINUE_ADMIT
      | DecisionStage.BIND => DecisionTraceNextAction.CONTINUE_BIND
      | DecisionStage.EXECUTE => DecisionTraceNextAction.AWAIT_PROVIDER
      end
  end.

(** One pass of the loop of [decision_trace_from_events]. *)
Definition trace_entry (event : AuditEventRow) : outcome exn DecisionTraceEntry :=
  match (enum_of (ev_event_type event) : option EventType) with
  | None => Raise (ValueError (py_repr (ev_event_type event) +:+ " is not a valid EventType"))
  | Some event_type =>
      if negb (is_json_object (ev_payload event))
      then Raise (AttributeError "the payload has no attribute 'get'")
      else
        let stage := trace_stage event_type event in
        evidence ← DecisionTraceEvidenceRef_new (ev_event_id event) (ev_sequence event) (ev_actor event);
        match ev_created_at event with
        | None => Raise (AttributeError "'NoneType' object has no attribute 'tzinfo'")
        | Some created_at =>
            Ok (mkDecisionTraceEntry stage event_type (trace_verdict event_type event) (trace_reason_codes event)
                  (advisory_str (payload_get event "invariant_id")) (trace_approval_scheme event)
                  (trace_policy_outcome event) (trace_payment_state event)
                  (bool_decide (event_type = EventType.RISK_ASSESSED)) (trace_next_action event_type event stage)
                  evidence (as_utc created_at))
        end
  end.
Fixpoint trace_entries (events : list AuditEventRow) : outcome exn (list DecisionTraceEntry) :=
  match events with
  | [] => Ok []
  | event :: rest => entry ← trace_entry event; entries ← trace_entries rest; Ok (entry :: entries)
  end.
Definition decision_trace_from_events (events : list AuditEventRow) : outcome exn (list DecisionTraceEntry) :=
  trace_entries (py_sorted verify_key_leb events).

(** ** Comparison with the stored rows *)

(** [ORDER BY issued_at DESC LIMIT 1]. *)
Definition later_issued (best : option AuthorizationRow) (a : AuthorizationRow) : option AuthorizationRow :=
  match best with
  | Some b => if dt_gtb (au_issued_at a) (au_issued_at b) then Some a else best
  | None => Some a
  end.
Definition newest_authorization (mission_id : uuid) (d : DB) : option AuthorizationRow :=
  fold_left later_issued
    (List.filter (λ a, bool_decide (au_mission_id a = mission_id)) (map snd (map_to_list (db_auths d)))) None.
Definition mission_intents (mission_id : uuid) (d : DB) : list PaymentIntentRow :=
  List.filter (λ r, bool_decide (pi_mission_id r = mission_id)) (intent_rows d).

(** [None] when neither side has one. *)
Definition sides_match (replayed persisted : option string) : option bool :=
  if is_none replayed && is_none persisted then None else Some (bool_decide (replayed = persisted)).

Section Replaying.
(** [ORDER BY created_at DESC LIMIT 1] of a mission's payment intents: the column is
    filled by the database server, so the choice is the server's. *)
Context (latest_created : list PaymentIntentRow → option PaymentIntentRow).

Definition compare_with_persisted (projection : MissionProjection) : P StateComparison :=
  mission ← reads (λ d, db_missions d !! mp_mission_id projection);
  authorization ← reads (newest_authorization (mp_mission_id projection));
  intents ← reads (mission_intents (mp_mission_id projection));
  let persisted_state := ms_state <$> mission in
  let persisted_auth := au_status <$> authorization in
  let persisted_payment := pi_state <$> latest_created intents in
  mret (mkStateComparison
    (mp_mission_state projection) persisted_state
    (bool_decide (mp_mission_state projection = (enum_value <$> persisted_state)))
    (ra_status (mp_authorization projection)) persisted_auth
    (sides_match (ra_status (mp_authorization projection)) (enum_value <$> persisted_auth))
    (rp_state (mp_payment projection)) persisted_payment
    (sides_match (rp_state (mp_payment projection)) (enum_value <$> persisted_payment))).

(** [except ReplayRefused]; any other exception goes on. *)
Definition on_refusal (mission_id : uuid) (verification : AuditVerificationResult) (e : exn) : P MissionReplayResult :=
  match e with
  | ReplayRefused code sequence event_type detail =>
      mret (mkMissionReplayResult mission_id true false code 0 verification None None []
              [(sequence, event_type)] (Some detail))
  | _ => raise e
  end.

Definition replay_mission (mission_id : uuid) (compare : bool) : P MissionReplayResult :=
  verification ← verify_mission_chain mission_id;
  if negb (vr_valid verification) then
    mret (mkMissionReplayResult mission_id false false ReplayReasonCode.REPLAY_AUDIT_INVALID 0 verification
            None None [] []
            (Some "the audit chain did not verify; replaying it would present a reconstruction built on evidence already known to be altered"))
  else
    events ← list_events mission_id;
    match reduce_events mission_id events with
    | Raise e => on_refusal mission_id verification e
    | Ok projection =>
        comparison ← (if compare then Some <$> compare_with_persisted projection else mret None);
        trace ← lift (decision_trace_from_events events);
        mret (mkMissionReplayResult mission_id true true ReplayReasonCode.REPLAY_OK
                (mp_events_replayed projection) verification (Some projection) comparison trace [] None)
    end.
End Replaying.
