(* ===== verification/ReplayProperties.v ===== *)
(** * What a replay establishes

    The reducer does not depend on the order rows arrive in, leaves nothing out of the
    security history, moves the mission only along its state machine, and ignores
    advice; [replay_mission] changes nothing and trusts only an intact chain. *)
From S2P Require Import Prelude Python PyFloat Json Text Enums Errors StateMachines Database Hashing.
From S2P Require Import Evolution Ledger Replay DecisionTrace Merchant Orchestrator OrchestratorProperties.

(** ** Sorting by sequence *)
Lemma verify_key_total a b : verify_key_leb a b = true ∨ verify_key_leb b a = true.
Proof.
  unfold verify_key_leb. rewrite (Z.eqb_sym (ev_sequence b)).
  destruct (Z.eqb_spec (ev_sequence a) (ev_sequence b)); [apply String.leb_total|].
  destruct (Z.ltb_spec (ev_sequence a) (ev_sequence b)); [by left|right]. apply Z.ltb_lt. lia.
Qed.
Lemma string_leb_trans s t v : String.leb s t = true → String.leb t v = true → String.leb s v = true.
Proof.
  revert t v. induction s as [|a s IH]; intros [|b t] [|c v]; try done.
  unfold String.leb. cbn [String.compare]. intros Hab Hbc. unfold Ascii.compare in *.
  destruct (N.compare_spec (Ascii.N_of_ascii a) (Ascii.N_of_ascii b)) as [E1|E1|E1]; try discriminate;
  destruct (N.compare_spec (Ascii.N_of_ascii b) (Ascii.N_of_ascii c)) as [E2|E2|E2]; try discriminate.
  - rewrite E1, E2, N.compare_refl. by apply (IH t v).
  - rewrite E1. by rewrite (proj2 (N.compare_lt_iff _ _) E2).
  - rewrite <-E2. by rewrite (proj2 (N.compare_lt_iff _ _) E1).
  - by rewrite (proj2 (N.compare_lt_iff _ _) (N.lt_trans _ _ _ E1 E2)).
Qed.
Lemma verify_key_trans a b c :
  verify_key_leb a b = true → verify_key_leb b c = true → verify_key_leb a c = true.
Proof.
  unfold verify_key_leb.
  destruct (Z.eqb_spec (ev_sequence a) (ev_sequence b)) as [E1|E1],
    (Z.eqb_spec (ev_sequence b) (ev_sequence c)) as [E2|E2], (Z.eqb_spec (ev_sequence a) (ev_sequence c)) as [E3|E3];
    rewrite ?Z.ltb_lt; try lia. apply string_leb_trans.
Qed.
Lemma verify_key_antisym a b :
  verify_key_leb a b = true → verify_key_leb b a = true → ev_sequence a = ev_sequence b.
Proof.
  unfold verify_key_leb. rewrite (Z.eqb_sym (ev_sequence b)).
  destruct (Z.eqb_spec (ev_sequence a) (ev_sequence b)) as [E1|E1]; [done|]. rewrite !Z.ltb_lt. lia.
Qed.

Abbreviation ordered := (py_sorted verify_key_leb).
Lemma ordered_filter f l : ordered (List.filter f l) = List.filter f (ordered l).
Proof. apply py_sorted_filter; [apply verify_key_total|apply verify_key_trans]. Qed.
Lemma ordered_unique l l' : NoDup (map ev_sequence l) → l ≡ₚ l' → ordered l = ordered l'.
Proof.
  intros Hn Hp. apply py_sorted_unique; [apply verify_key_total|apply verify_key_trans| |done].
  intros x y Hx Hy H1 H2. pose proof (verify_key_antisym _ _ H1 H2) as E.
  apply list_elem_of_lookup_1 in Hx as [i Hi]. apply list_elem_of_lookup_1 in Hy as [j Hj].
  assert (i = j) as ->; [|congruence].
  apply (NoDup_lookup (map ev_sequence l) i j (ev_sequence x)); [done|..]; rewrite list_lookup_fmap.
  - by rewrite Hi.
  - rewrite Hj. cbn. by rewrite E.
Qed.

(** ** One event *)
Lemma apply_event_Ok e s s' :
  apply_event e s = Ok s' ↔
  ∃ t s1, (enum_of (ev_event_type e) : option EventType) = Some t ∧ is_json_object (ev_payload e) = true ∧
    HANDLERS t e s = Ok s1 ∧ s' = set_rs_events_replayed (rs_events_replayed s1 + 1) s1.
Proof.
  unfold apply_event. destruct (enum_of _) as [t|]; [|split; [discriminate|by intros (? & ? & ? & _)]].
  destruct (is_json_object _); cbn [negb]; [|split; [discriminate|by intros (? & ? & _ & ? & _)]].
  rewrite outcome_bind_Ok. split.
  - intros (s1 & Hs & E). apply Ok_inj in E. by exists t, s1.
  - intros (t' & s1 & [= <-] & _ & Hs & ->). by exists s1.
Qed.

(** What a handler adds to each of the ordered records, and where it can move the mission. *)
Definition SECURITY_EVENT_TYPES : list EventType :=
  [EventType.SECURITY_VIOLATION; EventType.AUTHORIZATION_REPLAY_DETECTED; EventType.TRANSACTION_BINDING_FAILURE;
   EventType.IDEMPOTENCY_CONFLICT; EventType.WEBHOOK_REJECTED; EventType.DUPLICATE_WEBHOOK_IGNORED;
   EventType.WEBHOOK_OUT_OF_ORDER_IGNORED; EventType.MISSION_DENIED].

Definition mission_target (t : EventType) : option MissionState :=
  match t with
  | EventType.MISSION_CREATED => Some MissionState.CREATED
  | EventType.INTENT_PARSED => Some MissionState.INTENT_PARSED
  | EventType.DISCOVERY_STARTED => Some MissionState.DISCOVERING
  | EventType.OFFERS_RECEIVED => Some MissionState.OFFERS_RECEIVED
  | EventType.OFFERS_NORMALIZED => Some MissionState.OFFERS_NORMALIZED
  | EventType.OFFERS_RANKED => Some MissionState.RANKED
  | EventType.POLICY_DECISION => Some MissionState.POLICY_CHECKED
  | EventType.APPROVAL_REQUESTED => Some MissionState.AWAITING_APPROVAL
  | EventType.MISSION_DENIED => Some MissionState.CANCELLED
  | EventType.AUTHORIZATION_ACTIVATED => Some MissionState.AUTHORIZED
  | EventType.PAYMENT_QUEUED => Some MissionState.PAYMENT_PENDING
  | EventType.PAYMENT_SUCCEEDED => Some MissionState.PAYMENT_SUCCEEDED
  | EventType.PAYMENT_FAILED => Some MissionState.PAYMENT_FAILED
  | _ => None
  end.

(** What a security record keeps of its event, and of what. *)
Definition rse_content (r : ReplayedSecurityEvent) : Z * string * string * json_obj :=
  (rse_sequence r, rse_event_type r, rse_actor r, rse_detail r).
Definition security_content (e : AuditEventRow) : Z * string * string * json_obj :=
  (ev_sequence e, ev_event_type e, ev_actor e, security_detail e).

Definition is_attempt (t : EventType) : bool := bool_decide (t = EventType.PAYMENT_ATTEMPTED).
Record handler_effect (t : EventType) (e : AuditEventRow) (s s' : ReplayState) : Prop := {
  he_mission : rs_mission_id s' = rs_mission_id s;
  he_count : rs_events_replayed s' = rs_events_replayed s;
  he_attempts : rp_attempts (rs_payment s') = rp_attempts (rs_payment s) + Z.b2z (is_attempt t);
  he_security : ∃ l, rs_security_events s' = rs_security_events s ++ l ∧
    map rse_content l = (if bool_decide (t ∈ SECURITY_EVENT_TYPES) then [security_content e] else []);
  he_risk : t ≠ EventType.RISK_ASSESSED → rs_risk_assessments s' = rs_risk_assessments s;
  he_state : rs_mission_state s' = rs_mission_state s ∨
    ∃ x, mission_target t = Some x ∧
      (rs_mission_state s = None ∨ ∃ c, rs_mission_state s = Some c ∧ MissionFSM.can_transition c x = true) ∧
      rs_mission_state s' = Some x
}.

(** The steps the handlers share. *)
Definition same_record (s s' : ReplayState) : Prop :=
  rs_mission_id s' = rs_mission_id s ∧ rs_events_replayed s' = rs_events_replayed s ∧
  rs_security_events s' = rs_security_events s ∧ rs_risk_assessments s' = rs_risk_assessments s ∧
  rs_mission_state s' = rs_mission_state s ∧ rp_attempts (rs_payment s') = rp_attempts (rs_payment s).

Lemma common_fields_effect e s s' : common_payment_fields e s = Ok s' → same_record s s'.
Proof. intros E. unfold common_payment_fields in E. outcome_inv E. apply Ok_inj in E. by subst. Qed.
Lemma payment_state_effect e s s' : payment_state_from_payload e s = Ok s' → same_record s s'.
Proof.
  unfold payment_state_from_payload.
  intros E. repeat case_match; outcome_eq E; done.
Qed.
Lemma fields_and_state_effect e s s' : payment_fields_and_state e s = Ok s' → same_record s s'.
Proof.
  unfold payment_fields_and_state. intros E. outcome_inv E.
  apply common_fields_effect in Hr as (? & ? & ? & ? & ? & ?). apply payment_state_effect in E as (? & ? & ? & ? & ? & ?).
  unfold same_record. split_and!; congruence.
Qed.
Lemma record_security_effect e s s' : record_security e s = Ok s' →
  ∃ r, s' = set_rs_security_events (rs_security_events s ++ [r]) s ∧ rse_content r = security_content e.
Proof. intros E. unfold record_security in E. outcome_inv E. apply Ok_inj in E. subst. by eexists. Qed.

Lemma advance_frame e x s :
  rs_mission_id (advance e x s) = rs_mission_id s ∧ rs_events_replayed (advance e x s) = rs_events_replayed s ∧
  rs_security_events (advance e x s) = rs_security_events s ∧
  rs_risk_assessments (advance e x s) = rs_risk_assessments s ∧ rs_payment (advance e x s) = rs_payment s.
Proof. unfold advance. by repeat case_match. Qed.
Lemma advance_state e x s :
  rs_mission_state (advance e x s) = rs_mission_state s ∨
  (rs_mission_state s = None ∨ ∃ c, rs_mission_state s = Some c ∧ MissionFSM.can_transition c x = true) ∧
  rs_mission_state (advance e x s) = Some x.
Proof.
  unfold advance. destruct (rs_mission_state s) as [c|] eqn:Es; [|right; by split; [left|]].
  case_bool_decide; [by left|]. destruct (MissionFSM.can_transition c x) eqn:E; [|by left].
  right. split; [right; by exists c|done].
Qed.

(** A handler that reads and writes the payment or the authorization record only. *)
Lemma effect_same t e s s' :
  bool_decide (t ∈ SECURITY_EVENT_TYPES) = false → is_attempt t = false →
  same_record s s' → handler_effect t e s s'.
Proof.
  intros Ht Ha (H1 & H2 & H3 & H4 & H5 & H6). constructor; try done.
  - rewrite Ha. cbn. lia.
  - exists []. by rewrite app_nil_r, Ht.
  - by left.
Qed.
(** One that also moves the mission. *)
Lemma effect_advance t e x s s1 s' :
  mission_target t = Some x → bool_decide (t ∈ SECURITY_EVENT_TYPES) = false → is_attempt t = false →
  same_record s s1 → s' = advance e x s1 → handler_effect t e s s'.
Proof.
  intros Hx Ht Ha (H1 & H2 & H3 & H4 & H5 & H6) ->. destruct (advance_frame e x s1) as (A1 & A2 & A3 & A4 & A5).
  constructor; try congruence.
  - rewrite A5, Ha. cbn. lia.
  - exists []. by rewrite app_nil_r, Ht, A3.
  - rewrite <-H5. destruct (advance_state e x s1) as [E|(E1 & E2)]; [by left|right; by exists x].
Qed.
(** One that records a security event, and moves the mission or not. *)
Lemma effect_security t e s s1 s' :
  bool_decide (t ∈ SECURITY_EVENT_TYPES) = true → is_attempt t = false →
  same_record s s1 → record_security e s1 = Ok s' → handler_effect t e s s'.
Proof.
  intros Ht Ha (H1 & H2 & H3 & H4 & H5 & H6) (r & -> & Hr)%record_security_effect. constructor; cbn; try congruence.
  - rewrite Ha. cbn. lia.
  - exists [r]. by rewrite H3, Ht, <-Hr.
  - by left.
Qed.

#[export] Instance same_record_preorder : PreOrder same_record.
Proof.
  split; [done|]. unfold same_record. intros s1 s2 s3 (-> & -> & -> & -> & -> & ->) (-> & -> & -> & -> & -> & ->). done.
Qed.
(** Closes [same_record s s'] where [s'] is [s] after readers and setters. *)
Ltac same_record_tac :=
  first [ by split_and!
        | by destruct (rs_approval_required _); split_and!
        | match goal with
          | H : common_payment_fields _ ?s = Ok ?a |- same_record ?s _ =>
              transitivity a; [by apply common_fields_effect in H|by split_and!]
          | H : payment_fields_and_state _ ?s = Ok ?a |- same_record ?s _ =>
              transitivity a; [by apply fields_and_state_effect in H|by split_and!]
          end ].
Ltac handler_tac E :=
  try match type of E with
      | match payload_get _ _ with _ => _ end = _ => destruct (payload_get _ _); try discriminate E
      | Ok (if ?b then _ else _) = _ => destruct b
      end;
  first [ eapply effect_security; [reflexivity|reflexivity| |exact E]; same_record_tac
        | apply Ok_inj in E; subst;
          first [ eapply effect_advance; [reflexivity|reflexivity|reflexivity| |reflexivity]; same_record_tac
                | apply effect_same; [reflexivity|reflexivity|same_record_tac] ]
        | let a := fresh "a" in let H := fresh "Hr" in apply outcome_bind_Ok in E as (a & H & E); handler_tac E ].

Lemma on_payment_attempted_effect e s s' :
  on_payment_attempted e s = Ok s' → handler_effect EventType.PAYMENT_ATTEMPTED e s s'.
Proof.
  intros E. unfold on_payment_attempted in E. outcome_inv E. apply Ok_inj in E. subst.
  apply fields_and_state_effect in Hr as (H1 & H2 & H3 & H4 & H5 & H6). constructor; cbn; try congruence.
  - rewrite H6. done.
  - exists []. by rewrite app_nil_r.
  - by left.
Qed.
Lemma on_mission_denied_effect e s s' :
  on_mission_denied e s = Ok s' → handler_effect EventType.MISSION_DENIED e s s'.
Proof.
  intros E. unfold on_mission_denied in E. outcome_inv E. apply Ok_inj in E. subst.
  apply record_security_effect in Hr0 as (r & -> & Hs).
  match goal with |- handler_effect _ _ _ (advance e ?x ?s1) =>
    destruct (advance_frame e x s1) as (A1 & A2 & A3 & A4 & A5); pose proof (advance_state e x s1) as A6 end.
  constructor; try by rewrite ?A1, ?A2, ?A4.
  - rewrite A5. change (is_attempt _) with false. cbn. by rewrite Z.add_0_r.
  - exists [r]. rewrite A3. cbn. by rewrite <-Hs.
  - destruct A6 as [A6|[A6 A7]]; [by left|]. right. by exists MissionState.CANCELLED.
Qed.
Lemma on_risk_assessed_effect e s s' :
  on_risk_assessed e s = Ok s' → handler_effect EventType.RISK_ASSESSED e s s'.
Proof.
  intros E. unfold on_risk_assessed in E. outcome_inv E. apply Ok_inj in E. subst. constructor; try done.
  - change (is_attempt _) with false. cbn. by rewrite Z.add_0_r.
  - exists []. by rewrite app_nil_r.
  - by left.
Qed.

Lemma handler_effects t e s s' : HANDLERS t e s = Ok s' → handler_effect t e s s'.
Proof.
  destruct t; cbn [HANDLERS]; intros E;
    first [ by apply on_payment_attempted_effect | by apply on_mission_denied_effect
          | by apply on_risk_assessed_effect
          | match type of E with ?f _ _ = _ => unfold f in E end; handler_tac E ].
Qed.

(** ** A history *)
Definition event_type (e : AuditEventRow) : option EventType := enum_of (ev_event_type e).
Definition of_type (t : EventType) (e : AuditEventRow) : bool := bool_decide (event_type e = Some t).
Definition is_security (e : AuditEventRow) : bool :=
  match event_type e with Some t => bool_decide (t ∈ SECURITY_EVENT_TYPES) | None => false end.

Lemma apply_events_app l1 l2 s : apply_events (l1 ++ l2) s = (s1 ← apply_events l1 s; apply_events l2 s1).
Proof.
  revert s. induction l1 as [|e l1 IH]; intros s; [done|]. cbn [app apply_events].
  unfold mbind, outcome_bind. destruct (apply_event e s); [apply IH|done].
Qed.

Lemma apply_events_ind (R : list AuditEventRow → ReplayState → ReplayState → Prop) :
  (∀ s, R [] s s) →
  (∀ e t l s s1 s', event_type e = Some t → is_json_object (ev_payload e) = true →
     handler_effect t e s s1 → apply_events l (set_rs_events_replayed (rs_events_replayed s1 + 1) s1) = Ok s' →
     R l (set_rs_events_replayed (rs_events_replayed s1 + 1) s1) s' → R (e :: l) s s') →
  ∀ l s s', apply_events l s = Ok s' → R l s s'.
Proof.
  intros H0 HS l. induction l as [|e l IH]; intros s s' E; cbn [apply_events] in E.
  { apply Ok_inj in E as <-. apply H0. }
  apply outcome_bind_Ok in E as (s2 & (t & s1 & Ht & Hj & Hh & ->)%apply_event_Ok & E).
  by apply (HS e t l s s1 s' Ht Hj (handler_effects _ _ _ _ Hh) E), IH.
Qed.

Lemma apply_events_history l s s' : apply_events l s = Ok s' →
  rs_mission_id s' = rs_mission_id s ∧
  rs_events_replayed s' = rs_events_replayed s + Z.of_nat (length l) ∧
  rp_attempts (rs_payment s') =
    rp_attempts (rs_payment s) + Z.of_nat (length (List.filter (of_type EventType.PAYMENT_ATTEMPTED) l)) ∧
  (∃ rs, rs_security_events s' = rs_security_events s ++ rs ∧
     map rse_content rs = map security_content (List.filter is_security l)) ∧
  Forall (λ e, is_some (event_type e) = true ∧ is_json_object (ev_payload e) = true) l.
Proof.
  revert l s s'. apply apply_events_ind.
  - intros s. cbn. split_and!; try done; try lia. exists []. by rewrite app_nil_r.
  - intros e t l s s1 s' Ht Hj [H1 H2 H3 (r1 & H4 & H4') H5 H6] _ (I1 & I2 & I3 & (r2 & I4 & I4') & I5).
    cbn [rs_mission_id rs_events_replayed rs_payment rs_security_events set_rs_events_replayed length] in *.
    split_and!; [congruence|lia| |  |constructor; [by rewrite Ht|done]].
    + rewrite I3, H3. cbn [List.filter].
      assert (of_type EventType.PAYMENT_ATTEMPTED e = is_attempt t) as ->.
      { unfold of_type, is_attempt. rewrite Ht. apply bool_decide_ext. naive_solver. }
      destruct (is_attempt t); cbn [length Z.b2z]; lia.
    + exists (r1 ++ r2). rewrite I4, H4, app_assoc. split; [done|]. rewrite map_app, H4', I4'.
      cbn [List.filter]. assert (is_security e = bool_decide (t ∈ SECURITY_EVENT_TYPES)) as ->
        by (unfold is_security; by rewrite Ht). by destruct (bool_decide _).
Qed.

(** The mission moves along its table only. *)
Lemma apply_events_run l s s' c : apply_events l s = Ok s' → rs_mission_state s = Some c →
  ∃ c', rs_mission_state s' = Some c' ∧ MissionFSM.run c c' ∧
    (forallb (λ e, negb (of_type EventType.AUTHORIZATION_ACTIVATED e)) l = true →
     MissionFSM.run_avoiding MissionState.AUTHORIZED c c').
Proof.
  intros E. revert l s s' E c. apply (apply_events_ind (λ l s s', ∀ c, rs_mission_state s = Some c → _)).
  - intros s c Hc. exists c. split; [done|]. split; [constructor|intros _; constructor].
  - intros e t l s s1 s' Ht Hj He _ IH c Hc. destruct (he_state _ _ _ _ He) as [E|(x & Hx & Hs & E)].
    + destruct (IH c) as (c' & H1 & H2 & H3); [cbn; congruence|]. exists c'. split; [done|]. split; [done|].
      intros [_ Hl]%andb_true_iff. by apply H3.
    + destruct Hs as [Hs|(c0 & Hs & Hstep)]; [congruence|]. assert (c0 = c) as -> by congruence.
      destruct (IH x E) as (c' & H1 & H2 & H3). exists c'. split; [done|]. split; [by eapply rtc_l|].
      intros [Hne Hl]%andb_true_iff. eapply rtc_l; [|by apply H3]. split; [done|].
      intros ->. unfold of_type in Hne. rewrite Ht in Hne. destruct t; cbn in Hx; try discriminate Hx. done.
Qed.

(** ** Advice

    [forget] drops what a RISK_ASSESSED event may change.  Every other handler reads
    and writes the rest only, so it commutes with it. *)
Definition forget (s : ReplayState) : ReplayState :=
  set_rs_risk_assessments [] (set_rs_events_replayed 0 s).
Definition forgets (h : ReplayState → outcome exn ReplayState) : Prop :=
  ∀ s, h (forget s) = (s1 ← h s; Ok (forget s1)).

Lemma advance_forget e x s : advance e x (forget s) = forget (advance e x s).
Proof. unfold advance, forget. cbn. by repeat case_match. Qed.
Lemma common_fields_forget e : forgets (common_payment_fields e).
Proof.
  intros s. unfold common_payment_fields.
  repeat match goal with
         | |- context [opt_str e ?k] => destruct (opt_str e k) as [?|?]; cbn [mbind outcome_bind]; [|try reflexivity]
         | |- context [opt_int e ?k] => destruct (opt_int e k) as [?|?]; cbn [mbind outcome_bind]; [|try reflexivity]
         | |- context [payload_find e ?k] => destruct (payload_find e k); cbn [mbind outcome_bind]
         end; reflexivity.
Qed.
Lemma payment_state_forget e : forgets (payment_state_from_payload e).
Proof.
  intros s. unfold payment_state_from_payload. destruct (payload_get e "state") as [| | | |raw| |]; try done.
  by destruct (enum_of raw).
Qed.
Lemma record_security_forget e : forgets (record_security e).
Proof. intros s. unfold record_security. by destruct (opt_str e "reason_code"). Qed.
Lemma fields_and_state_forget e : forgets (payment_fields_and_state e).
Proof.
  intros s. unfold payment_fields_and_state. rewrite common_fields_forget.
  destruct (common_payment_fields e s); cbn [mbind outcome_bind]; [apply payment_state_forget|done].
Qed.

(** Every reader in turn. *)
Ltac forget_step e :=
  match goal with
  | |- context [opt_str e ?k] => destruct (opt_str e k) as [?|?]
  | |- context [opt_int e ?k] => destruct (opt_int e k) as [?|?]
  | |- context [opt_str_list e ?k] => destruct (opt_str_list e k) as [?|?]
  | |- context [opt_approval_scheme e] => destruct (opt_approval_scheme e) as [?|?]
  | |- context [payload_get e ?k] => destruct (payload_get e k)
  | |- context [common_payment_fields e (forget ?s)] => rewrite (common_fields_forget e s); destruct (common_payment_fields e s)
  | |- context [payment_fields_and_state e (forget ?s)] =>
      rewrite (fields_and_state_forget e s); destruct (payment_fields_and_state e s)
  | |- context [match enum_of ?d with _ => _ end] => destruct (enum_of d)
  | |- context [match ?o with Some _ => _ | None => Ok _ end] => destruct o
  end; cbn [mbind outcome_bind].
Lemma on_mission_denied_forget e : forgets (on_mission_denied e).
Proof.
  intros s. unfold on_mission_denied. forget_step e; [|done].
  match goal with |- (record_security e ?x ≫= _) = (record_security e ?y ≫= _) ≫= _ =>
    change x with (forget y); rewrite (record_security_forget e y); destruct (record_security e y) end; [|done].
  cbn [mbind outcome_bind]. by rewrite <-advance_forget.
Qed.
Lemma on_authorization_activated_forget e : forgets (on_authorization_activated e).
Proof.
  intros s. unfold on_authorization_activated. repeat forget_step e; try reflexivity.
  rewrite <-advance_forget. cbn [rs_approval_required on_authorization set_rs_authorization].
  change (rs_approval_required (forget s)) with (rs_approval_required s). by destruct (rs_approval_required s).
Qed.
Lemma on_payment_failed_forget e : forgets (on_payment_failed e).
Proof.
  intros s. unfold on_payment_failed. forget_step e; [|done].
  change (rs_payment (forget a)) with (rs_payment a). case_bool_decide; [by rewrite <-advance_forget|done].
Qed.
Lemma handlers_forget t e : t ≠ EventType.RISK_ASSESSED → forgets (HANDLERS t e).
Proof.
  intros Ht s. destruct t; try done; cbn [HANDLERS];
    try solve [ apply on_mission_denied_forget | apply on_authorization_activated_forget
              | apply on_payment_failed_forget ];
    match goal with |- ?f _ _ = _ => unfold f end; repeat forget_step e; cbn [mbind outcome_bind];
    first [ reflexivity | by rewrite <-advance_forget
          | match goal with |- record_security e ?x = (record_security e ?y ≫= _) =>
              change x with (forget y); apply record_security_forget end ].
Qed.

Definition is_advice (e : AuditEventRow) : bool := of_type EventType.RISK_ASSESSED e.
Lemma apply_event_agree e s1 s2 s1' :
  is_advice e = false → forget s1 = forget s2 → apply_event e s1 = Ok s1' →
  ∃ s2', apply_event e s2 = Ok s2' ∧ forget s1' = forget s2'.
Proof.
  intros Ha Hs (t & x1 & Ht & Hj & Hh & ->)%apply_event_Ok.
  assert (Hne : t ≠ EventType.RISK_ASSESSED).
  { intros ->. unfold is_advice, of_type, event_type in Ha. by rewrite Ht in Ha. }
  pose proof (handlers_forget t e Hne s1) as H1. rewrite Hh, Hs, (handlers_forget t e Hne s2) in H1.
  apply outcome_bind_Ok in H1 as (x2 & Hx2 & E). apply Ok_inj in E.
  eexists. split; [apply apply_event_Ok; by exists t, x2|]. exact (eq_sym E).
Qed.
Lemma apply_advice e s s' : is_advice e = true → apply_event e s = Ok s' → forget s' = forget s.
Proof.
  intros Ha (t & s1 & Ht & Hj & Hh & ->)%apply_event_Ok. unfold is_advice, of_type, event_type in Ha.
  rewrite Ht in Ha. apply bool_decide_eq_true in Ha as [= ->]. cbn [HANDLERS] in Hh. unfold on_risk_assessed in Hh.
  apply outcome_bind_Ok in Hh as (f & _ & E). apply Ok_inj in E as <-. done.
Qed.
Lemma apply_events_agree l s1 s2 s1' :
  forget s1 = forget s2 → apply_events l s1 = Ok s1' →
  ∃ s2', apply_events (List.filter (λ e, negb (is_advice e)) l) s2 = Ok s2' ∧ forget s1' = forget s2'.
Proof.
  revert s1 s2. induction l as [|e l IH]; intros s1 s2 Hs E; cbn [apply_events List.filter] in *.
  { apply Ok_inj in E as <-. by exists s2. }
  apply outcome_bind_Ok in E as (s3 & E1 & E). destruct (is_advice e) eqn:Ha; cbn [negb apply_events].
  - apply (IH s3); [|done]. by rewrite (apply_advice e s1 s3).
  - destruct (apply_event_agree e s1 s2 s3 Ha Hs E1) as (s4 & -> & H4). cbn [mbind outcome_bind]. by apply (IH s3).
Qed.

(** ** What the reducer may raise *)
Definition replay_error (x : exn) : Prop :=
  match x with
  | ReplayRefused code _ _ _ =>
      code = ReplayReasonCode.REPLAY_MALFORMED_EVENT ∨ code = ReplayReasonCode.REPLAY_UNSUPPORTED_EVENT_TYPE
  | OverflowError _ => True
  | _ => False
  end.
Definition raises_only {A} (o : outcome exn A) : Prop := ∀ x, o = Raise x → replay_error x.

Create HintDb raises discriminated.
Lemma raises_Ok {A} (a : A) : raises_only (Ok a).
Proof. by intros x. Qed.
Lemma raises_refuse {A} e d : raises_only (Raise (refuse e d) : outcome exn A).
Proof. intros x [= <-]. by left. Qed.
Lemma raises_bind {A B} (o : outcome exn A) (k : A → outcome exn B) :
  raises_only o → (∀ a, raises_only (k a)) → raises_only (o ≫= k).
Proof. intros Ho Hk x. destruct o as [a|y]; cbn; [apply Hk|intros [= <-]; by apply Ho]. Qed.
#[local] Hint Resolve raises_Ok raises_refuse : raises.
Ltac raises :=
  repeat first
    [ solve [eauto with raises]
    | match goal with
      | |- raises_only (_ ≫= _) => apply raises_bind; [|intros ?]
      | |- raises_only (match ?x with _ => _ end) => destruct x
      end ].
Lemma raises_opt_str e k : raises_only (opt_str e k).
Proof. unfold opt_str. raises. Qed.
Lemma raises_opt_int e k : raises_only (opt_int e k).
Proof. unfold opt_int. raises. Qed.
Lemma raises_opt_str_list e k : raises_only (opt_str_list e k).
Proof. unfold opt_str_list. cbv zeta. raises. Qed.
#[local] Hint Resolve raises_opt_str raises_opt_int raises_opt_str_list : raises.
Lemma raises_scheme e : raises_only (opt_approval_scheme e).
Proof. unfold opt_approval_scheme. raises. Qed.
Lemma raises_common e s : raises_only (common_payment_fields e s).
Proof. unfold common_payment_fields. cbv zeta. raises. Qed.
Lemma raises_state e s : raises_only (payment_state_from_payload e s).
Proof. unfold payment_state_from_payload. raises. Qed.
Lemma raises_security e s : raises_only (record_security e s).
Proof. unfold record_security. raises. Qed.
Lemma raises_score j : raises_only (advisory_score j).
Proof.
  assert (Hf : ∀ z, raises_only (float_of_int z)).
  { intros z. unfold float_of_int. destruct (fl_of_Z z); try apply raises_Ok. by intros x [= <-]. }
  unfold advisory_score. raises.
Qed.
#[local] Hint Resolve raises_scheme raises_common raises_state raises_security raises_score : raises.
Lemma raises_handlers t e s : raises_only (HANDLERS t e s).
Proof.
  destruct t; cbn [HANDLERS]; match goal with |- raises_only (?f _ _) => unfold f end;
    unfold payment_fields_and_state; cbv zeta; raises.
Qed.
Lemma raises_apply_events l s : raises_only (apply_events l s).
Proof.
  revert s. induction l as [|e l IH]; intros s; cbn [apply_events]; [apply raises_Ok|].
  apply raises_bind; [|exact IH]. unfold apply_event. destruct (enum_of _) as [t|].
  - pose proof (raises_handlers t e s). raises.
  - intros x [= <-]. by right.
Qed.

Lemma raises_apply_events_reduce m l x : reduce_events m l = Raise x → replay_error x.
Proof.
  unfold reduce_events. pose proof (raises_apply_events (py_sorted verify_key_leb l) (new_ReplayState m)) as Hr.
  destruct (apply_events _ _); [discriminate|]. intros [= <-]. by apply Hr.
Qed.

(** ** The trace *)
Lemma trace_entry_Ok e : is_some (event_type e) = true → is_json_object (ev_payload e) = true →
  0 <= ev_sequence e → is_some (ev_created_at e) = true → is_ok (trace_entry e) = true.
Proof.
  unfold trace_entry, event_type. intros Ht -> Hs Hc. destruct (enum_of _); [|done]. cbn [negb]. cbv zeta.
  unfold DecisionTraceEvidenceRef_new. rewrite (proj2 (Z.ltb_ge _ _) Hs). cbn [mbind outcome_bind].
  by destruct (ev_created_at e).
Qed.
Lemma trace_entries_Ok l : Forall (λ e, is_ok (trace_entry e) = true) l → is_ok (trace_entries l) = true.
Proof.
  induction 1 as [|e l He Hl IH]; [done|]. cbn [trace_entries].
  destruct (trace_entry e); [|done]. cbn [mbind outcome_bind]. by destruct (trace_entries l).
Qed.

(** What an entry says of its event. *)
Record traced (e : AuditEventRow) (t : DecisionTraceEntry) : Prop := {
  td_evidence : te_evidence t = mkDecisionTraceEvidenceRef (ev_event_id e) (ev_sequence e) (ev_actor e);
  td_type : enum_value (te_event_type t) = ev_event_type e;
  td_advisory : te_advisory t = is_advice e;
  td_advice : is_advice e = true →
    te_verdict t = DecisionTraceVerdict.ADVISORY ∧ te_next_action t = DecisionTraceNextAction.NONE;
  td_security : is_security e = true →
    te_verdict t = DecisionTraceVerdict.REFUSED ∨ te_verdict t = DecisionTraceVerdict.IGNORED;
  td_verdict : te_verdict t = DecisionTraceVerdict.ADVISORY → is_advice e = true
}.
Lemma trace_entry_traced e t : trace_entry e = Ok t → traced e t.
Proof.
  unfold trace_entry. destruct (enum_of _) as [ty|] eqn:Ht; [|discriminate].
  destruct (negb _); [discriminate|]. cbv zeta. intros (r & Hr & E)%outcome_bind_Ok.
  unfold DecisionTraceEvidenceRef_new in Hr. destruct (ev_sequence e <? 0); [discriminate|]. apply Ok_inj in Hr as <-.
  destruct (ev_created_at e); [|discriminate]. apply Ok_inj in E as <-.
  assert (Ha : is_advice e = bool_decide (ty = EventType.RISK_ASSESSED)).
  { unfold is_advice, of_type, event_type. rewrite Ht. apply bool_decide_ext. naive_solver. }
  constructor; cbn [te_evidence te_event_type te_advisory te_verdict te_next_action]; rewrite ?Ha; try done.
  - by apply enum_of_Some.
  - intros ->%bool_decide_eq_true. done.
  - unfold is_security, event_type. rewrite Ht. by destruct ty; vm_compute; auto.
  - destruct ty; try done; unfold trace_verdict; cbn; by repeat case_match.
Qed.
Lemma trace_entries_traced l tr : trace_entries l = Ok tr → Forall2 traced l tr.
Proof.
  revert tr. induction l as [|e l IH]; intros tr E; cbn [trace_entries] in E.
  { apply Ok_inj in E as <-. constructor. }
  apply outcome_bind_Ok in E as (t & Ht & (tr' & Htr & E)%outcome_bind_Ok). apply Ok_inj in E as <-.
  constructor; [by apply trace_entry_traced|by apply IH].
Qed.

(** ** Replaying a mission *)
Definition history (m : uuid) (d : DB) : list AuditEventRow := py_sorted event_seq_leb (mission_events m d).

Lemma length_history m d : length (history m d) = length (mission_events m d).
Proof. apply Permutation_length, py_sorted_Permutation. Qed.
Lemma length_ordered l : length (ordered l) = length l.
Proof. apply Permutation_length, py_sorted_Permutation. Qed.

Lemma reduce_Ok m l p : reduce_events m l = Ok p ↔
  ∃ s, apply_events (ordered l) (new_ReplayState m) = Ok s ∧ p = project s.
Proof.
  unfold reduce_events. rewrite outcome_bind_Ok. split; intros (s & Hs & E); exists s; split; try done.
  - by apply Ok_inj in E.
  - by rewrite E.
Qed.
Lemma reduce_trace m l p i h : reduce_events m l = Ok p → chain i h (ordered l) → 0 <= i →
  ∃ tr, decision_trace_from_events l = Ok tr.
Proof.
  intros (s & Hs & _)%reduce_Ok Hc Hi. apply apply_events_history in Hs as (_ & _ & _ & _ & Hf).
  assert (Ht : is_ok (decision_trace_from_events l) = true).
  { apply trace_entries_Ok. revert Hc Hi Hf. generalize (ordered l). clear. intros l. revert i h.
    induction l as [|e l IH]; intros i h Hc Hi Hf; [constructor|]. inversion Hc; subst.
    apply Forall_cons in Hf as [[Ht Hj] Hf]. constructor; [|eapply IH; [eassumption|lia|done]].
    apply trace_entry_Ok; try done. by apply ws_created. }
  destruct (decision_trace_from_events l) as [tr|]; [by exists tr|done].
Qed.

Section Gate.
Context (latest : list PaymentIntentRow → option PaymentIntentRow).

(** The three ways a replay ends. *)
Lemma replay_mission_run m compare w : ∃ v,
  verify_events m (history m (w_db w)) = Ok v ∧
  replay_mission latest m compare w =
    (if negb (vr_valid v) then
       (Ok (mkMissionReplayResult m false false ReplayReasonCode.REPLAY_AUDIT_INVALID 0 v None None [] []
          (Some "the audit chain did not verify; replaying it would present a reconstruction built on evidence already known to be altered")), w)
     else match reduce_events m (history m (w_db w)) with
          | Raise x => on_refusal m v x w
          | Ok p =>
              match decision_trace_from_events (history m (w_db w)) with
              | Raise x => (Raise x, w)
              | Ok tr =>
                  (Ok (mkMissionReplayResult m true true ReplayReasonCode.REPLAY_OK (mp_events_replayed p) v (Some p)
                    (if compare then match fst (compare_with_persisted latest p w) with Ok c => Some c | _ => None end
                     else None) tr [] None), w)
              end
          end).
Proof.
  destruct (verify_events_total m (history m (w_db w))) as [v Hv]. exists v. split; [done|].
  assert (Hl : ∀ w, list_events m w = (Ok (history m (w_db w)), w)) by done.
  unfold replay_mission, verify_mission_chain, mbind, M_bind. rewrite !Hl. unfold lift. rewrite Hv.
  destruct (vr_valid v); cbn [negb]; [|done]. rewrite Hl.
  destruct (reduce_events m (history m (w_db w))) as [p|x]; [|done].
  destruct compare; cbn; by destruct (decision_trace_from_events _).
Qed.
End Gate.

(** ** Properties *)

(** C29: A replay reads, and trusts verified history only.  [replay_mission] leaves the
    database, the log of provider calls and the clock as they were, whatever happens;
    it reports the audit as valid exactly when the mission's events form an intact hash
    chain; a trusted result has verified, reduced every event of the mission, and
    carries the projection and a trace; an untrusted one carries neither projection,
    comparison nor trace. *)
Theorem replay_trusts_verified_history (latest : list PaymentIntentRow → option PaymentIntentRow) (m : uuid)
    (compare : bool) (w w' : World) (o : outcome exn MissionReplayResult) :
  replay_mission latest m compare w = (o, w') →
  w' = w ∧ ∀ r, o = Ok r →
    (mr_audit_valid r = true ↔ chain 0 GENESIS_HASH (ordered (history m (w_db w)))) ∧
    if mr_trusted r
    then mr_audit_valid r = true ∧ mr_events_replayed r = Z.of_nat (length (mission_events m (w_db w))) ∧
         (∃ p, mr_state r = Some p ∧ reduce_events m (history m (w_db w)) = Ok p) ∧
         decision_trace_from_events (history m (w_db w)) = Ok (mr_decision_trace r)
    else mr_state r = None ∧ mr_comparison r = None ∧ mr_decision_trace r = [] ∧
         mr_reason_code r ≠ ReplayReasonCode.REPLAY_OK.
Proof.
  intros E. destruct (replay_mission_run latest m compare w) as (v & Hv & Hr). rewrite Hr in E. clear Hr.
  pose proof (verify_events_valid m _ v Hv) as Hc.
  destruct (vr_valid v); cbn [negb] in E.
  2:{ injection E as <- <-. split; [done|]. intros r [= <-]. cbn. by rewrite <-Hc. }
  destruct (reduce_events m (history m (w_db w))) as [p|x] eqn:Ep.
  - destruct (decision_trace_from_events (history m (w_db w))) as [tr|x]; injection E as <- <-; [|by split].
    split; [done|]. intros r [= <-]. cbn. split; [by rewrite <-Hc|]. split_and!; try done; [|by exists p].
    apply reduce_Ok in Ep as (s & Hs & ->). apply apply_events_history in Hs as (_ & Hn & _). cbn in *.
    by rewrite Hn, length_ordered, length_history.
  - apply (raises_apply_events_reduce m) in Ep. destruct x; try done; cbn in E; injection E as <- <-; [|done].
    split; [done|]. intros r [= <-]. cbn. split; [by rewrite <-Hc|]. split_and!; try done.
    by destruct Ep as [-> | ->].
Qed.

(** The order rows arrive in does not matter.  On events with distinct sequence
    numbers, reducing or tracing any permutation of them gives the same result. *)
Theorem replay_ignores_row_order (m : uuid) (l l' : list AuditEventRow) :
  NoDup (map ev_sequence l) → l ≡ₚ l' →
  reduce_events m l = reduce_events m l' ∧ decision_trace_from_events l = decision_trace_from_events l'.
Proof.
  intros Hn Hp. unfold reduce_events, decision_trace_from_events. by rewrite (ordered_unique l l' Hn Hp).
Qed.

(** Advice is inert.  If a history with RISK_ASSESSED events in it reduces, then so
    does the history without them, and to the same projection: only the number of
    events replayed and the list of assessments differ. *)
Theorem advice_is_inert (m : uuid) (l : list AuditEventRow) (p : MissionProjection) :
  reduce_events m l = Ok p →
  ∃ s s', project s = p ∧
    reduce_events m (List.filter (λ e, negb (is_advice e)) l) = Ok (project s') ∧ forget s = forget s' ∧
    mp_mission_state (project s') = mp_mission_state p ∧ mp_authorization (project s') = mp_authorization p ∧
    mp_payment (project s') = mp_payment p ∧ mp_security_events (project s') = mp_security_events p ∧
    rs_risk_assessments s' = [].
Proof.
  intros (s & Hs & ->)%reduce_Ok.
  destruct (apply_events_agree _ (new_ReplayState m) (new_ReplayState m) s eq_refl Hs) as (s' & Hs' & Hf).
  rewrite <-ordered_filter in Hs'. exists s, s'. split; [done|].
  split; [apply reduce_Ok; by exists s'|]. split; [done|]. unfold forget in Hf.
  pose proof (f_equal rs_mission_state Hf) as H1. pose proof (f_equal rs_authorization Hf) as H2.
  pose proof (f_equal rs_payment Hf) as H3. pose proof (f_equal rs_security_events Hf) as H4. cbn in *.
  rewrite H1, H2, H3, H4. split_and!; try done.
  assert (Hr : ∀ l s s', apply_events l s = Ok s' → forallb (λ e, negb (is_advice e)) l = true →
    rs_risk_assessments s' = rs_risk_assessments s).
  { clear. apply (apply_events_ind (λ l s s', forallb (λ e, negb (is_advice e)) l = true →
      rs_risk_assessments s' = rs_risk_assessments s)); [done|].
    intros e t l s s1 s' Ht _ He _ IH [Ha Hl]%andb_true_iff. rewrite (IH Hl). cbn. apply (he_risk _ _ _ _ He).
    intros ->. unfold is_advice, of_type in Ha. by rewrite Ht in Ha. }
  rewrite (Hr _ _ _ Hs'); [done|]. apply forallb_forall. intros e He. rewrite ordered_filter in He.
  by apply filter_In in He as [_ He].
Qed.

(** Nothing security-relevant is lost.  If a history reduces, every event of it was
    of a known type and carried an object; the projection counts all of them, counts
    every provider attempt, and its security history is exactly the security events,
    in order, with their sequence, type, actor and allow-listed details. *)
Theorem security_history_is_complete (m : uuid) (l : list AuditEventRow) (p : MissionProjection) :
  reduce_events m l = Ok p →
  mp_mission_id p = m ∧ mp_events_replayed p = Z.of_nat (length l) ∧
  rp_attempts (mp_payment p) = Z.of_nat (length (List.filter (of_type EventType.PAYMENT_ATTEMPTED) l)) ∧
  map rse_content (mp_security_events p) = map security_content (List.filter is_security (ordered l)) ∧
  Forall (λ e, is_some (event_type e) = true ∧ is_json_object (ev_payload e) = true) l.
Proof.
  intros (s & Hs & ->)%reduce_Ok. apply apply_events_history in Hs as (H1 & H2 & H3 & (rs & H4 & H4') & H5).
  cbn in H1, H2, H3, H4.
  cbn [project mp_mission_id mp_events_replayed mp_payment mp_security_events].
  split_and!; try done.
  - by rewrite H2, length_ordered.
  - rewrite H3, Z.add_0_l. f_equal. rewrite <-ordered_filter. apply length_ordered.
  - by rewrite H4.
  - rewrite Forall_forall in *. intros e He. apply H5. by rewrite (py_sorted_Permutation verify_key_leb l).
Qed.


(** The decision trace accounts for every event.  A trace has one entry per event,
    in sequence order, that refers to it by id, sequence and actor; an entry is
    advisory exactly for RISK_ASSESSED, which never proposes an action; and a
    security event is shown as refused or ignored, never as accepted. *)
Theorem trace_accounts_for_every_event (l : list AuditEventRow) (tr : list DecisionTraceEntry) :
  decision_trace_from_events l = Ok tr → Forall2 traced (ordered l) tr.
Proof. apply trace_entries_traced. Qed.

(** A verified history is replayed or refused.  On an intact chain [replay_mission]
    returns, trusted or with a refusal that names the event, unless a number in an
    advisory payload does not fit a float; it raises nothing else. *)
Theorem replay_answers (latest : list PaymentIntentRow → option PaymentIntentRow) (m : uuid) (compare : bool)
    (w : World) :
  chain 0 GENESIS_HASH (ordered (history m (w_db w))) →
  (∃ r, fst (replay_mission latest m compare w) = Ok r ∧ mr_audit_valid r = true ∧
        (mr_trusted r = false → length (mr_unsupported_events r) = 1%nat)) ∨
  ∃ msg, fst (replay_mission latest m compare w) = Raise (OverflowError msg).
Proof.
  intros Hc. destruct (replay_mission_run latest m compare w) as (v & Hv & ->).
  pose proof (verify_events_valid m _ v Hv) as Hiff. rewrite (proj2 Hiff Hc). cbn [negb].
  destruct (reduce_events m (history m (w_db w))) as [p|x] eqn:Ep.
  - destruct (reduce_trace _ _ _ _ _ Ep Hc (Z.le_refl 0)) as [tr ->]. left. by eexists.
  - apply raises_apply_events_reduce in Ep. destruct x; try done; [left; by eexists|right; by eexists].
Qed.

(** ** At a mission run *)
#[local] Existing Instance demo_env.

Definition demo_history : list AuditEventRow := history 1%N (w_db demo_run).
Definition demo_replay : outcome exn MissionReplayResult * World := replay_mission last 1%N true demo_run.
(** The projection of the run, and of a history with advice in it. *)
Definition reduced (l : list AuditEventRow) : bool := is_ok (reduce_events 1%N l).
Lemma demo_reduced : reduced demo_history = true.
Proof. vm_compute. reflexivity. Qed.
Lemma reduced_Ok l : reduced l = true → ∃ p, reduce_events 1%N l = Ok p.
Proof. unfold reduced. destruct (reduce_events 1%N l) as [p|e]; [by exists p|done]. Qed.

Lemma replay_trusts_verified_history_witness :
  snd demo_replay = demo_run ∧
  ∀ r, fst demo_replay = Ok r → mr_audit_valid r = true ↔ chain 0 GENESIS_HASH (ordered demo_history).
Proof.
  pose proof (replay_trusts_verified_history last 1%N true demo_run (snd demo_replay) (fst demo_replay)
    (surjective_pairing demo_replay)) as Ht.
  split; [exact (proj1 Ht)|]. intros r Hr. exact (proj1 (proj2 Ht r Hr)).
Defined.

Lemma replay_ignores_row_order_witness :
  reduce_events 1%N (rev demo_history) = reduce_events 1%N demo_history.
Proof.
  assert (Hd : bool_decide (NoDup (map ev_sequence (rev demo_history))) = true) by (vm_compute; reflexivity).
  exact (proj1 (replay_ignores_row_order 1%N (rev demo_history) demo_history (bool_decide_eq_true_1 _ Hd)
    (Permutation_sym (Permutation_rev demo_history)))).
Defined.

(** The run's history with one assessment after it. *)
Definition advised_history : list AuditEventRow :=
  demo_history ++ [mkAuditEventRow 99%N 1%N 99 "RISK_ASSESSED" "risk-engine" (JObj [("score", JFloat (fl_of_Z 12))])
                     GENESIS_HASH GENESIS_HASH None].
Lemma advice_is_inert_witness :
  ∃ p s', reduce_events 1%N advised_history = Ok p ∧
    reduce_events 1%N (List.filter (λ e, negb (is_advice e)) advised_history) = Ok (project s') ∧
    mp_mission_state (project s') = mp_mission_state p.
Proof.
  destruct (reduced_Ok advised_history) as [p Hp]; [vm_compute; reflexivity|].
  destruct (advice_is_inert 1%N advised_history p Hp) as (s & s' & _ & Hr & _ & Hm & _).
  exists p, s'. exact (conj Hp (conj Hr Hm)).
Defined.

Lemma security_history_is_complete_witness : ∃ p, reduce_events 1%N demo_history = Ok p ∧
  mp_events_replayed p = Z.of_nat (length demo_history).
Proof.
  destruct (reduced_Ok demo_history demo_reduced) as [p Hp]. exists p. split; [exact Hp|].
  exact (proj1 (proj2 (security_history_is_complete 1%N demo_history p Hp))).
Defined.


Lemma replay_answers_witness :
  chain 0 GENESIS_HASH (ordered demo_history) ∧
  ((∃ r, fst demo_replay = Ok r ∧ mr_audit_valid r = true ∧
        (mr_trusted r = false → length (mr_unsupported_events r) = 1%nat)) ∨
   ∃ msg, fst demo_replay = Raise (OverflowError msg)).
Proof.
  assert (Hv : match verify_events 1%N demo_history with Ok v => vr_valid v | Raise _ => false end = true)
    by (vm_compute; reflexivity).
  destruct (verify_events 1%N demo_history) as [v|x] eqn:E; [|discriminate Hv].
  pose proof (proj1 (verify_events_valid 1%N demo_history v E) Hv) as Hc.
  split; [exact Hc|exact (replay_answers last 1%N true demo_run Hc)].
Defined.

