(* ===== verification/RiskModels.v ===== *)
(** * The vocabulary and the configuration of the risk engine

    services/risk_engine/models.py and config.py: typed features that carry their
    provenance, the factors of a score, the assessment, the server-owned weights and
    ramp bounds, and the mapping from a score to a band and a recommendation.  Text that
    holds a dash is a list of code points. *)
From S2P Require Import Prelude Python PyText PyFloat PyNumbers Json Enums Errors Transaction Merchant.

Definition u_length_within (lo hi : nat) (t : ustr) : bool := (lo <=? length t)%nat && (length t <=? hi)%nat.

(** ** models.py: vocabulary *)
(** Coarse buckets over the normalized index. *)
Module RiskBand.
Inductive RiskBand : Set :=
  | LOW | MEDIUM | HIGH | CRITICAL.
#[global] Instance eq_dec : EqDecision RiskBand.
Proof. solve_decision. Defined.
Definition value (x : RiskBand) : string :=
  match x with
  | LOW => "LOW"
  | MEDIUM => "MEDIUM"
  | HIGH => "HIGH"
  | CRITICAL => "CRITICAL"
  end.
Definition members : list RiskBand :=
  [LOW; MEDIUM; HIGH; CRITICAL].
End RiskBand.
Abbreviation RiskBand := RiskBand.RiskBand.
#[global] Instance RiskBand_enum : StrEnum RiskBand.
Proof. refine {| enum_value := RiskBand.value; enum_members := RiskBand.members |}; solve_enum. Defined.

(** What the advisory layer suggests. *)
Module RiskRecommendation.
Inductive RiskRecommendation : Set :=
  | PROCEED | REVIEW | REQUIRE_STRONGER_APPROVAL | ESCALATE.
#[global] Instance eq_dec : EqDecision RiskRecommendation.
Proof. solve_decision. Defined.
Definition value (x : RiskRecommendation) : string :=
  match x with
  | PROCEED => "PROCEED"
  | REVIEW => "REVIEW"
  | REQUIRE_STRONGER_APPROVAL => "REQUIRE_STRONGER_APPROVAL"
  | ESCALATE => "ESCALATE"
  end.
Definition members : list RiskRecommendation :=
  [PROCEED; REVIEW; REQUIRE_STRONGER_APPROVAL; ESCALATE].
End RiskRecommendation.
Abbreviation RiskRecommendation := RiskRecommendation.RiskRecommendation.
#[global] Instance RiskRecommendation_enum : StrEnum RiskRecommendation.
Proof. refine {| enum_value := RiskRecommendation.value; enum_members := RiskRecommendation.members |}; solve_enum. Defined.

(** Where a feature's value came from. *)
Module FeatureSource.
Inductive FeatureSource : Set :=
  | MERCHANT_REGISTRY | USER_POLICY | POLICY_DECISION | AUTHORIZATION_ROW | PAYMENT_INTENT_ROW |
  AUDIT_LEDGER | MISSION_ROW | MERCHANT_PAYLOAD.
#[global] Instance eq_dec : EqDecision FeatureSource.
Proof. solve_decision. Defined.
Definition value (x : FeatureSource) : string :=
  match x with
  | MERCHANT_REGISTRY => "MERCHANT_REGISTRY"
  | USER_POLICY => "USER_POLICY"
  | POLICY_DECISION => "POLICY_DECISION"
  | AUTHORIZATION_ROW => "AUTHORIZATION_ROW"
  | PAYMENT_INTENT_ROW => "PAYMENT_INTENT_ROW"
  | AUDIT_LEDGER => "AUDIT_LEDGER"
  | MISSION_ROW => "MISSION_ROW"
  | MERCHANT_PAYLOAD => "MERCHANT_PAYLOAD"
  end.
Definition members : list FeatureSource :=
  [MERCHANT_REGISTRY; USER_POLICY; POLICY_DECISION; AUTHORIZATION_ROW; PAYMENT_INTENT_ROW;
   AUDIT_LEDGER; MISSION_ROW; MERCHANT_PAYLOAD].
End FeatureSource.
Abbreviation FeatureSource := FeatureSource.FeatureSource.
#[global] Instance FeatureSource_enum : StrEnum FeatureSource.
Proof. refine {| enum_value := FeatureSource.value; enum_members := FeatureSource.members |}; solve_enum. Defined.

(** Why a declared feature has no value. *)
Module FeatureUnavailableReason.
Inductive FeatureUnavailableReason : Set :=
  | INSUFFICIENT_HISTORY | NO_POLICY_DECISION | NO_AUTHORIZATION | NO_PAYMENT_INTENT | NO_OFFERS |
  NO_SELECTED_MERCHANT.
#[global] Instance eq_dec : EqDecision FeatureUnavailableReason.
Proof. solve_decision. Defined.
Definition value (x : FeatureUnavailableReason) : string :=
  match x with
  | INSUFFICIENT_HISTORY => "INSUFFICIENT_HISTORY"
  | NO_POLICY_DECISION => "NO_POLICY_DECISION"
  | NO_AUTHORIZATION => "NO_AUTHORIZATION"
  | NO_PAYMENT_INTENT => "NO_PAYMENT_INTENT"
  | NO_OFFERS => "NO_OFFERS"
  | NO_SELECTED_MERCHANT => "NO_SELECTED_MERCHANT"
  end.
Definition members : list FeatureUnavailableReason :=
  [INSUFFICIENT_HISTORY; NO_POLICY_DECISION; NO_AUTHORIZATION; NO_PAYMENT_INTENT; NO_OFFERS;
   NO_SELECTED_MERCHANT].
End FeatureUnavailableReason.
Abbreviation FeatureUnavailableReason := FeatureUnavailableReason.FeatureUnavailableReason.
#[global] Instance FeatureUnavailableReason_enum : StrEnum FeatureUnavailableReason.
Proof. refine {| enum_value := FeatureUnavailableReason.value; enum_members := FeatureUnavailableReason.members |}; solve_enum. Defined.

Definition BAND_ORDER (b : RiskBand) : Z :=
  match b with RiskBand.LOW => 0 | RiskBand.MEDIUM => 1 | RiskBand.HIGH => 2 | RiskBand.CRITICAL => 3 end.

(** ** models.py: features *)
Inductive scalar : Type := VFloat (f : float) | VInt (z : Z) | VBool (b : bool).
Definition FeatureScalar : Type := option scalar.

Record FeatureValue := mkFeatureValue {
  fv_name : string;
  fv_value : FeatureScalar;
  fv_source : FeatureSource;
  fv_authority : AuthorityLevel;
  fv_trust : TrustLevel;
  fv_derived_from_untrusted_evidence : bool;
  fv_available : bool;
  fv_unavailable_reason : option FeatureUnavailableReason;
  fv_source_detail : ustr
}.
Definition FeatureValue_new (v : FeatureValue) : outcome exn FeatureValue :=
  if negb (length_within 1 80 (fv_name v)) then Raise (ValidationError "name")
  else if negb (u_length_within 1 200 (fv_source_detail v)) then Raise (ValidationError "source_detail")
  else Ok v.

(** [float(value)]. *)
Definition scalar_float (v : scalar) : outcome exn float :=
  match v with
  | VFloat f => Ok f
  | VInt z => match py_float_of_int z with
              | Some f => Ok f
              | None => Raise (OverflowError "int too large to convert to float")
              end
  | VBool b => Ok (if b then fl_one else fl_zero)
  end.
(** [bool(value)]. *)
Definition scalar_true (v : scalar) : bool :=
  match v with VFloat f => negb (fl_eqb f fl_zero) | VInt z => negb (z =? 0) | VBool b => b end.
Definition numeric (v : FeatureValue) : outcome exn (option float) :=
  match fv_value v with
  | Some s => if fv_available v then f ← scalar_float s; Ok (Some f) else Ok None
  | None => Ok None
  end.

(** ** models.py: factors, data quality, the assessment *)
Record RiskFactor := mkRiskFactor {
  rf_code : string;
  rf_feature : string;
  rf_contribution : float;
  rf_weight : float;
  rf_observed : FeatureScalar;
  rf_threshold : option float;
  rf_saturates_at : option float;
  rf_explanation : ustr;
  rf_derived_from_untrusted_evidence : bool
}.
(** [A-Z0-9_]. *)
Definition is_code_char (a : ascii) : bool :=
  let n := Ascii.N_of_ascii a in
  ((65 <=? n)%N && (n <=? 90)%N) || ((48 <=? n)%N && (n <=? 57)%N) || (n =? 95)%N.
Definition RiskFactor_new (f : RiskFactor) : outcome exn RiskFactor :=
  if negb (length_within 1 64 (rf_code f) && str_forallb is_code_char (rf_code f)) then Raise (ValidationError "code")
  else if negb (length_within 1 80 (rf_feature f)) then Raise (ValidationError "feature")
  else if negb (fl_ltb fl_zero (rf_contribution f)) then Raise (ValidationError "contribution")
  else if negb (fl_ltb fl_zero (rf_weight f)) then Raise (ValidationError "weight")
  else if negb (u_length_within 1 400 (rf_explanation f)) then Raise (ValidationError "explanation")
  else Ok f.

Record DataQuality := mkDataQuality {
  dq_history_available : bool;
  dq_history_observations : Z;
  dq_history_scope : string;
  dq_cold_start : bool;
  dq_features_available : Z;
  dq_features_unavailable : Z;
  dq_audit_chain_verified : bool
}.
Definition DataQuality_new (q : DataQuality) : outcome exn DataQuality :=
  if negb (0 <=? dq_history_observations q) then Raise (ValidationError "history_observations")
  else if negb (length_within 1 40 (dq_history_scope q)) then Raise (ValidationError "history_scope")
  else if negb (0 <=? dq_features_available q) then Raise (ValidationError "features_available")
  else if negb (0 <=? dq_features_unavailable q) then Raise (ValidationError "features_unavailable")
  else Ok q.

Definition features : Type := list (string * FeatureValue).

(** [score_semantics] and [advisory] are pinned literals. *)
Record RiskAssessment := mkRiskAssessment {
  rk_assessment_id : uuid;
  rk_mission_id : uuid;
  rk_transaction_digest_prefix : option string;
  rk_score : float;
  rk_raw_points : float;
  rk_saturation_points : float;
  rk_band : RiskBand;
  rk_recommendation : RiskRecommendation;
  rk_feature_values : features;
  rk_factors : list RiskFactor;
  rk_explanation : list ustr;
  rk_evaluated_at : datetime;
  rk_engine_version : string;
  rk_model_type : string;
  rk_model_version : string;
  rk_data_quality : DataQuality;
  rk_policy_decision : option string;
  rk_policy_reason_codes : list ReasonCode
}.
Definition RiskAssessment_new (a : RiskAssessment) : outcome exn RiskAssessment :=
  if negb (fl_within fl0 fl1 (rk_score a)) then Raise (ValidationError "score")
  else if negb (fl_leb fl_zero (rk_raw_points a)) then Raise (ValidationError "raw_points")
  else if negb (fl_ltb fl_zero (rk_saturation_points a)) then Raise (ValidationError "saturation_points")
  else if negb (length_within 1 40 (rk_engine_version a)) then Raise (ValidationError "engine_version")
  else if negb (length_within 1 40 (rk_model_type a)) then Raise (ValidationError "model_type")
  else if negb (length_within 1 40 (rk_model_version a)) then Raise (ValidationError "model_version")
  else Ok a.

Definition score_semantics : string := "NORMALIZED_RISK_INDEX".

Definition audit_payload (a : RiskAssessment) : json_obj :=
  [("assessment_id", JStr (str_uuid (rk_assessment_id a)));
   ("score", JFloat (py_round 6 (rk_score a)));
   ("band", JStr (enum_value (rk_band a)));
   ("recommendation", JStr (enum_value (rk_recommendation a)));
   ("engine_version", JStr (rk_engine_version a));
   ("model_type", JStr (rk_model_type a));
   ("model_version", JStr (rk_model_version a));
   ("score_semantics", JStr score_semantics);
   ("factor_codes", JList (map (λ f, JStr (rf_code f)) (rk_factors a)));
   ("advisory", JBool true);
   ("history_available", JBool (dq_history_available (rk_data_quality a)));
   ("cold_start", JBool (dq_cold_start (rk_data_quality a)));
   ("audit_chain_verified", JBool (dq_audit_chain_verified (rk_data_quality a)))].

(** ** config.py *)
Definition ENGINE_VERSION : string := "pactra-risk-v1".
Definition HEURISTIC_VERSION : string := "heuristic-v1".
Definition MODEL_TYPE_HEURISTIC : string := "DETERMINISTIC_HEURISTIC".

Definition WEAK : float := fl_lit 5 100.
Definition MODERATE : float := fl_lit 15 100.
Definition STRONG : float := fl_lit 35 100.
Definition SEVERE : float := fl_lit 60 100.

Definition ramp (value lo hi : float) : outcome exn float :=
  if fl_leb hi lo then
    Raise (ValueError ("ramp requires hi > lo; got lo=" +:+ float_repr lo +:+ ", hi=" +:+ float_repr hi))
  else if fl_leb value lo then Ok fl_zero
  else if fl_leb hi value then Ok fl_one
  else Ok (fl_div (fl_sub value lo) (fl_sub hi lo)).

Record RiskConfig := mkRiskConfig {
  saturation_points : float;
  band_medium_at : float;
  band_high_at : float;
  band_critical_at : float;
  review_threshold : float;
  amount_hard_limit_weight : float;
  amount_hard_limit_ramp_lo : float;
  amount_hard_limit_ramp_hi : float;
  amount_soft_budget_weight : float;
  amount_soft_budget_ramp_lo : float;
  amount_soft_budget_ramp_hi : float;
  preferred_merchant_trust : float;
  merchant_trust_weight : float;
  merchant_unknown_weight : float;
  merchant_identity_mismatch_weight : float;
  merchant_identity_mismatch_saturates_at : float;
  merchant_escalation_weight : float;
  merchant_escalation_saturates_at : float;
  merchant_failure_ratio_weight : float;
  merchant_failure_ratio_ramp_lo : float;
  merchant_failure_ratio_ramp_hi : float;
  min_merchant_payment_history : Z;
  replay_attempt_weight : float;
  replay_attempt_saturates_at : float;
  binding_failure_weight : float;
  binding_failure_saturates_at : float;
  mission_escalation_weight : float;
  mission_escalation_saturates_at : float;
  authorization_age_weight : float;
  authorization_age_ramp_lo : float;
  authorization_age_ramp_hi : float;
  payment_attempt_weight : float;
  payment_attempt_ramp_lo : float;
  payment_attempt_ramp_hi : float;
  provider_timeout_weight : float;
  provider_timeout_saturates_at : float;
  provider_mismatch_weight : float;
  provider_mismatch_saturates_at : float;
  idempotency_conflict_weight : float;
  idempotency_conflict_saturates_at : float;
  webhook_anomaly_weight : float;
  webhook_anomaly_saturates_at : float;
  reconciliation_weight : float;
  reconciliation_ramp_lo : float;
  reconciliation_ramp_hi : float;
  audit_integrity_weight : float;
  invalid_offer_weight : float;
  invalid_offer_ramp_lo : float;
  invalid_offer_ramp_hi : float;
  min_offers_for_ratio : Z;
  min_history_observations : Z;
  amount_anomaly_weight : float;
  amount_anomaly_ramp_lo : float;
  amount_anomaly_ramp_hi : float
}.

(** Each field's constraint, with its name. *)
Definition risk_config_checks (c : RiskConfig) : list (bool * string) :=
  [(fl_ltb fl_zero (saturation_points c), "saturation_points");
   (fl_ltb fl_zero (band_medium_at c) && fl_ltb (band_medium_at c) fl_one, "band_medium_at");
   (fl_ltb fl_zero (band_high_at c) && fl_ltb (band_high_at c) fl_one, "band_high_at");
   (fl_ltb fl_zero (band_critical_at c) && fl_ltb (band_critical_at c) fl_one, "band_critical_at");
   (fl_ltb fl_zero (review_threshold c) && fl_leb (review_threshold c) fl_one, "review_threshold");
   (fl_ltb fl_zero (amount_hard_limit_weight c), "amount_hard_limit_weight");
   (fl_leb fl_zero (amount_hard_limit_ramp_lo c), "amount_hard_limit_ramp_lo");
   (fl_ltb fl_zero (amount_hard_limit_ramp_hi c), "amount_hard_limit_ramp_hi");
   (fl_ltb fl_zero (amount_soft_budget_weight c), "amount_soft_budget_weight");
   (fl_leb fl_zero (amount_soft_budget_ramp_lo c), "amount_soft_budget_ramp_lo");
   (fl_ltb fl_zero (amount_soft_budget_ramp_hi c), "amount_soft_budget_ramp_hi");
   (fl_leb fl_zero (preferred_merchant_trust c) && fl_leb (preferred_merchant_trust c) fl_one, "preferred_merchant_trust");
   (fl_ltb fl_zero (merchant_trust_weight c), "merchant_trust_weight");
   (fl_ltb fl_zero (merchant_unknown_weight c), "merchant_unknown_weight");
   (fl_ltb fl_zero (merchant_identity_mismatch_weight c), "merchant_identity_mismatch_weight");
   (fl_ltb fl_zero (merchant_identity_mismatch_saturates_at c), "merchant_identity_mismatch_saturates_at");
   (fl_ltb fl_zero (merchant_escalation_weight c), "merchant_escalation_weight");
   (fl_ltb fl_zero (merchant_escalation_saturates_at c), "merchant_escalation_saturates_at");
   (fl_ltb fl_zero (merchant_failure_ratio_weight c), "merchant_failure_ratio_weight");
   (fl_leb fl_zero (merchant_failure_ratio_ramp_lo c), "merchant_failure_ratio_ramp_lo");
   (fl_ltb fl_zero (merchant_failure_ratio_ramp_hi c), "merchant_failure_ratio_ramp_hi");
   ((1 <=? min_merchant_payment_history c), "min_merchant_payment_history");
   (fl_ltb fl_zero (replay_attempt_weight c), "replay_attempt_weight");
   (fl_ltb fl_zero (replay_attempt_saturates_at c), "replay_attempt_saturates_at");
   (fl_ltb fl_zero (binding_failure_weight c), "binding_failure_weight");
   (fl_ltb fl_zero (binding_failure_saturates_at c), "binding_failure_saturates_at");
   (fl_ltb fl_zero (mission_escalation_weight c), "mission_escalation_weight");
   (fl_ltb fl_zero (mission_escalation_saturates_at c), "mission_escalation_saturates_at");
   (fl_ltb fl_zero (authorization_age_weight c), "authorization_age_weight");
   (fl_leb fl_zero (authorization_age_ramp_lo c), "authorization_age_ramp_lo");
   (fl_ltb fl_zero (authorization_age_ramp_hi c), "authorization_age_ramp_hi");
   (fl_ltb fl_zero (payment_attempt_weight c), "payment_attempt_weight");
   (fl_leb fl_zero (payment_attempt_ramp_lo c), "payment_attempt_ramp_lo");
   (fl_ltb fl_zero (payment_attempt_ramp_hi c), "payment_attempt_ramp_hi");
   (fl_ltb fl_zero (provider_timeout_weight c), "provider_timeout_weight");
   (fl_ltb fl_zero (provider_timeout_saturates_at c), "provider_timeout_saturates_at");
   (fl_ltb fl_zero (provider_mismatch_weight c), "provider_mismatch_weight");
   (fl_ltb fl_zero (provider_mismatch_saturates_at c), "provider_mismatch_saturates_at");
   (fl_ltb fl_zero (idempotency_conflict_weight c), "idempotency_conflict_weight");
   (fl_ltb fl_zero (idempotency_conflict_saturates_at c), "idempotency_conflict_saturates_at");
   (fl_ltb fl_zero (webhook_anomaly_weight c), "webhook_anomaly_weight");
   (fl_ltb fl_zero (webhook_anomaly_saturates_at c), "webhook_anomaly_saturates_at");
   (fl_ltb fl_zero (reconciliation_weight c), "reconciliation_weight");
   (fl_leb fl_zero (reconciliation_ramp_lo c), "reconciliation_ramp_lo");
   (fl_ltb fl_zero (reconciliation_ramp_hi c), "reconciliation_ramp_hi");
   (fl_ltb fl_zero (audit_integrity_weight c), "audit_integrity_weight");
   (fl_ltb fl_zero (invalid_offer_weight c), "invalid_offer_weight");
   (fl_leb fl_zero (invalid_offer_ramp_lo c), "invalid_offer_ramp_lo");
   (fl_ltb fl_zero (invalid_offer_ramp_hi c), "invalid_offer_ramp_hi");
   ((1 <=? min_offers_for_ratio c), "min_offers_for_ratio");
   ((2 <=? min_history_observations c), "min_history_observations");
   (fl_ltb fl_zero (amount_anomaly_weight c), "amount_anomaly_weight");
   (fl_leb fl_zero (amount_anomaly_ramp_lo c), "amount_anomaly_ramp_lo");
   (fl_ltb fl_zero (amount_anomaly_ramp_hi c), "amount_anomaly_ramp_hi")].
Definition RiskConfig_new (c : RiskConfig) : outcome exn RiskConfig :=
  match List.find (λ '(ok, _), negb ok) (risk_config_checks c) with
  | Some (_, field) => Raise (ValidationError field)
  | None => Ok c
  end.

Definition DEFAULT_RISK_CONFIG : RiskConfig :=
  mkRiskConfig
    (fl_of_Z 1) (fl_lit 25 100) (fl_lit 5 10) (fl_lit 75 100) (fl_lit 25 100) MODERATE
    (fl_lit 75 100) (fl_of_Z 1) WEAK (fl_of_Z 1) (fl_lit 15 10) (fl_lit 8 10) MODERATE STRONG SEVERE
    (fl_of_Z 1) STRONG (fl_of_Z 2) MODERATE (fl_lit 2 10) (fl_lit 6 10) 3 SEVERE (fl_of_Z 1) SEVERE
    (fl_of_Z 1) STRONG (fl_of_Z 2) WEAK (fl_lit 8 10) (fl_of_Z 1) MODERATE (fl_of_Z 1) (fl_of_Z 4)
    MODERATE (fl_of_Z 2) STRONG (fl_of_Z 1) STRONG (fl_of_Z 1) WEAK (fl_of_Z 3) WEAK (fl_of_Z 1)
    (fl_of_Z 3) SEVERE WEAK (fl_lit 34 100) (fl_of_Z 1) 2 5 MODERATE (fl_lit 15 10) (fl_of_Z 3).

Definition band_for (c : RiskConfig) (score : float) : RiskBand :=
  if fl_leb (band_critical_at c) score then RiskBand.CRITICAL
  else if fl_leb (band_high_at c) score then RiskBand.HIGH
  else if fl_leb (band_medium_at c) score then RiskBand.MEDIUM
  else RiskBand.LOW.

Definition recommendation_for (band : RiskBand) : RiskRecommendation :=
  match band with
  | RiskBand.LOW => RiskRecommendation.PROCEED
  | RiskBand.MEDIUM => RiskRecommendation.REVIEW
  | RiskBand.HIGH => RiskRecommendation.REQUIRE_STRONGER_APPROVAL
  | RiskBand.CRITICAL => RiskRecommendation.ESCALATE
  end.

Example default_config_constructed : RiskConfig_new DEFAULT_RISK_CONFIG = Ok DEFAULT_RISK_CONFIG.
Proof. vm_compute. reflexivity. Qed.
