(* ===== verification/RiskHeuristic.v ===== *)
(** * The deterministic scorer and its explanations

    services/risk_engine/heuristic.py and explain.py: a table of rules, the fraction of
    its weight each observation earns, the score, and the lines that account for it.  A
    rule names its configuration fields by their projections. *)
From S2P Require Import Prelude Python PyText PyFloat PyNumbers Json Enums Errors RiskModels.

(** ** heuristic.py *)
(** How an observation becomes a fraction of the weight. *)
Module Shape.
Inductive Shape : Set :=
  | RATIO | COUNT | SHORTFALL | ABSENT_FLAG.
#[global] Instance eq_dec : EqDecision Shape.
Proof. solve_decision. Defined.
Definition value (x : Shape) : string :=
  match x with
  | RATIO => "RATIO"
  | COUNT => "COUNT"
  | SHORTFALL => "SHORTFALL"
  | ABSENT_FLAG => "ABSENT_FLAG"
  end.
Definition members : list Shape :=
  [RATIO; COUNT; SHORTFALL; ABSENT_FLAG].
End Shape.
Abbreviation Shape := Shape.Shape.
#[global] Instance Shape_enum : StrEnum Shape.
Proof. refine {| enum_value := Shape.value; enum_members := Shape.members |}; solve_enum. Defined.


(** A sentence template: text, dashes and the three placeholders. *)
Inductive piece : Type := T (s : string) | Dash | OBSERVED | OBSERVED_PCT | REFERENCE.

Record FactorRule := mkFactorRule {
  fr_code : string;
  fr_feature : string;
  fr_shape : Shape;
  fr_weight_field : RiskConfig → float;
  fr_lo_field : option (RiskConfig → float);
  fr_hi_field : option (RiskConfig → float);
  fr_saturates_field : option (RiskConfig → float);
  fr_reference_field : option (RiskConfig → float);
  fr_requires_feature_true : option string;
  fr_template : list piece
}.

Definition pct (value : float) : string := fmt_fixed 0 (fl_mul value (fl_of_Z 100)) +:+ "%".

(** [round] of a float raises on infinities and NaN. *)
Definition num (value : float) : outcome exn string :=
  match py_round_int value with
  | None => Raise (match value with
                   | S754_nan => ValueError "cannot convert float NaN to integer"
                   | _ => OverflowError "cannot convert float infinity to integer" end)
  | Some r =>
      if fl_ltb (fl_abs (fl_sub value (fl_of_Z r))) (fl_lit 1 (10 ^ 9)) then Ok (str_int r)
      else Ok (fmt_fixed 2 value)
  end.

Definition FACTOR_RULES : list FactorRule :=
  [mkFactorRule "MERCHANT_IDENTITY_MISMATCH_HISTORY" "merchant_identity_mismatch_events" Shape.COUNT
     merchant_identity_mismatch_weight None None (Some merchant_identity_mismatch_saturates_at)
     None None
     [T "this merchant has asserted an identity other than the one it authenticated as on ";
      OBSERVED;
      T " recorded occasion(s)"];
   mkFactorRule "AUTHORIZATION_REPLAY_HISTORY" "authorization_replay_attempts" Shape.COUNT
     replay_attempt_weight None None (Some replay_attempt_saturates_at)
     None None
     [OBSERVED;
      T " authorization replay attempt(s) were detected and refused on this mission"];
   mkFactorRule "TRANSACTION_BINDING_FAILURE_HISTORY" "transaction_binding_failures" Shape.COUNT
     binding_failure_weight None None (Some binding_failure_saturates_at)
     None None
     [OBSERVED;
      T " transaction-binding failure(s) on this mission ";
      Dash;
      T " the transaction changed after approval"];
   mkFactorRule "AUDIT_CHAIN_INVALID" "audit_chain_valid" Shape.ABSENT_FLAG
     audit_integrity_weight None None None
     None None
     [T "this mission's hash-chained audit history does not verify, so every audit-derived feature above was read from untrustworthy history"];
   mkFactorRule "MERCHANT_AUTHORITY_ESCALATION_HISTORY" "merchant_authority_escalation_events" Shape.COUNT
     merchant_escalation_weight None None (Some merchant_escalation_saturates_at)
     None None
     [T "this merchant has attempted to write user-policy state on ";
      OBSERVED;
      T " recorded occasion(s); the authority lattice refused each one"];
   mkFactorRule "MISSION_AUTHORITY_ESCALATION_ATTEMPTS" "mission_authority_escalation_attempts" Shape.COUNT
     mission_escalation_weight None None (Some mission_escalation_saturates_at)
     None None
     [OBSERVED;
      T " authority-escalation attempt(s) were refused on this mission"];
   mkFactorRule "PROVIDER_RESPONSE_MISMATCH_HISTORY" "provider_response_mismatch_events" Shape.COUNT
     provider_mismatch_weight None None (Some provider_mismatch_saturates_at)
     None None
     [OBSERVED;
      T " provider response(s) did not describe the transaction PACTRA requested; the payment was held uncertain rather than settled"];
   mkFactorRule "IDEMPOTENCY_CONFLICT_HISTORY" "idempotency_conflict_events" Shape.COUNT
     idempotency_conflict_weight None None (Some idempotency_conflict_saturates_at)
     None None
     [T "an idempotency key was presented ";
      OBSERVED;
      T " time(s) for a materially different request"];
   mkFactorRule "MERCHANT_UNKNOWN" "merchant_known" Shape.ABSENT_FLAG
     merchant_unknown_weight None None None
     None None
     [T "the authenticated merchant is not in the server-owned registry, so it carries no reputation at all"];
   mkFactorRule "MERCHANT_TRUST_BELOW_PREFERRED" "merchant_trust" Shape.SHORTFALL
     merchant_trust_weight None None None
     (Some preferred_merchant_trust) (Some "merchant_known")
     [T "registry trust for this merchant is ";
      OBSERVED;
      T " against an advisory preference of ";
      REFERENCE;
      T " (the user's own minimum-trust policy is enforced separately and is unaffected)"];
   mkFactorRule "AMOUNT_NEAR_HARD_LIMIT" "amount_to_hard_limit_ratio" Shape.RATIO
     amount_hard_limit_weight (Some amount_hard_limit_ramp_lo) (Some amount_hard_limit_ramp_hi) None
     None None
     [T "the amount is ";
      OBSERVED_PCT;
      T " of the hard limit, leaving little headroom before the absolute ceiling"];
   mkFactorRule "MERCHANT_FAILED_PAYMENT_RATIO" "merchant_failed_payment_ratio" Shape.RATIO
     merchant_failure_ratio_weight (Some merchant_failure_ratio_ramp_lo) (Some merchant_failure_ratio_ramp_hi) None
     None None
     [OBSERVED_PCT;
      T " of this merchant's prior settled payments failed terminally"];
   mkFactorRule "PAYMENT_RETRY_PRESSURE" "payment_attempts" Shape.RATIO
     payment_attempt_weight (Some payment_attempt_ramp_lo) (Some payment_attempt_ramp_hi) None
     None None
     [T "the payment has been attempted ";
      OBSERVED;
      T " times"];
   mkFactorRule "PROVIDER_TIMEOUT_HISTORY" "provider_timeout_events" Shape.COUNT
     provider_timeout_weight None None (Some provider_timeout_saturates_at)
     None None
     [OBSERVED;
      T " provider timeout(s) left this payment's outcome unknown"];
   mkFactorRule "AMOUNT_ABOVE_MERCHANT_HISTORY_MEDIAN" "amount_vs_merchant_median_ratio" Shape.RATIO
     amount_anomaly_weight (Some amount_anomaly_ramp_lo) (Some amount_anomaly_ramp_hi) None
     None None
     [T "the amount is ";
      OBSERVED;
      T "x this merchant's historical median authorized amount"];
   mkFactorRule "AMOUNT_ABOVE_SOFT_BUDGET" "amount_to_soft_budget_ratio" Shape.RATIO
     amount_soft_budget_weight (Some amount_soft_budget_ramp_lo) (Some amount_soft_budget_ramp_hi) None
     None None
     [T "the amount is ";
      OBSERVED_PCT;
      T " of the soft budget; the deterministic policy engine already requires approval for this"];
   mkFactorRule "AUTHORIZATION_NEAR_EXPIRY" "authorization_lifetime_used_ratio" Shape.RATIO
     authorization_age_weight (Some authorization_age_ramp_lo) (Some authorization_age_ramp_hi) None
     None None
     [OBSERVED_PCT;
      T " of the authorization window has elapsed; expiry itself is enforced deterministically"];
   mkFactorRule "WEBHOOK_ANOMALY_HISTORY" "webhook_anomaly_events" Shape.COUNT
     webhook_anomaly_weight None None (Some webhook_anomaly_saturates_at)
     None None
     [OBSERVED;
      T " duplicate or out-of-order webhook(s) were ignored; some are normal under at-least-once delivery"];
   mkFactorRule "RECONCILIATION_PRESSURE" "reconciliation_events" Shape.RATIO
     reconciliation_weight (Some reconciliation_ramp_lo) (Some reconciliation_ramp_hi) None
     None None
     [T "this payment required reconciliation ";
      OBSERVED;
      T " times"];
   mkFactorRule "HIGH_INVALID_OFFER_RATIO" "invalid_offer_ratio" Shape.RATIO
     invalid_offer_weight (Some invalid_offer_ramp_lo) (Some invalid_offer_ramp_hi) None
     None None
     [OBSERVED_PCT;
      T " of the offers received were rejected by the kernel"]].

Section Scoring.
Context (config : RiskConfig).

Definition read_field (rule : FactorRule) (field : option (RiskConfig → float)) (what : string) : outcome exn float :=
  match field with
  | None => Raise (ValueError ("factor rule " +:+ fr_code rule +:+ " (" +:+ enum_value (fr_shape rule)
                               +:+ ") declares no " +:+ what))
  | Some f => Ok (f config)
  end.
Definition read_lo (rule : FactorRule) := read_field rule (fr_lo_field rule) "ramp lower bound".
Definition read_hi (rule : FactorRule) := read_field rule (fr_hi_field rule) "ramp upper bound".
Definition read_saturates (rule : FactorRule) := read_field rule (fr_saturates_field rule) "saturation count".
Definition read_reference (rule : FactorRule) := read_field rule (fr_reference_field rule) "reference level".

Definition bounds (rule : FactorRule) : outcome exn (option float * option float) :=
  match fr_shape rule with
  | Shape.RATIO => lo ← read_lo rule; hi ← read_hi rule; Ok (Some lo, Some hi)
  | Shape.COUNT => s ← read_saturates rule; Ok (Some fl_zero, Some s)
  | Shape.SHORTFALL => r ← read_reference rule; Ok (Some r, Some fl_zero)
  | Shape.ABSENT_FLAG => Ok (None, None)
  end.

Definition fraction (rule : FactorRule) (observed : float) : outcome exn float :=
  match fr_shape rule with
  | Shape.RATIO => lo ← read_lo rule; hi ← read_hi rule; ramp observed lo hi
  | Shape.COUNT => s ← read_saturates rule; ramp observed fl_zero s
  | Shape.SHORTFALL =>
      reference ← read_reference rule;
      if fl_leb reference fl_zero then Ok fl_zero
      else ramp (fl_sub reference observed) fl_zero reference
  | Shape.ABSENT_FLAG => Ok (if fl_eqb observed fl_zero then fl_one else fl_zero)
  end.

Definition render_piece (observed observed_pct reference : string) (p : piece) : ustr :=
  match p with
  | T s => u s
  | Dash => em_dash
  | OBSERVED => u observed
  | OBSERVED_PCT => u observed_pct
  | REFERENCE => u reference
  end.

Definition describe (rule : FactorRule) (observed fraction : float) : outcome exn ustr :=
  reference ← (match fr_reference_field rule with
               | Some _ => r ← read_reference rule; Ok (fmt_fixed 2 r)
               | None => Ok ""
               end);
  observed_num ← num observed;
  let body := flat_map (render_piece observed_num (pct observed) reference) (fr_template rule) in
  Ok (body ++ u (" (" +:+ pct fraction +:+ " of the available weight for this factor)")).

(** The gate of a rule: the feature it requires is there, available and truthy. *)
Definition gate_open (rule : FactorRule) (fs : features) : bool :=
  match fr_requires_feature_true rule with
  | None => true
  | Some required =>
      match py_dict_get required fs with
      | Some gate => fv_available gate && match fv_value gate with Some v => scalar_true v | None => false end
      | None => false
      end
  end.

(** One rule: no factor when the feature is absent, unavailable or gated, or earns
    nothing. *)
Definition factor_of (rule : FactorRule) (fs : features) : outcome exn (option RiskFactor) :=
  match py_dict_get (fr_feature rule) fs with
  | None => Ok None
  | Some feature =>
      if negb (fv_available feature) || negb (gate_open rule fs) then Ok None
      else
        measured ← numeric feature;
        match measured with
        | None => Ok None
        | Some observed =>
            earned ← fraction rule observed;
            let weight := fr_weight_field rule config in
            let contribution := fl_mul weight earned in
            if fl_leb contribution fl_zero then Ok None
            else
              limits ← bounds rule;
              let '(threshold, saturates) := limits in
              explanation ← describe rule observed earned;
              factor ← RiskFactor_new (mkRiskFactor (fr_code rule) (fr_feature rule) contribution weight
                (fv_value feature) threshold saturates explanation (fv_derived_from_untrusted_evidence feature));
              Ok (Some factor)
        end
  end.

Fixpoint apply_rules (rules : list FactorRule) (fs : features) : outcome exn (list RiskFactor) :=
  match rules with
  | [] => Ok []
  | rule :: rest =>
      factor ← factor_of rule fs;
      others ← apply_rules rest fs;
      Ok (option_list factor ++ others)
  end.

(** [key=lambda factor: -factor.contribution]. *)
Definition strongest_first (a b : RiskFactor) : bool :=
  fl_leb (fl_opp (rf_contribution a)) (fl_opp (rf_contribution b)).

Definition score (fs : features) : outcome exn (list RiskFactor * float) :=
  found ← apply_rules FACTOR_RULES fs;
  let factors := py_sorted strongest_first found in
  Ok (factors, py_sum (map rf_contribution factors)).

(** [min(1.0, raw / saturation)]; the saturation is positive, a constraint of its field. *)
Definition normalize (raw_points : float) : float :=
  if fl_leb raw_points fl_zero then fl_zero
  else
    let q := fl_div raw_points (saturation_points config) in
    if fl_ltb q fl_one then q else fl_one.
End Scoring.

(** ** explain.py *)
Definition newline : ustr := [10%N].
Definition UNTRUSTED_EVIDENCE_NOTE : ustr :=
  u "  (this counts kernel-written records OF untrusted behaviour; the record is trusted, the behaviour it describes was not)".

Definition render_factor (factor : RiskFactor) : ustr :=
  u ("+" +:+ fmt_fixed 3 (rf_contribution factor) +:+ "  " +:+ rf_code factor +:+ ": ") ++ rf_explanation factor
  ++ (if rf_derived_from_untrusted_evidence factor then newline ++ UNTRUSTED_EVIDENCE_NOTE else []).

Definition render_data_quality (quality : DataQuality) : list ustr :=
  let observations := str_int (dq_history_observations quality) in
  [if dq_cold_start quality then
     u "no prior observations exist for this merchant, so no behavioural baseline was computed and no anomaly factor could contribute "
     ++ em_dash ++ u " absence of history is not evidence of risk and is not scored as any"
   else if negb (dq_history_available quality) then
     u (observations +:+ " prior observation(s) for this merchant, below the minimum required for a behavioural baseline; anomaly factors were skipped rather than estimated")
   else
     u ("behavioural baseline computed from " +:+ observations +:+ " prior observation(s), scoped by "
        +:+ dq_history_scope quality)]
  ++ (if dq_audit_chain_verified quality then []
      else [u "the mission's audit chain did NOT verify " ++ em_dash
            ++ u " audit-derived features were read from history that cannot be trusted"])
  ++ [u (str_int (dq_features_available quality) +:+ " feature(s) measured, "
         +:+ str_int (dq_features_unavailable quality) +:+ " unavailable")].

Definition render_scope_note : ustr :=
  u "scope: PACTRA has no user identity in its data model, so no per-user spending baseline, velocity, or behavioural deviation was computed or approximated. History is scoped by authenticated merchant only.".

Definition render_verdict (score : float) (band : RiskBand) (recommendation : RiskRecommendation) : ustr :=
  u ("risk index " +:+ fmt_fixed 3 score +:+ " (" +:+ enum_value band +:+ ") ") ++ em_dash
  ++ u (" advisory recommendation: " +:+ enum_value recommendation
        +:+ ". This is a normalized risk index, NOT a fraud probability, and it authorizes nothing: the deterministic policy decision stands unchanged.").

Definition build_explanation (score : float) (band : RiskBand) (recommendation : RiskRecommendation)
    (factors : list RiskFactor) (quality : DataQuality) (policy_decision : option string) : list ustr :=
  [render_verdict score band recommendation]
  ++ match factors with
     | [] => [u "no risk factors contributed: every configured factor was either below its threshold or had no data behind it"]
     | _ => map render_factor factors
     end
  ++ render_data_quality quality
  ++ [render_scope_note]
  ++ match policy_decision with
     | Some decision => [u ("deterministic policy decision for this mission: " +:+ decision +:+ " ") ++ em_dash
                         ++ u " unchanged by, and not derived from, this assessment"]
     | None => []
     end.

Definition count_availability (fs : features) : Z * Z :=
  let available := Z.of_nat (length (List.filter (λ '(_, f), fv_available f) fs)) in
  (available, Z.of_nat (length fs) - available).
