(* ===== verification/RiskBounds.v ===== *)
(** * What the arithmetic of the scorer guarantees

    On binary64, with every operation rounded: a factor stays within its weight, stronger
    evidence earns no less, and the index stays in [0, 1] and grows with the points. *)
From S2P Require Import Prelude Python PyText PyFloat PyNumbers Rounding Json Enums Errors Merchant RiskModels RiskHeuristic.

(** ** The ramp *)
Lemma ramp_cases value lo hi : nonneg_finite value → nonneg_finite lo → nonneg_finite hi → fx lo < fx hi →
  ∃ r, ramp value lo hi = Ok r ∧ nonneg_finite r ∧ fx r <= unit ∧
    fx r = if fx value <=? fx lo then 0 else if fx hi <=? fx value then unit
           else rnd (rnd (fx value - fx lo) 1 * unit) (fx (fl_sub hi lo)).
Proof.
  intros Hv Hl Hh Hlt. destruct nonneg_zero as [Hz Ez], nonneg_one as [Ho Eo]. pose proof unit_pos.
  unfold ramp. rewrite !leb_fx by (apply Hv || apply Hl || apply Hh). rewrite (proj2 (Z.leb_gt (fx hi) (fx lo))) by done.
  destruct (Z.leb_spec (fx value) (fx lo)) as [H1|H1]; [exists fl_zero; split_and!; (done || lia)|].
  destruct (Z.leb_spec (fx hi) (fx value)) as [H2|H2]; [exists fl_one; split_and!; (done || lia)|].
  destruct (sub_within value lo hi Hv Hl Hh H1 ltac:(lia)) as (Hn & En & Hb).
  destruct (sub_within hi lo hi Hh Hl Hh Hlt ltac:(lia)) as (Hd & Ed & Hb').
  assert (Hle : fx (fl_sub value lo) <= fx (fl_sub hi lo)) by (rewrite En, Ed; apply rnd_mono; lia).
  destruct (div_below_one _ _ Hn Hd ltac:(lia) Hle) as (Hq & Eq & Hu). eexists. split; [reflexivity|].
  split; [exact Hq|]. split; [exact Hu|]. by rewrite Eq, En.
Qed.
Lemma ramp_mono value value' lo hi r r' :
  nonneg_finite value → nonneg_finite value' → nonneg_finite lo → nonneg_finite hi → fx lo < fx hi →
  fx value <= fx value' → ramp value lo hi = Ok r → ramp value' lo hi = Ok r' → fx r <= fx r'.
Proof.
  intros Hv Hv' Hl Hh Hlt Hle E E'. pose proof unit_pos.
  destruct (ramp_cases value lo hi Hv Hl Hh Hlt) as (x & Ex & _ & Hu & Hx). rewrite Ex in E. injection E as <-.
  destruct (ramp_cases value' lo hi Hv' Hl Hh Hlt) as (x' & Ex' & Hn' & _ & Hx'). rewrite Ex' in E'. injection E' as <-.
  pose proof (fx_lt_top x' Hn'). rewrite Hx'.
  destruct (Z.leb_spec (fx value') (fx lo)); [rewrite Hx, (proj2 (Z.leb_le _ _)); lia|].
  destruct (Z.leb_spec (fx hi) (fx value')); [done|]. rewrite Hx.
  destruct (Z.leb_spec (fx value) (fx lo)); [apply rnd_nonneg|].
  - apply (sub_within hi lo hi); (done || lia).
  - pose proof (rnd_nonneg (fx value' - fx lo) 1 ltac:(lia) ltac:(lia)). nia.
  - rewrite (proj2 (Z.leb_gt (fx hi) (fx value))) by lia.
    pose proof (sub_within hi lo hi Hh Hl Hh Hlt ltac:(lia)) as (_ & _ & Hp).
    pose proof (rnd_nonneg (fx value - fx lo) 1 ltac:(lia) ltac:(lia)).
    assert (rnd (fx value - fx lo) 1 <= rnd (fx value' - fx lo) 1) by (apply rnd_mono; lia).
    assert (rnd (fx value - fx lo) 1 * unit <= rnd (fx value' - fx lo) 1 * unit) by nia.
    apply rnd_mono; nia.
Qed.

(** ** The rules *)
Section Bounds.
Context (config : RiskConfig).

Definition field_ok (field : option (RiskConfig → float)) : bool :=
  match field with Some f => nonneg_finiteb (f config) | None => false end.
Definition field_value (field : option (RiskConfig → float)) : float :=
  match field with Some f => f config | None => fl_zero end.
(** A rule declares the bounds its shape needs, and the configuration's are in order. *)
Definition rule_ok (rule : FactorRule) : bool :=
  nonneg_finiteb (fr_weight_field rule config) &&
  match fr_shape rule with
  | Shape.RATIO => field_ok (fr_lo_field rule) && field_ok (fr_hi_field rule)
                   && fl_ltb (field_value (fr_lo_field rule)) (field_value (fr_hi_field rule))
  | Shape.COUNT => field_ok (fr_saturates_field rule) && fl_ltb fl_zero (field_value (fr_saturates_field rule))
  | Shape.SHORTFALL => field_ok (fr_reference_field rule)
  | Shape.ABSENT_FLAG => true
  end.
(** Whether a larger observation is stronger evidence. *)
Definition rises (shape : Shape) : bool :=
  match shape with Shape.RATIO | Shape.COUNT => true | Shape.SHORTFALL | Shape.ABSENT_FLAG => false end.

Lemma read_field_ok rule field what : field_ok field = true →
  read_field config rule field what = Ok (field_value field) ∧ nonneg_finite (field_value field).
Proof. destruct field as [f|]; [|done]. intros H. split; [done|by apply nonneg_finiteb_spec]. Qed.

Lemma ordered_fx x y : nonneg_finite x → nonneg_finite y → fl_ltb x y = true ↔ fx x < fx y.
Proof. intros [Hx _] [Hy _]. rewrite ltb_fx by done. apply Z.ltb_lt. Qed.

(** What a rule earns on an observation, in units. *)
Lemma fraction_cases rule x : rule_ok rule = true → nonneg_finite x →
  ∃ a, fraction config rule x = Ok a ∧ nonneg_finite a ∧ fx a <= unit.
Proof.
  unfold rule_ok. intros [_ Hr]%andb_true_iff Hx. destruct nonneg_zero as [Hz Ez], nonneg_one as [Ho Eo]. pose proof unit_pos.
  unfold fraction, read_lo, read_hi, read_saturates, read_reference. destruct (fr_shape rule).
  - apply andb_true_iff in Hr as [[Hl Hh]%andb_true_iff Hlt].
    destruct (read_field_ok rule _ "ramp lower bound" Hl) as [-> Hl'], (read_field_ok rule _ "ramp upper bound" Hh) as [-> Hh'].
    apply ordered_fx in Hlt; [|done..]. destruct (ramp_cases x _ _ Hx Hl' Hh' Hlt) as (r & Er & Hn & Hu & _).
    exists r. split; [exact Er|]. done.
  - apply andb_true_iff in Hr as [Hs Hlt]. destruct (read_field_ok rule _ "saturation count" Hs) as [-> Hs'].
    apply ordered_fx in Hlt; [|done..]. destruct (ramp_cases x _ _ Hx Hz Hs' Hlt) as (r & Er & Hn & Hu & _).
    exists r. split; [exact Er|]. done.
  - destruct (read_field_ok rule _ "reference level" Hr) as [-> Hf]. unfold mbind, outcome_bind.
    rewrite leb_fx by (apply Hf || apply Hz). rewrite Ez. destruct (Z.leb_spec (fx (field_value (fr_reference_field rule))) 0) as [?|Hpos].
    { exists fl_zero. split_and!; (done || lia). }
    destruct (Z.le_gt_cases (fx (field_value (fr_reference_field rule))) (fx x)) as [Hle|Hlt].
    + exists fl_zero. unfold ramp. rewrite leb_fx by (apply Hf || apply Hz). rewrite Ez, (proj2 (Z.leb_gt _ 0)) by lia.
      rewrite sub_nonpos by done. split_and!; (done || lia).
    + destruct (sub_within _ x _ Hf Hx Hf Hlt ltac:(lia)) as (Hd & _ & _).
      destruct (ramp_cases _ _ _ Hd Hz Hf ltac:(lia)) as (r & Er & Hn & Hu & _). exists r. split; [exact Er|]. done.
  - destruct (fl_eqb x fl_zero); [exists fl_one|exists fl_zero]; split_and!; (done || lia).
Qed.
Lemma fraction_mono rule x y a b : rule_ok rule = true → nonneg_finite x → nonneg_finite y → fx x <= fx y →
  fraction config rule x = Ok a → fraction config rule y = Ok b →
  if rises (fr_shape rule) then fx a <= fx b else fx b <= fx a.
Proof.
  unfold rule_ok. intros [_ Hr]%andb_true_iff Hx Hy Hxy. destruct nonneg_zero as [Hz Ez], nonneg_one as [Ho Eo]. pose proof unit_pos.
  unfold fraction, read_lo, read_hi, read_saturates, read_reference. destruct (fr_shape rule); cbn [rises].
  - apply andb_true_iff in Hr as [[Hl Hh]%andb_true_iff Hlt].
    destruct (read_field_ok rule _ "ramp lower bound" Hl) as [-> Hl'], (read_field_ok rule _ "ramp upper bound" Hh) as [-> Hh'].
    apply ordered_fx in Hlt; [|done..]. by apply ramp_mono.
  - apply andb_true_iff in Hr as [Hs Hlt]. destruct (read_field_ok rule _ "saturation count" Hs) as [-> Hs'].
    apply ordered_fx in Hlt; [|done..]. by apply ramp_mono.
  - destruct (read_field_ok rule _ "reference level" Hr) as [-> Hf]. unfold mbind, outcome_bind.
    set (ref := field_value (fr_reference_field rule)) in *.
    destruct (fl_leb ref fl_zero) eqn:E0; [by intros [= <-] [= <-]|].
    rewrite leb_fx in E0 by (apply Hf || apply Hz). rewrite Ez in E0. apply Z.leb_gt in E0.
    assert (Hzero : ∀ z, nonneg_finite z → fx ref <= fx z → ramp (fl_sub ref z) fl_zero ref = Ok fl_zero).
    { intros z Hz' Hle. unfold ramp. rewrite leb_fx by (apply Hf || apply Hz). rewrite Ez, (proj2 (Z.leb_gt _ 0)) by lia. by rewrite sub_nonpos. }
    intros Ea Eb. destruct (Z.le_gt_cases (fx ref) (fx y)) as [Hle|Hlt].
    + rewrite (Hzero y Hy Hle) in Eb. injection Eb as <-. rewrite Ez.
      destruct (Z.le_gt_cases (fx ref) (fx x)) as [Hle'|Hlt']; [rewrite (Hzero x Hx Hle') in Ea; injection Ea as <-; lia|].
      destruct (sub_within ref x ref Hf Hx Hf Hlt' ltac:(lia)) as (Hd & _ & _).
      destruct (ramp_cases _ _ _ Hd Hz Hf ltac:(lia)) as (r & Er & Hn & _). rewrite Er in Ea. injection Ea as <-.
      by apply fx_lt_top.
    + destruct (sub_within ref x ref Hf Hx Hf ltac:(lia) ltac:(lia)) as (Hd & Ed & _).
      destruct (sub_within ref y ref Hf Hy Hf ltac:(lia) ltac:(lia)) as (Hd' & Ed' & _).
      apply (ramp_mono (fl_sub ref y) (fl_sub ref x) fl_zero ref); try done. rewrite Ed, Ed'. apply rnd_mono; lia.
  - intros [= <-] [= <-]. rewrite !eqb_zero_fx by (apply Hx || apply Hy).
    pose proof (fx_lt_top x Hx). destruct (Z.eqb_spec (fx x) 0), (Z.eqb_spec (fx y) 0); lia.
Qed.

(** C23: Evidence earns within the weight, and more of it earns no less.  Where the bounds
    a rule needs are configured and in order, a rule never fails on a measured number;
    what it contributes lies between zero and its weight, and of two observations the
    stronger (the larger; for a shortfall and an absent flag the smaller) contributes no
    less, every operation rounded to binary64. *)
Theorem evidence_earns_within_weight (rule : FactorRule) (x y : float) :
  rule_ok rule = true → nonneg_finite x → nonneg_finite y → fl_leb x y = true →
  let weight := fr_weight_field rule config in
  ∃ a b, fraction config rule x = Ok a ∧ fraction config rule y = Ok b ∧
    fl_within fl_zero weight (fl_mul weight a) = true ∧ fl_within fl_zero weight (fl_mul weight b) = true ∧
    (if rises (fr_shape rule) then fl_leb (fl_mul weight a) (fl_mul weight b) else fl_leb (fl_mul weight b) (fl_mul weight a))
    = true.
Proof.
  intros Hr Hx Hy Hxy weight. assert (Hw : nonneg_finite weight) by (apply nonneg_finiteb_spec; by apply andb_true_iff in Hr as [Hr _]).
  rewrite leb_fx in Hxy by (apply Hx || apply Hy). apply Z.leb_le in Hxy. destruct nonneg_zero as [Hz Ez]. pose proof unit_pos.
  destruct (fraction_cases rule x Hr Hx) as (a & Ea & Hna & Hua), (fraction_cases rule y Hr Hy) as (b & Eb & Hnb & Hub).
  pose proof (fraction_mono rule x y a b Hr Hx Hy Hxy Ea Eb) as Hm. exists a, b. split; [done|]. split; [done|].
  destruct (mul_fraction weight a Hw Hna Hua) as (Hpa & Va & Ha), (mul_fraction weight b Hw Hnb Hub) as (Hpb & Vb & Hb).
  pose proof (fx_lt_top _ Hpa). pose proof (fx_lt_top _ Hpb). pose proof (fx_lt_top _ Hw). pose proof (fx_lt_top _ Hna). pose proof (fx_lt_top _ Hnb).
  assert (Hmono : ∀ u v, 0 <= u <= v → rnd (fx weight * u) unit <= rnd (fx weight * v) unit) by (intros u v ?; assert (0 <= fx weight * u <= fx weight * v) by nia; apply rnd_mono; nia).
  unfold fl_within. rewrite !leb_fx by (apply Hz || apply Hpa || apply Hpb || apply Hw). rewrite Ez, !andb_true_iff, !Z.leb_le.
  split; [lia|]. split; [lia|]. rewrite Va, Vb.
  destruct (rises (fr_shape rule)); apply Z.leb_le, Hmono; lia.
Qed.

(** *** The index *)
Lemma normalize_fx raw : nonneg_finite (saturation_points config) → 0 < fx (saturation_points config) → nonneg raw →
  nonneg_finite (normalize config raw) ∧
  fx (normalize config raw) =
    if fx raw <=? 0 then 0 else Z.min unit (fx (fl_div raw (saturation_points config))).
Proof.
  intros Hs Hpos Hr. destruct nonneg_zero as [Hz Ez], nonneg_one as [Ho Eo]. pose proof unit_pos as Hu. unfold normalize.
  rewrite leb_fx by (done || apply Hz). rewrite Ez. destruct (Z.leb_spec (fx raw) 0) as [?|Hraw]; [done|].
  assert (Hq : nonneg (fl_div raw (saturation_points config))).
  { destruct (decide (fl_is_finite raw = true)) as [Hf|Hf]; [by apply div_spec|].
    destruct Hs as [[Hs1 Hs2] Hs3], Hr as [Hr1 Hr2]. destruct raw as [s|[]| |[] m e]; try done.
    destruct (saturation_points config) as [s|[]| |[] m e]; try done. }
  rewrite ltb_fx by (done || apply Ho). rewrite Eo. destruct (Z.ltb_spec (fx (fl_div raw (saturation_points config))) unit) as [Hlt|Hge].
  - split; [apply nonneg_below_top; [done|lia]|]. by rewrite Z.min_r by lia.
  - split; [done|]. by rewrite Z.min_l by lia.
Qed.
Lemma div_grows x y s : nonneg_finite s → 0 < fx s → nonneg x → nonneg y → fx x <= fx y → fx (fl_div x s) <= fx (fl_div y s).
Proof.
  intros Hs Hpos Hx Hy Hle. destruct (decide (fl_is_finite y = true)) as [Hf|Hf].
  - destruct (decide (fl_is_finite x = true)) as [Hf'|Hf']; [by apply div_mono|].
    pose proof (fx_lt_top y (conj Hy Hf)). destruct Hx as [_ Hx2]. destruct x as [?|[]| |[] m e]; try done. cbn [fx] in Hle. lia.
  - assert (fl_div y s = S754_infinity false) as ->.
    { destruct Hs as [[Hs1 Hs2] Hs3], Hy as [Hy1 Hy2]. destruct y as [?|[]| |[] m e]; try done.
      destruct s as [?|[]| |[] m e]; try done. }
    cbn [fx]. destruct (decide (fl_is_finite x = true)) as [Hf'|Hf']; [destruct (div_spec x s (conj Hx Hf') Hs Hpos) as [_ ->]; lia|].
    destruct Hs as [[Hs1 Hs2] Hs3], Hx as [Hx1 Hx2]. destruct x as [?|[]| |[] m e]; try done.
    destruct s as [?|[]| |[] m e]; try done.
Qed.

(** Bands follow the score. *)
Lemma leb_trans_fx t x y : nonneg t → nonneg x → nonneg y → fx x <= fx y → fl_leb t x = true → fl_leb t y = true.
Proof. intros Ht Hx Hy Hle. rewrite !leb_fx by done. rewrite !Z.leb_le. lia. Qed.

(** The index is bounded and grows with the points.  For points that are not negative
    the index lies in [0, 1]; more points never give a lower index, a lower band or a
    milder recommendation, and from the saturation on the index is exactly one. *)
Theorem risk_index_grows (raw raw' : float) :
  nonneg_finiteb (saturation_points config) = true → fl_ltb fl_zero (saturation_points config) = true →
  Forall nonneg [band_medium_at config; band_high_at config; band_critical_at config] →
  nonneg raw → nonneg raw' → fl_leb raw raw' = true →
  fl_within fl0 fl1 (normalize config raw) = true ∧
  fl_leb (normalize config raw) (normalize config raw') = true ∧
  BAND_ORDER (band_for config (normalize config raw)) <= BAND_ORDER (band_for config (normalize config raw')) ∧
  (fl_leb (saturation_points config) raw = true → normalize config raw = fl_one).
Proof.
  intros Hs Hpos Hbands Hr Hr' Hle. apply nonneg_finiteb_spec in Hs. destruct nonneg_zero as [Hz Ez], nonneg_one as [Ho Eo].
  pose proof unit_pos as Hu. apply ordered_fx in Hpos; [|done..]. rewrite Ez in Hpos. rewrite leb_fx in Hle by done. apply Z.leb_le in Hle.
  destruct (normalize_fx raw Hs Hpos Hr) as [Hn En], (normalize_fx raw' Hs Hpos Hr') as [Hn' En'].
  pose proof (fx_lt_top _ Hn) as H1. pose proof (fx_range raw Hr). 
  assert (Hu1 : fx (normalize config raw) <= unit) by (rewrite En; destruct (_ <=? _); lia).
  assert (Hmono : fx (normalize config raw) <= fx (normalize config raw')).
  { rewrite En, En'. pose proof (div_grows raw raw' _ Hs Hpos Hr Hr' Hle). pose proof (fx_lt_top _ Hn').
    destruct (Z.leb_spec (fx raw) 0), (Z.leb_spec (fx raw') 0); lia. }
  split_and!.
  - unfold fl_within. change fl0 with fl_zero. change fl1 with fl_one. rewrite !leb_fx by (apply Hn || apply Hz || apply Ho).
    rewrite Ez, Eo, andb_true_iff, !Z.leb_le. lia.
  - rewrite leb_fx by (apply Hn || apply Hn'). by apply Z.leb_le.
  - apply Forall_cons in Hbands as [Hb1 Hbands]. apply Forall_cons in Hbands as [Hb2 Hbands]. apply Forall_cons in Hbands as [Hb3 _].
    pose proof (leb_trans_fx _ _ _ Hb1 (proj1 Hn) (proj1 Hn') Hmono) as T1.
    pose proof (leb_trans_fx _ _ _ Hb2 (proj1 Hn) (proj1 Hn') Hmono) as T2.
    pose proof (leb_trans_fx _ _ _ Hb3 (proj1 Hn) (proj1 Hn') Hmono) as T3. unfold band_for.
    repeat match goal with |- context [fl_leb ?a ?b] => destruct (fl_leb a b) eqn:? end; cbn [BAND_ORDER]; try lia;
      exfalso; first [by specialize (T1 eq_refl)|by specialize (T2 eq_refl)|by specialize (T3 eq_refl)].
  - intros Hsat. rewrite leb_fx in Hsat by (apply Hs || done). apply Z.leb_le in Hsat. unfold normalize.
    rewrite leb_fx by (done || apply Hz). rewrite Ez, (proj2 (Z.leb_gt _ 0)) by lia.
    pose proof (div_grows _ raw _ Hs Hpos (proj1 Hs) Hr Hsat) as Hd.
    assert (Hone : fx (fl_div (saturation_points config) (saturation_points config)) = unit).
    { destruct (div_below_one _ _ Hs Hs Hpos ltac:(lia)) as (_ & -> & _). rewrite <- rnd_unit at 2. apply rnd_eq; nia. }
    rewrite Hone in Hd. assert (Hnl : fl_ltb (fl_div raw (saturation_points config)) fl_one = false); [|by rewrite Hnl].
    destruct (fl_ltb _ _) eqn:El; [|done]. exfalso.
    assert (Hq : nonneg (fl_div raw (saturation_points config))).
    { pose proof (proj1 Hn) as Hq. revert Hq. unfold normalize. rewrite El. rewrite leb_fx by (done || apply Hz).
      by rewrite Ez, (proj2 (Z.leb_gt _ 0)) by lia. }
    rewrite ltb_fx in El by (done || apply Ho). rewrite Eo in El. apply Z.ltb_lt in El. lia.
Qed.
End Bounds.

(** The configuration the running system uses has every rule's bounds in order. *)
Lemma default_rules_ok : forallb (rule_ok DEFAULT_RISK_CONFIG) FACTOR_RULES = true.
Proof. vm_compute. reflexivity. Qed.

Definition near_limit_rule : FactorRule := nth 10 FACTOR_RULES (mkFactorRule "" "" Shape.RATIO amount_hard_limit_weight None None None None None []).
Lemma evidence_earns_within_weight_witness :
  fr_code near_limit_rule = "AMOUNT_NEAR_HARD_LIMIT" ∧
  ∃ a b, fraction DEFAULT_RISK_CONFIG near_limit_rule (fl_lit 8 10) = Ok a ∧
    fraction DEFAULT_RISK_CONFIG near_limit_rule (fl_lit 9 10) = Ok b ∧ fl_leb (fl_mul MODERATE a) (fl_mul MODERATE b) = true.
Proof.
  split; [reflexivity|].
  destruct (evidence_earns_within_weight DEFAULT_RISK_CONFIG near_limit_rule (fl_lit 8 10) (fl_lit 9 10))
    as (a & b & Ea & Eb & _ & _ & Hm).
  - vm_compute. reflexivity.
  - apply nonneg_finiteb_spec. vm_compute. reflexivity.
  - apply nonneg_finiteb_spec. vm_compute. reflexivity.
  - vm_compute. reflexivity.
  - exists a, b. exact (conj Ea (conj Eb Hm)).
Defined.

Lemma risk_index_grows_witness :
  normalize DEFAULT_RISK_CONFIG (fl_lit 15 10) = fl_one ∧
  BAND_ORDER (band_for DEFAULT_RISK_CONFIG (normalize DEFAULT_RISK_CONFIG (fl_lit 6 10))) <=
  BAND_ORDER (band_for DEFAULT_RISK_CONFIG (normalize DEFAULT_RISK_CONFIG (fl_lit 15 10))).
Proof.
  assert (H1 : Forall nonneg [band_medium_at DEFAULT_RISK_CONFIG; band_high_at DEFAULT_RISK_CONFIG; band_critical_at DEFAULT_RISK_CONFIG])
    by (repeat constructor).
  assert (H2 : nonneg (fl_lit 6 10)) by (split; [vm_compute; reflexivity|exact I]).
  assert (H3 : nonneg (fl_lit 15 10)) by (split; [vm_compute; reflexivity|exact I]).
  split.
  - destruct (risk_index_grows DEFAULT_RISK_CONFIG (fl_lit 15 10) (fl_lit 15 10)) as (_ & _ & _ & Hone);
      [vm_compute; reflexivity|vm_compute; reflexivity|exact H1|exact H3|exact H3|vm_compute; reflexivity|].
    apply Hone. vm_compute. reflexivity.
  - destruct (risk_index_grows DEFAULT_RISK_CONFIG (fl_lit 6 10) (fl_lit 15 10)) as (_ & _ & Hb & _);
      [vm_compute; reflexivity|vm_compute; reflexivity|exact H1|exact H2|exact H3|vm_compute; reflexivity|]. exact Hb.
Defined.
