(* ===== verification/RiskFeatures.v ===== *)
(** * Feature extraction

    services/risk_engine/anomaly.py and features.py: the history of a merchant, the rows
    one assessment reads, and the features they become.  Every read is a SELECT.  Which
    rows a LIMIT keeps among equal or server-filled timestamps is the database server's
    choice, a parameter. *)
From S2P Require Import Prelude Python PyText PyFloat PyNumbers Json Text Enums Errors Transaction Merchant Kernel Policy.
From S2P Require Import Payment Database Hashing Evolution Ledger Replay DecisionTrace RiskModels.

(** ** anomaly.py *)
Definition FAILED_STATES : list PaymentIntentState := [PaymentIntentState.FAILED_TERMINAL].
Definition SETTLED_STATES : list PaymentIntentState := [PaymentIntentState.SUCCEEDED].
Definition HISTORY_WINDOW : nat := 200.

Record MerchantHistory := mkMerchantHistory {
  mh_merchant_id : string;
  mh_amount_observations : Z;
  mh_median_amount_inr : option float;
  mh_settled_payments : Z;
  mh_failed_payments : Z;
  mh_available : bool;
  mh_cold_start : bool
}.
Definition payment_observations (h : MerchantHistory) : Z := mh_settled_payments h + mh_failed_payments h.

Definition too_large : exn := OverflowError "integer division result too large for a float".
Definition truediv (a b : Z) : outcome exn float :=
  match py_truediv a b with Some q => Ok q | None => Raise too_large end.

Definition failure_ratio (h : MerchantHistory) : outcome exn (option float) :=
  let total := payment_observations h in
  if total =? 0 then Ok None else q ← truediv (mh_failed_payments h) total; Ok (Some q).

Definition amount_ratio (h : MerchantHistory) (amount_inr : Z) : outcome exn (option float) :=
  match mh_median_amount_inr h with
  | Some median =>
      if negb (mh_available h) || fl_leb median fl_zero then Ok None
      else amount ← scalar_float (VInt amount_inr); Ok (Some (fl_div amount median))
  | None => Ok None
  end.

Definition empty_history (merchant_id : string) : MerchantHistory := mkMerchantHistory merchant_id 0 None 0 0 false true.

(** [float(statistics.median(amounts))], of a list that is not empty. *)
Definition median (amounts : list Z) : outcome exn float :=
  let data := py_sorted Z.leb amounts in
  let n := length data in
  if Nat.even n
  then truediv (nth (Nat.div2 n - 1) data 0 + nth (Nat.div2 n) data 0) 2
  else scalar_float (VInt (nth (Nat.div2 n) data 0)).

Section History.
(** [ORDER BY issued_at DESC] and [ORDER BY created_at DESC]. *)
Context (by_issued_at : list AuthorizationRow → list AuthorizationRow).
Context (by_created_at : list PaymentIntentRow → list PaymentIntentRow).

Definition prior_authorizations (merchant_id : string) (exclude_mission_id : uuid) (d : DB) : list AuthorizationRow :=
  List.filter (λ a, String.eqb (au_bound_merchant_id a) merchant_id
                    && negb (bool_decide (au_mission_id a = exclude_mission_id)))
    (map snd (map_to_list (db_auths d))).
Definition prior_intents (merchant_id : string) (exclude_mission_id : uuid) (d : DB) : list PaymentIntentRow :=
  List.filter (λ r, String.eqb (pi_merchant_id r) merchant_id
                    && negb (bool_decide (pi_mission_id r = exclude_mission_id))) (intent_rows d).

Definition history_of (merchant_id : string) (amounts : list Z) (states : list PaymentIntentState)
    (min_observations : Z) : outcome exn MerchantHistory :=
  let count states' := Z.of_nat (length (List.filter (λ s, bool_decide (s ∈ states')) states)) in
  let available := min_observations <=? Z.of_nat (length amounts) in
  baseline ← (if available then m ← median amounts; Ok (Some m) else Ok None);
  Ok (mkMerchantHistory merchant_id (Z.of_nat (length amounts)) baseline (count SETTLED_STATES) (count FAILED_STATES)
        available (match amounts, states with [], [] => true | _, _ => false end)).

Definition load_merchant_history (merchant_id : string) (exclude_mission_id : uuid) (min_observations : Z)
    : P MerchantHistory :=
  amounts ← reads (λ d, map au_bound_amount_inr
    (firstn HISTORY_WINDOW (by_issued_at (prior_authorizations merchant_id exclude_mission_id d))));
  states ← reads (λ d, map pi_state
    (firstn HISTORY_WINDOW (by_created_at (prior_intents merchant_id exclude_mission_id d))));
  lift (history_of merchant_id amounts states min_observations).
End History.

(** ** features.py *)
Definition NO_MERCHANT : string := "".
Definition SECURITY_HISTORY_WINDOW : nat := 500.
Definition MERCHANT_KEY : string := "merchant_id".
Definition AUTHENTICATED_MERCHANT_KEY : string := "authenticated_merchant_id".

Record FeatureSpec := mkFeatureSpec {
  fs_source : FeatureSource;
  fs_authority : AuthorityLevel;
  fs_trust : TrustLevel;
  fs_detail : ustr;
  fs_derived_from_untrusted_evidence : bool
}.
Definition audit_spec (untrusted_evidence : bool) (detail : ustr) : FeatureSpec :=
  mkFeatureSpec FeatureSource.AUDIT_LEDGER AuthorityLevel.TRUSTED_INTERNAL_SERVICE TrustLevel.TRUSTED detail untrusted_evidence.

Definition FEATURE_SPECS : list (string * FeatureSpec) :=
  [("amount_to_hard_limit_ratio", mkFeatureSpec FeatureSource.POLICY_DECISION AuthorityLevel.USER_POLICY TrustLevel.AUTHORITATIVE
     (u "policy_decisions.requested_amount over mission_constraints.hard_limit_inr " ++ em_dash ++ u " a server-computed amount against a USER_POLICY ceiling") false);
   ("amount_to_soft_budget_ratio", mkFeatureSpec FeatureSource.POLICY_DECISION AuthorityLevel.USER_POLICY TrustLevel.AUTHORITATIVE
     (u "policy_decisions.requested_amount over mission_constraints.soft_budget_inr " ++ em_dash ++ u " both server-held") false);
   ("requested_amount_inr", mkFeatureSpec FeatureSource.POLICY_DECISION AuthorityLevel.SYSTEM_SECURITY_POLICY TrustLevel.TRUSTED
     (u "policy_decisions.requested_amount, computed by the deterministic engine") false);
   ("quantity", mkFeatureSpec FeatureSource.MISSION_ROW AuthorityLevel.TRUSTED_INTERNAL_SERVICE TrustLevel.TRUSTED
     (u "missions.quantity, validated through CreateMissionRequest at the API boundary") false);
   ("merchant_trust", mkFeatureSpec FeatureSource.MERCHANT_REGISTRY AuthorityLevel.TRUSTED_INTERNAL_SERVICE TrustLevel.TRUSTED
     (u "MerchantRegistry.trust_for(authenticated merchant id) " ++ em_dash ++ u " server-owned. RawMerchantOffer has no merchant_trust field, so a payload cannot contribute to this value") false);
   ("merchant_known", mkFeatureSpec FeatureSource.MERCHANT_REGISTRY AuthorityLevel.TRUSTED_INTERNAL_SERVICE TrustLevel.TRUSTED
     (u "MerchantRegistry membership for the transport-authenticated identity") false);
   ("merchant_identity_mismatch_events", audit_spec true
     (u "SECURITY_VIOLATION events with reason MERCHANT_IDENTITY_MISMATCH naming this authenticated merchant, within the recent window"));
   ("merchant_authority_escalation_events", audit_spec true
     (u "SECURITY_VIOLATION events with reason AUTHORITY_ESCALATION naming this authenticated merchant, within the recent window"));
   ("merchant_failed_payment_ratio", mkFeatureSpec FeatureSource.PAYMENT_INTENT_ROW AuthorityLevel.TRUSTED_INTERNAL_SERVICE TrustLevel.TRUSTED
     (u "payment_intents terminal outcomes for this merchant across prior missions; gated on min_merchant_payment_history") false);
   ("merchant_payment_observations", mkFeatureSpec FeatureSource.PAYMENT_INTENT_ROW AuthorityLevel.TRUSTED_INTERNAL_SERVICE TrustLevel.TRUSTED
     (u "count of prior settled/failed payment intents for this merchant") false);
   ("authorization_replay_attempts", audit_spec true
     (u "AUTHORIZATION_REPLAY_DETECTED events on this mission"));
   ("transaction_binding_failures", audit_spec true
     (u "TRANSACTION_BINDING_FAILURE events on this mission"));
   ("mission_authority_escalation_attempts", audit_spec true
     (u "SECURITY_VIOLATION events with reason AUTHORITY_ESCALATION on this mission"));
   ("authorization_lifetime_used_ratio", mkFeatureSpec FeatureSource.AUTHORIZATION_ROW AuthorityLevel.AUTHORIZATION TrustLevel.TRUSTED
     (u "elapsed over total window from authorizations.issued_at/expires_at") false);
   ("authorization_age_seconds", mkFeatureSpec FeatureSource.AUTHORIZATION_ROW AuthorityLevel.AUTHORIZATION TrustLevel.TRUSTED
     (u "seconds since authorizations.issued_at") false);
   ("payment_attempts", mkFeatureSpec FeatureSource.PAYMENT_INTENT_ROW AuthorityLevel.TRUSTED_INTERNAL_SERVICE TrustLevel.TRUSTED
     (u "payment_intents.attempts for this mission's intent") false);
   ("provider_timeout_events", audit_spec false
     (u "PAYMENT_PROVIDER_TIMEOUT events on this mission"));
   ("provider_response_mismatch_events", audit_spec true
     (u "audit events whose payload reason_code is PROVIDER_RESPONSE_MISMATCH " ++ em_dash ++ u " written by _mark_uncertain when a provider response did not describe the requested transaction"));
   ("idempotency_conflict_events", audit_spec true
     (u "IDEMPOTENCY_CONFLICT events on this mission"));
   ("webhook_anomaly_events", audit_spec true
     (u "DUPLICATE_WEBHOOK_IGNORED + WEBHOOK_OUT_OF_ORDER_IGNORED events on this mission"));
   ("reconciliation_events", audit_spec false
     (u "PAYMENT_RECONCILED events on this mission"));
   ("audit_chain_valid", audit_spec false
     (u "verify_events over this mission's chain " ++ em_dash ++ u " the same pure verifier GET /audit/verify uses, run over events already loaded here"));
   ("invalid_offer_ratio", mkFeatureSpec FeatureSource.MISSION_ROW AuthorityLevel.TRUSTED_INTERNAL_SERVICE TrustLevel.TRUSTED
     (u "offers.valid == false over total offers, as recorded by normalization") false);
   ("amount_vs_merchant_median_ratio", mkFeatureSpec FeatureSource.AUTHORIZATION_ROW AuthorityLevel.AUTHORIZATION TrustLevel.TRUSTED
     (u "this amount over the median authorizations.bound_amount_inr for this merchant across prior missions; gated on min_history_observations") false);
   ("merchant_amount_observations", mkFeatureSpec FeatureSource.AUTHORIZATION_ROW AuthorityLevel.AUTHORIZATION TrustLevel.TRUSTED
     (u "count of prior authorized amounts for this merchant") false)].

Record MissionFacts := mkMissionFacts {
  mf_mission_id : uuid;
  mf_mission : option MissionRow;
  mf_constraints : option MissionConstraints;
  mf_policy_decision : option PolicyDecisionRow;
  mf_authorization : option AuthorizationRow;
  mf_payment_intent : option PaymentIntentRow;
  mf_offers : list OfferRow;
  mf_events : list AuditEventRow;
  mf_merchant_id : option string;
  mf_merchant_trust : float;
  mf_merchant_known : bool;
  mf_history : option MerchantHistory;
  mf_audit_chain_valid : bool;
  mf_audit_events_checked : Z
}.

Definition value_of (name : string) (value : FeatureScalar) (unavailable : option FeatureUnavailableReason)
    : outcome exn FeatureValue :=
  match py_dict_get name FEATURE_SPECS with
  | None => Raise (KeyError (py_repr ("feature " +:+ py_repr name +:+ " has no declared source in FEATURE_SPECS")))
  | Some spec =>
      let available := is_none unavailable in
      FeatureValue_new (mkFeatureValue name (if available then value else None) (fs_source spec) (fs_authority spec)
        (fs_trust spec) (fs_derived_from_untrusted_evidence spec) available unavailable (fs_detail spec))
  end.

Definition payload_reason (event : AuditEventRow) : option string :=
  match ev_payload event with
  | JObj payload => match py_dict_get "reason_code" payload with Some (JStr reason) => Some reason | _ => None end
  | _ => None
  end.
Definition count_events (p : AuditEventRow → bool) (events : list AuditEventRow) : Z :=
  Z.of_nat (length (List.filter p events)).
Definition count_type (events : list AuditEventRow) (types : list EventType) : Z :=
  count_events (λ e, existsb (λ t, String.eqb (ev_event_type e) (enum_value t)) types) events.
Definition has_reason (code : ReasonCode) (e : AuditEventRow) : bool :=
  bool_decide (payload_reason e = Some (enum_value code)).

(** ** What the database server chooses *)
Record RiskServer := mkRiskServer {
  rs_latest_decision : list PolicyDecisionRow → option PolicyDecisionRow;
  rs_latest_intent : list PaymentIntentRow → option PaymentIntentRow;
  rs_recent_authorizations : list AuthorizationRow → list AuthorizationRow;
  rs_recent_intents : list PaymentIntentRow → list PaymentIntentRow;
  rs_recent_violations : list AuditEventRow → list AuditEventRow
}.

Definition load_selected_merchant (authorization : option AuthorizationRow) (decision : option PolicyDecisionRow)
    : P (option string) :=
  match authorization with
  | Some a => mret (Some (au_bound_merchant_id a))
  | None =>
      match decision ≫= dr_selected_offer_id with
      | Some offer_id => reads (λ d, of_merchant_id <$> List.find (λ o, bool_decide (of_id o = offer_id)) (db_offers d))
      | None => mret None
      end
  end.

(** The payload's fields of a violation; a payload that is no object has none. *)
Definition violation_names (merchant_id key : string) (code : ReasonCode) (event : AuditEventRow) : bool :=
  let payload := match ev_payload event with JObj p => p | _ => [] end in
  json_eqb (default JNull (py_dict_get "reason_code" payload)) (JStr (enum_value code))
  && json_eqb (default JNull (py_dict_get key payload)) (JStr merchant_id).

Section Facts.
Context `{Env} (config : RiskConfig) (server : RiskServer).

Definition merchant_violation_counts (merchant_id : string) : P (Z * Z) :=
  rows ← reads (λ d, firstn SECURITY_HISTORY_WINDOW (rs_recent_violations server
    (List.filter (λ e, String.eqb (ev_event_type e) (enum_value EventType.SECURITY_VIOLATION)) (db_audit d))));
  mret (count_events (violation_names merchant_id AUTHENTICATED_MERCHANT_KEY ReasonCode.MERCHANT_IDENTITY_MISMATCH) rows,
        count_events (violation_names merchant_id MERCHANT_KEY ReasonCode.AUTHORITY_ESCALATION) rows).

Definition load_mission_facts (registry : MerchantRegistry) (mission_id : uuid) : P MissionFacts :=
  found ← reads (λ d, db_missions d !! mission_id);
  match found with
  | None => raise (MissionNotFound mission_id)
  | Some mission =>
      decision ← reads (λ d, rs_latest_decision server
        (List.filter (λ r, bool_decide (dr_mission_id r = mission_id)) (db_decisions d)));
      authorization ← reads (newest_authorization mission_id);
      payment_intent ← reads (λ d, rs_latest_intent server (mission_intents mission_id d));
      offers ← reads (λ d, List.filter (λ o, bool_decide (of_mission_id o = mission_id)) (db_offers d));
      events ← list_events mission_id;
      verification ← lift (verify_events mission_id events);
      merchant_id ← load_selected_merchant authorization decision;
      record ← (match merchant_id with
                | None => mret None
                | Some id => lift (r ← record_for registry id; Ok (Some r))
                end);
      history ← (match merchant_id with
                 | None => mret (empty_history NO_MERCHANT)
                 | Some id => load_merchant_history (rs_recent_authorizations server) (rs_recent_intents server) id
                                mission_id (min_history_observations config)
                 end);
      mret (mkMissionFacts mission_id (Some mission) (ms_constraints mission) decision authorization payment_intent offers
        events merchant_id
        (match record with Some r => mr_trust_score r | None => fl_zero end)
        (match record with Some r => mr_known r | None => false end)
        (Some history) (vr_valid verification) (vr_events_checked verification))
  end.
End Facts.

(** ** extract_features

    One row per feature in the order the code writes them: its name, its value, and why
    it has none. *)
Definition feature_row : Type := string * FeatureScalar * option FeatureUnavailableReason.
Definition measured (name : string) (value : scalar) : feature_row := (name, Some value, None).
Definition measured_opt (name : string) (value : option float) : feature_row := (name, VFloat <$> value, None).
Definition absent (name : string) (why : FeatureUnavailableReason) : feature_row := (name, None, Some why).

Fixpoint build_features (rows : list feature_row) (fs : features) : outcome exn features :=
  match rows with
  | [] => Ok fs
  | (name, value, unavailable) :: rest =>
      v ← value_of name value unavailable;
      build_features rest (py_dict_set name v fs)
  end.

(** [(amount / limit) if limit else None]. *)
Definition ratio_to (amount limit : Z) : outcome exn (option float) :=
  if limit =? 0 then Ok None else q ← truediv amount limit; Ok (Some q).
(** [max(0.0, x)]. *)
Definition max_zero (x : float) : float := if fl_ltb fl_zero x then x else fl_zero.
(** [timedelta.total_seconds()]. *)
Definition total_seconds (us : Z) : outcome exn float := truediv us 1000000.

Section Extract.
Context `{Env} (config : RiskConfig).

Definition requested_amount (facts : MissionFacts) : option Z := mf_policy_decision facts ≫= dr_requested_amount.

Definition amount_rows (facts : MissionFacts) : outcome exn (list feature_row) :=
  match mf_policy_decision facts, requested_amount facts with
  | Some decision, Some amount =>
      hard ← ratio_to amount (match mf_constraints facts with
                              | Some c => mc_hard_limit_inr c | None => dr_hard_limit decision end);
      soft ← ratio_to amount (match mf_constraints facts with
                              | Some c => mc_soft_budget_inr c | None => dr_soft_budget decision end);
      Ok [measured "requested_amount_inr" (VInt amount);
          measured_opt "amount_to_hard_limit_ratio" hard;
          measured_opt "amount_to_soft_budget_ratio" soft]
  | _, _ =>
      Ok [absent "requested_amount_inr" FeatureUnavailableReason.NO_POLICY_DECISION;
          absent "amount_to_hard_limit_ratio" FeatureUnavailableReason.NO_POLICY_DECISION;
          absent "amount_to_soft_budget_ratio" FeatureUnavailableReason.NO_POLICY_DECISION]
  end.

Definition merchant_rows (facts : MissionFacts) : list feature_row :=
  match mf_merchant_id facts with
  | None => [absent "merchant_trust" FeatureUnavailableReason.NO_SELECTED_MERCHANT;
             absent "merchant_known" FeatureUnavailableReason.NO_SELECTED_MERCHANT]
  | Some _ => [measured "merchant_trust" (VFloat (mf_merchant_trust facts));
               measured "merchant_known" (VBool (mf_merchant_known facts))]
  end.

Definition history_for (facts : MissionFacts) : MerchantHistory :=
  default (empty_history (default "" (mf_merchant_id facts))) (mf_history facts).

Definition payment_history_rows (history : MerchantHistory) : outcome exn (list feature_row) :=
  ratio ← (if min_merchant_payment_history config <=? payment_observations history
           then r ← failure_ratio history; Ok (measured_opt "merchant_failed_payment_ratio" r)
           else Ok (absent "merchant_failed_payment_ratio" FeatureUnavailableReason.INSUFFICIENT_HISTORY));
  Ok [measured "merchant_payment_observations" (VInt (payment_observations history)); ratio].

Definition authorization_rows (facts : MissionFacts) (now : option datetime) : outcome exn (list feature_row) :=
  match mf_authorization facts, now with
  | Some authorization, Some now =>
      let issued := dt_instant (as_utc (au_issued_at authorization)) in
      window ← total_seconds (dt_instant (as_utc (au_expires_at authorization)) - issued);
      elapsed ← total_seconds (dt_instant (as_utc now) - issued);
      Ok [measured "authorization_age_seconds" (VFloat (max_zero elapsed));
          measured_opt "authorization_lifetime_used_ratio"
            (if fl_ltb fl_zero window then Some (max_zero (fl_div elapsed window)) else None)]
  | _, _ =>
      Ok [absent "authorization_age_seconds" FeatureUnavailableReason.NO_AUTHORIZATION;
          absent "authorization_lifetime_used_ratio" FeatureUnavailableReason.NO_AUTHORIZATION]
  end.

Definition invalid_offer_row (offers : list OfferRow) : outcome exn feature_row :=
  let total := Z.of_nat (length offers) in
  if total <? min_offers_for_ratio config then Ok (absent "invalid_offer_ratio" FeatureUnavailableReason.NO_OFFERS)
  else
    r ← truediv (Z.of_nat (length (List.filter (λ o, negb (of_valid o)) offers))) total;
    Ok (measured "invalid_offer_ratio" (VFloat r)).

Definition anomaly_rows (history : MerchantHistory) (amount : option Z) : outcome exn (list feature_row) :=
  ratio ← (match amount with Some a => amount_ratio history a | None => Ok None end);
  Ok [measured "merchant_amount_observations" (VInt (mh_amount_observations history));
      match ratio with
      | Some r => measured "amount_vs_merchant_median_ratio" (VFloat r)
      | None => absent "amount_vs_merchant_median_ratio"
                  (if is_none amount then FeatureUnavailableReason.NO_POLICY_DECISION
                   else FeatureUnavailableReason.INSUFFICIENT_HISTORY)
      end].

Definition extract_features (facts : MissionFacts) (now : option datetime) : outcome exn features :=
  let events := mf_events facts in
  let history := history_for facts in
  amounts ← amount_rows facts;
  payments ← payment_history_rows history;
  authorizations ← authorization_rows facts now;
  offers ← invalid_offer_row (mf_offers facts);
  anomalies ← anomaly_rows history (requested_amount facts);
  build_features
    (amounts
     ++ [("quantity", (λ m, VInt (ms_quantity m)) <$> mf_mission facts, None)]
     ++ merchant_rows facts
     ++ payments
     ++ [measured "authorization_replay_attempts" (VInt (count_type events [EventType.AUTHORIZATION_REPLAY_DETECTED]));
         measured "transaction_binding_failures" (VInt (count_type events [EventType.TRANSACTION_BINDING_FAILURE]));
         measured "mission_authority_escalation_attempts"
           (VInt (count_events (λ e, String.eqb (ev_event_type e) (enum_value EventType.SECURITY_VIOLATION)
                                     && has_reason ReasonCode.AUTHORITY_ESCALATION e) events))]
     ++ authorizations
     ++ [match mf_payment_intent facts with
         | None => absent "payment_attempts" FeatureUnavailableReason.NO_PAYMENT_INTENT
         | Some intent => measured "payment_attempts" (VInt (pi_attempts intent))
         end;
         measured "provider_timeout_events" (VInt (count_type events [EventType.PAYMENT_PROVIDER_TIMEOUT]));
         measured "provider_response_mismatch_events"
           (VInt (count_events (has_reason ReasonCode.PROVIDER_RESPONSE_MISMATCH) events));
         measured "idempotency_conflict_events" (VInt (count_type events [EventType.IDEMPOTENCY_CONFLICT]));
         measured "webhook_anomaly_events"
           (VInt (count_type events [EventType.DUPLICATE_WEBHOOK_IGNORED; EventType.WEBHOOK_OUT_OF_ORDER_IGNORED]));
         measured "reconciliation_events" (VInt (count_type events [EventType.PAYMENT_RECONCILED]));
         measured "audit_chain_valid" (VBool (mf_audit_chain_valid facts));
         offers]
     ++ anomalies) [].

Definition extract_merchant_history_features (server : RiskServer) (facts : MissionFacts) : P features :=
  match mf_merchant_id facts with
  | None =>
      lift (build_features
        [absent "merchant_identity_mismatch_events" FeatureUnavailableReason.NO_SELECTED_MERCHANT;
         absent "merchant_authority_escalation_events" FeatureUnavailableReason.NO_SELECTED_MERCHANT] [])
  | Some merchant_id =>
      counts ← merchant_violation_counts server merchant_id;
      lift (build_features
        [measured "merchant_identity_mismatch_events" (VInt (fst counts));
         measured "merchant_authority_escalation_events" (VInt (snd counts))] [])
  end.
End Extract.
