(* ===== verification/RiskEngine.v ===== *)
(** * The risk engine's entry points

    services/risk_engine/engine.py: [assess_mission] reads and scores,
    [record_assessment] appends one audit event. *)
From S2P Require Import Prelude Python PyText PyFloat PyNumbers Json Text Enums Errors Transaction Merchant Kernel Policy.
From S2P Require Import Payment Database Hashing Evolution Ledger RiskModels RiskHeuristic RiskFeatures.

Module Risk.
Definition ACTOR : string := "risk-engine".
Definition DIGEST_PREFIX : nat := 16.
Definition HISTORY_SCOPE : string := "authenticated_merchant".

(** [features.update(other)]. *)
Definition update_features (fs other : features) : features :=
  fold_left (λ fs '(name, v), py_dict_set name v fs) other fs.

Definition quality_of (facts : MissionFacts) (fs : features) : outcome exn DataQuality :=
  let '(available, unavailable) := count_availability fs in
  DataQuality_new (mkDataQuality
    (match mf_history facts with Some h => mh_available h | None => false end)
    (match mf_history facts with Some h => mh_amount_observations h | None => 0 end)
    HISTORY_SCOPE
    (match mf_history facts with Some h => mh_cold_start h | None => true end)
    available unavailable (mf_audit_chain_valid facts)).

(** The assessment of loaded facts, under a fresh identifier. *)
Definition assessment_of (settings : RiskConfig) (assessment_id : uuid) (moment : datetime) (facts : MissionFacts)
    (fs : features) (factors : list RiskFactor) (raw_points : float) (quality : DataQuality) : RiskAssessment :=
  let normalized := normalize settings raw_points in
  let band := band_for settings normalized in
  let recommendation := recommendation_for band in
  let decision := mf_policy_decision facts in
  mkRiskAssessment assessment_id (mf_mission_id facts)
    ((λ a, str_take DIGEST_PREFIX (au_transaction_digest a)) <$> mf_authorization facts)
    normalized raw_points (saturation_points settings) band recommendation fs factors
    (build_explanation normalized band recommendation factors quality ((λ d, enum_value (dr_decision d)) <$> decision))
    moment ENGINE_VERSION MODEL_TYPE_HEURISTIC HEURISTIC_VERSION quality
    ((λ d, enum_value (dr_decision d)) <$> decision)
    (match decision with Some d => dr_reason_codes d | None => [] end).

Section Engine.
Context `{Env} (server : RiskServer).

Definition assess_mission (mission_id : uuid) (config : option RiskConfig) (registry : option MerchantRegistry)
    (now : option datetime) : P RiskAssessment :=
  let settings := default DEFAULT_RISK_CONFIG config in
  moment ← (match now with Some t => mret t | None => utcnow end);
  facts ← load_mission_facts settings server (default default_merchant_registry registry) mission_id;
  own ← lift (extract_features settings facts (Some moment));
  shared ← extract_merchant_history_features server facts;
  let fs := update_features own shared in
  scored ← lift (score settings fs);
  let '(factors, raw_points) := scored in
  quality ← lift (quality_of facts fs);
  assessment_id ← uuid4;
  lift (RiskAssessment_new (assessment_of settings assessment_id moment facts fs factors raw_points quality)).

Definition record_assessment (assessment : RiskAssessment) : P AuditEventRow :=
  append_event (rk_mission_id assessment) EventType.RISK_ASSESSED ACTOR (audit_payload assessment).

(** Assessing draws an identifier and reads the clock, and changes nothing else. *)
Definition reads_only (w w' : World) : Prop :=
  w_db w' = w_db w ∧ w_committed w' = w_committed w ∧ w_calls w' = w_calls w.
#[global] Instance reads_only_preorder : PreOrder reads_only.
Proof. split; [done|]. intros a b c (A1 & A2 & A3) (B1 & B2 & B3). repeat split; congruence. Qed.

Lemma reads_only_utcnow : evolves reads_only utcnow.
Proof. by intros w. Qed.
Lemma reads_only_uuid4 : evolves reads_only uuid4.
Proof. by intros w. Qed.
Lemma reads_only_reads {A} (f : DB → A) : evolves reads_only (reads f).
Proof. by intros w. Qed.
Hint Resolve reads_only_utcnow reads_only_uuid4 reads_only_reads : evolves.

Lemma evolves_load_facts config registry m : evolves reads_only (load_mission_facts config server registry m).
Proof. unfold load_mission_facts, load_selected_merchant, list_events, load_merchant_history. evolve. Qed.
Lemma evolves_history_features facts : evolves reads_only (extract_merchant_history_features server facts).
Proof. unfold extract_merchant_history_features, merchant_violation_counts. evolve. Qed.
Hint Resolve evolves_load_facts evolves_history_features : evolves.
Lemma evolves_assess_reads m config registry now : evolves reads_only (assess_mission m config registry now).
Proof. unfold assess_mission. evolve. Qed.
Lemma evolves_assess m config registry now : evolves sess_le (assess_mission m config registry now).
Proof.
  unfold assess_mission, load_mission_facts, load_selected_merchant, list_events, load_merchant_history,
    extract_merchant_history_features, merchant_violation_counts. evolve.
Qed.
Lemma evolves_record a : evolves sess_le (record_assessment a).
Proof. unfold record_assessment. evolve. Qed.
End Engine.
End Risk.
#[export] Hint Resolve Risk.evolves_assess Risk.evolves_record : evolves.
