(* ===== verification/Routes.v ===== *)
(** * The HTTP API

    apps/api/pactra/api/routes_missions.py, routes_payments.py and routes_risk.py, over the request
    session of apps/api/db/session.py.  A handler returns a body or raises: an
    [HTTPException] the framework turns into its status, or anything else.  The
    request's session discards what the handler did not commit.  The [created_at]
    columns are filled in by the database server and are left out of the bodies. *)
From S2P Require Import Prelude Python PyFloat Json Text Enums Errors Firewall Canonical Transaction.
From S2P Require Import StateMachines Merchant Kernel Policy Payment Database Hashing Evolution Ledger.
From S2P Require Import Binding Authorization Intents Provider Webhooks Worker Orchestrator.
From S2P Require Import Replay DecisionTrace RiskModels RiskFeatures RiskEngine.

(** ** Handlers and the session of a request *)
Inductive http_exn : Type :=
  | HTTPException (status_code : Z) (detail : json)
  | Unhandled (e : exn).
Definition Handler (A : Type) : Type := M World http_exn A.

(** [await service(...)], and [try: await service(...) except ...]. *)
Definition excepting {A} (m : P A) (h : exn → Handler A) : Handler A := λ w,
  match m w with (Ok a, w') => (Ok a, w') | (Raise e, w') => h e w' end.
Definition unhandled {A} (e : exn) : Handler A := raise (Unhandled e).
Definition serviced {A} (m : P A) : Handler A := excepting m unhandled.
Definition http_error {A} (status : Z) (detail : json) : Handler A := raise (HTTPException status detail).

(** [get_session]: one session per request, rolled back however the handler ends. *)
Definition get_session {A} (handler : Handler A) : Handler A := λ w,
  let '(o, w') := handler (set_w_db (w_committed w) w) in (o, set_w_db (w_committed w') w').

Definition reason (code : string) : json := JObj [("reason_code", JStr code)].
Definition reason_detail (code detail : string) : json :=
  JObj [("reason_code", JStr code); ("detail", JStr detail)].
(** [e.reason_code] of the exceptions that have one. *)
Definition code_of (e : exn) : string := default "" (reason_code e).

(** ** schemas_api.py *)
Record OfferOut := mkOfferOut {
  oo_offer_id : uuid;
  oo_offer_version : string;
  oo_merchant_id : string;
  oo_merchant_name : string;
  oo_merchant_trust : float;
  oo_product_id : string;
  oo_title : string;
  oo_amount_inr : Z;
  oo_currency : string;
  oo_rating : float;
  oo_in_stock : bool;
  oo_valid : bool;
  oo_rejection_reasons : list ReasonCode;
  oo_rank : option Z
}.
Record PolicyDecisionOut := mkPolicyDecisionOut {
  po_out_decision : PolicyOutcome;
  po_out_policy_version : string;
  po_out_reason_codes : list ReasonCode;
  po_out_requested_amount : option Z;
  po_out_soft_budget : Z;
  po_out_hard_limit : Z;
  po_out_selected_offer_id : option uuid
}.
Record MissionOut := mkMissionOut {
  mo_id : uuid;
  mo_state : MissionState;
  mo_raw_query : option string;
  mo_quantity : Z;
  mo_offers : list OfferOut;
  mo_policy_decision : option PolicyDecisionOut
}.
Record AuditEventOut := mkAuditEventOut {
  eo_event_id : uuid;
  eo_sequence : Z;
  eo_event_type : string;
  eo_actor : string;
  eo_payload : json;
  eo_previous_hash : string;
  eo_event_hash : string;
  eo_created_at : option datetime
}.
Record AuthorizationOut := mkAuthorizationOut {
  ao_authorization_id : uuid;
  ao_mission_id : uuid;
  ao_status : AuthorizationStatus;
  ao_transaction_digest : string;
  ao_binding_version : string;
  ao_policy_version : string;
  ao_offer_version : string;
  ao_approval_scheme : ApprovalScheme;
  ao_signing_key_id : option string;
  ao_issued_at : datetime;
  ao_expires_at : datetime;
  ao_consumed_at : option datetime;
  ao_bound_merchant_id : string;
  ao_bound_product_id : string;
  ao_bound_quantity : Z;
  ao_bound_amount_inr : Z;
  ao_bound_currency : string
}.
Record ApprovalRequest := mkApprovalRequest { ar_signing_key_id : string; ar_signature : string }.
(** The fields' constraints; [extra="forbid"] leaves no third field. *)
Definition ApprovalRequest_new (r : ApprovalRequest) : outcome exn ApprovalRequest :=
  if negb (length_within 1 120 (ar_signing_key_id r)) then Raise (ValidationError "signing_key_id")
  else if negb (hex_field SIGNATURE_HEX_LENGTH SIGNATURE_HEX_LENGTH (ar_signature r))
  then Raise (ValidationError "signature")
  else Ok r.
Record BoundTransactionSummary := mkBoundTransactionSummary {
  bs_merchant : string;
  bs_product : string;
  bs_quantity : Z;
  bs_amount : Z;
  bs_currency : string;
  bs_expiry : datetime
}.
Record ApprovalChallengeOut := mkApprovalChallengeOut {
  ac_authorization_id : uuid;
  ac_mission_id : uuid;
  ac_binding_version : string;
  ac_transaction_digest : string;
  ac_signing_key_id : string;
  ac_approval_scheme : string;
  ac_approval_message_hex : string;
  ac_transaction : BoundTransactionSummary
}.
Record PaymentIntentOut := mkPaymentIntentOut {
  io_payment_intent_id : uuid;
  io_mission_id : uuid;
  io_authorization_id : uuid;
  io_state : PaymentIntentState;
  io_idempotency_key : string;
  io_amount_inr : Z;
  io_currency : string;
  io_merchant_id : string;
  io_provider : string;
  io_provider_key_id : option string;
  io_provider_payment_id : option string;
  io_provider_order_id : option string;
  io_provider_transaction_id : option string;
  io_provider_receipt : option string;
  io_provider_status : option string;
  io_provider_attempts : option Z;
  io_attempts : Z;
  io_last_reason_code : option string
}.
Record WebhookAck := mkWebhookAck {
  wa_accepted : bool;
  wa_applied : bool;
  wa_reason_code : option string;
  wa_state : option PaymentIntentState
}.

(** ** What the database server chooses
    [ORDER BY rank] does not say where the unranked offers go, nor how ties fall; and
    [created_at] is the server's. *)
Record Server := mkServer {
  sv_by_rank : list OfferRow → list OfferRow;
  sv_latest_decision : list PolicyDecisionRow → option PolicyDecisionRow;
  sv_latest_intent : list PaymentIntentRow → option PaymentIntentRow;
  sv_risk : RiskServer
}.
(** It returns the rows it was asked for. *)
Record server_ok (s : Server) : Prop := {
  so_by_rank : ∀ l, sv_by_rank s l ≡ₚ l;
  so_decision : ∀ l, match sv_latest_decision s l with Some r => r ∈ l | None => l = [] end;
  so_intent : ∀ l, match sv_latest_intent s l with Some r => r ∈ l | None => l = [] end
}.

(** ** routes_missions.py *)
Definition offer_out (o : OfferRow) : OfferOut :=
  mkOfferOut (of_id o) (of_offer_version o) (of_merchant_id o) (of_merchant_name o) (of_merchant_trust o)
    (of_product_id o) (of_title o) (of_amount_inr o) (of_currency o) (of_rating o) (of_in_stock o)
    (of_valid o) (of_rejection_reasons o) (of_rank o).
Definition decision_out (pd : PolicyDecisionRow) : PolicyDecisionOut :=
  mkPolicyDecisionOut (dr_decision pd) (dr_policy_version pd) (dr_reason_codes pd) (dr_requested_amount pd)
    (dr_soft_budget pd) (dr_hard_limit pd) (dr_selected_offer_id pd).
Definition authorization_out (row : AuthorizationRow) : AuthorizationOut :=
  mkAuthorizationOut (au_authorization_id row) (au_mission_id row) (au_status row) (au_transaction_digest row)
    (au_binding_version row) (au_policy_version row) (au_offer_version row) (au_approval_scheme row)
    (au_signing_key_id row) (au_issued_at row) (au_expires_at row) (au_consumed_at row)
    (au_bound_merchant_id row) (au_bound_product_id row) (au_bound_quantity row) (au_bound_amount_inr row)
    (au_bound_currency row).
Definition event_out (r : AuditEventRow) : AuditEventOut :=
  mkAuditEventOut (ev_event_id r) (ev_sequence r) (ev_event_type r) (ev_actor r) (ev_payload r)
    (ev_previous_hash r) (ev_event_hash r) (ev_created_at r).

Definition mission_offers (m : uuid) (d : DB) : list OfferRow :=
  List.filter (λ r, bool_decide (of_mission_id r = m)) (db_offers d).
Definition mission_decisions (m : uuid) (d : DB) : list PolicyDecisionRow :=
  List.filter (λ r, bool_decide (dr_mission_id r = m)) (db_decisions d).

(** [bytes.hex()]. *)
Definition bytes_hex (b : bytes) : string := String.concat "" (map (hex_fixed 2) b).

Section Missions.
Context `{Env} (server : Server).

Definition load_mission (mission_id : uuid) : Handler MissionRow :=
  mission ← serviced (get_mission mission_id);
  match mission with
  | None => http_error 404 (JStr "mission not found")
  | Some mission => mret mission
  end.

Definition mission_out (mission_id : uuid) : Handler MissionOut :=
  mission ← serviced (get_mission mission_id);
  offers ← serviced (reads (λ d, sv_by_rank server (mission_offers mission_id d)));
  pd ← serviced (reads (λ d, sv_latest_decision server (mission_decisions mission_id d)));
  match mission with
  | None => unhandled (AttributeError "the mission row is gone")
  | Some mission =>
      mret (mkMissionOut (ms_id mission) (ms_state mission) (ms_raw_query mission) (ms_quantity mission)
              (map offer_out offers) (decision_out <$> pd))
  end.

Definition on_bind_refusal {A} (e : exn) : Handler A :=
  match e with
  | BindRefusedOfferChanged _ _ _ invariant_id =>
      serviced commit;;
      http_error 409 (JObj [("reason_code", JStr (code_of e)); ("invariant_id", JStr invariant_id)])
  | _ => unhandled e
  end.
Definition create_mission (request : CreateMissionRequest) : Handler (Z * MissionOut) :=
  mission ← excepting (run default_merchants default_merchant_registry request) on_bind_refusal;
  serviced commit;;
  body ← mission_out mission;
  mret (201, body).

Definition get_mission_route (mission_id : uuid) : Handler MissionOut :=
  load_mission mission_id;; mission_out mission_id.
Definition get_events (mission_id : uuid) : Handler (list AuditEventOut) :=
  load_mission mission_id;;
  rows ← serviced (list_events mission_id);
  mret (map event_out rows).
Definition verify_audit_chain (mission_id : uuid) : Handler AuditVerificationResult :=
  load_mission mission_id;; serviced (verify_mission_chain mission_id).
Definition replay_mission_state (mission_id : uuid) : Handler MissionReplayResult :=
  load_mission mission_id;; serviced (replay_mission (sv_latest_intent server) mission_id true).
Definition get_offers (mission_id : uuid) : Handler (list OfferOut) :=
  load_mission mission_id;;
  offers ← serviced (reads (λ d, sv_by_rank server (mission_offers mission_id d)));
  mret (map offer_out offers).

(** [authorization_for_mission], or 404. *)
Definition load_authorization (mission_id : uuid) : Handler AuthorizationRow :=
  row ← serviced (reads (newest_authorization mission_id));
  match row with
  | None => http_error 404 (JStr "no authorization for this mission")
  | Some row => mret row
  end.
Definition get_authorization (mission_id : uuid) : Handler AuthorizationOut :=
  load_mission mission_id;;
  row ← load_authorization mission_id;
  mret (authorization_out row).

Definition on_approval_failure {A} (e : exn) : Handler A :=
  match e with
  | AuthorizationFailure _ _ detail =>
      serviced commit;; http_error 409 (reason_detail (code_of e) detail)
  | _ => unhandled e
  end.
Definition approve_authorization (mission_id : uuid) (request : ApprovalRequest) : Handler AuthorizationOut :=
  mission ← load_mission mission_id;
  row ← load_authorization mission_id;
  if negb (bool_decide (ms_state mission = MissionState.AWAITING_APPROVAL)) then
    http_error 409 (JObj [("reason_code", JStr "MISSION_NOT_AWAITING_APPROVAL");
                          ("state", JStr (enum_value (ms_state mission)))])
  else
    activated ← excepting
      (approve_authorization_with_signature mission_id (au_authorization_id row)
         (ar_signing_key_id request) (ar_signature request) None)
      on_approval_failure;
    serviced (MissionFSM.assert_transition (ms_state mission) MissionState.AUTHORIZED);;
    serviced (set_mission_state mission_id MissionState.AUTHORIZED);;
    serviced commit;;
    mret (authorization_out activated).

Definition get_approval_challenge (mission_id : uuid) : Handler ApprovalChallengeOut :=
  mission ← load_mission mission_id;
  row ← load_authorization mission_id;
  if negb (bool_decide (ms_state mission = MissionState.AWAITING_APPROVAL))
     || negb (bool_decide (au_status row = AuthorizationStatus.PENDING))
     || negb (bool_decide (au_approval_scheme row = ApprovalScheme.USER_ED25519))
  then http_error 409 (reason "AUTHORIZATION_NOT_PENDING_USER_APPROVAL")
  else
    now ← serviced utcnow;
    if dt_geb now (as_utc (au_expires_at row)) then http_error 409 (reason "AUTHORIZATION_EXPIRED")
    else
      transaction ← serviced (lift (rebuild_bound_transaction row));
      message ← serviced (lift (approval_message (au_authorization_id row) (au_mission_id row)
        (au_binding_version row) (au_transaction_digest row) env_signing_key_id));
      mret (mkApprovalChallengeOut (au_authorization_id row) (au_mission_id row) (au_binding_version row)
        (au_transaction_digest row) env_signing_key_id (enum_value ApprovalScheme.USER_ED25519)
        (bytes_hex message)
        (mkBoundTransactionSummary (bt_merchant_id transaction) (bt_product_id transaction)
           (bt_quantity transaction) (bt_amount_inr transaction) (bt_currency transaction)
           (bt_expires_at transaction))).
End Missions.

(** ** routes_risk.py: the body is the assessment itself *)
Section RiskRoutes.
Context `{Env} (server : Server).

Definition on_missing_mission {A} (e : exn) : Handler A :=
  match e with
  | MissionNotFound _ => http_error 404 (JStr "mission not found")
  | _ => unhandled e
  end.
Definition get_mission_risk (mission_id : uuid) : Handler RiskAssessment :=
  excepting (Risk.assess_mission (sv_risk server) mission_id None None None) on_missing_mission.
Definition assess_and_record (mission_id : uuid) : Handler (Z * RiskAssessment) :=
  assessment ← excepting (Risk.assess_mission (sv_risk server) mission_id None None None) on_missing_mission;
  serviced (Risk.record_assessment assessment);;
  serviced commit;;
  mret (201, assessment).
End RiskRoutes.

(** ** routes_payments.py *)
Definition MAX_IDEMPOTENCY_KEY_LENGTH : Z := 200.
Definition MAX_WEBHOOK_BODY_BYTES : Z := 64 * 1024.

Section Payments.
Context `{Env} (server : Server).
(** [settings.razorpay_key_id]; the process's fake; and the Razorpay adapter built from
    the deployment's secrets, or why it could not be. *)
Context (razorpay_key_id : string) (fake : PaymentProvider) (from_environment : string + PaymentProvider).

Definition payment_out (row : PaymentIntentRow) : PaymentIntentOut :=
  mkPaymentIntentOut (pi_id row) (pi_mission_id row) (pi_authorization_id row) (pi_state row)
    (pi_idempotency_key row) (pi_amount_inr row) (pi_currency row) (pi_merchant_id row) (pi_provider row)
    (if String.eqb (pi_provider row) "razorpay_test" && String.prefix "rzp_test_" razorpay_key_id
        && negb (String.eqb razorpay_key_id "rzp_test_REPLACE_ME")
     then Some razorpay_key_id else None)
    (pi_provider_payment_id row) (pi_provider_order_id row) (pi_provider_transaction_id row)
    (pi_provider_receipt row) (pi_provider_status row) (pi_provider_attempts row) (pi_attempts row)
    (pi_last_reason_code row).

(** [provider or ("fake" if settings.app_env != "production" else "razorpay_test")]. *)
Definition provider_name_for (provider : option string) : string :=
  let fallback := if negb (String.eqb env_app_env "production") then "fake" else "razorpay_test" in
  match provider with
  | Some name => if String.eqb name "" then fallback else name
  | None => fallback
  end.

(** The registry's refusals, by the status an unknown name has on the route. *)
Definition resolved {A} (unknown_status : Z) (unknown : string → json) (o : outcome RegistryError A) : Handler A :=
  match o with
  | Ok a => mret a
  | Raise (UnknownProvider name) => http_error unknown_status (unknown name)
  | Raise (ProviderUnavailable _ detail) => http_error 503 (reason_detail "PAYMENT_PROVIDER_UNAVAILABLE" detail)
  end.

Definition on_payment_refused {A} (e : exn) : Handler A :=
  match e with
  | CapabilityDenied _ _ => http_error 403 (reason (code_of e))
  | PaymentRejected _ detail => http_error 409 (reason_detail (code_of e) detail)
  | AuthorizationFailure _ _ detail => http_error 409 (reason_detail (code_of e) detail)
  | _ => unhandled e
  end.

Definition request_payment (mission_id : uuid) (idempotency_key : string) (provider : option string)
    : Handler (Z * PaymentIntentOut) :=
  let provider_name := provider_name_for provider in
  if String.eqb idempotency_key "" || (MAX_IDEMPOTENCY_KEY_LENGTH <? Z.of_nat (String.length idempotency_key))
  then http_error 400 (reason_detail "IDEMPOTENCY_KEY_INVALID"
         ("Idempotency-Key must be 1.." +:+ str_int MAX_IDEMPOTENCY_KEY_LENGTH +:+ " characters"))
  else
    resolved 400 (λ _, JObj [("reason_code", JStr "UNKNOWN_PAYMENT_PROVIDER"); ("provider", JStr provider_name)])
      (provider_for fake from_environment provider_name env_app_env);;
    mission ← serviced (get_mission mission_id);
    match mission with
    | None => http_error 404 (JStr "mission not found")
    | Some _ =>
      authorization ← serviced (reads (newest_authorization mission_id));
      match authorization with
      | None => http_error 409 (reason_detail "NO_AUTHORIZATION" "this mission has no authorization to spend")
      | Some authorization =>
          result ← excepting
            (create_payment_intent executor_capabilities mission_id (au_authorization_id authorization)
               idempotency_key provider_name None)
            on_payment_refused;
          serviced commit;;
          intent ← serviced (get_intent (pr_intent result));
          mret (if pr_created result then 201 else 200, payment_out intent)
      end
    end.

Definition get_payment (mission_id : uuid) : Handler PaymentIntentOut :=
  load_mission mission_id;;
  intent ← serviced (reads (λ d, sv_latest_intent server (mission_intents mission_id d)));
  match intent with
  | None => http_error 404 (JStr "no payment intent for this mission")
  | Some intent => mret (payment_out intent)
  end.

Definition webhook_status (reason_code : string) : Z :=
  if String.eqb reason_code "WEBHOOK_UNKNOWN_PAYMENT" then 404
  else if String.eqb reason_code "WEBHOOK_SIGNATURE_INVALID" then 401
  else 400.
Definition on_webhook_rejected {A} (e : exn) : Handler A :=
  match e with
  | WebhookRejected code _ => http_error (webhook_status code) (reason code)
  | _ => unhandled e
  end.

(** [headers] are the request's, by lower-case name. *)
Definition receive_webhook (provider_name : string) (body : bytes) (headers : list (string * string))
    : Handler WebhookAck :=
  let unknown (_ : string) := reason "UNKNOWN_PAYMENT_PROVIDER" in
  provider ← resolved 404 unknown (provider_for fake from_environment provider_name env_app_env);
  header_name ← resolved 404 unknown (signature_header_for provider_name);
  event_id_header ← resolved 404 unknown (event_id_header_for provider_name);
  if MAX_WEBHOOK_BODY_BYTES <? Z.of_nat (length body)
  then http_error 413 (reason "WEBHOOK_BODY_TOO_LARGE")
  else
    let signature := default "" (py_dict_get header_name headers) in
    let provider_event_id :=
      match event_id_header with
      | Some h => if String.eqb h "" then None else Some (default "" (py_dict_get h headers))
      | None => None
      end in
    outcome ← excepting (handle_webhook provider body signature provider_event_id None) on_webhook_rejected;
    serviced commit;;
    mret (mkWebhookAck (wo_accepted outcome) (wo_applied outcome) (wo_reason_code outcome) (wo_state outcome)).
End Payments.
