(* ===== verification/RoutesProperties.v ===== *)
(** * What the HTTP API establishes

    No request moves money: a route writes, at most, instructions the worker acts on.
    What a caller is told of is durable when it is told, and a refused request leaves
    what is durable alone. *)
From S2P Require Import Prelude Python PyFloat Json Text Enums Errors Firewall Canonical Transaction.
From S2P Require Import StateMachines Merchant Kernel Policy Payment Database Hashing Evolution Ledger.
From S2P Require Import Binding Authorization AuthorizationTheorems Intents IntentsProperties Provider.
From S2P Require Import Webhooks Worker WorkerProperties Orchestrator OrchestratorProperties Replay.
From S2P Require Import DecisionTrace RiskModels RiskFeatures RiskEngine Routes AuthorizationProperties WebhooksProperties.

(** ** The endpoints *)
Inductive endpoint : Type :=
  | PostMission (request : CreateMissionRequest)
  | GetMission (mission_id : uuid)
  | GetEvents (mission_id : uuid)
  | GetAuditVerification (mission_id : uuid)
  | GetReplay (mission_id : uuid)
  | GetOffers (mission_id : uuid)
  | GetAuthorization (mission_id : uuid)
  | PostApproval (mission_id : uuid) (request : ApprovalRequest)
  | GetChallenge (mission_id : uuid)
  | PostPayment (mission_id : uuid) (idempotency_key : string) (provider : option string)
  | GetPayment (mission_id : uuid)
  | GetRisk (mission_id : uuid)
  | PostRiskAssessment (mission_id : uuid)
  | PostWebhook (provider_name : string) (body : bytes) (headers : list (string * string)).

Definition is_read (e : endpoint) : bool :=
  match e with PostMission _ | PostApproval _ _ | PostPayment _ _ _ | PostWebhook _ _ _ | PostRiskAssessment _ => false | _ => true end.

(** ** Runs of handlers *)
Section Handlers.
Lemma excepting_Ok {A} (m : P A) h w (a : A) w' : excepting m h w = (Ok a, w') →
  m w = (Ok a, w') ∨ ∃ e w1, m w = (Raise e, w1) ∧ h e w1 = (Ok a, w').
Proof. unfold excepting. destruct (m w) as [[x|e] w1]; intros E1; [left; by injection E1 as -> ->|right; eauto]. Qed.
Lemma serviced_Ok {A} (m : P A) w (a : A) w' : serviced m w = (Ok a, w') ↔ m w = (Ok a, w').
Proof. unfold serviced, excepting, unhandled, raise. destruct (m w) as [[x|e] w1]; split; intros E1; try discriminate; by injection E1 as -> ->. Qed.
Lemma evolves_excepting {A} (R : World → World → Prop) `{!PreOrder R} (m : P A) h :
  evolves R m → (∀ e, evolves R (h e)) → evolves R (excepting m h).
Proof.
  intros Hm Hh w. specialize (Hm w). unfold excepting. destruct (m w) as [[x|e] w1]; [done|].
  etransitivity; [exact Hm|apply Hh].
Qed.
Lemma evolves_serviced {A} (R : World → World → Prop) `{!PreOrder R} (m : P A) : evolves R m → evolves R (serviced m).
Proof. intros Hm. apply evolves_excepting; [apply _|done|]. by intros e w. Qed.
Lemma evolves_http_error {A} (R : World → World → Prop) `{!PreOrder R} s d : evolves R (http_error (A:=A) s d).
Proof. by intros w. Qed.
Lemma evolves_unhandled {A} (R : World → World → Prop) `{!PreOrder R} e : evolves R (unhandled (A:=A) e).
Proof. by intros w. Qed.

(** Nothing durable changes before a commit. *)
Definition uncommitted (w w' : World) : Prop := w_committed w' = w_committed w.
#[global] Instance uncommitted_preorder : PreOrder uncommitted.
Proof. split; unfold uncommitted; [done|]. intros a b c. congruence. Qed.
Lemma uncommitted_sess {A} (m : P A) : evolves sess_le m → evolves uncommitted m.
Proof. apply evolves_weaken. by intros s s' []. Qed.

(** The state moved forward, and no provider was called. *)
Definition http_le (w w' : World) : Prop := durable_le w w' ∧ w_calls w' = w_calls w.
#[global] Instance http_le_preorder : PreOrder http_le.
Proof. split; unfold http_le; [done|]. intros a b c [A1 A2] [B1 B2]. split; [by etransitivity|congruence]. Qed.
Lemma http_sess {A} (m : P A) : evolves sess_le m → evolves http_le m.
Proof. apply evolves_weaken. intros s s' Hs. split; [by apply sess_durable|by destruct Hs]. Qed.
Lemma http_commit : evolves http_le commit.
Proof. intros w. split; [apply durable_commit|done]. Qed.
(** A session starts from the durable state and ends there. *)
Lemma get_session_le {A} (h : Handler A) w :
  http_le (set_w_db (w_committed w) w) (snd (h (set_w_db (w_committed w) w))) →
  w_db w = w_committed w → http_le w (snd (get_session h w)).
Proof.
  intros Hh Hs. unfold get_session. rewrite settled_eq in * by done. destruct (h w) as [o w1]. cbn in *.
  etransitivity; [exact Hh|]. split; [apply (durable_rollback w1)|done].
Qed.
Lemma get_session_settled {A} (h : Handler A) w :
  w_db (snd (get_session h w)) = w_committed (snd (get_session h w)).
Proof. unfold get_session. by destruct (h _). Qed.
End Handlers.
#[export] Hint Resolve evolves_http_error evolves_unhandled : evolves.
#[export] Hint Resolve http_commit : evolves.
#[export] Hint Extern 5 (evolves uncommitted _) => apply uncommitted_sess : evolves.
#[export] Hint Extern 5 (evolves http_le _) => apply http_sess : evolves.
Ltac http_evolve := repeat first
  [ progress evolve
  | apply evolves_serviced; [apply _|]
  | apply evolves_excepting; [apply _| |intros ?] ].

Section Api.
Context `{Env} (server : Server) (razorpay_key_id : string) (fake : PaymentProvider).
Context (from_environment : string + PaymentProvider).

(** The world a request leaves. *)
Definition respond (e : endpoint) (w : World) : World :=
  match e with
  | PostMission request => snd (get_session (create_mission server request) w)
  | GetMission m => snd (get_session (get_mission_route server m) w)
  | GetEvents m => snd (get_session (get_events m) w)
  | GetAuditVerification m => snd (get_session (verify_audit_chain m) w)
  | GetReplay m => snd (get_session (replay_mission_state server m) w)
  | GetOffers m => snd (get_session (get_offers server m) w)
  | GetAuthorization m => snd (get_session (get_authorization m) w)
  | PostApproval m request => snd (get_session (approve_authorization m request) w)
  | GetChallenge m => snd (get_session (get_approval_challenge m) w)
  | PostPayment m key provider =>
      snd (get_session (request_payment razorpay_key_id fake from_environment m key provider) w)
  | GetPayment m => snd (get_session (get_payment server razorpay_key_id m) w)
  | GetRisk m => snd (get_session (get_mission_risk server m) w)
  | PostRiskAssessment m => snd (get_session (assess_and_record server m) w)
  | PostWebhook name body headers => snd (get_session (receive_webhook fake from_environment name body headers) w)
  end.

(** ** Handlers that read *)
Lemma evolves_load_mission R `{!PreOrder R} m : evolves R (load_mission m).
Proof. unfold load_mission. http_evolve. Qed.
Lemma evolves_load_authorization R `{!PreOrder R} m : evolves R (load_authorization m).
Proof. unfold load_authorization. http_evolve. Qed.
Lemma evolves_mission_out R `{!PreOrder R} m : evolves R (mission_out server m).
Proof. unfold mission_out. http_evolve. Qed.
Lemma evolves_resolved {A} R `{!PreOrder R} s u (o : outcome RegistryError A) : evolves R (resolved s u o).
Proof. unfold resolved. evolve. Qed.
Hint Resolve evolves_load_mission evolves_load_authorization evolves_mission_out evolves_resolved : evolves.

Lemma evolves_replay m : evolves sess_le (replay_mission (sv_latest_intent server) m true).
Proof.
  intros w. destruct (replay_mission (sv_latest_intent server) m true w) as [o w'] eqn:E. cbn.
  assert (w' = w) as ->; [|done]. revert E. unfold replay_mission, verify_mission_chain, list_events, mbind, M_bind.
  unfold reads, gets, lift. destruct (verify_events m _) as [v|e]; [|by intros [= _ <-]].
  destruct (negb (vr_valid v)); [by intros [= _ <-]|]. destruct (reduce_events m _) as [p|e].
  - cbn. destruct (decision_trace_from_events _); by intros [= _ <-].
  - destruct e; cbn; by intros [= _ <-].
Qed.
Hint Resolve evolves_replay : evolves.

Lemma reads_uncommitted e w : is_read e = true → w_committed (respond e w) = w_committed w.
Proof.
  assert (Hs : ∀ A (h : Handler A), evolves uncommitted h → w_committed (snd (get_session h w)) = w_committed w).
  { intros A h Hh. unfold get_session. specialize (Hh (set_w_db (w_committed w) w)).
    destruct (h _) as [o w1]. by cbn in *. }
  intros Hr. destruct e; try discriminate; apply Hs;
    unfold get_mission_route, get_events, verify_audit_chain, verify_mission_chain, list_events, replay_mission_state,
      get_offers, get_authorization, get_approval_challenge, get_payment, get_mission_risk, on_missing_mission; http_evolve.
Qed.

(** ** An approval *)

(** Only the audit ledger and the authorizations changed, and none became ACTIVE. *)
Definition auths_only (w w' : World) : Prop :=
  db_missions (w_db w') = db_missions (w_db w) ∧ db_intents (w_db w') = db_intents (w_db w) ∧
  db_outbox (w_db w') = db_outbox (w_db w) ∧ db_decisions (w_db w') = db_decisions (w_db w).
#[local] Instance auths_only_preorder : PreOrder auths_only.
Proof.
  split; unfold auths_only; [done|]. intros a b c (A1 & A2 & A3 & A4) (B1 & B2 & B3 & B4). split_and!; congruence.
Qed.
Definition none_activated (w w' : World) : Prop :=
  auths_only w w' ∧ ∀ j r, db_auths (w_db w') !! j = Some r → au_status r = AuthorizationStatus.ACTIVE →
    db_auths (w_db w) !! j = Some r.
#[local] Instance none_activated_preorder : PreOrder none_activated.
Proof.
  split; unfold none_activated; [by intros w|]. intros a b c [A1 A2] [B1 B2]. split; [by etransitivity|]. auto.
Qed.
Lemma same_db_none w w' : w_db w' = w_db w → none_activated w w'.
Proof. unfold none_activated, auths_only. by intros ->. Qed.
Lemma none_append m t actor p : evolves none_activated (append_event m t actor p).
Proof.
  intros w. destruct (append_event_cases m t actor p w) as [(h & Hr & ->)|(e & w' & -> & Hd & _)]; cbn [snd]; [done|].
  by apply same_db_none.
Qed.
Lemma none_reads {A} (f : DB → A) : evolves none_activated (reads f).
Proof. intros w. by apply same_db_none. Qed.
Lemma none_clock now : evolves none_activated (moment_of now).
Proof. destruct now; intros w; by apply same_db_none. Qed.
Lemma auths_only_update i pred f : evolves auths_only (update_authorization i pred f).
Proof.
  intros w. rewrite update_authorization_cases. destruct (db_auths (w_db w) !! i) as [r|]; [|done].
  destruct (pred r); [|done]. by destruct (violates _).
Qed.
Hint Resolve none_append none_reads none_clock : evolves.
Lemma none_audit m t p : evolves none_activated (audit m t p).
Proof. unfold audit. evolve. Qed.
Hint Resolve none_audit : evolves.
Lemma none_expired i pred : evolves none_activated (update_authorization i pred (set_au_status AuthorizationStatus.EXPIRED)).
Proof.
  intros w. rewrite update_authorization_cases. destruct (db_auths (w_db w) !! i) as [r0|] eqn:Er; [|done].
  destruct (pred r0); [|done]. destruct (violates _); cbn [snd]; [done|]. split; [done|]. cbn.
  intros j r' [[<- <-]|[_ Hr']]%lookup_insert_Some Ha; [discriminate|done].
Qed.
Hint Resolve none_expired : evolves.
Lemma none_classify {A} i t now s : evolves none_activated (classify_and_raise (A:=A) i t now s).
Proof. unfold classify_and_raise, expire_if_stale, reload, auth_failure. evolve. Qed.
Lemma none_proof_failure {A} r k e : evolves none_activated (on_proof_failure (A:=A) r k e).
Proof. unfold on_proof_failure, audit_proof_failure. evolve. Qed.
Lemma none_policy r : evolves none_activated (require_policy_scheme r).
Proof. unfold require_policy_scheme, auth_failure. evolve. Qed.
Hint Resolve none_classify none_proof_failure none_policy : evolves.

(** If it fails as an authorization, it activated nothing. *)
Definition fails_inactive {A} (m : P A) : Prop :=
  ∀ w k i d w', m w = (Raise (AuthorizationFailure k i d), w') → none_activated w w'.
Lemma inactive_evolves {A} (m : P A) : evolves none_activated m → fails_inactive m.
Proof. intros Hm w k i d w' E1. specialize (Hm w). by rewrite E1 in Hm. Qed.
Lemma inactive_bind {A B} (m : P A) (f : A → P B) :
  evolves none_activated m → (∀ a, fails_inactive (f a)) → fails_inactive (m ≫= f).
Proof.
  intros Hm Hf w k i d w'. specialize (Hm w). unfold mbind, M_bind. destruct (m w) as [[a|e] w1]; intros E1.
  - etransitivity; [exact Hm|]. by apply Hf in E1.
  - by injection E1 as -> ->.
Qed.
Lemma append_event_raises m t actor p w e w' :
  append_event m t actor p w = (Raise e, w') → ∃ c, e = IntegrityError c.
Proof.
  unfold append_event, reads, gets, lift, utcnow, uuid4, insert_audit, read_db, mbind, M_bind.
  destruct (compute_event_hash_total (str_uuid m)
    match last_event m (w_db w) with None => 0 | Some p => ev_sequence p + 1 end (enum_value t) actor (JObj p)
    match last_event m (w_db w) with None => GENESIS_HASH | Some p => ev_event_hash p end
    (env_utcnow (w_ticks w))) as [h ->].
  unfold reads, gets, flush_checked.
  match goal with |- context [violates ?l] => destruct (violates l) as [c|] end; cbn; intros [= <- <-]. by exists c.
Qed.
Lemma inactive_update {A} i pred f (k : Z → P A) :
  evolves none_activated (k 0) →
  (∀ w r kd id d w', db_auths (w_db w) !! i = Some r → k 1 w ≠ (Raise (AuthorizationFailure kd id d), w')) →
  fails_inactive (update_authorization i pred f ≫= k).
Proof.
  intros H0 H1 w kd id d w' E. unfold mbind, M_bind in E. rewrite update_authorization_cases in E. specialize (H0 w).
  destruct (db_auths (w_db w) !! i) as [r|]; [|by rewrite E in H0]. destruct (pred r); [|by rewrite E in H0].
  destruct (violates _); [discriminate|]. exfalso. revert E. eapply (H1 _ (f r)). cbn. by rewrite lookup_insert_eq.
Qed.
Lemma audit_raises m t p w kd id d w' : audit m t p w ≠ (Raise (AuthorizationFailure kd id d), w').
Proof.
  unfold audit, mbind, M_bind, mret, M_ret. destruct (append_event _ _ _ _ _) as [[ev|e] w2] eqn:Ea; [done|].
  apply append_event_raises in Ea as [c ->]. discriminate.
Qed.
Lemma approve_refused m i k s now : fails_inactive (approve_authorization_with_signature m i k s now).
Proof.
  assert (Hf : ∀ kd id d, fails_inactive (auth_failure (A:=AuthorizationRow) kd id d)).
  { intros kd id d. apply inactive_evolves. unfold auth_failure. evolve. }
  unfold approve_authorization_with_signature. apply inactive_bind; [evolve|intros moment].
  apply inactive_bind; [unfold reload; evolve|intros [row|]]; [|apply Hf].
  destruct (negb (bool_decide (au_mission_id row = m))); [apply Hf|].
  apply inactive_bind; [evolve|intros []].
  destruct (negb (bool_decide (au_approval_scheme row = _))).
  { apply inactive_bind; [unfold audit_proof_failure; evolve|intros _; apply Hf]. }
  apply inactive_bind; [evolve|intros ?]. destruct (negb (String.eqb _ _)); [apply Hf|].
  apply inactive_bind; [evolve|intros []]. apply inactive_update.
  - unfold moved_row, reload, auth_failure. evolve.
  - intros w r kd id d w' Hr. unfold moved_row, reload, reads, gets, mbind, M_bind, mret, M_ret. cbn. rewrite Hr.
    match goal with |- context [audit ?a ?b ?c w] =>
      pose proof (audit_raises a b c w kd id d w') as Ha; destruct (audit a b c w) as [[[]|e] w2] end; [done|].
    intros [= -> ->]. by apply Ha.
Qed.
Lemma auths_only_approve m i k s now : evolves auths_only (approve_authorization_with_signature m i k s now).
Proof.
  pose proof auths_only_update as Hu.
  assert (Hn : ∀ A (x : P A), evolves none_activated x → evolves auths_only x) by (intros A x; apply evolves_weaken; by intros ? ? []).
  unfold approve_authorization_with_signature, reload, moved_row, auth_failure.
  evolve; try (apply Hn; by eauto with evolves); by intros w.
Qed.

(** What a route that approves leaves of the rows it read. *)
Definition approved (k s : string) (r : AuthorizationRow) : AuthorizationRow :=
  set_au_approval_signature (Some s) (set_au_signing_key_id (Some k) (set_au_status AuthorizationStatus.ACTIVE r)).
Definition approval_recorded (m : uuid) (req : ApprovalRequest) (out : AuthorizationOut) (w w' : World) : Prop :=
  ∃ i r ms, db_auths (w_db w) !! i = Some r ∧ au_mission_id r = m ∧ au_status r = AuthorizationStatus.PENDING ∧
    au_approval_scheme r = ApprovalScheme.USER_ED25519 ∧ proof_verifies r (ar_signing_key_id req) (ar_signature req) ∧
    db_missions (w_db w) !! m = Some ms ∧ ms_state ms = MissionState.AWAITING_APPROVAL ∧
    out = authorization_out (approved (ar_signing_key_id req) (ar_signature req) r) ∧
    db_auths (w_db w') = <[i := approved (ar_signing_key_id req) (ar_signature req) r]> (db_auths (w_db w)) ∧
    db_missions (w_db w') = <[m := set_ms_state MissionState.AUTHORIZED ms]> (db_missions (w_db w)) ∧
    db_intents (w_db w') = db_intents (w_db w) ∧ db_outbox (w_db w') = db_outbox (w_db w).

Lemma load_mission_cases m w :
  load_mission m w = match db_missions (w_db w) !! m with
    | Some r => (Ok r, w) | None => (Raise (HTTPException 404 (JStr "mission not found")), w) end.
Proof.
  unfold load_mission, serviced, excepting, get_mission, reads, gets, mbind, M_bind.
  by destruct (db_missions (w_db w) !! m).
Qed.
Lemma load_authorization_cases m w :
  load_authorization m w = match newest_authorization m (w_db w) with
    | Some r => (Ok r, w) | None => (Raise (HTTPException 404 (JStr "no authorization for this mission")), w) end.
Proof.
  unfold load_authorization, serviced, excepting, reads, gets, mbind, M_bind.
  by destruct (newest_authorization m (w_db w)).
Qed.

(** The route before its session closes: on success it has committed. *)
Lemma approve_route_cases m req w :
  match approve_authorization m req w with
  | (Ok out, w') => approval_recorded m req out w w' ∧ w_committed w' = w_db w'
  | (Raise _, w') => w_committed w' = w_committed w ∨ none_activated w w' ∧ w_committed w' = w_db w'
  end.
Proof.
  unfold approve_authorization. unfold mbind at 1, M_bind at 1. rewrite load_mission_cases.
  destruct (db_missions (w_db w) !! m) as [ms|] eqn:Em; [|by left].
  unfold mbind at 1, M_bind at 1. rewrite load_authorization_cases.
  destruct (newest_authorization m (w_db w)) as [row|]; [|by left].
  destruct (bool_decide_reflect (ms_state ms = MissionState.AWAITING_APPROVAL)) as [Hst|]; cbn [negb]; [|by left].
  unfold mbind at 1, M_bind at 1. unfold excepting.
  pose proof (auths_only_approve m (au_authorization_id row) (ar_signing_key_id req) (ar_signature req) None w) as Ho.
  pose proof (evolves_approve m (au_authorization_id row) (ar_signing_key_id req) (ar_signature req) None w) as Hs.
  destruct (approve_authorization_with_signature _ _ _ _ _ w) as [[act|e] w1] eqn:E; cbn in Ho, Hs.
  - apply approve_Ok in E as (r & mo & Hr & Hm & Hp & Hsc & _ & _ & _ & _ & _ & Hproof & -> & Ha).
    destruct Ho as (O1 & O2 & O3 & _). unfold MissionFSM.assert_transition. rewrite Hst. cbn.
    split; [|done]. exists (au_authorization_id row), r, ms. split_and!; try done. cbn. rewrite O1.
    apply map_eq. intros j. destruct (decide (j = m)) as [->|Hj].
    + by rewrite lookup_alter_eq, Em, lookup_insert_eq.
    + by rewrite lookup_alter_ne, lookup_insert_ne.
  - unfold on_approval_failure. destruct e; try (left; by destruct Hs). right. split; [|done].
    by apply approve_refused in E.
Qed.

(** ** A payment request *)

(** The intent a creation reports is stored. *)
Lemma created_is_stored c m a k prov now w r w' : intents_ok (w_db w) →
  create_payment_intent c m a k prov now w = (Ok r, w') →
  ∃ row, db_intents (w_db w') !! pr_intent r = Some row ∧ pi_id row = pr_intent r.
Proof.
  intros Hok E. destruct r as [i []]; cbn.
  - apply create_Ok in E as (_ & _ & _ & ms & z & t & fp & mo & _ & _ & _ & _ & _ & _ & _ & _ & _ & _ & Hi & _).
    rewrite Hi, lookup_insert_eq. by eexists.
  - pose proof (create_cases c m a k prov now w) as Hc. rewrite E in Hc.
    apply create_reused in E as (x & z & t & Hx & -> & _). destruct Hc as (Hi & _). rewrite Hi.
    apply find_key_Some in Hx as (_ & j & Hj). exists x. by rewrite (io_id _ Hok j x Hj).
Qed.

Lemma serviced_get_intent i x w : db_intents (w_db w) !! i = Some x → serviced (get_intent i) w = (Ok x, w).
Proof.
  intros Hx. unfold serviced, excepting, get_intent, read_db, reads, gets, mbind, M_bind, mret, M_ret. by rewrite Hx.
Qed.
Lemma payment_route_cases m key provider w : intents_ok (w_db w) →
  match request_payment razorpay_key_id fake from_environment m key provider w with
  | (Ok (status, out), w') =>
      ∃ a r w1 row, create_payment_intent executor_capabilities m a key (provider_name_for provider) None w = (Ok r, w1) ∧
        w' = snd (commit w1) ∧ status = (if pr_created r then 201 else 200) ∧
        db_intents (w_db w1) !! pr_intent r = Some row ∧ pi_id row = pr_intent r ∧ out = payment_out razorpay_key_id row
  | (Raise _, w') => w_committed w' = w_committed w
  end.
Proof.
  intros Hok. unfold request_payment. cbv zeta. destruct (_ || _); [done|]. unfold mbind at 1, M_bind at 1.
  assert (Hres : ∀ A s u (o : outcome RegistryError A), snd (resolved s u o w) = w) by (intros A s u [x|[]]; done).
  pose proof (Hres _ 400 (λ _, JObj [("reason_code", JStr "UNKNOWN_PAYMENT_PROVIDER");
    ("provider", JStr (provider_name_for provider))])
    (provider_for fake from_environment (provider_name_for provider) env_app_env)) as Hw.
  destruct (resolved _ _ _ w) as [[pv|e] w0]; cbn in Hw; subst w0; [|done].
  unfold mbind at 1, M_bind at 1, serviced at 1, excepting, get_mission, reads, gets.
  destruct (db_missions (w_db w) !! m) as [ms|]; [|done].
  unfold mbind at 1, M_bind at 1, serviced at 1, excepting. cbn [fst snd].
  destruct (newest_authorization m (w_db w)) as [row|]; [|done]. unfold mbind at 1, M_bind at 1.
  pose proof (evolves_create executor_capabilities m (au_authorization_id row) key (provider_name_for provider) None w) as Hs.
  destruct (create_payment_intent _ _ _ _ _ _ w) as [[r|e] w1] eqn:E; cbn in Hs.
  - destruct (created_is_stored _ _ _ _ _ _ _ _ _ Hok E) as (x & Hx & Hid). unfold mbind, M_bind.
    change (serviced commit w1) with ((Ok tt : outcome http_exn unit), snd (commit w1)). cbv beta iota.
    rewrite (serviced_get_intent _ x) by exact Hx.
    exists (au_authorization_id row), r, w1, x. by split_and!.
  - unfold on_payment_refused. destruct e; by destruct Hs.
Qed.

(** ** A mission and a webhook *)
Lemma mission_out_Ok m ms w : db_missions (w_db w) !! m = Some ms →
  mission_out server m w =
    (Ok (mkMissionOut (ms_id ms) (ms_state ms) (ms_raw_query ms) (ms_quantity ms)
       (map offer_out (sv_by_rank server (mission_offers m (w_db w))))
       (decision_out <$> sv_latest_decision server (mission_decisions m (w_db w)))), w).
Proof.
  intros Hm. unfold mission_out, serviced, excepting, get_mission, reads, gets, mbind, M_bind. by rewrite Hm.
Qed.
Lemma mission_route_cases request w : ids_issued w →
  match create_mission server request w with
  | (Ok (status, out), w') =>
      ∃ m w1, run default_merchants default_merchant_registry request w = (Ok m, w1) ∧ w' = snd (commit w1) ∧
        status = 201 ∧ mission_out server m w1 = (Ok out, w1)
  | (Raise _, w') => w_committed w' = w_committed w ∨ unpaid w w' ∧ w_committed w' = w_db w'
  end.
Proof.
  intros Hids. unfold create_mission, excepting. unfold mbind at 1, M_bind at 1.
  pose proof (Orchestrator.evolves_run default_merchants default_merchant_registry request w) as Hs.
  destruct (run _ _ request w) as [[m|e] w1] eqn:E; cbn [snd] in Hs.
  - pose proof (run_admits _ _ _ _ _ _ Hids E) as (dec & _ & Hm & _).
    unfold mbind, M_bind. change (serviced commit w1) with ((Ok tt : outcome http_exn unit), snd (commit w1)). cbv beta iota.
    pose proof (mission_out_Ok m _ (snd (commit w1)) Hm) as Ho. rewrite Ho.
    exists m, w1. split_and!; try done. exact (mission_out_Ok m _ w1 Hm).
  - unfold on_bind_refusal. destruct e; try (left; by destruct Hs). right. split; [|done].
    by eapply (run_refused default_merchants default_merchant_registry request w _ w1) in E.
Qed.

Lemma resolved_bind {A B} st u (a : A) (k : A → Handler B) w : (resolved st u (Ok a) ≫= k) w = k a w.
Proof. done. Qed.
Lemma webhook_route_cases name body headers w : intents_ok (w_db w) →
  match receive_webhook fake from_environment name body headers w with
  | (Ok ack, w') =>
      ∃ p s i o w1, provider_for fake from_environment name env_app_env = Ok p ∧
        handle_webhook p body s i None w = (Ok o, w1) ∧ w' = snd (commit w1) ∧
        ack = mkWebhookAck (wo_accepted o) (wo_applied o) (wo_reason_code o) (wo_state o)
  | (Raise _, w') => w_committed w' = w_committed w ∧ w_calls w' = w_calls w
  end.
Proof.
  intros Hok. unfold receive_webhook. cbv zeta.
  destruct (provider_for fake from_environment name env_app_env) as [p|[]]; [|done|done]. rewrite resolved_bind.
  destruct (signature_header_for name) as [h|[]]; [|done|done]. rewrite resolved_bind.
  destruct (event_id_header_for name) as [ih|[]]; [|done|done]. rewrite resolved_bind. destruct (_ <? _); [done|]. unfold mbind at 1, M_bind at 1, excepting.
  match goal with |- context [handle_webhook p body ?s ?i None w] =>
    pose proof (handle_webhook_le p body s i None w Hok) as Hs;
    destruct (handle_webhook p body s i None w) as [[o|e] w1] eqn:E; cbn [snd] in Hs end.
  - cbn. eexists p, _, _, o, w1. split_and!; [done|exact E|done|done].
  - unfold on_webhook_rejected. destruct e; by destruct Hs.
Qed.

(** ** Forward *)
Lemma http_commit_le w w1 : sess_le w w1 → http_le w (snd (commit w1)).
Proof.
  intros Hs. transitivity w1; [|apply http_commit]. split; [by apply sess_durable|by destruct Hs].
Qed.
Lemma http_mission request : evolves http_le (create_mission server request).
Proof. unfold create_mission, on_bind_refusal. http_evolve. Qed.
Lemma http_payment m key provider : evolves http_le (request_payment razorpay_key_id fake from_environment m key provider).
Proof.
  pose proof (λ a, evolves_create executor_capabilities m a key (provider_name_for provider) None) as Hc.
  unfold request_payment, on_payment_refused. cbv zeta. http_evolve.
Qed.
Lemma http_webhook name body headers w : intents_ok (w_db w) →
  http_le w (snd (receive_webhook fake from_environment name body headers w)).
Proof.
  intros Hok. unfold receive_webhook. cbv zeta.
  destruct (provider_for fake from_environment name env_app_env) as [p|[]]; [|done|done]. rewrite resolved_bind.
  destruct (signature_header_for name) as [h|[]]; [|done|done]. rewrite resolved_bind.
  destruct (event_id_header_for name) as [ih|[]]; [|done|done]. rewrite resolved_bind. destruct (_ <? _); [done|]. unfold mbind at 1, M_bind at 1, excepting.
  match goal with |- context [handle_webhook p body ?s ?i None w] =>
    pose proof (handle_webhook_le p body s i None w Hok) as Hs;
    destruct (handle_webhook p body s i None w) as [[o|e] w1] eqn:E; cbn [snd] in Hs end.
  - by apply http_commit_le.
  - assert (http_le w w1) by (split; [by apply sess_durable|by destruct Hs]). unfold on_webhook_rejected. by destruct e.
Qed.
Lemma http_approval m req w : http_le w (snd (approve_authorization m req w)).
Proof.
  unfold approve_authorization. unfold mbind at 1, M_bind at 1. rewrite load_mission_cases.
  destruct (db_missions (w_db w) !! m) as [ms|] eqn:Em; [|done].
  unfold mbind at 1, M_bind at 1. rewrite load_authorization_cases.
  destruct (newest_authorization m (w_db w)) as [row|]; [|done].
  destruct (bool_decide_reflect (ms_state ms = MissionState.AWAITING_APPROVAL)) as [Hst|]; cbn [negb]; [|done].
  unfold mbind at 1, M_bind at 1. unfold excepting.
  pose proof (auths_only_approve m (au_authorization_id row) (ar_signing_key_id req) (ar_signature req) None w) as Ho.
  pose proof (evolves_approve m (au_authorization_id row) (ar_signing_key_id req) (ar_signature req) None w) as Hs.
  destruct (approve_authorization_with_signature _ _ _ _ _ w) as [[act|e] w1] eqn:E; cbn in Ho, Hs.
  - destruct Ho as (O1 & _). unfold MissionFSM.assert_transition. rewrite Hst. 
    assert (Ht : sess_le w1 (snd (set_mission_state m MissionState.AUTHORIZED w1))).
    { apply (sess_le_state m _ w1 ms); [by rewrite O1|by rewrite Hst]. }
    apply (http_commit_le w (snd (set_mission_state m MissionState.AUTHORIZED w1))). by etransitivity.
  - unfold on_approval_failure. assert (http_le w w1) by (split; [by apply sess_durable|by destruct Hs]).
    destruct e; try done. by apply http_commit_le.
Qed.
Lemma respond_le e w : w_db w = w_committed w → intents_ok (w_db w) → http_le w (respond e w).
Proof.
  intros Hs Hok.
  assert (He : ∀ A (h : Handler A), evolves http_le h → http_le w (snd (get_session h w)))
    by (intros A h Hh; by apply get_session_le).
  destruct e; cbn [respond]; try (apply He; try first [apply http_mission|apply http_payment];
    unfold get_mission_route, get_events, verify_audit_chain, verify_mission_chain, list_events, replay_mission_state,
      get_offers, get_authorization, get_approval_challenge, get_payment, get_mission_risk, assess_and_record,
      on_missing_mission; by http_evolve).
  - apply He. intros w0. apply http_approval.
  - apply get_session_le; [|done]. apply http_webhook. by rewrite settled_eq.
Qed.

(** ** Properties *)
Lemma get_session_run {A} (h : Handler A) w : w_db w = w_committed w →
  get_session h w = (fst (h w), set_w_db (w_committed (snd (h w))) (snd (h w))).
Proof. intros Hs. unfold get_session. rewrite settled_eq by done. by destruct (h w). Qed.

(** C5: No HTTP request moves money.  From a durable state with a consistent payment
    table, and whatever is asked of any endpoint and however it ends, no payment
    provider is called; what is durable moved forward only, row by row and with its
    audit chains intact, and everything the session did not commit is gone; and the
    endpoints that read change nothing. *)
Theorem http_moves_no_money (e : endpoint) (w : World) :
  w_db w = w_committed w → intents_ok (w_db w) →
  w_calls (respond e w) = w_calls w ∧ w_db (respond e w) = w_committed (respond e w) ∧
  db_le (w_committed w) (w_committed (respond e w)) ∧
  (is_read e = true → w_committed (respond e w) = w_committed w).
Proof.
  intros Hs Hok. destruct (respond_le e w Hs Hok) as [Hd Hc]. split; [exact Hc|].
  split; [destruct e; apply get_session_settled|]. split; [|apply reads_uncommitted].
  apply Hd. by rewrite Hs.
Qed.


(** A mission is durable before its caller learns of it.  If the mission endpoint
    answers, it answers 201, and reading the mission back at once gives the very same
    body; if it raises, whether or not the refusal's evidence was committed, no
    authorization, payment or instruction to the worker is durable that was not. *)
Theorem mission_answer_is_durable (request : CreateMissionRequest) (w : World) :
  w_db w = w_committed w → ids_issued w →
  match get_session (create_mission server request) w with
  | (Ok (status, out), w') =>
      status = 201 ∧ mo_raw_query out = rq_raw_query request ∧ mo_quantity out = rq_quantity request ∧
      get_session (get_mission_route server (mo_id out)) w' = (Ok out, w')
  | (Raise _, w') => unpaid w w' ∧ w_db w' = w_committed w'
  end.
Proof.
  intros Hs Hids. rewrite get_session_run by done. pose proof (mission_route_cases request w Hids) as Hc.
  destruct (create_mission server request w) as [[[status out]|e] w']; cbn [fst snd].
  - destruct Hc as (m & w1 & E & -> & -> & Ho). split; [done|].
    pose proof (run_admits _ _ _ _ _ _ Hids E) as (dec & _ & Hm & _).
    rewrite (mission_out_Ok m _ w1 Hm) in Ho. apply (f_equal fst), Ok_inj in Ho. cbn [fst] in Ho. subst out.
    split; [done|]. split; [done|]. cbn [mo_id mission_row ms_id].
    rewrite get_session_run by done. unfold get_mission_route. unfold mbind, M_bind.
    rewrite load_mission_cases. cbn [commit modify set_w_db snd w_db w_committed]. rewrite Hm.
    match goal with |- context [mission_out server m ?v] => rewrite (mission_out_Ok m _ v Hm) end. done.
  - split; [|done]. unfold unpaid in *. cbn. destruct Hc as [-> |[Hu ->]]; [by rewrite Hs|exact Hu].
Qed.

(** C20: An approval over HTTP is a verified signature.  If the approval endpoint answers,
    the mission was AWAITING_APPROVAL and one of its authorizations PENDING a user's
    signature, the submitted signature verifies over exactly that authorization, and
    what became durable is that authorization ACTIVE with the proof and the mission
    AUTHORIZED, no payment and no instruction.  If it raises, no authorization is
    ACTIVE that was not, and missions, payments and instructions are what they were. *)
Theorem approval_answer_is_proved (m : uuid) (req : ApprovalRequest) (w : World) :
  w_db w = w_committed w →
  match get_session (approve_authorization m req) w with
  | (Ok out, w') => approval_recorded m req out w w' ∧ w_db w' = w_committed w'
  | (Raise _, w') => none_activated w w' ∧ w_db w' = w_committed w'
  end.
Proof.
  intros Hs. rewrite get_session_run by done. pose proof (approve_route_cases m req w) as Hc.
  destruct (approve_authorization m req w) as [[out|e] w']; cbn [fst snd].
  - destruct Hc as [Hr Hw]. split; [|done]. unfold approval_recorded in *. cbn. by rewrite Hw.
  - split; [|done]. destruct Hc as [Hc|[Hn Hc]].
    + apply same_db_none. cbn. by rewrite Hc.
    + unfold none_activated, auths_only in *. cbn. by rewrite Hc.
Qed.

(** A webhook is durable before it is acknowledged.  If the webhook endpoint
    acknowledges, the name resolved to a registered adapter that verified the body
    and everything the delivery did is durable; if it raises, nothing is. *)
Theorem webhook_ack_is_durable (name : string) (body : bytes) (headers : list (string * string)) (w : World) :
  w_db w = w_committed w → intents_ok (w_db w) →
  match get_session (receive_webhook fake from_environment name body headers) w with
  | (Ok ack, w') =>
      ∃ p s i o w1, provider_for fake from_environment name env_app_env = Ok p ∧
        handle_webhook p body s i None w = (Ok o, w1) ∧ w_committed w' = w_db w1 ∧ wa_accepted ack = wo_accepted o ∧
        wa_applied ack = wo_applied o ∧ wa_state ack = wo_state o
  | (Raise _, w') => w_committed w' = w_committed w ∧ w_db w' = w_committed w
  end.
Proof.
  intros Hs Hok. rewrite get_session_run by done. pose proof (webhook_route_cases name body headers w Hok) as Hc.
  destruct (receive_webhook fake from_environment name body headers w) as [[ack|e] w']; cbn [fst snd].
  - destruct Hc as (p & s & i & o & w1 & Hp & E & -> & ->). by exists p, s, i, o, w1.
  - destruct Hc as [Hc _]. cbn. by rewrite Hc.
Qed.
End Api.


#[local] Existing Instance demo_env.

Definition demo_server : Server := mkServer (λ l, l) last last (mkRiskServer last last (λ l, l) (λ l, l) (λ l, l)).
Definition no_razorpay : string + PaymentProvider := inl "RazorpayConfigurationError".
Definition demo_fake : PaymentProvider := signed_provider.

Lemma http_moves_no_money_witness :
  w_calls (respond demo_server "" demo_fake no_razorpay (PostPayment 7%N "key-1" None) ready_world) = [] ∧
  w_committed (respond demo_server "" demo_fake no_razorpay (GetPayment 7%N) ready_world) = w_committed ready_world.
Proof.
  split.
  - exact (proj1 (http_moves_no_money demo_server "" demo_fake no_razorpay (PostPayment 7%N "key-1" None) ready_world
      eq_refl (intents_ok_empty (w_db ready_world) eq_refl))).
  - exact (proj2 (proj2 (proj2 (http_moves_no_money demo_server "" demo_fake no_razorpay (GetPayment 7%N) ready_world
      eq_refl (intents_ok_empty (w_db ready_world) eq_refl)))) eq_refl).
Defined.


Lemma mission_answer_is_durable_witness : ∃ out w',
  get_session (create_mission demo_server demo_request) (demo_world db_empty) = (Ok (201, out), w') ∧
  get_session (get_mission_route demo_server (mo_id out)) w' = (Ok out, w').
Proof.
  pose proof (mission_answer_is_durable demo_server demo_request (demo_world db_empty) eq_refl ids_issued_empty) as Hd.
  assert (Hr : is_ok (fst (get_session (create_mission demo_server demo_request) (demo_world db_empty))) = true)
    by (vm_compute; reflexivity).
  destruct (get_session (create_mission demo_server demo_request) (demo_world db_empty))
    as [[[status out]|e] w']; [|discriminate Hr]. destruct Hd as (-> & _ & _ & Hg).
  exists out, w'. exact (conj eq_refl Hg).
Defined.

Definition awaiting_world : World :=
  demo_world (set_db_missions {[ 7%N := mkMissionRow 7%N None 1 MissionState.AWAITING_APPROVAL None ]}
    (w_db (world_with ApprovalScheme.USER_ED25519 AuthorizationStatus.PENDING PolicyOutcome.REQUIRE_APPROVAL))).
Lemma approval_answer_is_proved_witness : ∃ out w',
  get_session (approve_authorization 7%N (mkApprovalRequest "demo-approver-1" some_signature)) awaiting_world = (Ok out, w') ∧
  db_intents (w_db w') = ∅.
Proof.
  pose proof (approval_answer_is_proved 7%N (mkApprovalRequest "demo-approver-1" some_signature) awaiting_world eq_refl) as Hd.
  assert (Hr : is_ok (fst (get_session (approve_authorization 7%N (mkApprovalRequest "demo-approver-1" some_signature))
    awaiting_world)) = true) by (vm_compute; reflexivity).
  destruct (get_session (approve_authorization 7%N (mkApprovalRequest "demo-approver-1" some_signature)) awaiting_world)
    as [[out|e] w']; [|discriminate Hr]. destruct Hd as [(i & r & ms & _ & _ & _ & _ & _ & _ & _ & _ & _ & _ & Hi & _) _].
  exists out, w'. split; [reflexivity|]. rewrite Hi. reflexivity.
Defined.

Lemma webhook_ack_is_durable_witness : ∃ ack w',
  get_session (receive_webhook demo_fake (inr signed_provider) "razorpay_test" []
    [("x-razorpay-signature", "good")]) pending_world = (Ok ack, w') ∧
  ∃ p s i o w1, handle_webhook p [] s i None pending_world = (Ok o, w1) ∧ w_committed w' = w_db w1.
Proof.
  pose proof (webhook_ack_is_durable demo_fake (inr signed_provider) "razorpay_test" []
    [("x-razorpay-signature", "good")] pending_world eq_refl pending_world_ok) as Hd.
  assert (Hr : match fst (get_session (receive_webhook demo_fake (inr signed_provider) "razorpay_test" []
    [("x-razorpay-signature", "good")]) pending_world) with Ok a => wa_accepted a | Raise _ => false end = true)
    by (vm_compute; reflexivity).
  destruct (get_session (receive_webhook demo_fake (inr signed_provider) "razorpay_test" []
    [("x-razorpay-signature", "good")]) pending_world) as [[ack|e] w']; [|discriminate Hr].
  destruct Hd as (p & s & i & o & w1 & _ & E & Hw & _). exists ack, w'. split; [reflexivity|].
  exists p, s, i, o, w1. exact (conj E Hw).
Defined.
