(* ===== verification/RiskProperties.v ===== *)
(** * What the risk engine establishes

    The score is an account of what was measured: every factor is a rule applied to a
    measured feature, every feature comes from a declared source, none of them a
    merchant's payload, and assessing a mission changes nothing. *)
From S2P Require Import Prelude Python PyText PyFloat PyNumbers Json Text Enums Errors Transaction Merchant Kernel Policy.
From S2P Require Import Payment Database Hashing Evolution Ledger RiskModels RiskHeuristic RiskFeatures RiskEngine.
From S2P Require Import IntentsProperties AuthorizationProperties Provider Routes OrchestratorProperties RoutesProperties.

(** ** Sorting where the comparison is total on the elements *)
Section SortedOn.
Context {A : Type} (leb : A → A → bool) (Q : A → Prop).
Context (Htot : ∀ x y, Q x → Q y → leb x y = true ∨ leb y x = true).

Lemma py_insert_Sorted_on x l : Q x → Forall Q l →
  Sorted (λ a b, leb a b = true) l → Sorted (λ a b, leb a b = true) (py_insert leb x l).
Proof.
  intros Hx Hl Hs. induction Hs as [|y l Hs IH Hd]; cbn; [by repeat constructor|].
  apply Forall_cons in Hl as [Hy Hl]. destruct (leb x y) eqn:E; [by repeat constructor|].
  assert (Hyx : leb y x = true) by (destruct (Htot x y Hx Hy); congruence).
  constructor; [by apply IH|]. destruct l as [|z l']; cbn; [by constructor|].
  inversion Hd; subst. destruct (leb x z); by constructor.
Qed.
Lemma py_sorted_Sorted_on l : Forall Q l → Sorted (λ a b, leb a b = true) (py_sorted leb l).
Proof.
  induction 1 as [|x l Hx Hl IH]; cbn; [constructor|]. apply py_insert_Sorted_on; [done| |done].
  change (Forall Q (py_sorted leb l)). by rewrite py_sorted_Permutation.
Qed.
End SortedOn.

(** ** Positive floats are ordered *)
Lemma fl_pos_total x y : fl_ltb fl_zero x = true → fl_ltb fl_zero y = true →
  fl_leb (fl_opp x) (fl_opp y) = true ∨ fl_leb (fl_opp y) (fl_opp x) = true.
Proof.
  unfold fl_ltb, fl_leb, fl_opp, SFltb, SFleb, fl_zero.
  destruct x as [| [] | | [] m e], y as [| [] | | [] m' e']; cbn; try done; try (by left); try (by right).
  intros _ _. rewrite (Z.compare_antisym e' e). destruct (e' ?= e); cbn; auto.
  change (Pos.compare_cont Eq m m') with (m ?= m')%positive. change (Pos.compare_cont Eq m' m) with (m' ?= m)%positive.
  rewrite (Pos.compare_antisym m' m). destruct (m' ?= m)%positive; cbn; auto.
Qed.
Lemma fl_ltb_not_leb x y : fl_ltb x y = true → fl_leb y x = false.
Proof.
  unfold fl_ltb, fl_leb, SFltb, SFleb. destruct x as [[]|[]| |[] m e], y as [[]|[]| |[] m' e']; cbn; try done;
    rewrite (Z.compare_antisym e' e); destruct (e' ?= e); cbn; try done;
    change (Pos.compare_cont Eq m m') with (m ?= m')%positive; change (Pos.compare_cont Eq m' m) with (m' ?= m)%positive;
    rewrite (Pos.compare_antisym m' m); by destruct (m' ?= m)%positive.
Qed.

(** ** The scorer *)
Section Score.
Context (config : RiskConfig).

(** What a rule contributes, on what evidence. *)
Definition earned_by (fs : features) (rule : FactorRule) (f : RiskFactor) : Prop :=
  ∃ v observed fraction',
    py_dict_get (fr_feature rule) fs = Some v ∧ fv_available v = true ∧ gate_open rule fs = true ∧
    numeric v = Ok (Some observed) ∧ fraction config rule observed = Ok fraction' ∧
    rf_code f = fr_code rule ∧ rf_feature f = fr_feature rule ∧ rf_observed f = fv_value v ∧
    rf_weight f = fr_weight_field rule config ∧ rf_contribution f = fl_mul (rf_weight f) fraction' ∧
    fl_ltb fl_zero (rf_contribution f) = true ∧
    rf_derived_from_untrusted_evidence f = fv_derived_from_untrusted_evidence v.

Lemma factor_of_earned fs rule f : factor_of config rule fs = Ok (Some f) → earned_by fs rule f.
Proof.
  unfold factor_of. destruct (py_dict_get _ _) as [v|] eqn:Ev; [|done].
  destruct (fv_available v) eqn:Ea; [|done]. destruct (gate_open rule fs) eqn:Eg; [|done]. cbn [negb orb].
  intros H. apply outcome_bind_Ok in H as ([observed|] & En & H); [|done].
  apply outcome_bind_Ok in H as (x & Ex & H). destruct (fl_leb _ _); [done|].
  apply outcome_bind_Ok in H as ([lo hi] & _ & H). apply outcome_bind_Ok in H as (d & _ & H).
  apply outcome_bind_Ok in H as (f' & Hf & H). injection H as ->. unfold RiskFactor_new in Hf.
  repeat match type of Hf with (if negb ?b then _ else _) = _ => destruct b eqn:?; cbn [negb] in Hf; [|discriminate Hf] end.
  injection Hf as <-. exists v, observed, x. by split_and!.
Qed.

Lemma apply_rules_Ok rules fs found : apply_rules config rules fs = Ok found →
  ∀ f, f ∈ found ↔ ∃ rule, rule ∈ rules ∧ factor_of config rule fs = Ok (Some f).
Proof.
  revert found. induction rules as [|rule rules IH]; intros found; cbn [apply_rules].
  - intros [= <-] f. split; [by intros ?%not_elem_of_nil|by intros (r & ?%not_elem_of_nil & _)].
  - intros H f. apply outcome_bind_Ok in H as (o & Ho & H). apply outcome_bind_Ok in H as (l & Hl & H). injection H as <-.
    rewrite elem_of_app, (IH _ Hl). split.
    + intros [Hf|(r & Hr & Hf)]; [|exists r; split; [by right|done]]. destruct o as [f'|]; [|by apply not_elem_of_nil in Hf].
      apply list_elem_of_singleton in Hf as ->. exists rule. split; [by left|done].
    + intros (r & [->|Hr]%elem_of_cons & Hf); [left|right; eauto]. rewrite Hf in Ho. injection Ho as <-. by left.
Qed.
Lemma apply_rules_codes rules fs found : apply_rules config rules fs = Ok found →
  sublist (map rf_code found) (map fr_code rules).
Proof.
  revert found. induction rules as [|rule rules IH]; intros found; cbn [apply_rules].
  - intros [= <-]. constructor.
  - intros H. apply outcome_bind_Ok in H as (o & Ho & H). apply outcome_bind_Ok in H as (l & Hl & H). injection H as <-.
    destruct o as [f|]; cbn; [|constructor; by apply IH]. apply factor_of_earned in Ho as (v & x & y & Ho).
    destruct Ho as (_ & _ & _ & _ & _ & -> & _). constructor. by apply IH.
Qed.
Lemma rule_codes_distinct : NoDup (map fr_code FACTOR_RULES).
Proof. apply (bool_decide_unpack (NoDup (map fr_code FACTOR_RULES))). by vm_compute. Qed.

(** A score is an account of its factors.  The factors are exactly the rules that
    earned something; each one's contribution is its rule's weight times the fraction
    the rule earns on an available, measured feature whose gate is open, it is positive,
    and it carries that feature's value and taint; no rule appears twice, the strongest
    comes first, and the points are Python's sum of the contributions in that order. *)
Theorem score_is_accounted (fs : features) (factors : list RiskFactor) (raw : float) :
  score config fs = Ok (factors, raw) →
  (∀ f, f ∈ factors ↔ ∃ rule, rule ∈ FACTOR_RULES ∧ factor_of config rule fs = Ok (Some f)) ∧
  (∀ f, f ∈ factors → ∃ rule, rule ∈ FACTOR_RULES ∧ earned_by fs rule f) ∧
  NoDup (map rf_code factors) ∧
  Sorted (λ a b, strongest_first a b = true) factors ∧
  raw = py_sum (map rf_contribution factors).
Proof.
  unfold score. intros H. apply outcome_bind_Ok in H as (found & Hf & H).
  assert (Hp : factors ≡ₚ found) by (injection H as <- _; apply py_sorted_Permutation).
  assert (Hin : ∀ f, f ∈ factors ↔ ∃ rule, rule ∈ FACTOR_RULES ∧ factor_of config rule fs = Ok (Some f)).
  { intros f. rewrite Hp. by apply apply_rules_Ok. }
  split; [exact Hin|]. split; [intros f Hx; apply Hin in Hx as (r & Hr & Hx); eauto using factor_of_earned|].
  split.
  { rewrite Hp. eapply sublist_NoDup; [apply rule_codes_distinct|]. by eapply apply_rules_codes. }
  split; [|by injection H as <- <-]. injection H as <- _.
  apply (py_sorted_Sorted_on _ (λ f, fl_ltb fl_zero (rf_contribution f) = true)); [intros x y; apply fl_pos_total|].
  apply Forall_forall. intros f Hx. rewrite <- Hp in Hx. apply Hin in Hx as (r & _ & Hx).
  apply factor_of_earned in Hx as (v & x & y & Hx). tauto.
Qed.

(** *** What was not measured *)
Definition measured_features (fs : features) : features := List.filter (λ '(_, v), fv_available v) fs.
Lemma measured_get k fs : NoDup (map fst fs) →
  py_dict_get k (measured_features fs) =
  match py_dict_get k fs with Some v => if fv_available v then Some v else None | None => None end.
Proof.
  unfold measured_features. induction fs as [|[k' v] fs IH]; cbn; [done|]. intros [Hk Hn]%NoDup_cons. specialize (IH Hn).
  destruct (String.eqb_spec k k') as [->|Hne].
  - destruct (fv_available v) eqn:Ev; cbn; [by rewrite String.eqb_refl|]. rewrite IH.
    by destruct (py_dict_get k' fs) eqn:E; [apply py_dict_get_elem in E|].
  - destruct (fv_available v) eqn:Ev; cbn; [|done]. apply String.eqb_neq in Hne. by rewrite Hne.
Qed.
Lemma factor_of_measured rule fs : NoDup (map fst fs) →
  factor_of config rule (measured_features fs) = factor_of config rule fs.
Proof.
  intros Hn. unfold factor_of, gate_open. rewrite !measured_get by done.
  assert (Hg : match fr_requires_feature_true rule with
    | Some required => match py_dict_get required (measured_features fs) with
        | Some gate => fv_available gate && match fv_value gate with Some v => scalar_true v | None => false end
        | None => false end
    | None => true end =
    match fr_requires_feature_true rule with
    | Some required => match py_dict_get required fs with
        | Some gate => fv_available gate && match fv_value gate with Some v => scalar_true v | None => false end
        | None => false end
    | None => true end).
  { destruct (fr_requires_feature_true rule) as [r|]; [|done]. rewrite measured_get by done.
    destruct (py_dict_get r fs) as [g|]; [|done]. destruct (fv_available g) eqn:Eg; cbn; by rewrite ?Eg. }
  rewrite Hg. destruct (py_dict_get (fr_feature rule) fs) as [v|]; [|done]. destruct (fv_available v) eqn:Ea; cbn [negb orb]; by rewrite ?Ea.
Qed.

(** C22: What was not measured scores nothing.  Dropping every unavailable feature leaves
    the factors and the points, or the error, exactly what they were. *)
Theorem unmeasured_scores_nothing (fs : features) :
  NoDup (map fst fs) → score config (measured_features fs) = score config fs.
Proof.
  intros Hn. unfold score. assert (∀ rules, apply_rules config rules (measured_features fs) = apply_rules config rules fs) as ->; [|done].
  induction rules as [|rule rules IH]; cbn [apply_rules]; [done|]. by rewrite factor_of_measured, IH.
Qed.
End Score.

(** ** Feature extraction *)
Section Features.
Definition feature_of (row : feature_row) (spec : FeatureSpec) : FeatureValue :=
  let '(name, value, unavailable) := row in
  mkFeatureValue name (if is_none unavailable then value else None) (fs_source spec) (fs_authority spec)
    (fs_trust spec) (fs_derived_from_untrusted_evidence spec) (is_none unavailable) unavailable (fs_detail spec).
Definition row_name (row : feature_row) : string := fst (fst row).

(** A feature as its name declares it. *)
Definition declared (entry : string * FeatureValue) : Prop :=
  ∃ spec value unavailable, (fst entry, spec) ∈ FEATURE_SPECS ∧ snd entry = feature_of (fst entry, value, unavailable) spec.

Lemma specs_valid : Forall (λ '(name, spec), ∀ value unavailable,
  value_of name value unavailable = Ok (feature_of (name, value, unavailable) spec)) FEATURE_SPECS.
Proof. repeat constructor; by intros value [u'|]. Qed.

Lemma build_features_Ok rows fs :
  NoDup (map fst fs ++ map row_name rows) → Forall (λ r, row_name r ∈ map fst FEATURE_SPECS) rows →
  Forall declared fs →
  ∃ built, build_features rows fs = Ok built ∧ map fst built = map fst fs ++ map row_name rows ∧ Forall declared built.
Proof.
  revert fs. induction rows as [|[[name value] unavailable] rows IH]; intros fs Hn Hr Hd; cbn [build_features].
  - exists fs. cbn [map]. by rewrite app_nil_r.
  - apply Forall_cons in Hr as [Hname Hr]. apply list_elem_of_fmap in Hname as ([name' spec] & E & Hspec). cbn in E. subst name'.
    pose proof (proj1 (Forall_forall _ _) specs_valid _ Hspec value unavailable) as Hv. cbn in Hv. rewrite Hv.
    unfold mbind at 1, outcome_bind. assert (Hg : py_dict_get name fs = None).
    { destruct (py_dict_get name fs) eqn:E; [|done]. apply py_dict_get_elem in E. exfalso.
      apply NoDup_app in Hn as (_ & Hn & _). apply (Hn name E). by left. }
    rewrite py_dict_set_new by done. destruct (IH (fs ++ [(name, feature_of (name, value, unavailable) spec)])) as (b & Hb & Hf & Hd').
    + rewrite map_app, <- app_assoc. exact Hn.
    + done.
    + apply Forall_app. split; [done|]. apply Forall_singleton. by exists spec, value, unavailable.
    + exists b. split; [exact Hb|]. split; [|done]. rewrite Hf, map_app, <- app_assoc. done.
Qed.

(** The names in the order the code writes them. *)
Definition own_names : list string :=
  ["requested_amount_inr"; "amount_to_hard_limit_ratio"; "amount_to_soft_budget_ratio"; "quantity"; "merchant_trust";
   "merchant_known"; "merchant_payment_observations"; "merchant_failed_payment_ratio"; "authorization_replay_attempts";
   "transaction_binding_failures"; "mission_authority_escalation_attempts"; "authorization_age_seconds";
   "authorization_lifetime_used_ratio"; "payment_attempts"; "provider_timeout_events"; "provider_response_mismatch_events";
   "idempotency_conflict_events"; "webhook_anomaly_events"; "reconciliation_events"; "audit_chain_valid";
   "invalid_offer_ratio"; "merchant_amount_observations"; "amount_vs_merchant_median_ratio"].
Definition shared_names : list string := ["merchant_identity_mismatch_events"; "merchant_authority_escalation_events"].

Lemma names_declared : own_names ++ shared_names ≡ₚ map fst FEATURE_SPECS.
Proof. apply (bool_decide_unpack _). by vm_compute. Qed.
Lemma names_distinct : NoDup (own_names ++ shared_names).
Proof. apply (bool_decide_unpack _). by vm_compute. Qed.

Lemma build_features_names rows names : map row_name rows = names → NoDup names →
  Forall (λ n, n ∈ map fst FEATURE_SPECS) names →
  ∃ built, build_features rows [] = Ok built ∧ map fst built = names ∧ Forall declared built.
Proof.
  intros <- Hn Hd. apply (build_features_Ok rows []); [done| |constructor].
  apply Forall_forall. intros r Hr. apply (proj1 (Forall_forall _ _) Hd). by apply list_elem_of_fmap_2.
Qed.

Context (config : RiskConfig).
Lemma amount_rows_names facts rows : amount_rows facts = Ok rows →
  map row_name rows = ["requested_amount_inr"; "amount_to_hard_limit_ratio"; "amount_to_soft_budget_ratio"].
Proof.
  unfold amount_rows. destruct (mf_policy_decision facts), (requested_amount facts); intros E;
    try (apply Ok_inj in E; by subst rows).
  apply outcome_bind_Ok in E as (x & _ & E). apply outcome_bind_Ok in E as (y & _ & E). apply Ok_inj in E. by subst rows.
Qed.
Lemma merchant_rows_names facts : map row_name (merchant_rows facts) = ["merchant_trust"; "merchant_known"].
Proof. unfold merchant_rows. by destruct (mf_merchant_id facts). Qed.
Lemma payment_rows_names h rows : payment_history_rows config h = Ok rows →
  map row_name rows = ["merchant_payment_observations"; "merchant_failed_payment_ratio"].
Proof.
  unfold payment_history_rows. intros E. apply outcome_bind_Ok in E as (r & Hr & E). apply Ok_inj in E. subst rows.
  destruct (_ <=? _); [|by injection Hr as <-]. apply outcome_bind_Ok in Hr as (x & _ & Hr). by injection Hr as <-.
Qed.
Lemma authorization_rows_names facts now rows : authorization_rows facts now = Ok rows →
  map row_name rows = ["authorization_age_seconds"; "authorization_lifetime_used_ratio"].
Proof.
  unfold authorization_rows. destruct (mf_authorization facts), now; intros E; try (by injection E as <-).
  apply outcome_bind_Ok in E as (x & _ & E). apply outcome_bind_Ok in E as (y & _ & E). by injection E as <-.
Qed.
Lemma offer_row_name l row : invalid_offer_row config l = Ok row → row_name row = "invalid_offer_ratio".
Proof.
  unfold invalid_offer_row. destruct (_ <? _); intros E; [by injection E as <-|].
  apply outcome_bind_Ok in E as (x & _ & E). by injection E as <-.
Qed.
Lemma anomaly_rows_names h a rows : anomaly_rows h a = Ok rows →
  map row_name rows = ["merchant_amount_observations"; "amount_vs_merchant_median_ratio"].
Proof.
  unfold anomaly_rows. intros E. apply outcome_bind_Ok in E as ([x|] & _ & E); by injection E as <-.
Qed.
Lemma own_declared : NoDup own_names ∧ Forall (λ n, n ∈ map fst FEATURE_SPECS) own_names.
Proof.
  split; [apply NoDup_app with (1 := names_distinct)|]. apply Forall_forall. intros n Hn. rewrite <- names_declared.
  apply elem_of_app. by left.
Qed.
Lemma shared_declared : NoDup shared_names ∧ Forall (λ n, n ∈ map fst FEATURE_SPECS) shared_names.
Proof.
  split; [apply NoDup_app with (1 := names_distinct)|]. apply Forall_forall. intros n Hn. rewrite <- names_declared.
  apply elem_of_app. by right.
Qed.

Lemma extract_features_Ok facts now fs : extract_features config facts now = Ok fs →
  map fst fs = own_names ∧ Forall declared fs.
Proof.
  unfold extract_features. intros E.
  apply outcome_bind_Ok in E as (r1 & H1%amount_rows_names & E). apply outcome_bind_Ok in E as (r2 & H2%payment_rows_names & E).
  apply outcome_bind_Ok in E as (r3 & H3%authorization_rows_names & E).
  apply outcome_bind_Ok in E as (r4 & H4%offer_row_name & E). apply outcome_bind_Ok in E as (r5 & H5%anomaly_rows_names & E).
  match type of E with build_features ?rows _ = _ => destruct (build_features_names rows own_names) as (b & Hb & Hn & Hd) end.
  - pose proof (merchant_rows_names facts) as H6. unfold feature_row, FeatureScalar in *. rewrite !map_app, H1, H6, H2, H3, H5.
    cbn [map]. rewrite H4. by destruct (mf_payment_intent facts).
  - apply own_declared.
  - apply own_declared.
  - rewrite Hb in E. injection E as <-. done.
Qed.
End Features.

(** ** Assessing *)
Section Assessing.
Context `{Env} (server : RiskServer).

Lemma update_features_new fs other : NoDup (map fst fs ++ map fst other) → Risk.update_features fs other = fs ++ other.
Proof.
  unfold Risk.update_features. revert fs. induction other as [|[k v] other IH]; intros fs Hn; cbn [fold_left].
  - by rewrite app_nil_r.
  - rewrite py_dict_set_new.
    + rewrite IH; rewrite ?map_app, <- app_assoc; done.
    + destruct (py_dict_get k fs) eqn:E; [|done]. apply py_dict_get_elem in E. exfalso.
      apply NoDup_app in Hn as (_ & Hn & _). apply (Hn k E). by left.
Qed.

Lemma history_features_Ok facts w shared w' :
  extract_merchant_history_features server facts w = (Ok shared, w') →
  map fst shared = shared_names ∧ Forall declared shared.
Proof.
  assert (Hb : ∀ rows fs, map row_name rows = shared_names → build_features rows [] = Ok fs →
    map fst fs = shared_names ∧ Forall declared fs).
  { intros rows fs Hr E. destruct (build_features_names rows shared_names) as (b & Hb & Hn & Hd); [done|apply shared_declared..|].
    rewrite Hb in E. by injection E as <-. }
  unfold extract_merchant_history_features. destruct (mf_merchant_id facts) as [id|]; intros E.
  - apply bind_run_Ok in E as (counts & w1 & _ & E). apply lift_run_Ok in E as [E _]. by apply Hb in E.
  - apply lift_run_Ok in E as [E _]. by apply Hb in E.
Qed.

(** What an assessment says, of the features it carries. *)
Record grounded (settings : RiskConfig) (mission_id : uuid) (a : RiskAssessment) : Prop := {
  gr_mission : rk_mission_id a = mission_id;
  gr_names : map fst (rk_feature_values a) ≡ₚ map fst FEATURE_SPECS;
  gr_declared : Forall declared (rk_feature_values a);
  gr_score : score settings (rk_feature_values a) = Ok (rk_factors a, rk_raw_points a);
  gr_normalized : rk_score a = normalize settings (rk_raw_points a);
  gr_band : rk_band a = band_for settings (rk_score a);
  gr_recommendation : rk_recommendation a = recommendation_for (rk_band a);
  gr_quality : dq_features_available (rk_data_quality a) + dq_features_unavailable (rk_data_quality a) =
    Z.of_nat (length FEATURE_SPECS)
}.

Lemma load_facts_mission config registry m w facts w' :
  load_mission_facts config server registry m w = (Ok facts, w') → mf_mission_id facts = m.
Proof. unfold load_mission_facts. intros E. run_inv E; by subst. Qed.

Lemma assess_grounded m config registry now w a w' :
  Risk.assess_mission server m config registry now w = (Ok a, w') →
  grounded (default DEFAULT_RISK_CONFIG config) m a.
Proof.
  unfold Risk.assess_mission. intros E. apply bind_run_Ok in E as (moment & w1 & _ & E).
  apply bind_run_Ok in E as (facts & w2 & Hm%load_facts_mission & E).
  apply bind_run_Ok in E as (own & w3 & Ho & E). apply lift_run_Ok in Ho as [[Hon Hod]%extract_features_Ok _].
  apply bind_run_Ok in E as (shared & w4 & [Hsn Hsd]%history_features_Ok & E).
  assert (Hu : Risk.update_features own shared = own ++ shared).
  { apply update_features_new. rewrite Hon, Hsn. apply names_distinct. }
  rewrite Hu in E. apply bind_run_Ok in E as ([factors raw] & w5 & Hs & E). apply lift_run_Ok in Hs as [Hs _].
  apply bind_run_Ok in E as (quality & w6 & Hq & E). apply lift_run_Ok in Hq as [Hq _].
  apply bind_run_Ok in E as (id & w7 & _ & E). apply lift_run_Ok in E as [E _].
  assert (Ha : a = Risk.assessment_of (default DEFAULT_RISK_CONFIG config) id moment facts (own ++ shared) factors raw quality).
  { unfold RiskAssessment_new in E.
    repeat match type of E with (if ?b then _ else _) = _ => destruct b; [discriminate E|] end. by injection E. }
  subst a. assert (Hnames : map fst (own ++ shared) ≡ₚ map fst FEATURE_SPECS).
  { rewrite map_app, Hon, Hsn. apply names_declared. }
  constructor; try done.
  - by apply Forall_app.
  - cbn [Risk.assessment_of rk_data_quality]. unfold Risk.quality_of, count_availability, DataQuality_new in Hq.
    repeat match type of Hq with (if ?b then _ else _) = _ => destruct b; [discriminate Hq|] end.
    injection Hq as <-. cbn [dq_features_available dq_features_unavailable].
    apply Permutation_length in Hnames. rewrite !length_map in Hnames. rewrite <- Hnames. lia.
Qed.

(** No declared source is a merchant's payload. *)
Lemma declared_source name v : declared (name, v) → fv_name v = name ∧ fv_source v ≠ FeatureSource.MERCHANT_PAYLOAD ∧
  (fv_available v = false → fv_value v = None).
Proof.
  intros (spec & value & unavailable & Hs & E). cbn [fst snd] in Hs, E. subst v. split; [done|]. split; [|by destruct unavailable].
  cbn. assert (Hall : Forall (λ '(_, s), fs_source s ≠ FeatureSource.MERCHANT_PAYLOAD) FEATURE_SPECS) by (repeat constructor; discriminate).
  exact (proj1 (Forall_forall _ _) Hall _ Hs).
Qed.

(** An assessment is grounded and read-only.  The features it carries are the declared
    ones, each once, each from its declared source, none from a merchant's payload and
    without a value where it is unavailable; its factors and points are the scorer's on
    exactly those features; index, band and recommendation follow from the points; and
    no row, durable state or provider was touched. *)
Theorem assessment_is_grounded (m : uuid) (config : option RiskConfig) (registry : option MerchantRegistry)
    (now : option datetime) (w w' : World) (a : RiskAssessment) :
  Risk.assess_mission server m config registry now w = (Ok a, w') →
  grounded (default DEFAULT_RISK_CONFIG config) m a ∧
  (∀ name v, (name, v) ∈ rk_feature_values a →
    fv_name v = name ∧ fv_source v ≠ FeatureSource.MERCHANT_PAYLOAD ∧ (fv_available v = false → fv_value v = None)) ∧
  Risk.reads_only w w'.
Proof.
  intros E. pose proof (assess_grounded _ _ _ _ _ _ _ E) as Hg. split; [done|]. split.
  - intros name v Hv. apply declared_source. exact (proj1 (Forall_forall _ _) (gr_declared _ _ _ Hg) _ Hv).
  - pose proof (Risk.evolves_assess_reads server m config registry now w) as Hr. by rewrite E in Hr.
Qed.
End Assessing.

(** ** The routes *)
Section RiskApi.
Context `{Env} (server : Server).

Lemma excepting_missing m w :
  let o := Risk.assess_mission (sv_risk server) m None None None w in
  excepting (Risk.assess_mission (sv_risk server) m None None None) on_missing_mission w =
  match fst o with
  | Ok a => (Ok a, snd o)
  | Raise e => (Raise match e with MissionNotFound _ => HTTPException 404 (JStr "mission not found") | _ => Unhandled e end, snd o)
  end.
Proof.
  cbn zeta. unfold excepting. destruct (Risk.assess_mission _ _ _ _ _ w) as [[a|e] w1]; cbn; [done|]. by destruct e.
Qed.

(** C21: Risk is advisory.  Recording an assessment answers 201 and makes exactly one more
    row durable, the RISK_ASSESSED event of that assessment: missions, decisions,
    authorizations, payments and instructions are what they were.  If it raises, nothing
    durable changed, and an unknown mission is the 404.  No provider is called. *)
Theorem risk_is_advisory (m : uuid) (w : World) :
  w_db w = w_committed w →
  match get_session (assess_and_record server m) w with
  | (Ok (status, a), w') =>
      status = 201 ∧ grounded DEFAULT_RISK_CONFIG m a ∧
      ∃ e, w_committed w' = set_db_audit (db_audit (w_committed w) ++ [e]) (w_committed w) ∧
        ev_mission_id e = m ∧ ev_event_type e = "RISK_ASSESSED" ∧ ev_payload e = JObj (audit_payload a) ∧
        recompute e = Ok (ev_event_hash e) ∧ w_calls w' = w_calls w
  | (Raise e, w') =>
      w_committed w' = w_committed w ∧ w_calls w' = w_calls w ∧
      (db_missions (w_committed w) !! m = None → e = HTTPException 404 (JStr "mission not found"))
  end.
Proof.
  intros Hs. rewrite get_session_run by done. unfold assess_and_record, mbind, M_bind. rewrite excepting_missing.
  pose proof (Risk.evolves_assess_reads (sv_risk server) m None None None w) as (Hd & Hc & Hcalls).
  pose proof (assess_grounded (sv_risk server) m None None None w) as Hg.
  assert (Hmissing : ∀ a, fst (Risk.assess_mission (sv_risk server) m None None None w) = Ok a →
    db_missions (w_committed w) !! m ≠ None).
  { intros a Ha Hnone. destruct (Risk.assess_mission _ _ _ _ _ w) as [o w1] eqn:E. cbn in Ha. subst o.
    unfold Risk.assess_mission in E. apply bind_run_Ok in E as (t & w2 & Ht & E).
    apply bind_run_Ok in E as (facts & w3 & Hl & E). unfold utcnow in Ht. injection Ht as _ <-.
    unfold load_mission_facts in Hl. apply bind_run_Ok in Hl as (o & w4 & Ho & Hl). injection Ho as <- <-. cbn in Hl.
    rewrite Hs, Hnone in Hl. discriminate Hl. }
  destruct (Risk.assess_mission _ _ _ _ _ w) as [[a|e] w1] eqn:E; cbn [fst snd] in *.
  - specialize (Hg a w1 eq_refl). specialize (Hmissing a eq_refl). unfold serviced, excepting, Risk.record_assessment.
    rewrite (gr_mission _ _ _ Hg).
    destruct (append_event_cases m EventType.RISK_ASSESSED Risk.ACTOR (audit_payload a) w1)
      as [(h & Hr & ->)|(e & w2 & -> & Hd2 & Hc2 & Hcalls2 & _)].
    + cbn [commit modify mret M_ret fst snd]. split; [done|]. split; [done|].
      eexists. cbn [set_w_db w_committed w_db w_calls]. rewrite Hd, Hs. by split_and!.
    + cbn [unhandled raise fst snd set_w_db w_committed w_calls]. split; [congruence|]. split; [congruence|]. done.
  - split; [done|]. split; [done|]. intros Hnone. revert E. unfold Risk.assess_mission, load_mission_facts, mbind, M_bind.
    cbn. rewrite Hs, Hnone. by intros [= <- _].
Qed.
End RiskApi.

(** ** On concrete inputs *)
#[local] Existing Instance demo_env.

Definition demo_feature (entry : string * scalar) : string * FeatureValue :=
  (fst entry, feature_of (fst entry, Some (snd entry), None) (mkFeatureSpec FeatureSource.AUDIT_LEDGER
     AuthorityLevel.TRUSTED_INTERNAL_SERVICE TrustLevel.TRUSTED (u "audit events") false)).
Definition demo_features : features :=
  map demo_feature [("authorization_replay_attempts", VInt 1); ("payment_attempts", VInt 4); ("provider_timeout_events", VInt 2)]
  ++ [("quantity", feature_of ("quantity", None, Some FeatureUnavailableReason.NO_OFFERS) (audit_spec false (u "audit events")))].

(** A score's points need not be the column of contributions added up: [sum] compensates. *)
Theorem points_are_not_the_column : ∃ factors raw,
  score DEFAULT_RISK_CONFIG demo_features = Ok (factors, raw) ∧
  map (λ f, (rf_code f, float_repr (rf_contribution f))) factors =
    [("AUTHORIZATION_REPLAY_HISTORY", "0.6"); ("PAYMENT_RETRY_PRESSURE", "0.15"); ("PROVIDER_TIMEOUT_HISTORY", "0.15")] ∧
  float_repr raw = "0.8999999999999999" ∧ float_repr (column_sum (map rf_contribution factors)) = "0.9".
Proof.
  destruct (score DEFAULT_RISK_CONFIG demo_features) as [[factors raw]|e] eqn:E; vm_compute in E; [|discriminate E].
  injection E as <- <-. eexists _, _. split; [reflexivity|]. repeat split; vm_compute; reflexivity.
Qed.

Definition demo_scored : list RiskFactor * float :=
  match score DEFAULT_RISK_CONFIG demo_features with Ok s => s | Raise _ => ([], fl_zero) end.
Lemma score_is_accounted_witness :
  score DEFAULT_RISK_CONFIG demo_features = Ok (fst demo_scored, snd demo_scored) ∧
  length (fst demo_scored) = 3%nat ∧ NoDup (map rf_code (fst demo_scored)).
Proof.
  assert (E : score DEFAULT_RISK_CONFIG demo_features = Ok (fst demo_scored, snd demo_scored)) by (vm_compute; reflexivity).
  split; [exact E|]. split; [vm_compute; reflexivity|].
  exact (proj1 (proj2 (proj2 (score_is_accounted DEFAULT_RISK_CONFIG demo_features _ _ E)))).
Defined.

Lemma unmeasured_scores_nothing_witness :
  length (measured_features demo_features) = 3%nat ∧
  score DEFAULT_RISK_CONFIG (measured_features demo_features) = score DEFAULT_RISK_CONFIG demo_features.
Proof.
  split; [vm_compute; reflexivity|]. apply unmeasured_scores_nothing.
  apply (bool_decide_unpack (NoDup (map fst demo_features))). vm_compute. exact I.
Defined.

(** A mission whose ledger holds one event, of a refused replay, with a broken chain. *)
Definition suspicious_db : DB :=
  set_db_audit [mkAuditEventRow 90%N 7%N 0 (enum_value EventType.AUTHORIZATION_REPLAY_DETECTED) "kernel" (JObj [])
    GENESIS_HASH GENESIS_HASH (Some noon_utc)] (w_db ready_world).
Definition demo_assessment : outcome exn RiskAssessment :=
  fst (Risk.assess_mission (sv_risk demo_server) 7%N None None (Some noon_utc) (demo_world suspicious_db)).
Lemma assessment_is_grounded_witness : ∃ a,
  demo_assessment = Ok a ∧ map rf_code (rk_factors a) = ["AUTHORIZATION_REPLAY_HISTORY"; "AUDIT_CHAIN_INVALID"] ∧
  grounded DEFAULT_RISK_CONFIG 7%N a.
Proof.
  assert (Hr : is_ok demo_assessment = true) by (vm_compute; reflexivity).
  assert (Hf : match demo_assessment with Ok a => map rf_code (rk_factors a) | Raise _ => [] end =
    ["AUTHORIZATION_REPLAY_HISTORY"; "AUDIT_CHAIN_INVALID"]) by (vm_compute; reflexivity).
  unfold demo_assessment in *.
  destruct (Risk.assess_mission (sv_risk demo_server) 7%N None None (Some noon_utc) (demo_world suspicious_db))
    as [[a|e] w'] eqn:E; [|discriminate Hr]. cbn [fst] in *. exists a. split; [reflexivity|]. split; [exact Hf|].
  exact (proj1 (assessment_is_grounded (sv_risk demo_server) 7%N None None (Some noon_utc) _ _ _ E)).
Defined.

Lemma risk_is_advisory_witness : ∃ a w',
  get_session (assess_and_record demo_server 7%N) (demo_world suspicious_db) = (Ok (201, a), w') ∧
  length (db_audit (w_committed w')) = 2%nat.
Proof.
  pose proof (risk_is_advisory demo_server 7%N (demo_world suspicious_db) eq_refl) as Hd.
  assert (Hr : match fst (get_session (assess_and_record demo_server 7%N) (demo_world suspicious_db)) with
    | Ok (s, _) => s =? 201 | Raise _ => false end = true) by (vm_compute; reflexivity).
  destruct (get_session (assess_and_record demo_server 7%N) (demo_world suspicious_db)) as [[[s a]|e] w'];
    [|discriminate Hr]. cbn [fst] in Hr. apply Z.eqb_eq in Hr. subst s.
  destruct Hd as (_ & _ & e & Hw & _). exists a, w'. split; [reflexivity|]. rewrite Hw. reflexivity.
Defined.
