(* ===== verification/AdapterModels.v ===== *)
(** * The vocabulary of the external protocol adapters

    services/adapters/errors.py, fields.py, models.py and translation.py: the refusals,
    the reserved and aliased key names, the adapter families and descriptors, the
    candidate payloads and the envelope they travel in.  A [str] is a list of Latin-1
    characters, as everywhere in the model; a text that holds a dash is a list of code
    points. *)
From S2P Require Import Prelude Python PyFloat PyText Json Enums Errors Provenance Canonical Firewall Transaction Merchant.

(** ** errors.py

    One constructor per class; the ones that compose their detail carry the attributes
    they keep. *)
Inductive AdapterError : Type :=
  | BaseAdapterError (detail : string)
  | UnknownAdapter (adapter_id : string)
  | DuplicateAdapter (detail : string)
  | AdapterFamilyMismatch (adapter_id expected actual : string)
  | AdapterRegistrationRefused (detail : string)
  | UnsupportedProtocolVersion (adapter_id requested : string) (supported : list string)
  | ProtocolMismatch (detail : string)
  | MalformedProtocolPayload (detail : ustr)
  | AmbiguousProtocolField (detail : string)
  | ReservedFieldRejected (fields : list string)
  | UnsupportedOperation (adapter_id requested : string)
  | AuthorityCeilingViolation (detail : string)
  | ProvenanceIncomplete (detail : string)
  | TaintStrippedViolation (detail : string).

Definition adapter_reason_code (e : AdapterError) : string :=
  match e with
  | BaseAdapterError _ => "ADAPTER_ERROR"
  | UnknownAdapter _ => "ADAPTER_NOT_REGISTERED"
  | DuplicateAdapter _ => "ADAPTER_ID_CONFLICT"
  | AdapterFamilyMismatch _ _ _ => "ADAPTER_FAMILY_MISMATCH"
  | AdapterRegistrationRefused _ => "ADAPTER_REGISTRATION_REFUSED"
  | UnsupportedProtocolVersion _ _ _ => "ADAPTER_PROTOCOL_VERSION_UNSUPPORTED"
  | ProtocolMismatch _ => "ADAPTER_PROTOCOL_MISMATCH"
  | MalformedProtocolPayload _ => "ADAPTER_PAYLOAD_MALFORMED"
  | AmbiguousProtocolField _ => "ADAPTER_AMBIGUOUS_FIELD"
  | ReservedFieldRejected _ => "ADAPTER_RESERVED_FIELD_REJECTED"
  | UnsupportedOperation _ _ => "ADAPTER_OPERATION_UNSUPPORTED"
  | AuthorityCeilingViolation _ => "ADAPTER_AUTHORITY_CEILING"
  | ProvenanceIncomplete _ => "ADAPTER_PROVENANCE_INCOMPLETE"
  | TaintStrippedViolation _ => "ADAPTER_TAINT_STRIPPED"
  end.

Definition detail (e : AdapterError) : ustr :=
  match e with
  | UnknownAdapter adapter_id => u ("no adapter registered as " +:+ py_repr adapter_id)
  | AdapterFamilyMismatch adapter_id expected actual =>
      u ("adapter " +:+ py_repr adapter_id +:+ " is registered as " +:+ actual +:+ ", not " +:+ expected)
  | UnsupportedProtocolVersion adapter_id requested supported =>
      u ("adapter " +:+ py_repr adapter_id +:+ " does not support protocol version " +:+ py_repr requested
         +:+ " (supported: " +:+ (if bool_decide (supported = []) then "none" else String.concat ", " supported) +:+ ")")
  | ReservedFieldRejected fields =>
      u ("payload declares security-reserved field(s) that an external source may never set: "
         +:+ String.concat ", " fields)
  | UnsupportedOperation adapter_id requested =>
      u ("adapter " +:+ py_repr adapter_id +:+ " exposes no canonical operation named " +:+ py_repr requested)
  | MalformedProtocolPayload detail => detail
  | BaseAdapterError detail | DuplicateAdapter detail | AdapterRegistrationRefused detail | ProtocolMismatch detail
  | AmbiguousProtocolField detail | AuthorityCeilingViolation detail | ProvenanceIncomplete detail
  | TaintStrippedViolation detail => u detail
  end.

(** What a function of the package raises: a refusal, or any other exception. *)
Inductive failure : Type := Refused (e : AdapterError) | Escaped (e : exn).
Definition refuse {A} (e : AdapterError) : outcome failure A := Raise (Refused e).
Definition malformed {A} (detail : string) : outcome failure A := refuse (MalformedProtocolPayload (u detail)).
Definition escaping {A} (o : outcome exn A) : outcome failure A :=
  match o with Ok a => Ok a | Raise e => Raise (Escaped e) end.

(** ** fields.py *)
Definition RESERVED_SECURITY_FIELDS : list string :=
  ["authority"; "authoritylevel"; "capability"; "capabilities"; "capabilityset"; "paymentexecute"; "refundexecute";
   "policymodify"; "authorizationissue"; "merchantmodify"; "trust"; "trusted"; "trustlevel"; "tainted"; "taint";
   "principal"; "system"; "systempolicy"; "provenance";
   "authorization"; "authorizationid"; "authorizationvalid"; "authorizationstatus"; "nonce"; "transactiondigest";
   "digest"; "signature"; "signed"; "verified"; "consumedat"; "bindingversion";
   "policyoverride"; "policyversion"; "softbudgetinr"; "hardlimitinr"; "minrating"; "allowedmerchants";
   "blockedmerchants"; "minmerchanttrust";
   "merchanttrust"; "merchanttrustscore"; "trustscore"; "merchantname"; "adapterid"; "adapterfamily"; "adapterversion";
   "riskscore"; "riskband"; "riskrecommendation"].

(** [str.lower] and [str.isalnum] on Latin-1: the accented capitals have lower-case forms
    32 above them, and the ordinal indicators, the superscript digits, the fractions and
    the micro sign are alphanumeric. *)
Definition latin1_lower (a : ascii) : ascii :=
  let n := Ascii.N_of_ascii a in
  if ((192 <=? n) && (n <=? 222) && negb (n =? 215))%N then Ascii.ascii_of_N (n + 32) else ascii_lower a.
Definition latin1_isalnum (a : ascii) : bool :=
  let n := Ascii.N_of_ascii a in
  ((48 <=? n) && (n <=? 57) || (65 <=? n) && (n <=? 90) || (97 <=? n) && (n <=? 122)
   || bool_decide (n ∈ [170; 178; 179; 181; 185; 186; 188; 189; 190])
   || (192 <=? n) && negb (n =? 215) && negb (n =? 247))%N.
Fixpoint str_filter (p : ascii → bool) (s : string) : string :=
  match s with
  | EmptyString => EmptyString
  | String a s' => if p a then String a (str_filter p s') else str_filter p s'
  end.

Definition normalize_key (key : string) : string := str_filter latin1_isalnum (str_map latin1_lower key).

Definition reserved_fields_in (mapping : json_obj) : list string :=
  py_sorted String.leb (List.filter (λ key, bool_decide (normalize_key key ∈ RESERVED_SECURITY_FIELDS)) (map fst mapping)).

Definition reject_reserved_fields (mapping : json_obj) : outcome failure unit :=
  match reserved_fields_in mapping with
  | [] => Ok tt
  | found => refuse (ReservedFieldRejected found)
  end.

(** The loop of [reject_aliased_keys]; [seen] maps a canonical name to the key it came from. *)
Fixpoint scan_aliases (seen : list (string * string)) (keys : list string) : outcome failure unit :=
  match keys with
  | [] => Ok tt
  | key :: rest =>
      let canonical := normalize_key key in
      match py_dict_get canonical seen with
      | Some first =>
          refuse (AmbiguousProtocolField
            ("keys " +:+ py_repr first +:+ " and " +:+ py_repr key +:+ " both name the field " +:+ py_repr canonical
             +:+ "; a payload that states one field twice has no single meaning"))
      | None => scan_aliases (py_dict_set canonical key seen) rest
      end
  end.
Definition reject_aliased_keys (mapping : json_obj) : outcome failure unit := scan_aliases [] (map fst mapping).

Definition guard_payload_keys (mapping : json_obj) : outcome failure unit :=
  reject_aliased_keys mapping;; reject_reserved_fields mapping.

Example normalize_spellings :
  map normalize_key ["merchantId"; "merchant_id"; "MERCHANT-ID"; "Merchant Id"] = repeat "merchantid" 4.
Proof. reflexivity. Qed.

(** ** models.py: vocabulary *)
(** The five integration layers. *)
Module AdapterFamily.
Inductive AdapterFamily : Set :=
  | COMMERCE | PAYMENT_AUTHORIZATION | TOOL | AGENT_COMMUNICATION | PAYMENT_RAIL.
#[global] Instance eq_dec : EqDecision AdapterFamily.
Proof. solve_decision. Defined.
Definition value (x : AdapterFamily) : string :=
  match x with
  | COMMERCE => "COMMERCE"
  | PAYMENT_AUTHORIZATION => "PAYMENT_AUTHORIZATION"
  | TOOL => "TOOL"
  | AGENT_COMMUNICATION => "AGENT_COMMUNICATION"
  | PAYMENT_RAIL => "PAYMENT_RAIL"
  end.
Definition members : list AdapterFamily :=
  [COMMERCE; PAYMENT_AUTHORIZATION; TOOL; AGENT_COMMUNICATION; PAYMENT_RAIL].
End AdapterFamily.
Abbreviation AdapterFamily := AdapterFamily.AdapterFamily.
#[global] Instance AdapterFamily_enum : StrEnum AdapterFamily.
Proof. refine {| enum_value := AdapterFamily.value; enum_members := AdapterFamily.members |}; solve_enum. Defined.

(** What may be said of a protocol. *)
Module SupportStatus.
Inductive SupportStatus : Set :=
  | IMPLEMENTED | PARTIAL | PLANNED | NOT_APPLICABLE.
#[global] Instance eq_dec : EqDecision SupportStatus.
Proof. solve_decision. Defined.
Definition value (x : SupportStatus) : string :=
  match x with
  | IMPLEMENTED => "IMPLEMENTED"
  | PARTIAL => "PARTIAL"
  | PLANNED => "PLANNED"
  | NOT_APPLICABLE => "NOT_APPLICABLE"
  end.
Definition members : list SupportStatus :=
  [IMPLEMENTED; PARTIAL; PLANNED; NOT_APPLICABLE].
End SupportStatus.
Abbreviation SupportStatus := SupportStatus.SupportStatus.
#[global] Instance SupportStatus_enum : StrEnum SupportStatus.
Proof. refine {| enum_value := SupportStatus.value; enum_members := SupportStatus.members |}; solve_enum. Defined.

(** The operations an external tool call may name. *)
Module CandidateOperationType.
Inductive CandidateOperationType : Set :=
  | CATALOG_SEARCH | MERCHANT_DISCOVER | OFFER_REQUEST | OFFER_RANK | PURCHASE_PROPOSE.
#[global] Instance eq_dec : EqDecision CandidateOperationType.
Proof. solve_decision. Defined.
Definition value (x : CandidateOperationType) : string :=
  match x with
  | CATALOG_SEARCH => "catalog.search"
  | MERCHANT_DISCOVER => "merchant.discover"
  | OFFER_REQUEST => "offer.request"
  | OFFER_RANK => "offer.rank"
  | PURCHASE_PROPOSE => "purchase.propose"
  end.
Definition members : list CandidateOperationType :=
  [CATALOG_SEARCH; MERCHANT_DISCOVER; OFFER_REQUEST; OFFER_RANK; PURCHASE_PROPOSE].
End CandidateOperationType.
Abbreviation CandidateOperationType := CandidateOperationType.CandidateOperationType.
#[global] Instance CandidateOperationType_enum : StrEnum CandidateOperationType.
Proof. refine {| enum_value := CandidateOperationType.value; enum_members := CandidateOperationType.members |}; solve_enum. Defined.

(** What a reader must know about a translation that still succeeded. *)
Module AdapterWarningCode.
Inductive AdapterWarningCode : Set :=
  | CLAIMED_IDENTITY_NOT_AUTHENTICATED | EXTERNAL_AUTHORIZATION_REFERENCE_NOT_VERIFIED
  | UNKNOWN_FIELDS_KEPT_AS_UNTRUSTED_METADATA | MERCHANT_TRUST_NOT_ASSIGNED_BY_ADAPTER.
#[global] Instance eq_dec : EqDecision AdapterWarningCode.
Proof. solve_decision. Defined.
Definition value (x : AdapterWarningCode) : string :=
  match x with
  | CLAIMED_IDENTITY_NOT_AUTHENTICATED => "CLAIMED_IDENTITY_NOT_AUTHENTICATED"
  | EXTERNAL_AUTHORIZATION_REFERENCE_NOT_VERIFIED => "EXTERNAL_AUTHORIZATION_REFERENCE_NOT_VERIFIED"
  | UNKNOWN_FIELDS_KEPT_AS_UNTRUSTED_METADATA => "UNKNOWN_FIELDS_KEPT_AS_UNTRUSTED_METADATA"
  | MERCHANT_TRUST_NOT_ASSIGNED_BY_ADAPTER => "MERCHANT_TRUST_NOT_ASSIGNED_BY_ADAPTER"
  end.
Definition members : list AdapterWarningCode :=
  [CLAIMED_IDENTITY_NOT_AUTHENTICATED; EXTERNAL_AUTHORIZATION_REFERENCE_NOT_VERIFIED; UNKNOWN_FIELDS_KEPT_AS_UNTRUSTED_METADATA; MERCHANT_TRUST_NOT_ASSIGNED_BY_ADAPTER].
End AdapterWarningCode.
Abbreviation AdapterWarningCode := AdapterWarningCode.AdapterWarningCode.
#[global] Instance AdapterWarningCode_enum : StrEnum AdapterWarningCode.
Proof. refine {| enum_value := AdapterWarningCode.value; enum_members := AdapterWarningCode.members |}; solve_enum. Defined.

Definition display_name (family : AdapterFamily) : string :=
  match family with
  | AdapterFamily.COMMERCE => "CommerceAdapter"
  | AdapterFamily.PAYMENT_AUTHORIZATION => "PaymentAuthorizationAdapter"
  | AdapterFamily.TOOL => "ToolAdapter"
  | AdapterFamily.AGENT_COMMUNICATION => "AgentCommunicationAdapter"
  | AdapterFamily.PAYMENT_RAIL => "PaymentRailAdapter"
  end.

Definition TRANSLATING_FAMILIES : list AdapterFamily :=
  [AdapterFamily.COMMERCE; AdapterFamily.PAYMENT_AUTHORIZATION; AdapterFamily.TOOL].
Definition MAX_ADAPTER_AUTHORITY : AuthorityLevel := AuthorityLevel.AGENT_PROPOSAL.

(** [authenticated] is [Literal[False]]: the type has no other value, so the record has no
    such field. *)
Record SourceIdentity := mkSourceIdentity { si_claimed_id : string; si_channel : string }.
Definition SourceIdentity_new (s : SourceIdentity) : outcome exn SourceIdentity :=
  if negb (length_within 1 200 (si_claimed_id s)) then Raise (ValidationError "claimed_id")
  else if negb (length_within 1 120 (si_channel s)) then Raise (ValidationError "channel")
  else Ok s.
Definition source_trust (s : SourceIdentity) : TrustLevel := TrustLevel.UNTRUSTED.
Definition source_authority (s : SourceIdentity) : AuthorityLevel := AuthorityLevel.AGENT_PROPOSAL.

Record AdapterDescriptor := mkAdapterDescriptor {
  ad_adapter_id : string;
  ad_family : AdapterFamily;
  ad_protocol_name : string;
  ad_protocol_version : string;
  ad_supported_protocol_versions : list string;
  ad_adapter_version : string;
  ad_status : SupportStatus;
  ad_emits_authority : AuthorityLevel;
  ad_emits_trust : TrustLevel;
  ad_summary : string
}.
Definition above (a b : AuthorityLevel) : bool := AuthorityLevel.level b <? AuthorityLevel.level a.
Definition is_id_char (a : ascii) : bool :=
  let n := Ascii.N_of_ascii a in
  ((97 <=? n) && (n <=? 122) || (48 <=? n) && (n <=? 57) || bool_decide (n ∈ [46; 95; 45]))%N.
(** The field constraints, then [_check_ceilings], whose ValueErrors pydantic reports as
    a ValidationError of the model. *)
Definition AdapterDescriptor_new (d : AdapterDescriptor) : outcome exn AdapterDescriptor :=
  if negb (length_within 1 80 (ad_adapter_id d) && str_forallb is_id_char (ad_adapter_id d))
  then Raise (ValidationError "adapter_id")
  else if negb (length_within 1 80 (ad_protocol_name d)) then Raise (ValidationError "protocol_name")
  else if negb (length_within 1 40 (ad_protocol_version d)) then Raise (ValidationError "protocol_version")
  else if bool_decide (ad_supported_protocol_versions d = []) then Raise (ValidationError "supported_protocol_versions")
  else if negb (length_within 1 40 (ad_adapter_version d)) then Raise (ValidationError "adapter_version")
  else if negb (length_within 10 400 (ad_summary d)) then Raise (ValidationError "summary")
  else if above (ad_emits_authority d) MAX_ADAPTER_AUTHORITY then Raise (ValidationError "emits_authority")
  else if negb (bool_decide (ad_emits_trust d = TrustLevel.UNTRUSTED)) then Raise (ValidationError "emits_trust")
  else if negb (bool_decide (ad_protocol_version d ∈ ad_supported_protocol_versions d))
  then Raise (ValidationError "protocol_version")
  else Ok d.
Definition supports (d : AdapterDescriptor) (protocol_version : string) : bool :=
  bool_decide (protocol_version ∈ ad_supported_protocol_versions d).

(** ** models.py: candidate payloads *)

(** [ClaimValue]: a scalar or a list of strings. *)
Definition is_json_str (j : json) : bool := match j with JStr _ => true | _ => false end.
Definition is_claim_value (j : json) : bool :=
  match j with JObj _ => false | JList l => forallb is_json_str l | _ => true end.

Record CandidateCommerceOffer := mkCandidateOffer {
  co_claimed_merchant_id : string;
  co_offer : RawMerchantOffer;
  co_untrusted_metadata : json_obj
}.
Definition CandidateCommerceOffer_new (o : CandidateCommerceOffer) : outcome exn CandidateCommerceOffer :=
  if negb (length_within 1 120 (co_claimed_merchant_id o)) then Raise (ValidationError "claimed_merchant_id")
  else if negb (forallb is_claim_value (map snd (co_untrusted_metadata o))) then Raise (ValidationError "untrusted_metadata")
  else Ok o.

Record CandidateCommerceCatalog := mkCandidateCatalog {
  cc_claimed_merchant_id : string;
  cc_offers : list CandidateCommerceOffer;
  cc_untrusted_metadata : json_obj
}.
Definition CandidateCommerceCatalog_new (c : CandidateCommerceCatalog) : outcome exn CandidateCommerceCatalog :=
  if negb (length_within 1 120 (cc_claimed_merchant_id c)) then Raise (ValidationError "claimed_merchant_id")
  else if negb (forallb is_claim_value (map snd (cc_untrusted_metadata c))) then Raise (ValidationError "untrusted_metadata")
  else Ok c.

Definition OPERATION_CAPABILITY (operation : CandidateOperationType) : Capability :=
  match operation with
  | CandidateOperationType.CATALOG_SEARCH => Capability.CATALOG_READ
  | CandidateOperationType.MERCHANT_DISCOVER => Capability.MERCHANT_DISCOVER
  | CandidateOperationType.OFFER_REQUEST => Capability.OFFER_REQUEST
  | CandidateOperationType.OFFER_RANK => Capability.OFFER_RANK
  | CandidateOperationType.PURCHASE_PROPOSE => Capability.PAYMENT_PROPOSE
  end.
Definition PRIVILEGED_CAPABILITIES : list Capability :=
  [Capability.PAYMENT_EXECUTE; Capability.REFUND_EXECUTE; Capability.POLICY_MODIFY; Capability.AUTHORIZATION_ISSUE;
   Capability.MERCHANT_MODIFY].

Record CandidateOperation := mkCandidateOperation {
  op_operation : CandidateOperationType;
  op_claimed_tool_name : string;
  op_arguments : json_obj
}.
Definition CandidateOperation_new (o : CandidateOperation) : outcome exn CandidateOperation :=
  if negb (length_within 1 200 (op_claimed_tool_name o)) then Raise (ValidationError "claimed_tool_name")
  else if negb (forallb is_claim_value (map snd (op_arguments o))) then Raise (ValidationError "arguments")
  else Ok o.
Definition required_capability (o : CandidateOperation) : Capability := OPERATION_CAPABILITY (op_operation o).

Record CandidateAuthorizationRequest := mkCandidateRequest {
  cr_mission_id : option uuid;
  cr_claimed_merchant_id : string;
  cr_claimed_product_id : string;
  cr_claimed_quantity : Z;
  cr_claimed_amount_inr : Z;
  cr_claimed_currency : string;
  cr_claimed_expires_at : option datetime;
  cr_external_authorization_reference : option string;
  cr_untrusted_metadata : json_obj
}.
(** The field constraints; pydantic counts every one that fails. *)
Definition request_constraints (r : CandidateAuthorizationRequest) : list bool :=
  [length_within 1 120 (cr_claimed_merchant_id r); length_within 1 120 (cr_claimed_product_id r);
   (1 <=? cr_claimed_quantity r) && (cr_claimed_quantity r <=? 100); 1 <=? cr_claimed_amount_inr r;
   length_within 3 3 (cr_claimed_currency r);
   match cr_external_authorization_reference r with Some s => (String.length s <=? 400)%nat | None => true end;
   forallb is_claim_value (map snd (cr_untrusted_metadata r))].
Definition violations (constraints : list bool) : Z := Z.of_nat (length (List.filter negb constraints)).
(** The constructor, or the number of constraints violated: the fields', then, when they
    hold, the model validator's on the folded currency. *)
Definition CandidateAuthorizationRequest_new (r : CandidateAuthorizationRequest)
    : Z + CandidateAuthorizationRequest :=
  let count := violations (request_constraints r) in
  if 0 <? count then inl count
  else if match cr_claimed_expires_at r with Some t => negb (dt_is_aware t) | None => false end then inl 1
  else inr (mkCandidateRequest (cr_mission_id r) (cr_claimed_merchant_id r) (cr_claimed_product_id r)
              (cr_claimed_quantity r) (cr_claimed_amount_inr r) (py_upper (cr_claimed_currency r))
              (cr_claimed_expires_at r) (cr_external_authorization_reference r) (cr_untrusted_metadata r)).

Inductive CanonicalPayload : Type :=
  | Catalog (c : CandidateCommerceCatalog)
  | Offer (o : CandidateCommerceOffer)
  | Operation (o : CandidateOperation)
  | AuthorizationRequest (r : CandidateAuthorizationRequest).
Definition payload_type (p : CanonicalPayload) : string :=
  match p with
  | Catalog _ => "CandidateCommerceCatalog"
  | Offer _ => "CandidateCommerceOffer"
  | Operation _ => "CandidateOperation"
  | AuthorizationRequest _ => "CandidateAuthorizationRequest"
  end.
(** The types each family may emit; [None] is a KeyError. *)
Definition FAMILY_PAYLOAD_TYPES (family : AdapterFamily) : option (list string) :=
  match family with
  | AdapterFamily.COMMERCE => Some ["CandidateCommerceCatalog"; "CandidateCommerceOffer"]
  | AdapterFamily.TOOL => Some ["CandidateOperation"]
  | AdapterFamily.PAYMENT_AUTHORIZATION => Some ["CandidateAuthorizationRequest"]
  | _ => None
  end.

(** ** models.py: warnings, the envelope, provenance keys *)
Record AdapterWarning := mkAdapterWarning { aw_code : AdapterWarningCode; aw_detail : string }.
Definition AdapterWarning_new (code : AdapterWarningCode) (detail : string) : outcome exn AdapterWarning :=
  if length_within 1 400 detail then Ok (mkAdapterWarning code detail) else Raise (ValidationError "detail").

Definition ENVELOPE_FINGERPRINT_DOMAIN : string := "pactra-adapter-envelope-v1".

(** [taint] is [Literal[True]]. *)
Record AdapterEnvelope := mkAdapterEnvelope {
  ae_adapter_id : string;
  ae_adapter_family : AdapterFamily;
  ae_protocol_name : string;
  ae_protocol_version : string;
  ae_adapter_version : string;
  ae_source_identity : SourceIdentity;
  ae_source_trust : TrustLevel;
  ae_source_authority : AuthorityLevel;
  ae_received_at : datetime;
  ae_raw_reference : string;
  ae_raw_byte_length : Z;
  ae_canonical_payload : CanonicalPayload;
  ae_provenance : list (string * ProvenanceMeta);
  ae_warnings : list AdapterWarning
}.

Definition provenance_entry (entry : string * ProvenanceMeta) : string :=
  let '(name, meta) := entry in
  name +:+ "=" +:+ meta_source meta +:+ "|" +:+ AuthorityLevel.name (meta_authority meta) +:+ "|"
  +:+ enum_value (meta_trust meta) +:+ "|" +:+ str_int (Z.b2z (meta_tainted meta)).
(** [model_dump_json] of the payload is pydantic's. *)
Definition canonical_fingerprint (model_dump_json : CanonicalPayload → ustr) (e : AdapterEnvelope) : outcome exn string :=
  canonical_digest ENVELOPE_FINGERPRINT_DOMAIN
    [("adapter_id", VStr (u (ae_adapter_id e)));
     ("adapter_family", VStr (u (enum_value (ae_adapter_family e))));
     ("protocol_name", VStr (u (ae_protocol_name e)));
     ("protocol_version", VStr (u (ae_protocol_version e)));
     ("adapter_version", VStr (u (ae_adapter_version e)));
     ("claimed_id", VStr (u (si_claimed_id (ae_source_identity e))));
     ("channel", VStr (u (si_channel (ae_source_identity e))));
     ("payload", VStr (model_dump_json (ae_canonical_payload e)));
     ("provenance", VStr (u (String.concat "," (map provenance_entry (py_sorted key_leb (ae_provenance e))))));
     ("warnings", VStr (u (String.concat "," (py_sorted String.leb (map (λ w, enum_value (aw_code w)) (ae_warnings e))))))].

Definition metadata_key (prefix : string) : string := prefix +:+ "untrusted_metadata".
Definition RAW_OFFER_FIELDS : list string :=
  ["merchant_id"; "product_id"; "title"; "description"; "price"; "currency"; "rating"; "in_stock"; "offered_at"; "claims"].
Definition non_empty {A} (l : list A) : bool := match l with [] => false | _ => true end.
Definition offer_keys (offer : CandidateCommerceOffer) (prefix : string) : list string :=
  map (String.append prefix) RAW_OFFER_FIELDS
  ++ (if non_empty (co_untrusted_metadata offer) then [metadata_key prefix] else []).
Definition offer_prefix (index : nat) : string := "offers[" +:+ str_int (Z.of_nat index) +:+ "].".

Definition required_provenance_keys (payload : CanonicalPayload) : list string :=
  match payload with
  | Catalog c =>
      ["claimed_merchant_id"]
      ++ concat (imap (λ index offer, offer_keys offer (offer_prefix index)) (cc_offers c))
      ++ (if non_empty (cc_untrusted_metadata c) then [metadata_key ""] else [])
  | Offer o => offer_keys o "" ++ ["claimed_merchant_id"]
  | Operation o => ["operation"; "claimed_tool_name"] ++ map (λ a, "arguments." +:+ fst a) (op_arguments o)
  | AuthorizationRequest r =>
      ["claimed_merchant_id"; "claimed_product_id"; "claimed_quantity"; "claimed_amount_inr"; "claimed_currency"]
      ++ (if is_some (cr_mission_id r) then ["mission_id"] else [])
      ++ (if is_some (cr_claimed_expires_at r) then ["claimed_expires_at"] else [])
      ++ (if is_some (cr_external_authorization_reference r) then ["external_authorization_reference"] else [])
      ++ (if non_empty (cr_untrusted_metadata r) then [metadata_key ""] else [])
  end.

(** ** translation.py *)
Record TranslationResult := mkTranslationResult {
  tr_canonical_payload : CanonicalPayload;
  tr_provenance : list (string * ProvenanceMeta);
  tr_warnings : list AdapterWarning
}.
Definition external_provenance (source : string) : ProvenanceMeta :=
  mkProvenanceMeta source AuthorityLevel.AGENT_PROPOSAL TrustLevel.UNTRUSTED true true.
Definition provenance_source (adapter_id claimed_id : string) : string :=
  "adapter:" +:+ adapter_id +:+ ":claim:" +:+ claimed_id.
