(* ===== verification/Adapters.v ===== *)
(** * The external protocol adapters

    services/adapters: the registry, the MCP [tools/call] adapter, the PACTRA commerce and
    authorization-intent adapters, and [translate], the one entry point, which stamps the
    server-owned identity and checks what an adapter returned; the capability check of
    tools/base.py and the rail listing of payment_rails/base.py.  Python's
    [datetime.fromisoformat], [uuid.UUID(str)], [json.loads] and the clock are parameters. *)
From S2P Require Import Prelude Python PyFloat PyText PyNumbers Json Enums Errors Provenance Canonical Firewall Transaction Merchant.
From S2P Require Import Provider AdapterModels.

(** [type(value).__name__] of a decoded value. *)
Definition json_type (j : json) : string :=
  match j with
  | JNull => "NoneType" | JBool _ => "bool" | JInt _ => "int" | JFloat _ => "float" | JStr _ => "str"
  | JList _ => "list" | JObj _ => "dict"
  end.

(** [_require_object], the same in the three adapters. *)
Definition require_object (value : json) (what : string) : outcome failure json_obj :=
  match value with
  | JObj d => Ok d
  | _ => malformed (what +:+ " must be a JSON object, not " +:+ json_type value)
  end.

(** The keys of a dict that are not in a set, sorted. *)
Definition unexpected_keys (members : list string) (d : json_obj) : list string :=
  py_sorted String.leb (List.filter (λ k, negb (bool_decide (k ∈ members))) (map fst d)).

(** An implementation of an adapter: what the registry inspects - the class name, the
    families whose base class it is an instance of, and [getattr(implementation, "family",
    None)] - and its [translate_payload].  The bases provide [family]. *)
Record Implementation := mkImplementation {
  im_type_name : string;
  im_bases : list AdapterFamily;
  im_family : option AdapterFamily;
  im_translate_payload : json → SourceIdentity → string → outcome failure TranslationResult
}.

(** ** registry.py *)
Definition FAMILY_BASE_CLASSES (family : AdapterFamily) : option string :=
  if bool_decide (family ∈ TRANSLATING_FAMILIES) then Some (display_name family) else None.
Definition NON_TRANSLATING_FAMILY_REASONS (family : AdapterFamily) : option string :=
  match family with
  | AdapterFamily.PAYMENT_RAIL => Some
      "a payment rail EXECUTES rather than translates; its boundary is the PaymentProvider protocol, resolved through services.payment_executor.registry and reachable only from the payment executor under the payment.execute capability"
  | AdapterFamily.AGENT_COMMUNICATION => Some
      "the agent-communication family is declared but not implemented: no protocol requirement in this repository justifies one, and an empty base class is decoration (see services/adapters/agents/__init__.py)"
  | _ => None
  end.

Record RegisteredAdapter := mkRegisteredAdapter { ra_descriptor : AdapterDescriptor; ra_implementation : Implementation }.
(** [__setattr__] and [__delattr__] refuse. *)
Definition setattr (self : RegisteredAdapter) (name : string) : outcome failure RegisteredAdapter :=
  refuse (AdapterRegistrationRefused
    ("a registered adapter is immutable; refusing to reassign " +:+ py_repr name
     +:+ ". This object is the registry's own record, so reassigning it would re-label the adapter for every subsequent caller.")).
Definition delattr (self : RegisteredAdapter) (name : string) : outcome failure RegisteredAdapter :=
  refuse (AdapterRegistrationRefused ("a registered adapter is immutable; refusing to delete " +:+ py_repr name)).

(** [_adapters], a dict in registration order, and [_sealed]. *)
Record AdapterRegistry := mkAdapterRegistry { rg_adapters : list (string * RegisteredAdapter); rg_sealed : bool }.
Definition AdapterRegistry_new : AdapterRegistry := mkAdapterRegistry [] false.
Definition family_str (f : option AdapterFamily) : string :=
  match f with Some f => "AdapterFamily." +:+ enum_value f | None => "None" end.

Definition register (descriptor : AdapterDescriptor) (implementation : Implementation)
    : M AdapterRegistry failure RegisteredAdapter := λ self,
  let refused (e : AdapterError) := (Raise (Refused e), self) in
  let id := ad_adapter_id descriptor in
  let family := ad_family descriptor in
  if rg_sealed self then
    refused (AdapterRegistrationRefused
      "the server-owned adapter registry is sealed; runtime or caller-supplied registration is not permitted")
  else if is_some (py_dict_get id (rg_adapters self)) then
    refused (DuplicateAdapter ("adapter id " +:+ py_repr id +:+ " is already registered"))
  else if negb (bool_decide (family ∈ TRANSLATING_FAMILIES)) then
    refused (AdapterRegistrationRefused
      (display_name family +:+ " may not be registered here: "
       +:+ default "family holds no translating adapter" (NON_TRANSLATING_FAMILY_REASONS family)))
  else match FAMILY_BASE_CLASSES family with
  | None => (Raise (Escaped (KeyError (enum_value family))), self)
  | Some base =>
      if negb (bool_decide (family ∈ im_bases implementation)) then
        refused (AdapterRegistrationRefused
          ("adapter " +:+ py_repr id +:+ " declares family " +:+ display_name family +:+ " but its implementation is a "
           +:+ im_type_name implementation +:+ ", not a " +:+ base))
      else if negb (bool_decide (im_family implementation = Some family)) then
        refused (AdapterRegistrationRefused
          ("adapter " +:+ py_repr id +:+ " is registered as " +:+ enum_value family +:+ " but reports family "
           +:+ family_str (im_family implementation)))
      else if above (ad_emits_authority descriptor) MAX_ADAPTER_AUTHORITY then
        refused (AdapterRegistrationRefused
          ("adapter " +:+ py_repr id +:+ " would emit " +:+ AuthorityLevel.name (ad_emits_authority descriptor)
           +:+ ", above the adapter ceiling " +:+ AuthorityLevel.name MAX_ADAPTER_AUTHORITY))
      else
        let registered := mkRegisteredAdapter descriptor implementation in
        (Ok registered, mkAdapterRegistry (py_dict_set id registered (rg_adapters self)) (rg_sealed self))
  end.
Definition seal : M AdapterRegistry failure unit := modify (λ self, mkAdapterRegistry (rg_adapters self) true).

Definition has (self : AdapterRegistry) (adapter_id : string) : bool := is_some (py_dict_get adapter_id (rg_adapters self)).
Definition lookup_adapter (self : AdapterRegistry) (adapter_id : string) (family : AdapterFamily)
    : outcome failure RegisteredAdapter :=
  match py_dict_get adapter_id (rg_adapters self) with
  | None => refuse (UnknownAdapter adapter_id)
  | Some registered =>
      let actual := ad_family (ra_descriptor registered) in
      if bool_decide (actual = family) then Ok registered
      else refuse (AdapterFamilyMismatch adapter_id (display_name family) (display_name actual))
  end.
Definition describe (self : AdapterRegistry) (adapter_id : string) : outcome failure AdapterDescriptor :=
  match py_dict_get adapter_id (rg_adapters self) with
  | None => refuse (UnknownAdapter adapter_id)
  | Some registered => Ok (ra_descriptor registered)
  end.
Definition list_adapters (self : AdapterRegistry) (family : option AdapterFamily) : list AdapterDescriptor :=
  List.filter (λ d, match family with Some f => bool_decide (ad_family d = f) | None => true end)
    (map (λ e, ra_descriptor (snd e)) (rg_adapters self)).
Definition ids (self : AdapterRegistry) : list string := map fst (rg_adapters self).
Definition registry_len (self : AdapterRegistry) : nat := length (rg_adapters self).

(** ** tools/mcp.py *)
Module Mcp.
Definition ADAPTER_ID : string := "mcp.tools-call.v1".
Definition PROTOCOL_NAME : string := "MCP".
Definition ADAPTER_VERSION : string := "pactra-mcp-tools-call-v1".
Definition SUPPORTED_PROTOCOL_VERSIONS : list string := ["2024-11-05"; "2025-03-26"; "2025-06-18"].
Definition PRIMARY_PROTOCOL_VERSION : string := "2025-06-18".
Definition SUPPORTED_METHOD : string := "tools/call".
Definition JSONRPC_VERSION : string := "2.0".
Definition JSONRPC_ENVELOPE_MEMBERS : list string := ["jsonrpc"; "id"; "method"; "params"].
Definition TOOLS_CALL_PARAMS_MEMBERS : list string := ["name"; "arguments"; "_meta"].
Definition TOOL_NAMES : list (string * CandidateOperationType) :=
  [("pactra.catalog.search", CandidateOperationType.CATALOG_SEARCH);
   ("pactra.merchant.discover", CandidateOperationType.MERCHANT_DISCOVER);
   ("pactra.offer.request", CandidateOperationType.OFFER_REQUEST);
   ("pactra.offer.rank", CandidateOperationType.OFFER_RANK);
   ("pactra.purchase.propose", CandidateOperationType.PURCHASE_PROPOSE)].
Definition MAX_ARGUMENTS : nat := 32.
Definition MAX_ARGUMENT_STRING : nat := 2000.
Definition DESCRIPTOR : AdapterDescriptor :=
  mkAdapterDescriptor ADAPTER_ID AdapterFamily.TOOL PROTOCOL_NAME PRIMARY_PROTOCOL_VERSION SUPPORTED_PROTOCOL_VERSIONS
    ADAPTER_VERSION SupportStatus.PARTIAL AuthorityLevel.AGENT_PROPOSAL TrustLevel.UNTRUSTED
    "Translates a JSON-RPC 2.0 MCP tools/call request into a candidate PACTRA operation. PACTRA is not an MCP server: no transport, no initialize handshake, no tools/list, no response construction.".

Definition normalize_argument (name : string) (value : json) : outcome failure json :=
  match value with
  | JNull | JBool _ | JInt _ | JFloat _ => Ok value
  | JStr s =>
      if (MAX_ARGUMENT_STRING <? String.length s)%nat then
        malformed ("argument " +:+ py_repr name +:+ " is " +:+ str_int (Z.of_nat (String.length s))
                   +:+ " characters, above the " +:+ str_int (Z.of_nat MAX_ARGUMENT_STRING) +:+ "-character limit")
      else Ok value
  | JList l =>
      if negb (forallb is_json_str l) then
        malformed ("argument " +:+ py_repr name
                   +:+ " is a list containing non-string items; only lists of strings are accepted")
      else Ok value
  | JObj _ =>
      malformed ("argument " +:+ py_repr name +:+ " has unsupported type " +:+ json_type value
                 +:+ "; nested objects are refused rather than flattened, because flattening would move keys out of reach of the reserved-field check")
  end.
Fixpoint normalize_arguments (items : json_obj) : outcome failure json_obj :=
  match items with
  | [] => Ok []
  | (name, value) :: rest =>
      value' ← normalize_argument name value;
      rest' ← normalize_arguments rest;
      Ok ((name, value') :: rest')
  end.

(** The JSON-RPC envelope, up to its params. *)
Definition read_envelope (payload : json) : outcome failure json_obj :=
  message ← require_object payload "an MCP request";
  guard_payload_keys message;;
  match unexpected_keys JSONRPC_ENVELOPE_MEMBERS message with
  | (_ :: _) as unexpected =>
      malformed ("JSON-RPC request carries undefined envelope member(s): " +:+ String.concat ", " unexpected
                 +:+ ". A JSON-RPC envelope has a fixed shape, so an unknown member is a malformed message rather than extension metadata, and is refused rather than ignored.")
  | [] =>
      if negb (json_eqb (jget "jsonrpc" message) (JStr JSONRPC_VERSION)) then
        refuse (ProtocolMismatch ("MCP is JSON-RPC " +:+ JSONRPC_VERSION +:+ "; payload declares "
                                  +:+ json_repr (jget "jsonrpc" message)))
      else match jget "id" message with
      | JStr _ | JInt _ =>
          match jget "method" message with
          | JStr method =>
              if negb (String.eqb method SUPPORTED_METHOD) then refuse (UnsupportedOperation ADAPTER_ID method)
              else require_object (jget "params" message) "MCP tools/call 'params'"
          | _ => malformed "MCP request has no string 'method'"
          end
      | _ => malformed "MCP tools/call is a JSON-RPC request and requires a string or integer 'id'; null, booleans, floats and missing ids are refused"
      end
  end.

(** The params: the tool's name and the operation it stands for. *)
Definition read_tool (params : json_obj) : outcome failure (string * CandidateOperationType) :=
  guard_payload_keys params;;
  match unexpected_keys TOOLS_CALL_PARAMS_MEMBERS params with
  | (_ :: _) as unexpected =>
      malformed ("tools/call params carries undefined member(s): " +:+ String.concat ", " unexpected)
  | [] =>
      if is_some (py_dict_get "_meta" params) then
        malformed "MCP tools/call params._meta is defined by MCP but is not supported by this partial translation boundary; it is refused rather than ignored"
      else match jget "name" params with
      | JStr tool_name =>
          if String.eqb tool_name "" then malformed "MCP tools/call params has no string 'name'"
          else match py_dict_get tool_name TOOL_NAMES with
               | None => refuse (UnsupportedOperation ADAPTER_ID tool_name)
               | Some operation => Ok (tool_name, operation)
               end
      | _ => malformed "MCP tools/call params has no string 'name'"
      end
  end.

Definition read_arguments (params : json_obj) : outcome failure json_obj :=
  arguments_object ← (match jget "arguments" params with
                      | JNull => Ok []
                      | raw_arguments => require_object raw_arguments "MCP tools/call 'arguments'"
                      end);
  if (MAX_ARGUMENTS <? length arguments_object)%nat then
    malformed ("tool call carries " +:+ str_int (Z.of_nat (length arguments_object)) +:+ " arguments, above the "
               +:+ str_int (Z.of_nat MAX_ARGUMENTS) +:+ " limit")
  else
    guard_payload_keys arguments_object;;
    normalize_arguments (py_sorted key_leb arguments_object).

Definition translate_payload (payload : json) (source : SourceIdentity) (protocol_version : string)
    : outcome failure TranslationResult :=
  params ← read_envelope payload;
  tool ← read_tool params;
  let '(tool_name, operation) := tool in
  arguments ← read_arguments params;
  candidate ← escaping (CandidateOperation_new (mkCandidateOperation operation tool_name arguments));
  let origin := provenance_source ADAPTER_ID (si_claimed_id source) in
  warning ← escaping (AdapterWarning_new AdapterWarningCode.CLAIMED_IDENTITY_NOT_AUTHENTICATED
    ("the MCP caller claimed to be " +:+ py_repr (si_claimed_id source)
     +:+ "; PACTRA authenticates no protocol channel, so this is a claim and the operation still requires a server-resolved principal"));
  Ok (mkTranslationResult (Operation candidate)
        ([("operation", external_provenance origin); ("claimed_tool_name", external_provenance origin)]
         ++ map (λ a, ("arguments." +:+ fst a, external_provenance origin)) arguments)
        [warning]).

Definition McpToolAdapter : Implementation :=
  mkImplementation "McpToolAdapter" [AdapterFamily.TOOL] (Some AdapterFamily.TOOL) translate_payload.
End Mcp.

(** ** commerce/pactra_commerce.py *)
Definition em_dash_text (before after : string) : ustr := u before ++ em_dash ++ u after.

(** A document's value under a key, when it is a non-empty string. *)
Definition require_str (noun : string) (mapping : json_obj) (key : string) : outcome failure string :=
  match jget key mapping with
  | JStr s => if String.eqb s "" then malformed (noun +:+ " " +:+ py_repr key +:+ " must be a non-empty string") else Ok s
  | _ => malformed (noun +:+ " " +:+ py_repr key +:+ " must be a non-empty string")
  end.

(** Protocol-undefined keys, kept as metadata; [why] ends the refusal. *)
Fixpoint keep_unknown (known : list string) (why : string) (items : json_obj) : outcome failure json_obj :=
  match items with
  | [] => Ok []
  | (name, value) :: rest =>
      if bool_decide (name ∈ known) then keep_unknown known why rest
      else if is_claim_value value then
        extras ← keep_unknown known why rest;
        Ok ((name, value) :: extras)
      else malformed ("unknown field " +:+ py_repr name +:+ " has unsupported type " +:+ json_type value +:+ why)
  end.
Definition unknown_fields (known : list string) (why : string) (mapping : json_obj) : outcome failure json_obj :=
  keep_unknown known why (py_sorted key_leb mapping).

(** The document's protocol, when it declares one, must be the adapter's. *)
Definition check_protocol (protocol_name : string) (document : json_obj) : outcome failure unit :=
  match jget "protocol" document with
  | JNull => Ok tt
  | declared =>
      if json_eqb declared (JStr protocol_name) then Ok tt
      else refuse (ProtocolMismatch ("document declares protocol " +:+ json_repr declared +:+ "; this adapter speaks "
                                     +:+ py_repr protocol_name))
  end.

Section Timestamps.
(** [datetime.fromisoformat]; [None] is its ValueError. *)
Context (fromisoformat : string → option datetime).

(** An ISO-8601 timestamp with an offset. *)
Definition iso_timestamp (noun naive : string) (key : string) (value : json) : outcome failure datetime :=
  match value with
  | JStr s =>
      match fromisoformat s with
      | None => malformed (noun +:+ " " +:+ py_repr key +:+ " is not a valid ISO-8601 timestamp")
      | Some parsed =>
          if dt_is_aware parsed then Ok parsed
          else malformed (noun +:+ " " +:+ py_repr key +:+ " has no UTC offset; a naive " +:+ naive
                          +:+ " has no single instant")
      end
  | _ => malformed (noun +:+ " " +:+ py_repr key +:+ " must be an ISO-8601 string, not " +:+ json_type value)
  end.
End Timestamps.

Module Commerce.
Definition ADAPTER_ID : string := "pactra.commerce.v1".
Definition PROTOCOL_NAME : string := "pactra.commerce".
Definition ADAPTER_VERSION : string := "pactra-commerce-v1".
Definition SUPPORTED_PROTOCOL_VERSIONS : list string := ["1.0"].
Definition PRIMARY_PROTOCOL_VERSION : string := "1.0".
Definition MAX_OFFERS : nat := 50.
Definition CATALOG_FIELDS : list string := ["protocol"; "merchant_id"; "offers"].
Definition OFFER_FIELDS : list string :=
  ["merchant_id"; "product_id"; "title"; "description"; "price"; "currency"; "rating"; "in_stock"; "offered_at"; "claims"].
Definition DESCRIPTOR : AdapterDescriptor :=
  mkAdapterDescriptor ADAPTER_ID AdapterFamily.COMMERCE PROTOCOL_NAME PRIMARY_PROTOCOL_VERSION SUPPORTED_PROTOCOL_VERSIONS
    ADAPTER_VERSION SupportStatus.IMPLEMENTED AuthorityLevel.AGENT_PROPOSAL TrustLevel.UNTRUSTED
    "Translates a PACTRA-native commerce catalog document into candidate merchant offers. Assigns no merchant trust and no authenticated identity: the claimed merchant id is verified against a transport identity downstream.".

Definition offer_str : json_obj → string → outcome failure string := require_str "offer field".
Definition require_number (mapping : json_obj) (key : string) : outcome failure float :=
  match jget key mapping with
  | JFloat f => Ok f
  | JInt z =>
      match py_float_of_int z with
      | Some f => Ok f
      | None => Raise (Escaped (OverflowError "int too large to convert to float"))
      end
  | value =>
      refuse (MalformedProtocolPayload (em_dash_text
        ("offer field " +:+ py_repr key +:+ " must be a JSON number, not " +:+ json_type value +:+ " ")
        " a protocol boundary does not coerce money"))
  end.
Definition require_bool (mapping : json_obj) (key : string) : outcome failure bool :=
  match jget key mapping with
  | JBool b => Ok b
  | value => malformed ("offer field " +:+ py_repr key +:+ " must be a JSON boolean, not " +:+ json_type value)
  end.

Fixpoint check_claims (items : json_obj) : outcome failure unit :=
  match items with
  | [] => Ok tt
  | (name, JObj _ as value) :: _ =>
      malformed ("claim " +:+ py_repr name +:+ " has unsupported type " +:+ json_type value)
  | (name, JList l) :: rest =>
      if forallb is_json_str l then check_claims rest
      else malformed ("claim " +:+ py_repr name +:+ " is a list of non-strings")
  | _ :: rest => check_claims rest
  end.
Definition claims (mapping : json_obj) : outcome failure json_obj :=
  match jget "claims" mapping with
  | JNull => Ok []
  | value =>
      claims_object ← require_object value "offer field 'claims'";
      check_claims claims_object;;
      Ok claims_object
  end.

(** The constraints of the merchant offer's schema, for pydantic's count of violations. *)
Definition offer_constraints (r : RawMerchantOffer) : list bool :=
  [length_within 1 120 (ro_merchant_id r); length_within 1 120 (ro_product_id r); length_within 1 300 (ro_title r);
   length_within 0 5000 (ro_description r); fl_leb fl0 (ro_price r); length_within 3 3 (ro_currency r);
   fl_within fl0 fl5 (ro_rating r)].

Section Translation.
Context (fromisoformat : string → option datetime).

(** [offer_object.get("description", "")]. *)
Definition description_of (offer_object : json_obj) : json := default (JStr "") (py_dict_get "description" offer_object).

Definition read_offer (index : nat) (offer_object : json_obj) : outcome failure RawMerchantOffer :=
  merchant_id ← offer_str offer_object "merchant_id";
  product_id ← offer_str offer_object "product_id";
  title ← offer_str offer_object "title";
  price ← require_number offer_object "price";
  currency ← offer_str offer_object "currency";
  rating ← require_number offer_object "rating";
  in_stock ← require_bool offer_object "in_stock";
  offered_at ← iso_timestamp fromisoformat "offer field" "timestamp" "offered_at" (jget "offered_at" offer_object);
  offer_claims ← claims offer_object;
  match description_of offer_object with
  | JStr description =>
      let values := mkRawMerchantOffer merchant_id product_id title description price currency rating in_stock offered_at offer_claims in
      match RawMerchantOffer_new values with
      | Ok raw_offer => Ok raw_offer
      | Raise (ValidationError _) =>
          malformed ("offers[" +:+ str_int (Z.of_nat index) +:+ "] failed PACTRA's merchant offer schema: "
                     +:+ str_int (violations (offer_constraints values)) +:+ " constraint violation(s)")
      | Raise e => Raise (Escaped e)
      end
  | _ => malformed "offer field 'description' must be a string"
  end.

Definition UNKNOWN_REFUSED : string := "; nested structures are refused rather than kept as opaque metadata".
Definition translate_offer (index : nat) (entry : json) : outcome failure CandidateCommerceOffer :=
  offer_object ← require_object entry ("offers[" +:+ str_int (Z.of_nat index) +:+ "]");
  guard_payload_keys offer_object;;
  raw_offer ← read_offer index offer_object;
  extras ← unknown_fields OFFER_FIELDS UNKNOWN_REFUSED offer_object;
  escaping (CandidateCommerceOffer_new (mkCandidateOffer (ro_merchant_id raw_offer) raw_offer extras)).
Fixpoint translate_offers (index : nat) (entries : list json) : outcome failure (list CandidateCommerceOffer) :=
  match entries with
  | [] => Ok []
  | entry :: rest =>
      offer ← translate_offer index entry;
      offers ← translate_offers (S index) rest;
      Ok (offer :: offers)
  end.

(** The entries the loop adds for one offer. *)
Definition offer_provenance (origin : string) (index : nat) (offer : CandidateCommerceOffer) : list (string * ProvenanceMeta) :=
  map (λ name, (offer_prefix index +:+ name, external_provenance origin))
    (RAW_OFFER_FIELDS ++ (if non_empty (co_untrusted_metadata offer) then ["untrusted_metadata"] else [])).

Definition catalog_offers (document : json_obj) : outcome failure (list json) :=
  match jget "offers" document with
  | JList [] => malformed "catalog carries no offers"
  | JList raw_offers =>
      if (MAX_OFFERS <? length raw_offers)%nat then
        malformed ("catalog carries " +:+ str_int (Z.of_nat (length raw_offers)) +:+ " offers, above the "
                   +:+ str_int (Z.of_nat MAX_OFFERS) +:+ " limit")
      else Ok raw_offers
  | _ => malformed "catalog field 'offers' must be a JSON array"
  end.

Definition catalog_warnings (claimed_merchant_id : string) (any_unknown_fields : bool) : outcome exn (list AdapterWarning) :=
  claimed ← AdapterWarning_new AdapterWarningCode.CLAIMED_IDENTITY_NOT_AUTHENTICATED
    ("the document claims merchant " +:+ py_repr claimed_merchant_id
     +:+ "; it is verified against a transport-authenticated identity by ingest_merchant_offer, and a mismatch is MERCHANT_IDENTITY_MISMATCH");
  no_trust ← AdapterWarning_new AdapterWarningCode.MERCHANT_TRUST_NOT_ASSIGNED_BY_ADAPTER
    "no merchant trust or display name is attached: both come from the server-owned MerchantRegistry, which this adapter cannot reach";
  kept ← (if any_unknown_fields
          then w ← AdapterWarning_new AdapterWarningCode.UNKNOWN_FIELDS_KEPT_AS_UNTRUSTED_METADATA
                 "protocol-undefined fields were preserved as untrusted metadata; they are never canonical and never security state";
               Ok [w]
          else Ok []);
  Ok ([claimed; no_trust] ++ kept).

Definition translate_payload (payload : json) (source : SourceIdentity) (protocol_version : string)
    : outcome failure TranslationResult :=
  document ← require_object payload "a pactra.commerce catalog";
  guard_payload_keys document;;
  check_protocol PROTOCOL_NAME document;;
  claimed_merchant_id ← offer_str document "merchant_id";
  raw_offers ← catalog_offers document;
  catalog_extras ← unknown_fields CATALOG_FIELDS UNKNOWN_REFUSED document;
  let origin := provenance_source ADAPTER_ID claimed_merchant_id in
  offers ← translate_offers 0 raw_offers;
  warnings ← escaping (catalog_warnings claimed_merchant_id
    (non_empty catalog_extras || existsb (λ o, non_empty (co_untrusted_metadata o)) offers));
  catalog ← escaping (CandidateCommerceCatalog_new (mkCandidateCatalog claimed_merchant_id offers catalog_extras));
  Ok (mkTranslationResult (Catalog catalog)
        ([("claimed_merchant_id", external_provenance origin)]
         ++ (if non_empty catalog_extras then [("untrusted_metadata", external_provenance origin)] else [])
         ++ concat (imap (offer_provenance origin) offers))
        warnings).

Definition PactraCommerceAdapter : Implementation :=
  mkImplementation "PactraCommerceAdapter" [AdapterFamily.COMMERCE] (Some AdapterFamily.COMMERCE) translate_payload.
End Translation.
End Commerce.

(** ** authorization/pactra_intent.py *)
Module Intent.
Definition ADAPTER_ID : string := "pactra.authorization-intent.v1".
Definition PROTOCOL_NAME : string := "pactra.authorization-intent".
Definition ADAPTER_VERSION : string := "pactra-authorization-intent-v1".
Definition SUPPORTED_PROTOCOL_VERSIONS : list string := ["1.0"].
Definition PRIMARY_PROTOCOL_VERSION : string := "1.0".
Definition INTENT_FIELDS : list string :=
  ["protocol"; "mission_id"; "merchant_id"; "product_id"; "quantity"; "amount_inr"; "currency"; "expires_at";
   "external_authorization_reference"].
Definition DESCRIPTOR : AdapterDescriptor :=
  mkAdapterDescriptor ADAPTER_ID AdapterFamily.PAYMENT_AUTHORIZATION PROTOCOL_NAME PRIMARY_PROTOCOL_VERSION
    SUPPORTED_PROTOCOL_VERSIONS ADAPTER_VERSION SupportStatus.IMPLEMENTED AuthorityLevel.AGENT_PROPOSAL TrustLevel.UNTRUSTED
    "Translates an external authorization intention into a CandidateAuthorizationRequest. Issues nothing: an external authorization reference is carried unverified, because PACTRA has no signature verification.".

Definition field_str : json_obj → string → outcome failure string := require_str "field".
Definition require_int (mapping : json_obj) (key : string) : outcome failure Z :=
  match jget key mapping with
  | JInt z => Ok z
  | value =>
      refuse (MalformedProtocolPayload (em_dash_text
        ("field " +:+ py_repr key +:+ " must be a JSON integer, not " +:+ json_type value +:+ " ")
        " a protocol boundary does not coerce money or quantity"))
  end.

Section Translation.
(** [datetime.fromisoformat] and [UUID(str)]; [None] is their ValueError. *)
Context (fromisoformat : string → option datetime) (parse_uuid : string → option uuid).

Definition optional_timestamp (mapping : json_obj) (key : string) : outcome failure (option datetime) :=
  match jget key mapping with
  | JNull => Ok None
  | value => parsed ← iso_timestamp fromisoformat "field" "expiry" key value; Ok (Some parsed)
  end.
Definition read_mission_id (document : json_obj) : outcome failure (option uuid) :=
  match jget "mission_id" document with
  | JNull => Ok None
  | JStr s =>
      match parse_uuid s with
      | Some id => Ok (Some id)
      | None => malformed "field 'mission_id' must be a valid UUID string"
      end
  | _ => malformed "field 'mission_id' must be a UUID string or absent"
  end.
Definition read_reference (document : json_obj) : outcome failure (option string) :=
  match jget "external_authorization_reference" document with
  | JNull => Ok None
  | JStr s => Ok (Some s)
  | _ => malformed "field 'external_authorization_reference' must be a string or absent"
  end.

Definition read_candidate (document : json_obj) (mission_id : option uuid) (reference : option string)
    : outcome failure CandidateAuthorizationRequest :=
  merchant_id ← field_str document "merchant_id";
  product_id ← field_str document "product_id";
  quantity ← require_int document "quantity";
  amount_inr ← require_int document "amount_inr";
  currency ← field_str document "currency";
  expires_at ← optional_timestamp document "expires_at";
  extras ← unknown_fields INTENT_FIELDS "" document;
  match CandidateAuthorizationRequest_new
          (mkCandidateRequest mission_id merchant_id product_id quantity amount_inr currency expires_at reference extras) with
  | inr candidate => Ok candidate
  | inl count => malformed ("authorization intent failed candidate validation: " +:+ str_int count
                            +:+ " constraint violation(s)")
  end.

Definition intent_warnings (source : SourceIdentity) (candidate : CandidateAuthorizationRequest)
    (reference : option string) : outcome exn (list AdapterWarning) :=
  claimed ← AdapterWarning_new AdapterWarningCode.CLAIMED_IDENTITY_NOT_AUTHENTICATED
    ("the caller claimed to be " +:+ py_repr (si_claimed_id source)
     +:+ "; PACTRA authenticates no protocol channel, so this candidate authorizes nothing on its own");
  unverified ← (if is_some reference
                then w ← AdapterWarning_new AdapterWarningCode.EXTERNAL_AUTHORIZATION_REFERENCE_NOT_VERIFIED
                       "an external authorization reference was carried through unverified: PACTRA has no verifier for this external reference, so it is a correlation handle and never evidence of approval";
                     Ok [w]
                else Ok []);
  kept ← (if non_empty (cr_untrusted_metadata candidate)
          then w ← AdapterWarning_new AdapterWarningCode.UNKNOWN_FIELDS_KEPT_AS_UNTRUSTED_METADATA
                 "protocol-undefined fields were preserved as untrusted metadata; they are never canonical and never security state";
               Ok [w]
          else Ok []);
  Ok ([claimed] ++ unverified ++ kept).

Definition PROVENANCE_FIELDS : list string :=
  ["mission_id"; "claimed_merchant_id"; "claimed_product_id"; "claimed_quantity"; "claimed_amount_inr"; "claimed_currency";
   "claimed_expires_at"].

Definition translate_payload (payload : json) (source : SourceIdentity) (protocol_version : string)
    : outcome failure TranslationResult :=
  document ← require_object payload "an authorization intent";
  guard_payload_keys document;;
  check_protocol PROTOCOL_NAME document;;
  mission_id ← read_mission_id document;
  reference ← read_reference document;
  candidate ← read_candidate document mission_id reference;
  let origin := provenance_source ADAPTER_ID (si_claimed_id source) in
  let marked := λ name, (name, external_provenance origin) in
  warnings ← escaping (intent_warnings source candidate reference);
  Ok (mkTranslationResult (AuthorizationRequest candidate)
        (map marked PROVENANCE_FIELDS
         ++ (if is_some (cr_external_authorization_reference candidate) then [marked "external_authorization_reference"] else [])
         ++ (if non_empty (cr_untrusted_metadata candidate) then [marked "untrusted_metadata"] else []))
        warnings).

Definition PactraAuthorizationIntentAdapter : Implementation :=
  mkImplementation "PactraAuthorizationIntentAdapter" [AdapterFamily.PAYMENT_AUTHORIZATION]
    (Some AdapterFamily.PAYMENT_AUTHORIZATION) translate_payload.
End Translation.
End Intent.

(** ** translate.py *)
Definition MAX_PAYLOAD_BYTES : Z := 256 * 1024.
Definition raw_reference (raw : bytes) : string := "sha256:" +:+ sha256_hexdigest raw.

(** What a caller may hand in; [default=str] of the dump never applies to a decoded value. *)
Inductive raw_payload : Type :=
  | PayloadBytes (b : bytes)
  | PayloadStr (s : string)
  | PayloadDict (d : json_obj)
  | PayloadOther (type_name : string).

(** [raw.decode("utf-8")] and [json.loads]: a value, a UnicodeDecodeError, a
    JSONDecodeError with its [msg], or another exception of the decoder (too many digits
    in an integer, too deep a nesting). *)
Inductive decoded : Type := Decoded (j : json) | NotUtf8 | NotJsonText (msg : string) | DecoderFailed (e : exn).

(** The ASCII bytes of [json.dumps(payload, sort_keys=True, separators=(",", ":"))]. *)
Definition dumped (d : json_obj) : bytes := default [] (utf8_encode (json_dumps true (JObj d))).

Section Translate.
Context (decode : bytes → decoded).

Definition as_bytes_and_object (payload : raw_payload) : outcome failure (bytes * json) :=
  raw ← (match payload with
         | PayloadBytes b => Ok b
         | PayloadStr s => Ok (encode s)
         | PayloadDict d => Ok (dumped d)
         | PayloadOther type_name => malformed ("payload must be bytes, str or dict, not " +:+ type_name)
         end);
  if MAX_PAYLOAD_BYTES <? Z.of_nat (length raw) then
    malformed ("payload is " +:+ str_int (Z.of_nat (length raw)) +:+ " bytes, above the " +:+ str_int MAX_PAYLOAD_BYTES
               +:+ "-byte adapter limit")
  else match payload with
  | PayloadDict d => Ok (raw, JObj d)
  | _ =>
      match decode raw with
      | Decoded parsed => Ok (raw, parsed)
      | NotUtf8 => malformed "payload is not valid UTF-8"
      | NotJsonText msg => malformed ("payload is not valid JSON: " +:+ msg)
      | DecoderFailed e => Raise (Escaped e)
      end
  end.

(** The loop over the provenance entries. *)
Fixpoint check_entries (adapter_id : string) (max_authority : AuthorityLevel) (entries : list (string * ProvenanceMeta))
    : outcome failure unit :=
  match entries with
  | [] => Ok tt
  | (name, meta) :: rest =>
      let emitted := "adapter " +:+ py_repr adapter_id +:+ " emitted '" +:+ name +:+ "' " in
      if above (meta_authority meta) max_authority then
        refuse (AuthorityCeilingViolation
          (emitted +:+ "at " +:+ AuthorityLevel.name (meta_authority meta) +:+ ", above its declared ceiling "
           +:+ AuthorityLevel.name max_authority))
      else if negb (meta_tainted meta) then
        refuse (TaintStrippedViolation (emitted +:+ "untainted; translation does not sanitize authority"))
      else if negb (bool_decide (meta_trust meta = TrustLevel.UNTRUSTED)) then
        refuse (TaintStrippedViolation
          (emitted +:+ "as " +:+ enum_value (meta_trust meta) +:+ "; a translating adapter emits untrusted values only"))
      else check_entries adapter_id max_authority rest
  end.

Definition check_result (adapter_id : string) (family : AdapterFamily) (max_authority : AuthorityLevel)
    (result : TranslationResult) : outcome failure unit :=
  match FAMILY_PAYLOAD_TYPES family with
  | None => Raise (Escaped (KeyError (enum_value family)))
  | Some permitted_types =>
      if negb (bool_decide (payload_type (tr_canonical_payload result) ∈ permitted_types)) then
        refuse (BaseAdapterError ("adapter " +:+ py_repr adapter_id +:+ " in family " +:+ enum_value family +:+ " returned a "
          +:+ payload_type (tr_canonical_payload result) +:+ ", which that family may not emit"))
      else if negb (non_empty (tr_provenance result)) then
        refuse (BaseAdapterError ("adapter " +:+ py_repr adapter_id +:+ " returned a canonical payload with no provenance"))
      else match py_sorted String.leb (remove_dups
             (List.filter (λ k, negb (bool_decide (k ∈ map fst (tr_provenance result))))
                (required_provenance_keys (tr_canonical_payload result)))) with
      | (_ :: _) as missing =>
          refuse (ProvenanceIncomplete ("adapter " +:+ py_repr adapter_id
            +:+ " returned canonical values carrying no provenance: " +:+ String.concat ", " missing))
      | [] => check_entries adapter_id max_authority (tr_provenance result)
      end
  end.

Definition envelope_of (descriptor : AdapterDescriptor) (protocol_version : string) (source : SourceIdentity)
    (received_at : datetime) (raw : bytes) (result : TranslationResult) : AdapterEnvelope :=
  mkAdapterEnvelope (ad_adapter_id descriptor) (ad_family descriptor) (ad_protocol_name descriptor) protocol_version
    (ad_adapter_version descriptor) source (source_trust source) (source_authority source) received_at
    (raw_reference raw) (Z.of_nat (length raw)) (tr_canonical_payload result) (tr_provenance result) (tr_warnings result).

(** [registry] is the process-wide REGISTRY, [now] what the clock reads. *)
Definition translate (registry : AdapterRegistry) (now : datetime) (adapter_id : string) (family : AdapterFamily)
    (protocol_version : string) (payload : raw_payload) (source : SourceIdentity) (received_at : option datetime)
    : outcome failure AdapterEnvelope :=
  resolved ← lookup_adapter registry adapter_id family;
  let descriptor := ra_descriptor resolved in
  if negb (supports descriptor protocol_version) then
    refuse (UnsupportedProtocolVersion adapter_id protocol_version (ad_supported_protocol_versions descriptor))
  else
    input ← as_bytes_and_object payload;
    let '(raw, parsed) := input in
    result ← im_translate_payload (ra_implementation resolved) parsed source protocol_version;
    check_result (ad_adapter_id descriptor) (ad_family descriptor) (ad_emits_authority descriptor) result;;
    Ok (envelope_of descriptor protocol_version source (default now received_at) raw result).
End Translate.

(** ** __init__.py: the adapters PACTRA has *)
Section Builtin.
Context (fromisoformat : string → option datetime) (parse_uuid : string → option uuid).

Definition ADAPTERS : list (AdapterDescriptor * Implementation) :=
  [(Commerce.DESCRIPTOR, Commerce.PactraCommerceAdapter fromisoformat);
   (Intent.DESCRIPTOR, Intent.PactraAuthorizationIntentAdapter fromisoformat parse_uuid);
   (Mcp.DESCRIPTOR, Mcp.McpToolAdapter)].
Definition register_all : M AdapterRegistry failure (list string) :=
  for_each ADAPTERS (λ entry : AdapterDescriptor * Implementation,
    registered ← gets (λ self, has self (ad_adapter_id (fst entry)));
    if (registered : bool) then mret tt else register (fst entry) (snd entry);; mret tt);;
  seal;;
  mret (map (λ entry, ad_adapter_id (fst entry)) ADAPTERS).
(** The registry after the package is imported. *)
Definition REGISTRY : AdapterRegistry := snd (register_all AdapterRegistry_new).
End Builtin.

(** ** tools/base.py, payment_rails/base.py *)
Definition authorize_operation {S} (operation : CandidateOperation) (principal : string) : M S exn Capability :=
  let capability := required_capability operation in
  enforce (capabilities_for principal) capability;;
  mret capability.

Definition RAIL_STATUS : list (string * SupportStatus) :=
  [("razorpay_test", SupportStatus.PARTIAL); ("fake", SupportStatus.NOT_APPLICABLE)].
Definition describe_payment_rails (app_env : string) : list (string * SupportStatus) :=
  map (λ name, (name, default SupportStatus.NOT_APPLICABLE (py_dict_get name RAIL_STATUS))) (registered_provider_names app_env).
