(* ===== verification/AdapterProperties.v ===== *)
(** * What the external protocol adapters guarantee

    The registry only grows and never relabels an adapter; whatever implementation is
    registered, an envelope carries the server's identity of the adapter and values that
    are tainted, untrusted and within the agent's authority; the three adapters shipped
    let no reserved or ambiguous key through, carry what was sent without coercing or
    dropping it, expose no privileged operation, and refuse with a reason code. *)
From S2P Require Import Prelude Python PyFloat PyText PyNumbers Json Text Enums Errors Provenance Canonical Firewall Transaction Merchant.
From S2P Require Import Provider AdapterModels Adapters.

(** ** The keys of a payload *)
Definition keys (d : json_obj) : list string := map fst d.
(** No key names security state, and no two name the same field. *)
Definition guarded (d : json_obj) : Prop :=
  NoDup (map normalize_key (keys d)) ∧ ∀ k, k ∈ keys d → normalize_key k ∉ RESERVED_SECURITY_FIELDS.

Lemma py_dict_get_None {V} k (d : list (string * V)) : py_dict_get k d = None ↔ k ∉ map fst d.
Proof.
  split; [apply py_dict_get_not_elem|]. induction d as [|[k' v] d IH]; cbn; [done|].
  rewrite not_elem_of_cons. intros [Hne Hd]. destruct (String.eqb_spec k k'); [done|by apply IH].
Qed.

Lemma scan_aliases_ok seen ks :
  scan_aliases seen ks = Ok tt ↔ NoDup (map normalize_key ks) ∧ ∀ k, k ∈ ks → normalize_key k ∉ map fst seen.
Proof.
  revert seen. induction ks as [|k ks IH]; intros seen; cbn [scan_aliases map].
  - split; [|done]. intros _. split; [constructor|]. intros k Hk. by apply elem_of_nil in Hk.
  - rewrite NoDup_cons. destruct (py_dict_get (normalize_key k) seen) eqn:E.
    + split; [done|]. intros [_ H]. destruct (H k); [by left|]. by eapply py_dict_get_elem.
    + rewrite IH, (py_dict_set_new _ _ _ E), map_app. apply py_dict_get_None in E. split.
      * intros [Hn Hs]. split; [split; [|done]|].
        -- intros (k' & Hk & Hin)%list_elem_of_fmap. apply (Hs k' Hin). rewrite <- Hk. apply elem_of_app. right. by left.
        -- intros k' [->|Hk]%elem_of_cons; [done|]. intros Hin. apply (Hs k' Hk). apply elem_of_app. by left.
      * intros [[Hk Hn] Hs]. split; [done|]. intros k' Hin [Hel|Heq%list_elem_of_singleton]%elem_of_app.
        -- by apply (Hs k'); [right|].
        -- cbn in Heq. apply Hk. rewrite <- Heq. by apply list_elem_of_fmap_2.
Qed.

Lemma py_sorted_nil {A} (leb : A → A → bool) l : py_sorted leb l = [] ↔ l = [].
Proof.
  split; [|by intros ->]. intros E. apply Permutation_nil. rewrite <- E. apply py_sorted_Permutation.
Qed.
Lemma filter_nil {A} (p : A → bool) l : List.filter p l = [] ↔ ∀ x, x ∈ l → p x = false.
Proof.
  induction l as [|a l IH]; cbn; [split; [intros _ x Hx; by apply elem_of_nil in Hx|done]|].
  destruct (p a) eqn:E; [split; [done|intros H; by rewrite (H a) in E by left]|].
  rewrite IH. split; [intros H x [->|Hx]%elem_of_cons; [done|by apply H]|intros H x Hx; apply H; by right].
Qed.

Lemma guard_ok d : guard_payload_keys d = Ok tt ↔ guarded d.
Proof.
  unfold guard_payload_keys, guarded, reject_aliased_keys. fold (keys d). rewrite outcome_bind_Ok.
  assert (reject_reserved_fields d = Ok tt ↔ ∀ k, k ∈ keys d → normalize_key k ∉ RESERVED_SECURITY_FIELDS) as Hr.
  { unfold reject_reserved_fields. destruct (reserved_fields_in d) eqn:E.
    - apply py_sorted_nil in E. rewrite filter_nil in E. split; [|done]. intros _ k Hk.
      eapply bool_decide_eq_false_1, E, Hk.
    - split; [done|]. intros H. assert (reserved_fields_in d = []) as E'; [|by rewrite E' in E].
      apply py_sorted_nil, filter_nil. intros k Hk. by apply bool_decide_eq_false_2, H. }
  split.
  - intros ([] & Ha & H). apply scan_aliases_ok in Ha as [Hn _]. split; [done|exact (proj1 Hr H)].
  - intros [Hn H]. exists tt. split; [|by apply Hr]. apply scan_aliases_ok. split; [done|].
    intros k _ Hk. by apply elem_of_nil in Hk.
Qed.

(** ** Inverting what the adapters read *)
Lemma refuse_Ok {A} e (a : A) : refuse e = Ok a ↔ False.
Proof. done. Qed.
Lemma escaping_Ok {A} (o : outcome exn A) a : escaping o = Ok a ↔ o = Ok a.
Proof. destruct o; cbn; split; first [by intros [= ->]|done]. Qed.
Lemma require_object_Ok j what d : require_object j what = Ok d ↔ j = JObj d.
Proof. destruct j; cbn; split; first [by intros [= ->]|done]. Qed.
Lemma unexpected_nil members d : unexpected_keys members d = [] ↔ ∀ k, k ∈ keys d → k ∈ members.
Proof.
  unfold unexpected_keys. rewrite py_sorted_nil, filter_nil. unfold keys.
  by setoid_rewrite negb_false_iff; setoid_rewrite bool_decide_eq_true.
Qed.
Lemma require_str_Ok noun d key s : require_str noun d key = Ok s ↔ jget key d = JStr s ∧ s ≠ "".
Proof.
  unfold require_str. destruct (jget key d); try (split; [done|]; intros [? _]; congruence).
  destruct (String.eqb_spec s0 ""); split; try congruence; try intros [[= ->] ?]; try congruence; try done.
  intros [= ->]. done.
Qed.

(** The protocol-undefined entries of an object, sorted by key. *)
Definition unknown_entries (known : list string) (d : json_obj) : json_obj :=
  List.filter (λ e, negb (bool_decide (fst e ∈ known))) (py_sorted key_leb d).
Lemma keep_unknown_Ok known why items extras :
  keep_unknown known why items = Ok extras →
  extras = List.filter (λ e, negb (bool_decide (fst e ∈ known))) items ∧ forallb is_claim_value (map snd extras) = true.
Proof.
  revert extras. induction items as [|[k v] items IH]; intros extras; cbn; [by intros [= <-]|].
  destruct (bool_decide (k ∈ known)); cbn [negb]; [apply IH|].
  destruct (is_claim_value v) eqn:E; [|done]. rewrite outcome_bind_Ok. intros (l & H & [= <-]).
  destruct (IH _ H) as [-> Hc]. cbn. by rewrite E.
Qed.
Lemma unknown_fields_Ok known why d extras :
  unknown_fields known why d = Ok extras → extras = unknown_entries known d ∧ forallb is_claim_value (map snd extras) = true.
Proof. apply keep_unknown_Ok. Qed.
Lemma check_protocol_Ok name d :
  check_protocol name d = Ok tt ↔ jget "protocol" d = JNull ∨ jget "protocol" d = JStr name.
Proof.
  unfold check_protocol.
  destruct (jget "protocol" d) as [| | | |s| |]; cbn; try (split; [done|intros [?|?]; congruence]); [by split; [left|]|].
  destruct (String.eqb_spec s name) as [->|]; split; try done; [by right|]. intros [?|[= ->]]; done.
Qed.
Lemma AdapterWarning_Ok code d w : AdapterWarning_new code d = Ok w → w = mkAdapterWarning code d.
Proof. unfold AdapterWarning_new. destruct (length_within 1 400 d); [by intros [= <-]|done]. Qed.

(** ** The registry *)
Inductive registry_step (r r' : AdapterRegistry) : Prop :=
  | step_register descriptor implementation o : register descriptor implementation r = (o, r') → registry_step r r'
  | step_seal o : seal r = (o, r') → registry_step r r'.
Definition registry_reachable (r : AdapterRegistry) : Prop := rtc registry_step AdapterRegistry_new r.

(** An entry is filed under its own id, translates, and is capped. *)
Definition entry_ok (e : string * RegisteredAdapter) : Prop :=
  let d := ra_descriptor (snd e) in
  fst e = ad_adapter_id d ∧ ad_family d ∈ TRANSLATING_FAMILIES ∧ ad_family d ∈ im_bases (ra_implementation (snd e)) ∧
  im_family (ra_implementation (snd e)) = Some (ad_family d) ∧
  AuthorityLevel.level (ad_emits_authority d) <= AuthorityLevel.level MAX_ADAPTER_AUTHORITY.

Lemma register_cases d i r o r' :
  register d i r = (o, r') →
  r' = r ∨
  rg_sealed r = false ∧ rg_sealed r' = false ∧
  ∃ e, o = Ok (snd e) ∧ entry_ok e ∧ (fst e ∉ map fst (rg_adapters r)) ∧ rg_adapters r' = rg_adapters r ++ [e].
Proof.
  unfold register. destruct (rg_sealed r) eqn:Hs; [by intros [= _ <-]; left|].
  destruct (py_dict_get _ _) eqn:E; cbn [is_some]; [by intros [= _ <-]; left|].
  destruct (bool_decide_reflect (ad_family d ∈ TRANSLATING_FAMILIES)) as [Hf|]; cbn [negb]; [|by intros [= _ <-]; left].
  destruct (FAMILY_BASE_CLASSES (ad_family d)); [|by intros [= _ <-]; left].
  destruct (bool_decide_reflect (ad_family d ∈ im_bases i)) as [Hb|]; cbn [negb]; [|by intros [= _ <-]; left].
  destruct (bool_decide_reflect (im_family i = Some (ad_family d))) as [Hi|]; cbn [negb]; [|by intros [= _ <-]; left].
  destruct (above _ _) eqn:Ha; [by intros [= _ <-]; left|].
  intros [= <- <-]. right. cbn [rg_sealed rg_adapters]. do 2 (split; [done|]).
  exists (ad_adapter_id d, mkRegisteredAdapter d i). cbn. split; [done|].
  split; [|split; [by apply py_dict_get_None|by apply py_dict_set_new]].
  unfold entry_ok. cbn [fst snd ra_descriptor ra_implementation]. unfold above in Ha. apply Z.ltb_ge in Ha. done.
Qed.

Definition registry_ok (r : AdapterRegistry) : Prop :=
  Forall entry_ok (rg_adapters r) ∧ NoDup (map fst (rg_adapters r)).
(** A registry only grows, and not once it is sealed. *)
Definition registry_le (r r' : AdapterRegistry) : Prop :=
  (∃ l, rg_adapters r' = rg_adapters r ++ l) ∧
  (rg_sealed r = true → rg_sealed r' = true ∧ rg_adapters r' = rg_adapters r).
#[global] Instance registry_le_preorder : PreOrder registry_le.
Proof.
  split.
  - intros r. split; [by exists []; rewrite app_nil_r|done].
  - intros r1 r2 r3 [[l1 H1] S1] [[l2 H2] S2]. split; [exists (l1 ++ l2); by rewrite H2, H1, app_assoc|].
    intros [Hs H]%S1. apply S2 in Hs as [Hs' ->]. by split.
Qed.
Lemma registry_step_ok r r' : registry_step r r' → registry_ok r → registry_ok r' ∧ registry_le r r'.
Proof.
  intros [d i o H|o H] [He Hn].
  - apply register_cases in H as [->|(Hs & Hs' & e & _ & Hok & Hnew & Hr)]; [by split; [split|]|].
    unfold registry_ok, registry_le. rewrite Hr, map_app, Forall_app, NoDup_app, Hs. repeat split.
    + done.
    + by constructor.
    + done.
    + intros x Hx Hx'%list_elem_of_singleton. cbn in Hx'. congruence.
    + apply NoDup_singleton.
    + by eexists.
    + done.
    + done.
  - injection H as <- <-. split; [by split|]. split; [by exists []; rewrite app_nil_r|done].
Qed.
Lemma registry_steps_ok r r' : rtc registry_step r r' → registry_ok r → registry_ok r' ∧ registry_le r r'.
Proof.
  induction 1 as [r|r r1 r2 Hs _ IH]; [by split|]. intros H. apply registry_step_ok in Hs as [Hok Hle]; [|done].
  apply IH in Hok as [Hok Hle']. split; [done|]. by etransitivity.
Qed.
Lemma registry_reachable_ok r : registry_reachable r → registry_ok r.
Proof. intros H. by eapply registry_steps_ok in H as [Hok _]; [|split; constructor]. Qed.

Lemma py_dict_get_elem_of {V} k v (d : list (string * V)) : py_dict_get k d = Some v → (k, v) ∈ d.
Proof.
  induction d as [|[k' v'] d IH]; cbn; [done|].
  destruct (String.eqb_spec k k') as [->|Hn]; [intros [= ->]; left|right; by apply IH].
Qed.
Lemma lookup_adapter_Ok r id family entry :
  lookup_adapter r id family = Ok entry ↔ py_dict_get id (rg_adapters r) = Some entry ∧ ad_family (ra_descriptor entry) = family.
Proof.
  unfold lookup_adapter. destruct (py_dict_get id (rg_adapters r)) as [e|]; [|by split; [|intros []]].
  destruct (bool_decide_reflect (ad_family (ra_descriptor e) = family)) as [Hf|Hf].
  - split; [intros [= <-]; by split|by intros [[= ->] _]].
  - split; [done|]. by intros [[= ->] ?].
Qed.

(** The registry of adapters only grows.  In every registry reached from the empty one
    by registrations, whatever is registered, and by sealing, ids are distinct and each
    entry is filed under its descriptor's id, in a translating family its implementation
    belongs to and reports, under the authority ceiling; whatever is done later no entry is
    replaced, relabelled or removed, and once sealed nothing is added. *)
Theorem registry_only_grows (r r' : AdapterRegistry) :
  registry_reachable r → rtc registry_step r r' →
  Forall entry_ok (rg_adapters r) ∧ NoDup (ids r) ∧ registry_le r r' ∧
  ∀ id family entry, lookup_adapter r id family = Ok entry → lookup_adapter r' id family = Ok entry.
Proof.
  intros Hr Hs. apply registry_reachable_ok in Hr as Hok. destruct (registry_steps_ok _ _ Hs Hok) as [Hok' Hle].
  destruct Hok as [He Hn]. split; [done|]. split; [done|]. split; [done|].
  intros id family entry H. apply lookup_adapter_Ok in H as [H Hf]. apply lookup_adapter_Ok. split; [|done].
  destruct Hle as [[l ->] _]. clear -H. induction (rg_adapters r) as [|[k v] d IH]; [done|]. cbn in *.
  destruct (String.eqb id k); [done|]. by apply IH.
Qed.

(** ** What [translate] checks *)

(** A value marked as every translated value must be. *)
Definition marked_untrusted (limit : AuthorityLevel) (meta : ProvenanceMeta) : Prop :=
  AuthorityLevel.level (meta_authority meta) <= AuthorityLevel.level limit ∧ meta_tainted meta = true ∧
  meta_trust meta = TrustLevel.UNTRUSTED.

Lemma check_entries_Ok id limit entries :
  check_entries id limit entries = Ok tt → Forall (λ e, marked_untrusted limit (snd e)) entries.
Proof.
  induction entries as [|[name meta] entries IH]; cbn [check_entries]; [constructor|]. cbv zeta.
  destruct (above _ _) eqn:Ha; [done|]. destruct (meta_tainted meta) eqn:Ht; cbn [negb]; [|done].
  destruct (bool_decide_reflect (meta_trust meta = TrustLevel.UNTRUSTED)) as [Hu|]; cbn [negb]; [|done].
  intros H. constructor; [|by apply IH]. unfold above in Ha. apply Z.ltb_ge in Ha. by repeat split.
Qed.

Lemma check_result_Ok id family limit result :
  check_result id family limit result = Ok tt →
  (∃ types, FAMILY_PAYLOAD_TYPES family = Some types ∧ payload_type (tr_canonical_payload result) ∈ types) ∧
  (∀ k, k ∈ required_provenance_keys (tr_canonical_payload result) → k ∈ map fst (tr_provenance result)) ∧
  Forall (λ e, marked_untrusted limit (snd e)) (tr_provenance result).
Proof.
  unfold check_result. destruct (FAMILY_PAYLOAD_TYPES family) as [types|]; [|done].
  destruct (bool_decide_reflect (payload_type (tr_canonical_payload result) ∈ types)) as [Ht|]; cbn [negb]; [|done].
  destruct (non_empty _); cbn [negb]; [|done].
  destruct (py_sorted _ _) eqn:E; [|done]. intros H. split; [by exists types|]. split; [|by eapply check_entries_Ok].
  apply py_sorted_nil in E. intros k Hk. destruct (decide (k ∈ map fst (tr_provenance result))) as [|Hn]; [done|].
  assert (k ∈ remove_dups (List.filter (λ k, negb (bool_decide (k ∈ map fst (tr_provenance result))))
    (required_provenance_keys (tr_canonical_payload result)))) as Hin.
  { apply elem_of_remove_dups, list_elem_of_In, filter_In. split; [by apply list_elem_of_In|].
    by rewrite bool_decide_eq_false_2. }
  rewrite E in Hin. by apply elem_of_nil in Hin.
Qed.

(** The bytes of a delivery. *)
Definition delivered (payload : raw_payload) : option bytes :=
  match payload with
  | PayloadBytes b => Some b
  | PayloadStr s => Some (encode s)
  | PayloadDict d => Some (dumped d)
  | PayloadOther _ => None
  end.

Section Translation.
Context (decode : bytes → decoded).

Lemma as_bytes_Ok payload raw j :
  as_bytes_and_object decode payload = Ok (raw, j) →
  delivered payload = Some raw ∧ Z.of_nat (length raw) <= MAX_PAYLOAD_BYTES ∧
  (payload = PayloadDict (match j with JObj d => d | _ => [] end) ∧ (∃ d, j = JObj d) ∨ decode raw = Decoded j).
Proof.
  unfold as_bytes_and_object. intros H. apply outcome_bind_Ok in H as (raw' & Hr & H).
  destruct (Z.ltb_spec MAX_PAYLOAD_BYTES (Z.of_nat (length raw'))) as [|Hl]; [done|].
  destruct payload as [b|s|d|n]; cbn in Hr |- *; [| | |done].
  all: apply Ok_inj in Hr; subst raw'.
  1,2: destruct (decode _) eqn:E in H; try done; injection H as <- <-; repeat split; auto.
  injection H as <- <-. repeat split; auto. left. by repeat split; eexists.
Qed.

Lemma translate_Ok r now id family version payload source at_ e :
  translate decode r now id family version payload source at_ = Ok e →
  ∃ entry raw j result, lookup_adapter r id family = Ok entry ∧ supports (ra_descriptor entry) version = true ∧
    as_bytes_and_object decode payload = Ok (raw, j) ∧
    im_translate_payload (ra_implementation entry) j source version = Ok result ∧
    check_result (ad_adapter_id (ra_descriptor entry)) (ad_family (ra_descriptor entry))
      (ad_emits_authority (ra_descriptor entry)) result = Ok tt ∧
    e = envelope_of (ra_descriptor entry) version source (default now at_) raw result.
Proof.
  unfold translate. intros H. apply outcome_bind_Ok in H as (entry & Hl & H). cbv zeta in H.
  destruct (supports _ _) eqn:Hs; cbn [negb] in H; [|done]. apply outcome_bind_Ok in H as ([raw j] & Hb & H).
  apply outcome_bind_Ok in H as (result & Ht & H). apply outcome_bind_Ok in H as ([] & Hc & H).
  apply Ok_inj in H as <-. by exists entry, raw, j, result.
Qed.

(** C25: A translation never raises authority, whatever the adapter does.  For any
    registry that registrations can produce, with any implementation behind the entry, an
    envelope carries the identity, protocol and version of the descriptor registered under
    the id and family asked for, in a supported version; every provenance entry is tainted,
    untrusted and at most at the authority of the unauthenticated source; every canonical
    value has an entry; the payload is of a type its family may emit; and the reference is
    the SHA-256 of the bytes delivered, at most 256 KiB. *)
Theorem translation_never_raises_authority (r : AdapterRegistry) (now : datetime) (id : string) (family : AdapterFamily)
    (version : string) (payload : raw_payload) (source : SourceIdentity) (received_at : option datetime) (e : AdapterEnvelope) :
  registry_reachable r → translate decode r now id family version payload source received_at = Ok e →
  ∃ entry, py_dict_get id (rg_adapters r) = Some entry ∧
    let d := ra_descriptor entry in
    (ae_adapter_id e, ae_adapter_family e, ae_protocol_name e, ae_adapter_version e) =
      (id, family, ad_protocol_name d, ad_adapter_version d) ∧
    (id, family) = (ad_adapter_id d, ad_family d) ∧
    ae_protocol_version e = version ∧ version ∈ ad_supported_protocol_versions d ∧
    ae_source_identity e = source ∧ ae_source_trust e = TrustLevel.UNTRUSTED ∧
    Forall (λ entry, marked_untrusted (ae_source_authority e) (snd entry)) (ae_provenance e) ∧
    ae_source_authority e = AuthorityLevel.AGENT_PROPOSAL ∧
    (∀ k, k ∈ required_provenance_keys (ae_canonical_payload e) → k ∈ map fst (ae_provenance e)) ∧
    (∃ types, FAMILY_PAYLOAD_TYPES family = Some types ∧ payload_type (ae_canonical_payload e) ∈ types) ∧
    ∃ raw, delivered payload = Some raw ∧ ae_raw_reference e = raw_reference raw ∧
      ae_raw_byte_length e = Z.of_nat (length raw) ∧ ae_raw_byte_length e <= MAX_PAYLOAD_BYTES.
Proof.
  intros Hr H. apply translate_Ok in H as (entry & raw & j & result & Hl & Hs & Hb & Ht & Hc & ->).
  apply lookup_adapter_Ok in Hl as [Hl Hf]. apply registry_reachable_ok in Hr as [Hok _].
  rewrite Forall_forall in Hok. destruct (Hok _ (py_dict_get_elem_of _ _ _ Hl)) as (Hid & _ & _ & _ & Hcap).
  cbn [fst snd] in Hid, Hcap. apply check_result_Ok in Hc as (Htype & Hkeys & Hmarks).
  apply as_bytes_Ok in Hb as (Hd & Hlen & _). apply bool_decide_eq_true in Hs.
  exists entry. split; [done|]. cbn. rewrite <- Hid, Hf in *. do 6 (split; [done|]).
  split; [|repeat split; try done; by exists raw].
  eapply Forall_impl; [exact Hmarks|]. intros [n m] [Ha Hm]. split; [|done]. cbn in *. lia.
Qed.
End Translation.

(** ** What the shipped adapters carry *)

(** A JSON number and the double it becomes: a float as it is, an integer rounded. *)
Definition number_as (j : json) (f : float) : Prop := j = JFloat f ∨ ∃ z, j = JInt z ∧ py_float_of_int z = Some f.
(** An optional value of a document. *)
Definition optional_as {A} (as_value : json → A → Prop) (j : json) (o : option A) : Prop :=
  match o with None => j = JNull | Some a => as_value j a end.
Definition object_or_empty (j : json) (d : json_obj) : Prop := j = JNull ∧ d = [] ∨ j = JObj d.

Section Carried.
Context (fromisoformat : string → option datetime) (parse_uuid : string → option uuid).

Definition instant_as (j : json) (t : datetime) : Prop := ∃ s, j = JStr s ∧ fromisoformat s = Some t ∧ dt_is_aware t = true.
Definition uuid_as (j : json) (id : uuid) : Prop := ∃ s, j = JStr s ∧ parse_uuid s = Some id.
Definition str_as (j : json) (s : string) : Prop := j = JStr s.

Record offer_carried (d : json_obj) (o : CandidateCommerceOffer) : Prop := {
  oc_guarded : guarded d;
  oc_merchant : jget "merchant_id" d = JStr (ro_merchant_id (co_offer o));
  oc_product : jget "product_id" d = JStr (ro_product_id (co_offer o));
  oc_title : jget "title" d = JStr (ro_title (co_offer o));
  oc_currency : jget "currency" d = JStr (ro_currency (co_offer o));
  oc_price : number_as (jget "price" d) (ro_price (co_offer o));
  oc_rating : number_as (jget "rating" d) (ro_rating (co_offer o));
  oc_stock : jget "in_stock" d = JBool (ro_in_stock (co_offer o));
  oc_offered : instant_as (jget "offered_at" d) (ro_offered_at (co_offer o));
  oc_description : Commerce.description_of d = JStr (ro_description (co_offer o));
  oc_claims : object_or_empty (jget "claims" d) (ro_claims (co_offer o));
  oc_claimed : co_claimed_merchant_id o = ro_merchant_id (co_offer o);
  oc_metadata : co_untrusted_metadata o = unknown_entries Commerce.OFFER_FIELDS d;
  oc_valid : raw_offer_error (co_offer o) = None
}.
Definition entry_carried (entry : json) (o : CandidateCommerceOffer) : Prop := ∃ d, entry = JObj d ∧ offer_carried d o.
Record catalog_carried (d : json_obj) (entries : list json) (c : CandidateCommerceCatalog) : Prop := {
  ca_guarded : guarded d;
  ca_protocol : jget "protocol" d = JNull ∨ jget "protocol" d = JStr Commerce.PROTOCOL_NAME;
  ca_merchant : jget "merchant_id" d = JStr (cc_claimed_merchant_id c);
  ca_offers : jget "offers" d = JList entries;
  ca_each : Forall2 entry_carried entries (cc_offers c);
  ca_count : (1 <= length entries <= Commerce.MAX_OFFERS)%nat;
  ca_metadata : cc_untrusted_metadata c = unknown_entries Commerce.CATALOG_FIELDS d
}.
Record intent_carried (d : json_obj) (currency : string) (r : CandidateAuthorizationRequest) : Prop := {
  ic_guarded : guarded d;
  ic_protocol : jget "protocol" d = JNull ∨ jget "protocol" d = JStr Intent.PROTOCOL_NAME;
  ic_merchant : jget "merchant_id" d = JStr (cr_claimed_merchant_id r);
  ic_product : jget "product_id" d = JStr (cr_claimed_product_id r);
  ic_quantity : jget "quantity" d = JInt (cr_claimed_quantity r);
  ic_quantity_range : 1 <= cr_claimed_quantity r <= 100;
  ic_amount : jget "amount_inr" d = JInt (cr_claimed_amount_inr r);
  ic_amount_range : 1 <= cr_claimed_amount_inr r;
  ic_currency : jget "currency" d = JStr currency;
  ic_currency_folded : cr_claimed_currency r = py_upper currency ∧ String.length currency = 3%nat;
  ic_expires : optional_as instant_as (jget "expires_at" d) (cr_claimed_expires_at r);
  ic_reference : optional_as str_as (jget "external_authorization_reference" d) (cr_external_authorization_reference r);
  ic_mission : optional_as uuid_as (jget "mission_id" d) (cr_mission_id r);
  ic_metadata : cr_untrusted_metadata r = unknown_entries Intent.INTENT_FIELDS d
}.
Record tool_call_carried (d params arguments : json_obj) (o : CandidateOperation) : Prop := {
  tc_guarded : guarded d ∧ guarded params ∧ guarded arguments;
  tc_members : ∀ k, k ∈ keys d → k ∈ Mcp.JSONRPC_ENVELOPE_MEMBERS;
  tc_method : jget "jsonrpc" d = JStr "2.0" ∧ jget "method" d = JStr "tools/call";
  tc_params : jget "params" d = JObj params;
  tc_param_members : ∀ k, k ∈ keys params → k = "name" ∨ k = "arguments";
  tc_name : jget "name" params = JStr (op_claimed_tool_name o);
  tc_operation : py_dict_get (op_claimed_tool_name o) Mcp.TOOL_NAMES = Some (op_operation o);
  tc_arguments : object_or_empty (jget "arguments" params) arguments;
  tc_kept : op_arguments o = py_sorted key_leb arguments;
  tc_count : (length arguments <= Mcp.MAX_ARGUMENTS)%nat
}.

(** The payload of the envelope is what the document [d] said. *)
Definition carried (d : json_obj) (payload : CanonicalPayload) : Prop :=
  match payload with
  | Catalog c => ∃ entries, catalog_carried d entries c
  | AuthorizationRequest r => ∃ currency, intent_carried d currency r
  | Operation o => ∃ params arguments, tool_call_carried d params arguments o
  | Offer _ => False
  end.
End Carried.

(** *** MCP *)
Lemma normalize_arguments_Ok items l : Mcp.normalize_arguments items = Ok l → l = items.
Proof.
  revert l. induction items as [|[k v] items IH]; intros l; cbn [Mcp.normalize_arguments]; [by intros [= <-]|].
  intros H. apply outcome_bind_Ok in H as (v' & Hv & H). apply outcome_bind_Ok in H as (l' & Hl & H).
  apply Ok_inj in H as <-. f_equal; [f_equal|by apply IH]. revert Hv. unfold Mcp.normalize_argument.
  destruct v; try (by intros [= <-]); try done.
  - destruct (_ <? _)%nat; [done|by intros [= <-]].
  - destruct (negb _); [done|by intros [= <-]].
Qed.
Lemma read_envelope_Ok j params :
  Mcp.read_envelope j = Ok params →
  ∃ d, j = JObj d ∧ guarded d ∧ (∀ k, k ∈ keys d → k ∈ Mcp.JSONRPC_ENVELOPE_MEMBERS) ∧
    jget "jsonrpc" d = JStr "2.0" ∧ jget "method" d = JStr "tools/call" ∧ jget "params" d = JObj params.
Proof.
  unfold Mcp.read_envelope. intros H. apply outcome_bind_Ok in H as (d & Hd & H). apply require_object_Ok in Hd as ->.
  apply outcome_bind_Ok in H as ([] & Hg & H). apply guard_ok in Hg. exists d. split; [done|]. split; [done|].
  destruct (unexpected_keys _ _) eqn:Hu; [|done]. rewrite unexpected_nil in Hu. split; [done|].
  destruct (json_eqb _ _) eqn:Hv; cbn [negb] in H; [|done].
  destruct (jget "id" d); try done.
  all: destruct (jget "method" d) as [| | | |m| |]; try done;
    destruct (String.eqb m Mcp.SUPPORTED_METHOD) eqn:Hm; cbn [negb] in H; try done; apply String.eqb_eq in Hm as ->.
  all: apply require_object_Ok in H; split; [|done]; destruct (jget "jsonrpc" d); try done; cbn in Hv;
    apply String.eqb_eq in Hv; by subst.
Qed.
Lemma read_tool_Ok params name operation :
  Mcp.read_tool params = Ok (name, operation) →
  guarded params ∧ (∀ k, k ∈ keys params → k = "name" ∨ k = "arguments") ∧ jget "name" params = JStr name ∧
  py_dict_get name Mcp.TOOL_NAMES = Some operation.
Proof.
  unfold Mcp.read_tool. intros H. apply outcome_bind_Ok in H as ([] & Hg & H). apply guard_ok in Hg. split; [done|].
  destruct (unexpected_keys _ _) eqn:Hu; [|done]. destruct (py_dict_get "_meta" params) eqn:Hm; cbn [is_some] in H; [done|].
  split.
  - intros k Hk. rewrite unexpected_nil in Hu. apply py_dict_get_None in Hm. specialize (Hu k Hk).
    unfold Mcp.TOOLS_CALL_PARAMS_MEMBERS in Hu. rewrite !elem_of_cons, elem_of_nil in Hu.
    destruct Hu as [->|[->|[->|[]]]]; [by left|by right|done].
  - destruct (jget "name" params); try done. destruct (String.eqb _ _); [done|].
    destruct (py_dict_get _ _) eqn:E in H; [|done]. by injection H as <- <-.
Qed.
Lemma read_arguments_Ok params l :
  Mcp.read_arguments params = Ok l →
  ∃ a, object_or_empty (jget "arguments" params) a ∧ guarded a ∧ l = py_sorted key_leb a ∧ (length a <= Mcp.MAX_ARGUMENTS)%nat.
Proof.
  unfold Mcp.read_arguments. intros H. apply outcome_bind_Ok in H as (a & Ha & H). exists a.
  destruct (Nat.ltb_spec Mcp.MAX_ARGUMENTS (length a)) as [|Hl]; [done|].
  apply outcome_bind_Ok in H as ([] & Hg & H). apply guard_ok in Hg. apply normalize_arguments_Ok in H.
  split; [|done]. destruct (jget "arguments" params); try (by apply require_object_Ok in Ha); [|].
  - apply Ok_inj in Ha as <-. by left.
  - apply require_object_Ok in Ha. right. congruence.
Qed.
Lemma mcp_carried f p j source version result :
  Mcp.translate_payload j source version = Ok result → ∃ d, j = JObj d ∧ carried f p d (tr_canonical_payload result).
Proof.
  unfold Mcp.translate_payload. intros H. apply outcome_bind_Ok in H as (params & He & H).
  apply outcome_bind_Ok in H as ([name operation] & Ht & H). apply outcome_bind_Ok in H as (l & Ha & H).
  apply outcome_bind_Ok in H as (candidate & Hc & H). apply outcome_bind_Ok in H as (w & _ & H). apply Ok_inj in H as <-.
  apply escaping_Ok in Hc. unfold CandidateOperation_new in Hc.
  destruct (negb _); [done|]. destruct (negb _); [done|]. apply Ok_inj in Hc as <-. cbn [tr_canonical_payload carried].
  apply read_envelope_Ok in He as (d & -> & ? & ? & ? & ? & ?). apply read_tool_Ok in Ht as (? & ? & ? & ?).
  apply read_arguments_Ok in Ha as (a & ? & ? & ? & ?). exists d. split; [done|]. exists params, a. by constructor.
Qed.

(** *** Commerce *)
Lemma require_number_Ok d key f : Commerce.require_number d key = Ok f → number_as (jget key d) f.
Proof.
  unfold Commerce.require_number, number_as. destruct (jget key d); try done.
  - destruct (py_float_of_int z) eqn:E; [|done]. intros [= <-]. right. by exists z.
  - intros [= <-]. by left.
Qed.
Lemma require_bool_Ok d key b : Commerce.require_bool d key = Ok b → jget key d = JBool b.
Proof. unfold Commerce.require_bool. destruct (jget key d); try done. by intros [= <-]. Qed.
Lemma iso_timestamp_Ok f noun naive key j t : iso_timestamp f noun naive key j = Ok t → instant_as f j t.
Proof.
  unfold iso_timestamp, instant_as. destruct j; try done. destruct (f s) as [t'|] eqn:E; [|done].
  destruct (dt_is_aware t') eqn:Ha; [|done]. intros [= <-]. by exists s.
Qed.
Lemma claims_Ok d c : Commerce.claims d = Ok c → object_or_empty (jget "claims" d) c.
Proof.
  unfold Commerce.claims, object_or_empty. destruct (jget "claims" d) eqn:E; intros H.
  1: apply Ok_inj in H as <-; by left.
  all: apply outcome_bind_Ok in H as (o & Ho & H); apply require_object_Ok in Ho; try done.
  apply outcome_bind_Ok in H as ([] & _ & H). apply Ok_inj in H as <-. by right.
Qed.
Lemma RawMerchantOffer_Ok r r' : RawMerchantOffer_new r = Ok r' → r' = r ∧ raw_offer_error r = None.
Proof. unfold RawMerchantOffer_new. destruct (raw_offer_error r); [done|]. by intros [= <-]. Qed.

Ltac read_field H :=
  let a := fresh "a" in let Ha := fresh "Hread" in apply outcome_bind_Ok in H as (a & Ha & H).

Lemma translate_offer_Ok f index entry o : Commerce.translate_offer f index entry = Ok o → entry_carried f entry o.
Proof.
  unfold Commerce.translate_offer. intros H. apply outcome_bind_Ok in H as (d & Hd & H). apply require_object_Ok in Hd as ->.
  apply outcome_bind_Ok in H as ([] & Hg & H). apply guard_ok in Hg. apply outcome_bind_Ok in H as (r & Hr & H).
  apply outcome_bind_Ok in H as (extras & Hx & H). apply unknown_fields_Ok in Hx as [-> _].
  apply escaping_Ok in H. unfold CandidateCommerceOffer_new in H. destruct (negb _); [done|]. destruct (negb _); [done|].
  apply Ok_inj in H as <-. exists d. split; [done|]. unfold Commerce.read_offer in Hr.
  do 9 read_field Hr. destruct (Commerce.description_of d) eqn:Hdesc; try done.
  destruct (RawMerchantOffer_new _) as [r'|e] eqn:E; [|by destruct e]. apply Ok_inj in Hr as ->.
  apply RawMerchantOffer_Ok in E as [-> He].
  repeat match goal with
  | Hf : Commerce.offer_str _ _ = Ok _ |- _ => apply require_str_Ok in Hf as [Hf _]
  | Hf : Commerce.require_number _ _ = Ok _ |- _ => apply require_number_Ok in Hf
  | Hf : Commerce.require_bool _ _ = Ok _ |- _ => apply require_bool_Ok in Hf
  | Hf : iso_timestamp _ _ _ _ _ = Ok _ |- _ => apply iso_timestamp_Ok in Hf
  | Hf : Commerce.claims _ = Ok _ |- _ => apply claims_Ok in Hf
  end.
  by constructor.
Qed.
Lemma translate_offers_Ok f index entries offers :
  Commerce.translate_offers f index entries = Ok offers → Forall2 (entry_carried f) entries offers.
Proof.
  revert index offers. induction entries as [|e entries IH]; intros index offers; cbn [Commerce.translate_offers].
  - intros [= <-]. constructor.
  - intros H. apply outcome_bind_Ok in H as (o & Ho & H). apply outcome_bind_Ok in H as (l & Hl & H).
    apply Ok_inj in H as <-. constructor; [by eapply translate_offer_Ok|by eapply IH].
Qed.
Lemma catalog_offers_Ok d l :
  Commerce.catalog_offers d = Ok l → jget "offers" d = JList l ∧ (1 <= length l <= Commerce.MAX_OFFERS)%nat.
Proof.
  unfold Commerce.catalog_offers. destruct (jget "offers" d) as [| | | | |[|j l']|]; try done.
  destruct (Nat.ltb_spec Commerce.MAX_OFFERS (length (j :: l'))); [done|]. intros [= <-]. split; [done|]. cbn in *. lia.
Qed.
Lemma commerce_carried f p j source version result :
  Commerce.translate_payload f j source version = Ok result → ∃ d, j = JObj d ∧ carried f p d (tr_canonical_payload result).
Proof.
  unfold Commerce.translate_payload. intros H. apply outcome_bind_Ok in H as (d & Hd & H). apply require_object_Ok in Hd as ->.
  apply outcome_bind_Ok in H as ([] & Hg & H). apply outcome_bind_Ok in H as ([] & Hp & H).
  apply outcome_bind_Ok in H as (m & Hm & H). apply outcome_bind_Ok in H as (l & Hl & H).
  apply outcome_bind_Ok in H as (extras & Hx & H). cbv zeta in H. apply outcome_bind_Ok in H as (offers & Ho & H).
  apply outcome_bind_Ok in H as (w & _ & H). apply outcome_bind_Ok in H as (c & Hc & H). apply Ok_inj in H as <-.
  apply escaping_Ok in Hc. unfold CandidateCommerceCatalog_new in Hc. destruct (negb _); [done|]. destruct (negb _); [done|].
  apply Ok_inj in Hc as <-. exists d. split; [done|]. exists l.
  apply guard_ok in Hg. apply check_protocol_Ok in Hp. apply require_str_Ok in Hm as [Hm _].
  apply catalog_offers_Ok in Hl as [Hl Hn]. apply unknown_fields_Ok in Hx as [Hx _]. apply translate_offers_Ok in Ho.
  by constructor.
Qed.

(** *** Authorization intent *)
Lemma require_int_Ok d key z : Intent.require_int d key = Ok z → jget key d = JInt z.
Proof. unfold Intent.require_int. destruct (jget key d); try done. by intros [= <-]. Qed.
Lemma optional_timestamp_Ok f d key o : Intent.optional_timestamp f d key = Ok o → optional_as (instant_as f) (jget key d) o.
Proof.
  unfold Intent.optional_timestamp. destruct (jget key d) eqn:E; intros H.
  1: by apply Ok_inj in H as <-.
  all: apply outcome_bind_Ok in H as (t & Ht & H); apply Ok_inj in H as <-; by eapply iso_timestamp_Ok.
Qed.
Lemma read_mission_id_Ok p d o : Intent.read_mission_id p d = Ok o → optional_as (uuid_as p) (jget "mission_id" d) o.
Proof.
  unfold Intent.read_mission_id. destruct (jget "mission_id" d); try done; [by intros [= <-]|].
  destruct (p s) eqn:E; [|done]. intros [= <-]. by exists s.
Qed.
Lemma read_reference_Ok d o :
  Intent.read_reference d = Ok o → optional_as str_as (jget "external_authorization_reference" d) o.
Proof. unfold Intent.read_reference. destruct (jget _ d); try done; by intros [= <-]. Qed.
Lemma violations_zero l : (0 <? violations l) = false → Forall (λ b, b = true) l.
Proof.
  unfold violations. intros H%Z.ltb_ge. apply Forall_forall. intros b Hb. destruct b; [done|].
  assert (false ∈ List.filter negb l) as Hin by (apply list_elem_of_In, filter_In; split; [by apply list_elem_of_In|done]).
  destruct (List.filter negb l); [by apply elem_of_nil in Hin|cbn in H; lia].
Qed.
Lemma intent_carried_Ok f p j source version result :
  Intent.translate_payload f p j source version = Ok result → ∃ d, j = JObj d ∧ carried f p d (tr_canonical_payload result).
Proof.
  unfold Intent.translate_payload. intros H. apply outcome_bind_Ok in H as (d & Hd & H). apply require_object_Ok in Hd as ->.
  apply outcome_bind_Ok in H as ([] & Hg & H). apply outcome_bind_Ok in H as ([] & Hp & H).
  apply outcome_bind_Ok in H as (mission & Hm & H). apply outcome_bind_Ok in H as (reference & Hr & H).
  apply outcome_bind_Ok in H as (c & Hc & H). cbv zeta in H. apply outcome_bind_Ok in H as (w & _ & H). apply Ok_inj in H as <-.
  exists d. split; [done|]. cbn [tr_canonical_payload carried]. unfold Intent.read_candidate in Hc. do 7 read_field Hc.
  unfold CandidateAuthorizationRequest_new in Hc. destruct (0 <? violations _) eqn:Hv; [done|].
  destruct (match cr_claimed_expires_at _ with Some t => _ | None => _ end); [done|]. apply Ok_inj in Hc as <-.
  apply violations_zero in Hv. unfold request_constraints in Hv. rewrite !Forall_cons in Hv. cbn in Hv. destruct Hv as (_ & _ & Hq & Ha & Hl & _).
  exists a3. apply guard_ok in Hg. apply check_protocol_Ok in Hp. apply read_mission_id_Ok in Hm. apply read_reference_Ok in Hr.
  repeat match goal with
  | Hf : Intent.field_str _ _ = Ok _ |- _ => apply require_str_Ok in Hf as [Hf _]
  | Hf : Intent.require_int _ _ = Ok _ |- _ => apply require_int_Ok in Hf
  | Hf : Intent.optional_timestamp _ _ _ = Ok _ |- _ => apply optional_timestamp_Ok in Hf
  | Hf : unknown_fields _ _ _ = Ok _ |- _ => apply unknown_fields_Ok in Hf as [Hf _]
  end.
  constructor; try done; cbn.
  - lia.
  - lia.
  - split; [done|]. apply andb_prop in Hl as [?%Nat.leb_le ?%Nat.leb_le]. lia.
Qed.

(** ** What escapes the adapters

    [escapes P o]: an exception that is not a refusal satisfies [P]. *)
Definition escapes (P : exn → Prop) {A} (o : outcome failure A) : Prop := ∀ e, o = Raise (Escaped e) → P e.
Definition refuses {A} (o : outcome failure A) : Prop := escapes (λ _, False) o.

Lemma escapes_Ok P {A} (a : A) : escapes P (Ok a).
Proof. done. Qed.
Lemma escapes_refuse P {A} e : escapes P (@refuse A e).
Proof. done. Qed.
Lemma escapes_malformed P {A} s : escapes P (@malformed A s).
Proof. done. Qed.
Lemma escapes_bind (P : exn → Prop) {A B} (o : outcome failure A) (k : A → outcome failure B) :
  escapes P o → (∀ a, o = Ok a → escapes P (k a)) → escapes P (o ≫= k).
Proof.
  intros Ho Hk e. destruct o as [a|x] eqn:E; cbn; [by apply Hk|]. intros [= ->]. by apply Ho.
Qed.
Lemma refuses_escapes P {A} (o : outcome failure A) : refuses o → escapes P o.
Proof. intros H e He. by destruct (H e He). Qed.
Lemma escapes_escaping (P : exn → Prop) {A} (o : outcome exn A) : (∀ e, o = Raise e → P e) → escapes P (escaping o).
Proof. intros H e. destruct o; cbn; [done|]. intros [= ->]. by apply H. Qed.

(** Walks a translation, leaving the calls that have a lemma of their own. *)
Ltac refuse_step :=
  match goal with
  | |- escapes _ (Ok _) => apply escapes_Ok
  | |- escapes _ (refuse _) => apply escapes_refuse
  | |- escapes _ (malformed _) => apply escapes_malformed
  | |- escapes _ (_ ≫= _) => apply escapes_bind; [|intros ? ?]
  | |- escapes _ (if ?b then _ else _) => destruct b eqn:?
  | |- escapes _ (match ?x with _ => _ end) => destruct x eqn:?
  | |- refuses _ => unfold refuses
  end.
Ltac refuse_walk := repeat refuse_step.

Lemma refuses_object j what : refuses (require_object j what).
Proof. unfold require_object. refuse_walk. Qed.
Lemma refuses_aliases seen ks : refuses (scan_aliases seen ks).
Proof. revert seen. induction ks as [|k ks IH]; intros seen; cbn [scan_aliases]; refuse_walk. apply IH. Qed.
Lemma refuses_guard d : refuses (guard_payload_keys d).
Proof. unfold guard_payload_keys, reject_aliased_keys, reject_reserved_fields. refuse_walk. apply refuses_aliases. Qed.
Lemma refuses_str noun d k : refuses (require_str noun d k).
Proof. unfold require_str. refuse_walk. Qed.
Lemma refuses_keep known why items : refuses (keep_unknown known why items).
Proof. induction items as [|[k v] items IH]; cbn [keep_unknown]; refuse_walk; apply IH. Qed.
Lemma refuses_unknown known why d : refuses (unknown_fields known why d).
Proof. apply refuses_keep. Qed.
Lemma refuses_protocol name d : refuses (check_protocol name d).
Proof. unfold check_protocol. refuse_walk. Qed.
Lemma refuses_timestamp f noun naive k j : refuses (iso_timestamp f noun naive k j).
Proof. unfold iso_timestamp. refuse_walk. Qed.
Create HintDb refusals.
#[export] Hint Resolve refuses_object refuses_guard refuses_str refuses_unknown refuses_protocol refuses_timestamp : refusals.
Ltac refusal := refuse_walk; try (apply refuses_escapes; solve [auto with refusals]).

Lemma refuses_envelope j : refuses (Mcp.read_envelope j).
Proof. unfold Mcp.read_envelope. refusal. Qed.
Lemma refuses_tool d : refuses (Mcp.read_tool d).
Proof. unfold Mcp.read_tool. refusal. Qed.
Lemma refuses_normalize items : refuses (Mcp.normalize_arguments items).
Proof.
  induction items as [|[k v] items IH]; cbn [Mcp.normalize_arguments]; refuse_walk; [|apply IH].
  unfold Mcp.normalize_argument. refusal.
Qed.
#[export] Hint Resolve refuses_normalize : refusals.
Lemma refuses_arguments d : refuses (Mcp.read_arguments d).
Proof. unfold Mcp.read_arguments. refusal. Qed.
Lemma refuses_claims d : refuses (Commerce.claims d).
Proof.
  unfold Commerce.claims. refusal. all: clear.
  all: match goal with |- escapes _ (Commerce.check_claims ?l) => induction l as [|[k []] l IH] end;
    cbn [Commerce.check_claims]; refuse_walk; apply IH.
Qed.
Lemma refuses_catalog_offers d : refuses (Commerce.catalog_offers d).
Proof. unfold Commerce.catalog_offers. refusal. Qed.
Lemma refuses_candidate f d m r : refuses (Intent.read_candidate f d m r).
Proof. unfold Intent.read_candidate, Intent.field_str, Intent.optional_timestamp, Intent.require_int. refusal. Qed.
Lemma refuses_mission p d : refuses (Intent.read_mission_id p d).
Proof. unfold Intent.read_mission_id. refusal. Qed.
Lemma refuses_reference d : refuses (Intent.read_reference d).
Proof. unfold Intent.read_reference. refusal. Qed.
#[export] Hint Resolve refuses_envelope refuses_tool refuses_arguments refuses_claims refuses_catalog_offers
  refuses_candidate refuses_mission refuses_reference : refusals.

(** A warning fails on a detail of more than 400 characters only. *)
Lemma warning_raises code a m b e :
  (0 < String.length a)%nat → (String.length a + String.length b <= 200)%nat →
  AdapterWarning_new code (a +:+ m +:+ b) = Raise e → e = ValidationError "detail" ∧ (200 < String.length m)%nat.
Proof.
  unfold AdapterWarning_new, length_within. rewrite !length_sappend. intros Ha Hab.
  destruct (Nat.leb_spec 1 (String.length a + (String.length m + String.length b))); cbn [andb]; [|lia].
  destruct (Nat.leb_spec (String.length a + (String.length m + String.length b)) 400); [done|].
  intros [= <-]. split; [done|lia].
Qed.

(** An identity claim too long for the fields that must hold it. *)
Definition over_long (claim : string) : Prop :=
  (120 < String.length claim ∨ 200 < String.length (py_repr claim))%nat.
Definition claim_escapes (claim : string) (e : exn) : Prop := over_long claim ∧ ∃ field, e = ValidationError field.

Lemma claim_values_kept l l' : Mcp.normalize_arguments l = Ok l' → forallb is_claim_value (map snd l') = true.
Proof.
  revert l'. induction l as [|[k v] l IH]; intros l'; cbn [Mcp.normalize_arguments]; [by intros [= <-]|].
  intros H. apply outcome_bind_Ok in H as (v' & Hv & H). apply outcome_bind_Ok in H as (r & Hr & H).
  apply Ok_inj in H as <-. cbn. rewrite (IH _ Hr), andb_true_r. revert Hv. unfold Mcp.normalize_argument.
  destruct v; try (by intros [= <-]); try done.
  - destruct (_ <? _)%nat; [done|by intros [= <-]].
  - destruct (forallb is_json_str l0) eqn:E; cbn [negb]; [by intros [= <-]|done].
Qed.
Lemma tool_name_short name operation : py_dict_get name Mcp.TOOL_NAMES = Some operation → length_within 1 200 name = true.
Proof.
  intros H. apply py_dict_get_elem in H. cbn in H. rewrite !elem_of_cons, elem_of_nil in H.
  by destruct H as [->|[->|[->|[->|[->|[]]]]]].
Qed.
Lemma mcp_escapes j source version :
  escapes (claim_escapes (si_claimed_id source)) (Mcp.translate_payload j source version).
Proof.
  unfold Mcp.translate_payload. refusal.
  - apply escapes_escaping. intros e. unfold CandidateOperation_new. cbn [op_claimed_tool_name op_arguments].
    match goal with Ht : Mcp.read_tool _ = _ |- _ => apply read_tool_Ok in Ht as (_ & _ & _ & Ht); rewrite (tool_name_short _ _ Ht) end.
    match goal with Ha : Mcp.read_arguments _ = _ |- _ => unfold Mcp.read_arguments in Ha;
      apply outcome_bind_Ok in Ha as (x & _ & Ha); destruct (_ <? _)%nat; [done|];
      apply outcome_bind_Ok in Ha as ([] & _ & Ha); rewrite (claim_values_kept _ _ Ha) end.
    cbn. discriminate.
  - apply escapes_escaping. intros e He. apply warning_raises in He as [-> Hl]; [|apply Nat.leb_le; vm_compute; reflexivity..].
    split; [by right|by eexists].
Qed.
Lemma intent_escapes f p j source version :
  escapes (claim_escapes (si_claimed_id source)) (Intent.translate_payload f p j source version).
Proof.
  unfold Intent.translate_payload. refusal. apply escapes_escaping. intros e.
  unfold Intent.intent_warnings. unfold mbind, outcome_bind at 1.
  destruct (AdapterWarning_new _ _) eqn:E.
  - destruct (is_some _); cbn; destruct (non_empty _); done.
  - intros [= ->]. apply warning_raises in E as [-> Hl]; [|apply Nat.leb_le; vm_compute; reflexivity..].
    split; [by right|by eexists].
Qed.

(** A price or a rating that is an integer beyond the doubles. *)
Definition number_escapes (d : json_obj) (e : exn) : Prop :=
  e = OverflowError "int too large to convert to float" ∧
  ∃ key z, (key = "price" ∨ key = "rating") ∧ jget key d = JInt z ∧ py_float_of_int z = None.
Lemma number_escape d key :
  key = "price" ∨ key = "rating" → escapes (number_escapes d) (Commerce.require_number d key).
Proof.
  intros Hk. unfold Commerce.require_number. refuse_walk. intros e [= <-]. split; [done|]. by exists key, z.
Qed.
Lemma read_offer_escapes f index d : escapes (number_escapes d) (Commerce.read_offer f index d).
Proof.
  unfold Commerce.read_offer, Commerce.offer_str, Commerce.require_bool. refusal.
  1: apply number_escape; by left.
  1: apply number_escape; by right.
  all: exfalso; unfold RawMerchantOffer_new in *; destruct (raw_offer_error _); congruence.
Qed.
Lemma offer_error_merchant r : raw_offer_error r = None → length_within 1 120 (ro_merchant_id r) = true.
Proof. unfold raw_offer_error. by destruct (length_within 1 120 (ro_merchant_id r)). Qed.
Lemma read_offer_valid f index d r : Commerce.read_offer f index d = Ok r → raw_offer_error r = None.
Proof.
  unfold Commerce.read_offer. intros Hr. do 9 read_field Hr. destruct (Commerce.description_of d); try done.
  destruct (RawMerchantOffer_new _) as [r'|e] eqn:E; [|by destruct e]. apply Ok_inj in Hr as ->.
  by apply RawMerchantOffer_Ok in E as [-> He].
Qed.
Lemma translate_offer_escapes f index entry :
  escapes (λ e, ∃ d, entry = JObj d ∧ number_escapes d e) (Commerce.translate_offer f index entry).
Proof.
  unfold Commerce.translate_offer. refusal.
  - match goal with Hd : require_object _ _ = _ |- _ => apply require_object_Ok in Hd as -> end.
    intros e He. eexists. split; [done|]. by eapply read_offer_escapes.
  - match goal with Hr : Commerce.read_offer _ _ _ = _ |- _ => apply read_offer_valid, offer_error_merchant in Hr end.
    match goal with Hx : unknown_fields _ _ _ = _ |- _ => apply unknown_fields_Ok in Hx as [_ Hx] end.
    apply escapes_escaping. intros e. unfold CandidateCommerceOffer_new. cbn [co_claimed_merchant_id co_untrusted_metadata].
    repeat match goal with Hb : _ = true |- _ => rewrite Hb; clear Hb end. cbn. discriminate.
Qed.
Lemma translate_offers_escape f index entries :
  escapes (λ e, ∃ d, JObj d ∈ entries ∧ number_escapes d e) (Commerce.translate_offers f index entries).
Proof.
  revert index. induction entries as [|entry entries IH]; intros index; cbn [Commerce.translate_offers]; refuse_walk.
  - intros e (d & -> & He)%translate_offer_escapes. exists d. split; [left|done].
  - intros e (d & Hd & He)%IH. exists d. split; [by right|done].
Qed.
Definition commerce_escape (d : json_obj) (e : exn) : Prop :=
  (∃ claim, jget "merchant_id" d = JStr claim ∧ claim_escapes claim e) ∨
  (∃ entries o, jget "offers" d = JList entries ∧ JObj o ∈ entries ∧ number_escapes o e).
Lemma commerce_escapes f j source version :
  escapes (λ e, ∃ d, j = JObj d ∧ commerce_escape d e) (Commerce.translate_payload f j source version).
Proof.
  unfold Commerce.translate_payload, Commerce.offer_str. refusal.
  all: match goal with Hd : require_object _ _ = _ |- _ => apply require_object_Ok in Hd as -> end; intros e He; eexists; (split; [done|]).
  - match goal with Hl : Commerce.catalog_offers _ = _ |- _ => apply catalog_offers_Ok in Hl as [Hl _] end.
    apply translate_offers_escape in He as (o & Ho & He). right. by eexists _, o.
  - match goal with Hm : require_str _ _ _ = _ |- _ => apply require_str_Ok in Hm as [Hm _] end.
    left. eexists. split; [done|]. revert He. unfold Commerce.catalog_warnings. unfold mbind, outcome_bind at 1.
    destruct (AdapterWarning_new _ _) eqn:E.
    + cbn. destruct (_ || _); done.
    + intros [= ->]. apply warning_raises in E as [-> Hl]; [|apply Nat.leb_le; vm_compute; reflexivity..].
      split; [by right|by eexists].
  - match goal with Hm : require_str _ _ _ = _ |- _ => apply require_str_Ok in Hm as [Hm Hne] end.
    left. eexists. split; [done|]. match goal with Hx : unknown_fields _ _ _ = _ |- _ => apply unknown_fields_Ok in Hx as [_ Hx] end.
    revert He. unfold CandidateCommerceCatalog_new. cbn [cc_claimed_merchant_id cc_untrusted_metadata].
    match goal with Hx : forallb _ _ = true |- _ => rewrite Hx end. unfold length_within.
    match goal with |- context [escaping (if negb ((1 <=? ?n)%nat && (?n <=? 120)%nat) then _ else _)] =>
      destruct (Nat.leb_spec n 120), (Nat.leb_spec 1 n) end; cbn; try discriminate.
    + destruct a2; [done|cbn in *; lia].
    + intros [= <-]. split; [by left|by eexists].
    + intros [= <-]. split; [by left|by eexists].
Qed.

(** ** The registry of the process *)
Section Builtin.
Context (decode : bytes → decoded).
Context (fromisoformat : string → option datetime) (parse_uuid : string → option uuid).
Abbreviation the_registry := (REGISTRY fromisoformat parse_uuid).

Lemma builtin_lookup id family entry :
  lookup_adapter the_registry id family = Ok entry →
  family = AdapterFamily.COMMERCE ∧
    entry = mkRegisteredAdapter Commerce.DESCRIPTOR (Commerce.PactraCommerceAdapter fromisoformat) ∨
  family = AdapterFamily.PAYMENT_AUTHORIZATION ∧
    entry = mkRegisteredAdapter Intent.DESCRIPTOR (Intent.PactraAuthorizationIntentAdapter fromisoformat parse_uuid) ∨
  family = AdapterFamily.TOOL ∧ entry = mkRegisteredAdapter Mcp.DESCRIPTOR Mcp.McpToolAdapter.
Proof.
  intros [H Hf]%lookup_adapter_Ok. change (rg_adapters the_registry) with
    [(Commerce.ADAPTER_ID, mkRegisteredAdapter Commerce.DESCRIPTOR (Commerce.PactraCommerceAdapter fromisoformat));
     (Intent.ADAPTER_ID, mkRegisteredAdapter Intent.DESCRIPTOR (Intent.PactraAuthorizationIntentAdapter fromisoformat parse_uuid));
     (Mcp.ADAPTER_ID, mkRegisteredAdapter Mcp.DESCRIPTOR Mcp.McpToolAdapter)] in H.
  cbn [py_dict_get] in H. destruct (String.eqb id Commerce.ADAPTER_ID).
  { injection H as <-. by left. }
  destruct (String.eqb id Intent.ADAPTER_ID).
  { injection H as <-. by right; left. }
  destruct (String.eqb id Mcp.ADAPTER_ID); [|done]. injection H as <-. by right; right.
Qed.


(** C27: A tool call gains no privilege.  An envelope of the tool family holds an operation
    whose name is in the server's table and whose capability is not privileged and is one
    the buyer agent holds; and authorizing it grants exactly what the registered set of the
    principal the caller names permits, whoever sent the call. *)
Theorem tool_call_gains_no_privilege (now : datetime) (id version : string) (payload : raw_payload)
    (source : SourceIdentity) (received_at : option datetime) (e : AdapterEnvelope) :
  translate decode the_registry now id AdapterFamily.TOOL version payload source received_at = Ok e →
  ∃ o, ae_canonical_payload e = Operation o ∧
    py_dict_get (op_claimed_tool_name o) Mcp.TOOL_NAMES = Some (op_operation o) ∧
    (required_capability o ∉ PRIVILEGED_CAPABILITIES) ∧
    permits (capabilities_for "buyer-agent") (required_capability o) = true ∧
    ∀ (S : Type) principal (s : S), authorize_operation o principal s =
      if permits (capabilities_for principal) (required_capability o) then (Ok (required_capability o), s)
      else (Raise (CapabilityDenied (cs_principal (capabilities_for principal)) (required_capability o)), s).
Proof.
  intros H. apply translate_Ok in H as (entry & raw & j & result & Hl & _ & _ & Ht & Hc & ->).
  cbn [envelope_of ae_canonical_payload]. apply check_result_Ok in Hc as ((types & Htypes & Hin) & _).
  apply builtin_lookup in Hl as [[? _]|[[? _]|[_ ->]]]; [done|done|].
  apply (mcp_carried fromisoformat parse_uuid) in Ht as (d & -> & Hd). injection Htypes as <-.
  apply list_elem_of_singleton in Hin. destruct (tr_canonical_payload result) as [| |o|]; try done. exists o.
  destruct Hd as (params & arguments & Hd). split; [done|]. split; [apply Hd|].
  split; [|split].
  - unfold required_capability. by destruct (op_operation o); apply (bool_decide_unpack (¬ _)).
  - unfold required_capability. by destruct (op_operation o).
  - intros S principal s. unfold authorize_operation. unfold mbind, M_bind. rewrite enforce_cases.
    by destruct (permits _ _).
Qed.

End Builtin.

(** The registry of the process is one that registrations reach. *)
Lemma builtin_reachable f p : registry_reachable (REGISTRY f p).
Proof.
  eapply rtc_l; [by eapply (step_register _ _ Commerce.DESCRIPTOR (Commerce.PactraCommerceAdapter f))|].
  eapply rtc_l; [by eapply (step_register _ _ Intent.DESCRIPTOR (Intent.PactraAuthorizationIntentAdapter f p))|].
  eapply rtc_l; [by eapply (step_register _ _ Mcp.DESCRIPTOR Mcp.McpToolAdapter)|].
  apply rtc_once. by eapply step_seal.
Qed.
(** The descriptors are ones their constructor accepts. *)
Lemma builtin_descriptors_valid :
  Forall (λ d, AdapterDescriptor_new d = Ok d) [Commerce.DESCRIPTOR; Intent.DESCRIPTOR; Mcp.DESCRIPTOR].
Proof. repeat constructor; vm_compute; reflexivity. Qed.

(** ** Examples and witnesses *)
Definition demo_source : SourceIdentity := mkSourceIdentity "some-agent" "http".
Definition demo_iso (s : string) : option datetime := if String.eqb s "2026-01-01T00:00:00+00:00" then Some (utc 0) else None.
Definition demo_uuid (s : string) : option uuid := None.
Definition demo_registry : AdapterRegistry := REGISTRY demo_iso demo_uuid.
Definition demo_decode (j : json) : bytes → decoded := λ _, Decoded j.

Definition demo_call : json :=
  JObj [("jsonrpc", JStr "2.0"); ("id", JInt 1); ("method", JStr "tools/call");
        ("params", JObj [("name", JStr "pactra.offer.rank"); ("arguments", JObj [("b", JInt 1); ("a", JStr "x")])])].
Definition demo_offer : json :=
  JObj [("merchant_id", JStr "merchant_a"); ("product_id", JStr "eb-1"); ("title", JStr "Earbuds"); ("price", JInt 3799);
        ("currency", JStr "INR"); ("rating", JFloat (fl_lit 45 10)); ("in_stock", JBool true);
        ("offered_at", JStr "2026-01-01T00:00:00+00:00"); ("colour", JStr "black")].
Definition demo_catalog (merchant : string) : json_obj :=
  [("merchant_id", JStr merchant); ("offers", JList [demo_offer])].
Definition demo_intent : json_obj :=
  [("merchant_id", JStr "merchant_a"); ("product_id", JStr "eb-1"); ("quantity", JInt 1); ("amount_inr", JInt 3799);
   ("currency", JStr "inr")].

Definition translate_call := translate (demo_decode demo_call) demo_registry (utc 0) Mcp.ADAPTER_ID AdapterFamily.TOOL
  "2025-06-18" (PayloadBytes [123; 125]%N) demo_source None.
Definition translate_catalog (merchant : string) := translate (demo_decode JNull) demo_registry (utc 0) Commerce.ADAPTER_ID
  AdapterFamily.COMMERCE "1.0" (PayloadDict (demo_catalog merchant)) demo_source None.
Definition translate_intent := translate (demo_decode JNull) demo_registry (utc 0) Intent.ADAPTER_ID
  AdapterFamily.PAYMENT_AUTHORIZATION "1.0" (PayloadDict demo_intent) demo_source None.

(** Each of the names a hostile payload might try is refused, for its own reason. *)
Definition refusal_code {A} (o : outcome failure A) : option string :=
  match o with Raise (Refused e) => Some (adapter_reason_code e) | _ => None end.
Definition translate_intent_with (extra : json_obj) := translate (demo_decode JNull) demo_registry (utc 0) Intent.ADAPTER_ID
  AdapterFamily.PAYMENT_AUTHORIZATION "1.0" (PayloadDict (demo_intent ++ extra)) demo_source None.
Definition translate_tool (name : string) := translate
  (demo_decode (JObj [("jsonrpc", JStr "2.0"); ("id", JInt 1); ("method", JStr "tools/call"); ("params", JObj [("name", JStr name)])]))
  demo_registry (utc 0) Mcp.ADAPTER_ID AdapterFamily.TOOL "2025-06-18" (PayloadBytes []) demo_source None.
Example hostile_payloads :
  map refusal_code
    [translate_intent_with [("Policy-Override", JBool true)]; translate_intent_with [("nonce", JStr "00")];
     translate_intent_with [("merchantId", JStr "merchant_b")]; translate_intent_with [("protocol", JStr "ap2")];
     translate_tool "payment.execute"] =
  [Some "ADAPTER_RESERVED_FIELD_REJECTED"; Some "ADAPTER_RESERVED_FIELD_REJECTED"; Some "ADAPTER_AMBIGUOUS_FIELD";
   Some "ADAPTER_PROTOCOL_MISMATCH"; Some "ADAPTER_OPERATION_UNSUPPORTED"].
Proof. vm_compute. reflexivity. Qed.

(** An intent that names no mission and no expiry is given provenance for both. *)
Theorem absent_values_have_provenance : ∃ e r, translate_intent = Ok e ∧ ae_canonical_payload e = AuthorizationRequest r ∧
  cr_mission_id r = None ∧ cr_claimed_expires_at r = None ∧
  is_some (py_dict_get "mission_id" (ae_provenance e)) = true ∧
  is_some (py_dict_get "claimed_expires_at" (ae_provenance e)) = true.
Proof.
  destruct translate_intent as [e|e] eqn:E; vm_compute in E; [|discriminate E]. injection E as <-.
  eexists _, _. split; [reflexivity|]. split; [reflexivity|]. by repeat split.
Qed.

Lemma registry_only_grows_witness :
  let r := snd (register Mcp.DESCRIPTOR Mcp.McpToolAdapter AdapterRegistry_new) in
  lookup_adapter (snd (seal r)) Mcp.ADAPTER_ID AdapterFamily.TOOL = Ok (mkRegisteredAdapter Mcp.DESCRIPTOR Mcp.McpToolAdapter).
Proof.
  intros r. apply (registry_only_grows r (snd (seal r))).
  - apply rtc_once. by eapply (step_register _ _ Mcp.DESCRIPTOR Mcp.McpToolAdapter).
  - apply rtc_once. by eapply step_seal.
  - reflexivity.
Defined.
Lemma translation_never_raises_authority_witness :
  ∃ e, translate_call = Ok e ∧ ae_adapter_id e = Mcp.ADAPTER_ID ∧
    Forall (λ entry, marked_untrusted AuthorityLevel.AGENT_PROPOSAL (snd entry)) (ae_provenance e).
Proof.
  destruct translate_call as [e|e] eqn:E; [|by vm_compute in E]. exists e. split; [done|].
  destruct (translation_never_raises_authority _ _ _ _ _ _ _ _ _ _ (builtin_reachable _ _) E)
    as (entry & _ & Hid & _ & _ & _ & _ & _ & Hm & Ha & _).
  injection Hid as -> _ _ _. rewrite Ha in Hm. by split.
Defined.
Lemma tool_call_gains_no_privilege_witness :
  ∃ e o, translate_call = Ok e ∧ ae_canonical_payload e = Operation o ∧ (required_capability o ∉ PRIVILEGED_CAPABILITIES).
Proof.
  destruct translate_call as [e|e] eqn:E; [|by vm_compute in E].
  destruct (tool_call_gains_no_privilege _ _ _ _ _ _ _ _ _ _ E) as (o & Ho & _ & Hp & _). by exists e, o.
Defined.
(** A merchant id of 130 characters is not refused: pydantic's error escapes. *)
Definition long_merchant : string := String.concat "" (repeat "merchant_a" 13).
