(* ===== verification/AttackLab.v ===== *)
(** * The attack lab: scenarios, results and measurements

    services/attack_lab: models.py, metrics.py, registry.py, runner.py and evaluation.py -
    what a scenario and a result are, how a run becomes a result, what a batch of results
    measures, and which findings it yields.  A scenario carries its two functions; the
    environment they act on, the clock and the database engines of context.py are
    parameters of the runner.  The effects a scenario publishes are JSON values, as its
    report writes them.  The scenarios themselves are not modelled. *)
From S2P Require Import Prelude Python PyFloat PyNumbers PyText Json Enums Transaction.

(** ** models.py *)
(** Benchmark groups *)
Module AttackCategory.
Inductive AttackCategory : Set :=
  | INPUT_TRUST | AUTHORITY | TRANSACTION | PAYMENT_RELIABILITY | WEBHOOK | AUDIT | CONCURRENCY
  | ADAPTER | BENIGN_CONTROL | KNOWN_LIMITATION.
#[global] Instance eq_dec : EqDecision AttackCategory.
Proof. solve_decision. Defined.
Definition value (x : AttackCategory) : string :=
  match x with
  | INPUT_TRUST => "INPUT_TRUST"
  | AUTHORITY => "AUTHORITY"
  | TRANSACTION => "TRANSACTION"
  | PAYMENT_RELIABILITY => "PAYMENT_RELIABILITY"
  | WEBHOOK => "WEBHOOK"
  | AUDIT => "AUDIT"
  | CONCURRENCY => "CONCURRENCY"
  | ADAPTER => "ADAPTER"
  | BENIGN_CONTROL => "BENIGN_CONTROL"
  | KNOWN_LIMITATION => "KNOWN_LIMITATION"
  end.
Definition members : list AttackCategory :=
  [INPUT_TRUST; AUTHORITY; TRANSACTION; PAYMENT_RELIABILITY; WEBHOOK; AUDIT; CONCURRENCY;
   ADAPTER; BENIGN_CONTROL; KNOWN_LIMITATION].
End AttackCategory.
Abbreviation AttackCategory := AttackCategory.AttackCategory.
#[global] Instance AttackCategory_enum : StrEnum AttackCategory.
Proof. refine {| enum_value := AttackCategory.value; enum_members := AttackCategory.members |}; solve_enum. Defined.

(** An order, not a score *)
Module Severity.
Inductive Severity : Set :=
  | LOW | MEDIUM | HIGH | CRITICAL.
#[global] Instance eq_dec : EqDecision Severity.
Proof. solve_decision. Defined.
Definition value (x : Severity) : string :=
  match x with
  | LOW => "LOW"
  | MEDIUM => "MEDIUM"
  | HIGH => "HIGH"
  | CRITICAL => "CRITICAL"
  end.
Definition members : list Severity :=
  [LOW; MEDIUM; HIGH; CRITICAL].
End Severity.
Abbreviation Severity := Severity.Severity.
#[global] Instance Severity_enum : StrEnum Severity.
Proof. refine {| enum_value := Severity.value; enum_members := Severity.members |}; solve_enum. Defined.

(** What a run produced *)
Module AttackStatus.
Inductive AttackStatus : Set :=
  | BLOCKED | NOT_BLOCKED | ERROR | INCONCLUSIVE.
#[global] Instance eq_dec : EqDecision AttackStatus.
Proof. solve_decision. Defined.
Definition value (x : AttackStatus) : string :=
  match x with
  | BLOCKED => "BLOCKED"
  | NOT_BLOCKED => "NOT_BLOCKED"
  | ERROR => "ERROR"
  | INCONCLUSIVE => "INCONCLUSIVE"
  end.
Definition members : list AttackStatus :=
  [BLOCKED; NOT_BLOCKED; ERROR; INCONCLUSIVE].
End AttackStatus.
Abbreviation AttackStatus := AttackStatus.AttackStatus.
#[global] Instance AttackStatus_enum : StrEnum AttackStatus.
Proof. refine {| enum_value := AttackStatus.value; enum_members := AttackStatus.members |}; solve_enum. Defined.

(** The database a scenario needs *)
Module Backend.
Inductive Backend : Set :=
  | SQLITE | POSTGRES.
#[global] Instance eq_dec : EqDecision Backend.
Proof. solve_decision. Defined.
Definition value (x : Backend) : string :=
  match x with
  | SQLITE => "SQLITE"
  | POSTGRES => "POSTGRES"
  end.
Definition members : list Backend :=
  [SQLITE; POSTGRES].
End Backend.
Abbreviation Backend := Backend.Backend.
#[global] Instance Backend_enum : StrEnum Backend.
Proof. refine {| enum_value := Backend.value; enum_members := Backend.members |}; solve_enum. Defined.

(** Of a finding *)
Module FindingStatus.
Inductive FindingStatus : Set :=
  | OPEN | FIXED | ACCEPTED_LIMITATION.
#[global] Instance eq_dec : EqDecision FindingStatus.
Proof. solve_decision. Defined.
Definition value (x : FindingStatus) : string :=
  match x with
  | OPEN => "OPEN"
  | FIXED => "FIXED"
  | ACCEPTED_LIMITATION => "ACCEPTED_LIMITATION"
  end.
Definition members : list FindingStatus :=
  [OPEN; FIXED; ACCEPTED_LIMITATION].
End FindingStatus.
Abbreviation FindingStatus := FindingStatus.FindingStatus.
#[global] Instance FindingStatus_enum : StrEnum FindingStatus.
Proof. refine {| enum_value := FindingStatus.value; enum_members := FindingStatus.members |}; solve_enum. Defined.

Definition MALICIOUS_CATEGORIES : list AttackCategory :=
  [AttackCategory.INPUT_TRUST; AttackCategory.AUTHORITY; AttackCategory.TRANSACTION;
   AttackCategory.PAYMENT_RELIABILITY; AttackCategory.WEBHOOK; AttackCategory.AUDIT;
   AttackCategory.CONCURRENCY; AttackCategory.ADAPTER].
Definition BACKEND_UNAVAILABLE : string := "BACKEND_UNAVAILABLE".

(** What can be raised: the classes of the lab, and any other, by its name and text. *)
Inductive LabError : Type :=
  | PostgresUnavailable (text : ustr)
  | DuplicateScenario (scenario_id : string)
  | UnknownScenario (scenario_id : string)
  | InvalidModel (field : string)
  | Raised (type_name : string) (text : ustr).
Definition error_type_name (e : LabError) : string :=
  match e with
  | PostgresUnavailable _ => "PostgresUnavailable"
  | DuplicateScenario _ => "DuplicateScenario"
  | UnknownScenario _ => "UnknownScenario"
  | InvalidModel _ => "ValidationError"
  | Raised type_name _ => type_name
  end.
(** [str(exc)]; pydantic's own text is its own. *)
Definition error_str (pydantic_text : string → ustr) (e : LabError) : ustr :=
  match e with
  | PostgresUnavailable text => text
  | DuplicateScenario id => u ("scenario id " +:+ py_repr id +:+ " is already registered")
  | UnknownScenario id => u ("no attack scenario registered as " +:+ py_repr id)
  | InvalidModel field => pydantic_text field
  | Raised _ text => text
  end.

Record Observation := mkObservation {
  ob_blocked : bool;
  ob_reason_code : option string;
  ob_invariant_preserved : option bool;
  ob_observed_effects : json_obj;
  ob_evidence : option ustr
}.

(** [E]: the environment a scenario acts on; [C]: the context it is handed; [St]: what
    its [setup] hands to its [execute]. *)
Record AttackScenario (E C St : Type) := mkAttackScenario {
  sc_id : string;
  sc_name : string;
  sc_category : AttackCategory;
  sc_severity : Severity;
  sc_description : string;
  sc_target_invariants : list string;
  sc_backend : Backend;
  sc_expected_status : AttackStatus;
  sc_expected_reason_code : option string;
  sc_critical : bool;
  sc_setup : C → M E LabError St;
  sc_execute : C → St → M E LabError Observation
}.
Arguments sc_id {E C St} _.
Arguments sc_name {E C St} _.
Arguments sc_category {E C St} _.
Arguments sc_severity {E C St} _.
Arguments sc_description {E C St} _.
Arguments sc_target_invariants {E C St} _.
Arguments sc_backend {E C St} _.
Arguments sc_expected_status {E C St} _.
Arguments sc_expected_reason_code {E C St} _.
Arguments sc_critical {E C St} _.
Arguments sc_setup {E C St} _ _.
Arguments sc_execute {E C St} _ _ _.

(** The fields' constraints, in the order of the class. *)
Definition is_scenario_id_char (a : ascii) : bool :=
  let n := N_of_ascii a in
  ((97 <=? n)%N && (n <=? 122)%N) || ((48 <=? n)%N && (n <=? 57)%N) || (n =? 95)%N.
Definition AttackScenario_new {E C St} (s : AttackScenario E C St) : outcome LabError (AttackScenario E C St) :=
  if negb (length_within 1 80 (sc_id s) && str_forallb is_scenario_id_char (sc_id s)) then Raise (InvalidModel "id")
  else if negb (length_within 1 160 (sc_name s)) then Raise (InvalidModel "name")
  else if (String.length (sc_description s) =? 0)%nat then Raise (InvalidModel "description")
  else if bool_decide (sc_target_invariants s = []) then Raise (InvalidModel "target_invariants")
  else Ok s.

Record AttackResult := mkAttackResult {
  ar_scenario_id : string;
  ar_scenario_name : string;
  ar_category : AttackCategory;
  ar_severity : Severity;
  ar_target_invariants : list string;
  ar_backend : Backend;
  ar_run_id : string;
  ar_iteration : Z;
  ar_started_at : datetime;
  ar_duration_ms : float;
  ar_execute_ms : float;
  ar_status : AttackStatus;
  ar_expected_status : AttackStatus;
  ar_blocked : option bool;
  ar_reason_code : option string;
  ar_expected_reason_code : option string;
  ar_reason_match : option bool;
  ar_invariant_preserved : option bool;
  ar_observed_effects : json_obj;
  ar_evidence : option ustr;
  ar_error : option ustr;
  ar_critical : bool
}.
Definition AttackResult_new (r : AttackResult) : outcome LabError AttackResult :=
  if ar_iteration r <? 1 then Raise (InvalidModel "iteration")
  else if negb (fl_leb fl_zero (ar_duration_ms r)) then Raise (InvalidModel "duration_ms")
  else if negb (fl_leb fl_zero (ar_execute_ms r)) then Raise (InvalidModel "execute_ms")
  else Ok r.

Definition is_malicious (r : AttackResult) : bool := bool_decide (ar_category r ∈ MALICIOUS_CATEGORIES).
Definition is_decisive (r : AttackResult) : bool :=
  bool_decide (ar_status r ∈ [AttackStatus.BLOCKED; AttackStatus.NOT_BLOCKED]).
Definition outcome_as_expected (r : AttackResult) : bool := bool_decide (ar_status r = ar_expected_status r).
Definition has_status (s : AttackStatus) (r : AttackResult) : bool := bool_decide (ar_status r = s).

Record SecurityFinding := mkSecurityFinding {
  sf_id : string;
  sf_scenario_id : string;
  sf_severity : Severity;
  sf_category : AttackCategory;
  sf_invariants : list string;
  sf_description : string;
  sf_reproduction : string;
  sf_observed_effect : json_obj;
  sf_status : FindingStatus;
  sf_occurrences : Z
}.
Record KnownLimitation := mkKnownLimitation {
  kl_id : string; kl_title : string; kl_detail : ustr; kl_demonstrated_by : option string
}.

(** ** limitations.py *)
Definition KNOWN_LIMITATIONS : list KnownLimitation :=
  [mkKnownLimitation "KL-01-audit-tail-truncation" "Tail truncation and whole-chain deletion are undetectable"
     (u "A per-mission hash chain has no anchor outside itself. Deleting the last k events "
       ++ u "leaves 0..N-k-1: still contiguous, still correctly linked, still hashing correctly. A "
       ++ u "mission with no events is indistinguishable from one whose events were all removed. "
       ++ u "Detecting either requires a signed head, an external witness, or a cross-mission "
       ++ u "ledger; Phase 5 built none and Phase 6 adds none. Middle deletion, reordering, "
       ++ u "renumbering, injection and any edit to a hashed field ARE detected.")
     (Some "audit_tail_truncation");
   mkKnownLimitation "KL-02-semantic-intent-infidelity" "Structured intent does not prove semantic intent fidelity"
     (u "PACTRA validates typed intent and bounds the resulting authority, but it does not "
       ++ u "prove that an AI or caller translated the user's natural-language meaning perfectly. "
       ++ u "Hard limits, exact transaction binding, and USER_ED25519 approval reduce consequences;"
       ++ u " they do not turn semantic interpretation into a verified fact.")
     None;
   mkKnownLimitation "KL-03-audit-canonicalization-is-weaker" "Audit canonicalization is weaker than the transaction encoder"
     (u "The audit chain uses sorted-key JSON, not the type-tagged, domain-separated encoder in"
       ++ u " packages/schemas/canonical.py used for transaction digests. The stronger encoder "
       ++ u "makes 1, "
       ++ [34%N]
       ++ u "1"
       ++ [34%N]
       ++ u " and true unable to collide and rejects floats outright. Switching the chain to it "
       ++ u "would change the preimage of every event and invalidate every event_hash already "
       ++ u "written, so compatibility is preserved instead. Phase 6 does not rewrite historical "
       ++ u "hashes.")
     None;
   mkKnownLimitation "KL-04-no-cryptographic-user-authorization" "Signed approval uses one demo key, not production user identity"
     (u "USER_ED25519 provides a LOCAL CRYPTOGRAPHIC APPROVAL PROOF with one pre-enrolled DEMO "
       ++ u "USER-CONTROLLED SIGNING KEY. There is no user/account system, authenticated approval "
       ++ u "HTTP principal, trusted payment-detail display, or production credential "
       ++ u "recovery/rotation UX. Local key theft compromises demo approval, and broad "
       ++ u "server/database compromise remains outside the proof. This is not production identity,"
       ++ u " WebAuthn/passkey support, non-repudiation, or independent security validation.")
     None;
   mkKnownLimitation "KL-05-no-cryptographic-merchant-authentication" "Merchant identity is registration-based, not cryptographic"
     (u "IN_PROCESS_ADAPTER authentication means identity comes from server-side adapter "
       ++ u "registration, not from the wire. There is no mutual TLS and no signed merchant "
       ++ u "assertion. The identity-spoof scenario proves a merchant cannot talk its way into "
       ++ u "another merchant's identity through the payload; it does not prove a network attacker "
       ++ u "cannot impersonate a merchant connection, because no cryptographic binding exists to "
       ++ u "break.")
     (Some "merchant_identity_spoof");
   mkKnownLimitation "KL-06-reconciliation-trusts-a-negative-provider-answer" "Reconciliation trusts a provider that reports holding no payment"
     (u "FAILED_RETRYABLE is reachable from PROVIDER_PENDING through exactly one route: a "
       ++ u "provider that POSITIVELY reports holding no payment for the idempotency key. That is "
       ++ u "the correct design "
       ++ em_dash
       ++ u " no timer and no attempt count is evidence about whether money moved "
       ++ em_dash
       ++ u " but it does rest on the provider answering truthfully. A provider that creates a "
       ++ u "payment and then denies holding it can induce a duplicate. Measured directly: with "
       ++ u "such a lying provider substituted, provider_timeout_after_create reports NOT_BLOCKED "
       ++ u "with two provider payments, which is what tests/test_attack_lab_scenarios.py asserts "
       ++ u "to prove the scenario can detect a real duplicate at all. This is a boundary of what "
       ++ u "any client-side protocol can guarantee, not a defect PACTRA can close on its own.")
     None;
   mkKnownLimitation "KL-07-latency-is-harness-local" "Reported latency is harness-local, not production enforcement latency"
     (u "p50/p95/p99 are measured over in-process attack execution against an in-memory SQLite "
       ++ u "database (or a local PostgreSQL for the concurrency scenarios). There is no network, "
       ++ u "no connection pool, and no concurrent load. The numbers are useful for detecting a "
       ++ u "regression in this harness and are not a claim about deployed enforcement latency.")
     None].

(** ** metrics.py *)
Definition REPLAY_SCENARIO_IDS : list string :=
  ["authorization_replay"; "pg_concurrent_authorization_consumption"; "webhook_replay"].
Definition DUPLICATE_PAYMENT_SCENARIO_IDS : list string :=
  ["duplicate_payment"; "provider_timeout_after_create"; "pg_concurrent_same_key_payment"; "pg_outbox_double_claim"].
Definition LOGICAL_PAYMENT_KEY : string := "logical_payments".
Definition PROVIDER_PAYMENT_KEY : string := "provider_payments".
Definition UNAUTHORIZED_EFFECT_KEY : string := "unauthorized_effect".

(** [len([r for r in l if p(r)])], and [sum] of the same booleans. *)
Definition count {A} (p : A → bool) (l : list A) : Z := Z.of_nat (length (List.filter p l)).

(** The division of two counts; it cannot overflow. *)
Definition rate (numerator denominator : Z) : option float :=
  if denominator =? 0 then None else py_truediv numerator denominator.

(** [round] of a float raises on infinities and NaN. *)
Definition round_or_raise (x : float) : outcome LabError Z :=
  match py_round_int x with
  | Some z => Ok z
  | None => Raise (match x with
                   | S754_nan => Raised "ValueError" (u "cannot convert float NaN to integer")
                   | _ => Raised "OverflowError" (u "cannot convert float infinity to integer") end)
  end.
Definition percentile (samples : list float) (fraction : float) : outcome LabError (option float) :=
  match samples with
  | [] => Ok None
  | _ =>
      let ordered := py_sorted fl_leb samples in
      let cnt := Z.of_nat (length ordered) in
      hundredths ← round_or_raise (fl_mul fraction (fl_of_Z 100));
      let numerator := hundredths * cnt in
      let rank := - ((- numerator) / 100) in
      let rank := Z.max 1 (Z.min cnt rank) in
      Ok (nth_error ordered (Z.to_nat (rank - 1)))
  end.

Record LatencyMetrics := mkLatencyMetrics {
  lm_samples : Z;
  lm_p50_ms : option float;
  lm_p95_ms : option float;
  lm_p99_ms : option float;
  lm_min_ms : option float;
  lm_max_ms : option float;
  lm_mean_ms : option float
}.
Record CategoryMetrics := mkCategoryMetrics {
  cm_category : AttackCategory;
  cm_runs : Z;
  cm_blocked : Z;
  cm_not_blocked : Z;
  cm_errors : Z;
  cm_inconclusive : Z;
  cm_block_rate : option float
}.
Record AttackMetrics := mkAttackMetrics {
  am_total_runs : Z;
  am_total_scenarios : Z;
  am_iterations : Z;
  am_attack_runs : Z;
  am_valid_attack_runs : Z;
  am_attacks_blocked : Z;
  am_attacks_not_blocked : Z;
  am_control_runs : Z;
  am_valid_control_runs : Z;
  am_controls_allowed : Z;
  am_controls_blocked : Z;
  am_errors : Z;
  am_inconclusive : Z;
  am_known_limitation_runs : Z;
  am_attack_block_rate : option float;
  am_attack_success_rate : option float;
  am_invariant_preservation_rate : option float;
  am_replay_attack_success_rate : option float;
  am_duplicate_payment_rate : option float;
  am_false_positive_rate : option float;
  am_false_negative_rate : option float;
  am_reason_match_rate : option float;
  am_invariant_checked_runs : Z;
  am_replay_attempts : Z;
  am_replay_unauthorized_effects : Z;
  am_duplicate_payment_attempts : Z;
  am_duplicate_payment_observations : Z;
  am_reason_code_checked_runs : Z;
  am_reason_code_matches : Z;
  am_latency : LatencyMetrics;
  am_by_category : list CategoryMetrics;
  am_bypassed_scenarios : list string;
  am_false_positive_scenarios : list string;
  am_errored_scenarios : list string;
  am_inconclusive_scenarios : list string;
  am_critical_failures : list string
}.

(** [min(l)], [max(l)]: the first of the extremes. *)
Definition py_extreme (better : float → float → bool) (l : list float) : option float :=
  match l with [] => None | x :: l => Some (fold_left (λ a y, if better y a then y else a) l x) end.
Definition py_min : list float → option float := py_extreme (λ y a, fl_ltb y a).
Definition py_max : list float → option float := py_extreme (λ y a, fl_ltb a y).

Definition latency (results : list AttackResult) : outcome LabError LatencyMetrics :=
  let samples := map ar_execute_ms (List.filter is_decisive results) in
  match samples with
  | [] => Ok (mkLatencyMetrics 0 None None None None None None)
  | _ =>
      p50 ← percentile samples (fl_lit 50 100);
      p95 ← percentile samples (fl_lit 95 100);
      p99 ← percentile samples (fl_lit 99 100);
      Ok (mkLatencyMetrics (Z.of_nat (length samples)) p50 p95 p99 (py_min samples) (py_max samples)
            (Some (fl_div (py_sum samples) (fl_of_Z (Z.of_nat (length samples))))))
  end.

Definition category_metrics (category : AttackCategory) (runs : list AttackResult) : CategoryMetrics :=
  let blocked := count (has_status AttackStatus.BLOCKED) runs in
  let not_blocked := count (has_status AttackStatus.NOT_BLOCKED) runs in
  mkCategoryMetrics category (Z.of_nat (length runs)) blocked not_blocked
    (count (has_status AttackStatus.ERROR) runs) (count (has_status AttackStatus.INCONCLUSIVE) runs)
    (rate blocked (blocked + not_blocked)).
Definition by_category (results : list AttackResult) : list CategoryMetrics :=
  omap (λ category,
    match List.filter (λ r, bool_decide (ar_category r = category)) results with
    | [] => None
    | runs => Some (category_metrics category runs)
    end) (enum_members : list AttackCategory).

(** [isinstance(v, int) and v > 1]; a bool is an int, and not above 1. *)
Definition above_one (v : option json) : bool := match v with Some (JInt n) => 1 <? n | _ => false end.
Definition duplicate_attempt (r : AttackResult) : bool :=
  bool_decide (ar_scenario_id r ∈ DUPLICATE_PAYMENT_SCENARIO_IDS) && is_decisive r.
Definition duplicate_observed (r : AttackResult) : bool :=
  above_one (py_dict_get LOGICAL_PAYMENT_KEY (ar_observed_effects r))
  || above_one (py_dict_get PROVIDER_PAYMENT_KEY (ar_observed_effects r)).
Definition duplicate_payment_counts (results : list AttackResult) : Z * Z :=
  fold_left (λ '(attempts, duplicates) r,
    if negb (duplicate_attempt r) then (attempts, duplicates)
    else (attempts + 1, if duplicate_observed r then duplicates + 1 else duplicates)) results (0, 0).

Definition replay_attempt (r : AttackResult) : bool :=
  bool_decide (ar_scenario_id r ∈ REPLAY_SCENARIO_IDS) && is_decisive r.
Definition is_true (v : option json) : bool := match v with Some (JBool b) => b | _ => false end.
Definition replay_counts (results : list AttackResult) : Z * Z :=
  fold_left (λ '(attempts, successes) r,
    if negb (replay_attempt r) then (attempts, successes)
    else (attempts + 1,
          if is_true (py_dict_get UNAUTHORIZED_EFFECT_KEY (ar_observed_effects r)) then successes + 1
          else if has_status AttackStatus.NOT_BLOCKED r then successes + 1 else successes)) results (0, 0).

(** [sorted({r.scenario_id for r in l if p(r)})]. *)
Definition scenario_ids_where (p : AttackResult → bool) (l : list AttackResult) : list string :=
  py_sorted String.leb (remove_dups (map ar_scenario_id (List.filter p l))).

Definition compute_metrics (results : list AttackResult) (iterations : Z) : outcome LabError AttackMetrics :=
  let attack_runs := List.filter is_malicious results in
  let control_runs := List.filter (λ r, bool_decide (ar_category r = AttackCategory.BENIGN_CONTROL)) results in
  let limitation_runs := List.filter (λ r, bool_decide (ar_category r = AttackCategory.KNOWN_LIMITATION)) results in
  let valid_attacks := List.filter is_decisive attack_runs in
  let blocked := count (has_status AttackStatus.BLOCKED) valid_attacks in
  let not_blocked := count (has_status AttackStatus.NOT_BLOCKED) valid_attacks in
  let valid_controls := List.filter is_decisive control_runs in
  let controls_blocked := count (has_status AttackStatus.BLOCKED) valid_controls in
  let controls_allowed := count (has_status AttackStatus.NOT_BLOCKED) valid_controls in
  let invariant_runs := List.filter (λ r, is_some (ar_invariant_preserved r)) results in
  let invariant_held := count (λ r, default false (ar_invariant_preserved r)) invariant_runs in
  let reason_checked := List.filter (λ r, is_some (ar_reason_match r)) results in
  let reason_matched := count (λ r, default false (ar_reason_match r)) reason_checked in
  let '(replay_attempts, replay_successes) := replay_counts results in
  let '(duplicate_attempts, duplicate_observations) := duplicate_payment_counts results in
  let len (l : list AttackResult) := Z.of_nat (length l) in
  let attack_success := rate not_blocked (len valid_attacks) in
  lat ← latency results;
  if iterations <? 1 then Raise (InvalidModel "iterations")
  else Ok {|
    am_total_runs := len results;
    am_total_scenarios := Z.of_nat (length (remove_dups (map ar_scenario_id results)));
    am_iterations := iterations;
    am_attack_runs := len attack_runs;
    am_valid_attack_runs := len valid_attacks;
    am_attacks_blocked := blocked;
    am_attacks_not_blocked := not_blocked;
    am_control_runs := len control_runs;
    am_valid_control_runs := len valid_controls;
    am_controls_allowed := controls_allowed;
    am_controls_blocked := controls_blocked;
    am_errors := count (has_status AttackStatus.ERROR) results;
    am_inconclusive := count (has_status AttackStatus.INCONCLUSIVE) results;
    am_known_limitation_runs := len limitation_runs;
    am_attack_block_rate := rate blocked (len valid_attacks);
    am_attack_success_rate := attack_success;
    am_invariant_preservation_rate := rate invariant_held (len invariant_runs);
    am_replay_attack_success_rate := rate replay_successes replay_attempts;
    am_duplicate_payment_rate := rate duplicate_observations duplicate_attempts;
    am_false_positive_rate := rate controls_blocked (len valid_controls);
    am_false_negative_rate := attack_success;
    am_reason_match_rate := rate reason_matched (len reason_checked);
    am_invariant_checked_runs := len invariant_runs;
    am_replay_attempts := replay_attempts;
    am_replay_unauthorized_effects := replay_successes;
    am_duplicate_payment_attempts := duplicate_attempts;
    am_duplicate_payment_observations := duplicate_observations;
    am_reason_code_checked_runs := len reason_checked;
    am_reason_code_matches := reason_matched;
    am_latency := lat;
    am_by_category := by_category results;
    am_bypassed_scenarios := scenario_ids_where (has_status AttackStatus.NOT_BLOCKED) attack_runs;
    am_false_positive_scenarios := scenario_ids_where (has_status AttackStatus.BLOCKED) control_runs;
    am_errored_scenarios := scenario_ids_where (has_status AttackStatus.ERROR) results;
    am_inconclusive_scenarios := scenario_ids_where (has_status AttackStatus.INCONCLUSIVE) results;
    am_critical_failures := scenario_ids_where (λ r, ar_critical r && negb (outcome_as_expected r)) results
  |}.
Definition SEVERITY_ORDER (s : Severity) : Z :=
  match s with Severity.CRITICAL => 0 | Severity.HIGH => 1 | Severity.MEDIUM => 2 | Severity.LOW => 3 end.

(** ** registry.py

    [_scenarios], a dict in registration order. *)
Section Registry.
Context {E C St : Type}.
Abbreviation Scenario := (AttackScenario E C St).
Definition ScenarioRegistry : Type := list (string * Scenario).
Definition ScenarioRegistry_new : ScenarioRegistry := [].

Definition register (scenario : Scenario) : M ScenarioRegistry LabError Scenario := λ self,
  if is_some (py_dict_get (sc_id scenario) self) then (Raise (DuplicateScenario (sc_id scenario)), self)
  else (Ok scenario, py_dict_set (sc_id scenario) scenario self).
Definition get_scenario (self : ScenarioRegistry) (scenario_id : string) : outcome LabError Scenario :=
  match py_dict_get scenario_id self with
  | None => Raise (UnknownScenario scenario_id)
  | Some scenario => Ok scenario
  end.
Definition has (self : ScenarioRegistry) (scenario_id : string) : bool := is_some (py_dict_get scenario_id self).
Definition list_scenarios (self : ScenarioRegistry) (category : option AttackCategory) (backend : option Backend)
    : list Scenario :=
  let scenarios := map snd self in
  let scenarios := match category with
    | Some c => List.filter (λ s, bool_decide (sc_category s = c)) scenarios | None => scenarios end in
  match backend with
  | Some b => List.filter (λ s, bool_decide (sc_backend s = b)) scenarios | None => scenarios end.
Definition ids (self : ScenarioRegistry) : list string := map fst self.
Definition registry_len (self : ScenarioRegistry) : nat := length self.
End Registry.

(** ** runner.py *)
Definition MAX_ERROR_CHARS : nat := 300.

(** [(end_ns - start_ns) / 1_000_000]. *)
Definition ms (start_ns end_ns : Z) : outcome LabError float :=
  match py_truediv (end_ns - start_ns) 1000000 with
  | Some x => Ok x
  | None => Raise (Raised "OverflowError" (u "integer division result too large for a float"))
  end.

Section Runner.
(** The environment, its clocks, and what context.py builds on the database drivers. *)
Context {E C St Engine : Type}.
Context (pydantic_text : string → ustr) (perf_counter_ns : E → Z * E) (utcnow : E → datetime * E).
Context (make_sqlite_context : M E LabError (C * Engine)) (dispose : Engine → E → E).
Context (make_postgres_engine : M E LabError Engine) (make_postgres_context : Engine → M E LabError C).
Context (postgres_target : ustr).
Abbreviation Scenario := (AttackScenario E C St).

Definition reading {A} (f : E → A * E) : M E LabError A := λ e, let '(a, e') := f e in (Ok a, e').
Definition describe (exc : LabError) : ustr :=
  take MAX_ERROR_CHARS (u (error_type_name exc +:+ ": ") ++ error_str pydantic_text exc).

(** [reason_match] is three-valued. *)
Definition reason_match (expected observed : option string) (status : AttackStatus) : option bool :=
  match expected, observed with
  | Some e, Some o => Some (String.eqb o e)
  | Some _, None =>
      if bool_decide (status ∈ [AttackStatus.BLOCKED; AttackStatus.NOT_BLOCKED]) then Some false else None
  | None, _ => None
  end.
Definition make_result (scenario : Scenario) (run_id : string) (iteration : Z) (started_at : datetime)
    (duration_ms execute_ms : float) (status : AttackStatus) (observation : option Observation)
    (error : option ustr) : outcome LabError AttackResult :=
  let observed_reason := observation ≫= ob_reason_code in
  AttackResult_new {|
    ar_scenario_id := sc_id scenario;
    ar_scenario_name := sc_name scenario;
    ar_category := sc_category scenario;
    ar_severity := sc_severity scenario;
    ar_target_invariants := sc_target_invariants scenario;
    ar_backend := sc_backend scenario;
    ar_run_id := run_id;
    ar_iteration := iteration;
    ar_started_at := started_at;
    ar_duration_ms := duration_ms;
    ar_execute_ms := execute_ms;
    ar_status := status;
    ar_expected_status := sc_expected_status scenario;
    ar_blocked := ob_blocked <$> observation;
    ar_reason_code := observed_reason;
    ar_expected_reason_code := sc_expected_reason_code scenario;
    ar_reason_match := reason_match (sc_expected_reason_code scenario) observed_reason status;
    ar_invariant_preserved := observation ≫= ob_invariant_preserved;
    ar_observed_effects := match observation with Some o => ob_observed_effects o | None => [] end;
    ar_evidence := observation ≫= ob_evidence;
    ar_error := error;
    ar_critical := sc_critical scenario
  |}.

(** [try: ... except Exception as exc], as a value. *)
Definition attempt {A} (m : M E LabError A) : M E LabError (LabError + A) :=
  try_except (inr <$> m) (λ e, mret (inl e)).

Definition run_scenario (scenario : Scenario) (context : C) (run_id : string) (iteration : Z)
    : M E LabError AttackResult :=
  started_at ← reading utcnow;
  total_start ← reading perf_counter_ns;
  prepared ← attempt (sc_setup scenario context);
  match prepared with
  | inl exc =>
      total_end ← reading perf_counter_ns;
      duration ← lift (ms total_start total_end);
      lift (make_result scenario run_id iteration started_at duration fl_zero AttackStatus.INCONCLUSIVE None
              (Some (u "setup failed: " ++ describe exc)))
  | inr state =>
      execute_start ← reading perf_counter_ns;
      measured ← attempt (sc_execute scenario context state);
      execute_end ← reading perf_counter_ns;
      duration ← lift (ms total_start execute_end);
      execute ← lift (ms execute_start execute_end);
      match measured with
      | inl exc =>
          lift (make_result scenario run_id iteration started_at duration execute AttackStatus.ERROR None
                  (Some (u "execute raised: " ++ describe exc)))
      | inr observation =>
          let status := if ob_blocked observation then AttackStatus.BLOCKED else AttackStatus.NOT_BLOCKED in
          lift (make_result scenario run_id iteration started_at duration execute status (Some observation) None)
      end
  end.

Definition unavailable (scenario : Scenario) (run_id : string) (iteration : Z) (detail : ustr)
    : M E LabError AttackResult :=
  now ← reading utcnow;
  lift (make_result scenario run_id iteration now fl_zero fl_zero AttackStatus.INCONCLUSIVE None
          (Some (u (BACKEND_UNAVAILABLE +:+ ": ") ++ detail))).

(** [ScenarioExecutor]: [_pg_engine] and [_pg_error], beside the environment. *)
Record Executor := mkExecutor { ex_env : E; ex_pg_engine : option Engine; ex_pg_error : option ustr }.
Definition env {A} (m : M E LabError A) : M Executor LabError A := λ x,
  let '(o, e) := m (ex_env x) in (o, mkExecutor e (ex_pg_engine x) (ex_pg_error x)).

Definition postgres_engine : M Executor LabError Engine :=
  x ← get;
  match ex_pg_engine x, ex_pg_error x with
  | Some engine, _ => mret engine
  | None, Some error => raise (PostgresUnavailable error)
  | None, None =>
      engine ← try_except (env make_postgres_engine) (λ exc,
        match exc with
        | PostgresUnavailable text =>
            modify (λ x, mkExecutor (ex_env x) (ex_pg_engine x)
                           (Some (if bool_decide (text = []) then postgres_target else text)));;
            raise exc
        | _ => raise exc
        end);
      modify (λ x, mkExecutor (ex_env x) (Some engine) (ex_pg_error x));;
      mret engine
  end.

Definition execute (include_postgres : bool) (scenario : Scenario) (run_id : string) (iteration : Z)
    : M Executor LabError AttackResult :=
  if bool_decide (sc_backend scenario = Backend.POSTGRES) then
    if negb include_postgres then
      env (unavailable scenario run_id iteration (u "PostgreSQL scenarios were excluded from this run"))
    else
      context ← try_except (inr <$> (engine ← postgres_engine; env (make_postgres_context engine))) (λ exc,
        match exc with PostgresUnavailable _ => mret (inl exc) | _ => raise exc end);
      match context with
      | inl exc =>
          env (unavailable scenario run_id iteration
            (u "no PostgreSQL server reachable at " ++ error_str pydantic_text exc
             ++ u ". Start one with `docker compose -f infra/docker-compose.yml up -d` or set PACTRA_TEST_DATABASE_URL"))
      | inr context => env (run_scenario scenario context run_id iteration)
      end
  else
    made ← env make_sqlite_context;
    let '(context, engine) := made in
    result ← try_except (env (run_scenario scenario context run_id iteration))
               (λ exc, env (modify (dispose engine));; raise exc);
    env (modify (dispose engine));;
    mret result.

Definition close : M Executor LabError unit :=
  modify (λ x, match ex_pg_engine x with
               | Some engine => mkExecutor (dispose engine (ex_env x)) None (ex_pg_error x)
               | None => x
               end).

(** [finally: await executor.close()]. *)
Definition closing {A} (m : M Executor LabError A) : M Executor LabError A :=
  a ← try_except m (λ exc, close;; raise exc);
  close;;
  mret a.

Fixpoint execute_all (include_postgres : bool) (scenarios : list Scenario) (run_id : string) (iteration : Z)
    : M Executor LabError (list AttackResult) :=
  match scenarios with
  | [] => mret []
  | scenario :: rest =>
      result ← execute include_postgres scenario run_id iteration;
      results ← execute_all include_postgres rest run_id iteration;
      mret (result :: results)
  end.

(** With a fresh executor, closed whatever happens. *)
Definition fresh_executor {A} (m : M Executor LabError A) : M E LabError A := λ e,
  let '(o, x) := closing m (mkExecutor e None None) in (o, ex_env x).
Context (uuid4 : E → string * E).
Definition new_run_id : M E LabError string := id ← reading uuid4; mret ("attack-run-" +:+ id).
(** [run_id or new_run_id()]. *)
Definition batch_id (run_id : option string) : M E LabError string :=
  match run_id with
  | Some id => if String.eqb id "" then new_run_id else mret id
  | None => new_run_id
  end.
Definition run_once (scenarios : list Scenario) (run_id : option string) (include_postgres : bool)
    : M E LabError (list AttackResult) :=
  id ← batch_id run_id;
  fresh_executor (execute_all include_postgres scenarios id 1).

(** [AttackCategory(name.upper())]. *)
Definition category_named (name : string) : outcome LabError AttackCategory :=
  match List.find (λ c, String.eqb (enum_value c) (py_upper name)) (enum_members : list AttackCategory) with
  | Some c => Ok c
  | None => Raise (Raised "ValueError" (u (py_repr (py_upper name) +:+ " is not a valid AttackCategory")))
  end.
Fixpoint outcome_map {A B} (f : A → outcome LabError B) (l : list A) : outcome LabError (list B) :=
  match l with
  | [] => Ok []
  | a :: l => b ← f a; bs ← outcome_map f l; Ok (b :: bs)
  end.

(** [registry or load_registry()]: a registry has a length, and an empty one is false. *)
Definition resolve_scenarios (loaded : ScenarioRegistry) (registry : option ScenarioRegistry)
    (scenario_ids categories : list string) : outcome LabError (list Scenario) :=
  let reg := match registry with
             | Some r => if (registry_len r =? 0)%nat then loaded else r
             | None => loaded
             end in
  if negb (bool_decide (scenario_ids = [])) then outcome_map (get_scenario reg) scenario_ids
  else if negb (bool_decide (categories = [])) then
    wanted ← outcome_map category_named categories;
    Ok (List.filter (λ s, bool_decide (sc_category s ∈ wanted)) (list_scenarios reg None None))
  else Ok (list_scenarios reg None None).

(** ** evaluation.py *)
Definition SYSTEM_NAME : string := "PACTRA".
Definition HARNESS_VERSION : string := "pactra-attack-lab-v1".

(** One batch: what ran, what happened, and what it measures. *)
Record AttackRunReport := mkAttackRunReport {
  rp_run_id : string;
  rp_system : string;
  rp_harness_version : string;
  rp_iterations : Z;
  rp_scenarios_selected : Z;
  rp_started_at : datetime;
  rp_completed_at : datetime;
  rp_duration_ms : float;
  rp_postgres_included : bool;
  rp_postgres_exercised : bool;
  rp_results : list AttackResult;
  rp_metrics : AttackMetrics;
  rp_findings : list SecurityFinding;
  rp_known_limitations : list KnownLimitation
}.
Definition clean (report : AttackRunReport) : bool :=
  bool_decide (rp_findings report = []) && bool_decide (am_critical_failures (rp_metrics report) = []).

Definition is_bypass (r : AttackResult) : bool := is_malicious r && has_status AttackStatus.NOT_BLOCKED r.
(** [by_scenario.setdefault(result.scenario_id, []).append(result)]. *)
Definition bypasses_by_scenario (results : list AttackResult) : list (string * list AttackResult) :=
  fold_left (λ d r,
    if is_bypass r
    then py_dict_set (ar_scenario_id r) (default [] (py_dict_get (ar_scenario_id r) d) ++ [r]) d else d) results [].

(** [scenario_id.upper().replace('_', '-')]. *)
Definition finding_id (scenario_id : string) : string :=
  "PACTRA-ATTACK-" +:+ str_map (λ a, if Ascii.eqb a "_" then "-"%char else a) (py_upper scenario_id).
Definition str_or_None (s : option string) : string := default "None" s.
Definition finding_of (scenario_id : string) (first : AttackResult) (runs : list AttackResult) : SecurityFinding := {|
  sf_id := finding_id scenario_id;
  sf_scenario_id := scenario_id;
  sf_severity := ar_severity first;
  sf_category := ar_category first;
  sf_invariants := ar_target_invariants first;
  sf_description :=
    ar_scenario_name first +:+ " was NOT blocked. Expected " +:+ enum_value (ar_expected_status first)
    +:+ ", observed " +:+ enum_value (ar_status first)
    +:+ match ar_expected_reason_code first with
        | Some code =>
            if String.eqb code "" then ""
            else " (expected reason code " +:+ code +:+ ", observed " +:+ str_or_None (ar_reason_code first) +:+ ")"
        | None => ""
        end
    +:+ ".";
  sf_reproduction :=
    "python -m services.attack_lab.run --scenario " +:+ scenario_id
    +:+ (if bool_decide (ar_backend first = Backend.POSTGRES) then " --include-postgres" else " --sqlite-only");
  sf_observed_effect := ar_observed_effects first;
  sf_status := FindingStatus.OPEN;
  sf_occurrences := Z.of_nat (length runs)
|}.

(** The key [(SEVERITY_ORDER[f.severity], f.scenario_id)]. *)
Definition finding_leb (a b : SecurityFinding) : bool :=
  let x := SEVERITY_ORDER (sf_severity a) in
  let y := SEVERITY_ORDER (sf_severity b) in
  (x <? y) || ((x =? y) && String.leb (sf_scenario_id a) (sf_scenario_id b)).
Definition derive_findings (results : list AttackResult) : list SecurityFinding :=
  py_sorted finding_leb
    (omap (λ '(scenario_id, runs), match runs with first :: _ => Some (finding_of scenario_id first runs) | [] => None end)
       (bypasses_by_scenario results)).

(** [(b - a).total_seconds() * 1000]: microseconds divided by a million. *)
Definition total_ms (a b : datetime) : outcome LabError float :=
  match py_truediv (dt_instant b - dt_instant a) 1000000 with
  | Some s => Ok (fl_mul s (fl_of_Z 1000))
  | None => Raise (Raised "OverflowError" (u "integer division result too large for a float"))
  end.

(** [for iteration in range(first, first + n)]. *)
Fixpoint iterate (include_postgres : bool) (scenarios : list Scenario) (run_id : string) (first : Z) (n : nat)
    : M Executor LabError (list AttackResult) :=
  match n with
  | O => mret []
  | S n =>
      results ← execute_all include_postgres scenarios run_id first;
      more ← iterate include_postgres scenarios run_id (first + 1) n;
      mret (results ++ more)
  end.

Definition make_report (run_id : string) (iterations selected : Z) (started_at completed_at : datetime)
    (include_postgres : bool) (results : list AttackResult)
    : outcome LabError AttackRunReport :=
  duration ← total_ms started_at completed_at;
  metrics ← compute_metrics results iterations;
  if negb (fl_leb fl_zero duration) then Raise (InvalidModel "duration_ms")
  else Ok {|
    rp_run_id := run_id;
    rp_system := SYSTEM_NAME;
    rp_harness_version := HARNESS_VERSION;
    rp_iterations := iterations;
    rp_scenarios_selected := selected;
    rp_started_at := started_at;
    rp_completed_at := completed_at;
    rp_duration_ms := duration;
    rp_postgres_included := include_postgres;
    rp_postgres_exercised :=
      existsb (λ r, bool_decide (ar_backend r = Backend.POSTGRES) && is_decisive r) results;
    rp_results := results;
    rp_metrics := metrics;
    rp_findings := derive_findings results;
    rp_known_limitations := KNOWN_LIMITATIONS
  |}.

Definition evaluate (loaded : ScenarioRegistry) (registry : option ScenarioRegistry) (scenario_ids categories : list string) (iterations : Z)
    (include_postgres : bool) (run_id : option string) : M E LabError AttackRunReport :=
  if iterations <? 1 then raise (Raised "ValueError" (u "iterations must be at least 1"))
  else
    scenarios ← lift (resolve_scenarios loaded registry scenario_ids categories);
    id ← batch_id run_id;
    started_at ← reading utcnow;
    results ← fresh_executor (iterate include_postgres scenarios id 1 (Z.to_nat iterations));
    completed_at ← reading utcnow;
    lift (make_report id iterations (Z.of_nat (length scenarios)) started_at completed_at include_postgres
            results).
End Runner.
