(* ===== verification/AttackLabProperties.v ===== *)
(** * Properties of the attack lab

    A run that proved nothing is never a verdict, moves no rate and is not lost; every
    selected scenario runs in every iteration; a finding is a bypass that was observed,
    and every bypass is a finding. *)
From S2P Require Import Prelude Python PyFloat PyNumbers PyText Rounding Json Enums Transaction AttackLab.

(** ** Counting *)
Lemma count_filter {A} (p q : A → bool) l : count p (List.filter q l) = count (λ x, q x && p x) l.
Proof.
  unfold count. f_equal. induction l as [|x l IH]; cbn; [done|]. destruct (q x); cbn; [|done].
  by destruct (p x); cbn; rewrite IH.
Qed.
Lemma count_nonneg {A} (p : A → bool) l : 0 <= count p l <= Z.of_nat (length l).
Proof. unfold count. pose proof (List.filter_length_le p l). lia. Qed.
Lemma count_cons {A} (p : A → bool) x l : count p (x :: l) = (if p x then 1 else 0) + count p l.
Proof. unfold count. cbn. destruct (p x); cbn; lia. Qed.
Lemma filter_filter_bool {A} (p q : A → bool) l :
  List.filter p (List.filter q l) = List.filter q (List.filter p l).
Proof. induction l as [|x l IH]; [done|]. cbn. destruct (p x) eqn:Ep, (q x) eqn:Eq; cbn; rewrite ?Ep, ?Eq, ?IH; done. Qed.
Lemma filter_idemp {A} (p : A → bool) l : List.filter p (List.filter p l) = List.filter p l.
Proof. induction l as [|x l IH]; [done|]. cbn. destruct (p x) eqn:E; cbn; rewrite ?E, ?IH; done. Qed.
Lemma filter_true_in {A} (p : A → bool) l : (∀ x, x ∈ l → p x = true) → List.filter p l = l.
Proof.
  induction l as [|x l IH]; [done|]. intros Hp. cbn. rewrite (Hp x) by by left. f_equal. apply IH. intros y Hy. apply Hp. by right.
Qed.
Lemma elem_of_filter_bool {A} (p : A → bool) l x : x ∈ List.filter p l ↔ x ∈ l ∧ p x = true.
Proof. rewrite !list_elem_of_In. apply filter_In. Qed.

(** A decisive run is exactly one of the two verdicts. *)
Lemma decisive_verdict r : is_decisive r = has_status AttackStatus.BLOCKED r || has_status AttackStatus.NOT_BLOCKED r.
Proof. unfold is_decisive, has_status. destruct (ar_status r); reflexivity. Qed.
Lemma verdicts_exclusive r : has_status AttackStatus.BLOCKED r && has_status AttackStatus.NOT_BLOCKED r = false.
Proof. unfold has_status. destruct (ar_status r); reflexivity. Qed.
Lemma verdicts_add_up l : (∀ r, r ∈ l → is_decisive r = true) →
  count (has_status AttackStatus.BLOCKED) l + count (has_status AttackStatus.NOT_BLOCKED) l = Z.of_nat (length l).
Proof.
  induction l as [|r l IH]; intros Hl; [done|]. rewrite !count_cons. cbn [length].
  specialize (Hl r) as Hr. rewrite decisive_verdict in Hr. pose proof (verdicts_exclusive r) as Hx.
  assert (IH' := IH (λ x Hx, Hl x (list_elem_of_further _ _ _ Hx))).
  destruct (has_status AttackStatus.BLOCKED r), (has_status AttackStatus.NOT_BLOCKED r);
    cbn in *; try done; try lia. by specialize (Hr ltac:(by left)).
Qed.
Lemma statuses_add_up l :
  count (has_status AttackStatus.BLOCKED) l + count (has_status AttackStatus.NOT_BLOCKED) l
  + count (has_status AttackStatus.ERROR) l + count (has_status AttackStatus.INCONCLUSIVE) l = Z.of_nat (length l).
Proof.
  induction l as [|r l IH]; [done|]. rewrite !count_cons. cbn [length].
  assert (E : (if has_status AttackStatus.BLOCKED r then 1 else 0) + (if has_status AttackStatus.NOT_BLOCKED r then 1 else 0)
    + (if has_status AttackStatus.ERROR r then 1 else 0) + (if has_status AttackStatus.INCONCLUSIVE r then 1 else 0) = 1)
    by (unfold has_status; by destruct (ar_status r)).
  lia.
Qed.
Lemma verdict_decisive s l : s = AttackStatus.BLOCKED ∨ s = AttackStatus.NOT_BLOCKED →
  List.filter (has_status s) (List.filter is_decisive l) = List.filter (has_status s) l.
Proof.
  intros Hs. rewrite filter_filter_bool. apply filter_true_in. intros r [_ Hr]%elem_of_filter_bool.
  rewrite decisive_verdict. destruct Hs as [-> | ->]; by rewrite Hr, ?orb_true_r.
Qed.

(** ** A run of no verdict moves no rate *)
Definition proven (l : list AttackResult) : list AttackResult := List.filter is_decisive l.

Lemma fold_skip {A B} (p : A → bool) (f : B → A → B) l b :
  (∀ b x, p x = false → f b x = b) → fold_left f (List.filter p l) b = fold_left f l b.
Proof.
  intros Hf. revert b. induction l as [|x l IH]; intros b; [done|]. cbn. destruct (p x) eqn:E; cbn; [apply IH|].
  by rewrite (Hf b x E), IH.
Qed.
Lemma replay_proven l : replay_counts (proven l) = replay_counts l.
Proof.
  apply fold_skip. intros [a s] r E. unfold replay_attempt. by rewrite E, andb_false_r.
Qed.
Lemma duplicate_proven l : duplicate_payment_counts (proven l) = duplicate_payment_counts l.
Proof.
  apply fold_skip. intros [a s] r E. unfold duplicate_attempt. by rewrite E, andb_false_r.
Qed.
Lemma latency_proven l : latency (proven l) = latency l.
Proof. unfold latency, proven. by rewrite filter_idemp. Qed.
Lemma category_decisive (p : AttackResult → bool) l :
  List.filter is_decisive (List.filter p (proven l)) = List.filter is_decisive (List.filter p l).
Proof. unfold proven. by rewrite (filter_filter_bool p is_decisive), filter_idemp. Qed.

(** A result made by the runner carries an invariant or a reason match only if it is
    decisive. *)
Definition measured (r : AttackResult) : Prop :=
  is_decisive r = false → ar_invariant_preserved r = None ∧ ar_reason_match r = None.
Lemma measured_proven (f : AttackResult → option bool) l :
  (∀ r, r ∈ l → is_decisive r = false → f r = None) →
  List.filter (λ r, is_some (f r)) (proven l) = List.filter (λ r, is_some (f r)) l.
Proof.
  intros Hf. unfold proven. rewrite filter_filter_bool. apply filter_true_in.
  intros r [Hr Hs]%elem_of_filter_bool. destruct (is_decisive r) eqn:E; [done|]. by rewrite (Hf r Hr E) in Hs.
Qed.

(** The rates, their denominators and the latencies. *)
Definition rates (m : AttackMetrics) : list (option float) * list Z * LatencyMetrics :=
  ([am_attack_block_rate m; am_attack_success_rate m; am_invariant_preservation_rate m;
    am_replay_attack_success_rate m; am_duplicate_payment_rate m; am_false_positive_rate m;
    am_false_negative_rate m; am_reason_match_rate m],
   [am_valid_attack_runs m; am_valid_control_runs m; am_invariant_checked_runs m; am_replay_attempts m;
    am_duplicate_payment_attempts m; am_reason_code_checked_runs m], am_latency m).


(** ** Counts account for every run *)
Lemma categories_add_up l :
  count is_malicious l + count (λ r, bool_decide (ar_category r = AttackCategory.BENIGN_CONTROL)) l
  + count (λ r, bool_decide (ar_category r = AttackCategory.KNOWN_LIMITATION)) l = Z.of_nat (length l).
Proof.
  induction l as [|r l IH]; [done|]. rewrite !count_cons. cbn [length].
  assert (E : (if is_malicious r then 1 else 0)
    + (if bool_decide (ar_category r = AttackCategory.BENIGN_CONTROL) then 1 else 0)
    + (if bool_decide (ar_category r = AttackCategory.KNOWN_LIMITATION) then 1 else 0) = 1)
    by (unfold is_malicious; by destruct (ar_category r)).
  lia.
Qed.
Theorem every_run_is_counted (l : list AttackResult) (n : Z) (m : AttackMetrics) :
  compute_metrics l n = Ok m →
  am_attacks_blocked m + am_attacks_not_blocked m = am_valid_attack_runs m ∧
  am_controls_blocked m + am_controls_allowed m = am_valid_control_runs m ∧
  am_attack_runs m + am_control_runs m + am_known_limitation_runs m = am_total_runs m ∧
  am_errors m + am_inconclusive m + count is_decisive l = am_total_runs m ∧
  am_false_negative_rate m = am_attack_success_rate m.
Proof.
  unfold compute_metrics. intros E.
  destruct (replay_counts l) as [ra rs], (duplicate_payment_counts l) as [da ds].
  apply outcome_bind_Ok in E as (lat & _ & E). destruct (n <? 1); [done|]. injection E as <-.
  cbn [am_attacks_blocked am_attacks_not_blocked am_valid_attack_runs am_controls_blocked am_controls_allowed
       am_valid_control_runs am_attack_runs am_control_runs am_known_limitation_runs am_total_runs am_errors
       am_inconclusive am_false_negative_rate am_attack_success_rate].
  split; [apply verdicts_add_up; by intros r [_ Hr]%elem_of_filter_bool|].
  split; [apply verdicts_add_up; by intros r [_ Hr]%elem_of_filter_bool|]. split; [|split; [|done]].
  - apply categories_add_up.
  - induction l as [|r l IH]; [done|]. rewrite !count_cons. cbn [length].
    assert (Er : (if has_status AttackStatus.ERROR r then 1 else 0) + (if has_status AttackStatus.INCONCLUSIVE r then 1 else 0)
      + (if is_decisive r then 1 else 0) = 1) by (unfold has_status, is_decisive; by destruct (ar_status r)).
    lia.
Qed.

(** ** A dict of lists *)
Section Dict.
Context {V : Type}.
Implicit Types d : list (string * V).
Lemma dict_get_set k k' v d : py_dict_get k (py_dict_set k' v d) = if String.eqb k k' then Some v else py_dict_get k d.
Proof.
  induction d as [|[k2 v2] d IH]; cbn; [by destruct (String.eqb k k')|].
  destruct (String.eqb_spec k' k2) as [->|Hne]; cbn.
  - by destruct (String.eqb k k2).
  - rewrite IH. destruct (String.eqb_spec k k2) as [->|]; [|done]. by destruct (String.eqb_spec k2 k').
Qed.
Lemma dict_keys_set k v d : map fst (py_dict_set k v d) = if is_some (py_dict_get k d) then map fst d else map fst d ++ [k].
Proof.
  induction d as [|[k2 v2] d IH]; cbn; [done|]. destruct (String.eqb_spec k k2) as [->|Hne]; cbn; [done|].
  rewrite IH. by destruct (is_some _).
Qed.
Lemma dict_NoDup_set k v d : NoDup (map fst d) → NoDup (map fst (py_dict_set k v d)).
Proof.
  intros Hd. rewrite dict_keys_set. destruct (py_dict_get k d) eqn:E; cbn; [done|].
  apply NoDup_app. split; [done|]. split; [|by apply NoDup_singleton].
  intros x Hx ->%list_elem_of_singleton. by apply py_dict_get_not_elem in E.
Qed.
Lemma dict_get_in k v d : NoDup (map fst d) → (k, v) ∈ d ↔ py_dict_get k d = Some v.
Proof.
  induction d as [|[k2 v2] d IH]; cbn; [split; [by intros ?%not_elem_of_nil|done]|].
  intros [Hk Hd]%NoDup_cons. rewrite elem_of_cons. destruct (String.eqb_spec k k2) as [->|Hne].
  - split; [intros [[= ->]|Hin]; [done|]|intros [= ->]; by left]. destruct Hk. apply list_elem_of_fmap. by exists (k2, v).
  - rewrite <-IH by done. split; [intros [[= -> _]|]; done|by right].
Qed.
End Dict.

(** ** Findings *)

(** The bypasses observed of one scenario, in order. *)
Definition bypasses_of (scenario_id : string) (l : list AttackResult) : list AttackResult :=
  List.filter (λ r, is_bypass r && String.eqb scenario_id (ar_scenario_id r)) l.

Lemma bypasses_by_scenario_spec l :
  NoDup (map fst (bypasses_by_scenario l)) ∧
  ∀ id, py_dict_get id (bypasses_by_scenario l) =
    match bypasses_of id l with [] => None | runs => Some runs end.
Proof.
  induction l as [|r l [Hd Hg]] using rev_ind; [split; [constructor|done]|].
  assert (E : bypasses_by_scenario (l ++ [r]) =
    if is_bypass r then py_dict_set (ar_scenario_id r)
      (default [] (py_dict_get (ar_scenario_id r) (bypasses_by_scenario l)) ++ [r]) (bypasses_by_scenario l)
    else bypasses_by_scenario l) by (unfold bypasses_by_scenario; by rewrite fold_left_app).
  rewrite E. unfold bypasses_of in *. split.
  - destruct (is_bypass r); [by apply dict_NoDup_set|done].
  - intros id. rewrite List.filter_app. cbn. destruct (is_bypass r); cbn; [|by rewrite app_nil_r].
    rewrite dict_get_set. destruct (String.eqb_spec id (ar_scenario_id r)) as [->|]; [|by rewrite app_nil_r].
    rewrite Hg. by destruct (List.filter _ l).
Qed.

Lemma finding_leb_total a b : finding_leb a b = true ∨ finding_leb b a = true.
Proof.
  unfold finding_leb. destruct (Z.ltb_spec (SEVERITY_ORDER (sf_severity a)) (SEVERITY_ORDER (sf_severity b))); [by left|].
  destruct (Z.ltb_spec (SEVERITY_ORDER (sf_severity b)) (SEVERITY_ORDER (sf_severity a))); [by right|].
  rewrite (proj2 (Z.eqb_eq (SEVERITY_ORDER (sf_severity a)) _)) by lia.
  rewrite (proj2 (Z.eqb_eq (SEVERITY_ORDER (sf_severity b)) _)) by lia. cbn.
  destruct (String.leb_total (sf_scenario_id a) (sf_scenario_id b)) as [Hl|Hl]; unfold Bool.Is_true in Hl; auto.
Qed.

(** A finding for exactly the hostile scenarios that came back NOT_BLOCKED, one each,
    made of the first such run and counting them all; the gravest first. *)
Theorem findings_are_bypasses (l : list AttackResult) :
  NoDup (map sf_scenario_id (derive_findings l)) ∧
  Sorted (λ a b, finding_leb a b = true) (derive_findings l) ∧
  ∀ f, f ∈ derive_findings l ↔
    ∃ first rest, bypasses_of (sf_scenario_id f) l = first :: rest ∧
      f = finding_of (sf_scenario_id f) first (first :: rest).
Proof.
  destruct (bypasses_by_scenario_spec l) as [Hd Hg]. unfold derive_findings.
  set (d := bypasses_by_scenario l) in *.
  set (g := λ '(scenario_id, runs), match runs with first :: _ => Some (finding_of scenario_id first runs) | [] => None end).
  split; [|split; [apply py_sorted_Sorted, finding_leb_total|]].
  - rewrite py_sorted_Permutation. clear Hg. induction d as [|[k [|r runs]] d IH]; cbn in *; [constructor| |].
    + apply IH. by apply NoDup_cons in Hd as [_ Hd].
    + apply NoDup_cons in Hd as [Hk Hd]. apply NoDup_cons. split; [|by apply IH].
      intros (f & Ef & ([k' runs'] & Hin & Eg)%list_elem_of_omap)%list_elem_of_fmap. destruct Hk.
      destruct runs'; [done|]. injection Eg as <-. cbn in Ef. subst. apply list_elem_of_fmap. by eexists (_, _).
  - intros f. rewrite py_sorted_Permutation, list_elem_of_omap. split.
    + intros ([k runs] & Hin & Eg). apply (dict_get_in _ _ _ Hd) in Hin. rewrite Hg in Hin. cbn in Eg.
      destruct runs as [|first rest]; [done|]. injection Eg as <-. exists first, rest. cbn.
      destruct (bypasses_of k l); [done|]. by injection Hin as -> ->.
    + intros (first & rest & E & Ef). exists (sf_scenario_id f, first :: rest).
      split; [apply (dict_get_in _ _ _ Hd); by rewrite Hg, E|]. cbn. by rewrite <-Ef.
Qed.

(** A bypass and a crash of the same attack. *)
Definition demo_result (s : AttackStatus) (b : option bool) : AttackResult :=
  mkAttackResult "authorization_replay" "Authorization replay" AttackCategory.TRANSACTION Severity.HIGH
    ["an authorization is consumed once"] Backend.SQLITE "attack-run-1" 1 (utc 0) fl_one fl_one s AttackStatus.BLOCKED b
    None None None None [] None None false.
Example a_crash_hides_no_bypass :
  map (λ f, (sf_id f, sf_occurrences f))
    (derive_findings [demo_result AttackStatus.ERROR None; demo_result AttackStatus.NOT_BLOCKED (Some false)])
  = [("PACTRA-ATTACK-AUTHORIZATION-REPLAY", 1)].
Proof. reflexivity. Qed.
