(* ===== verification/AttackRunProperties.v ===== *)
(** * Runs and batches of the attack lab

    What one run becomes, that a batch runs everything it selected, and when its report
    is clean. *)
From S2P Require Import Prelude Python PyFloat PyNumbers PyText Rounding Json Enums Transaction AttackLab AttackLabProperties.

(** ** One run *)
Section Run.
Context {E C St : Type}.
Context (pydantic_text : string → ustr) (perf_counter_ns : E → Z * E) (utcnow : E → datetime * E).
Abbreviation run := (run_scenario pydantic_text perf_counter_ns utcnow).
Implicit Types s : AttackScenario E C St.

(** A result that bears no verdict, and nothing a rate could count. *)
Definition no_verdict (s : AttackStatus) (error : ustr) (r : AttackResult) : Prop :=
  ar_status r = s ∧ is_decisive r = false ∧ ar_blocked r = None ∧ ar_invariant_preserved r = None ∧
  ar_reason_match r = None ∧ ar_observed_effects r = [] ∧ ar_error r = Some error.
(** A result that says what was observed. *)
Definition verdict (expected : option string) (o : Observation) (r : AttackResult) : Prop :=
  ar_status r = (if ob_blocked o then AttackStatus.BLOCKED else AttackStatus.NOT_BLOCKED) ∧
  is_decisive r = true ∧ ar_blocked r = Some (ob_blocked o) ∧
  ar_invariant_preserved r = ob_invariant_preserved o ∧ ar_observed_effects r = ob_observed_effects o ∧
  ar_reason_match r = match expected with
                      | None => None
                      | Some e => Some (match ob_reason_code o with Some c => String.eqb c e | None => false end)
                      end ∧
  ar_error r = None.

(** What a result says of its scenario and its batch. *)
Definition result_for (s : AttackScenario E C St) (run_id : string) (iteration : Z) (r : AttackResult) : Prop :=
  ar_scenario_id r = sc_id s ∧ ar_category r = sc_category s ∧ ar_severity r = sc_severity s ∧
  ar_expected_status r = sc_expected_status s ∧ ar_critical r = sc_critical s ∧
  ar_run_id r = run_id ∧ ar_iteration r = iteration ∧ measured r.

Lemma AttackResult_new_Ok r x : AttackResult_new r = Ok x → x = r.
Proof. unfold AttackResult_new. destruct (_ <? _); [done|]. destruct (negb _); [done|]. destruct (negb _); [done|]. by intros [= ->]. Qed.
Lemma AttackResult_new_valid r : 1 <= ar_iteration r → fl_leb fl_zero (ar_duration_ms r) = true →
  fl_leb fl_zero (ar_execute_ms r) = true → AttackResult_new r = Ok r.
Proof. intros Hi Hd He. unfold AttackResult_new. rewrite Hd, He. by rewrite (proj2 (Z.ltb_ge _ _) Hi). Qed.

Lemma make_result_for (s : AttackScenario E C St) id i at_ d x st o err r :
  make_result s id i at_ d x st o err = Ok r →
  (is_some o = bool_decide (st ∈ [AttackStatus.BLOCKED; AttackStatus.NOT_BLOCKED])) →
  result_for s id i r.
Proof.
  unfold make_result. intros ->%AttackResult_new_Ok Ho. repeat (split; [reflexivity|]).
  unfold measured, is_decisive. cbn. rewrite <-Ho. destruct o as [o|]; [done|]. intros _. split; [done|].
  unfold reason_match. cbn. destruct (sc_expected_reason_code s); [|done]. cbn in Ho. by rewrite <-Ho.
Qed.
Lemma make_unproven (s : AttackScenario E C St) id i at_ d x st err r :
  st = AttackStatus.INCONCLUSIVE ∨ st = AttackStatus.ERROR →
  make_result s id i at_ d x st None (Some err) = Ok r → no_verdict st err r.
Proof.
  unfold make_result. intros Hs ->%AttackResult_new_Ok. unfold no_verdict, is_decisive. cbn.
  unfold reason_match. destruct Hs as [-> | ->], (sc_expected_reason_code s); by repeat split.
Qed.
Lemma make_verdict (s : AttackScenario E C St) id i at_ d x o r :
  make_result s id i at_ d x (if ob_blocked o then AttackStatus.BLOCKED else AttackStatus.NOT_BLOCKED) (Some o) None = Ok r →
  verdict (sc_expected_reason_code s) o r.
Proof.
  unfold make_result. intros ->%AttackResult_new_Ok. unfold verdict, is_decisive. cbn.
  unfold reason_match. destruct (ob_blocked o), (sc_expected_reason_code s), (ob_reason_code o); by repeat split.
Qed.

(** A clock that does not run backwards while a scenario acts, and a run of less than
    2^53 milliseconds. *)
Context (later : E → E → Prop) `{!PreOrder later}.
Record monotone_clock : Prop := {
  mc_now e : later e (snd (utcnow e));
  mc_perf e : later e (snd (perf_counter_ns e));
  mc_elapsed e e' : later e e' → 0 <= fst (perf_counter_ns e') - fst (perf_counter_ns e) <= 1000000 * 2 ^ 53
}.

Definition two_53 : float := fl_of_Z (2 ^ 53).
Lemma two_53_spec : nonneg_finite two_53 ∧ fx two_53 = 2 ^ 53 * unit.
Proof. split; [by apply nonneg_finiteb_spec|]. with_strategy transparent [unit] vm_compute. reflexivity. Qed.
Lemma ms_spec a b : 0 <= b - a <= 1000000 * 2 ^ 53 → ∃ x, ms a b = Ok x ∧ fl_leb fl_zero x = true.
Proof.
  intros Hab. destruct two_53_spec as [Hf Hx]. unfold ms.
  destruct (truediv_within (b - a) 1000000 two_53) as (x & -> & Hn & _); [lia|done|done|rewrite Hx; pose proof unit_pos; nia|].
  exists x. split; [done|]. destruct nonneg_zero as [[Hz _] Hz0]. rewrite leb_fx by (done || apply Hn).
  apply Z.leb_le. pose proof (fx_range x (proj1 Hn)). lia.
Qed.

Definition setup_at (e : E) : E := snd (perf_counter_ns (snd (utcnow e))).
(** [s.execute]'s start, once [setup] left [e]. *)
Definition execute_at (e : E) : E := snd (perf_counter_ns e).

Lemma run_result s c id it e r e' : run s c id it e = (Ok r, e') → result_for s id it r.
Proof.
  revert e r e'. change (yields (result_for s id it) (run s c id it)). unfold run_scenario.
  do 3 (eapply yields_bind; [apply yields_any|intros ? _]). destruct a1 as [exc|st].
  - do 2 (eapply yields_bind; [apply yields_any|intros ? _]). apply yields_lift. intros r Hr. by eapply make_result_for.
  - do 5 (eapply yields_bind; [apply yields_any|intros ? _]). destruct a2 as [exc|o]; apply yields_lift; intros r Hr;
      (eapply make_result_for; [exact Hr|]); [done|]. by destruct (ob_blocked o).
Qed.

Lemma run_scenario_cases s c id it e r e' : run s c id it e = (Ok r, e') →
  match sc_setup s c (setup_at e) with
  | (Raise exc, _) => no_verdict AttackStatus.INCONCLUSIVE (u "setup failed: " ++ describe pydantic_text exc) r
  | (Ok st, e2) =>
      match sc_execute s c st (execute_at e2) with
      | (Raise exc, _) => no_verdict AttackStatus.ERROR (u "execute raised: " ++ describe pydantic_text exc) r
      | (Ok o, _) => verdict (sc_expected_reason_code s) o r
      end
  end.
Proof.
  unfold run_scenario, reading, setup_at, execute_at. unfold mbind, M_bind.
  destruct (utcnow e) as [at_ e0]. cbn [snd]. destruct (perf_counter_ns e0) as [t0 e1]. cbn [snd].
  unfold attempt, try_except, fmap, M_fmap. destruct (sc_setup s c e1) as [[st|exc] e2]; cbn [mret M_ret].
  - destruct (perf_counter_ns e2) as [t1 e3]. cbn [snd].
    destruct (sc_execute s c st e3) as [[o|exc] e4]; cbn [mret M_ret]; destruct (perf_counter_ns e4) as [t2 e5]; unfold lift;
      destruct (ms t0 t2); [|done| |done]; (destruct (ms t1 t2); [|done]); intros [= Hr _].
    + by eapply make_verdict.
    + eapply make_unproven; [|exact Hr]. by right.
  - destruct (perf_counter_ns e2) as [t1 e3]. unfold lift. destruct (ms t0 t1); [|done]. intros [= Hr _].
    eapply make_unproven; [|exact Hr]. by left.
Qed.

Lemma run_scenario_returns s c id it e : monotone_clock → 1 <= it →
  evolves later (sc_setup s c) → (∀ st, evolves later (sc_execute s c st)) →
  ∃ r e', run s c id it e = (Ok r, e').
Proof.
  intros [Hnow Hperf Hel] Hit Hsetup Hexec. unfold run_scenario, reading. unfold mbind, M_bind.
  destruct (utcnow e) as [at_ e0]. pose proof (Hperf e0) as H0. pose proof (Hel e0) as L0.
  destruct (perf_counter_ns e0) as [t0 e1]. cbn [fst snd] in *. unfold attempt, try_except, fmap, M_fmap.
  pose proof (Hsetup e1) as H1. destruct (sc_setup s c e1) as [[st|exc] e2]; cbn [mret M_ret snd] in *.
  - pose proof (Hperf e2) as H2. pose proof (Hel e2) as L2. destruct (perf_counter_ns e2) as [t1 e3]. cbn [fst snd] in *.
    pose proof (Hexec st e3) as H3. unfold make_result.
    destruct (sc_execute s c st e3) as [[o|exc] e4]; cbn [mret M_ret snd] in *;
      assert (L04 : later e0 e4) by (etrans; [exact H0|]; etrans; [exact H1|]; etrans; [exact H2|exact H3]);
      assert (L24 : later e2 e4) by (etrans; [exact H2|exact H3]);
      specialize (L0 e4 L04); specialize (L2 e4 L24); destruct (perf_counter_ns e4) as [t2 e5]; cbn [fst] in *;
      destruct (ms_spec t0 t2 L0) as (d & Ed & Hd), (ms_spec t1 t2 L2) as (x & Ex & Hx); unfold lift; rewrite Ed, Ex;
      rewrite AttackResult_new_valid by done; by eexists _, _.
  - specialize (L0 e2 (transitivity H0 H1)). destruct (perf_counter_ns e2) as [t1 e3]. cbn [fst] in *.
    destruct (ms_spec t0 t1 L0) as (d & Ed & Hd). unfold lift. rewrite Ed. unfold make_result.
    rewrite AttackResult_new_valid by done. by eexists _, _.
Qed.
End Run.

(** ** A batch *)
Lemma yields_env {E Engine A} (Q : A → Prop) (m : M E LabError A) : yields Q m → yields Q (env (Engine:=Engine) m).
Proof.
  intros Hm x a x' Ex. unfold env in Ex. destruct (m (ex_env x)) as [o e'] eqn:Em. injection Ex as -> _. by eapply Hm.
Qed.

Lemma scenario_ids_where_nil p l : scenario_ids_where p l = [] ↔ ∀ r, r ∈ l → p r = false.
Proof.
  unfold scenario_ids_where. split.
  - intros El r Hr. destruct (p r) eqn:Ep; [|done].
    assert (Hin : ar_scenario_id r ∈ py_sorted String.leb (remove_dups (map ar_scenario_id (List.filter p l)))).
    { rewrite py_sorted_Permutation, elem_of_remove_dups. apply list_elem_of_fmap. exists r.
      split; [done|]. by apply elem_of_filter_bool. }
    rewrite El in Hin. by apply not_elem_of_nil in Hin.
  - intros Hl. replace (List.filter p l) with (@nil AttackResult); [done|]. induction l as [|r l IH]; [done|]. cbn.
    rewrite (Hl r) by by left. apply IH. intros x Hx. apply Hl. by right.
Qed.
Lemma no_findings l : derive_findings l = [] ↔ ∀ r, r ∈ l → is_bypass r = false.
Proof.
  destruct (findings_are_bypasses l) as (_ & _ & Hf). split.
  - intros El r Hr. destruct (is_bypass r) eqn:Eb; [|done].
    assert (Hin : r ∈ bypasses_of (ar_scenario_id r) l).
    { apply elem_of_filter_bool. split; [done|]. by rewrite Eb, String.eqb_refl. }
    destruct (bypasses_of (ar_scenario_id r) l) as [|first rest] eqn:Er; [by apply not_elem_of_nil in Hin|].
    assert (Hd : finding_of (ar_scenario_id r) first (first :: rest) ∈ derive_findings l) by (apply Hf; by exists first, rest).
    rewrite El in Hd. by apply not_elem_of_nil in Hd.
  - intros Hl. destruct (derive_findings l) as [|f fs] eqn:El; [done|].
    destruct (proj1 (Hf f) ltac:(left)) as (first & rest & Er & _).
    assert (Hin : first ∈ bypasses_of (sf_scenario_id f) l) by (rewrite Er; by left).
    apply elem_of_filter_bool in Hin as [Hin [Hb _]%andb_true_iff]. by rewrite Hl in Hb.
Qed.

Section Batch.
Context {E C St Engine : Type}.
Context (pydantic_text : string → ustr) (perf_counter_ns : E → Z * E) (utcnow : E → datetime * E).
Context (make_sqlite_context : M E LabError (C * Engine)) (dispose : Engine → E → E).
Context (make_postgres_engine : M E LabError Engine) (make_postgres_context : Engine → M E LabError C).
Context (postgres_target : ustr) (uuid4 : E → string * E).
Implicit Types s : AttackScenario E C St.

Abbreviation execute' := (execute pydantic_text perf_counter_ns utcnow make_sqlite_context dispose make_postgres_engine
  make_postgres_context postgres_target).
Lemma yields_run s c id it : yields (result_for s id it) (run_scenario pydantic_text perf_counter_ns utcnow s c id it).
Proof. intros e r e'. apply run_result. Qed.
Lemma yields_unavailable s id it d : yields (result_for s id it) (unavailable utcnow s id it d).
Proof.
  unfold unavailable. eapply yields_bind; [apply yields_any|intros ? _]. apply yields_lift. intros r Hr.
  by eapply make_result_for.
Qed.
Lemma yields_execute ip s id it : yields (result_for s id it) (execute' ip s id it).
Proof.
  unfold execute. case_bool_decide as Hb; [destruct ip; cbn [negb]|].
  - eapply yields_bind; [apply yields_any|intros [exc|c] _]; apply yields_env; [apply yields_unavailable|apply yields_run].
  - apply yields_env, yields_unavailable.
  - eapply yields_bind; [apply yields_any|intros [c engine] _].
    apply (yields_bind (result_for s id it)).
    + apply yields_try; [apply yields_env, yields_run|]. intros exc.
      eapply yields_bind; [apply yields_any|intros ? _]. apply yields_raise.
    + intros r Hr. eapply yields_bind; [apply yields_any|intros ? _]. by apply yields_ret.
Qed.
Lemma yields_execute_all ip l id it :
  yields (Forall2 (λ s r, result_for s id it r) l)
    (execute_all pydantic_text perf_counter_ns utcnow make_sqlite_context dispose make_postgres_engine
       make_postgres_context postgres_target ip l id it).
Proof.
  induction l as [|s l IH]; cbn [execute_all]; [by apply yields_ret|].
  eapply yields_bind; [apply yields_execute|intros r Hr]. eapply yields_bind; [exact IH|intros rs Hrs].
  apply yields_ret. by constructor.
Qed.

(** The pairs of a scenario and an iteration that a batch has to run, in order. *)
Fixpoint schedule (l : list (AttackScenario E C St)) (first : Z) (n : nat) : list (AttackScenario E C St * Z) :=
  match n with O => [] | S n => map (λ s, (s, first)) l ++ schedule l (first + 1) n end.
Lemma yields_iterate ip l id first n :
  yields (Forall2 (λ si r, result_for (fst si) id (snd si) r) (schedule l first n))
    (iterate pydantic_text perf_counter_ns utcnow make_sqlite_context dispose make_postgres_engine
       make_postgres_context postgres_target ip l id first n).
Proof.
  revert first. induction n as [|n IH]; intros first; cbn [iterate schedule]; [by apply yields_ret|].
  eapply yields_bind; [apply yields_execute_all|intros rs Hrs]. eapply yields_bind; [apply IH|intros more Hmore].
  apply yields_ret. apply Forall2_app; [|done]. by apply Forall2_fmap_l.
Qed.
Lemma yields_fresh {A} (Q : A → Prop) (m : M Executor LabError A) : yields Q m → yields Q (fresh_executor dispose m).
Proof.
  intros Hm e a e' Ea. unfold fresh_executor in Ea. destruct (closing dispose m (mkExecutor e None None)) as [o x] eqn:Ec.
  injection Ea as -> _. revert Ec. apply (yields_bind Q).
  - apply yields_try; [exact Hm|]. intros exc. eapply yields_bind; [apply yields_any|intros ? _]. apply yields_raise.
  - intros b Hb. eapply yields_bind; [apply yields_any|intros ? _]. by apply yields_ret.
Qed.

(** Nothing got through, and every critical run ended as it should. *)
Definition nothing_got_through (l : list AttackResult) : Prop :=
  ∀ r, r ∈ l → is_bypass r = false ∧ (ar_critical r = true → ar_status r = ar_expected_status r).
Lemma clean_spec id n k a b ip l report :
  make_report id n k a b ip l = Ok report →
  rp_run_id report = id ∧ rp_results report = l ∧ rp_scenarios_selected report = k ∧
  (clean report = true ↔ nothing_got_through l).
Proof.
  unfold make_report. intros (d & _ & Er)%outcome_bind_Ok. apply outcome_bind_Ok in Er as (m & Em & Er).
  destruct (negb _); [done|]. injection Er as <-. repeat (split; [done|]). unfold clean.
  cbn [rp_findings rp_metrics]. rewrite andb_true_iff, !bool_decide_eq_true, no_findings.
  assert (Hc : am_critical_failures m = scenario_ids_where (λ r, ar_critical r && negb (outcome_as_expected r)) l).
  { unfold compute_metrics in Em. destruct (replay_counts l), (duplicate_payment_counts l).
    apply outcome_bind_Ok in Em as (? & _ & Em). destruct (n <? 1); [done|]. by injection Em as <-. }
  rewrite Hc, scenario_ids_where_nil. unfold nothing_got_through, outcome_as_expected.
  split.
  - intros [H1 H2] r Hr. split; [by apply H1|]. intros Hcr. specialize (H2 r Hr). rewrite Hcr in H2. cbn in H2.
    by case_bool_decide.
  - intros Hl. split; [intros r Hr; by apply Hl|]. intros r Hr. destruct (Hl r Hr) as [_ He].
    destruct (ar_critical r); [|done]. by rewrite bool_decide_eq_true_2 by by apply He.
Qed.
End Batch.

(** ** Properties *)

(** C37: A run is never lost, and a verdict needs a measurement.  Under a clock that does
    not run backwards, whatever the scenario's functions do, [run_scenario] returns one
    result for the scenario, batch and iteration.  If [setup] raised it is INCONCLUSIVE, if
    [execute] raised it is ERROR, and then it holds nothing a rate could count; only what
    [execute] returned becomes BLOCKED or NOT_BLOCKED, with the observation as its record. *)
Theorem every_run_becomes_a_result {E C St : Type} (pydantic_text : string → ustr) (perf_counter_ns : E → Z * E)
    (utcnow : E → datetime * E) (later : E → E → Prop) `{!PreOrder later} (s : AttackScenario E C St) (context : C)
    (run_id : string) (iteration : Z) (e : E) :
  monotone_clock perf_counter_ns utcnow later → 1 <= iteration →
  evolves later (sc_setup s context) → (∀ state, evolves later (sc_execute s context state)) →
  ∃ r e', run_scenario pydantic_text perf_counter_ns utcnow s context run_id iteration e = (Ok r, e') ∧
    result_for s run_id iteration r ∧
    match sc_setup s context (setup_at perf_counter_ns utcnow e) with
    | (Raise exc, _) => no_verdict AttackStatus.INCONCLUSIVE (u "setup failed: " ++ describe pydantic_text exc) r
    | (Ok state, e2) =>
        match sc_execute s context state (execute_at perf_counter_ns e2) with
        | (Raise exc, _) => no_verdict AttackStatus.ERROR (u "execute raised: " ++ describe pydantic_text exc) r
        | (Ok o, _) => verdict (sc_expected_reason_code s) o r
        end
    end.
Proof.
  intros Hclock Hit Hsetup Hexec.
  destruct (run_scenario_returns pydantic_text perf_counter_ns utcnow later s context run_id iteration e Hclock Hit Hsetup Hexec)
    as (r & e' & Er).
  exists r, e'. split; [done|]. split; [by eapply run_result|by eapply run_scenario_cases].
Qed.

(** A report covers what was selected.  When [evaluate] returns, its results are, in
    order, one for each selected scenario in each of the iterations - an unavailable
    backend, a failed setup or an exception included - and it is clean exactly when no
    hostile run among them went through and every critical one ended as expected. *)
Theorem evaluation_covers_the_selection {E C St Engine : Type} (pydantic_text : string → ustr)
    (perf_counter_ns : E → Z * E) (utcnow : E → datetime * E) (make_sqlite_context : M E LabError (C * Engine))
    (dispose : Engine → E → E) (make_postgres_engine : M E LabError Engine)
    (make_postgres_context : Engine → M E LabError C) (postgres_target : ustr) (uuid4 : E → string * E)
    (loaded : @ScenarioRegistry E C St) (registry : option ScenarioRegistry)
    (scenario_ids categories : list string) (iterations : Z) (include_postgres : bool) (run_id : option string)
    (e : E) (report : AttackRunReport) (e' : E) :
  evaluate pydantic_text perf_counter_ns utcnow make_sqlite_context dispose make_postgres_engine make_postgres_context
    postgres_target uuid4 loaded registry scenario_ids categories iterations include_postgres run_id e
  = (Ok report, e') →
  1 <= iterations ∧
  ∃ scenarios, resolve_scenarios loaded registry scenario_ids categories = Ok scenarios ∧
    Forall2 (λ si r, result_for (fst si) (rp_run_id report) (snd si) r)
      (schedule scenarios 1 (Z.to_nat iterations)) (rp_results report) ∧
    (clean report = true ↔ nothing_got_through (rp_results report)).
Proof.
  revert e report e'. match goal with |- ∀ e r e', ?m e = (Ok r, e') → @?Q r => change (yields Q m) end.
  unfold evaluate. destruct (Z.ltb_spec iterations 1); [apply yields_raise|].
  eapply (yields_bind (λ l, resolve_scenarios loaded registry scenario_ids categories = Ok l));
    [apply yields_lift; done|intros scenarios Hs].
  do 2 (eapply yields_bind; [apply yields_any|intros ? _]).
  eapply yields_bind; [apply yields_fresh, yields_iterate|intros l Hl].
  eapply yields_bind; [apply yields_any|intros ? _]. apply yields_lift. intros report Hr.
  apply clean_spec in Hr as (-> & -> & _ & Hc). split; [done|]. by exists scenarios.
Qed.

(** A percentile is a duration that was measured. *)
Theorem percentile_is_observed (samples : list float) (fraction : float) (r : option float) :
  percentile samples fraction = Ok r → match r with Some x => x ∈ samples | None => samples = [] end.
Proof.
  unfold percentile. destruct samples as [|x0 l]; [by intros [= <-]|]. set (samples := x0 :: l).
  intros (h & _ & Er)%outcome_bind_Ok. injection Er as <-.
  assert (Hlen : length (py_sorted fl_leb samples) = length samples) by (by rewrite py_sorted_Permutation).
  destruct (nth_error _ _) as [x|] eqn:En.
  - apply nth_error_In in En. rewrite <-(py_sorted_Permutation fl_leb samples). by apply list_elem_of_In.
  - apply nth_error_None in En. cbn [py_sorted foldr samples] in Hlen. fold (py_sorted fl_leb l) in Hlen.
    rewrite Hlen in En. exfalso. assert (Hpos : (0 < length samples)%nat) by (cbn; lia). clearbody samples.
    generalize dependent (- (- (h * Z.of_nat (length samples)) / 100)). intros rank En. lia.
Qed.

(** [registry or load_registry()]: a registry that holds no scenario yet is replaced by the
    process-wide one. *)
Theorem empty_registry_is_replaced {E C St : Type} (loaded : @ScenarioRegistry E C St) (ids categories : list string) :
  resolve_scenarios loaded (Some []) ids categories = resolve_scenarios loaded None ids categories.
Proof. reflexivity. Qed.

(** A scenario is registered once, behind those already there. *)
Theorem register_appends_once {E C St : Type} (s : AttackScenario E C St) (self : ScenarioRegistry) :
  register s self = if has self (sc_id s) then (Raise (DuplicateScenario (sc_id s)), self)
                    else (Ok s, self ++ [(sc_id s, s)]).
Proof.
  unfold register, has. destruct (py_dict_get (sc_id s) self) eqn:Eg; cbn; [done|]. by rewrite py_dict_set_new.
Qed.

(** A laboratory whose environment is a nanosecond counter that stops after a second. *)
Definition demo_perf (t : Z) : Z * Z := (Z.max 0 (Z.min t (10 ^ 9)), t + 1).
Definition demo_now (t : Z) : datetime * Z := (utc 0, t).
Definition demo_text (field : string) : ustr := [].
(** An attack that crashes instead of being refused. *)
Definition crashing_scenario : AttackScenario Z () () :=
  mkAttackScenario _ _ _ "authorization_replay" "Authorization replay" AttackCategory.TRANSACTION Severity.CRITICAL
    "Consume an authorization twice" ["an authorization is consumed once"] Backend.SQLITE AttackStatus.BLOCKED
    (Some "AUTHORIZATION_REPLAY_DETECTED") true
    (λ _, mret tt) (λ _ _, raise (Raised "TypeError" (u "unexpected keyword"))).
Lemma demo_clock_monotone : monotone_clock demo_perf demo_now Z.le.
Proof. constructor; unfold demo_perf, demo_now; cbn [fst snd]; intros; lia. Qed.

Lemma every_run_becomes_a_result_witness :
  ∃ r e', run_scenario demo_text demo_perf demo_now crashing_scenario () "attack-run-1" 1 0 = (Ok r, e') ∧
    ar_status r = AttackStatus.ERROR ∧ ar_blocked r = None.
Proof.
  destruct (every_run_becomes_a_result demo_text demo_perf demo_now Z.le crashing_scenario () "attack-run-1" 1 0
    demo_clock_monotone ltac:(lia) ltac:(intros e; cbn; lia) ltac:(intros st e; cbn; lia)) as (r & e' & E & _ & Hr).
  exists r, e'. split; [exact E|]. cbn in Hr. destruct Hr as (Hs & _ & Hb & _). by split.
Defined.

(** Two iterations of it: the report is not clean, as the control was not proven. *)
Example crashed_batch_is_not_clean :
  match evaluate demo_text demo_perf demo_now (mret ((), ())) (λ _ t, t) (raise (PostgresUnavailable [])) (λ _, mret tt) []
          (λ t, ("1", t)) [(sc_id crashing_scenario, crashing_scenario)] None [] [] 2 false None 0 with
  | (Ok report, _) => map ar_status (rp_results report) = [AttackStatus.ERROR; AttackStatus.ERROR]
                      ∧ clean report = false ∧ am_attack_block_rate (rp_metrics report) = None
  | _ => False
  end.
Proof. vm_compute. by split_and!. Qed.
