(* ===== verification/RiskEvaluation.v ===== *)
(** * The risk evaluation harness

    services/risk_engine/evaluation.py: one assessment of one scenario in a database of
    its own, and the metrics folded from a batch - the rates at the configured threshold,
    the sweep, the scores by category, the distributions, the latencies and the check of
    determinism; the labels and the case of scenarios.py.  A scenario carries the function
    that builds its mission; the clocks are parameters. *)
From S2P Require Import Prelude Python PyFloat PyNumbers PyText Json Enums Errors Transaction Merchant Payment Database.
From S2P Require Import Provider Worker RiskModels RiskFeatures RiskEngine AttackLab.

Module RiskEval.
(** ** scenarios.py: the vocabulary *)
(** The authored ground truth of a scenario *)
Module RiskLabel.
Inductive RiskLabel : Set :=
  | BENIGN | RISKY.
#[global] Instance eq_dec : EqDecision RiskLabel.
Proof. solve_decision. Defined.
Definition value (x : RiskLabel) : string :=
  match x with
  | BENIGN => "BENIGN"
  | RISKY => "RISKY"
  end.
Definition members : list RiskLabel :=
  [BENIGN; RISKY].
End RiskLabel.
Abbreviation RiskLabel := RiskLabel.RiskLabel.
#[global] Instance RiskLabel_enum : StrEnum RiskLabel.
Proof. refine {| enum_value := RiskLabel.value; enum_members := RiskLabel.members |}; solve_enum. Defined.

(** Grouping for the per-category report *)
Module RiskCategory.
Inductive RiskCategory : Set :=
  | BASELINE | HIGH_VALUE | COLD_START | MERCHANT_TRUST | SECURITY_HISTORY | PAYMENT_ANOMALY
  | AUDIT_INTEGRITY | BEHAVIOURAL_ANOMALY.
#[global] Instance eq_dec : EqDecision RiskCategory.
Proof. solve_decision. Defined.
Definition value (x : RiskCategory) : string :=
  match x with
  | BASELINE => "BASELINE"
  | HIGH_VALUE => "HIGH_VALUE"
  | COLD_START => "COLD_START"
  | MERCHANT_TRUST => "MERCHANT_TRUST"
  | SECURITY_HISTORY => "SECURITY_HISTORY"
  | PAYMENT_ANOMALY => "PAYMENT_ANOMALY"
  | AUDIT_INTEGRITY => "AUDIT_INTEGRITY"
  | BEHAVIOURAL_ANOMALY => "BEHAVIOURAL_ANOMALY"
  end.
Definition members : list RiskCategory :=
  [BASELINE; HIGH_VALUE; COLD_START; MERCHANT_TRUST; SECURITY_HISTORY; PAYMENT_ANOMALY;
   AUDIT_INTEGRITY; BEHAVIOURAL_ANOMALY].
End RiskCategory.
Abbreviation RiskCategory := RiskCategory.RiskCategory.
#[global] Instance RiskCategory_enum : StrEnum RiskCategory.
Proof. refine {| enum_value := RiskCategory.value; enum_members := RiskCategory.members |}; solve_enum. Defined.

Definition SYNTHETIC_DATA_DISCLOSURE : string :=
  "SYNTHETIC. These scenarios are constructed from PACTRA's own domain models and driven through the real kernel; their BENIGN/RISKY labels are authored, not observed. No real fraud data is used, and no metric computed from this corpus is a real-world fraud-detection rate.".

Record RiskCase := mkRiskCase {
  rc_mission_id : uuid;
  rc_registry : MerchantRegistry;
  rc_now : datetime
}.
(** [build] drives the services in the database of its context. *)
Record RiskScenario := mkRiskScenario {
  rs_id : string;
  rs_name : string;
  rs_label : RiskLabel;
  rs_category : RiskCategory;
  rs_description : string;
  rs_build : P RiskCase
}.

(** ** evaluation.py *)
Definition HARNESS_VERSION : string := "pactra-risk-eval-v1".
Definition SWEEP_THRESHOLDS : list float := [fl_lit 10 100; fl_lit 25 100; fl_lit 50 100; fl_lit 75 100].

(** The division of two counts; it cannot overflow. *)
Definition rate (numerator denominator : Z) : option float :=
  if denominator =? 0 then None else py_truediv numerator denominator.
Definition round_or_raise (x : float) : outcome exn Z :=
  match py_round_int x with
  | Some z => Ok z
  | None => Raise (match x with
                   | S754_nan => ValueError "cannot convert float NaN to integer"
                   | _ => OverflowError "cannot convert float infinity to integer" end)
  end.
Definition percentile (samples : list float) (fraction : float) : outcome exn (option float) :=
  match samples with
  | [] => Ok None
  | _ =>
      let ordered := py_sorted fl_leb samples in
      let cnt := Z.of_nat (length ordered) in
      hundredths ← round_or_raise (fl_mul fraction (fl_of_Z 100));
      let rank := - ((- hundredths * cnt) / 100) in
      Ok (nth_error ordered (Z.to_nat (Z.max 1 (Z.min cnt rank) - 1)))
  end.

Record ScenarioOutcome := mkScenarioOutcome {
  so_scenario_id : string;
  so_scenario_name : string;
  so_label : RiskLabel;
  so_category : string;
  so_iteration : Z;
  so_score : float;
  so_band : RiskBand;
  so_recommendation : RiskRecommendation;
  so_factor_codes : list string;
  so_policy_decision : option string;
  so_history_available : bool;
  so_cold_start : bool;
  so_audit_chain_verified : bool;
  so_assess_ms : float;
  so_error : option ustr
}.
Definition ScenarioOutcome_new (o : ScenarioOutcome) : outcome exn ScenarioOutcome :=
  if so_iteration o <? 1 then Raise (ValidationError "iteration")
  else if negb (fl_leb fl_zero (so_score o) && fl_leb (so_score o) fl_one) then Raise (ValidationError "score")
  else if negb (fl_leb fl_zero (so_assess_ms o)) then Raise (ValidationError "assess_ms")
  else Ok o.
Definition measured (o : ScenarioOutcome) : bool := is_none (so_error o).
Definition labelled (l : RiskLabel) (o : ScenarioOutcome) : bool := bool_decide (so_label o = l).
(** [o.score >= threshold]. *)
Definition flagged (threshold : float) (o : ScenarioOutcome) : bool := fl_leb threshold (so_score o).

Record ThresholdPoint := mkThresholdPoint {
  tp_threshold : float;
  tp_risky_flagged : Z;
  tp_risky_total : Z;
  tp_benign_flagged : Z;
  tp_benign_total : Z;
  tp_detection_rate : option float;
  tp_false_positive_rate : option float;
  tp_configured : bool
}.
Record CategoryScores := mkCategoryScores {
  cs_category : string;
  cs_label : RiskLabel;
  cs_runs : Z;
  cs_mean_score : option float;
  cs_min_score : option float;
  cs_max_score : option float
}.
Record LatencyMetrics := mkLatencyMetrics {
  lm_samples : Z;
  lm_p50_ms : option float;
  lm_p95_ms : option float;
  lm_p99_ms : option float;
  lm_min_ms : option float;
  lm_max_ms : option float;
  lm_mean_ms : option float
}.
Record RiskMetrics := mkRiskMetrics {
  rm_total_assessments : Z;
  rm_measured_assessments : Z;
  rm_errors : Z;
  rm_errored_scenarios : list string;
  rm_benign_runs : Z;
  rm_risky_runs : Z;
  rm_mean_score : option float;
  rm_median_score : option float;
  rm_benign_mean_score : option float;
  rm_risky_mean_score : option float;
  rm_mean_separation : option float;
  rm_review_threshold : float;
  rm_risk_detection_rate : option float;
  rm_false_positive_rate : option float;
  rm_false_negative_rate : option float;
  rm_risky_flagged : Z;
  rm_risky_missed : Z;
  rm_benign_flagged : Z;
  rm_missed_risky_scenarios : list string;
  rm_false_positive_scenarios : list string;
  rm_band_distribution : list (string * Z);
  rm_recommendation_distribution : list (string * Z);
  rm_by_category : list CategoryScores;
  rm_threshold_sweep : list ThresholdPoint;
  rm_latency : LatencyMetrics;
  rm_deterministic_across_iterations : bool;
  rm_nondeterministic_scenarios : list string
}.

(** [sum(l) / len(l)] of a list that is not empty. *)
Definition mean (l : list float) : option float :=
  match l with [] => None | _ => Some (fl_div (py_sum l) (fl_of_Z (Z.of_nat (length l)))) end.
(** [statistics.median(l)]. *)
Definition median (l : list float) : option float :=
  let data := py_sorted fl_leb l in
  let n := length data in
  match data with
  | [] => None
  | _ =>
      if Nat.odd n then nth_error data (n / 2)
      else match nth_error data (n / 2 - 1), nth_error data (n / 2) with
           | Some a, Some b => Some (fl_div (fl_add a b) (fl_of_Z 2))
           | _, _ => None
           end
  end.

Definition latency (outcomes : list ScenarioOutcome) : outcome exn LatencyMetrics :=
  let samples := map so_assess_ms (List.filter measured outcomes) in
  match samples with
  | [] => Ok (mkLatencyMetrics 0 None None None None None None)
  | _ =>
      p50 ← percentile samples (fl_lit 50 100);
      p95 ← percentile samples (fl_lit 95 100);
      p99 ← percentile samples (fl_lit 99 100);
      Ok (mkLatencyMetrics (Z.of_nat (length samples)) p50 p95 p99 (py_min samples) (py_max samples) (mean samples))
  end.

(** A set of floats: of equal ones the first is kept. *)
Definition float_set (l : list float) : list float :=
  fold_left (λ s x, if existsb (fl_eqb x) s then s else s ++ [x]) l [].

Definition sweep_point (risky benign : list ScenarioOutcome) (configured threshold : float) : ThresholdPoint :=
  let risky_hit := count (flagged threshold) risky in
  let benign_hit := count (flagged threshold) benign in
  let risky_total := Z.of_nat (length risky) in
  let benign_total := Z.of_nat (length benign) in
  mkThresholdPoint threshold risky_hit risky_total benign_hit benign_total
    (rate risky_hit risky_total) (rate benign_hit benign_total)
    (fl_ltb (fl_abs (fl_sub threshold configured)) (fl_lit 1 (10 ^ 12))).
Definition sweep (outcomes : list ScenarioOutcome) (configured : float) : list ThresholdPoint :=
  let risky := List.filter (λ o, measured o && labelled RiskLabel.RISKY o) outcomes in
  let benign := List.filter (λ o, measured o && labelled RiskLabel.BENIGN o) outcomes in
  map (sweep_point risky benign configured) (py_sorted fl_leb (float_set (SWEEP_THRESHOLDS ++ [configured]))).

(** [d.setdefault(k, []).append(v)], the keys in insertion order. *)
Fixpoint group_append {K V} `{EqDecision K} (k : K) (v : V) (d : list (K * list V)) : list (K * list V) :=
  match d with
  | [] => [(k, [v])]
  | (k', vs) :: d => if bool_decide (k = k') then (k', vs ++ [v]) :: d else (k', vs) :: group_append k v d
  end.
Definition group_by {A K V} `{EqDecision K} (key : A → K) (value : A → V) (l : list A) : list (K * list V) :=
  fold_left (λ d a, group_append (key a) (value a) d) l [].

Definition by_category (outcomes : list ScenarioOutcome) : list CategoryScores :=
  map (λ '((category, label), scores),
         mkCategoryScores category label (Z.of_nat (length scores)) (mean scores) (py_min scores) (py_max scores))
    (py_sorted (λ a b, String.leb (fst (fst a)) (fst (fst b)))
       (group_by (λ o, (so_category o, so_label o)) so_score (List.filter measured outcomes))).

(** The scenarios whose scores, rounded to nine places, are not all the same. *)
Definition drifting (outcomes : list ScenarioOutcome) : list string :=
  py_sorted String.leb
    (omap (λ '(id, scores), if (1 <? length (float_set (map (py_round 9) scores)))%nat then Some id else None)
       (group_by so_scenario_id so_score (List.filter measured outcomes))).
Definition determinism (outcomes : list ScenarioOutcome) : bool * list string :=
  (bool_decide (drifting outcomes = []), drifting outcomes).

(** [d[k] = d.get(k, 0) + 1] for each. *)
Definition tally (keys : list string) : list (string * Z) :=
  fold_left (λ d k, py_dict_set k (default 0 (py_dict_get k d) + 1) d) keys [].
Definition ids_where (p : ScenarioOutcome → bool) (l : list ScenarioOutcome) : list string :=
  py_sorted String.leb (remove_dups (map so_scenario_id (List.filter p l))).

Definition compute_metrics (outcomes : list ScenarioOutcome) (config : RiskConfig) : outcome exn RiskMetrics :=
  let len (l : list ScenarioOutcome) := Z.of_nat (length l) in
  let measured_ := List.filter measured outcomes in
  let risky := List.filter (labelled RiskLabel.RISKY) measured_ in
  let benign := List.filter (labelled RiskLabel.BENIGN) measured_ in
  let threshold := review_threshold config in
  let risky_flagged := count (flagged threshold) risky in
  let benign_flagged := count (flagged threshold) benign in
  let scores := map so_score measured_ in
  let benign_mean := mean (map so_score benign) in
  let risky_mean := mean (map so_score risky) in
  let '(deterministic, drifting_) := determinism outcomes in
  lat ← latency outcomes;
  Ok {|
    rm_total_assessments := len outcomes;
    rm_measured_assessments := len measured_;
    rm_errors := len outcomes - len measured_;
    rm_errored_scenarios := ids_where (λ o, negb (measured o)) outcomes;
    rm_benign_runs := len benign;
    rm_risky_runs := len risky;
    rm_mean_score := mean scores;
    rm_median_score := median scores;
    rm_benign_mean_score := benign_mean;
    rm_risky_mean_score := risky_mean;
    rm_mean_separation :=
      match benign_mean, risky_mean with Some b, Some r => Some (fl_sub r b) | _, _ => None end;
    rm_review_threshold := threshold;
    rm_risk_detection_rate := rate risky_flagged (len risky);
    rm_false_positive_rate := rate benign_flagged (len benign);
    rm_false_negative_rate := rate (len risky - risky_flagged) (len risky);
    rm_risky_flagged := risky_flagged;
    rm_risky_missed := len risky - risky_flagged;
    rm_benign_flagged := benign_flagged;
    rm_missed_risky_scenarios := ids_where (λ o, fl_ltb (so_score o) threshold) risky;
    rm_false_positive_scenarios := ids_where (flagged threshold) benign;
    rm_band_distribution := tally (map (λ o, enum_value (so_band o)) measured_);
    rm_recommendation_distribution := tally (map (λ o, enum_value (so_recommendation o)) measured_);
    rm_by_category := by_category measured_;
    rm_threshold_sweep := sweep measured_ threshold;
    rm_latency := lat;
    rm_deterministic_across_iterations := deterministic;
    rm_nondeterministic_scenarios := drifting_
  |}.

(** ** A run *)
Record EvaluationReport := mkEvaluationReport {
  er_run_id : string;
  er_model_type : string;
  er_model_version : string;
  er_iterations : Z;
  er_scenarios_selected : Z;
  er_started_at : datetime;
  er_completed_at : datetime;
  er_duration_ms : float;
  er_outcomes : list ScenarioOutcome;
  er_metrics : RiskMetrics
}.

Section Run.
Context `{Env} (server : RiskServer) (library_message : exn → ustr).
(** [time.perf_counter_ns()] and [time.time()], each a function of what happened before. *)
Context (perf_counter_ns : World → Z) (time_time : World → float).

(** attack_lab/context.py [make_sqlite_context]: a database and a provider of its own. *)
Definition make_sqlite_context (w : World) : World :=
  mkWorld db_empty db_empty (w_fresh w) (w_ticks w) (w_tokens w) [].

(** [(b - a) / 1_000_000]. *)
Definition elapsed (a b : Z) : outcome exn float :=
  match py_truediv (b - a) 1000000 with
  | Some x => Ok x
  | None => Raise (OverflowError "integer division result too large for a float")
  end.

(** [async with context.sessionmaker() as session]: the timed assessment. *)
Definition timed_assessment (case : RiskCase) (config : RiskConfig) : P (RiskAssessment * float) :=
  with_session
    (start ← gets perf_counter_ns;
     assessment ← Risk.assess_mission server (rc_mission_id case) (Some config) (Some (rc_registry case))
                    (Some (rc_now case));
     stop ← gets perf_counter_ns;
     elapsed_ms ← lift (elapsed start stop);
     mret (assessment, elapsed_ms)).

Definition outcome_of (scenario : RiskScenario) (iteration : Z) (assessment : RiskAssessment) (elapsed_ms : float)
    : ScenarioOutcome :=
  mkScenarioOutcome (rs_id scenario) (rs_name scenario) (rs_label scenario) (enum_value (rs_category scenario))
    iteration (rk_score assessment) (rk_band assessment) (rk_recommendation assessment)
    (map rf_code (rk_factors assessment)) (rk_policy_decision assessment)
    (dq_history_available (rk_data_quality assessment)) (dq_cold_start (rk_data_quality assessment))
    (dq_audit_chain_verified (rk_data_quality assessment)) elapsed_ms None.
Definition error_outcome (scenario : RiskScenario) (iteration : Z) (error : ustr) : ScenarioOutcome :=
  mkScenarioOutcome (rs_id scenario) (rs_name scenario) (rs_label scenario) (enum_value (rs_category scenario))
    iteration fl_zero RiskBand.LOW RiskRecommendation.PROCEED [] None false true false fl_zero (Some error).

(** The run, in the database of its context. *)
Definition run_in_context (scenario : RiskScenario) (iteration : Z) (config : RiskConfig) : P ScenarioOutcome :=
  try_except
    (case ← rs_build scenario;
     assessed ← timed_assessment case config;
     lift (ScenarioOutcome_new (outcome_of scenario iteration (fst assessed) (snd assessed))))
    (λ exc, lift (ScenarioOutcome_new (error_outcome scenario iteration (take 300 (failure_reason library_message exc))))).
(** [finally: await engine.dispose()]: the database is gone, and the caller's is as it was. *)
Definition run_scenario (scenario : RiskScenario) (iteration : Z) (config : RiskConfig) : P ScenarioOutcome := λ w,
  let '(o, w') := run_in_context scenario iteration config (make_sqlite_context w) in
  (o, mkWorld (w_db w) (w_committed w) (w_fresh w') (w_ticks w') (w_tokens w') (w_calls w)).

Fixpoint run_all (scenarios : list RiskScenario) (iteration : Z) (config : RiskConfig) : P (list ScenarioOutcome) :=
  match scenarios with
  | [] => mret []
  | scenario :: rest =>
      o ← run_scenario scenario iteration config;
      os ← run_all rest iteration config;
      mret (o :: os)
  end.
(** [for iteration in range(first, first + n)]. *)
Fixpoint iterate (scenarios : list RiskScenario) (config : RiskConfig) (first : Z) (n : nat) : P (list ScenarioOutcome) :=
  match n with
  | O => mret []
  | S n =>
      os ← run_all scenarios first config;
      more ← iterate scenarios config (first + 1) n;
      mret (os ++ more)
  end.

(** [int(x)] truncates; it raises on infinities and NaN. *)
Definition float_to_int (x : float) : outcome exn Z :=
  match x with
  | S754_zero _ => Ok 0
  | S754_finite s m e =>
      let magnitude := if 0 <=? e then Z.pos m * 2 ^ e else Z.pos m / 2 ^ (- e) in
      Ok (if s then - magnitude else magnitude)
  | S754_nan => Raise (ValueError "cannot convert float NaN to integer")
  | S754_infinity _ => Raise (OverflowError "cannot convert float infinity to integer")
  end.
(** [run_id or f"risk-eval-{int(time.time() * 1000)}"]. *)
Definition batch_id (run_id : option string) : P string :=
  let drawn := now ← gets time_time; millis ← lift (float_to_int (fl_mul now (fl_of_Z 1000)));
               mret ("risk-eval-" +:+ str_int millis) in
  match run_id with Some id => if String.eqb id "" then drawn else mret id | None => drawn end.

(** [(b - a).total_seconds() * 1000]. *)
Definition duration (a b : datetime) : outcome exn float :=
  match py_truediv (dt_instant b - dt_instant a) 1000000 with
  | Some s => Ok (fl_mul s (fl_of_Z 1000))
  | None => Raise (OverflowError "integer division result too large for a float")
  end.

Definition evaluate (corpus : list RiskScenario) (scenarios : option (list RiskScenario)) (iterations : Z)
    (config : option RiskConfig) (run_id : option string) : P EvaluationReport :=
  if iterations <? 1 then raise (ValueError "iterations must be at least 1")
  else
    let settings := default DEFAULT_RISK_CONFIG config in
    let selected := default corpus scenarios in
    id ← batch_id run_id;
    started_at ← utcnow;
    outcomes ← iterate selected settings 1 (Z.to_nat iterations);
    completed_at ← utcnow;
    duration_ms ← lift (duration started_at completed_at);
    metrics ← lift (compute_metrics outcomes settings);
    if negb (fl_leb fl_zero duration_ms) then raise (ValidationError "duration_ms")
    else mret (mkEvaluationReport id MODEL_TYPE_HEURISTIC HEURISTIC_VERSION iterations
                 (Z.of_nat (length selected)) started_at completed_at duration_ms outcomes metrics).
End Run.
End RiskEval.
