(* ===== verification/RiskEvaluationProperties.v ===== *)
(** * Properties of the risk evaluation harness

    A run that failed moves no measurement; the counts account for every run; the sweep is
    monotone and shows the configured operating point; the determinism check says what it
    means; a batch runs everything it selected, and always reports. *)
From S2P Require Import Prelude Python PyFloat PyNumbers PyText Rounding Json Enums Errors Transaction Merchant Policy Database Provider Worker.
From S2P Require Import RiskModels RiskFeatures RiskEngine AttackLab AttackLabProperties RiskEvaluation.
Import RiskEval.

(** ** Always a report *)
Lemma nearest_rank_is_sample (samples : list float) (rank : Z) :
  samples ≠ [] →
  let ordered := py_sorted fl_leb samples in
  ∃ x, nth_error ordered (Z.to_nat (Z.max 1 (Z.min (Z.of_nat (length ordered)) rank) - 1)) = Some x ∧ x ∈ samples.
Proof.
  cbn zeta. intros Hne. pose proof (py_sorted_Permutation fl_leb samples) as Hp.
  generalize dependent (py_sorted fl_leb samples). intros ordered Hp.
  assert (Hpos : (0 < length ordered)%nat) by (rewrite Hp; destruct samples; [done|cbn; lia]).
  destruct (nth_error ordered _) as [x|] eqn:En.
  - exists x. split; [done|]. rewrite <-Hp. apply list_elem_of_In. by eapply nth_error_In.
  - apply nth_error_None in En. lia.
Qed.
Lemma percentile_total samples fraction h :
  round_or_raise (fl_mul fraction (fl_of_Z 100)) = Ok h →
  ∃ r, percentile samples fraction = Ok r ∧ match r with Some x => x ∈ samples | None => samples = [] end.
Proof.
  intros Eh. unfold percentile. destruct samples as [|x l]; [by exists None|]. set (samples := x :: l). rewrite Eh.
  destruct (nearest_rank_is_sample samples (- ((- h * Z.of_nat (length (py_sorted fl_leb samples))) / 100)) ltac:(done))
    as (y & Ey & Hy).
  exists (Some y). split; [exact (f_equal (Ok (E:=exn)) Ey)|done].
Qed.

(** The duration of a run that was measured, when there is one. *)
Definition observed_in (l : list ScenarioOutcome) (x : option float) : Prop :=
  match x with
  | Some v => ∃ o, o ∈ l ∧ measured o = true ∧ so_assess_ms o = v
  | None => ∀ o, o ∈ l → measured o = false
  end.
Lemma latency_total l : ∃ lat, latency l = Ok lat ∧
  observed_in l (lm_p50_ms lat) ∧ observed_in l (lm_p95_ms lat) ∧ observed_in l (lm_p99_ms lat).
Proof.
  assert (Hobs : ∀ r, match r with Some x => x ∈ map so_assess_ms (List.filter measured l)
                      | None => map so_assess_ms (List.filter measured l) = [] end → observed_in l r).
  { intros [x|]; cbn.
    - intros (o & -> & [Ho Hm]%elem_of_filter_bool)%list_elem_of_fmap. by exists o.
    - intros E o Ho. destruct (measured o) eqn:Em; [|done]. apply map_eq_nil in E.
      assert (Hin : o ∈ List.filter measured l) by by apply elem_of_filter_bool. rewrite E in Hin. by apply not_elem_of_nil in Hin. }
  unfold latency. set (samples := map so_assess_ms (List.filter measured l)) in *.
  destruct (percentile_total samples (fl_lit 50 100) 50 ltac:(by vm_compute)) as (a & Ea & Ha).
  destruct (percentile_total samples (fl_lit 95 100) 95 ltac:(by vm_compute)) as (b & Eb & Hb).
  destruct (percentile_total samples (fl_lit 99 100) 99 ltac:(by vm_compute)) as (c & Ec & Hc).
  rewrite Ea, Eb, Ec. clearbody samples. destruct samples; eexists; (split; [reflexivity|]); cbn;
    [|by split_and!; apply Hobs]. split_and!; by apply (Hobs None).
Qed.

Lemma compute_metrics_total l c : ∃ m, compute_metrics l c = Ok m.
Proof. unfold compute_metrics. destruct (latency_total l) as (lat & -> & _). destruct (determinism l). by eexists. Qed.

(** ** A run that failed *)
(** The same metrics, with no word of the runs that failed. *)
Definition without_errors (m : RiskMetrics) : RiskMetrics :=
  {| rm_total_assessments := rm_measured_assessments m;
     rm_measured_assessments := rm_measured_assessments m;
     rm_errors := 0;
     rm_errored_scenarios := [];
     rm_benign_runs := rm_benign_runs m;
     rm_risky_runs := rm_risky_runs m;
     rm_mean_score := rm_mean_score m;
     rm_median_score := rm_median_score m;
     rm_benign_mean_score := rm_benign_mean_score m;
     rm_risky_mean_score := rm_risky_mean_score m;
     rm_mean_separation := rm_mean_separation m;
     rm_review_threshold := rm_review_threshold m;
     rm_risk_detection_rate := rm_risk_detection_rate m;
     rm_false_positive_rate := rm_false_positive_rate m;
     rm_false_negative_rate := rm_false_negative_rate m;
     rm_risky_flagged := rm_risky_flagged m;
     rm_risky_missed := rm_risky_missed m;
     rm_benign_flagged := rm_benign_flagged m;
     rm_missed_risky_scenarios := rm_missed_risky_scenarios m;
     rm_false_positive_scenarios := rm_false_positive_scenarios m;
     rm_band_distribution := rm_band_distribution m;
     rm_recommendation_distribution := rm_recommendation_distribution m;
     rm_by_category := rm_by_category m;
     rm_threshold_sweep := rm_threshold_sweep m;
     rm_latency := rm_latency m;
     rm_deterministic_across_iterations := rm_deterministic_across_iterations m;
     rm_nondeterministic_scenarios := rm_nondeterministic_scenarios m |}.

Lemma ids_where_none p l : (∀ o, o ∈ l → p o = false) → ids_where p l = [].
Proof.
  intros Hp. unfold ids_where. replace (List.filter p l) with (@nil ScenarioOutcome); [done|].
  induction l as [|o l IH]; [done|]. cbn. rewrite (Hp o) by by left. apply IH. intros x Hx. apply Hp. by right.
Qed.
Lemma latency_measured l : latency (List.filter measured l) = latency l.
Proof. unfold latency. by rewrite filter_idemp. Qed.
Lemma drifting_measured l : drifting (List.filter measured l) = drifting l.
Proof. unfold drifting. by rewrite filter_idemp. Qed.

Lemma flagged_or_not p (l : list ScenarioOutcome) : count p l + count (λ o, negb (p o)) l = Z.of_nat (length l).
Proof. induction l as [|o l IH]; [done|]. rewrite !count_cons. cbn [length]. destruct (p o); cbn; lia. Qed.

(** A run that failed moves no measurement: every rate, mean, distribution and latency
    of a batch is the one of the batch without its failed runs. *)
Theorem failed_runs_move_no_metric (l : list ScenarioOutcome) (c : RiskConfig) :
  ∃ m, compute_metrics l c = Ok m ∧ compute_metrics (List.filter measured l) c = Ok (without_errors m) ∧
    rm_errors m = count (λ o, negb (measured o)) l.
Proof.
  unfold compute_metrics. rewrite latency_measured, filter_idemp.
  destruct (latency_total l) as (lat & -> & _). unfold determinism. rewrite drifting_measured.
  eexists. split; [reflexivity|]. split.
  - rewrite (ids_where_none (λ o, negb (measured o)) (List.filter measured l)).
    + unfold without_errors. cbn. by rewrite Z.sub_diag.
    + intros o [_ ->]%elem_of_filter_bool. done.
  - cbn [rm_errors]. pose proof (flagged_or_not measured l) as E. unfold count in *. lia.
Qed.

(** ** The counts *)
Lemma labels_partition (l : list ScenarioOutcome) :
  Z.of_nat (length (List.filter (labelled RiskLabel.BENIGN) l)) + Z.of_nat (length (List.filter (labelled RiskLabel.RISKY) l))
  = Z.of_nat (length l).
Proof.
  change (count (labelled RiskLabel.BENIGN) l + count (labelled RiskLabel.RISKY) l = Z.of_nat (length l)).
  induction l as [|o l IH]; [done|]. rewrite !count_cons. cbn [length].
  assert (E : (if labelled RiskLabel.BENIGN o then 1 else 0) + (if labelled RiskLabel.RISKY o then 1 else 0) = 1)
    by (unfold labelled; by destruct (so_label o)).
  lia.
Qed.

(** Counted keys: each key of a list once, with its number of occurrences. *)
Lemma tally_spec keys :
  NoDup (map fst (tally keys)) ∧
  ∀ k, py_dict_get k (tally keys) = if count (String.eqb k) keys =? 0 then None else Some (count (String.eqb k) keys).
Proof.
  induction keys as [|x keys [Hd Hg]] using rev_ind; [split; [constructor|done]|].
  assert (E : tally (keys ++ [x]) = py_dict_set x (default 0 (py_dict_get x (tally keys)) + 1) (tally keys))
    by (unfold tally; by rewrite fold_left_app).
  rewrite E. split; [by apply dict_NoDup_set|]. intros k. rewrite dict_get_set.
  assert (Ec : count (String.eqb k) (keys ++ [x]) = count (String.eqb k) keys + if String.eqb k x then 1 else 0)
    by (unfold count; rewrite List.filter_app, length_app; cbn [List.filter]; destruct (String.eqb k x); cbn [length]; lia).
  pose proof (count_nonneg (String.eqb k) keys) as Hn. rewrite Ec. clear Ec. destruct (String.eqb_spec k x) as [Ek|Hne].
  - subst k. rewrite Hg. destruct (Z.eqb_spec (count (String.eqb x) keys) 0) as [->|H]; cbn; [done|].
    by rewrite (proj2 (Z.eqb_neq _ 0)) by lia.
  - by rewrite Z.add_0_r.
Qed.

(** A rate is undefined exactly without runs, and between zero and one otherwise. *)
Lemma rate_spec n d : 0 <= n <= d →
  match rate n d with
  | None => d = 0
  | Some x => 0 < d ∧ nonneg_finite x ∧ 0 <= fx x <= fx fl_one
  end.
Proof.
  intros Hn. unfold rate. destruct (Z.eqb_spec d 0) as [->|Hd]; [done|].
  destruct nonneg_one as [H1 E1]. destruct (truediv_within n d fl_one) as (x & -> & Hx & Hle); [lia|lia|done| |].
  - rewrite E1. pose proof unit_pos. nia.
  - pose proof (fx_range x (proj1 Hx)). split; [lia|]. split; [done|lia].
Qed.

(** Every run is counted, and none twice: failed and measured runs make up the batch,
    the two labels the measured ones, the flagged and the missed the risky ones; a rate is
    [None] exactly when it has no runs, and otherwise in [0, 1]. *)
Theorem every_assessment_is_counted (l : list ScenarioOutcome) (c : RiskConfig) (m : RiskMetrics) :
  compute_metrics l c = Ok m →
  rm_total_assessments m = Z.of_nat (length l) ∧
  rm_measured_assessments m + rm_errors m = rm_total_assessments m ∧
  rm_benign_runs m + rm_risky_runs m = rm_measured_assessments m ∧
  rm_risky_flagged m + rm_risky_missed m = rm_risky_runs m ∧
  0 <= rm_benign_flagged m <= rm_benign_runs m ∧ 0 <= rm_risky_missed m ∧
  (rm_risk_detection_rate m = None ↔ rm_risky_runs m = 0) ∧
  (rm_false_negative_rate m = None ↔ rm_risky_runs m = 0) ∧
  (rm_false_positive_rate m = None ↔ rm_benign_runs m = 0) ∧
  Forall (λ r, match r with Some x => nonneg_finite x ∧ fl_leb x fl_one = true | None => True end)
    [rm_risk_detection_rate m; rm_false_negative_rate m; rm_false_positive_rate m].
Proof.
  unfold compute_metrics. destruct (determinism l) as [det drift]. intros (lat & _ & E)%outcome_bind_Ok. injection E as <-.
  cbn. set (risky := List.filter (labelled RiskLabel.RISKY) _). set (benign := List.filter (labelled RiskLabel.BENIGN) _).
  pose proof (count_nonneg (flagged (review_threshold c)) risky) as Hr.
  pose proof (count_nonneg (flagged (review_threshold c)) benign) as Hb.
  pose proof (labels_partition (List.filter measured l)) as Hl. fold risky benign in Hl.
  assert (Hone : ∀ n d, 0 <= n <= d → (rate n d = None ↔ d = 0) ∧
    match rate n d with Some x => nonneg_finite x ∧ fl_leb x fl_one = true | None => True end).
  { intros n d Hnd. pose proof (rate_spec n d Hnd) as Hs. destruct (rate n d) as [x|].
    - destruct Hs as (Hd & Hx & Hx1). split; [split; [done|lia]|]. split; [done|].
      rewrite leb_fx by (apply Hx || apply nonneg_one). apply Z.leb_le. lia.
    - by split. }
  destruct (Hone _ _ Hr) as [R1 R2], (Hone _ _ Hb) as [B1 B2].
  destruct (Hone (Z.of_nat (length risky) - count (flagged (review_threshold c)) risky) (Z.of_nat (length risky)) ltac:(lia))
    as [N1 N2].
  split_and!; (done || lia || (repeat constructor; done)).
Qed.

(** ** The sweep *)
Lemma count_le {A} (p q : A → bool) l : (∀ x, x ∈ l → p x = true → q x = true) → count p l <= count q l.
Proof.
  induction l as [|x l IH]; [done|]. intros Hpq. rewrite !count_cons.
  assert (count p l <= count q l) by (apply IH; intros y Hy; apply Hpq; by right).
  specialize (Hpq x ltac:(by left)). destruct (p x); [by rewrite Hpq; [lia|]|]. destruct (q x); lia.
Qed.
Lemma StronglySorted_map {A B} (R : B → B → Prop) (f : A → B) (l : list A) :
  StronglySorted (λ a b, R (f a) (f b)) l → StronglySorted R (map f l).
Proof. induction 1 as [|a l Hl IH Ha]; cbn; constructor; [done|]. by apply Forall_map. Qed.
Lemma StronglySorted_weaken {A} (R R' : A → A → Prop) l :
  (∀ a b, a ∈ l → b ∈ l → R a b → R' a b) → StronglySorted R l → StronglySorted R' l.
Proof.
  intros Hw. induction 1 as [|a l Hl IH Ha]; constructor.
  - apply IH. intros x y Hx Hy. apply Hw; by right.
  - rewrite Forall_forall in Ha |- *. intros y Hy. apply Hw; [by left|by right|by apply Ha].
Qed.

(** A positive float is equal to itself alone, and its distance to itself is zero. *)
Lemma positive_eqb x y : fl_ltb fl_zero x = true → fl_eqb x y = true → x = y.
Proof.
  unfold fl_ltb, fl_eqb, SFltb, SFeqb.
  destruct x as [?|[]| |[] m e], y as [?|[]| |[] m' e']; cbn [SFcompare fl_zero]; try done.
  destruct (Z.compare_spec e e') as [->|?|?]; [|done..].
  change (Pos.compare_cont Eq m m') with (m ?= m')%positive. by destruct (Pos.compare_spec m m') as [->|?|?].
Qed.
Lemma sub_self x : fl_is_finite x = true → fl_abs (fl_sub x x) = fl_zero.
Proof.
  destruct x as [s|s| |s m e]; intros Hf; try done; [by destruct s|]. unfold fl_sub. cbn [SFsub]. by rewrite Z.sub_diag.
Qed.

Lemma float_set_snoc l x :
  float_set (l ++ [x]) = if existsb (fl_eqb x) (float_set l) then float_set l else float_set l ++ [x].
Proof. unfold float_set. by rewrite fold_left_app. Qed.
Lemma float_set_subset l x : x ∈ float_set l → x ∈ l.
Proof.
  induction l as [|y l IH] using rev_ind; [done|]. rewrite float_set_snoc, elem_of_app, list_elem_of_singleton.
  destruct (existsb _ _); [by left; apply IH|]. rewrite elem_of_app, list_elem_of_singleton. intros [Hx|Hx]; [left|right]; auto.
Qed.
Lemma float_set_last l x : fl_ltb fl_zero x = true → x ∈ float_set (l ++ [x]).
Proof.
  intros Hx. rewrite float_set_snoc. destruct (existsb (fl_eqb x) (float_set l)) eqn:E.
  - apply existsb_exists in E as (y & Hy & Exy). apply positive_eqb in Exy as <-; [|done]. by apply list_elem_of_In.
  - apply elem_of_app. right. by left.
Qed.

Lemma sweep_thresholds_spec c : nonneg c → Forall nonneg (float_set (SWEEP_THRESHOLDS ++ [c])).
Proof.
  intros Hc. apply Forall_forall. intros x [Hx|Hx]%float_set_subset%elem_of_app.
  - assert (Hall : forallb nonneg_finiteb SWEEP_THRESHOLDS = true) by by vm_compute.
    apply forallb_forall with (x := x) in Hall; [|by apply list_elem_of_In].
    by apply nonneg_finiteb_spec in Hall as [H _].
  - by apply list_elem_of_singleton in Hx as ->.
Qed.

(** A higher operating point flags no more of either label, among as many runs. *)
Definition stricter (p q : ThresholdPoint) : Prop :=
  fl_leb (tp_threshold p) (tp_threshold q) = true ∧
  tp_risky_flagged q <= tp_risky_flagged p ∧ tp_benign_flagged q <= tp_benign_flagged p ∧
  tp_risky_total q = tp_risky_total p ∧ tp_benign_total q = tp_benign_total p.
Definition scored (o : ScenarioOutcome) : Prop := nonneg (so_score o).

Lemma flagged_antitone t t' o : nonneg t → nonneg t' → scored o → fl_leb t t' = true → flagged t' o = true → flagged t o = true.
Proof. intros Ht Ht' Ho. unfold flagged, scored in *. rewrite !leb_fx, !Z.leb_le by done. lia. Qed.
Lemma sweep_point_antitone risky benign c t t' :
  Forall scored risky → Forall scored benign → nonneg t → nonneg t' → fl_leb t t' = true →
  stricter (sweep_point risky benign c t) (sweep_point risky benign c t').
Proof.
  intros Hr Hb Ht Ht' Hle. rewrite Forall_forall in Hr, Hb. unfold stricter, sweep_point. cbn.
  split_and!; try done; apply count_le; intros o Ho; apply flagged_antitone; auto.
Qed.
Lemma sweep_antitone l c : Forall scored l → nonneg c → StronglySorted stricter (sweep l c).
Proof.
  intros Hl Hc. unfold sweep. pose proof (sweep_thresholds_spec c Hc) as Ht.
  assert (Hsub : ∀ p, Forall scored (List.filter p l)).
  { intros p. rewrite Forall_forall in Hl |- *. intros o [Ho _]%elem_of_filter_bool. by apply Hl. }
  apply StronglySorted_map. eapply StronglySorted_weaken; [|apply (py_sorted_StronglySorted fl_leb nonneg); [| |exact Ht]].
  - intros t t'. rewrite !py_sorted_Permutation. rewrite Forall_forall in Ht. intros H1 H2. apply sweep_point_antitone; auto.
  - intros x y Hx Hy. rewrite !leb_fx, !Z.leb_le by done. lia.
  - intros x y z Hx Hy Hz. rewrite !leb_fx, !Z.leb_le by done. lia.
Qed.

(** The sweep goes from the most to the least sensitive operating point, its counts
    falling as it goes, and one of its points is the configured one, marked, with the
    counts and the rates of the headline. *)
Theorem sweep_shows_the_tradeoff (l : list ScenarioOutcome) (c : RiskConfig) (m : RiskMetrics) :
  compute_metrics l c = Ok m → Forall scored l →
  nonneg_finite (review_threshold c) → fl_ltb fl_zero (review_threshold c) = true →
  StronglySorted stricter (rm_threshold_sweep m) ∧
  ∃ p, p ∈ rm_threshold_sweep m ∧ tp_configured p = true ∧ tp_threshold p = rm_review_threshold m ∧
    tp_risky_flagged p = rm_risky_flagged m ∧ tp_risky_total p = rm_risky_runs m ∧
    tp_benign_flagged p = rm_benign_flagged m ∧ tp_benign_total p = rm_benign_runs m ∧
    tp_detection_rate p = rm_risk_detection_rate m ∧ tp_false_positive_rate p = rm_false_positive_rate m.
Proof.
  unfold compute_metrics. destruct (determinism l) as [det drift]. intros (lat & _ & E)%outcome_bind_Ok Hl [Hc Hf] Hpos.
  injection E as <-. cbn [rm_threshold_sweep]. split.
  - apply sweep_antitone; [|done]. rewrite Forall_forall in Hl |- *. intros o [Ho _]%elem_of_filter_bool. by apply Hl.
  - assert (Hsub : ∀ x, List.filter (λ o, measured o && labelled x o) (List.filter measured l)
      = List.filter (labelled x) (List.filter measured l)).
    { intros x. apply filter_ext_in. intros o Ho%filter_In. by destruct Ho as [_ ->]. }
    unfold sweep. rewrite !Hsub. eexists. split; [apply list_elem_of_fmap; eexists; split; [reflexivity|]|].
    + rewrite py_sorted_Permutation. by apply float_set_last.
    + cbn. by rewrite sub_self.
Qed.

(** ** Groups *)
Section Groups.
Context {K V : Type} `{EqDecision K}.
Implicit Types d : list (K * list V).
Fixpoint group_get (k : K) d : list V :=
  match d with [] => [] | (k', vs) :: d => if bool_decide (k = k') then vs else group_get k d end.
Lemma group_get_append k k' v d :
  group_get k (group_append k' v d) = if bool_decide (k = k') then group_get k d ++ [v] else group_get k d.
Proof.
  induction d as [|[k2 vs] d IH]; cbn.
  - by case_bool_decide.
  - destruct (decide (k' = k2)) as [<-|Hne].
    + rewrite (bool_decide_eq_true_2 (k' = k')) by done. cbn. by case_bool_decide.
    + rewrite (bool_decide_eq_false_2 (k' = k2)) by done. cbn. rewrite IH. destruct (decide (k = k2)) as [->|Hk].
      * rewrite (bool_decide_eq_true_2 (k2 = k2)), (bool_decide_eq_false_2 (k2 = k')) by done. done.
      * by rewrite !(bool_decide_eq_false_2 (k = k2)) by done.
Qed.
Lemma group_keys_append k v d : ∀ x, x ∈ map fst (group_append k v d) ↔ x = k ∨ x ∈ map fst d.
Proof.
  induction d as [|[k2 vs] d IH]; intros x; cbn.
  - by rewrite elem_of_cons.
  - case_bool_decide as E; [subst k2|]; cbn; rewrite !elem_of_cons; [tauto|]. rewrite IH. tauto.
Qed.
Lemma group_NoDup_append k v d : NoDup (map fst d) → NoDup (map fst (group_append k v d)).
Proof.
  induction d as [|[k2 vs] d IH]; cbn; [intros _; apply NoDup_singleton|].
  intros [Hk Hd]%NoDup_cons. case_bool_decide as E; cbn; apply NoDup_cons; [done|]. split; [|by apply IH].
  rewrite group_keys_append. intros [Ek|]; [by symmetry in Ek|done].
Qed.
Lemma group_some_append k v d : Forall (λ kv, snd kv ≠ []) d → Forall (λ kv, snd kv ≠ []) (group_append k v d).
Proof.
  induction 1 as [|[k2 vs] d Hv Hd IH]; cbn; [by repeat constructor|].
  case_bool_decide; constructor; try done. cbn. by destruct vs.
Qed.
Lemma group_get_in k vs d : NoDup (map fst d) → Forall (λ kv, snd kv ≠ []) d →
  (k, vs) ∈ d ↔ vs ≠ [] ∧ group_get k d = vs.
Proof.
  induction d as [|[k2 vs2] d IH]; cbn; intros Hk Hv.
  - split; [by intros ?%not_elem_of_nil|]. by intros [Hne <-].
  - apply NoDup_cons in Hk as [Hk Hd]. apply Forall_cons in Hv as [Hv2 Hv]. rewrite elem_of_cons.
    case_bool_decide as E; [subst k2|].
    + split; [intros [[= ->]|Hin]; [done|]|intros [_ ->]; by left]. destruct Hk. apply list_elem_of_fmap. by exists (k, vs).
    + rewrite <-IH by done. split; [intros [[= -> _]|]; done|by right].
Qed.
End Groups.

(** Each key that occurs, once, with the values of its elements in order. *)
Lemma group_by_spec {A K V} `{EqDecision K} (key : A → K) (value : A → V) (l : list A) :
  NoDup (map fst (group_by key value l)) ∧
  ∀ k vs, (k, vs) ∈ group_by key value l ↔
    vs ≠ [] ∧ vs = map value (List.filter (λ a, bool_decide (k = key a)) l).
Proof.
  assert (H0 : NoDup (map fst (group_by key value l)) ∧ Forall (λ kv, snd kv ≠ []) (group_by key value l) ∧
    ∀ k, group_get k (group_by key value l) = map value (List.filter (λ a, bool_decide (k = key a)) l)).
  { induction l as [|a l (Hd & Hs & Hg)] using rev_ind; [split_and!; constructor|].
    assert (E : group_by key value (l ++ [a]) = group_append (key a) (value a) (group_by key value l))
      by (unfold group_by; by rewrite fold_left_app).
    rewrite E. split_and!; [by apply group_NoDup_append|by apply group_some_append|]. intros k.
    rewrite group_get_append, Hg, List.filter_app, map_app. cbn. case_bool_decide; cbn; by rewrite ?app_nil_r. }
  destruct H0 as (Hd & Hs & Hg). split; [done|]. intros k vs. rewrite group_get_in, Hg by done. split; intros [? ?]; by split.
Qed.

(** ** The check of determinism *)
(** The measured runs of a scenario, in the order they ran. *)
Definition runs_of (id : string) (l : list ScenarioOutcome) : list ScenarioOutcome :=
  List.filter (λ o, bool_decide (id = so_scenario_id o)) (List.filter measured l).
(** The two scores are equal to nine places. *)
Definition same_score (first o : ScenarioOutcome) : Prop :=
  fl_eqb (py_round 9 (so_score o)) (py_round 9 (so_score first)) = true.
#[export] Instance same_score_dec first o : Decision (same_score first o).
Proof. unfold same_score. apply _. Defined.

Definition set_step (s : list float) (x : float) : list float := if existsb (fl_eqb x) s then s else s ++ [x].
Lemma set_step_grows l s : (length s <= length (fold_left set_step l s))%nat.
Proof.
  revert s. induction l as [|x l IH]; intros s; [done|]. cbn. etrans; [|apply IH]. unfold set_step.
  destruct (existsb _ _); [done|]. rewrite length_app. lia.
Qed.
Lemma float_set_single x l : (1 <? length (float_set (x :: l)))%nat = false ↔ Forall (λ y, fl_eqb y x = true) l.
Proof.
  change (float_set (x :: l)) with (fold_left set_step l [x]). rewrite Nat.ltb_ge.
  induction l as [|y l IH]; [by split|]. cbn [fold_left]. rewrite Forall_cons. unfold set_step at 2. cbn [existsb].
  rewrite orb_false_r. destruct (fl_eqb y x); [rewrite IH; tauto|]. split; [|by intros [? _]].
  intros Hle. pose proof (set_step_grows l ([x] ++ [y])) as Hg. cbn in Hg, Hle. lia.
Qed.
Lemma drifting_spec l id :
  id ∈ drifting l ↔ ∃ first rest, runs_of id l = first :: rest ∧ ¬ Forall (same_score first) rest.
Proof.
  unfold drifting. rewrite py_sorted_Permutation, list_elem_of_omap.
  destruct (group_by_spec so_scenario_id so_score (List.filter measured l)) as [_ Hg].
  assert (Hset : ∀ first rest, (1 <? length (float_set (map (py_round 9) (map so_score (first :: rest)))))%nat = true
    ↔ ¬ Forall (same_score first) rest).
  { intros first rest. rewrite <-not_false_iff_true. cbn [map]. rewrite float_set_single, !Forall_map. done. }
  split.
  - intros ([k vs] & [Hne Hin]%Hg & E). destruct (_ <? _)%nat eqn:Es; [|done]. injection E as ->.
    fold (runs_of id l) in Hin. rewrite Hin in Es, Hne. destruct (runs_of id l) as [|first rest]; [done|].
    exists first, rest. split; [done|]. by apply Hset.
  - intros (first & rest & E & Hd%Hset). exists (id, map so_score (runs_of id l)). rewrite E, Hd. split; [|done].
    apply Hg. fold (runs_of id l). by rewrite E.
Qed.

(** The check of determinism decides what it claims: it holds exactly when every measured
    run of a scenario scored, to nine places, what the first one did; and the scenarios it
    names are those of which some run did not. *)
Theorem determinism_is_decided (l : list ScenarioOutcome) (c : RiskConfig) (m : RiskMetrics) :
  compute_metrics l c = Ok m →
  (rm_deterministic_across_iterations m = true ↔
     ∀ id first rest, runs_of id l = first :: rest → Forall (same_score first) rest) ∧
  ∀ id, id ∈ rm_nondeterministic_scenarios m ↔
    ∃ first rest, runs_of id l = first :: rest ∧ ¬ Forall (same_score first) rest.
Proof.
  unfold compute_metrics, determinism. intros (lat & _ & E)%outcome_bind_Ok. injection E as <-. cbn. split; [|apply drifting_spec].
  rewrite bool_decide_eq_true. split.
  - intros E id first rest Er. destruct (decide (Forall (same_score first) rest)) as [|Hn]; [done|].
    assert (Hin : id ∈ drifting l) by (apply drifting_spec; by exists first, rest). rewrite E in Hin. by apply not_elem_of_nil in Hin.
  - intros Hall. destruct (drifting l) as [|id ids] eqn:E; [done|].
    destruct (proj1 (drifting_spec l id)) as (first & rest & Er & []); [rewrite E; by left|]. by eapply Hall.
Qed.

(** The table by category has one row for each category and label that was measured, made
    of exactly the scores measured there. *)
Theorem categories_are_complete (l : list ScenarioOutcome) (row : CategoryScores) :
  let runs := List.filter (λ o, bool_decide ((cs_category row, cs_label row) = (so_category o, so_label o)))
                (List.filter measured l) in
  row ∈ by_category l ↔
  runs ≠ [] ∧ row = mkCategoryScores (cs_category row) (cs_label row) (Z.of_nat (length runs))
                      (mean (map so_score runs)) (py_min (map so_score runs)) (py_max (map so_score runs)).
Proof.
  cbn zeta. set (runs := List.filter _ _). unfold by_category.
  destruct (group_by_spec (λ o, (so_category o, so_label o)) so_score (List.filter measured l)) as [_ Hg].
  rewrite list_elem_of_fmap. setoid_rewrite py_sorted_Permutation. split.
  - intros ([[category label] vs] & Erow & [Hne Hin]%Hg). cbn in Erow. subst row. cbn in runs. fold runs in Hin. subst vs.
    cbn. split; [by intros E; rewrite E in Hne|]. by rewrite length_map.
  - intros [Hne Erow]. exists ((cs_category row, cs_label row), map so_score runs). split.
    + cbn. by rewrite length_map.
    + apply Hg. split; [by intros ?%map_eq_nil|done].
Qed.

(** ** Runs and batches *)
Section Run.
Context `{Env} (server : RiskServer) (library_message : exn → ustr).
Context (perf_counter_ns : World → Z) (time_time : World → float).
Abbreviation run := (run_scenario server library_message perf_counter_ns).

(** The build and the timed assessment of a run, in a database of its own. *)
Definition assessed (scenario : RiskScenario) (iteration : Z) (config : RiskConfig) : P ScenarioOutcome :=
  case ← rs_build scenario;
  result ← timed_assessment server perf_counter_ns case config;
  lift (ScenarioOutcome_new (outcome_of scenario iteration (fst result) (snd result))).

(** What an outcome says of its scenario and its turn. *)
Definition outcome_for (s : RiskScenario) (iteration : Z) (o : ScenarioOutcome) : Prop :=
  so_scenario_id o = rs_id s ∧ so_label o = rs_label s ∧ so_category o = enum_value (rs_category s) ∧
  so_iteration o = iteration.

Lemma ScenarioOutcome_new_Ok o x : ScenarioOutcome_new o = Ok x →
  x = o ∧ 1 <= so_iteration o ∧ fl_leb fl_zero (so_score o) = true ∧ fl_leb (so_score o) fl_one = true ∧
  fl_leb fl_zero (so_assess_ms o) = true.
Proof.
  unfold ScenarioOutcome_new. destruct (Z.ltb_spec (so_iteration o) 1); [done|].
  destruct (_ && _) eqn:Es; [|done]. destruct (fl_leb fl_zero (so_assess_ms o)); [|done].
  intros [= ->]. apply andb_true_iff in Es as [-> ->]. done.
Qed.
Lemma ScenarioOutcome_new_error s i e : 1 <= i → ScenarioOutcome_new (error_outcome s i e) = Ok (error_outcome s i e).
Proof. intros Hi. unfold ScenarioOutcome_new. cbn. by rewrite (proj2 (Z.ltb_ge i 1) Hi). Qed.

Lemma yields_assessed s i c : yields (λ o, outcome_for s i o ∧ so_error o = None ∧ fl_leb fl_zero (so_score o) = true ∧
  fl_leb (so_score o) fl_one = true) (assessed s i c).
Proof.
  unfold assessed. do 2 (eapply yields_bind; [apply yields_any|intros ? _]). apply yields_lift.
  intros o (-> & _ & Hl & Hu & _)%ScenarioOutcome_new_Ok. by split_and!.
Qed.

(** The run of a scenario is always an outcome, and no other run sees it.  Whatever the
    build or the assessment does, [run_scenario] returns a row for the scenario and the
    iteration, having left the caller's database and the log of provider calls as they
    were; the row carries a measured score in [0, 1] exactly when nothing raised, and the
    text of the exception otherwise. *)
Theorem every_run_is_an_outcome (s : RiskScenario) (i : Z) (c : RiskConfig) (w : World) :
  1 <= i →
  ∃ o w', run s i c w = (Ok o, w') ∧ outcome_for s i o ∧
    w_db w' = w_db w ∧ w_committed w' = w_committed w ∧ w_calls w' = w_calls w ∧
    match fst (assessed s i c (make_sqlite_context w)) with
    | Ok o' => o = o' ∧ measured o = true ∧ fl_leb fl_zero (so_score o) = true ∧ fl_leb (so_score o) fl_one = true
    | Raise e => measured o = false ∧ so_error o = Some (take 300 (failure_reason library_message e))
    end.
Proof.
  intros Hi. unfold run_scenario, run_in_context, try_except. fold (assessed s i c).
  pose proof (yields_assessed s i c (make_sqlite_context w)) as Hy.
  destruct (assessed s i c (make_sqlite_context w)) as [[o|e] w1]; cbn [fst].
  - destruct (Hy o w1 eq_refl) as (Ho & Hm & Hl & Hu). eexists o, _. split; [reflexivity|]. unfold measured. rewrite Hm. by split_and!.
  - unfold lift. rewrite ScenarioOutcome_new_error by done. eexists _, _. split; [reflexivity|]. by split_and!.
Qed.

(** The pairs a batch has to run, in order. *)
Fixpoint agenda (l : list RiskScenario) (first : Z) (n : nat) : list (RiskScenario * Z) :=
  match n with O => [] | S n => map (λ s, (s, first)) l ++ agenda l (first + 1) n end.
Lemma agenda_length l first n : length (agenda l first n) = (n * length l)%nat.
Proof. revert first. induction n as [|n IH]; intros first; [done|]. cbn. by rewrite length_app, length_map, IH. Qed.

Definition covers (plan : list (RiskScenario * Z)) (os : list ScenarioOutcome) : Prop :=
  Forall2 (λ si o, outcome_for (fst si) (snd si) o) plan os.
Lemma run_all_returns l i c w : 1 <= i →
  ∃ os w', run_all server library_message perf_counter_ns l i c w = (Ok os, w') ∧ covers (map (λ s, (s, i)) l) os ∧
    w_db w' = w_db w ∧ w_committed w' = w_committed w ∧ w_calls w' = w_calls w.
Proof.
  intros Hi. revert w. induction l as [|s l IH]; intros w; cbn [run_all].
  - eexists [], w. split; [reflexivity|]. split; [constructor|done].
  - destruct (every_run_is_an_outcome s i c w Hi) as (o & w1 & E1 & Ho & Hdb & Hcom & Hcalls & _).
    destruct (IH w1) as (os & w2 & E2 & Hos & Hdb' & Hcom' & Hcalls').
    exists (o :: os), w2. unfold mbind, M_bind. rewrite E1, E2. split; [done|]. split; [constructor; [exact Ho|exact Hos]|split_and!; congruence].
Qed.
Lemma iterate_returns l c first n w : 1 <= first →
  ∃ os w', iterate server library_message perf_counter_ns l c first n w = (Ok os, w') ∧ covers (agenda l first n) os ∧
    w_db w' = w_db w ∧ w_committed w' = w_committed w ∧ w_calls w' = w_calls w.
Proof.
  revert first w. induction n as [|n IH]; intros first w Hf; cbn [iterate agenda].
  - eexists [], w. split; [reflexivity|]. split; [constructor|done].
  - destruct (run_all_returns l first c w Hf) as (os & w1 & E1 & Hos & Hdb & Hcom & Hcalls).
    destruct (IH (first + 1) w1 ltac:(lia)) as (more & w2 & E2 & Hmore & Hdb' & Hcom' & Hcalls').
    exists (os ++ more), w2. unfold mbind, M_bind. rewrite E1, E2. split; [done|]. split; [by apply Forall2_app|split_and!; congruence].
Qed.

(** A report on a batch. *)
Definition reports (id : string) (selected : list RiskScenario) (iterations : Z) (config : RiskConfig)
    (report : EvaluationReport) : Prop :=
  er_run_id report = id ∧ er_iterations report = iterations ∧
  er_scenarios_selected report = Z.of_nat (length selected) ∧
  covers (agenda selected 1 (Z.to_nat iterations)) (er_outcomes report) ∧
  compute_metrics (er_outcomes report) config = Ok (er_metrics report) ∧
  rm_total_assessments (er_metrics report) = iterations * Z.of_nat (length selected).

Lemma covers_total l n os c m :
  0 <= n → covers (agenda l 1 (Z.to_nat n)) os → compute_metrics os c = Ok m → rm_total_assessments m = n * Z.of_nat (length l).
Proof.
  intros Hn Hc. apply Forall2_length in Hc. rewrite agenda_length in Hc. unfold compute_metrics.
  destruct (determinism os). intros (lat & _ & E)%outcome_bind_Ok. injection E as <-. cbn. rewrite <-Hc. nia.
Qed.

(** A batch reports on everything it selected.  [evaluate] of at least one iteration under a
    given name leaves the caller's database and the provider calls as they were, whatever
    the scenarios do; and it ends with a report whose outcomes are, in order, one for each
    selected scenario in each iteration and whose metrics are those of these outcomes,
    unless the wall clock ran backwards meanwhile. *)
Theorem evaluation_reports_every_run (corpus : list RiskScenario) (scenarios : option (list RiskScenario)) (iterations : Z)
    (config : option RiskConfig) (id : string) (w : World) :
  1 <= iterations → id ≠ "" →
  ∃ r w' n, evaluate server library_message perf_counter_ns time_time corpus scenarios iterations config (Some id) w = (r, w') ∧
    w_db w' = w_db w ∧ w_committed w' = w_committed w ∧ w_calls w' = w_calls w ∧
    match duration (env_utcnow (w_ticks w)) (env_utcnow n) with
    | Raise e => r = Raise e
    | Ok d =>
        if fl_leb fl_zero d
        then ∃ report, r = Ok report ∧ er_duration_ms report = d ∧
               reports id (default corpus scenarios) iterations (default DEFAULT_RISK_CONFIG config) report
        else r = Raise (ValidationError "duration_ms")
    end.
Proof.
  intros Hi Hid. unfold evaluate. rewrite (proj2 (Z.ltb_ge _ _) Hi). unfold batch_id.
  rewrite (proj2 (String.eqb_neq _ _) Hid). set (selected := default corpus scenarios). set (settings := default _ config).
  unfold utcnow, mbind, M_bind. cbn [mret M_ret]. set (w0 := mkWorld _ _ _ _ _ _).
  destruct (iterate_returns selected settings 1 (Z.to_nat iterations) w0 ltac:(done)) as (os & w1 & -> & Hos & Hdb & Hcom & Hcalls).
  destruct (compute_metrics_total os settings) as [m Em]. unfold lift. rewrite Em.
  set (w2 := mkWorld _ _ _ _ _ _). destruct (duration (env_utcnow (w_ticks w)) (env_utcnow (w_ticks w1))) as [d|e] eqn:Ed.
  - destruct (fl_leb fl_zero d) eqn:El; cbn [negb].
    + eexists _, w2, (w_ticks w1). rewrite Ed, El. split_and!; try done. eexists. split; [reflexivity|]. split; [done|].
      split_and!; try done. cbn. eapply covers_total; [lia|exact Hos|exact Em].
    + eexists _, w2, (w_ticks w1). rewrite Ed, El. by split_and!.
  - eexists _, w2, (w_ticks w1). rewrite Ed. by split_and!.
Qed.
End Run.

(** ** On concrete batches *)
Definition demo_outcome (id : string) (label : RiskLabel) (score : float) (error : option ustr) : ScenarioOutcome :=
  mkScenarioOutcome id id label "BASELINE" 1 score RiskBand.LOW RiskRecommendation.PROCEED [] None true false true fl_one error.
Definition demo_batch : list ScenarioOutcome :=
  [demo_outcome "a" RiskLabel.RISKY (fl_lit 6 10) None; demo_outcome "b" RiskLabel.RISKY (fl_lit 1 10) None;
   demo_outcome "c" RiskLabel.RISKY (fl_lit 2 10) None; demo_outcome "d" RiskLabel.BENIGN (fl_lit 1 10) None;
   demo_outcome "e" RiskLabel.RISKY fl_zero (Some (u "ValueError: x"))].

(** The header calls the rate of misses one less the detection rate; rounded to doubles,
    one hit in three makes them differ in the last place. *)
Example miss_rate_is_not_the_complement :
  rate 1 3 = Some (fl_lit 1 3) ∧ rate 2 3 = Some (fl_lit 2 3) ∧ fl_eqb (fl_lit 2 3) (fl_sub fl_one (fl_lit 1 3)) = false.
Proof. repeat split; vm_compute; reflexivity. Qed.
Example demo_metrics :
  match compute_metrics demo_batch DEFAULT_RISK_CONFIG with
  | Ok m => (rm_errors m, rm_risky_flagged m, rm_risky_missed m, rm_risk_detection_rate m, rm_missed_risky_scenarios m,
             map tp_risky_flagged (rm_threshold_sweep m), map tp_configured (rm_threshold_sweep m))
            = (1, 1, 2, rate 1 3, ["b"; "c"], [3; 1; 1; 0], [false; true; false; false])
  | Raise _ => False
  end.
Proof. vm_compute. reflexivity. Qed.
