(* ===== verification/AttackContext.v ===== *)
(** * The attack lab: the context of a scenario

    services/attack_lab/context.py and scenarios/_helpers.py: the private database and
    provider a scenario acts on, the starting states it is given through the kernel's own
    entry points, the counts it compares before and after, and the reads and drives the
    scenarios share.  The tables a query sorts are read in the order the database server
    chooses ([Server]). *)
From S2P Require Import Prelude Python PyFloat PyText Json Text Enums Errors Firewall Canonical Transaction.
From S2P Require Import StateMachines Merchant Kernel Policy Payment Database Hashing Evolution Ledger Binding.
From S2P Require Import Authorization Outbox Intents Provider Executor Reconciliation Worker Orchestrator.
From S2P Require Import DecisionTrace Replay RiskFeatures Routes AttackLab.

Definition FIXED_EXPIRY : datetime := utc 1893499200000000.
Definition DEFAULT_AMOUNT_INR : Z := 3799.

(** What one scenario run is allowed to touch, besides its database: the provider it
    was made with.  What became of the provider is in the log of the calls. *)
Record ScenarioContext := mkScenarioContext {
  cx_backend : Backend;
  cx_provider : Fake.FakePaymentProvider
}.
Definition new_context (backend : Backend) : ScenarioContext :=
  mkScenarioContext backend (Fake.new_fake Fake.SUCCESS []).

(** A dict of counts. *)
Definition counts := list (string * Z).
(** [_helpers.py effect_delta]. *)
Definition effect_delta (before after : counts) : counts :=
  map (λ '(key, value), (key, default 0 (py_dict_get key after) - value)) before.
(** [d[key]] of a dict that holds the key. *)
Definition count_of (key : string) (d : counts) : Z := default 0 (py_dict_get key d).
Definition dump_counts (d : counts) : json := JObj (map (λ '(k, n), (k, JInt n)) d).

(** [_helpers.py DEFAULT_CONSTRAINTS], and [constraints] with its overrides. *)
Definition DEFAULT_CONSTRAINTS : MissionConstraints :=
  mkMissionConstraints "wireless_earbuds" 4000 4500 (fl_lit 42 10) "INR" None [] fl0.
Definition constraints (overrides : MissionConstraints → MissionConstraints) : outcome exn MissionConstraints :=
  MissionConstraints_new (overrides DEFAULT_CONSTRAINTS).
(** The overrides scenarios use. *)
Definition with_budgets (soft hard : Z) (c : MissionConstraints) : MissionConstraints :=
  mkMissionConstraints (mc_category c) soft hard (mc_min_rating c) (mc_currency c) (mc_allowed_merchants c)
    (mc_blocked_merchants c) (mc_min_merchant_trust c).
Definition with_min_rating (rating : float) (c : MissionConstraints) : MissionConstraints :=
  mkMissionConstraints (mc_category c) (mc_soft_budget_inr c) (mc_hard_limit_inr c) rating (mc_currency c)
    (mc_allowed_merchants c) (mc_blocked_merchants c) (mc_min_merchant_trust c).
Definition with_blocked_merchants (l : list string) (c : MissionConstraints) : MissionConstraints :=
  mkMissionConstraints (mc_category c) (mc_soft_budget_inr c) (mc_hard_limit_inr c) (mc_min_rating c) (mc_currency c)
    (mc_allowed_merchants c) l (mc_min_merchant_trust c).
Definition with_min_trust (trust : float) (c : MissionConstraints) : MissionConstraints :=
  mkMissionConstraints (mc_category c) (mc_soft_budget_inr c) (mc_hard_limit_inr c) (mc_min_rating c) (mc_currency c)
    (mc_allowed_merchants c) (mc_blocked_merchants c) trust.

(** [b.hex()]. *)
Definition bytes_hex (l : bytes) : string := foldr (λ b s, hex_fixed 2 b +:+ s) "" l.
(** [str(d)]. *)
Definition str_datetime (d : datetime) : string :=
  date_str (dt_local d) +:+ " " +:+ clock_str (dt_local d)
  +:+ (if dt_local d mod 1000000 =? 0 then "" else "." +:+ micros_str (dt_local d))
  +:+ match dt_offset d with None => "" | Some o => offset_str o end.

Section Context.
Context `{Env} (server : Server) (library_message : exn → ustr).

(** An action of a scenario, as the runner sees what it raises. *)
Definition acting {A} (m : P A) : M World LabError A := λ w,
  match m w with
  | (Ok a, w') => (Ok a, w')
  | (Raise e, w') => (Raise (Raised (exn_type_name e) (exn_str library_message e)), w')
  end.

(** ** Counts *)
Definition provider_now (c : ScenarioContext) (w : World) : Fake.FakePaymentProvider :=
  Fake.after_calls (cx_provider c) (w_calls w).
Definition length_of {A} (l : list A) : Z := Z.of_nat (length l).
Definition table_counts (d : DB) : counts :=
  [("missions", Z.of_nat (size (db_missions d)));
   ("mission_constraints", length_of (List.filter (λ m, is_some (ms_constraints (snd m))) (map_to_list (db_missions d))));
   ("offers", length_of (db_offers d));
   ("policy_decisions", length_of (db_decisions d));
   ("authorizations", Z.of_nat (size (db_auths d)));
   ("payment_intents", Z.of_nat (size (db_intents d)));
   ("outbox_events", length_of (db_outbox d));
   ("webhook_events", length_of (db_webhooks d));
   ("audit_events", length_of (db_audit d))].
Definition census (c : ScenarioContext) : P counts :=
  with_session
    (tables ← reads table_counts;
     payments ← gets (λ w, length_of (Fake.created_payments (provider_now c w)));
     mret (tables ++ [("provider_payments", payments)])).
Definition payment_intent_count : P Z := with_session (reads (λ d, Z.of_nat (size (db_intents d)))).
Definition provider_payment_count (c : ScenarioContext) (idempotency_key : string) : P Z :=
  gets (λ w, Fake.payment_count_for idempotency_key (provider_now c w)).

(** ** Legitimate starting states *)
Definition make_mission (state : MissionState) : P uuid :=
  with_session
    (mission_id ← uuid4;
     insert_mission (mkMissionRow mission_id None 1 state None);;
     commit;;
     mret mission_id).

(** [bound_transaction(amount_inr=..., expires_at=...)]. *)
Definition bound_transaction (amount_inr : Z) (expires_at : datetime) : P BoundTransaction :=
  nonce ← token_hex;
  lift (BoundTransaction_new (mkBoundTransaction "merchant_a" "P1" 1 amount_inr "INR" "policy-v1" "offer-v1" expires_at nonce)).

(** The decision that allows exactly the transaction. *)
Definition record_allow (mission_id : uuid) (transaction : BoundTransaction) : P unit :=
  decision_id ← uuid4;
  let row := mkPolicyDecisionRow decision_id mission_id PolicyOutcome.ALLOW (bt_policy_version transaction)
    [ReasonCode.WITHIN_LIMITS] (Some (bt_amount_inr transaction)) (bt_amount_inr transaction) (bt_amount_inr transaction)
    None in
  writes (λ d, set_db_decisions (db_decisions d ++ [row]) d).

Definition authorized_mission (amount_inr : Z) (expires_at : option datetime) (activate : bool)
    : P (uuid * uuid * BoundTransaction) :=
  mission_id ← make_mission MissionState.POLICY_CHECKED;
  transaction ← bound_transaction amount_inr (default FIXED_EXPIRY expires_at);
  authorization_id ← with_session
    (record_allow mission_id transaction;;
     row ← issue_authorization (security_kernel_capabilities "security-kernel") mission_id transaction
             ApprovalScheme.POLICY_AUTO None;
     (if activate then
        activate_authorization (au_authorization_id row) None;;
        set_mission_state mission_id MissionState.AUTHORIZED
      else mret tt);;
     commit;;
     mret (au_authorization_id row));
  mret (mission_id, authorization_id, transaction).

Definition expired_authorization (ttl : Z) : P (uuid * uuid * BoundTransaction * datetime) :=
  let issued_at := utc 1767268800000000 in
  let expires_at := dt_add issued_at ttl in
  mission_id ← make_mission MissionState.POLICY_CHECKED;
  transaction ← bound_transaction DEFAULT_AMOUNT_INR expires_at;
  authorization_id ← with_session
    (record_allow mission_id transaction;;
     row ← issue_authorization (security_kernel_capabilities "security-kernel") mission_id transaction
             ApprovalScheme.POLICY_AUTO (Some issued_at);
     (activate_authorization (au_authorization_id row) (Some issued_at);;
      set_mission_state mission_id MissionState.AUTHORIZED);;
     commit;;
     mret (au_authorization_id row));
  mret (mission_id, authorization_id, transaction, dt_add expires_at (seconds 1)).

(** The harness signs as the external approver: its key is outside, a function of the
    message; the settings hold its public half and its identifier. *)
Definition demo_approver_signing_key_id : string := "attack-harness-demo-user-ed25519-v1".
Definition demo_approval_signature (demo_sign : bytes → bytes) (row : AuthorizationRow) : outcome exn string :=
  message ← approval_message (au_authorization_id row) (au_mission_id row) (au_binding_version row)
              (au_transaction_digest row) demo_approver_signing_key_id;
  Ok (bytes_hex (demo_sign message)).
Definition approve_pending_user_authorization (demo_sign : bytes → bytes) (row : AuthorizationRow) : P AuthorizationRow :=
  signature_hex ← lift (demo_approval_signature demo_sign row);
  approve_authorization_with_signature (au_mission_id row) (au_authorization_id row) demo_approver_signing_key_id
    signature_hex None.

(** ** _helpers.py *)
Definition run_mission (merchants : list MerchantAgent) (mission_constraints : MissionConstraints) (quantity : Z)
    (raw_query : option string) : P uuid :=
  with_session
    (request ← lift (CreateMissionRequest_new (mkCreateMissionRequest raw_query quantity mission_constraints));
     mission_id ← run merchants default_merchant_registry request;
     commit;;
     mret mission_id).

Definition snapshot_offer (o : OfferRow) : json :=
  JObj [("merchant_id", JStr (of_merchant_id o));
        ("claimed_merchant_id", jget "claimed_merchant_id" (of_raw o));
        ("merchant_trust", JFloat (of_merchant_trust o));
        ("product_id", JStr (of_product_id o));
        ("amount_inr", JInt (of_amount_inr o));
        ("currency", JStr (of_currency o));
        ("rating", JFloat (of_rating o));
        ("valid", JBool (of_valid o));
        ("rejection_reasons", reason_values (of_rejection_reasons o));
        ("rank", jint_opt (of_rank o));
        ("offer_version", JStr (of_offer_version o))].
Definition snapshot_decision (r : PolicyDecisionRow) : json :=
  JObj [("decision", JStr (enum_value (dr_decision r)));
        ("policy_version", JStr (dr_policy_version r));
        ("reason_codes", reason_values (dr_reason_codes r));
        ("requested_amount", jint_opt (dr_requested_amount r));
        ("soft_budget", JInt (dr_soft_budget r));
        ("hard_limit", JInt (dr_hard_limit r))].
Definition snapshot_authorization (r : AuthorizationRow) : json :=
  JObj [("status", JStr (enum_value (au_status r)));
        ("bound_amount_inr", JInt (au_bound_amount_inr r));
        ("bound_merchant_id", JStr (au_bound_merchant_id r));
        ("bound_product_id", JStr (au_bound_product_id r));
        ("bound_currency", JStr (au_bound_currency r));
        ("policy_version", JStr (au_policy_version r))].
(** [event.payload.get("reason_code")]. *)
Definition payload_reason (e : AuditEventRow) : json :=
  match ev_payload e with JObj payload => jget "reason_code" payload | _ => JNull end.
Definition is_violation (e : AuditEventRow) : bool := String.eqb (ev_event_type e) "SECURITY_VIOLATION".

Definition mission_snapshot (mission_id : uuid) : P json_obj :=
  with_session
    (mission ← get_mission mission_id;
     offers ← reads (λ d, sv_by_rank server (mission_offers mission_id d));
     decision ← reads (λ d, sv_latest_decision server (mission_decisions mission_id d));
     authorization ← reads (newest_authorization mission_id);
     events ← list_events mission_id;
     mret [("state", jopt (λ m, JStr (enum_value (ms_state m))) mission);
           ("offers", JList (map snapshot_offer offers));
           ("policy_decision", jopt snapshot_decision decision);
           ("authorization", jopt snapshot_authorization authorization);
           ("event_types", JList (map (λ e, JStr (ev_event_type e)) events));
           ("security_violations", JList (map payload_reason (List.filter is_violation events)))]).

(** The status read back, [None] without a row. *)
Definition authorization_status (authorization_id : uuid) : P (option AuthorizationStatus) :=
  with_session (row ← reload authorization_id; mret (au_status <$> row)).
Definition authorization_row (authorization_id : uuid) : P (option json_obj) :=
  with_session
    (row ← reload authorization_id;
     mret ((λ r, [("status", JStr (enum_value (au_status r)));
                  ("consumed_at", jopt (λ t, JStr (str_datetime t)) (au_consumed_at r));
                  ("bound_amount_inr", JInt (au_bound_amount_inr r));
                  ("bound_merchant_id", JStr (au_bound_merchant_id r))]) <$> row)).
Definition payment_intents_for (mission_id : uuid) : P (list PaymentIntentRow) :=
  with_session (reads (λ d, List.filter (λ r, bool_decide (pi_mission_id r = mission_id)) (intent_rows d))).
Definition payment_intent_state (intent_id : uuid) : P (option PaymentIntentState) :=
  with_session (reads (λ d, pi_state <$> db_intents d !! intent_id)).

(** The worker, with the context's own provider or another. *)
Definition drain_worker (provider : PaymentProvider) (max_events : nat) : P (list string) :=
  outcomes ← drain library_message OtherDialect provider "attack-lab-worker" max_events None;
  mret (map (λ o, match wk_event_type o with Some t => enum_value t | None => "" end)
          (List.filter (λ o, is_some (wk_event_id o)) outcomes)).
Definition worker_step (provider : PaymentProvider) : P (option OutboxEventType) :=
  outcome ← Worker.run_once library_message OtherDialect provider "attack-lab-worker" None DEFAULT_LEASE;
  mret (wk_event_type outcome).
Definition audit_events (mission_id : uuid) : P (list AuditEventRow) := with_session (list_events mission_id).
End Context.

(** ** What the shared helpers come to *)
Section Helpers.
Context `{Env}.

Lemma with_session_Ok {A} (m : P A) w a w' : with_session m w = (Ok a, w') →
  ∃ w1, m (set_w_db (w_committed w) w) = (Ok a, w1) ∧ w' = set_w_db (w_committed w1) w1.
Proof. unfold with_session. destruct (m _) as [o w1]. intros [= -> <-]. by exists w1. Qed.

(** What a session that only reads answers. *)
Lemma session_reads {A} (f : DB → A) w : with_session (reads f) w = (Ok (f (w_committed w)), set_w_db (w_committed w) w).
Proof. reflexivity. Qed.
Lemma authorization_status_run i w :
  authorization_status i w = (Ok (au_status <$> db_auths (w_committed w) !! i), set_w_db (w_committed w) w).
Proof. reflexivity. Qed.
Definition counts_at (c : ScenarioContext) (w : World) : counts :=
  table_counts (w_committed w) ++ [("provider_payments", length_of (Fake.created_payments (provider_now c w)))].
Lemma census_run c w : census c w = (Ok (counts_at c w), set_w_db (w_committed w) w).
Proof. reflexivity. Qed.
(** The change of the number of payment intents. *)
Lemma intents_delta c w w' :
  count_of "payment_intents" (effect_delta (counts_at c w) (counts_at c w'))
  = Z.of_nat (size (db_intents (w_committed w'))) - Z.of_nat (size (db_intents (w_committed w))).
Proof. reflexivity. Qed.
End Helpers.
