(* ===== verification/RiskScenarios.v ===== *)
(** * The corpus of the risk evaluation

    services/risk_engine/scenarios.py: the seventeen labelled cases the harness scores.
    Each builds a mission through the services themselves - the orchestrator, the
    authorization lifecycle, the payment path, the worker - and hands it over with the
    registry it used.  The harness's signing key is a function of the message; the
    verification of webhooks, which no case reaches, is an argument. *)
From S2P Require Import Prelude Python PyFloat PyText Json Text Enums Errors Firewall Canonical Transaction.
From S2P Require Import StateMachines Merchant Kernel Policy Payment Database Hashing Evolution Ledger Binding.
From S2P Require Import Authorization Outbox Intents Provider Executor Reconciliation Worker Orchestrator.
From S2P Require Import DecisionTrace RiskModels RiskFeatures RiskEngine AttackLab RiskEvaluation AttackContext.

(** [s.title()] of an ASCII string: the first letter of each run of letters in capitals. *)
Definition ascii_shift (from to : N) (c : Ascii.ascii) : Ascii.ascii := Ascii.ascii_of_N (Ascii.N_of_ascii c + to - from).
Definition in_letters (first last c : Ascii.ascii) : bool :=
  ((Ascii.N_of_ascii first <=? Ascii.N_of_ascii c)%N && (Ascii.N_of_ascii c <=? Ascii.N_of_ascii last)%N).
Definition is_upper_letter : Ascii.ascii → bool := in_letters "A"%char "Z"%char.
Definition is_lower_letter : Ascii.ascii → bool := in_letters "a"%char "z"%char.
Fixpoint title_from (after_letter : bool) (s : string) : string :=
  match s with
  | "" => ""
  | String c rest =>
      let letter := is_upper_letter c || is_lower_letter c in
      String (if after_letter then (if is_upper_letter c then ascii_shift 65 97 c else c)
              else (if is_lower_letter c then ascii_shift 97 65 c else c))
        (title_from letter rest)
  end.
Definition py_title (s : string) : string := title_from false s.
(** [s.replace("_", " ")]. *)
Fixpoint underscores_to_spaces (s : string) : string :=
  match s with
  | "" => ""
  | String c rest => String (if Ascii.eqb c "_"%char then " "%char else c) (underscores_to_spaces rest)
  end.

Module RiskCorpus.
Import RiskEval.

Definition EXECUTOR : CapabilitySet := payment_executor_capabilities "payment-executor".
Definition KERNEL : CapabilitySet := security_kernel_capabilities "security-kernel".
Definition ASSESS_AT : datetime := utc 1780315200000000.

(** ** Merchants *)
Definition HonestMerchant (merchant_id : string) (price : Z) (rating : float) : MerchantAgent :=
  mkMerchantAgent merchant_id (λ _ _,
    [mkRawMerchantOffer merchant_id "hm-01" "Honest Earbuds" "Plain product copy." (fl_of_Z price) "INR" rating true
       FIXED_TS []]).
(** mock_merchants.py: what is left of the payload once the keys that the schema does not
    define are dropped. *)
Definition SpoofingMerchant (claimed_merchant_id : string) : MerchantAgent :=
  mkMerchantAgent "evil" (λ _ _,
    [mkRawMerchantOffer claimed_merchant_id "evil-eb-99" "Totally Legitimate Earbuds" "Trust me." (fl_of_Z 999) "INR"
       (fl_lit 50 10) true FIXED_TS []]).

Fixpoint registry_of (records : list MerchantRecord) : outcome exn MerchantRegistry :=
  match records with
  | [] => Ok (∅ : gmap string MerchantRecord)
  | r :: rest =>
      record ← MerchantRecord_new r;
      registry ← registry_of rest;
      Ok (<[mr_merchant_id record := record]> (registry : gmap string MerchantRecord))
  end.
Definition registry_with (trust : list (string * float)) : outcome exn MerchantRegistry :=
  registry_of (map (λ '(merchant_id, score),
    mkMerchantRecord merchant_id (py_title (underscores_to_spaces merchant_id)) score true true) trust).
Definition DEFAULT_TRUST : list (string * float) := [("merchant_a", fl_lit 9 10); ("merchant_b", fl_lit 75 100)].
Definition default_registry : outcome exn MerchantRegistry := registry_with DEFAULT_TRUST.

Definition describing {A} (override : A → A) (answer : outcome exn A) : outcome exn A :=
  match answer with Ok payment => Ok (override payment) | Raise e => Raise e end.
(** adversaries.py [MismatchingProvider]: answers that describe another payment. *)
Definition MismatchingProvider (override : ProviderPayment → ProviderPayment) (p : PaymentProvider) : PaymentProvider :=
  mkPaymentProvider (pv_name p) (pv_create_retries_are_idempotent p)
    (λ calls request, describing override (pv_create_payment p calls request))
    (λ calls id key, describing (fmap override) (pv_get_payment p calls id key))
    (pv_verify_webhook p).
(** [model_copy(update={"amount_inr": amount})]. *)
Definition with_amount (amount : Z) (p : ProviderPayment) : ProviderPayment :=
  mkProviderPayment (pp_provider p) (pp_provider_payment_id p) (pp_status p) amount (pp_currency p)
    (pp_idempotency_key p) (pp_provider_order_id p) (pp_provider_transaction_id p) (pp_provider_receipt p)
    (pp_provider_status p) (pp_provider_attempts p) (pp_idempotent_replay p).

(** The constraints of most cases, and those that need the user's approval. *)
Definition min_rating_3_5 : float := fl_lit 35 10.
Definition limits (soft hard : Z) : outcome exn MissionConstraints := constraints (λ d, with_min_rating min_rating_3_5 (with_budgets soft hard d)).
Definition roomy : outcome exn MissionConstraints := limits 20000 25000.
Definition tight : outcome exn MissionConstraints := limits 4000 4500.

Section Corpus.
Context `{Env} (library_message : exn → ustr) (demo_sign : bytes → bytes).
Context (verify_webhook : bytes → string → option string → outcome exn VerifiedWebhookEvent).

Definition fake_with (script : list Fake.FaultMode) : PaymentProvider :=
  Fake.fake_provider (Fake.new_fake Fake.SUCCESS script) verify_webhook.

(** ** Shared construction *)
(** [context.bound_transaction(merchant_id=..., product_id=..., amount_inr=..., nonce=generate_nonce())]:
    the nonce of the defaults is drawn too, and replaced. *)
Definition history_transaction (merchant_id : string) (index amount : Z) : P BoundTransaction :=
  nonce ← token_hex;
  token_hex;;
  lift (BoundTransaction_new (mkBoundTransaction merchant_id ("hist-" +:+ str_int index) 1 amount "INR" "policy-v1"
          "offer-v1" FIXED_EXPIRY nonce)).
Definition seed_one (merchant_id : string) (index amount : Z) : P unit :=
  with_session
    (mission_id ← uuid4;
     insert_mission (mkMissionRow mission_id None 1 MissionState.POLICY_CHECKED None);;
     transaction ← history_transaction merchant_id index amount;
     issue_authorization KERNEL mission_id transaction ApprovalScheme.POLICY_AUTO None;;
     commit).
Fixpoint seed_from (merchant_id : string) (index : Z) (amounts : list Z) : P unit :=
  match amounts with
  | [] => mret tt
  | amount :: rest => seed_one merchant_id index amount;; seed_from merchant_id (index + 1) rest
  end.
Definition seed_merchant_history (merchant_id : string) (amounts : list Z) : P unit := seed_from merchant_id 0 amounts.

(** An authorization presented, and a refusal passed over. *)
Definition present_and_ignore (authorization_id : uuid) (transaction : BoundTransaction) : P unit :=
  try_except
    (consume_authorization authorization_id transaction (Some FIXED_TS);; mret tt)
    (λ e, match e with AuthorizationFailure _ _ _ => mret tt | _ => raise e end).
Definition authorization_or (message : string) (mission_id : uuid) : P AuthorizationRow :=
  row ← reads (newest_authorization mission_id);
  match row with None => raise (RuntimeError message) | Some row => mret row end.

Definition consume_then_replay (mission_id : uuid) : P unit :=
  spent ← with_session
    (row ← authorization_or ("mission " +:+ str_uuid mission_id +:+ " has no authorization to replay") mission_id;
     transaction ← lift (rebuild_bound_transaction row);
     consume_authorization (au_authorization_id row) transaction (Some FIXED_TS);;
     commit;;
     mret (au_authorization_id row, transaction));
  with_session (present_and_ignore (fst spent) (snd spent);; commit).

Definition approved_mission (merchants : list MerchantAgent) (registry : MerchantRegistry)
    (mission_constraints : outcome exn MissionConstraints) : P uuid :=
  c ← lift mission_constraints;
  mission_id ← with_session
    (request ← lift (CreateMissionRequest_new (mkCreateMissionRequest None 1 c));
     mission_id ← run merchants registry request;
     commit;;
     mret mission_id);
  with_session
    (row ← reads (newest_authorization mission_id);
     (match row with
      | Some row =>
          if bool_decide (au_status row = AuthorizationStatus.PENDING) then
            approve_pending_user_authorization demo_sign row;;
            set_mission_state mission_id MissionState.AUTHORIZED
          else mret tt
      | None => mret tt
      end);;
     commit);;
  mret mission_id.

(** [for _ in range(steps)], until the queue is idle. *)
Fixpoint step_worker (provider : PaymentProvider) (steps : nat) : P unit :=
  match steps with
  | O => mret tt
  | S n =>
      handled ← worker_step library_message provider;
      if is_none handled then mret tt else step_worker provider n
  end.
Definition pay (mission_id : uuid) (provider : PaymentProvider) (steps : nat) : P unit :=
  with_session
    (row ← authorization_or ("mission " +:+ str_uuid mission_id +:+ " has no authorization to pay") mission_id;
     create_payment_intent EXECUTOR mission_id (au_authorization_id row) ("risk-eval-" +:+ str_uuid mission_id)
       (pv_name provider) None;;
     commit);;
  step_worker provider steps.

(** ** Benign cases *)
Definition case_of (mission_id : uuid) (registry : MerchantRegistry) : RiskCase := mkRiskCase mission_id registry ASSESS_AT.
(** An approved mission over the merchants, and nothing more. *)
Definition approved_case (registry : outcome exn MerchantRegistry) (merchants : list MerchantAgent)
    (mission_constraints : outcome exn MissionConstraints) (after : uuid → P unit) : P RiskCase :=
  registry ← lift registry;
  mission_id ← approved_mission merchants registry mission_constraints;
  after mission_id;;
  mret (case_of mission_id registry).
Definition nothing_more (mission_id : uuid) : P unit := mret tt.
Definition rating_4_5 : float := fl_lit 45 10.

Definition build_benign_low_value : P RiskCase := approved_case default_registry [MockMerchantA] roomy nothing_more.
Definition build_benign_high_value_authorized : P RiskCase :=
  approved_case default_registry [MockMerchantA] tight nothing_more.
Definition build_benign_cold_start : P RiskCase :=
  approved_case (registry_with [("fresh_merchant", fl_lit 9 10)]) [HonestMerchant "fresh_merchant" 2400 rating_4_5] roomy
    nothing_more.
Definition build_benign_established_merchant : P RiskCase :=
  registry ← lift (registry_with [("steady_merchant", fl_lit 9 10)]);
  seed_merchant_history "steady_merchant" [2400; 2500; 2450; 2600; 2380; 2520];;
  mission_id ← approved_mission [HonestMerchant "steady_merchant" 2500 rating_4_5] registry roomy;
  mret (case_of mission_id registry).
Definition build_benign_moderate_trust : P RiskCase :=
  approved_case default_registry [HonestMerchant "merchant_b" 2600 rating_4_5] roomy nothing_more.
Definition build_benign_competitive_selection : P RiskCase :=
  approved_case default_registry [MockMerchantA; HonestMerchant "merchant_b" 2600 (fl_lit 44 10)] roomy nothing_more.
Definition build_benign_settled_payment : P RiskCase :=
  approved_case default_registry [MockMerchantA] roomy (λ mission_id, pay mission_id (fake_with []) 3).

(** ** Risky cases *)
Definition set_payload (payload : json) (e : AuditEventRow) : AuditEventRow :=
  mkAuditEventRow (ev_event_id e) (ev_mission_id e) (ev_sequence e) (ev_event_type e) (ev_actor e) payload
    (ev_previous_hash e) (ev_event_hash e) (ev_created_at e).
(** The recorded violations of "evil", attributed to the merchant under assessment. *)
Definition reattributed (e : AuditEventRow) : AuditEventRow :=
  match ev_payload e with
  | JObj payload =>
      if String.eqb (ev_event_type e) (enum_value EventType.SECURITY_VIOLATION)
         && json_eqb (jget "authenticated_merchant_id" payload) (JStr "evil")
      then set_payload (JObj (py_dict_set "authenticated_merchant_id" (JStr "rogue_merchant") payload)) e
      else e
  | _ => e
  end.
Definition spoof_registry : outcome exn MerchantRegistry :=
  registry_of (map (λ id, mkMerchantRecord id id (fl_lit 9 10) true true) ["rogue_merchant"; "merchant_a"; "evil"]).
Definition build_risky_merchant_spoof_history : P RiskCase :=
  registry ← lift (registry_with [("rogue_merchant", fl_lit 9 10); ("merchant_a", fl_lit 9 10)]);
  spoofed ← lift spoof_registry;
  approved_mission [SpoofingMerchant "merchant_a"; MockMerchantA] spoofed roomy;;
  with_session (writes (λ d, set_db_audit (map reattributed (db_audit d)) d);; commit);;
  mission_id ← approved_mission [HonestMerchant "rogue_merchant" 2500 rating_4_5] registry roomy;
  mret (case_of mission_id registry).

Definition build_risky_authority_escalation : P RiskCase := approved_case default_registry [MockMerchantB] roomy nothing_more.
Definition build_risky_unknown_merchant : P RiskCase :=
  approved_case (registry_with [("merchant_a", fl_lit 9 10)]) [HonestMerchant "unregistered_merchant" 2500 rating_4_5]
    roomy nothing_more.
Definition build_risky_replay_attempt : P RiskCase :=
  approved_case default_registry [MockMerchantA] roomy consume_then_replay.

(** [model_copy(update={"amount_inr": amount})]. *)
Definition with_amount_inr (amount : Z) (t : BoundTransaction) : BoundTransaction :=
  mkBoundTransaction (bt_merchant_id t) (bt_product_id t) (bt_quantity t) amount (bt_currency t) (bt_policy_version t)
    (bt_offer_version t) (bt_expires_at t) (bt_nonce t).
Definition present_changed (message : string) (amount : Z) (mission_id : uuid) : P unit :=
  with_session
    (row ← authorization_or message mission_id;
     transaction ← lift (rebuild_bound_transaction row);
     present_and_ignore (au_authorization_id row) (with_amount_inr amount transaction);;
     commit).
Definition build_risky_binding_failure : P RiskCase :=
  approved_case default_registry [MockMerchantA] roomy (present_changed "no authorization to mutate" 9999).
Definition build_risky_provider_mismatch : P RiskCase :=
  approved_case default_registry [MockMerchantA] roomy
    (λ mission_id, pay mission_id (MismatchingProvider (with_amount 1) (fake_with [])) 2).
Definition build_risky_provider_timeouts : P RiskCase :=
  approved_case default_registry [MockMerchantA] roomy (λ mission_id,
    let provider := fake_with [Fake.TIMEOUT_BEFORE_CREATE; Fake.TIMEOUT_BEFORE_CREATE; Fake.TIMEOUT_BEFORE_CREATE] in
    pay mission_id provider 6;;
    drain_worker library_message provider 6;;
    mret tt).
Definition build_risky_amount_anomaly : P RiskCase :=
  registry ← lift (registry_with [("quiet_merchant", fl_lit 9 10)]);
  seed_merchant_history "quiet_merchant" [950; 1000; 1050; 980; 1020; 1010];;
  mission_id ← approved_mission [HonestMerchant "quiet_merchant" 4299 rating_4_5] registry tight;
  mret (case_of mission_id registry).

(** [UPDATE audit_events SET payload = ... WHERE event_id = ...], and the rows it matched. *)
Definition tamper (event_id : uuid) (payload : json) : P Z := λ w,
  let matches e := bool_decide (ev_event_id e = event_id) in
  (Ok (length_of (List.filter matches (db_audit (w_db w)))),
   set_w_db (set_db_audit (map (λ e, if matches e then set_payload payload e else e) (db_audit (w_db w))) (w_db w)) w).
Definition tampered (payload : json) : json :=
  match payload with JObj l => JObj (py_dict_set "tampered" (JBool true) l) | _ => JObj [("tampered", JBool true)] end.
Definition tamper_with_first (mission_id : uuid) : P unit :=
  with_session
    (events ← list_events mission_id;
     match events with
     | [] => raise (RuntimeError "No row was found when one was required")
     | row :: _ =>
         rowcount ← tamper (ev_event_id row) (tampered (ev_payload row));
         if negb (rowcount =? 1) then raise (RuntimeError "audit tamper matched no row") else commit
     end).
Definition build_risky_tampered_audit_chain : P RiskCase :=
  approved_case default_registry [MockMerchantA] roomy tamper_with_first.
Definition build_risky_compound_security_history : P RiskCase :=
  approved_case default_registry [MockMerchantA] tight (λ mission_id,
    present_changed "no authorization" 4444 mission_id;; consume_then_replay mission_id).

(** ** The corpus, in the order it is run *)
Definition RISK_SCENARIOS : list RiskScenario :=
  [mkRiskScenario "benign_low_value" "Low-value purchase well inside every limit" RiskLabel.BENIGN RiskCategory.BASELINE
     "A trusted registry merchant, an amount far below the ceiling, no history of anything."
     build_benign_low_value;
   mkRiskScenario "benign_high_value_authorized" "High-value purchase, legitimately approved" RiskLabel.BENIGN
     RiskCategory.HIGH_VALUE
     ("4,299 against a 4,500 ceiling from a 0.9-trust merchant: close to the "
      +:+ "limit and entirely legitimate. Must not be flagged.")
     build_benign_high_value_authorized;
   mkRiskScenario "benign_cold_start_merchant" "First transaction with a registered merchant" RiskLabel.BENIGN
     RiskCategory.COLD_START
     "No prior observations at all. Absence of history must contribute no risk."
     build_benign_cold_start;
   mkRiskScenario "benign_established_merchant" "Typical purchase from a merchant with history" RiskLabel.BENIGN
     RiskCategory.BEHAVIOURAL_ANOMALY
     "Six prior authorizations around the same amount; this one is typical."
     build_benign_established_merchant;
   mkRiskScenario "benign_moderate_trust_merchant" "Merchant just below the advisory trust preference" RiskLabel.BENIGN
     RiskCategory.MERCHANT_TRUST
     "Registry trust 0.75 against a 0.80 preference. A preference is not a policy."
     build_benign_moderate_trust;
   mkRiskScenario "benign_competitive_selection" "Two honest merchants, best offer selected" RiskLabel.BENIGN
     RiskCategory.BASELINE
     "The ordinary multi-merchant path with nothing hostile in it."
     build_benign_competitive_selection;
   mkRiskScenario "benign_settled_payment" "Payment settled on the first attempt" RiskLabel.BENIGN
     RiskCategory.PAYMENT_ANOMALY
     "One create, one success, no timeout and no reconciliation."
     build_benign_settled_payment;
   mkRiskScenario "risky_merchant_spoof_history" "Counterparty has previously spoofed an identity" RiskLabel.RISKY
     RiskCategory.SECURITY_HISTORY
     ("This transaction is honest; the merchant behind it asserted somebody "
      +:+ "else's identity on an earlier mission.")
     build_risky_merchant_spoof_history;
   mkRiskScenario "risky_authority_escalation" "Merchant attempted to rewrite the user's hard limit" RiskLabel.RISKY
     RiskCategory.SECURITY_HISTORY
     "The authority lattice refused the claim. The attempt is still the finding."
     build_risky_authority_escalation;
   mkRiskScenario "risky_unknown_merchant" "Authenticated merchant absent from the registry" RiskLabel.RISKY
     RiskCategory.MERCHANT_TRUST
     "Zero reputation, and the user's own minimum-trust policy does not exclude it."
     build_risky_unknown_merchant;
   mkRiskScenario "risky_replay_attempt" "A consumed authorization was presented again" RiskLabel.RISKY
     RiskCategory.SECURITY_HISTORY
     "Refused by the kernel's conditional UPDATE; the attempt is on the record."
     build_risky_replay_attempt;
   mkRiskScenario "risky_binding_failure" "The transaction changed after approval" RiskLabel.RISKY
     RiskCategory.SECURITY_HISTORY
     "A mutated amount presented against a live authorization; digest mismatch."
     build_risky_binding_failure;
   mkRiskScenario "risky_provider_mismatch" "Provider response described a different transaction" RiskLabel.RISKY
     RiskCategory.PAYMENT_ANOMALY
     "A 200 OK with the wrong amount. Nothing was linked and nothing settled."
     build_risky_provider_mismatch;
   mkRiskScenario "risky_provider_timeouts" "Repeated provider timeouts left the payment uncertain" RiskLabel.RISKY
     RiskCategory.PAYMENT_ANOMALY
     "Several lost responses and the retries they forced."
     build_risky_provider_timeouts;
   mkRiskScenario "risky_amount_anomaly" "Amount far above the merchant's historical median" RiskLabel.RISKY
     RiskCategory.BEHAVIOURAL_ANOMALY
     "Six prior authorizations around 1,000; this one at 4,299. No rule is broken."
     build_risky_amount_anomaly;
   mkRiskScenario "risky_tampered_audit_chain" "The mission's audit chain does not verify" RiskLabel.RISKY
     RiskCategory.AUDIT_INTEGRITY
     "An event payload was edited directly in the database."
     build_risky_tampered_audit_chain;
   mkRiskScenario "risky_compound_security_history" "Binding failure AND replay attempt on one mission" RiskLabel.RISKY
     RiskCategory.SECURITY_HISTORY
     "Two independent severe signals against the same transaction."
     build_risky_compound_security_history].
Definition scenario_ids : list string := map rs_id RISK_SCENARIOS.
End Corpus.
End RiskCorpus.
