(* ===== verification/RiskCorpusProperties.v ===== *)
(** * What the corpus of the risk evaluation comes to

    For every environment: the registries the cases are assessed with hold what they were
    given, and the case that edits the history leaves a chain that does not verify, or
    exhibits a collision of SHA-256.  And cases run through the harness over the modelled
    system score what the repository publishes - in a process whose clock is past the
    instant of the assessments, but not before it; the published scores give the published
    rates. *)
From S2P Require Import Prelude Python PyFloat PyNumbers PyText Json Text Enums Errors Firewall Canonical Transaction.
From S2P Require Import StateMachines Merchant Kernel Policy Payment Database Hashing Evolution Ledger Binding.
From S2P Require Import Authorization AuthorizationTheorems Outbox Intents Provider Executor Reconciliation Worker Orchestrator.
From S2P Require Import DecisionTrace RiskModels RiskFeatures RiskEngine AttackLab RiskEvaluation AttackContext.
From S2P Require Import RiskScenarios.
Import RiskEval RiskCorpus.

(** ** The registries *)
Lemma registry_of_wf records registry : registry_of records = Ok registry → registry_wf registry.
Proof.
  revert registry. induction records as [|r rest IH]; intros registry E; cbn [registry_of] in E.
  - apply Ok_inj in E as <-. intros k x Hx. by rewrite lookup_empty in Hx.
  - apply outcome_bind_Ok in E as (r' & _ & (reg & Hreg & E)%outcome_bind_Ok). apply Ok_inj in E as <-.
    intros k x [[<- <-]|[_ Hx]]%lookup_insert_Some; [done|by apply (IH reg)].
Qed.

(** ** The tampered history *)
Definition text_length (l : list ustr) : nat := foldr (λ s n, (S (length s) + n)%nat) 0%nat l.
Lemma text_length_perm l l' : l ≡ₚ l' → text_length l = text_length l'.
Proof. unfold text_length. induction 1; cbn [foldr]; [lia|lia|lia|congruence]. Qed.
Lemma text_length_app l l' : text_length (l ++ l') = (text_length l + text_length l')%nat.
Proof. unfold text_length. induction l as [|x l IH]; cbn [app foldr]; [done|]. rewrite IH. lia. Qed.
Lemma length_join c l : S (length (join [c] l)) = Nat.max 1 (text_length l).
Proof.
  induction l as [|x l IH]; [done|]. destruct l as [|y l]; cbn [join text_length foldr] in *; [lia|].
  rewrite !length_app. cbn [length]. cbn [join] in IH. lia.
Qed.
Lemma dict_set_new {V} k (v : V) d : py_dict_get k d = None → py_dict_set k v d = d ++ [(k, v)].
Proof.
  induction d as [|[k' v'] d IH]; [done|]. cbn. destruct (String.eqb k k'); [done|]. intros E. by rewrite IH.
Qed.

(** A key added to a payload shows in its text. *)
Lemma new_key_lengthens k v d : py_dict_get k d = None →
  (length (canonical_json (JObj d)) < length (canonical_json (JObj (py_dict_set k v d))))%nat.
Proof.
  intros Hk. rewrite dict_set_new by done. unfold canonical_json. cbn [json_dumps].
  set (entry := λ '(k, t), json_string false (u k) ++ [58%N] ++ t). rewrite !length_app. cbn [length].
  set (l := map _ d). set (l' := map _ (d ++ _)).
  assert (E : text_length (map entry (py_sorted key_leb l'))
              = (text_length (map entry (py_sorted key_leb l)) + S (length (entry (k, json_dumps false v))))%nat).
  { assert (Hs : ∀ x, text_length (map entry (py_sorted key_leb x)) = text_length (map entry x))
      by (intros x; apply text_length_perm, Permutation_map, py_sorted_Permutation).
    rewrite !Hs. replace l' with (l ++ [(k, json_dumps false v)]) by (unfold l', l; by rewrite map_app).
    rewrite map_app, text_length_app. f_equal. cbn [map text_length foldr]. by rewrite Nat.add_0_r. }
  pose proof (length_join 44%N (map entry (py_sorted key_leb l))) as H1.
  pose proof (length_join 44%N (map entry (py_sorted key_leb l'))) as H2. 
  assert (He : (0 < length (entry (k, json_dumps false v)))%nat) by (unfold entry; rewrite !length_app; cbn [length]; lia).
  lia.
Qed.

Lemma set_payload_key payload e : verify_key_leb (set_payload payload e) = verify_key_leb e.
Proof. reflexivity. Qed.
Lemma sorted_after_edit (f : AuditEventRow → AuditEventRow) l :
  (∀ e, ∃ p, f e = set_payload p e) →
  Sorted (λ a b, verify_key_leb a b = true) l → Sorted (λ a b, verify_key_leb a b = true) (map f l).
Proof.
  intros Hf. induction 1 as [|x l Hl IH Hx]; cbn; constructor; [done|]. destruct Hx as [|y l Hxy]; cbn; constructor.
  destruct (Hf x) as [p ->], (Hf y) as [q ->]. exact Hxy.
Qed.

(** The edit of one event of a mission's history. *)
Definition edited (event_id : uuid) (payload : json) (e : AuditEventRow) : AuditEventRow :=
  if bool_decide (ev_event_id e = event_id) then set_payload payload e else e.
Lemma edited_keeps i p e : ev_mission_id (edited i p e) = ev_mission_id e.
Proof. unfold edited. by case_bool_decide. Qed.
Lemma mission_events_edited m i p l :
  List.filter (λ e, bool_decide (ev_mission_id e = m)) (map (edited i p) l)
  = map (edited i p) (List.filter (λ e, bool_decide (ev_mission_id e = m)) l).
Proof.
  induction l as [|e l IH]; [done|]. cbn. rewrite edited_keeps. destruct (bool_decide _); cbn; by rewrite IH.
Qed.

Lemma edited_chain_breaks m i p e0 rest :
  chain 0 GENESIS_HASH (e0 :: rest) → ev_event_id e0 = i → canonical_json p ≠ canonical_json (ev_payload e0) →
  events_collide e0 (set_payload p e0) ∨
  ∃ r, verify_events m (map (edited i p) (e0 :: rest)) = Ok r ∧ vr_valid r = false.
Proof.
  intros Hc Hi Hne. destruct (verify_events_total m (map (edited i p) (e0 :: rest))) as [r E].
  destruct (vr_valid r) eqn:Hv; [left|right; by exists r].
  apply (verify_events_valid m _ r E) in Hv. rewrite py_sorted_id in Hv.
  2:{ apply sorted_after_edit; [|by eapply chain_verify_sorted].
      intros e. unfold edited. case_bool_decide; [by eexists|exists (ev_payload e); by destruct e]. }
  assert (Hhead : edited i p e0 = set_payload p e0) by (unfold edited; by rewrite bool_decide_eq_true_2).
  cbn [map] in Hv. rewrite Hhead in Hv.
  inversion Hc as [|? ? ? ? Hw _ _ _ Hrec _]; subst. inversion Hv as [|? ? ? ? _ _ _ _ Hrec' _]; subst.
  destruct (same_hash_same_body _ _ _ Hrec Hrec') as [Hb|]; [|done]. exfalso. apply Hne. symmetry.
  apply (sc_payload e0 (set_payload p e0)). apply body_inj; try done; apply Hw.
Qed.

(** The history of a mission is evidence: in every environment, once the first event of an
    intact history has been marked as the case [risky_tampered_audit_chain] marks it, the
    mission's chain does not verify - or two texts with the same SHA-256 are at hand. *)
Theorem tampered_history_is_noticed `{Env} (mission_id : uuid) (w w' : World) :
  ledger_ok (w_committed w) → tamper_with_first mission_id w = (Ok tt, w') →
  ∃ e payload rest, mission_events mission_id (w_committed w) = e :: rest ∧ ev_payload e = JObj payload ∧
    (py_dict_get "tampered" payload = None →
     events_collide e (set_payload (tampered (ev_payload e)) e) ∨
     ∃ r, verify_events mission_id (mission_events mission_id (w_committed w')) = Ok r ∧ vr_valid r = false).
Proof.
  intros Hok (w1 & E1 & ->)%with_session_Ok. run_step E1. unfold list_events in Hrun. apply reads_Ok in Hrun as [-> ->].
  cbn [w_db set_w_db] in E1. pose proof (Hok mission_id) as Hc. rewrite py_sorted_id in E1 by (by eapply chain_seq_sorted).
  destruct (mission_events mission_id (w_committed w)) as [|e rest] eqn:Eev; [done|].
  run_step E1. unfold tamper in Hrun. injection Hrun as <- <-. destruct (negb _) in E1; [done|].
  apply modify_run_Ok in E1 as [_ ->]. cbn [w_committed w_db set_w_db].
  inversion Hc as [|? ? ? ? Hw _ _ _ _ _]; subst. pose proof (ws_payload _ Hw) as Hobj.
  destruct (ev_payload e) as [| | | | | |payload] eqn:Ep; try done. exists e, payload, rest. split_and!; [done..|].
  intros Hnew. rewrite Ep. unfold mission_events at 1. cbn [db_audit set_db_audit].
  pose proof (mission_events_edited mission_id (ev_event_id e) (tampered (JObj payload)) (db_audit (w_committed w))) as Hm.
  unfold mission_events in Eev. rewrite Eev in Hm. unfold edited in Hm at 1. rewrite Hm.
  apply edited_chain_breaks; [done|done|].
  intros Ht. rewrite Ep in Ht. pose proof (new_key_lengthens "tampered" (JBool true) payload Hnew) as Hl.
  cbn [tampered] in Ht. rewrite Ht in Hl. lia.
Qed.

(** ** The published figures *)
(** The process that evaluates: its clock from the given instant on, by the millisecond. *)
Definition harness_env (start : Z) : Env := {|
  env_signing_key_id := demo_approver_signing_key_id;
  env_public_key_hex := Some "d75a980182b10ab7d54bfed3c964073a0ee172f3daa62325af021a68f707511a";
  env_utcnow := λ n, utc (start + Z.of_nat n * 1000);
  env_utcnow_utc := λ n, eq_refl;
  env_token_hex := λ n, hex_fixed 64 (N.of_nat n);
  env_authorization_ttl_seconds := 900;
  env_app_env := "development";
  env_ed25519_key_ok := λ k, (length k =? 32)%nat;
  env_ed25519_verify := λ k s m, (length s =? 64)%nat
|}.
Definition corpus_server : RiskServer := mkRiskServer last last (λ l, l) (λ l, l) (λ l, l).
Definition type_message (e : exn) : ustr := u (exn_type_name e).
Definition corpus_at (start : Z) : list RiskScenario :=
  RISK_SCENARIOS (H:=harness_env start) type_message (λ _, repeat 7%N 64) (λ _ _ _, Raise (ValueError "no webhook")).
Definition four (x : float) : string := fmt_fixed 4 x.

(** The score of a case, assessed in a database of its own by a process started then. *)
Definition score_at (start : Z) (scenario_id : string) : option string :=
  match List.find (λ s, String.eqb (rs_id s) scenario_id) (corpus_at start) with
  | None => None
  | Some s =>
      match fst (run_scenario (H:=harness_env start) corpus_server type_message (λ _, 0) s 1 DEFAULT_RISK_CONFIG
                   (demo_world db_empty)) with
      | Ok o => if is_none (so_error o) then Some (four (so_score o)) else None
      | Raise _ => None
      end
  end.
Definition JULY_2026 : Z := 1782907200000000.
Definition JANUARY_2026 : Z := 1767268800000000.

(** README.md, "The corpus is trivially separable": the greatest benign score, the least
    risky one, and a benign case that scores nothing, as the modelled system computes them
    in July 2026. *)
Example cases_score_as_published :
  map (score_at JULY_2026) ["benign_low_value"; "benign_high_value_authorized"; "risky_amount_anomaly"]
  = [Some "0.0000"; Some "0.1307"; Some "0.2807"].
Proof. vm_compute. reflexivity. Qed.

(** The scores are not fixed by the corpus: [ASSESS_AT] is an instant, the authorizations
    are issued by the clock, and before that instant a case is assessed past its
    authorization's window. *)
Example scores_depend_on_the_date : score_at JANUARY_2026 "benign_low_value" = Some "0.0500".
Proof. vm_compute. reflexivity. Qed.

(** The scores of the seventeen cases, in ten-thousandths, and the figures README.md gives
    for them ("Measured evaluation"): the means, the rates and the sweep. *)
Definition published_scores : list (RiskLabel * Z) :=
  [(RiskLabel.BENIGN, 0); (RiskLabel.BENIGN, 1307); (RiskLabel.BENIGN, 0); (RiskLabel.BENIGN, 0); (RiskLabel.BENIGN, 94);
   (RiskLabel.BENIGN, 0); (RiskLabel.BENIGN, 0); (RiskLabel.RISKY, 6000); (RiskLabel.RISKY, 3594); (RiskLabel.RISKY, 3500);
   (RiskLabel.RISKY, 6000); (RiskLabel.RISKY, 6000); (RiskLabel.RISKY, 3500); (RiskLabel.RISKY, 3500);
   (RiskLabel.RISKY, 2807); (RiskLabel.RISKY, 6000); (RiskLabel.RISKY, 10000)].
Definition published_outcomes : list ScenarioOutcome :=
  map (λ '(s, (label, score)),
         mkScenarioOutcome (rs_id s) (rs_name s) label (enum_value (rs_category s)) 1 (fl_lit score 10000) RiskBand.LOW
           RiskRecommendation.PROCEED [] None true false true fl_one None)
    (combine (corpus_at JULY_2026) published_scores).
Definition figures (m : RiskMetrics) :=
  ((four <$> rm_benign_mean_score m, four <$> rm_risky_mean_score m, four <$> rm_mean_separation m),
   (four <$> rm_risk_detection_rate m, four <$> rm_false_positive_rate m, four <$> rm_false_negative_rate m),
   map (λ p, (fmt_fixed 2 (tp_threshold p), tp_risky_flagged p, tp_benign_flagged p, tp_configured p)) (rm_threshold_sweep m)).
Example published_scores_give_the_published_figures :
  map rs_label (corpus_at JULY_2026) = map fst published_scores ∧
  match compute_metrics published_outcomes DEFAULT_RISK_CONFIG with
  | Ok m => figures m =
      ((Some "0.0200", Some "0.5090", Some "0.4890"), (Some "1.0000", Some "0.0000", Some "0.0000"),
       [("0.10", 10, 1, false); ("0.25", 10, 0, true); ("0.50", 5, 0, false); ("0.75", 1, 0, false)])
  | Raise _ => False
  end.
Proof. split; vm_compute; reflexivity. Qed.
