(* ===== verification/AttackTransaction.v ===== *)
(** * The attack lab: attacks on the transaction

    services/attack_lab/scenarios/transaction.py: the overpriced offer, the nine bound
    fields mutated after approval, the consumed approval presented again, the approval
    presented after its window, and the two version stamps; adversaries.py's overpriced
    merchant.  What [setup] hands to [execute], a dict of the source, is a record. *)
From S2P Require Import Prelude Python PyFloat PyText Json Text Enums Errors Firewall Canonical Transaction.
From S2P Require Import StateMachines Merchant Kernel Policy Payment Database Hashing Evolution Ledger Binding.
From S2P Require Import Authorization Outbox Intents Provider Executor Reconciliation Worker Orchestrator.
From S2P Require Import DecisionTrace Replay RiskFeatures Routes AttackLab AttackContext.

(** ** adversaries.py *)
Definition OverpricedMerchant (price : Z) : MerchantAgent :=
  mkMerchantAgent "merchant_a" (λ _ _,
    [mkRawMerchantOffer "merchant_a" "aur-eb-01" "Aurora SoundCore Earbuds" "Premium." (fl_of_Z price) "INR"
       (fl_lit 46 10) true FIXED_TS [("hard_limit_inr", JInt 999999); ("soft_budget_inr", JInt 999999)]]).

(** A scenario of the lab over the modelled system, with its own kind of state. *)
Definition LabScenario (St : Type) : Type := AttackScenario World ScenarioContext St.
Record AnyScenario := mkAnyScenario { any_state : Type; any_scenario : LabScenario any_state }.

(** ** transaction.py *)
Definition is_reason (c : ReasonCode) (reason_code : option string) : bool := bool_decide (reason_code = Some (enum_value c)).

(** One or more different values for every bound field. *)
Inductive mutation : Set :=
  | ToMerchantId (v : string) | ToProductId (v : string) | ToQuantity (v : Z) | ToAmountInr (v : Z) | ToCurrency (v : string)
  | ToPolicyVersion (v : string) | ToOfferVersion (v : string) | OneHourLater | ToNonce (v : string).
Definition FIELD_MUTATIONS : list (string * list mutation) :=
  [("merchant_id", [ToMerchantId "attacker-merchant"; ToMerchantId "merchant_b"]);
   ("product_id", [ToProductId "P2"]);
   ("quantity", [ToQuantity 2]);
   ("amount_inr", [ToAmountInr 4399; ToAmountInr 1]);
   ("currency", [ToCurrency "USD"]);
   ("policy_version", [ToPolicyVersion "policy-v2"]);
   ("offer_version", [ToOfferVersion "offer-v2"]);
   ("expires_at", [OneHourLater]);
   ("nonce", [ToNonce (String.concat "" (repeat "b" 64))])].

(** [t.model_copy(update={field: value})]: no validation. *)
Definition mutate (m : mutation) (t : BoundTransaction) : BoundTransaction :=
  let 'mkBoundTransaction merchant product quantity amount currency policy offer expires nonce := t in
  match m with
  | ToMerchantId v => mkBoundTransaction v product quantity amount currency policy offer expires nonce
  | ToProductId v => mkBoundTransaction merchant v quantity amount currency policy offer expires nonce
  | ToQuantity v => mkBoundTransaction merchant product v amount currency policy offer expires nonce
  | ToAmountInr v => mkBoundTransaction merchant product quantity v currency policy offer expires nonce
  | ToCurrency v => mkBoundTransaction merchant product quantity amount v policy offer expires nonce
  | ToPolicyVersion v => mkBoundTransaction merchant product quantity amount currency v offer expires nonce
  | ToOfferVersion v => mkBoundTransaction merchant product quantity amount currency policy v expires nonce
  | OneHourLater => mkBoundTransaction merchant product quantity amount currency policy offer (dt_add expires (seconds 3600)) nonce
  | ToNonce v => mkBoundTransaction merchant product quantity amount currency policy offer expires v
  end.
(** [value == getattr(original, field)]. *)
Definition unchanged (m : mutation) (t : BoundTransaction) : bool :=
  match m with
  | ToMerchantId v => String.eqb v (bt_merchant_id t)
  | ToProductId v => String.eqb v (bt_product_id t)
  | ToQuantity v => v =? bt_quantity t
  | ToAmountInr v => v =? bt_amount_inr t
  | ToCurrency v => String.eqb v (bt_currency t)
  | ToPolicyVersion v => String.eqb v (bt_policy_version t)
  | ToOfferVersion v => String.eqb v (bt_offer_version t)
  | OneHourLater => false
  | ToNonce v => String.eqb v (bt_nonce t)
  end.

(** What one attempt came to. *)
Record attempt := mkAttempt { at_name : string; at_refused : bool; at_reason_code : option string }.
Definition dump_attempt (key : string) (a : attempt) : json :=
  JObj [(key, JStr (at_name a)); ("refused", JBool (at_refused a)); ("reason_code", jstr_opt (at_reason_code a))].

Record Approved := mkApproved {
  ap_mission_id : uuid;
  ap_authorization_id : uuid;
  ap_transaction : BoundTransaction;
  ap_census : counts
}.
Record Spent := mkSpent {
  sp_approved : Approved;
  sp_first_intent_id : uuid;
  sp_intents_before : Z
}.
Record Stale := mkStale { stl_approved : Approved; stl_after_expiry : datetime }.

Section Scenarios.
Context `{Env} (server : Server) (library_message : exn → ustr).
Abbreviation acting := (acting library_message).
Abbreviation mission_snapshot := (mission_snapshot server).

(** *** Hard budget *)
Definition budget_setup (c : ScenarioContext) : P counts := census c.
(** [decision.get(key)] of a snapshot's decision, or of [{}]. *)
Definition decision_field (key : string) (snapshot : json_obj) : json :=
  match jget "policy_decision" snapshot with JObj decision => jget key decision | _ => JNull end.
Definition budget_execute (c : ScenarioContext) (before : counts) : P Observation :=
  limits ← lift (constraints (with_budgets 3000 3500));
  mission_id ← run_mission [OverpricedMerchant 9999] limits 1 None;
  snapshot ← mission_snapshot mission_id;
  after ← census c;
  let delta := effect_delta before after in
  let denied := json_eqb (decision_field "decision" snapshot) (JStr (enum_value PolicyOutcome.DENY)) in
  let reason_is_limit :=
    match decision_field "reason_codes" snapshot with
    | JList codes => existsb (json_eqb (JStr (enum_value ReasonCode.HARD_LIMIT_EXCEEDED))) codes
    | _ => false
    end in
  let no_authorization := count_of "authorizations" delta =? 0 in
  let no_payment := count_of "payment_intents" delta =? 0 in
  let cancelled := json_eqb (jget "state" snapshot) (JStr "CANCELLED") in
  mret (mkObservation (denied && reason_is_limit && no_authorization && no_payment)
    (if reason_is_limit then Some (enum_value ReasonCode.HARD_LIMIT_EXCEEDED) else None)
    (Some (no_authorization && no_payment))
    [("hard_limit", decision_field "hard_limit" snapshot);
     ("requested_amount", decision_field "requested_amount" snapshot);
     ("policy_decision", decision_field "decision" snapshot);
     ("policy_reason_codes", decision_field "reason_codes" snapshot);
     ("authorizations_created", JInt (count_of "authorizations" delta));
     ("payment_intents_created", JInt (count_of "payment_intents" delta));
     ("mission_state", jget "state" snapshot);
     ("mission_cancelled", JBool cancelled)]
    (Some (u ("amount " +:+ json_str (decision_field "requested_amount" snapshot) +:+ " above ceiling "
              +:+ json_str (decision_field "hard_limit" snapshot) +:+ ": DENY, and a DENY mints no authorization")))).
Definition HARD_BUDGET_BYPASS : LabScenario counts :=
  mkAttackScenario World ScenarioContext counts "hard_budget_bypass" "Hard budget / policy bypass" AttackCategory.TRANSACTION
    Severity.CRITICAL
    ("A merchant offers a 9999 product against a 3500 hard ceiling while simultaneously claiming a raised ceiling. "
     +:+ "The decision must be DENY, and a DENY must produce no authorization and therefore no payment path.")
    ["HARD LIMIT EXCEEDED -> PAYMENT IMPOSSIBLE"; "NO VALID AUTHORIZATION -> NO PAYMENT"]
    Backend.SQLITE AttackStatus.BLOCKED (Some (enum_value ReasonCode.HARD_LIMIT_EXCEEDED)) true
    (λ c, acting (budget_setup c)) (λ c st, acting (budget_execute c st)).

(** *** Mutation after approval *)
Definition approved_setup (amount_inr : Z) (c : ScenarioContext) : P Approved :=
  made ← authorized_mission amount_inr None true;
  let '(mission_id, authorization_id, transaction) := made in
  before ← census c;
  mret (mkApproved mission_id authorization_id transaction before).

(** A session that presents a transaction, and what it came to: an AuthorizationFailure
    is a refusal, rolled back; anything else is the scenario's own failure. *)
Definition present (name : string) (authorization_id : uuid) (transaction : BoundTransaction) (now : option datetime)
    : P attempt :=
  with_session
    (try_except
       (consume_authorization authorization_id transaction now;; commit;; mret (mkAttempt name false None))
       (λ e, match e with
             | AuthorizationFailure k _ _ => rollback;; mret (mkAttempt name true (Some (authorization_failure_code k)))
             | _ => raise e
             end)).

(** The mutations of a transaction that differ from it, with their fields. *)
Definition mutations_of (original : BoundTransaction) : list (string * mutation) :=
  concat (map (λ field, map (λ m, (field, m))
                (List.filter (λ m, negb (unchanged m original)) (default [] (py_dict_get field FIELD_MUTATIONS))))
           BOUND_FIELDS).
Fixpoint present_all (authorization_id : uuid) (original : BoundTransaction) (l : list (string * mutation)) : P (list attempt) :=
  match l with
  | [] => mret []
  | (field, m) :: rest =>
      a ← present field authorization_id (mutate m original) None;
      attempts ← present_all authorization_id original rest;
      mret (a :: attempts)
  end.
Definition unmutated_fields : list string :=
  py_sorted String.leb (List.filter (λ field, is_none (py_dict_get field FIELD_MUTATIONS)) BOUND_FIELDS).

Definition mutation_execute (c : ScenarioContext) (st : Approved) : P Observation :=
  attempts ← present_all (ap_authorization_id st) (ap_transaction st) (mutations_of (ap_transaction st));
  let binding_failures := List.filter (λ a, is_reason ReasonCode.TRANSACTION_BINDING_FAILURE (at_reason_code a)) attempts in
  let all_refused := negb (bool_decide (length attempts = 0%nat)) && forallb at_refused attempts in
  let all_binding := (length binding_failures =? length attempts)%nat in
  status ← authorization_status (ap_authorization_id st);
  let unspent := bool_decide (status = Some AuthorizationStatus.ACTIVE) in
  after ← census c;
  let delta := effect_delta (ap_census st) after in
  let no_payment := count_of "payment_intents" delta =? 0 in
  let is_nil {A} (l : list A) := (length l =? 0)%nat in
  mret (mkObservation (all_refused && all_binding && unspent && no_payment && is_nil unmutated_fields)
    (if negb (is_nil binding_failures) then Some (enum_value ReasonCode.TRANSACTION_BINDING_FAILURE) else None)
    (Some (unspent && no_payment))
    [("bound_fields", JList (map JStr BOUND_FIELDS));
     ("bound_fields_without_a_mutator", JList (map JStr unmutated_fields));
     ("mutations_attempted", JInt (length_of attempts));
     ("mutations_refused", JInt (length_of (List.filter at_refused attempts)));
     ("refused_with_binding_failure", JInt (length_of binding_failures));
     ("fields_that_went_through",
      JList (map (λ a, JStr (at_name a)) (List.filter (λ a, negb (at_refused a)) attempts)));
     ("authorization_status_after", jopt (λ s, JStr (enum_value s)) status);
     ("authorization_unspent", JBool unspent);
     ("payment_intents_created", JInt (count_of "payment_intents" delta))]
    (Some (u ("all " +:+ str_int (length_of attempts) +:+ " single-field mutations across "
              +:+ str_int (length_of BOUND_FIELDS) +:+ " bound fields refused with TRANSACTION_BINDING_FAILURE; "
              +:+ "authorization still ACTIVE")))).
Definition TRANSACTION_MUTATION : LabScenario Approved :=
  mkAttackScenario World ScenarioContext Approved "transaction_mutation" "Transaction mutation after approval"
    AttackCategory.TRANSACTION Severity.CRITICAL
    ("An authorization is issued and activated for merchant_a / P1 / 3799 / INR / qty 1. Every one of the nine bound "
     +:+ "fields is then mutated in turn and the mutated transaction is presented to consume_authorization. Each must be "
     +:+ "refused with TRANSACTION_BINDING_FAILURE, and the authorization must remain unspent.")
    ["TRANSACTION CHANGED AFTER APPROVAL -> AUTHORIZATION INVALID"; "NO VALID AUTHORIZATION -> NO PAYMENT"]
    Backend.SQLITE AttackStatus.BLOCKED (Some (enum_value ReasonCode.TRANSACTION_BINDING_FAILURE)) true
    (λ c, acting (approved_setup 3799 c)) (λ c st, acting (mutation_execute c st)).

(** *** Replay *)
Definition executor : CapabilitySet := payment_executor_capabilities "payment-executor".
Definition replay_setup (c : ScenarioContext) : P Spent :=
  made ← authorized_mission DEFAULT_AMOUNT_INR None true;
  let '(mission_id, authorization_id, transaction) := made in
  first_intent_id ← with_session
    (result ← create_payment_intent executor mission_id authorization_id "attack-replay-first" "fake" None;
     commit;;
     mret (pr_intent result));
  before ← census c;
  intents ← payment_intents_for mission_id;
  mret (mkSpent (mkApproved mission_id authorization_id transaction before) first_intent_id (length_of intents)).

(** [getattr(exc, "reason_code", type(exc).__name__)]. *)
Definition refusal_identity (e : exn) : string := default (exn_type_name e) (reason_code e).
(** The second payment request under the same authorization; whatever it raises is the
    refusal. *)
Definition request_again (mission_id authorization_id : uuid) : P attempt :=
  with_session
    (try_except
       (create_payment_intent executor mission_id authorization_id "attack-replay-second" "fake" None;;
        commit;;
        mret (mkAttempt "payment_request" false None))
       (λ e, rollback;; mret (mkAttempt "payment_request" true (Some (refusal_identity e))))).

Definition replay_execute (c : ScenarioContext) (st : Spent) : P Observation :=
  let 'mkApproved mission_id authorization_id transaction before := sp_approved st in
  by_request ← request_again mission_id authorization_id;
  by_consume ← present "consume_authorization" authorization_id transaction None;
  let outcomes := [by_request; by_consume] in
  intents ← payment_intents_for mission_id;
  after ← census c;
  let delta := effect_delta before after in
  let all_refused := forallb at_refused outcomes in
  let correct_code := existsb (λ o, is_reason ReasonCode.AUTHORIZATION_REPLAY_DETECTED (at_reason_code o)) outcomes in
  let one_logical_payment := (length_of intents =? sp_intents_before st) && (sp_intents_before st =? 1) in
  let unauthorized_effect := negb all_refused || (1 <? length_of intents) in
  payments ← gets (λ w, length_of (Fake.created_payments (provider_now c w)));
  status ← authorization_status authorization_id;
  mret (mkObservation (all_refused && correct_code && one_logical_payment)
    (if correct_code then Some (enum_value ReasonCode.AUTHORIZATION_REPLAY_DETECTED) else at_reason_code by_request)
    (Some (one_logical_payment && (count_of "payment_intents" delta =? 0)))
    [("replay_attempts", JList (map (dump_attempt "path") outcomes));
     ("unauthorized_effect", JBool unauthorized_effect);
     ("payment_intents_before", JInt (sp_intents_before st));
     ("payment_intents_after", JInt (length_of intents));
     ("logical_payments", JInt (length_of intents));
     ("provider_payments", JInt payments);
     ("authorization_status_after", jopt (λ s, JStr (enum_value s)) status);
     ("census_delta", dump_counts delta)]
    (Some (u ("a consumed authorization was presented twice more and refused both times. The two refusals come from "
              +:+ "DIFFERENT controls, which is the point: the payment path is stopped by the mission-state precondition "
              +:+ "(the outer half) before it reaches the kernel, and the kernel primitive itself answers "
              +:+ "AUTHORIZATION_REPLAY_DETECTED (the inner half). Payment intents unchanged at "
              +:+ str_int (length_of intents))))).
Definition AUTHORIZATION_REPLAY : LabScenario Spent :=
  mkAttackScenario World ScenarioContext Spent "authorization_replay" "Authorization replay" AttackCategory.TRANSACTION
    Severity.CRITICAL
    ("An authorization is consumed once by a real payment request, then replayed twice: through the payment path with a "
     +:+ "fresh idempotency key, and directly against consume_authorization with the exact original transaction. Both must "
     +:+ "be refused and no second logical payment may exist.")
    ["REPLAYED APPROVAL -> PAYMENT IMPOSSIBLE"; "SAME IDEMPOTENCY KEY -> AT MOST ONE LOGICAL PAYMENT"]
    Backend.SQLITE AttackStatus.BLOCKED (Some (enum_value ReasonCode.AUTHORIZATION_REPLAY_DETECTED)) true
    (λ c, acting (replay_setup c)) (λ c st, acting (replay_execute c st)).

(** *** Stale *)
Definition stale_setup (c : ScenarioContext) : P Stale :=
  made ← expired_authorization (seconds 900);
  let '(mission_id, authorization_id, transaction, after_expiry) := made in
  before ← census c;
  mret (mkStale (mkApproved mission_id authorization_id transaction before) after_expiry).
Definition stale_execute (c : ScenarioContext) (st : Stale) : P Observation :=
  let 'mkApproved mission_id authorization_id transaction before := stl_approved st in
  a ← present "consume_authorization" authorization_id transaction (Some (stl_after_expiry st));
  intents ← payment_intents_for mission_id;
  after ← census c;
  let delta := effect_delta before after in
  status ← authorization_status authorization_id;
  let correct_code := is_reason ReasonCode.AUTHORIZATION_EXPIRED (at_reason_code a) in
  let no_payment := (length_of intents =? 0) && (count_of "payment_intents" delta =? 0) in
  mret (mkObservation (at_refused a && correct_code && no_payment) (at_reason_code a) (Some no_payment)
    [("refused", JBool (at_refused a));
     ("expires_at_passed_by_seconds", JInt 1);
     ("authorization_status_after", jopt (λ s, JStr (enum_value s)) status);
     ("status_column_rolled_back_with_the_refusal", JBool (bool_decide (status = Some AuthorizationStatus.ACTIVE)));
     ("enforced_by", JStr "expires_at > :now predicate, not the status column");
     ("payment_intents_after", JInt (length_of intents));
     ("census_delta", dump_counts delta)]
    (Some (u "consumption past expires_at refused; no PaymentIntent exists"))).
Definition STALE_AUTHORIZATION : LabScenario Stale :=
  mkAttackScenario World ScenarioContext Stale "stale_authorization" "Stale / expired authorization" AttackCategory.TRANSACTION
    Severity.HIGH
    ("An authorization is issued and activated with a real 15-minute window, then presented one second after expires_at. "
     +:+ "The kernel's `expires_at > :now` predicate must refuse it; no PaymentIntent may exist.")
    ["EXPIRED APPROVAL -> PAYMENT IMPOSSIBLE"; "NO VALID AUTHORIZATION -> NO PAYMENT"]
    Backend.SQLITE AttackStatus.BLOCKED (Some (enum_value ReasonCode.AUTHORIZATION_EXPIRED)) true
    (λ c, acting (stale_setup c)) (λ c st, acting (stale_execute c st)).

(** *** Version stamps *)
Definition version_execute (field : string) (mutated_value : string) (change : mutation)
    (bound_value : BoundTransaction → string) (c : ScenarioContext) (st : Approved) : P Observation :=
  a ← present field (ap_authorization_id st) (mutate change (ap_transaction st)) None;
  status ← authorization_status (ap_authorization_id st);
  after ← census c;
  let delta := effect_delta (ap_census st) after in
  let unspent := bool_decide (status = Some AuthorizationStatus.ACTIVE) in
  mret (mkObservation
    (at_refused a && is_reason ReasonCode.TRANSACTION_BINDING_FAILURE (at_reason_code a) && unspent
     && (count_of "payment_intents" delta =? 0))
    (at_reason_code a) (Some (unspent && (count_of "payment_intents" delta =? 0)))
    [("mutated_field", JStr field);
     ("bound_value", JStr (bound_value (ap_transaction st)));
     ("presented_value", JStr mutated_value);
     ("refused", JBool (at_refused a));
     ("authorization_status_after", jopt (λ s, JStr (enum_value s)) status);
     ("payment_intents_created", JInt (count_of "payment_intents" delta))]
    (Some (u (field +:+ " is inside the transaction digest, so changing it invalidates it")))).
Definition version_scenario (scenario_id name field mutated_value description : string) (change : mutation)
    (bound_value : BoundTransaction → string) : LabScenario Approved :=
  mkAttackScenario World ScenarioContext Approved scenario_id name AttackCategory.TRANSACTION Severity.HIGH description
    ["TRANSACTION CHANGED AFTER APPROVAL -> AUTHORIZATION INVALID"]
    Backend.SQLITE AttackStatus.BLOCKED (Some (enum_value ReasonCode.TRANSACTION_BINDING_FAILURE)) false
    (λ c, acting (approved_setup DEFAULT_AMOUNT_INR c))
    (λ c st, acting (version_execute field mutated_value change bound_value c st)).
Definition POLICY_VERSION_MUTATION : LabScenario Approved :=
  version_scenario "policy_version_mutation" "Policy version mutation" "policy_version" "policy-v2"
    ("An authorization approved under policy-v1 is presented against a transaction stamped policy-v2. An approval must not "
     +:+ "survive a change to the ruleset that adjudicated it.")
    (ToPolicyVersion "policy-v2") bt_policy_version.
Definition OFFER_VERSION_MUTATION : LabScenario Approved :=
  version_scenario "offer_version_mutation" "Offer version mutation" "offer_version" "edited-offer-fingerprint"
    ("An authorization bound to one offer fingerprint is presented against a transaction carrying a different one "
     +:+ "- the shape a merchant editing its offer after approval would take.")
    (ToOfferVersion "edited-offer-fingerprint") bt_offer_version.

Definition SCENARIOS : list AnyScenario :=
  [mkAnyScenario counts HARD_BUDGET_BYPASS; mkAnyScenario Approved TRANSACTION_MUTATION;
   mkAnyScenario Spent AUTHORIZATION_REPLAY; mkAnyScenario Stale STALE_AUTHORIZATION;
   mkAnyScenario Approved POLICY_VERSION_MUTATION; mkAnyScenario Approved OFFER_VERSION_MUTATION].
End Scenarios.
