(* ===== verification/AttackTransactionProperties.v ===== *)
(** * What the attacks on the transaction come to

    For every environment: the mutations of an approved transaction and the edited version
    stamps are refused with the binding failure, or exhibit a collision of SHA-256; an
    approval presented again or past its window is refused.  And every scenario of the
    file, run through the lab's runner in a concrete environment, is BLOCKED. *)
From S2P Require Import Prelude Python PyFloat PyText Json Text Enums Errors Firewall Canonical Transaction.
From S2P Require Import StateMachines Merchant Kernel Policy Payment Database Hashing Evolution Ledger Binding.
From S2P Require Import Authorization AuthorizationTheorems Outbox Intents IntentsProperties Provider Executor.
From S2P Require Import Reconciliation Worker Orchestrator DecisionTrace Replay RiskFeatures Routes.
From S2P Require Import AttackLab AttackLabProperties AttackContext AttackTransaction.

Section Attacks.
Context `{Env}.

(** ** A transaction that is not the approved one *)
Lemma classify_mismatch {A} i t now s w r h :
  ledger_ok (w_db w) → db_auths (w_db w) !! i = Some r → au_status r = AuthorizationStatus.ACTIVE →
  digest t = Ok h → h ≠ au_transaction_digest r →
  ∃ d w', (classify_and_raise i (Some t) now s : P A) w = (Raise (AuthorizationFailure TransactionBindingFailure i d), w').
Proof.
  intros Hok Hr Hs Hh Hne. unfold classify_and_raise, reload, reads, gets, mbind at 1, M_bind at 1. rewrite Hr, Hs.
  unfold lift, presented_differs, digests_match. unfold mbind at 1, M_bind at 1. unfold mbind at 1, outcome_bind at 1.
  unfold mbind at 1, outcome_bind at 1. rewrite Hh. rewrite (proj2 (String.eqb_neq _ _)) by congruence. cbn [negb].
  unfold mbind at 1, M_bind at 1. rewrite Hh. unfold mbind at 1, M_bind at 1, audit.
  match goal with |- context [append_event ?m ?t ?a ?p] => destruct (append_event_total m t a p w Hok) as (x & _ & E) end.
  unfold mbind at 1, M_bind at 1. rewrite E. cbn [mret M_ret]. unfold auth_failure, raise. by eexists _, _.
Qed.
Lemma consume_mismatch i t now w r h :
  ledger_ok (w_db w) → db_auths (w_db w) !! i = Some r → au_status r = AuthorizationStatus.ACTIVE →
  digest t = Ok h → h ≠ au_transaction_digest r →
  ∃ d w', consume_authorization i t now w = (Raise (AuthorizationFailure TransactionBindingFailure i d), w').
Proof.
  intros Hok Hr Hs Hh Hne. unfold consume_authorization.
  destruct (moment_of_run now w) as (m & w1 & Em & (Hd & _ & _) & _).
  unfold mbind at 1, M_bind at 1. rewrite Em. unfold lift, mbind at 1, M_bind at 1. rewrite Hh.
  unfold mbind at 1, M_bind at 1. rewrite update_authorization_cases, Hd, Hr.
  replace (consumable h m r) with false
    by (unfold consumable; by rewrite (proj2 (String.eqb_neq (au_transaction_digest r) h)), andb_false_r by congruence).
  unfold moved_row. cbn [negb Z.eqb]. unfold mbind at 1, M_bind at 1. unfold mbind at 1, M_bind at 1.
  rewrite <-Hd in Hr, Hok.
  destruct (classify_mismatch (A:=unit) i t m AuthorizationStatus.ACTIVE w1 r h Hok Hr Hs Hh Hne) as (d & w' & E).
  rewrite E. by exists d, w'.
Qed.

(** A refused presentation is rolled back. *)
Lemma present_refused name i t now w k d w1 :
  consume_authorization i t now (set_w_db (w_committed w) w) = (Raise (AuthorizationFailure k i d), w1) →
  ∃ w', present name i t now w = (Ok (mkAttempt name true (Some (authorization_failure_code k))), w') ∧
    w_committed w' = w_committed w ∧ w_calls w' = w_calls w.
Proof.
  intros E. pose proof (evolves_consume i t now (set_w_db (w_committed w) w)) as Hs. rewrite E in Hs. cbn [snd] in Hs.
  destruct Hs as [_ Hc Hl _]. unfold present, with_session, try_except. unfold mbind at 1, M_bind at 1. rewrite E.
  eexists. split; [reflexivity|]. by split.
Qed.

(** The durable state holds an ACTIVE approval of the transaction. *)
Definition approval_held (d : DB) (i : uuid) (t : BoundTransaction) : Prop :=
  ledger_ok d ∧ ∃ r, db_auths d !! i = Some r ∧ au_status r = AuthorizationStatus.ACTIVE ∧
    digest t = Ok (au_transaction_digest r) ∧ au_expires_at r = bt_expires_at t ∧
    violates (authorization_checks (set_au_status AuthorizationStatus.EXPIRED r)) = None.
Definition collides (t t' : BoundTransaction) : Prop :=
  ∃ m m', binding_message t = Ok m ∧ binding_message t' = Ok m' ∧ sha256_collides m m'.

Lemma present_mutated name i t t' now w :
  approval_held (w_committed w) i t → in_year_range (bt_expires_at t) → in_year_range (bt_expires_at t') →
  dt_is_aware (bt_expires_at t') = true → ¬ bound_equiv t t' →
  collides t t' ∨
  ∃ w', present name i t' now w = (Ok (mkAttempt name true (Some (enum_value ReasonCode.TRANSACTION_BINDING_FAILURE))), w') ∧
    w_committed w' = w_committed w ∧ w_calls w' = w_calls w.
Proof.
  intros (Hok & r & Hr & Hs & Hd & _) Hy Hy' Ha Hne. destruct (digest_total t' Ha) as [h Hh].
  destruct (decide (h = au_transaction_digest r)) as [->|Hn].
  - destruct (digest_inj t t' _ Hy Hy' Hd Hh) as [He|Hc]; [by destruct Hne|by left].
  - right. destruct (consume_mismatch i t' now (set_w_db (w_committed w) w) r h) as (d & w1 & E); try done.
    by destruct (present_refused name i t' now w _ _ _ E) as (w' & Ep & ?); exists w'.
Qed.

(** ** The mutations *)
(** An approval that can be mutated: its expiry, and an hour later, are dates. *)
Definition dated (t : BoundTransaction) : Prop :=
  dt_is_aware (bt_expires_at t) = true ∧ in_year_range (bt_expires_at t) ∧
  in_year_range (dt_add (bt_expires_at t) (seconds 3600)).

Lemma mutate_dated m t : dated t →
  in_year_range (bt_expires_at (mutate m t)) ∧ dt_is_aware (bt_expires_at (mutate m t)) = true.
Proof. intros (Ha & Hy & Hh). by destruct t, m. Qed.
Lemma mutate_differs m t : unchanged m t = false → ¬ bound_equiv t (mutate m t).
Proof.
  destruct t. unfold bound_equiv. destruct m; cbn; intros Hu Hb; destruct_and! Hb;
    try (apply String.eqb_neq in Hu; congruence); try (apply Z.eqb_neq in Hu; congruence).
  rewrite dt_instant_add in *. unfold seconds in *. lia.
Qed.
Lemma mutations_differ t f m : (f, m) ∈ mutations_of t → unchanged m t = false.
Proof.
  unfold mutations_of. rewrite list_elem_of_In, in_concat. intros (l & (field & <- & _)%in_map_iff & Hl).
  apply in_map_iff in Hl as (m' & [= _ ->] & [_ Hu]%filter_In). by apply negb_true_iff.
Qed.
Lemma mutations_some t : mutations_of t ≠ [].
Proof.
  assert (Hin : ("expires_at", OneHourLater) ∈ mutations_of t).
  { unfold mutations_of. rewrite list_elem_of_In, in_concat. exists [("expires_at", OneHourLater)].
    split; [|by left]. apply in_map_iff. exists "expires_at". split; [reflexivity|]. cbn. tauto. }
  intros E. rewrite E in Hin. by apply not_elem_of_nil in Hin.
Qed.

Definition binding_refusal (name : string) : attempt :=
  mkAttempt name true (Some (enum_value ReasonCode.TRANSACTION_BINDING_FAILURE)).
Lemma present_all_refused i t l w :
  approval_held (w_committed w) i t → dated t → (∀ f m, (f, m) ∈ l → unchanged m t = false) →
  (∃ f m, (f, m) ∈ l ∧ collides t (mutate m t)) ∨
  ∃ w', present_all i t l w = (Ok (map (λ fm, binding_refusal (fst fm)) l), w') ∧
    w_committed w' = w_committed w ∧ w_calls w' = w_calls w.
Proof.
  intros Hheld Hdate. revert w Hheld. induction l as [|[f m] l IH]; intros w Hheld Hl.
  - right. by exists w.
  - destruct (mutate_dated m t Hdate) as [Hy Ha].
    destruct (present_mutated f i t (mutate m t) None w Hheld (proj1 (proj2 Hdate)) Hy Ha) as [Hc|(w1 & E1 & Hc1 & Hl1)].
    { apply mutate_differs, (Hl f). by left. }
    { left. exists f, m. split; [by left|done]. }
    destruct (IH w1) as [(f' & m' & Hin & Hc)|(w2 & E2 & Hc2 & Hl2)].
    { by rewrite Hc1. }
    { intros f' m' Hin. apply (Hl f'). by right. }
    { left. exists f', m'. split; [by right|done]. }
    right. exists w2. cbn [present_all]. unfold mbind, M_bind. rewrite E1, E2. split; [reflexivity|]. split; congruence.
Qed.

(** What the setup left is still there: nothing was spent, and nothing was paid. *)
Definition held_since_setup (c : ScenarioContext) (st : Approved) (w : World) : Prop :=
  approval_held (w_committed w) (ap_authorization_id st) (ap_transaction st) ∧ dated (ap_transaction st) ∧
  ap_census st = counts_at c w.

Lemma intents_delta_0 c w w' : w_committed w' = w_committed w →
  (count_of "payment_intents" (effect_delta (counts_at c w) (counts_at c w')) =? 0) = true.
Proof. intros E. rewrite intents_delta, E. by rewrite Z.sub_diag. Qed.
Lemma status_held d i t : approval_held d i t →
  bool_decide ((au_status <$> db_auths d !! i) = Some AuthorizationStatus.ACTIVE) = true.
Proof. intros (_ & r & -> & Hs & _). cbn. by rewrite Hs. Qed.

Lemma mutation_execute_blocked c st w : held_since_setup c st w →
  (∃ f m, (f, m) ∈ mutations_of (ap_transaction st) ∧ collides (ap_transaction st) (mutate m (ap_transaction st))) ∨
  ∃ o w', mutation_execute c st w = (Ok o, w') ∧ ob_blocked o = true ∧ ob_invariant_preserved o = Some true ∧
    ob_reason_code o = Some (enum_value ReasonCode.TRANSACTION_BINDING_FAILURE) ∧ w_committed w' = w_committed w.
Proof.
  intros (Hheld & Hdate & Hcensus). pose proof (mutations_some (ap_transaction st)) as Hsome.
  destruct (present_all_refused (ap_authorization_id st) (ap_transaction st) (mutations_of (ap_transaction st)) w
    Hheld Hdate (mutations_differ _)) as [Hc|(w1 & E & Hcom & _)]; [by left|right].
  unfold mutation_execute. unfold mbind at 1, M_bind at 1. rewrite E.
  generalize dependent (mutations_of (ap_transaction st)). intros l E Hne.
  assert (Hall : List.filter (λ a, is_reason ReasonCode.TRANSACTION_BINDING_FAILURE (at_reason_code a))
      (map (λ fm : string * mutation, binding_refusal (fst fm)) l) = map (λ fm, binding_refusal (fst fm)) l).
  { apply filter_true_in. intros a ([f m] & -> & _)%list_elem_of_fmap. by apply bool_decide_eq_true. }
  assert (Href : forallb at_refused (map (λ fm : string * mutation, binding_refusal (fst fm)) l) = true).
  { apply forallb_forall. by intros a ([f m] & <- & _)%in_map_iff. }
  unfold mbind at 1, M_bind at 1. rewrite authorization_status_run. cbn zeta. unfold mbind at 1, M_bind at 1. rewrite census_run.
  eexists _, _. split; [reflexivity|]. cbn [ob_blocked ob_invariant_preserved ob_reason_code].
  rewrite Hall, Href, Hcensus, Nat.eqb_refl. rewrite intents_delta_0 by done. rewrite Hcom, (status_held _ _ _ Hheld).
  destruct l as [|fm l]; [done|]. by split_and!.
Qed.

(** ** The setup *)
Lemma make_mission_Ok st w m w' : make_mission st w = (Ok m, w') →
  w_committed w' = set_db_missions (<[m := mkMissionRow m None 1 st None]> (db_missions (w_committed w))) (w_committed w) ∧
  w_calls w' = w_calls w.
Proof.
  intros (w1 & E & ->)%with_session_Ok. run_step E. injection Hrun as <- <-. run_step E.
  unfold insert_mission in Hrun. run_step Hrun. apply reads_Ok in Hrun0 as [-> ->]. run_step Hrun.
  apply flush_checked_Ok in Hrun0 as [_ ->]. apply modify_run_Ok in Hrun as [_ ->].
  run_step E. apply modify_run_Ok in Hrun as [_ ->]. apply ret_run_Ok in E as [-> ->]. done.
Qed.
Lemma bound_transaction_run_Ok amount at_ w t w' : bound_transaction amount at_ w = (Ok t, w') →
  bt_expires_at t = at_ ∧ dt_is_aware at_ = true ∧ w_committed w' = w_committed w ∧ w_calls w' = w_calls w.
Proof.
  unfold bound_transaction. intros E. run_step E. injection Hrun as <- <-. apply lift_run_Ok in E as [E ->].
  apply BoundTransaction_new_ok in E as (_ & Ha & ->). done.
Qed.
Lemma activation_logs i now w row w' : activate_authorization i now w = (Ok row, w') →
  ∃ r l, db_auths (w_db w) !! i = Some r ∧ row = set_au_status AuthorizationStatus.ACTIVE r ∧
    w_db w' = set_db_audit l (set_db_auths (<[i := row]> (db_auths (w_db w))) (w_db w)).
Proof.
  unfold activate_authorization. intros E. run_step E.
  destruct (moment_of_run now w) as (m & w1 & Em & (Hd & _ & _) & _). rewrite Em in Hrun. simplify_eq.
  run_step E. run_step E. apply moved_row_Ok in Hrun0 as (-> & Hrow & ->).
  apply update_authorization_Ok in Hrun as [(r & Hr & _ & _ & _ & ->)|(? & _)]; [|done].
  run_step E. apply audit_db in Hrun as [l Hau]. apply ret_run_Ok in E as [<- ->].
  cbn in Hrow, Hau. rewrite Hd in *. rewrite lookup_insert_eq in Hrow. injection Hrow as <-. by exists r, l.
Qed.

(** A decision recorded, an approval issued and activated, and the mission moved. *)
Lemma approve_session_Ok m t issued activated w i w' :
  ledger_ok (w_committed w) →
  with_session
    (record_allow m t;;
     row ← issue_authorization (security_kernel_capabilities "security-kernel") m t ApprovalScheme.POLICY_AUTO issued;
     (activate_authorization (au_authorization_id row) activated;; set_mission_state m MissionState.AUTHORIZED);;
     commit;;
     mret (au_authorization_id row)) w = (Ok i, w') →
  approval_held (w_committed w') i t.
Proof.
  intros Hok (w1 & E & ->)%with_session_Ok. run_step E.
  unfold record_allow in Hrun. run_step Hrun. injection Hrun0 as <- <-. apply modify_run_Ok in Hrun as [_ ->].
  run_step E. pose proof (evolves_issue (security_kernel_capabilities "security-kernel") m t ApprovalScheme.POLICY_AUTO issued) as Hev.
  match type of Hrun with _ ?v = _ => specialize (Hev v) end. rewrite Hrun in Hev. cbn [snd] in Hev.
  apply issue_Ok in Hrun as (_ & _ & now & id & h & Hh & _ & -> & _ & _ & Hau).
  run_step E. run_step Hrun. pose proof (evolves_activate id activated s) as Hev2. cbn [au_authorization_id] in Hrun0.
  rewrite Hrun0 in Hev2. cbn [snd] in Hev2. apply activation_logs in Hrun0 as (r & l & Hr & -> & Hdb).
  apply modify_run_Ok in Hrun as [_ ->]. run_step E. apply modify_run_Ok in Hrun as [_ ->].
  apply ret_run_Ok in E as [-> ->]. cbn [w_committed set_w_db w_db]. split.
  - eapply ledger_ok_same; [|apply (dl_ledger _ _ (sl_db _ _ Hev2)), (dl_ledger _ _ (sl_db _ _ Hev)); exact Hok]. done.
  - rewrite Hdb. cbn. rewrite Hau, lookup_insert_eq in Hr. injection Hr as <-.
    eexists. split; [by rewrite lookup_insert_eq|]. done.
Qed.

Lemma authorized_mission_Ok amount w m i t w' :
  ledger_ok (w_committed w) → authorized_mission amount None true w = (Ok (m, i, t), w') →
  approval_held (w_committed w') i t ∧ bt_expires_at t = FIXED_EXPIRY.
Proof.
  intros Hok E. unfold authorized_mission in E. run_step E. apply make_mission_Ok in Hrun as [Hc _].
  run_step E. apply bound_transaction_run_Ok in Hrun as (He & _ & Hc2 & _).
  run_step E. apply ret_run_Ok in E as [[= -> -> ->] ->]. split; [|done].
  apply (approve_session_Ok a a0 None None s0 a1 s1); [|exact Hrun].
  rewrite Hc2, Hc. by eapply ledger_ok_same; [|exact Hok].
Qed.
Lemma fixed_expiry_dated t : bt_expires_at t = FIXED_EXPIRY → dated t.
Proof. intros E. unfold dated, in_year_range. rewrite E. vm_compute. by repeat split. Qed.
Lemma approved_setup_Ok amount c w st w' :
  ledger_ok (w_committed w) → approved_setup amount c w = (Ok st, w') → held_since_setup c st w'.
Proof.
  intros Hok E. unfold approved_setup in E. run_step E. destruct a as [[m i] t].
  apply authorized_mission_Ok in Hrun as [Hheld He]; [|done]. run_step E.
  rewrite census_run in Hrun. injection Hrun as <- <-. apply ret_run_Ok in E as [-> ->].
  split; [exact Hheld|]. split; [by apply fixed_expiry_dated|reflexivity].
Qed.

(** No mutation of an approved transaction goes through.  In every environment, over a
    sound ledger: when the setup of [transaction_mutation] returned, its execution observes
    a blocked attack, with the binding failure as the reason, the approval unspent, no
    payment intent made and nothing changed - or one of the mutations and the approved
    transaction exhibit a collision of SHA-256. *)
Theorem mutated_transactions_are_refused (c : ScenarioContext) (w w1 : World) (st : Approved) :
  ledger_ok (w_committed w) → approved_setup 3799 c w = (Ok st, w1) →
  (∃ f m, (f, m) ∈ mutations_of (ap_transaction st) ∧ collides (ap_transaction st) (mutate m (ap_transaction st))) ∨
  ∃ o w2, mutation_execute c st w1 = (Ok o, w2) ∧ ob_blocked o = true ∧ ob_invariant_preserved o = Some true ∧
    ob_reason_code o = Some (enum_value ReasonCode.TRANSACTION_BINDING_FAILURE) ∧ w_committed w2 = w_committed w1.
Proof. intros Hok E. apply mutation_execute_blocked. by eapply approved_setup_Ok. Qed.

(** An edited version stamp invalidates the approval. *)
Theorem edited_versions_are_refused (field value : string) (change : mutation) (bound : BoundTransaction → string)
    (c : ScenarioContext) (w w1 : World) (st : Approved) :
  ledger_ok (w_committed w) → approved_setup DEFAULT_AMOUNT_INR c w = (Ok st, w1) →
  unchanged change (ap_transaction st) = false →
  collides (ap_transaction st) (mutate change (ap_transaction st)) ∨
  ∃ o w2, version_execute field value change bound c st w1 = (Ok o, w2) ∧ ob_blocked o = true ∧
    ob_invariant_preserved o = Some true ∧
    ob_reason_code o = Some (enum_value ReasonCode.TRANSACTION_BINDING_FAILURE) ∧ w_committed w2 = w_committed w1.
Proof.
  intros Hok (Hheld & Hdate & Hcensus)%approved_setup_Ok Hu; [|done].
  destruct (mutate_dated change _ Hdate) as [Hy Ha].
  destruct (present_mutated field (ap_authorization_id st) _ _ None w1 Hheld (proj1 (proj2 Hdate)) Hy Ha
    (mutate_differs _ _ Hu)) as [Hc|(w2 & E & Hcom & _)]; [by left|right].
  unfold version_execute. unfold mbind at 1, M_bind at 1. rewrite E.
  unfold mbind at 1, M_bind at 1. rewrite authorization_status_run. unfold mbind at 1, M_bind at 1. rewrite census_run.
  eexists _, _. split; [reflexivity|]. cbn [ob_blocked ob_invariant_preserved ob_reason_code at_refused at_reason_code].
  rewrite Hcensus. rewrite intents_delta_0 by done. rewrite Hcom, (status_held _ _ _ Hheld). by split_and!.
Qed.

(** ** A spent approval *)
(** The issue and the activation of an approval make no payment. *)
Definition same_intents (w w' : World) : Prop := db_intents (w_db w') = db_intents (w_db w).
#[local] Instance same_intents_preorder : PreOrder same_intents.
Proof. split; [done|]. intros a b d H1 H2. unfold same_intents in *. congruence. Qed.
Lemma same_intents_append m t a p : evolves same_intents (append_event m t a p).
Proof. intros w. destruct (append_event m t a p w) as [x w'] eqn:E. apply append_event_db in E as [l E]. unfold same_intents. cbn. by rewrite E. Qed.
Lemma same_intents_insert r : evolves same_intents (insert_authorization r).
Proof.
  intros w. unfold insert_authorization, read_db, reads, gets, mbind, M_bind. rewrite flush_checked_cases.
  by destruct (violates _).
Qed.
Lemma same_intents_update i q f : evolves same_intents (update_authorization i q f).
Proof.
  intros w. unfold same_intents. rewrite update_authorization_cases. destruct (db_auths _ !! i); [|done]. destruct (q _); [|done].
  by destruct (violates _).
Qed.
Lemma same_intents_uuid4 : evolves same_intents uuid4.
Proof. by intros w. Qed.
Lemma same_intents_moment now : evolves same_intents (moment_of now).
Proof. intros w. destruct (moment_of_run now w) as (m & w1 & -> & (Hd & _ & _) & _). unfold same_intents. cbn. by rewrite Hd. Qed.
Hint Resolve same_intents_append same_intents_insert same_intents_update same_intents_uuid4 same_intents_moment : evolves.
Lemma same_intents_audit m t p : evolves same_intents (audit m t p).
Proof. unfold audit. evolve. Qed.
Hint Resolve same_intents_audit : evolves.
Lemma same_intents_expire i now : evolves same_intents (expire_if_stale i now).
Proof. unfold expire_if_stale, reload. evolve. Qed.
Hint Resolve same_intents_expire : evolves.
Lemma same_intents_classify {A} i t now s : evolves same_intents (classify_and_raise i t now s : P A).
Proof. unfold classify_and_raise, reload, auth_failure. evolve. Qed.
Hint Resolve same_intents_classify : evolves.
Lemma same_intents_activate i now : evolves same_intents (activate_authorization i now).
Proof. unfold activate_authorization, moved_row, reload, auth_failure. evolve. Qed.
Lemma same_intents_issue c m t s now : evolves same_intents (issue_authorization c m t s now).
Proof. unfold issue_authorization, enforce_registered. evolve. Qed.

Lemma approve_session_intents m t issued activated w i w' :
  with_session
    (record_allow m t;;
     row ← issue_authorization (security_kernel_capabilities "security-kernel") m t ApprovalScheme.POLICY_AUTO issued;
     (activate_authorization (au_authorization_id row) activated;; set_mission_state m MissionState.AUTHORIZED);;
     commit;;
     mret (au_authorization_id row)) w = (Ok i, w') →
  db_intents (w_committed w') = db_intents (w_committed w).
Proof.
  intros (w1 & E & ->)%with_session_Ok. run_step E.
  unfold record_allow in Hrun. run_step Hrun. injection Hrun0 as <- <-. apply modify_run_Ok in Hrun as [_ ->].
  run_step E. match type of Hrun with ?p ?v = _ => pose proof (same_intents_issue _ _ _ _ _ v : same_intents v (snd (p v))) as H1 end.
  rewrite Hrun in H1. run_step E. run_step Hrun0.
  match type of Hrun1 with ?p ?v = _ => pose proof (same_intents_activate _ _ v : same_intents v (snd (p v))) as H2 end.
  rewrite Hrun1 in H2. apply modify_run_Ok in Hrun0 as [_ ->]. run_step E. apply modify_run_Ok in Hrun0 as [_ ->].
  apply ret_run_Ok in E as [_ ->]. unfold same_intents in *. cbn in *. congruence.
Qed.
Lemma ledger_ok_empty : ledger_ok db_empty.
Proof. intros j. apply chain_nil. Qed.
Lemma authorized_from_empty amount w m i t w' :
  w_committed w = db_empty → authorized_mission amount None true w = (Ok (m, i, t), w') →
  approval_held (w_committed w') i t ∧ db_intents (w_committed w') = ∅.
Proof.
  intros He E. split; [apply (authorized_mission_Ok amount w m i t w'); [rewrite He; apply ledger_ok_empty|exact E]|].
  unfold authorized_mission in E. run_step E. apply make_mission_Ok in Hrun as [Hc _].
  run_step E. apply bound_transaction_run_Ok in Hrun as (_ & _ & Hc2 & _).
  run_step E. apply ret_run_Ok in E as [_ ->]. apply approve_session_intents in Hrun. by rewrite Hrun, Hc2, Hc, He.
Qed.

(** The durable state after the one payment. *)
Definition spent_in (d : DB) (m i : uuid) (t : BoundTransaction) (intent : uuid) : Prop :=
  ledger_ok d ∧
  (∃ r, db_auths d !! i = Some r ∧ au_status r = AuthorizationStatus.CONSUMED ∧ digest t = Ok (au_transaction_digest r)) ∧
  ∃ x, db_intents d = {[intent := x]} ∧ pi_mission_id x = m ∧ pi_idempotency_key x = "attack-replay-first".

Lemma spend_Ok m i t w intent w' :
  approval_held (w_committed w) i t → db_intents (w_committed w) = ∅ →
  with_session
    (result ← create_payment_intent executor m i "attack-replay-first" "fake" None; commit;; mret (pr_intent result)) w
  = (Ok intent, w') →
  spent_in (w_committed w') m i t intent.
Proof.
  intros (Hok & r & Hr & Hs & Hd & _) Hno (w1 & E & ->)%with_session_Ok. run_step E.
  pose proof (evolves_create executor m i "attack-replay-first" "fake" None (set_w_db (w_committed w) w)) as Hev.
  rewrite Hrun in Hev. cbn [snd] in Hev. run_step E. apply modify_run_Ok in Hrun0 as [_ ->].
  apply ret_run_Ok in E as [-> ->]. destruct a as [j []].
  - apply create_Ok in Hrun as (_ & _ & _ & ms & z & t' & fp & mo & _ & _ & Hz & _ & _ & _ & _ & _ & _ & _ & Hin & Hau & _).
    cbn [w_db set_w_db] in *. rewrite Hr in Hz. injection Hz as <-. cbn [w_committed set_w_db w_db]. split; [|split].
    + apply (dl_ledger _ _ (sl_db _ _ Hev)). exact Hok.
    + exists (consumed (as_utc mo) r). rewrite Hau, lookup_insert_eq. done.
    + eexists. rewrite Hin, Hno, insert_empty. done.
  - apply create_reused in Hrun as (x & _ & _ & Hx & _). apply find_key_Some in Hx as (_ & j' & Hj). cbn in Hj.
    by rewrite Hno, lookup_empty in Hj.
Qed.

Lemma request_again_refused m i t intent w :
  spent_in (w_committed w) m i t intent →
  ∃ code w', request_again m i w = (Ok (mkAttempt "payment_request" true code), w') ∧ w_committed w' = w_committed w.
Proof.
  intros (Hok & (r & Hr & Hs & _) & x & Hin & _ & Hk).
  unfold request_again, with_session, try_except. unfold mbind at 1, M_bind at 1.
  pose proof (evolves_create executor m i "attack-replay-second" "fake" None (set_w_db (w_committed w) w)) as Hev.
  destruct (create_payment_intent _ _ _ _ _ _ _) as [[[j []]|e] w1] eqn:E.
  - exfalso. apply create_Ok in E as (_ & _ & _ & ms & z & t' & fp & mo & _ & _ & Hz & _ & Hact & _).
    cbn in Hz. rewrite Hr in Hz. injection Hz as <-. congruence.
  - exfalso. apply create_reused in E as (y & _ & _ & Hy & _). apply find_key_Some in Hy as (Hyk & j' & Hj). cbn in Hj.
    rewrite Hin in Hj. apply lookup_singleton_Some in Hj as [_ <-]. congruence.
  - destruct Hev as [_ Hc _ _]. eexists _, _. split; [reflexivity|]. exact Hc.
Qed.
Lemma present_replayed name m i t intent now w :
  spent_in (w_committed w) m i t intent →
  ∃ w', present name i t now w = (Ok (mkAttempt name true (Some (enum_value ReasonCode.AUTHORIZATION_REPLAY_DETECTED))), w') ∧
    w_committed w' = w_committed w.
Proof.
  intros (Hok & (r & Hr & Hs & Hd) & _).
  destruct (consume_replayed i t now (set_w_db (w_committed w) w) r _ Hr Hs Hok Hd) as (w1 & E & _).
  destruct (present_refused name i t now w _ _ _ E) as (w' & Ep & Hc & _). by exists w'.
Qed.
Lemma mission_intents_spent d m i t intent : spent_in d m i t intent →
  length_of (List.filter (λ r, bool_decide (pi_mission_id r = m)) (intent_rows d)) = 1.
Proof.
  intros (_ & _ & x & Hin & Hm & _). unfold intent_rows. rewrite Hin, map_to_list_singleton. cbn.
  by rewrite (bool_decide_eq_true_2 _ Hm).
Qed.

(** An approval that was spent buys nothing more.  In every environment, from an empty
    database: when the setup of [authorization_replay] spent an approval on a payment, its
    execution observes the second request refused, the transaction presented again refused
    as a replay, one payment as before, and nothing changed. *)
Theorem replayed_approval_is_refused (c : ScenarioContext) (w w1 : World) (st : Spent) :
  w_committed w = db_empty → replay_setup c w = (Ok st, w1) →
  ∃ o w2, replay_execute c st w1 = (Ok o, w2) ∧ ob_blocked o = true ∧ ob_invariant_preserved o = Some true ∧
    ob_reason_code o = Some (enum_value ReasonCode.AUTHORIZATION_REPLAY_DETECTED) ∧
    py_dict_get "unauthorized_effect" (ob_observed_effects o) = Some (JBool false) ∧ w_committed w2 = w_committed w1.
Proof.
  intros He E. unfold replay_setup in E. run_step E. destruct a as [[m i] t].
  apply authorized_from_empty in Hrun as [Hheld Hno]; [|done]. run_step E.
  apply (spend_Ok m i t) in Hrun as Hspent; [|done..]. clear Hrun. run_step E. rewrite census_run in Hrun. injection Hrun as <- <-.
  run_step E. unfold payment_intents_for in Hrun. rewrite session_reads in Hrun. injection Hrun as <- <-.
  apply ret_run_Ok in E as [-> ->]. cbn [w_committed set_w_db] in *.
  rewrite (mission_intents_spent _ _ _ _ _ Hspent). set (w1 := set_w_db _ _).
  assert (Hs1 : spent_in (w_committed w1) m i t a) by exact Hspent.
  destruct (request_again_refused _ _ _ _ w1 Hs1) as (code & w2 & E2 & Hc2).
  destruct (present_replayed "consume_authorization" m i t a None w2) as (w3 & E3 & Hc3); [by rewrite Hc2|].
  unfold replay_execute. cbn [sp_approved]. unfold mbind at 1, M_bind at 1. rewrite E2. unfold mbind at 1, M_bind at 1. rewrite E3.
  unfold mbind at 1, M_bind at 1, payment_intents_for. rewrite session_reads. unfold mbind at 1, M_bind at 1. rewrite census_run.
  cbn zeta. assert (Hc : w_committed w3 = w_committed w1) by congruence. cbn [w_committed set_w_db]. rewrite Hc.
  rewrite (mission_intents_spent _ _ _ _ _ Hs1). unfold gets. unfold mbind at 1, M_bind at 1.
  unfold mbind at 1, M_bind at 1. rewrite authorization_status_run. eexists _, _. split; [reflexivity|].
  cbn [ob_blocked ob_invariant_preserved ob_reason_code ob_observed_effects]. cbn [existsb forallb at_refused at_reason_code].
  assert (Hcode : is_reason ReasonCode.AUTHORIZATION_REPLAY_DETECTED
    (Some (enum_value ReasonCode.AUTHORIZATION_REPLAY_DETECTED)) = true) by by apply bool_decide_eq_true.
  rewrite Hcode, orb_true_r. rewrite intents_delta_0 by exact Hc. by split_and!.
Qed.

(** ** Past its window *)
Lemma expire_stale_run i now w r :
  ledger_ok (w_db w) → db_auths (w_db w) !! i = Some r → au_status r = AuthorizationStatus.ACTIVE →
  violates (authorization_checks (set_au_status AuthorizationStatus.EXPIRED r)) = None → dt_geb (as_utc now) (au_expires_at r) = true →
  ∃ w', expire_if_stale i (Some now) w = (Ok true, w').
Proof.
  intros Hok Hr Hs Hv Hp. unfold expire_if_stale, moment_of. unfold mbind at 1, M_bind at 1. cbn [mret M_ret].
  unfold mbind at 1, M_bind at 1. rewrite update_authorization_cases, Hr, Hs, Hp. cbn [is_live andb]. rewrite Hv.
  change (negb (1 =? 1)) with false. cbv iota. unfold reload, reads, gets. unfold mbind at 1, M_bind at 1.
  cbn [w_db set_w_db db_auths set_db_auths]. rewrite lookup_insert_eq.
  unfold audit. unfold mbind at 1, M_bind at 1. unfold mbind at 1, M_bind at 1.
  match goal with |- context [append_event ?m ?t ?a ?p ?v] => destruct (append_event_total m t a p v) as (x & _ & E) end.
  { eapply ledger_ok_same; [|exact Hok]. done. }
  rewrite E. by eexists.
Qed.
Lemma consume_stale i t now w :
  approval_held (w_db w) i t → dt_geb (as_utc now) (bt_expires_at t) = true →
  ∃ d w', consume_authorization i t (Some now) w = (Raise (AuthorizationFailure AuthorizationExpired i d), w').
Proof.
  intros (Hok & r & Hr & Hs & Hd & He & Hv) Hp. unfold consume_authorization, moment_of. unfold mbind at 1, M_bind at 1.
  cbn [mret M_ret]. unfold lift, mbind at 1, M_bind at 1. rewrite Hd.
  unfold mbind at 1, M_bind at 1. rewrite update_authorization_cases, Hr.
  assert (Hg : dt_gtb (au_expires_at r) (as_utc now) = false) by (rewrite He; unfold dt_gtb, dt_geb in *; lia).
  replace (consumable (au_transaction_digest r) (as_utc now) r) with false by (unfold consumable; by rewrite Hg, andb_false_r).
  unfold moved_row. cbn [negb Z.eqb]. unfold mbind at 1, M_bind at 1. unfold mbind at 1, M_bind at 1.
  unfold classify_and_raise, reload, reads, gets. unfold mbind at 1, M_bind at 1. rewrite Hr, Hs.
  unfold lift, presented_differs, digests_match. unfold mbind at 1, M_bind at 1. unfold mbind at 1, outcome_bind at 1.
  unfold mbind at 1, outcome_bind at 1. rewrite Hd, String.eqb_refl. cbn [negb].
  assert (Hq : dt_geb (as_utc now) (as_utc (au_expires_at r)) = true) by (unfold dt_geb in *; rewrite (as_utc_instant (au_expires_at r)), He; lia).
  rewrite Hq. unfold mbind at 1, M_bind at 1.
  destruct (expire_stale_run i (as_utc now) w r Hok Hr Hs Hv) as (w1 & E).
  { rewrite as_utc_idemp, He. exact Hp. }
  rewrite E. by eexists _, _.
Qed.

Lemma expired_from_empty ttl w m i t after w' :
  w_committed w = db_empty → expired_authorization ttl w = (Ok (m, i, t, after), w') →
  approval_held (w_committed w') i t ∧ db_intents (w_committed w') = ∅ ∧ after = dt_add (bt_expires_at t) (seconds 1).
Proof.
  intros He E. unfold expired_authorization in E. run_step E. apply make_mission_Ok in Hrun as [Hc _].
  run_step E. apply bound_transaction_run_Ok in Hrun as (Hx & _ & Hc2 & _).
  run_step E. apply ret_run_Ok in E as [[= -> -> -> ->] ->]. split_and!; [| |by rewrite Hx].
  - eapply approve_session_Ok; [|exact Hrun]. rewrite Hc2, Hc, He. by eapply ledger_ok_same; [|apply ledger_ok_empty].
  - apply approve_session_intents in Hrun. by rewrite Hrun, Hc2, Hc, He.
Qed.

(** An approval is worth nothing past its window.  In every environment, from an empty
    database: when the setup of [stale_authorization] returned, its execution observes the
    presentation one second after the expiry refused as expired, no payment intent made,
    and, rolled back with the refusal, nothing changed - the status column included. *)
Theorem stale_approval_is_refused (c : ScenarioContext) (w w1 : World) (st : Stale) :
  w_committed w = db_empty → stale_setup c w = (Ok st, w1) →
  ∃ o w2, stale_execute c st w1 = (Ok o, w2) ∧ ob_blocked o = true ∧ ob_invariant_preserved o = Some true ∧
    ob_reason_code o = Some (enum_value ReasonCode.AUTHORIZATION_EXPIRED) ∧
    py_dict_get "status_column_rolled_back_with_the_refusal" (ob_observed_effects o) = Some (JBool true) ∧
    w_committed w2 = w_committed w1.
Proof.
  intros He E. unfold stale_setup in E. run_step E. destruct a as [[[m i] t] after].
  apply expired_from_empty in Hrun as (Hheld & Hno & ->); [|done]. run_step E. rewrite census_run in Hrun. injection Hrun as <- <-.
  apply ret_run_Ok in E as [-> ->]. set (w1 := set_w_db _ _).
  assert (Hp : dt_geb (as_utc (dt_add (bt_expires_at t) (seconds 1))) (bt_expires_at t) = true)
    by (unfold dt_geb; rewrite as_utc_instant, dt_instant_add; unfold seconds; lia).
  destruct (consume_stale i t _ (set_w_db (w_committed w1) w1) Hheld Hp) as (d & w2 & E2).
  destruct (present_refused "consume_authorization" i t _ w1 _ _ _ E2) as (w3 & E3 & Hc & _).
  unfold stale_execute. cbn [stl_approved stl_after_expiry]. unfold mbind at 1, M_bind at 1. rewrite E3.
  unfold mbind at 1, M_bind at 1, payment_intents_for. rewrite session_reads. unfold mbind at 1, M_bind at 1. rewrite census_run.
  cbn zeta. unfold mbind at 1, M_bind at 1. rewrite authorization_status_run. eexists _, _. split; [reflexivity|].
  cbn [ob_blocked ob_invariant_preserved ob_reason_code ob_observed_effects at_refused at_reason_code w_committed set_w_db].
  rewrite intents_delta_0 by exact Hc. rewrite Hc. rewrite (status_held (w_committed w1) i t Hheld).
  unfold intent_rows. change (w_committed w1) with (w_committed s). rewrite Hno. by split_and!.
Qed.
End Attacks.

(** ** A run of the lab *)
#[local] Existing Instance demo_env.
Definition lab_server : Server := mkServer (λ l, l) last last (mkRiskServer last last (λ l, l) (λ l, l) (λ l, l)).
(** One run through the runner, in an empty database, with clocks that stand still. *)
Definition lab_run {St} (s : LabScenario St) : option (AttackStatus * option bool * option bool) :=
  match AttackLab.run_scenario u (λ w, (0, w)) (λ w, (FIXED_TS, w)) s (new_context Backend.SQLITE) "attack-run-1" 1
          (demo_world db_empty) with
  | (Ok r, _) => Some (ar_status r, ar_invariant_preserved r, ar_reason_match r)
  | _ => None
  end.
Definition u_message (e : exn) : ustr := u (exn_type_name e).
Definition blocked_as_expected : option (AttackStatus * option bool * option bool) :=
  Some (AttackStatus.BLOCKED, Some true, Some true).
Example transaction_attacks_are_blocked :
  lab_run (HARD_BUDGET_BYPASS lab_server u_message) = blocked_as_expected ∧
  lab_run (AUTHORIZATION_REPLAY u_message) = blocked_as_expected ∧
  lab_run (STALE_AUTHORIZATION u_message) = blocked_as_expected ∧
  lab_run (POLICY_VERSION_MUTATION u_message) = blocked_as_expected.
Proof. split_and!; vm_compute; reflexivity. Qed.
