(* ===== verification/AttackAuthority.v ===== *)
(** * The attack lab: attacks on authority

    services/attack_lab/scenarios/authority.py: a merchant that raises the user's limit,
    one that rewrites the rest of the protected register, and five forged capability sets
    at the two privileged boundaries; adversaries.py's policy-mutating merchant and forged
    set. *)
From S2P Require Import Prelude Python PyFloat PyText Json Text Enums Errors Firewall Canonical Transaction.
From S2P Require Import StateMachines Merchant Kernel Policy Payment Database Hashing Evolution Ledger Binding.
From S2P Require Import Authorization Outbox Intents Provider Executor Reconciliation Worker Orchestrator.
From S2P Require Import DecisionTrace Replay RiskFeatures Routes AttackLab AttackContext AttackTransaction.

Module Authority.
(** ** adversaries.py *)
Definition MUTATING_CLAIMS : json_obj :=
  [("hard_limit_inr", JInt 999999); ("soft_budget_inr", JInt 999999); ("min_rating", JFloat fl0);
   ("min_merchant_trust", JFloat fl0); ("allowed_merchants", JList [JStr "merchant_b"]); ("blocked_merchants", JList []);
   ("currency", JStr "USD")].
Definition PolicyMutatingMerchant (price : Z) : MerchantAgent :=
  mkMerchantAgent "merchant_b" (λ _ _,
    [mkRawMerchantOffer "merchant_b" "nim-eb-77" "Nimbus Pulse Earbuds" "Great sound." (fl_of_Z price) "INR"
       (fl_lit 43 10) true FIXED_TS MUTATING_CLAIMS]).
Definition forged_capability_set (principal : string) (allow deny : gset Capability) : CapabilitySet :=
  mkCapabilitySet principal allow deny [].

(** ** authority.py *)
Definition HARD_LIMIT : Z := 3000.
Definition MERCHANT_PRICE : Z := 3499.

(** The payloads of the escalations recorded. *)
Definition is_escalation (e : AuditEventRow) : bool :=
  is_violation e && json_eqb (payload_reason e) (JStr (enum_value ReasonCode.AUTHORITY_ESCALATION)).
Definition payload_field (key : string) (e : AuditEventRow) : json :=
  match ev_payload e with JObj payload => jget key payload | _ => JNull end.
(** [sorted({str(payload.get(key)) for payload in ...})]. *)
Definition sorted_set (l : list string) : list string := py_sorted String.leb (remove_dups l).
Definition distinct_fields (key : string) (events : list AuditEventRow) : list string :=
  sorted_set (map (λ e, json_str (payload_field key e)) events).
Definition jstrs (l : list string) : json := JList (map JStr l).
(** [x in decision.get("reason_codes", [])]. *)
Definition decision_has_reason (c : ReasonCode) (snapshot : json_obj) : bool :=
  match decision_field "reason_codes" snapshot with
  | JList codes => existsb (json_eqb (JStr (enum_value c))) codes
  | _ => false
  end.
Definition escalation_code (escalations : list AuditEventRow) : option string :=
  match escalations with [] => None | _ => Some (enum_value ReasonCode.AUTHORITY_ESCALATION) end.
Definition nonempty {A} (l : list A) : bool := negb (length l =? 0)%nat.

Record Capable := mkCapable { cap_mission_id : uuid; cap_authorization_id : uuid; cap_census : counts }.
Definition dump_denial (a : attempt) : json :=
  JObj [("attempt", JStr (at_name a)); ("denied", JBool (at_refused a)); ("reason_code", jstr_opt (at_reason_code a))].

Section Scenarios.
Context `{Env} (server : Server) (library_message : exn → ustr).
Abbreviation acting := (acting library_message).
Abbreviation mission_snapshot := (mission_snapshot server).

(** *** A merchant raises the user's hard limit *)
Definition escalation_setup (c : ScenarioContext) : P counts := census c.
Definition escalation_execute (c : ScenarioContext) (before : counts) : P Observation :=
  limits ← lift (constraints (with_budgets 2500 HARD_LIMIT));
  mission_id ← run_mission [PolicyMutatingMerchant MERCHANT_PRICE] limits 1 None;
  snapshot ← mission_snapshot mission_id;
  events ← audit_events mission_id;
  let escalations := List.filter is_escalation events in
  let limit_held := json_eqb (decision_field "hard_limit" snapshot) (JInt HARD_LIMIT) in
  let denied := json_eqb (decision_field "decision" snapshot) (JStr (enum_value PolicyOutcome.DENY)) in
  let reason_is_limit := decision_has_reason ReasonCode.HARD_LIMIT_EXCEEDED snapshot in
  after ← census c;
  let delta := effect_delta before after in
  let no_authorization := count_of "authorizations" delta =? 0 in
  let no_payment := count_of "payment_intents" delta =? 0 in
  mret (mkObservation
    (nonempty escalations && limit_held && denied && reason_is_limit && no_authorization && no_payment)
    (escalation_code escalations) (Some (limit_held && no_authorization && no_payment))
    [("escalation_attempts_recorded", JInt (length_of escalations));
     ("protected_fields_attacked", jstrs (distinct_fields "field" escalations));
     ("claimed_hard_limit", JInt 999999);
     ("hard_limit_used_by_policy", decision_field "hard_limit" snapshot);
     ("policy_decision", decision_field "decision" snapshot);
     ("policy_reason_codes", decision_field "reason_codes" snapshot);
     ("denied_for_exceeding_the_hard_limit", JBool reason_is_limit);
     ("source_authority", jstrs (distinct_fields "source_authority" escalations));
     ("target_authority", jstrs (distinct_fields "target_authority" escalations));
     ("authorizations_created", JInt (count_of "authorizations" delta));
     ("payment_intents_created", JInt (count_of "payment_intents" delta))]
    (Some (u ("merchant claimed hard_limit_inr=999999; policy adjudicated against "
              +:+ json_str (decision_field "hard_limit" snapshot) +:+ " and returned "
              +:+ json_str (decision_field "decision" snapshot))))).
Definition AUTHORITY_ESCALATION_SCENARIO : LabScenario counts :=
  mkAttackScenario World ScenarioContext counts "authority_escalation"
    "Authority escalation - merchant raises the user's hard limit" AttackCategory.AUTHORITY Severity.CRITICAL
    ("A merchant (MERCHANT_DATA authority) claims hard_limit_inr = 999999 against a user policy (USER_POLICY authority) of "
     +:+ "3000, while offering a 3499 product. Honouring the claim would permit the purchase, so the DENY is load-bearing "
     +:+ "rather than incidental.")
    ["LOWER AUTHORITY DATA -> CANNOT MODIFY HIGHER AUTHORITY POLICY"; "HARD LIMIT EXCEEDED -> PAYMENT IMPOSSIBLE"]
    Backend.SQLITE AttackStatus.BLOCKED (Some (enum_value ReasonCode.AUTHORITY_ESCALATION)) true
    (λ c, acting (escalation_setup c)) (λ c st, acting (escalation_execute c st)).

(** *** A merchant rewrites the rest of the register *)
Definition offers_of (snapshot : json_obj) : list json_obj :=
  match jget "offers" snapshot with
  | JList offers => omap (λ o, match o with JObj o => Some o | _ => None end) offers
  | _ => []
  end.
Definition reasons_of (offer : json_obj) : list string :=
  match jget "rejection_reasons" offer with
  | JList reasons => omap (λ r, match r with JStr s => Some s | _ => None end) reasons
  | _ => []
  end.
Definition has_reason (c : ReasonCode) (reasons : list string) : bool := bool_decide (enum_value c ∈ reasons).
Definition policy_mutation_execute (c : ScenarioContext) (before : counts) : P Observation :=
  limits ← lift (constraints (λ d, with_min_rating (fl_lit 45 10)
                   (with_min_trust (fl_lit 9 10) (with_blocked_merchants ["merchant_b"] d))));
  mission_id ← run_mission [PolicyMutatingMerchant 3499] limits 1 None;
  snapshot ← mission_snapshot mission_id;
  events ← audit_events mission_id;
  let escalations := List.filter is_escalation events in
  let attacked_fields := distinct_fields "field" escalations in
  let claimed := map fst MUTATING_CLAIMS in
  let covered := forallb (λ f, bool_decide (f ∈ attacked_fields)) claimed in
  let offers := offers_of snapshot in
  let reasons := concat (map reasons_of offers) in
  let still_blocked := has_reason ReasonCode.BLOCKED_MERCHANT reasons in
  let trust_floor_held := has_reason ReasonCode.MERCHANT_TRUST_TOO_LOW reasons in
  let all_rejected := nonempty offers && forallb (λ o, negb (json_eqb (jget "valid" o) (JBool true))) offers in
  after ← census c;
  let delta := effect_delta before after in
  let blocked := nonempty escalations && covered && still_blocked && all_rejected
                 && (count_of "authorizations" delta =? 0) in
  mret (mkObservation blocked (escalation_code escalations) (Some blocked)
    [("protected_fields_claimed", jstrs (sorted_set claimed));
     ("protected_fields_refused", jstrs attacked_fields);
     ("every_claim_refused", JBool covered);
     ("merchant_still_blocked", JBool still_blocked);
     ("trust_floor_still_enforced", JBool trust_floor_held);
     ("offer_rejection_reasons", jstrs (sorted_set reasons));
     ("merchant_authority", JStr "MERCHANT_DATA");
     ("policy_authority", JStr "USER_POLICY");
     ("authorizations_created", JInt (count_of "authorizations" delta))]
    (Some (u (str_int (length_of attacked_fields) +:+ " protected policy fields claimed by a merchant, "
              +:+ "all refused; the block-list and trust floor still applied")))).
Definition POLICY_MUTATION : LabScenario counts :=
  mkAttackScenario World ScenarioContext counts "policy_mutation" "Policy mutation - merchant rewrites the protected register"
    AttackCategory.AUTHORITY Severity.CRITICAL
    ("A blocked, low-trust merchant claims allowed_merchants, blocked_merchants, min_merchant_trust, min_rating, currency "
     +:+ "and both budgets. Every claim must raise AUTHORITY_ESCALATION, leave the authoritative value untouched, and be "
     +:+ "recorded.")
    ["LOWER AUTHORITY DATA -> CANNOT MODIFY HIGHER AUTHORITY POLICY"; "MERCHANT CONTENT -> NEVER SYSTEM AUTHORITY"]
    Backend.SQLITE AttackStatus.BLOCKED (Some (enum_value ReasonCode.AUTHORITY_ESCALATION)) true
    (λ c, acting (escalation_setup c)) (λ c st, acting (policy_mutation_execute c st)).

(** *** Forged capability sets *)
Definition capability_setup (c : ScenarioContext) : P Capable :=
  made ← authorized_mission DEFAULT_AMOUNT_INR None true;
  let '(mission_id, authorization_id, transaction) := made in
  before ← census c;
  mret (mkCapable mission_id authorization_id before).

(** What is tried under a forged set. *)
Inductive privileged_action : Set := RequestPayment | MintAuthorization.
Definition FORGERIES : list (string * CapabilitySet * privileged_action) :=
  [("buyer_agent_claims_payment_execute", forged_capability_set "buyer-agent" {[ Capability.PAYMENT_EXECUTE ]} ∅,
    RequestPayment);
   ("buyer_agent_claims_authorization_issue", forged_capability_set "buyer-agent" {[ Capability.AUTHORIZATION_ISSUE ]} ∅,
    MintAuthorization);
   ("unknown_principal_claims_payment_execute",
    forged_capability_set "totally-legitimate-service" {[ Capability.PAYMENT_EXECUTE ]} ∅, RequestPayment);
   ("executor_principal_with_extra_capability",
    forged_capability_set "payment-executor"
      {[ Capability.PAYMENT_EXECUTE; Capability.PAYMENT_PROPOSE; Capability.POLICY_MODIFY ]}
      {[ Capability.AUTHORIZATION_ISSUE; Capability.REFUND_EXECUTE; Capability.POLICY_MODIFY; Capability.MERCHANT_MODIFY ]},
    RequestPayment);
   ("executor_principal_with_empty_deny",
    forged_capability_set "payment-executor" {[ Capability.PAYMENT_EXECUTE; Capability.PAYMENT_PROPOSE ]} ∅, RequestPayment)].

(** [index] is the number of attempts made before. *)
Definition privileged (st : Capable) (index : Z) (capability_set : CapabilitySet) (action : privileged_action) : P unit :=
  match action with
  | RequestPayment =>
      create_payment_intent capability_set (cap_mission_id st) (cap_authorization_id st)
        ("attack-cap-" +:+ str_int index) "fake" None;;
      mret tt
  | MintAuthorization =>
      transaction ← bound_transaction DEFAULT_AMOUNT_INR FIXED_EXPIRY;
      issue_authorization capability_set (cap_mission_id st) transaction ApprovalScheme.POLICY_AUTO None;;
      mret tt
  end.
Definition forge (st : Capable) (index : Z) (label : string) (capability_set : CapabilitySet) (action : privileged_action)
    : P attempt :=
  with_session
    (try_except
       (privileged st index capability_set action;; commit;; mret (mkAttempt label false None))
       (λ e, rollback;;
             match e with
             | CapabilityDenied _ _ => mret (mkAttempt label true (reason_code e))
             | _ => mret (mkAttempt label false (Some (exn_type_name e)))
             end)).
Fixpoint forge_all (st : Capable) (index : Z) (l : list (string * CapabilitySet * privileged_action)) : P (list attempt) :=
  match l with
  | [] => mret []
  | (label, capability_set, action) :: rest =>
      a ← forge st index label capability_set action;
      attempts ← forge_all st (index + 1) rest;
      mret (a :: attempts)
  end.

Definition capability_execute (c : ScenarioContext) (st : Capable) : P Observation :=
  attempts ← forge_all st 0 FORGERIES;
  after ← census c;
  let delta := effect_delta (cap_census st) after in
  status ← authorization_status (cap_authorization_id st);
  let all_denied := forallb at_refused attempts in
  let nothing_created := (count_of "payment_intents" delta =? 0) && (count_of "authorizations" delta =? 0) in
  let authorization_unspent := bool_decide (status = Some AuthorizationStatus.ACTIVE) in
  mret (mkObservation (all_denied && nothing_created && authorization_unspent)
    (if all_denied then Some (enum_value ReasonCode.CAPABILITY_DENIED) else None)
    (Some (nothing_created && authorization_unspent))
    [("forged_capability_attempts", JList (map dump_denial attempts));
     ("all_denied", JBool all_denied);
     ("payment_intents_created", JInt (count_of "payment_intents" delta));
     ("authorizations_created", JInt (count_of "authorizations" delta));
     ("authorization_status_after", jopt (λ s, JStr (enum_value s)) status)]
    (Some (u (str_int (length_of attempts) +:+ " forged capability sets refused by re-resolution against "
              +:+ "the server-owned registry; no intent created, authorization unspent")))).
Definition CAPABILITY_ESCALATION : LabScenario Capable :=
  mkAttackScenario World ScenarioContext Capable "capability_escalation" "Capability escalation - forged CapabilitySet"
    AttackCategory.AUTHORITY Severity.CRITICAL
    ("Five forged capability sets are presented at the two privileged boundaries: the buyer agent claiming payment.execute "
     +:+ "and authorization.issue, an invented principal, the real executor principal with an extra capability, and the "
     +:+ "executor with its deny list emptied. All must be refused by re-resolution against the server-owned registry.")
    ["DENIED CAPABILITY -> PRIVILEGED EXECUTOR UNREACHABLE"; "LLM OUTPUT -> NEVER AUTHORIZATION";
     "NO VALID AUTHORIZATION -> NO PAYMENT"]
    Backend.SQLITE AttackStatus.BLOCKED (Some (enum_value ReasonCode.CAPABILITY_DENIED)) true
    (λ c, acting (capability_setup c)) (λ c st, acting (capability_execute c st)).

Definition SCENARIOS : list AnyScenario :=
  [mkAnyScenario counts AUTHORITY_ESCALATION_SCENARIO; mkAnyScenario counts POLICY_MUTATION;
   mkAnyScenario Capable CAPABILITY_ESCALATION].
End Scenarios.
End Authority.
