(* ===== verification/AttackAuthorityProperties.v ===== *)
(** * What the attacks on authority come to

    For every environment whose token source gives nonces: the five forged capability sets
    are refused at both privileged boundaries, and nothing changes.  And every scenario of
    the file, run through the lab's runner in a concrete environment, is BLOCKED. *)
From S2P Require Import Prelude Python PyFloat PyText Json Text Enums Errors Firewall Canonical Transaction.
From S2P Require Import StateMachines Merchant Kernel Policy Payment Database Hashing Evolution Ledger Binding.
From S2P Require Import Authorization AuthorizationTheorems Outbox Intents IntentsProperties Provider Executor.
From S2P Require Import Reconciliation Worker Orchestrator DecisionTrace Replay RiskFeatures Routes.
From S2P Require Import AttackLab AttackLabProperties AttackContext AttackTransaction AttackTransactionProperties.
From S2P Require Import AttackAuthority.
Import Authority.

(** ** Forged sets *)
(** The capability an action needs, and whether a set holds it by the registry. *)
Definition needed (action : privileged_action) : Capability :=
  match action with RequestPayment => Capability.PAYMENT_EXECUTE | MintAuthorization => Capability.AUTHORIZATION_ISSUE end.
Definition registered_for (capability_set : CapabilitySet) (action : privileged_action) : bool :=
  capset_eqb capability_set (capabilities_for (cs_principal capability_set))
  && permits (capabilities_for (cs_principal capability_set)) (needed action).
Lemma forgeries_are_not_registered : forallb (λ '(_, capability_set, action), negb (registered_for capability_set action)) FORGERIES = true.
Proof. vm_compute. reflexivity. Qed.

Section Forged.
Context `{Env}.

(** The token source gives strings that are nonces. *)
Definition gives_nonces : Prop :=
  ∀ n, ∃ t, BoundTransaction_new (mkBoundTransaction "merchant_a" "P1" 1 DEFAULT_AMOUNT_INR "INR" "policy-v1" "offer-v1"
              FIXED_EXPIRY (env_token_hex n)) = Ok t.

(** What nobody registered is refused before anything else happens. *)
Lemma forge_refused st index label capability_set action w :
  gives_nonces → registered_for capability_set action = false →
  ∃ w', forge st index label capability_set action w
        = (Ok (mkAttempt label true (Some (enum_value ReasonCode.CAPABILITY_DENIED))), w') ∧
    w_committed w' = w_committed w ∧ w_calls w' = w_calls w.
Proof.
  intros Hn Hr. unfold forge, with_session, try_except, registered_for in *.
  set (w0 := set_w_db (w_committed w) w).
  assert (E : ∃ w1, privileged st index capability_set action w0
                    = (Raise (CapabilityDenied (cs_principal capability_set) (needed action)), w1) ∧
                    w_committed w1 = w_committed w ∧ w_calls w1 = w_calls w).
  { destruct action; cbn [needed privileged] in *.
    - exists w0. split_and!; [|done..]. unfold create_payment_intent, prepare_payment.
      do 3 unfold mbind at 1, M_bind at 1. rewrite enforce_registered_cases, Hr. reflexivity.
    - unfold bound_transaction. do 2 unfold mbind at 1, M_bind at 1. unfold token_hex. unfold lift.
      destruct (Hn (w_tokens w0)) as [t Ht]. rewrite Ht. eexists.
      split; [unfold issue_authorization; do 2 unfold mbind at 1, M_bind at 1; rewrite enforce_registered_cases, Hr; reflexivity|].
      by split. }
  destruct E as (w1 & E & Hc & Hl). unfold mbind at 1, M_bind at 1. rewrite E. eexists. split_and!; [reflexivity|done..].
Qed.

Definition denial (label : string) : attempt := mkAttempt label true (Some (enum_value ReasonCode.CAPABILITY_DENIED)).
Lemma forge_all_refused st l : gives_nonces →
  forallb (λ '(_, capability_set, action), negb (registered_for capability_set action)) l = true → ∀ index w,
  ∃ w', forge_all st index l w = (Ok (map (λ x, denial (fst (fst x))) l), w') ∧
    w_committed w' = w_committed w ∧ w_calls w' = w_calls w.
Proof.
  intros Hn. induction l as [|[[label cs] action] l IH]; cbn [forallb]; [by intros _ index w; exists w|].
  intros [Hr Hl]%andb_true_iff index w. apply negb_true_iff in Hr.
  destruct (forge_refused st index label cs action w Hn Hr) as (w1 & E1 & Hc1 & Hl1).
  destruct (IH Hl (index + 1) w1) as (w2 & E2 & Hc2 & Hl2). exists w2.
  cbn [forge_all]. unfold mbind, M_bind. rewrite E1, E2. split_and!; [done|congruence..].
Qed.

Lemma authorizations_delta c w w' : w_committed w' = w_committed w →
  (count_of "authorizations" (effect_delta (counts_at c w) (counts_at c w')) =? 0) = true.
Proof.
  intros E. change (count_of _ _) with (Z.of_nat (size (db_auths (w_committed w'))) - Z.of_nat (size (db_auths (w_committed w)))).
  rewrite E. by rewrite Z.sub_diag.
Qed.

(** A capability is what the registry says it is.  In every environment whose token source
    gives nonces, over a sound ledger: when the setup of [capability_escalation] returned,
    its execution observes all five forged sets denied, the approval unspent, no intent and
    no authorization made, and nothing changed. *)
Theorem forged_capabilities_are_refused (c : ScenarioContext) (w w1 : World) (st : Capable) :
  gives_nonces → ledger_ok (w_committed w) → capability_setup c w = (Ok st, w1) →
  ∃ o w2, capability_execute c st w1 = (Ok o, w2) ∧ ob_blocked o = true ∧ ob_invariant_preserved o = Some true ∧
    ob_reason_code o = Some (enum_value ReasonCode.CAPABILITY_DENIED) ∧ w_committed w2 = w_committed w1 ∧
    w_calls w2 = w_calls w1.
Proof.
  intros Hn Hok E. unfold capability_setup in E. run_step E. destruct a as [[m i] t].
  apply authorized_mission_Ok in Hrun as [Hheld _]; [|done]. run_step E. rewrite census_run in Hrun. injection Hrun as <- <-.
  apply ret_run_Ok in E as [-> ->]. set (w1 := set_w_db _ _).
  destruct (forge_all_refused (mkCapable m i (counts_at c s)) FORGERIES Hn forgeries_are_not_registered 0 w1)
    as (w2 & E2 & Hc2 & Hl2).
  unfold capability_execute. unfold mbind at 1, M_bind at 1. rewrite E2. unfold mbind at 1, M_bind at 1. rewrite census_run.
  cbn zeta. unfold mbind at 1, M_bind at 1. rewrite authorization_status_run. eexists _, _. split; [reflexivity|].
  cbn [ob_blocked ob_invariant_preserved ob_reason_code cap_census cap_authorization_id w_committed set_w_db w_calls].
  assert (Hc : w_committed w2 = w_committed s) by exact Hc2.
  rewrite intents_delta_0, authorizations_delta by exact Hc. rewrite Hc, (status_held _ _ _ Hheld).
  by split_and!.
Qed.
End Forged.

(** ** A run of the lab *)
#[local] Existing Instance demo_env.
Example authority_attacks_are_blocked :
  lab_run (AUTHORITY_ESCALATION_SCENARIO lab_server u_message) = blocked_as_expected ∧
  lab_run (POLICY_MUTATION lab_server u_message) = blocked_as_expected ∧
  lab_run (CAPABILITY_ESCALATION u_message) = blocked_as_expected.
Proof. split_and!; vm_compute; reflexivity. Qed.
Lemma demo_gives_nonces : gives_nonces.
Proof.
  intros n. cbn [env_token_hex demo_env]. eexists. unfold BoundTransaction_new, bound_transaction_error.
  cbn [bt_nonce bt_merchant_id bt_product_id bt_quantity bt_amount_inr bt_currency bt_policy_version bt_offer_version].
  unfold length_within at 6. rewrite length_hex_fixed, hex_fixed_lower. reflexivity.
Qed.
