(* ===== verification/AttackWebhook.v ===== *)
(** * The attack lab: attacks by webhook

    services/attack_lab/scenarios/webhook.py: four forged signatures over a real pending
    payment, a genuine delivery resent three times, and three genuine deliveries that
    arrive after the payment has settled; the body builder of providers/fake.py.  The
    faults queued on the context's provider, before any call to it, are its script from the
    start; [json.loads], the text of the library's exceptions and pydantic's integers are
    parameters, as in the fake. *)
From S2P Require Import Prelude Python PyFloat PyText Json Text Enums Errors Firewall Canonical Transaction.
From S2P Require Import StateMachines Merchant Kernel Policy Payment Database Hashing Evolution Ledger Binding.
From S2P Require Import Authorization Outbox Intents Provider Executor Reconciliation Webhooks Worker Orchestrator.
From S2P Require Import DecisionTrace Replay RiskFeatures Routes AttackLab AttackContext AttackTransaction.

(** ** providers/fake.py [webhook_body] *)
Definition webhook_body (event_id : string) (event_type : WebhookEventType) (provider_payment_id : string)
    (sequence : option Z) : bytes :=
  let payload := [("event_id", JStr event_id); ("event_type", JStr (enum_value event_type));
                  ("provider_payment_id", JStr provider_payment_id)] in
  let payload := match sequence with Some n => payload ++ [("sequence", JInt n)] | None => payload end in
  default [] (utf8_encode (json_dumps true (JObj payload))).

Module WebhookAttack.
(** What one delivery came to. *)
Record Delivery := mkDelivery {
  dv_accepted : bool;
  dv_applied : bool;
  dv_reason_code : option string;
  dv_state : option PaymentIntentState
}.
Definition dump_delivery (d : Delivery) : json :=
  JObj [("accepted", JBool (dv_accepted d)); ("applied", JBool (dv_applied d)); ("reason_code", jstr_opt (dv_reason_code d));
        ("state", jopt (λ s, JStr (enum_value s)) (dv_state d))].
Definition state_json (s : option PaymentIntentState) : json := jopt (λ s, JStr (enum_value s)) s.
Definition named_results (l : list (string * Delivery)) : json := JObj (map (λ '(label, d), (label, dump_delivery d)) l).
Definition refused_with (c : ReasonCode) (d : Delivery) : bool := is_reason c (dv_reason_code d).

(** What the setups hand over: the context with its provider's faults queued, and the
    payment driven to a provider result. *)
Record Settled := mkSettled {
  st_context : ScenarioContext;
  st_mission_id : uuid;
  st_key : string;
  st_provider_payment_id : option string;
  st_state_before : PaymentIntentState;
  st_webhook_events_before : Z
}.
Record Redelivery := mkRedelivery {
  rd_settled : Settled;
  rd_body : bytes;
  rd_first : Delivery;
  rd_webhook_events_after_first : Z;
  rd_state_after_first : PaymentIntentState
}.

(** [provider.queue_faults(...)]. *)
Definition queue_faults (modes : list Fake.FaultMode) (c : ScenarioContext) : ScenarioContext :=
  let p := cx_provider c in
  mkScenarioContext (cx_backend c)
    (Fake.mkFake (Fake.default_fault p) (Fake.fault_script p ++ modes) (Fake.created_payments p) (Fake.by_provider_id p)
       (Fake.create_calls p) (Fake.get_calls p)).
Definition WEBHOOK_SECRET : string := "fake-webhook-secret".

Section Scenarios.
Context `{Env} (library_message : exn → ustr).
Context (json_loads : bytes → loads_result) (library_text : exn → string) (pydantic_int : json → option (option Z)).
Abbreviation acting := (acting library_message).

(** The context's provider, as the services call it. *)
Definition context_provider (c : ScenarioContext) : PaymentProvider :=
  Fake.fake_provider (cx_provider c) (Fake.verify_webhook json_loads library_text pydantic_int WEBHOOK_SECRET).
Definition sign (body : bytes) : string := Fake.sign WEBHOOK_SECRET body.

Definition webhook_event_count : P Z := with_session (reads (λ d, length_of (db_webhooks d))).

Definition deliver (c : ScenarioContext) (body : bytes) (signature : string) : P Delivery :=
  with_session
    (try_except
       (outcome ← handle_webhook (context_provider c) body signature None None;
        commit;;
        mret (mkDelivery (wo_accepted outcome) (wo_applied outcome) (wo_reason_code outcome) (wo_state outcome)))
       (λ e, match e with
             | WebhookRejected code _ => rollback;; mret (mkDelivery false false (Some code) None)
             | _ => raise e
             end)).

(** [intents[0]]. *)
Definition first_intent (mission_id : uuid) : P PaymentIntentRow :=
  intents ← payment_intents_for mission_id;
  match intents with
  | [] => raise (RuntimeError "list index out of range")
  | intent :: _ => mret intent
  end.

Definition settled_payment (fault : Fake.FaultMode) (c : ScenarioContext) : P Settled :=
  let c := queue_faults [fault] c in
  made ← authorized_mission DEFAULT_AMOUNT_INR None true;
  let '(mission_id, authorization_id, _) := made in
  with_session
    (create_payment_intent executor mission_id authorization_id "attack-webhook" "fake" None;;
     commit);;
  drain_worker library_message (context_provider c) 20;;
  intent ← first_intent mission_id;
  before ← webhook_event_count;
  mret (mkSettled c mission_id "attack-webhook" (pi_provider_payment_id intent) (pi_state intent) before).

(** [state["provider_payment_id"] or "fake_pay_unknown"]. *)
Definition payment_reference (st : Settled) : string :=
  default "fake_pay_unknown" (opt_or_str (st_provider_payment_id st) None).

(** *** Forged signatures *)
Definition forgery_setup (c : ScenarioContext) : P Settled := settled_payment Fake.PENDING c.
Definition other_body : bytes :=
  let q := String dquote "" in
  encode ("{" +:+ q +:+ "event_id" +:+ q +:+ ":" +:+ q +:+ "other" +:+ q +:+ "}").
Definition zeros : string := String.concat "" (repeat "0" 64).
Definition FORGED_SIGNATURES : list (string * string) :=
  [("empty_signature", ""); ("arbitrary_signature", "deadbeef"); ("hash_shaped_signature", zeros);
   ("valid_signature_over_different_bytes", sign other_body)].
Fixpoint deliver_all (c : ScenarioContext) (l : list (string * (bytes * string))) : P (list (string * Delivery)) :=
  match l with
  | [] => mret []
  | (label, (body, signature)) :: rest =>
      d ← deliver c body signature;
      results ← deliver_all c rest;
      mret ((label, d) :: results)
  end.
Definition forged_body (st : Settled) : bytes :=
  webhook_body "attack-forged-1" WebhookEventType.PAYMENT_SUCCEEDED (payment_reference st) None.

Definition forgery_execute (st : Settled) : P Observation :=
  results ← deliver_all (st_context st) (map (λ '(label, s), (label, (forged_body st, s))) FORGED_SIGNATURES);
  intents ← payment_intents_for (st_mission_id st);
  let state_after := pi_state <$> head intents in
  events_after ← webhook_event_count;
  let all_rejected := forallb (λ '(_, d), refused_with ReasonCode.WEBHOOK_SIGNATURE_INVALID d) results in
  let none_applied := negb (existsb (λ '(_, d), dv_applied d) results) in
  let state_unchanged := bool_decide (state_after = Some (st_state_before st)) in
  let nothing_stored := events_after =? st_webhook_events_before st in
  mret (mkObservation (all_rejected && none_applied && state_unchanged && nothing_stored)
    (if all_rejected then Some (enum_value ReasonCode.WEBHOOK_SIGNATURE_INVALID) else None)
    (Some (state_unchanged && none_applied))
    [("forgeries_attempted", JList (map (λ '(label, _), JStr label) FORGED_SIGNATURES));
     ("results", named_results results);
     ("payment_state_before", JStr (enum_value (st_state_before st)));
     ("payment_state_after", state_json state_after);
     ("webhook_rows_before", JInt (st_webhook_events_before st));
     ("webhook_rows_after", JInt events_after)]
    (Some (u ("four forged signatures refused by the MAC over the raw body; the payment "
              +:+ "state is unchanged and no webhook row was written")))).
Definition WEBHOOK_FORGERY : LabScenario Settled :=
  mkAttackScenario World ScenarioContext Settled "webhook_forgery" "Forged webhook signature" AttackCategory.WEBHOOK
    Severity.CRITICAL
    ("Four forged deliveries - no signature, an arbitrary one, a hash-shaped one, and a genuine signature over different "
     +:+ "bytes - are sent for a real pending payment. Each must be refused before the body is read as state, with no "
     +:+ "payment mutation and no stored webhook row.")
    ["AN UNVERIFIED WEBHOOK -> NEVER PAYMENT STATE"; "A WEBHOOK -> SUPPLIES A POINTER, NEVER A TRANSACTION"]
    Backend.SQLITE AttackStatus.BLOCKED (Some (enum_value ReasonCode.WEBHOOK_SIGNATURE_INVALID)) true
    (λ c, acting (forgery_setup c)) (λ _ st, acting (forgery_execute st)).

(** *** A delivery resent *)
Definition duplicate_setup (c : ScenarioContext) : P Redelivery :=
  st ← settled_payment Fake.PENDING c;
  let body := webhook_body "attack-replayed-event" WebhookEventType.PAYMENT_SUCCEEDED (payment_reference st) None in
  first ← deliver (st_context st) body (sign body);
  events ← webhook_event_count;
  intent ← first_intent (st_mission_id st);
  mret (mkRedelivery st body first events (pi_state intent)).

Definition duplicate_execute (st : Redelivery) : P Observation :=
  let settled := rd_settled st in
  let again := (rd_body st, sign (rd_body st)) in
  replayed ← deliver_all (st_context settled) [("1", again); ("2", again); ("3", again)];
  let replays := map snd replayed in
  intents ← payment_intents_for (st_mission_id settled);
  match intents with
  | [] => raise (RuntimeError "list index out of range")
  | intent :: _ =>
      let state_after := pi_state intent in
      events_after ← webhook_event_count;
      let first_applied := dv_applied (rd_first st) in
      let none_reapplied := negb (existsb dv_applied replays) in
      let all_duplicate := forallb (refused_with ReasonCode.WEBHOOK_DUPLICATE) replays in
      let state_unchanged := bool_decide (state_after = rd_state_after_first st) in
      let one_row_per_event := events_after =? rd_webhook_events_after_first st in
      mret (mkObservation (first_applied && none_reapplied && all_duplicate && state_unchanged && one_row_per_event)
        (if all_duplicate then Some (enum_value ReasonCode.WEBHOOK_DUPLICATE) else None)
        (Some (state_unchanged && none_reapplied))
        [("first_delivery", dump_delivery (rd_first st));
         ("replays", JList (map dump_delivery replays));
         ("unauthorized_effect", JBool (negb (none_reapplied && state_unchanged)));
         ("payment_state_after_first", JStr (enum_value (rd_state_after_first st)));
         ("payment_state_after_replays", JStr (enum_value state_after));
         ("webhook_rows_after_first", JInt (rd_webhook_events_after_first st));
         ("webhook_rows_after_replays", JInt events_after);
         ("logical_payments", JInt (length_of intents))]
        (Some (u ("a genuinely-signed delivery replayed three times applied exactly once; "
                  +:+ "the UNIQUE(provider, provider_event_id) index refused the repeats"))))
  end.
Definition WEBHOOK_REPLAY : LabScenario Redelivery :=
  mkAttackScenario World ScenarioContext Redelivery "webhook_replay" "Duplicate / replayed webhook" AttackCategory.WEBHOOK
    Severity.HIGH
    ("A genuine, correctly-signed webhook is captured and resent three times. The first delivery applies; every replay must "
     +:+ "be recognised as a duplicate, change nothing, and add no second webhook row.")
    ["A DUPLICATE WEBHOOK -> NO DUPLICATED SIDE EFFECT"; "REPLAYED APPROVAL -> PAYMENT IMPOSSIBLE"]
    Backend.SQLITE AttackStatus.BLOCKED (Some (enum_value ReasonCode.WEBHOOK_DUPLICATE)) true
    (λ c, acting (duplicate_setup c)) (λ _ st, acting (duplicate_execute st)).

(** *** Deliveries out of order *)
Definition out_of_order_setup (c : ScenarioContext) : P Redelivery :=
  st ← settled_payment Fake.PENDING c;
  let body := webhook_body "attack-legit-success" WebhookEventType.PAYMENT_SUCCEEDED (payment_reference st) (Some 2) in
  first ← deliver (st_context st) body (sign body);
  intent ← first_intent (st_mission_id st);
  mret (mkRedelivery st body first 0 (pi_state intent)).
Definition late_deliveries (payment_id : string) : list (string * bytes) :=
  [("failure_after_success", webhook_body "attack-late-failure" WebhookEventType.PAYMENT_FAILED payment_id (Some 99));
   ("pending_after_success", webhook_body "attack-late-pending" WebhookEventType.PAYMENT_PENDING payment_id (Some 100));
   ("repeat_success", webhook_body "attack-repeat-success" WebhookEventType.PAYMENT_SUCCEEDED payment_id (Some 101))].

Definition out_of_order_execute (st : Redelivery) : P Observation :=
  let settled := rd_settled st in
  results ← deliver_all (st_context settled)
              (map (λ '(label, body), (label, (body, sign body))) (late_deliveries (payment_reference settled)));
  intents ← payment_intents_for (st_mission_id settled);
  match intents with
  | [] => raise (RuntimeError "list index out of range")
  | intent :: _ =>
      let state_after := pi_state intent in
      let first_settled := bool_decide (rd_state_after_first st = PaymentIntentState.SUCCEEDED) in
      let none_applied := negb (existsb (λ '(_, d), dv_applied d) results) in
      let all_ignored := forallb (λ '(_, d), refused_with ReasonCode.ILLEGAL_PAYMENT_TRANSITION d) results in
      let no_regression := bool_decide (state_after = PaymentIntentState.SUCCEEDED) in
      mret (mkObservation (first_settled && none_applied && all_ignored && no_regression)
        (if all_ignored then Some (enum_value ReasonCode.ILLEGAL_PAYMENT_TRANSITION) else None)
        (Some (no_regression && none_applied))
        [("deliveries", named_results results);
         ("provider_sequence_numbers_were_higher", JBool true);
         ("state_after_legitimate_success", JStr (enum_value (rd_state_after_first st)));
         ("state_after_out_of_order", JStr (enum_value state_after));
         ("state_regressed", JBool (negb no_regression));
         ("logical_payments", JInt (length_of intents))]
        (Some (u ("a late failure, a late pending, and a repeated success - all correctly signed, all with higher "
                  +:+ "provider sequence numbers, none a duplicate - were refused by the state machine; the settled "
                  +:+ "payment did not regress"))))
  end.
Definition WEBHOOK_OUT_OF_ORDER : LabScenario Redelivery :=
  mkAttackScenario World ScenarioContext Redelivery "webhook_out_of_order" "Out-of-order / delayed webhook"
    AttackCategory.WEBHOOK Severity.HIGH
    ("After a payment settles SUCCEEDED, three fresh correctly-signed deliveries arrive: a failure, a pending, and a "
     +:+ "repeated success - each carrying a higher provider sequence number. None is a duplicate, so only the state "
     +:+ "machine can refuse them, and no state regression may occur.")
    ["A DELAYED WEBHOOK -> NO ILLEGAL STATE REGRESSION"; "PROVIDER ORDERING -> NEVER THE AUTHORITY FOR A TRANSITION"]
    Backend.SQLITE AttackStatus.BLOCKED (Some (enum_value ReasonCode.ILLEGAL_PAYMENT_TRANSITION)) true
    (λ c, acting (out_of_order_setup c)) (λ _ st, acting (out_of_order_execute st)).

Definition SCENARIOS : list AnyScenario :=
  [mkAnyScenario Settled WEBHOOK_FORGERY; mkAnyScenario Redelivery WEBHOOK_REPLAY;
   mkAnyScenario Redelivery WEBHOOK_OUT_OF_ORDER].
End Scenarios.
End WebhookAttack.
