(* ===== verification/AttackWebhookProperties.v ===== *)
(** * What the attacks by webhook come to

    For every environment and every parser: the four forged deliveries of a payment are
    refused, and nothing changes, unless the MAC of the body is one of the forgeries.  And
    every scenario of the file, run through the lab's runner in a concrete environment, is
    BLOCKED. *)
From S2P Require Import Prelude Python PyFloat PyText Json Text Enums Errors Firewall Canonical Transaction.
From S2P Require Import StateMachines Merchant Kernel Policy Payment Database Hashing Evolution Ledger Binding.
From S2P Require Import Authorization AuthorizationTheorems Outbox Intents IntentsProperties Provider Razorpay.
From S2P Require Import RazorpayProperties Executor Reconciliation Webhooks Worker Orchestrator DecisionTrace Replay.
From S2P Require Import RiskFeatures Routes AttackLab AttackLabProperties AttackContext AttackTransaction.
From S2P Require Import AttackTransactionProperties AttackWebhook.
Import WebhookAttack.

Section Forged.
Context `{Env} (library_message : exn → ustr).
Context (json_loads : bytes → loads_result) (library_text : exn → string) (pydantic_int : json → option (option Z)).
Abbreviation deliver := (deliver json_loads library_text pydantic_int).
Abbreviation deliver_all := (deliver_all json_loads library_text pydantic_int).

Lemma sign_ascii body : is_ascii (sign body) = true.
Proof.
  apply lower_hex_ascii. unfold sign, Fake.sign, hmac_sha256_hexdigest.
  match goal with |- context [sha256_hexdigest ?m] => pose proof (sha256_shape m) as Hs end.
  by apply andb_true_iff in Hs as [_ Hs].
Qed.

(** A signature that is not the body's is refused before the body is read. *)
Lemma forged_event c body signature :
  is_ascii signature = true → signature ≠ sign body →
  ∃ d, verified_event (context_provider json_loads library_text pydantic_int c) body signature None
       = Raise (WebhookRejected (enum_value ReasonCode.WEBHOOK_SIGNATURE_INVALID) d).
Proof.
  intros Ha Hne. unfold verified_event. cbn [pv_verify_webhook context_provider Fake.fake_provider].
  unfold Fake.verify_webhook, compare_digest_str, mbind, outcome_bind. fold (sign body).
  rewrite sign_ascii, Ha. cbn [andb]. rewrite (proj2 (String.eqb_neq _ _)) by done. cbn [negb]. by eexists.
Qed.
Definition forged : Delivery := mkDelivery false false (Some (enum_value ReasonCode.WEBHOOK_SIGNATURE_INVALID)) None.
Lemma forged_delivery c body signature w :
  is_ascii signature = true → signature ≠ sign body →
  ∃ w', deliver c body signature w = (Ok forged, w') ∧ w_committed w' = w_committed w ∧ w_calls w' = w_calls w.
Proof.
  intros Ha Hne. destruct (forged_event c body signature Ha Hne) as [d E].
  unfold WebhookAttack.deliver, with_session, try_except, handle_webhook.
  destruct (moment_of_run None (set_w_db (w_committed w) w)) as (m & w1 & Em & (_ & Hc & Hl) & _).
  do 2 unfold mbind at 1, M_bind at 1. rewrite Em. unfold mbind at 1, M_bind at 1, lift. rewrite E.
  eexists. split; [reflexivity|]. by split.
Qed.
Lemma forged_deliveries c body l w :
  Forall (λ x : string * string, is_ascii (snd x) = true ∧ snd x ≠ sign body) l →
  ∃ w', deliver_all c (map (λ '(label, s), (label, (body, s))) l) w = (Ok (map (λ '(label, _), (label, forged)) l), w') ∧
    w_committed w' = w_committed w ∧ w_calls w' = w_calls w.
Proof.
  intros Hl. revert w. induction Hl as [|[label s] l [Ha Hne] _ IH]; intros w; [by exists w|].
  destruct (forged_delivery c body s w Ha Hne) as (w1 & E1 & Hc1 & Hl1).
  destruct (IH w1) as (w2 & E2 & Hc2 & Hl2). exists w2. cbn [map WebhookAttack.deliver_all]. unfold mbind, M_bind.
  rewrite E1, E2. split_and!; [done|congruence..].
Qed.

(** A forged delivery moves nothing.  In every environment, whatever the parsers do: when
    the setup of [webhook_forgery] left a payment behind, its execution observes all four
    forgeries refused for their signature, the payment where it was, no row stored, and
    nothing changed - unless the MAC of the body is the string of zeros or the MAC of the
    other body. *)
Theorem forged_deliveries_are_refused (c : ScenarioContext) (w w1 : World) (st : Settled) :
  forgery_setup library_message json_loads library_text pydantic_int c w = (Ok st, w1) →
  sign (forged_body st) = zeros ∨ sign (forged_body st) = sign other_body ∨
  ∃ o w2, forgery_execute json_loads library_text pydantic_int st w1 = (Ok o, w2) ∧
    ob_blocked o = true ∧ ob_invariant_preserved o = Some true ∧
    ob_reason_code o = Some (enum_value ReasonCode.WEBHOOK_SIGNATURE_INVALID) ∧
    w_committed w2 = w_committed w1 ∧ w_calls w2 = w_calls w1.
Proof.
  intros E. unfold forgery_setup, settled_payment in E. cbv zeta in E. run_step E. destruct a as [[m i] t].
  clear Hrun. run_step E. clear Hrun. run_step E. clear Hrun. run_step E.
  unfold first_intent in Hrun. run_step Hrun. unfold payment_intents_for in Hrun0. rewrite session_reads in Hrun0.
  injection Hrun0 as <- <-. destruct (List.filter _ _) as [|x rest] eqn:Ef in Hrun; [done|].
  apply ret_run_Ok in Hrun as [-> ->]. run_step E. unfold webhook_event_count in Hrun. rewrite session_reads in Hrun.
  injection Hrun as <- <-. apply ret_run_Ok in E as [-> ->]. cbn [w_committed set_w_db] in *.
  set (w1 := set_w_db _ _). set (st := mkSettled _ _ _ _ _ _).
  destruct (decide (sign (forged_body st) = zeros)) as [|Hz]; [by left|right].
  destruct (decide (sign (forged_body st) = sign other_body)) as [|Ho]; [by left|right].
  assert (Hlen : String.length (sign (forged_body st)) = 64%nat) by apply sha256_length.
  destruct (forged_deliveries (st_context st) (forged_body st) FORGED_SIGNATURES w1) as (w2 & E2 & Hc2 & Hl2).
  { assert (Hshort : ∀ y, String.length y ≠ 64%nat → y ≠ sign (forged_body st)) by (intros y Hy ->; by apply Hy).
    unfold FORGED_SIGNATURES. rewrite !Forall_cons, Forall_nil. cbn [snd]. split_and!;
      first [done | apply sign_ascii | by apply Hshort | by apply not_eq_sym]. }
  unfold forgery_execute. unfold mbind at 1, M_bind at 1. rewrite E2. unfold mbind at 1, M_bind at 1.
  unfold payment_intents_for, webhook_event_count. rewrite session_reads. unfold mbind at 1, M_bind at 1.
  rewrite session_reads. cbn [w_committed set_w_db]. rewrite Hc2. subst w1. cbn [w_committed set_w_db].
  cbn [st st_mission_id st_state_before st_webhook_events_before]. rewrite Ef.
  eexists _, _. split; [reflexivity|]. cbn [ob_blocked ob_invariant_preserved ob_reason_code].
  rewrite Z.eqb_refl. cbn [head fmap option_fmap option_map]. rewrite bool_decide_eq_true_2 by done.
  split_and!; first [done | reflexivity | exact Hc2 | exact Hl2].
Qed.
End Forged.

(** ** A run of the lab *)
#[local] Existing Instance demo_env.
(** What a parser makes of the bodies that are delivered. *)
Definition bodies_of (payment_id : string) : list (bytes * json) :=
  map (λ '(event_id, event_type, sequence),
         (webhook_body event_id event_type payment_id sequence,
          JObj ([("event_id", JStr event_id); ("event_type", JStr (enum_value event_type));
                 ("provider_payment_id", JStr payment_id)]
                ++ match sequence with Some n => [("sequence", JInt n)] | None => [] end)))
    [("attack-replayed-event", WebhookEventType.PAYMENT_SUCCEEDED, None);
     ("attack-legit-success", WebhookEventType.PAYMENT_SUCCEEDED, Some 2);
     ("attack-late-failure", WebhookEventType.PAYMENT_FAILED, Some 99);
     ("attack-late-pending", WebhookEventType.PAYMENT_PENDING, Some 100);
     ("attack-repeat-success", WebhookEventType.PAYMENT_SUCCEEDED, Some 101)].
Definition demo_payment_id : string :=
  "fake_pay_" +:+ str_take 16 (sha256_hexdigest (encode "attack-webhook")).
Definition demo_loads (known : list (bytes * json)) (body : bytes) : loads_result :=
  match List.find (λ '(b, _), bool_decide (b = body)) known with Some (_, j) => Loaded j | None => NotJson end.
Definition demo_int (j : json) : option (option Z) :=
  match j with JNull => Some None | JInt z => Some (Some z) | _ => None end.
Definition demo_text (e : exn) : string := exn_type_name e.
Example webhook_attacks_are_blocked :
  let loads := demo_loads (bodies_of demo_payment_id) in
  lab_run (WEBHOOK_FORGERY u_message loads demo_text demo_int) = blocked_as_expected ∧
  lab_run (WEBHOOK_REPLAY u_message loads demo_text demo_int) = blocked_as_expected ∧
  lab_run (WEBHOOK_OUT_OF_ORDER u_message loads demo_text demo_int) = blocked_as_expected.
Proof. split_and!; vm_compute; reflexivity. Qed.
