(* ===== verification/PaymentSystem.v ===== *)
(** * The payment services together

    Every service that touches payments, run in sessions that commit or roll back, in
    any order and with HTTP requests and worker turns interleaved and interrupted: a run of them is a
    run of the steps of CreateOnce, so what holds there holds of the system. *)
From S2P Require Import Prelude Python PyFloat Json Text Enums Errors Firewall Canonical Transaction.
From S2P Require Import StateMachines Merchant Kernel Policy Payment Database Hashing Evolution Ledger.
From S2P Require Import Binding Authorization AuthorizationTheorems AuthorizationProperties Outbox.
From S2P Require Import Intents IntentsProperties Provider Executor Reconciliation Webhooks.
From S2P Require Import WebhooksProperties CreateOnce Worker WorkerProperties Orchestrator.
From S2P Require Import Routes RoutesProperties.

Inductive service_call : Type :=
  | Mission (agents : list MerchantAgent) (reg : MerchantRegistry) (request : CreateMissionRequest)
  | Lifecycle (c : lifecycle_call)
  | CreateIntent (c : CapabilitySet) (m a : uuid) (k prov : string) (now : option datetime)
  | Dispatch (c : CapabilitySet) (q : PaymentProvider) (i e : uuid) (now : option datetime)
  | Reconcile (c : CapabilitySet) (q : PaymentProvider) (i e : uuid) (now : option datetime)
  | Webhook (q : PaymentProvider) (b : bytes) (s : string) (id : option string) (now : option datetime)
  | Claim (d : Dialect) (x : string) (now : option datetime) (lease : Z)
  | Turn (d : Dialect) (q : PaymentProvider) (x : string) (now : option datetime) (lease : Z).

Section System.
Context `{Env} (text : exn → ustr) (p : PaymentProvider).
Context (Hp : pv_create_retries_are_idempotent p = false).

Definition serve (c : service_call) (w : World) : World :=
  match c with
  | Mission agents reg request => snd (Orchestrator.run agents reg request w)
  | Lifecycle k => after_call w k
  | CreateIntent c m a k prov now => snd (create_payment_intent c m a k prov now w)
  | Dispatch c q i e now => snd (dispatch_create c q i e now w)
  | Reconcile c q i e now => snd (reconcile_intent c q i e now w)
  | Webhook q b s id now => snd (handle_webhook q b s id now w)
  | Claim d x now lease => snd (claim_next_event d x now lease w)
  | Turn d q x now lease => snd (run_once text d q x now lease w)
  end.

(** One adapter serves the name of [p]. *)
Definition routed (q : PaymentProvider) : Prop := q = p ∨ pv_name q ≠ pv_name p.
Definition well_routed (c : service_call) : Prop :=
  match c with Dispatch _ q _ _ _ | Turn _ q _ _ _ => routed q | _ => True end.

(** ** A provider of another name *)
Lemma quiet_create_other q r : pv_name q ≠ pv_name p → evolves (quiet p) (call_create_payment q r).
Proof.
  intros Hn w. unfold quiet, creates, call_create_payment, record_call. cbn. rewrite omap_app. cbn.
  unfold create_of. cbn. apply String.eqb_neq in Hn. rewrite Hn. by rewrite app_nil_r.
Qed.
Lemma quiet_send_other q i e m : pv_name q ≠ pv_name p → evolves (quiet p) (send_create q i e m).
Proof.
  intros Hn. pose proof (λ r, quiet_create_other q r Hn) as Hc. unfold send_create.
  evolve; first [apply evolves_attempt_lookup; [apply _|]; evolve | apply evolves_attempt_create; [apply _|]; apply Hc].
Qed.
Hint Resolve quiet_admit quiet_acquire quiet_after_fence quiet_reconcile : evolves.
Lemma quiet_dispatch_other c q i e now : pv_name q ≠ pv_name p → evolves (quiet p) (dispatch_create c q i e now).
Proof. intros Hn. pose proof (λ i e m, quiet_send_other q i e m Hn) as Hc. unfold dispatch_create. evolve. Qed.
Lemma quiet_process_other q i c now : pv_name q ≠ pv_name p → evolves (quiet p) (process_claimed_event q i c now).
Proof.
  intros Hn. pose proof (λ c i e now, quiet_dispatch_other c q i e now Hn) as Hc.
  unfold process_claimed_event. cbv zeta. evolve.
Qed.
Hint Resolve quiet_claim_turn quiet_return : evolves.
Lemma quiet_run_once_other d q x now lease :
  pv_name q ≠ pv_name p → evolves (quiet p) (run_once text d q x now lease).
Proof.
  intros Hn. pose proof (λ i c now, quiet_process_other q i c now Hn) as Hc.
  assert (Hh : ∀ m ev row, evolves (quiet p) (handle_claimed text q x m ev row)).
  { intros m ev row. unfold handle_claimed. evolve. }
  assert (Hw : ∀ m ev, evolves (quiet p) (work_turn text q x m ev)).
  { intros m ev. unfold work_turn. apply quiet_with_session. evolve. }
  unfold run_once. evolve.
Qed.

(** ** A service in a session is a run of steps *)
Lemma forward_is_steps w w1 w' l :
  durable_le w w1 → quiet p w w1 → ends w1 w' → rtc (step p) (mkSystem w l) (mkSystem w' l).
Proof.
  intros D Q (D' & Q' & Hs')%(ends_forward p). apply rtc_once, step_other; [by etrans|done|by etrans].
Qed.
Lemma sess_is_steps w w1 w' l :
  sess_le w w1 → ends w1 w' → rtc (step p) (mkSystem w l) (mkSystem w' l).
Proof.
  intros Hle. apply forward_is_steps; [by apply sess_durable|].
  unfold quiet, creates. by rewrite (sl_calls _ _ Hle).
Qed.

Lemma serve_is_steps c w w' l :
  well_routed c → w_db w = w_committed w → intents_ok (w_db w) → ends (serve c w) w' →
  rtc (step p) (mkSystem w l) (mkSystem w' l).
Proof.
  intros Hr Hs Hok He. destruct c; cbn [serve well_routed] in *.
  - by apply (sess_is_steps w _ w' l (Orchestrator.evolves_run agents reg request w)).
  - by apply (sess_is_steps w _ w' l (after_call_le w c)).
  - by apply (sess_is_steps w _ w' l (evolves_create c m a k prov now w)).
  - destruct Hr as [-> | Hn]; [by eapply dispatch_is_steps|].
    by apply (forward_is_steps w _ w' l (durable_dispatch c q i e now w) (quiet_dispatch_other c q i e now Hn w)).
  - by apply (forward_is_steps w _ w' l (durable_reconcile c q i e now w) (quiet_reconcile p c q i e now w)).
  - by apply (sess_is_steps w _ w' l (handle_webhook_le q b s id now w Hok)).
  - by apply (sess_is_steps w _ w' l (evolves_claim d x now lease w)).
  - destruct Hr as [-> | Hn].
    + etrans; [by apply (run_once_is_steps text p Hp d x now lease w l)|].
      by apply (forward_is_steps _ (snd (run_once text d p x now lease w))).
    + by apply (forward_is_steps w _ w' l (durable_run_once text d q x now lease w)
        (quiet_run_once_other d q x now lease Hn w)).
Qed.

(** Sessions one after the other. *)
Inductive sessions (w : World) : list service_call → World → Prop :=
  | sessions_nil : sessions w [] w
  | sessions_snoc cs w1 c w2 : sessions w cs w1 → ends (serve c w1) w2 → sessions w (cs ++ [c]) w2.

(** ** What the processes do *)
Inductive activity : System → System → Prop :=
  (** A service in a session of its own. *)
  | act_session c w w' l :
      well_routed c → ends (serve c w) w' → activity (mkSystem w l) (mkSystem w' l)
  (** An HTTP request, to any endpoint of a deployment. *)
  | act_http server key fake env e w l :
      activity (mkSystem w l) (mkSystem (respond server key fake env e w) l)
  (** A dispatch that has committed its fence and not gone on yet, goes on, or dies. *)
  | act_begin c i e now w l m w1 b w2 :
      admit_create c p i e now w = (Ok (MayCreate m), w1) →
      acquire_provider_create_fence i m w1 = (Ok b, w2) →
      activity (mkSystem w l) (mkSystem w2 (mkAttempt i e m b (intent_key i w2) :: l))
  | act_resume w l1 a l2 w' :
      ends (snd (resume p a w)) w' → activity (mkSystem w (l1 ++ a :: l2)) (mkSystem w' (l1 ++ l2))
  | act_crash w l1 a l2 : activity (mkSystem w (l1 ++ a :: l2)) (mkSystem w (l1 ++ l2)).

Lemma http_is_steps server key fake env e w l : w_db w = w_committed w → intents_ok (w_db w) →
  rtc (step p) (mkSystem w l) (mkSystem (respond server key fake env e w) l).
Proof.
  intros Hs Hok. destruct (respond_le server key fake env e w Hs Hok) as [Hd Hc].
  apply rtc_once, step_other; [exact Hd| |unfold quiet, creates; by rewrite Hc].
  destruct e; apply get_session_settled.
Qed.
Lemma activity_is_steps s s' : once_inv p s → activity s s' → rtc (step p) s s'.
Proof.
  intros Hi Ha. pose proof (oi_settled _ _ Hi) as Hs. pose proof (oi_intents _ _ Hi) as Hok. clear Hi. revert Hs Hok.
  destruct Ha as [c w w' l Hr He|server key fake env e w l|c i e now w l m w1 b w2 E1 E2|w l1 a l2 w' He|w l1 a l2];
    cbn [sy_world]; intros Hs Hok.
  - by apply (serve_is_steps c w w' l).
  - by apply http_is_steps.
  - by eapply rtc_once, step_begin.
  - by apply rtc_once, step_resume.
  - apply rtc_once, step_crash.
Qed.
Lemma once_inv_activities s s' : rtc activity s s' → once_inv p s → once_inv p s'.
Proof.
  induction 1 as [|a b c Hab Hbc IH]; [done|]. intros Hi. apply IH.
  by apply (once_inv_reachable p a b (activity_is_steps a b Hi Hab)).
Qed.
End System.

(** ** Properties *)

(** C1: At most one create call per idempotency key.  Against a provider whose create
    call is not idempotent, from a durable state in which nothing was sent yet, and
    whatever the processes do afterwards - workers taking turns, dispatches
    interleaved after their fence and dying there, reconciliation, webhooks, mission
    runs, HTTP requests, new payment requests and authorization calls, each committed or rolled back - every
    idempotency key has been used in at most one create call, and every create call
    was for the key, amount, currency and merchant of a durable intent whose create
    fence is closed. *)
Theorem at_most_one_create `{Env} (text : exn → ustr) (p : PaymentProvider) (w : World) (s : System) :
  pv_create_retries_are_idempotent p = false → fresh_start p w →
  rtc (activity text p) (mkSystem w []) s →
  (∀ k, (create_count p k (sy_world s) <= 1)%nat) ∧
  ∀ q, q ∈ creates p (sy_world s) →
    ∃ i r, db_intents (w_committed (sy_world s)) !! i = Some r ∧ is_some (pi_provider_create_fenced_at r) = true ∧
      rq_idempotency_key q = pi_idempotency_key r ∧ rq_amount_inr q = pi_amount_inr r ∧
      rq_currency q = pi_currency r ∧ rq_merchant_id q = pi_merchant_id r.
Proof.
  intros Hp Hw Hr. pose proof (once_inv_activities text p Hp _ _ Hr (once_inv_start p w Hw)) as [Hs _ _ Hq Hc].
  split; [intros k; specialize (Hc k); lia|]. intros q Hin. destruct (Hq q Hin) as (i & r & Hi & <- & Hf).
  rewrite Hs in Hi. exists i, r. split; [done|]. unfold is_fenced in Hf.
  split; [by destruct (pi_provider_create_fenced_at r)|done].
Qed.

(** C34: A service call is a run of fence attempts.  However a session of a payment
    service ends, its effect on the durable state and on the log of provider calls is
    that of a sequence of atomic steps: an attempt that commits the create fence, its
    continuation, or a step that sends no create call. *)
Theorem services_refine_attempts `{Env} (text : exn → ustr) (p : PaymentProvider) (c : service_call) (w w' : World)
    (l : list Attempt) :
  pv_create_retries_are_idempotent p = false → well_routed p c →
  w_db w = w_committed w → intents_ok (w_db w) → ends (serve text c w) w' →
  rtc (step p) (mkSystem w l) (mkSystem w' l).
Proof. intros Hp. by apply serve_is_steps. Qed.

#[local] Existing Instance demo_env.

(** A payment at a provider that times out: requested, then dispatched. *)
Definition requested_world : World :=
  snd (commit (serve (λ _, []) (CreateIntent executor 7%N 11%N "key-1" "razorpay_test" (Some noon_utc)) ready_world)).
Definition dispatched_world : World :=
  snd (rollback (serve (λ _, []) (Turn OtherDialect signed_provider "worker-1" (Some noon_utc) DEFAULT_LEASE)
    requested_world)).
Lemma ready_world_fresh : fresh_start signed_provider ready_world.
Proof. constructor; [done|by apply intents_ok_empty|done]. Qed.

Lemma at_most_one_create_witness :
  create_count signed_provider "key-1" dispatched_world = 1%nat ∧
  (∀ k, (create_count signed_provider k dispatched_world <= 1)%nat).
Proof.
  split; [vm_compute; reflexivity|].
  apply (at_most_one_create (λ _, []) signed_provider ready_world (mkSystem dispatched_world []) eq_refl ready_world_fresh).
  eapply rtc_l; [by apply (act_session _ signed_provider
    (CreateIntent executor 7%N 11%N "key-1" "razorpay_test" (Some noon_utc)) ready_world requested_world []), ends_commit|].
  apply rtc_once. apply (act_session _ signed_provider
    (Turn OtherDialect signed_provider "worker-1" (Some noon_utc) DEFAULT_LEASE) requested_world
    dispatched_world []); [by left|apply ends_rollback].
Defined.

Lemma services_refine_attempts_witness :
  rtc (step signed_provider) (mkSystem ready_world []) (mkSystem requested_world []).
Proof.
  apply (services_refine_attempts (λ _, []) signed_provider (CreateIntent executor 7%N 11%N "key-1" "razorpay_test" (Some noon_utc)));
    [done|done|done|by apply intents_ok_empty|apply ends_commit].
Defined.
