(* ===== verification/RazorpaySystem.v ===== *)
(** * The payment services against Razorpay

    The whole system with the Razorpay adapter as its provider: the fence of the
    executor and the one POST of a creation together bound the orders posted for a
    receipt. *)
From S2P Require Import Prelude Python PyText PyFloat Json Text Enums Errors Firewall Transaction.
From S2P Require Import Payment Database Provider Evolution Ledger Authorization AuthorizationTheorems Outbox.
From S2P Require Import Intents IntentsProperties Executor Reconciliation Webhooks WebhooksProperties CreateOnce.
From S2P Require Import ExecutorProperties Worker Routes PaymentSystem Razorpay RazorpayProperties.
Import Razorpay.

(** The receipts of the orders posted. *)
Definition posted_receipt (c : http_call) : option string :=
  if String.eqb (hc_method c) "POST" then
    match hc_json c with
    | Some (JObj body) => match jget "receipt" body with JStr r => Some r | _ => None end
    | _ => None
    end
  else None.
Definition posted (sent : list http_call) : list string := omap posted_receipt sent.
Definition receipt_of (rq : PaymentRequest) : string := receipt_for_idempotency_key (rq_idempotency_key rq).

Section Posts.
Context (client : list http_call → http_call → http_result) (library_text : exn → string).
Context (json_loads : bytes → loads_result) (self : RazorpayTestPaymentProvider).
Abbreviation adapter := (razorpay_provider client library_text json_loads self).

Lemma posted_app a b : posted (a ++ b) = posted a ++ posted b.
Proof. apply omap_app. Qed.
Lemma posted_gets gets : Forall (is_get self) gets → posted gets = [].
Proof.
  induction 1 as [|c l (Hm & _) _ IH]; [done|]. unfold posted in *. cbn [omap list_omap].
  unfold posted_receipt at 1. by rewrite Hm, IH.
Qed.
Lemma posted_create rq sent :
  posted (snd (create_payment client library_text self rq sent)) = posted sent ++ [receipt_of rq].
Proof.
  destruct (create_sends client library_text self rq sent) as (gets & -> & Hg & _).
  rewrite posted_app. f_equal. change (order_call self rq :: gets) with ([order_call self rq] ++ gets).
  by rewrite posted_app, (posted_gets gets Hg).
Qed.
Lemma posted_get id key sent : posted (snd (get_payment client library_text self id key sent)) = posted sent.
Proof.
  destruct (reads_get client library_text self id key sent) as (gets & -> & Hg & _).
  by rewrite posted_app, (posted_gets gets Hg), app_nil_r.
Qed.

(** The orders posted are the create calls made, one for one. *)
Lemma posted_after_calls l :
  posted (after_calls client library_text self l) = map receipt_of (omap (create_of adapter) l).
Proof.
  unfold after_calls. enough (Hg : ∀ sent, posted (fold_left (after_call client library_text self) l sent)
    = posted sent ++ map receipt_of (omap (create_of adapter) l)) by exact (Hg []).
  induction l as [|c l IH]; intros sent; cbn [fold_left]; [by rewrite app_nil_r|].
  assert (Ho : omap (create_of adapter) (c :: l) = option_list (create_of adapter c) ++ omap (create_of adapter) l).
  { cbn. by destruct (create_of adapter c). }
  rewrite IH, Ho. unfold after_call, create_of at 2. change (pv_name adapter) with name.
  destruct (String.eqb (call_provider c) name); [|done].
  destruct (call_op c) as [rq|id key]; [|by rewrite posted_get].
  by rewrite posted_create, <-app_assoc.
Qed.

Lemma keys_nodup (l : list PaymentRequest) :
  (∀ k, (length (List.filter (λ q, String.eqb (rq_idempotency_key q) k) l) <= 1)%nat) → NoDup (map rq_idempotency_key l).
Proof.
  induction l as [|q l IH]; intros Hk; cbn [map]; [constructor|]. constructor.
  - intros Hin. apply list_elem_of_fmap in Hin as (q' & Hq' & Hin'). specialize (Hk (rq_idempotency_key q)).
    cbn [List.filter] in Hk. rewrite String.eqb_refl in Hk. cbn [length] in Hk.
    assert (Hf : In q' (List.filter (λ q0, String.eqb (rq_idempotency_key q0) (rq_idempotency_key q)) l)).
    { apply filter_In. split; [by apply list_elem_of_In|]. rewrite <-Hq'. apply String.eqb_refl. }
    destruct (List.filter _ l); [destruct Hf|cbn [length] in Hk; lia].
  - apply IH. intros k. specialize (Hk k). cbn [List.filter] in Hk. destruct (String.eqb _ k); cbn [length] in Hk; lia.
Qed.

Lemma receipts_nodup (l : list PaymentRequest) :
  NoDup (map rq_idempotency_key l) →
  NoDup (map receipt_of l) ∨
  ∃ k k', k ≠ k' ∧ receipt_for_idempotency_key k = receipt_for_idempotency_key k'.
Proof.
  induction l as [|q l IH]; cbn [map]; intros Hn; [left; constructor|]. apply NoDup_cons in Hn as [Hq Hn].
  destruct (IH Hn) as [Hr|Hc]; [|by right].
  destruct (decide (receipt_of q ∈ map receipt_of l)) as [Hin|Hin]; [|left; by constructor].
  right. apply list_elem_of_fmap in Hin as (q' & Hq' & Hin'). exists (rq_idempotency_key q), (rq_idempotency_key q').
  split; [|exact Hq']. intros He. apply Hq. rewrite He. apply list_elem_of_fmap. by exists q'.
Qed.
End Posts.


#[local] Existing Instance demo_env.

(** Knows no order, and answers a creation with 503. *)
Definition empty_client (sent : list http_call) (c : http_call) : http_result :=
  Response (if String.eqb (hc_method c) "POST" then mkHttpResponse (Some 503) None
            else mkHttpResponse (Some 200) (Some (JObj [("items", JList [])]))).
Abbreviation demo_razorpay := (razorpay_provider empty_client demo_text (λ _, NotJson) demo_adapter).
(** The payment that is requested, then dispatched to the adapter. *)
Definition razorpay_world : World :=
  snd (rollback (serve (λ _, []) (Turn OtherDialect demo_razorpay "worker-1" (Some noon_utc) DEFAULT_LEASE) requested_world)).
Lemma ready_world_fresh_razorpay : fresh_start demo_razorpay ready_world.
Proof. constructor; [done|by apply intents_ok_empty|done]. Qed.

